(* ===== verification/_CoqProject ===== *)
-Q . S2P
Prelude.v
BlockDevice.v
FfTypes.v
FfWindow.v
FfFat.v
FfChain.v
FfCp932.v
FfUnicode.v
FfLfn.v
FfDir.v
FfName.v
FfMount.v
FfMountSpec.v
FfFile.v
FfApi.v
FfRead.v
FfWrite.v
FfWriteLoop.v
FfSeek.v
FfExample.v
FfTheorems.v
FfCoreTheorems.v
KBase.v
BitField.v
Sysctl.v
FpioaTable.v
Fpioa.v
Rtc.v
KTime.v
KStdio.v
KString.v
SdCard.v
Spi.v
KHeap.v
KPages.v
KPageTable.v
KPageTableSpec.v
KVm.v
KBrk.v
KMmap.v
KUser.v
KPipe.v
KSched.v
KElf.v
KProc.v
KRelease.v
KList.v
KVector.v
KPath.v
KAbsPath.v
KFs.v
KFd.v
KVfs.v
KVfsSpec.v
KVfsTheorems.v
KSyscall.v
KSyscallTheorems.v
KTrap.v
KTrapTheorems.v
KTrapFiles.v
