(* ===== verification/Prelude.v ===== *)
(** * A verification of SysCore

    SysCore is a RISC-V kernel for the K210 and QEMU.  Its storage stack is
    the C code under src/src/driver: FatFs (fatfs/ff.c, fatfs/ffunicode.c)
    on a block device (fatfs/diskio.c).  The kernel under src/src/kernel and
    src/src/lib/stl manages a heap, physical pages, page tables, the memory
    of processes, pipes and the processes themselves; it loads programs and
    file mappings through FatFs and offers files through system calls.  This
    library models that code as executable functions and proves what makes it
    correct.

    ** Parts of the program and files of the library

    - this file: machine integers as Z with explicit wrap-around ([u8] ..
      [u64]), byte buffers as lists of Z with C-style indexing ([zget],
      [zset], [zread], [zwrite]), the state monad [ST] in which the C
      functions are written ([let!], [;!]; [None] is non-termination of a
      fuelled loop), tactics and the hint database [ffdb];
    - BlockDevice: the interface of diskio.h as a type class with its laws,
      and the QEMU configuration of diskio.c, which implements it;
    - FfTypes: the structures of ff.h;
    - FfWindow: [sync_window], [move_window], [sync_fs], [clst2sect]; the
      invariant [wf] of a mounted volume, its contents [view], the
      equivalence [veq] of volumes and the agreement [mirror] of the FATs;
    - FfFat: [get_fat], [put_fat] for the three FAT types, [fat_entry];
    - FfChain: [remove_chain], [create_chain] and the chain predicate;
    - FfCp932, FfUnicode: the tables and functions of ffunicode.c;
    - FfLfn: name encodings and directory entry fields;
    - FfDir, FfName: directory tables and path names;
    - FfMount, FfMountSpec: [f_mount], [mount_volume] and why mounting
      establishes [wf];
    - FfFile, FfApi: the file and directory API;
    - FfRead, FfWrite, FfWriteLoop, FfSeek: the abstract file (its chain and
      bytes) and the proofs of [f_read], [f_write] and [f_lseek];
    - FfExample: a concrete volume; FfTheorems, FfCoreTheorems: the
      properties, each with an instance on that volume;
    - KBase: the outcomes of kernel code: return, panic, access outside an
      object ([Wild]), fuel exhausted ([Loop]);
    - BitField: structs of C bit-fields in a register word, with the laws of
      reading and storing a field; Sysctl (driver/sysctl.c, sysctl.h,
      sleep/sleep.c): the registers of the K210 system controller, clock
      gates, PLLs, resets and frequencies, and waiting on the cycle counter
      ([CycleCounter]); Rtc (driver/rtc): the real-time clock on top of it;
      FpioaTable, Fpioa (driver/fpioa.c, gpiohs.c, utils.c, interface.c): the
      pin multiplexer with its table of functions, the GPIO lines and the
      initialisation of the board;
      KTime (time/time.cpp): the clocks of the kernel;
    - KStdio (stdio.cpp): console output and formatting; KString
      (lib/stl/string.cpp, stl.cpp): strings in their buffers;
    - SdCard (driver/sdcard.c, the K210 branches of diskio.c): the SD command
      protocol over a byte-wise SPI bus ([SpiCard]); what the SD specification
      promises of a card is the class [SdCardLaws]; Spi (driver/spi.c): the
      registers below that bus; what the manual of the controller promises is
      the class [SpiLaws];
    - KHeap (memory/Heap.h, Heap.cpp): the bitmap allocator, refined to a set
      of disjoint blocks ([heap_rep]);
    - KPages (memory/memory.cpp): the stack of free pages; [pool_ok] divides
      the pages into free and owned ones, and is the interface on which all
      users of pages are proved;
    - KPageTable, KPageTableSpec (lib/stl/PageTableUtil.h): page tables in
      physical memory ([KMem]), the Sv39 walk of the architecture
      ([translate]), the invariant [pt_rep], mapping and unmapping;
    - KVm: windows of user pages mapped one after the other, on which the
      next two rest; KBrk (memory/brk_control.h): the program break; KMmap
      (memory/mmap_control.h): file mappings, composed with [f_read];
    - KPipe (fs/FastPipe.h): ring buffers as queues and byte streams;
    - KSched (scheduler.cpp, memory/elf_control.cpp): program images,
      process blocks, queues, context switches, clone, wait and exit; the
      step relation [sched_step], its invariant [sched_ok] and its fairness
      ([kept_waiting]);
    - KElf (elf_loader.cpp): [load_elf] reads the headers and segments of a
      program with FatFs into pages of the pool; [image] is what an address of
      the program holds;
    - KProc (scheduler.cpp): [create_process], from the words of a command to
      the initial stack and the process block;
    - KRelease (lib/stl/RefCountPtr.h, memory/elf_control.cpp,
      memory/memory_keeper.cpp): reference counts in the heap, and the
      destructors run by deleting a process block;
    - KList, KVector (lib/stl/list.h, vector.h): linked lists in a store of
      nodes and growing arrays, refined to sequences; the other kernel files
      use them as sequences;
    - KPath (lib/stl/PathUtil.h, map.h): paths and association maps;
    - KFs (fs/FS.cpp): the adapter that keeps open FatFs objects by path;
    - KFd (fs/file_describer.h, lib/stl/RefCountPtr.h): the descriptor table
      and its reference counted files, over the interface [FileSystem]; the
      step relation [fd_step] and its invariant [fd_ok];
    - KVfs, KVfsSpec, KVfsTheorems (fs/VFS.h, IFS.h): the tree of nodes, the
      file systems behind it ([IFS]) and the calls passed on; [tree_ok]
      relates the linked nodes to an abstract tree, [vfs_lookup] is lookup in
      that tree; the instance [vfs_file_system] is what [KFd] calls;
    - KAbsPath (getAbsolutePath of syscall.cpp): relative paths on the
      working directory; KUser: the memory of the process as an interface
      ([UserMemory]), implemented by the pages behind its page table;
      KSyscall, KSyscallTheorems (syscall.cpp): the system calls on files and
      pipes, from that memory through the descriptor map of the process to
      the descriptor table, the tree and the pipes;
    - KTrap (interrupt.cpp, the rest of syscall.cpp, asm/interrupt.s): the
      joint state [Kernel] of the components, the other system calls, the
      table of handlers and the handling of interrupts and faults;
      KTrapTheorems: its invariant [kernel_ok] and the step relation
      [trap_step]; KTrapFiles: a file used through traps.

    ** How C becomes Gallina

    A C function on the volume is a definition in [ST (vol D)], with the
    state of the module (filesystem object, device, static buffers) as
    [vol D]; pointers into the window are offsets; output parameters are
    results.  Unsigned arithmetic wraps explicitly where the code can
    overflow.  Loops are fuelled fixpoints; the fuel of each is computed
    from the data ([Z.to_nat (btr / SS + 3)] turns of the transfer loops,
    [n_fatent] clusters for chain walks, MAX_DIR / 32 entries for
    directories) and the theorems show that it is enough: they state that
    the function returns.  Code outside src/ and the device are parameters.

    Kernel code is written on explicit state with results in [outcome].
    Traps run on the page table of the trapped process: user pointers are
    used through [translate] and an access without translation is [Wild].
    Memory is a function from addresses to 64-bit words; the kernel runs
    identity-mapped, so its pointers are physical addresses, while stores of
    or for a process go through [translate].  Calls that do not return to
    their caller ([schedule], [exit_process], yielding in a pipe) are results
    of their own ([sched_exit], [pipe_exit]).  The loops of [Alloc] have fuel
    NBITS + 2, one more than the positions of the map; [munmap] one more than
    its units, since each turn removes one; the loader one turn per page of a
    segment; the splitting of commands one more than their characters; the recursion of
    [ErasePageTable] has depth three; the polling loops of the SD driver count
    down as the code's do; those of the SPI driver take their fuel as an
    argument, and what is enough is computed from the length and the delay of
    the device ([lag_max]); loops over linked nodes have one turn
    more than the store has nodes; [split] two more than the path has
    characters.  The recursion of the clock frequencies has depth 7, the
    longest path from a clock through its sources; a waiting loop has as many
    turns as the counter needs polls for its ticks ([polls_per_tick] is part of
    the counter's interface); a number has at most 64 digits, the width of
    its type in base two.  Only [scan] of the virtual file system takes its fuel as an
    argument: it depends on the directories of the volume.

    ** What the theorems show

    The window is a transparent write-back cache and [sync_fs] makes it
    durable; FAT entries round-trip at their width without disturbing
    neighbours; chains are followed, extended by free clusters and freed
    exactly; removing a chain terminates on any FAT; mounting establishes
    the invariant; [f_read], [f_write] and [f_lseek] implement the abstract
    file, composed in a write/seek/read round trip; names round-trip through
    directory entries, code pages and path encodings; invalid clusters and
    stale objects are refused; the QEMU driver refines the interface.  On a
    card that keeps the SD protocol the K210 driver reads and replaces exactly
    the addressed blocks and, past the card's power-up, its initialisation
    reaches transfer mode; on a
    bus without a card a read reports success and leaves the buffer alone.
    The transfers of the SPI driver return and carry exactly that driver's
    bytes over the line, and the initialisation of the board routes and drives
    the pins of the card; the pin registers keep their type, and a function
    that [fpioa_set_function] gave to a pin is carried by no other.

    The heap hands out disjoint blocks of the size asked for and frees
    exactly them; pages in use are distinct under every history of the pool;
    mapping a page changes the address space by that page only, and a new
    address space has the kernel's mappings; [brk] grows by zeroed pages and
    fork copies them; a mapped file is read through the page table; pipes are
    streams; process numbers are unique under all scheduler steps, no process in
    the run queue starves, and the exit of a child reaches its parent.  A program is
    loaded as its headers say; a new process finds its arguments, environment
    and auxiliary vector on its stack and starts in user mode at its entry
    point, and creating it disturbs no page in use.  When processes
    that share a program end, in any order, its pages go back exactly with
    their last user.  Lists and arrays
    are sequences under every history of calls.  The tree of the virtual file
    system gains exactly the path that [mkdir] or a creating [open] adds, calls
    reach the file system of their node, and a file written, rewound and read
    through it gives the bytes written; descriptors lead to open files, and a
    file is closed exactly with its last reference.

    Every trap, whatever the process and its registers, keeps process
    numbers unique, descriptors counted and pipes within their buffers, and
    resumes either the caller behind its call with only a0 changed or another
    process with the registers saved for it; bytes in the heap of a process
    written to a file by one trap are read back by another.

    Calls on the system controller do not disturb each other's fields, and its
    frequencies are computed for every setting of the registers; a date stored
    in the real-time clock is reported by [sys_clock_gettime] as the seconds
    since the epoch, counted over the civil calendar, and the monotonic clock
    shows the counter's time rounded down to 31250 ns until its product
    overflows.
    [printf] and [sprintf] produce the same text, that of the format with
    numbers in their base, and strings are sequences of characters.  Where the code
    misbehaves the theorems say so: a full heap map is overrun, a break below
    the heap corrupts the page count, [munmap] leaves translations to free
    pages, forked mappings have their fields exchanged.

    ** Configuration

    As in ffconf.h: FF_FS_TINY, FF_USE_LFN with a static buffer, code page
    932, one volume, 512-byte sectors, no exFAT, no relative paths, no lock
    or reentrancy.  Lines that the configuration does not compile are not
    modelled.  FSIZE_t and LBA_t are 32 bits wide.

    ** Not modelled

    [f_mkfs], [create_partition] and the API functions that the
    configuration disables or the kernel does not call; the
    interrupts of the real-time clock and the interrupt controller (plic.c),
    which the kernel does not enable.  Of the kernel: the
    heap blocks and reference counts behind the members of a process block in
    the scheduler's state; [exit_process] takes the effect of deleting the
    block as an argument, KRelease has these objects and that effect
    ([delete_running], which returns for a thread and leaves the heap's map
    for the last holder of a page table), and the theorems on queues and traps
    hold for every such effect.  Nor are diagnostic messages, Trie.h (which the kernel does not use),
    firmware calls and the test programs.
*)
From Stdlib Require Import ZArith Lia.
From stdpp Require Import base list numbers option sets.

Local Open Scope Z_scope.

(** * Machine-width integers

    The C types are kept as [Z] with their wrap-around written out: an
    [uN] is the truncation a store to an N-bit unsigned object performs. *)

Definition u8 (x : Z) : Z := x mod 2 ^ 8.
Definition u16 (x : Z) : Z := x mod 2 ^ 16.
Definition u32 (x : Z) : Z := x mod 2 ^ 32.
Definition u64 (x : Z) : Z := x mod 2 ^ 64.

(** Conversion of a 64-bit or 32-bit pattern to a signed 32-bit [int]. *)
Definition s32 (x : Z) : Z := (x + 2 ^ 31) mod 2 ^ 32 - 2 ^ 31.

(** C truth value of an integer, and of a masked integer. *)
Definition ztrue (x : Z) : bool := negb (x =? 0).
Definition zbits (x m : Z) : bool := ztrue (Z.land x m).

Definition is_byte (b : Z) : Prop := 0 <= b < 256.
Definition bytes (l : list Z) : Prop := Forall is_byte l.

#[export] Instance is_byte_dec b : Decision (is_byte b).
Proof. unfold is_byte. apply _. Defined.

#[export] Instance bytes_dec l : Decision (bytes l).
Proof. unfold bytes. apply _. Defined.

(** * Arrays indexed by machine integers

    An array is a [list]; [zget]/[zset] are [a[i]] and [a[i] = v] for an
    in-range index (out of range a read gives 0 and a store does nothing:
    the theorems carry the range hypotheses), [zread]/[zwrite] are the
    [memcpy] of a run of cells out of and into the array. *)

Definition zget (l : list Z) (i : Z) : Z := default 0 (l !! Z.to_nat i).
Definition zset (l : list Z) (i v : Z) : list Z := <[Z.to_nat i := v]> l.
Definition zread (l : list Z) (i n : Z) : list Z :=
  take (Z.to_nat n) (drop (Z.to_nat i) l).
Definition zwrite (l : list Z) (i : Z) (bs : list Z) : list Z :=
  list_inserts (Z.to_nat i) bs l.
Definition zlen {A} (l : list A) : Z := Z.of_nat (length l).

Lemma u8_byte x : is_byte (u8 x).
Proof. apply Z.mod_pos_bound. lia. Qed.

Lemma u32_range x : 0 <= u32 x < 2 ^ 32.
Proof. apply Z.mod_pos_bound. lia. Qed.

Lemma u16_range x : 0 <= u16 x < 2 ^ 16.
Proof. apply Z.mod_pos_bound. lia. Qed.

Lemma u32_small x : 0 <= x < 2 ^ 32 → u32 x = x.
Proof. intros. by apply Z.mod_small. Qed.

Lemma u16_small x : 0 <= x < 2 ^ 16 → u16 x = x.
Proof. intros. by apply Z.mod_small. Qed.

Lemma u8_small x : 0 <= x < 2 ^ 8 → u8 x = x.
Proof. intros. by apply Z.mod_small. Qed.

Lemma u64_small x : 0 <= x < 2 ^ 64 → u64 x = x.
Proof. intros. by apply Z.mod_small. Qed.

Lemma s32_small x : 0 <= x < 2 ^ 31 → s32 x = x.
Proof. intros H. unfold s32. rewrite Z.mod_small; lia. Qed.

(** ** Array lemmas *)

Lemma lor_shiftl_add a b n :
  0 <= n → 0 <= b < 2 ^ n → Z.lor (Z.shiftl a n) b = a * 2 ^ n + b.
Proof.
  intros Hn Hb. rewrite <- Z.shiftl_mul_pow2 by done.
  assert (Z.land (Z.shiftl a n) b = 0) as Hl.
  2:{ pose proof (Z.add_lor_land (Z.shiftl a n) b). lia. }
  apply Z.bits_inj'. intros i Hi.
  rewrite Z.land_spec, Z.bits_0. destruct (decide (i < n)).
  - by rewrite Z.shiftl_spec_low.
  - destruct (decide (b = 0)) as [->|]; [by rewrite Z.bits_0, andb_false_r|].
    rewrite (Z.bits_above_log2 b i), andb_false_r; [done|lia|].
    apply Z.log2_lt_pow2; [lia|]. apply Z.lt_le_trans with (2 ^ n); [lia|].
    apply Z.pow_le_mono_r; lia.
Qed.

Lemma zset_length l i v : length (zset l i v) = length l.
Proof. apply length_insert. Qed.

Lemma zlen_snoc {A} (l : list A) x : zlen (l ++ [x]) = zlen l + 1.
Proof. unfold zlen. rewrite length_app. cbn. lia. Qed.

Lemma zlen_to_nat {A} (l : list A) : Z.to_nat (zlen l) = length l.
Proof. apply Nat2Z.id. Qed.

Lemma zget_zset_eq l i v :
  0 <= i < zlen l → zget (zset l i v) i = v.
Proof.
  intros [Hi Hl]. unfold zget, zset, zlen in *.
  rewrite list_lookup_insert_eq; [done|lia].
Qed.

Lemma zget_zset_ne l i j v :
  0 <= i → 0 <= j → i ≠ j → zget (zset l i v) j = zget l j.
Proof. intros. unfold zget, zset. rewrite list_lookup_insert_ne; [done|lia]. Qed.

Lemma zget_byte l i : bytes l → is_byte (zget l i).
Proof.
  intros Hl. unfold zget. destruct (l !! Z.to_nat i) as [b|] eqn:E; simpl.
  - by eapply Forall_lookup_1 in E.
  - unfold is_byte. lia.
Qed.

Lemma zset_bytes l i v : bytes l → is_byte v → bytes (zset l i v).
Proof. intros. by apply Forall_insert. Qed.

Lemma zwrite_length l i bs : length (zwrite l i bs) = length l.
Proof. apply length_inserts. Qed.

Lemma zread_length l i n :
  0 <= i → 0 <= n → i + n <= zlen l → length (zread l i n) = Z.to_nat n.
Proof.
  intros. unfold zread, zlen in *. rewrite length_take, length_drop. lia.
Qed.

Lemma zget_zread l i n j :
  0 <= i → 0 <= j < n → i + n <= zlen l → zget (zread l i n) j = zget l (i + j).
Proof.
  intros. unfold zget, zread, zlen in *. rewrite lookup_take_lt by lia.
  rewrite lookup_drop. do 2 f_equal. lia.
Qed.

Lemma zget_zwrite_in l i bs j :
  0 <= i → i <= j < i + zlen bs → i + zlen bs <= zlen l →
  zget (zwrite l i bs) j = zget bs (j - i).
Proof.
  intros. unfold zget, zwrite, zlen in *.
  rewrite list_lookup_inserts by lia. do 2 f_equal. lia.
Qed.

Lemma zget_zwrite_out l i bs j :
  0 <= i → 0 <= j → (j < i ∨ i + zlen bs <= j) →
  zget (zwrite l i bs) j = zget l j.
Proof.
  intros Hi Hj Hout. unfold zget, zwrite, zlen in *. destruct Hout.
  - rewrite list_lookup_inserts_lt by lia. done.
  - rewrite list_lookup_inserts_ge by lia. done.
Qed.

Lemma zwrite_bytes l i bs : bytes l → bytes bs → bytes (zwrite l i bs).
Proof.
  intros Hl Hb. unfold zwrite. generalize (Z.to_nat i).
  induction Hb as [|b bs Hb1 Hb2 IH]; intros k; simpl; [done|].
  apply Forall_insert; [apply IH | done].
Qed.

Lemma list_eq_zget (l1 l2 : list Z) :
  length l1 = length l2 →
  (∀ i, 0 <= i < zlen l1 → zget l1 i = zget l2 i) → l1 = l2.
Proof.
  intros Hlen H. apply list_eq_same_length with (length l1); [done..|].
  intros i x y Hi Hx Hy. specialize (H (Z.of_nat i)). unfold zget, zlen in H.
  rewrite Nat2Z.id, Hx, Hy in H. apply H. lia.
Qed.

Lemma foldl_ext_in {A B} (f g : A → B → A) (l : list B) (a : A) :
  (∀ x b, b ∈ l → f x b = g x b) → foldl f a l = foldl g a l.
Proof.
  revert a. induction l as [|b l IH]; intros a H; simpl; [done|].
  rewrite H by set_solver. apply IH. intros. apply H. set_solver.
Qed.

Lemma zget_fmap_seqZ (f : Z → Z) n i :
  0 <= i < n → zget (f <$> seqZ 0 n) i = f i.
Proof.
  intros. unfold zget. rewrite list_lookup_fmap, lookup_seqZ_lt by lia.
  simpl. f_equal. lia.
Qed.

(** A property of a bounded range, checked by evaluation. *)
Lemma seqZ_forall (P : Z → bool) lo n :
  forallb P (seqZ lo n) = true → ∀ x, lo <= x < lo + n → P x = true.
Proof.
  intros H x Hx. rewrite forallb_forall in H. apply H.
  apply list_elem_of_In, elem_of_seqZ. lia.
Qed.

(** * The state-and-divergence monad of the FatFs and kernel components

    A computation maps a state to a result and a new state; [None] is
    reserved for a loop that used up its fuel, so that a theorem saying a
    call returns [Some] is a termination statement. *)

Definition ST (S A : Type) : Type := S → option (A * S).

Definition sret {S A} (a : A) : ST S A := λ s, Some (a, s).
Definition sbind {S A B} (m : ST S A) (k : A → ST S B) : ST S B :=
  λ s, match m s with Some (a, s') => k a s' | None => None end.
Definition sget {S} : ST S S := λ s, Some (s, s).
Definition supd {S} (f : S → S) : ST S unit := λ s, Some (tt, f s).
Definition sdiverge {S A} : ST S A := λ _, None.

Declare Scope st_scope.
Delimit Scope st_scope with st.

Notation "'let!' x ':=' m 'in' k" := (sbind m (λ x, k))
  (at level 10, x pattern, m at level 100, k at level 200,
   format "'[v' 'let!'  x  ':='  m  'in' '/' k ']'") : st_scope.
Notation "m1 ;! m2" := (sbind m1 (λ _, m2))
  (at level 60, right associativity) : st_scope.

Lemma sbind_Some {S A B} (m : ST S A) (k : A → ST S B) s r :
  sbind m k s = Some r ↔ ∃ a s1, m s = Some (a, s1) ∧ k a s1 = Some r.
Proof.
  unfold sbind. destruct (m s) as [[a s1]|]; split.
  - eauto.
  - by intros (?&?&[= -> ->]&?).
  - done.
  - by intros (?&?&?&?).
Qed.

Lemma sbind_run {S A B} (m : ST S A) (k : A → ST S B) s a s1 :
  m s = Some (a, s1) → sbind m k s = k a s1.
Proof. unfold sbind. by intros ->. Qed.

(** A computation always returns. *)
Definition returns {S A} (m : ST S A) (s : S) : Prop := is_Some (m s).

(** * Automation *)

Create HintDb ffdb.
#[export] Hint Resolve u8_byte zget_byte zset_bytes zwrite_bytes : ffdb.
#[export] Hint Extern 1 (length (zset _ _ _) = _) => rewrite zset_length : ffdb.
#[export] Hint Extern 1 (length (zwrite _ _ _) = _) => rewrite zwrite_length : ffdb.

(** Step through a monadic equation [m s = Some r] in the hypotheses. *)
Ltac st_inv :=
  repeat match goal with
    | H : sbind _ _ _ = Some _ |- _ =>
        apply sbind_Some in H; destruct H as (?&?&?&?)
    | H : sret _ _ = Some _ |- _ => injection H as ?; subst
    | H : supd _ _ = Some _ |- _ => injection H as ?; subst
    | H : sget _ = Some _ |- _ => injection H as ?; subst
    | H : sdiverge _ = Some _ |- _ => discriminate H
    | H : (_, _) = (_, _) |- _ => injection H as ?; subst
    end.

(** Decide the boolean guards of the code. *)
Ltac bool_cases :=
  repeat match goal with
    | |- context [if ?b then _ else _] => destruct b eqn:?
    | H : context [if ?b then _ else _] |- _ => destruct b eqn:?
    end.
Ltac zb :=
  repeat match goal with
    | H : (_ && _)%bool = true |- _ => apply andb_true_iff in H; destruct H
    | H : (_ || _)%bool = false |- _ => apply orb_false_iff in H; destruct H
    | H : negb _ = true |- _ => apply negb_true_iff in H
    | H : negb _ = false |- _ => apply negb_false_iff in H
    | H : (_ =? _) = true |- _ => apply Z.eqb_eq in H
    | H : (_ =? _) = false |- _ => apply Z.eqb_neq in H
    | H : (_ <? _) = true |- _ => apply Z.ltb_lt in H
    | H : (_ <? _) = false |- _ => apply Z.ltb_ge in H
    | H : (_ <=? _) = true |- _ => apply Z.leb_le in H
    | H : (_ <=? _) = false |- _ => apply Z.leb_gt in H
    end.
