(* ===== verification/BlockDevice.v ===== *)
(** The storage interface of FatFs ([diskio.h]) and the driver behind it
    ([diskio.c]).

    [BlockDevice] is the record of the five operations [ff.c] calls,
    [BlockDeviceLaws] is what FatFs relies on (reads return the stored
    sectors, a successful write changes exactly the addressed sectors, a
    failed one changes no other sector), [ReliableDevice] adds that drive 0
    never reports an error.  [Qemu] is [diskio.c] in its [QEMU]
    configuration, where the disk is the byte array [fs_img]; it implements
    all three classes for an image of at most 4 GiB, the bound being the
    32-bit index arithmetic of the copy loops. *)
From Stdlib Require Import ZArith Lia.
From stdpp Require Import base list numbers option gmap.
From S2P Require Import Prelude.

Local Open Scope Z_scope.

(** [DRESULT] of diskio.h. *)
Inductive DRESULT : Type :=
  RES_OK | RES_ERROR | RES_WRPRT | RES_NOTRDY | RES_PARERR.

#[export] Instance DRESULT_eq_dec : EqDecision DRESULT.
Proof. solve_decision. Defined.

(** Disk status bits and the generic [disk_ioctl] commands of diskio.h. *)
Definition STA_NOINIT : Z := 1.
Definition STA_PROTECT : Z := 4.
Definition CTRL_SYNC : Z := 0.
Definition GET_SECTOR_COUNT : Z := 1.
Definition GET_SECTOR_SIZE : Z := 2.
Definition GET_BLOCK_SIZE : Z := 3.

(** The operations.  [disk_read] returns the bytes it stored at the start
    of the caller's buffer; [disk_ioctl] the value it stored through its
    pointer, if any. *)
Class BlockDevice (D : Type) : Type := {
  disk_status : Z → D → Z;
  disk_initialize : Z → D → Z * D;
  disk_read : Z → Z → Z → D → DRESULT * list Z * D;
  disk_write : Z → list Z → Z → Z → D → DRESULT * D;
  disk_ioctl : Z → Z → D → DRESULT * option Z * D
}.

Class BlockDeviceLaws (D : Type) `{BlockDevice D} : Type := {
  sector_count : D → Z;
  sector : D → Z → list Z;
  sector_count_bound d : sector_count d <= 2 ^ 32 - 1;
  sector_length d i : length (sector d i) = 512%nat;
  sector_bytes d i : bytes (sector d i);
  disk_initialize_spec p d r d' :
    disk_initialize p d = (r, d') →
    sector_count d' = sector_count d ∧ ∀ j, sector d' j = sector d j;
  disk_read_spec p i n d r bs d' :
    0 <= i → 0 <= n → i + n <= sector_count d →
    disk_read p i n d = (r, bs, d') →
    sector_count d' = sector_count d ∧
    (∀ j, sector d' j = sector d j) ∧
    (r = RES_OK → bs = concat (sector d <$> seqZ i n)) ∧
    zlen bs <= 512 * n ∧ bytes bs;
  disk_write_spec p bs i n d r d' :
    0 <= i → 0 < n → i + n <= sector_count d →
    bytes bs → zlen bs = 512 * n →
    disk_write p bs i n d = (r, d') →
    sector_count d' = sector_count d ∧
    (∀ j, 0 <= j < sector_count d → ¬ (i <= j < i + n) →
          sector d' j = sector d j) ∧
    (r = RES_OK → ∀ j, i <= j < i + n →
          sector d' j = zread bs (512 * (j - i)) 512);
  disk_ioctl_spec p c d r v d' :
    disk_ioctl p c d = (r, v, d') →
    sector_count d' = sector_count d ∧ ∀ j, sector d' j = sector d j
}.

(** Drive 0 is always there and never fails. *)
Class ReliableDevice (D : Type) `{BlockDeviceLaws D} : Prop := {
  disk_status_ok d : disk_status 0 d = 0;
  disk_initialize_ok d : (disk_initialize 0 d).1 = 0;
  disk_read_ok i n d : (disk_read 0 i n d).1.1 = RES_OK;
  disk_write_ok bs i n d : n ≠ 0 → (disk_write 0 bs i n d).1 = RES_OK;
  disk_ioctl_ok c d : (disk_ioctl 0 c d).1.1 = RES_OK
}.

Module Qemu.

(** [extern unsigned char fs_img[]]: the image linked into the kernel.
    [img_sectors] is the image size in sectors. *)
Record disk : Type := mkDisk { fs_img : gmap Z Z; img_sectors : Z }.

Definition img_byte (d : disk) (a : Z) : Z := u8 (default 0 (fs_img d !! a)).

Definition SD_CARD : Z := 0.

Definition disk_status (pdrv : Z) (d : disk) : Z :=
  if pdrv =? SD_CARD then 0 else STA_NOINIT.

Definition disk_initialize (pdrv : Z) (d : disk) : Z * disk :=
  if pdrv =? SD_CARD then (0, d) else (STA_NOINIT, d).

(** Index of byte [j] of the [i]-th transferred sector:
    [(sector + i) * 512 + j] on 32-bit unsigned integers. *)
Definition img_index (sector i j : Z) : Z :=
  u32 (u32 (u32 (sector + i) * 512) + j).

Definition read_one (d : disk) (sector i : Z) : list Z :=
  (λ j, img_byte d (img_index sector i j)) <$> seqZ 0 512.

Definition disk_read (pdrv sector count : Z) (d : disk)
    : DRESULT * list Z * disk :=
  if pdrv =? SD_CARD
  then (RES_OK, concat (read_one d sector <$> seqZ 0 count), d)
  else (RES_PARERR, [], d).

(** One iteration of the outer write loop: the 512 bytes of
    [buff[512 * i ..]] go to sector [sector + i]. *)
Definition write_one (buff : list Z) (sector i : Z) (m : gmap Z Z)
    : gmap Z Z :=
  foldl (λ m j, <[img_index sector i j := zget buff (512 * i + j)]> m)
        m (seqZ 0 512).

Definition disk_write (pdrv : Z) (buff : list Z) (sector count : Z)
    (d : disk) : DRESULT * disk :=
  if count =? 0 then (RES_PARERR, d)
  else if pdrv =? SD_CARD
  then (RES_OK,
        mkDisk (foldl (λ m i, write_one buff sector i m) (fs_img d)
                      (seqZ 0 count))
               (img_sectors d))
  else (RES_PARERR, d).

Definition disk_ioctl (pdrv cmd : Z) (d : disk)
    : DRESULT * option Z * disk :=
  if pdrv =? SD_CARD
  then (RES_OK,
        if cmd =? GET_SECTOR_SIZE then Some 512
        else if cmd =? GET_BLOCK_SIZE then Some 16384
        else if cmd =? GET_SECTOR_COUNT then Some 125171712
        else None, d)
  else (RES_PARERR, None, d).

(** [get_fattime]: there is no clock behind FatFs. *)
Definition get_fattime : Z := 0.

(** ** The driver implements the interface *)

Definition qsector_count (d : disk) : Z := Z.max 0 (Z.min (img_sectors d) (2 ^ 23)).
Definition qsector (d : disk) (s : Z) : list Z :=
  (λ j, img_byte d (s * 512 + j)) <$> seqZ 0 512.

Lemma img_index_small s i j :
  0 <= s → 0 <= i → s + i < 2 ^ 23 → 0 <= j < 512 →
  img_index s i j = (s + i) * 512 + j.
Proof.
  intros. unfold img_index. rewrite (u32_small (s + i)) by lia.
  rewrite (u32_small (_ * 512)) by lia. by rewrite u32_small by lia.
Qed.

Lemma qsector_length d s : length (qsector d s) = 512%nat.
Proof. unfold qsector. by rewrite length_fmap, length_seqZ. Qed.

Lemma qsector_bytes d s : bytes (qsector d s).
Proof.
  unfold qsector, bytes. apply Forall_fmap, Forall_true. intros. apply u8_byte.
Qed.

Lemma read_one_sector d s i :
  0 <= s → 0 <= i → s + i < 2 ^ 23 → read_one d s i = qsector d (s + i).
Proof.
  intros. unfold read_one, qsector. apply list_fmap_ext. intros k j Hj.
  apply lookup_seqZ in Hj as [-> ?]. by rewrite img_index_small by lia.
Qed.

Lemma read_sectors d s n :
  0 <= s → s + n <= 2 ^ 23 →
  concat (read_one d s <$> seqZ 0 n) = concat (qsector d <$> seqZ s n).
Proof.
  intros. f_equal. rewrite <- (Z.add_0_r s) at 2. rewrite <- fmap_add_seqZ.
  rewrite <- list_fmap_compose. apply list_fmap_ext. intros k j Hj.
  apply lookup_seqZ in Hj as [-> ?]. simpl. rewrite read_one_sector by lia.
  f_equal.
Qed.

(** A loop of stores to consecutive addresses. *)
Lemma lookup_store_run (g : Z → Z) base n (m : gmap Z Z) a :
  foldl (λ m j, <[base + j := g j]> m) m (seqZ 0 (Z.of_nat n)) !! a =
  if bool_decide (base <= a < base + Z.of_nat n)
  then Some (g (a - base)) else m !! a.
Proof.
  induction n as [|n IH]; [by rewrite bool_decide_eq_false_2 by lia|].
  rewrite Nat2Z.inj_succ, <- Z.add_1_r, seqZ_app by lia.
  rewrite foldl_app. simpl. destruct (decide (a = base + Z.of_nat n)) as [->|Hne].
  - rewrite lookup_insert_eq, bool_decide_eq_true_2 by lia. do 2 f_equal. lia.
  - rewrite lookup_insert_ne by lia. rewrite IH.
    repeat case_bool_decide; try lia; done.
Qed.

Lemma write_one_lookup buff s i m a :
  0 <= s → 0 <= i → s + i < 2 ^ 23 →
  write_one buff s i m !! a =
  if bool_decide ((s + i) * 512 <= a < (s + i) * 512 + 512)
  then Some (zget buff (512 * i + (a - (s + i) * 512))) else m !! a.
Proof.
  intros. unfold write_one.
  rewrite <- (lookup_store_run (λ j, zget buff (512 * i + j)) _ 512).
  f_equal. apply foldl_ext_in. intros x j Hj. apply elem_of_seqZ in Hj.
  by rewrite img_index_small by lia.
Qed.

Lemma write_run_lookup buff s n m a :
  0 <= s → s + Z.of_nat n <= 2 ^ 23 →
  foldl (λ m i, write_one buff s i m) m (seqZ 0 (Z.of_nat n)) !! a =
  if bool_decide (s * 512 <= a < (s + Z.of_nat n) * 512)
  then Some (zget buff (a - s * 512)) else m !! a.
Proof.
  induction n as [|n IH]; intros; [by rewrite bool_decide_eq_false_2 by lia|].
  rewrite seqZ_S, foldl_app. simpl. rewrite write_one_lookup, IH by lia.
  repeat case_bool_decide; try lia; try done. do 2 f_equal. lia.
Qed.

Lemma qsector_write buff s n d d' j :
  0 <= s → 0 < n → s + n <= qsector_count d → bytes buff → zlen buff = 512 * n →
  0 <= j →
  disk_write 0 buff s n d = (RES_OK, d') →
  qsector d' j = if bool_decide (s <= j < s + n)
                 then zread buff (512 * (j - s)) 512 else qsector d j.
Proof.
  intros Hs Hn Hc Hb Hl Hj Hw. unfold disk_write, qsector_count in *.
  rewrite (proj2 (Z.eqb_neq n 0)) in Hw by lia. simpl in Hw. injection Hw as <-.
  replace n with (Z.of_nat (Z.to_nat n)) in * by lia.
  apply list_eq_zget.
  - case_bool_decide; rewrite ?qsector_length, ?zread_length by lia; done.
  - unfold zlen at 1. rewrite qsector_length. intros i Hi.
    unfold qsector at 1. rewrite zget_fmap_seqZ by lia.
    unfold img_byte. simpl. rewrite write_run_lookup by lia.
    repeat case_bool_decide; try lia.
    + simpl. rewrite zget_zread by lia.
      replace (j * 512 + i - s * 512) with (512 * (j - s) + i) by lia.
      apply u8_small, (zget_byte buff _ Hb).
    + unfold qsector. by rewrite zget_fmap_seqZ by lia.
Qed.

#[global] Instance qemu_device : BlockDevice disk := {|
  BlockDevice.disk_status := disk_status;
  BlockDevice.disk_initialize := disk_initialize;
  BlockDevice.disk_read := disk_read;
  BlockDevice.disk_write := disk_write;
  BlockDevice.disk_ioctl := disk_ioctl
|}.

Lemma concat_sectors_length d s n :
  0 <= n → zlen (concat (qsector d <$> seqZ s n)) = 512 * n.
Proof.
  intros. replace n with (Z.of_nat (Z.to_nat n)) by lia. unfold zlen.
  induction (Z.to_nat n) as [|k IH]; [done|].
  rewrite seqZ_S, fmap_app, concat_app, length_app. simpl.
  rewrite ?length_app, ?qsector_length in *. simpl. lia.
Qed.

Lemma concat_sectors_bytes d s n : bytes (concat (qsector d <$> seqZ s n)).
Proof.
  apply Forall_concat, Forall_fmap, Forall_true. intros. apply qsector_bytes.
Qed.

#[global] Instance qemu_laws : BlockDeviceLaws disk.
Proof.
  refine {| sector_count := qsector_count; sector := qsector |}.
  - intros. unfold qsector_count. lia.
  - apply qsector_length.
  - apply qsector_bytes.
  - intros p d r d'. simpl. unfold disk_initialize. intros H.
    destruct (p =? SD_CARD); by injection H as <- <-.
  - intros p i n d r bs d' Hi Hn Hc. simpl. unfold disk_read.
    rewrite read_sectors by (unfold qsector_count in Hc; lia).
    destruct (p =? SD_CARD); intros [= <- <- <-]; split_and!; try done.
    + rewrite concat_sectors_length; lia.
    + apply concat_sectors_bytes.
    + unfold zlen. simpl. lia.
    + constructor.
  - intros p bs i n d r d' Hi Hn Hc Hb Hl. simpl. intros Hw.
    destruct (decide (p = 0)) as [->|Hp].
    + pose proof Hw as Hw'. unfold disk_write in Hw.
      rewrite (proj2 (Z.eqb_neq n 0)) in Hw by lia. simpl in Hw.
      injection Hw as <- Hd. split; [by subst d'|]. split.
      * intros j Hj Hout. rewrite (qsector_write bs i n d d') by (done || lia).
        by rewrite bool_decide_eq_false_2.
      * intros _ j Hj. rewrite (qsector_write bs i n d d') by (done || lia).
        by rewrite bool_decide_eq_true_2.
    + unfold disk_write in Hw.
      rewrite (proj2 (Z.eqb_neq n 0)), (proj2 (Z.eqb_neq p SD_CARD)) in Hw
        by (done || lia).
      by injection Hw as <- <-.
  - intros p c d r v d'. simpl. unfold disk_ioctl.
    destruct (p =? SD_CARD); by intros [= <- <- <-].
Defined.

#[global] Instance qemu_reliable : ReliableDevice disk.
Proof.
  split; intros; simpl; try done.
  unfold disk_write. by rewrite (proj2 (Z.eqb_neq n 0)) by lia.
Qed.

End Qemu.
