(* ===== verification/FfTypes.v ===== *)
(** The data of FatFs ([ff.h]) in the configuration of [ffconf.h]: one
    volume, 512-byte sectors, FF_FS_TINY (file data goes through the
    window of the filesystem object), FF_USE_LFN = 1 (a static LFN working
    buffer), no exFAT, no relative path, no lock, code page 932.

    Pointers into [fs->win] ([DIR.dir], [FIL.dir_ptr]) are offsets in the
    window; a pointer to the filesystem object is a boolean, because
    FF_VOLUMES is 1 and there is one object to point to. *)
From Stdlib Require Import ZArith Lia.
From stdpp Require Import base list numbers option.
From S2P Require Import Prelude BlockDevice.

Local Open Scope Z_scope.

(** [FRESULT] of ff.h. *)
Inductive FRESULT : Type :=
  | FR_OK | FR_DISK_ERR | FR_INT_ERR | FR_NOT_READY | FR_NO_FILE
  | FR_NO_PATH | FR_INVALID_NAME | FR_DENIED | FR_EXIST
  | FR_INVALID_OBJECT | FR_WRITE_PROTECTED | FR_INVALID_DRIVE
  | FR_NOT_ENABLED | FR_NO_FILESYSTEM | FR_MKFS_ABORTED | FR_TIMEOUT
  | FR_LOCKED | FR_NOT_ENOUGH_CORE | FR_TOO_MANY_OPEN_FILES
  | FR_INVALID_PARAMETER.

#[export] Instance FRESULT_eq_dec : EqDecision FRESULT.
Proof. solve_decision. Defined.

(** [res == FR_OK] *)
Definition fr_ok (r : FRESULT) : bool :=
  match r with FR_OK => true | _ => false end.

(** Sector size SS(fs) and the constants of ff.h/ff.c. *)
Definition SS : Z := 512.
Definition SZDIRE : Z := 32.
Definition MAX_DIR : Z := 0x200000.
Definition FF_MAX_LFN : Z := 255.
Definition FF_LFN_BUF : Z := 255.
Definition FF_SFN_BUF : Z := 12.

Definition FS_FAT12 : Z := 1.
Definition FS_FAT16 : Z := 2.
Definition FS_FAT32 : Z := 3.

(** [FATFS] of ff.h. *)
Record FATFS : Type := mkFATFS {
  fs_type : Z;   (* Filesystem type (0: not mounted) *)
  pdrv : Z;      (* Physical drive *)
  n_fats : Z;    (* Number of FATs *)
  wflag : Z;     (* win[] dirty flag *)
  fsi_flag : Z;  (* FSINFO flags (b7 disabled, b0 dirty) *)
  fs_id : Z;     (* Volume mount ID *)
  n_rootdir : Z; (* Root directory entries (FAT12/16) *)
  csize : Z;     (* Cluster size [sectors] *)
  last_clst : Z; (* Last allocated cluster *)
  free_clst : Z; (* Number of free clusters *)
  n_fatent : Z;  (* FAT entries (clusters + 2) *)
  fsize : Z;     (* Sectors per FAT *)
  volbase : Z;   (* Volume base sector *)
  fatbase : Z;   (* FAT base sector *)
  dirbase : Z;   (* Root directory base sector/cluster *)
  database : Z;  (* Data base sector *)
  winsect : Z;   (* Sector in win[] *)
  win : list Z   (* Disk access window *)
}.

Definition set_fs_type (x : Z) (r : FATFS) : FATFS :=
  mkFATFS x (pdrv r) (n_fats r) (wflag r) (fsi_flag r) (fs_id r)
    (n_rootdir r) (csize r) (last_clst r) (free_clst r) (n_fatent r)
    (fsize r) (volbase r) (fatbase r) (dirbase r) (database r)
    (winsect r) (win r).
Definition set_pdrv (x : Z) (r : FATFS) : FATFS :=
  mkFATFS (fs_type r) x (n_fats r) (wflag r) (fsi_flag r) (fs_id r)
    (n_rootdir r) (csize r) (last_clst r) (free_clst r) (n_fatent r)
    (fsize r) (volbase r) (fatbase r) (dirbase r) (database r)
    (winsect r) (win r).
Definition set_n_fats (x : Z) (r : FATFS) : FATFS :=
  mkFATFS (fs_type r) (pdrv r) x (wflag r) (fsi_flag r) (fs_id r)
    (n_rootdir r) (csize r) (last_clst r) (free_clst r) (n_fatent r)
    (fsize r) (volbase r) (fatbase r) (dirbase r) (database r)
    (winsect r) (win r).
Definition set_wflag (x : Z) (r : FATFS) : FATFS :=
  mkFATFS (fs_type r) (pdrv r) (n_fats r) x (fsi_flag r) (fs_id r)
    (n_rootdir r) (csize r) (last_clst r) (free_clst r) (n_fatent r)
    (fsize r) (volbase r) (fatbase r) (dirbase r) (database r)
    (winsect r) (win r).
Definition set_fsi_flag (x : Z) (r : FATFS) : FATFS :=
  mkFATFS (fs_type r) (pdrv r) (n_fats r) (wflag r) x (fs_id r)
    (n_rootdir r) (csize r) (last_clst r) (free_clst r) (n_fatent r)
    (fsize r) (volbase r) (fatbase r) (dirbase r) (database r)
    (winsect r) (win r).
Definition set_fs_id (x : Z) (r : FATFS) : FATFS :=
  mkFATFS (fs_type r) (pdrv r) (n_fats r) (wflag r) (fsi_flag r) x
    (n_rootdir r) (csize r) (last_clst r) (free_clst r) (n_fatent r)
    (fsize r) (volbase r) (fatbase r) (dirbase r) (database r)
    (winsect r) (win r).
Definition set_n_rootdir (x : Z) (r : FATFS) : FATFS :=
  mkFATFS (fs_type r) (pdrv r) (n_fats r) (wflag r) (fsi_flag r) (fs_id r) x
    (csize r) (last_clst r) (free_clst r) (n_fatent r) (fsize r)
    (volbase r) (fatbase r) (dirbase r) (database r) (winsect r)
    (win r).
Definition set_csize (x : Z) (r : FATFS) : FATFS :=
  mkFATFS (fs_type r) (pdrv r) (n_fats r) (wflag r) (fsi_flag r) (fs_id r)
    (n_rootdir r) x (last_clst r) (free_clst r) (n_fatent r) (fsize r)
    (volbase r) (fatbase r) (dirbase r) (database r) (winsect r)
    (win r).
Definition set_last_clst (x : Z) (r : FATFS) : FATFS :=
  mkFATFS (fs_type r) (pdrv r) (n_fats r) (wflag r) (fsi_flag r) (fs_id r)
    (n_rootdir r) (csize r) x (free_clst r) (n_fatent r) (fsize r)
    (volbase r) (fatbase r) (dirbase r) (database r) (winsect r)
    (win r).
Definition set_free_clst (x : Z) (r : FATFS) : FATFS :=
  mkFATFS (fs_type r) (pdrv r) (n_fats r) (wflag r) (fsi_flag r) (fs_id r)
    (n_rootdir r) (csize r) (last_clst r) x (n_fatent r) (fsize r)
    (volbase r) (fatbase r) (dirbase r) (database r) (winsect r)
    (win r).
Definition set_n_fatent (x : Z) (r : FATFS) : FATFS :=
  mkFATFS (fs_type r) (pdrv r) (n_fats r) (wflag r) (fsi_flag r) (fs_id r)
    (n_rootdir r) (csize r) (last_clst r) (free_clst r) x (fsize r)
    (volbase r) (fatbase r) (dirbase r) (database r) (winsect r)
    (win r).
Definition set_fsize (x : Z) (r : FATFS) : FATFS :=
  mkFATFS (fs_type r) (pdrv r) (n_fats r) (wflag r) (fsi_flag r) (fs_id r)
    (n_rootdir r) (csize r) (last_clst r) (free_clst r) (n_fatent r) x
    (volbase r) (fatbase r) (dirbase r) (database r) (winsect r)
    (win r).
Definition set_volbase (x : Z) (r : FATFS) : FATFS :=
  mkFATFS (fs_type r) (pdrv r) (n_fats r) (wflag r) (fsi_flag r) (fs_id r)
    (n_rootdir r) (csize r) (last_clst r) (free_clst r) (n_fatent r)
    (fsize r) x (fatbase r) (dirbase r) (database r) (winsect r)
    (win r).
Definition set_fatbase (x : Z) (r : FATFS) : FATFS :=
  mkFATFS (fs_type r) (pdrv r) (n_fats r) (wflag r) (fsi_flag r) (fs_id r)
    (n_rootdir r) (csize r) (last_clst r) (free_clst r) (n_fatent r)
    (fsize r) (volbase r) x (dirbase r) (database r) (winsect r)
    (win r).
Definition set_dirbase (x : Z) (r : FATFS) : FATFS :=
  mkFATFS (fs_type r) (pdrv r) (n_fats r) (wflag r) (fsi_flag r) (fs_id r)
    (n_rootdir r) (csize r) (last_clst r) (free_clst r) (n_fatent r)
    (fsize r) (volbase r) (fatbase r) x (database r) (winsect r)
    (win r).
Definition set_database (x : Z) (r : FATFS) : FATFS :=
  mkFATFS (fs_type r) (pdrv r) (n_fats r) (wflag r) (fsi_flag r) (fs_id r)
    (n_rootdir r) (csize r) (last_clst r) (free_clst r) (n_fatent r)
    (fsize r) (volbase r) (fatbase r) (dirbase r) x (winsect r)
    (win r).
Definition set_winsect (x : Z) (r : FATFS) : FATFS :=
  mkFATFS (fs_type r) (pdrv r) (n_fats r) (wflag r) (fsi_flag r) (fs_id r)
    (n_rootdir r) (csize r) (last_clst r) (free_clst r) (n_fatent r)
    (fsize r) (volbase r) (fatbase r) (dirbase r) (database r) x
    (win r).
Definition set_win (x : list Z) (r : FATFS) : FATFS :=
  mkFATFS (fs_type r) (pdrv r) (n_fats r) (wflag r) (fsi_flag r) (fs_id r)
    (n_rootdir r) (csize r) (last_clst r) (free_clst r) (n_fatent r)
    (fsize r) (volbase r) (fatbase r) (dirbase r) (database r)
    (winsect r) x.

(** [FFOBJID] of ff.h. *)
Record FFOBJID : Type := mkFFOBJID {
  obj_fs : bool; (* Hosting volume pointer is not null *)
  obj_id : Z;    (* Mount ID of the hosting volume *)
  attr : Z;      (* Object attribute *)
  stat : Z;      (* Chain status (exFAT only) *)
  sclust : Z;    (* Start cluster *)
  objsize : Z    (* Object size *)
}.

Definition set_obj_fs (x : bool) (r : FFOBJID) : FFOBJID :=
  mkFFOBJID x (obj_id r) (attr r) (stat r) (sclust r) (objsize r).
Definition set_obj_id (x : Z) (r : FFOBJID) : FFOBJID :=
  mkFFOBJID (obj_fs r) x (attr r) (stat r) (sclust r) (objsize r).
Definition set_attr (x : Z) (r : FFOBJID) : FFOBJID :=
  mkFFOBJID (obj_fs r) (obj_id r) x (stat r) (sclust r) (objsize r).
Definition set_stat (x : Z) (r : FFOBJID) : FFOBJID :=
  mkFFOBJID (obj_fs r) (obj_id r) (attr r) x (sclust r) (objsize r).
Definition set_sclust (x : Z) (r : FFOBJID) : FFOBJID :=
  mkFFOBJID (obj_fs r) (obj_id r) (attr r) (stat r) x (objsize r).
Definition set_objsize (x : Z) (r : FFOBJID) : FFOBJID :=
  mkFFOBJID (obj_fs r) (obj_id r) (attr r) (stat r) (sclust r) x.

(** [FIL] of ff.h. *)
Record FIL : Type := mkFIL {
  fobj : FFOBJID; (* Object identifier *)
  flag : Z;       (* File status flags *)
  err : Z;        (* Abort flag (error code) *)
  fptr : Z;       (* Read/write pointer *)
  fclust : Z;     (* Current cluster of fptr *)
  fsect : Z;      (* Sector in the window (0: invalid) *)
  dir_sect : Z;   (* Sector of the directory entry *)
  dir_ptr : Z     (* Directory entry, as an offset in win[] *)
}.

Definition set_fobj (x : FFOBJID) (r : FIL) : FIL :=
  mkFIL x (flag r) (err r) (fptr r) (fclust r) (fsect r) (dir_sect r)
    (dir_ptr r).
Definition set_flag (x : Z) (r : FIL) : FIL :=
  mkFIL (fobj r) x (err r) (fptr r) (fclust r) (fsect r) (dir_sect r)
    (dir_ptr r).
Definition set_err (x : Z) (r : FIL) : FIL :=
  mkFIL (fobj r) (flag r) x (fptr r) (fclust r) (fsect r) (dir_sect r)
    (dir_ptr r).
Definition set_fptr (x : Z) (r : FIL) : FIL :=
  mkFIL (fobj r) (flag r) (err r) x (fclust r) (fsect r) (dir_sect r)
    (dir_ptr r).
Definition set_fclust (x : Z) (r : FIL) : FIL :=
  mkFIL (fobj r) (flag r) (err r) (fptr r) x (fsect r) (dir_sect r)
    (dir_ptr r).
Definition set_fsect (x : Z) (r : FIL) : FIL :=
  mkFIL (fobj r) (flag r) (err r) (fptr r) (fclust r) x (dir_sect r)
    (dir_ptr r).
Definition set_dir_sect (x : Z) (r : FIL) : FIL :=
  mkFIL (fobj r) (flag r) (err r) (fptr r) (fclust r) (fsect r) x
    (dir_ptr r).
Definition set_dir_ptr (x : Z) (r : FIL) : FIL :=
  mkFIL (fobj r) (flag r) (err r) (fptr r) (fclust r) (fsect r)
    (dir_sect r) x.

(** [DIR] of ff.h. *)
Record DIR : Type := mkDIR {
  dobj : FFOBJID; (* Object identifier *)
  dptr : Z;       (* Current read/write offset *)
  dclust : Z;     (* Current cluster *)
  dsect : Z;      (* Current sector (0: terminated) *)
  ddir : Z;       (* Directory item, as an offset in win[] *)
  fn : list Z;    (* SFN {body[8], ext[3], status[1]} *)
  blk_ofs : Z     (* Offset of the current entry block *)
}.

Definition set_dobj (x : FFOBJID) (r : DIR) : DIR :=
  mkDIR x (dptr r) (dclust r) (dsect r) (ddir r) (fn r) (blk_ofs r).
Definition set_dptr (x : Z) (r : DIR) : DIR :=
  mkDIR (dobj r) x (dclust r) (dsect r) (ddir r) (fn r) (blk_ofs r).
Definition set_dclust (x : Z) (r : DIR) : DIR :=
  mkDIR (dobj r) (dptr r) x (dsect r) (ddir r) (fn r) (blk_ofs r).
Definition set_dsect (x : Z) (r : DIR) : DIR :=
  mkDIR (dobj r) (dptr r) (dclust r) x (ddir r) (fn r) (blk_ofs r).
Definition set_ddir (x : Z) (r : DIR) : DIR :=
  mkDIR (dobj r) (dptr r) (dclust r) (dsect r) x (fn r) (blk_ofs r).
Definition set_fn (x : list Z) (r : DIR) : DIR :=
  mkDIR (dobj r) (dptr r) (dclust r) (dsect r) (ddir r) x (blk_ofs r).
Definition set_blk_ofs (x : Z) (r : DIR) : DIR :=
  mkDIR (dobj r) (dptr r) (dclust r) (dsect r) (ddir r) (fn r) x.
(** The module state of ff.c: the filesystem object, the storage device
    behind it, the static LFN buffer [LfnBuf], the mount counter [Fsid]
    and whether [FatFs[0]] points to the object. *)
Record vol (D : Type) : Type := mkVol {
  vfs : FATFS;
  vdev : D;
  LfnBuf : list Z;
  Fsid : Z;
  FatFs : bool
}.
Arguments mkVol {D}.
Arguments vfs {D}.
Arguments vdev {D}.
Arguments LfnBuf {D}.
Arguments Fsid {D}.
Arguments FatFs {D}.

Definition set_vfs {D} (x : FATFS) (v : vol D) : vol D :=
  mkVol x (vdev v) (LfnBuf v) (Fsid v) (FatFs v).
Definition set_vdev {D} (x : D) (v : vol D) : vol D :=
  mkVol (vfs v) x (LfnBuf v) (Fsid v) (FatFs v).
Definition set_LfnBuf {D} (x : list Z) (v : vol D) : vol D :=
  mkVol (vfs v) (vdev v) x (Fsid v) (FatFs v).
Definition set_Fsid {D} (x : Z) (v : vol D) : vol D :=
  mkVol (vfs v) (vdev v) (LfnBuf v) x (FatFs v).
Definition set_FatFs {D} (x : bool) (v : vol D) : vol D :=
  mkVol (vfs v) (vdev v) (LfnBuf v) (Fsid v) x.

(** Field access of the one filesystem object, as [fs->field]. *)
Definition fs {D} : ST (vol D) FATFS := λ v, Some (vfs v, v).
Definition upd {D} (f : FATFS → FATFS) : ST (vol D) unit :=
  λ v, Some (tt, set_vfs (f (vfs v)) v).
