(* ===== verification/FfWindow.v ===== *)
(** The bottom layer of ff.c: little-endian words in a sector ([ld_word],
    [ld_dword], [st_word], [st_dword]), the one-sector disk access window
    ([sync_window], [move_window]), [sync_fs] and [clst2sect].

    The abstraction the upper layers use is [view]: the contents of a sector
    as FatFs sees it, that is the window where it is loaded and the device
    elsewhere.  [wf] is the invariant of the filesystem object and [veq] the
    equivalence "same volume, same view of every visible sector"; moving and
    flushing the window preserve both, whatever the device answers. *)
From Stdlib Require Import ZArith Lia.
From stdpp Require Import base list numbers option.
From S2P Require Import Prelude BlockDevice FfTypes.

Local Open Scope Z_scope.
Local Open Scope st_scope.

(** * Multi-byte words: [p] is the buffer, [o] the offset of [ptr] in it *)

Definition ld_word (p : list Z) (o : Z) : Z :=
  let rv := zget p (o + 1) in
  u16 (Z.lor (Z.shiftl rv 8) (zget p o)).

Definition ld_dword (p : list Z) (o : Z) : Z :=
  let rv := zget p (o + 3) in
  let rv := u32 (Z.lor (Z.shiftl rv 8) (zget p (o + 2))) in
  let rv := u32 (Z.lor (Z.shiftl rv 8) (zget p (o + 1))) in
  u32 (Z.lor (Z.shiftl rv 8) (zget p o)).

Definition st_word (p : list Z) (o v : Z) : list Z :=
  let p := zset p o (u8 v) in
  let v := Z.shiftr v 8 in
  zset p (o + 1) (u8 v).

Definition st_dword (p : list Z) (o v : Z) : list Z :=
  let p := zset p o (u8 v) in
  let v := Z.shiftr v 8 in
  let p := zset p (o + 1) (u8 v) in
  let v := Z.shiftr v 8 in
  let p := zset p (o + 2) (u8 v) in
  let v := Z.shiftr v 8 in
  zset p (o + 3) (u8 v).

(** Offsets in the boot sector and the FSINFO sector used below. *)
Definition BS_55AA : Z := 510.
Definition FSI_LeadSig : Z := 0.
Definition FSI_StrucSig : Z := 484.
Definition FSI_Free_Count : Z := 488.
Definition FSI_Nxt_Free : Z := 492.

Section ops.
Context {D : Type} `{BlockDevice D}.

(** [disk_read]/[disk_write]/[disk_ioctl] on [fs->pdrv]. *)
Definition dread (sect n : Z) : ST (vol D) (DRESULT * list Z) := λ v,
  let '(r, bs, d) := disk_read (pdrv (vfs v)) sect n (vdev v) in
  Some ((r, bs), set_vdev d v).
Definition dwrite (bs : list Z) (sect n : Z) : ST (vol D) DRESULT := λ v,
  let '(r, d) := disk_write (pdrv (vfs v)) bs sect n (vdev v) in
  Some (r, set_vdev d v).
Definition dioctl (cmd : Z) : ST (vol D) (DRESULT * option Z) := λ v,
  let '(r, x, d) := disk_ioctl (pdrv (vfs v)) cmd (vdev v) in
  Some ((r, x), set_vdev d v).

Definition sync_window : ST (vol D) FRESULT :=
  let! f := fs in
  if ztrue (wflag f) then
    let! r := dwrite (win f) (winsect f) 1 in
    match r with
    | RES_OK =>
        upd (set_wflag 0) ;!
        (if u32 (winsect f - fatbase f) <? fsize f then
           if n_fats f =? 2
           then dwrite (win f) (u32 (winsect f + fsize f)) 1 ;! sret tt
           else sret tt
         else sret tt) ;!
        sret FR_OK
    | _ => sret FR_DISK_ERR
    end
  else sret FR_OK.

Definition move_window (sect : Z) : ST (vol D) FRESULT :=
  let! f := fs in
  if sect =? winsect f then sret FR_OK else
  let! res := sync_window in
  match res with
  | FR_OK =>
      let! (dr, bs) := dread sect 1 in
      upd (λ f, set_win (zwrite (win f) 0 bs) f) ;!
      match dr with
      | RES_OK => upd (set_winsect sect) ;! sret FR_OK
      | _ => upd (set_winsect (u32 (0 - 1))) ;! sret FR_DISK_ERR
      end
  | _ => sret res
  end.

(** The FSINFO sector [sync_fs] builds in the window. *)
Definition fsinfo_sector (f : FATFS) : list Z :=
  let w := replicate 512 0 in
  let w := st_word w BS_55AA 0xAA55 in
  let w := st_dword w FSI_LeadSig 0x41615252 in
  let w := st_dword w FSI_StrucSig 0x61417272 in
  let w := st_dword w FSI_Free_Count (free_clst f) in
  st_dword w FSI_Nxt_Free (last_clst f).

(** Lines 1110-1124: the FSINFO sector is written if it has changed. *)
Definition sync_fsinfo : ST (vol D) unit :=
  let! f := fs in
  if (fs_type f =? FS_FAT32) && (fsi_flag f =? 1) then
    upd (λ f, set_winsect (u32 (volbase f + 1)) (set_win (fsinfo_sector f) f)) ;!
    let! f := fs in
    dwrite (win f) (winsect f) 1 ;!
    upd (set_fsi_flag 0)
  else sret tt.

Definition sync_fs : ST (vol D) FRESULT :=
  let! res := sync_window in
  match res with
  | FR_OK =>
      sync_fsinfo ;!
      let! (r, _) := dioctl CTRL_SYNC in
      match r with RES_OK => sret FR_OK | _ => sret FR_DISK_ERR end
  | _ => sret res
  end.

Definition clst2sect (f : FATFS) (clst : Z) : Z :=
  let clst := u32 (clst - 2) in
  if u32 (n_fatent f - 2) <=? clst then 0
  else u32 (database f + u32 (csize f * clst)).

End ops.

(** * Words *)

Lemma ld_word_val p o :
  bytes p → ld_word p o = zget p o + 256 * zget p (o + 1).
Proof.
  intros Hp. pose proof (zget_byte p o Hp). pose proof (zget_byte p (o + 1) Hp).
  unfold ld_word, is_byte in *. rewrite lor_shiftl_add by lia.
  rewrite u16_small; lia.
Qed.

Lemma ld_dword_val p o :
  bytes p →
  ld_dword p o = zget p o + 256 * zget p (o + 1)
                 + 65536 * zget p (o + 2) + 16777216 * zget p (o + 3).
Proof.
  intros Hp. pose proof (zget_byte p o Hp). pose proof (zget_byte p (o + 1) Hp).
  pose proof (zget_byte p (o + 2) Hp). pose proof (zget_byte p (o + 3) Hp).
  unfold ld_dword, is_byte in *.
  rewrite (lor_shiftl_add (zget p (o + 3))) by lia.
  rewrite (u32_small (_ + zget p (o + 2))) by lia.
  rewrite (lor_shiftl_add _ (zget p (o + 1))) by lia.
  rewrite (u32_small (_ + zget p (o + 1))) by lia.
  rewrite lor_shiftl_add by lia. rewrite u32_small; lia.
Qed.

Lemma ld_word_range p o : bytes p → 0 <= ld_word p o < 2 ^ 16.
Proof. intros. unfold ld_word. apply u16_range. Qed.

Lemma ld_dword_range p o : 0 <= ld_dword p o < 2 ^ 32.
Proof. apply u32_range. Qed.

Lemma st_word_bytes p o v : bytes p → bytes (st_word p o v).
Proof. intros. unfold st_word. auto with ffdb. Qed.

Lemma st_dword_bytes p o v : bytes p → bytes (st_dword p o v).
Proof. intros. unfold st_dword. auto 10 with ffdb. Qed.

Lemma st_word_length p o v : length (st_word p o v) = length p.
Proof. unfold st_word. by rewrite !zset_length. Qed.

Lemma st_dword_length p o v : length (st_dword p o v) = length p.
Proof. unfold st_dword. by rewrite !zset_length. Qed.

Lemma zlen_zset l i v : zlen (zset l i v) = zlen l.
Proof. unfold zlen. by rewrite zset_length. Qed.

(** Solve reads of a buffer after stores at other or equal offsets. *)
Ltac zsimp :=
  repeat first
    [ rewrite zget_zset_eq by (rewrite ?zlen_zset; lia)
    | rewrite zget_zset_ne by lia ].

Lemma zget_st_word_ne p o v i :
  0 <= o → 0 <= i → (i < o ∨ o + 2 <= i) → zget (st_word p o v) i = zget p i.
Proof. intros. unfold st_word. by zsimp. Qed.

Lemma zget_st_dword_ne p o v i :
  0 <= o → 0 <= i → (i < o ∨ o + 4 <= i) → zget (st_dword p o v) i = zget p i.
Proof. intros. unfold st_dword. by zsimp. Qed.

Lemma u8_shiftr v k : 0 <= k → u8 (Z.shiftr v k) = v / 2 ^ k mod 256.
Proof. intros. unfold u8. by rewrite Z.shiftr_div_pow2. Qed.

Lemma ld_st_word p o v :
  bytes p → 0 <= o → o + 2 <= zlen p → ld_word (st_word p o v) o = u16 v.
Proof.
  intros. rewrite ld_word_val by (by apply st_word_bytes).
  unfold st_word. zsimp. rewrite u8_shiftr by lia. unfold u8, u16.
  Z.div_mod_to_equations. lia.
Qed.

Lemma ld_st_dword p o v :
  bytes p → 0 <= o → o + 4 <= zlen p → ld_dword (st_dword p o v) o = u32 v.
Proof.
  intros. rewrite ld_dword_val by (by apply st_dword_bytes).
  unfold st_dword. zsimp. rewrite !Z.shiftr_shiftr, !u8_shiftr by lia.
  unfold u8, u32. change (2 ^ (8 + 8)) with (2 ^ 16).
  change (2 ^ (8 + 8 + 8)) with (2 ^ 24). Z.div_mod_to_equations. lia.
Qed.

Lemma ld_st_word_ne p o v o' :
  0 <= o → 0 <= o' → (o' + 2 <= o ∨ o + 2 <= o') →
  ld_word (st_word p o v) o' = ld_word p o'.
Proof. intros. unfold ld_word. by rewrite !zget_st_word_ne by lia. Qed.

Lemma ld_st_dword_ne p o v o' :
  0 <= o → 0 <= o' → (o' + 4 <= o ∨ o + 4 <= o') →
  ld_dword (st_dword p o v) o' = ld_dword p o'.
Proof. intros. unfold ld_dword. by rewrite !zget_st_dword_ne by lia. Qed.

#[export] Hint Resolve st_word_bytes st_dword_bytes : ffdb.

(** * The volume invariant *)

(** The largest FAT entry count of each FAT sub-type (MAX_FATxx + 2). *)
Definition fat_limit (t : Z) : Z :=
  if t =? FS_FAT12 then 0xFF7 else if t =? FS_FAT16 then 0xFFF7 else 0x0FFFFFF7.

(** Bytes of FAT that [n] entries need, as [mount_volume] computes it. *)
Definition fat_bytes (t n : Z) : Z :=
  if t =? FS_FAT12 then n * 3 / 2 + Z.land n 1
  else if t =? FS_FAT16 then n * 2 else n * 4.

(** The volume's areas lie in order on a device of [n] sectors. *)
Record geom (f : FATFS) (n : Z) : Prop := mkGeom {
  g_type : fs_type f = FS_FAT12 ∨ fs_type f = FS_FAT16 ∨ fs_type f = FS_FAT32;
  g_nfats : n_fats f = 1 ∨ n_fats f = 2;
  g_volbase : 0 <= volbase f;
  g_fatbase : volbase f < fatbase f;
  g_fsize : 0 < fsize f;
  g_database : fatbase f + n_fats f * fsize f <= database f;
  g_csize : 0 < csize f;
  g_nfatent : 2 < n_fatent f <= fat_limit (fs_type f);
  g_end : database f + csize f * (n_fatent f - 2) <= n;
  g_fat : fat_bytes (fs_type f) (n_fatent f) <= fsize f * SS;
  g_pow2 : csize f ∈ [1; 2; 4; 8; 16; 32; 64; 128]
}.

(** Sector [s] lies in the second copy of the FAT. *)
Definition in_fat2 (f : FATFS) (s : Z) : Prop :=
  n_fats f = 2 ∧ fatbase f + fsize f <= s < fatbase f + 2 * fsize f.

(** Everything of the filesystem object but the window. *)
Definition core (f : FATFS) : FATFS := set_win [] (set_winsect 0 (set_wflag 0 f)).

Section inv.
Context {D : Type} {BD : BlockDevice D} {BL : BlockDeviceLaws D}.
Implicit Types v : vol D.

Definition vis v (s : Z) : Prop :=
  0 <= s < sector_count (vdev v) ∧ ¬ in_fat2 (vfs v) s.

Definition view v (s : Z) : list Z :=
  if s =? winsect (vfs v) then win (vfs v) else sector (vdev v) s.

(** The window holds a visible sector, equal to the stored one when it is
    not dirty, or it is invalidated. *)
Definition win_ok v : Prop :=
  (winsect (vfs v) = 2 ^ 32 - 1 ∧ wflag (vfs v) = 0) ∨
  (vis v (winsect (vfs v)) ∧
   (wflag (vfs v) = 0 → win (vfs v) = sector (vdev v) (winsect (vfs v)))).

Record wf v : Prop := mkWf {
  wf_geom : geom (vfs v) (sector_count (vdev v));
  wf_len : length (win (vfs v)) = 512%nat;
  wf_bytes : bytes (win (vfs v));
  wf_win : win_ok v
}.

Record veq v v' : Prop := mkVeq {
  veq_core : core (vfs v) = core (vfs v');
  veq_count : sector_count (vdev v) = sector_count (vdev v');
  veq_lfn : LfnBuf v = LfnBuf v';
  veq_fsid : Fsid v = Fsid v';
  veq_reg : FatFs v = FatFs v';
  veq_view s : vis v s → view v s = view v' s
}.

(** The device never fails on the drive of this volume. *)
Definition reliable v : Prop := ReliableDevice D ∧ pdrv (vfs v) = 0.

(** The second FAT holds what the first one holds, except for the sector
    that sits dirty in the window. *)
Definition mirror v : Prop :=
  n_fats (vfs v) = 2 →
  ∀ s, fatbase (vfs v) <= s < fatbase (vfs v) + fsize (vfs v) →
       (s ≠ winsect (vfs v) ∨ wflag (vfs v) = 0) →
       sector (vdev v) (s + fsize (vfs v)) = sector (vdev v) s.

Lemma core_fields f f' :
  core f = core f' →
  fs_type f = fs_type f' ∧ pdrv f = pdrv f' ∧ n_fats f = n_fats f' ∧
  fsi_flag f = fsi_flag f' ∧ fs_id f = fs_id f' ∧ n_rootdir f = n_rootdir f' ∧
  csize f = csize f' ∧ last_clst f = last_clst f' ∧ free_clst f = free_clst f' ∧
  n_fatent f = n_fatent f' ∧ fsize f = fsize f' ∧ volbase f = volbase f' ∧
  fatbase f = fatbase f' ∧ dirbase f = dirbase f' ∧ database f = database f'.
Proof. destruct f, f'. unfold core. simpl. intros [= ]. by subst. Qed.

Lemma vis_veq v v' s : veq v v' → vis v s → vis v' s.
Proof.
  intros [Hc Hn _ _ _ _]. apply core_fields in Hc as (?&?&Hf&?&?&?&?&?&?&?&Hs&?&Hb&?&?).
  unfold vis, in_fat2. rewrite <- Hn, <- Hf, <- Hs, <- Hb. done.
Qed.

#[export] Instance veq_equiv : Equivalence veq.
Proof.
  split.
  - intros v. by constructor.
  - intros v v' Hv. pose proof Hv as [? ? ? ? ? Hw]. constructor; try done.
    intros s Hs. symmetry. apply Hw. revert Hs.
    unfold vis, in_fat2.
    destruct (core_fields (vfs v) (vfs v')) as (?&?&Hf&?&?&?&?&?&?&?&Hz&?&Hb&?&?);
      [by destruct Hv|].
    rewrite Hf, Hz, Hb, (veq_count _ _ Hv). done.
  - intros v1 v2 v3 H12 H23. pose proof H12 as [? ? ? ? ? Hw1].
    pose proof H23 as [? ? ? ? ? Hw2]. constructor; try congruence.
    intros s Hs. rewrite Hw1 by done. apply Hw2. by eapply vis_veq.
Qed.

Lemma geom_core f f' n : core f = core f' → geom f n → geom f' n.
Proof.
  intros Hc [? ? ? ? ? ? ? ? ? ?].
  apply core_fields in Hc as (E1&?&E2&?&?&?&E3&?&?&E4&E5&E6&E7&?&E8).
  split; congruence.
Qed.

Lemma reliable_veq v v' : veq v v' → reliable v → reliable v'.
Proof.
  intros [Hc _ _ _ _ _] [? Hp]. split; [done|].
  apply core_fields in Hc as (?&<-&?). done.
Qed.

(** ** Device accesses *)

Lemma dwrite_spec v bs s n :
  0 <= s → 0 < n → s + n <= sector_count (vdev v) → bytes bs → zlen bs = 512 * n →
  ∃ r d, dwrite bs s n v = Some (r, set_vdev d v) ∧
    sector_count d = sector_count (vdev v) ∧
    (∀ j, 0 <= j < sector_count (vdev v) → ¬ (s <= j < s + n) →
          sector d j = sector (vdev v) j) ∧
    (r = RES_OK → ∀ j, s <= j < s + n →
          sector d j = zread bs (512 * (j - s)) 512) ∧
    (reliable v → r = RES_OK).
Proof.
  intros Hs Hn Hc Hb Hl. unfold dwrite.
  destruct (disk_write _ bs s n (vdev v)) as [r d] eqn:E.
  exists r, d. split; [done|].
  destruct (disk_write_spec _ _ _ _ _ _ _ Hs Hn Hc Hb Hl E) as (?&?&?).
  split_and!; try done. intros [HR Hp]. rewrite Hp in E.
  pose proof (disk_write_ok bs s n (vdev v)) as Hok. rewrite E in Hok. apply Hok. lia.
Qed.

Lemma dread_spec v s n :
  0 <= s → 0 <= n → s + n <= sector_count (vdev v) →
  ∃ r bs d, dread s n v = Some ((r, bs), set_vdev d v) ∧
    sector_count d = sector_count (vdev v) ∧
    (∀ j, sector d j = sector (vdev v) j) ∧
    (r = RES_OK → bs = concat (sector (vdev v) <$> seqZ s n)) ∧
    zlen bs <= 512 * n ∧ bytes bs ∧
    (reliable v → r = RES_OK).
Proof.
  intros Hs Hn Hc. unfold dread.
  destruct (disk_read _ s n (vdev v)) as [[r bs] d] eqn:E.
  exists r, bs, d. split; [done|].
  destruct (disk_read_spec _ _ _ _ _ _ _ Hs Hn Hc E) as (?&?&?&?&?).
  split_and!; try done. intros [HR Hp]. rewrite Hp in E.
  pose proof (disk_read_ok s n (vdev v)) as Hok. by rewrite E in Hok.
Qed.

Lemma zread_all (l : list Z) : zread l 0 (zlen l) = l.
Proof. unfold zread, zlen. rewrite drop_0. apply take_ge. lia. Qed.

Lemma zwrite_all (l bs : list Z) : length bs = length l → zwrite l 0 bs = bs.
Proof.
  intros Hlen. apply list_eq_zget; [by rewrite zwrite_length|].
  unfold zlen. rewrite zwrite_length. intros i Hi.
  rewrite zget_zwrite_in by (unfold zlen; lia). f_equal. lia.
Qed.

(** ** [sync_window] *)

Lemma vis_winsect v : wf v → wflag (vfs v) ≠ 0 → vis v (winsect (vfs v)).
Proof. intros [_ _ _ [[_ ?]|[? _]]] ?; done. Qed.

(** Reaching the first FAT test of [sync_window]. *)
Lemma in_fat1_test v :
  wf v → vis v (winsect (vfs v)) →
  (u32 (winsect (vfs v) - fatbase (vfs v)) <? fsize (vfs v)) = true ↔
  fatbase (vfs v) <= winsect (vfs v) < fatbase (vfs v) + fsize (vfs v).
Proof.
  intros [G _ _ _] [Hr Hv]. destruct G.
  pose proof (sector_count_bound (vdev v)).
  assert (0 < csize (vfs v) * (n_fatent (vfs v) - 2)) by nia.
  assert (fsize (vfs v) <= n_fats (vfs v) * fsize (vfs v)) by nia.
  rewrite Z.ltb_lt. unfold u32.
  destruct (decide (fatbase (vfs v) <= winsect (vfs v))).
  - rewrite Z.mod_small by lia. lia.
  - rewrite <- (Z.mod_add _ 1) by lia. rewrite Z.mod_small by lia. lia.
Qed.

(** The state after the window was written back. *)
Definition flushed v (d : D) : vol D :=
  set_vdev d (set_vfs (set_wflag 0 (vfs v)) v).

Lemma flushed_ok v d :
  wf v → vis v (winsect (vfs v)) →
  sector_count d = sector_count (vdev v) →
  (∀ j, vis v j → j ≠ winsect (vfs v) → sector d j = sector (vdev v) j) →
  sector d (winsect (vfs v)) = win (vfs v) →
  wf (flushed v d) ∧ veq v (flushed v d).
Proof.
  intros [G Hl Hb Hw] Hv Hc Hf Hs. split.
  - split; simpl; try done.
    + rewrite Hc. by apply (geom_core (vfs v)).
    + right. split; [|done]. unfold vis in *. simpl. by rewrite Hc.
  - constructor; simpl; try done. intros s Hvs. unfold view. simpl.
    destruct (Z.eqb_spec s (winsect (vfs v))); [done|]. symmetry. by apply Hf.
Qed.

(** The state after a failed write-back of the window. *)
Lemma failed_write_ok v d :
  wf v → vis v (winsect (vfs v)) → wflag (vfs v) ≠ 0 →
  sector_count d = sector_count (vdev v) →
  (∀ j, vis v j → j ≠ winsect (vfs v) → sector d j = sector (vdev v) j) →
  wf (set_vdev d v) ∧ veq v (set_vdev d v).
Proof.
  intros [G Hl Hb Hw] Hv Hd Hc Hf. split.
  - split; simpl; try done; [by rewrite Hc|]. right. split; [|done].
    unfold vis in *. simpl. by rewrite Hc.
  - constructor; simpl; try done. intros s Hvs. unfold view. simpl.
    destruct (Z.eqb_spec s (winsect (vfs v))); [done|]. symmetry. by apply Hf.
Qed.

Lemma fat2_range v s :
  wf v → fatbase (vfs v) <= s < fatbase (vfs v) + fsize (vfs v) →
  n_fats (vfs v) = 2 →
  0 <= s ∧ s + fsize (vfs v) < sector_count (vdev v) ∧
  u32 (s + fsize (vfs v)) = s + fsize (vfs v) ∧ in_fat2 (vfs v) (s + fsize (vfs v)).
Proof.
  intros [G _ _ _] Hs Hn. destruct G. pose proof (sector_count_bound (vdev v)).
  assert (0 < csize (vfs v) * (n_fatent (vfs v) - 2)) by nia.
  rewrite Hn in *. rewrite u32_small by lia. unfold in_fat2. lia.
Qed.

(** Writing the window back, to both FATs when it holds a FAT sector,
    keeps the second FAT a copy of the first. *)
Lemma flushed_mirror v d :
  let ws := winsect (vfs v) in
  let in1 := fatbase (vfs v) <= ws < fatbase (vfs v) + fsize (vfs v) in
  wf v → vis v ws →
  (∀ j, 0 <= j < sector_count (vdev v) → j ≠ ws →
        ¬ (in1 ∧ n_fats (vfs v) = 2 ∧ j = ws + fsize (vfs v)) →
        sector d j = sector (vdev v) j) →
  sector d ws = win (vfs v) →
  (in1 → n_fats (vfs v) = 2 → sector d (ws + fsize (vfs v)) = win (vfs v)) →
  mirror v → mirror (flushed v d).
Proof.
  intros ws in1 Hwf [Hr H2] Hfr Hs Hcopy Hm Hn s Hin _. simpl in *.
  destruct (fat2_range v s Hwf Hin Hn) as (?&?&?&?).
  destruct (decide (s = ws)) as [->|Hne]; [by rewrite Hcopy|].
  assert (s + fsize (vfs v) ≠ ws) by (intros Heq; apply H2; by rewrite <- Heq).
  rewrite !Hfr; [apply Hm; auto|lia|lia|unfold in1; lia|lia|lia|].
  intros (_&_&?). lia.
Qed.

Definition sync_post v (r : FRESULT) v' : Prop :=
  wf v' ∧ veq v v' ∧ winsect (vfs v') = winsect (vfs v) ∧
  win (vfs v') = win (vfs v) ∧
  (r = FR_OK → wflag (vfs v') = 0) ∧ (r = FR_OK ∨ r = FR_DISK_ERR) ∧
  (reliable v → r = FR_OK ∧ (mirror v → mirror v')).

Lemma sync_window_spec v :
  wf v → ∃ r v', sync_window v = Some (r, v') ∧ sync_post v r v'.
Proof.
  intros Hwf. unfold sync_window. rewrite (sbind_run fs _ v _ v eq_refl).
  destruct (ztrue (wflag (vfs v))) eqn:Ef; unfold ztrue in Ef; zb.
  2:{ exists FR_OK, v. split; [done|]. unfold sync_post. by split_and!; auto. }
  pose proof (vis_winsect v Hwf Ef) as Hv. pose proof Hv as [Hr H2].
  pose proof Hwf as [G Hlen Hb _].
  destruct (dwrite_spec v (win (vfs v)) (winsect (vfs v)) 1)
    as (r & d & E & Hc & Hfr & Hok & Hrel); [lia..|done|unfold zlen; lia|].
  rewrite (sbind_run _ _ _ _ _ E).
  assert (∀ j, vis v j → j ≠ winsect (vfs v) → sector d j = sector (vdev v) j) as Hfr'.
  { intros j [? _] ?. apply Hfr; lia. }
  assert (r = RES_OK → sector d (winsect (vfs v)) = win (vfs v)) as Hs.
  { intros ->. rewrite Hok by (done || lia).
    replace (512 * _) with 0 by lia. replace 512 with (zlen (win (vfs v))) by (unfold zlen; lia).
    apply zread_all. }
  destruct (decide (r = RES_OK)) as [->|Hne].
  2:{ exists FR_DISK_ERR, (set_vdev d v). split; [by destruct r|].
      destruct (failed_write_ok v d Hwf Hv Ef Hc Hfr').
      unfold sync_post. split_and!; auto; try done.
      intros HR. by apply Hrel in HR. }
  specialize (Hs eq_refl). cbv beta iota.
  rewrite (sbind_run (upd _) _ (set_vdev d v) tt (flushed v d) eq_refl).
  destruct (flushed_ok v d Hwf Hv Hc Hfr' Hs) as [Hwf1 Hveq1].
  destruct (_ <? fsize (vfs v)) eqn:Ein; [destruct (n_fats (vfs v) =? 2) eqn:En|].
  - apply in_fat1_test in Ein; [|done..]. zb.
    destruct (fat2_range v _ Hwf Ein En) as (?&?&Hu&Hi2). rewrite Hu.
    destruct (dwrite_spec (flushed v d) (win (vfs v)) (winsect (vfs v) + fsize (vfs v)) 1)
      as (r2 & d2 & E2 & Hc2 & Hfr2 & Hok2 & Hrel2);
      [lia|lia|simpl; lia|done|unfold zlen; lia|].
    exists FR_OK, (flushed v d2). split; [by unfold sbind; rewrite E2|].
    destruct G. simpl in *.
    destruct (flushed_ok v d2 Hwf Hv) as [Hwf2 Hveq2]; [lia| | |].
    { intros j Hj ?. rewrite Hfr2, Hfr'; try done; [destruct Hj; lia|].
      intros ?. destruct Hj as [_ Hj]. apply Hj. by replace j with (winsect (vfs v) + fsize (vfs v)) by lia. }
    { rewrite Hfr2; [done|lia|lia]. }
    unfold sync_post. split_and!; auto. intros HR. split; [done|].
    apply flushed_mirror; try done.
    + intros j ? ? ?. rewrite Hfr2, Hfr; [done|lia|lia|lia|]. intros ?.
      assert (j = winsect (vfs v) + fsize (vfs v)) by lia. tauto.
    + rewrite Hfr2; [done|lia|lia].
    + intros _ _. rewrite (Hok2 (Hrel2 HR)) by lia.
      replace (512 * _) with 0 by lia.
      replace 512 with (zlen (win (vfs v))) by (unfold zlen; lia). apply zread_all.
  - exists FR_OK, (flushed v d). split; [done|]. unfold sync_post. split_and!; auto.
    intros HR. split; [done|]. zb. apply flushed_mirror; try done. intros; apply Hfr; lia.
  - exists FR_OK, (flushed v d). split; [done|]. unfold sync_post. split_and!; auto.
    intros HR. split; [done|].
    assert (¬ (fatbase (vfs v) <= winsect (vfs v) < fatbase (vfs v) + fsize (vfs v))).
    { intros Hin. apply in_fat1_test in Hin; [|done..]. congruence. }
    apply flushed_mirror; try done. intros; apply Hfr; lia.
Qed.

(** ** [move_window] *)

Definition move_post v (sect : Z) (r : FRESULT) v' : Prop :=
  wf v' ∧ veq v v' ∧
  (r = FR_OK → winsect (vfs v') = sect ∧ win (vfs v') = view v sect) ∧
  (r = FR_OK ∨ r = FR_DISK_ERR) ∧
  (reliable v → r = FR_OK ∧ (mirror v → mirror v')).

Lemma view_win v : view v (winsect (vfs v)) = win (vfs v).
Proof. unfold view. by rewrite Z.eqb_refl. Qed.

Lemma view_clean v s :
  wf v → wflag (vfs v) = 0 → vis v s → view v s = sector (vdev v) s.
Proof.
  intros [_ _ _ [[Hw _]|[_ Hw]]] Hf [Hs _]; unfold view.
  - pose proof (sector_count_bound (vdev v)).
    destruct (Z.eqb_spec s (winsect (vfs v))); [lia|done].
  - destruct (Z.eqb_spec s (winsect (vfs v))) as [->|]; auto.
Qed.

(** Replacing a clean window, by the stored sector or by an invalid one. *)
Lemma reload_ok v d sect w :
  wf v → wflag (vfs v) = 0 →
  sector_count d = sector_count (vdev v) →
  (∀ j, sector d j = sector (vdev v) j) →
  length w = 512%nat → bytes w →
  (sect = 2 ^ 32 - 1 ∨ (vis v sect ∧ w = sector d sect)) →
  let v' := set_vdev d (set_vfs (set_winsect sect (set_win w (vfs v))) v) in
  wf v' ∧ veq v v' ∧ (mirror v → mirror v').
Proof.
  intros Hwf Hf Hc Hs Hl Hb Hsect v'.
  pose proof (sector_count_bound (vdev v)).
  assert (∀ s, vis v s → view v s = view v' s) as Hview.
  { intros s Hv. rewrite (view_clean v) by done. unfold view, v'. simpl.
    destruct (Z.eqb_spec s sect) as [->|]; [|by rewrite Hs].
    destruct Hsect as [->|[_ ->]]; [destruct Hv; lia|by rewrite Hs]. }
  split; [|split].
  - destruct Hwf as [G _ _ _]. split; simpl; try done.
    + rewrite Hc. by apply (geom_core (vfs v)).
    + destruct Hsect as [->|[[??] ->]]; [by left|right].
      split; [|done]. unfold vis. simpl. by rewrite Hc.
  - by constructor; simpl.
  - intros Hm Hn s Hin _. simpl in *. rewrite !Hs. apply Hm; auto.
Qed.

Lemma move_window_spec v sect :
  wf v → vis v sect → ∃ r v', move_window sect v = Some (r, v') ∧ move_post v sect r v'.
Proof.
  intros Hwf Hv. unfold move_window. rewrite (sbind_run fs _ v _ v eq_refl).
  destruct (Z.eqb_spec sect (winsect (vfs v))) as [->|Hne].
  { exists FR_OK, v. split; [done|]. unfold move_post. rewrite view_win. by split_and!; auto. }
  destruct (sync_window_spec v Hwf) as (r & v1 & E1 & Hwf1 & Hveq1 & _ & _ & Hfl & Hr & Hrel).
  rewrite (sbind_run _ _ _ _ _ E1).
  destruct (decide (r = FR_OK)) as [->|Hrne].
  2:{ destruct Hr as [?| ->]; [done|]. exists FR_DISK_ERR, v1. split; [done|].
      unfold move_post. split_and!; auto. done. }
  assert (vis v1 sect) as Hv1 by (by apply (vis_veq v)).
  destruct (dread_spec v1 sect 1) as (dr & bs & d & E2 & Hc & Hs & Hok & Hbl & Hbb & Hrel2);
    [destruct Hv1; lia..|].
  rewrite (sbind_run _ _ _ _ _ E2). cbv beta iota.
  pose proof Hwf1 as [G1 Hl1 Hb1 _].
  assert (bytes (zwrite (win (vfs v1)) 0 bs)) as Hbw by auto with ffdb.
  destruct (decide (dr = RES_OK)) as [->|Hdr].
  - assert (bs = sector (vdev v1) sect) as ->.
    { rewrite Hok by done. simpl. by rewrite app_nil_r. }
    rewrite zwrite_all in Hbw by (rewrite sector_length; lia).
    destruct (reload_ok v1 d sect (sector (vdev v1) sect)) as (Hwf2 & Hveq2 & Hm2);
      auto; [by rewrite sector_length|].
    eexists FR_OK, _. split.
    { unfold sbind, upd, sret, set_vfs, set_vdev. simpl. rewrite zwrite_all
        by (rewrite sector_length; lia). reflexivity. }
    unfold move_post. split_and!; auto.
    + by transitivity v1.
    + intros _. split; [done|]. simpl. rewrite (veq_view _ _ Hveq1) by done.
      symmetry. apply view_clean; auto.
    + intros HR. destruct (Hrel HR). auto.
  - destruct (reload_ok v1 d (2 ^ 32 - 1) (zwrite (win (vfs v1)) 0 bs)) as (Hwf2 & Hveq2 & Hm2);
      auto; [by rewrite zwrite_length|].
    eexists FR_DISK_ERR, _. split; [by destruct dr|].
    unfold move_post. split_and!; auto.
    + by transitivity v1.
    + done.
    + intros HR. destruct Hdr. by apply Hrel2, (reliable_veq v).
Qed.


(** ** [sync_fs] *)

(** The FSINFO sector may be rewritten. *)
Definition fsi_dirty (f : FATFS) : bool := (fs_type f =? FS_FAT32) && (fsi_flag f =? 1).

Lemma fsinfo_ok f : length (fsinfo_sector f) = 512%nat ∧ bytes (fsinfo_sector f).
Proof.
  unfold fsinfo_sector. split.
  - by rewrite !st_dword_length, st_word_length.
  - repeat apply st_dword_bytes. apply st_word_bytes, Forall_replicate. unfold is_byte. lia.
Qed.

Lemma fsinfo_core f f' : core f = core f' → fsinfo_sector f = fsinfo_sector f'.
Proof.
  intros Hc. apply core_fields in Hc as (_&_&_&_&_&_&_&E1&E2&_). unfold fsinfo_sector.
  by rewrite E1, E2.
Qed.

#[local] Opaque fsinfo_sector.

Lemma dioctl_spec v c :
  ∃ r x d, dioctl c v = Some ((r, x), set_vdev d v) ∧
    sector_count d = sector_count (vdev v) ∧ (∀ j, sector d j = sector (vdev v) j) ∧
    (reliable v → r = RES_OK).
Proof.
  unfold dioctl. destruct (disk_ioctl _ c (vdev v)) as [[r x] d] eqn:E.
  exists r, x, d. split; [done|].
  destruct (disk_ioctl_spec _ _ _ _ _ _ E). split_and!; try done. intros [HR Hp]. rewrite Hp in E.
  pose proof (disk_ioctl_ok c (vdev v)) as Hok. by rewrite E in Hok.
Qed.

(** Replacing the device by one with the same sectors. *)
Lemma set_vdev_ok v d :
  wf v → sector_count d = sector_count (vdev v) → (∀ j, sector d j = sector (vdev v) j) →
  wf (set_vdev d v) ∧ veq v (set_vdev d v) ∧ (mirror v → mirror (set_vdev d v)).
Proof.
  intros [G Hl Hb Hw] Hc Hs. split_and!.
  - split; simpl; try done; [by rewrite Hc|]. unfold win_ok, vis in *. simpl. by rewrite Hc, Hs.
  - constructor; simpl; try done. intros s _. unfold view. simpl. by rewrite Hs.
  - unfold mirror. simpl. intros Hm Hn s Hin Hd. rewrite !Hs. auto.
Qed.

(** The state after the FSINFO sector was written. *)
Definition fsinfo_written v (d : D) : vol D :=
  set_vdev d (set_vfs (set_fsi_flag 0
    (set_winsect (volbase (vfs v) + 1) (set_win (fsinfo_sector (vfs v)) (vfs v)))) v).

Lemma fsinfo_written_ok v d :
  wf v → wflag (vfs v) = 0 → volbase (vfs v) + 1 < fatbase (vfs v) →
  sector_count d = sector_count (vdev v) →
  (∀ j, 0 <= j < sector_count (vdev v) → j ≠ volbase (vfs v) + 1 → sector d j = sector (vdev v) j) →
  sector d (volbase (vfs v) + 1) = fsinfo_sector (vfs v) →
  let v' := fsinfo_written v d in
  wf v' ∧ (∀ s, vis v s → s ≠ volbase (vfs v) + 1 → view v' s = view v s) ∧
  (mirror v → mirror v').
Proof.
  intros Hwf Hf Hvb Hc Hfr Hs v'. pose proof Hwf as [G Hl Hb Hw].
  destruct (fsinfo_ok (vfs v)) as [Hl' Hb'].
  assert (0 < csize (vfs v) * (n_fatent (vfs v) - 2)) by (destruct G; nia).
  assert (0 < n_fats (vfs v) * fsize (vfs v)) by (destruct G; nia).
  split_and!.
  - split; simpl; [|exact Hl'|exact Hb'|].
    + rewrite Hc. destruct G; split; assumption.
    + right. split; [|by intros _; simpl; rewrite Hs].
      unfold vis, in_fat2. simpl. rewrite Hc. destruct G. lia.
  - intros s Hvs Hne. rewrite (view_clean v) by done. unfold view. simpl.
    rewrite (proj2 (Z.eqb_neq _ _)) by done. apply Hfr; [destruct Hvs|]; done.
  - intros Hm Hn s Hin _. simpl in *. destruct (fat2_range v s Hwf Hin Hn) as (?&?&?&?).
    destruct G. rewrite !Hfr by lia. apply Hm; auto.
Qed.

Definition syncfs_post v v' : Prop :=
  wf v' ∧ wflag (vfs v') = 0 ∧ set_fsi_flag 0 (core (vfs v')) = set_fsi_flag 0 (core (vfs v)) ∧
  sector_count (vdev v') = sector_count (vdev v) ∧
  LfnBuf v' = LfnBuf v ∧ Fsid v' = Fsid v ∧ FatFs v' = FatFs v ∧
  (∀ s, vis v s → s ≠ volbase (vfs v) + 1 → view v' s = view v s) ∧
  (∀ s, vis v s → sector (vdev v') s = view v' s) ∧
  (fsi_dirty (vfs v) = true → sector (vdev v') (volbase (vfs v) + 1) = fsinfo_sector (vfs v)) ∧
  (mirror v → mirror v').

Lemma fsi_dirty_core f f' : core f = core f' → fsi_dirty f = fsi_dirty f'.
Proof.
  intros Hc. apply core_fields in Hc as (E1&_&_&E2&_). unfold fsi_dirty. by rewrite E1, E2.
Qed.

Lemma vis_fsinfo v : wf v → vis v (volbase (vfs v) + 1).
Proof.
  intros [G _ _ _]. assert (0 < csize (vfs v) * (n_fatent (vfs v) - 2)) by (destruct G; nia).
  assert (fsize (vfs v) <= n_fats (vfs v) * fsize (vfs v)) by (destruct G; nia).
  unfold vis, in_fat2. destruct G. lia.
Qed.

(** Writing FSINFO from a clean window. *)
Lemma sync_fsinfo_spec v :
  wf v → reliable v → wflag (vfs v) = 0 → volbase (vfs v) + 1 < fatbase (vfs v) →
  ∃ v', sync_fsinfo v = Some (tt, v') ∧ syncfs_post v v' ∧ reliable v'.
Proof.
  intros Hwf HR Hfl Hvb. unfold sync_fsinfo. rewrite (sbind_run fs _ v _ v eq_refl).
  fold (fsi_dirty (vfs v)). destruct (fsi_dirty (vfs v)) eqn:Ed.
  2:{ exists v. split; [done|]. split; [|done]. unfold syncfs_post. rewrite Ed.
      split_and!; auto; [|done]. intros s Hs. symmetry. by apply view_clean. }
  destruct (vis_fsinfo v Hwf) as [Hr _]. pose proof (sector_count_bound (vdev v)).
  set (v2 := set_vfs (set_winsect (volbase (vfs v) + 1)
    (set_win (fsinfo_sector (vfs v)) (vfs v))) v).
  rewrite (sbind_run (upd _) _ v tt v2) by (unfold upd, v2; by rewrite u32_small by lia).
  rewrite (sbind_run fs _ v2 _ v2 eq_refl).
  destruct (fsinfo_ok (vfs v)) as [Hl' Hb'].
  destruct (dwrite_spec v2 (win (vfs v2)) (winsect (vfs v2)) 1)
    as (r & d & E2 & Hc2 & Hfr2 & Hok2 & Hrel2);
    [simpl; lia|lia|simpl; lia|done|unfold zlen; simpl; lia|].
  specialize (Hok2 (Hrel2 HR)). simpl in Hc2, Hfr2, Hok2.
  rewrite (sbind_run _ _ _ _ _ E2). exists (fsinfo_written v d). split; [done|].
  assert (sector d (volbase (vfs v) + 1) = fsinfo_sector (vfs v)) as Hfsi.
  { rewrite Hok2 by lia. replace (512 * _) with 0 by lia.
    replace 512 with (zlen (fsinfo_sector (vfs v))) by (unfold zlen; lia). apply zread_all. }
  destruct (fsinfo_written_ok v d Hwf Hfl) as (Hwf3 & Hview3 & Hm3);
    [exact Hvb|exact Hc2|intros j ? ?; apply Hfr2; lia|exact Hfsi|].
  split; [|done]. unfold syncfs_post. split_and!; auto.
  intros s Hs. symmetry. apply view_clean; [done|done|].
  unfold vis, in_fat2 in *. simpl. by rewrite Hc2.
Qed.

(** Flushing leaves nothing in the window only, and FSINFO up to date. *)
Lemma sync_fs_spec v :
  wf v → reliable v → volbase (vfs v) + 1 < fatbase (vfs v) →
  ∃ v', sync_fs v = Some (FR_OK, v') ∧ syncfs_post v v'.
Proof.
  intros Hwf HR Hvb. unfold sync_fs.
  destruct (sync_window_spec v Hwf) as (r & v1 & E1 & Hwf1 & Hveq1 & _ & _ & Hfl & _ & Hrel).
  destruct (Hrel HR) as [-> Hm1]. rewrite (sbind_run _ _ _ _ _ E1). specialize (Hfl eq_refl).
  cbv beta iota. pose proof Hveq1 as [Hcore Hcnt Hlfn Hid Hreg Hview].
  pose proof (core_fields _ _ Hcore) as (_&_&_&_&_&_&_&_&_&_&_&Evb&Efb&_).
  destruct (sync_fsinfo_spec v1 Hwf1 (reliable_veq _ _ Hveq1 HR) Hfl) as (v2 & E2 & Hp & HR2); [lia|].
  rewrite (sbind_run _ _ _ _ _ E2).
  destruct Hp as (Hwf2&Hfl2&Hcore2&Hcnt2&Hlfn2&Hid2&Hreg2&Hview2&Hsec2&Hfsi2&Hm2).
  destruct (dioctl_spec v2 CTRL_SYNC) as (r4 & x & d4 & E4 & Hc4 & Hs4 & Hrel4).
  destruct (set_vdev_ok v2 d4 Hwf2 Hc4 Hs4) as (Hwf4 & Hveq4 & Hm4).
  rewrite (Hrel4 HR2) in E4. exists (set_vdev d4 v2). rewrite (sbind_run _ _ _ _ _ E4).
  split; [done|]. unfold syncfs_post. simpl. split_and!; try done; try congruence.
  - intros s Hs Hne. rewrite Hview by done. rewrite <- Hview2; [|by apply (vis_veq v)|lia].
    unfold view. simpl. by rewrite Hs4.
  - intros s Hs. rewrite Hs4, (Hsec2 s) by (by apply (vis_veq v)). unfold view. simpl. by rewrite Hs4.
  - rewrite (fsi_dirty_core _ _ Hcore), (fsinfo_core _ _ Hcore), Evb, Hs4. done.
  - auto.
Qed.

(** ** Clusters of the data area *)

(** Sector [j] of cluster [c]. *)
Definition data_sect (f : FATFS) (c j : Z) : Z := database f + csize f * (c - 2) + j.

Lemma csize_range f n : geom f n → 1 <= csize f <= 128.
Proof.
  intros G. pose proof (g_pow2 _ _ G) as Hp.
  assert (Forall (λ c, 1 <= c <= 128) [1; 2; 4; 8; 16; 32; 64; 128]) as HF
    by (apply (bool_decide_eq_true_1 (Forall _ _)); by vm_compute).
  exact (proj1 (list.Forall_forall _ _) HF _ Hp).
Qed.

Lemma clst2sect_spec v c :
  wf v → 2 <= c < n_fatent (vfs v) → clst2sect (vfs v) c = data_sect (vfs v) c 0.
Proof.
  intros [G _ _ _] Hc. pose proof (csize_range _ _ G). pose proof (sector_count_bound (vdev v)).
  unfold clst2sect, data_sect. destruct G.
  assert (n_fatent (vfs v) < 2 ^ 28) by (revert g_nfatent0; unfold fat_limit; bool_cases; lia).
  assert (csize (vfs v) * (c - 2) < csize (vfs v) * (n_fatent (vfs v) - 2)) by nia.
  assert (0 <= csize (vfs v) * (c - 2)) by nia.
  assert (0 < n_fats (vfs v) * fsize (vfs v)) by nia.
  rewrite !(u32_small (_ - 2)) by lia. rewrite (proj2 (Z.leb_gt _ _)) by lia.
  rewrite (u32_small (csize (vfs v) * (c - 2))) by lia. rewrite u32_small; lia.
Qed.

Lemma clst2sect_invalid v c :
  wf v → 0 <= c < 2 ^ 32 → ¬ (2 <= c < n_fatent (vfs v)) → clst2sect (vfs v) c = 0.
Proof.
  intros [G _ _ _] Hc Hn. unfold clst2sect. destruct G.
  assert (n_fatent (vfs v) < 2 ^ 28) by (revert g_nfatent0; unfold fat_limit; bool_cases; lia).
  rewrite (u32_small (n_fatent (vfs v) - 2)) by lia.
  rewrite (proj2 (Z.leb_le _ _)); [done|].
  destruct (decide (2 <= c)).
  - rewrite u32_small by lia. lia.
  - unfold u32. rewrite <- (Z.mod_add _ 1) by lia. rewrite Z.mod_small by lia. lia.
Qed.

(** The sectors of the data area are visible and outside the FAT. *)
Lemma data_sect_vis v c j :
  wf v → 2 <= c < n_fatent (vfs v) → 0 <= j < csize (vfs v) →
  vis v (data_sect (vfs v) c j) ∧ 0 < data_sect (vfs v) c j < 2 ^ 32 ∧
  fatbase (vfs v) + fsize (vfs v) <= data_sect (vfs v) c j.
Proof.
  intros [G _ _ _] Hc Hj. pose proof (sector_count_bound (vdev v)). destruct G.
  assert (csize (vfs v) * (c - 2) + csize (vfs v) <= csize (vfs v) * (n_fatent (vfs v) - 2)) by nia.
  assert (0 <= csize (vfs v) * (c - 2)) by nia.
  assert (n_fats (vfs v) = 2 → n_fats (vfs v) * fsize (vfs v) = 2 * fsize (vfs v)) by (intros ->; lia).
  assert (fsize (vfs v) <= n_fats (vfs v) * fsize (vfs v)) by nia.
  unfold vis, in_fat2, data_sect. lia.
Qed.

(** Different places of the data area are different sectors. *)
Lemma data_sect_inj f c j c' j' :
  0 <= j < csize f → 0 <= j' < csize f → data_sect f c j = data_sect f c' j' → c = c' ∧ j = j'.
Proof.
  intros Hj Hj' He. unfold data_sect in He.
  assert (csize f * (c - 2) + j = csize f * (c' - 2) + j') as He' by lia.
  destruct (Z.lt_total c c') as [?|[->|?]]; [|lia|]; nia.
Qed.

End inv.
