(* ===== verification/FfFat.v ===== *)
(** FAT access in ff.c: [get_fat] and [put_fat] on FAT12, FAT16 and FAT32.

    [fat_entry] is the reference reading of an entry, a function of the
    [view] of the first FAT.  The theorems say that [get_fat] returns it,
    that [put_fat] changes the addressed entry and no other one (on FAT12
    too, where two entries share a byte and an entry may straddle two
    sectors), and that both keep the invariants of the window layer. *)
From Stdlib Require Import ZArith Lia.
From stdpp Require Import base list numbers option.
From S2P Require Import Prelude BlockDevice FfTypes FfWindow.

Local Open Scope Z_scope.
Local Open Scope st_scope.

Section ops.
Context {D : Type} `{BlockDevice D}.

Definition get_fat (clst : Z) : ST (vol D) Z :=
  let! f := fs in
  if (clst <? 2) || (n_fatent f <=? clst) then sret 1
  else if fs_type f =? FS_FAT12 then
    let bc := u32 (clst + clst / 2) in
    let! r := move_window (u32 (fatbase f + bc / SS)) in
    if negb (fr_ok r) then sret 0xFFFFFFFF else
    let! f := fs in
    let wc := zget (win f) (bc mod SS) in
    let bc := u32 (bc + 1) in
    let! r := move_window (u32 (fatbase f + bc / SS)) in
    if negb (fr_ok r) then sret 0xFFFFFFFF else
    let! f := fs in
    let wc := Z.lor wc (Z.shiftl (zget (win f) (bc mod SS)) 8) in
    sret (if ztrue (Z.land clst 1) then Z.shiftr wc 4 else Z.land wc 0xFFF)
  else if fs_type f =? FS_FAT16 then
    let! r := move_window (u32 (fatbase f + clst / (SS / 2))) in
    if negb (fr_ok r) then sret 0xFFFFFFFF else
    let! f := fs in
    sret (ld_word (win f) (u32 (clst * 2) mod SS))
  else if fs_type f =? FS_FAT32 then
    let! r := move_window (u32 (fatbase f + clst / (SS / 4))) in
    if negb (fr_ok r) then sret 0xFFFFFFFF else
    let! f := fs in
    sret (Z.land (ld_dword (win f) (u32 (clst * 4) mod SS)) 0x0FFFFFFF)
  else sret 1.

(** [*p = ...; fs->wflag = 1] on the window. *)
Definition win_store (g : list Z → list Z) : ST (vol D) unit :=
  upd (λ f, set_wflag 1 (set_win (g (win f)) f)).

Definition put_fat (clst val : Z) : ST (vol D) FRESULT :=
  let! f := fs in
  if (2 <=? clst) && (clst <? n_fatent f) then
    if fs_type f =? FS_FAT12 then
      let bc := u32 (clst + clst / 2) in
      let! res := move_window (u32 (fatbase f + bc / SS)) in
      if negb (fr_ok res) then sret res else
      let p := bc mod SS in
      let bc := u32 (bc + 1) in
      win_store (λ w, zset w p
        (if ztrue (Z.land clst 1)
         then u8 (Z.lor (Z.land (zget w p) 0x0F) (Z.shiftl (u8 val) 4))
         else u8 val)) ;!
      let! res := move_window (u32 (fatbase f + bc / SS)) in
      if negb (fr_ok res) then sret res else
      let p := bc mod SS in
      win_store (λ w, zset w p
        (if ztrue (Z.land clst 1)
         then u8 (Z.shiftr val 4)
         else u8 (Z.lor (Z.land (zget w p) 0xF0)
                        (Z.land (u8 (Z.shiftr val 8)) 0x0F)))) ;!
      sret res
    else if fs_type f =? FS_FAT16 then
      let! res := move_window (u32 (fatbase f + clst / (SS / 2))) in
      if negb (fr_ok res) then sret res else
      win_store (λ w, st_word w (u32 (clst * 2) mod SS) (u16 val)) ;!
      sret res
    else if fs_type f =? FS_FAT32 then
      let! res := move_window (u32 (fatbase f + clst / (SS / 4))) in
      if negb (fr_ok res) then sret res else
      win_store (λ w,
        let o := u32 (clst * 4) mod SS in
        let val := Z.lor (Z.land val 0x0FFFFFFF) (Z.land (ld_dword w o) 0xF0000000) in
        st_dword w o val) ;!
      sret res
    else sret FR_INT_ERR
  else sret FR_INT_ERR.

End ops.

(** * Changes of the volume outside a set of sectors *)

(** The geometry: all but the window and the allocation counters. *)
Definition geo (f : FATFS) : FATFS :=
  set_last_clst 0 (set_free_clst 0 (set_fsi_flag 0 (core f))).

Definition in_fat1 (f : FATFS) (s : Z) : Prop :=
  fatbase f <= s < fatbase f + fsize f.

Lemma geo_fields f f' :
  geo f = geo f' →
  fs_type f = fs_type f' ∧ pdrv f = pdrv f' ∧ n_fats f = n_fats f' ∧
  fs_id f = fs_id f' ∧ n_rootdir f = n_rootdir f' ∧
  csize f = csize f' ∧ n_fatent f = n_fatent f' ∧ fsize f = fsize f' ∧
  volbase f = volbase f' ∧
  fatbase f = fatbase f' ∧ dirbase f = dirbase f' ∧ database f = database f'.
Proof. destruct f, f'. unfold geo, core. simpl. intros [= ]. by subst. Qed.

Lemma core_geo f f' : core f = core f' → geo f = geo f'.
Proof. unfold geo. by intros ->. Qed.

Lemma geom_geo f f' n : geo f = geo f' → geom f n → geom f' n.
Proof.
  intros Hc [? ? ? ? ? ? ? ? ? ?].
  apply geo_fields in Hc as (E1&?&E2&?&?&E3&E4&E5&E6&E7&?&E8).
  split; congruence.
Qed.

Section inv.
Context {D : Type} {BD : BlockDevice D} {BL : BlockDeviceLaws D}.
Implicit Types v : vol D.

(** [v'] is [v] up to the counters, the window and the sectors in [P]. *)
Record veqx (P : Z → Prop) v v' : Prop := mkVeqx {
  vx_geo : geo (vfs v) = geo (vfs v');
  vx_count : sector_count (vdev v) = sector_count (vdev v');
  vx_lfn : LfnBuf v = LfnBuf v';
  vx_fsid : Fsid v = Fsid v';
  vx_reg : FatFs v = FatFs v';
  vx_view s : vis v s → ¬ P s → view v s = view v' s
}.

Lemma veq_veqx P v v' : veq v v' → veqx P v v'.
Proof. intros [? ? ? ? ? ?]. constructor; auto using core_geo. Qed.

Lemma vis_veqx P v v' s : veqx P v v' → vis v s → vis v' s.
Proof.
  intros [Hc Hn _ _ _ _]. apply geo_fields in Hc as (?&?&Hf&?&?&?&?&Hs&?&Hb&?&?).
  unfold vis, in_fat2. rewrite <- Hn, <- Hf, <- Hs, <- Hb. done.
Qed.

Lemma veqx_trans P v1 v2 v3 : veqx P v1 v2 → veqx P v2 v3 → veqx P v1 v3.
Proof.
  intros H12 H23. pose proof H12 as [? ? ? ? ? Hw1].
  pose proof H23 as [? ? ? ? ? Hw2]. constructor; try congruence.
  intros s Hs HP. rewrite Hw1 by done. apply Hw2; [by eapply vis_veqx|done].
Qed.

Lemma veqx_weaken (P Q : Z → Prop) v v' :
  (∀ s, P s → Q s) → veqx P v v' → veqx Q v v'.
Proof. intros HPQ [? ? ? ? ? Hw]. constructor; auto. Qed.

Lemma reliable_veqx P v v' : veqx P v v' → reliable v → reliable v'.
Proof.
  intros [Hc _ _ _ _ _] [? Hp]. split; [done|].
  apply geo_fields in Hc as (?&<-&?). done.
Qed.

#[export] Instance veqx_preorder P : PreOrder (veqx P).
Proof.
  split.
  - intros v. apply veq_veqx. reflexivity.
  - intros v1 v2 v3. apply veqx_trans.
Qed.

Lemma in_fat1_vis v s : wf v → in_fat1 (vfs v) s → vis v s.
Proof.
  intros [G _ _ _] Hs. destruct G. unfold in_fat1, vis, in_fat2 in *.
  assert (0 < csize (vfs v) * (n_fatent (vfs v) - 2)) by nia. nia.
Qed.

(** ** Modifying the loaded sector *)

Definition stored v (w : list Z) : vol D :=
  set_vfs (set_wflag 1 (set_win w (vfs v))) v.

Lemma stored_ok v w :
  wf v → vis v (winsect (vfs v)) → length w = 512%nat → bytes w →
  wf (stored v w) ∧ veqx (λ s, s = winsect (vfs v)) v (stored v w) ∧
  view (stored v w) (winsect (vfs v)) = w ∧
  core (vfs (stored v w)) = core (vfs v) ∧
  (mirror v → mirror (stored v w)).
Proof.
  intros Hwf Hv Hl Hb. split_and!; try done.
  - destruct Hwf as [G _ _ _]. split; simpl; try done.
    + by apply (geom_core (vfs v)).
    + right. by split.
  - constructor; simpl; try done. intros s Hs Hne. unfold view. simpl.
    by destruct (Z.eqb_spec s (winsect (vfs v))).
  - unfold view. simpl. by rewrite Z.eqb_refl.
  - intros Hm Hn s Hin [?|?]; simpl in *; [|done]. apply Hm; auto.
Qed.

(** ** The reference reading of the FAT *)

(** Byte [k] of the first FAT. *)
Definition fat_byte v (k : Z) : Z := zget (view v (fatbase (vfs v) + k / SS)) (k mod SS).

(** Entry [c] of a FAT12 whose bytes are [b]: a 12-bit field. *)
Definition entry12 (b : Z → Z) (c : Z) : Z :=
  let b0 := b (c + c / 2) in
  let b1 := b (c + c / 2 + 1) in
  if Z.odd c then b0 / 16 + 16 * b1 else b0 + 256 * (b1 mod 16).

Definition fat_entry v (c : Z) : Z :=
  let f := vfs v in
  if fs_type f =? FS_FAT12 then entry12 (fat_byte v) c
  else if fs_type f =? FS_FAT16 then
    ld_word (view v (fatbase f + c / 256)) (c * 2 mod SS)
  else ld_dword (view v (fatbase f + c / 128)) (c * 4 mod SS) mod 2 ^ 28.

(** The value an entry of FAT type [t] keeps of [val]. *)
Definition fat_trunc (t val : Z) : Z :=
  if t =? FS_FAT12 then val mod 2 ^ 12
  else if t =? FS_FAT16 then val mod 2 ^ 16 else val mod 2 ^ 28.

Lemma view_length v s : wf v → length (view v s) = 512%nat.
Proof. intros [_ Hl _ _]. unfold view. destruct (_ =? _); [done|apply sector_length]. Qed.

Lemma view_bytes v s : wf v → bytes (view v s).
Proof. intros [_ _ Hb _]. unfold view. destruct (_ =? _); [done|apply sector_bytes]. Qed.

Lemma fat_byte_range v k : wf v → is_byte (fat_byte v k).
Proof. intros. by apply zget_byte, view_bytes. Qed.

(** Every byte of an in-range entry is in the first FAT. *)
Definition valid_clst v (c : Z) : Prop := 2 <= c < n_fatent (vfs v).

Lemma fat_byte_in_fat1 v k :
  wf v → 0 <= k < fat_bytes (fs_type (vfs v)) (n_fatent (vfs v)) →
  in_fat1 (vfs v) (fatbase (vfs v) + k / SS).
Proof.
  intros [G _ _ _] Hk. destruct G. unfold in_fat1, SS in *.
  split; [pose proof (Z.div_pos k 512); lia|].
  assert (k / 512 < fsize (vfs v)); [|lia]. apply Z.div_lt_upper_bound; lia.
Qed.

Lemma land1_mod n : Z.land n 1 = n mod 2.
Proof. apply (Z.land_ones n 1). lia. Qed.

Lemma entry12_bytes v c :
  fs_type (vfs v) = FS_FAT12 → valid_clst v c →
  0 <= c + c / 2 ∧ c + c / 2 + 1 < fat_bytes (fs_type (vfs v)) (n_fatent (vfs v)).
Proof.
  intros Ht [Hc1 Hc2]. unfold fat_bytes. rewrite Ht. simpl. rewrite land1_mod.
  Z.div_mod_to_equations. lia.
Qed.

Lemma entry16_sect v c :
  wf v → fs_type (vfs v) = FS_FAT16 → valid_clst v c →
  in_fat1 (vfs v) (fatbase (vfs v) + c / 256).
Proof.
  intros Hwf Ht [Hc1 Hc2]. replace (c / 256) with (2 * c / SS).
  - apply fat_byte_in_fat1; [done|]. unfold fat_bytes. rewrite Ht. simpl. lia.
  - unfold SS. replace 512 with (2 * 256) by lia. by rewrite Z.div_mul_cancel_l by lia.
Qed.

Lemma entry32_sect v c :
  wf v → fs_type (vfs v) = FS_FAT32 → valid_clst v c →
  in_fat1 (vfs v) (fatbase (vfs v) + c / 128).
Proof.
  intros Hwf Ht [Hc1 Hc2]. replace (c / 128) with (4 * c / SS).
  - apply fat_byte_in_fat1; [done|]. unfold fat_bytes. rewrite Ht. simpl. lia.
  - unfold SS. replace 512 with (4 * 128) by lia. by rewrite Z.div_mul_cancel_l by lia.
Qed.

Lemma fat1_u32 v s : wf v → in_fat1 (vfs v) s → u32 s = s.
Proof.
  intros Hwf Hs. destruct (in_fat1_vis v s Hwf Hs) as [? _].
  pose proof (sector_count_bound (vdev v)). apply u32_small. lia.
Qed.

Lemma n_fatent_bound v : wf v → 2 < n_fatent (vfs v) < 2 ^ 28.
Proof.
  intros [G _ _ _]. destruct G as [_ _ _ _ _ _ _ H _ _]. revert H. unfold fat_limit.
  bool_cases; lia.
Qed.

Lemma fat_entry_veqx P v v' c :
  wf v → veqx P v v' → (∀ s, in_fat1 (vfs v) s → ¬ P s) → valid_clst v c →
  fat_entry v c = fat_entry v' c.
Proof.
  intros Hwf Hv HP Hc. pose proof Hv as [Hg _ _ _ _ Hw].
  apply geo_fields in Hg as (Et&_&_&_&_&_&_&_&_&Eb&_).
  assert (∀ s, in_fat1 (vfs v) s → view v s = view v' s) as Hs.
  { intros s Hs. apply Hw; [by apply in_fat1_vis|auto]. }
  unfold fat_entry, entry12, fat_byte. rewrite <- Et, <- Eb.
  destruct (Z.eqb_spec (fs_type (vfs v)) FS_FAT12).
  { destruct (entry12_bytes v c) as [? ?]; [done..|].
    rewrite !Hs by (apply fat_byte_in_fat1; lia || done). done. }
  destruct (Z.eqb_spec (fs_type (vfs v)) FS_FAT16).
  { rewrite Hs by (by apply entry16_sect). done. }
  destruct (wf_geom _ Hwf) as [[?|[?|?]] _ _ _ _ _ _ _ _ _]; try done.
  rewrite Hs by (by apply entry32_sect). done.
Qed.

Lemma valid_clst_veqx P v v' c : veqx P v v' → valid_clst v c → valid_clst v' c.
Proof.
  intros [Hg _ _ _ _ _]. apply geo_fields in Hg as (?&?&?&?&?&?&E&?).
  unfold valid_clst. by rewrite E.
Qed.

Lemma valid_clst_veq v v' c : veq v v' → valid_clst v c → valid_clst v' c.
Proof. intros Hv. by apply (valid_clst_veqx (λ _, False)), veq_veqx. Qed.

Lemma fat_entry_veq v v' c :
  wf v → veq v v' → valid_clst v c → fat_entry v c = fat_entry v' c.
Proof. intros. apply (fat_entry_veqx (λ _, False)); auto using veq_veqx. Qed.

Lemma fat_entry_range v c : wf v → 0 <= fat_entry v c < 2 ^ 28.
Proof.
  intros Hwf. unfold fat_entry, entry12.
  pose proof (fat_byte_range v (c + c / 2) Hwf) as Hb0.
  pose proof (fat_byte_range v (c + c / 2 + 1) Hwf) as Hb1. unfold is_byte in *.
  destruct (_ =? FS_FAT12).
  { destruct (Z.odd c); Z.div_mod_to_equations; lia. }
  destruct (_ =? FS_FAT16).
  - pose proof (ld_word_range (view v (fatbase (vfs v) + c / 256)) (c * 2 mod SS)
      (view_bytes v _ Hwf)). lia.
  - apply Z.mod_pos_bound. lia.
Qed.

(** ** [get_fat] *)

Definition get_post v (c r : Z) v' : Prop :=
  wf v' ∧ veq v v' ∧ (r = fat_entry v c ∨ r = 0xFFFFFFFF) ∧
  (reliable v → r = fat_entry v c ∧ (mirror v → mirror v')).

Lemma get_fat_invalid v c : ¬ valid_clst v c → get_fat c v = Some (1, v).
Proof.
  intros Hc. unfold get_fat, sbind, fs, valid_clst in *.
  destruct (c <? 2) eqn:E1; [done|]. destruct (n_fatent (vfs v) <=? c) eqn:E2; [done|].
  zb. lia.
Qed.

(** Loading a FAT sector: what the readers and writers below start with. *)
Lemma move_fat v s :
  wf v → in_fat1 (vfs v) s →
  ∃ r v', move_window (u32 s) v = Some (r, v') ∧ move_post v s r v'.
Proof.
  intros Hwf Hs. rewrite (fat1_u32 v s Hwf Hs).
  apply move_window_spec; [done|]. by apply in_fat1_vis.
Qed.

Lemma fr_ok_cases r : r = FR_OK ∨ r = FR_DISK_ERR →
  (fr_ok r = true ∧ r = FR_OK) ∨ (fr_ok r = false ∧ r = FR_DISK_ERR).
Proof. intros [->| ->]; auto. Qed.

Lemma get_failed v r v' c s :
  move_post v s r v' → r = FR_DISK_ERR → get_post v c 0xFFFFFFFF v'.
Proof.
  intros (?&?&_&_&Hrel) ->. split_and!; auto. intros HR. by destruct (Hrel HR).
Qed.

Lemma guard_get v c : valid_clst v c →
  (c <? 2) || (n_fatent (vfs v) <=? c) = false.
Proof. unfold valid_clst. intros. apply orb_false_iff. rewrite Z.ltb_ge, Z.leb_gt. lia. Qed.

Lemma ztrue_odd c : ztrue (Z.land c 1) = Z.odd c.
Proof.
  rewrite land1_mod. unfold ztrue. rewrite Zmod_odd. by destruct (Z.odd c).
Qed.

Lemma get_fat12 v c :
  wf v → fs_type (vfs v) = FS_FAT12 → valid_clst v c →
  ∃ r v', get_fat c v = Some (r, v') ∧ get_post v c r v'.
Proof.
  intros Hwf Ht Hc. destruct (entry12_bytes v c Ht Hc) as [Hk1 Hk2].
  pose proof (n_fatent_bound v Hwf) as Hn.
  unfold get_fat. rewrite (sbind_run fs _ v _ v eq_refl), guard_get, Ht by done. simpl.
  rewrite (u32_small (c + c / 2)) by (unfold valid_clst in *; Z.div_mod_to_equations; lia).
  destruct (move_fat v (fatbase (vfs v) + (c + c / 2) / SS)) as (r & v1 & E & Hm);
    [done|apply fat_byte_in_fat1; [done|lia]|].
  rewrite (sbind_run _ _ _ _ _ E). pose proof Hm as (Hwf1 & Hv1 & Hw1 & Hr & Hrel).
  destruct (fr_ok_cases r Hr) as [[-> ->]|[-> ->]]; simpl; [|eauto using get_failed].
  rewrite (sbind_run fs _ v1 _ v1 eq_refl).
  destruct (Hw1 eq_refl) as [_ Hwin1].
  destruct (core_fields _ _ (veq_core _ _ Hv1)) as (Et&_&_&_&_&_&_&_&_&En&_&_&Eb&_).
  rewrite (u32_small (c + c / 2 + 1)) by (unfold valid_clst in *; Z.div_mod_to_equations; lia).
  rewrite <- Eb.
  destruct (move_fat v1 (fatbase (vfs v) + (c + c / 2 + 1) / SS)) as (r2 & v2 & E2 & Hm2);
    [done|rewrite Eb; apply fat_byte_in_fat1; [done|rewrite <- Et, <- En; lia]|].
  rewrite (sbind_run _ _ _ _ _ E2). pose proof Hm2 as (Hwf2 & Hv2 & Hw2 & Hr2 & Hrel2).
  assert (veq v v2) as Hv12 by (by transitivity v1).
  destruct (fr_ok_cases r2 Hr2) as [[-> ->]|[-> ->]]; simpl.
  2:{ eexists _, _. split; [done|]. split_and!; auto.
      intros HR. destruct (Hrel2 (reliable_veq _ _ Hv1 HR)). done. }
  destruct (Hw2 eq_refl) as [_ Hwin2].
  rewrite (sbind_run fs _ v2 _ v2 eq_refl). eexists _, _. split; [done|].
  assert (∀ x, x = fat_entry v c → get_post v c x v2) as Hfin.
  { intros x ->. split_and!; auto. intros HR. split; [done|]. intros Hmir.
    apply (Hrel2 (reliable_veq _ _ Hv1 HR)), (Hrel HR), Hmir. }
  apply Hfin. unfold fat_entry, entry12. rewrite Ht. simpl.
  rewrite Hwin1, Hwin2, <- (veq_view _ _ Hv1)
    by (apply in_fat1_vis, fat_byte_in_fat1; done || lia).
  fold (fat_byte v (c + c / 2)). fold (fat_byte v (c + c / 2 + 1)).
  pose proof (fat_byte_range v (c + c / 2) Hwf).
  pose proof (fat_byte_range v (c + c / 2 + 1) Hwf). unfold is_byte in *.
  rewrite ztrue_odd, Z.lor_comm, lor_shiftl_add by lia. destruct (Z.odd c).
  - rewrite Z.shiftr_div_pow2 by lia. change (2 ^ 4) with 16. change (2 ^ 8) with 256.
    Z.div_mod_to_equations. lia.
  - change 0xFFF with (Z.ones 12). rewrite Z.land_ones by lia.
    Z.div_mod_to_equations. lia.
Qed.

(** FAT16 and FAT32 entries lie in one sector. *)
Lemma get_fat_one v c s (h : list Z → Z) :
  wf v → in_fat1 (vfs v) s → h (view v s) = fat_entry v c →
  ∃ r v', (let! r := move_window (u32 s) in
           if negb (fr_ok r) then sret 0xFFFFFFFF else
           let! f := fs in sret (h (win f))) v = Some (r, v') ∧ get_post v c r v'.
Proof.
  intros Hwf Hs He.
  destruct (move_fat v s Hwf Hs) as (r & v1 & E & Hm).
  rewrite (sbind_run _ _ _ _ _ E). pose proof Hm as (Hwf1 & Hv1 & Hw1 & Hr & Hrel).
  destruct (fr_ok_cases r Hr) as [[-> ->]|[-> ->]]; simpl; [|eauto using get_failed].
  rewrite (sbind_run fs _ v1 _ v1 eq_refl). destruct (Hw1 eq_refl) as [_ ->].
  rewrite He. eexists _, _. split; [done|]. split_and!; auto.
  intros HR. split; [done|]. by apply Hrel.
Qed.

Lemma get_fat_spec v c :
  wf v → valid_clst v c →
  ∃ r v', get_fat c v = Some (r, v') ∧ get_post v c r v'.
Proof.
  intros Hwf Hc. pose proof (n_fatent_bound v Hwf) as Hn.
  destruct (wf_geom _ Hwf) as [[Ht|[Ht|Ht]] _ _ _ _ _ _ _ _ _].
  - by apply get_fat12.
  - unfold get_fat. rewrite (sbind_run fs _ v _ v eq_refl), guard_get, Ht by done.
    apply (get_fat_one v c (fatbase (vfs v) + c / 256) (λ w, ld_word w (u32 (c * 2) mod SS)));
      [done|by apply entry16_sect|].
    unfold fat_entry. rewrite Ht. simpl. unfold valid_clst in *. by rewrite u32_small by lia.
  - unfold get_fat. rewrite (sbind_run fs _ v _ v eq_refl), guard_get, Ht by done.
    apply (get_fat_one v c (fatbase (vfs v) + c / 128)
             (λ w, Z.land (ld_dword w (u32 (c * 4) mod SS)) 0x0FFFFFFF));
      [done|by apply entry32_sect|].
    unfold fat_entry. rewrite Ht. simpl. unfold valid_clst in *.
    change 0x0FFFFFFF with (Z.ones 28). rewrite Z.land_ones by lia.
    by rewrite u32_small by lia.
Qed.

(** ** [put_fat] *)

Definition put_post v (c val : Z) (r : FRESULT) v' : Prop :=
  wf v' ∧ core (vfs v) = core (vfs v') ∧ veqx (in_fat1 (vfs v)) v v' ∧
  (r = FR_OK ∨ r = FR_DISK_ERR) ∧
  (r = FR_OK → fat_entry v' c = fat_trunc (fs_type (vfs v)) val) ∧
  (∀ c', valid_clst v c' → c' ≠ c → fat_entry v' c' = fat_entry v c') ∧
  (reliable v → r = FR_OK ∧ (mirror v → mirror v')).

Lemma guard_put v c : valid_clst v c → (2 <=? c) && (c <? n_fatent (vfs v)) = true.
Proof. unfold valid_clst. intros. apply andb_true_iff. rewrite Z.leb_le, Z.ltb_lt. lia. Qed.

Lemma put_fat_invalid v c val :
  ¬ valid_clst v c → put_fat c val v = Some (FR_INT_ERR, v).
Proof.
  intros Hc. unfold put_fat, sbind, fs, valid_clst in *.
  destruct (2 <=? c) eqn:E1; [|done]. destruct (c <? n_fatent (vfs v)) eqn:E2; [|done].
  zb. lia.
Qed.

(** Loading a FAT sector and storing into it. *)
Lemma load_store v s v1 w :
  wf v → in_fat1 (vfs v) s → move_post v s FR_OK v1 →
  length w = 512%nat → bytes w →
  let v2 := stored v1 w in
  wf v2 ∧ core (vfs v) = core (vfs v2) ∧ veqx (λ x, x = s) v v2 ∧
  view v2 s = w ∧ (reliable v → mirror v → mirror v2).
Proof.
  intros Hwf Hs (Hwf1&Hv1&Hw1&_&Hrel) Hl Hb v2. destruct (Hw1 eq_refl) as [Hws _].
  assert (vis v1 (winsect (vfs v1))) as Hvis.
  { rewrite Hws. apply (vis_veq v); [done|]. by apply in_fat1_vis. }
  destruct (stored_ok v1 w Hwf1 Hvis Hl Hb) as (?&Hx&Hview&Hc&Hm).
  rewrite Hws in *. split_and!; auto.
  - etransitivity; [by apply veq_core|]. done.
  - eapply veqx_trans; [by apply veq_veqx|]. done.
  - intros HR ?. apply Hm. by apply (Hrel HR).
Qed.

Lemma veqx_sect_fat1 v v' s :
  in_fat1 (vfs v) s → veqx (λ x, x = s) v v' → veqx (in_fat1 (vfs v)) v v'.
Proof. intros Hs. apply veqx_weaken. by intros ? ->. Qed.

(** FAT16 and FAT32: one store; [g] is the store, [h] the read at an
    entry of the same sector. *)
Lemma put_fat_one v c val s (g : list Z → list Z) :
  wf v → in_fat1 (vfs v) s →
  (∀ w, length (g w) = length w) → (∀ w, bytes w → bytes (g w)) →
  (∀ v2, veqx (λ x, x = s) v v2 → view v2 s = g (view v s) →
     fat_entry v2 c = fat_trunc (fs_type (vfs v)) val ∧
     ∀ c', valid_clst v c' → c' ≠ c → fat_entry v2 c' = fat_entry v c') →
  ∃ r v', (let! res := move_window (u32 s) in
           if negb (fr_ok res) then sret res else
           win_store g ;! sret res) v = Some (r, v') ∧ put_post v c val r v'.
Proof.
  intros Hwf Hs Hl Hb Hentry.
  destruct (move_fat v s Hwf Hs) as (r & v1 & E & Hm).
  rewrite (sbind_run _ _ _ _ _ E). pose proof Hm as (Hwf1 & Hv1 & Hw1 & Hr & Hrel).
  destruct (fr_ok_cases r Hr) as [[-> ->]|[-> ->]]; simpl.
  2:{ eexists _, _. split; [done|]. split_and!; eauto using veq_core, veq_veqx; try done.
      intros c' Hc' _. symmetry.
      apply (fat_entry_veqx (λ _, False)); auto using veq_veqx. }
  destruct (Hw1 eq_refl) as [_ Hwin].
  destruct (load_store v s v1 (g (win (vfs v1)))) as (Hwf2&Hc2&Hx2&Hview&Hmir);
    [done..|by rewrite Hl, (wf_len _ Hwf1)|by apply Hb, wf_bytes|].
  rewrite Hwin in *. destruct (Hentry _ Hx2 Hview) as [He Ho].
  exists FR_OK, (stored v1 (g (win (vfs v1)))). rewrite Hwin. split.
  { unfold sbind, win_store, upd, sret. by rewrite Hwin. }
  split_and!; eauto using veqx_sect_fat1.
Qed.

Lemma div_mod_sect a b q : 0 < q → a / q = b / q → a mod q = b mod q → a = b.
Proof. intros. rewrite (Z.div_mod a q), (Z.div_mod b q) by lia. congruence. Qed.

Lemma put_fat16 v c val :
  wf v → fs_type (vfs v) = FS_FAT16 → valid_clst v c →
  ∃ r v', put_fat c val v = Some (r, v') ∧ put_post v c val r v'.
Proof.
  intros Hwf Ht Hc. pose proof (n_fatent_bound v Hwf) as Hn.
  unfold put_fat. rewrite (sbind_run fs _ v _ v eq_refl), guard_put, Ht by done.
  unfold valid_clst in Hc. rewrite (u32_small (c * 2)) by lia.
  apply (put_fat_one v c val (fatbase (vfs v) + c / 256)
    (λ w, st_word w (c * 2 mod SS) (u16 val)));
    [done|by apply entry16_sect|intros; apply st_word_length|auto with ffdb|].
  intros v2 Hx Hview. pose proof (vx_geo _ _ _ Hx) as Hg.
  apply geo_fields in Hg as (Et&_&_&_&_&_&_&_&_&Eb&_).
  unfold fat_entry, fat_trunc. rewrite <- Et, <- Eb, Ht. simpl. split.
  - rewrite Hview, ld_st_word; [by rewrite u16_small by apply u16_range|by apply view_bytes|..];
      unfold SS, zlen; rewrite ?(view_length v _ Hwf); Z.div_mod_to_equations; lia.
  - intros c' Hc' Hne. unfold valid_clst in Hc'.
    destruct (decide (c' / 256 = c / 256)) as [Heq|Hneq].
    + rewrite Heq, Hview, ld_st_word_ne; [done|..]; unfold SS;
        Z.div_mod_to_equations; lia.
    + rewrite <- (vx_view _ _ _ Hx); [done|apply in_fat1_vis, entry16_sect; done|lia].
Qed.

Lemma fat32_merge val old :
  u32 (Z.lor (Z.land val 0x0FFFFFFF) (Z.land old 0xF0000000)) mod 2 ^ 28 = val mod 2 ^ 28.
Proof.
  unfold u32. rewrite <- !Z.land_ones by lia. apply Z.bits_inj'. intros i Hi.
  rewrite !Z.land_spec, Z.lor_spec, !Z.land_spec.
  change 0x0FFFFFFF with (Z.ones 28). change 0xF0000000 with (Z.shiftl 15 28).
  destruct (decide (i < 28)).
  - rewrite Z.shiftl_spec_low by lia. rewrite !Z.ones_spec_low by lia.
    by rewrite !andb_true_r, andb_false_r, orb_false_r.
  - rewrite (Z.ones_spec_high 28) by lia. by rewrite !andb_false_r.
Qed.

Lemma put_fat32 v c val :
  wf v → fs_type (vfs v) = FS_FAT32 → valid_clst v c →
  ∃ r v', put_fat c val v = Some (r, v') ∧ put_post v c val r v'.
Proof.
  intros Hwf Ht Hc. pose proof (n_fatent_bound v Hwf) as Hn.
  unfold put_fat. rewrite (sbind_run fs _ v _ v eq_refl), guard_put, Ht by done.
  unfold valid_clst in Hc. rewrite (u32_small (c * 4)) by lia.
  apply (put_fat_one v c val (fatbase (vfs v) + c / 128)
    (λ w, st_dword w (c * 4 mod SS)
       (Z.lor (Z.land val 0x0FFFFFFF) (Z.land (ld_dword w (c * 4 mod SS)) 0xF0000000))));
    [done|by apply entry32_sect|intros; apply st_dword_length|auto with ffdb|].
  intros v2 Hx Hview. pose proof (vx_geo _ _ _ Hx) as Hg.
  apply geo_fields in Hg as (Et&_&_&_&_&_&_&_&_&Eb&_).
  unfold fat_entry, fat_trunc. rewrite <- Et, <- Eb, Ht. simpl. split.
  - rewrite Hview, ld_st_dword; [apply fat32_merge|by apply view_bytes|..];
      unfold SS, zlen; rewrite ?(view_length v _ Hwf); Z.div_mod_to_equations; lia.
  - intros c' Hc' Hne. unfold valid_clst in Hc'.
    destruct (decide (c' / 128 = c / 128)) as [Heq|Hneq].
    + rewrite Heq, Hview, ld_st_dword_ne; [done|..]; unfold SS;
        Z.div_mod_to_equations; lia.
    + rewrite <- (vx_view _ _ _ Hx); [done|apply in_fat1_vis, entry32_sect; done|lia].
Qed.

(** *** FAT12: two one-byte stores, possibly in two sectors *)

Record byte_upd v v2 (k b : Z) : Prop := mkByteUpd {
  bu_wf : wf v2;
  bu_core : core (vfs v) = core (vfs v2);
  bu_veqx : veqx (in_fat1 (vfs v)) v v2;
  bu_eq : fat_byte v2 k = b;
  bu_ne k' : 0 <= k' < fat_bytes (fs_type (vfs v)) (n_fatent (vfs v)) →
    k' ≠ k → fat_byte v2 k' = fat_byte v k';
  bu_mirror : reliable v → mirror v → mirror v2
}.

Lemma store_byte v v1 k b :
  wf v → 0 <= k < fat_bytes (fs_type (vfs v)) (n_fatent (vfs v)) → is_byte b →
  move_post v (fatbase (vfs v) + k / SS) FR_OK v1 →
  byte_upd v (stored v1 (zset (win (vfs v1)) (k mod SS) b)) k b.
Proof.
  intros Hwf Hk Hb Hm. pose proof (fat_byte_in_fat1 v k Hwf Hk) as Hin.
  pose proof Hm as (Hwf1&_&Hw1&_). destruct (Hw1 eq_refl) as [_ Hwin].
  destruct (load_store v _ v1 (zset (win (vfs v1)) (k mod SS) b) Hwf Hin Hm)
    as (Hwf2&Hc2&Hx2&Hview&Hmir);
    [by rewrite zset_length, (wf_len _ Hwf1)|apply zset_bytes; [apply (wf_bytes _ Hwf1)|done]|].
  remember (stored v1 (zset (win (vfs v1)) (k mod SS) b)) as v2 eqn:Ev2. clear Ev2.
  destruct (core_fields _ _ Hc2) as (_&_&_&_&_&_&_&_&_&_&_&_&Eb&_).
  split; [exact Hwf2|exact Hc2|by eapply veqx_sect_fat1| | |exact Hmir].
  - unfold fat_byte. rewrite <- Eb, Hview, zget_zset_eq; [done|].
    unfold zlen. rewrite (wf_len _ Hwf1). unfold SS. Z.div_mod_to_equations. lia.
  - intros k' Hk' Hne. unfold fat_byte. rewrite <- Eb.
    destruct (decide (k' / SS = k / SS)) as [Heq|Hneq].
    + rewrite Heq, Hview, zget_zset_ne, Hwin; [done|..];
        unfold SS in *; Z.div_mod_to_equations; lia.
    + rewrite <- (vx_view _ _ _ Hx2); [done|apply in_fat1_vis, fat_byte_in_fat1; done|lia].
Qed.

Lemma odd_cases c : (Z.odd c = true ∧ c = 2 * (c / 2) + 1) ∨ (Z.odd c = false ∧ c = 2 * (c / 2)).
Proof.
  pose proof (Zmod_odd c) as H. pose proof (Z.div_mod c 2).
  destruct (Z.odd c); [left|right]; split; auto; lia.
Qed.

(** Two entries share at most a byte, one nibble each. *)
Lemma entry12_frame (b b' : Z → Z) c c' :
  c' ≠ c →
  (∀ k, (k = c' + c' / 2 ∨ k = c' + c' / 2 + 1) →
        k ≠ c + c / 2 → k ≠ c + c / 2 + 1 → b' k = b k) →
  (if Z.odd c then b' (c + c / 2) mod 16 = b (c + c / 2) mod 16 else
     b' (c + c / 2 + 1) / 16 = b (c + c / 2 + 1) / 16) →
  entry12 b' c' = entry12 b c'.
Proof.
  intros Hne Hout Hnib. unfold entry12.
  destruct (odd_cases c) as [[E Hc]|[E Hc]]; rewrite E in Hnib;
    destruct (odd_cases c') as [[-> Hc']|[-> Hc']].
  - rewrite !Hout by lia. done.
  - rewrite (Hout (c' + c' / 2)) by lia.
    destruct (decide (c' / 2 = c / 2)) as [Heq|].
    + replace (c' + c' / 2 + 1) with (c + c / 2) by lia. by rewrite Hnib.
    + rewrite Hout by lia. done.
  - rewrite (Hout (c' + c' / 2 + 1)) by lia.
    destruct (decide (c' / 2 = c / 2)) as [Heq|].
    + replace (c' + c' / 2) with (c + c / 2 + 1) by lia. by rewrite Hnib.
    + rewrite Hout by lia. done.
  - rewrite !Hout by lia. done.
Qed.

(** The nibble arithmetic of the two stores, checked on all bytes. *)
Lemma byte_forall (P : Z → bool) :
  forallb P (seqZ 0 256) = true → ∀ b, is_byte b → P b = true.
Proof.
  intros H b Hb. apply (seqZ_forall _ _ _ H). unfold is_byte in Hb. lia.
Qed.

Lemma land_0F b : is_byte b → Z.land b 0x0F = b mod 16.
Proof. intros. change 0x0F with (Z.ones 4). apply Z.land_ones. lia. Qed.

Lemma land_F0 b : is_byte b → Z.land b 0xF0 = 16 * (b / 16).
Proof.
  intros Hb. apply Z.eqb_eq. revert b Hb. apply byte_forall. by vm_compute.
Qed.

Lemma odd_store old val :
  is_byte old →
  u8 (Z.lor (Z.land old 0x0F) (Z.shiftl (u8 val) 4)) = old mod 16 + 16 * (val mod 16).
Proof.
  intros Hb. rewrite land_0F by done.
  rewrite Z.lor_comm, lor_shiftl_add by (Z.div_mod_to_equations; lia).
  unfold u8. Z.div_mod_to_equations. lia.
Qed.

Lemma even_store old val :
  is_byte old →
  u8 (Z.lor (Z.land old 0xF0) (Z.land (u8 (Z.shiftr val 8)) 0x0F))
  = 16 * (old / 16) + val / 256 mod 16.
Proof.
  intros Hb. rewrite land_F0, land_0F by (done || apply u8_byte).
  rewrite u8_shiftr by lia. change (2 ^ 8) with 256.
  replace (16 * (old / 16)) with (Z.shiftl (old / 16) 4)
    by (rewrite Z.shiftl_mul_pow2 by lia; lia).
  unfold is_byte in Hb. rewrite lor_shiftl_add by (Z.div_mod_to_equations; lia).
  replace (val / 256 mod 256 mod 16) with (val / 256 mod 16)
    by (Z.div_mod_to_equations; lia).
  rewrite u8_small by (Z.div_mod_to_equations; lia).
  by rewrite Z.shiftl_mul_pow2 by lia.
Qed.

(** The values the two stores leave in the entry and in its neighbour. *)
Definition byte0 (c val old : Z) : Z :=
  if ztrue (Z.land c 1)
  then u8 (Z.lor (Z.land old 0x0F) (Z.shiftl (u8 val) 4)) else u8 val.
Definition byte1 (c val old : Z) : Z :=
  if ztrue (Z.land c 1) then u8 (Z.shiftr val 4)
  else u8 (Z.lor (Z.land old 0xF0) (Z.land (u8 (Z.shiftr val 8)) 0x0F)).

Lemma entry12_stored (b b' : Z → Z) c val :
  is_byte (b (c + c / 2)) → is_byte (b (c + c / 2 + 1)) →
  b' (c + c / 2) = byte0 c val (b (c + c / 2)) →
  b' (c + c / 2 + 1) = byte1 c val (b (c + c / 2 + 1)) →
  entry12 b' c = val mod 2 ^ 12.
Proof.
  intros Hb0 Hb1 E0 E1. unfold entry12, byte0, byte1 in *.
  rewrite ztrue_odd in *. rewrite E0, E1. destruct (Z.odd c).
  - rewrite odd_store by done. rewrite u8_shiftr by lia. unfold is_byte in *.
    change (2 ^ 4) with 16. Z.div_mod_to_equations. lia.
  - rewrite even_store by done. unfold u8, is_byte in *. Z.div_mod_to_equations. lia.
Qed.

Lemma entry12_others (b b1 b2 : Z → Z) c val c' :
  c' ≠ c → is_byte (b (c + c / 2)) → is_byte (b (c + c / 2 + 1)) →
  b1 (c + c / 2) = byte0 c val (b (c + c / 2)) →
  (∀ k, (k = c' + c' / 2 ∨ k = c' + c' / 2 + 1) → k ≠ c + c / 2 → b1 k = b k) →
  b1 (c + c / 2 + 1) = b (c + c / 2 + 1) →
  b2 (c + c / 2) = b1 (c + c / 2) →
  b2 (c + c / 2 + 1) = byte1 c val (b (c + c / 2 + 1)) →
  (∀ k, (k = c' + c' / 2 ∨ k = c' + c' / 2 + 1) → k ≠ c + c / 2 + 1 → b2 k = b1 k) →
  entry12 b1 c' = entry12 b c' ∧ entry12 b2 c' = entry12 b c'.
Proof.
  intros Hne Hb0 Hb1 E0 Ho1 Es E0' E1 Ho2. unfold byte0, byte1 in *.
  rewrite ztrue_odd in *. split; apply (entry12_frame _ _ c); auto.
  - destruct (Z.odd c); [|by rewrite Es].
    rewrite E0, odd_store by done. unfold is_byte in *. Z.div_mod_to_equations. lia.
  - intros k Hk ? ?. rewrite Ho2 by done. auto.
  - destruct (Z.odd c).
    + rewrite E0', E0, odd_store by done. unfold is_byte in *. Z.div_mod_to_equations. lia.
    + rewrite E1, even_store by done. unfold is_byte in *. Z.div_mod_to_equations. lia.
Qed.

Lemma byte0_byte c val old : is_byte (byte0 c val old).
Proof. unfold byte0. destruct (ztrue _); apply u8_byte. Qed.
Lemma byte1_byte c val old : is_byte (byte1 c val old).
Proof. unfold byte1. destruct (ztrue _); apply u8_byte. Qed.

Lemma reliable_byte_upd v v2 k b : byte_upd v v2 k b → reliable v → reliable v2.
Proof. intros [_ _ Hx _ _ _]. by apply (reliable_veqx _ _ _ Hx). Qed.

(** The second half of the FAT12 store, from the state [v2] the first
    store left. *)
Lemma put12_second v v2 c val :
  wf v → fs_type (vfs v) = FS_FAT12 → valid_clst v c →
  byte_upd v v2 (c + c / 2) (byte0 c val (fat_byte v (c + c / 2))) →
  ∃ r v', (let! res := move_window (u32 (fatbase (vfs v) + (c + c / 2 + 1) / SS)) in
           if negb (fr_ok res) then sret res else
           win_store (λ w, zset w ((c + c / 2 + 1) mod SS)
             (byte1 c val (zget w ((c + c / 2 + 1) mod SS)))) ;!
           sret res) v2 = Some (r, v') ∧ put_post v c val r v'.
Proof.
  intros Hwf Ht Hc Hu1. destruct (entry12_bytes v c Ht Hc) as [Hk1 Hk2].
  pose proof Hu1 as [Hwf2 Hc2 Hx2 He2 Ho2 Hm2].
  destruct (core_fields _ _ Hc2) as (Et&_&_&_&_&_&_&_&_&En&Es&_&Eb&_).
  destruct (move_fat v2 (fatbase (vfs v2) + (c + c / 2 + 1) / SS)) as (r & v3 & E & Hm);
    [done|apply fat_byte_in_fat1; [done|rewrite <- Et, <- En; lia]|].
  rewrite Eb, (sbind_run _ _ _ _ _ E). pose proof Hm as (Hwf3 & Hv3 & Hw3 & Hr & Hrel).
  assert (∀ b2 : Z → Z, b2 (c + c / 2) = fat_byte v2 (c + c / 2) →
    b2 (c + c / 2 + 1) = byte1 c val (fat_byte v (c + c / 2 + 1)) →
    (∀ k, 0 <= k < fat_bytes (fs_type (vfs v)) (n_fatent (vfs v)) →
       k ≠ c + c / 2 + 1 → b2 k = fat_byte v2 k) →
    ∀ c', valid_clst v c' → c' ≠ c →
    entry12 (fat_byte v2) c' = entry12 (fat_byte v) c' ∧
    entry12 b2 c' = entry12 (fat_byte v) c') as Hothers.
  { intros b2 H0 H1 Hk c' Hc' Hne. destruct (entry12_bytes v c' Ht Hc') as [??].
    apply (entry12_others _ _ _ c val); auto using fat_byte_range.
    - intros k Hk' ?. apply Ho2; [lia|done].
    - apply Ho2; lia.
    - intros k Hk' ?. apply Hk; [lia|done]. }
  destruct (fr_ok_cases r Hr) as [[-> ->]|[-> ->]]; simpl.
  2:{ eexists _, _. split; [done|]. split_and!; auto.
      - rewrite Hc2. by apply veq_core.
      - eapply veqx_trans; [done|]. by apply veq_veqx.
      - done.
      - intros c' Hc' Hne. rewrite <- (fat_entry_veqx (λ _, False) v2 v3);
          [|done|by apply veq_veqx|auto|by apply (valid_clst_veqx _ _ _ _ Hx2)].
        unfold fat_entry. rewrite <- Et, Ht. simpl.
        destruct (Hothers (λ k, if k =? c + c / 2 + 1 then
          byte1 c val (fat_byte v (c + c / 2 + 1)) else fat_byte v2 k)) with c'; auto.
        + by rewrite (proj2 (Z.eqb_neq _ _)) by lia.
        + by rewrite Z.eqb_refl.
        + intros k _ ?. by rewrite (proj2 (Z.eqb_neq _ _)).
      - intros HR. destruct (Hrel (reliable_byte_upd _ _ _ _ Hu1 HR)). done. }
  destruct (Hw3 eq_refl) as [_ Hwin3].
  assert (zget (win (vfs v3)) ((c + c / 2 + 1) mod SS) = fat_byte v (c + c / 2 + 1)) as Hold.
  { rewrite Hwin3. fold (fat_byte v2 (c + c / 2 + 1)). apply Ho2; lia. }
  pose proof (store_byte v2 v3 (c + c / 2 + 1) (byte1 c val (fat_byte v (c + c / 2 + 1))) Hwf2
    ltac:(rewrite <- Et, <- En; lia) (byte1_byte _ _ _) Hm) as Hu2.
  eexists FR_OK, _. split.
  { unfold sbind, win_store, upd, sret. rewrite Hold. reflexivity. }
  fold (stored v3 (zset (win (vfs v3)) ((c + c / 2 + 1) mod SS)
    (byte1 c val (fat_byte v (c + c / 2 + 1))))).
  remember (stored v3 _) as v4 eqn:Ev4. clear Ev4.
  pose proof Hu2 as [Hwf4 Hc4 Hx4 He4 Ho4 Hm4]. rewrite <- Et, <- En in Ho4.
  destruct (core_fields _ _ Hc4) as (Et4&_).
  split_and!; eauto using reliable_byte_upd.
  - by rewrite Hc2.
  - eapply veqx_trans; [done|]. eapply veqx_weaken; [|done].
    intros s. unfold in_fat1. by rewrite Eb, Es.
  - intros _. unfold fat_entry, fat_trunc. rewrite <- Et4, <- Et, Ht. simpl.
    apply (entry12_stored (fat_byte v)); auto using fat_byte_range.
    rewrite Ho4 by lia. done.
  - intros c' Hc' Hne. unfold fat_entry. rewrite <- Et4, <- Et, Ht. simpl.
    destruct (Hothers (fat_byte v4)) with c'; auto. apply Ho4; lia.
Qed.

Lemma put_fat12 v c val :
  wf v → fs_type (vfs v) = FS_FAT12 → valid_clst v c →
  ∃ r v', put_fat c val v = Some (r, v') ∧ put_post v c val r v'.
Proof.
  intros Hwf Ht Hc. destruct (entry12_bytes v c Ht Hc) as [Hk1 Hk2].
  pose proof (n_fatent_bound v Hwf) as Hn.
  unfold put_fat. rewrite (sbind_run fs _ v _ v eq_refl), guard_put, Ht by done. simpl.
  rewrite (u32_small (c + c / 2)) by (unfold valid_clst in *; Z.div_mod_to_equations; lia).
  rewrite (u32_small (c + c / 2 + 1)) by (unfold valid_clst in *; Z.div_mod_to_equations; lia).
  destruct (move_fat v (fatbase (vfs v) + (c + c / 2) / SS)) as (r & v1 & E & Hm);
    [done|apply fat_byte_in_fat1; [done|lia]|].
  rewrite (sbind_run _ _ _ _ _ E). pose proof Hm as (Hwf1 & Hv1 & Hw1 & Hr & Hrel).
  destruct (fr_ok_cases r Hr) as [[-> ->]|[-> ->]]; simpl.
  2:{ eexists _, _. split; [done|]. split_and!; eauto using veq_core, veq_veqx; try done.
      intros c' Hc' _. symmetry.
      apply (fat_entry_veqx (λ _, False)); auto using veq_veqx. }
  destruct (Hw1 eq_refl) as [_ Hwin1].
  set (old0 := zget (win (vfs v1)) ((c + c / 2) mod SS)).
  assert (old0 = fat_byte v (c + c / 2)) as Hold0 by (unfold old0; by rewrite Hwin1).
  pose proof (store_byte v v1 (c + c / 2) (byte0 c val old0) Hwf ltac:(lia)
    (byte0_byte _ _ _) Hm) as Hu1.
  remember (stored v1 (zset (win (vfs v1)) ((c + c / 2) mod SS) (byte0 c val old0)))
    as v2 eqn:Ev2.
  rewrite (sbind_run (win_store _) _ v1 tt v2) by (by rewrite Ev2). clear Ev2.
  pose proof Hu1 as [Hwf2 Hc2 Hx2 He2 Ho2 Hm2].
  destruct (core_fields _ _ Hc2) as (Et&_&_&_&_&_&_&_&_&En&_&_&Eb&_).
  rewrite Hold0 in Hu1. by apply put12_second.
Qed.

Lemma put_fat_spec v c val :
  wf v → valid_clst v c →
  ∃ r v', put_fat c val v = Some (r, v') ∧ put_post v c val r v'.
Proof.
  intros Hwf Hc. destruct (wf_geom _ Hwf) as [[Ht|[Ht|Ht]] _ _ _ _ _ _ _ _ _];
    auto using put_fat12, put_fat16, put_fat32.
Qed.
End inv.
