(* ===== verification/FfChain.v ===== *)
(** Cluster chains in ff.c: [remove_chain] and [create_chain].

    The abstract object is the FAT as a map from clusters to entries
    ([fat_entry]) and a chain of it ([chain]).  Removing a chain frees its
    clusters and changes no other entry, and it returns on every FAT, the
    ones with cyclic chains included; creating or stretching a chain takes
    a cluster that was free, or reports that there is none. *)
From Stdlib Require Import ZArith Lia.
From stdpp Require Import base list numbers option sets.
From S2P Require Import Prelude BlockDevice FfTypes FfWindow FfFat.

Local Open Scope Z_scope.
Local Open Scope st_scope.

Section ops.
Context {D : Type} `{BlockDevice D}.

(** Lines 1455-1462: mark the cluster free and update FSINFO. *)
Definition free_cluster (clst : Z) : ST (vol D) FRESULT :=
  let! res := put_fat clst 0 in
  if negb (fr_ok res) then sret res else
  let! f := fs in
  (if free_clst f <? u32 (n_fatent f - 2)
   then upd (λ f, set_free_clst (u32 (free_clst f + 1))
                    (set_fsi_flag (Z.lor (fsi_flag f) 1) f))
   else sret tt) ;!
  sret res.

(** The [do ... while] loop of [remove_chain]. *)
Fixpoint remove_loop (fuel : nat) (clst : Z) : ST (vol D) FRESULT :=
  match fuel with
  | O => sdiverge
  | S fuel =>
      let! nxt := get_fat clst in
      if nxt =? 0 then sret FR_OK
      else if nxt =? 1 then sret FR_INT_ERR
      else if nxt =? 0xFFFFFFFF then sret FR_DISK_ERR
      else
        let! res := free_cluster clst in
        if negb (fr_ok res) then sret res else
        let! f := fs in
        if nxt <? n_fatent f then remove_loop fuel nxt else sret FR_OK
  end.

Definition remove_chain (clst pclst : Z) : ST (vol D) FRESULT :=
  let! f := fs in
  if (clst <? 2) || (n_fatent f <=? clst) then sret FR_INT_ERR else
  let! res := (if negb (pclst =? 0) then put_fat pclst 0xFFFFFFFF else sret FR_OK) in
  if negb (fr_ok res) then sret res else
  remove_loop (Z.to_nat (n_fatent f)) clst.

(** The [for (;;)] loop of [create_chain], from the current [ncl]: the free
    cluster it breaks with, or the status [create_chain] returns. *)
Fixpoint find_free (fuel : nat) (scl ncl : Z) : ST (vol D) (Z + Z) :=
  match fuel with
  | O => sdiverge
  | S fuel =>
      let ncl := u32 (ncl + 1) in
      let! f := fs in
      let wrap := n_fatent f <=? ncl in
      let ncl := if wrap then 2 else ncl in
      if wrap && (scl <? ncl) then sret (inl 0) else
      let! cs := get_fat ncl in
      if cs =? 0 then sret (inr ncl)
      else if (cs =? 1) || (cs =? 0xFFFFFFFF) then sret (inl cs)
      else if ncl =? scl then sret (inl 0)
      else find_free fuel scl ncl
  end.

(** Lines 1570-1595: the cluster to allocate, the one after [clst] when it
    is free, otherwise the first free one from the suggested start. *)
Definition pick_cluster (clst scl : Z) : ST (vol D) (Z + Z) :=
  let! f := fs in
  let search (scl : Z) :=
    let! f := fs in find_free (Z.to_nat (n_fatent f)) scl scl in
  if scl =? clst then
    let ncl := u32 (scl + 1) in
    let ncl := if n_fatent f <=? ncl then 2 else ncl in
    let! cs := get_fat ncl in
    if (cs =? 1) || (cs =? 0xFFFFFFFF) then sret (inl cs)
    else if negb (cs =? 0) then
      let! f := fs in
      let cs := last_clst f in
      search (if (2 <=? cs) && (cs <? n_fatent f) then cs else scl)
    else sret (inr ncl)
  else search scl.

(** Lines 1597-1600: the new cluster is marked as the end of a chain and
    linked behind [clst]. *)
Definition link (clst ncl : Z) : ST (vol D) FRESULT :=
  let! res := put_fat ncl 0xFFFFFFFF in
  if fr_ok res && negb (clst =? 0) then put_fat clst ncl else sret res.

(** Lines 1602-1605: FSINFO after an allocation. *)
Definition count_alloc (ncl : Z) (f : FATFS) : FATFS :=
  let f := set_last_clst ncl f in
  let f := if free_clst f <=? u32 (n_fatent f - 2)
           then set_free_clst (u32 (free_clst f - 1)) f else f in
  set_fsi_flag (Z.lor (fsi_flag f) 1) f.

(** Lines 1541-1610, with [scl] the cluster to start the search at. *)
Definition allocate (clst scl : Z) : ST (vol D) Z :=
  let! f := fs in
  if free_clst f =? 0 then sret 0 else
  let! p := pick_cluster clst scl in
  match p with
  | inl e => sret e
  | inr ncl =>
      let! res := link clst ncl in
      match res with
      | FR_OK => upd (count_alloc ncl) ;! sret ncl
      | FR_DISK_ERR => sret 0xFFFFFFFF
      | _ => sret 1
      end
  end.

Definition create_chain (clst : Z) : ST (vol D) Z :=
  let! f := fs in
  if clst =? 0 then
    let scl := last_clst f in
    allocate clst (if (scl =? 0) || (n_fatent f <=? scl) then 1 else scl)
  else
    let! cs := get_fat clst in
    if cs <? 2 then sret 1
    else if cs =? 0xFFFFFFFF then sret cs
    else
      let! f := fs in
      if cs <? n_fatent f then sret cs
      else allocate clst clst.

End ops.

(** * Chains *)

(** [chain e n c l]: following the entries [e] of a FAT with [n] entries
    from [c] visits the clusters [l] and ends with a mark [>= n]. *)
Inductive chain (e : Z → Z) (n : Z) : Z → list Z → Prop :=
  | chain_last c : 2 <= c < n → n <= e c → chain e n c [c]
  | chain_cons c l : 2 <= c < n → 2 <= e c < n → chain e n (e c) l → chain e n c (c :: l).

Lemma chain_fun e n c l1 l2 : chain e n c l1 → chain e n c l2 → l1 = l2.
Proof.
  intros H1. revert l2. induction H1 as [c ? ?|c l ? ? ? IH]; intros l2 H2; inversion H2; subst;
    try lia; [done|]. f_equal. auto.
Qed.

Lemma chain_suffix e n c l x :
  chain e n c l → x ∈ l → ∃ l', chain e n x l' ∧ (length l' <= length l)%nat.
Proof.
  induction 1 as [c ? ?|c l ? ? ? IH]; intros Hx.
  - apply list_elem_of_singleton in Hx as ->. eexists. split; [by constructor|done].
  - apply elem_of_cons in Hx as [->|Hx].
    + eexists. split; [by apply chain_cons|done].
    + destruct (IH Hx) as (l' & ? & ?). exists l'. split; [done|simpl; lia].
Qed.

(** A chain that ends never meets a cluster twice. *)
Lemma chain_NoDup e n c l : chain e n c l → NoDup l.
Proof.
  induction 1 as [c ? ?|c l ? ? Hl IH]; [apply NoDup_singleton|].
  apply NoDup_cons_2; [|done]. intros Hin.
  destruct (chain_suffix _ _ _ _ _ Hl Hin) as (l' & Hl' & Hlen).
  assert (c :: l = l') as <- by (apply (chain_fun e n c); [by apply chain_cons|done]).
  simpl in Hlen. lia.
Qed.

Lemma chain_valid e n c l x : chain e n c l → x ∈ l → 2 <= x < n.
Proof.
  induction 1 as [c ? ?|c l ? ? ? IH]; intros Hx.
  - by apply list_elem_of_singleton in Hx as ->.
  - apply elem_of_cons in Hx as [->|Hx]; auto.
Qed.

Lemma chain_ext e e' n c l :
  (∀ x, x ∈ l → e' x = e x) → chain e n c l → chain e' n c l.
Proof.
  intros He Hch. induction Hch as [c ? ?|c l ? ? ? IH].
  - constructor; [done|]. by rewrite (He c (list_elem_of_here _ _)).
  - pose proof (He c (list_elem_of_here _ _)) as Hc.
    apply chain_cons; rewrite ?Hc; [done..|]. apply IH. intros x Hx.
    by apply He, list_elem_of_further.
Qed.

Section inv.
Context {D : Type} {BD : BlockDevice D} {BL : BlockDeviceLaws D}.
Implicit Types v : vol D.

(** Updating the allocation counters. *)
Definition counted v (f : FATFS) : Prop :=
  geo f = geo (vfs v) ∧ winsect f = winsect (vfs v) ∧ win f = win (vfs v) ∧
  wflag f = wflag (vfs v).

Lemma counted_ok v f :
  wf v → counted v f →
  wf (set_vfs f v) ∧ veqx (λ _, False) v (set_vfs f v) ∧
  (∀ c, fat_entry (set_vfs f v) c = fat_entry v c) ∧
  (mirror v → mirror (set_vfs f v)).
Proof.
  intros [G Hl Hb Hw] (Hg & Es & Ew & Ef).
  pose proof (geo_fields _ _ Hg) as (Et&_&En&_&_&_&_&Ez&_&Eb&_).
  assert (∀ s, view (set_vfs f v) s = view v s) as Hview.
  { intros s. unfold view. simpl. by rewrite Es, Ew. }
  split_and!.
  - split; simpl.
    + by apply (geom_geo (vfs v)).
    + by rewrite Ew.
    + by rewrite Ew.
    + unfold win_ok, vis, in_fat2 in *. simpl.
      rewrite Es, Ew, Ef, En, Ez, Eb. done.
  - constructor; simpl; try done.
  - intros c. unfold fat_entry, entry12, fat_byte. simpl. rewrite Et, Eb, !Hview. done.
  - unfold mirror. simpl. rewrite En, Eb, Ez, Es, Ef. done.
Qed.

(** ** Termination of [remove_chain] *)

Definition clusters v : list Z := seqZ 2 (n_fatent (vfs v) - 2).

(** The allocated clusters. *)
Definition used v : list Z := filter (λ c, fat_entry v c ≠ 0) (clusters v).

Lemma elem_of_clusters v c : c ∈ clusters v ↔ valid_clst v c.
Proof. unfold clusters, valid_clst. rewrite elem_of_seqZ. lia. Qed.

Lemma used_bound v : (length (used v) <= Z.to_nat (n_fatent (vfs v) - 2))%nat.
Proof.
  unfold used. etransitivity; [apply length_filter|].
  unfold clusters. by rewrite length_seqZ.
Qed.

(** Freeing an entry shrinks the set of allocated clusters. *)
Lemma filter_shrink (P Q : Z → Prop) `{∀ x, Decision (P x)} `{∀ x, Decision (Q x)} l c :
  c ∈ l → P c → ¬ Q c → (∀ x, x ∈ l → Q x → P x) →
  (length (filter Q l) < length (filter P l))%nat.
Proof.
  induction l as [|y l IH]; intros Hc HP HQ Hsub; [by apply not_elem_of_nil in Hc|].
  assert (length (filter Q l) <= length (filter P l))%nat as Hle.
  { clear IH Hc. assert (∀ x, x ∈ l → Q x → P x) as Hs by set_solver.
    clear Hsub. induction l as [|z l IH]; [done|]. rewrite !filter_cons.
    pose proof (Hs z ltac:(set_solver)). pose proof (IH ltac:(set_solver)).
    repeat case_decide; simpl; try lia; tauto. }
  rewrite !filter_cons. apply elem_of_cons in Hc as [<-|Hc].
  - repeat case_decide; simpl; try lia; tauto.
  - pose proof (IH Hc HP HQ ltac:(set_solver)).
    pose proof (Hsub y ltac:(set_solver)).
    repeat case_decide; simpl; try lia; tauto.
Qed.

Lemma used_shrink v v' c :
  n_fatent (vfs v') = n_fatent (vfs v) → valid_clst v c →
  fat_entry v c ≠ 0 → fat_entry v' c = 0 →
  (∀ c', valid_clst v c' → c' ≠ c → fat_entry v' c' = fat_entry v c') →
  (length (used v') < length (used v))%nat.
Proof.
  intros En Hc H0 H0' Ho. unfold used, clusters. rewrite En.
  apply (filter_shrink _ _ _ c); [by apply elem_of_clusters|exact H0|intros H1; exact (H1 H0')|].
  intros x Hx. destruct (decide (x = c)) as [->|]; [by rewrite H0'|].
  rewrite Ho; [done|by apply elem_of_clusters|done].
Qed.

Lemma fat_trunc_0 t : fat_trunc t 0 = 0.
Proof. unfold fat_trunc. bool_cases; done. Qed.

(** The counter update of the loop. *)
Definition freed_one (f : FATFS) : FATFS :=
  if free_clst f <? u32 (n_fatent f - 2)
  then set_free_clst (u32 (free_clst f + 1)) (set_fsi_flag (Z.lor (fsi_flag f) 1) f)
  else f.

Lemma counted_freed v : counted v (freed_one (vfs v)).
Proof. unfold freed_one, counted. destruct (_ <? _); done. Qed.

Definition free_post v (c : Z) (r : FRESULT) v' : Prop :=
  wf v' ∧ veqx (in_fat1 (vfs v)) v v' ∧ (r = FR_OK ∨ r = FR_DISK_ERR) ∧
  (r = FR_OK → fat_entry v' c = 0 ∧ free_clst (vfs v') = free_clst (freed_one (vfs v))) ∧
  (∀ c', valid_clst v c' → c' ≠ c → fat_entry v' c' = fat_entry v c') ∧
  (reliable v → r = FR_OK ∧ (mirror v → mirror v')).

Lemma free_cluster_spec v c :
  wf v → valid_clst v c →
  ∃ r v', free_cluster c v = Some (r, v') ∧ free_post v c r v'.
Proof.
  intros Hwf Hc. unfold free_cluster.
  destruct (put_fat_spec v c 0 Hwf Hc) as (r & v1 & E & Hwf1 & Hc1 & Hx1 & Hr & He & Ho & Hrel).
  rewrite (sbind_run _ _ _ _ _ E). rewrite fat_trunc_0 in He.
  destruct (fr_ok_cases r Hr) as [[-> ->]|[-> ->]]; simpl.
  2:{ eexists _, _. split; [done|]. by split_and!; auto. }
  destruct (counted_ok v1 _ Hwf1 (counted_freed v1)) as (Hwf2 & Hx2 & He2 & Hm2).
  exists FR_OK, (set_vfs (freed_one (vfs v1)) v1). split.
  { unfold sbind, fs, freed_one, upd, sret. destruct (_ <? _); [done|]. by destruct v1. }
  split_and!; auto.
  - eapply veqx_trans; [done|]. by eapply veqx_weaken; [|done].
  - intros _. rewrite He2. split; [auto|].
    unfold freed_one. simpl.
    destruct (core_fields _ _ Hc1) as (_&_&_&_&_&_&_&_&Ef&En&_).
    rewrite <- Ef, <- En. by destruct (_ <? _).
  - intros c' ? ?. rewrite He2. auto.
  - intros HR. destruct (Hrel HR). auto.
Qed.

Lemma veqx_in_fat1_trans v v1 v2 :
  veqx (in_fat1 (vfs v)) v v1 → veqx (in_fat1 (vfs v1)) v1 v2 →
  veqx (in_fat1 (vfs v)) v v2.
Proof.
  intros H1 H2. eapply veqx_trans; [done|]. eapply veqx_weaken; [|done].
  pose proof (geo_fields _ _ (vx_geo _ _ _ H1)) as (_&_&_&_&_&_&_&Ez&_&Eb&_).
  intros s. unfold in_fat1. by rewrite Ez, Eb.
Qed.

Lemma n_fatent_veqx P v v' : veqx P v v' → n_fatent (vfs v') = n_fatent (vfs v).
Proof. intros H. by pose proof (geo_fields _ _ (vx_geo _ _ _ H)) as (_&_&_&_&_&_&->&_). Qed.

Lemma remove_loop_returns fuel v c :
  wf v → valid_clst v c → (length (used v) < fuel)%nat →
  ∃ r v', remove_loop fuel c v = Some (r, v') ∧ wf v' ∧ veqx (in_fat1 (vfs v)) v v'.
Proof.
  revert v c. induction fuel as [|fuel IH]; intros v c Hwf Hc Hf; [lia|]. simpl.
  destruct (get_fat_spec v c Hwf Hc) as (n & v1 & E & Hwf1 & Hv1 & Hn & Hrel).
  rewrite (sbind_run _ _ _ _ _ E).
  assert (∀ r : FRESULT, ∃ r' v', Some (r, v1) = Some (r', v') ∧ wf v' ∧
            veqx (in_fat1 (vfs v)) v v') as Hstop.
  { intros r. exists r, v1. split_and!; [done..|by apply veq_veqx]. }
  destruct (Z.eqb_spec n 0); [apply Hstop|]. destruct (Z.eqb_spec n 1); [apply Hstop|].
  destruct (Z.eqb_spec n 0xFFFFFFFF); [apply Hstop|]. destruct Hn as [Hn|Hn]; [|done].
  assert (valid_clst v1 c) as Hc1 by (by apply (valid_clst_veq v)).
  destruct (free_cluster_spec v1 c Hwf1 Hc1) as (r & v2 & E2 & Hwf2 & Hx2 & Hr & He & Ho & _).
  rewrite (sbind_run _ _ _ _ _ E2).
  assert (veqx (in_fat1 (vfs v)) v v2) as Hx.
  { eapply veqx_in_fat1_trans; [by apply veq_veqx|done]. }
  destruct (fr_ok_cases r Hr) as [[-> ->]|[-> ->]]; simpl; [|by exists FR_DISK_ERR, v2].
  rewrite (sbind_run fs _ v2 _ v2 eq_refl). pose proof (n_fatent_veqx _ _ _ Hx) as Enf.
  assert (∀ x, valid_clst v x → fat_entry v x = fat_entry v1 x) as Hve.
  { intros. by apply fat_entry_veq. }
  pose proof (fat_entry_range v c Hwf).
  destruct (n <? n_fatent (vfs v2)) eqn:Hlt; zb; [|by exists FR_OK, v2].
  destruct (IH v2 n) as (r' & v' & E3 & ? & ?); [done|unfold valid_clst in *; lia| |].
  - destruct (He eq_refl) as [He0 _].
    assert (length (used v2) < length (used v))%nat; [|lia].
    apply (used_shrink _ _ c); auto; [congruence|].
    intros c' Hc' ?. rewrite Hve by done. apply Ho; [|done].
    by apply (valid_clst_veq v).
  - exists r', v'. split; [done|]. split; [done|]. by eapply veqx_in_fat1_trans.
Qed.

(** ** Functional correctness of [remove_chain] *)

(** The free-cluster counter after one cluster was freed: it counts up
    while it is below the number of clusters (0xFFFFFFFF is "unknown"). *)
Definition bump (n free : Z) : Z :=
  if free <? u32 (n - 2) then u32 (free + 1) else free.

Lemma bump_iter n free k :
  2 <= n < 2 ^ 32 → 0 <= free → free + Z.of_nat k <= n - 2 →
  Nat.iter k (bump n) free = free + Z.of_nat k.
Proof.
  intros Hn Hf. induction k as [|k IH]; intros Hk; simpl; [lia|].
  rewrite IH by lia. unfold bump. rewrite (u32_small (n - 2)) by lia.
  rewrite (proj2 (Z.ltb_lt _ _)), u32_small by lia. lia.
Qed.

Lemma bump_iter_unknown n free k :
  2 <= n < 2 ^ 32 → n - 2 <= free → Nat.iter k (bump n) free = free.
Proof.
  intros Hn Hf. induction k as [|k IH]; simpl; [done|]. rewrite IH. unfold bump.
  rewrite (u32_small (n - 2)) by lia. by rewrite (proj2 (Z.ltb_ge _ _)).
Qed.

Lemma freed_one_bump f : free_clst (freed_one f) = bump (n_fatent f) (free_clst f).
Proof. unfold freed_one, bump. by destruct (_ <? _). Qed.

Definition removed v (l : list Z) v' : Prop :=
  wf v' ∧ veqx (in_fat1 (vfs v)) v v' ∧
  (∀ x, x ∈ l → fat_entry v' x = 0) ∧
  (∀ x, valid_clst v x → x ∉ l → fat_entry v' x = fat_entry v x) ∧
  free_clst (vfs v') = Nat.iter (length l) (bump (n_fatent (vfs v))) (free_clst (vfs v)) ∧
  (mirror v → mirror v').

Lemma chain_head e n c l : chain e n c l → 2 <= c < n ∧ ∃ l', l = c :: l'.
Proof. inversion 1; eauto. Qed.

Lemma iter_shift {A} (f : A → A) k x : Nat.iter k f (f x) = f (Nat.iter k f x).
Proof. induction k as [|k IH]; simpl; congruence. Qed.

(** Freeing the head of a chain and following the link. *)
Lemma remove_head v c :
  wf v → reliable v → valid_clst v c → fat_entry v c ≠ 0 → fat_entry v c ≠ 1 →
  ∃ v', removed v [c] v' ∧ ∀ fuel,
    remove_loop (S fuel) c v =
    if fat_entry v c <? n_fatent (vfs v)
    then remove_loop fuel (fat_entry v c) v' else Some (FR_OK, v').
Proof.
  intros Hwf HR Hc H0 H1.
  destruct (get_fat_spec v c Hwf Hc) as (n & v1 & E & Hwf1 & Hv1 & _ & Hrel).
  destruct (Hrel HR) as [-> Hm1]. pose proof (fat_entry_range v c Hwf).
  assert (valid_clst v1 c) as Hc1 by (by apply (valid_clst_veq v)).
  pose proof (reliable_veq _ _ Hv1 HR) as HR1.
  destruct (free_cluster_spec v1 c Hwf1 Hc1) as (r & v2 & E2 & Hwf2 & Hx2 & _ & He & Ho & Hrel2).
  destruct (Hrel2 HR1) as [-> Hm2]. destruct (He eq_refl) as [He0 Hfree].
  assert (veqx (in_fat1 (vfs v)) v v2) as Hx.
  { eapply veqx_in_fat1_trans; [by apply veq_veqx|done]. }
  exists v2. split.
  - split_and!; auto.
    + intros x Hx'. by apply list_elem_of_singleton in Hx' as ->.
    + intros x Hvx Hne. rewrite (fat_entry_veq v v1) by done.
      apply Ho; [by apply (valid_clst_veq v)|]. intros ->. apply Hne, list_elem_of_here.
    + rewrite Hfree, freed_one_bump. simpl.
      destruct (core_fields _ _ (veq_core _ _ Hv1)) as (_&_&_&_&_&_&_&_&->&->&_). done.
  - intros fuel. simpl. rewrite (sbind_run _ _ _ _ _ E).
    rewrite (proj2 (Z.eqb_neq _ 0)), (proj2 (Z.eqb_neq _ 1)),
      (proj2 (Z.eqb_neq _ 0xFFFFFFFF)) by lia.
    rewrite (sbind_run _ _ _ _ _ E2). simpl. rewrite (sbind_run fs _ v2 _ v2 eq_refl).
    rewrite (n_fatent_veqx _ _ _ Hx). by destruct (_ <? _).
Qed.

Lemma removed_trans v l1 v1 l2 v2 :
  removed v l1 v1 → removed v1 l2 v2 → (∀ x, x ∈ l1 → valid_clst v x) →
  (∀ x, x ∈ l1 → x ∉ l2) → removed v (l1 ++ l2) v2.
Proof.
  intros (Hwf1&Hx1&Hz1&Ho1&Hf1&Hm1) (Hwf2&Hx2&Hz2&Ho2&Hf2&Hm2) Hv Hd.
  assert (∀ x, valid_clst v x → valid_clst v1 x) as Hvv by (by intros; eapply valid_clst_veqx).
  split_and!; auto.
  - by eapply veqx_in_fat1_trans.
  - intros x Hx. apply elem_of_app in Hx as [Hx|Hx]; auto.
    rewrite Ho2; auto.
  - intros x Hx Hn. apply not_elem_of_app in Hn as [? ?]. rewrite Ho2, Ho1; auto.
  - rewrite Hf2, Hf1, (n_fatent_veqx _ _ _ Hx1), length_app, Nat.add_comm, Nat.iter_add. done.
Qed.

Lemma remove_loop_chain v c l :
  wf v → reliable v → chain (fat_entry v) (n_fatent (vfs v)) c l →
  ∀ fuel, (length l <= fuel)%nat →
  ∃ v', remove_loop fuel c v = Some (FR_OK, v') ∧ removed v l v'.
Proof.
  revert v c. induction l as [|x l IH]; intros v c Hwf HR Hch fuel Hf; [inversion Hch|].
  pose proof (chain_NoDup _ _ _ _ Hch) as Hnd.
  destruct fuel as [|fuel]; [simpl in Hf; lia|]. simpl in Hf.
  pose proof (n_fatent_bound v Hwf).
  inversion Hch as [c' Hc He|c' l' Hc He Hl]; subst.
  - destruct (remove_head v x) as (v' & Hrm & Hrun); [done..|lia|lia|].
    exists v'. rewrite Hrun, (proj2 (Z.ltb_ge _ _)) by lia. done.
  - destruct (remove_head v x) as (v1 & Hrm & Hrun); [done..|lia|lia|].
    pose proof Hrm as (Hwf1&Hx1&_&Ho1&_).
    pose proof (NoDup_cons_1_1 _ _ Hnd) as Hni.
    destruct (IH v1 (fat_entry v x) Hwf1) with (fuel := fuel) as (v' & E & Hrm');
      [by apply (reliable_veqx _ _ _ Hx1)| |lia|].
    + rewrite (n_fatent_veqx _ _ _ Hx1). eapply chain_ext; [|done].
      intros y Hy. apply Ho1; [by apply (chain_valid _ _ _ _ _ Hl)|].
      intros Hyx. apply list_elem_of_singleton in Hyx as ->. done.
    + exists v'. rewrite Hrun, (proj2 (Z.ltb_lt _ _)) by lia. split; [done|].
      apply (removed_trans _ [x] v1); [done..| |];
        intros y Hy; apply list_elem_of_singleton in Hy as ->; done.
Qed.

(** ** [remove_chain] *)

Lemma remove_chain_invalid v c p :
  ¬ valid_clst v c → remove_chain c p v = Some (FR_INT_ERR, v).
Proof.
  intros Hc. unfold remove_chain. rewrite (sbind_run fs _ v _ v eq_refl).
  unfold valid_clst in Hc. destruct (c <? 2) eqn:E1; [done|].
  destruct (n_fatent (vfs v) <=? c) eqn:E2; [done|]. zb. lia.
Qed.

Lemma remove_chain_valid v c p :
  valid_clst v c →
  remove_chain c p v =
    (let! res := (if negb (p =? 0) then put_fat p 0xFFFFFFFF else sret FR_OK) in
     if negb (fr_ok res) then sret res else
     remove_loop (Z.to_nat (n_fatent (vfs v))) c) v.
Proof.
  intros Hc. unfold remove_chain. rewrite (sbind_run fs _ v _ v eq_refl).
  by rewrite guard_get.
Qed.

(** The fuel of the loop suffices whatever the FAT holds. *)
Lemma used_fuel v v' :
  wf v → n_fatent (vfs v') = n_fatent (vfs v) →
  (length (used v') < Z.to_nat (n_fatent (vfs v)))%nat.
Proof.
  intros Hwf En. pose proof (used_bound v'). pose proof (n_fatent_bound v Hwf).
  rewrite En in *. lia.
Qed.

Lemma remove_chain_returns v c p :
  wf v → ∃ r v', remove_chain c p v = Some (r, v') ∧ wf v' ∧ veqx (in_fat1 (vfs v)) v v'.
Proof.
  intros Hwf. destruct (decide (2 <= c < n_fatent (vfs v))) as [Hc|Hc].
  2:{ rewrite remove_chain_invalid by done. by eexists _, _. }
  rewrite remove_chain_valid by done.
  assert (∃ r v1, (if negb (p =? 0) then put_fat p 0xFFFFFFFF else sret FR_OK) v = Some (r, v1) ∧
    wf v1 ∧ veqx (in_fat1 (vfs v)) v v1) as (r & v1 & E & Hwf1 & Hx1).
  { destruct (p =? 0); simpl; [by eexists _, _|].
    destruct (decide (2 <= p < n_fatent (vfs v))) as [Hp|Hp].
    - destruct (put_fat_spec v p 0xFFFFFFFF Hwf Hp) as (r & v1 & E & Hwf1 & _ & Hx & _).
      by exists r, v1.
    - rewrite put_fat_invalid by done. by eexists _, _. }
  rewrite (sbind_run _ _ _ _ _ E). destruct (fr_ok r); simpl; [|by eexists _, _].
  pose proof (n_fatent_veqx _ _ _ Hx1) as En.
  destruct (remove_loop_returns (Z.to_nat (n_fatent (vfs v))) v1 c) as (r' & v' & E' & ? & Hx');
    [done|by unfold valid_clst; rewrite En|by apply used_fuel|].
  exists r', v'. split_and!; [done..|]. by eapply veqx_in_fat1_trans.
Qed.

(** End-of-chain marks. *)
Lemma eoc_ge v : wf v → n_fatent (vfs v) <= fat_trunc (fs_type (vfs v)) 0xFFFFFFFF.
Proof.
  intros [G _ _ _]. destruct G as [Ht _ _ _ _ _ _ Hn _ _]. revert Hn.
  assert (fat_limit (fs_type (vfs v)) <= fat_trunc (fs_type (vfs v)) 0xFFFFFFFF); [|lia].
  by destruct Ht as [->|[->| ->]]; vm_compute.
Qed.

Lemma remove_chain_whole v c l :
  wf v → reliable v → chain (fat_entry v) (n_fatent (vfs v)) c l →
  ∃ v', remove_chain c 0 v = Some (FR_OK, v') ∧ removed v l v'.
Proof.
  intros Hwf HR Hch. pose proof (chain_head _ _ _ _ Hch) as [Hc _].
  rewrite remove_chain_valid by done. simpl. apply remove_loop_chain; try done.
  pose proof (n_fatent_bound v Hwf).
  apply Nat.le_trans with (length (clusters v)).
  - apply submseteq_length, NoDup_submseteq; [by eapply chain_NoDup|].
    intros x Hx. apply elem_of_clusters. by eapply chain_valid.
  - unfold clusters. rewrite length_seqZ. lia.
Qed.

(** ** [create_chain] *)

(** Clusters the search of [create_chain] has still to look at. *)
Definition ahead (scl ncl c : Z) : Prop :=
  if scl <=? ncl then ncl < c ∨ c <= scl else ncl < c <= scl.

Definition dist (n scl ncl : Z) : Z :=
  if scl <=? ncl then n - 1 - ncl + (scl - 1) else scl - ncl.

Definition find_post v (scl ncl : Z) (p : Z + Z) v' : Prop :=
  wf v' ∧ veq v v' ∧
  match p with
  | inr c => valid_clst v c ∧ fat_entry v c = 0
  | inl e =>
      (e = 0 ∧ ∀ c, valid_clst v c → ahead scl ncl c → fat_entry v c ≠ 0) ∨
      (e = 1 ∧ ∃ c, valid_clst v c ∧ fat_entry v c = 1) ∨
      (e = 0xFFFFFFFF ∧ ¬ reliable v)
  end ∧
  (reliable v → mirror v → mirror v').

Lemma find_post_step v v1 scl ncl ncl1 p v' :
  wf v → veq v v1 → (reliable v → mirror v → mirror v1) →
  (∀ c, valid_clst v c → ahead scl ncl c → c = ncl1 ∨ ahead scl ncl1 c) →
  fat_entry v ncl1 ≠ 0 →
  find_post v1 scl ncl1 p v' → find_post v scl ncl p v'.
Proof.
  intros Hwf Hv Hm Hah Hz (Hwf' & Hv' & Hp & Hm').
  assert (∀ c, valid_clst v c → fat_entry v c = fat_entry v1 c) as He
    by (intros; by apply fat_entry_veq).
  pose proof (valid_clst_veq v1 v) as Hvc.
  assert (veq v1 v) as Hv1 by (by symmetry).
  split_and!; [done|by transitivity v1| |].
  - destruct p as [e|c].
    + destruct Hp as [[-> Hp]|[[-> (c & Hc & Hp)]|[-> Hp]]].
      * left. split; [done|]. intros c Hc Ha.
        destruct (Hah c Hc Ha) as [->|]; [done|]. rewrite He by done. apply Hp; [|done].
        by apply (valid_clst_veq v).
      * right; left. split; [done|]. exists c. rewrite He by auto. auto.
      * right; right. split; [done|]. intros HR. by apply Hp, (reliable_veq v).
    + destruct Hp as [Hc Hp]. rewrite He by auto. auto.
  - intros HR ?. apply Hm'; [by apply (reliable_veq v)|auto].
Qed.

Lemma find_free_spec fuel v scl ncl :
  wf v → 1 <= scl < n_fatent (vfs v) → 1 <= ncl < n_fatent (vfs v) →
  dist (n_fatent (vfs v)) scl ncl < Z.of_nat fuel →
  (2 <= scl ∨ scl <= ncl) → (ncl < scl → 2 <= ncl) →
  ∃ p v', find_free fuel scl ncl v = Some (p, v') ∧ find_post v scl ncl p v'.
Proof.
  revert v ncl. induction fuel as [|fuel IH]; intros v ncl Hwf Hs Hn Hf Hsn Hw.
  { unfold dist in Hf. bool_cases; zb; lia. }
  simpl. rewrite (sbind_run fs _ v _ v eq_refl). pose proof (n_fatent_bound v Hwf).
  rewrite (u32_small (ncl + 1)) by lia.
  set (wrap := n_fatent (vfs v) <=? ncl + 1).
  set (ncl1 := if wrap then 2 else ncl + 1).
  assert ((wrap = true ∧ ncl1 = 2 ∧ n_fatent (vfs v) = ncl + 1) ∨
          (wrap = false ∧ ncl1 = ncl + 1 ∧ ncl + 1 < n_fatent (vfs v))) as Hcase.
  { subst ncl1 wrap. destruct (_ <=? _) eqn:?; zb; lia. }
  clearbody ncl1 wrap.
  destruct (wrap && (scl <? ncl1)) eqn:Estop.
  { exists (inl 0), v. split; [done|]. split_and!; [done|reflexivity| |auto].
    left. split; [done|]. intros c [Hc1 Hc2] Ha. zb.
    destruct Hcase as [(_&->&?)|[? _]]; [|congruence].
    revert Ha. unfold ahead. bool_cases; zb; lia. }
  assert (valid_clst v ncl1) as Hc1 by (unfold valid_clst; lia).
  assert ((ncl1 = 2 ∧ 2 <= scl ∧ n_fatent (vfs v) = ncl + 1) ∨
          (ncl1 = ncl + 1 ∧ ncl + 1 < n_fatent (vfs v))) as Hnext.
  { destruct Hcase as [(-> & -> & ?)|(_ & -> & ?)]; simpl in Estop; zb; lia. }
  clear Hcase Estop.
  destruct (get_fat_spec v ncl1 Hwf Hc1) as (cs & v1 & E & Hwf1 & Hv1 & Hcs & Hrel).
  rewrite (sbind_run _ _ _ _ _ E). pose proof (fat_entry_range v ncl1 Hwf).
  assert (reliable v → mirror v → mirror v1) as Hm by (intros HR; by apply Hrel).
  destruct (Z.eqb_spec cs 0) as [->|Hcs0].
  { exists (inr ncl1), v1. split; [done|]. split_and!; auto.
    destruct Hcs; [done|lia]. }
  destruct (Z.eqb_spec cs 1) as [->|Hcs1]; simpl.
  { exists (inl 1), v1. split; [done|]. split_and!; auto. right; left. split; [done|].
    exists ncl1. destruct Hcs; [done|lia]. }
  destruct (Z.eqb_spec cs 0xFFFFFFFF) as [->|Hcs2]; simpl.
  { exists (inl 0xFFFFFFFF), v1. split; [done|]. split_and!; auto. right; right.
    split; [done|]. intros HR. destruct (Hrel HR) as [? _]. lia. }
  destruct Hcs as [Hcs|]; [|done].
  assert (∀ c, valid_clst v c → ahead scl ncl c → c = ncl1 ∨ (ncl1 ≠ scl ∧ ahead scl ncl1 c)) as Hah.
  { intros c [Hx1 Hx2] Ha. revert Ha. unfold ahead. bool_cases; zb; lia. }
  destruct (Z.eqb_spec ncl1 scl) as [Heq|Hne].
  { exists (inl 0), v1. split; [done|]. split_and!; auto. left. split; [done|].
    intros c Hc Ha. destruct (Hah c Hc Ha) as [->|[? _]]; [lia|done]. }
  destruct (core_fields _ _ (veq_core _ _ Hv1)) as (_&_&_&_&_&_&_&_&_&En&_).
  destruct (IH v1 ncl1) as (p & v' & E' & Hp); rewrite <- ?En; auto.
  - unfold valid_clst in Hc1. lia.
  - revert Hf. unfold dist. bool_cases; zb; lia.
  - lia.
  - lia.
  - exists p, v'. split; [done|]. apply (find_post_step v v1 scl ncl ncl1); auto.
    + intros c Hc Ha. destruct (Hah c Hc Ha); tauto.
    + congruence.
Qed.

(** The whole-FAT version of [find_post]: the search started at [scl]. *)
Definition pick_post v (p : Z + Z) v' : Prop :=
  wf v' ∧ veq v v' ∧
  match p with
  | inr c => valid_clst v c ∧ fat_entry v c = 0
  | inl e =>
      (e = 0 ∧ ∀ c, valid_clst v c → fat_entry v c ≠ 0) ∨
      (e = 1 ∧ ∃ c, valid_clst v c ∧ fat_entry v c = 1) ∨
      (e = 0xFFFFFFFF ∧ ¬ reliable v)
  end ∧
  (reliable v → mirror v → mirror v').

Lemma search_spec v scl :
  wf v → 1 <= scl < n_fatent (vfs v) →
  ∃ p v', find_free (Z.to_nat (n_fatent (vfs v))) scl scl v = Some (p, v') ∧ pick_post v p v'.
Proof.
  intros Hwf Hs. pose proof (n_fatent_bound v Hwf).
  destruct (find_free_spec (Z.to_nat (n_fatent (vfs v))) v scl scl) as (p & v' & E & Hp);
    [done..| |lia|lia|].
  { unfold dist. rewrite Z.leb_refl. lia. }
  exists p, v'. split; [done|]. destruct Hp as (? & ? & Hp & ?). split_and!; try done.
  destruct p; [|done]. destruct Hp as [[-> Hp]|Hp]; [|by right].
  left. split; [done|]. intros c Hc. apply Hp; [done|].
  unfold ahead. rewrite Z.leb_refl. lia.
Qed.

Lemma pick_post_veq v v1 p v' :
  wf v → veq v v1 → (reliable v → mirror v → mirror v1) → pick_post v1 p v' → pick_post v p v'.
Proof.
  intros Hwf Hv Hm (Hwf' & Hv' & Hp & Hm').
  assert (∀ c, valid_clst v c → fat_entry v c = fat_entry v1 c) as He
    by (intros; by apply fat_entry_veq).
  assert (∀ c, valid_clst v1 c → valid_clst v c) as Hvc.
  { intros c. apply valid_clst_veq. by symmetry. }
  assert (reliable v → reliable v1) as HRR by (by apply reliable_veq).
  split_and!; [done|by transitivity v1| |by auto].
  destruct p as [e|c].
  - destruct Hp as [[-> Hp]|[[-> (c & Hc & Hp)]|[-> Hp]]].
    + left. split; [done|]. intros c Hc. rewrite He by done. apply Hp.
      by apply (valid_clst_veq v).
    + right; left. split; [done|]. exists c. rewrite He by auto. auto.
    + right; right. auto.
  - destruct Hp as [Hc Hp]. rewrite He by auto. auto.
Qed.

Lemma pick_cluster_spec v clst scl :
  wf v → 1 <= scl < n_fatent (vfs v) →
  ∃ p v', pick_cluster clst scl v = Some (p, v') ∧ pick_post v p v'.
Proof.
  intros Hwf Hs. pose proof (n_fatent_bound v Hwf).
  unfold pick_cluster. rewrite (sbind_run fs _ v _ v eq_refl).
  destruct (scl =? clst); [|by rewrite (sbind_run fs _ v _ v eq_refl); apply search_spec].
  rewrite (u32_small (scl + 1)) by lia.
  set (ncl := if n_fatent (vfs v) <=? scl + 1 then 2 else scl + 1).
  assert (valid_clst v ncl) as Hc.
  { subst ncl. unfold valid_clst. destruct (_ <=? _) eqn:?; zb; lia. }
  destruct (get_fat_spec v ncl Hwf Hc) as (cs & v1 & E & Hwf1 & Hv1 & Hcs & Hrel).
  rewrite (sbind_run _ _ _ _ _ E). pose proof (fat_entry_range v ncl Hwf).
  assert (reliable v → mirror v → mirror v1) as Hm by (intros HR; by apply Hrel).
  destruct (Z.eqb_spec cs 1) as [->|Hcs1]; simpl.
  { exists (inl 1), v1. split; [done|]. split_and!; auto. right; left. split; [done|].
    exists ncl. destruct Hcs; [done|lia]. }
  destruct (Z.eqb_spec cs 0xFFFFFFFF) as [->|Hcs2]; simpl.
  { exists (inl 0xFFFFFFFF), v1. split; [done|]. split_and!; auto. right; right.
    split; [done|]. intros HR. destruct (Hrel HR) as [? _]. lia. }
  destruct (Z.eqb_spec cs 0) as [->|Hcs0]; simpl.
  { exists (inr ncl), v1. split; [done|]. split_and!; auto. destruct Hcs; [done|lia]. }
  rewrite (sbind_run fs _ v1 _ v1 eq_refl), (sbind_run fs _ v1 _ v1 eq_refl).
  destruct (core_fields _ _ (veq_core _ _ Hv1)) as (_&_&_&_&_&_&_&_&_&En&_).
  destruct (search_spec v1 (if (2 <=? last_clst (vfs v1)) && (last_clst (vfs v1) <? n_fatent (vfs v1))
                            then last_clst (vfs v1) else scl)) as (p & v' & E' & Hp); [done| |].
  { destruct (_ && _) eqn:?; zb; lia. }
  exists p, v'. split; [done|]. by apply (pick_post_veq v v1).
Qed.

(** What a successful allocation of [r] behind [clst] (0: a new chain)
    does to the FAT and the counters. *)
Definition allocated v (clst r : Z) v' : Prop :=
  valid_clst v r ∧ fat_entry v r = 0 ∧
  fat_entry v' r = fat_trunc (fs_type (vfs v)) 0xFFFFFFFF ∧
  (clst ≠ 0 → fat_entry v' clst = r) ∧
  (∀ c, valid_clst v c → c ≠ r → c ≠ clst → fat_entry v' c = fat_entry v c) ∧
  last_clst (vfs v') = r ∧
  free_clst (vfs v') = (if free_clst (vfs v) <=? u32 (n_fatent (vfs v) - 2)
                        then u32 (free_clst (vfs v) - 1) else free_clst (vfs v)).

Definition alloc_post v (clst r : Z) v' : Prop :=
  wf v' ∧ veqx (in_fat1 (vfs v)) v v' ∧ (reliable v → mirror v → mirror v') ∧
  (allocated v clst r v' ∨
   (r = 0 ∧ veq v v' ∧ (free_clst (vfs v) = 0 ∨ ∀ c, valid_clst v c → fat_entry v c ≠ 0)) ∨
   (r = 1 ∧ veq v v' ∧ ∃ c, valid_clst v c ∧ fat_entry v c = 1) ∨
   (r = 0xFFFFFFFF ∧ ¬ reliable v)).

Lemma fat_trunc_clst v c :
  wf v → valid_clst v c → fat_trunc (fs_type (vfs v)) c = c.
Proof.
  intros Hwf [Hc1 Hc2]. pose proof (g_nfatent _ _ (wf_geom v Hwf)) as Hl.
  unfold fat_limit, fat_trunc in *. revert Hl. bool_cases; intros; rewrite Z.mod_small; lia.
Qed.

Lemma link_spec v clst ncl :
  wf v → valid_clst v ncl → (clst = 0 ∨ (valid_clst v clst ∧ clst ≠ ncl)) →
  ∃ r v', link clst ncl v = Some (r, v') ∧
    wf v' ∧ core (vfs v) = core (vfs v') ∧ veqx (in_fat1 (vfs v)) v v' ∧
    (r = FR_OK ∨ r = FR_DISK_ERR) ∧
    (r = FR_OK → fat_entry v' ncl = fat_trunc (fs_type (vfs v)) 0xFFFFFFFF ∧
       (clst ≠ 0 → fat_entry v' clst = ncl) ∧
       (∀ c, valid_clst v c → c ≠ ncl → c ≠ clst → fat_entry v' c = fat_entry v c)) ∧
    (reliable v → r = FR_OK ∧ (mirror v → mirror v')).
Proof.
  intros Hwf Hn Hc. unfold link.
  destruct (put_fat_spec v ncl 0xFFFFFFFF Hwf Hn) as (r & v1 & E & Hwf1 & Hc1 & Hx1 & Hr & He & Ho & Hrel).
  rewrite (sbind_run _ _ _ _ _ E).
  destruct (decide (r = FR_OK ∧ clst ≠ 0)) as [[-> Hnz]|Hno].
  2:{ exists r, v1. split.
      { destruct (fr_ok_cases r Hr) as [[-> ->]|[-> ->]]; simpl; [|done].
        destruct (Z.eqb_spec clst 0); [done|tauto]. }
      split_and!; auto. intros ->. split_and!; auto. intros ?. tauto. }
  rewrite (proj2 (Z.eqb_neq _ _) Hnz). simpl. destruct Hc as [?|[Hc Hne]]; [done|].
  destruct (put_fat_spec v1 clst ncl Hwf1) as (r2 & v2 & E2 & Hwf2 & Hc2 & Hx2 & Hr2 & He2 & Ho2 & Hrel2);
    [by apply (valid_clst_veqx _ _ _ _ Hx1)|].
  destruct (core_fields _ _ Hc1) as (Et&_).
  exists r2, v2. split_and!; auto.
  - by rewrite Hc1.
  - by eapply veqx_in_fat1_trans.
  - intros ->. assert (∀ x, valid_clst v x → valid_clst v1 x) as Hvv
      by (intros x; by apply valid_clst_veqx with (1 := Hx1)).
    split_and!.
    + rewrite Ho2; auto.
    + intros _. rewrite He2, <- Et by done. by apply fat_trunc_clst.
    + intros c Hv ? ?. rewrite Ho2, Ho; auto.
  - intros HR. destruct (Hrel HR) as [_ ?]. destruct (Hrel2 (reliable_veqx _ _ _ Hx1 HR)). auto.
Qed.

Lemma counted_alloc v ncl : counted v (count_alloc ncl (vfs v)).
Proof. unfold count_alloc, counted. simpl. by destruct (_ <=? _). Qed.

Lemma count_alloc_fields ncl f :
  last_clst (count_alloc ncl f) = ncl ∧
  free_clst (count_alloc ncl f) =
    (if free_clst f <=? u32 (n_fatent f - 2) then u32 (free_clst f - 1) else free_clst f).
Proof. unfold count_alloc. simpl. by destruct (_ <=? _). Qed.

Lemma allocate_spec v clst scl :
  wf v → 1 <= scl < n_fatent (vfs v) →
  (clst = 0 ∨ (valid_clst v clst ∧ fat_entry v clst ≠ 0)) →
  ∃ r v', allocate clst scl v = Some (r, v') ∧ alloc_post v clst r v'.
Proof.
  intros Hwf Hs Hc. unfold allocate. rewrite (sbind_run fs _ v _ v eq_refl).
  destruct (Z.eqb_spec (free_clst (vfs v)) 0) as [Hz|_].
  { exists 0, v. split; [done|]. split_and!; [done|reflexivity|auto|]. right; left.
    split_and!; [done|reflexivity|by left]. }
  destruct (pick_cluster_spec v clst scl Hwf Hs) as (p & v1 & E & Hwf1 & Hv1 & Hp & Hm1).
  rewrite (sbind_run _ _ _ _ _ E). destruct p as [e|ncl].
  { exists e, v1. split; [done|]. split_and!; [done|by apply veq_veqx|done|]. right.
    destruct Hp as [[-> ?]|[[-> ?]|[-> ?]]]; auto 6. }
  destruct Hp as [Hn Hn0].
  assert (∀ x, valid_clst v x → valid_clst v1 x) as Hvv by (intros x; by apply valid_clst_veq).
  assert (∀ x, valid_clst v x → fat_entry v x = fat_entry v1 x) as Hve
    by (intros; by apply fat_entry_veq).
  destruct (link_spec v1 clst ncl Hwf1) as (r & v2 & E2 & Hwf2 & Hc2 & Hx2 & Hr & He & Hrel);
    [auto|destruct Hc as [?|[? ?]]; [by left|right; split; [auto|congruence]]|].
  rewrite (sbind_run _ _ _ _ _ E2).
  assert (veqx (in_fat1 (vfs v)) v v2) as Hx.
  { eapply veqx_in_fat1_trans; [by apply veq_veqx|done]. }
  destruct Hr as [->| ->].
  2:{ exists 0xFFFFFFFF, v2. split; [done|]. split_and!; auto.
      - intros HR. destruct (Hrel (reliable_veq _ _ Hv1 HR)). done.
      - right; right; right. split; [done|]. intros HR.
        destruct (Hrel (reliable_veq _ _ Hv1 HR)). done. }
  destruct (counted_ok v2 _ Hwf2 (counted_alloc v2 ncl)) as (Hwf3 & Hx3 & He3 & Hm3).
  destruct (core_fields _ _ (veq_core _ _ Hv1)) as (Et&_&_&_&_&_&_&_&Ef&En&_).
  destruct (core_fields _ _ Hc2) as (_&_&_&_&_&_&_&_&Ef2&En2&_).
  destruct (He eq_refl) as (Hnew & Hlk & Hoth).
  exists ncl, (set_vfs (count_alloc ncl (vfs v2)) v2). split; [done|]. split_and!; [done|..].
  - eapply veqx_trans; [done|]. by eapply veqx_weaken; [|done].
  - intros HR ?. destruct (Hrel (reliable_veq _ _ Hv1 HR)). auto.
  - left. destruct (count_alloc_fields ncl (vfs v2)) as [Hl Hfr].
    rewrite <- Ef2, <- En2, <- Ef, <- En in Hfr.
    split_and!; try done; rewrite ?He3, ?Et; try done.
    intros c Hcv ? ?. rewrite He3, Hoth, Hve; auto.
Qed.

(** Creating a new chain. *)
Lemma create_chain_new v :
  wf v → 0 <= last_clst (vfs v) →
  ∃ r v', create_chain 0 v = Some (r, v') ∧ alloc_post v 0 r v'.
Proof.
  intros Hwf Hl. unfold create_chain. rewrite (sbind_run fs _ v _ v eq_refl). simpl.
  pose proof (n_fatent_bound v Hwf). apply allocate_spec; [done| |by left].
  bool_cases; zb; lia.
Qed.

(** Stretching a chain. *)
Definition stretch_post v (clst r : Z) v' : Prop :=
  wf v' ∧ veqx (in_fat1 (vfs v)) v v' ∧ (reliable v → mirror v → mirror v') ∧
  (r ≠ 0xFFFFFFFF → n_fatent (vfs v) <= fat_entry v clst → alloc_post v clst r v') ∧
  (r ≠ 0xFFFFFFFF → fat_entry v clst < n_fatent (vfs v) →
     veq v v' ∧ r = (if fat_entry v clst <? 2 then 1 else fat_entry v clst)) ∧
  (reliable v → r ≠ 0xFFFFFFFF).

Lemma alloc_post_veq v v1 clst r v' :
  wf v → veq v v1 → (reliable v → mirror v → mirror v1) →
  alloc_post v1 clst r v' → (clst = 0 ∨ valid_clst v clst) → alloc_post v clst r v'.
Proof.
  intros Hwf Hv Hm (Hwf' & Hx & Hm' & Hp) Hcl.
  assert (∀ c, valid_clst v c → fat_entry v c = fat_entry v1 c) as He
    by (intros; by apply fat_entry_veq).
  assert (∀ c, valid_clst v1 c → valid_clst v c) as Hvc.
  { intros c. apply valid_clst_veq. by symmetry. }
  assert (∀ c, valid_clst v c → valid_clst v1 c) as Hvc' by (intros c; by apply valid_clst_veq).
  assert (reliable v → reliable v1) as HRR by (by apply reliable_veq).
  destruct (core_fields _ _ (veq_core _ _ Hv)) as (Et&_&_&_&_&_&_&_&Ef&En&_).
  split_and!; [done| |by auto|].
  { eapply veqx_in_fat1_trans; [by apply veq_veqx|done]. }
  destruct Hp as [(A1&A2&A3&A4&A5&A6&A7)|[(->&Hv'&Hp)|[(->&Hv'&c&Hc&Hp)|[-> Hp]]]].
  - left. unfold allocated. rewrite Et, Ef, En, He by auto. split_and!; auto.
    intros c Hc ? ?. rewrite A5, He; auto.
  - right; left. split_and!; [done|by transitivity v1|].
    rewrite Ef. destruct Hp as [?|Hp]; [by left|right].
    intros c Hc. rewrite He; auto.
  - right; right; left. split_and!; [done|by transitivity v1|]. exists c. rewrite He; auto.
  - right; right; right. auto.
Qed.

Lemma create_chain_stretch v clst :
  wf v → valid_clst v clst →
  ∃ r v', create_chain clst v = Some (r, v') ∧ stretch_post v clst r v'.
Proof.
  intros Hwf Hc. unfold create_chain. rewrite (sbind_run fs _ v _ v eq_refl).
  assert (1 <= clst < n_fatent (vfs v)) by (unfold valid_clst in Hc; lia).
  rewrite (proj2 (Z.eqb_neq clst 0)) by lia.
  destruct (get_fat_spec v clst Hwf Hc) as (cs & v1 & E & Hwf1 & Hv1 & Hcs & Hrel).
  rewrite (sbind_run _ _ _ _ _ E). pose proof (fat_entry_range v clst Hwf).
  pose proof (n_fatent_bound v Hwf).
  assert (reliable v → mirror v → mirror v1) as Hm by (intros HR; by apply Hrel).
  destruct (cs <? 2) eqn:E2; zb.
  { destruct Hcs as [Hcs|Hcs]; [|lia]. exists 1, v1. split; [done|].
    split_and!; auto using veq_veqx; try lia. intros _ _.
    rewrite (proj2 (Z.ltb_lt _ _)) by lia. done. }
  destruct (Z.eqb_spec cs 0xFFFFFFFF) as [->|Hne].
  { exists 0xFFFFFFFF, v1. split; [done|]. split_and!; auto using veq_veqx; try done.
    intros HR. destruct (Hrel HR). lia. }
  destruct Hcs as [Hcs|]; [|done]. rewrite (sbind_run fs _ v1 _ v1 eq_refl).
  destruct (core_fields _ _ (veq_core _ _ Hv1)) as (_&_&_&_&_&_&_&_&_&En&_).
  destruct (cs <? n_fatent (vfs v1)) eqn:E3; zb.
  { exists cs, v1. split; [done|]. split_and!; auto using veq_veqx; try lia.
    intros _ _. rewrite <- Hcs, (proj2 (Z.ltb_ge _ _)) by lia. done. }
  destruct (allocate_spec v1 clst clst Hwf1) as (r & v' & E' & Hp).
  { lia. }
  { right. split; [by apply (valid_clst_veq v)|]. rewrite <- (fat_entry_veq v v1) by done. lia. }
  exists r, v'. split; [done|].
  pose proof (alloc_post_veq v v1 clst r v' Hwf Hv1 Hm Hp (or_intror Hc)) as Hp'.
  pose proof Hp' as (? & ? & ? & Hcases). split_and!; auto; [lia|].
  intros HR. destruct Hcases as [(A1&_)|[(->&_)|[(->&_)|[-> ?]]]]; try done.
  unfold valid_clst in A1. lia.
Qed.

End inv.
