(* ===== verification/FfUnicode.v ===== *)
(** Character conversion in ffunicode.c (static DBCS configuration, code
    page 932): [ff_uni2oem], [ff_oem2uni] and [ff_wtoupper].

    The binary searches run a fixed 16 rounds; the theorems say that this
    finds every key of the tables, so that the two conversions are inverse
    partial maps, and that up-casing is idempotent. *)
From Stdlib Require Import ZArith Lia.
From stdpp Require Import base list numbers option gmap.
From S2P Require Import Prelude FfCp932.

Local Open Scope Z_scope.

Definition FF_CODE_PAGE : Z := 932.

(** The search loop of both conversions, on the pairs [p] from round [n]:
    the index it breaks with, or nothing when the rounds are used up. *)
Fixpoint cvt_search (n : nat) (p : list Z) (c li hi : Z) : option Z :=
  match n with
  | O => None
  | S n =>
      let i := li + (hi - li) / 2 in
      if c =? zget p (i * 2) then Some i
      else if zget p (i * 2) <? c then cvt_search n p c i hi
      else cvt_search n p c li i
  end.

(** [sizeof tbl / 4 - 1] *)
Definition cvt_last (p : list Z) : Z := zlen p * 2 / 4 - 1.

(** [if (n != 0) c = p[i * 2 + 1]] *)
Definition cvt_value (p : list Z) (r : option Z) : Z :=
  match r with Some i => zget p (i * 2 + 1) | None => 0 end.

Definition cvt_lookup (p : list Z) (c : Z) : Z :=
  cvt_value p (cvt_search 16 p c 0 (cvt_last p)).

Definition ff_uni2oem (uni cp : Z) : Z :=
  if uni <? 0x80 then u16 uni
  else if (uni <? 0x10000) && (cp =? FF_CODE_PAGE) then cvt_lookup uni2oem932 (u16 uni)
  else 0.

Definition ff_oem2uni (oem cp : Z) : Z :=
  if oem <? 0x80 then oem
  else if cp =? FF_CODE_PAGE then cvt_lookup oem2uni932 oem
  else 0.

(** The compressed up-case tables of [ff_wtoupper]. *)
Definition cvt1 : list Z :=
  [0x0061; 0x031A; 0x00E0; 0x0317; 0x00F8; 0x0307; 0x00FF; 0x0001; 0x0178;
   0x0100; 0x0130; 0x0132; 0x0106; 0x0139; 0x0110; 0x014A; 0x012E; 0x0179;
   0x0106; 0x0180; 0x004D; 0x0243; 0x0181; 0x0182; 0x0182; 0x0184; 0x0184;
   0x0186; 0x0187; 0x0187; 0x0189; 0x018A; 0x018B; 0x018B; 0x018D; 0x018E;
   0x018F; 0x0190; 0x0191; 0x0191; 0x0193; 0x0194; 0x01F6; 0x0196; 0x0197;
   0x0198; 0x0198; 0x023D; 0x019B; 0x019C; 0x019D; 0x0220; 0x019F; 0x01A0;
   0x01A0; 0x01A2; 0x01A2; 0x01A4; 0x01A4; 0x01A6; 0x01A7; 0x01A7; 0x01A9;
   0x01AA; 0x01AB; 0x01AC; 0x01AC; 0x01AE; 0x01AF; 0x01AF; 0x01B1; 0x01B2;
   0x01B3; 0x01B3; 0x01B5; 0x01B5; 0x01B7; 0x01B8; 0x01B8; 0x01BA; 0x01BB;
   0x01BC; 0x01BC; 0x01BE; 0x01F7; 0x01C0; 0x01C1; 0x01C2; 0x01C3; 0x01C4;
   0x01C5; 0x01C4; 0x01C7; 0x01C8; 0x01C7; 0x01CA; 0x01CB; 0x01CA; 0x01CD;
   0x0110; 0x01DD; 0x0001; 0x018E; 0x01DE; 0x0112; 0x01F3; 0x0003; 0x01F1;
   0x01F4; 0x01F4; 0x01F8; 0x0128; 0x0222; 0x0112; 0x023A; 0x0009; 0x2C65;
   0x023B; 0x023B; 0x023D; 0x2C66; 0x023F; 0x0240; 0x0241; 0x0241; 0x0246;
   0x010A; 0x0253; 0x0040; 0x0181; 0x0186; 0x0255; 0x0189; 0x018A; 0x0258;
   0x018F; 0x025A; 0x0190; 0x025C; 0x025D; 0x025E; 0x025F; 0x0193; 0x0261;
   0x0262; 0x0194; 0x0264; 0x0265; 0x0266; 0x0267; 0x0197; 0x0196; 0x026A;
   0x2C62; 0x026C; 0x026D; 0x026E; 0x019C; 0x0270; 0x0271; 0x019D; 0x0273;
   0x0274; 0x019F; 0x0276; 0x0277; 0x0278; 0x0279; 0x027A; 0x027B; 0x027C;
   0x2C64; 0x027E; 0x027F; 0x01A6; 0x0281; 0x0282; 0x01A9; 0x0284; 0x0285;
   0x0286; 0x0287; 0x01AE; 0x0244; 0x01B1; 0x01B2; 0x0245; 0x028D; 0x028E;
   0x028F; 0x0290; 0x0291; 0x01B7; 0x037B; 0x0003; 0x03FD; 0x03FE; 0x03FF;
   0x03AC; 0x0004; 0x0386; 0x0388; 0x0389; 0x038A; 0x03B1; 0x0311; 0x03C2;
   0x0002; 0x03A3; 0x03A3; 0x03C4; 0x0308; 0x03CC; 0x0003; 0x038C; 0x038E;
   0x038F; 0x03D8; 0x0118; 0x03F2; 0x000A; 0x03F9; 0x03F3; 0x03F4; 0x03F5;
   0x03F6; 0x03F7; 0x03F7; 0x03F9; 0x03FA; 0x03FA; 0x0430; 0x0320; 0x0450;
   0x0710; 0x0460; 0x0122; 0x048A; 0x0136; 0x04C1; 0x010E; 0x04CF; 0x0001;
   0x04C0; 0x04D0; 0x0144; 0x0561; 0x0426; 0].

Definition cvt2 : list Z :=
  [0x1D7D; 0x0001; 0x2C63; 0x1E00; 0x0196; 0x1EA0; 0x015A; 0x1F00; 0x0608;
   0x1F10; 0x0606; 0x1F20; 0x0608; 0x1F30; 0x0608; 0x1F40; 0x0606; 0x1F51;
   0x0007; 0x1F59; 0x1F52; 0x1F5B; 0x1F54; 0x1F5D; 0x1F56; 0x1F5F; 0x1F60;
   0x0608; 0x1F70; 0x000E; 0x1FBA; 0x1FBB; 0x1FC8; 0x1FC9; 0x1FCA; 0x1FCB;
   0x1FDA; 0x1FDB; 0x1FF8; 0x1FF9; 0x1FEA; 0x1FEB; 0x1FFA; 0x1FFB; 0x1F80;
   0x0608; 0x1F90; 0x0608; 0x1FA0; 0x0608; 0x1FB0; 0x0004; 0x1FB8; 0x1FB9;
   0x1FB2; 0x1FBC; 0x1FCC; 0x0001; 0x1FC3; 0x1FD0; 0x0602; 0x1FE0; 0x0602;
   0x1FE5; 0x0001; 0x1FEC; 0x1FF3; 0x0001; 0x1FFC; 0x214E; 0x0001; 0x2132;
   0x2170; 0x0210; 0x2184; 0x0001; 0x2183; 0x24D0; 0x051A; 0x2C30; 0x042F;
   0x2C60; 0x0102; 0x2C67; 0x0106; 0x2C75; 0x0102; 0x2C80; 0x0164; 0x2D00;
   0x0826; 0xFF41; 0x031A; 0].

(** The switch on the command of a block, for [bc <= uc < bc + nc]. *)
Definition upper_cmd (p : list Z) (cmd uc bc : Z) : Z :=
  if cmd =? 0 then zget p (uc - bc)
  else if cmd =? 1 then u16 (uc - Z.land (uc - bc) 1)
  else if cmd =? 2 then u16 (uc - 16)
  else if cmd =? 3 then u16 (uc - 32)
  else if cmd =? 4 then u16 (uc - 48)
  else if cmd =? 5 then u16 (uc - 26)
  else if cmd =? 6 then u16 (uc + 8)
  else if cmd =? 7 then u16 (uc - 80)
  else if cmd =? 8 then u16 (uc - 0x1C60)
  else uc.

(** The [for (;;)] loop: [p] is what the table pointer has still ahead.  A
    pointer past the end of the table would give [None]. *)
Fixpoint upper_loop (fuel : nat) (p : list Z) (uc : Z) : option Z :=
  match fuel, p with
  | S fuel, bc :: p =>
      if (bc =? 0) || (uc <? bc) then Some uc else
      match p with
      | w :: p =>
          let cmd := Z.shiftr w 8 in
          let nc := Z.land w 0xFF in
          if uc <? bc + nc then Some (upper_cmd p cmd uc bc)
          else upper_loop fuel (if cmd =? 0 then drop (Z.to_nat nc) p else p) uc
      | [] => None
      end
  | _, _ => None
  end.

Definition ff_wtoupper (uni : Z) : Z :=
  if uni <? 0x10000 then
    let uc := u16 uni in
    let p := if uc <? 0x1000 then cvt1 else cvt2 in
    default uc (upper_loop (length p) p uc)
  else uni.

(** * Binary search *)

Fixpoint pairs (p : list Z) : list (Z * Z) :=
  match p with k :: v :: p => (k, v) :: pairs p | _ => [] end.

Lemma zget_pairs p i k v :
  pairs p !! i = Some (k, v) →
  zget p (Z.of_nat i * 2) = k ∧ zget p (Z.of_nat i * 2 + 1) = v.
Proof.
  assert (∀ n p i, (length p <= n)%nat → pairs p !! i = Some (k, v) →
    p !! (2 * i)%nat = Some k ∧ p !! (2 * i + 1)%nat = Some v) as H.
  { induction n as [|n IH]; intros [|a [|b q]] j Hl Hp; simpl in Hp, Hl; try done; try lia.
    destruct j as [|j]; simpl in Hp; [by injection Hp as -> ->|].
    replace (2 * S j + 1)%nat with (S (S (2 * j + 1))) by lia.
    replace (2 * S j)%nat with (S (S (2 * j))) by lia.
    apply (IH q j); [lia|done]. }
  intros Hp. apply (H (length p)) in Hp as [H1 H2]; [|done]. unfold zget.
  replace (Z.to_nat (Z.of_nat i * 2)) with (2 * i)%nat by lia.
  replace (Z.to_nat (Z.of_nat i * 2 + 1)) with (2 * i + 1)%nat by lia.
  by rewrite H1, H2.
Qed.

Fixpoint increasing (x : Z) (l : list (Z * Z)) : bool :=
  match l with [] => true | y :: l => (x <? y.1) && increasing y.1 l end.

Lemma increasing_bound l x i a :
  increasing x l = true → l !! i = Some a → x < a.1.
Proof.
  revert x i. induction l as [|y l IH]; intros x i Hs Hi; [done|]. simpl in Hs. zb.
  destruct i as [|i]; simpl in Hi; [by injection Hi as ->|].
  pose proof (IH _ _ ltac:(done) Hi). lia.
Qed.

Lemma increasing_lookup l x i j a b :
  increasing x l = true → (i < j)%nat → l !! i = Some a → l !! j = Some b → a.1 < b.1.
Proof.
  revert x i j. induction l as [|y l IH]; intros x i j Hs Hij Hi Hj; [done|].
  simpl in Hs. zb. destruct j as [|j]; [lia|]. simpl in Hj. destruct i as [|i]; simpl in Hi.
  - injection Hi as ->. by eapply increasing_bound.
  - eapply IH; [done| |done..]. lia.
Qed.

Lemma cvt_search_finds n p c li hi k :
  0 <= li <= k → k < hi → hi - li <= 2 ^ Z.of_nat n →
  (∀ i j, li <= i → i < j → j < hi → zget p (i * 2) < zget p (j * 2)) →
  zget p (k * 2) = c → cvt_search (S n) p c li hi = Some k.
Proof.
  revert li hi. induction n as [|n IH]; intros li hi Hk Hkh Hsz Hs <-.
  - replace hi with (li + 1) by (change (2 ^ Z.of_nat 0) with 1 in Hsz; lia).
    assert (k = li) as -> by (change (2 ^ Z.of_nat 0) with 1 in Hsz; lia). simpl.
    replace (li + 1 - li) with 1 by lia. change (1 / 2) with 0.
    by rewrite Z.add_0_r, Z.eqb_refl.
  - rewrite Nat2Z.inj_succ, Z.pow_succ_r in Hsz by lia.
    remember (S n) as m. simpl. subst m.
    set (i := li + (hi - li) / 2).
    assert (li <= i < hi) by (subst i; Z.div_mod_to_equations; lia).
    assert (hi - i <= 2 ^ Z.of_nat n) by (subst i; Z.div_mod_to_equations; lia).
    assert (i - li <= 2 ^ Z.of_nat n) by (subst i; Z.div_mod_to_equations; lia).
    clearbody i. destruct (Z.eqb_spec (zget p (k * 2)) (zget p (i * 2))) as [He|He].
    + destruct (Z.lt_total k i) as [Hl|[->|Hl]]; [|done|];
        apply Hs in Hl; lia.
    + destruct (Z.lt_total k i) as [Hl|[->|Hl]]; [|done|].
      * pose proof (Hs k i ltac:(lia) Hl ltac:(lia)).
        rewrite (proj2 (Z.ltb_ge _ _)) by lia. apply IH; [lia..| |done].
        intros. apply Hs; lia.
      * pose proof (Hs i k ltac:(lia) Hl ltac:(lia)).
        rewrite (proj2 (Z.ltb_lt _ _)) by lia. apply IH; [lia..| |done].
        intros. apply Hs; lia.
Qed.

Lemma cvt_search_sound n p c li hi m i :
  0 <= li <= hi → li < m → hi <= m → cvt_search n p c li hi = Some i →
  0 <= i < m ∧ zget p (i * 2) = c.
Proof.
  revert li hi. induction n as [|n IH]; intros li hi Hl Hm Hh Hi; [done|]. simpl in Hi.
  assert (li <= li + (hi - li) / 2 <= hi) by (Z.div_mod_to_equations; lia).
  assert (li + (hi - li) / 2 < m) by (Z.div_mod_to_equations; lia).
  destruct (Z.eqb_spec c (zget p ((li + (hi - li) / 2) * 2))) as [->|Hne].
  { injection Hi as <-. split; [lia|done]. }
  destruct (_ <? _); apply IH in Hi; auto with lia.
Qed.

(** The shape of a table: pairs sorted by their keys, then [0, 0]. *)
Definition table_ok (p : list Z) : bool :=
  (cvt_last p =? Z.of_nat (length (pairs p)) - 1) && (cvt_last p <=? 2 ^ 15) &&
  (0 <? cvt_last p) && increasing (-1) (take (Z.to_nat (cvt_last p)) (pairs p)).

Lemma table_key p i :
  table_ok p = true → 0 <= i < cvt_last p →
  ∃ k v, take (Z.to_nat (cvt_last p)) (pairs p) !! Z.to_nat i = Some (k, v) ∧
         zget p (i * 2) = k ∧ zget p (i * 2 + 1) = v.
Proof.
  intros Hp Hi. unfold table_ok in Hp. zb.
  destruct (pairs p !! Z.to_nat i) as [[k v]|] eqn:E.
  - exists k, v. rewrite lookup_take_lt by lia. split; [done|].
    destruct (zget_pairs _ _ _ _ E) as [Hx Hy]. rewrite Z2Nat.id in Hx, Hy by lia. done.
  - apply lookup_ge_None in E. lia.
Qed.

Lemma table_search n p i :
  table_ok p = true → 0 <= i < cvt_last p → 2 ^ 15 <= 2 ^ Z.of_nat n →
  cvt_search (S n) p (zget p (i * 2)) 0 (cvt_last p) = Some i.
Proof.
  intros Hp Hi Hn. pose proof Hp as Hp'. unfold table_ok in Hp'. zb.
  apply cvt_search_finds; [lia|lia|lia| |reflexivity].
  intros i' j' ? ? ?.
  destruct (table_key p i' Hp ltac:(lia)) as (k1 & v1 & E1 & -> & _).
  destruct (table_key p j' Hp ltac:(lia)) as (k2 & v2 & E2 & -> & _).
  apply (increasing_lookup (take (Z.to_nat (cvt_last p)) (pairs p)) (-1) (Z.to_nat i') (Z.to_nat j')
    (k1, v1) (k2, v2)); [done|lia|done..].
Qed.

(** The search must not be unfolded by conversion: it branches twice a round. *)
#[local] Opaque cvt_search.

(** 16 rounds find every key: [cvt_lookup] is the finite map of the table. *)
Lemma cvt_lookup_key p i :
  table_ok p = true → 0 <= i < cvt_last p →
  cvt_lookup p (zget p (i * 2)) = zget p (i * 2 + 1).
Proof.
  intros Hp Hi. unfold cvt_lookup.
  pose proof (table_search 15 p i Hp Hi ltac:(done)) as E.
  exact (f_equal (cvt_value p) E).
Qed.

Lemma cvt_lookup_sound p c :
  table_ok p = true → cvt_lookup p c ≠ 0 →
  ∃ i, 0 <= i < cvt_last p ∧ zget p (i * 2) = c ∧ zget p (i * 2 + 1) = cvt_lookup p c.
Proof.
  intros Hp Hc. unfold cvt_lookup in *.
  set (r := cvt_search _ _ _ _ _) in *. assert (r = cvt_search 16 p c 0 (cvt_last p)) as E by reflexivity.
  clearbody r. destruct r as [i|]; [|done]. symmetry in E.
  unfold table_ok in Hp. zb. apply cvt_search_sound with (m := cvt_last p) in E; [|lia..].
  exists i. by destruct E.
Qed.

(** [q] maps back every pair of [p]; no value of [p] is an ASCII code. *)
Definition table_inv (p q : list Z) : bool :=
  let m : gmap Z Z := list_to_map (take (Z.to_nat (cvt_last q)) (pairs q)) in
  forallb (λ kv, match m !! kv.2 with
                 | Some k => (k =? kv.1) && (0x80 <=? kv.2) && (kv.2 <? 0x10000)
                             && (0x80 <=? kv.1) && (kv.1 <? 0x10000)
                 | None => false end)
          (take (Z.to_nat (cvt_last p)) (pairs p)).

Lemma table_inverse p q c :
  table_ok p = true → table_ok q = true → table_inv p q = true → cvt_lookup p c ≠ 0 →
  cvt_lookup q (cvt_lookup p c) = c ∧ 0x80 <= cvt_lookup p c < 0x10000 ∧ 0x80 <= c < 0x10000.
Proof.
  intros Hp Hq Hi Hc. destruct (cvt_lookup_sound p c Hp Hc) as (i & Hr & Hk & Hv).
  destruct (table_key p i Hp Hr) as (k & v & E & E1 & E2).
  rewrite Hk in E1. rewrite Hv in E2. subst k v.
  unfold table_inv in Hi. rewrite forallb_forall in Hi.
  pose proof (Hi _ ltac:(eapply list_elem_of_In, list_elem_of_lookup_2; exact E)) as Hm. simpl in Hm.
  clear E. destruct (_ !! _) as [k|] eqn:El; [|done]. zb. subst k. split; [|lia].
  apply elem_of_list_to_map_2, list_elem_of_lookup in El as [j El].
  pose proof (lookup_lt_Some _ _ _ El) as Hj. rewrite length_take in Hj.
  rewrite lookup_take_lt in El by lia.
  destruct (zget_pairs _ _ _ _ El) as [<- <-]. apply cvt_lookup_key; [done|lia].
Qed.

Lemma uni2oem932_ok : table_ok uni2oem932 = true.
Proof. by vm_compute. Qed.
Lemma oem2uni932_ok : table_ok oem2uni932 = true.
Proof. by vm_compute. Qed.
Lemma uni2oem932_inv : table_inv uni2oem932 oem2uni932 = true.
Proof. by vm_compute. Qed.
Lemma oem2uni932_inv : table_inv oem2uni932 uni2oem932 = true.
Proof. by vm_compute. Qed.

Lemma oem2uni_uni2oem u :
  0 <= u → ff_uni2oem u FF_CODE_PAGE ≠ 0 →
  ff_oem2uni (ff_uni2oem u FF_CODE_PAGE) FF_CODE_PAGE = u.
Proof.
  intros Hu. unfold ff_uni2oem, ff_oem2uni. rewrite Z.eqb_refl, andb_true_r.
  destruct (u <? 0x80) eqn:E1; zb.
  { rewrite u16_small by lia. by rewrite (proj2 (Z.ltb_lt _ _)) by lia. }
  destruct (u <? 0x10000) eqn:E2; [|done]. zb. rewrite u16_small by lia. intros Hc.
  destruct (table_inverse _ _ _ uni2oem932_ok oem2uni932_ok uni2oem932_inv Hc) as (H1 & H2 & _).
  by rewrite (proj2 (Z.ltb_ge _ _)) by lia.
Qed.

Lemma uni2oem_oem2uni o :
  0 <= o < 0x10000 → ff_oem2uni o FF_CODE_PAGE ≠ 0 →
  ff_uni2oem (ff_oem2uni o FF_CODE_PAGE) FF_CODE_PAGE = o.
Proof.
  intros Hu. unfold ff_uni2oem, ff_oem2uni. rewrite Z.eqb_refl, andb_true_r.
  destruct (o <? 0x80) eqn:E1; zb.
  { intros _. rewrite (proj2 (Z.ltb_lt _ _)) by lia. apply u16_small. lia. }
  intros Hc.
  destruct (table_inverse _ _ _ oem2uni932_ok uni2oem932_ok oem2uni932_inv Hc) as (H1 & H2 & _).
  rewrite (proj2 (Z.ltb_ge _ _)), (proj2 (Z.ltb_lt _ 0x10000)), u16_small by lia. done.
Qed.

(** * Up-casing *)

(** The characters the blocks of a table cover. *)
Fixpoint block_chars (fuel : nat) (p : list Z) : list Z :=
  match fuel, p with
  | S fuel, bc :: w :: p =>
      let nc := Z.land w 0xFF in
      seqZ bc nc ++ block_chars fuel (if Z.shiftr w 8 =? 0 then drop (Z.to_nat nc) p else p)
  | _, _ => []
  end.

Lemma upper_loop_block fuel p uc :
  upper_loop fuel p uc = None ∨ upper_loop fuel p uc = Some uc ∨ uc ∈ block_chars fuel p.
Proof.
  revert p. induction fuel as [|fuel IH]; intros p; [by left|]. destruct p as [|bc p]; [by left|].
  simpl. destruct ((bc =? 0) || (uc <? bc)) eqn:E1; [by right; left|]. zb.
  destruct p as [|w p]; [by left|].
  destruct (uc <? bc + Z.land w 0xFF) eqn:E2; zb.
  - right; right. apply elem_of_app. left. apply elem_of_seqZ. lia.
  - destruct (IH (if Z.shiftr w 8 =? 0 then drop (Z.to_nat (Z.land w 0xFF)) p else p))
      as [?|[?|?]]; [by left|by right; left|]. right; right. apply elem_of_app. by right.
Qed.

Lemma upper_default fuel p uc :
  default uc (upper_loop fuel p uc) = uc ∨ uc ∈ block_chars fuel p.
Proof. destruct (upper_loop_block fuel p uc) as [->|[->|?]]; auto. Qed.

Definition upper_chars : list Z :=
  block_chars (length cvt1) cvt1 ++ block_chars (length cvt2) cvt2.

Lemma wtoupper_fixed u : 0 <= u → ff_wtoupper u = u ∨ u ∈ upper_chars.
Proof.
  intros Hu. unfold ff_wtoupper. destruct (u <? 0x10000) eqn:E; [|by left]. zb.
  rewrite u16_small by lia. cbv zeta. unfold upper_chars. rewrite elem_of_app.
  destruct (u <? 0x1000).
  - destruct (upper_default (length cvt1) cvt1 u) as [H|H]; [left; exact H|right; left; exact H].
  - destruct (upper_default (length cvt2) cvt2 u) as [H|H]; [left; exact H|right; right; exact H].
Qed.

Lemma wtoupper_idem u : 0 <= u → ff_wtoupper (ff_wtoupper u) = ff_wtoupper u.
Proof.
  intros Hu. destruct (wtoupper_fixed u Hu) as [E|Hin]; [by rewrite !E|].
  assert (forallb (λ u, ff_wtoupper (ff_wtoupper u) =? ff_wtoupper u)
    upper_chars = true) as Hall by (by vm_compute).
  rewrite forallb_forall in Hall. apply Z.eqb_eq, Hall. by apply list_elem_of_In.
Qed.

(** On ASCII, up-casing is what C's [toupper] does. *)
Lemma wtoupper_ascii c :
  0 <= c < 0x80 → ff_wtoupper c = if (97 <=? c) && (c <=? 122) then c - 32 else c.
Proof.
  intros Hc. apply Z.eqb_eq. revert c Hc. apply (seqZ_forall _ 0 0x80). by vm_compute.
Qed.

(** The conversions are used through the lemmas above (or by evaluation). *)
#[global] Opaque ff_uni2oem ff_oem2uni ff_wtoupper.
