(* ===== verification/FfLfn.v ===== *)
(** Names in directory entries (ff.c): the double-byte character tests,
    [tchar2uni], [put_utf], the start cluster of an entry ([ld_clust],
    [st_clust]) and the long file name entries ([cmp_lfn], [pick_lfn],
    [put_lfn], [gen_numname], [sum_sfn]).

    A pointer to a directory entry is a buffer and an offset in it.  The
    theorems show that the entries [put_lfn] writes are read back by
    [pick_lfn] and matched by [cmp_lfn], that neither of them leaves the
    bounds of the 256-character LFN buffer, and what a numbered short name
    looks like. *)
From Stdlib Require Import ZArith Lia.
From stdpp Require Import base list numbers option.
From S2P Require Import Prelude BlockDevice FfTypes FfWindow FfUnicode.

Local Open Scope Z_scope.

(** Directory entry offsets and flags of ff.c. *)
Definition DIR_Name : Z := 0.
Definition DIR_Attr : Z := 11.
Definition DIR_NTres : Z := 12.
Definition DIR_CrtTime : Z := 14.
Definition DIR_LstAccDate : Z := 18.
Definition DIR_FstClusHI : Z := 20.
Definition DIR_ModTime : Z := 22.
Definition DIR_FstClusLO : Z := 26.
Definition DIR_FileSize : Z := 28.
Definition LDIR_Ord : Z := 0.
Definition LDIR_Attr : Z := 11.
Definition LDIR_Type : Z := 12.
Definition LDIR_Chksum : Z := 13.
Definition LDIR_FstClusLO : Z := 26.
Definition DDEM : Z := 0xE5.
Definition RDDEM : Z := 0x05.
Definition LLEF : Z := 0x40.
Definition AM_RDO : Z := 0x01.
Definition AM_VOL : Z := 0x08.
Definition AM_LFN : Z := 0x0F.
Definition AM_DIR : Z := 0x10.
Definition AM_ARC : Z := 0x20.
Definition AM_MASK : Z := 0x3F.
Definition NSFLAG : Z := 11.
Definition NS_LOSS : Z := 0x01.
Definition NS_LFN : Z := 0x02.
Definition NS_LAST : Z := 0x04.
Definition NS_BODY : Z := 0x08.
Definition NS_EXT : Z := 0x10.
Definition NS_DOT : Z := 0x20.
Definition NS_NOLFN : Z := 0x40.
Definition NS_NONAME : Z := 0x80.

Definition IsUpper (c : Z) : bool := (65 <=? c) && (c <=? 90).
Definition IsLower (c : Z) : bool := (97 <=? c) && (c <=? 122).
Definition IsDigit (c : Z) : bool := (48 <=? c) && (c <=? 57).
Definition IsSeparator (c : Z) : bool := (c =? 47) || (c =? 92).
Definition IsTerminator (c : Z) : bool := c <? 32.
Definition IsSurrogate (c : Z) : bool := (0xD800 <=? c) && (c <=? 0xDFFF).

(** [DbcTbl], the code ranges of code page 932. *)
Definition DbcTbl : list Z := [0x81; 0x9F; 0xE0; 0xFC; 0x40; 0x7E; 0x80; 0xFC; 0x00; 0x00].

Definition dbc_1st (c : Z) : bool :=
  if zget DbcTbl 0 <=? c then
    if c <=? zget DbcTbl 1 then true
    else (zget DbcTbl 2 <=? c) && (c <=? zget DbcTbl 3)
  else false.

Definition dbc_2nd (c : Z) : bool :=
  if zget DbcTbl 4 <=? c then
    if c <=? zget DbcTbl 5 then true
    else if (zget DbcTbl 6 <=? c) && (c <=? zget DbcTbl 7) then true
    else (zget DbcTbl 8 <=? c) && (c <=? zget DbcTbl 9)
  else false.

(** A string is the list of its characters, the terminating zero left out:
    [chr p] is [*p], [tail p] is [p + 1]. *)
Definition chr (p : list Z) : Z := default 0 (head p).

(** [tchar2uni]: the code point and the advanced pointer; the pointer is
    not advanced on a decode error. *)
Definition tchar2uni (str : list Z) : Z * list Z :=
  let wc := u8 (chr str) in
  let p := tail str in
  let convert (wc : Z) (p : list Z) :=
    if negb (wc =? 0) then
      let wc := ff_oem2uni wc FF_CODE_PAGE in
      if wc =? 0 then (0xFFFFFFFF, str) else (wc, p)
    else (wc, p) in
  if dbc_1st wc then
    let b := u8 (chr p) in
    let p := tail p in
    if negb (dbc_2nd b) then (0xFFFFFFFF, str)
    else convert (u16 (u16 (Z.shiftl wc 8) + b)) p
  else convert wc p.

(** [put_utf]: the characters stored, none on overflow or a bad code. *)
Definition put_utf (chr szb : Z) : list Z :=
  let wc := ff_uni2oem chr FF_CODE_PAGE in
  if 0x100 <=? wc then
    if szb <? 2 then [] else [u8 (Z.shiftr wc 8); u8 wc]
  else if (wc =? 0) || (szb <? 1) then [] else [u8 wc].

Definition ld_clust (f : FATFS) (w : list Z) (dir : Z) : Z :=
  let cl := ld_word w (dir + DIR_FstClusLO) in
  if fs_type f =? FS_FAT32
  then Z.lor cl (u32 (Z.shiftl (ld_word w (dir + DIR_FstClusHI)) 16))
  else cl.

Definition st_clust (f : FATFS) (w : list Z) (dir cl : Z) : list Z :=
  let w := st_word w (dir + DIR_FstClusLO) (u16 cl) in
  if fs_type f =? FS_FAT32
  then st_word w (dir + DIR_FstClusHI) (u16 (Z.shiftr cl 16))
  else w.

Definition LfnOfs : list Z := [1; 3; 5; 7; 9; 14; 16; 18; 20; 22; 24; 28; 30].

(** The [for] loop of [cmp_lfn] over the entry's characters: the final
    [wc] and [i], or nothing on a mismatch. *)
Fixpoint cmp_loop (lfnbuf w : list Z) (dir : Z) (ofs : list Z) (wc i : Z)
    : option (Z * Z) :=
  match ofs with
  | [] => Some (wc, i)
  | o :: ofs =>
      let uc := ld_word w (dir + o) in
      if negb (wc =? 0) then
        if (FF_MAX_LFN + 1 <=? i) || negb (ff_wtoupper uc =? ff_wtoupper (zget lfnbuf i))
        then None
        else cmp_loop lfnbuf w dir ofs uc (u32 (i + 1))
      else if negb (uc =? 0xFFFF) then None
      else cmp_loop lfnbuf w dir ofs wc i
  end.

Definition cmp_lfn (lfnbuf w : list Z) (dir : Z) : bool :=
  if negb (ld_word w (dir + LDIR_FstClusLO) =? 0) then false else
  let i := u32 ((Z.land (zget w (dir + LDIR_Ord)) 0x3F - 1) * 13) in
  match cmp_loop lfnbuf w dir LfnOfs 1 i with
  | None => false
  | Some (wc, i) =>
      negb (zbits (zget w (dir + LDIR_Ord)) LLEF && ztrue wc && ztrue (zget lfnbuf i))
  end.

(** The loop of [pick_lfn]; the buffer is changed also when it fails. *)
Fixpoint pick_loop (w : list Z) (dir : Z) (ofs : list Z) (lfnbuf : list Z) (wc i : Z)
    : option (Z * Z) * list Z :=
  match ofs with
  | [] => (Some (wc, i), lfnbuf)
  | o :: ofs =>
      let uc := ld_word w (dir + o) in
      if negb (wc =? 0) then
        if FF_MAX_LFN + 1 <=? i then (None, lfnbuf)
        else pick_loop w dir ofs (zset lfnbuf i uc) uc (u32 (i + 1))
      else if negb (uc =? 0xFFFF) then (None, lfnbuf)
      else pick_loop w dir ofs lfnbuf wc i
  end.

Definition pick_lfn (lfnbuf w : list Z) (dir : Z) : bool * list Z :=
  if negb (ld_word w (dir + LDIR_FstClusLO) =? 0) then (false, lfnbuf) else
  let i := u32 ((Z.land (zget w (dir + LDIR_Ord)) (Z.lnot LLEF) - 1) * 13) in
  match pick_loop w dir LfnOfs lfnbuf 1 i with
  | (None, lfnbuf) => (false, lfnbuf)
  | (Some (wc, i), lfnbuf) =>
      if zbits (zget w (dir + LDIR_Ord)) LLEF && negb (wc =? 0) then
        if FF_MAX_LFN + 1 <=? i then (false, lfnbuf)
        else (true, zset lfnbuf i 0)
      else (true, lfnbuf)
  end.

(** The [do ... while] loop of [put_lfn]: the entry, [wc] and [i]. *)
Fixpoint put_loop (lfn : list Z) (dir : Z) (ofs : list Z) (w : list Z) (wc i : Z)
    : list Z * Z * Z :=
  match ofs with
  | [] => (w, wc, i)
  | o :: ofs =>
      let '(wc, i) := if negb (wc =? 0xFFFF) then (zget lfn i, u32 (i + 1)) else (wc, i) in
      let w := st_word w (dir + o) wc in
      let wc := if wc =? 0 then 0xFFFF else wc in
      put_loop lfn dir ofs w wc i
  end.

Definition put_lfn (lfn w : list Z) (dir ord sum : Z) : list Z :=
  let w := zset w (dir + LDIR_Chksum) sum in
  let w := zset w (dir + LDIR_Attr) AM_LFN in
  let w := zset w (dir + LDIR_Type) 0 in
  let w := st_word w (dir + LDIR_FstClusLO) 0 in
  let i := u32 ((ord - 1) * 13) in
  let '(w, wc, i) := put_loop lfn dir LfnOfs w 0 i in
  let ord := if (wc =? 0xFFFF) || (zget lfn i =? 0) then u8 (Z.lor ord LLEF) else ord in
  zset w (dir + LDIR_Ord) ord.

(** The CRC of [gen_numname] over one character. *)
Definition crc_bit (s : Z * Z) : Z * Z :=
  let '(sreg, wc) := s in
  let sreg := u32 (u32 (Z.shiftl sreg 1) + Z.land wc 1) in
  let wc := Z.shiftr wc 1 in
  (if zbits sreg 0x10000 then Z.lxor sreg 0x11021 else sreg, wc).

Definition crc_char (sreg wc : Z) : Z := (Nat.iter 16 crc_bit (sreg, wc)).1.

(** [while ( *lfn )] from index [i] of the LFN buffer. *)
Fixpoint crc_name (fuel : nat) (lfn : list Z) (i sreg : Z) : Z :=
  match fuel with
  | O => sreg
  | S fuel =>
      if zget lfn i =? 0 then sreg
      else crc_name fuel lfn (i + 1) (crc_char sreg (zget lfn i))
  end.

(** The suffix [~] and the hexadecimal number in [ns], from digit [i]. *)
Fixpoint num_suffix (i : nat) (seq : Z) (ns : list Z) : Z * list Z :=
  match i with
  | O => (0, ns)
  | S i' =>
      let c := u8 (seq mod 16 + 48) in
      let seq := seq / 16 in
      let c := if 57 <? c then u8 (c + 7) else c in
      let ns := zset ns (Z.of_nat i) c in
      if ztrue seq then num_suffix i' seq ns else (Z.of_nat i', ns)
  end.

(** Where to append the suffix that starts at [ns[i]]. *)
Fixpoint append_at (fuel : nat) (dst : list Z) (i j : Z) : Z :=
  match fuel with
  | O => j
  | S fuel =>
      if (j <? i) && negb (zget dst j =? 32) then
        if dbc_1st (zget dst j) then
          if j =? i - 1 then j else append_at fuel dst i (j + 1 + 1)
        else append_at fuel dst i (j + 1)
      else j
  end.

Fixpoint append_loop (fuel : nat) (ns : list Z) (i : Z) (dst : list Z) (j : Z) : list Z :=
  match fuel with
  | O => dst
  | S fuel =>
      let '(c, i) := if i <? 8 then (zget ns i, i + 1) else (32, i) in
      let dst := zset dst j c in
      let j := j + 1 in
      if j <? 8 then append_loop fuel ns i dst j else dst
  end.

Definition gen_numname (dst src lfn : list Z) (seq : Z) : list Z :=
  let dst := zwrite dst 0 (zread src 0 11) in
  let seq := if 5 <? seq then crc_name (length lfn) lfn 0 seq else seq in
  let '(i, ns) := num_suffix 7 seq (replicate 8 0) in
  let ns := zset ns i 126 in
  let j := append_at 8 dst i 0 in
  append_loop 8 ns i dst j.

(** [sum_sfn] over the 11 name bytes at [dir]. *)
Definition sum_step (sum b : Z) : Z := u8 (Z.shiftr sum 1 + Z.shiftl sum 7 + b).
Definition sum_sfn (w : list Z) (dir : Z) : Z := foldl sum_step 0 (zread w dir 11).

(** * Start cluster *)

Lemma ld_word_frame (w w' : list Z) o :
  zget w' o = zget w o → zget w' (o + 1) = zget w (o + 1) → ld_word w' o = ld_word w o.
Proof. intros E1 E2. unfold ld_word. by rewrite E1, E2. Qed.

Lemma ld_st_clust f w dir cl :
  bytes w → 0 <= dir → dir + SZDIRE <= zlen w → 0 <= cl < 2 ^ 32 →
  ld_clust f (st_clust f w dir cl) dir = if fs_type f =? FS_FAT32 then cl else u16 cl.
Proof.
  intros Hb Hd Hl Hc. unfold ld_clust, st_clust, DIR_FstClusLO, DIR_FstClusHI, SZDIRE in *.
  destruct (_ =? _).
  - rewrite ld_st_word_ne, !ld_st_word by
      (auto with ffdb; try lia; unfold zlen in *; rewrite ?st_word_length; lia).
    rewrite !(u16_small (u16 _)) by apply u16_range.
    assert (0 <= u16 (Z.shiftr cl 16) < 2 ^ 16) by apply u16_range.
    rewrite Z.lor_comm, (u32_small (Z.shiftl _ _))
      by (rewrite Z.shiftl_mul_pow2 by lia; lia).
    rewrite lor_shiftl_add by (try apply u16_range; lia).
    rewrite Z.shiftr_div_pow2 by lia. unfold u16. Z.div_mod_to_equations. lia.
  - rewrite ld_st_word by (auto; lia). by rewrite u16_small by apply u16_range.
Qed.

(** * Characters of a path and of a name *)

Lemma u16_dbc b1 b2 :
  is_byte b1 → is_byte b2 → u16 (u16 (Z.shiftl b1 8) + b2) = 256 * b1 + b2.
Proof.
  unfold is_byte. intros. rewrite Z.shiftl_mul_pow2 by lia.
  rewrite (u16_small (b1 * 2 ^ 8)), u16_small by lia. lia.
Qed.

Lemma dbc_1st_range c : dbc_1st c = true → 0x81 <= c.
Proof. unfold dbc_1st. intros H. bool_cases; zb; simpl in *; try done; unfold zget in *; simpl in *; lia. Qed.

(** A character that [tchar2uni] accepts is stored back unchanged. *)
Lemma put_utf_tchar2uni str uc rest szb :
  bytes str → tchar2uni str = (uc, rest) → uc ≠ 0xFFFFFFFF → uc ≠ 0 → 2 <= szb →
  put_utf uc szb ++ rest = str.
Proof.
  intros Hb Ht He Hz Hs. unfold tchar2uni in Ht.
  destruct str as [|b1 str]; [by injection Ht as <- _|].
  apply Forall_cons_1 in Hb as [Hb1 Hb]. unfold chr in Ht. simpl in Ht.
  unfold is_byte in Hb1. rewrite u8_small in Ht by lia. unfold put_utf.
  destruct (dbc_1st b1) eqn:E1.
  - apply dbc_1st_range in E1. destruct str as [|b2 str]; [by injection Ht as <- _|].
    apply Forall_cons_1 in Hb as [Hb2 Hb]. unfold is_byte in Hb2. simpl in Ht.
    rewrite u8_small in Ht by lia. destruct (dbc_2nd b2); simpl in Ht; [|by injection Ht as <- _].
    rewrite u16_dbc in Ht by (unfold is_byte; lia).
    rewrite (proj2 (Z.eqb_neq (256 * b1 + b2) 0)) in Ht by lia. simpl in Ht.
    destruct (Z.eqb_spec (ff_oem2uni (256 * b1 + b2) FF_CODE_PAGE) 0) as [|Hn];
      injection Ht as <- <-; [done|].
    rewrite uni2oem_oem2uni by (done || lia).
    rewrite (proj2 (Z.leb_le _ _)), (proj2 (Z.ltb_ge _ _)) by lia. simpl.
    rewrite u8_shiftr by lia. change (2 ^ 8) with 256. unfold u8.
    f_equal; [|f_equal]; Z.div_mod_to_equations; lia.
  - destruct (Z.eqb_spec b1 0) as [->|]; simpl in Ht; [by injection Ht as <- _|].
    destruct (Z.eqb_spec (ff_oem2uni b1 FF_CODE_PAGE) 0) as [|Hn];
      injection Ht as <- <-; [done|].
    rewrite uni2oem_oem2uni by (done || lia).
    rewrite (proj2 (Z.leb_gt _ _)), (proj2 (Z.eqb_neq _ _)), (proj2 (Z.ltb_ge _ _)) by lia.
    simpl. by rewrite u8_small by lia.
Qed.

(** * Long names *)

(** The working buffer [lfn] holds [len] characters and a terminator. *)
Record holds_name (lfn : list Z) (len : Z) : Prop := mkHolds {
  hn_size : zlen lfn = FF_MAX_LFN + 1;
  hn_len : 1 <= len <= FF_MAX_LFN;
  hn_char i : 0 <= i < len → 0 < zget lfn i < 0xFFFF;
  hn_end : zget lfn len = 0
}.

(** Character [k] of the padded name, as the LFN entries hold it. *)
Definition lchar (lfn : list Z) (len k : Z) : Z :=
  if k <=? len then zget lfn k else 0xFFFF.

(** The 13 characters of the entry at [dir] are those from [k] on. *)
Definition entry_chars (lfn w : list Z) (dir len k : Z) (ofs : list Z) : Prop :=
  ∀ s o, ofs !! s = Some o → ld_word w (dir + o) = lchar lfn len (k + Z.of_nat s).

Lemma entry_chars_cons lfn w dir len k o ofs :
  entry_chars lfn w dir len k (o :: ofs) ↔
  ld_word w (dir + o) = lchar lfn len k ∧ entry_chars lfn w dir len (k + 1) ofs.
Proof.
  split.
  - intros H. split.
    + rewrite <- (Z.add_0_r k). by apply (H 0%nat).
    + intros s o' Hs. rewrite (H (S s) o' Hs). f_equal. lia.
  - intros [H1 H2] [|s] o' Hs; simpl in Hs.
    + injection Hs as <-. by rewrite H1, Z.add_0_r.
    + rewrite (H2 s o' Hs). f_equal. lia.
Qed.

Lemma lchar_range lfn len k : holds_name lfn len → 0 <= k → 0 <= lchar lfn len k < 2 ^ 16.
Proof.
  intros [_ Hl Hc He] Hk. unfold lchar. destruct (k <=? len) eqn:E; zb; [|lia].
  destruct (decide (k = len)) as [->|]; [lia|]. specialize (Hc k). lia.
Qed.

(** Offsets at least two bytes apart, from [lo] on. *)
Fixpoint spaced (lo : Z) (ofs : list Z) : bool :=
  match ofs with [] => true | o :: ofs => (lo <=? o) && (o <=? 30) && spaced (o + 2) ofs end.

(** The loop state of [put_loop] and of the readers at character [k]. *)
Definition at_char (len k mark wc i : Z) : Prop :=
  (k <= len ∧ i = k ∧ wc ≠ mark) ∨ (len < k ∧ i = len + 1 ∧ wc = mark).

Lemma put_loop_spec lfn len dir ofs w wc i k lo :
  holds_name lfn len → 0 <= k → 0 <= dir → bytes w → dir + SZDIRE <= zlen w →
  0 <= lo → spaced lo ofs = true → at_char len k 0xFFFF wc i →
  ∃ w' wc' i', put_loop lfn dir ofs w wc i = (w', wc', i') ∧
    at_char len (k + zlen ofs) 0xFFFF wc' i' ∧ bytes w' ∧ zlen w' = zlen w ∧
    entry_chars lfn w' dir len k ofs ∧
    (∀ b, 0 <= b → b < dir + lo ∨ (∀ o, o ∈ ofs → b < dir + o ∨ dir + o + 2 <= b) →
          zget w' b = zget w b).
Proof.
  intros Hn. pose proof Hn as [Hsz Hlen Hch Hend]. unfold FF_MAX_LFN in *.
  revert w wc i k lo. induction ofs as [|o ofs IH];
    intros w wc i k lo Hk Hd Hb Hw Hlo Hsp Hat; simpl.
  { exists w, wc, i. split_and!; auto.
    - unfold zlen. simpl. by rewrite Z.add_0_r.
    - intros s o Hs. by rewrite lookup_nil in Hs. }
  simpl in Hsp. zb. unfold SZDIRE in *.
  set (p := if negb (wc =? 0xFFFF) then (zget lfn i, u32 (i + 1)) else (wc, i)).
  assert (p = (lchar lfn len k, if k <=? len then k + 1 else len + 1)) as ->.
  { subst p. unfold lchar. destruct Hat as [(?&->&?)|(?&->&->)].
    - rewrite (proj2 (Z.eqb_neq wc _)), (proj2 (Z.leb_le _ _)), u32_small by lia. done.
    - rewrite (proj2 (Z.leb_gt _ _)) by lia. done. }
  pose proof (lchar_range lfn len k Hn Hk).
  destruct (IH (st_word w (dir + o) (lchar lfn len k))
    (if lchar lfn len k =? 0 then 0xFFFF else lchar lfn len k)
    (if k <=? len then k + 1 else len + 1) (k + 1) (o + 2))
    as (w' & wc' & i' & E & Hat' & Hb' & Hl' & Hch' & Hfr'); auto with ffdb; try lia.
  { unfold zlen in *. rewrite st_word_length. lia. }
  { unfold at_char, lchar. destruct (k <=? len) eqn:Ek; zb; [|right; split_and!; [lia..|done]].
    destruct (decide (k = len)) as [->|].
    - rewrite Hend. right. split_and!; [lia..|done].
    - pose proof (Hch k ltac:(lia)). rewrite (proj2 (Z.eqb_neq _ 0)) by lia. left. lia. }
  exists w', wc', i'. split; [done|].
  assert (∀ b, dir + o <= b < dir + o + 2 → zget w' b = zget (st_word w (dir + o) (lchar lfn len k)) b) as Hkeep.
  { intros b ?. apply Hfr'; [lia|left; lia]. }
  split_and!; auto.
  - unfold zlen in *. simpl. replace (k + Z.of_nat (S (length ofs))) with (k + 1 + Z.of_nat (length ofs)) by lia. done.
  - unfold zlen in *. by rewrite st_word_length in Hl'.
  - apply entry_chars_cons. split; [|done].
    rewrite (ld_word_frame (st_word w (dir + o) (lchar lfn len k)))
      by (apply Hkeep; lia).
    rewrite ld_st_word by (auto; lia). apply u16_small. lia.
  - intros b Hb0 Hor. rewrite Hfr'; [|done|].
    + apply zget_st_word_ne; [lia|done|].
      destruct Hor as [?|Hor]; [lia|]. apply (Hor o), list_elem_of_here.
    + destruct Hor as [?|Hor]; [left; lia|right]. intros o' Ho'.
      apply Hor. by apply list_elem_of_further.
Qed.

(** The entry [put_lfn] writes for the part [ord] of a name. *)
Record lfn_entry (lfn e : list Z) (dir len ord sum : Z) : Prop := mkLfnEntry {
  le_chars : entry_chars lfn e dir len ((ord - 1) * 13) LfnOfs;
  le_ord : zget e (dir + LDIR_Ord) = if len <=? 13 * ord then Z.lor ord LLEF else ord;
  le_attr : zget e (dir + LDIR_Attr) = AM_LFN;
  le_sum : zget e (dir + LDIR_Chksum) = sum;
  le_clust : ld_word e (dir + LDIR_FstClusLO) = 0
}.

Lemma ord_llef ord :
  1 <= ord <= 20 →
  u8 (Z.lor ord LLEF) = Z.lor ord LLEF ∧ Z.land (Z.lor ord LLEF) 0x3F = ord ∧
  Z.land (Z.lor ord LLEF) (Z.lnot LLEF) = ord ∧ zbits (Z.lor ord LLEF) LLEF = true ∧
  Z.land ord 0x3F = ord ∧ Z.land ord (Z.lnot LLEF) = ord ∧ zbits ord LLEF = false.
Proof.
  intros H. assert (1 <= ord < 1 + 20) as Hr by lia. clear H.
  match goal with |- ?G => apply (bool_decide_eq_true_1 G) end.
  revert ord Hr. apply (seqZ_forall (λ ord, bool_decide _) 1 20). by vm_compute.
Qed.

Lemma zget_zset_cases l i j v :
  0 <= i < zlen l → 0 <= j → zget (zset l i v) j = if j =? i then v else zget l j.
Proof.
  intros. destruct (Z.eqb_spec j i) as [->|].
  - by apply zget_zset_eq.
  - apply zget_zset_ne; lia.
Qed.

(** The characters of an entry keep clear of its other fields. *)
Lemma LfnOfs_apart : Forall (λ o, 1 <= o <= 30 ∧ Forall (λ k, k < o ∨ o + 2 <= k) [11; 12; 13; 26; 27]) LfnOfs.
Proof. apply (bool_decide_eq_true_1 (Forall _ _)). by vm_compute. Qed.

Lemma LfnOfs_range o : o ∈ LfnOfs → 1 <= o <= 30.
Proof. intros Ho. exact (proj1 (proj1 (list.Forall_forall _ _) LfnOfs_apart o Ho)). Qed.

Lemma LfnOfs_field dir k : bool_decide (k ∈ [11; 12; 13; 26; 27]) = true →
  ∀ o, o ∈ LfnOfs → dir + k < dir + o ∨ dir + o + 2 <= dir + k.
Proof.
  intros Hk%bool_decide_eq_true o Ho. destruct (proj1 (list.Forall_forall _ _) LfnOfs_apart o Ho) as [_ HF].
  pose proof (proj1 (list.Forall_forall _ _) HF k Hk). simpl in *. lia.
Qed.

(** The test for the last entry, after its characters were stored. *)
Lemma put_is_last lfn len ord wc i : holds_name lfn len → at_char len ((ord - 1) * 13 + 13) 0xFFFF wc i → 1 <= ord →
  (wc =? 0xFFFF) || (zget lfn i =? 0) = (len <=? 13 * ord).
Proof.
  intros Hn Hat Ho. pose proof Hn as [_ _ _ Hend]. destruct Hat as [(H1&->&H2)|(H1&->&->)].
  - rewrite (proj2 (Z.eqb_neq _ _)) by done. simpl.
    destruct (decide (len = (ord - 1) * 13 + 13)) as [Heq|].
    + rewrite <- Heq, Hend, (proj2 (Z.leb_le _ _)) by lia. done.
    + rewrite (proj2 (Z.leb_gt _ _)) by lia. apply Z.eqb_neq.
      pose proof (hn_char _ _ Hn ((ord - 1) * 13 + 13)). lia.
  - rewrite Z.eqb_refl, (proj2 (Z.leb_le _ _)) by lia. done.
Qed.

Lemma put_lfn_spec lfn len w dir ord sum :
  holds_name lfn len → 1 <= ord <= 20 → 13 * (ord - 1) < len → 0 <= dir →
  bytes w → dir + SZDIRE <= zlen w → is_byte sum →
  let e := put_lfn lfn w dir ord sum in
  lfn_entry lfn e dir len ord sum ∧ bytes e ∧ zlen e = zlen w ∧
  (∀ b, 0 <= b → b < dir ∨ dir + SZDIRE <= b → zget e b = zget w b).
Proof.
  intros Hn Ho Hk Hd Hb Hl Hs. pose proof Hn as [_ Hlen _ Hend].
  unfold put_lfn, LDIR_Chksum, LDIR_Attr, LDIR_Type, LDIR_FstClusLO, LDIR_Ord in *.
  set (w1 := st_word _ _ _).
  assert (bytes w1) as Hb1.
  { subst w1. repeat apply st_word_bytes. unfold AM_LFN.
    repeat apply zset_bytes; auto; unfold is_byte; lia. }
  assert (zlen w1 = zlen w) as Hl1.
  { subst w1. unfold zlen. by rewrite st_word_length, !zset_length. }
  rewrite (u32_small ((ord - 1) * 13)) by (unfold FF_MAX_LFN in *; lia).
  destruct (put_loop_spec lfn len dir LfnOfs w1 0 ((ord - 1) * 13) ((ord - 1) * 13) 1)
    as (w2 & wc & i & E & Hat & Hb2 & Hl2 & Hch & Hfr); try done; try lia.
  { left. split_and!; lia. }
  rewrite E. change (zlen LfnOfs) with 13 in Hat. rewrite (put_is_last lfn len ord wc i Hn Hat) by lia.
  destruct (ord_llef ord Ho) as (Hu8&_). rewrite Hu8.
  set (ord' := if len <=? 13 * ord then Z.lor ord LLEF else ord). unfold SZDIRE in *.
  assert (is_byte ord').
  { subst ord'. destruct (_ <=? _); [rewrite <- Hu8; apply u8_byte|unfold is_byte; lia]. }
  rewrite Z.add_0_r.
  assert (∀ b, dir < b → zget (zset w2 dir ord') b = zget w2 b) as Hz by (intros; apply zget_zset_ne; lia).
  assert (∀ k, bool_decide (k ∈ [11; 12; 13; 26; 27]) = true → 0 < k → zget (zset w2 dir ord') (dir + k) = zget w1 (dir + k)) as Hz1.
  { intros k Hkf Hk0. rewrite Hz, Hfr by lia || (right; by apply LfnOfs_field) || lia. done. }
  split; [split|split_and!].
  - intros s o Hs'. rewrite <- (Hch s o Hs').
    pose proof (LfnOfs_range o (list_elem_of_lookup_2 _ _ _ Hs')). apply ld_word_frame; apply Hz; lia.
  - rewrite Z.add_0_r. apply zget_zset_eq. lia.
  - unfold LDIR_Attr. rewrite Hz1 by done. subst w1. rewrite zget_st_word_ne by lia. zsimp. done.
  - unfold LDIR_Chksum. rewrite Hz1 by done. subst w1. rewrite zget_st_word_ne by lia. zsimp. done.
  - unfold LDIR_FstClusLO. rewrite (ld_word_frame w1); [|by apply Hz1|].
    + subst w1. rewrite ld_st_word; [done|..]; auto with ffdb.
      * repeat apply zset_bytes; auto; unfold is_byte, AM_LFN; lia.
      * lia.
      * unfold zlen. rewrite !zset_length. unfold zlen in Hl. lia.
    + replace (dir + 26 + 1) with (dir + 27) by lia. by apply Hz1.
  - by apply zset_bytes.
  - unfold zlen in *. rewrite zset_length. lia.
  - intros b Hb0 Hout'. rewrite zget_zset_ne, Hfr; [|lia| |lia..]; subst w1.
    2:{ destruct Hout' as [?|?]; [left; lia|right]. intros o Ho'. pose proof (LfnOfs_range o Ho'). lia. }
    rewrite zget_st_word_ne by lia. zsimp. done.
Qed.

(** One character of the readers' loops. *)
Lemma lchar_next lfn len k wc i :
  holds_name lfn len → 0 <= k → at_char len k 0 wc i → k <= len →
  at_char len (k + 1) 0 (lchar lfn len k) (k + 1).
Proof.
  intros [_ ? Hc He] Hk Hat Hle. unfold at_char, lchar.
  rewrite (proj2 (Z.leb_le k len)) by done.
  destruct (decide (k = len)) as [->|]; [right; rewrite He; lia|].
  left. specialize (Hc k). lia.
Qed.

Lemma cmp_loop_spec lfn len w dir ofs wc i k :
  holds_name lfn len → 0 <= k → at_char len k 0 wc i → entry_chars lfn w dir len k ofs →
  ∃ wc' i', cmp_loop lfn w dir ofs wc i = Some (wc', i') ∧ at_char len (k + zlen ofs) 0 wc' i'.
Proof.
  intros Hn. pose proof Hn as [_ Hlen _ _]. unfold FF_MAX_LFN in *.
  revert wc i k. induction ofs as [|o ofs IH]; intros wc i k Hk Hat Hch; simpl.
  { exists wc, i. unfold zlen. simpl. by rewrite Z.add_0_r. }
  apply entry_chars_cons in Hch as [E Hch]. rewrite E.
  replace (k + zlen (o :: ofs)) with (k + 1 + zlen ofs) by (unfold zlen; simpl; lia).
  destruct Hat as [(Hle&->&Hne)|(Hlt&->&->)].
  - rewrite (proj2 (Z.eqb_neq wc 0)), (proj2 (Z.leb_gt _ k)) by (unfold FF_MAX_LFN; lia). simpl.
    unfold lchar at 1. rewrite (proj2 (Z.leb_le k len)), Z.eqb_refl, u32_small by lia. simpl.
    apply IH; [lia| |done]. apply (lchar_next _ _ _ wc k); auto. by left.
  - unfold lchar. rewrite (proj2 (Z.leb_gt k len)) by lia. simpl.
    apply IH; [lia| |done]. right. lia.
Qed.

(** A name is matched by the entries it was written to. *)
Lemma cmp_lfn_entry lfn len e dir ord sum :
  holds_name lfn len → 1 <= ord <= 20 → 13 * (ord - 1) < len →
  lfn_entry lfn e dir len ord sum → cmp_lfn lfn e dir = true.
Proof.
  intros Hn Ho Hk [Hch Hord _ _ Hcl]. pose proof Hn as [_ Hlen _ Hend].
  unfold cmp_lfn, FF_MAX_LFN in *. rewrite Hcl. cbn [negb Z.eqb]. rewrite Hord.
  destruct (ord_llef ord Ho) as (_&E1&_&E2&E3&_&E4).
  assert (Z.land (if len <=? 13 * ord then Z.lor ord LLEF else ord) 0x3F = ord) as -> by
    (by destruct (len <=? 13 * ord)).
  rewrite (u32_small ((ord - 1) * 13)) by lia.
  destruct (cmp_loop_spec lfn len e dir LfnOfs 1 ((ord - 1) * 13) ((ord - 1) * 13))
    as (wc & i & -> & Hat); auto; [lia|left; lia|].
  change (zlen LfnOfs) with 13 in Hat.
  destruct Hat as [(H1&->&H2)|(H1&->&->)]; [|by rewrite andb_false_r].
  destruct (len <=? 13 * ord) eqn:El; zb.
  - replace ((ord - 1) * 13 + 13) with len by lia. by rewrite Hend, andb_false_r.
  - by rewrite E4.
Qed.

Definition agree (l1 l2 : list Z) (a b : Z) : Prop := ∀ i, a <= i < b → zget l1 i = zget l2 i.

Lemma pick_loop_spec lfn len w dir ofs buf wc i k :
  holds_name lfn len → zlen buf = FF_MAX_LFN + 1 → 0 <= k → at_char len k 0 wc i →
  entry_chars lfn w dir len k ofs →
  ∃ wc' i' buf', pick_loop w dir ofs buf wc i = (Some (wc', i'), buf') ∧
    at_char len (k + zlen ofs) 0 wc' i' ∧ zlen buf' = zlen buf ∧
    agree buf' lfn k (Z.min (k + zlen ofs) (len + 1)) ∧
    (∀ j, 0 <= j → ¬ (k <= j < Z.min (k + zlen ofs) (len + 1)) → zget buf' j = zget buf j).
Proof.
  intros Hn. pose proof Hn as [_ Hlen _ _]. unfold FF_MAX_LFN in *.
  revert buf wc i k. induction ofs as [|o ofs IH]; intros buf wc i k Hsz Hk Hat Hch; simpl.
  { exists wc, i, buf. change (zlen (@nil Z)) with 0. rewrite Z.add_0_r. split_and!; auto.
    intros j ?. lia. }
  apply entry_chars_cons in Hch as [E Hch]. rewrite E.
  replace (k + zlen (o :: ofs)) with (k + 1 + zlen ofs) by (unfold zlen; simpl; lia).
  destruct Hat as [(Hle&->&Hne)|(Hlt&->&->)].
  - rewrite (proj2 (Z.eqb_neq wc 0)), (proj2 (Z.leb_gt _ k)) by (unfold FF_MAX_LFN; lia). simpl.
    rewrite u32_small by lia.
    destruct (IH (zset buf k (lchar lfn len k)) (lchar lfn len k) (k + 1) (k + 1))
      as (wc' & i' & buf' & E' & Hat' & Hl' & Hag & Hfr); auto.
    { by rewrite zlen_zset. }
    { lia. }
    { apply (lchar_next _ _ _ wc k); auto. by left. }
    rewrite zlen_zset in Hl'. exists wc', i', buf'. split_and!; auto.
    + intros j Hj. destruct (decide (j = k)) as [->|]; [|apply Hag; lia].
      rewrite Hfr by lia. rewrite zget_zset_eq by lia. unfold lchar.
      by rewrite (proj2 (Z.leb_le k len)).
    + intros j Hj Hout. assert (0 <= zlen ofs) by (unfold zlen; lia).
      rewrite Hfr by lia. apply zget_zset_ne; lia.
  - unfold lchar. rewrite (proj2 (Z.leb_gt k len)) by lia. simpl.
    destruct (IH buf 0 (len + 1) (k + 1)) as (wc' & i' & buf' & E' & Hat' & Hl' & Hag & Hfr);
      auto; [lia|right; lia|].
    exists wc', i', buf'. split_and!; auto.
    + intros j Hj. lia.
    + intros j Hj Hout. apply Hfr; lia.
Qed.

(** Reading an entry restores its part of the name, terminator included. *)
Lemma pick_lfn_entry lfn len e dir ord sum buf :
  holds_name lfn len → 1 <= ord <= 20 → 13 * (ord - 1) < len →
  lfn_entry lfn e dir len ord sum → zlen buf = FF_MAX_LFN + 1 →
  ∃ buf', pick_lfn buf e dir = (true, buf') ∧ zlen buf' = zlen buf ∧
    (let hi := if len <=? 13 * ord then len + 1 else 13 * ord in
     agree buf' lfn (13 * (ord - 1)) hi ∧
     ∀ j, 0 <= j → ¬ (13 * (ord - 1) <= j < hi) → zget buf' j = zget buf j).
Proof.
  intros Hn Ho Hk [Hch Hord _ _ Hcl] Hb. pose proof Hn as [_ Hlen _ Hend].
  unfold pick_lfn, FF_MAX_LFN in *. rewrite Hcl. cbn [negb Z.eqb]. rewrite Hord.
  destruct (ord_llef ord Ho) as (_&_&E1&E2&_&E3&E4).
  assert (Z.land (if len <=? 13 * ord then Z.lor ord LLEF else ord) (Z.lnot LLEF) = ord) as -> by
    (by destruct (len <=? 13 * ord)).
  rewrite (u32_small ((ord - 1) * 13)) by lia.
  destruct (pick_loop_spec lfn len e dir LfnOfs buf 1 ((ord - 1) * 13) ((ord - 1) * 13))
    as (wc & i & buf' & -> & Hat & Hl & Hag & Hfr); auto; [lia|left; lia|].
  change (zlen LfnOfs) with 13 in *. replace ((ord - 1) * 13) with (13 * (ord - 1)) in * by lia.
  destruct (len <=? 13 * ord) eqn:El; zb.
  - rewrite E2. destruct Hat as [(H1&->&H2)|(H1&->&->)]; simpl.
    + rewrite (proj2 (Z.eqb_neq wc 0)), (proj2 (Z.leb_gt _ _)) by lia. simpl.
      assert (13 * (ord - 1) + 13 = len) as Heq by lia. rewrite Heq in *.
      eexists. split; [done|]. rewrite zlen_zset. split; [done|]. split.
      * intros j Hj. destruct (decide (j = len)) as [->|].
        -- rewrite zget_zset_eq by lia. by rewrite Hend.
        -- rewrite zget_zset_ne by lia. apply Hag. lia.
      * intros j Hj Hout. rewrite zget_zset_ne by lia. apply Hfr; lia.
    + exists buf'. split_and!; auto.
      * intros j Hj. apply Hag. lia.
      * intros j Hj Hout. apply Hfr; lia.
  - rewrite E4. simpl. exists buf'. split_and!; auto.
    + intros j Hj. apply Hag. lia.
    + intros j Hj Hout. apply Hfr; lia.
Qed.

(** Writing a name to its entries and reading them back, last part first,
    as the directory holds them. *)
Definition entry_of (lfn : list Z) (sum ord : Z) : list Z :=
  put_lfn lfn (replicate 32 0) 0 ord sum.

Fixpoint read_back (lfn : list Z) (sum : Z) (n : nat) (buf : list Z) : option (list Z) :=
  match n with
  | O => Some buf
  | S n' =>
      match pick_lfn buf (entry_of lfn sum (Z.of_nat n)) 0 with
      | (true, buf') => read_back lfn sum n' buf'
      | (false, _) => None
      end
  end.

(** Number of LFN entries of a name: [(len + 12) / 13] in [dir_register]. *)
Definition lfn_entries (len : Z) : Z := (len + 12) / 13.

Lemma entry_of_ok lfn len sum ord :
  holds_name lfn len → 1 <= ord <= lfn_entries len → is_byte sum →
  lfn_entry lfn (entry_of lfn sum ord) 0 len ord sum.
Proof.
  intros Hn Ho Hs. pose proof Hn as [_ Hl _ _]. unfold lfn_entries, FF_MAX_LFN in *.
  apply (put_lfn_spec lfn len (replicate 32 0) 0 ord sum); auto; try done;
    try (Z.div_mod_to_equations; lia).
  apply Forall_replicate. unfold is_byte. lia.
Qed.

(** The first entry that is read (the last part of the name) brings the
    terminator, so that nothing is needed of the buffer. *)
Lemma read_back_agree lfn len sum n buf :
  holds_name lfn len → is_byte sum → zlen buf = FF_MAX_LFN + 1 →
  Z.of_nat n = lfn_entries len ∨ Z.of_nat n <= lfn_entries len ∧ agree buf lfn (13 * Z.of_nat n) (len + 1) →
  ∃ buf', read_back lfn sum n buf = Some buf' ∧ agree buf' lfn 0 (len + 1) ∧
    ∀ j, len < j → zget buf' j = zget buf j.
Proof.
  intros Hn Hs. pose proof Hn as [_ Hlen _ _]. unfold FF_MAX_LFN in Hlen.
  revert buf. induction n as [|n IH]; intros buf Hb Hag.
  { exists buf. split; [done|]. split; [|done]. destruct Hag as [He|[_ Hag]]; [|done].
    unfold lfn_entries in He. Z.div_mod_to_equations; lia. }
  cbn [read_back].
  assert (13 * (Z.of_nat (S n) - 1) < len ∧ Z.of_nat (S n) <= lfn_entries len).
  { unfold lfn_entries in Hag |- *. Z.div_mod_to_equations; lia. }
  destruct (pick_lfn_entry lfn len (entry_of lfn sum (Z.of_nat (S n))) 0 (Z.of_nat (S n)) sum buf)
    as (buf' & E & Hl & Hag' & Hfr); auto; try lia.
  - apply entry_of_ok; auto. lia.
  - rewrite E. destruct (IH buf') as (buf2 & E2 & Ha2 & Hf2); [lia| |].
    + right. split; [lia|]. intros j Hj. destruct (len <=? 13 * Z.of_nat (S n)) eqn:El; zb; [apply Hag'; lia|].
      destruct (decide (j < 13 * Z.of_nat (S n))); [apply Hag'; lia|]. rewrite Hfr by lia.
      destruct Hag as [Hc|[_ Hag]]; [|apply Hag; lia]. unfold lfn_entries in Hc. Z.div_mod_to_equations; lia.
    + exists buf2. split; [done|]. split; [done|]. intros j Hj. rewrite Hf2 by lia.
      apply Hfr; [lia|]. destruct (len <=? 13 * Z.of_nat (S n)) eqn:El; zb; lia.
Qed.
