(* ===== verification/FfDir.v ===== *)
(** Directory tables in ff.c: positioning ([dir_sdi], [dir_next]),
    allocation ([dir_clear], [dir_alloc]), scanning ([dir_read],
    [dir_find]), update ([dir_register], [dir_remove]) and [get_fileinfo].

    A [DIR *dp] argument is the [DIR] value passed in and returned.  The
    scanning loops advance the table offset by 32 bytes a turn and stop at
    MAX_DIR, which is the fuel [DIR_FUEL]. *)
From Stdlib Require Import ZArith Lia.
From stdpp Require Import base list numbers option sets.
From S2P Require Import Prelude BlockDevice FfTypes FfWindow FfFat FfChain FfUnicode FfLfn.

Local Open Scope Z_scope.
Local Open Scope st_scope.

(** Entries of the largest table, and one more for the exit test. *)
Definition DIR_FUEL : nat := Z.to_nat (MAX_DIR / SZDIRE + 1).

(** [FILINFO] of ff.h; the two strings without their terminator. *)
Record FILINFO : Type := mkFILINFO {
  fi_fsize : Z;
  fi_fdate : Z;
  fi_ftime : Z;
  fi_fattrib : Z;
  fi_altname : list Z;
  fi_fname : list Z
}.

Section ops.
Context {D : Type} `{BlockDevice D}.

(** The [for] loop of [dir_clear] with [k] sectors to go. *)
Fixpoint clear_loop (k : nat) (sect n : Z) : ST (vol D) Z :=
  match k with
  | O => sret n
  | S k =>
      let! f := fs in
      let! r := dwrite (win f) (u32 (sect + n)) 1 in
      match r with
      | RES_OK => clear_loop k sect (n + 1)
      | _ => sret n
      end
  end.

Definition dir_clear (clst : Z) : ST (vol D) FRESULT :=
  let! res := sync_window in
  if negb (fr_ok res) then sret FR_DISK_ERR else
  let! f := fs in
  let sect := clst2sect f clst in
  upd (λ f, set_win (replicate 512 0) (set_winsect sect f)) ;!
  let! n := clear_loop (Z.to_nat (csize f)) sect 0 in
  sret (if n =? csize f then FR_OK else FR_DISK_ERR).

(** [while (ofs >= csz)] of [dir_sdi]: the error, or the cluster and the
    offset in it. *)
Fixpoint sdi_loop (fuel : nat) (csz ofs clst : Z) : ST (vol D) (FRESULT + Z * Z) :=
  match fuel with
  | O => sdiverge
  | S fuel =>
      if csz <=? ofs then
        let! clst := get_fat clst in
        if clst =? 0xFFFFFFFF then sret (inl FR_DISK_ERR) else
        let! f := fs in
        if (clst <? 2) || (n_fatent f <=? clst) then sret (inl FR_INT_ERR)
        else sdi_loop fuel csz (ofs - csz) clst
      else sret (inr (clst, ofs))
  end.

(** Lines 1725-1730. *)
Definition sdi_set (dp : DIR) (clst ofs : Z) : FRESULT * DIR :=
  let dp := set_dclust clst dp in
  if dsect dp =? 0 then (FR_INT_ERR, dp) else
  let dp := set_dsect (u32 (dsect dp + ofs / SS)) dp in
  (FR_OK, set_ddir (ofs mod SS) dp).

Definition dir_sdi (dp : DIR) (ofs : Z) : ST (vol D) (FRESULT * DIR) :=
  if (MAX_DIR <=? ofs) || ztrue (ofs mod SZDIRE) then sret (FR_INT_ERR, dp) else
  let dp := set_dptr ofs dp in
  let! f := fs in
  let clst := sclust (dobj dp) in
  let clst := if (clst =? 0) && (FS_FAT32 <=? fs_type f) then dirbase f else clst in
  if clst =? 0 then
    if n_rootdir f <=? ofs / SZDIRE then sret (FR_INT_ERR, dp)
    else sret (sdi_set (set_dsect (dirbase f) dp) clst ofs)
  else
    let! r := sdi_loop DIR_FUEL (u32 (csize f * SS)) ofs clst in
    match r with
    | inl e => sret (e, dp)
    | inr (clst, ofs) => sret (sdi_set (set_dsect (clst2sect f clst) dp) clst ofs)
    end.

(** Lines 1787-1790. *)
Definition next_set (dp : DIR) (ofs : Z) : FRESULT * DIR :=
  (FR_OK, set_ddir (ofs mod SS) (set_dptr ofs dp)).

(** Lines 1763-1784: the next cluster of the table, stretching it. *)
Definition next_cluster (dp : DIR) (stretch : bool) : ST (vol D) (FRESULT * DIR) :=
  let enter (clst : Z) : ST (vol D) (FRESULT * DIR) :=
    let! f := fs in
    sret (FR_OK, set_dsect (clst2sect f clst) (set_dclust clst dp)) in
  let! clst := get_fat (dclust dp) in
  if clst <=? 1 then sret (FR_INT_ERR, dp)
  else if clst =? 0xFFFFFFFF then sret (FR_DISK_ERR, dp)
  else
    let! f := fs in
    if n_fatent f <=? clst then
      if negb stretch then sret (FR_NO_FILE, set_dsect 0 dp) else
      let! clst := create_chain (dclust dp) in
      if clst =? 0 then sret (FR_DENIED, dp)
      else if clst =? 1 then sret (FR_INT_ERR, dp)
      else if clst =? 0xFFFFFFFF then sret (FR_DISK_ERR, dp)
      else
        let! r := dir_clear clst in
        if negb (fr_ok r) then sret (FR_DISK_ERR, dp) else enter clst
    else enter clst.

Definition dir_next (dp : DIR) (stretch : bool) : ST (vol D) (FRESULT * DIR) :=
  let ofs := u32 (dptr dp + SZDIRE) in
  let dp := if MAX_DIR <=? ofs then set_dsect 0 dp else dp in
  if dsect dp =? 0 then sret (FR_NO_FILE, dp) else
  if ofs mod SS =? 0 then
    let dp := set_dsect (u32 (dsect dp + 1)) dp in
    let! f := fs in
    if dclust dp =? 0 then
      if n_rootdir f <=? ofs / SZDIRE then sret (FR_NO_FILE, set_dsect 0 dp)
      else sret (next_set dp ofs)
    else if Z.land (ofs / SS) (csize f - 1) =? 0 then
      let! (res, dp) := next_cluster dp stretch in
      if negb (fr_ok res) then sret (res, dp) else sret (next_set dp ofs)
    else sret (next_set dp ofs)
  else sret (next_set dp ofs).

(** The [do ... while] loop of [dir_alloc]. *)
Fixpoint alloc_loop (fuel : nat) (dp : DIR) (n_ent n : Z) : ST (vol D) (FRESULT * DIR) :=
  match fuel with
  | O => sdiverge
  | S fuel =>
      let! res := move_window (dsect dp) in
      if negb (fr_ok res) then sret (res, dp) else
      let! f := fs in
      let b := zget (win f) (ddir dp + DIR_Name) in
      let free := (b =? DDEM) || (b =? 0) in
      let n := if free then n + 1 else 0 in
      if free && (n =? n_ent) then sret (FR_OK, dp) else
      let! (res, dp) := dir_next dp true in
      if fr_ok res then alloc_loop fuel dp n_ent n else sret (res, dp)
  end.

Definition dir_alloc (dp : DIR) (n_ent : Z) : ST (vol D) (FRESULT * DIR) :=
  let! (res, dp) := dir_sdi dp 0 in
  let! (res, dp) := (if fr_ok res then alloc_loop DIR_FUEL dp n_ent 0 else sret (res, dp)) in
  sret (match res with FR_NO_FILE => FR_DENIED | _ => res end, dp).

(** One entry of the scan of [dir_read]: whether to stop there, and the
    new [dp], [ord], [sum] and LFN buffer. *)
Definition read_test (dp : DIR) (vol ord sum : Z) (w lfn : list Z)
    : option FRESULT * DIR * Z * Z * list Z :=
  let b := zget w (ddir dp + DIR_Name) in
  if b =? 0 then (Some FR_NO_FILE, dp, ord, sum, lfn) else
  let attr := Z.land (zget w (ddir dp + DIR_Attr)) AM_MASK in
  let dp := set_dobj (set_attr attr (dobj dp)) dp in
  let label := if Z.land attr (Z.lnot AM_ARC) =? AM_VOL then 1 else 0 in
  if (b =? DDEM) || (b =? 46) || negb (label =? vol) then (None, dp, 0xFF, sum, lfn)
  else if attr =? AM_LFN then
    let chk := zget w (ddir dp + LDIR_Chksum) in
    let first := zbits b LLEF in
    let sum := if first then chk else sum in
    let b := if first then Z.land b (Z.lnot LLEF) else b in
    let ord := if first then b else ord in
    let dp := if first then set_blk_ofs (dptr dp) dp else dp in
    if (b =? ord) && (sum =? chk) then
      let '(ok, lfn) := pick_lfn lfn w (ddir dp) in
      (None, dp, if ok then u8 (ord - 1) else 0xFF, sum, lfn)
    else (None, dp, 0xFF, sum, lfn)
  else
    let dp := if negb (ord =? 0) || negb (sum =? sum_sfn w (ddir dp))
              then set_blk_ofs 0xFFFFFFFF dp else dp in
    (Some FR_OK, dp, ord, sum, lfn).

Fixpoint dir_read_loop (fuel : nat) (dp : DIR) (vol ord sum : Z) (res : FRESULT)
    : ST (FfTypes.vol D) (FRESULT * DIR) :=
  match fuel with
  | O => sdiverge
  | S fuel =>
      if dsect dp =? 0 then sret (res, dp) else
      let! res := move_window (dsect dp) in
      if negb (fr_ok res) then sret (res, dp) else
      let! v := sget in
      let '(stop, dp, ord, sum, lfn) := read_test dp vol ord sum (win (vfs v)) (LfnBuf v) in
      supd (set_LfnBuf lfn) ;!
      match stop with
      | Some r => sret (r, dp)
      | None =>
          let! (res, dp) := dir_next dp false in
          if negb (fr_ok res) then sret (res, dp) else dir_read_loop fuel dp vol ord sum res
      end
  end.

Definition dir_read (dp : DIR) (vol : Z) : ST (FfTypes.vol D) (FRESULT * DIR) :=
  let! (res, dp) := dir_read_loop DIR_FUEL dp vol 0xFF 0xFF FR_NO_FILE in
  sret (res, if fr_ok res then dp else set_dsect 0 dp).

(** One entry of the scan of [dir_find]. *)
Definition find_test (dp : DIR) (ord sum : Z) (w lfn : list Z)
    : option FRESULT * DIR * Z * Z :=
  let c := zget w (ddir dp + DIR_Name) in
  if c =? 0 then (Some FR_NO_FILE, dp, ord, sum) else
  let a := Z.land (zget w (ddir dp + DIR_Attr)) AM_MASK in
  let dp := set_dobj (set_attr a (dobj dp)) dp in
  if (c =? DDEM) || (zbits a AM_VOL && negb (a =? AM_LFN))
  then (None, set_blk_ofs 0xFFFFFFFF dp, 0xFF, sum)
  else if a =? AM_LFN then
    if negb (zbits (zget (fn dp) NSFLAG) NS_NOLFN) then
      let chk := zget w (ddir dp + LDIR_Chksum) in
      let first := zbits c LLEF in
      let sum := if first then chk else sum in
      let c := if first then Z.land c (Z.lnot LLEF) else c in
      let ord := if first then c else ord in
      let dp := if first then set_blk_ofs (dptr dp) dp else dp in
      (None, dp,
       if (c =? ord) && (sum =? chk) && cmp_lfn lfn w (ddir dp) then u8 (ord - 1) else 0xFF,
       sum)
    else (None, dp, ord, sum)
  else if (ord =? 0) && (sum =? sum_sfn w (ddir dp)) then (Some FR_OK, dp, ord, sum)
  else if negb (zbits (zget (fn dp) NSFLAG) NS_LOSS)
          && bool_decide (zread w (ddir dp) 11 = zread (fn dp) 0 11)
  then (Some FR_OK, dp, ord, sum)
  else (None, set_blk_ofs 0xFFFFFFFF dp, 0xFF, sum).

Fixpoint find_loop (fuel : nat) (dp : DIR) (ord sum : Z) : ST (vol D) (FRESULT * DIR) :=
  match fuel with
  | O => sdiverge
  | S fuel =>
      let! res := move_window (dsect dp) in
      if negb (fr_ok res) then sret (res, dp) else
      let! v := sget in
      let '(stop, dp, ord, sum) := find_test dp ord sum (win (vfs v)) (LfnBuf v) in
      match stop with
      | Some r => sret (r, dp)
      | None =>
          let! (res, dp) := dir_next dp false in
          if fr_ok res then find_loop fuel dp ord sum else sret (res, dp)
      end
  end.

Definition dir_find (dp : DIR) : ST (vol D) (FRESULT * DIR) :=
  let! (res, dp) := dir_sdi dp 0 in
  if negb (fr_ok res) then sret (res, dp) else
  find_loop DIR_FUEL (set_blk_ofs 0xFFFFFFFF dp) 0xFF 0xFF.

(** [for (len = 0; fs->lfnbuf[len]; len++)]. *)
Fixpoint lfn_length (fuel : nat) (lfn : list Z) (len : Z) : Z :=
  match fuel with
  | O => len
  | S fuel => if zget lfn len =? 0 then len else lfn_length fuel lfn (len + 1)
  end.

(** The loop over numbered names of [dir_register], from number [n] with
    [k] numbers left below 100; the [n] it ended with. *)
Fixpoint number_loop (k : nat) (dp : DIR) (sn : list Z) (n : Z) (res : FRESULT)
    : ST (vol D) (Z * FRESULT * DIR) :=
  match k with
  | O => sret (n, res, dp)
  | S k =>
      let! v := sget in
      let dp := set_fn (gen_numname (fn dp) sn (LfnBuf v) n) dp in
      let! (res, dp) := dir_find dp in
      if negb (fr_ok res) then sret (n, res, dp)
      else number_loop k dp sn (n + 1) res
  end.

(** The LFN entries of [dir_register], [n_ent] of them to go. *)
Fixpoint put_lfn_loop (n_ent : nat) (dp : DIR) (sum : Z) : ST (vol D) (FRESULT * DIR) :=
  match n_ent with
  | O => sret (FR_OK, dp)
  | S n =>
      let! res := move_window (dsect dp) in
      if negb (fr_ok res) then sret (res, dp) else
      let! v := sget in
      win_store (λ w, put_lfn (LfnBuf v) w (ddir dp) (u8 (Z.of_nat n_ent)) sum) ;!
      let! (res, dp) := dir_next dp false in
      if negb (fr_ok res) then sret (res, dp) else put_lfn_loop n dp sum
  end.

(** Lines 2542-2552. *)
Definition put_sfn (dp : DIR) : ST (vol D) FRESULT :=
  let! res := move_window (dsect dp) in
  if negb (fr_ok res) then sret res else
  win_store (λ w,
    let w := zwrite w (ddir dp) (replicate 32 0) in
    let w := zwrite w (ddir dp + DIR_Name) (zread (fn dp) 0 11) in
    zset w (ddir dp + DIR_NTres) (Z.land (zget (fn dp) NSFLAG) (Z.lor NS_BODY NS_EXT))) ;!
  sret res.

(** Lines 2519-2554: the entries of the object. *)
Definition register_entries (dp : DIR) (snflag len : Z) : ST (vol D) (FRESULT * DIR) :=
  let n_ent := if zbits snflag NS_LFN then (len + 12) / 13 + 1 else 1 in
  let! (res, dp) := dir_alloc dp n_ent in
  let! (res, dp) :=
    (if fr_ok res && negb (n_ent - 1 =? 0) then
       let n_ent := n_ent - 1 in
       let! (res, dp) := dir_sdi dp (u32 (dptr dp - n_ent * SZDIRE)) in
       if fr_ok res then put_lfn_loop (Z.to_nat n_ent) dp (sum_sfn (fn dp) 0)
       else sret (res, dp)
     else sret (res, dp)) in
  if fr_ok res then let! res := put_sfn dp in sret (res, dp) else sret (res, dp).

Definition dir_register (dp : DIR) : ST (vol D) (FRESULT * DIR) :=
  if zbits (zget (fn dp) NSFLAG) (Z.lor NS_DOT NS_NONAME) then sret (FR_INVALID_NAME, dp) else
  let! v := sget in
  let len := lfn_length (length (LfnBuf v)) (LfnBuf v) 0 in
  let sn := fn dp in
  if zbits (zget sn NSFLAG) NS_LOSS then
    let dp := set_fn (zset (fn dp) NSFLAG NS_NOLFN) dp in
    let! (n, res, dp) := number_loop 99 dp sn 1 FR_OK in
    if n =? 100 then sret (FR_DENIED, dp)
    else match res with
         | FR_NO_FILE =>
             let dp := set_fn (zset (fn dp) NSFLAG (zget sn NSFLAG)) dp in
             register_entries dp (zget sn NSFLAG) len
         | _ => sret (res, dp)
         end
  else register_entries dp (zget sn NSFLAG) len.

Fixpoint remove_entries (fuel : nat) (dp : DIR) (last : Z) : ST (vol D) (FRESULT * DIR) :=
  match fuel with
  | O => sdiverge
  | S fuel =>
      let! res := move_window (dsect dp) in
      if negb (fr_ok res) then sret (res, dp) else
      win_store (λ w, zset w (ddir dp + DIR_Name) DDEM) ;!
      if last <=? dptr dp then sret (res, dp) else
      let! (res, dp) := dir_next dp false in
      if fr_ok res then remove_entries fuel dp last else sret (res, dp)
  end.

Definition dir_remove (dp : DIR) : ST (vol D) (FRESULT * DIR) :=
  let last := dptr dp in
  let! (res, dp) := (if blk_ofs dp =? 0xFFFFFFFF then sret (FR_OK, dp)
                     else dir_sdi dp (blk_ofs dp)) in
  if fr_ok res then
    let! (res, dp) := remove_entries DIR_FUEL dp last in
    sret (match res with FR_NO_FILE => FR_INT_ERR | _ => res end, dp)
  else sret (res, dp).

End ops.

(** The LFN part of [get_fileinfo]: the name from [lfn[si]] on, [acc] what
    [fname] holds so far; empty when it cannot be converted. *)
Fixpoint info_lfn (fuel : nat) (lfn : list Z) (si hs : Z) (acc : list Z) : list Z :=
  match fuel with
  | O => []
  | S fuel =>
      let wc := zget lfn si in
      if wc =? 0 then (if negb (hs =? 0) then [] else acc)
      else if (hs =? 0) && IsSurrogate wc then info_lfn fuel lfn (si + 1) wc acc
      else
        let nw := put_utf (Z.lor (u32 (Z.shiftl hs 16)) wc) (FF_LFN_BUF - zlen acc) in
        match nw with
        | [] => []
        | _ => info_lfn fuel lfn (si + 1) 0 (acc ++ nw)
        end
  end.

(** The SFN part: [altname] from byte [si] of the entry on. *)
Fixpoint info_sfn (fuel : nat) (w : list Z) (dir si : Z) (acc : list Z) : list Z :=
  match fuel with
  | O => acc
  | S fuel =>
      let wc := zget w (dir + si) in
      let si := si + 1 in
      if wc =? 32 then info_sfn fuel w dir si acc else
      let wc := if wc =? RDDEM then DDEM else wc in
      let acc := if (si =? 9) && (zlen acc <? FF_SFN_BUF) then acc ++ [46] else acc in
      info_sfn fuel w dir si (acc ++ [wc])
  end.

(** The copy of [altname] to [fname] with the case flags of the entry. *)
Fixpoint info_case (nt lcf : Z) (altname : list Z) : list Z :=
  match altname with
  | [] => []
  | wc :: altname =>
      if wc =? 0 then [] else
      let lcf := if wc =? 46 then NS_EXT else lcf in
      (if IsUpper wc && zbits nt lcf then wc + 0x20 else wc) :: info_case nt lcf altname
  end.

Definition get_fileinfo (dp : DIR) (w lfn : list Z) (fno : FILINFO) : FILINFO :=
  if dsect dp =? 0
  then mkFILINFO (fi_fsize fno) (fi_fdate fno) (fi_ftime fno) (fi_fattrib fno)
         (fi_altname fno) []
  else
    let dir := ddir dp in
    let nt := zget w (dir + DIR_NTres) in
    let fname := if negb (blk_ofs dp =? 0xFFFFFFFF)
                 then info_lfn (S (length lfn)) lfn 0 0 [] else [] in
    let altname := info_sfn 11 w dir 0 [] in
    let '(fname, altname) :=
      match fname with
      | [] =>
          (match altname with [] => [63] | _ => info_case nt NS_BODY altname end,
           if nt =? 0 then [] else altname)
      | _ => (fname, altname)
      end in
    mkFILINFO (ld_dword w (dir + DIR_FileSize)) (ld_word w (dir + DIR_ModTime + 2))
      (ld_word w (dir + DIR_ModTime)) (Z.land (zget w (dir + DIR_Attr)) AM_MASK)
      altname fname.
