(* ===== verification/FfMount.v ===== *)
(** Mounting in ff.c: [check_fs], [find_volume], [mount_volume],
    [validate] and [f_mount].

    [mount_volume] is split where the source changes subject: the guard on
    the registered object, the search for the boot sector, the decoding of
    the BIOS parameter block ([init_fatfs]) and FSINFO ([load_fsinfo]). *)
From Stdlib Require Import ZArith Lia.
From stdpp Require Import base list numbers option.
From S2P Require Import Prelude BlockDevice FfTypes FfWindow FfFat FfChain FfUnicode FfLfn FfDir FfName.

Local Open Scope Z_scope.
Local Open Scope st_scope.

(** Boot sector offsets and limits of ff.c. *)
Definition BS_JmpBoot : Z := 0.
Definition BPB_BytsPerSec : Z := 11.
Definition BPB_SecPerClus : Z := 13.
Definition BPB_RsvdSecCnt : Z := 14.
Definition BPB_NumFATs : Z := 16.
Definition BPB_RootEntCnt : Z := 17.
Definition BPB_TotSec16 : Z := 19.
Definition BPB_FATSz16 : Z := 22.
Definition BPB_TotSec32 : Z := 32.
Definition BPB_FATSz32 : Z := 36.
Definition BPB_FSVer32 : Z := 42.
Definition BPB_RootClus32 : Z := 44.
Definition BPB_FSInfo32 : Z := 48.
Definition BS_FilSysType32 : Z := 82.
Definition MBR_Table : Z := 446.
Definition SZ_PTE : Z := 16.
Definition PTE_StLba : Z := 8.
Definition FF_MIN_SS : Z := 512.
Definition FF_MAX_SS : Z := 512.
Definition MAX_FAT12 : Z := 0xFF5.
Definition MAX_FAT16 : Z := 0xFFF5.
Definition MAX_FAT32 : Z := 0x0FFFFFF5.
Definition FA_READ : Z := 0x01.
Definition FA_WRITE : Z := 0x02.

(** "FAT32   " *)
Definition FAT32_TYPE : list Z := [70; 65; 84; 51; 50; 32; 32; 32].

(** The test of [check_fs] on the loaded sector [w]. *)
Definition check_vbr (w : list Z) : Z :=
  let sign := ld_word w BS_55AA in
  let b := zget w BS_JmpBoot in
  let other := if sign =? 0xAA55 then 2 else 3 in
  if (b =? 0xEB) || (b =? 0xE9) || (b =? 0xE8) then
    if (sign =? 0xAA55) && bool_decide (zread w BS_FilSysType32 8 = FAT32_TYPE) then 0
    else
      let bps := ld_word w BPB_BytsPerSec in
      let b := zget w BPB_SecPerClus in
      if (Z.land bps (bps - 1) =? 0) && (FF_MIN_SS <=? bps) && (bps <=? FF_MAX_SS)
         && negb (b =? 0) && (Z.land b (b - 1) =? 0)
         && negb (ld_word w BPB_RsvdSecCnt =? 0)
         && (u32 (zget w BPB_NumFATs - 1) <=? 1)
         && negb (ld_word w BPB_RootEntCnt =? 0)
         && ((128 <=? ld_word w BPB_TotSec16) || (0x10000 <=? ld_dword w BPB_TotSec32))
         && negb (ld_word w BPB_FATSz16 =? 0)
      then 0 else other
  else other.

(** Lines 3505-3564: the parameters of the volume whose boot sector [w] is
    sector [bsect].  [fmt] is FS_FAT32 whatever the number of clusters
    (line 3541 overrides the sub-type of lines 3536-3539).  The object is
    changed also when the function gives up. *)
Definition init_fatfs (w : list Z) (bsect : Z) (f : FATFS) : bool * FATFS :=
  if negb (ld_word w BPB_BytsPerSec =? SS) then (false, f) else
  let fasize := ld_word w BPB_FATSz16 in
  let fasize := if fasize =? 0 then ld_dword w BPB_FATSz32 else fasize in
  let f := set_fsize fasize f in
  let f := set_n_fats (zget w BPB_NumFATs) f in
  if negb (n_fats f =? 1) && negb (n_fats f =? 2) then (false, f) else
  let fasize := u32 (fasize * n_fats f) in
  let f := set_csize (zget w BPB_SecPerClus) f in
  if (csize f =? 0) || ztrue (Z.land (csize f) (csize f - 1)) then (false, f) else
  let f := set_n_rootdir (ld_word w BPB_RootEntCnt) f in
  if ztrue (n_rootdir f mod (SS / SZDIRE)) then (false, f) else
  let tsect := ld_word w BPB_TotSec16 in
  let tsect := if tsect =? 0 then ld_dword w BPB_TotSec32 else tsect in
  let nrsv := ld_word w BPB_RsvdSecCnt in
  if nrsv =? 0 then (false, f) else
  let sysect := u32 (nrsv + fasize + n_rootdir f / (SS / SZDIRE)) in
  if tsect <? sysect then (false, f) else
  let nclst := (tsect - sysect) / csize f in
  if nclst =? 0 then (false, f) else
  let f := set_n_fatent (u32 (nclst + 2)) f in
  let f := set_volbase bsect f in
  let f := set_fatbase (u32 (bsect + nrsv)) f in
  let f := set_database (u32 (bsect + sysect)) f in
  if negb (ld_word w BPB_FSVer32 =? 0) then (false, f) else
  if negb (n_rootdir f =? 0) then (false, f) else
  let f := set_dirbase (ld_dword w BPB_RootClus32) f in
  let szbfat := u32 (n_fatent f * 4) in
  (negb (fsize f <? u32 (szbfat + (SS - 1)) / SS), f).

Section ops.
Context {D : Type} `{BlockDevice D}.

Definition check_fs (sect : Z) : ST (vol D) Z :=
  upd (λ f, set_winsect (u32 (0 - 1)) (set_wflag 0 f)) ;!
  let! res := move_window sect in
  if negb (fr_ok res) then sret 4 else
  let! f := fs in
  sret (check_vbr (win f)).

(** The loop of [find_volume] over the partitions left to try. *)
Fixpoint find_part (pts : list Z) (fmt : Z) : ST (vol D) Z :=
  match pts with
  | [] => sret fmt
  | pt :: pts =>
      let! fmt := (if negb (pt =? 0) then check_fs pt else sret 3) in
      if 2 <=? fmt then find_part pts fmt else sret fmt
  end.

(** [find_volume(fs, 0)]: LD2PT is 0 without FF_MULTI_PARTITION. *)
Definition find_volume : ST (vol D) Z :=
  let! fmt := check_fs 0 in
  if negb (fmt =? 2) then sret fmt else
  let! f := fs in
  find_part ((λ i, ld_dword (win f) (MBR_Table + i * SZ_PTE + PTE_StLba)) <$> [0; 1; 2; 3]) fmt.

(** Lines 3567-3586. *)
Definition load_fsinfo (w : list Z) (bsect : Z) : ST (vol D) unit :=
  upd (λ f, set_fsi_flag 0x80 (set_last_clst 0xFFFFFFFF (set_free_clst 0xFFFFFFFF f))) ;!
  if ld_word w BPB_FSInfo32 =? 1 then
    let! res := move_window (u32 (bsect + 1)) in
    if fr_ok res then
      upd (set_fsi_flag 0) ;!
      let! f := fs in
      let w := win f in
      if (ld_word w BS_55AA =? 0xAA55) && (ld_dword w FSI_LeadSig =? 0x41615252)
         && (ld_dword w FSI_StrucSig =? 0x61417272)
      then upd (λ f, set_last_clst (ld_dword w FSI_Nxt_Free)
                       (set_free_clst (ld_dword w FSI_Free_Count) f))
      else sret tt
    else sret tt
  else sret tt.

(** Lines 3397-3605: mount the volume. *)
Definition mount_new (ldn mode : Z) : ST (vol D) FRESULT :=
  upd (λ f, set_pdrv (u8 ldn) (set_fs_type 0 f)) ;!
  let! v := sget in
  let '(stat, d) := disk_initialize (pdrv (vfs v)) (vdev v) in
  supd (set_vdev d) ;!
  if zbits stat STA_NOINIT then sret FR_NOT_READY
  else if ztrue mode && zbits stat STA_PROTECT then sret FR_WRITE_PROTECTED
  else
    let! fmt := find_volume in
    if fmt =? 4 then sret FR_DISK_ERR
    else if 2 <=? fmt then sret FR_NO_FILESYSTEM
    else
      let! f := fs in
      let bsect := winsect f in
      let w := win f in
      let '(ok, f) := init_fatfs w bsect f in
      upd (λ _, f) ;!
      if negb ok then sret FR_NO_FILESYSTEM else
      load_fsinfo w bsect ;!
      upd (set_fs_type FS_FAT32) ;!
      supd (λ v, set_Fsid (u16 (Fsid v + 1)) v) ;!
      supd (λ v, set_vfs (set_fs_id (Fsid v) (vfs v)) v) ;!
      sret FR_OK.

(** [mount_volume]: the result and the path behind the drive prefix. *)
Definition mount_volume (path : list Z) (mode : Z) : ST (vol D) (FRESULT * list Z) :=
  let '(ldn, path) := get_ldnumber path in
  if ldn <? 0 then sret (FR_INVALID_DRIVE, path) else
  let! v := sget in
  if negb (FatFs v) then sret (FR_NOT_ENABLED, path) else
  let mode := Z.land mode (Z.lnot FA_READ) in
  let stat := disk_status (pdrv (vfs v)) (vdev v) in
  if negb (fs_type (vfs v) =? 0) && negb (zbits stat STA_NOINIT) then
    sret (if ztrue mode && zbits stat STA_PROTECT then FR_WRITE_PROTECTED else FR_OK, path)
  else
    let! res := mount_new ldn mode in
    sret (res, path).

Definition validate (obj : FFOBJID) : ST (vol D) FRESULT :=
  let! v := sget in
  if obj_fs obj && negb (fs_type (vfs v) =? 0) && (obj_id obj =? fs_id (vfs v)) then
    if negb (zbits (disk_status (pdrv (vfs v)) (vdev v)) STA_NOINIT) then sret FR_OK
    else sret FR_INVALID_OBJECT
  else sret FR_INVALID_OBJECT.

(** [f_mount]; [fsp] tells whether the object pointer is not null.  The old
    object is not cleared (line 3674 resets its pointer first). *)
Definition f_mount (fsp : bool) (path : list Z) (opt : Z) : ST (vol D) FRESULT :=
  let '(ldn, _) := get_ldnumber path in
  if ldn <? 0 then sret FR_INVALID_DRIVE else
  (if fsp then upd (set_fs_type 0) else sret tt) ;!
  supd (set_FatFs fsp) ;!
  if opt =? 0 then sret FR_OK else
  let! (res, _) := mount_volume path 0 in
  sret res.

End ops.
