(* ===== verification/FfMountSpec.v ===== *)
(** Mounting establishes the invariant.

    [init_fatfs] decodes a boot sector; when it accepts one whose areas fit
    the device ([bpb_fits]) the decoded parameters satisfy [geom].
    [mount_new] then leaves a well-formed volume, with the medium unchanged,
    and an error leaves the object unmounted. *)
From Stdlib Require Import ZArith Lia.
From stdpp Require Import base list numbers option.
From S2P Require Import Prelude BlockDevice FfTypes FfWindow FfFat FfChain FfUnicode FfLfn FfDir FfName FfMount.

Local Open Scope Z_scope.
Local Open Scope st_scope.

(** * The boot sector *)

Definition bpb_fatsz (w : list Z) : Z :=
  if ld_word w BPB_FATSz16 =? 0 then ld_dword w BPB_FATSz32 else ld_word w BPB_FATSz16.
Definition bpb_totsec (w : list Z) : Z :=
  if ld_word w BPB_TotSec16 =? 0 then ld_dword w BPB_TotSec32 else ld_word w BPB_TotSec16.
(** Sectors in front of the data area; FAT32 has no root directory area. *)
Definition bpb_sysect (w : list Z) : Z :=
  ld_word w BPB_RsvdSecCnt + bpb_fatsz w * zget w BPB_NumFATs.
Definition bpb_nclst (w : list Z) : Z :=
  (bpb_totsec w - bpb_sysect w) / zget w BPB_SecPerClus.

(** What [init_fatfs] does not check: the system area is computed without
    overflow, the cluster count is one of FAT32, and the volume that starts
    at [bsect] lies on a device of [n] sectors. *)
Record bpb_fits (w : list Z) (bsect n : Z) : Prop := mkFits {
  bf_sysect : bpb_sysect w < 2 ^ 32;
  bf_nclst : bpb_nclst w <= MAX_FAT32;
  bf_end : bsect + bpb_totsec w <= n
}.

Lemma pow2_byte c :
  is_byte c → c ≠ 0 → Z.land c (c - 1) = 0 → c ∈ [1; 2; 4; 8; 16; 32; 64; 128].
Proof.
  intros Hc H0 Hl.
  assert (∀ x, 0 <= x < 0 + 256 →
    (λ x, (x =? 0) || negb (Z.land x (x - 1) =? 0)
          || bool_decide (x ∈ [1; 2; 4; 8; 16; 32; 64; 128])) x = true) as H
    by (apply seqZ_forall; by vm_compute).
  specialize (H c Hc). simpl in H. rewrite (proj2 (Z.eqb_neq c 0) H0), Hl in H.
  simpl in H. by apply bool_decide_eq_true_1 in H.
Qed.

Lemma init_fatfs_ok w bsect f f' n :
  init_fatfs w bsect f = (true, f') → bytes w → 0 <= bsect → n <= 2 ^ 32 - 1 →
  bpb_fits w bsect n →
  geom (set_fs_type FS_FAT32 f') n ∧
  fsize f' = bpb_fatsz w ∧ n_fats f' = zget w BPB_NumFATs ∧ csize f' = zget w BPB_SecPerClus ∧
  n_rootdir f' = 0 ∧ n_fatent f' = bpb_nclst w + 2 ∧ volbase f' = bsect ∧
  fatbase f' = bsect + ld_word w BPB_RsvdSecCnt ∧ database f' = bsect + bpb_sysect w ∧
  dirbase f' = ld_dword w BPB_RootClus32.
Proof.
  intros E Hb Hbs Hn [F1 F2 F3]. unfold init_fatfs in E. fold (bpb_fatsz w) (bpb_totsec w) in E.
  destruct (negb (ld_word w BPB_BytsPerSec =? SS)); [done|].
  set (f1 := set_n_fats _ _) in E. change (n_fats f1) with (zget w BPB_NumFATs) in E.
  destruct (negb (zget w BPB_NumFATs =? 1) && _) eqn:En; [done|].
  set (f2 := set_csize _ _) in E. change (csize f2) with (zget w BPB_SecPerClus) in E.
  destruct ((zget w BPB_SecPerClus =? 0) || _) eqn:Ec; [done|].
  set (f3 := set_n_rootdir _ _) in E. change (n_rootdir f3) with (ld_word w BPB_RootEntCnt) in E.
  destruct (ztrue (ld_word w BPB_RootEntCnt mod _)); [done|].
  destruct (ld_word w BPB_RsvdSecCnt =? 0) eqn:Er; [done|].
  set (sysect := u32 (ld_word w BPB_RsvdSecCnt + _ + _)) in E.
  destruct (bpb_totsec w <? sysect) eqn:Et; [done|].
  change (csize f3) with (zget w BPB_SecPerClus) in E.
  destruct ((bpb_totsec w - sysect) / _ =? 0) eqn:Ek; [done|].
  set (f4 := set_database _ _) in E. change (n_rootdir f4) with (ld_word w BPB_RootEntCnt) in E.
  destruct (negb (ld_word w BPB_FSVer32 =? 0)); [done|].
  destruct (negb (ld_word w BPB_RootEntCnt =? 0)) eqn:Eroot; [done|].
  set (f5 := set_dirbase _ _) in E. apply negb_false_iff in Eroot.
  apply orb_false_iff in Ec as [Ec1 Ec2]. unfold ztrue in Ec2. apply negb_false_iff in Ec2. zb.
  apply andb_false_iff in En. rewrite !negb_false_iff, !Z.eqb_eq in En.
  pose proof (ld_word_range w BPB_RsvdSecCnt Hb). pose proof (zget_byte w BPB_NumFATs Hb) as Hnf.
  pose proof (zget_byte w BPB_SecPerClus Hb) as Hcs. unfold is_byte in *.
  assert (0 <= bpb_fatsz w) as Hfz.
  { unfold bpb_fatsz. pose proof (ld_dword_range w BPB_FATSz32). pose proof (ld_word_range w BPB_FATSz16 Hb).
    destruct (ld_word w BPB_FATSz16 =? 0); lia. }
  assert (0 <= bpb_sysect w) by (unfold bpb_sysect; nia).
  assert (sysect = bpb_sysect w) as Hsys.
  { unfold sysect. rewrite Eroot, Z.div_0_l, Z.add_0_r by done. unfold bpb_sysect in *.
    rewrite (u32_small (bpb_fatsz w * _)) by nia. by rewrite u32_small by lia. }
  rewrite Hsys in Et, Ek. fold (bpb_nclst w) in *.
  assert (0 < bpb_nclst w) as Hk.
  { assert (0 <= bpb_nclst w); [apply Z.div_pos; lia|lia]. }
  assert (zget w BPB_SecPerClus * bpb_nclst w <= bpb_totsec w - bpb_sysect w) as Hdata
    by (apply Z.mul_div_le; lia).
  assert (ld_word w BPB_RsvdSecCnt <= bpb_sysect w) by (unfold bpb_sysect; nia).
  injection E as Efs Ef. apply negb_true_iff, Z.ltb_ge in Efs.
  assert (n_fatent f5 = bpb_nclst w + 2) as Enf.
  { unfold f5, f4. simpl. rewrite Hsys. fold (bpb_nclst w). apply u32_small. unfold MAX_FAT32 in F2. lia. }
  change (fsize f5) with (bpb_fatsz w) in Efs. rewrite Hsys in Efs. fold (bpb_nclst w) in Efs.
  unfold MAX_FAT32, SS in *. rewrite (u32_small (_ + 2)), (u32_small (_ * 4)), u32_small in Efs by lia.
  assert (4 * (bpb_nclst w + 2) <= bpb_fatsz w * 512) by (Z.div_mod_to_equations; lia).
  subst f'.
  assert (fatbase f5 = bsect + ld_word w BPB_RsvdSecCnt) as Efb by (unfold f5, f4; simpl; rewrite ?Hsys; apply u32_small; nia).
  assert (database f5 = bsect + bpb_sysect w) as Edb by (unfold f5, f4; simpl; rewrite ?Hsys; apply u32_small; nia).
  split; [|split_and!; auto]. set (g := set_fs_type FS_FAT32 f5).
  assert (fs_type g = FS_FAT32 ∧ n_fats g = zget w BPB_NumFATs ∧ volbase g = bsect ∧
    csize g = zget w BPB_SecPerClus ∧ fsize g = bpb_fatsz w) as (G1&G2&G3&G4&G5) by done.
  change (fatbase f5) with (fatbase g) in Efb. change (database f5) with (database g) in Edb.
  change (n_fatent f5) with (n_fatent g) in Enf. clearbody g.
  split; rewrite ?G1, ?G2, ?G3, ?G4, ?G5, ?Efb, ?Edb, ?Enf; auto; try lia.
  - unfold bpb_sysect. lia.
  - unfold fat_limit. simpl. lia.
  - unfold fat_bytes, SS. simpl. lia.
  - by apply pow2_byte.
Qed.

Section inv.
Context {D : Type} {BD : BlockDevice D} {BL : BlockDeviceLaws D}.
Implicit Types v : vol D.

(** * Loading sectors while nothing is mounted *)

(** The window is not dirty. *)
Record clean v : Prop := mkClean {
  cl_flag : wflag (vfs v) = 0;
  cl_len : length (win (vfs v)) = 512%nat;
  cl_bytes : bytes (win (vfs v));
  cl_win : winsect (vfs v) = 2 ^ 32 - 1 ∨
    (0 <= winsect (vfs v) < sector_count (vdev v) ∧
     win (vfs v) = sector (vdev v) (winsect (vfs v)))
}.

(** Only the window moved. *)
Record still v v' : Prop := mkStill {
  st_count : sector_count (vdev v') = sector_count (vdev v);
  st_sector j : sector (vdev v') j = sector (vdev v) j;
  st_core : core (vfs v') = core (vfs v);
  st_lfn : LfnBuf v' = LfnBuf v;
  st_fsid : Fsid v' = Fsid v;
  st_reg : FatFs v' = FatFs v
}.

Lemma still_refl v : still v v.
Proof. done. Qed.

Lemma still_trans v1 v2 v3 : still v1 v2 → still v2 v3 → still v1 v3.
Proof. intros [A B C E F G] [A' B' C' E' F' G']. split; try congruence. Qed.

Lemma still_reliable v v' : still v v' → reliable v → reliable v'.
Proof.
  intros [_ _ Hc _ _ _] [HR Hp]. split; [done|].
  pose proof (core_fields _ _ Hc) as (_&E&_). by rewrite E.
Qed.

Lemma load_spec v s :
  clean v → 0 <= s < sector_count (vdev v) →
  ∃ r v', move_window s v = Some (r, v') ∧ clean v' ∧ still v v' ∧
    ((r = FR_OK ∧ winsect (vfs v') = s ∧ win (vfs v') = sector (vdev v) s) ∨
     (r = FR_DISK_ERR ∧ ¬ reliable v ∧ winsect (vfs v') = 2 ^ 32 - 1)).
Proof.
  intros Hcl Hs. pose proof Hcl as [Hf Hl Hb Hw]. unfold move_window.
  rewrite (sbind_run fs _ v _ v eq_refl). pose proof (sector_count_bound (vdev v)).
  destruct (Z.eqb_spec s (winsect (vfs v))) as [->|Hne].
  { exists FR_OK, v. split_and!; auto using still_refl. left. split_and!; auto.
    destruct Hw as [?|[_ ?]]; [lia|done]. }
  assert (sync_window v = Some (FR_OK, v)) as Es.
  { unfold sync_window, sbind, fs, sret. by rewrite Hf. }
  rewrite (sbind_run _ _ _ _ _ Es).
  destruct (dread_spec v s 1) as (dr & bs & d & E & Hc & Hsec & Hok & Hbl & Hbb & Hrel); [lia..|].
  rewrite (sbind_run _ _ _ _ _ E). cbv beta iota.
  destruct (decide (dr = RES_OK)) as [->|Hdr].
  - assert (bs = sector (vdev v) s) as ->.
    { rewrite Hok by done. simpl. by rewrite app_nil_r. }
    assert (zwrite (win (vfs v)) 0 (sector (vdev v) s) = sector (vdev v) s) as Hz
      by (apply zwrite_all; rewrite sector_length; lia).
    eexists FR_OK, _. split; [done|]. unfold set_vfs, set_vdev. simpl. rewrite Hz.
    split_and!; [|split; simpl; auto|by left].
    split; simpl; auto; [apply sector_length|].
    right. split; [by rewrite Hc|by rewrite Hsec].
  - eexists FR_DISK_ERR, _. split; [by destruct dr|]. split_and!; [|split; simpl; auto|].
    + split; simpl; auto; [by rewrite zwrite_length|by apply zwrite_bytes].
    + right. split_and!; [done| |done]. intros HR. by apply Hdr, Hrel.
Qed.

Lemma check_vbr_range w : check_vbr w = 0 ∨ check_vbr w = 2 ∨ check_vbr w = 3.
Proof.
  unfold check_vbr. set (other := if ld_word w BS_55AA =? 0xAA55 then 2 else 3).
  assert (other = 2 ∨ other = 3) by (subst other; destruct (_ =? 0xAA55); auto).
  clearbody other. repeat match goal with |- context [if ?b then _ else _] => destruct b end; lia.
Qed.

(** What [check_fs] answers on sector [s], now in the window. *)
Definition checked v (s r : Z) v' : Prop :=
  r = check_vbr (sector (vdev v) s) ∧ winsect (vfs v') = s ∧ win (vfs v') = sector (vdev v) s.

Lemma check_fs_spec v s :
  length (win (vfs v)) = 512%nat → bytes (win (vfs v)) → 0 <= s < sector_count (vdev v) →
  ∃ r v', check_fs s v = Some (r, v') ∧ clean v' ∧ still v v' ∧
    ((r = 4 ∧ ¬ reliable v) ∨ checked v s r v').
Proof.
  intros Hl Hb Hs. unfold check_fs.
  set (v1 := set_vfs (set_winsect (u32 (0 - 1)) (set_wflag 0 (vfs v))) v).
  rewrite (sbind_run (upd _) _ v tt v1 eq_refl).
  assert (clean v1) as Hc1 by (split; simpl; auto).
  destruct (load_spec v1 s Hc1 Hs) as (r & v2 & E & Hc2 & [A1 A2 A3 A4 A5 A6] & Hr).
  rewrite (sbind_run _ _ _ _ _ E).
  assert (still v v2) as Hst by (by split).
  destruct Hr as [(->&Hw1&Hw2)|(->&Hn&_)]; simpl.
  - eexists _, v2. split; [done|]. split_and!; auto. right. split_and!; auto. by rewrite Hw2.
  - eexists _, v2. split; [done|]. by split_and!; auto.
Qed.

Lemma clean_len v : clean v → length (win (vfs v)) = 512%nat ∧ bytes (win (vfs v)).
Proof. by intros []. Qed.

(** The boot sector that was found. *)
Definition found v (r : Z) v' : Prop :=
  (r = 0 ∨ 2 <= r) ∧
  (r = 0 → 0 <= winsect (vfs v') < sector_count (vdev v) ∧
     win (vfs v') = sector (vdev v) (winsect (vfs v')) ∧ check_vbr (win (vfs v')) = 0).

Lemma checked_found v s r v' :
  0 <= s < sector_count (vdev v) → (r = 4 ∧ ¬ reliable v) ∨ checked v s r v' → found v r v'.
Proof.
  intros Hs [[-> _]|(->&E1&E2)]; [split; [by right|done]|].
  pose proof (check_vbr_range (sector (vdev v) s)). split; [lia|].
  intros Hz. by rewrite E1, E2.
Qed.

Lemma found_still v v1 r v' : still v v1 → found v1 r v' → found v r v'.
Proof.
  intros [A1 A2 _ _ _ _] [H1 H2]. split; [done|]. intros Hr. destruct (H2 Hr) as (?&?&?).
  by rewrite <- A1, <- A2.
Qed.

Lemma find_part_spec pts v fmt :
  length (win (vfs v)) = 512%nat → bytes (win (vfs v)) → clean v → 2 <= fmt →
  Forall (λ s, 0 <= s < sector_count (vdev v)) pts →
  ∃ r v', find_part pts fmt v = Some (r, v') ∧ clean v' ∧ still v v' ∧ found v r v'.
Proof.
  revert v fmt. induction pts as [|pt pts IH]; intros v fmt Hl Hb Hc Hf Hp; cbn [find_part].
  { exists fmt, v. split_and!; auto using still_refl. split; [by right|lia]. }
  apply Forall_cons_1 in Hp as [Hpt Hp].
  assert (∃ r v1, (if negb (pt =? 0) then check_fs pt else sret 3) v = Some (r, v1) ∧
    clean v1 ∧ still v v1 ∧ found v r v1) as (r & v1 & E & Hc1 & Hst & Hfd).
  { destruct (pt =? 0); simpl.
    - exists 3, v. split_and!; auto using still_refl. split; [by right|done].
    - destruct (check_fs_spec v pt Hl Hb Hpt) as (r & v1 & E & ? & ? & ?).
      exists r, v1. split_and!; auto. by eapply checked_found. }
  rewrite (sbind_run _ _ _ _ _ E). destruct (Z.leb_spec 2 r).
  - destruct (clean_len v1 Hc1). destruct (IH v1 r) as (r' & v' & E' & ? & ? & ?); auto.
    { eapply Forall_impl; [|done]. intros s. by rewrite (st_count _ _ Hst). }
    exists r', v'. split_and!; eauto using still_trans, found_still.
  - exists r, v1. by split_and!.
Qed.

Definition mbr_entries (w : list Z) : list Z :=
  (λ i, ld_dword w (MBR_Table + i * SZ_PTE + PTE_StLba)) <$> [0; 1; 2; 3].

(** A sector 0 that is not a boot sector of FAT is a partition table whose
    entries point into the device. *)
Definition mbr_ok v : Prop :=
  0 < sector_count (vdev v) ∧
  (check_vbr (sector (vdev v) 0) = 2 →
   Forall (λ s, s < sector_count (vdev v)) (mbr_entries (sector (vdev v) 0))).

Lemma find_volume_spec v :
  length (win (vfs v)) = 512%nat → bytes (win (vfs v)) → mbr_ok v →
  ∃ r v', find_volume v = Some (r, v') ∧ clean v' ∧ still v v' ∧ found v r v' ∧
    (reliable v → check_vbr (sector (vdev v) 0) = 0 → r = 0 ∧ winsect (vfs v') = 0).
Proof.
  intros Hl Hb [H0 Hm]. unfold find_volume.
  destruct (check_fs_spec v 0 Hl Hb ltac:(lia)) as (r & v1 & E & Hc & Hst & Hr).
  rewrite (sbind_run _ _ _ _ _ E). destruct (Z.eqb_spec r 2) as [->|Hne]; simpl.
  - destruct Hr as [[? _]|(Er&Ew&Ewin)]; [done|].
    rewrite (sbind_run fs _ v1 _ v1 eq_refl). rewrite Ewin. destruct (clean_len v1 Hc).
    destruct (find_part_spec (mbr_entries (sector (vdev v) 0)) v1 2) as (r & v' & E' & ? & ? & ?); auto; [lia| |].
    { rewrite (st_count _ _ Hst).
      assert (Forall (λ s, 0 <= s) (mbr_entries (sector (vdev v) 0))) as Hpos.
      { unfold mbr_entries. apply Forall_fmap, Forall_true. intros i. simpl. by apply ld_dword_range. }
      eapply Forall_impl; [|apply Forall_and; [exact Hpos|apply Hm; by symmetry]]. done. }
    exists r, v'. split_and!; eauto using still_trans, found_still. congruence.
  - exists r, v1. do 3 (split; [done|]). split; [by apply (checked_found v 0); [lia|]|]. intros HR Hz.
    destruct Hr as [[_ ?]|(Er&Ew&_)]; [done|]. by rewrite Er, Ew.
Qed.

(** * [mount_new] *)

(** Every FAT boot sector on the medium describes a volume that fits it. *)
Definition volumes_fit v : Prop :=
  ∀ s, 0 <= s < sector_count (vdev v) → check_vbr (sector (vdev v) s) = 0 →
       bpb_fits (sector (vdev v) s) s (sector_count (vdev v)).

Lemma geo_counts a b c f : geo (set_fsi_flag a (set_last_clst b (set_free_clst c f))) = geo f.
Proof. by destruct f. Qed.

Lemma load_fsinfo_spec v w bsect :
  clean v → 0 <= bsect → bsect + 1 < sector_count (vdev v) →
  ∃ v', load_fsinfo w bsect v = Some (tt, v') ∧ clean v' ∧
    sector_count (vdev v') = sector_count (vdev v) ∧ (∀ j, sector (vdev v') j = sector (vdev v) j) ∧
    geo (vfs v') = geo (vfs v) ∧ LfnBuf v' = LfnBuf v ∧ Fsid v' = Fsid v ∧ FatFs v' = FatFs v ∧
    (winsect (vfs v') = winsect (vfs v) ∨ winsect (vfs v') = bsect + 1 ∨ winsect (vfs v') = 2 ^ 32 - 1) ∧
    0 <= last_clst (vfs v') < 2 ^ 32 ∧ 0 <= free_clst (vfs v') < 2 ^ 32.
Proof.
  intros Hc Hb Hn. unfold load_fsinfo.
  set (v1 := set_vfs (set_fsi_flag 0x80 (set_last_clst 0xFFFFFFFF (set_free_clst 0xFFFFFFFF (vfs v)))) v).
  rewrite (sbind_run (upd _) _ v tt v1 eq_refl).
  assert (clean v1) as Hc1 by (by destruct Hc).
  destruct (ld_word w BPB_FSInfo32 =? 1).
  2:{ exists v1. by split_and!; auto. }
  pose proof (sector_count_bound (vdev v)). rewrite u32_small by lia.
  destruct (load_spec v1 (bsect + 1) Hc1) as (r & v2 & E & Hc2 & [A1 A2 A3 A4 A5 A6] & Hr); [simpl; lia|].
  rewrite (sbind_run _ _ _ _ _ E). pose proof (core_fields _ _ A3) as (_&_&_&_&_&_&_&B1&B2&_).
  destruct Hr as [(->&Hw1&Hw2)|(->&Hrel&Hw)]; simpl.
  - set (v3 := set_vfs (set_fsi_flag 0 (vfs v2)) v2).
    rewrite (sbind_run (upd _) _ v2 tt v3 eq_refl), (sbind_run fs _ v3 _ v3 eq_refl).
    assert (clean v3) as Hc3 by (by destruct Hc2).
    assert (geo (vfs v3) = geo (vfs v)) as Hg.
    { transitivity (geo (vfs v2)); [done|]. transitivity (geo (vfs v1)); [by apply core_geo|apply geo_counts]. }
    destruct (_ && _ && _).
    + eexists. split; [done|]. split; [by destruct Hc3|].
      split_and!; auto; apply ld_dword_range.
    + exists v3. split_and!; auto; simpl in *; lia.
  - exists v2. split_and!; auto; simpl in *; try lia.
    + transitivity (geo (vfs v1)); [by apply core_geo|apply geo_counts].
Qed.

(** The volume of boot sector [w = sector volbase] is mounted. *)
Record mounted v v' : Prop := mkMounted {
  mo_wf : wf v';
  mo_flag : wflag (vfs v') = 0;
  mo_type : fs_type (vfs v') = FS_FAT32;
  mo_boot : check_vbr (sector (vdev v) (volbase (vfs v'))) = 0;
  mo_fsize : fsize (vfs v') = bpb_fatsz (sector (vdev v) (volbase (vfs v')));
  mo_nfatent : n_fatent (vfs v') = bpb_nclst (sector (vdev v) (volbase (vfs v'))) + 2;
  mo_dirbase : dirbase (vfs v') = ld_dword (sector (vdev v) (volbase (vfs v'))) BPB_RootClus32;
  mo_last : 0 <= last_clst (vfs v') < 2 ^ 32;
  mo_id : fs_id (vfs v') = u16 (Fsid v + 1) ∧ Fsid v' = u16 (Fsid v + 1)
}.

Lemma init_fatfs_frame w b f ok f' :
  init_fatfs w b f = (ok, f') →
  fs_type f' = fs_type f ∧ pdrv f' = pdrv f ∧ wflag f' = wflag f ∧ winsect f' = winsect f ∧
  win f' = win f.
Proof.
  unfold init_fatfs. intros E.
  repeat match type of E with (if ?b then _ else _) = _ => destruct b; [by injection E as <- <-|] end.
  by injection E as <- <-.
Qed.

Lemma mounted_ok v v3 f w :
  clean v3 → 0 <= winsect (vfs v3) < sector_count (vdev v3) → w = sector (vdev v3) (winsect (vfs v3)) →
  win (vfs v3) = w → bpb_fits w (winsect (vfs v3)) (sector_count (vdev v3)) →
  init_fatfs w (winsect (vfs v3)) (vfs v3) = (true, f) →
  check_vbr w = 0 → Fsid v3 = Fsid v → (∀ j, sector (vdev v3) j = sector (vdev v) j) →
  ∃ v5, load_fsinfo w (winsect (vfs v3)) (set_vfs f v3) = Some (tt, v5) ∧
  let v6 := set_vfs (set_fs_type FS_FAT32 (vfs v5)) v5 in
  let v7 := set_Fsid (u16 (Fsid v6 + 1)) v6 in
  let v8 := set_vfs (set_fs_id (Fsid v7) (vfs v7)) v7 in
  mounted v v8 ∧ sector_count (vdev v8) = sector_count (vdev v3) ∧
  (∀ j, sector (vdev v8) j = sector (vdev v3) j) ∧ LfnBuf v8 = LfnBuf v3 ∧ FatFs v8 = FatFs v3 ∧
  pdrv (vfs v8) = pdrv (vfs v3) ∧ volbase (vfs v8) = winsect (vfs v3).
Proof.
  intros Hc Hb Hw Hwin Hfit Ei Hv Hid Hsec.
  pose proof (init_fatfs_frame _ _ _ _ _ Ei) as (I1&I2&I3&I4&I5).
  destruct (init_fatfs_ok w (winsect (vfs v3)) (vfs v3) f (sector_count (vdev v3)))
    as (G & J1 & J2 & J3 & J4 & J5 & J6 & J7 & J8 & J9); auto.
  { rewrite Hw. apply sector_bytes. } { lia. } { apply sector_count_bound. }
  assert (clean (set_vfs f v3)) as Hc4.
  { destruct Hc as [C1 C2 C3 C4]. split; simpl; rewrite ?I3, ?I4, ?I5; auto. }
  assert (0 < csize f * (n_fatent f - 2)) as Hdata by (destruct G as [? ? ? ? ? ? G7 G8 ? ? ?]; simpl in *; nia).
  destruct G as [G1 G2 G3 G4 G5 G6 G7 G8 G9 G10 G11]. simpl in *.
  assert (0 < n_fats f * fsize f) by (destruct G2; nia).
  destruct (load_fsinfo_spec (set_vfs f v3) w (winsect (vfs v3)) Hc4)
    as (v5 & E5 & Hc5 & K1 & K2 & K3 & K4 & K5 & K6 & K7 & K8 & K9); [lia|simpl; lia|].
  exists v5. split; [done|]. cbv zeta. simpl in *.
  pose proof (geo_fields _ _ K3) as (L1&L2&L3&L4&L5&L6&L7&L8&L9&L10&L11&L12). clear Ei K3.
  split; [|split_and!; simpl; congruence].
  split; simpl; try done; rewrite ?L9, ?J6, <- ?Hsec, <- ?Hw; auto; try congruence; try apply Hc5.
  2:{ by rewrite K5, Hid. }
  split; try apply Hc5.
  - split; simpl; rewrite ?L3, ?L6, ?L7, ?L8, ?L9, ?L10, ?L12, ?K1; auto.
  - unfold win_ok, vis, in_fat2. simpl. rewrite L3, L8, L10, K1.
    destruct Hc5 as [C1 C2 C3 C4]. rewrite K1 in C4. destruct C4 as [?|[C4 C5]]; [by left|right].
    split; [|done]. split; [done|]. intros [_ ?]. pose proof (sector_count_bound (vdev v3)). rewrite I4 in K7. lia.
Qed.

Lemma init_fatfs_indep w b f f' : (init_fatfs w b f).1 = (init_fatfs w b f').1.
Proof.
  unfold init_fatfs.
  repeat match goal with
    |- (if ?b then _ else _).1 = (if ?b' then _ else _).1 => change b' with b; destruct b; [done|]
  end.
  done.
Qed.

Lemma still_type v v' : still v v' → fs_type (vfs v') = fs_type (vfs v) ∧ pdrv (vfs v') = pdrv (vfs v).
Proof. intros [_ _ Hc _ _ _]. pose proof (core_fields _ _ Hc) as (E1&E2&_). done. Qed.

Lemma mount_new_spec v ldn mode :
  length (win (vfs v)) = 512%nat → bytes (win (vfs v)) → mbr_ok v → volumes_fit v →
  ∃ r v', mount_new ldn mode v = Some (r, v') ∧
    sector_count (vdev v') = sector_count (vdev v) ∧ (∀ j, sector (vdev v') j = sector (vdev v) j) ∧
    LfnBuf v' = LfnBuf v ∧ FatFs v' = FatFs v ∧
    (r = FR_OK → mounted v v' ∧ pdrv (vfs v') = u8 ldn) ∧
    (r ≠ FR_OK → fs_type (vfs v') = 0) ∧
    (ReliableDevice D → ldn = 0 → check_vbr (sector (vdev v) 0) = 0 →
     (init_fatfs (sector (vdev v) 0) 0 (vfs v)).1 = true → r = FR_OK ∧ volbase (vfs v') = 0).
Proof.
  intros Hl Hb [M0 Mp] Hfit. unfold mount_new.
  set (v1 := set_vfs (set_pdrv (u8 ldn) (set_fs_type 0 (vfs v))) v).
  rewrite (sbind_run (upd _) _ v tt v1 eq_refl), (sbind_run sget _ v1 _ v1 eq_refl).
  change (pdrv (vfs v1)) with (u8 ldn). change (vdev v1) with (vdev v).
  destruct (disk_initialize (u8 ldn) (vdev v)) as [stat d] eqn:Ed.
  destruct (disk_initialize_spec _ _ _ _ Ed) as [Dc Ds].
  rewrite (sbind_run (supd _) _ v1 tt (set_vdev d v1) eq_refl). set (v2 := set_vdev d v1).
  assert (ReliableDevice D → ldn = 0 → stat = 0) as Hst.
  { intros HR ->. pose proof (disk_initialize_ok (vdev v)) as Hi. change (u8 0) with 0 in Ed.
    by rewrite Ed in Hi. }
  destruct (zbits stat STA_NOINIT) eqn:Es1.
  { exists FR_NOT_READY, v2. do 5 (split; [done|]). split; [done|]. split; [done|].
    intros HR Hz. by rewrite (Hst HR Hz) in Es1. }
  destruct (ztrue mode && zbits stat STA_PROTECT) eqn:Es2.
  { exists FR_WRITE_PROTECTED, v2. do 5 (split; [done|]). split; [done|]. split; [done|].
    intros HR Hz. rewrite (Hst HR Hz) in Es2. by rewrite andb_false_r in Es2. }
  destruct (find_volume_spec v2 Hl Hb) as (fmt & v3 & E3 & Hc3 & Hs3 & Hf3 & Hr3).
  { split; simpl; [by rewrite Dc|]. rewrite Ds, Dc. done. }
  pose proof (still_type _ _ Hs3) as [T1 T2]. destruct Hs3 as [S1 S2 S3 S4 S5 S6].
  assert (∀ j, sector (vdev v3) j = sector (vdev v) j) as S2' by (intros j; rewrite S2; apply Ds).
  assert (sector_count (vdev v3) = sector_count (vdev v)) as S1' by (by rewrite S1).
  assert (ReliableDevice D → ldn = 0 → check_vbr (sector (vdev v) 0) = 0 →
          fmt = 0 ∧ winsect (vfs v3) = 0) as Hr3'.
  { intros HR Hz Hv. subst ldn. rewrite <- Ds in Hv. by apply (Hr3 (conj HR eq_refl) Hv). }
  rewrite (sbind_run _ _ _ _ _ E3). destruct Hf3 as [F1 F2].
  destruct (Z.eqb_spec fmt 4) as [->|Hn4].
  { exists FR_DISK_ERR, v3. do 5 (split; [done|]). split; [done|]. split; [done|].
    intros HR Hz Hv. by destruct (Hr3' HR Hz Hv). }
  destruct (Z.leb_spec 2 fmt) as [Hge|Hlt].
  { exists FR_NO_FILESYSTEM, v3. do 5 (split; [done|]). split; [done|]. split; [done|].
    intros HR Hz Hv. destruct (Hr3' HR Hz Hv). lia. }
  destruct F2 as (W1 & W2 & W3); [lia|]. rewrite (sbind_run fs _ v3 _ v3 eq_refl).
  change (sector_count (vdev v2)) with (sector_count d) in W1. change (vdev v2) with d in W2.
  destruct (init_fatfs (win (vfs v3)) (winsect (vfs v3)) (vfs v3)) as [ok f] eqn:Ei.
  rewrite (sbind_run (upd _) _ v3 tt (set_vfs f v3) eq_refl).
  pose proof (init_fatfs_frame _ _ _ _ _ Ei) as (I1&_).
  destruct ok; cbn [negb].
  2:{ exists FR_NO_FILESYSTEM, (set_vfs f v3). do 5 (split; [done|]). split; [done|].
      split; [by intros _; simpl; rewrite I1, T1|]. intros HR Hz Hv Hi. exfalso.
      destruct (Hr3' HR Hz Hv) as [_ Hw]. rewrite W2, Hw, Ds in Ei.
      pose proof (init_fatfs_indep (sector (vdev v) 0) 0 (vfs v) (vfs v3)) as Hin.
      rewrite Ei, Hi in Hin. done. }
  assert (bpb_fits (win (vfs v3)) (winsect (vfs v3)) (sector_count (vdev v3))) as Hbf.
  { rewrite W2, Ds, S1'. apply Hfit; [lia|]. by rewrite <- Ds, <- W2. }
  destruct (mounted_ok v v3 f (win (vfs v3))) as (v5 & E5 & Hm & C1 & C2 & C3 & C4 & C5 & C6); auto.
  { lia. } { by rewrite W2, S2', Ds. }
  rewrite (sbind_run _ _ _ _ _ E5).
  eexists FR_OK, _. split; [done|]. split; [by rewrite C1|]. split; [intros j; by rewrite C2|].
  split; [by rewrite C3, S4|]. split; [by rewrite C4, S6|].
  split; [intros _; split; [done|by rewrite C5, T2]|]. split; [done|].
  intros HR Hz Hv _. destruct (Hr3' HR Hz Hv) as [_ Hw]. by rewrite C6.
Qed.

End inv.
