(* ===== verification/FfFile.v ===== *)
(** The file functions of ff.c: [f_open], [f_read], [f_write], [f_sync],
    [f_close], [f_lseek] and [f_truncate].

    A [FIL *fp] argument is the [FIL] value passed in and returned; data
    read is returned as the list of the bytes that [*br] counts.  The
    transfer loops move at least the rest of a sector a turn, which gives
    their fuel. *)
From Stdlib Require Import ZArith Lia.
From stdpp Require Import base list numbers option.
From S2P Require Import Prelude BlockDevice FfTypes FfWindow FfFat FfChain FfUnicode FfLfn FfDir FfName FfMount.

Local Open Scope Z_scope.
Local Open Scope st_scope.

(** File access mode and file status flags of ff.h/ff.c. *)
Definition FA_CREATE_NEW : Z := 0x04.
Definition FA_CREATE_ALWAYS : Z := 0x08.
Definition FA_OPEN_ALWAYS : Z := 0x10.
Definition FA_OPEN_APPEND : Z := 0x30.
Definition FA_SEEKEND : Z := 0x20.
Definition FA_MODIFIED : Z := 0x40.

(** [(BYTE)res] and [(FRESULT)fp->err]. *)
Definition fr_code (r : FRESULT) : Z :=
  match r with
  | FR_OK => 0 | FR_DISK_ERR => 1 | FR_INT_ERR => 2 | FR_NOT_READY => 3
  | FR_NO_FILE => 4 | FR_NO_PATH => 5 | FR_INVALID_NAME => 6 | FR_DENIED => 7
  | FR_EXIST => 8 | FR_INVALID_OBJECT => 9 | FR_WRITE_PROTECTED => 10
  | FR_INVALID_DRIVE => 11 | FR_NOT_ENABLED => 12 | FR_NO_FILESYSTEM => 13
  | FR_MKFS_ABORTED => 14 | FR_TIMEOUT => 15 | FR_LOCKED => 16
  | FR_NOT_ENOUGH_CORE => 17 | FR_TOO_MANY_OPEN_FILES => 18
  | FR_INVALID_PARAMETER => 19
  end.

Definition fr_of (e : Z) : FRESULT :=
  default FR_INVALID_PARAMETER
    ([FR_OK; FR_DISK_ERR; FR_INT_ERR; FR_NOT_READY; FR_NO_FILE; FR_NO_PATH;
      FR_INVALID_NAME; FR_DENIED; FR_EXIST; FR_INVALID_OBJECT; FR_WRITE_PROTECTED;
      FR_INVALID_DRIVE; FR_NOT_ENABLED; FR_NO_FILESYSTEM; FR_MKFS_ABORTED;
      FR_TIMEOUT; FR_LOCKED; FR_NOT_ENOUGH_CORE; FR_TOO_MANY_OPEN_FILES;
      FR_INVALID_PARAMETER] !! Z.to_nat e).

(** A local [DIR dj] with [dj.obj.fs = fs]; the rest is set before use. *)
Definition dir_local : DIR := mkDIR (mkFFOBJID true 0 0 0 0 0) 0 0 0 0 (replicate 12 0) 0.

(** [fp->obj.field = x] *)
Definition fp_sclust (x : Z) (fp : FIL) : FIL := set_fobj (set_sclust x (fobj fp)) fp.
Definition fp_objsize (x : Z) (fp : FIL) : FIL := set_fobj (set_objsize x (fobj fp)) fp.
Definition fp_modified (fp : FIL) : FIL := set_flag (Z.lor (flag fp) FA_MODIFIED) fp.
(** [ABORT(fs, res)] *)
Definition fp_abort (r : FRESULT) (fp : FIL) : FIL := set_err (fr_code r) fp.

Section ops.
Context {D : Type} `{BlockDevice D}.
(** [GET_FATTIME()]: the clock of diskio.c. *)
Context (fattime : Z).

(** Lines 3779-3796: reset the directory entry and drop its chain. *)
Definition open_truncate (dj : DIR) : ST (vol D) FRESULT :=
  let! f := fs in
  let cl := ld_clust f (win f) (ddir dj) in
  win_store (λ w,
    let w := st_dword w (ddir dj + DIR_CrtTime) fattime in
    let w := st_dword w (ddir dj + DIR_ModTime) fattime in
    let w := zset w (ddir dj + DIR_Attr) AM_ARC in
    let w := st_clust f w (ddir dj) 0 in
    st_dword w (ddir dj + DIR_FileSize) 0) ;!
  if negb (cl =? 0) then
    let! f := fs in
    let sc := winsect f in
    let! res := remove_chain cl 0 in
    if fr_ok res then
      let! res := move_window sc in
      upd (set_last_clst (u32 (cl - 1))) ;!
      sret res
    else sret res
  else sret FR_OK.

(** Lines 3740-3809: create the object or check the existing one; also
    the updated [mode]. *)
Definition open_or_create (dj : DIR) (mode : Z) (res : FRESULT) : ST (vol D) (FRESULT * DIR * Z) :=
  if zbits mode (Z.lor FA_CREATE_ALWAYS (Z.lor FA_OPEN_ALWAYS FA_CREATE_NEW)) then
    let! (res, dj, mode) :=
      (if negb (fr_ok res) then
         let! (res, dj) := match res with
                           | FR_NO_FILE => dir_register dj
                           | _ => sret (res, dj)
                           end in
         sret (res, dj, Z.lor mode FA_CREATE_ALWAYS)
       else
         sret (if zbits (attr (dobj dj)) (Z.lor AM_RDO AM_DIR) then FR_DENIED
               else if zbits mode FA_CREATE_NEW then FR_EXIST else FR_OK, dj, mode)) in
    if fr_ok res && zbits mode FA_CREATE_ALWAYS then
      let! res := open_truncate dj in sret (res, dj, mode)
    else sret (res, dj, mode)
  else if fr_ok res then
    sret (if zbits (attr (dobj dj)) AM_DIR then FR_NO_FILE
          else if zbits mode FA_WRITE && zbits (attr (dobj dj)) AM_RDO then FR_DENIED
          else FR_OK, dj, mode)
  else sret (res, dj, mode).

(** The loop of lines 3861-3865: the result, the cluster and [ofs]. *)
Fixpoint seekend_loop (fuel : nat) (bcs ofs clst : Z) (res : FRESULT) : ST (vol D) (FRESULT * Z * Z) :=
  match fuel with
  | O => sdiverge
  | S fuel =>
      if fr_ok res && (bcs <? ofs) then
        let! clst := get_fat clst in
        let res := if clst <=? 1 then FR_INT_ERR else res in
        let res := if clst =? 0xFFFFFFFF then FR_DISK_ERR else res in
        seekend_loop fuel bcs (ofs - bcs) clst res
      else sret (res, clst, ofs)
  end.

(** Lines 3857-3877: seek to the end of the file. *)
Definition open_seekend (fp : FIL) : ST (vol D) (FRESULT * FIL) :=
  let! f := fs in
  let size := objsize (fobj fp) in
  let fp := set_fptr size fp in
  let bcs := u32 (csize f * SS) in
  let! (res, clst, ofs) :=
    seekend_loop (Z.to_nat (size / bcs + 2)) bcs size (sclust (fobj fp)) FR_OK in
  let fp := set_fclust clst fp in
  if fr_ok res && ztrue (ofs mod SS) then
    let sc := clst2sect f clst in
    if sc =? 0 then sret (FR_INT_ERR, fp)
    else sret (FR_OK, set_fsect (u32 (sc + ofs / SS)) fp)
  else sret (res, fp).

(** Lines 3810-3883: fill the file object. *)
Definition open_object (fp : FIL) (dj : DIR) (mode : Z) : ST (vol D) (FRESULT * FIL) :=
  let! f := fs in
  let mode := if zbits mode FA_CREATE_ALWAYS then Z.lor mode FA_MODIFIED else mode in
  let fp := set_dir_ptr (ddir dj) (set_dir_sect (winsect f) fp) in
  let fp := fp_sclust (ld_clust f (win f) (ddir dj)) fp in
  let fp := fp_objsize (ld_dword (win f) (ddir dj + DIR_FileSize)) fp in
  let fp := set_fobj (set_obj_fs true (set_obj_id (fs_id f) (fobj fp))) fp in
  let fp := set_fptr 0 (set_fsect 0 (set_err 0 (set_flag mode fp))) in
  if zbits mode FA_SEEKEND && (0 <? objsize (fobj fp)) then open_seekend fp
  else sret (FR_OK, fp).

Definition f_open (fp : FIL) (path : list Z) (mode : Z) : ST (vol D) (FRESULT * FIL) :=
  let invalid (fp : FIL) := set_fobj (set_obj_fs false (fobj fp)) fp in
  let mode := Z.land mode 0x3F in
  let! (res, path) := mount_volume path mode in
  if negb (fr_ok res) then sret (res, invalid fp) else
  let! (res, dj) := follow_path dir_local path in
  let res := if fr_ok res && zbits (zget (fn dj) NSFLAG) NS_NONAME
             then FR_INVALID_NAME else res in
  let! (res, dj, mode) := open_or_create dj mode res in
  let! (res, fp) := (if fr_ok res then open_object fp dj mode else sret (res, fp)) in
  sret (res, if fr_ok res then fp else invalid fp).

(** The check at the top of the file functions. *)
Definition fp_check (fp : FIL) : ST (vol D) FRESULT :=
  let! res := validate (fobj fp) in
  if negb (fr_ok res) then sret res else sret (fr_of (err fp)).

(** Lines 3924-3942: on a cluster boundary, the cluster of [fp->fptr]. *)
Definition read_cluster (fp : FIL) : ST (vol D) (FRESULT + FIL) :=
  let! clst := (if fptr fp =? 0 then sret (sclust (fobj fp)) else get_fat (fclust fp)) in
  if clst <? 2 then sret (inl FR_INT_ERR)
  else if clst =? 0xFFFFFFFF then sret (inl FR_DISK_ERR)
  else sret (inr (set_fclust clst fp)).

(** Lines 3951-3956: read [cc] whole sectors, the dirty window included. *)
Definition read_direct (sect cc : Z) : ST (vol D) (option (list Z)) :=
  let! (r, bs) := dread sect cc in
  let! f := fs in
  let k := u32 (winsect f - sect) in
  match r with
  | RES_OK =>
      sret (Some (if ztrue (wflag f) && (k <? cc) then zwrite bs (k * SS) (win f) else bs))
  | _ => sret None
  end.

(** Lines 3979-3983: the rest of the sector in the window. *)
Definition read_partial (fp : FIL) (btr : Z) : ST (vol D) (option (list Z)) :=
  let o := fptr fp mod SS in
  let rcnt := Z.min (SS - o) btr in
  let! res := move_window (fsect fp) in
  if negb (fr_ok res) then sret None else
  let! f := fs in
  sret (Some (zread (win f) o rcnt)).

(** One turn of the loop of [f_read]: an error, or the bytes it read. *)
Definition read_step (fp : FIL) (btr : Z) : ST (vol D) ((FRESULT + list Z) * FIL) :=
  let finish (fp : FIL) (r : option (list Z)) : ST (vol D) ((FRESULT + list Z) * FIL) :=
    sret (match r with Some bs => inr bs | None => inl FR_DISK_ERR end, fp) in
  let! f := fs in
  if fptr fp mod SS =? 0 then
    let csect := Z.land (fptr fp / SS) (csize f - 1) in
    let! r := (if csect =? 0 then read_cluster fp else sret (inr fp)) in
    match r with
    | inl e => sret (inl e, fp)
    | inr fp =>
        let sect := clst2sect f (fclust fp) in
        if sect =? 0 then sret (inl FR_INT_ERR, fp) else
        let sect := u32 (sect + csect) in
        let cc := btr / SS in
        if 0 <? cc then
          let cc := if csize f <? csect + cc then csize f - csect else cc in
          let! r := read_direct sect cc in finish fp r
        else
          let fp := set_fsect sect fp in
          let! r := read_partial fp btr in finish fp r
    end
  else let! r := read_partial fp btr in finish fp r.

Fixpoint read_loop (fuel : nat) (fp : FIL) (btr : Z) (acc : list Z)
    : ST (vol D) (FRESULT * list Z * FIL) :=
  match fuel with
  | O => sdiverge
  | S fuel =>
      if 0 <? btr then
        let! (r, fp) := read_step fp btr in
        match r with
        | inl e => sret (e, acc, fp_abort e fp)
        | inr bs =>
            read_loop fuel (set_fptr (u32 (fptr fp + zlen bs)) fp) (btr - zlen bs) (acc ++ bs)
        end
      else sret (FR_OK, acc, fp)
  end.

Definition f_read (fp : FIL) (btr : Z) : ST (vol D) (FRESULT * list Z * FIL) :=
  let! res := fp_check fp in
  if negb (fr_ok res) then sret (res, [], fp) else
  if negb (zbits (flag fp) FA_READ) then sret (FR_DENIED, [], fp) else
  let remain := u32 (objsize (fobj fp) - fptr fp) in
  let btr := if remain <? btr then remain else btr in
  read_loop (Z.to_nat (btr / SS + 3)) fp btr [].

(** Lines 4028-4049: the cluster to write to; [inl None] is "disk full". *)
Definition write_cluster (fp : FIL) : ST (vol D) (option FRESULT + FIL) :=
  let! clst := (if fptr fp =? 0 then
                  if sclust (fobj fp) =? 0 then create_chain 0 else sret (sclust (fobj fp))
                else create_chain (fclust fp)) in
  if clst =? 0 then sret (inl None)
  else if clst =? 1 then sret (inl (Some FR_INT_ERR))
  else if clst =? 0xFFFFFFFF then sret (inl (Some FR_DISK_ERR))
  else
    let fp := set_fclust clst fp in
    sret (inr (if sclust (fobj fp) =? 0 then fp_sclust clst fp else fp)).

(** Lines 4066-4072: write [cc] whole sectors of [wbuff] directly. *)
Definition write_direct (wbuff : list Z) (sect cc : Z) : ST (vol D) (option Z) :=
  let! r := dwrite (zread wbuff 0 (SS * cc)) sect cc in
  match r with
  | RES_OK =>
      upd (λ f, let k := u32 (winsect f - sect) in
                if k <? cc then set_wflag 0 (set_win (zread wbuff (k * SS) SS) f) else f) ;!
      sret (Some (SS * cc))
  | _ => sret None
  end.

(** Lines 4097-4102: into the window. *)
Definition write_partial (fp : FIL) (wbuff : list Z) (btw : Z) : ST (vol D) (option Z) :=
  let o := fptr fp mod SS in
  let wcnt := Z.min (SS - o) btw in
  let! res := move_window (fsect fp) in
  if negb (fr_ok res) then sret None else
  win_store (λ w, zwrite w o (zread wbuff 0 wcnt)) ;!
  sret (Some wcnt).

(** One turn of the loop of [f_write]: an error (nothing: disk full), or
    the number of bytes written. *)
Definition write_step (fp : FIL) (wbuff : list Z) (btw : Z)
    : ST (vol D) ((option FRESULT + Z) * FIL) :=
  let abort (e : FRESULT) (fp : FIL) : ST (vol D) ((option FRESULT + Z) * FIL) :=
    sret (inl (Some e), fp) in
  let finish (fp : FIL) (r : option Z) : ST (vol D) ((option FRESULT + Z) * FIL) :=
    sret (match r with Some n => inr n | None => inl (Some FR_DISK_ERR) end, fp) in
  let! f := fs in
  if fptr fp mod SS =? 0 then
    let csect := Z.land (fptr fp / SS) (csize f - 1) in
    let! r := (if csect =? 0 then write_cluster fp else sret (inr fp)) in
    match r with
    | inl e => sret (inl e, fp)
    | inr fp =>
        let! f := fs in
        let! res := (if winsect f =? fsect fp then sync_window else sret FR_OK) in
        if negb (fr_ok res) then abort FR_DISK_ERR fp else
        let sect := clst2sect f (fclust fp) in
        if sect =? 0 then abort FR_INT_ERR fp else
        let sect := u32 (sect + csect) in
        let cc := btw / SS in
        if 0 <? cc then
          let cc := if csize f <? csect + cc then csize f - csect else cc in
          let! r := write_direct wbuff sect cc in finish fp r
        else
          let! res := (if objsize (fobj fp) <=? fptr fp then
                         let! res := sync_window in
                         if negb (fr_ok res) then sret res
                         else upd (set_winsect sect) ;! sret FR_OK
                       else sret FR_OK) in
          if negb (fr_ok res) then abort FR_DISK_ERR fp else
          let fp := set_fsect sect fp in
          let! r := write_partial fp wbuff btw in finish fp r
    end
  else let! r := write_partial fp wbuff btw in finish fp r.

(** The increments of the [for] loop. *)
Definition write_advance (fp : FIL) (wcnt : Z) : FIL :=
  let fp := set_fptr (u32 (fptr fp + wcnt)) fp in
  if objsize (fobj fp) <? fptr fp then fp_objsize (fptr fp) fp else fp.

(** The loop of [f_write]: the result and the number of bytes written. *)
Fixpoint write_loop (fuel : nat) (fp : FIL) (wbuff : list Z) (btw bw : Z)
    : ST (vol D) (FRESULT * Z * FIL) :=
  match fuel with
  | O => sdiverge
  | S fuel =>
      if 0 <? btw then
        let! (r, fp) := write_step fp wbuff btw in
        match r with
        | inl None => sret (FR_OK, bw, fp_modified fp)
        | inl (Some e) => sret (e, bw, fp_abort e fp)
        | inr wcnt =>
            write_loop fuel (write_advance fp wcnt) (drop (Z.to_nat wcnt) wbuff)
              (btw - wcnt) (bw + wcnt)
        end
      else sret (FR_OK, bw, fp_modified fp)
  end.

Definition f_write (fp : FIL) (buff : list Z) (btw : Z) : ST (vol D) (FRESULT * Z * FIL) :=
  let! res := fp_check fp in
  if negb (fr_ok res) then sret (res, 0, fp) else
  if negb (zbits (flag fp) FA_WRITE) then sret (FR_DENIED, 0, fp) else
  let btw := if u32 (fptr fp + btw) <? fptr fp then u32 (0xFFFFFFFF - fptr fp) else btw in
  write_loop (Z.to_nat (btw / SS + 3)) fp buff btw 0.

(** Lines 4176-4182: the directory entry of the file. *)
Definition sync_entry (f : FATFS) (fp : FIL) (w : list Z) : list Z :=
  let dir := dir_ptr fp in
  let w := zset w (dir + DIR_Attr) (Z.lor (zget w (dir + DIR_Attr)) AM_ARC) in
  let w := st_clust f w dir (sclust (fobj fp)) in
  let w := st_dword w (dir + DIR_FileSize) (objsize (fobj fp)) in
  let w := st_dword w (dir + DIR_ModTime) fattime in
  st_word w (dir + DIR_LstAccDate) 0.

Definition f_sync (fp : FIL) : ST (vol D) (FRESULT * FIL) :=
  let! res := validate (fobj fp) in
  if fr_ok res && zbits (flag fp) FA_MODIFIED then
    let! res := move_window (dir_sect fp) in
    if fr_ok res then
      let! f := fs in
      win_store (sync_entry f fp) ;!
      let! res := sync_fs in
      sret (res, set_flag (Z.land (flag fp) (Z.lnot FA_MODIFIED)) fp)
    else sret (res, fp)
  else sret (res, fp).

Definition f_close (fp : FIL) : ST (vol D) (FRESULT * FIL) :=
  let! (res, fp) := f_sync fp in
  if fr_ok res then
    let! res := validate (fobj fp) in
    sret (res, if fr_ok res then set_fobj (set_obj_fs false (fobj fp)) fp else fp)
  else sret (res, fp).

(** Lines 4524-4544: the cluster following loop of [f_lseek]; an abort, or
    the file object, the cluster and the offset left. *)
Fixpoint lseek_loop (fuel : nat) (fp : FIL) (bcs ofs clst : Z)
    : ST (vol D) ((FRESULT + Z * Z) * FIL) :=
  match fuel with
  | O => sdiverge
  | S fuel =>
      if bcs <? ofs then
        let ofs := ofs - bcs in
        let fp := set_fptr (u32 (fptr fp + bcs)) fp in
        let wr := zbits (flag fp) FA_WRITE in
        let! clst := (if wr then create_chain clst else get_fat clst) in
        if wr && (clst =? 0) then sret (inr (clst, 0), fp)
        else if clst =? 0xFFFFFFFF then sret (inl FR_DISK_ERR, fp)
        else
          let! f := fs in
          if (clst <=? 1) || (n_fatent f <=? clst) then sret (inl FR_INT_ERR, fp)
          else lseek_loop fuel (set_fclust clst fp) bcs ofs clst
      else sret (inr (clst, ofs), fp)
  end.

(** Lines 4506-4522: where the following of the chain starts: an abort, or
    the cluster and the offset from it. *)
Definition lseek_start (fp : FIL) (ifptr bcs ofs : Z) : ST (vol D) ((FRESULT + Z * Z) * FIL) :=
  if (0 <? ifptr) && ((ifptr - 1) / bcs <=? (ofs - 1) / bcs) then
    let p := Z.land (ifptr - 1) (u32 (Z.lnot (bcs - 1))) in
    sret (inr (fclust fp, ofs - p), set_fptr p fp)
  else
    let clst := sclust (fobj fp) in
    if clst =? 0 then
      let! clst := create_chain 0 in
      if clst =? 1 then sret (inl FR_INT_ERR, fp)
      else if clst =? 0xFFFFFFFF then sret (inl FR_DISK_ERR, fp)
      else sret (inr (clst, ofs), set_fclust clst (fp_sclust clst fp))
    else sret (inr (clst, ofs), set_fclust clst fp).

(** Lines 4504-4552: move the pointer; an abort, or [nsect]. *)
Definition lseek_follow (fp : FIL) (ifptr ofs : Z) : ST (vol D) ((FRESULT + Z) * FIL) :=
  if 0 <? ofs then
    let! f := fs in
    let bcs := u32 (csize f * SS) in
    let! (r, fp) := lseek_start fp ifptr bcs ofs in
    match r with
    | inl e => sret (inl e, fp)
    | inr (clst, ofs) =>
        if negb (clst =? 0) then
          let! (r, fp) := lseek_loop (Z.to_nat (ofs / bcs + 2)) fp bcs ofs clst in
          match r with
          | inl e => sret (inl e, fp)
          | inr (clst, ofs) =>
              let fp := set_fptr (u32 (fptr fp + ofs)) fp in
              if ztrue (ofs mod SS) then
                let nsect := clst2sect f clst in
                if nsect =? 0 then sret (inl FR_INT_ERR, fp)
                else sret (inr (u32 (nsect + ofs / SS)), fp)
              else sret (inr 0, fp)
          end
        else sret (inr 0, fp)
    end
  else sret (inr 0, fp).

Definition f_lseek (fp : FIL) (ofs : Z) : ST (vol D) (FRESULT * FIL) :=
  let! res := fp_check fp in
  if negb (fr_ok res) then sret (res, fp) else
  let ofs := if (objsize (fobj fp) <? ofs) && negb (zbits (flag fp) FA_WRITE)
             then objsize (fobj fp) else ofs in
  let ifptr := fptr fp in
  let! (r, fp) := lseek_follow (set_fptr 0 fp) ifptr ofs in
  match r with
  | inl e => sret (e, fp_abort e fp)
  | inr nsect =>
      let fp := if objsize (fobj fp) <? fptr fp
                then fp_modified (fp_objsize (fptr fp) fp) else fp in
      let fp := if ztrue (fptr fp mod SS) && negb (nsect =? fsect fp)
                then set_fsect nsect fp else fp in
      sret (FR_OK, fp)
  end.

Definition f_truncate (fp : FIL) : ST (vol D) (FRESULT * FIL) :=
  let! res := fp_check fp in
  if negb (fr_ok res) then sret (res, fp) else
  if negb (zbits (flag fp) FA_WRITE) then sret (FR_DENIED, fp) else
  if fptr fp <? objsize (fobj fp) then
    let! (res, fp) :=
      (if fptr fp =? 0 then
         let! res := remove_chain (sclust (fobj fp)) 0 in
         sret (res, fp_sclust 0 fp)
       else
         let! ncl := get_fat (fclust fp) in
         let res := if ncl =? 0xFFFFFFFF then FR_DISK_ERR else FR_OK in
         let res := if ncl =? 1 then FR_INT_ERR else res in
         let! f := fs in
         if fr_ok res && (ncl <? n_fatent f) then
           let! res := remove_chain ncl (fclust fp) in sret (res, fp)
         else sret (res, fp)) in
    let fp := fp_modified (fp_objsize (fptr fp) fp) in
    sret (res, if fr_ok res then fp else fp_abort res fp)
  else sret (FR_OK, fp).

End ops.
