(* ===== verification/FfApi.v ===== *)
(** The directory and volume functions of ff.c: [f_opendir],
    [f_closedir], [f_readdir], [f_stat], [f_getfree], [f_unlink],
    [f_mkdir] and [f_rename]. *)
From Stdlib Require Import ZArith Lia.
From stdpp Require Import base list numbers option.
From S2P Require Import Prelude BlockDevice FfTypes FfWindow FfFat FfChain FfUnicode FfLfn FfDir FfName FfMount FfFile.

Local Open Scope Z_scope.
Local Open Scope st_scope.

Section ops.
Context {D : Type} `{BlockDevice D}.
Context (fattime : Z).

Definition f_opendir (dp : DIR) (path : list Z) : ST (vol D) (FRESULT * DIR) :=
  let invalid (dp : DIR) := set_dobj (set_obj_fs false (dobj dp)) dp in
  let! (res, path) := mount_volume path 0 in
  if negb (fr_ok res) then sret (res, invalid dp) else
  let! (res, dp) := follow_path (set_dobj (set_obj_fs true (dobj dp)) dp) path in
  let! f := fs in
  let '(res, dp) :=
    if fr_ok res && negb (zbits (zget (fn dp) NSFLAG) NS_NONAME) then
      if zbits (attr (dobj dp)) AM_DIR
      then (FR_OK, set_dobj (set_sclust (ld_clust f (win f) (ddir dp)) (dobj dp)) dp)
      else (FR_NO_PATH, dp)
    else (res, dp) in
  let! (res, dp) :=
    (if fr_ok res then dir_sdi (set_dobj (set_obj_id (fs_id f) (dobj dp)) dp) 0
     else sret (res, dp)) in
  let res := match res with FR_NO_FILE => FR_NO_PATH | _ => res end in
  sret (res, if fr_ok res then dp else invalid dp).

Definition f_closedir (dp : DIR) : ST (vol D) (FRESULT * DIR) :=
  let! res := validate (dobj dp) in
  sret (res, if fr_ok res then set_dobj (set_obj_fs false (dobj dp)) dp else dp).

(** [f_readdir]; no [fno] is the null pointer that rewinds. *)
Definition f_readdir (dp : DIR) (fno : option FILINFO)
    : ST (vol D) (FRESULT * DIR * option FILINFO) :=
  let eot (r : FRESULT) := match r with FR_NO_FILE => FR_OK | _ => r end in
  let! res := validate (dobj dp) in
  if negb (fr_ok res) then sret (res, dp, fno) else
  match fno with
  | None => let! (res, dp) := dir_sdi dp 0 in sret (res, dp, fno)
  | Some info =>
      let! (res, dp) := dir_read dp 0 in
      if fr_ok (eot res) then
        let! v := sget in
        let info := get_fileinfo dp (win (vfs v)) (LfnBuf v) info in
        let! (res, dp) := dir_next dp false in
        sret (eot res, dp, Some info)
      else sret (res, dp, fno)
  end.

Definition f_stat (path : list Z) (fno : option FILINFO)
    : ST (vol D) (FRESULT * option FILINFO) :=
  let! (res, path) := mount_volume path 0 in
  if negb (fr_ok res) then sret (res, fno) else
  let! (res, dj) := follow_path dir_local path in
  if negb (fr_ok res) then sret (res, fno) else
  if zbits (zget (fn dj) NSFLAG) NS_NONAME then sret (FR_INVALID_NAME, fno) else
  let! v := sget in
  sret (FR_OK, (λ info, get_fileinfo dj (win (vfs v)) (LfnBuf v) info) <$> fno).

(** The FAT12 scan of [f_getfree], [k] clusters to go. *)
Fixpoint count12 (k : nat) (clst nfree : Z) : ST (vol D) (FRESULT * Z) :=
  match k with
  | O => sret (FR_OK, nfree)
  | S k =>
      let! stat := get_fat clst in
      if stat =? 0xFFFFFFFF then sret (FR_DISK_ERR, nfree)
      else if stat =? 1 then sret (FR_INT_ERR, nfree)
      else count12 k (clst + 1) (if stat =? 0 then nfree + 1 else nfree)
  end.

(** The FAT16/32 scan, [k] entries to go, at offset [i] of the sector
    before [sect]. *)
Fixpoint count32 (k : nat) (sect i nfree : Z) : ST (vol D) (FRESULT * Z) :=
  match k with
  | O => sret (FR_OK, nfree)
  | S k =>
      let! (res, sect) :=
        (if i =? 0 then let! r := move_window sect in sret (r, u32 (sect + 1))
         else sret (FR_OK, sect)) in
      if negb (fr_ok res) then sret (res, nfree) else
      let! f := fs in
      let '(free, w) :=
        if fs_type f =? FS_FAT16 then (ld_word (win f) i =? 0, 2)
        else (Z.land (ld_dword (win f) i) 0x0FFFFFFF =? 0, 4) in
      count32 k sect ((i + w) mod SS) (if free then nfree + 1 else nfree)
  end.

(** [f_getfree]: the result and [*nclst], if it is stored. *)
Definition f_getfree (path : list Z) : ST (vol D) (FRESULT * option Z) :=
  let! (res, _) := mount_volume path 0 in
  if negb (fr_ok res) then sret (res, None) else
  let! f := fs in
  if free_clst f <=? u32 (n_fatent f - 2) then sret (FR_OK, Some (free_clst f)) else
  let! (res, nfree) :=
    (if fs_type f =? FS_FAT12 then count12 (Z.to_nat (n_fatent f - 2)) 2 0
     else count32 (Z.to_nat (n_fatent f)) (fatbase f) 0 0) in
  if negb (fr_ok res) then sret (res, None) else
  upd (λ f, set_fsi_flag (Z.lor (fsi_flag f) 1) (set_free_clst nfree f)) ;!
  sret (FR_OK, Some nfree).

(** Lines 4984-5009: the start cluster, when the object may go. *)
Definition unlink_check (dj : DIR) : ST (vol D) (FRESULT * Z) :=
  let! f := fs in
  let dclst := ld_clust f (win f) (ddir dj) in
  if zbits (attr (dobj dj)) AM_DIR then
    let sdj := set_dobj (set_sclust dclst (dobj dir_local)) dir_local in
    let! (res, sdj) := dir_sdi sdj 0 in
    if negb (fr_ok res) then sret (res, dclst) else
    let! (res, _) := dir_read sdj 0 in
    sret (match res with FR_OK => FR_DENIED | FR_NO_FILE => FR_OK | _ => res end, dclst)
  else sret (FR_OK, dclst).

Definition f_unlink (path : list Z) : ST (vol D) FRESULT :=
  let! (res, path) := mount_volume path FA_WRITE in
  if negb (fr_ok res) then sret res else
  let! (res, dj) := follow_path dir_local path in
  if negb (fr_ok res) then sret res else
  if zbits (zget (fn dj) NSFLAG) NS_NONAME then sret FR_INVALID_NAME
  else if zbits (attr (dobj dj)) AM_RDO then sret FR_DENIED
  else
    let! (res, dclst) := unlink_check dj in
    if negb (fr_ok res) then sret res else
    let! (res, dj) := dir_remove dj in
    let! res := (if fr_ok res && negb (dclst =? 0) then remove_chain dclst 0 else sret res) in
    if fr_ok res then sync_fs else sret res.

(** Lines 5069-5076: the dot entries in the cleared window. *)
Definition dot_entries (f : FATFS) (w : list Z) (dcl pcl : Z) : list Z :=
  let w := zwrite w DIR_Name (replicate 11 32) in
  let w := zset w DIR_Name 46 in
  let w := zset w DIR_Attr AM_DIR in
  let w := st_dword w DIR_ModTime fattime in
  let w := st_clust f w 0 dcl in
  let w := zwrite w SZDIRE (zread w 0 SZDIRE) in
  let w := zset w (SZDIRE + 1) 46 in
  st_clust f w SZDIRE pcl.

(** Lines 5059-5081: allocate, fill and register the new table. *)
Definition mkdir_table (dj : DIR) : ST (vol D) (FRESULT * DIR * Z) :=
  let! dcl := create_chain 0 in
  let res := if dcl =? 0 then FR_DENIED else if dcl =? 1 then FR_INT_ERR
             else if dcl =? 0xFFFFFFFF then FR_DISK_ERR else FR_OK in
  if negb (fr_ok res) then sret (res, dj, dcl) else
  let! res := dir_clear dcl in
  if negb (fr_ok res) then sret (res, dj, dcl) else
  let! f := fs in
  win_store (λ w, dot_entries f w dcl (sclust (dobj dj))) ;!
  let! (res, dj) := dir_register dj in
  sret (res, dj, dcl).

Definition f_mkdir (path : list Z) : ST (vol D) FRESULT :=
  let! (res, path) := mount_volume path FA_WRITE in
  if negb (fr_ok res) then sret res else
  let! (res, dj) := follow_path dir_local path in
  match res with
  | FR_OK => sret FR_EXIST
  | FR_NO_FILE =>
      let! (res, dj, dcl) := mkdir_table dj in
      if fr_ok res then
        let! f := fs in
        win_store (λ w,
          let w := st_dword w (ddir dj + DIR_ModTime) fattime in
          let w := st_clust f w (ddir dj) dcl in
          zset w (ddir dj + DIR_Attr) AM_DIR) ;!
        sync_fs
      else remove_chain dcl 0 ;! sret res
  | _ => sret res
  end.

(** Lines 5183-5185: the new entry takes over all but the name. *)
Definition rename_entry (dir : Z) (buf w : list Z) : list Z :=
  let w := zwrite w (dir + 13) (zread buf 13 (SZDIRE - 13)) in
  let a := zget buf DIR_Attr in
  zset w (dir + DIR_Attr) (if zbits a AM_DIR then a else Z.lor a AM_ARC).

(** Lines 5187-5200: the ".." entry of a directory that moved. *)
Definition rename_dotdot (djo djn : DIR) : ST (vol D) FRESULT :=
  let! f := fs in
  if zbits (zget (win f) (ddir djn + DIR_Attr)) AM_DIR
     && negb (sclust (dobj djo) =? sclust (dobj djn)) then
    let sect := clst2sect f (ld_clust f (win f) (ddir djn)) in
    if sect =? 0 then sret FR_INT_ERR else
    let! res := move_window sect in
    let! f := fs in
    (if fr_ok res && (zget (win f) (SZDIRE + 1) =? 46)
     then win_store (λ w, st_clust f w SZDIRE (sclust (dobj djn))) else sret tt) ;!
    sret res
  else sret FR_OK.

(** Lines 5173-5202. *)
Definition rename_new (djo : DIR) (path_new : list Z) : ST (vol D) FRESULT :=
  let! f := fs in
  let buf := zread (win f) (ddir djo) SZDIRE in
  let! (res, djn) := follow_path djo path_new in
  let res := if fr_ok res then
               if (sclust (dobj djn) =? sclust (dobj djo)) && (dptr djn =? dptr djo)
               then FR_NO_FILE else FR_EXIST
             else res in
  match res with
  | FR_NO_FILE =>
      let! (res, djn) := dir_register djn in
      if negb (fr_ok res) then sret res else
      win_store (rename_entry (ddir djn) buf) ;!
      rename_dotdot djo djn
  | _ => sret res
  end.

Definition f_rename (path_old path_new : list Z) : ST (vol D) FRESULT :=
  let '(_, path_new) := get_ldnumber path_new in
  let! (res, path_old) := mount_volume path_old FA_WRITE in
  if negb (fr_ok res) then sret res else
  let! (res, djo) := follow_path dir_local path_old in
  let res := if fr_ok res && zbits (zget (fn djo) NSFLAG) (Z.lor NS_DOT NS_NONAME)
             then FR_INVALID_NAME else res in
  if negb (fr_ok res) then sret res else
  let! res := rename_new djo path_new in
  if negb (fr_ok res) then sret res else
  let! (res, _) := dir_remove djo in
  if fr_ok res then sync_fs else sret res.

End ops.
