(* ===== verification/FfRead.v ===== *)
(** Reading files: [f_read] returns the bytes of the file.

    The abstract file is the chain [l] of clusters of the object and the
    byte [file_byte v l p] at each offset, a function of the [view] of the
    data area; [fil_ok] ties a [FIL] to it.  The theorems say that [f_read]
    returns exactly the bytes between the pointer and the requested end,
    whatever mix of direct transfers, dirty window and cluster boundaries
    the range meets, and changes nothing on the volume. *)
From Stdlib Require Import ZArith Lia.
From stdpp Require Import base list numbers option.
From S2P Require Import Prelude BlockDevice FfTypes FfWindow FfFat FfChain FfUnicode FfLfn FfDir FfName FfMount FfFile.

Local Open Scope Z_scope.
Local Open Scope st_scope.

(** * Offsets *)

Lemma land_csize x c :
  c ∈ [1; 2; 4; 8; 16; 32; 64; 128] → Z.land x (c - 1) = x mod c.
Proof.
  intros Hc. repeat (apply elem_of_cons in Hc as [->|Hc]); [..|by apply not_elem_of_nil in Hc].
  all: [> apply (Z.land_ones x 0) | apply (Z.land_ones x 1) | apply (Z.land_ones x 2)
        | apply (Z.land_ones x 3) | apply (Z.land_ones x 4) | apply (Z.land_ones x 5)
        | apply (Z.land_ones x 6) | apply (Z.land_ones x 7)]; lia.
Qed.

Lemma zget_concat (f : Z → list Z) s n i :
  (∀ j, s <= j < s + n → length (f j) = 512%nat) → 0 <= i < 512 * n →
  zget (concat (f <$> seqZ s n)) i = zget (f (s + i / 512)) (i mod 512).
Proof.
  intros Hl Hi. assert (0 <= n) by lia. revert s i Hl Hi.
  pattern n. apply natlike_ind; [|clear n H; intros n Hn IH|done].
  { intros s i _ Hi. lia. }
  intros s i Hl Hi. rewrite seqZ_cons by lia. simpl.
  rewrite Z.pred_succ. unfold zget at 1.
  pose proof (Hl s ltac:(lia)) as Hs. destruct (decide (i < 512)).
  - rewrite lookup_app_l by lia. rewrite Z.div_small, Z.mod_small, Z.add_0_r by lia. done.
  - rewrite lookup_app_r by lia. rewrite Hs.
    replace (Z.to_nat i - 512)%nat with (Z.to_nat (i - 512)) by lia.
    change (zget (concat (f <$> seqZ (Z.succ s) n)) (i - 512) = zget (f (s + i / 512)) (i mod 512)).
    rewrite IH by (try (intros; apply Hl); lia).
    replace i with (i - 512 + 1 * 512) at 3 4 by lia.
    rewrite Z.div_add, Z.mod_add by lia. f_equal. f_equal. lia.
Qed.

Lemma length_concat_512 (f : Z → list Z) s n :
  0 <= n → (∀ j, s <= j < s + n → length (f j) = 512%nat) →
  zlen (concat (f <$> seqZ s n)) = 512 * n.
Proof.
  intros Hn. revert s. pattern n. apply natlike_ind; [done| |done].
  clear n Hn. intros n Hn IH s Hl. rewrite seqZ_cons, Z.pred_succ by lia.
  change (concat (f <$> s :: seqZ (Z.succ s) n)) with (f s ++ concat (f <$> seqZ (Z.succ s) n)).
  assert (zlen (concat (f <$> seqZ (Z.succ s) n)) = 512 * n) as E by (apply IH; intros; apply Hl; lia).
  unfold zlen in *. rewrite length_app, (Hl s) by lia. lia.
Qed.

Section inv.
Context {D : Type} {BD : BlockDevice D} {BL : BlockDeviceLaws D}.
Implicit Types v : vol D.

(** * The abstract file *)

Definition bcs (f : FATFS) : Z := csize f * SS.

Definition pos_sect (f : FATFS) (l : list Z) (p : Z) : Z :=
  data_sect f (zget l (p / bcs f)) (p mod bcs f / SS).

Definition file_byte v (l : list Z) (p : Z) : Z :=
  zget (view v (pos_sect (vfs v) l p)) (p mod SS).

Definition file_bytes v (l : list Z) (p n : Z) : list Z := file_byte v l <$> seqZ p n.

Record fil_ok v (fp : FIL) (l : list Z) : Prop := mkFilOk {
  fo_chain : (l = [] ∧ sclust (fobj fp) = 0) ∨
             chain (fat_entry v) (n_fatent (vfs v)) (sclust (fobj fp)) l;
  fo_size : 0 <= objsize (fobj fp) < 2 ^ 32 ∧ objsize (fobj fp) <= bcs (vfs v) * zlen l;
  fo_ptr : 0 <= fptr fp <= objsize (fobj fp);
  fo_clust : 0 < fptr fp → fclust fp = zget l ((fptr fp - 1) / bcs (vfs v));
  fo_sect : fptr fp mod SS ≠ 0 → fsect fp = pos_sect (vfs v) l (fptr fp)
}.

Lemma chain_next (e : Z → Z) n c l k a b :
  chain e n c l → l !! k = Some a → l !! S k = Some b → e a = b.
Proof.
  intros Hch. revert k. induction Hch as [c ? ?|c l ? ? Hch IH]; intros k Ha Hb.
  - done.
  - destruct k as [|k]; simpl in *; [|by apply (IH k)].
    injection Ha as <-. inversion Hch; subst; by injection Hb as <-.
Qed.

Lemma zget_chain (e : Z → Z) n c l k :
  chain e n c l → 0 <= k < zlen l → 2 <= zget l k < n.
Proof.
  intros Hch Hk. unfold zget, zlen in *.
  destruct (l !! Z.to_nat k) as [x|] eqn:E; [|apply lookup_ge_None in E; lia].
  simpl. apply list_elem_of_lookup_2 in E. by apply (chain_valid _ _ _ _ _ Hch).
Qed.

Lemma zget_chain_next (e : Z → Z) n c l k :
  chain e n c l → 0 <= k → k + 1 < zlen l → e (zget l k) = zget l (k + 1).
Proof.
  intros Hch Hk Hk1. unfold zget, zlen in *.
  destruct (l !! Z.to_nat k) as [x|] eqn:E; [|apply lookup_ge_None in E; lia].
  destruct (l !! Z.to_nat (k + 1)) as [y|] eqn:E'; [|apply lookup_ge_None in E'; lia].
  simpl. apply (chain_next e n c l (Z.to_nat k)); [done..|].
  by replace (S (Z.to_nat k)) with (Z.to_nat (k + 1)) by lia.
Qed.

Lemma zget_chain_head (e : Z → Z) n c l : chain e n c l → zget l 0 = c.
Proof. by inversion 1. Qed.

Lemma bcs_pos v : wf v → 512 <= bcs (vfs v) <= 65536.
Proof. intros [G _ _ _]. pose proof (csize_range _ _ G). unfold bcs, SS. lia. Qed.

(** The position of an offset of the file in its chain. *)
Lemma pos_range v p :
  wf v → 0 <= p → 0 <= p mod bcs (vfs v) / SS < csize (vfs v).
Proof.
  intros Hwf Hp. pose proof (bcs_pos v Hwf) as Hb. unfold bcs, SS in *.
  pose proof (Z.mod_pos_bound p (csize (vfs v) * 512)).
  split; [apply Z.div_pos; lia|]. apply Z.div_lt_upper_bound; lia.
Qed.

Lemma pos_index v p (l : list Z) :
  wf v → 0 <= p < bcs (vfs v) * zlen l → 0 <= p / bcs (vfs v) < zlen l.
Proof.
  intros Hwf Hp. pose proof (bcs_pos v Hwf) as Hb.
  split; [apply Z.div_pos; lia|]. apply Z.div_lt_upper_bound; lia.
Qed.

Definition in_chain v (l : list Z) : Prop := ∀ k, 0 <= k < zlen l → valid_clst v (zget l k).

Lemma pos_sect_vis v l p :
  wf v → in_chain v l → 0 <= p < bcs (vfs v) * zlen l → vis v (pos_sect (vfs v) l p).
Proof.
  intros Hwf Hl Hp. unfold pos_sect. apply data_sect_vis; [done| |apply pos_range; [done|lia]].
  by apply Hl, pos_index.
Qed.

Lemma core_bcs f f' : core f = core f' → bcs f = bcs f'.
Proof. intros Hc. apply core_fields in Hc as (_&_&_&_&_&_&E&_). unfold bcs. by rewrite E. Qed.

Lemma core_pos_sect f f' l p : core f = core f' → pos_sect f l p = pos_sect f' l p.
Proof.
  intros Hc. unfold pos_sect, data_sect. rewrite (core_bcs _ _ Hc).
  apply core_fields in Hc as (_&_&_&_&_&_&E&_&_&_&_&_&_&_&E'). by rewrite E, E'.
Qed.

Lemma file_byte_veq v v' l p :
  wf v → veq v v' → in_chain v l → 0 <= p < bcs (vfs v) * zlen l →
  file_byte v l p = file_byte v' l p.
Proof.
  intros Hwf Hv Hl Hp. unfold file_byte.
  rewrite <- (core_pos_sect _ _ l p (veq_core _ _ Hv)), (veq_view _ _ Hv); [done|].
  by apply pos_sect_vis.
Qed.

Lemma fil_ok_in_chain v fp l : fil_ok v fp l → in_chain v l.
Proof.
  intros [[[-> _]|Hch] _ _ _ _] k Hk; [unfold zlen in Hk; simpl in Hk; lia|].
  by apply (zget_chain _ _ _ _ _ Hch).
Qed.

Lemma fil_ok_veq v v' fp l : wf v → veq v v' → fil_ok v fp l → fil_ok v' fp l.
Proof.
  intros Hwf Hv [Hch Hsz Hp Hc Hs]. pose proof (veq_core _ _ Hv) as Hco.
  pose proof (core_bcs _ _ Hco) as Eb.
  pose proof (core_fields _ _ Hco) as (_&_&_&_&_&_&_&_&_&En&_).
  split; rewrite <- ?Eb; auto.
  - destruct Hch as [?|Hch]; [by left|right]. rewrite <- En.
    eapply chain_ext; [|done]. intros x Hx. symmetry. apply fat_entry_veq; auto.
    by apply (chain_valid _ _ _ _ _ Hch).
  - intros Hm. rewrite <- (core_pos_sect _ _ l _ Hco). auto.
Qed.


(** * Transfers *)

Definition quiet v v' : Prop := wf v' ∧ veq v v' ∧ (mirror v → mirror v').

Lemma quiet_refl v : wf v → quiet v v.
Proof. intros. by split_and!. Qed.

Lemma quiet_trans v1 v2 v3 : quiet v1 v2 → quiet v2 v3 → quiet v1 v3.
Proof. intros (_&H1&M1) (?&H2&M2). split_and!; [done|by transitivity v2|auto]. Qed.

Lemma winsect_range v :
  wf v → 0 <= winsect (vfs v) < 2 ^ 32 ∧ (wflag (vfs v) ≠ 0 → vis v (winsect (vfs v))).
Proof.
  intros [_ _ _ Hw]. pose proof (sector_count_bound (vdev v)).
  destruct Hw as [[-> ?]|[[? ?] ?]]; [|split; [lia|done]]. split; [lia|]. intros ?. lia.
Qed.

Lemma u32_sub_lt a b n :
  0 <= a < 2 ^ 32 → 0 <= b → 0 < n → b + n <= 2 ^ 32 → (u32 (a - b) <? n) = true ↔ b <= a < b + n.
Proof.
  intros. rewrite Z.ltb_lt. unfold u32. destruct (decide (b <= a)).
  - rewrite Z.mod_small by lia. lia.
  - rewrite <- (Z.mod_add _ 1), Z.mod_small by lia. lia.
Qed.

(** Replacing one sector of a run. *)
Lemma zwrite_concat (f g : Z → list Z) s n k w :
  (∀ j, s <= j < s + n → length (f j) = 512%nat) →
  (∀ j, s <= j < s + n → length (g j) = 512%nat) →
  0 <= k < n → g (s + k) = w →
  (∀ j, s <= j < s + n → j ≠ s + k → g j = f j) →
  zwrite (concat (f <$> seqZ s n)) (k * SS) w = concat (g <$> seqZ s n).
Proof.
  intros Hf Hg Hk Hw Ho.
  pose proof (length_concat_512 f s n ltac:(lia) Hf) as Lf.
  pose proof (length_concat_512 g s n ltac:(lia) Hg) as Lg.
  assert (zlen w = 512) as Lw by (subst w; unfold zlen; rewrite Hg; lia).
  unfold SS in *. apply list_eq_zget.
  { rewrite zwrite_length. unfold zlen in *. lia. }
  unfold zlen in *. rewrite zwrite_length. intros i Hi. rewrite Lf in Hi.
  rewrite (zget_concat g) by (done || lia).
  destruct (decide (k * 512 <= i < k * 512 + 512)).
  - rewrite zget_zwrite_in by (unfold zlen; lia).
    replace (i / 512) with k by (Z.div_mod_to_equations; lia). rewrite Hw.
    f_equal. Z.div_mod_to_equations. lia.
  - rewrite zget_zwrite_out by (unfold zlen; lia).
    rewrite (zget_concat f) by (done || lia).
    rewrite Ho; [done|Z.div_mod_to_equations; lia..].
Qed.

Lemma concat_ext (f g : Z → list Z) s n :
  (∀ j, s <= j < s + n → f j = g j) → concat (f <$> seqZ s n) = concat (g <$> seqZ s n).
Proof.
  intros H. f_equal. apply list_fmap_ext. intros i x Hx. apply lookup_seqZ in Hx as [-> ?].
  apply H. lia.
Qed.

Lemma read_direct_spec v sect cc :
  wf v → reliable v → 0 < cc → (∀ j, 0 <= j < cc → vis v (sect + j)) →
  ∃ v', read_direct sect cc v = Some (Some (concat (view v <$> seqZ sect cc)), v') ∧ quiet v v'.
Proof.
  intros Hwf HR Hcc Hvis. unfold read_direct. pose proof (sector_count_bound (vdev v)).
  destruct (Hvis 0 ltac:(lia)) as [Hv0 _]. destruct (Hvis (cc - 1) ltac:(lia)) as [Hv1 _].
  destruct (dread_spec v sect cc) as (r & bs & d & E & Hc & Hs & Hok & _ & _ & Hrel); [lia..|].
  rewrite (Hrel HR) in E. rewrite (Hok (Hrel HR)) in E. rewrite (sbind_run _ _ _ _ _ E). cbv beta iota.
  destruct (set_vdev_ok v d Hwf Hc Hs) as (Hwf' & Hveq & Hm).
  rewrite (sbind_run fs _ (set_vdev d v) _ (set_vdev d v) eq_refl).
  exists (set_vdev d v). split; [|by split_and!]. simpl. unfold sret. do 3 f_equal.
  destruct (winsect_range v Hwf) as [Hwr Hwv].
  pose proof (u32_sub_lt (winsect (vfs v)) sect cc Hwr ltac:(lia) ltac:(lia) ltac:(lia)) as Ht.
  destruct (ztrue (wflag (vfs v))) eqn:Ef; unfold ztrue in Ef; zb; simpl.
  - destruct (u32 (winsect (vfs v) - sect) <? cc) eqn:Ein.
    + pose proof (proj1 Ht eq_refl) as Hin.
      assert (u32 (winsect (vfs v) - sect) = winsect (vfs v) - sect) as -> by (apply u32_small; lia).
      apply zwrite_concat.
      * intros. apply sector_length.
      * intros. by apply view_length.
      * lia.
      * replace (sect + (winsect (vfs v) - sect)) with (winsect (vfs v)) by lia. apply view_win.
      * intros j _ Hne. unfold view. by rewrite (proj2 (Z.eqb_neq _ _)) by lia.
    + apply concat_ext. intros j Hj. unfold view.
      destruct (Z.eqb_spec j (winsect (vfs v))) as [->|]; [|done].
      by pose proof (proj2 Ht Hj).
  - apply concat_ext. intros j Hj. symmetry. apply view_clean; [done..|].
    replace j with (sect + (j - sect)) by lia. apply Hvis. lia.
Qed.

Lemma read_partial_spec v fp btr :
  wf v → reliable v → vis v (fsect fp) → 0 <= fptr fp → 0 < btr →
  let o := fptr fp mod SS in
  ∃ v', read_partial fp btr v =
          Some (Some (zread (view v (fsect fp)) o (Z.min (SS - o) btr)), v') ∧ quiet v v'.
Proof.
  intros Hwf HR Hv Hp Hb o. unfold read_partial.
  destruct (move_window_spec v (fsect fp) Hwf Hv) as (r & v1 & E & Hwf1 & Hv1 & Hw & _ & Hrel).
  destruct (Hrel HR) as [-> Hm]. rewrite (sbind_run _ _ _ _ _ E). simpl.
  rewrite (sbind_run fs _ v1 _ v1 eq_refl). destruct (Hw eq_refl) as [_ ->].
  exists v1. split; [done|]. by split_and!.
Qed.

(** Whole sectors inside one cluster are consecutive bytes of the file. *)
Lemma sectors_file_bytes v l p cc :
  wf v → 0 <= p → p mod SS = 0 → 0 < cc → p mod bcs (vfs v) / SS + cc <= csize (vfs v) →
  concat (view v <$> seqZ (pos_sect (vfs v) l p) cc) = file_bytes v l p (SS * cc).
Proof.
  intros Hwf Hp Ha Hcc Hfit. pose proof (bcs_pos v Hwf) as Hb.
  assert (∀ j, length (view v j) = 512%nat) as Hl by (intros; by apply view_length).
  pose proof (length_concat_512 (view v) (pos_sect (vfs v) l p) cc ltac:(lia) (λ j _, Hl j)) as L.
  apply list_eq_zget.
  { unfold zlen, file_bytes, SS in *. rewrite length_fmap, length_seqZ. lia. }
  rewrite L. intros i Hi. rewrite zget_concat by (auto; lia).
  unfold file_bytes, zget at 2. rewrite list_lookup_fmap, lookup_seqZ_lt by (unfold SS; lia). simpl.
  unfold file_byte. replace (p + Z.of_nat (Z.to_nat i)) with (p + i) by lia.
  unfold pos_sect, bcs, SS in *.
  assert (p mod (csize (vfs v) * 512) mod 512 = 0) as Ha'.
  { rewrite Z.mul_comm, Z.rem_mul_r by lia. rewrite Ha.
    replace (0 + 512 * ((p / 512) mod csize (vfs v))) with ((p / 512) mod csize (vfs v) * 512) by lia.
    apply Z.mod_mul. lia. }
  set (q := p / (csize (vfs v) * 512)). set (m := p mod (csize (vfs v) * 512)) in *.
  assert (p = (csize (vfs v) * 512) * q + m) as Hpq by (apply Z.div_mod; lia).
  assert (0 <= m < csize (vfs v) * 512) by (apply Z.mod_pos_bound; lia).
  assert (m = 512 * (m / 512)) as Hm by (pose proof (Z.div_mod m 512); lia).
  assert ((p + i) / (csize (vfs v) * 512) = q) as ->.
  { symmetry. apply Z.div_unique_pos with (m + i); lia. }
  assert ((p + i) mod (csize (vfs v) * 512) = m + i) as ->.
  { symmetry. apply Z.mod_unique_pos with q; lia. }
  assert ((m + i) / 512 = m / 512 + i / 512) as ->.
  { rewrite Hm at 1. replace (512 * (m / 512) + i) with (i + m / 512 * 512) by lia.
    rewrite Z.div_add by lia. lia. }
  assert ((p + i) mod 512 = i mod 512) as ->.
  { rewrite Hpq, Hm. replace (csize (vfs v) * 512 * q + 512 * (m / 512) + i)
      with (i + (csize (vfs v) * q + m / 512) * 512) by lia. apply Z.mod_add. lia. }
  f_equal. f_equal. unfold data_sect. lia.
Qed.

(** Offsets in the same sector have the same position. *)
Lemma pos_sect_same v l p p' :
  wf v → 0 <= p → p / SS = p' / SS → pos_sect (vfs v) l p = pos_sect (vfs v) l p'.
Proof.
  intros Hwf Hp He. pose proof (bcs_pos v Hwf) as Hb. unfold pos_sect, bcs, SS in *.
  assert (∀ x, x / (csize (vfs v) * 512) = x / 512 / csize (vfs v)) as Hd.
  { intros x. rewrite Z.mul_comm, Z.div_div by lia. done. }
  assert (∀ x, x mod (csize (vfs v) * 512) / 512 = x / 512 mod csize (vfs v)) as Hm.
  { intros x. rewrite Z.mul_comm, Z.rem_mul_r by lia.
    rewrite Z.mul_comm, Z.div_add by lia. rewrite (Z.div_small (x mod 512)); [lia|].
    apply Z.mod_pos_bound. lia. }
  by rewrite !Hd, !Hm, He.
Qed.

(** A part of one sector likewise. *)
Lemma part_file_bytes v l p n :
  wf v → 0 <= p → 0 <= n → p mod SS + n <= SS →
  zread (view v (pos_sect (vfs v) l p)) (p mod SS) n = file_bytes v l p n.
Proof.
  intros Hwf Hp Hn Hfit. pose proof (bcs_pos v Hwf) as Hb.
  pose proof (view_length v (pos_sect (vfs v) l p) Hwf) as Hl.
  assert (0 <= p mod SS) by (apply Z.mod_pos_bound; unfold SS; lia).
  assert (zlen (view v (pos_sect (vfs v) l p)) = SS) as Hlz by (unfold zlen, SS; lia).
  apply list_eq_zget.
  { rewrite zread_length by lia. unfold file_bytes. by rewrite length_fmap, length_seqZ. }
  unfold zlen at 1. rewrite zread_length by lia. intros i Hi.
  rewrite zget_zread by lia. unfold file_bytes, zget at 2.
  rewrite list_lookup_fmap, lookup_seqZ_lt by lia. simpl.
  unfold file_byte. replace (p + Z.of_nat (Z.to_nat i)) with (p + i) by lia.
  assert ((p + i) mod SS = p mod SS + i) as ->.
  { unfold SS in *. symmetry. apply Z.mod_unique_pos with (p / 512); [lia|].
    pose proof (Z.div_mod p 512). lia. }
  do 2 f_equal. apply pos_sect_same; [done|lia|].
  unfold SS in *. apply Z.div_unique_pos with (p mod 512 + i); [lia|].
  pose proof (Z.div_mod p 512). lia.
Qed.


(** * One turn of the loop *)

Lemma pos_mod v p :
  wf v → 0 <= p → p mod SS = 0 → Z.land (p / SS) (csize (vfs v) - 1) = p mod bcs (vfs v) / SS.
Proof.
  intros Hwf Hp Ha. pose proof (bcs_pos v Hwf) as Hb.
  rewrite land_csize by apply (g_pow2 _ _ (wf_geom v Hwf)). unfold bcs, SS in *.
  rewrite (Z.mul_comm (csize _)), Z.rem_mul_r by lia. rewrite Ha.
  rewrite Z.add_0_l, Z.mul_comm, Z.div_mul by lia. done.
Qed.

Lemma bcs_aligned v p : wf v → p mod bcs (vfs v) = 0 → p mod SS = 0.
Proof.
  intros Hwf Hp. pose proof (bcs_pos v Hwf). unfold bcs, SS in *.
  apply Z.mod_divide in Hp as [k ->]; [|lia].
  replace (k * (csize (vfs v) * 512)) with (k * csize (vfs v) * 512) by lia. apply Z.mod_mul. lia.
Qed.

(** Sector offset 0 of an aligned offset is a cluster boundary. *)
Lemma pos_boundary v p :
  wf v → 0 <= p → p mod SS = 0 → p mod bcs (vfs v) / SS = 0 → p mod bcs (vfs v) = 0.
Proof.
  intros Hwf Hp Ha Hz. pose proof (bcs_pos v Hwf) as Hb. unfold bcs, SS in *.
  revert Hz. rewrite (Z.mul_comm (csize _)), Z.rem_mul_r, Ha by lia.
  rewrite Z.add_0_l, (Z.mul_comm 512), Z.div_mul by lia. intros ->. lia.
Qed.

(** Inside a cluster the last offset and the next one share it. *)
Lemma pos_prev v p :
  wf v → 0 < p → p mod bcs (vfs v) ≠ 0 → (p - 1) / bcs (vfs v) = p / bcs (vfs v).
Proof.
  intros Hwf Hp Hm. pose proof (bcs_pos v Hwf) as Hb. symmetry.
  apply Z.div_unique_pos with (p mod bcs (vfs v) - 1).
  - pose proof (Z.mod_pos_bound p (bcs (vfs v))). lia.
  - pose proof (Z.div_mod p (bcs (vfs v))). lia.
Qed.

Lemma pos_prev_boundary v p :
  wf v → 0 < p → p mod bcs (vfs v) = 0 → (p - 1) / bcs (vfs v) = p / bcs (vfs v) - 1.
Proof.
  intros Hwf Hp Hm. pose proof (bcs_pos v Hwf) as Hb. symmetry.
  apply Z.div_unique_pos with (bcs (vfs v) - 1); [lia|].
  pose proof (Z.div_mod p (bcs (vfs v))). lia.
Qed.

(** [fp1] is [fp] with the current cluster brought up to [fptr]. *)
Definition same_file (fp fp1 : FIL) : Prop :=
  fobj fp1 = fobj fp ∧ flag fp1 = flag fp ∧ err fp1 = err fp ∧ fptr fp1 = fptr fp ∧
  dir_sect fp1 = dir_sect fp ∧ dir_ptr fp1 = dir_ptr fp.

Lemma read_cluster_spec v fp l :
  wf v → reliable v → fil_ok v fp l → fptr fp < objsize (fobj fp) →
  fptr fp mod bcs (vfs v) = 0 →
  ∃ v', read_cluster fp v = Some (inr (set_fclust (zget l (fptr fp / bcs (vfs v))) fp), v') ∧
        quiet v v'.
Proof.
  intros Hwf HR Hok Hlt Hb. pose proof (bcs_pos v Hwf) as Hbc.
  pose proof Hok as [Hch Hsz Hp Hc _].
  destruct Hch as [[-> _]|Hch]; [unfold zlen in *; simpl in *; lia|].
  pose proof (n_fatent_bound v Hwf) as Hn.
  pose proof (pos_index v (fptr fp) l Hwf ltac:(lia)) as Hk.
  pose proof (zget_chain _ _ _ _ _ Hch Hk) as Hcl.
  assert (∃ v', (if fptr fp =? 0 then sret (sclust (fobj fp)) else get_fat (fclust fp)) v
    = Some (zget l (fptr fp / bcs (vfs v)), v') ∧ quiet v v') as (v' & E & Hq).
  { destruct (Z.eqb_spec (fptr fp) 0) as [Hz|Hz].
    - exists v. split; [|by apply quiet_refl]. rewrite Hz, Z.div_0_l by lia.
      unfold sret. by rewrite (zget_chain_head _ _ _ _ Hch).
    - rewrite Hc by lia. rewrite pos_prev_boundary by (done || lia).
      assert (1 <= fptr fp / bcs (vfs v)).
      { pose proof (Z.div_mod (fptr fp) (bcs (vfs v))). nia. }
      destruct (get_fat_spec v (zget l (fptr fp / bcs (vfs v) - 1)) Hwf) as (r & v1 & E & Hwf1 & Hv1 & _ & Hrel).
      { apply (zget_chain _ _ _ _ _ Hch). lia. }
      destruct (Hrel HR) as [-> Hm]. exists v1. split; [|by split_and!].
      rewrite E. do 2 f_equal.
      rewrite (zget_chain_next _ _ _ _ _ Hch) by lia. f_equal. lia. }
  exists v'. split; [|done]. unfold read_cluster. rewrite (sbind_run _ _ _ _ _ E).
  rewrite (proj2 (Z.ltb_ge _ _)), (proj2 (Z.eqb_neq _ _)) by lia. done.
Qed.

(** Moving the pointer inside the current cluster. *)
Lemma advance_ok v fp fp1 l n :
  wf v → fil_ok v fp l → same_file fp fp1 →
  fclust fp1 = zget l (fptr fp / bcs (vfs v)) → 0 < n → fptr fp + n <= objsize (fobj fp) →
  fptr fp mod bcs (vfs v) + n <= bcs (vfs v) →
  ((fptr fp + n) mod SS ≠ 0 →
     fsect fp1 = pos_sect (vfs v) l (fptr fp) ∧ fptr fp mod SS + n < SS) →
  fil_ok v (set_fptr (fptr fp + n) fp1) l.
Proof.
  intros Hwf [Hch Hsz Hp Hc Hs] (Ho&_&_&Hf&_) Hcl Hn Hlt Hfit Hsect.
  pose proof (bcs_pos v Hwf) as Hb. split; simpl; rewrite ?Ho; auto; try lia.
  - intros _. rewrite Hcl. f_equal. apply Z.div_unique_pos with (fptr fp mod bcs (vfs v) + n - 1).
    + pose proof (Z.mod_pos_bound (fptr fp) (bcs (vfs v))). lia.
    + pose proof (Z.div_mod (fptr fp) (bcs (vfs v))). lia.
  - intros Hm. destruct (Hsect Hm) as [-> Hlt']. apply pos_sect_same; [done|lia|].
    unfold SS in *. apply Z.div_unique_pos with (fptr fp mod 512 + n).
    + pose proof (Z.mod_pos_bound (fptr fp) 512). lia.
    + pose proof (Z.div_mod (fptr fp) 512). lia.
Qed.

(** Bytes taken by one turn. *)
Definition step_size v (fp : FIL) (btr : Z) : Z :=
  if fptr fp mod SS =? 0 then
    let cc := btr / SS in
    let csect := fptr fp mod bcs (vfs v) / SS in
    if 0 <? cc then SS * Z.min cc (csize (vfs v) - csect) else btr
  else Z.min (SS - fptr fp mod SS) btr.

Definition step_post v (fp : FIL) (l : list Z) (n : Z) (fp1 : FIL) v' : Prop :=
  quiet v v' ∧ same_file fp fp1 ∧ fil_ok v (set_fptr (fptr fp + n) fp1) l.

Lemma mod_sector_fit v p : wf v → 0 <= p → p mod bcs (vfs v) + (SS - p mod SS) <= bcs (vfs v).
Proof.
  intros Hwf Hp. pose proof (bcs_pos v Hwf) as Hb. unfold bcs, SS in *.
  rewrite (Z.mul_comm (csize (vfs v))), Z.rem_mul_r by lia.
  pose proof (Z.mod_pos_bound (p / 512) (csize (vfs v))). lia.
Qed.

Lemma partial_step v fp fp1 l btr :
  wf v → reliable v → fil_ok v fp l → same_file fp fp1 →
  fclust fp1 = zget l (fptr fp / bcs (vfs v)) → fsect fp1 = pos_sect (vfs v) l (fptr fp) →
  0 < btr <= objsize (fobj fp) - fptr fp →
  let n := Z.min (SS - fptr fp mod SS) btr in
  ∃ v', read_partial fp1 btr v = Some (Some (file_bytes v l (fptr fp) n), v') ∧
        step_post v fp l n fp1 v'.
Proof.
  intros Hwf HR Hok Hsame Hcl Hs Hb n.
  pose proof (fil_ok_in_chain _ _ _ Hok) as Hl. pose proof Hok as [_ Hsz Hp _ _].
  pose proof (Z.mod_pos_bound (fptr fp) SS ltac:(unfold SS; lia)).
  pose proof Hsame as (_&_&_&Hf&_).
  destruct (read_partial_spec v fp1 btr Hwf HR) as (v' & E & Hq); [|lia|lia|].
  { rewrite Hs. apply pos_sect_vis; [done..|lia]. }
  exists v'. rewrite Hf, Hs in E. rewrite part_file_bytes in E by (done || lia).
  split; [done|]. split_and!; auto. pose proof (mod_sector_fit v (fptr fp) Hwf ltac:(lia)).
  apply (advance_ok v fp); auto; try lia.
  intros Hm. split; [done|]. unfold n in *.
  destruct (decide (SS - fptr fp mod SS <= btr)); [|lia].
  exfalso. apply Hm. rewrite Z.min_l by lia. unfold SS in *.
  replace (fptr fp + (512 - fptr fp mod 512)) with ((fptr fp / 512 + 1) * 512)
    by (pose proof (Z.div_mod (fptr fp) 512); lia).
  apply Z.mod_mul. lia.
Qed.

Lemma direct_step v fp fp1 l cc :
  wf v → reliable v → fil_ok v fp l → same_file fp fp1 →
  fclust fp1 = zget l (fptr fp / bcs (vfs v)) → fptr fp mod SS = 0 →
  0 < cc → fptr fp mod bcs (vfs v) / SS + cc <= csize (vfs v) →
  fptr fp + SS * cc <= objsize (fobj fp) →
  ∃ v', read_direct (pos_sect (vfs v) l (fptr fp)) cc v =
          Some (Some (file_bytes v l (fptr fp) (SS * cc)), v') ∧
        step_post v fp l (SS * cc) fp1 v'.
Proof.
  intros Hwf HR Hok Hsame Hcl Ha Hcc Hfit Hlt. pose proof (bcs_pos v Hwf) as Hb.
  pose proof (fil_ok_in_chain _ _ _ Hok) as Hl. pose proof Hok as [_ Hsz Hp _ _].
  assert (0 < SS * cc) by (unfold SS; lia).
  pose proof (pos_range v (fptr fp) Hwf ltac:(lia)).
  destruct (read_direct_spec v (pos_sect (vfs v) l (fptr fp)) cc Hwf HR Hcc) as (v' & E & Hq).
  { intros j Hj. unfold pos_sect.
    replace (data_sect _ _ _ + j) with
      (data_sect (vfs v) (zget l (fptr fp / bcs (vfs v))) (fptr fp mod bcs (vfs v) / SS + j))
      by (unfold data_sect; lia).
    apply data_sect_vis; [done| |lia]. apply Hl, pos_index; [done|lia]. }
  rewrite sectors_file_bytes in E by (done || lia).
  exists v'. split; [done|]. split_and!; auto. apply (advance_ok v fp); auto.
  - assert (fptr fp mod bcs (vfs v) = SS * (fptr fp mod bcs (vfs v) / SS)) as Hm.
    { unfold bcs, SS in *. rewrite (Z.mul_comm (csize (vfs v))), Z.rem_mul_r, Ha by lia.
      rewrite Z.add_0_l, (Z.mul_comm 512 (_ mod _)), Z.div_mul by lia. lia. }
    rewrite Hm. unfold bcs, SS in *. lia.
  - intros Hm. exfalso. apply Hm. unfold SS in *. rewrite (Z.mul_comm 512), Z.mod_add; lia.
Qed.


Lemma quiet_fields v v' :
  quiet v v' → csize (vfs v') = csize (vfs v) ∧ bcs (vfs v') = bcs (vfs v) ∧
  n_fatent (vfs v') = n_fatent (vfs v) ∧ (∀ l p, pos_sect (vfs v') l p = pos_sect (vfs v) l p).
Proof.
  intros (_&Hv&_). pose proof (veq_core _ _ Hv) as Hc.
  pose proof (core_fields _ _ Hc) as (_&_&_&_&_&_&E1&_&_&E2&_).
  split_and!; [done|symmetry; by apply core_bcs|done|].
  intros. symmetry. by apply core_pos_sect.
Qed.

Lemma file_bytes_quiet v v' l p n :
  wf v → quiet v v' → in_chain v l → 0 <= p → p + n <= bcs (vfs v) * zlen l →
  file_bytes v' l p n = file_bytes v l p n.
Proof.
  intros Hwf (_&Hv&_) Hl Hp Hn. unfold file_bytes. apply list_fmap_ext.
  intros i x Hx. apply lookup_seqZ in Hx as [-> ?]. symmetry.
  apply file_byte_veq; auto. lia.
Qed.

(** The cluster of the pointer, on a boundary or not. *)
Lemma locate_cluster v fp l :
  wf v → reliable v → fil_ok v fp l → fptr fp < objsize (fobj fp) → fptr fp mod SS = 0 →
  ∃ fp1 v', (if Z.land (fptr fp / SS) (csize (vfs v) - 1) =? 0 then read_cluster fp
             else sret (inr fp)) v = Some (inr fp1, v') ∧
    quiet v v' ∧ same_file fp fp1 ∧ fclust fp1 = zget l (fptr fp / bcs (vfs v)).
Proof.
  intros Hwf HR Hok Hlt Ha. pose proof Hok as [_ _ Hp Hc _].
  rewrite pos_mod by (done || lia).
  destruct (Z.eqb_spec (fptr fp mod bcs (vfs v) / SS) 0) as [Hz|Hz].
  - destruct (read_cluster_spec v fp l) as (v' & E & Hq); auto; [apply pos_boundary; [done|lia|done..]|].
    eexists _, v'. by split_and!.
  - exists fp, v. split_and!; try done.
    assert (fptr fp mod bcs (vfs v) ≠ 0) as Hm.
    { intros Hm. apply Hz. by rewrite Hm. }
    assert (0 < fptr fp).
    { destruct (decide (fptr fp = 0)) as [E|]; [|lia]. by rewrite E, Z.mod_0_l in Hm by
        (pose proof (bcs_pos v Hwf); lia). }
    rewrite Hc by done. by rewrite pos_prev.
Qed.

(** The sector of the pointer, computed from its cluster. *)
Lemma sect_of_pos v l p :
  wf v → in_chain v l → 0 <= p < bcs (vfs v) * zlen l →
  let sect := clst2sect (vfs v) (zget l (p / bcs (vfs v))) in
  (sect =? 0) = false ∧ u32 (sect + p mod bcs (vfs v) / SS) = pos_sect (vfs v) l p.
Proof.
  intros Hwf Hl Hp sect. subst sect.
  pose proof (Hl _ (pos_index v p l Hwf Hp)) as Hvc. rewrite clst2sect_spec by done.
  pose proof (csize_range _ _ (wf_geom v Hwf)). pose proof (pos_range v p Hwf ltac:(lia)) as Hpr.
  destruct (data_sect_vis v (zget l (p / bcs (vfs v))) 0 Hwf Hvc) as (_&?&_); [lia|].
  destruct (data_sect_vis v _ _ Hwf Hvc Hpr) as (_&?&_).
  split; [apply Z.eqb_neq; lia|]. unfold pos_sect. replace (data_sect _ _ 0 + _) with
    (data_sect (vfs v) (zget l (p / bcs (vfs v))) (p mod bcs (vfs v) / SS))
    by (unfold data_sect; lia). apply u32_small. lia.
Qed.

Lemma read_step_spec v fp l btr :
  wf v → reliable v → fil_ok v fp l → 0 < btr <= objsize (fobj fp) - fptr fp →
  let n := step_size v fp btr in
  ∃ fp1 v', read_step fp btr v = Some ((inr (file_bytes v l (fptr fp) n), fp1), v') ∧
    step_post v fp l n fp1 v'.
Proof.
  intros Hwf HR Hok Hb n. subst n. unfold read_step, step_size.
  rewrite (sbind_run fs _ v _ v eq_refl). pose proof Hok as [_ Hsz Hp Hc Hs].
  pose proof (bcs_pos v Hwf) as Hbc.
  destruct (Z.eqb_spec (fptr fp mod SS) 0) as [Ha|Ha].
  2:{ assert (fclust fp = zget l (fptr fp / bcs (vfs v))) as Hcl.
      { rewrite Hc by (destruct (decide (fptr fp = 0)) as [E|]; [by rewrite E in Ha|lia]).
        rewrite pos_prev; [done|done| |].
        - destruct (decide (fptr fp = 0)) as [E|]; [by rewrite E in Ha|lia].
        - intros Hm. by apply Ha, (bcs_aligned v). }
      destruct (partial_step v fp fp l btr) as (v' & E & Hpost); auto; [done|].
      exists fp, v'. split; [|done]. by rewrite (sbind_run _ _ _ _ _ E). }
  destruct (locate_cluster v fp l) as (fp1 & v1 & E1 & Hq1 & Hsame & Hcl); auto; [lia|].
  rewrite (sbind_run _ _ _ _ _ E1). cbv beta iota.
  pose proof (quiet_fields _ _ Hq1) as (Ecs & Ebcs & Enf & Eps).
  pose proof Hq1 as (Hwf1 & Hv1 & _). pose proof (reliable_veq _ _ Hv1 HR) as HR1.
  pose proof (fil_ok_veq _ _ _ _ Hwf Hv1 Hok) as Hok1.
  pose proof (fil_ok_in_chain _ _ _ Hok) as Hl.
  destruct (sect_of_pos v l (fptr fp) Hwf Hl ltac:(lia)) as [Hsn Hsp].
  rewrite Hcl, Hsn, pos_mod, Hsp by (done || lia).
  pose proof (pos_range v (fptr fp) Hwf ltac:(lia)) as Hpr.
  assert (∀ n fp' v', step_post v1 fp l n fp' v' → step_post v fp l n fp' v') as Hback.
  { intros n fp' v' (Hq & ? & Hok'). split_and!; [by eapply quiet_trans|done|].
    apply (fil_ok_veq v1); auto. by symmetry. }
  destruct (0 <? btr / SS) eqn:Ecc; zb.
  - set (cc := Z.min (btr / SS) (csize (vfs v) - fptr fp mod bcs (vfs v) / SS)).
    assert ((if csize (vfs v) <? fptr fp mod bcs (vfs v) / SS + btr / SS
             then csize (vfs v) - fptr fp mod bcs (vfs v) / SS else btr / SS) = cc) as ->.
    { subst cc. destruct (_ <? _) eqn:?; zb; lia. }
    assert (SS * cc <= btr).
    { assert (SS * (btr / SS) <= btr) by (apply Z.mul_div_le; unfold SS; lia). unfold SS in *. lia. }
    destruct (direct_step v1 fp fp1 l cc) as (v' & E & Hpost); rewrite ?Ebcs, ?Ecs; auto; [lia..|].
    rewrite Eps in E. rewrite (sbind_run _ _ _ _ _ E). exists fp1, v'. split; [|by apply Hback].
    unfold sret. rewrite (file_bytes_quiet v v1) by (done || lia). done.
  - assert (btr < SS) by (assert (btr / SS = 0) as Hz by (pose proof (Z.div_pos btr SS); unfold SS in *; lia);
      apply Z.div_small_iff in Hz; unfold SS in *; lia).
    destruct (partial_step v1 fp (set_fsect (pos_sect (vfs v) l (fptr fp)) fp1) l btr)
      as (v' & E & Hpost); rewrite ?Ebcs, ?Eps; auto.
    rewrite (sbind_run _ _ _ _ _ E). rewrite Ha in *.
    replace (Z.min (SS - 0) btr) with btr in * by lia.
    eexists _, v'. split; [|by apply Hback]. unfold sret.
    rewrite (file_bytes_quiet v v1) by (done || lia). done.
Qed.

(** * The loop *)

(** Turns that a transfer of [btr] bytes from offset [p] takes. *)
Definition turns (p btr : Z) : Z :=
  if btr <=? 0 then 0
  else if p mod SS =? 0 then (btr + 511) / 512
  else 1 + (btr - Z.min (SS - p mod SS) btr + 511) / 512.

Lemma turns_bound p btr : 0 <= btr → turns p btr < btr / SS + 3.
Proof.
  intros. unfold turns, SS. pose proof (Z.mod_pos_bound p 512).
  destruct (_ <=? _); [Z.div_mod_to_equations; lia|].
  destruct (_ =? _); Z.div_mod_to_equations; lia.
Qed.

Lemma step_size_turns v fp btr :
  wf v → 0 <= fptr fp → 0 < btr →
  let n := step_size v fp btr in
  0 < n <= btr ∧ turns (fptr fp + n) (btr - n) < turns (fptr fp) btr.
Proof.
  intros Hwf Hp Hb n. subst n. unfold step_size, turns.
  pose proof (pos_range v (fptr fp) Hwf Hp) as Hr.
  pose proof (Z.mod_pos_bound (fptr fp) SS ltac:(unfold SS; lia)).
  rewrite (proj2 (Z.leb_gt btr 0)) by lia. unfold SS in *.
  destruct (Z.eqb_spec (fptr fp mod 512) 0) as [Ha|Ha].
  - destruct (0 <? btr / 512) eqn:Ecc; zb.
    + set (cc := Z.min _ _). assert (0 < cc <= btr / 512) by lia. clearbody cc.
      assert (512 * (btr / 512) <= btr) by (apply Z.mul_div_le; lia). split; [lia|].
      assert ((fptr fp + 512 * cc) mod 512 = 0) as ->.
      { rewrite Z.mul_comm, Z.mod_add; lia. }
      replace (btr + 511) with (btr - 512 * cc + 511 + cc * 512) by lia.
      rewrite Z.div_add by lia. destruct (_ <=? 0) eqn:?; simpl; zb; [|lia].
      pose proof (Z.div_pos (btr - 512 * cc + 511) 512). lia.
    + split; [lia|]. rewrite Z.sub_diag. simpl. apply Z.div_str_pos. lia.
  - split; [lia|]. destruct (_ <=? 0) eqn:E0; zb.
    + assert (0 <= (btr - Z.min (512 - fptr fp mod 512) btr + 511) / 512) by (apply Z.div_pos; lia). lia.
    + assert (Z.min (512 - fptr fp mod 512) btr = 512 - fptr fp mod 512) as Hm by lia. rewrite Hm in *.
      replace (fptr fp + (512 - fptr fp mod 512)) with ((fptr fp / 512 + 1) * 512)
        by (pose proof (Z.div_mod (fptr fp) 512); lia).
      rewrite Z.mod_mul by lia. simpl. lia.
Qed.

Lemma file_bytes_app v l p n m :
  0 <= n → 0 <= m → file_bytes v l p (n + m) = file_bytes v l p n ++ file_bytes v l (p + n) m.
Proof. intros. unfold file_bytes. by rewrite seqZ_app, fmap_app. Qed.

Lemma zlen_file_bytes v l p n : 0 <= n → zlen (file_bytes v l p n) = n.
Proof. intros. unfold file_bytes, zlen. rewrite length_fmap, length_seqZ. lia. Qed.

Lemma read_loop_spec fuel v fp l btr acc :
  wf v → reliable v → fil_ok v fp l → 0 <= btr <= objsize (fobj fp) - fptr fp →
  turns (fptr fp) btr < Z.of_nat fuel →
  ∃ fp' v', read_loop fuel fp btr acc v =
              Some ((FR_OK, acc ++ file_bytes v l (fptr fp) btr, fp'), v') ∧
    quiet v v' ∧ fil_ok v' fp' l ∧ fptr fp' = fptr fp + btr ∧
    fobj fp' = fobj fp ∧ flag fp' = flag fp ∧ err fp' = err fp ∧
    dir_sect fp' = dir_sect fp ∧ dir_ptr fp' = dir_ptr fp.
Proof.
  revert v fp btr acc. induction fuel as [|fuel IH]; intros v fp btr acc Hwf HR Hok Hb Hf.
  { assert (0 <= turns (fptr fp) btr); [|lia]. unfold turns, SS in *.
    pose proof (Z.mod_pos_bound (fptr fp) 512).
    destruct (_ <=? _) eqn:?; zb; [lia|]. destruct (_ =? _); Z.div_mod_to_equations; lia. }
  cbn [read_loop]. destruct (0 <? btr) eqn:Eb; zb.
  2:{ replace btr with 0 by lia. exists fp, v. unfold sret, file_bytes. simpl. rewrite app_nil_r.
      split_and!; auto; [by apply quiet_refl|lia]. }
  pose proof Hok as [_ Hsz Hp _ _].
  destruct (read_step_spec v fp l btr Hwf HR Hok) as (fp1 & v1 & E & Hq & Hsame & Hok1); [lia|].
  rewrite (sbind_run _ _ _ _ _ E). cbv beta iota.
  destruct (step_size_turns v fp btr) as [Hn Ht]; [done|lia|done|].
  set (n := step_size v fp btr) in *. clearbody n.
  rewrite zlen_file_bytes by lia. destruct Hsame as (E1&E2&E3&E4&E5&E6).
  rewrite E4, u32_small by lia. pose proof Hq as (Hwf1 & Hv1 & _).
  destruct (IH v1 (set_fptr (fptr fp + n) fp1) (btr - n) (acc ++ file_bytes v l (fptr fp) n))
    as (fp' & v' & E' & Hq' & Hok' & F1 & F2 & F3 & F4 & F5 & F6); simpl in *.
  - done.
  - by apply (reliable_veq v).
  - by apply (fil_ok_veq v).
  - rewrite E1. lia.
  - lia.
  - exists fp', v'. rewrite E'. split.
    { rewrite <- app_assoc. rewrite (file_bytes_quiet v v1);
        [|done..|by apply (fil_ok_in_chain _ _ _ Hok)|lia|lia].
      rewrite <- file_bytes_app by lia. by replace (n + (btr - n)) with btr by lia. }
    split_and!; try congruence; eauto using quiet_trans; lia.
Qed.

(** * [f_read] *)

(** The object passes the checks of the file functions. *)
Definition valid_fil v (fp : FIL) : Prop :=
  obj_fs (fobj fp) = true ∧ fs_type (vfs v) ≠ 0 ∧ obj_id (fobj fp) = fs_id (vfs v) ∧ err fp = 0.

Lemma fp_check_ok v fp : reliable v → valid_fil v fp → fp_check fp v = Some (FR_OK, v).
Proof.
  intros [HR Hp] (H1&H2&H3&H4). unfold fp_check, validate, sbind, sget.
  rewrite H1, (proj2 (Z.eqb_neq _ 0) H2), H3, Z.eqb_refl, Hp, disk_status_ok, H4. done.
Qed.

Lemma f_read_spec v fp l btr :
  wf v → reliable v → valid_fil v fp → fil_ok v fp l → zbits (flag fp) FA_READ = true → 0 <= btr →
  let n := Z.min btr (objsize (fobj fp) - fptr fp) in
  ∃ fp' v', f_read fp btr v = Some ((FR_OK, file_bytes v l (fptr fp) n, fp'), v') ∧
    quiet v v' ∧ fil_ok v' fp' l ∧ valid_fil v' fp' ∧ fptr fp' = fptr fp + n ∧
    fobj fp' = fobj fp ∧ flag fp' = flag fp.
Proof.
  intros Hwf HR Hval Hok Hfl Hb n. unfold f_read.
  rewrite (sbind_run _ _ _ _ _ (fp_check_ok v fp HR Hval)). simpl. rewrite Hfl. simpl.
  pose proof Hok as [_ Hsz Hp _ _]. rewrite u32_small by lia.
  assert ((if objsize (fobj fp) - fptr fp <? btr then objsize (fobj fp) - fptr fp else btr) = n) as ->.
  { subst n. destruct (_ <? _) eqn:?; zb; lia. }
  destruct (read_loop_spec (Z.to_nat (n / SS + 3)) v fp l n [])
    as (fp' & v' & E & Hq & Hok' & E1 & E2 & E3 & E4 & _); auto; [lia| |].
  { pose proof (turns_bound (fptr fp) n ltac:(lia)).
    assert (0 <= n / SS) by (apply Z.div_pos; unfold SS; lia). lia. }
  exists fp', v'. split; [done|]. split_and!; auto.
  destruct Hval as (?&?&?&?). unfold valid_fil. rewrite E2, E4.
  destruct Hq as (_&Hv&_). pose proof (core_fields _ _ (veq_core _ _ Hv)) as (Et&_&_&_&Ei&_).
  by rewrite <- Et, <- Ei.
Qed.

End inv.
