(* ===== verification/FfWrite.v ===== *)
(** Writing files: [f_write] stores the bytes in the file.

    The effect is stated on the abstract file of [FfRead]: the chain may
    grow by clusters that were free, the written range holds the data, the
    rest of the file keeps its bytes, and no sector outside the FAT and the
    file's own clusters, and no FAT entry of another chain, changes. *)
From Stdlib Require Import ZArith Lia.
From stdpp Require Import base list numbers option.
From S2P Require Import Prelude BlockDevice FfTypes FfWindow FfFat FfChain FfUnicode FfLfn FfDir FfName FfMount FfFile FfRead.

Local Open Scope Z_scope.
Local Open Scope st_scope.

Section inv.
Context {D : Type} {BD : BlockDevice D} {BL : BlockDeviceLaws D}.
Implicit Types v : vol D.

(** * Growing the chain *)

(** The allocation state of a mounted volume: no entry holds the reserved
    value 1, and the search hint is a 32-bit number. *)
Definition sane v : Prop :=
  (∀ c, valid_clst v c → fat_entry v c ≠ 1) ∧ 0 <= last_clst (vfs v).

Lemma chain_snoc (e e' : Z → Z) n c l a r :
  chain e n c (l ++ [a]) → 2 <= r < n → r ∉ l ++ [a] →
  e' a = r → n <= e' r → (∀ x, x ∈ l → e' x = e x) → chain e' n c (l ++ [a; r]).
Proof.
  revert c. induction l as [|x l IH]; intros c Hch Hr Hnr Ha Her Ho; simpl in *.
  - pose proof (chain_head _ _ _ _ Hch) as [Hc [l' [= <- _]]].
    apply chain_cons; [done|lia|]. rewrite Ha. by apply chain_last.
  - apply not_elem_of_cons in Hnr as [Hne Hnr].
    pose proof (Ho x (list_elem_of_here _ _)) as Ex.
    inversion Hch as [? ? ? Hnil|c' l' Hc He Hl Heq]; subst.
    { by destruct l. }
    apply chain_cons; rewrite ?Ex; [done..|]. apply IH; auto.
    intros y Hy. apply Ho. by apply list_elem_of_further.
Qed.

Lemma chain_last_entry (e : Z → Z) n c l a : chain e n c (l ++ [a]) → n <= e a.
Proof.
  revert c. induction l as [|x l IH]; intros c Hch; simpl in *.
  - inversion Hch as [|? ? ? ? Hl]; subst; [done|]. inversion Hl.
  - inversion Hch as [? ? ? Hnil|? ? ? ? Hl]; subst; [by destruct l|by eapply IH].
Qed.

Lemma chain_nonzero (e : Z → Z) n c l x : 2 <= n → chain e n c l → x ∈ l → e x ≠ 0.
Proof.
  intros Hn. induction 1 as [c Hc He|c l Hc Hec Hch IH]; intros Hx.
  - apply list_elem_of_singleton in Hx as ->. lia.
  - apply elem_of_cons in Hx as [->|Hx]; [lia|auto].
Qed.

(** The FAT after the chain [l] of [v] became [l'] in [v']. *)
Record grown v (l : list Z) v' (c' : Z) (l' : list Z) : Prop := mkGrown {
  gr_wf : wf v';
  gr_veqx : veqx (in_fat1 (vfs v)) v v';
  gr_mirror : mirror v → mirror v';
  gr_sane : sane v';
  gr_fat c : valid_clst v c → c ∉ l' → fat_entry v' c = fat_entry v c;
  gr_ext : l' = l ∨ ∃ r, l' = l ++ [r] ∧ valid_clst v r ∧ fat_entry v r = 0;
  gr_chain : chain (fat_entry v') (n_fatent (vfs v)) c' l'
}.

Lemma sane_veq v v' : wf v → veq v v' → sane v → sane v'.
Proof.
  intros Hwf Hv [H1 H2]. pose proof (core_fields _ _ (veq_core _ _ Hv)) as (_&_&_&_&_&_&_&El&_).
  split; [|by rewrite <- El]. intros c Hc.
  assert (valid_clst v c) by (apply (valid_clst_veq v'); [by symmetry|done]).
  rewrite <- (fat_entry_veq v v') by done. auto.
Qed.

Lemma grown_refl v v' c l :
  wf v → quiet v v' → sane v → chain (fat_entry v) (n_fatent (vfs v)) c l → grown v l v' c l.
Proof.
  intros Hwf (Hwf' & Hv & Hm) Hs Hch. split; auto using veq_veqx.
  - by apply (sane_veq v).
  - intros x Hx _. symmetry. by apply fat_entry_veq.
  - eapply chain_ext; [|done]. intros x Hx. symmetry. apply fat_entry_veq; auto.
    by apply (chain_valid _ _ _ _ _ Hch).
Qed.

Lemma sane_alloc v clst r v' :
  wf v → sane v → allocated v clst r v' →
  n_fatent (vfs v') = n_fatent (vfs v) → (clst = 0 ∨ valid_clst v clst) → sane v'.
Proof.
  intros Hwf [H1 H2] (A1&A2&A3&A4&A5&A6&A7) En Hc. split; [|rewrite A6; unfold valid_clst in A1; lia].
  intros c Hcv. assert (valid_clst v c) as Hcv' by (unfold valid_clst in *; lia).
  destruct (decide (c = r)) as [->|]; [|destruct (decide (c = clst)) as [->|]].
  - rewrite A3. pose proof (eoc_ge v Hwf). pose proof (n_fatent_bound v Hwf). lia.
  - rewrite A4; unfold valid_clst in *; lia.
  - rewrite A5; auto.
Qed.

(** A new chain of one cluster. *)
Lemma grown_new v r v' :
  wf v → sane v → allocated v 0 r v' → wf v' → veqx (in_fat1 (vfs v)) v v' →
  (mirror v → mirror v') → grown v [] v' r [r].
Proof.
  intros Hwf Hs Ha Hwf' Hx Hm. pose proof (n_fatent_veqx _ _ _ Hx) as En.
  pose proof Ha as (A1&A2&A3&A4&A5&_). split; auto.
  - apply (sane_alloc v 0 r); auto.
  - intros c Hc Hn. apply A5; [done| |unfold valid_clst in Hc; lia].
    intros ->. apply Hn, list_elem_of_here.
  - right. exists r. by split_and!.
  - apply chain_last; [done|]. rewrite A3. by apply eoc_ge.
Qed.

(** The last cluster of the chain linked to a new one. *)
Lemma grown_link v c l a r v' :
  wf v → sane v → chain (fat_entry v) (n_fatent (vfs v)) c (l ++ [a]) →
  allocated v a r v' → wf v' → veqx (in_fat1 (vfs v)) v v' → (mirror v → mirror v') →
  grown v (l ++ [a]) v' c ((l ++ [a]) ++ [r]).
Proof.
  intros Hwf Hs Hch Ha Hwf' Hx Hm. pose proof (n_fatent_veqx _ _ _ Hx) as En.
  pose proof Ha as (A1&A2&A3&A4&A5&_).
  assert (a ∈ l ++ [a]) as Hin by (apply elem_of_app; right; apply list_elem_of_here).
  pose proof (chain_valid _ _ _ _ _ Hch Hin) as Hva. pose proof (n_fatent_bound v Hwf).
  assert (r ∉ l ++ [a]) as Hrl.
  { intros Hr. apply (chain_nonzero (fat_entry v) (n_fatent (vfs v)) c (l ++ [a]) r); [lia|done..]. }
  split; auto.
  - apply (sane_alloc v a r); auto.
  - intros x Hx' Hn. apply not_elem_of_app in Hn as [Hn1 Hn2]. apply A5; [done| |].
    + intros ->. apply Hn2, list_elem_of_here.
    + intros ->. done.
  - right. exists r. by split_and!.
  - rewrite <- app_assoc. eapply chain_snoc; eauto.
    + apply A4. lia.
    + rewrite A3. by apply eoc_ge.
    + pose proof (chain_NoDup _ _ _ _ Hch) as Hnd. apply list.NoDup_app in Hnd as (_ & Hd & _).
      intros x Hx'. apply A5.
      * apply (chain_valid _ _ _ _ _ Hch). apply elem_of_app. by left.
      * intros ->. apply Hrl, elem_of_app. by left.
      * intros ->. apply (Hd a Hx'), list_elem_of_here.
Qed.


(** [fp1] is [fp] up to the cluster fields. *)
Definition same_but_cluster (fp fp1 : FIL) : Prop :=
  set_fclust 0 (fp_sclust 0 fp1) = set_fclust 0 (fp_sclust 0 fp).

Lemma same_fields fp fp1 :
  same_but_cluster fp fp1 →
  fptr fp1 = fptr fp ∧ flag fp1 = flag fp ∧ err fp1 = err fp ∧ fsect fp1 = fsect fp ∧
  objsize (fobj fp1) = objsize (fobj fp) ∧ obj_fs (fobj fp1) = obj_fs (fobj fp) ∧
  obj_id (fobj fp1) = obj_id (fobj fp) ∧ dir_sect fp1 = dir_sect fp ∧ dir_ptr fp1 = dir_ptr fp.
Proof.
  destruct fp as [o ? ? ? ? ? ? ?], fp1 as [o1 ? ? ? ? ? ? ?]. destruct o, o1.
  unfold same_but_cluster, fp_sclust. simpl. intros [=]. by subst.
Qed.

Definition full v : Prop :=
  free_clst (vfs v) = 0 ∨ ∀ c, valid_clst v c → fat_entry v c ≠ 0.

Definition cluster_post v (fp : FIL) (l : list Z) (r : option FRESULT + FIL) v' : Prop :=
  match r with
  | inl None => quiet v v' ∧ full v
  | inl (Some _) => False
  | inr fp1 =>
      same_but_cluster fp fp1 ∧
      ∃ l', grown v l v' (sclust (fobj fp1)) l' ∧ fclust fp1 = zget l' (fptr fp / bcs (vfs v)) ∧
            fptr fp / bcs (vfs v) < zlen l'
  end.

(** The outcome of [create_chain] on a sane volume. *)
Lemma alloc_cases v clst r v' :
  reliable v → sane v → alloc_post v clst r v' →
  (r = 0 ∧ quiet v v' ∧ full v) ∨
  (allocated v clst r v' ∧ wf v' ∧ veqx (in_fat1 (vfs v)) v v' ∧ (mirror v → mirror v')).
Proof.
  intros HR [Hs _] (Hwf' & Hx & Hm & Hc). destruct Hc as [Ha|[(->&Hv&Hf)|[(->&_&c&Hc&H1)|[-> Hn]]]].
  - right. auto.
  - left. split_and!; auto. by split_and!; auto.
  - by destruct (Hs c Hc).
  - done.
Qed.

Lemma zget_snoc l (a : Z) : zget (l ++ [a]) (zlen l) = a.
Proof. unfold zget, zlen. rewrite Nat2Z.id, lookup_app_r, Nat.sub_diag by lia. done. Qed.

(** The end of [write_cluster] with a cluster. *)
Lemma cluster_taken (r : Z) fp (v : vol D) : 2 <= r < 0xFFFFFFFF →
  (if r =? 0 then sret (inl None) else if r =? 1 then sret (inl (Some FR_INT_ERR))
   else if r =? 0xFFFFFFFF then sret (inl (Some FR_DISK_ERR)) else
   let fp := set_fclust r fp in
   sret (inr (if sclust (fobj fp) =? 0 then fp_sclust r fp else fp))) v =
  Some (inr (if sclust (fobj fp) =? 0 then fp_sclust r (set_fclust r fp) else set_fclust r fp), v).
Proof.
  intros Hr. rewrite (proj2 (Z.eqb_neq r 0)), (proj2 (Z.eqb_neq r 1)), (proj2 (Z.eqb_neq r 0xFFFFFFFF)) by lia. done.
Qed.

(** At the start of the file: its first cluster, or a new one. *)
Lemma write_cluster_first v fp l :
  wf v → reliable v → sane v → fil_ok v fp l → fptr fp = 0 →
  ∃ r v', write_cluster fp v = Some (r, v') ∧ cluster_post v fp l r v'.
Proof.
  intros Hwf HR Hsane Hok Hz. pose proof (bcs_pos v Hwf) as Hbc.
  pose proof Hok as [Hch Hsz Hp Hc _]. pose proof (n_fatent_bound v Hwf) as Hn.
  unfold write_cluster. rewrite Hz. cbn [Z.eqb].
  destruct (Z.eqb_spec (sclust (fobj fp)) 0) as [Hs0|Hs0].
  - destruct Hch as [[-> _]|Hch]; [|pose proof (chain_head _ _ _ _ Hch); lia].
    destruct (create_chain_new v Hwf (proj2 Hsane)) as (r & v1 & E & Hpost).
    rewrite (sbind_run _ _ _ _ _ E).
    destruct (alloc_cases _ _ _ _ HR Hsane Hpost) as [(->&Hq&Hf)|(Ha&Hwf1&Hx&Hm)].
    { simpl. by eexists _, _. }
    pose proof Ha as (Hr&_). unfold valid_clst in Hr. rewrite cluster_taken, Hs0 by lia. cbn [Z.eqb].
    eexists _, v1. split; [done|]. split; [by destruct fp as [[]]|].
    exists [r]. rewrite Hz, Z.div_0_l by lia. split; [by apply grown_new|]. by split.
  - destruct Hch as [[_ ?]|Hch]; [done|]. pose proof (chain_head _ _ _ _ Hch) as [Hh [l' El]].
    rewrite (sbind_run (sret _) _ v _ v eq_refl). rewrite cluster_taken, (proj2 (Z.eqb_neq _ 0)) by lia.
    eexists _, v. split; [done|].
    split; [by destruct fp as [[]]|]. exists l. rewrite Hz, Z.div_0_l by lia.
    split; [by apply grown_refl; [|apply quiet_refl|..]|]. split.
    * symmetry. by apply (zget_chain_head (fat_entry v) (n_fatent (vfs v))).
    * rewrite El. unfold zlen. simpl. lia.
Qed.

(** At a later cluster boundary: the next cluster of the chain, or a new one
    linked to its end. *)
Lemma write_cluster_next v fp l :
  wf v → reliable v → sane v → fil_ok v fp l → fptr fp mod bcs (vfs v) = 0 → fptr fp ≠ 0 →
  ∃ r v', write_cluster fp v = Some (r, v') ∧ cluster_post v fp l r v'.
Proof.
  intros Hwf HR Hsane Hok Hb Hz. pose proof (bcs_pos v Hwf) as Hbc.
  pose proof Hok as [Hch Hsz Hp Hc _]. pose proof (n_fatent_bound v Hwf) as Hn.
  unfold write_cluster. rewrite (proj2 (Z.eqb_neq _ _)) by done.
  destruct Hch as [[-> _]|Hch]; [unfold zlen in *; simpl in *; lia|].
  set (q := fptr fp / bcs (vfs v)) in *.
  assert (fptr fp = bcs (vfs v) * q) as Hq by (pose proof (Z.div_mod (fptr fp) (bcs (vfs v))); lia).
  assert (1 <= q <= zlen l) as Hqr by nia.
  assert (fclust fp = zget l (q - 1)) as Hcl.
  { rewrite Hc by lia. by rewrite pos_prev_boundary by (done || lia). }
  pose proof (zget_chain _ _ _ _ (q - 1) Hch ltac:(lia)) as Hvc.
  rewrite Hcl. destruct (create_chain_stretch v (zget l (q - 1)) Hwf Hvc) as
    (r & v1 & E & Hwf1 & Hx1 & Hm1 & Halloc & Hfollow & Hne).
  rewrite (sbind_run _ _ _ _ _ E). specialize (Hne HR).
  assert (2 <= sclust (fobj fp) < n_fatent (vfs v)) as Hsc by apply (chain_head _ _ _ _ Hch).
  destruct (decide (q < zlen l)) as [Hlt|Hge].
  - assert (fat_entry v (zget l (q - 1)) = zget l q) as He.
    { rewrite (zget_chain_next _ _ _ _ _ Hch) by lia. f_equal. lia. }
    pose proof (zget_chain _ _ _ _ q Hch ltac:(lia)) as Hvq.
    destruct (Hfollow Hne ltac:(lia)) as [Hv1 Hr].
    rewrite He, (proj2 (Z.ltb_ge _ _)) in Hr by lia. subst r.
    rewrite cluster_taken, (proj2 (Z.eqb_neq _ 0)) by lia. eexists _, v1. split; [done|].
    split; [by destruct fp as [[]]|]. exists l. split_and!; [|done..]. apply grown_refl; auto. split_and!; auto.
  - assert (q = zlen l) as Hql by lia. assert (fptr fp / bcs (vfs v) = zlen l) as Hdiv by exact Hql.
    clearbody q. subst q.
    destruct l as [|a l0 _] using rev_ind; [unfold zlen in *; simpl in *; lia|].
    rewrite zlen_snoc in *. replace (zlen l0 + 1 - 1) with (zlen l0) in * by lia.
    rewrite zget_snoc in *.
    pose proof (chain_last_entry _ _ _ _ _ Hch) as Hend.
    destruct (alloc_cases _ _ _ _ HR Hsane (Halloc Hne Hend)) as [(->&Hq'&Hf)|(Ha&_&_&_)].
    { simpl. by eexists _, _. }
    pose proof Ha as (Hr&_). unfold valid_clst in Hr.
    rewrite cluster_taken, (proj2 (Z.eqb_neq _ 0)) by lia. eexists _, v1. split; [done|].
    split; [by destruct fp as [[]]|]. exists ((l0 ++ [a]) ++ [r]). rewrite Hdiv. split_and!.
    * apply grown_link; auto.
    * rewrite <- (zlen_snoc l0 a). by rewrite zget_snoc.
    * rewrite !zlen_snoc. lia.
Qed.

Lemma write_cluster_spec v fp l :
  wf v → reliable v → sane v → fil_ok v fp l → fptr fp mod bcs (vfs v) = 0 →
  ∃ r v', write_cluster fp v = Some (r, v') ∧ cluster_post v fp l r v'.
Proof. intros. destruct (Z.eq_dec (fptr fp) 0); [by apply write_cluster_first|by apply write_cluster_next]. Qed.


(** * Storing data *)

(** Sector [s] becomes [w], the rest of the volume stays. *)
Definition stored_at v (s : Z) (w : list Z) v' : Prop :=
  wf v' ∧ core (vfs v) = core (vfs v') ∧ veqx (λ x, x = s) v v' ∧ view v' s = w ∧
  (mirror v → mirror v').

Lemma win_store_run v (g : list Z → list Z) :
  win_store g v = Some (tt, stored v (g (win (vfs v)))).
Proof. done. Qed.

Lemma write_partial_spec v fp wbuff btw :
  wf v → reliable v → vis v (fsect fp) → bytes wbuff →
  let o := fptr fp mod SS in
  let n := Z.min (SS - o) btw in
  ∃ v', write_partial fp wbuff btw v = Some (Some n, v') ∧
        stored_at v (fsect fp) (zwrite (view v (fsect fp)) o (zread wbuff 0 n)) v'.
Proof.
  intros Hwf HR Hv Hbb o n. unfold write_partial.
  destruct (move_window_spec v (fsect fp) Hwf Hv) as (r & v1 & E & Hwf1 & Hv1 & Hw & _ & Hrel).
  destruct (Hrel HR) as [-> Hm]. destruct (Hw eq_refl) as [Hws Hwin].
  rewrite (sbind_run _ _ _ _ _ E). simpl. rewrite (sbind_run _ _ _ _ _ (win_store_run v1 _)).
  eexists. split; [done|]. rewrite Hwin.
  destruct (stored_ok v1 (zwrite (view v (fsect fp)) o (zread wbuff 0 n)) Hwf1)
    as (Hwf2 & Hx2 & Hview & Hc & Hm2).
  - rewrite Hws. by apply (vis_veq v).
  - by rewrite zwrite_length, view_length.
  - apply zwrite_bytes; [by apply view_bytes|]. by apply Forall_take, Forall_drop.
  - rewrite Hws in *. split_and!; auto.
    + etransitivity; [by apply veq_core|]. by symmetry.
    + eapply veqx_trans; [by apply veq_veqx|done].
Qed.

(** On the growing edge the window is taken over without loading it. *)
Lemma write_edge_spec v fp wbuff btw sect :
  wf v → wflag (vfs v) = 0 → vis v sect → bytes wbuff → fsect fp = sect →
  let o := fptr fp mod SS in
  let n := Z.min (SS - o) btw in
  ∃ w v', write_partial fp wbuff btw (set_vfs (set_winsect sect (vfs v)) v) = Some (Some n, v') ∧
          length w = 512%nat ∧ stored_at v sect (zwrite w o (zread wbuff 0 n)) v'.
Proof.
  intros Hwf Hf Hv Hbb Hs o n. unfold write_partial, move_window.
  exists (win (vfs v)), (stored (set_vfs (set_winsect sect (vfs v)) v)
                          (zwrite (win (vfs v)) o (zread wbuff 0 n))). split; [|split].
  - unfold sbind, fs, sret. rewrite Hs. simpl. by rewrite Z.eqb_refl.
  - apply (wf_len v Hwf).
  - pose proof Hwf as [G Hl Hb _].
    split_and!; try done.
    + split; simpl; try done.
      * by apply (geom_core (vfs v)).
      * by rewrite zwrite_length.
      * apply zwrite_bytes; [done|]. by apply Forall_take, Forall_drop.
      * right. by split.
    + constructor; simpl; try done. intros s Hvs Hne. rewrite (view_clean v) by done.
      unfold view. simpl. by rewrite (proj2 (Z.eqb_neq _ _)).
    + unfold view. simpl. by rewrite Z.eqb_refl.
    + intros Hm Hn s Hin [?|?]; simpl in *; [|done]. apply Hm; auto.
Qed.

(** The device [d] is that of [v] with [cc] sectors from [sect] on replaced by
    those of [wbuff], none of them in a FAT. *)
Definition replaced (v : vol D) (d : D) (sect cc : Z) (wbuff : list Z) : Prop :=
  sector_count d = sector_count (vdev v) ∧
  (∀ s, vis v s → ¬ (sect <= s < sect + cc) → sector d s = sector (vdev v) s) ∧
  (∀ j, 0 <= j < cc → sector d (sect + j) = zread wbuff (SS * j) SS) ∧
  (∀ s, in_fat1 (vfs v) s → n_fats (vfs v) = 2 →
     sector d s = sector (vdev v) s ∧ sector d (s + fsize (vfs v)) = sector (vdev v) (s + fsize (vfs v)) ∧
     ¬ (sect <= s < sect + cc)).

(** What a direct write leaves. *)
Definition direct_post (v : vol D) (sect cc : Z) (wbuff : list Z) (v' : vol D) : Prop :=
  wf v' ∧ core (vfs v) = core (vfs v') ∧ veqx (λ s, sect <= s < sect + cc) v v' ∧
  (∀ j, 0 <= j < cc → view v' (sect + j) = zread wbuff (SS * j) SS) ∧ (mirror v → mirror v').

Lemma dwrite_replaces v wbuff sect cc :
  wf v → reliable v → 0 < cc → (∀ j, 0 <= j < cc → vis v (sect + j)) →
  (∀ j, 0 <= j < cc → ¬ in_fat1 (vfs v) (sect + j)) → bytes wbuff → SS * cc <= zlen wbuff →
  ∃ d, dwrite (zread wbuff 0 (SS * cc)) sect cc v = Some (RES_OK, set_vdev d v) ∧ replaced v d sect cc wbuff.
Proof.
  intros Hwf HR Hcc Hvis Hnf Hbb Hlen. pose proof (sector_count_bound (vdev v)).
  destruct (Hvis 0 ltac:(lia)) as [Hv0 _]. destruct (Hvis (cc - 1) ltac:(lia)) as [Hv1 _].
  assert (zlen (zread wbuff 0 (SS * cc)) = 512 * cc) as Hlz.
  { unfold zlen, SS in *. rewrite zread_length by (unfold zlen; lia). lia. }
  destruct (dwrite_spec v (zread wbuff 0 (SS * cc)) sect cc) as (r & d & E & Hc & Hfr & Hok & Hrel);
    [lia..|by apply Forall_take, Forall_drop|done|].
  specialize (Hok (Hrel HR)). rewrite (Hrel HR) in E. exists d. split; [done|]. split_and!; [done| | |].
  - intros s [? _] ?. by apply Hfr.
  - intros j Hj. rewrite Hok by lia. unfold zread, SS. rewrite drop_0.
    replace (sect + j - sect) with j by lia. rewrite skipn_firstn_comm, take_take. f_equal. lia.
  - intros s Hs Hn. destruct (fat2_range v s Hwf Hs Hn) as (?&?&_&H2). pose proof (g_fsize _ _ (wf_geom v Hwf)).
    assert (¬ (sect <= s < sect + cc)) as Hns.
    { intros ?. apply (Hnf (s - sect)); [lia|]. by replace (sect + (s - sect)) with s by lia. }
    split_and!; [apply Hfr; [lia|done]| |done]. apply Hfr; [lia|]. intros ?.
    destruct (Hvis (s + fsize (vfs v) - sect)) as [_ Hx]; [lia|]. apply Hx.
    by replace (sect + (s + fsize (vfs v) - sect)) with (s + fsize (vfs v)) by lia.
Qed.

(** The window holds one of the sectors written, and is refreshed. *)
Lemma direct_inside v d sect cc wbuff : wf v → replaced v d sect cc wbuff →
  (∀ j, 0 <= j < cc → vis v (sect + j)) → sect <= winsect (vfs v) < sect + cc →
  direct_post v sect cc wbuff
    (set_vfs (set_wflag 0 (set_win (zread wbuff ((winsect (vfs v) - sect) * SS) SS) (vfs v))) (set_vdev d v)).
Proof.
  intros Hwf (Hc & Hout & Hsec & Hmir) Hvis Hin. pose proof Hwf as [G Hl Hb Hw].
  set (w := zread wbuff ((winsect (vfs v) - sect) * SS) SS).
  assert (sector d (winsect (vfs v)) = w) as Hwsec.
  { replace (winsect (vfs v)) with (sect + (winsect (vfs v) - sect)) at 1 by lia.
    rewrite Hsec by lia. subst w. by rewrite Z.mul_comm. }
  assert (vis v (winsect (vfs v))) as Hvw.
  { replace (winsect (vfs v)) with (sect + (winsect (vfs v) - sect)) by lia. apply Hvis. lia. }
  split_and!; try done.
  - split; simpl.
    * rewrite Hc. by apply (geom_core (vfs v)).
    * rewrite <- Hwsec. apply sector_length.
    * rewrite <- Hwsec. apply sector_bytes.
    * right. split; [unfold vis in *; simpl; by rewrite Hc|by simpl; rewrite Hwsec].
  - constructor; simpl; try done. intros s Hs Hns. unfold view. simpl.
    destruct (Z.eqb_spec s (winsect (vfs v))); [lia|]. symmetry. by apply Hout.
  - intros j Hj. unfold view. simpl.
    destruct (Z.eqb_spec (sect + j) (winsect (vfs v))) as [Heq|]; [|by apply Hsec].
    subst w. rewrite <- Heq. f_equal. lia.
  - intros Hm Hn s Hs Hd. simpl in *. destruct (Hmir s Hs Hn) as (->&->&?). apply Hm; auto. left. lia.
Qed.

(** The window holds another sector. *)
Lemma direct_outside v d sect cc wbuff : wf v → replaced v d sect cc wbuff →
  ¬ (sect <= winsect (vfs v) < sect + cc) → direct_post v sect cc wbuff (set_vdev d v).
Proof.
  intros Hwf (Hc & Hout & Hsec & Hmir) Hnw. pose proof Hwf as [G Hl Hb Hw]. split_and!; try done.
  - split; simpl; try done; [by rewrite Hc|]. unfold win_ok, vis in *. simpl. rewrite Hc.
    destruct Hw as [?|[? Hwe]]; [by left|right]. split; [done|]. intros Hf.
    rewrite Hout; [auto|done..].
  - constructor; simpl; try done. intros s Hs Hns. unfold view. simpl.
    destruct (Z.eqb_spec s (winsect (vfs v))); [done|]. symmetry. by apply Hout.
  - intros j Hj. unfold view. simpl.
    rewrite (proj2 (Z.eqb_neq _ _)) by lia. by apply Hsec.
  - intros Hm Hn s Hs Hd. simpl in *. destruct (Hmir s Hs Hn) as (->&->&?). apply Hm; auto.
Qed.

Lemma write_direct_spec v wbuff sect cc :
  wf v → reliable v → 0 < cc → (∀ j, 0 <= j < cc → vis v (sect + j)) →
  (∀ j, 0 <= j < cc → ¬ in_fat1 (vfs v) (sect + j)) → bytes wbuff → SS * cc <= zlen wbuff →
  ∃ v', write_direct wbuff sect cc v = Some (Some (SS * cc), v') ∧ direct_post v sect cc wbuff v'.
Proof.
  intros Hwf HR Hcc Hvis Hnf Hbb Hlen. pose proof (sector_count_bound (vdev v)).
  destruct (Hvis 0 ltac:(lia)) as [Hv0 _]. destruct (Hvis (cc - 1) ltac:(lia)) as [Hv1 _].
  destruct (dwrite_replaces v wbuff sect cc Hwf HR Hcc Hvis Hnf Hbb Hlen) as (d & E & Hd).
  unfold write_direct. rewrite (sbind_run _ _ _ _ _ E). cbv beta iota.
  destruct (winsect_range v Hwf) as [Hwr _].
  pose proof (u32_sub_lt (winsect (vfs v)) sect cc Hwr ltac:(lia) ltac:(lia) ltac:(lia)) as Ht.
  unfold upd, sbind. cbn [vfs set_vdev]. destruct (u32 (winsect (vfs v) - sect) <? cc) eqn:Ein; (eexists; split; [reflexivity|]).
  - pose proof (proj1 Ht eq_refl) as Hin. rewrite (u32_small (winsect (vfs v) - sect)) by lia.
    by apply direct_inside.
  - apply (direct_outside v d sect cc wbuff Hwf Hd). intros Hx. by apply Ht in Hx.
Qed.


(** * The effect on the file *)

Definition in_data (f : FATFS) (l : list Z) (s : Z) : Prop :=
  ∃ q j, 0 <= q < zlen l ∧ 0 <= j < csize f ∧ s = data_sect f (zget l q) j.

(** The bytes [bs] were stored at offset [p] of the file [l]; bytes below
    [lim] outside the range keep their value. *)
Record written v (l : list Z) (p : Z) (bs : list Z) (lim : Z) v' : Prop := mkWritten {
  wr_wf : wf v';
  wr_core : core (vfs v) = core (vfs v');
  wr_veqx : veqx (in_data (vfs v) l) v v';
  wr_mirror : mirror v → mirror v';
  wr_byte k : 0 <= k < lim → k < bcs (vfs v) * zlen l →
    file_byte v' l k = if (p <=? k) && (k <? p + zlen bs) then zget bs (k - p) else file_byte v l k
}.

Lemma zget_inj (l : list Z) i j :
  NoDup l → 0 <= i < zlen l → 0 <= j < zlen l → zget l i = zget l j → i = j.
Proof.
  intros Hnd Hi Hj He. unfold zget, zlen in *.
  destruct (l !! Z.to_nat i) as [x|] eqn:Ei; [|apply lookup_ge_None in Ei; lia].
  destruct (l !! Z.to_nat j) as [y|] eqn:Ej; [|apply lookup_ge_None in Ej; lia].
  simpl in He. subst y. pose proof (NoDup_lookup _ _ _ _ Hnd Ei Ej). lia.
Qed.

(** Different sectors of the file are different sectors of the volume. *)
Lemma pos_sect_inj v l k k' :
  wf v → NoDup l → 0 <= k < bcs (vfs v) * zlen l → 0 <= k' < bcs (vfs v) * zlen l →
  pos_sect (vfs v) l k = pos_sect (vfs v) l k' → k / SS = k' / SS.
Proof.
  intros Hwf Hnd Hk Hk' He. pose proof (bcs_pos v Hwf) as Hb.
  apply data_sect_inj in He as [He1 He2]; [|apply pos_range; [done|lia]..].
  apply zget_inj in He1; [|done|by apply pos_index..].
  assert (∀ x, x / SS = csize (vfs v) * (x / bcs (vfs v)) + x mod bcs (vfs v) / SS) as Hd.
  { intros x. unfold bcs, SS in *.
    rewrite (Z.div_mod x (csize (vfs v) * 512)) at 1 by lia.
    replace (csize (vfs v) * 512 * (x / (csize (vfs v) * 512)))
      with (csize (vfs v) * (x / (csize (vfs v) * 512)) * 512) by lia.
    by rewrite Z.div_add_l by lia. }
  by rewrite (Hd k), (Hd k'), He1, He2.
Qed.

Lemma pos_sect_in_data v l k :
  wf v → 0 <= k < bcs (vfs v) * zlen l → in_data (vfs v) l (pos_sect (vfs v) l k).
Proof.
  intros Hwf Hk. exists (k / bcs (vfs v)), (k mod bcs (vfs v) / SS).
  split; [by apply pos_index|]. split; [|done]. apply pos_range; [done|lia].
Qed.

Lemma file_byte_stored v v' l s k :
  wf v → in_chain v l → core (vfs v) = core (vfs v') → veqx (λ x, x = s) v v' →
  0 <= k < bcs (vfs v) * zlen l → pos_sect (vfs v) l k ≠ s →
  file_byte v' l k = file_byte v l k.
Proof.
  intros Hwf Hl Hc Hx Hk Hne. unfold file_byte. rewrite <- (core_pos_sect _ _ l k Hc).
  rewrite (vx_view _ _ _ Hx); [done|by apply pos_sect_vis|done].
Qed.

(** Into one sector. *)
Lemma partial_written v l p bs lim w v' :
  wf v → in_chain v l → NoDup l → 0 <= p → p < bcs (vfs v) * zlen l →
  0 < zlen bs → p mod SS + zlen bs <= SS → length w = 512%nat →
  (∀ i, 0 <= i < SS → ¬ (p mod SS <= i < p mod SS + zlen bs) → p - p mod SS + i < lim →
        zget w i = zget (view v (pos_sect (vfs v) l p)) i) →
  stored_at v (pos_sect (vfs v) l p) (zwrite w (p mod SS) bs) v' →
  written v l p bs lim v'.
Proof.
  intros Hwf Hl Hnd Hp Hpl Hn Hfit Hw Hold (Hwf' & Hc & Hx & Hview & Hm).
  pose proof (Z.mod_pos_bound p SS ltac:(unfold SS; lia)) as Hmod.
  split; auto.
  - eapply veqx_weaken; [|done]. intros s ->. apply pos_sect_in_data; [done|lia].
  - intros k Hk Hkl. pose proof (Z.div_mod p SS ltac:(done)) as Hdp.
    pose proof (Z.div_mod k SS ltac:(done)) as Hdk.
    pose proof (Z.mod_pos_bound k SS ltac:(unfold SS; lia)).
    destruct (decide (k / SS = p / SS)) as [He|Hne].
    + assert (file_byte v' l k = zget (zwrite w (p mod SS) bs) (k mod SS)) as ->.
      { unfold file_byte. rewrite <- (core_pos_sect _ _ l k Hc).
        rewrite (pos_sect_same v l k p) by (done || lia). by rewrite Hview. }
      destruct (decide (p <= k < p + zlen bs)).
      * rewrite (proj2 (Z.leb_le p k)), (proj2 (Z.ltb_lt k _)) by lia. simpl.
        rewrite zget_zwrite_in by (unfold zlen, SS in *; lia). f_equal. lia.
      * assert ((p <=? k) && (k <? p + zlen bs) = false) as ->.
        { apply andb_false_iff. rewrite Z.leb_gt, Z.ltb_ge. lia. }
        rewrite zget_zwrite_out by lia. rewrite Hold by lia.
        unfold file_byte. by rewrite (pos_sect_same v l k p) by (done || lia).
    + assert ((p <=? k) && (k <? p + zlen bs) = false) as ->.
      { apply andb_false_iff. rewrite Z.leb_gt, Z.ltb_ge. unfold SS in *.
        destruct (Z.lt_total (k / 512) (p / 512)) as [?|[?|?]]; [left; lia|done|right; lia]. }
      apply (file_byte_stored v v' l (pos_sect (vfs v) l p)); auto; [lia|].
      intros He. apply Hne. apply (pos_sect_inj v l k p); auto; lia.
Qed.

(** Whole sectors of one cluster. *)
Lemma direct_written v l p wbuff cc lim v' :
  wf v → in_chain v l → NoDup l → 0 <= p → p mod SS = 0 → 0 < cc →
  p mod bcs (vfs v) / SS + cc <= csize (vfs v) → p < bcs (vfs v) * zlen l → SS * cc <= zlen wbuff →
  wf v' → core (vfs v) = core (vfs v') →
  veqx (λ s, pos_sect (vfs v) l p <= s < pos_sect (vfs v) l p + cc) v v' →
  (∀ j, 0 <= j < cc → view v' (pos_sect (vfs v) l p + j) = zread wbuff (SS * j) SS) →
  (mirror v → mirror v') → written v l p (zread wbuff 0 (SS * cc)) lim v'.
Proof.
  intros Hwf Hl Hnd Hp Ha Hcc Hfit Hpl Hlen Hwf' Hc Hx Hview Hm.
  pose proof (bcs_pos v Hwf) as Hb. pose proof (pos_range v p Hwf Hp) as Hpr.
  pose proof (pos_index v p l Hwf ltac:(lia)) as Hpi.
  assert (zlen (zread wbuff 0 (SS * cc)) = SS * cc) as Hlz.
  { unfold zlen, SS in *. rewrite zread_length by (unfold zlen; lia). lia. }
  (* offsets of the run *)
  assert (∀ i, 0 <= i < SS * cc → p + i < bcs (vfs v) * zlen l ∧
     pos_sect (vfs v) l (p + i) = pos_sect (vfs v) l p + i / SS ∧ (p + i) mod SS = i mod SS) as Hrun.
  { intros i Hi. assert (p mod bcs (vfs v) = SS * (p mod bcs (vfs v) / SS)) as Hmm.
    { unfold bcs, SS in *. rewrite (Z.mul_comm (csize (vfs v))), Z.rem_mul_r, Ha by lia.
      rewrite Z.add_0_l, (Z.mul_comm 512 (_ mod _)), Z.div_mul by lia. lia. }
    pose proof (Z.div_mod p (bcs (vfs v)) ltac:(lia)) as Hdm.
    pose proof (Z.mod_pos_bound p (bcs (vfs v)) ltac:(lia)).
    assert (p mod bcs (vfs v) + i < bcs (vfs v)) by (unfold bcs, SS in *; lia).
    assert ((p + i) / bcs (vfs v) = p / bcs (vfs v)) as E1.
    { symmetry. apply Z.div_unique_pos with (p mod bcs (vfs v) + i); lia. }
    assert ((p + i) mod bcs (vfs v) = p mod bcs (vfs v) + i) as E2.
    { symmetry. apply Z.mod_unique_pos with (p / bcs (vfs v)); lia. }
    split_and!.
    - assert (p / bcs (vfs v) + 1 <= zlen l) by lia. nia.
    - unfold pos_sect. rewrite E1, E2. unfold SS in *.
      replace (p mod bcs (vfs v) + i) with (i + p mod bcs (vfs v) / 512 * 512) by lia.
      rewrite Z.div_add by lia. unfold data_sect. lia.
    - unfold SS in *. rewrite Z.add_mod, Ha, Z.add_0_l, Z.mod_mod by lia. done. }
  split; auto.
  - eapply veqx_weaken; [|done]. intros s Hs. simpl in Hs.
    exists (p / bcs (vfs v)), (p mod bcs (vfs v) / SS + (s - pos_sect (vfs v) l p)).
    split_and!; [lia..|]. unfold pos_sect, data_sect. lia.
  - intros k Hk Hkl. rewrite Hlz. unfold file_byte. rewrite <- (core_pos_sect _ _ l k Hc).
    destruct (decide (p <= k < p + SS * cc)) as [Hin|Hout].
    + rewrite (proj2 (Z.leb_le p k)), (proj2 (Z.ltb_lt k _)) by lia. simpl.
      destruct (Hrun (k - p) ltac:(lia)) as (_&Hps&Hmod).
      replace (p + (k - p)) with k in * by lia. rewrite Hps, Hmod.
      assert (0 <= (k - p) / SS < cc) by (unfold SS in *; Z.div_mod_to_equations; lia).
      rewrite Hview by done. unfold SS in *.
      rewrite zget_zread by (Z.div_mod_to_equations; lia).
      rewrite zget_zread by lia. f_equal. Z.div_mod_to_equations; lia.
    + assert ((p <=? k) && (k <? p + SS * cc) = false) as ->.
      { apply andb_false_iff. rewrite Z.leb_gt, Z.ltb_ge. lia. }
      rewrite (vx_view _ _ _ Hx); [done|by apply pos_sect_vis; [..|lia]|].
      intros Hs. set (j := pos_sect (vfs v) l k - pos_sect (vfs v) l p) in *.
      destruct (Hrun (SS * j)) as (Hr1&Hr2&_); [unfold SS in *; lia|].
      replace (SS * j / SS) with j in Hr2 by (unfold SS; rewrite Z.mul_comm, Z.div_mul; lia).
      assert (k / SS = (p + SS * j) / SS) as He.
      { apply (pos_sect_inj v l); auto; [lia|unfold SS in *; lia|lia]. }
      unfold SS in *. rewrite (Z.mul_comm 512 j), Z.div_add in He by lia.
      pose proof (Z.div_mod k 512). pose proof (Z.div_mod p 512).
      pose proof (Z.mod_pos_bound k 512). lia.
Qed.

End inv.
