(* ===== verification/FfWriteLoop.v ===== *)
(** Writing files, the loop: one turn of [f_write] and their composition.

    [wrote] collects what a sequence of turns does to the volume and to the
    file; it is closed under composition, so the theorem on [f_write] is an
    induction on the turns, whose number [turns] bounds. *)
From Stdlib Require Import ZArith Lia.
From stdpp Require Import base list numbers option.
From S2P Require Import Prelude BlockDevice FfTypes FfWindow FfFat FfChain FfUnicode FfLfn FfDir FfName FfMount FfFile FfRead FfWrite.

Local Open Scope Z_scope.
Local Open Scope st_scope.

Section inv.
Context {D : Type} {BD : BlockDevice D} {BL : BlockDeviceLaws D}.
Implicit Types v : vol D.

Definition in_range (p n k : Z) : bool := (p <=? k) && (k <? p + n).

Lemma in_range_true p n k : p <= k < p + n → in_range p n k = true.
Proof. unfold in_range. rewrite andb_true_iff, Z.leb_le, Z.ltb_lt. lia. Qed.

Lemma in_range_false p n k : ¬ (p <= k < p + n) → in_range p n k = false.
Proof. unfold in_range. rewrite andb_false_iff, Z.leb_gt, Z.ltb_ge. lia. Qed.

(** A file is empty, or starts at the head of its chain. *)
Definition file_chain v (c : Z) (l : list Z) : Prop :=
  (l = [] ∧ c = 0) ∨ chain (fat_entry v) (n_fatent (vfs v)) c l.

(** The bytes [bs] went to offset [p] of the file [l] of size [lim], which
    became the file [l'] starting at [c']. *)
Record wrote v (l : list Z) v' (c' : Z) (l' : list Z) (p : Z) (bs : list Z) (lim : Z) : Prop := mkWrote {
  wo_wf : wf v';
  wo_veqx : veqx (λ s, in_fat1 (vfs v) s ∨ in_data (vfs v) l' s) v v';
  wo_mirror : mirror v → mirror v';
  wo_sane : sane v';
  wo_fat c : valid_clst v c → c ∉ l' → fat_entry v' c = fat_entry v c;
  wo_ext : ∃ k, l' = l ++ k ∧ ∀ r, r ∈ k → valid_clst v r ∧ fat_entry v r = 0;
  wo_chain : file_chain v' c' l';
  wo_byte k : 0 <= k < Z.max lim (p + zlen bs) → k < bcs (vfs v) * zlen l' →
    file_byte v' l' k =
      if in_range p (zlen bs) k then zget bs (k - p) else file_byte v l k
}.

Lemma zget_app_l (l k : list Z) i : 0 <= i < zlen l → zget (l ++ k) i = zget l i.
Proof. intros. unfold zget, zlen in *. by rewrite lookup_app_l by lia. Qed.

Lemma zget_app_r (l k : list Z) i : zlen l <= i → zget (l ++ k) i = zget k (i - zlen l).
Proof.
  intros. unfold zget, zlen in *. rewrite lookup_app_r by lia. do 2 f_equal. lia.
Qed.

Lemma zlen_app (l k : list Z) : zlen (l ++ k) = zlen l + zlen k.
Proof. unfold zlen. rewrite length_app. lia. Qed.

Lemma geo_bcs f f' : geo f = geo f' → bcs f = bcs f'.
Proof. intros Hc. apply geo_fields in Hc as (_&_&_&_&_&E&_). unfold bcs. by rewrite E. Qed.

Lemma geo_pos_sect f f' l p : geo f = geo f' → pos_sect f l p = pos_sect f' l p.
Proof.
  intros Hc. unfold pos_sect, data_sect. rewrite (geo_bcs _ _ Hc).
  apply geo_fields in Hc as (_&_&_&_&_&E&_&_&_&_&_&E'). by rewrite E, E'.
Qed.

Lemma geo_in_fat1 f f' s : geo f = geo f' → in_fat1 f s ↔ in_fat1 f' s.
Proof.
  intros Hc. apply geo_fields in Hc as (_&_&_&_&_&_&_&E1&_&E2&_). unfold in_fat1. by rewrite E1, E2.
Qed.

Lemma geo_in_data f f' l s : geo f = geo f' → in_data f l s ↔ in_data f' l s.
Proof.
  intros Hc. apply geo_fields in Hc as (_&_&_&_&_&E1&_&_&_&_&_&E2).
  unfold in_data, data_sect. by rewrite E1, E2.
Qed.

Lemma in_data_app f l k s : in_data f l s → in_data f (l ++ k) s.
Proof.
  intros (q & j & Hq & Hj & ->). exists q, j. rewrite zlen_app, zget_app_l by done.
  split_and!; auto; unfold zlen in *; lia.
Qed.

Lemma pos_sect_app v l k p :
  wf v → 0 <= p < bcs (vfs v) * zlen l → pos_sect (vfs v) (l ++ k) p = pos_sect (vfs v) l p.
Proof. intros Hwf Hp. unfold pos_sect. by rewrite zget_app_l by by apply pos_index. Qed.

Lemma file_chain_in v c l : file_chain v c l → in_chain v l.
Proof.
  intros [[-> _]|Hch] k Hk; [unfold zlen in Hk; simpl in Hk; lia|].
  by apply (zget_chain _ _ _ _ _ Hch).
Qed.

Lemma file_chain_nonzero v c l x : wf v → file_chain v c l → x ∈ l → fat_entry v x ≠ 0.
Proof.
  intros Hwf [[-> _]|Hch] Hx; [by apply not_elem_of_nil in Hx|].
  pose proof (n_fatent_bound v Hwf).
  apply (chain_nonzero (fat_entry v) (n_fatent (vfs v)) c l x); [lia|done..].
Qed.

Lemma file_chain_NoDup v c l : file_chain v c l → NoDup l.
Proof. intros [[-> _]|Hch]; [constructor|by eapply chain_NoDup]. Qed.

(** Data sectors of a file are not sectors of the FAT. *)
Lemma in_data_vis v l s :
  wf v → in_chain v l → in_data (vfs v) l s → vis v s ∧ ¬ in_fat1 (vfs v) s.
Proof.
  intros Hwf Hl (q & j & Hq & Hj & ->).
  destruct (data_sect_vis v (zget l q) j Hwf (Hl q Hq) Hj) as (Hv & _ & Hge).
  split; [done|]. unfold in_fat1. lia.
Qed.

Lemma in_chain_veqx P v v' l : veqx P v v' → in_chain v l → in_chain v' l.
Proof. intros Hx Hl k Hk. apply (valid_clst_veqx _ _ _ _ Hx). by apply Hl. Qed.

(** A byte of the file stays when its sector does. *)
Lemma file_byte_keep P v v' l k p :
  wf v → veqx P v v' → in_chain v l → 0 <= p < bcs (vfs v) * zlen l →
  ¬ P (pos_sect (vfs v) l p) → file_byte v' (l ++ k) p = file_byte v l p.
Proof.
  intros Hwf Hx Hl Hp HP. unfold file_byte. rewrite <- (geo_pos_sect _ _ (l ++ k) p (vx_geo _ _ _ Hx)).
  rewrite pos_sect_app by done. rewrite (vx_view _ _ _ Hx); [done|by apply pos_sect_vis|done].
Qed.

Lemma wrote_grown v l v' c' l' p lim :
  wf v → in_chain v l → 0 <= p → p <= lim <= bcs (vfs v) * zlen l →
  grown v l v' c' l' → wrote v l v' c' l' p [] lim.
Proof.
  intros Hwf Hl Hp0 Hlim [Hwf' Hx Hm Hs Hf He Hch].
  assert (∃ k, l' = l ++ k ∧ ∀ r, r ∈ k → valid_clst v r ∧ fat_entry v r = 0) as Hext.
  { destruct He as [->|(r & -> & Hr & Hr0)].
    - exists []. rewrite app_nil_r. split; [done|]. intros r Hr. by apply not_elem_of_nil in Hr.
    - exists [r]. split; [done|]. by intros ? ->%list_elem_of_singleton. }
  split; auto.
  - eapply veqx_weaken; [|done]. auto.
  - right. by rewrite (n_fatent_veqx _ _ _ Hx).
  - intros k Hk _. destruct Hext as (k' & -> & _). change (zlen []) with 0 in *.
    rewrite in_range_false by lia. apply (file_byte_keep (in_fat1 (vfs v))); auto; [lia|].
    apply (in_data_vis v l); auto. apply pos_sect_in_data; [done|lia].
Qed.

Lemma wrote_quiet v v' c l p lim :
  wf v → sane v → file_chain v c l → 0 <= p → p <= lim <= bcs (vfs v) * zlen l →
  quiet v v' → wrote v l v' c l p [] lim.
Proof.
  intros Hwf Hs Hch Hp Hlim Hq. pose proof Hq as (Hwf' & Hv & Hm).
  split; eauto using sane_veq, veq_veqx.
  - intros x Hx _. symmetry. by apply fat_entry_veq.
  - exists []. rewrite app_nil_r. split; [done|]. intros r Hr. by apply not_elem_of_nil in Hr.
  - destruct Hch as [?|Hch]; [by left|right].
    pose proof (n_fatent_veqx (λ _, False) v v' (veq_veqx _ _ _ Hv)) as ->.
    eapply chain_ext; [|done]. intros x Hx. symmetry. apply fat_entry_veq; auto.
    by apply (chain_valid _ _ _ _ _ Hch).
  - intros k Hk _. change (zlen []) with 0 in *. rewrite in_range_false by lia.
    symmetry. apply file_byte_veq; eauto using file_chain_in. lia.
Qed.

Lemma wrote_written v v' c l p bs lim :
  wf v → sane v → file_chain v c l → 0 <= p → p <= lim <= bcs (vfs v) * zlen l →
  written v l p bs (Z.max lim (p + zlen bs)) v' → wrote v l v' c l p bs lim.
Proof.
  intros Hwf [Hs1 Hs2] Hch Hp Hlim [Hwf' Hc Hx Hm Hb].
  pose proof (file_chain_in _ _ _ Hch) as Hl. pose proof (n_fatent_veqx _ _ _ Hx) as En.
  assert (∀ x, valid_clst v x → fat_entry v' x = fat_entry v x) as Hfat.
  { intros x Hxv. symmetry. apply (fat_entry_veqx _ _ _ _ Hwf Hx); [|done].
    intros s Hs Hd. by apply (in_data_vis v l s) in Hd as [_ ?]. }
  split; auto.
  - eapply veqx_weaken; [|done]. auto.
  - split.
    + intros x Hxv. assert (valid_clst v x) by (unfold valid_clst in *; by rewrite <- En).
      rewrite Hfat by done. auto.
    + pose proof (core_fields _ _ Hc) as (_&_&_&_&_&_&_&El&_). by rewrite <- El.
  - exists []. rewrite app_nil_r. split; [done|]. intros r Hr. by apply not_elem_of_nil in Hr.
  - destruct Hch as [?|Hch]; [by left|right]. rewrite En. eapply chain_ext; [|done].
    intros x Hxl. apply Hfat, (chain_valid _ _ _ _ _ Hch Hxl).
Qed.

Lemma wrote_trans v l v1 c1 l1 p b1 lim v2 c2 l2 b2 :
  wf v → in_chain v l → 0 <= p → p <= lim <= bcs (vfs v) * zlen l →
  Z.max lim (p + zlen b1) <= bcs (vfs v) * zlen l1 →
  wrote v l v1 c1 l1 p b1 lim →
  wrote v1 l1 v2 c2 l2 (p + zlen b1) b2 (Z.max lim (p + zlen b1)) →
  wrote v l v2 c2 l2 p (b1 ++ b2) lim.
Proof.
  intros Hwf Hl Hp Hlim Hlim1 W1 W2.
  pose proof (wo_veqx _ _ _ _ _ _ _ _ W1) as Hx. pose proof (vx_geo _ _ _ Hx) as Hg.
  pose proof (n_fatent_veqx _ _ _ Hx) as En. pose proof (wo_wf _ _ _ _ _ _ _ _ W1) as Hwf1.
  destruct (wo_ext _ _ _ _ _ _ _ _ W1) as (k1 & E1 & F1).
  destruct (wo_ext _ _ _ _ _ _ _ _ W2) as (k2 & E2 & F2).
  assert (0 <= zlen b1 ∧ 0 <= zlen b2) as [Hn1 Hn2] by (unfold zlen; lia).
  assert (∀ r, valid_clst v r → valid_clst v1 r) as Hval by (intros r; by apply (valid_clst_veqx _ _ _ _ Hx)).
  assert (∀ r, r ∉ l2 → r ∉ l1) as Hsub.
  { intros r Hr Hr1. apply Hr. rewrite E2. apply elem_of_app. by left. }
  split.
  - apply W2.
  - apply (veqx_trans _ _ v1).
    + eapply veqx_weaken; [|done]. intros s [?|?]; [by left|right]. rewrite E2. by apply in_data_app.
    + eapply veqx_weaken; [|apply W2]. intros s [Hs|Hs]; [left|right].
      * by rewrite (geo_in_fat1 _ _ s Hg).
      * by rewrite (geo_in_data _ _ l2 s Hg).
  - intros Hm. apply W2, W1, Hm.
  - apply W2.
  - intros c Hc Hn. rewrite (wo_fat _ _ _ _ _ _ _ _ W2); auto. apply W1; auto.
  - exists (k1 ++ k2). rewrite E2, E1, app_assoc. split; [done|]. intros r [Hr|Hr]%elem_of_app; [auto|].
    destruct (F2 r Hr) as [Hr1 Hr2].
    assert (valid_clst v r) as Hrv by (unfold valid_clst in *; by rewrite <- En).
    split; [done|]. rewrite <- (wo_fat _ _ _ _ _ _ _ _ W1); auto.
    intros Hin. by apply (file_chain_nonzero v1 c1 l1 r Hwf1 (wo_chain _ _ _ _ _ _ _ _ W1)).
  - apply W2.
  - intros k Hk Hkl. rewrite zlen_app in *.
    rewrite (wo_byte _ _ _ _ _ _ _ _ W2) by (rewrite <- ?(geo_bcs _ _ Hg); lia).
    destruct (decide (p + zlen b1 <= k < p + zlen b1 + zlen b2)).
    { rewrite !in_range_true by lia. rewrite zget_app_r by lia. f_equal. lia. }
    rewrite (in_range_false (p + zlen b1)) by lia.
    rewrite (wo_byte _ _ _ _ _ _ _ _ W1) by lia.
    destruct (decide (p <= k < p + zlen b1)).
    + rewrite !in_range_true by lia. by rewrite zget_app_l by lia.
    + by rewrite !in_range_false by lia.
Qed.

(** * One turn *)

(** The fields of [FIL] that the loop of [f_write] does not touch. *)
Definition same_ids (fp fp1 : FIL) : Prop :=
  flag fp1 = flag fp ∧ err fp1 = err fp ∧ obj_fs (fobj fp1) = obj_fs (fobj fp) ∧
  obj_id (fobj fp1) = obj_id (fobj fp) ∧ dir_sect fp1 = dir_sect fp ∧ dir_ptr fp1 = dir_ptr fp.

Lemma write_advance_fields fp n :
  fptr fp + n < 2 ^ 32 → 0 <= fptr fp → 0 <= n →
  let fp' := write_advance fp n in
  fptr fp' = fptr fp + n ∧ objsize (fobj fp') = Z.max (objsize (fobj fp)) (fptr fp + n) ∧
  sclust (fobj fp') = sclust (fobj fp) ∧ fclust fp' = fclust fp ∧ fsect fp' = fsect fp ∧
  same_ids fp fp'.
Proof.
  intros Hn H0 H1. unfold write_advance. rewrite u32_small by lia. cbn zeta.
  destruct fp as [o ? ? ? ? ? ? ?]. destruct o. simpl in *.
  destruct (_ <? _) eqn:E; zb; simpl; split_and!; try done; lia.
Qed.

Lemma advance_write_ok v fp l v' fp1 l' bs n :
  wf v → fil_ok v fp l → fptr fp1 = fptr fp → objsize (fobj fp1) = objsize (fobj fp) →
  wrote v l v' (sclust (fobj fp1)) l' (fptr fp) bs (objsize (fobj fp)) →
  fclust fp1 = zget l' (fptr fp / bcs (vfs v)) → fptr fp / bcs (vfs v) < zlen l' →
  0 < n → fptr fp + n < 2 ^ 32 → fptr fp mod bcs (vfs v) + n <= bcs (vfs v) →
  ((fptr fp + n) mod SS ≠ 0 →
     fsect fp1 = pos_sect (vfs v) l' (fptr fp) ∧ fptr fp mod SS + n < SS) →
  fil_ok v' (write_advance fp1 n) l'.
Proof.
  intros Hwf [Hch Hsz Hp Hc Hs] Ef Eo W Hcl Hlen Hn Hlt Hfit Hsect.
  pose proof (bcs_pos v Hwf) as Hb. pose proof (vx_geo _ _ _ (wo_veqx _ _ _ _ _ _ _ _ W)) as Hg.
  destruct (write_advance_fields fp1 n) as (A1&A2&A3&A4&A5&_); [lia..|].
  destruct (wo_ext _ _ _ _ _ _ _ _ W) as (k & El & _).
  assert (zlen l <= zlen l') by (rewrite El, zlen_app; unfold zlen; lia).
  pose proof (Z.div_mod (fptr fp) (bcs (vfs v)) ltac:(lia)) as Hd.
  pose proof (Z.mod_pos_bound (fptr fp) (bcs (vfs v)) ltac:(lia)) as Hm.
  assert (objsize (fobj fp) <= bcs (vfs v) * zlen l') by nia.
  assert (fptr fp + n <= bcs (vfs v) * zlen l') by nia.
  split; rewrite ?A1, ?A2, ?A3, ?A4, ?A5, ?Ef, ?Eo, <- ?(geo_bcs _ _ Hg); try lia.
  - apply W.
  - intros _. rewrite Hcl. f_equal. apply Z.div_unique_pos with (fptr fp mod bcs (vfs v) + n - 1); lia.
  - intros Hmod. destruct (Hsect Hmod) as [-> Hlt']. rewrite <- (geo_pos_sect _ _ _ _ Hg).
    apply pos_sect_same; [done|lia|]. unfold SS in *.
    pose proof (Z.mod_pos_bound (fptr fp) 512). pose proof (Z.div_mod (fptr fp) 512).
    apply Z.div_unique_pos with (fptr fp mod 512 + n); lia.
Qed.

Lemma fil_ok_file v fp l : fil_ok v fp l → file_chain v (sclust (fobj fp)) l.
Proof. by intros [Hch _ _ _ _]. Qed.

Definition located v (fp : FIL) (l : list Z) (fp1 : FIL) v' (l' : list Z) : Prop :=
  same_but_cluster fp fp1 ∧ wrote v l v' (sclust (fobj fp1)) l' (fptr fp) [] (objsize (fobj fp)) ∧
  fclust fp1 = zget l' (fptr fp / bcs (vfs v)) ∧ fptr fp / bcs (vfs v) < zlen l'.

Lemma write_locate v fp l :
  wf v → reliable v → sane v → fil_ok v fp l → fptr fp mod SS = 0 →
  ∃ r v', (if Z.land (fptr fp / SS) (csize (vfs v) - 1) =? 0 then write_cluster fp
           else sret (inr fp)) v = Some (r, v') ∧
    match r with
    | inl None => quiet v v' ∧ full v
    | inl (Some _) => False
    | inr fp1 => ∃ l', located v fp l fp1 v' l'
    end.
Proof.
  intros Hwf HR Hsane Hok Ha. pose proof Hok as [_ Hsz Hp Hc _]. pose proof (bcs_pos v Hwf) as Hb.
  rewrite pos_mod by (done || lia).
  destruct (Z.eqb_spec (fptr fp mod bcs (vfs v) / SS) 0) as [Hz|Hz].
  - destruct (write_cluster_spec v fp l) as (r & v' & E & Hpost); auto; [apply pos_boundary; [done|lia|done..]|].
    exists r, v'. split; [done|]. destruct r as [[e|]|fp1]; [done..|].
    destruct Hpost as (Hsame & l' & Hg & Hcl & Hlen). exists l'. split_and!; auto.
    apply wrote_grown; auto; [by eapply fil_ok_in_chain|lia..].
  - exists (inr fp), v. split; [done|]. exists l.
    assert (fptr fp mod bcs (vfs v) ≠ 0) as Hm by (intros Hm; apply Hz; by rewrite Hm).
    assert (0 < fptr fp) by (destruct (decide (fptr fp = 0)) as [E|]; [by rewrite E, Z.mod_0_l in Hm by lia|lia]).
    split_and!; [done| | |].
    + apply wrote_quiet; auto using fil_ok_file, quiet_refl; lia.
    + rewrite Hc by done. by rewrite pos_prev.
    + pose proof (Z.div_mod (fptr fp) (bcs (vfs v)) ltac:(lia)).
      pose proof (Z.mod_pos_bound (fptr fp) (bcs (vfs v)) ltac:(lia)). nia.
Qed.

(** The three ways of storing, from a state where the cluster is known. *)
Section put.
Context v (c : Z) (l : list Z) (lim : Z) (wbuff : list Z) (fp : FIL).
Hypothesis Hwf : wf v.
Hypothesis HR : reliable v.
Hypothesis Hsane : sane v.
Hypothesis Hch : file_chain v c l.
Hypothesis Hp : 0 <= fptr fp < bcs (vfs v) * zlen l.
Hypothesis Hlim : fptr fp <= lim <= bcs (vfs v) * zlen l.
Hypothesis Hbb : bytes wbuff.

Lemma zlen_zread0 (n : Z) : 0 <= n <= zlen wbuff → zlen (zread wbuff 0 n) = n.
Proof. intros. unfold zlen. rewrite zread_length by (unfold zlen in *; lia). lia. Qed.

Lemma put_partial btw :
  0 < btw <= zlen wbuff → fsect fp = pos_sect (vfs v) l (fptr fp) →
  let n := Z.min (SS - fptr fp mod SS) btw in
  ∃ v', write_partial fp wbuff btw v = Some (Some n, v') ∧
        wrote v l v' c l (fptr fp) (zread wbuff 0 n) lim.
Proof.
  intros Hb Hs n. pose proof (file_chain_in _ _ _ Hch) as Hl.
  pose proof (Z.mod_pos_bound (fptr fp) SS ltac:(unfold SS; lia)).
  assert (vis v (fsect fp)) as Hv by (rewrite Hs; by apply pos_sect_vis).
  destruct (write_partial_spec v fp wbuff btw Hwf HR Hv Hbb) as (v' & E & Hst).
  exists v'. split; [done|]. rewrite Hs in Hst. apply wrote_written; auto; [lia..|].
  eapply partial_written; [done|done|by eapply file_chain_NoDup|lia|lia| | | | |apply Hst].
  - rewrite zlen_zread0; lia.
  - rewrite zlen_zread0; lia.
  - by apply view_length.
  - done.
Qed.

Lemma put_edge btw :
  0 < btw <= zlen wbuff → btw <= SS → fsect fp = pos_sect (vfs v) l (fptr fp) →
  wflag (vfs v) = 0 → fptr fp mod SS = 0 → lim <= fptr fp →
  ∃ v', write_partial fp wbuff btw (set_vfs (set_winsect (fsect fp) (vfs v)) v) = Some (Some btw, v') ∧
        wrote v l v' c l (fptr fp) (zread wbuff 0 btw) lim.
Proof.
  intros Hb Hb' Hs Hf Ha Hedge. pose proof (file_chain_in _ _ _ Hch) as Hl.
  assert (vis v (fsect fp)) as Hv by (rewrite Hs; by apply pos_sect_vis).
  destruct (write_edge_spec v fp wbuff btw (fsect fp) Hwf Hf Hv Hbb eq_refl) as (w & v' & E & Hw & Hst).
  replace (Z.min (SS - fptr fp mod SS) btw) with btw in * by (rewrite Ha; lia).
  exists v'. split; [done|]. rewrite Hs in Hst. apply wrote_written; auto; [lia..|].
  eapply partial_written; [done|done|by eapply file_chain_NoDup|lia|lia| | |apply Hw| |apply Hst].
  - rewrite zlen_zread0; lia.
  - rewrite zlen_zread0; lia.
  - intros i Hi Hni Hlt. rewrite zlen_zread0 in * by lia. lia.
Qed.

Lemma put_direct cc :
  fptr fp mod SS = 0 → 0 < cc → fptr fp mod bcs (vfs v) / SS + cc <= csize (vfs v) →
  SS * cc <= zlen wbuff →
  ∃ v', write_direct wbuff (pos_sect (vfs v) l (fptr fp)) cc v = Some (Some (SS * cc), v') ∧
        wrote v l v' c l (fptr fp) (zread wbuff 0 (SS * cc)) lim.
Proof.
  intros Ha Hcc Hfit Hlen. pose proof (file_chain_in _ _ _ Hch) as Hl.
  pose proof (pos_range v (fptr fp) Hwf ltac:(lia)) as Hpr.
  assert (∀ j, 0 <= j < cc → in_data (vfs v) l (pos_sect (vfs v) l (fptr fp) + j)) as Hin.
  { intros j Hj. exists (fptr fp / bcs (vfs v)), (fptr fp mod bcs (vfs v) / SS + j).
    split; [by apply pos_index|]. split; [lia|]. unfold pos_sect, data_sect. lia. }
  destruct (write_direct_spec v wbuff (pos_sect (vfs v) l (fptr fp)) cc Hwf HR Hcc)
    as (v' & E & Hwf' & Hc & Hx & Hview & Hm); [| |done..|].
  1,2: intros j Hj; by apply (in_data_vis v l); auto.
  exists v'. split; [done|]. apply wrote_written; auto; [lia..|].
  eapply direct_written; eauto using file_chain_NoDup; lia.
Qed.
End put.

Lemma wrote_then v l v1 c1 l1 p lim v2 c2 l2 bs :
  wf v → in_chain v l → 0 <= p → p <= lim <= bcs (vfs v) * zlen l →
  wrote v l v1 c1 l1 p [] lim → wrote v1 l1 v2 c2 l2 p bs lim → wrote v l v2 c2 l2 p bs lim.
Proof.
  intros Hwf Hl Hp Hlim W1 W2. change bs with ([] ++ bs).
  pose proof (bcs_pos v Hwf). destruct (wo_ext _ _ _ _ _ _ _ _ W1) as (k & El & _).
  assert (zlen l <= zlen l1) by (rewrite El, zlen_app; unfold zlen; lia).
  assert (p + zlen (@nil Z) = p) as E by (unfold zlen; simpl; lia).
  apply (wrote_trans v l v1 c1 l1); auto; rewrite E; [nia|].
  by replace (Z.max lim p) with lim by lia.
Qed.

Definition turned v (fp : FIL) (l wbuff : list Z) (n : Z) (fp1 : FIL) v' : Prop :=
  ∃ l', wrote v l v' (sclust (fobj fp1)) l' (fptr fp) (zread wbuff 0 n) (objsize (fobj fp)) ∧
    fil_ok v' (write_advance fp1 n) l' ∧ same_ids fp fp1 ∧
    fptr fp1 = fptr fp ∧ objsize (fobj fp1) = objsize (fobj fp).

Lemma turn_partial v fp l wbuff btw :
  wf v → reliable v → sane v → fil_ok v fp l → bytes wbuff → 0 < btw <= zlen wbuff →
  fptr fp + btw < 2 ^ 32 → fptr fp mod SS ≠ 0 →
  let n := Z.min (SS - fptr fp mod SS) btw in
  ∃ v', write_partial fp wbuff btw v = Some (Some n, v') ∧ turned v fp l wbuff n fp v'.
Proof.
  intros Hwf HR Hsane Hok Hbb Hb Hlt Ha n. pose proof Hok as [Hch Hsz Hp Hc Hs].
  pose proof (bcs_pos v Hwf) as Hbc. pose proof (Z.mod_pos_bound (fptr fp) SS ltac:(unfold SS; lia)).
  assert (fptr fp mod bcs (vfs v) ≠ 0) as Hm by (intros Hm; by apply Ha, (bcs_aligned v)).
  assert (0 < fptr fp) by (destruct (decide (fptr fp = 0)) as [E|]; [by rewrite E, Z.mod_0_l in Hm by lia|lia]).
  assert (fptr fp < bcs (vfs v) * zlen l).
  { destruct (decide (fptr fp = bcs (vfs v) * zlen l)) as [E|]; [|lia].
    by rewrite E, Z.mul_comm, Z.mod_mul in Hm by lia. }
  destruct (put_partial v (sclust (fobj fp)) l (objsize (fobj fp)) wbuff fp)
    with (btw := btw) as (v' & E & W); auto; try lia.
  exists v'. split; [done|]. exists l. split_and!; auto; try done.
  pose proof (mod_sector_fit v (fptr fp) Hwf ltac:(lia)).
  eapply advance_write_ok; eauto; try lia.
  - rewrite Hc by done. by rewrite pos_prev.
  - apply pos_index; [done|lia].
  - intros Hmod. split; [auto|]. unfold n in *.
    destruct (decide (SS - fptr fp mod SS <= btw)); [|lia].
    exfalso. apply Hmod. rewrite Z.min_l by lia. unfold SS in *.
    replace (fptr fp + (512 - fptr fp mod 512)) with ((fptr fp / 512 + 1) * 512)
      by (pose proof (Z.div_mod (fptr fp) 512); lia).
    apply Z.mod_mul. lia.
Qed.

(** The window is flushed when it holds the sector that the file leaves. *)
Lemma flush_quiet v (b : bool) :
  wf v → reliable v →
  ∃ v', (if b then sync_window else sret FR_OK) v = Some (FR_OK, v') ∧ quiet v v'.
Proof.
  intros Hwf HR. destruct b; [|exists v; split; [done|by apply quiet_refl]].
  destruct (sync_window_spec v Hwf) as (r & v' & E & Hwf' & Hv & _ & _ & _ & _ & Hrel).
  destruct (Hrel HR) as [-> Hm]. exists v'. by split_and!.
Qed.

(** From the cluster on: a run of whole sectors. *)
Lemma turn_direct v fp l fp1 v2 l1 wbuff cc :
  wf v → reliable v → fil_ok v fp l → fptr fp mod SS = 0 → bytes wbuff →
  located v fp l fp1 v2 l1 → 0 < cc → SS * cc <= zlen wbuff → fptr fp + SS * cc < 2 ^ 32 →
  fptr fp mod bcs (vfs v) / SS + cc <= csize (vfs v) →
  ∃ v', write_direct wbuff (pos_sect (vfs v) l1 (fptr fp)) cc v2 = Some (Some (SS * cc), v') ∧
        turned v fp l wbuff (SS * cc) fp1 v'.
Proof.
  intros Hwf HR Hok Ha Hbb (Hsame & W & Hcl & Hlen) Hcc Hlw Hlt Hfit.
  pose proof Hok as [_ Hsz Hp _ _]. pose proof (fil_ok_in_chain _ _ _ Hok) as Hl.
  pose proof (wo_veqx _ _ _ _ _ _ _ _ W) as Hx. pose proof (vx_geo _ _ _ Hx) as Hg.
  pose proof (geo_fields _ _ Hg) as (_&_&_&_&_&Ecs&_). pose proof (bcs_pos v Hwf) as Hbc.
  destruct (same_fields _ _ Hsame) as (E1&E2&E3&E4&E5&E6&E7&E8&E9).
  destruct (wo_ext _ _ _ _ _ _ _ _ W) as (k & El & _).
  assert (zlen l <= zlen l1) by (rewrite El, zlen_app; unfold zlen; lia).
  assert (fptr fp < bcs (vfs v) * zlen l1).
  { pose proof (Z.div_mod (fptr fp) (bcs (vfs v)) ltac:(lia)).
    pose proof (Z.mod_pos_bound (fptr fp) (bcs (vfs v)) ltac:(lia)). nia. }
  destruct (put_direct v2 (sclust (fobj fp1)) l1 (objsize (fobj fp)) wbuff fp1)
    with (cc := cc) as (v' & E & W'); rewrite ?E1, <- ?(geo_bcs _ _ Hg), <- ?Ecs; auto;
    try apply W; try (by eapply reliable_veqx); try nia.
  rewrite E1, <- (geo_pos_sect _ _ _ _ Hg) in E. exists v'. split; [done|].
  rewrite E1 in W'.
  assert (wrote v l v' (sclust (fobj fp1)) l1 (fptr fp) (zread wbuff 0 (SS * cc)) (objsize (fobj fp)))
    as W2 by (eapply wrote_then; eauto; lia).
  exists l1. split_and!; auto; [|by split_and!].
  eapply advance_write_ok; eauto; [unfold SS; lia| |].
  - assert (fptr fp mod bcs (vfs v) = SS * (fptr fp mod bcs (vfs v) / SS)) as Hm.
    { unfold bcs, SS in *. rewrite (Z.mul_comm (csize (vfs v))), Z.rem_mul_r, Ha by lia.
      rewrite Z.add_0_l, (Z.mul_comm 512 (_ mod _)), Z.div_mul by lia. lia. }
    rewrite Hm. unfold bcs, SS in *. lia.
  - intros Hm. exfalso. apply Hm. unfold SS in *. rewrite (Z.mul_comm 512), Z.mod_add; lia.
Qed.

(** From the cluster on: the last bytes, through the window. *)
Lemma turn_tail v fp l fp1 v2 l1 wbuff btw :
  wf v → reliable v → fil_ok v fp l → fptr fp mod SS = 0 → bytes wbuff →
  located v fp l fp1 v2 l1 → 0 < btw <= zlen wbuff → btw < SS → fptr fp + btw < 2 ^ 32 →
  let fp2 := set_fsect (pos_sect (vfs v) l1 (fptr fp)) fp1 in
  ∃ v3 v', (if objsize (fobj fp1) <=? fptr fp1 then
        let! res := sync_window in
        if negb (fr_ok res) then sret res
        else upd (set_winsect (pos_sect (vfs v) l1 (fptr fp))) ;! sret FR_OK
      else sret FR_OK) v2 = Some (FR_OK, v3) ∧
    write_partial fp2 wbuff btw v3 = Some (Some btw, v') ∧ turned v fp l wbuff btw fp2 v'.
Proof.
  intros Hwf HR Hok Ha Hbb (Hsame & W & Hcl & Hlen) Hb Hbs Hlt fp2.
  pose proof Hok as [_ Hsz Hp _ _]. pose proof (fil_ok_in_chain _ _ _ Hok) as Hl.
  pose proof (wo_veqx _ _ _ _ _ _ _ _ W) as Hx. pose proof (vx_geo _ _ _ Hx) as Hg.
  pose proof (bcs_pos v Hwf) as Hbc.
  destruct (same_fields _ _ Hsame) as (E1&E2&E3&E4&E5&E6&E7&E8&E9).
  destruct (wo_ext _ _ _ _ _ _ _ _ W) as (k & El & _).
  assert (zlen l <= zlen l1) by (rewrite El, zlen_app; unfold zlen; lia).
  assert (fptr fp < bcs (vfs v) * zlen l1).
  { pose proof (Z.div_mod (fptr fp) (bcs (vfs v)) ltac:(lia)).
    pose proof (Z.mod_pos_bound (fptr fp) (bcs (vfs v)) ltac:(lia)). nia. }
  assert (∀ v',
    wrote v l v' (sclust (fobj fp1)) l1 (fptr fp) (zread wbuff 0 btw) (objsize (fobj fp)) →
    turned v fp l wbuff btw fp2 v') as Hfin.
  { intros v' W'. exists l1. split_and!; auto; [|by split_and!].
    eapply advance_write_ok; eauto; try lia.
    - pose proof (mod_sector_fit v (fptr fp) Hwf ltac:(lia)). lia.
    - split; [done|lia]. }
  pose proof (wo_wf _ _ _ _ _ _ _ _ W) as Hwf2.
  pose proof (reliable_veqx _ _ _ Hx HR) as HR2.
  pose proof (wo_sane _ _ _ _ _ _ _ _ W) as Hs2. pose proof (wo_chain _ _ _ _ _ _ _ _ W) as Hch2.
  rewrite E5, E1. destruct (_ <=? _) eqn:Ee; zb.
  - destruct (sync_window_spec v2 Hwf2) as (r & v3 & E & Hwf3 & Hv3 & _ & _ & Hfl & _ & Hrel).
    destruct (Hrel HR2) as [-> Hm3]. specialize (Hfl eq_refl).
    rewrite (sbind_run _ _ _ _ _ E). simpl.
    pose proof (core_geo _ _ (veq_core _ _ Hv3)) as Hg3.
    assert (wrote v2 l1 v3 (sclust (fobj fp1)) l1 (fptr fp) [] (objsize (fobj fp))) as W3.
    { apply wrote_quiet; auto; [lia| |by split_and!]. rewrite <- (geo_bcs _ _ Hg). nia. }
    destruct (put_edge v3 (sclust (fobj fp1)) l1 (objsize (fobj fp)) wbuff fp2)
      with (btw := btw) as (v' & E' & W');
      try change (fptr fp2) with (fptr fp1); rewrite ?E1, <- ?(geo_bcs _ _ Hg3), <- ?(geo_bcs _ _ Hg);
      auto; try lia; try nia; try apply W3.
    { simpl. by rewrite <- (geo_pos_sect _ _ _ _ Hg3), <- (geo_pos_sect _ _ _ _ Hg). }
    eexists _, v'. split; [done|]. split; [done|]. apply Hfin.
    change (fptr fp2) with (fptr fp1) in W'. rewrite E1 in W'.
    eapply wrote_then; eauto; [lia..|].
    eapply wrote_then; [done|by eapply file_chain_in|lia|rewrite <- (geo_bcs _ _ Hg); nia|done..].
  - destruct (put_partial v2 (sclust (fobj fp1)) l1 (objsize (fobj fp)) wbuff fp2)
      with (btw := btw) as (v' & E' & W');
      try change (fptr fp2) with (fptr fp1); rewrite ?E1, <- ?(geo_bcs _ _ Hg);
      auto; try lia; try nia.
    { simpl. by rewrite <- (geo_pos_sect _ _ _ _ Hg). }
    change (fptr fp2) with (fptr fp1) in *. rewrite E1, Ha in *.
    replace (Z.min (SS - 0) btw) with btw in * by lia.
    eexists _, v'. split; [done|]. split; [done|]. apply Hfin.
    eapply wrote_then; eauto; lia.
Qed.

Lemma located_quiet v fp l fp1 v1 l1 v2 :
  wf v → fil_ok v fp l → located v fp l fp1 v1 l1 → quiet v1 v2 → located v fp l fp1 v2 l1.
Proof.
  intros Hwf Hok (Hsame & W & Hcl & Hlen) Hq. split_and!; auto.
  pose proof Hok as [_ Hsz Hp _ _]. pose proof (fil_ok_in_chain _ _ _ Hok) as Hl.
  pose proof (wo_veqx _ _ _ _ _ _ _ _ W) as Hx. pose proof (vx_geo _ _ _ Hx) as Hg.
  pose proof (bcs_pos v Hwf) as Hbc. destruct (wo_ext _ _ _ _ _ _ _ _ W) as (k & El & _).
  assert (zlen l <= zlen l1) by (rewrite El, zlen_app; unfold zlen; lia).
  eapply wrote_then; eauto; [lia..|].
  apply wrote_quiet; auto; try apply W; [lia|]. rewrite <- (geo_bcs _ _ Hg). nia.
Qed.

Lemma write_step_spec v fp l wbuff btw :
  wf v → reliable v → sane v → fil_ok v fp l → bytes wbuff → 0 < btw <= zlen wbuff →
  fptr fp + btw < 2 ^ 32 →
  (∃ v', write_step fp wbuff btw v = Some ((inl None, fp), v') ∧ quiet v v' ∧ full v) ∨
  (∃ fp1 v', write_step fp wbuff btw v = Some ((inr (step_size v fp btw), fp1), v') ∧
             turned v fp l wbuff (step_size v fp btw) fp1 v').
Proof.
  intros Hwf HR Hsane Hok Hbb Hb Hlt. unfold write_step, step_size.
  rewrite (sbind_run fs _ v _ v eq_refl). pose proof Hok as [_ Hsz Hp Hc Hs].
  pose proof (bcs_pos v Hwf) as Hbc. destruct (Z.eqb_spec (fptr fp mod SS) 0) as [Ha|Ha].
  2:{ right. destruct (turn_partial v fp l wbuff btw) as (v' & E & Ht); auto.
      exists fp, v'. split; [|done]. by rewrite (sbind_run _ _ _ _ _ E). }
  destruct (write_locate v fp l) as (r & v1 & E1 & Hr); auto.
  rewrite (sbind_run _ _ _ _ _ E1). cbv beta iota. destruct r as [[e|]|fp1]; [done| |].
  { left. destruct Hr. exists v1. by split_and!. }
  right. destruct Hr as (l1 & Hloc1). rewrite (sbind_run fs _ v1 _ v1 eq_refl).
  pose proof Hloc1 as (Hsame & W1 & Hcl & Hlen).
  pose proof (wo_veqx _ _ _ _ _ _ _ _ W1) as Hx1. pose proof (vx_geo _ _ _ Hx1) as Hg1.
  destruct (flush_quiet v1 (winsect (vfs v1) =? fsect fp1)) as (v2 & E2 & Hq2);
    [apply W1|by eapply reliable_veqx|].
  rewrite (sbind_run _ _ _ _ _ E2). cbn [fr_ok negb].
  pose proof (located_quiet _ _ _ _ _ _ _ Hwf Hok Hloc1 Hq2) as Hloc2.
  assert (0 <= fptr fp < bcs (vfs v1) * zlen l1) as Hpos.
  { rewrite <- (geo_bcs _ _ Hg1). pose proof (Z.div_mod (fptr fp) (bcs (vfs v)) ltac:(lia)).
    pose proof (Z.mod_pos_bound (fptr fp) (bcs (vfs v)) ltac:(lia)). nia. }
  pose proof (wo_wf _ _ _ _ _ _ _ _ W1) as Hwf1.
  destruct (sect_of_pos v1 l1 (fptr fp) Hwf1) as [Hsn Hsp];
    [by eapply file_chain_in, (wo_chain _ _ _ _ _ _ _ _ W1)|done|].
  rewrite <- (geo_bcs _ _ Hg1) in Hsn, Hsp. rewrite <- (geo_pos_sect _ _ _ _ Hg1) in Hsp.
  rewrite Hcl, Hsn, pos_mod, Hsp by (done || lia).
  pose proof (geo_fields _ _ Hg1) as (_&_&_&_&_&Ecs&_). rewrite <- Ecs.
  pose proof (pos_range v (fptr fp) Hwf ltac:(lia)) as Hpr.
  destruct (0 <? btw / SS) eqn:Ecc; zb.
  - set (cc := Z.min (btw / SS) (csize (vfs v) - fptr fp mod bcs (vfs v) / SS)).
    assert ((if csize (vfs v) <? fptr fp mod bcs (vfs v) / SS + btw / SS
             then csize (vfs v) - fptr fp mod bcs (vfs v) / SS else btw / SS) = cc) as ->.
    { subst cc. destruct (_ <? _) eqn:?; zb; lia. }
    assert (SS * cc <= btw).
    { assert (SS * (btw / SS) <= btw) by (apply Z.mul_div_le; unfold SS; lia). unfold SS in *. lia. }
    destruct (turn_direct v fp l fp1 v2 l1 wbuff cc) as (v' & E & Ht); auto; [lia..|].
    rewrite (sbind_run _ _ _ _ _ E). by exists fp1, v'.
  - assert (btw < SS) by (assert (btw / SS = 0) as Hz by (pose proof (Z.div_pos btw SS); unfold SS in *; lia);
      apply Z.div_small_iff in Hz; unfold SS in *; lia).
    destruct (turn_tail v fp l fp1 v2 l1 wbuff btw) as (v3 & v' & E & E' & Ht); auto.
    rewrite (sbind_run _ _ _ _ _ E). cbn [fr_ok negb]. rewrite (sbind_run _ _ _ _ _ E').
    by eexists _, v'.
Qed.

(** * The loop and [f_write] *)

Lemma full_quiet v v' : wf v → quiet v v' → full v → full v'.
Proof.
  intros Hwf (_&Hv&_) [Hf|Hf]; [left|right].
  - pose proof (core_fields _ _ (veq_core _ _ Hv)) as (_&_&_&_&_&_&_&_&E&_). by rewrite <- E.
  - intros c Hc. assert (valid_clst v c) by (apply (valid_clst_veq v'); [by symmetry|done]).
    rewrite <- (fat_entry_veq v v') by done. auto.
Qed.

(** What [f_write] leaves after [n] of the [btw] bytes. *)
Record write_post v (fp : FIL) (l buff : list Z) (btw n : Z) (fp' : FIL) v' (l' : list Z) : Prop :=
mkWritePost {
  wp_count : 0 <= n <= btw;
  wp_full : n < btw → full v';
  wp_wrote : wrote v l v' (sclust (fobj fp')) l' (fptr fp) (zread buff 0 n) (objsize (fobj fp));
  wp_ok : fil_ok v' fp' l';
  wp_fptr : fptr fp' = fptr fp + n;
  wp_size : objsize (fobj fp') = Z.max (objsize (fobj fp)) (fptr fp + n);
  wp_flag : flag fp' = flag (fp_modified fp);
  wp_err : err fp' = err fp;
  wp_fs : obj_fs (fobj fp') = obj_fs (fobj fp);
  wp_id : obj_id (fobj fp') = obj_id (fobj fp);
  wp_dir : dir_sect fp' = dir_sect fp ∧ dir_ptr fp' = dir_ptr fp
}.

Lemma write_post_none v fp l buff btw v' :
  wf v → sane v → fil_ok v fp l → quiet v v' → 0 <= btw → (0 < btw → full v) →
  write_post v fp l buff btw 0 (fp_modified fp) v' l.
Proof.
  intros Hwf Hs Hok Hq Hb Hf. pose proof Hok as [Hch Hsz Hp Hc Hsct]. split; try done; try lia.
  - intros ?. by eapply full_quiet; eauto.
  - change (zread buff 0 0) with (@nil Z). apply wrote_quiet; auto; lia.
  - pose proof Hq as (_&Hv&_). apply (fil_ok_veq v v'); auto. by split.
  - simpl. lia.
  - simpl. lia.
Qed.

Lemma zread_split (buff : list Z) n m :
  0 <= n <= zlen buff → 0 <= m →
  zread buff 0 (n + m) = zread buff 0 n ++ zread (drop (Z.to_nat n) buff) 0 m.
Proof.
  intros Hn Hm. unfold zread, zlen in *. rewrite !drop_0, Z2Nat.inj_add by lia.
  rewrite <- (take_drop (Z.to_nat n) buff) at 1. rewrite take_app_ge by (rewrite length_take; lia).
  rewrite length_take, Nat.min_l by lia. do 2 f_equal. lia.
Qed.

Lemma write_post_step v fp l buff btw n fp1 v1 l1 m fp' v' l' :
  wf v → fil_ok v fp l → 0 < n <= btw → btw <= zlen buff → fptr fp + btw < 2 ^ 32 →
  wrote v l v1 (sclust (fobj fp1)) l1 (fptr fp) (zread buff 0 n) (objsize (fobj fp)) →
  fil_ok v1 (write_advance fp1 n) l1 → same_ids fp fp1 →
  fptr fp1 = fptr fp → objsize (fobj fp1) = objsize (fobj fp) →
  write_post v1 (write_advance fp1 n) l1 (drop (Z.to_nat n) buff) (btw - n) m fp' v' l' →
  write_post v fp l buff btw (n + m) fp' v' l'.
Proof.
  intros Hwf Hok Hn Hb Hlt W1 Hok1 (I1&I2&I3&I4&I5&I6) Ef Eo [P1 P2 P3 P4 P5 P6 P7 P8 P9 P10 [P11 P12]].
  pose proof Hok as [_ Hsz Hp _ _]. pose proof Hok1 as [_ Hsz1 Hp1 _ _].
  destruct (write_advance_fields fp1 n) as (A1&A2&_&_&_&B1&B2&B3&B4&B5&B6); [lia..|].
  pose proof (vx_geo _ _ _ (wo_veqx _ _ _ _ _ _ _ _ W1)) as Hg.
  assert (zlen (zread buff 0 n) = n) as Hz
    by (unfold zlen; rewrite zread_length by (unfold zlen in *; lia); lia).
  split; try (congruence || lia).
  - intros ?. apply P2. lia.
  - rewrite zread_split by lia. eapply wrote_trans; eauto using fil_ok_in_chain; rewrite ?Hz; try lia.
    + rewrite (geo_bcs _ _ Hg). lia.
    + by rewrite A1, A2, Ef, Eo in P3.
  - simpl in *. by rewrite P7, B1, I1.
Qed.

Lemma write_loop_spec fuel v fp l buff btw bw :
  wf v → reliable v → sane v → fil_ok v fp l → bytes buff → 0 <= btw <= zlen buff →
  fptr fp + btw < 2 ^ 32 → turns (fptr fp) btw < Z.of_nat fuel →
  ∃ n fp' v' l', write_loop fuel fp buff btw bw v = Some ((FR_OK, bw + n, fp'), v') ∧
    write_post v fp l buff btw n fp' v' l'.
Proof.
  revert v fp l buff btw bw. induction fuel as [|fuel IH]; intros v fp l buff btw bw Hwf HR Hs Hok Hbb Hb Hlt Hf.
  { assert (0 <= turns (fptr fp) btw); [|lia]. unfold turns, SS in *.
    pose proof (Z.mod_pos_bound (fptr fp) 512).
    destruct (_ <=? _) eqn:?; zb; [lia|]. destruct (_ =? _); Z.div_mod_to_equations; lia. }
  cbn [write_loop]. destruct (0 <? btw) eqn:Eb; zb.
  2:{ exists 0, (fp_modified fp), v, l. rewrite Z.add_0_r. split; [done|].
      apply write_post_none; auto using quiet_refl; lia. }
  pose proof Hok as [_ Hsz Hp _ _].
  destruct (write_step_spec v fp l buff btw) as [(v1 & E & Hq & Hfull)|(fp1 & v1 & E & Ht)]; auto; [lia| |];
    rewrite (sbind_run _ _ _ _ _ E); cbv beta iota.
  { exists 0, (fp_modified fp), v1, l. rewrite Z.add_0_r. split; [done|].
    apply write_post_none; auto. lia. }
  destruct (step_size_turns v fp btw) as [Hn Hturn]; [done|lia|done|].
  set (n := step_size v fp btw) in *. clearbody n. destruct Ht as (l1 & W & Hok1 & Hids & Ef & Eo).
  destruct (write_advance_fields fp1 n) as (A1&_); [lia..|].
  destruct (IH v1 (write_advance fp1 n) l1 (drop (Z.to_nat n) buff) (btw - n) (bw + n))
    as (m & fp' & v' & l' & E' & Hpost); try apply W; auto.
  - eapply reliable_veqx; [apply W|done].
  - by apply Forall_drop.
  - unfold zlen in *. rewrite length_drop. lia.
  - rewrite A1, Ef. lia.
  - rewrite A1, Ef. lia.
  - exists (n + m), fp', v', l'. rewrite E', Z.add_assoc. split; [done|].
    eapply write_post_step; eauto; lia.
Qed.

Lemma f_write_spec v fp l buff btw :
  wf v → reliable v → sane v → valid_fil v fp → fil_ok v fp l →
  zbits (flag fp) FA_WRITE = true → bytes buff → 0 <= btw < 2 ^ 32 → btw <= zlen buff →
  let btw' := Z.min btw (2 ^ 32 - 1 - fptr fp) in
  ∃ n fp' v' l', f_write fp buff btw v = Some ((FR_OK, n, fp'), v') ∧
    write_post v fp l buff btw' n fp' v' l' ∧ valid_fil v' fp'.
Proof.
  intros Hwf HR Hs Hval Hok Hfl Hbb Hb Hlen btw'. unfold f_write.
  rewrite (sbind_run _ _ _ _ _ (fp_check_ok v fp HR Hval)). cbn [fr_ok negb]. rewrite Hfl. cbn [negb].
  pose proof Hok as [_ Hsz Hp _ _].
  assert ((if u32 (fptr fp + btw) <? fptr fp then u32 (0xFFFFFFFF - fptr fp) else btw) = btw') as ->.
  { subst btw'. rewrite (u32_small (0xFFFFFFFF - _)) by lia. unfold u32.
    destruct (decide (fptr fp + btw < 2 ^ 32)).
    - rewrite Z.mod_small, (proj2 (Z.ltb_ge _ _)) by lia. lia.
    - replace (fptr fp + btw) with (fptr fp + btw - 2 ^ 32 + 1 * 2 ^ 32) by lia.
      rewrite Z.mod_add, Z.mod_small, (proj2 (Z.ltb_lt _ _)) by lia. lia. }
  destruct (write_loop_spec (Z.to_nat (btw' / SS + 3)) v fp l buff btw' 0)
    as (n & fp' & v' & l' & E & Hpost); auto; [lia..| |].
  { pose proof (turns_bound (fptr fp) btw' ltac:(lia)).
    assert (0 <= btw' / SS) by (apply Z.div_pos; unfold SS; lia). lia. }
  exists n, fp', v', l'. split; [done|]. split; [done|].
  destruct Hval as (?&?&?&?). destruct Hpost as [_ _ W _ _ _ _ He Hf Hi _].
  pose proof (geo_fields _ _ (vx_geo _ _ _ (wo_veqx _ _ _ _ _ _ _ _ W))) as (Et&_&_&Ei&_).
  unfold valid_fil. rewrite He, Hf, Hi, <- Et, <- Ei. done.
Qed.

End inv.
