(* ===== verification/FfSeek.v ===== *)
(** Seeking: [f_lseek] moves the pointer of a file, and the round trip
    write, seek, read.

    Within the size of the file the pointer ends exactly at the requested
    offset, with the current cluster and sector that [fil_ok] asks for; the
    volume does not change, whether the object is open for writing (the
    chain is followed with [create_chain]) or not (with [get_fat]). *)
From Stdlib Require Import ZArith Lia.
From stdpp Require Import base list numbers option.
From S2P Require Import Prelude BlockDevice FfTypes FfWindow FfFat FfChain FfUnicode FfLfn FfDir FfName FfMount FfFile FfRead FfWrite FfWriteLoop.

Local Open Scope Z_scope.
Local Open Scope st_scope.

Section inv.
Context {D : Type} {BD : BlockDevice D} {BL : BlockDeviceLaws D}.
Implicit Types v : vol D.

(** Following a link of the chain, in write mode or not. *)
Lemma follow_next v c l q (wr : bool) :
  wf v → reliable v → chain (fat_entry v) (n_fatent (vfs v)) c l → 0 <= q → q + 1 < zlen l →
  ∃ v', (if wr then create_chain (zget l q) else get_fat (zget l q)) v
          = Some (zget l (q + 1), v') ∧ quiet v v'.
Proof.
  intros Hwf HR Hch Hq Hlt. pose proof (n_fatent_bound v Hwf) as Hn.
  pose proof (zget_chain_next _ _ _ _ _ Hch Hq Hlt) as He.
  pose proof (zget_chain _ _ _ _ q Hch ltac:(lia)) as Hvq.
  pose proof (zget_chain _ _ _ _ (q + 1) Hch ltac:(lia)) as Hvq1.
  destruct wr.
  - destruct (create_chain_stretch v (zget l q) Hwf Hvq) as
      (r & v1 & E & Hwf1 & Hx1 & Hm1 & Halloc & Hfollow & Hne).
    specialize (Hne HR). destruct (Hfollow Hne ltac:(lia)) as [Hv1 Hr].
    rewrite He, (proj2 (Z.ltb_ge _ _)) in Hr by lia. subst r. exists v1. split; [done|]. split_and!; auto.
  - destruct (get_fat_spec v (zget l q) Hwf Hvq) as (r & v1 & E & Hwf1 & Hv1 & _ & Hrel).
    destruct (Hrel HR) as [-> Hm]. exists v1. rewrite He in E. by split_and!.
Qed.

Definition file_same (fp fp1 : FIL) : Prop :=
  fobj fp1 = fobj fp ∧ flag fp1 = flag fp ∧ err fp1 = err fp ∧ fsect fp1 = fsect fp ∧
  dir_sect fp1 = dir_sect fp ∧ dir_ptr fp1 = dir_ptr fp.

Lemma chain_quiet v v' c l :
  wf v → quiet v v' → chain (fat_entry v) (n_fatent (vfs v)) c l →
  chain (fat_entry v') (n_fatent (vfs v')) c l.
Proof.
  intros Hwf Hq Hch. pose proof (quiet_fields _ _ Hq) as (_&_&->&_).
  eapply chain_ext; [|done]. intros x Hx. symmetry. apply fat_entry_veq; [done|apply Hq|].
  by apply (chain_valid _ _ _ _ _ Hch).
Qed.

Lemma lseek_loop_spec fuel v c l fp q ofs :
  wf v → reliable v → chain (fat_entry v) (n_fatent (vfs v)) c l →
  0 <= q → 0 < ofs → bcs (vfs v) * q + ofs <= bcs (vfs v) * zlen l →
  bcs (vfs v) * q + ofs < 2 ^ 32 → ofs / bcs (vfs v) + 1 < Z.of_nat fuel →
  fptr fp = bcs (vfs v) * q → fclust fp = zget l q →
  ∃ q' ofs' fp' v', lseek_loop fuel fp (bcs (vfs v)) ofs (zget l q) v
      = Some ((inr (zget l q', ofs'), fp'), v') ∧
    quiet v v' ∧ file_same fp fp' ∧ 0 <= q' ∧ 0 < ofs' <= bcs (vfs v) ∧
    bcs (vfs v) * q' + ofs' = bcs (vfs v) * q + ofs ∧
    fptr fp' = bcs (vfs v) * q' ∧ fclust fp' = zget l q'.
Proof.
  revert v fp q ofs. induction fuel as [|fuel IH]; intros v fp q ofs Hwf HR Hch Hq Ho Hle Hlt Hf Hp Hcl.
  { pose proof (bcs_pos v Hwf). assert (0 <= ofs / bcs (vfs v)) by (apply Z.div_pos; lia). lia. }
  pose proof (bcs_pos v Hwf) as Hb. cbn [lseek_loop]. destruct (_ <? _) eqn:E; zb.
  2:{ exists q, ofs, fp, v. by split_and!; auto using quiet_refl; try lia. }
  set (wr := zbits _ FA_WRITE).
  destruct (follow_next v c l q wr) as (v1 & E1 & Hq1); auto; [nia|].
  rewrite (sbind_run _ _ _ _ _ E1). pose proof (n_fatent_bound v Hwf) as Hn.
  pose proof (zget_chain _ _ _ _ (q + 1) Hch ltac:(nia)) as Hvq.
  rewrite (proj2 (Z.eqb_neq _ 0)), (proj2 (Z.eqb_neq _ 0xFFFFFFFF)), andb_false_r by lia.
  rewrite (sbind_run fs _ v1 _ v1 eq_refl). pose proof (quiet_fields _ _ Hq1) as (_&Eb&En&_).
  rewrite En, (proj2 (Z.leb_gt (zget l (q + 1)) 1)), (proj2 (Z.leb_gt _ _)) by lia. simpl.
  rewrite Hp, u32_small by nia. set (fp1 := set_fclust _ _).
  destruct (IH v1 fp1 (q + 1) (ofs - bcs (vfs v))) as (q' & ofs' & fp' & v' & E' & Hq' & Hs & H1 & H2 & H3 & H4 & H5);
    rewrite ?Eb; auto; try lia; try (by eapply reliable_veq; [apply Hq1|]); try apply Hq1.
  - by apply (chain_quiet v).
  - replace (ofs - bcs (vfs v)) with (ofs + (-1) * bcs (vfs v)) by lia. rewrite Z.div_add; lia.
  - unfold fp1. simpl. lia.
  - exists q', ofs', fp', v'. rewrite Eb in *. split; [done|].
    split_and!; eauto using quiet_trans; lia.
Qed.

Lemma bcs_pow2 v : wf v → ∃ k, 0 <= k ∧ bcs (vfs v) = 2 ^ k.
Proof.
  intros [G _ _ _]. pose proof (g_pow2 _ _ G) as Hc. unfold bcs, SS.
  repeat (apply elem_of_cons in Hc as [->|Hc]); [..|by apply not_elem_of_nil in Hc].
  all: [> exists 9 | exists 10 | exists 11 | exists 12 | exists 13 | exists 14 | exists 15 | exists 16];
    split; (lia || done).
Qed.

(** The mask [~(bcs - 1)] on 32 bits rounds down to a cluster boundary. *)
Lemma land_mask v x :
  wf v → 0 <= x < 2 ^ 32 →
  Z.land x (u32 (Z.lnot (bcs (vfs v) - 1))) = bcs (vfs v) * (x / bcs (vfs v)).
Proof.
  intros Hwf Hx. destruct (bcs_pow2 v Hwf) as (k & Hk & ->).
  unfold u32. rewrite <- Z.land_ones by lia.
  rewrite (Z.land_comm (Z.lnot _)), Z.land_assoc, Z.land_ones, (Z.mod_small x) by lia.
  replace (2 ^ k - 1) with (Z.ones k) by (rewrite Z.ones_equiv; lia).
  rewrite <- Z.ldiff_land, Z.ldiff_ones_r by lia.
  rewrite Z.shiftl_mul_pow2, Z.shiftr_div_pow2 by lia. lia.
Qed.

Lemma lseek_start_spec v fp l ofs :
  wf v → fil_ok v fp l → 0 < ofs <= objsize (fobj fp) →
  ∃ q fp1, lseek_start (set_fptr 0 fp) (fptr fp) (bcs (vfs v)) ofs v
      = Some ((inr (zget l q, ofs - bcs (vfs v) * q), fp1), v) ∧
    chain (fat_entry v) (n_fatent (vfs v)) (sclust (fobj fp)) l ∧
    0 <= q < zlen l ∧ bcs (vfs v) * q < ofs ∧ file_same fp fp1 ∧
    fptr fp1 = bcs (vfs v) * q ∧ fclust fp1 = zget l q.
Proof.
  intros Hwf [Hch Hsz Hp Hc _] Ho. pose proof (bcs_pos v Hwf) as Hb.
  destruct Hch as [[-> _]|Hch]; [unfold zlen in *; simpl in *; lia|].
  assert (0 < zlen l) by nia. unfold lseek_start.
  destruct ((0 <? fptr fp) && ((fptr fp - 1) / bcs (vfs v) <=? (ofs - 1) / bcs (vfs v))) eqn:E.
  - apply andb_true_iff in E as [E1 E2]. zb. rewrite land_mask by (done || lia).
    set (q := (fptr fp - 1) / bcs (vfs v)) in *.
    assert (0 <= q < zlen l) by (apply pos_index; [done|lia]).
    assert (bcs (vfs v) * q < ofs).
    { pose proof (Z.mul_div_le (ofs - 1) (bcs (vfs v)) ltac:(lia)). nia. }
    eexists q, _. split; [unfold sret; simpl; by rewrite Hc by done|].
    by simpl; split_and!; try lia.
  - pose proof (chain_head _ _ _ _ Hch) as [Hh _]. simpl.
    rewrite (proj2 (Z.eqb_neq _ 0)) by lia.
    eexists 0, _. rewrite (zget_chain_head _ _ _ _ Hch), Z.mul_0_r, Z.sub_0_r.
    split; [done|]. by split_and!; simpl; try lia.
Qed.

(** A pointer inside the file. *)
Lemma seeked_ok v fp l fp2 q ofs nsect :
  wf v → fil_ok v fp l → fobj fp2 = fobj fp → 0 <= q → 0 < ofs <= bcs (vfs v) →
  bcs (vfs v) * q + ofs <= objsize (fobj fp) → fptr fp2 = bcs (vfs v) * q + ofs →
  fclust fp2 = zget l q →
  nsect = (if ztrue (ofs mod SS) then pos_sect (vfs v) l (bcs (vfs v) * q + ofs) else 0) →
  fil_ok v (if ztrue (fptr fp2 mod SS) && negb (nsect =? fsect fp2) then set_fsect nsect fp2 else fp2) l.
Proof.
  intros Hwf [Hch Hsz Hp Hc Hs] Eo Hq Ho Hle Hf Hcl Hn. pose proof (bcs_pos v Hwf) as Hb.
  match goal with |- fil_ok _ ?x _ => set (fp3 := x) end.
  assert (fobj fp3 = fobj fp ∧ fptr fp3 = bcs (vfs v) * q + ofs ∧ fclust fp3 = zget l q) as (F1&F2&F3).
  { unfold fp3. by destruct (_ && _). }
  split; rewrite ?F1, ?F2, ?F3; auto; try nia.
  - intros _. f_equal. apply Z.div_unique_pos with (ofs - 1); lia.
  - intros Hm.
    assert ((bcs (vfs v) * q + ofs) mod SS = ofs mod SS) as Em.
    { unfold bcs, SS in *. replace (csize (vfs v) * 512 * q + ofs) with (ofs + csize (vfs v) * q * 512) by lia.
      apply Z.mod_add. lia. }
    unfold fp3. rewrite Hf. unfold ztrue in *. rewrite Em in *.
    rewrite (proj2 (Z.eqb_neq _ 0)) in * by done. simpl in *.
    destruct (Z.eqb_spec nsect (fsect fp2)) as [He|]; simpl; congruence.
Qed.

Lemma lseek_follow_spec v fp l ofs :
  wf v → reliable v → fil_ok v fp l → 0 < ofs <= objsize (fobj fp) →
  ∃ q ofs' nsect fp2 v', lseek_follow (set_fptr 0 fp) (fptr fp) ofs v = Some ((inr nsect, fp2), v') ∧
    quiet v v' ∧ file_same fp fp2 ∧ 0 <= q ∧ 0 < ofs' <= bcs (vfs v) ∧
    bcs (vfs v) * q + ofs' = ofs ∧ fptr fp2 = ofs ∧ fclust fp2 = zget l q ∧
    nsect = (if ztrue (ofs' mod SS) then pos_sect (vfs v) l ofs else 0).
Proof.
  intros Hwf HR Hok Ho. pose proof Hok as [_ Hsz Hp _ _]. pose proof (bcs_pos v Hwf) as Hb.
  destruct (lseek_start_spec v fp l ofs Hwf Hok Ho)
    as (q & fp1 & E1 & Hch & Hq & Hqo & (S1&S2&S3&S4&S5&S6) & Hf1 & Hc1).
  destruct (lseek_loop_spec (Z.to_nat ((ofs - bcs (vfs v) * q) / bcs (vfs v) + 2)) v
    (sclust (fobj fp)) l fp1 q (ofs - bcs (vfs v) * q))
    as (q' & ofs' & fp2 & v' & E2 & Hqt & (T1&T2&T3&T4&T5&T6) & Hq' & Ho' & Hsum & Hf2 & Hc2); auto; try lia.
  replace (bcs (vfs v) * q + (ofs - bcs (vfs v) * q)) with ofs in Hsum by lia.
  assert (0 <= q' < zlen l) as Hql by nia.
  unfold lseek_follow. rewrite (proj2 (Z.ltb_lt 0 ofs)) by lia.
  rewrite (sbind_run fs _ v _ v eq_refl). change (csize (vfs v) * SS) with (bcs (vfs v)).
  rewrite (u32_small (bcs (vfs v))) by lia. cbv zeta.
  rewrite (sbind_run _ _ _ _ _ E1). cbv beta iota.
  pose proof (zget_chain _ _ _ _ q Hch Hq). pose proof (zget_chain _ _ _ _ q' Hch Hql).
  rewrite (proj2 (Z.eqb_neq _ 0)) by lia. cbn [negb].
  rewrite (sbind_run _ _ _ _ _ E2). cbv beta iota.
  assert (u32 (fptr fp2 + ofs') = ofs) as -> by (rewrite u32_small; lia).
  exists q', ofs', (if ztrue (ofs' mod SS) then pos_sect (vfs v) l ofs else 0), (set_fptr ofs fp2), v'.
  split; [|split_and!; auto; [split_and!; simpl; congruence|lia..]].
  unfold ztrue. destruct (Z.eqb_spec (ofs' mod SS) 0) as [Hm|Hm]; [done|]. simpl.
  assert (ofs' < bcs (vfs v)).
  { destruct (decide (ofs' = bcs (vfs v))) as [->|]; [|lia]. exfalso. apply Hm.
    unfold bcs, SS. by apply Z.mod_mul. }
  assert (ofs / bcs (vfs v) = q') as Ed by (symmetry; apply Z.div_unique_pos with ofs'; lia).
  assert (ofs mod bcs (vfs v) = ofs') as Em by (symmetry; apply Z.mod_unique_pos with q'; lia).
  destruct (sect_of_pos v l ofs Hwf) as [Hn Hs]; [by eapply fil_ok_in_chain|nia|].
  rewrite Ed, Em in Hs. rewrite Ed in Hn. by rewrite Hn, Hs.
Qed.

Lemma f_lseek_spec v fp l ofs :
  wf v → reliable v → valid_fil v fp → fil_ok v fp l → 0 <= ofs <= objsize (fobj fp) →
  ∃ fp' v', f_lseek fp ofs v = Some ((FR_OK, fp'), v') ∧ quiet v v' ∧ fil_ok v' fp' l ∧
    valid_fil v' fp' ∧ fptr fp' = ofs ∧ fobj fp' = fobj fp ∧ flag fp' = flag fp.
Proof.
  intros Hwf HR Hval Hok Ho. pose proof Hok as [_ Hsz Hp _ _].
  unfold f_lseek. rewrite (sbind_run _ _ _ _ _ (fp_check_ok v fp HR Hval)). cbn [fr_ok negb].
  rewrite (proj2 (Z.ltb_ge _ ofs)) by lia. cbn [andb].
  assert (∀ v' fp', quiet v v' → fobj fp' = fobj fp → err fp' = err fp → valid_fil v' fp') as Hv'.
  { intros v' fp' (_&Hv&_) E1 E2. destruct Hval as (?&?&?&?). unfold valid_fil.
    pose proof (core_fields _ _ (veq_core _ _ Hv)) as (Et&_&_&_&Ei&_). by rewrite E1, E2, <- Et, <- Ei. }
  destruct (decide (0 < ofs)) as [H0|H0].
  - destruct (lseek_follow_spec v fp l ofs Hwf HR Hok ltac:(lia))
      as (q & ofs' & nsect & fp2 & v' & E & Hqt & (T1&T2&T3&T4&T5&T6) & Hq & Ho' & Hsum & Hf & Hc & Hn).
    rewrite (sbind_run _ _ _ _ _ E). cbv beta iota zeta. rewrite T1, (proj2 (Z.ltb_ge _ (fptr fp2))) by lia.
    eexists _, v'. split; [done|]. match goal with |- context [fil_ok v' ?x _] => set (fp3 := x) end.
    assert (fobj fp3 = fobj fp ∧ err fp3 = err fp ∧ fptr fp3 = ofs ∧ flag fp3 = flag fp) as (F1&F2&F3&F4).
    { unfold fp3. by destruct (_ && _). }
    split_and!; auto. apply (fil_ok_veq v); [done|apply Hqt|].
    unfold fp3. apply (seeked_ok v fp l fp2 q ofs'); auto; try lia. by rewrite Hsum.
  - unfold lseek_follow. rewrite (proj2 (Z.ltb_ge 0 ofs)) by lia.
    rewrite (sbind_run (sret _) _ v _ v eq_refl). cbv beta iota zeta. simpl.
    rewrite (proj2 (Z.ltb_ge _ 0)) by lia. rewrite Z.mod_0_l by done. simpl.
    eexists _, v. split; [done|]. split_and!; auto using quiet_refl; try done; [|simpl; lia].
    destruct Hok. split; simpl; try done; lia.
Qed.

(** * Write, seek back, read *)

Lemma file_bytes_wrote v l v' c' l' p bs lim :
  wrote v l v' c' l' p bs lim → 0 <= p → p + zlen bs <= bcs (vfs v) * zlen l' →
  file_bytes v' l' p (zlen bs) = bs.
Proof.
  intros W Hp Hle. apply list_eq. intros i. unfold file_bytes.
  destruct (decide (i < length bs)%nat) as [Hi|Hi].
  - rewrite list_lookup_fmap. rewrite lookup_seqZ_lt by (unfold zlen; lia). simpl.
    rewrite (wo_byte _ _ _ _ _ _ _ _ W) by (unfold zlen in *; lia).
    rewrite in_range_true by (unfold zlen; lia). unfold zget.
    replace (Z.to_nat (p + Z.of_nat i - p)) with i by lia.
    destruct (bs !! i) eqn:E; [done|]. apply lookup_ge_None in E. lia.
  - rewrite !lookup_ge_None_2; [done|lia|]. rewrite length_fmap, length_seqZ. unfold zlen. lia.
Qed.

Lemma write_seek_read v fp l buff btw :
  wf v → reliable v → sane v → valid_fil v fp → fil_ok v fp l →
  zbits (flag fp) FA_WRITE = true → zbits (flag fp) FA_READ = true →
  bytes buff → 0 <= btw < 2 ^ 32 → btw <= zlen buff →
  ∃ n fp1 v1 fp2 v2 fp3 v3,
    f_write fp buff btw v = Some ((FR_OK, n, fp1), v1) ∧
    f_lseek fp1 (fptr fp) v1 = Some ((FR_OK, fp2), v2) ∧
    f_read fp2 n v2 = Some ((FR_OK, zread buff 0 n, fp3), v3) ∧
    0 <= n <= btw ∧ (n < Z.min btw (2 ^ 32 - 1 - fptr fp) → full v1).
Proof.
  intros Hwf HR Hs Hval Hok Hw Hr Hbb Hb Hlen. pose proof Hok as [_ Hsz Hp _ _].
  destruct (f_write_spec v fp l buff btw) as (n & fp1 & v1 & l1 & E1 & P & Hval1); auto.
  pose proof P as [P1 P2 W P4 P5 P6 P7 _ _ _ _].
  pose proof (wo_veqx _ _ _ _ _ _ _ _ W) as Hx. pose proof (reliable_veqx _ _ _ Hx HR) as HR1.
  destruct (f_lseek_spec v1 fp1 l1 (fptr fp) (wo_wf _ _ _ _ _ _ _ _ W) HR1 Hval1 P4)
    as (fp2 & v2 & E2 & Hq & Hok2 & Hval2 & F1 & F2 & F3); [lia|].
  pose proof Hq as (Hwf2 & Hv2 & _). pose proof (reliable_veq _ _ Hv2 HR1) as HR2.
  destruct (f_read_spec v2 fp2 l1 n Hwf2 HR2 Hval2 Hok2) as (fp3 & v3 & E3 & _); [|lia|].
  { rewrite F3, P7. simpl. unfold zbits in *. rewrite Z.land_lor_distr_l. change (Z.land FA_MODIFIED FA_READ) with 0. by rewrite Z.lor_0_r. }
  exists n, fp1, v1, fp2, v2, fp3, v3. split_and!; auto; try lia. rewrite E3.
  rewrite F2, P6, F1, Z.min_l by lia. do 2 f_equal. f_equal. f_equal.
  pose proof P4 as [Hch4 Hsz4 _ _ _].
  assert (zlen (zread buff 0 n) = n) as Hz
    by (unfold zlen; rewrite zread_length by (unfold zlen in *; lia); lia).
  pose proof (geo_bcs _ _ (vx_geo _ _ _ Hx)) as Eb. pose proof (wo_wf _ _ _ _ _ _ _ _ W) as Hwf1.
  rewrite (file_bytes_quiet v1 v2); auto; [|by eapply fil_ok_in_chain|lia|lia].
  rewrite <- Hz at 1. eapply file_bytes_wrote; [done|lia|]. rewrite Hz, Eb. lia.
Qed.

End inv.
