(* ===== verification/FfExample.v ===== *)
(** A concrete volume: a 20-sector FAT32 image on the [Qemu] driver with
    one file of three clusters, and the facts about it that instantiate the
    hypotheses of the theorems. *)
From Stdlib Require Import ZArith Lia.
From stdpp Require Import base list numbers option gmap.
From S2P Require Import Prelude BlockDevice FfTypes FfWindow FfFat FfChain FfUnicode FfLfn FfDir FfName FfMount FfMountSpec FfFile FfRead FfWrite.

Local Open Scope Z_scope.

(** Little-endian fields at byte offsets of a sector. *)
Definition ex_word (o v : Z) : list (Z * Z) := [(o, v mod 256); (o + 1, v / 256 mod 256)].
Definition ex_dword (o v : Z) : list (Z * Z) := ex_word o (v mod 65536) ++ ex_word (o + 2) (v / 65536).

(** The boot sector: 512-byte sectors, one per cluster, 2 reserved sectors,
    2 FATs of one sector, 20 sectors in all, root directory at cluster 2. *)
Definition ex_boot : list (Z * Z) :=
  [(0, 0xEB)] ++ ex_word BPB_BytsPerSec 512 ++ [(BPB_SecPerClus, 1)] ++ ex_word BPB_RsvdSecCnt 2
  ++ [(BPB_NumFATs, 2)] ++ ex_dword BPB_TotSec32 20 ++ ex_dword BPB_FATSz32 1
  ++ ex_dword BPB_RootClus32 2 ++ ex_word BPB_FSInfo32 1
  ++ imap (λ i b, (BS_FilSysType32 + Z.of_nat i, b)) FAT32_TYPE ++ ex_word BS_55AA 0xAA55.

Definition ex_fsi : list (Z * Z) :=
  ex_word BS_55AA 0xAA55 ++ ex_dword FSI_LeadSig 0x41615252 ++ ex_dword FSI_StrucSig 0x61417272
  ++ ex_dword FSI_Free_Count 12 ++ ex_dword FSI_Nxt_Free 5.

(** The root directory takes cluster 2, the file clusters 3, 5 and 4. *)
Definition ex_fat : list (Z * Z) :=
  ex_dword 0 0x0FFFFFF8 ++ ex_dword 4 0x0FFFFFFF ++ ex_dword 8 0x0FFFFFFF
  ++ ex_dword 12 5 ++ ex_dword 16 0x0FFFFFFF ++ ex_dword 20 4.

Definition ex_at (s : Z) (l : list (Z * Z)) : list (Z * Z) := (λ p, (s * 512 + p.1, p.2)) <$> l.

Definition ex_disk : Qemu.disk :=
  Qemu.mkDisk (list_to_map (ex_at 0 ex_boot ++ ex_at 1 ex_fsi ++ ex_at 2 ex_fat ++ ex_at 3 ex_fat
                            ++ [(5 * 512 + 7, 65); (7 * 512, 66)])) 20.

(** Before mounting, and mounted (mount ID 1, nothing in the window). *)
Definition ex_v0 : vol Qemu.disk :=
  mkVol (mkFATFS 0 0 0 0 0 0 0 0 0 0 0 0 0 0 0 0 0 (replicate 512 0)) ex_disk (replicate 256 0) 0 true.
Definition ex_fs : FATFS :=
  mkFATFS FS_FAT32 0 2 0 0 1 0 1 5 12 18 1 0 2 2 4 (2 ^ 32 - 1) (replicate 512 0).
Definition ex_vol : vol Qemu.disk := mkVol ex_fs ex_disk (replicate 256 0) 1 true.

(** The file, open for reading and writing, pointer at its start. *)
Definition ex_fil : FIL :=
  mkFIL (mkFFOBJID true 1 0 0 3 1300) (Z.lor FA_READ FA_WRITE) 0 0 0 0 4 0.
Definition ex_chain : list Z := [3; 5; 4].

Lemma ex_geom : geom ex_fs (sector_count ex_disk).
Proof.
  split; [by right; right|by right|..|apply list_elem_of_here]; vm_compute; intuition congruence.
Qed.

Lemma ex_wf : wf ex_vol.
Proof.
  split; [apply ex_geom|done| |by left].
  apply Forall_replicate. unfold is_byte. lia.
Qed.

Lemma ex_reliable : reliable ex_vol.
Proof. split; [apply Qemu.qemu_reliable|done]. Qed.

(** The FAT, entries 2 to 17. *)
Definition ex_links : list Z := [0x0FFFFFFF; 5; 0x0FFFFFFF; 4; 0; 0; 0; 0; 0; 0; 0; 0; 0; 0; 0; 0].
Definition ex_link (c : Z) : Z := zget ex_links (c - 2).

Lemma ex_entries : fat_entry ex_vol <$> seqZ 2 16 = ex_links.
Proof. vm_compute. reflexivity. Qed.

Lemma ex_entry c : 2 <= c < 18 → fat_entry ex_vol c = ex_link c.
Proof.
  intros Hc. unfold ex_link. rewrite <- ex_entries. unfold zget.
  rewrite list_lookup_fmap, lookup_seqZ_lt by lia. simpl. f_equal. lia.
Qed.

Lemma ex_sane : sane ex_vol.
Proof.
  split; [|done]. intros c Hc. change (2 <= c < 18) in Hc. rewrite ex_entry by exact Hc.
  assert (∀ c, 2 <= c < 2 + 16 → (λ c, negb (ex_link c =? 1)) c = true) as H
    by (apply seqZ_forall; by vm_compute).
  specialize (H c Hc). simpl in H. by apply negb_true_iff, Z.eqb_neq in H.
Qed.

Lemma ex_is_chain : chain (fat_entry ex_vol) 18 3 ex_chain.
Proof.
  assert (chain ex_link 18 3 ex_chain) as Hch.
  { apply chain_cons; [done..|]. apply chain_cons; [done..|]. by apply chain_last. }
  eapply chain_ext; [|exact Hch]. intros x Hx.
  apply ex_entry, (chain_valid _ _ _ _ _ Hch Hx).
Qed.

Lemma ex_fil_ok : fil_ok ex_vol ex_fil ex_chain.
Proof. split; try done. by right; apply ex_is_chain. Qed.

Lemma ex_valid_fil : valid_fil ex_vol ex_fil.
Proof. done. Qed.

Lemma ex_mirror : mirror ex_vol.
Proof.
  intros _ s Hs _. change (2 <= s < 3) in Hs. replace s with 2 by lia. by vm_compute.
Qed.

Lemma ex_mbr_ok : mbr_ok ex_v0.
Proof. split; [done|]. by vm_compute. Qed.

