(* ===== verification/FfTheorems.v ===== *)
(** The properties of FatFs, stated on the operations of ff.c over any
    device that obeys [BlockDeviceLaws], each with an instance on the volume
    of [FfExample]. *)
From Stdlib Require Import ZArith Lia.
From stdpp Require Import base list numbers option.
From S2P Require Import Prelude BlockDevice FfTypes FfWindow FfFat FfChain FfUnicode FfLfn FfDir FfName FfMount FfMountSpec FfFile FfRead FfWrite FfWriteLoop FfSeek FfExample.

Local Open Scope Z_scope.
Local Open Scope st_scope.

Section files.
Context {D : Type} {BD : BlockDevice D} {BL : BlockDeviceLaws D}.
Implicit Types v : vol D.

(** C1: Writing, seeking back to the offset and reading returns the bytes
    that were written; [f_write] stops short of the request only when the
    file reaches its 4 GiB limit or no cluster is free. *)
Theorem f_write_read_roundtrip v fp l buff btw :
  wf v → reliable v → sane v → valid_fil v fp → fil_ok v fp l →
  zbits (flag fp) FA_WRITE = true → zbits (flag fp) FA_READ = true →
  bytes buff → 0 <= btw < 2 ^ 32 → btw <= zlen buff →
  ∃ n fp1 v1 fp2 v2 fp3 v3,
    f_write fp buff btw v = Some ((FR_OK, n, fp1), v1) ∧
    f_lseek fp1 (fptr fp) v1 = Some ((FR_OK, fp2), v2) ∧
    f_read fp2 n v2 = Some ((FR_OK, zread buff 0 n, fp3), v3) ∧
    0 <= n <= btw ∧ (n < Z.min btw (2 ^ 32 - 1 - fptr fp) → full v1).
Proof. apply write_seek_read. Qed.

(** C2: [f_write] on an open file: the pointer advances by the number of
    bytes written, the size becomes the maximum of the old size and the new
    pointer, the written range holds the data and every other byte of the
    file its old value; the chain grows only by clusters that were free, and
    neither the FAT entry of any other cluster nor any sector outside the
    FAT and the clusters of the file changes. *)
Theorem f_write_correct v fp l buff btw :
  wf v → reliable v → sane v → valid_fil v fp → fil_ok v fp l →
  zbits (flag fp) FA_WRITE = true → bytes buff → 0 <= btw < 2 ^ 32 → btw <= zlen buff →
  ∃ n fp' v' l', f_write fp buff btw v = Some ((FR_OK, n, fp'), v') ∧
    0 <= n <= btw ∧ wf v' ∧ sane v' ∧ fil_ok v' fp' l' ∧ (mirror v → mirror v') ∧
    fptr fp' = fptr fp + n ∧ objsize (fobj fp') = Z.max (objsize (fobj fp)) (fptr fp + n) ∧
    (∀ k, 0 <= k < objsize (fobj fp') →
       file_byte v' l' k =
         if decide (fptr fp <= k < fptr fp + n) then zget buff (k - fptr fp) else file_byte v l k) ∧
    (∃ k, l' = l ++ k ∧ ∀ c, c ∈ k → valid_clst v c ∧ fat_entry v c = 0) ∧
    (∀ c, valid_clst v c → c ∉ l' → fat_entry v' c = fat_entry v c) ∧
    (∀ s, vis v s → ¬ in_fat1 (vfs v) s → ¬ in_data (vfs v) l' s → view v' s = view v s).
Proof.
  intros Hwf HR Hs Hval Hok Hw Hb Hn Hl. pose proof Hok as [_ Hsz Hp _ _].
  destruct (f_write_spec v fp l buff btw) as (n & fp' & v' & l' & E & P & _); auto.
  pose proof P as [P1 P2 W P4 P5 P6 _ _ _ _ _].
  pose proof (wo_veqx _ _ _ _ _ _ _ _ W) as Hx. pose proof (geo_bcs _ _ (vx_geo _ _ _ Hx)) as Eb.
  exists n, fp', v', l'. split; [done|]. split; [lia|]. split; [apply W|]. split; [apply W|].
  split; [done|]. split; [apply W|]. do 2 (split; [done|]). split_and!; try apply W.
  - pose proof P4 as [_ Hsz' _ _ _]. intros k Hk.
    assert (zlen (zread buff 0 n) = n) as Hz
      by (unfold zlen; rewrite zread_length by (unfold zlen in *; lia); lia).
    rewrite (wo_byte _ _ _ _ _ _ _ _ W) by (rewrite ?Hz, ?Eb; lia). rewrite Hz.
    case_decide.
    + rewrite in_range_true by lia. rewrite zget_zread by lia. by rewrite Z.add_0_l.
    + by rewrite in_range_false.
  - intros s Hv H1 H2. symmetry. apply (vx_view _ _ _ Hx); [done|]. tauto.
Qed.

(** C3: [f_read] returns exactly the bytes of the file between its pointer
    and the requested end or the end of file, whatever mix of dirty window,
    direct transfers and cluster boundaries the range meets; it moves the
    pointer behind them and leaves the volume and the file as they were. *)
Theorem f_read_correct v fp l btr :
  wf v → reliable v → valid_fil v fp → fil_ok v fp l → zbits (flag fp) FA_READ = true → 0 <= btr →
  let n := Z.min btr (objsize (fobj fp) - fptr fp) in
  ∃ fp' v', f_read fp btr v = Some ((FR_OK, file_bytes v l (fptr fp) n, fp'), v') ∧
    wf v' ∧ veq v v' ∧ fil_ok v' fp' l ∧ valid_fil v' fp' ∧
    fptr fp' = fptr fp + n ∧ fobj fp' = fobj fp.
Proof.
  intros Hwf HR Hval Hok Hr Hb n.
  destruct (f_read_spec v fp l btr) as (fp' & v' & E & (H1&H2&_) & H3 & H4 & H5 & H6 & _); auto.
  by exists fp', v'.
Qed.

(** Seeking inside a file puts the pointer at the requested offset and
    keeps the object consistent with its chain, in read and in write mode,
    forwards from the current cluster and backwards from the first. *)
Theorem f_lseek_correct v fp l ofs :
  wf v → reliable v → valid_fil v fp → fil_ok v fp l → 0 <= ofs <= objsize (fobj fp) →
  ∃ fp' v', f_lseek fp ofs v = Some ((FR_OK, fp'), v') ∧ wf v' ∧ veq v v' ∧
    fil_ok v' fp' l ∧ valid_fil v' fp' ∧ fptr fp' = ofs ∧ fobj fp' = fobj fp.
Proof.
  intros Hwf HR Hval Hok Ho.
  destruct (f_lseek_spec v fp l ofs) as (fp' & v' & E & (H1&H2&_) & H3 & H4 & H5 & H6 & _); auto.
  by exists fp', v'.
Qed.

(** C40: An object of another mount, or one that was closed, is refused with
    FR_INVALID_OBJECT by reading, writing and seeking, and nothing changes. *)
Theorem stale_object_refused v fp buff n :
  obj_fs (fobj fp) = false ∨ obj_id (fobj fp) ≠ fs_id (vfs v) →
  f_read fp n v = Some ((FR_INVALID_OBJECT, [], fp), v) ∧
  f_write fp buff n v = Some ((FR_INVALID_OBJECT, 0, fp), v) ∧
  f_lseek fp n v = Some ((FR_INVALID_OBJECT, fp), v).
Proof.
  intros H. assert (fp_check fp v = Some (FR_INVALID_OBJECT, v)) as E.
  { unfold fp_check, validate, sbind, sget.
    destruct H as [->|H]; [done|]. apply Z.eqb_neq in H. by rewrite H, andb_false_r. }
  unfold f_read, f_write, f_lseek. by rewrite !(sbind_run _ _ _ _ _ E).
Qed.

End files.

Lemma f_write_read_roundtrip_witness :
  ∃ n fp1 v1 fp2 v2 fp3 v3,
    f_write ex_fil [1; 2; 3] 3 ex_vol = Some ((FR_OK, n, fp1), v1) ∧
    f_lseek fp1 0 v1 = Some ((FR_OK, fp2), v2) ∧
    f_read fp2 n v2 = Some ((FR_OK, zread [1; 2; 3] 0 n, fp3), v3) ∧
    0 <= n <= 3 ∧ (n < 3 → full v1).
Proof.
  apply (f_write_read_roundtrip ex_vol ex_fil ex_chain [1; 2; 3] 3);
    auto using ex_wf, ex_reliable, ex_sane, ex_valid_fil, ex_fil_ok; try done.
  repeat constructor; unfold is_byte; lia.
Defined.

Lemma f_write_correct_witness :
  ∃ n fp' v' l', f_write ex_fil [1; 2; 3] 3 ex_vol = Some ((FR_OK, n, fp'), v') ∧
    wf v' ∧ fil_ok v' fp' l' ∧ fptr fp' = n.
Proof.
  destruct (f_write_correct ex_vol ex_fil ex_chain [1; 2; 3] 3)
    as (n & fp' & v' & l' & E & _ & H1 & _ & H2 & _ & H3 & _);
    auto using ex_wf, ex_reliable, ex_sane, ex_valid_fil, ex_fil_ok; try done.
  - repeat constructor; unfold is_byte; lia.
  - by exists n, fp', v', l'.
Defined.

Lemma f_read_correct_witness :
  ∃ fp' v', f_read ex_fil 2000 ex_vol = Some ((FR_OK, file_bytes ex_vol ex_chain 0 1300, fp'), v') ∧
    wf v' ∧ veq ex_vol v' ∧ fil_ok v' fp' ex_chain ∧ valid_fil v' fp' ∧
    fptr fp' = 1300 ∧ fobj fp' = fobj ex_fil.
Proof.
  apply (f_read_correct ex_vol ex_fil ex_chain 2000);
    auto using ex_wf, ex_reliable, ex_valid_fil, ex_fil_ok; done.
Defined.

Lemma f_lseek_correct_witness :
  ∃ fp' v', f_lseek ex_fil 700 ex_vol = Some ((FR_OK, fp'), v') ∧ wf v' ∧ veq ex_vol v' ∧
    fil_ok v' fp' ex_chain ∧ valid_fil v' fp' ∧ fptr fp' = 700 ∧ fobj fp' = fobj ex_fil.
Proof.
  apply (f_lseek_correct ex_vol ex_fil ex_chain 700);
    auto using ex_wf, ex_reliable, ex_valid_fil, ex_fil_ok; done.
Defined.

Lemma stale_object_refused_witness :
  let fp := mkFIL (mkFFOBJID true 7 0 0 3 1300) FA_READ 0 0 0 0 4 0 in
  f_read fp 1 ex_vol = Some ((FR_INVALID_OBJECT, [], fp), ex_vol) ∧
  f_write fp [1] 1 ex_vol = Some ((FR_INVALID_OBJECT, 0, fp), ex_vol) ∧
  f_lseek fp 1 ex_vol = Some ((FR_INVALID_OBJECT, fp), ex_vol).
Proof. intros fp. apply stale_object_refused. by right. Defined.
