(* ===== verification/FfCoreTheorems.v ===== *)
(** The properties of the lower layers of FatFs: the window, the FAT, the
    cluster chains, mounting, and the names. *)
From Stdlib Require Import ZArith Lia.
From stdpp Require Import base list numbers option.
From S2P Require Import Prelude BlockDevice FfTypes FfWindow FfFat FfChain FfUnicode FfLfn FfDir FfName FfMount FfMountSpec FfFile FfRead FfWrite FfExample.

Local Open Scope Z_scope.
Local Open Scope st_scope.

Section volume.
Context {D : Type} {BD : BlockDevice D} {BL : BlockDeviceLaws D}.
Implicit Types v : vol D.

(** C7: Mounting a medium whose FAT boot sectors describe volumes that fit
    the device: [mount_new] always returns and never changes the medium; when
    it reports FR_OK the volume satisfies the invariant [wf], is of type
    FAT32, has the FAT size, cluster count and root cluster of its boot
    sector and a fresh mount ID; when it reports an error the object stays
    unmounted. *)
Theorem mount_establishes_wf v ldn mode :
  length (win (vfs v)) = 512%nat → bytes (win (vfs v)) → mbr_ok v → volumes_fit v →
  ∃ r v', mount_new ldn mode v = Some (r, v') ∧
    (∀ j, sector (vdev v') j = sector (vdev v) j) ∧
    (r = FR_OK → wf v' ∧ fs_type (vfs v') = FS_FAT32 ∧
       (let w := sector (vdev v) (volbase (vfs v')) in
        check_vbr w = 0 ∧ fsize (vfs v') = bpb_fatsz w ∧ n_fatent (vfs v') = bpb_nclst w + 2 ∧
        dirbase (vfs v') = ld_dword w BPB_RootClus32) ∧
       fs_id (vfs v') = u16 (Fsid v + 1)) ∧
    (r ≠ FR_OK → fs_type (vfs v') = 0).
Proof.
  intros Hl Hb Hm Hf.
  destruct (mount_new_spec v ldn mode Hl Hb Hm Hf) as (r & v' & E & _ & H2 & _ & _ & H5 & H6 & _).
  exists r, v'. split; [done|]. split; [done|]. split; [|done]. intros Hr.
  destruct (H5 Hr) as [[] _]. by split_and!; auto; destruct mo_id.
Qed.

(** On a device that does not fail, drive 0 with a FAT boot sector at
    sector 0 that passes the checks of the parameter block is mounted, with
    the volume at sector 0. *)
Theorem mount_succeeds v mode :
  length (win (vfs v)) = 512%nat → bytes (win (vfs v)) → mbr_ok v → volumes_fit v →
  ReliableDevice D → check_vbr (sector (vdev v) 0) = 0 →
  (init_fatfs (sector (vdev v) 0) 0 (vfs v)).1 = true →
  ∃ v', mount_new 0 mode v = Some (FR_OK, v') ∧ wf v' ∧ reliable v' ∧ volbase (vfs v') = 0.
Proof.
  intros Hl Hb Hm Hf HR Hv Hi.
  destruct (mount_new_spec v 0 mode Hl Hb Hm Hf) as (r & v' & E & _ & _ & _ & _ & H5 & _ & H7).
  destruct (H7 HR eq_refl Hv Hi) as [-> Hb0]. destruct (H5 eq_refl) as [Hmo Hp].
  exists v'. split_and!; auto; [apply Hmo|by split].
Qed.

(** C26: The sector window is a transparent cache: on any device, loading a
    visible sector preserves the invariant and the contents of every visible
    sector (also of the dirty one it replaces), the window then holds the
    requested sector, and the only other outcome is FR_DISK_ERR. *)
Theorem move_window_transparent v sect :
  wf v → vis v sect →
  ∃ r v', move_window sect v = Some (r, v') ∧ wf v' ∧
    (∀ s, vis v s → view v' s = view v s) ∧
    (r = FR_OK ∧ winsect (vfs v') = sect ∧ win (vfs v') = view v sect ∨ r = FR_DISK_ERR) ∧
    (reliable v → r = FR_OK ∧ (mirror v → mirror v')).
Proof.
  intros Hwf Hv. destruct (move_window_spec v sect Hwf Hv) as (r & v' & E & H1 & H2 & H3 & H4 & H5).
  exists r, v'. split; [done|]. split; [done|]. split; [intros s Hs; symmetry; by apply H2|].
  split; [|done]. destruct H4 as [-> | ->]; [left|by right]. by destruct (H3 eq_refl).
Qed.

(** C27: [sync_fs] makes the volume durable: every visible sector of the
    device holds what the volume held (FSINFO holds the current counts),
    nothing is dirty, and both FAT copies agree if they did before. *)
Theorem sync_fs_durable v :
  wf v → reliable v → volbase (vfs v) + 1 < fatbase (vfs v) →
  ∃ v', sync_fs v = Some (FR_OK, v') ∧ wf v' ∧ wflag (vfs v') = 0 ∧
    (∀ s, vis v s → s ≠ volbase (vfs v) + 1 → sector (vdev v') s = view v s) ∧
    (fsi_dirty (vfs v) = true → sector (vdev v') (volbase (vfs v) + 1) = fsinfo_sector (vfs v)) ∧
    (mirror v → mirror v').
Proof.
  intros Hwf HR Hb. destruct (sync_fs_spec v Hwf HR Hb) as (v' & E & H1 & H2 & _ & _ & _ & _ & _ & H3 & H4 & H5 & H6).
  exists v'. do 3 (split; [done|]). split; [|done]. intros s Hs Hn. by rewrite H4, H3.
Qed.

(** C25: A FAT entry reads back what was stored, cut to the width of the FAT
    type (12, 16 or 28 bits), and storing it changes no other entry of any
    cluster, also where FAT12 entries share a byte or straddle sectors. *)
Theorem put_get_fat v c val :
  wf v → reliable v → valid_clst v c →
  ∃ v1 v2, put_fat c val v = Some (FR_OK, v1) ∧
    get_fat c v1 = Some (fat_trunc (fs_type (vfs v)) val, v2) ∧ wf v2 ∧
    (∀ c', valid_clst v c' → c' ≠ c → fat_entry v2 c' = fat_entry v c') ∧
    (∀ s, vis v s → ¬ in_fat1 (vfs v) s → view v2 s = view v s) ∧ (mirror v → mirror v2).
Proof.
  intros Hwf HR Hc. destruct (put_fat_spec v c val Hwf Hc) as (r & v1 & E1 & W1 & C1 & X1 & _ & V1 & F1 & R1).
  destruct (R1 HR) as [-> M1].
  assert (valid_clst v1 c) as Hc1 by (by apply (valid_clst_veqx _ _ _ _ X1)).
  destruct (get_fat_spec v1 c W1 Hc1) as (r & v2 & E2 & W2 & V2 & _ & R2).
  destruct (R2 (reliable_veqx _ _ _ X1 HR)) as [-> M2].
  exists v1, v2. split; [done|]. split; [by rewrite E2, V1|]. split_and!; auto.
  - intros c' Hc' Hne. rewrite <- (fat_entry_veq v1 v2); auto. by apply (valid_clst_veqx _ _ _ _ X1).
  - intros s Hs Hn. rewrite <- (veq_view _ _ V2) by (by apply (vis_veqx _ _ _ _ X1)).
    symmetry. by apply (vx_view _ _ _ X1).
Qed.

(** Cluster numbers outside 2..n_fatent-1 are refused by [get_fat] (the
    value 1), [put_fat] and [remove_chain] (FR_INT_ERR) without any access. *)
Theorem fat_rejects_invalid v c val :
  ¬ valid_clst v c →
  get_fat c v = Some (1, v) ∧ put_fat c val v = Some (FR_INT_ERR, v) ∧
  remove_chain c 0 v = Some (FR_INT_ERR, v).
Proof. intros Hc. split_and!; [by apply get_fat_invalid|by apply put_fat_invalid|by apply remove_chain_invalid]. Qed.

(** [create_chain 0] starts a new chain: it either returns a cluster
    that was free and marks it end-of-chain (with hint and free count
    updated), or answers 0 with the volume unchanged because no cluster is
    free, 1 because the FAT holds the reserved value 1, or 0xFFFFFFFF on a
    disk error; no other entry and no sector outside the FAT changes. *)
Theorem create_chain_starts v :
  wf v → 0 <= last_clst (vfs v) →
  ∃ r v', create_chain 0 v = Some (r, v') ∧ wf v' ∧
    (∀ s, vis v s → ¬ in_fat1 (vfs v) s → view v' s = view v s) ∧
    (allocated v 0 r v' ∨
     (r = 0 ∧ veq v v' ∧ (free_clst (vfs v) = 0 ∨ ∀ c, valid_clst v c → fat_entry v c ≠ 0)) ∨
     (r = 1 ∧ veq v v' ∧ ∃ c, valid_clst v c ∧ fat_entry v c = 1) ∨
     (r = 0xFFFFFFFF ∧ ¬ reliable v)).
Proof.
  intros Hwf Hl. destruct (create_chain_new v Hwf Hl) as (r & v' & E & H1 & H2 & _ & H4).
  exists r, v'. do 2 (split; [done|]). split; [|done]. intros s Hs Hn. symmetry. by apply (vx_view _ _ _ H2).
Qed.

(** [create_chain clst] on the last cluster of a chain appends a free
    cluster to it, and on another one just follows the link: the result of a
    successful call is the next cluster of the chain, which it makes one
    longer by at most that cluster. *)
Theorem create_chain_extends v c l :
  wf v → reliable v → sane v → chain (fat_entry v) (n_fatent (vfs v)) c l →
  ∀ q, 0 <= q < zlen l →
  ∃ r v', create_chain (zget l q) v = Some (r, v') ∧ wf v' ∧
    (r = 0 ∧ veq v v' ∧ q = zlen l - 1 ∧ full v ∨
     r = zget l (q + 1) ∧ veq v v' ∧ q < zlen l - 1 ∨
     q = zlen l - 1 ∧ fat_entry v r = 0 ∧ chain (fat_entry v') (n_fatent (vfs v')) c (l ++ [r])).
Proof.
  intros Hwf HR Hs Hch q Hq. pose proof (zget_chain _ _ _ _ q Hch Hq) as Hv.
  destruct (create_chain_stretch v (zget l q) Hwf Hv) as (r & v' & E & Hwf' & Hx & Hm & Halloc & Hfollow & Hne).
  exists r, v'. split; [done|]. split; [done|]. specialize (Hne HR).
  destruct (decide (q < zlen l - 1)) as [Hlt|Hge].
  - right; left. pose proof (zget_chain_next _ _ _ _ q Hch ltac:(lia) ltac:(lia)) as He.
    pose proof (zget_chain _ _ _ _ (q + 1) Hch ltac:(lia)).
    destruct (Hfollow Hne ltac:(lia)) as [Hv' Hr]. by rewrite He, (proj2 (Z.ltb_ge _ _)) in Hr by lia.
  - assert (q = zlen l - 1) as -> by lia.
    destruct l as [|a l0 _] using rev_ind; [unfold zlen in *; simpl in *; lia|].
    rewrite zlen_snoc in *. replace (zlen l0 + 1 - 1) with (zlen l0) in * by lia. rewrite zget_snoc in *.
    pose proof (chain_last_entry _ _ _ _ _ Hch) as Hend.
    destruct (alloc_cases _ _ _ _ HR Hs (Halloc Hne Hend)) as [(->&Hq'&Hf)|(Ha&_&_&_)].
    + left. by destruct Hq' as (_&?&_).
    + right; right. split; [done|]. split; [apply Ha|]. rewrite (n_fatent_veqx _ _ _ Hx).
      apply (grown_link v c l0 a r v'); auto.
Qed.

(** C23: [remove_chain] of a whole chain frees exactly its clusters: their
    entries become 0, all other entries and all sectors outside the FAT stay,
    and the free count goes up by one per cluster while it is known. *)
Theorem remove_chain_frees v c l :
  wf v → reliable v → chain (fat_entry v) (n_fatent (vfs v)) c l →
  ∃ v', remove_chain c 0 v = Some (FR_OK, v') ∧ wf v' ∧
    (∀ x, x ∈ l → fat_entry v' x = 0) ∧
    (∀ x, valid_clst v x → x ∉ l → fat_entry v' x = fat_entry v x) ∧
    (∀ s, vis v s → ¬ in_fat1 (vfs v) s → view v' s = view v s) ∧
    free_clst (vfs v') = Nat.iter (length l) (bump (n_fatent (vfs v))) (free_clst (vfs v)) ∧
    (mirror v → mirror v').
Proof.
  intros Hwf HR Hch. destruct (remove_chain_whole v c l Hwf HR Hch) as (v' & E & H1 & H2 & H3 & H4 & H5 & H6).
  exists v'. split_and!; auto. intros s Hs Hn. symmetry. by apply (vx_view _ _ _ H2).
Qed.

(** C38: [remove_chain] terminates on every volume, whatever the FAT holds
    (cyclic or crossed chains, reserved values) and however the device fails,
    and preserves the invariant. *)
Theorem remove_chain_terminates v c p :
  wf v → ∃ r v', remove_chain c p v = Some (r, v') ∧ wf v' ∧ veqx (in_fat1 (vfs v)) v v'.
Proof. apply remove_chain_returns. Qed.

(** Sectors of different clusters never overlap each other, the FAT
    area or the reserved area, and stay on the device. *)
Theorem cluster_sectors_disjoint v c j c' j' :
  wf v → valid_clst v c → valid_clst v c' → 0 <= j < csize (vfs v) → 0 <= j' < csize (vfs v) →
  let s := clst2sect (vfs v) c + j in
  vis v s ∧ fatbase (vfs v) + fsize (vfs v) <= s ∧
  (s = clst2sect (vfs v) c' + j' → c = c' ∧ j = j').
Proof.
  intros Hwf Hc Hc' Hj Hj' s. subst s. rewrite !clst2sect_spec by done.
  assert (∀ c j, data_sect (vfs v) c 0 + j = data_sect (vfs v) c j) as E by (intros; unfold data_sect; lia).
  rewrite !E. destruct (data_sect_vis v c j Hwf Hc Hj) as (H1 & _ & H3).
  do 2 (split; [done|]). by apply data_sect_inj.
Qed.

End volume.

(** The medium of the example holds one boot sector, at sector 0. *)
Lemma ex_volumes_fit : volumes_fit ex_v0.
Proof.
  intros s Hs Hv. change (0 <= s < 20) in Hs.
  assert (∀ s, 0 <= s < 0 + 20 →
    (λ s, negb (check_vbr (sector ex_disk s) =? 0) || (s =? 0)) s = true) as H
    by (apply seqZ_forall; by vm_compute).
  specialize (H s Hs). cbv beta in H. change (vdev ex_v0) with ex_disk in *. rewrite Hv in H.
  apply Z.eqb_eq in H. subst s. split; by vm_compute.
Qed.

Lemma ex_boot_ok :
  check_vbr (sector ex_disk 0) = 0 ∧ (init_fatfs (sector ex_disk 0) 0 (vfs ex_v0)).1 = true.
Proof. by vm_compute. Qed.

Lemma ex_zeros : bytes (replicate 512 0).
Proof. apply Forall_replicate. unfold is_byte. lia. Qed.

Lemma mount_establishes_wf_witness :
  ∃ r v', mount_new 0 0 ex_v0 = Some (r, v') ∧ (r = FR_OK → wf v') ∧ (r ≠ FR_OK → fs_type (vfs v') = 0).
Proof.
  destruct (mount_establishes_wf ex_v0 0 0 eq_refl ex_zeros ex_mbr_ok ex_volumes_fit)
    as (r & v' & E & _ & H & H').
  exists r, v'. split; [exact E|]. split; [|exact H']. intros Hr. exact (proj1 (H Hr)).
Defined.

Lemma mount_succeeds_witness :
  ∃ v', mount_new 0 0 ex_v0 = Some (FR_OK, v') ∧ wf v' ∧ reliable v' ∧ volbase (vfs v') = 0.
Proof.
  apply (mount_succeeds ex_v0 0 eq_refl ex_zeros ex_mbr_ok ex_volumes_fit Qemu.qemu_reliable);
    apply ex_boot_ok.
Defined.

Lemma ex_vis s : 4 <= s < 20 → vis ex_vol s.
Proof. intros Hs. split; [change (0 <= s < 20); lia|]. intros [_ H]. simpl in H. lia. Qed.

Lemma move_window_transparent_witness :
  vis ex_vol 5 ∧ ∃ r v', move_window 5 ex_vol = Some (r, v') ∧ wf v' ∧ r = FR_OK.
Proof.
  split; [apply ex_vis; lia|].
  destruct (move_window_transparent ex_vol 5 ex_wf (ex_vis 5 ltac:(lia))) as (r & v' & E & H1 & _ & _ & H2).
  exists r, v'. destruct (H2 ex_reliable) as [Hr _]. exact (conj E (conj H1 Hr)).
Defined.

Lemma sync_fs_durable_witness :
  ∃ v', sync_fs ex_vol = Some (FR_OK, v') ∧ wf v' ∧ wflag (vfs v') = 0 ∧ mirror v'.
Proof.
  destruct (sync_fs_durable ex_vol ex_wf ex_reliable ltac:(done)) as (v' & E & H1 & H2 & _ & _ & H3).
  exists v'. exact (conj E (conj H1 (conj H2 (H3 ex_mirror)))).
Defined.

Lemma put_get_fat_witness :
  ∃ v1 v2, put_fat 6 9 ex_vol = Some (FR_OK, v1) ∧ get_fat 6 v1 = Some (9, v2) ∧ wf v2.
Proof.
  destruct (put_get_fat ex_vol 6 9 ex_wf ex_reliable) as (v1 & v2 & E1 & E2 & H & _); [done|].
  exists v1, v2. exact (conj E1 (conj E2 H)).
Defined.

Lemma fat_rejects_invalid_witness :
  get_fat 18 ex_vol = Some (1, ex_vol) ∧ put_fat 18 3 ex_vol = Some (FR_INT_ERR, ex_vol) ∧
  remove_chain 18 0 ex_vol = Some (FR_INT_ERR, ex_vol).
Proof. apply fat_rejects_invalid. unfold valid_clst. simpl. lia. Defined.

Lemma create_chain_starts_witness : ∃ r v', create_chain 0 ex_vol = Some (r, v') ∧ wf v'.
Proof.
  destruct (create_chain_starts ex_vol ex_wf ltac:(done)) as (r & v' & E & H & _). exists r, v'. exact (conj E H).
Defined.

Lemma create_chain_extends_witness :
  ∃ r v', create_chain 4 ex_vol = Some (r, v') ∧ wf v'.
Proof.
  destruct (create_chain_extends ex_vol 3 ex_chain ex_wf ex_reliable ex_sane ex_is_chain 2 ltac:(done))
    as (r & v' & E & H & _). exists r, v'. exact (conj E H).
Defined.

Lemma remove_chain_frees_witness :
  ∃ v', remove_chain 3 0 ex_vol = Some (FR_OK, v') ∧ wf v' ∧ fat_entry v' 5 = 0.
Proof.
  destruct (remove_chain_frees ex_vol 3 ex_chain ex_wf ex_reliable ex_is_chain) as (v' & E & H1 & H2 & _).
  exists v'. split; [exact E|]. split; [exact H1|]. apply H2, list_elem_of_further, list_elem_of_here.
Defined.

Lemma remove_chain_terminates_witness :
  ∃ r v', remove_chain 3 0 ex_vol = Some (r, v') ∧ wf v' ∧ veqx (in_fat1 (vfs ex_vol)) ex_vol v'.
Proof. apply (remove_chain_terminates ex_vol 3 0 ex_wf). Defined.

Lemma cluster_sectors_disjoint_witness :
  let s := clst2sect ex_fs 3 + 0 in
  vis ex_vol s ∧ 3 <= s ∧ (s = clst2sect ex_fs 5 + 0 → 3 = 5 ∧ 0 = 0).
Proof. apply (cluster_sectors_disjoint ex_vol 3 0 5 0 ex_wf); unfold valid_clst; simpl; lia. Defined.

(** * Names *)

(** C39: A long file name of 1 to 255 characters written to its directory
    entries by [put_lfn] and read by [pick_lfn] in directory order (last part
    first) into the working buffer, whatever that held, is the same name, with
    its terminator: in particular when the name fills its last entry, so that
    no entry holds the terminator.  The buffer past it is untouched. *)
Theorem lfn_roundtrip lfn len sum buf :
  holds_name lfn len → is_byte sum → zlen buf = FF_MAX_LFN + 1 →
  ∃ buf', read_back lfn sum (Z.to_nat (lfn_entries len)) buf = Some buf' ∧
    (∀ i, 0 <= i <= len → zget buf' i = zget lfn i) ∧ zget buf' len = 0 ∧
    ∀ i, len < i → zget buf' i = zget buf i.
Proof.
  intros Hn Hs Hb. pose proof Hn as [_ Hl _ He].
  assert (0 <= lfn_entries len) by (unfold lfn_entries; Z.div_mod_to_equations; lia).
  destruct (read_back_agree lfn len sum (Z.to_nat (lfn_entries len)) buf) as (buf' & E & Ha & Hf); auto; [left; lia|].
  exists buf'. split; [done|]. split; [intros i Hi; apply Ha; lia|]. split; [rewrite Ha by lia; done|done].
Qed.

Definition ex_lfn : list Z := [72; 101; 108; 108; 111; 46; 116; 120; 116] ++ replicate 247 0.

Lemma ex_holds : holds_name ex_lfn 9.
Proof.
  split; try done.
  assert (∀ i, 0 <= i < 0 + 9 → (λ i, (0 <? zget ex_lfn i) && (zget ex_lfn i <? 0xFFFF)) i = true) as H
    by (apply seqZ_forall; by vm_compute).
  intros i Hi. specialize (H i Hi). simpl in H. apply andb_true_iff in H as [H1 H2]. zb. lia.
Qed.

(** A name of 13 characters fills its entry. *)
Definition ex_lfn13 : list Z := replicate 13 65 ++ replicate 243 0.

Lemma ex_holds13 : holds_name ex_lfn13 13.
Proof.
  split; try done.
  assert (∀ i, 0 <= i < 0 + 13 → (λ i, (0 <? zget ex_lfn13 i) && (zget ex_lfn13 i <? 0xFFFF)) i = true) as H
    by (apply seqZ_forall; by vm_compute).
  intros i Hi. specialize (H i Hi). simpl in H. apply andb_true_iff in H as [H1 H2]. zb. lia.
Qed.

Lemma lfn_roundtrip_witness :
  ∃ buf', read_back ex_lfn13 7 1 (replicate 256 99) = Some buf' ∧
    (∀ i, 0 <= i <= 13 → zget buf' i = zget ex_lfn13 i) ∧ zget buf' 13 = 0 ∧
    ∀ i, 13 < i → zget buf' i = zget (replicate 256 99) i.
Proof. apply (lfn_roundtrip ex_lfn13 13 7 (replicate 256 99) ex_holds13); [unfold is_byte; lia|done]. Defined.

(** Every entry that [put_lfn] writes for a name is matched by [cmp_lfn]
    against that name: a created file is found again. *)
Theorem cmp_lfn_put_lfn lfn len sum ord :
  holds_name lfn len → is_byte sum → 1 <= ord <= lfn_entries len →
  cmp_lfn lfn (entry_of lfn sum ord) 0 = true.
Proof.
  intros Hn Hs Ho. pose proof Hn as [_ Hl _ _].
  apply (cmp_lfn_entry lfn len _ 0 ord sum); auto using entry_of_ok;
    unfold lfn_entries, FF_MAX_LFN in *; Z.div_mod_to_equations; lia.
Qed.

Lemma cmp_lfn_put_lfn_witness : cmp_lfn ex_lfn (entry_of ex_lfn 7 1) 0 = true.
Proof. apply (cmp_lfn_put_lfn ex_lfn 9 7 1 ex_holds); [unfold is_byte; lia|done]. Defined.

(** The code page conversions are mutually inverse on the characters
    that map: Unicode to CP932 and back, and CP932 to Unicode and back. *)
Theorem code_page_roundtrip u o :
  0 <= u → 0 <= o < 0x10000 →
  (ff_uni2oem u FF_CODE_PAGE ≠ 0 → ff_oem2uni (ff_uni2oem u FF_CODE_PAGE) FF_CODE_PAGE = u) ∧
  (ff_oem2uni o FF_CODE_PAGE ≠ 0 → ff_uni2oem (ff_oem2uni o FF_CODE_PAGE) FF_CODE_PAGE = o).
Proof. intros. split; intros; [by apply oem2uni_uni2oem|by apply uni2oem_oem2uni]. Qed.

Lemma code_page_roundtrip_witness :
  ff_uni2oem 0x3042 FF_CODE_PAGE = 0x82A0 ∧
  ff_oem2uni (ff_uni2oem 0x3042 FF_CODE_PAGE) FF_CODE_PAGE = 0x3042.
Proof.
  assert (ff_uni2oem 0x3042 FF_CODE_PAGE = 0x82A0) as E by (vm_compute; reflexivity).
  split; [exact E|]. apply (code_page_roundtrip 0x3042 0); [lia..|rewrite E; lia].
Defined.

(** The path characters decoded by [tchar2uni] are encoded by [put_utf]
    to the same bytes, for every valid single or double byte character. *)
Theorem tchar_roundtrip str uc rest szb :
  bytes str → tchar2uni str = (uc, rest) → uc ≠ 0xFFFFFFFF → uc ≠ 0 → 2 <= szb →
  put_utf uc szb ++ rest = str.
Proof. apply put_utf_tchar2uni. Qed.

Lemma tchar_roundtrip_witness : put_utf 65 2 ++ [66] = [65; 66].
Proof.
  apply (tchar_roundtrip [65; 66] 65 [66] 2); [|vm_compute; reflexivity|lia..].
  repeat constructor; unfold is_byte; lia.
Defined.

(** Case folding is idempotent on all of Unicode, and on ASCII it maps
    exactly the lower case letters to upper case. *)
Theorem wtoupper_folds u :
  0 <= u →
  ff_wtoupper (ff_wtoupper u) = ff_wtoupper u ∧
  (u < 0x80 → ff_wtoupper u = if (97 <=? u) && (u <=? 122) then u - 32 else u).
Proof. intros Hu. split; [by apply wtoupper_idem|intros; by apply wtoupper_ascii]. Qed.

Lemma wtoupper_folds_witness : ff_wtoupper (ff_wtoupper 0xE4) = ff_wtoupper 0xE4.
Proof. apply (wtoupper_folds 0xE4); lia. Defined.

(** The start cluster stored in a directory entry is read back, whole on
    FAT32 and cut to 16 bits on the older FAT types. *)
Theorem clust_roundtrip f w dir cl :
  bytes w → 0 <= dir → dir + SZDIRE <= zlen w → 0 <= cl < 2 ^ 32 →
  ld_clust f (st_clust f w dir cl) dir = if fs_type f =? FS_FAT32 then cl else u16 cl.
Proof. apply ld_st_clust. Qed.

Lemma clust_roundtrip_witness :
  ld_clust ex_fs (st_clust ex_fs (replicate 512 0) 32 0x12345) 32 = 0x12345.
Proof. apply (clust_roundtrip ex_fs (replicate 512 0) 32 0x12345 ex_zeros); done || lia. Defined.

(** The QEMU driver implements the storage interface: after a write to
    sectors inside the image, reading them returns the written bytes and
    every other sector its old contents. *)
Theorem qemu_write_read d buff s n :
  0 <= s → 0 < n → s + n <= Qemu.qsector_count d → bytes buff → zlen buff = 512 * n →
  ∃ d', Qemu.disk_write 0 buff s n d = (RES_OK, d') ∧
    Qemu.disk_read 0 s n d' = (RES_OK, buff, d') ∧
    (∀ j, 0 <= j < Qemu.qsector_count d → ¬ (s <= j < s + n) → Qemu.qsector d' j = Qemu.qsector d j).
Proof.
  intros Hs Hn Hc Hb Hl. destruct (Qemu.disk_write 0 buff s n d) as [r d'] eqn:E.
  pose proof (disk_write_ok buff s n d ltac:(lia)) as Hr.
  change (disk_write 0 buff s n d) with (Qemu.disk_write 0 buff s n d) in Hr. rewrite E in Hr. simpl in Hr. subst r.
  pose proof (disk_write_spec 0 buff s n d RES_OK d' Hs Hn Hc Hb Hl E) as (H1 & H2 & H3).
  exists d'. split; [done|]. split; [|done].
  destruct (Qemu.disk_read 0 s n d') as [[r bs] d''] eqn:E'.
  pose proof (disk_read_ok s n d') as Hr.
  change (disk_read 0 s n d') with (Qemu.disk_read 0 s n d') in Hr. rewrite E' in Hr. simpl in Hr. subst r.
  change (sector_count d') with (Qemu.qsector_count d') in H1.
  change (sector_count d) with (Qemu.qsector_count d) in H1.
  assert (s + n <= sector_count d') as Hc' by (change (s + n <= Qemu.qsector_count d'); lia).
  pose proof (disk_read_spec 0 s n d' RES_OK bs d'' ltac:(lia) ltac:(lia) Hc' E') as (_ & _ & Hbs & _).
  assert (d'' = d') as -> by (unfold Qemu.disk_read in E'; simpl in E'; by injection E').
  rewrite Hbs by done. f_equal. f_equal. apply list_eq_zget.
  - pose proof (length_concat_512 (sector d') s n ltac:(lia) ltac:(intros; apply sector_length)) as Hlc.
    unfold zlen in *. lia.
  - rewrite (length_concat_512 (sector d') s n) by (lia || (intros; apply sector_length)). intros i Hi.
    rewrite zget_concat by (lia || (intros; apply sector_length)).
    assert (0 <= i / 512 < n) by (Z.div_mod_to_equations; lia).
    rewrite H3 by (done || lia). rewrite zget_zread by (Z.div_mod_to_equations; lia).
    f_equal. Z.div_mod_to_equations; lia.
Qed.

Lemma qemu_write_read_witness :
  ∃ d', Qemu.disk_write 0 (replicate 512 0) 5 1 ex_disk = (RES_OK, d') ∧
    Qemu.disk_read 0 5 1 d' = (RES_OK, replicate 512 0, d').
Proof.
  destruct (qemu_write_read ex_disk (replicate 512 0) 5 1) as (d' & H1 & H2 & _);
    [lia|lia|done|apply ex_zeros|done|]. exists d'. exact (conj H1 H2).
Defined.
