(* ===== verification/KBase.v ===== *)
(** Outcomes of kernel code.

    The kernel is C++ without exceptions: a call either returns, or stops
    the machine through [panic], or touches memory outside its object
    ([Wild], undefined behaviour), or (for a fuelled loop of the model)
    runs out of fuel ([Loop]). *)
From Stdlib Require Import ZArith Lia.
From stdpp Require Import base list numbers option.
From S2P Require Import Prelude.

Local Open Scope Z_scope.

Inductive outcome (A : Type) : Type :=
  | Done (a : A)
  | Panic
  | Wild
  | Loop.
Arguments Done {A}.
Arguments Panic {A}.
Arguments Wild {A}.
Arguments Loop {A}.

Definition obind {A B} (m : outcome A) (k : A → outcome B) : outcome B :=
  match m with Done a => k a | Panic => Panic | Wild => Wild | Loop => Loop end.

Declare Scope out_scope.
Delimit Scope out_scope with out.
Notation "'do' x := m 'in' k" := (obind m (λ x, k))
  (at level 10, x pattern, m at level 100, k at level 200) : out_scope.

Lemma obind_done {A B} (m : outcome A) (k : A → outcome B) b :
  obind m k = Done b → ∃ a, m = Done a ∧ k a = Done b.
Proof. destruct m; simpl; intros; simplify_eq; eauto. Qed.
