(* ===== verification/BitField.v ===== *)
(** Bit-fields of device registers.

    The drivers describe each 32-bit register as a packed C structure of
    unsigned bit-fields.  A structure is here the list of its fields with
    their widths; the compiler lays the fields out from bit 0 in the order of
    their declaration ([bf_find]).  Reading a field ([bf_get]) and assigning
    it ([bf_set]) are what the compiler generates for a member access: a read
    of the word, and a read-modify-write that keeps the other bits. *)
From Stdlib Require Import ZArith Lia String.
From stdpp Require Import base list numbers option strings.
From S2P Require Import Prelude.

Local Open Scope Z_scope.

Definition bitfields : Type := list (string * Z).

(** Offset and width of a field of a structure that starts at bit [off]. *)
Fixpoint bf_find (name : string) (off : Z) (l : bitfields) : option (Z * Z) :=
  match l with
  | [] => None
  | (n, w) :: l => if String.eqb n name then Some (off, w) else bf_find name (off + w) l
  end.

Definition slice (off w x : Z) : Z := Z.land (Z.shiftr x off) (Z.ones w).
Definition put_slice (off w v x : Z) : Z :=
  Z.lor (Z.ldiff x (Z.shiftl (Z.ones w) off)) (Z.shiftl (Z.land v (Z.ones w)) off).

Definition bf_get (l : bitfields) (name : string) (x : Z) : Z :=
  match bf_find name 0 l with Some (off, w) => slice off w x | None => 0 end.
Definition bf_set (l : bitfields) (name : string) (v x : Z) : Z :=
  match bf_find name 0 l with Some (off, w) => put_slice off w v x | None => x end.

Definition bf_has (l : bitfields) (name : string) : Prop := bf_find name 0 l ≠ None.

(** A structure fits its register: fields have positive widths that add up
    to 32. *)
Fixpoint bf_total (l : bitfields) : Z := match l with [] => 0 | (_, w) :: l => w + bf_total l end.
Definition bf_fits (l : bitfields) : Prop := Forall (λ f, 0 < snd f) l ∧ bf_total l = 32.

(** * Bits of slices *)

Lemma slice_bit off w x i : 0 <= off → 0 <= w → 0 <= i →
  Z.testbit (slice off w x) i = (i <? w) && Z.testbit x (i + off).
Proof.
  intros. unfold slice. rewrite Z.land_spec, Z.shiftr_spec by lia.
  rewrite Z.testbit_ones_nonneg by lia. apply andb_comm.
Qed.

Lemma put_slice_bit off w v x i : 0 <= off → 0 <= w → 0 <= i →
  Z.testbit (put_slice off w v x) i =
  if (off <=? i) && (i <? off + w) then Z.testbit v (i - off) else Z.testbit x i.
Proof.
  intros. unfold put_slice. rewrite Z.lor_spec, Z.ldiff_spec.
  destruct (Z.leb_spec off i); cbn [andb].
  - rewrite !Z.shiftl_spec, Z.land_spec by lia. rewrite !Z.testbit_ones_nonneg by lia.
    destruct (Z.ltb_spec (i - off) w), (Z.ltb_spec i (off + w)); try lia;
      destruct (Z.testbit x i), (Z.testbit v (i - off)); reflexivity.
  - rewrite !(Z.shiftl_spec_low _ off i) by lia. by destruct (Z.testbit x i).
Qed.

Lemma slice_put_eq off w v x : 0 <= off → 0 <= w → slice off w (put_slice off w v x) = Z.land v (Z.ones w).
Proof.
  intros. apply Z.bits_inj'. intros i Hi. rewrite slice_bit, put_slice_bit, Z.land_spec by lia.
  rewrite Z.testbit_ones_nonneg by lia. replace (i + off - off) with i by lia.
  destruct (Z.ltb_spec i w), (Z.leb_spec off (i + off)), (Z.ltb_spec (i + off) (off + w)); try lia;
    destruct (Z.testbit v i); reflexivity.
Qed.

Lemma slice_put_ne off w off' w' v x : 0 <= off → 0 <= w → 0 <= off' → 0 <= w' →
  off + w <= off' ∨ off' + w' <= off → slice off w (put_slice off' w' v x) = slice off w x.
Proof.
  intros. apply Z.bits_inj'. intros i Hi. rewrite !slice_bit, put_slice_bit by lia.
  destruct (Z.ltb_spec i w), (Z.leb_spec off' (i + off)), (Z.ltb_spec (i + off) (off' + w')); try lia; done.
Qed.

Lemma slice_range off w x : 0 <= w → 0 <= slice off w x < 2 ^ w.
Proof. intros. unfold slice. rewrite Z.land_ones by lia. apply Z.mod_pos_bound. lia. Qed.

Lemma word_bits x : 0 <= x < 2 ^ 32 ↔ 0 <= x ∧ ∀ i, 32 <= i → Z.testbit x i = false.
Proof.
  split; intros [H1 H2]; split; auto.
  - intros i Hi. destruct (Z.eq_dec x 0) as [->|]; [apply Z.bits_0|].
    apply Z.bits_above_log2; [lia|]. assert (Z.log2 x < 32) by (apply Z.log2_lt_pow2; lia). lia.
  - destruct (Z.eq_dec x 0) as [->|]; [lia|]. apply Z.log2_lt_pow2; [lia|].
    destruct (Z.lt_ge_cases (Z.log2 x) 32) as [|Hl]; [done|]. exfalso.
    pose proof (Z.bit_log2 x ltac:(lia)) as Hb. rewrite H2 in Hb; [done|lia].
Qed.

Lemma put_slice_word off w v x : 0 <= off → 0 <= w → off + w <= 32 →
  0 <= x < 2 ^ 32 → 0 <= put_slice off w v x < 2 ^ 32.
Proof.
  intros ??? Hx. apply word_bits in Hx as [Hx0 Hx]. apply word_bits. split.
  - unfold put_slice. apply Z.lor_nonneg. split; [apply Z.ldiff_nonneg; by left|].
    apply Z.shiftl_nonneg, Z.land_nonneg. right. rewrite Z.ones_equiv. apply Z.lt_le_pred, Z.pow_pos_nonneg; lia.
  - intros i Hi. rewrite put_slice_bit, Hx by lia.
    destruct (Z.leb_spec off i), (Z.ltb_spec i (off + w)); done || lia.
Qed.

(** * Fields of a structure *)

Lemma bf_total_nonneg l : Forall (λ f, 0 < snd f) l → 0 <= bf_total l.
Proof.
  induction l as [|[n w] l IH]; cbn; [lia|]. intros [Hw Hl]%Forall_cons. cbn in Hw. specialize (IH Hl). lia.
Qed.

Lemma bf_find_bounds l : ∀ name off o w, Forall (λ f, 0 < snd f) l →
  bf_find name off l = Some (o, w) → off <= o ∧ 0 < w ∧ o + w <= off + bf_total l.
Proof.
  induction l as [|[n w'] l IH]; intros name off o w Hl H; cbn in *; [done|].
  apply Forall_cons in Hl as [Hw Hl]. cbn in Hw.
  pose proof (bf_total_nonneg l Hl). destruct (String.eqb n name); simplify_eq; [lia|].
  destruct (IH _ _ _ _ Hl H). lia.
Qed.

Lemma bf_find_disjoint l : ∀ n m off o w o' w', Forall (λ f, 0 < snd f) l → n ≠ m →
  bf_find n off l = Some (o, w) → bf_find m off l = Some (o', w') → o + w <= o' ∨ o' + w' <= o.
Proof.
  induction l as [|[k wk] l IH]; intros n m off o w o' w' Hl Hne; cbn; [done|].
  apply Forall_cons in Hl as [Hk Hl].
  destruct (String.eqb_spec k n) as [E1|], (String.eqb_spec k m) as [E2|]; intros; simplify_eq.
  all: try (match goal with H : bf_find _ _ ?x = Some _ |- _ => pose proof (bf_find_bounds x _ _ _ _ Hl H) end;
            cbn in *; lia).
  eauto.
Qed.

Section struct.
Context (l : bitfields) (Hfit : bf_fits l).

(** An assigned field reads back as the value, truncated to its width. *)
Lemma bf_get_set_eq name w v x off : bf_find name 0 l = Some (off, w) →
  bf_get l name (bf_set l name v x) = v mod 2 ^ w.
Proof.
  intros H. destruct Hfit as [Hp _]. pose proof (bf_find_bounds l _ _ _ _ Hp H).
  unfold bf_get, bf_set. rewrite H, slice_put_eq by lia. apply Z.land_ones. lia.
Qed.

(** Assigning a field leaves the others alone. *)
Lemma bf_get_set_ne n m v x : n ≠ m → bf_get l n (bf_set l m v x) = bf_get l n x.
Proof.
  intros Hne. destruct Hfit as [Hp _]. unfold bf_get, bf_set.
  destruct (bf_find n 0 l) as [[o w]|] eqn:E1; [|done]. destruct (bf_find m 0 l) as [[o' w']|] eqn:E2; [|done].
  pose proof (bf_find_bounds l _ _ _ _ Hp E1). pose proof (bf_find_bounds l _ _ _ _ Hp E2).
  apply slice_put_ne; try lia. eauto using bf_find_disjoint.
Qed.

Lemma bf_set_word n v x : 0 <= x < 2 ^ 32 → 0 <= bf_set l n v x < 2 ^ 32.
Proof.
  intros Hx. destruct Hfit as [Hp Ht]. unfold bf_set. destruct (bf_find n 0 l) as [[o w]|] eqn:E; [|done].
  pose proof (bf_find_bounds l _ _ _ _ Hp E). apply put_slice_word; lia.
Qed.

Lemma bf_get_range n off w x : bf_find n 0 l = Some (off, w) → 0 <= bf_get l n x < 2 ^ w.
Proof.
  intros H. destruct Hfit as [Hp _]. pose proof (bf_find_bounds l _ _ _ _ Hp H).
  unfold bf_get. rewrite H. apply slice_range. lia.
Qed.
End struct.
