(* ===== verification/Sysctl.v ===== *)
(** The clock and reset controller of the K210 (driver/sysctl.c, sysctl.h)
    and the delays of driver/sleep/sleep.c.

    The controller is a block of 32 registers ([sysctl_t]); members of a
    register are accessed through the bit-field layouts of sysctl.h.  The
    enumerations keep the constructors of the source; [.._MAX] stands for the
    values beyond the last member.  The frequency functions call each other;
    their recursion is at most seven calls deep (a device on an APB bus, the
    bus, its source, ACLK, its source, PLL0, the oscillator), which is the
    fuel [freq_depth].

    The cycle counter of the processor is the class [CycleCounter]: a read
    takes time, so a waiting loop ends after at most [polls_per_tick] reads
    for each tick it waits for. *)
From Stdlib Require Import ZArith Lia String.
From stdpp Require Import base list numbers option strings.
From S2P Require Import Prelude BitField.

Local Open Scope string_scope.
Local Open Scope Z_scope.

(** * Enumerations and registers of sysctl.h *)

Inductive sysctl_pll_t : Type :=
  | SYSCTL_PLL0 | SYSCTL_PLL1 | SYSCTL_PLL2 | SYSCTL_PLL_MAX.

Inductive sysctl_clock_source_t : Type :=
  | SYSCTL_SOURCE_IN0 | SYSCTL_SOURCE_PLL0 | SYSCTL_SOURCE_PLL1 | SYSCTL_SOURCE_PLL2
  | SYSCTL_SOURCE_ACLK | SYSCTL_SOURCE_MAX.

Inductive sysctl_dma_channel_t : Type :=
  | SYSCTL_DMA_CHANNEL_0 | SYSCTL_DMA_CHANNEL_1 | SYSCTL_DMA_CHANNEL_2 | SYSCTL_DMA_CHANNEL_3
  | SYSCTL_DMA_CHANNEL_4 | SYSCTL_DMA_CHANNEL_5 | SYSCTL_DMA_CHANNEL_MAX.

Inductive sysctl_clock_t : Type :=
  | SYSCTL_CLOCK_PLL0 | SYSCTL_CLOCK_PLL1 | SYSCTL_CLOCK_PLL2 | SYSCTL_CLOCK_CPU
  | SYSCTL_CLOCK_SRAM0 | SYSCTL_CLOCK_SRAM1 | SYSCTL_CLOCK_APB0 | SYSCTL_CLOCK_APB1
  | SYSCTL_CLOCK_APB2 | SYSCTL_CLOCK_ROM | SYSCTL_CLOCK_DMA | SYSCTL_CLOCK_AI | SYSCTL_CLOCK_DVP
  | SYSCTL_CLOCK_FFT | SYSCTL_CLOCK_GPIO | SYSCTL_CLOCK_SPI0 | SYSCTL_CLOCK_SPI1
  | SYSCTL_CLOCK_SPI2 | SYSCTL_CLOCK_SPI3 | SYSCTL_CLOCK_I2S0 | SYSCTL_CLOCK_I2S1
  | SYSCTL_CLOCK_I2S2 | SYSCTL_CLOCK_I2C0 | SYSCTL_CLOCK_I2C1 | SYSCTL_CLOCK_I2C2
  | SYSCTL_CLOCK_UART1 | SYSCTL_CLOCK_UART2 | SYSCTL_CLOCK_UART3 | SYSCTL_CLOCK_AES
  | SYSCTL_CLOCK_FPIOA | SYSCTL_CLOCK_TIMER0 | SYSCTL_CLOCK_TIMER1 | SYSCTL_CLOCK_TIMER2
  | SYSCTL_CLOCK_WDT0 | SYSCTL_CLOCK_WDT1 | SYSCTL_CLOCK_SHA | SYSCTL_CLOCK_OTP | SYSCTL_CLOCK_RTC
  | SYSCTL_CLOCK_ACLK | SYSCTL_CLOCK_HCLK | SYSCTL_CLOCK_IN0 | SYSCTL_CLOCK_MAX.

Inductive sysctl_clock_select_t : Type :=
  | SYSCTL_CLOCK_SELECT_PLL0_BYPASS | SYSCTL_CLOCK_SELECT_PLL1_BYPASS
  | SYSCTL_CLOCK_SELECT_PLL2_BYPASS | SYSCTL_CLOCK_SELECT_PLL2 | SYSCTL_CLOCK_SELECT_ACLK
  | SYSCTL_CLOCK_SELECT_SPI3 | SYSCTL_CLOCK_SELECT_TIMER0 | SYSCTL_CLOCK_SELECT_TIMER1
  | SYSCTL_CLOCK_SELECT_TIMER2 | SYSCTL_CLOCK_SELECT_SPI3_SAMPLE | SYSCTL_CLOCK_SELECT_MAX.

Inductive sysctl_threshold_t : Type :=
  | SYSCTL_THRESHOLD_ACLK | SYSCTL_THRESHOLD_APB0 | SYSCTL_THRESHOLD_APB1 | SYSCTL_THRESHOLD_APB2
  | SYSCTL_THRESHOLD_SRAM0 | SYSCTL_THRESHOLD_SRAM1 | SYSCTL_THRESHOLD_AI | SYSCTL_THRESHOLD_DVP
  | SYSCTL_THRESHOLD_ROM | SYSCTL_THRESHOLD_SPI0 | SYSCTL_THRESHOLD_SPI1 | SYSCTL_THRESHOLD_SPI2
  | SYSCTL_THRESHOLD_SPI3 | SYSCTL_THRESHOLD_TIMER0 | SYSCTL_THRESHOLD_TIMER1
  | SYSCTL_THRESHOLD_TIMER2 | SYSCTL_THRESHOLD_I2S0 | SYSCTL_THRESHOLD_I2S1 | SYSCTL_THRESHOLD_I2S2
  | SYSCTL_THRESHOLD_I2S0_M | SYSCTL_THRESHOLD_I2S1_M | SYSCTL_THRESHOLD_I2S2_M
  | SYSCTL_THRESHOLD_I2C0 | SYSCTL_THRESHOLD_I2C1 | SYSCTL_THRESHOLD_I2C2 | SYSCTL_THRESHOLD_WDT0
  | SYSCTL_THRESHOLD_WDT1 | SYSCTL_THRESHOLD_MAX.

Inductive sysctl_reset_t : Type :=
  | SYSCTL_RESET_SOC | SYSCTL_RESET_ROM | SYSCTL_RESET_DMA | SYSCTL_RESET_AI | SYSCTL_RESET_DVP
  | SYSCTL_RESET_FFT | SYSCTL_RESET_GPIO | SYSCTL_RESET_SPI0 | SYSCTL_RESET_SPI1
  | SYSCTL_RESET_SPI2 | SYSCTL_RESET_SPI3 | SYSCTL_RESET_I2S0 | SYSCTL_RESET_I2S1
  | SYSCTL_RESET_I2S2 | SYSCTL_RESET_I2C0 | SYSCTL_RESET_I2C1 | SYSCTL_RESET_I2C2
  | SYSCTL_RESET_UART1 | SYSCTL_RESET_UART2 | SYSCTL_RESET_UART3 | SYSCTL_RESET_AES
  | SYSCTL_RESET_FPIOA | SYSCTL_RESET_TIMER0 | SYSCTL_RESET_TIMER1 | SYSCTL_RESET_TIMER2
  | SYSCTL_RESET_WDT0 | SYSCTL_RESET_WDT1 | SYSCTL_RESET_SHA | SYSCTL_RESET_RTC | SYSCTL_RESET_MAX.

Definition sysctl_git_id_t : bitfields :=
  [("git_id", 32)].
Definition sysctl_clk_freq_t : bitfields :=
  [("clk_freq", 32)].
Definition sysctl_pll0_t : bitfields :=
  [("clkr0", 4); ("clkf0", 6); ("clkod0", 4); ("bwadj0", 6); ("pll_reset0", 1); ("pll_pwrd0", 1);
   ("pll_intfb0", 1); ("pll_bypass0", 1); ("pll_test0", 1); ("pll_out_en0", 1); ("pll_test_en", 1);
   ("reserved", 5)].
Definition sysctl_pll1_t : bitfields :=
  [("clkr1", 4); ("clkf1", 6); ("clkod1", 4); ("bwadj1", 6); ("pll_reset1", 1); ("pll_pwrd1", 1);
   ("pll_intfb1", 1); ("pll_bypass1", 1); ("pll_test1", 1); ("pll_out_en1", 1); ("reserved", 6)].
Definition sysctl_pll2_t : bitfields :=
  [("clkr2", 4); ("clkf2", 6); ("clkod2", 4); ("bwadj2", 6); ("pll_reset2", 1); ("pll_pwrd2", 1);
   ("pll_intfb2", 1); ("pll_bypass2", 1); ("pll_test2", 1); ("pll_out_en2", 1);
   ("pll_ckin_sel2", 2); ("reserved", 4)].
Definition sysctl_pll_lock_t : bitfields :=
  [("pll_lock0", 2); ("pll_slip_clear0", 1); ("test_clk_out0", 1); ("reserved0", 4);
   ("pll_lock1", 2); ("pll_slip_clear1", 1); ("test_clk_out1", 1); ("reserved1", 4);
   ("pll_lock2", 2); ("pll_slip_clear2", 1); ("test_clk_out2", 1); ("reserved2", 12)].
Definition sysctl_rom_error_t : bitfields :=
  [("rom_mul_error", 1); ("rom_one_error", 1); ("reserved", 30)].
Definition sysctl_clk_sel0_t : bitfields :=
  [("aclk_sel", 1); ("aclk_divider_sel", 2); ("apb0_clk_sel", 3); ("apb1_clk_sel", 3);
   ("apb2_clk_sel", 3); ("spi3_clk_sel", 1); ("timer0_clk_sel", 1); ("timer1_clk_sel", 1);
   ("timer2_clk_sel", 1); ("reserved", 16)].
Definition sysctl_clk_sel1_t : bitfields :=
  [("spi3_sample_clk_sel", 1); ("reserved0", 30); ("reserved1", 1)].
Definition sysctl_clk_en_cent_t : bitfields :=
  [("cpu_clk_en", 1); ("sram0_clk_en", 1); ("sram1_clk_en", 1); ("apb0_clk_en", 1);
   ("apb1_clk_en", 1); ("apb2_clk_en", 1); ("reserved", 26)].
Definition sysctl_clk_en_peri_t : bitfields :=
  [("rom_clk_en", 1); ("dma_clk_en", 1); ("ai_clk_en", 1); ("dvp_clk_en", 1); ("fft_clk_en", 1);
   ("gpio_clk_en", 1); ("spi0_clk_en", 1); ("spi1_clk_en", 1); ("spi2_clk_en", 1);
   ("spi3_clk_en", 1); ("i2s0_clk_en", 1); ("i2s1_clk_en", 1); ("i2s2_clk_en", 1);
   ("i2c0_clk_en", 1); ("i2c1_clk_en", 1); ("i2c2_clk_en", 1); ("uart1_clk_en", 1);
   ("uart2_clk_en", 1); ("uart3_clk_en", 1); ("aes_clk_en", 1); ("fpioa_clk_en", 1);
   ("timer0_clk_en", 1); ("timer1_clk_en", 1); ("timer2_clk_en", 1); ("wdt0_clk_en", 1);
   ("wdt1_clk_en", 1); ("sha_clk_en", 1); ("otp_clk_en", 1); ("reserved", 1); ("rtc_clk_en", 1);
   ("reserved0", 2)].
Definition sysctl_soft_reset_t : bitfields :=
  [("soft_reset", 1); ("reserved", 31)].
Definition sysctl_peri_reset_t : bitfields :=
  [("rom_reset", 1); ("dma_reset", 1); ("ai_reset", 1); ("dvp_reset", 1); ("fft_reset", 1);
   ("gpio_reset", 1); ("spi0_reset", 1); ("spi1_reset", 1); ("spi2_reset", 1); ("spi3_reset", 1);
   ("i2s0_reset", 1); ("i2s1_reset", 1); ("i2s2_reset", 1); ("i2c0_reset", 1); ("i2c1_reset", 1);
   ("i2c2_reset", 1); ("uart1_reset", 1); ("uart2_reset", 1); ("uart3_reset", 1); ("aes_reset", 1);
   ("fpioa_reset", 1); ("timer0_reset", 1); ("timer1_reset", 1); ("timer2_reset", 1);
   ("wdt0_reset", 1); ("wdt1_reset", 1); ("sha_reset", 1); ("reserved", 2); ("rtc_reset", 1);
   ("reserved0", 2)].
Definition sysctl_clk_th0_t : bitfields :=
  [("sram0_gclk_threshold", 4); ("sram1_gclk_threshold", 4); ("ai_gclk_threshold", 4);
   ("dvp_gclk_threshold", 4); ("rom_gclk_threshold", 4); ("reserved", 12)].
Definition sysctl_clk_th1_t : bitfields :=
  [("spi0_clk_threshold", 8); ("spi1_clk_threshold", 8); ("spi2_clk_threshold", 8);
   ("spi3_clk_threshold", 8)].
Definition sysctl_clk_th2_t : bitfields :=
  [("timer0_clk_threshold", 8); ("timer1_clk_threshold", 8); ("timer2_clk_threshold", 8);
   ("reserved", 8)].
Definition sysctl_clk_th3_t : bitfields :=
  [("i2s0_clk_threshold", 16); ("i2s1_clk_threshold", 16)].
Definition sysctl_clk_th4_t : bitfields :=
  [("i2s2_clk_threshold", 16); ("i2s0_mclk_threshold", 8); ("i2s1_mclk_threshold", 8)].
Definition sysctl_clk_th5_t : bitfields :=
  [("i2s2_mclk_threshold", 8); ("i2c0_clk_threshold", 8); ("i2c1_clk_threshold", 8);
   ("i2c2_clk_threshold", 8)].
Definition sysctl_clk_th6_t : bitfields :=
  [("wdt0_clk_threshold", 8); ("wdt1_clk_threshold", 8); ("reserved0", 8); ("reserved1", 8)].
Definition sysctl_misc_t : bitfields :=
  [("debug_sel", 6); ("reserved0", 4); ("spi_dvp_data_enable", 1); ("reserved1", 21)].
Definition sysctl_peri_t : bitfields :=
  [("timer0_pause", 1); ("timer1_pause", 1); ("timer2_pause", 1); ("timer3_pause", 1);
   ("timer4_pause", 1); ("timer5_pause", 1); ("timer6_pause", 1); ("timer7_pause", 1);
   ("timer8_pause", 1); ("timer9_pause", 1); ("timer10_pause", 1); ("timer11_pause", 1);
   ("spi0_xip_en", 1); ("spi1_xip_en", 1); ("spi2_xip_en", 1); ("spi3_xip_en", 1);
   ("spi0_clk_bypass", 1); ("spi1_clk_bypass", 1); ("spi2_clk_bypass", 1); ("i2s0_clk_bypass", 1);
   ("i2s1_clk_bypass", 1); ("i2s2_clk_bypass", 1); ("jtag_clk_bypass", 1); ("dvp_clk_bypass", 1);
   ("debug_clk_bypass", 1); ("reserved0", 1); ("reserved1", 6)].
Definition sysctl_spi_sleep_t : bitfields :=
  [("ssi0_sleep", 1); ("ssi1_sleep", 1); ("ssi2_sleep", 1); ("ssi3_sleep", 1); ("reserved", 28)].
Definition sysctl_reset_status_t : bitfields :=
  [("reset_sts_clr", 1); ("pin_reset_sts", 1); ("wdt0_reset_sts", 1); ("wdt1_reset_sts", 1);
   ("soft_reset_sts", 1); ("reserved", 27)].
Definition sysctl_dma_sel0_t : bitfields :=
  [("dma_sel0", 6); ("dma_sel1", 6); ("dma_sel2", 6); ("dma_sel3", 6); ("dma_sel4", 6);
   ("reserved", 2)].
Definition sysctl_dma_sel1_t : bitfields :=
  [("dma_sel5", 6); ("reserved", 26)].
Definition sysctl_power_sel_t : bitfields :=
  [("power_mode_sel0", 1); ("power_mode_sel1", 1); ("power_mode_sel2", 1); ("power_mode_sel3", 1);
   ("power_mode_sel4", 1); ("power_mode_sel5", 1); ("power_mode_sel6", 1); ("power_mode_sel7", 1);
   ("reserved", 24)].

(** The registers, in the order of [sysctl_t]. *)
Inductive sysctl_reg : Type :=
  | git_id | clk_freq | pll0 | pll1 | pll2 | resv5 | pll_lock | rom_error | clk_sel0 | clk_sel1
  | clk_en_cent | clk_en_peri | soft_reset | peri_reset | clk_th0 | clk_th1 | clk_th2 | clk_th3
  | clk_th4 | clk_th5 | clk_th6 | misc | peri | spi_sleep | reset_status | dma_sel0 | dma_sel1
  | power_sel | resv28 | resv29 | resv30 | resv31.
#[global] Instance sysctl_reg_eq_dec : EqDecision sysctl_reg.
Proof. solve_decision. Defined.

Definition layout (r : sysctl_reg) : bitfields :=
  match r with
  | git_id => sysctl_git_id_t
  | clk_freq => sysctl_clk_freq_t
  | pll0 => sysctl_pll0_t
  | pll1 => sysctl_pll1_t
  | pll2 => sysctl_pll2_t
  | resv5 => [("resv5", 32)]
  | pll_lock => sysctl_pll_lock_t
  | rom_error => sysctl_rom_error_t
  | clk_sel0 => sysctl_clk_sel0_t
  | clk_sel1 => sysctl_clk_sel1_t
  | clk_en_cent => sysctl_clk_en_cent_t
  | clk_en_peri => sysctl_clk_en_peri_t
  | soft_reset => sysctl_soft_reset_t
  | peri_reset => sysctl_peri_reset_t
  | clk_th0 => sysctl_clk_th0_t
  | clk_th1 => sysctl_clk_th1_t
  | clk_th2 => sysctl_clk_th2_t
  | clk_th3 => sysctl_clk_th3_t
  | clk_th4 => sysctl_clk_th4_t
  | clk_th5 => sysctl_clk_th5_t
  | clk_th6 => sysctl_clk_th6_t
  | misc => sysctl_misc_t
  | peri => sysctl_peri_t
  | spi_sleep => sysctl_spi_sleep_t
  | reset_status => sysctl_reset_status_t
  | dma_sel0 => sysctl_dma_sel0_t
  | dma_sel1 => sysctl_dma_sel1_t
  | power_sel => sysctl_power_sel_t
  | resv28 => [("resv28", 32)]
  | resv29 => [("resv29", 32)]
  | resv30 => [("resv30", 32)]
  | resv31 => [("resv31", 32)]
  end.

Definition sysctl_t : Type := sysctl_reg → Z.

(** Reading [sysctl->r.name] and assigning to it. *)
Definition rd (s : sysctl_t) (r : sysctl_reg) (name : string) : Z := bf_get (layout r) name (s r).
Definition set_reg (r : sysctl_reg) (x : Z) (s : sysctl_t) : sysctl_t :=
  λ r', if decide (r = r') then x else s r'.
Definition wr (r : sysctl_reg) (name : string) (v : Z) (s : sysctl_t) : sysctl_t :=
  set_reg r (bf_set (layout r) name v (s r)) s.

(** * Clock gates, PLLs and resets *)

Definition SYSCTRL_CLOCK_FREQ_IN0 : Z := 26000000.

Definition sysctl_get_git_id (s : sysctl_t) : Z := rd s git_id "git_id".
Definition sysctl_get_freq (s : sysctl_t) : Z := rd s clk_freq "clk_freq".

Definition sysctl_clock_bus_en (clock : sysctl_clock_t) (en : Z) (s : sysctl_t) : sysctl_t :=
  if en =? 0 then s else
  match clock with
  | SYSCTL_CLOCK_GPIO | SYSCTL_CLOCK_SPI2 | SYSCTL_CLOCK_I2S0 | SYSCTL_CLOCK_I2S1
  | SYSCTL_CLOCK_I2S2 | SYSCTL_CLOCK_I2C0 | SYSCTL_CLOCK_I2C1 | SYSCTL_CLOCK_I2C2
  | SYSCTL_CLOCK_UART1 | SYSCTL_CLOCK_UART2 | SYSCTL_CLOCK_UART3 | SYSCTL_CLOCK_FPIOA
  | SYSCTL_CLOCK_TIMER0 | SYSCTL_CLOCK_TIMER1 | SYSCTL_CLOCK_TIMER2 | SYSCTL_CLOCK_SHA =>
      wr clk_en_cent "apb0_clk_en" en s
  | SYSCTL_CLOCK_AES | SYSCTL_CLOCK_WDT0 | SYSCTL_CLOCK_WDT1 | SYSCTL_CLOCK_OTP | SYSCTL_CLOCK_RTC =>
      wr clk_en_cent "apb1_clk_en" en s
  | SYSCTL_CLOCK_SPI0 | SYSCTL_CLOCK_SPI1 => wr clk_en_cent "apb2_clk_en" en s
  | _ => s
  end.

Definition sysctl_clock_device_en (clock : sysctl_clock_t) (en : Z) (s : sysctl_t) : sysctl_t :=
  match clock with
  | SYSCTL_CLOCK_PLL0 => wr pll0 "pll_out_en0" en s
  | SYSCTL_CLOCK_PLL1 => wr pll1 "pll_out_en1" en s
  | SYSCTL_CLOCK_PLL2 => wr pll2 "pll_out_en2" en s
  | SYSCTL_CLOCK_CPU => wr clk_en_cent "cpu_clk_en" en s
  | SYSCTL_CLOCK_SRAM0 => wr clk_en_cent "sram0_clk_en" en s
  | SYSCTL_CLOCK_SRAM1 => wr clk_en_cent "sram1_clk_en" en s
  | SYSCTL_CLOCK_APB0 => wr clk_en_cent "apb0_clk_en" en s
  | SYSCTL_CLOCK_APB1 => wr clk_en_cent "apb1_clk_en" en s
  | SYSCTL_CLOCK_APB2 => wr clk_en_cent "apb2_clk_en" en s
  | SYSCTL_CLOCK_ROM => wr clk_en_peri "rom_clk_en" en s
  | SYSCTL_CLOCK_DMA => wr clk_en_peri "dma_clk_en" en s
  | SYSCTL_CLOCK_AI => wr clk_en_peri "ai_clk_en" en s
  | SYSCTL_CLOCK_DVP => wr clk_en_peri "dvp_clk_en" en s
  | SYSCTL_CLOCK_FFT => wr clk_en_peri "fft_clk_en" en s
  | SYSCTL_CLOCK_SPI3 => wr clk_en_peri "spi3_clk_en" en s
  | SYSCTL_CLOCK_GPIO => wr clk_en_peri "gpio_clk_en" en s
  | SYSCTL_CLOCK_SPI2 => wr clk_en_peri "spi2_clk_en" en s
  | SYSCTL_CLOCK_I2S0 => wr clk_en_peri "i2s0_clk_en" en s
  | SYSCTL_CLOCK_I2S1 => wr clk_en_peri "i2s1_clk_en" en s
  | SYSCTL_CLOCK_I2S2 => wr clk_en_peri "i2s2_clk_en" en s
  | SYSCTL_CLOCK_I2C0 => wr clk_en_peri "i2c0_clk_en" en s
  | SYSCTL_CLOCK_I2C1 => wr clk_en_peri "i2c1_clk_en" en s
  | SYSCTL_CLOCK_I2C2 => wr clk_en_peri "i2c2_clk_en" en s
  | SYSCTL_CLOCK_UART1 => wr clk_en_peri "uart1_clk_en" en s
  | SYSCTL_CLOCK_UART2 => wr clk_en_peri "uart2_clk_en" en s
  | SYSCTL_CLOCK_UART3 => wr clk_en_peri "uart3_clk_en" en s
  | SYSCTL_CLOCK_FPIOA => wr clk_en_peri "fpioa_clk_en" en s
  | SYSCTL_CLOCK_TIMER0 => wr clk_en_peri "timer0_clk_en" en s
  | SYSCTL_CLOCK_TIMER1 => wr clk_en_peri "timer1_clk_en" en s
  | SYSCTL_CLOCK_TIMER2 => wr clk_en_peri "timer2_clk_en" en s
  | SYSCTL_CLOCK_SHA => wr clk_en_peri "sha_clk_en" en s
  | SYSCTL_CLOCK_AES => wr clk_en_peri "aes_clk_en" en s
  | SYSCTL_CLOCK_WDT0 => wr clk_en_peri "wdt0_clk_en" en s
  | SYSCTL_CLOCK_WDT1 => wr clk_en_peri "wdt1_clk_en" en s
  | SYSCTL_CLOCK_OTP => wr clk_en_peri "otp_clk_en" en s
  | SYSCTL_CLOCK_RTC => wr clk_en_peri "rtc_clk_en" en s
  | SYSCTL_CLOCK_SPI0 => wr clk_en_peri "spi0_clk_en" en s
  | SYSCTL_CLOCK_SPI1 => wr clk_en_peri "spi1_clk_en" en s
  | _ => s
  end.

Definition sysctl_reset_ctl (reset : sysctl_reset_t) (rst_value : Z) (s : sysctl_t) : sysctl_t :=
  match reset with
  | SYSCTL_RESET_SOC => wr soft_reset "soft_reset" rst_value s
  | SYSCTL_RESET_ROM => wr peri_reset "rom_reset" rst_value s
  | SYSCTL_RESET_DMA => wr peri_reset "dma_reset" rst_value s
  | SYSCTL_RESET_AI => wr peri_reset "ai_reset" rst_value s
  | SYSCTL_RESET_DVP => wr peri_reset "dvp_reset" rst_value s
  | SYSCTL_RESET_FFT => wr peri_reset "fft_reset" rst_value s
  | SYSCTL_RESET_GPIO => wr peri_reset "gpio_reset" rst_value s
  | SYSCTL_RESET_SPI0 => wr peri_reset "spi0_reset" rst_value s
  | SYSCTL_RESET_SPI1 => wr peri_reset "spi1_reset" rst_value s
  | SYSCTL_RESET_SPI2 => wr peri_reset "spi2_reset" rst_value s
  | SYSCTL_RESET_SPI3 => wr peri_reset "spi3_reset" rst_value s
  | SYSCTL_RESET_I2S0 => wr peri_reset "i2s0_reset" rst_value s
  | SYSCTL_RESET_I2S1 => wr peri_reset "i2s1_reset" rst_value s
  | SYSCTL_RESET_I2S2 => wr peri_reset "i2s2_reset" rst_value s
  | SYSCTL_RESET_I2C0 => wr peri_reset "i2c0_reset" rst_value s
  | SYSCTL_RESET_I2C1 => wr peri_reset "i2c1_reset" rst_value s
  | SYSCTL_RESET_I2C2 => wr peri_reset "i2c2_reset" rst_value s
  | SYSCTL_RESET_UART1 => wr peri_reset "uart1_reset" rst_value s
  | SYSCTL_RESET_UART2 => wr peri_reset "uart2_reset" rst_value s
  | SYSCTL_RESET_UART3 => wr peri_reset "uart3_reset" rst_value s
  | SYSCTL_RESET_AES => wr peri_reset "aes_reset" rst_value s
  | SYSCTL_RESET_FPIOA => wr peri_reset "fpioa_reset" rst_value s
  | SYSCTL_RESET_TIMER0 => wr peri_reset "timer0_reset" rst_value s
  | SYSCTL_RESET_TIMER1 => wr peri_reset "timer1_reset" rst_value s
  | SYSCTL_RESET_TIMER2 => wr peri_reset "timer2_reset" rst_value s
  | SYSCTL_RESET_WDT0 => wr peri_reset "wdt0_reset" rst_value s
  | SYSCTL_RESET_WDT1 => wr peri_reset "wdt1_reset" rst_value s
  | SYSCTL_RESET_SHA => wr peri_reset "sha_reset" rst_value s
  | SYSCTL_RESET_RTC => wr peri_reset "rtc_reset" rst_value s
  | _ => s
  end.

Definition sysctl_clock_get_clock_select (s : sysctl_t) (which : sysctl_clock_select_t) : Z :=
  match which with
  | SYSCTL_CLOCK_SELECT_PLL0_BYPASS => rd s pll0 "pll_bypass0"
  | SYSCTL_CLOCK_SELECT_PLL1_BYPASS => rd s pll1 "pll_bypass1"
  | SYSCTL_CLOCK_SELECT_PLL2_BYPASS => rd s pll2 "pll_bypass2"
  | SYSCTL_CLOCK_SELECT_PLL2 => rd s pll2 "pll_ckin_sel2"
  | SYSCTL_CLOCK_SELECT_ACLK => rd s clk_sel0 "aclk_sel"
  | SYSCTL_CLOCK_SELECT_SPI3 => rd s clk_sel0 "spi3_clk_sel"
  | SYSCTL_CLOCK_SELECT_TIMER0 => rd s clk_sel0 "timer0_clk_sel"
  | SYSCTL_CLOCK_SELECT_TIMER1 => rd s clk_sel0 "timer1_clk_sel"
  | SYSCTL_CLOCK_SELECT_TIMER2 => rd s clk_sel0 "timer2_clk_sel"
  | SYSCTL_CLOCK_SELECT_SPI3_SAMPLE => rd s clk_sel1 "spi3_sample_clk_sel"
  | _ => 0
  end.

Definition sysctl_clock_get_threshold (s : sysctl_t) (which : sysctl_threshold_t) : Z :=
  match which with
  | SYSCTL_THRESHOLD_ACLK => rd s clk_sel0 "aclk_divider_sel"
  | SYSCTL_THRESHOLD_APB0 => rd s clk_sel0 "apb0_clk_sel"
  | SYSCTL_THRESHOLD_APB1 => rd s clk_sel0 "apb1_clk_sel"
  | SYSCTL_THRESHOLD_APB2 => rd s clk_sel0 "apb2_clk_sel"
  | SYSCTL_THRESHOLD_SRAM0 => rd s clk_th0 "sram0_gclk_threshold"
  | SYSCTL_THRESHOLD_SRAM1 => rd s clk_th0 "sram1_gclk_threshold"
  | SYSCTL_THRESHOLD_AI => rd s clk_th0 "ai_gclk_threshold"
  | SYSCTL_THRESHOLD_DVP => rd s clk_th0 "dvp_gclk_threshold"
  | SYSCTL_THRESHOLD_ROM => rd s clk_th0 "rom_gclk_threshold"
  | SYSCTL_THRESHOLD_SPI0 => rd s clk_th1 "spi0_clk_threshold"
  | SYSCTL_THRESHOLD_SPI1 => rd s clk_th1 "spi1_clk_threshold"
  | SYSCTL_THRESHOLD_SPI2 => rd s clk_th1 "spi2_clk_threshold"
  | SYSCTL_THRESHOLD_SPI3 => rd s clk_th1 "spi3_clk_threshold"
  | SYSCTL_THRESHOLD_TIMER0 => rd s clk_th2 "timer0_clk_threshold"
  | SYSCTL_THRESHOLD_TIMER1 => rd s clk_th2 "timer1_clk_threshold"
  | SYSCTL_THRESHOLD_TIMER2 => rd s clk_th2 "timer2_clk_threshold"
  | SYSCTL_THRESHOLD_I2S0 => rd s clk_th3 "i2s0_clk_threshold"
  | SYSCTL_THRESHOLD_I2S1 => rd s clk_th3 "i2s1_clk_threshold"
  | SYSCTL_THRESHOLD_I2S2 => rd s clk_th4 "i2s2_clk_threshold"
  | SYSCTL_THRESHOLD_I2S0_M => rd s clk_th4 "i2s0_mclk_threshold"
  | SYSCTL_THRESHOLD_I2S1_M => rd s clk_th4 "i2s1_mclk_threshold"
  | SYSCTL_THRESHOLD_I2S2_M => rd s clk_th5 "i2s2_mclk_threshold"
  | SYSCTL_THRESHOLD_I2C0 => rd s clk_th5 "i2c0_clk_threshold"
  | SYSCTL_THRESHOLD_I2C1 => rd s clk_th5 "i2c1_clk_threshold"
  | SYSCTL_THRESHOLD_I2C2 => rd s clk_th5 "i2c2_clk_threshold"
  | SYSCTL_THRESHOLD_WDT0 => rd s clk_th6 "wdt0_clk_threshold"
  | SYSCTL_THRESHOLD_WDT1 => rd s clk_th6 "wdt1_clk_threshold"
  | _ => 0
  end.

Definition sysctl_clock_enable (clock : sysctl_clock_t) (s : sysctl_t) : Z * sysctl_t :=
  match clock with
  | SYSCTL_CLOCK_MAX => (-1, s)
  | _ => (0, sysctl_clock_device_en clock 1 (sysctl_clock_bus_en clock 1 s))
  end.

Definition sysctl_pll_enable (pll : sysctl_pll_t) (s : sysctl_t) : Z * sysctl_t :=
  match pll with
  | SYSCTL_PLL_MAX => (-1, s)
  | SYSCTL_PLL0 =>
      let s := wr pll0 "pll_bypass0" 0 s in
      let s := wr pll0 "pll_pwrd0" 1 s in
      let s := wr pll0 "pll_reset0" 0 s in
      let s := wr pll0 "pll_reset0" 1 s in
      (0, wr pll0 "pll_reset0" 0 s)
  | SYSCTL_PLL1 =>
      let s := wr pll1 "pll_bypass1" 0 s in
      let s := wr pll1 "pll_pwrd1" 1 s in
      let s := wr pll1 "pll_reset1" 0 s in
      let s := wr pll1 "pll_reset1" 1 s in
      (0, wr pll1 "pll_reset1" 0 s)
  | SYSCTL_PLL2 =>
      let s := wr pll2 "pll_bypass2" 0 s in
      let s := wr pll2 "pll_pwrd2" 1 s in
      let s := wr pll2 "pll_reset2" 0 s in
      let s := wr pll2 "pll_reset2" 1 s in
      (0, wr pll2 "pll_reset2" 0 s)
  end.

(** Both registers are read, one field of the copies is assigned, and both
    are written back. *)
Definition sysctl_dma_select (channel : sysctl_dma_channel_t) (select : Z) (s : sysctl_t) : Z * sysctl_t :=
  let sel0 := s dma_sel0 in
  let sel1 := s dma_sel1 in
  let write_back (r : Z * Z) := (0, set_reg dma_sel1 (snd r) (set_reg dma_sel0 (fst r) s)) in
  match channel with
  | SYSCTL_DMA_CHANNEL_0 => write_back (bf_set sysctl_dma_sel0_t "dma_sel0" select sel0, sel1)
  | SYSCTL_DMA_CHANNEL_1 => write_back (bf_set sysctl_dma_sel0_t "dma_sel1" select sel0, sel1)
  | SYSCTL_DMA_CHANNEL_2 => write_back (bf_set sysctl_dma_sel0_t "dma_sel2" select sel0, sel1)
  | SYSCTL_DMA_CHANNEL_3 => write_back (bf_set sysctl_dma_sel0_t "dma_sel3" select sel0, sel1)
  | SYSCTL_DMA_CHANNEL_4 => write_back (bf_set sysctl_dma_sel0_t "dma_sel4" select sel0, sel1)
  | SYSCTL_DMA_CHANNEL_5 => write_back (sel0, bf_set sysctl_dma_sel1_t "dma_sel5" select sel1)
  | SYSCTL_DMA_CHANNEL_MAX => (-1, s)
  end.

(** * Frequencies *)

Definition get_source_pll2 : list sysctl_clock_source_t :=
  [SYSCTL_SOURCE_IN0; SYSCTL_SOURCE_PLL0; SYSCTL_SOURCE_PLL1].

(** FOUT = FIN / NR * NF / OD, in 64-bit arithmetic, stored in 32 bits. *)
Definition pll_out (freq_in nr nf od : Z) : Z :=
  u32 (u64 (u64 (u64 (u64 (freq_in * 1000) / nr * 1000) * nf) / od) / 1000000).

Fixpoint source_get_freq (n : nat) (s : sysctl_t) (input : sysctl_clock_source_t) : option Z :=
  match n with
  | O => None
  | S n =>
    match input with
    | SYSCTL_SOURCE_IN0 => Some SYSCTRL_CLOCK_FREQ_IN0
    | SYSCTL_SOURCE_PLL0 => pll_get_freq n s SYSCTL_PLL0
    | SYSCTL_SOURCE_PLL1 => pll_get_freq n s SYSCTL_PLL1
    | SYSCTL_SOURCE_PLL2 => pll_get_freq n s SYSCTL_PLL2
    | SYSCTL_SOURCE_ACLK => clock_get_freq n s SYSCTL_CLOCK_ACLK
    | SYSCTL_SOURCE_MAX => Some 0
    end
  end
with pll_get_freq (n : nat) (s : sysctl_t) (pll : sysctl_pll_t) : option Z :=
  match n with
  | O => None
  | S n =>
    match pll with
    | SYSCTL_PLL_MAX => Some 0
    | SYSCTL_PLL0 =>
      freq_in ← source_get_freq n s SYSCTL_SOURCE_IN0;
      Some (pll_out freq_in (rd s pll0 "clkr0" + 1) (rd s pll0 "clkf0" + 1) (rd s pll0 "clkod0" + 1))
    | SYSCTL_PLL1 =>
      freq_in ← source_get_freq n s SYSCTL_SOURCE_IN0;
      Some (pll_out freq_in (rd s pll1 "clkr1" + 1) (rd s pll1 "clkf1" + 1) (rd s pll1 "clkod1" + 1))
    | SYSCTL_PLL2 =>
      match get_source_pll2 !! Z.to_nat (rd s pll2 "pll_ckin_sel2") with
      | None => Some 0
      | Some source =>
        freq_in ← source_get_freq n s source;
        Some (pll_out freq_in (rd s pll2 "clkr2" + 1) (rd s pll2 "clkf2" + 1) (rd s pll2 "clkod2" + 1))
      end
    end
  end
with clock_get_freq (n : nat) (s : sysctl_t) (clock : sysctl_clock_t) : option Z :=
  match n with
  | O => None
  | S n =>
    match clock with
    | SYSCTL_CLOCK_IN0 =>
      source_get_freq n s SYSCTL_SOURCE_IN0
    | SYSCTL_CLOCK_PLL0 =>
      source_get_freq n s SYSCTL_SOURCE_PLL0
    | SYSCTL_CLOCK_PLL1 =>
      source_get_freq n s SYSCTL_SOURCE_PLL1
    | SYSCTL_CLOCK_PLL2 =>
      source_get_freq n s SYSCTL_SOURCE_PLL2
    | SYSCTL_CLOCK_CPU | SYSCTL_CLOCK_DMA | SYSCTL_CLOCK_FFT | SYSCTL_CLOCK_ACLK | SYSCTL_CLOCK_HCLK =>
      (if sysctl_clock_get_clock_select s SYSCTL_CLOCK_SELECT_ACLK =? 0 then source_get_freq n s SYSCTL_SOURCE_IN0
       else if sysctl_clock_get_clock_select s SYSCTL_CLOCK_SELECT_ACLK =? 1 then (source ← source_get_freq n s SYSCTL_SOURCE_PLL0;
       Some (source / Z.shiftl 2 (sysctl_clock_get_threshold s SYSCTL_THRESHOLD_ACLK)))
       else Some 0)
    | SYSCTL_CLOCK_SRAM0 =>
      source ← source_get_freq n s SYSCTL_SOURCE_ACLK;
      Some (source / (sysctl_clock_get_threshold s SYSCTL_THRESHOLD_SRAM0 + 1))
    | SYSCTL_CLOCK_SRAM1 =>
      source ← source_get_freq n s SYSCTL_SOURCE_ACLK;
      Some (source / (sysctl_clock_get_threshold s SYSCTL_THRESHOLD_SRAM1 + 1))
    | SYSCTL_CLOCK_ROM =>
      source ← source_get_freq n s SYSCTL_SOURCE_ACLK;
      Some (source / (sysctl_clock_get_threshold s SYSCTL_THRESHOLD_ROM + 1))
    | SYSCTL_CLOCK_DVP =>
      source ← source_get_freq n s SYSCTL_SOURCE_ACLK;
      Some (source / (sysctl_clock_get_threshold s SYSCTL_THRESHOLD_DVP + 1))
    | SYSCTL_CLOCK_APB0 =>
      source ← source_get_freq n s SYSCTL_SOURCE_ACLK;
      Some (source / (sysctl_clock_get_threshold s SYSCTL_THRESHOLD_APB0 + 1))
    | SYSCTL_CLOCK_APB1 =>
      source ← source_get_freq n s SYSCTL_SOURCE_ACLK;
      Some (source / (sysctl_clock_get_threshold s SYSCTL_THRESHOLD_APB1 + 1))
    | SYSCTL_CLOCK_APB2 =>
      source ← source_get_freq n s SYSCTL_SOURCE_ACLK;
      Some (source / (sysctl_clock_get_threshold s SYSCTL_THRESHOLD_APB2 + 1))
    | SYSCTL_CLOCK_AI =>
      source ← source_get_freq n s SYSCTL_SOURCE_PLL1;
      Some (source / (sysctl_clock_get_threshold s SYSCTL_THRESHOLD_AI + 1))
    | SYSCTL_CLOCK_I2S0 =>
      source ← source_get_freq n s SYSCTL_SOURCE_PLL2;
      Some (source / ((sysctl_clock_get_threshold s SYSCTL_THRESHOLD_I2S0 + 1) * 2))
    | SYSCTL_CLOCK_I2S1 =>
      source ← source_get_freq n s SYSCTL_SOURCE_PLL2;
      Some (source / ((sysctl_clock_get_threshold s SYSCTL_THRESHOLD_I2S1 + 1) * 2))
    | SYSCTL_CLOCK_I2S2 =>
      source ← source_get_freq n s SYSCTL_SOURCE_PLL2;
      Some (source / ((sysctl_clock_get_threshold s SYSCTL_THRESHOLD_I2S2 + 1) * 2))
    | SYSCTL_CLOCK_WDT0 =>
      source ← source_get_freq n s SYSCTL_SOURCE_IN0;
      Some (source / ((sysctl_clock_get_threshold s SYSCTL_THRESHOLD_WDT0 + 1) * 2))
    | SYSCTL_CLOCK_WDT1 =>
      source ← source_get_freq n s SYSCTL_SOURCE_IN0;
      Some (source / ((sysctl_clock_get_threshold s SYSCTL_THRESHOLD_WDT1 + 1) * 2))
    | SYSCTL_CLOCK_SPI0 =>
      source ← source_get_freq n s SYSCTL_SOURCE_PLL0;
      Some (source / ((sysctl_clock_get_threshold s SYSCTL_THRESHOLD_SPI0 + 1) * 2))
    | SYSCTL_CLOCK_SPI1 =>
      source ← source_get_freq n s SYSCTL_SOURCE_PLL0;
      Some (source / ((sysctl_clock_get_threshold s SYSCTL_THRESHOLD_SPI1 + 1) * 2))
    | SYSCTL_CLOCK_SPI2 =>
      source ← source_get_freq n s SYSCTL_SOURCE_PLL0;
      Some (source / ((sysctl_clock_get_threshold s SYSCTL_THRESHOLD_SPI2 + 1) * 2))
    | SYSCTL_CLOCK_I2C0 =>
      source ← source_get_freq n s SYSCTL_SOURCE_PLL0;
      Some (source / ((sysctl_clock_get_threshold s SYSCTL_THRESHOLD_I2C0 + 1) * 2))
    | SYSCTL_CLOCK_I2C1 =>
      source ← source_get_freq n s SYSCTL_SOURCE_PLL0;
      Some (source / ((sysctl_clock_get_threshold s SYSCTL_THRESHOLD_I2C1 + 1) * 2))
    | SYSCTL_CLOCK_I2C2 =>
      source ← source_get_freq n s SYSCTL_SOURCE_PLL0;
      Some (source / ((sysctl_clock_get_threshold s SYSCTL_THRESHOLD_I2C2 + 1) * 2))
    | SYSCTL_CLOCK_SPI3 =>
      source ← (if sysctl_clock_get_clock_select s SYSCTL_CLOCK_SELECT_SPI3 =? 0 then source_get_freq n s SYSCTL_SOURCE_IN0
       else if sysctl_clock_get_clock_select s SYSCTL_CLOCK_SELECT_SPI3 =? 1 then source_get_freq n s SYSCTL_SOURCE_PLL0
       else Some 0);
      Some (source / ((sysctl_clock_get_threshold s SYSCTL_THRESHOLD_SPI3 + 1) * 2))
    | SYSCTL_CLOCK_TIMER0 =>
      source ← (if sysctl_clock_get_clock_select s SYSCTL_CLOCK_SELECT_TIMER0 =? 0 then source_get_freq n s SYSCTL_SOURCE_IN0
       else if sysctl_clock_get_clock_select s SYSCTL_CLOCK_SELECT_TIMER0 =? 1 then source_get_freq n s SYSCTL_SOURCE_PLL0
       else Some 0);
      Some (source / ((sysctl_clock_get_threshold s SYSCTL_THRESHOLD_TIMER0 + 1) * 2))
    | SYSCTL_CLOCK_TIMER1 =>
      source ← (if sysctl_clock_get_clock_select s SYSCTL_CLOCK_SELECT_TIMER1 =? 0 then source_get_freq n s SYSCTL_SOURCE_IN0
       else if sysctl_clock_get_clock_select s SYSCTL_CLOCK_SELECT_TIMER1 =? 1 then source_get_freq n s SYSCTL_SOURCE_PLL0
       else Some 0);
      Some (source / ((sysctl_clock_get_threshold s SYSCTL_THRESHOLD_TIMER1 + 1) * 2))
    | SYSCTL_CLOCK_TIMER2 =>
      source ← (if sysctl_clock_get_clock_select s SYSCTL_CLOCK_SELECT_TIMER2 =? 0 then source_get_freq n s SYSCTL_SOURCE_IN0
       else if sysctl_clock_get_clock_select s SYSCTL_CLOCK_SELECT_TIMER2 =? 1 then source_get_freq n s SYSCTL_SOURCE_PLL0
       else Some 0);
      Some (source / ((sysctl_clock_get_threshold s SYSCTL_THRESHOLD_TIMER2 + 1) * 2))
    | SYSCTL_CLOCK_GPIO | SYSCTL_CLOCK_UART1 | SYSCTL_CLOCK_UART2 | SYSCTL_CLOCK_UART3 | SYSCTL_CLOCK_FPIOA | SYSCTL_CLOCK_SHA =>
      clock_get_freq n s SYSCTL_CLOCK_APB0
    | SYSCTL_CLOCK_AES | SYSCTL_CLOCK_OTP =>
      clock_get_freq n s SYSCTL_CLOCK_APB1
    | SYSCTL_CLOCK_RTC =>
      source_get_freq n s SYSCTL_SOURCE_IN0
    | SYSCTL_CLOCK_MAX => Some 0
    end
  end.

Definition freq_depth : nat := 7.
Definition sysctl_clock_source_get_freq (s : sysctl_t) := source_get_freq freq_depth s.
Definition sysctl_pll_get_freq (s : sysctl_t) := pll_get_freq freq_depth s.
Definition sysctl_clock_get_freq (s : sysctl_t) := clock_get_freq freq_depth s.

(** * Delays *)

Class CycleCounter (H : Type) := {
  read_cycle : H → Z * H;      (** [rdtime] *)
  polls_per_tick : Z;          (** reads after which a tick has passed *)
}.

Section delays.
Context {H : Type} `{CycleCounter H}.

(** [while (read_cycle() - cycle < ticks)], as the waiting loops have it. *)
Fixpoint wait_loop (n : nat) (cycle ticks : Z) (h : H) : option H :=
  match n with
  | O => None
  | S n =>
    let (now, h) := read_cycle h in
    if ticks <=? u64 (now - cycle) then Some h else wait_loop n cycle ticks h
  end.
Definition wait_ticks (ticks : Z) (h : H) : option H :=
  let (cycle, h) := read_cycle h in
  wait_loop (S (Z.to_nat ((ticks + 1) * polls_per_tick))) cycle ticks h.

Definition usleep (usec : Z) (s : sysctl_t) (h : H) : option H :=
  freq ← sysctl_clock_get_freq s SYSCTL_CLOCK_CPU;
  wait_ticks (u64 (usec * freq) / 1000000 / 50) h.

Definition msleep (msec : Z) (s : sysctl_t) (h : H) : option H := usleep (u64 (msec * 1000)) s h.
Definition sleep (seconds : Z) (s : sysctl_t) (h : H) : option H := msleep (u32 (seconds * 1000)) s h.

Definition sysctl_reset (reset : sysctl_reset_t) (s : sysctl_t) (h : H) : option (sysctl_t * H) :=
  let s := sysctl_reset_ctl reset 1 s in
  h ← usleep 10 s h;
  Some (sysctl_reset_ctl reset 0 s, h).
End delays.

(** * Properties *)

Definition fld : Type := sysctl_reg * string.
Definition fld_eqb (f g : fld) : bool := bool_decide (fst f = fst g) && String.eqb (snd f) (snd g).

Lemma fld_eqb_false f g : fld_eqb f g = false → f ≠ g.
Proof.
  intros H ->. unfold fld_eqb in H. rewrite bool_decide_eq_true_2, String.eqb_refl in H; done.
Qed.

Lemma layout_fits r : bf_fits (layout r).
Proof. destruct r; (split; [repeat constructor|reflexivity]). Qed.

Lemma rd_wr_ne r n r' n' v s : (r, n) ≠ (r', n') → rd (wr r' n' v s) r n = rd s r n.
Proof.
  intros Hne. unfold rd, wr, set_reg. case_decide as E; [|done]. subst r'.
  apply bf_get_set_ne; [apply layout_fits|]. congruence.
Qed.

Lemma rd_wr_eq r n v s off w : bf_find n 0 (layout r) = Some (off, w) → rd (wr r n v s) r n = v mod 2 ^ w.
Proof.
  intros Hf. unfold rd, wr, set_reg. rewrite decide_True by done.
  eapply bf_get_set_eq; [apply layout_fits|done].
Qed.

Lemma rd_set_reg_same r r' n s : rd (set_reg r' (s r') s) r n = rd s r n.
Proof. unfold rd, set_reg. case_decide; subst; done. Qed.

Lemma rd_set_reg_ne r r' n x s : r ≠ r' → rd (set_reg r' x s) r n = rd s r n.
Proof. intros. unfold rd, set_reg. by rewrite decide_False by congruence. Qed.

(** The registers hold 32-bit words. *)
Definition regs_ok (s : sysctl_t) : Prop := ∀ r, 0 <= s r < 2 ^ 32.

Lemma wr_ok r n v s : regs_ok s → regs_ok (wr r n v s).
Proof. intros Hs r'. unfold wr, set_reg. case_decide; [|apply Hs]. apply bf_set_word; [apply layout_fits|apply Hs]. Qed.

(** A sequence of assignments. *)
Definition writes (l : list (fld * Z)) (s : sysctl_t) : sysctl_t :=
  foldl (λ s w, wr (fst (fst w)) (snd (fst w)) (snd w) s) s l.

Lemma writes_ok l : ∀ s, regs_ok s → regs_ok (writes l s).
Proof. induction l as [|w l IH]; intros s Hs; cbn; [done|]. apply IH, wr_ok, Hs. Qed.

Definition apart (l : list (fld * Z)) (f : fld) : bool := forallb (λ w, negb (fld_eqb f (fst w))) l.

Lemma rd_writes_apart l f : ∀ s, apart l f = true → rd (writes l s) (fst f) (snd f) = rd s (fst f) (snd f).
Proof.
  induction l as [|[[r n] v] l IH]; intros s; cbn; [done|]. intros [H1%negb_true_iff H2]%andb_true_iff.
  etrans; [exact (IH _ H2)|]. destruct f as [r' n']. apply rd_wr_ne. exact (fld_eqb_false _ _ H1).
Qed.

(** The gates of a clock: its own, and that of the bus it hangs on. *)
Definition gates (clock : sysctl_clock_t) : list fld :=
  let bus :=
    match clock with
    | SYSCTL_CLOCK_GPIO | SYSCTL_CLOCK_SPI2 | SYSCTL_CLOCK_I2S0 | SYSCTL_CLOCK_I2S1 | SYSCTL_CLOCK_I2S2
    | SYSCTL_CLOCK_I2C0 | SYSCTL_CLOCK_I2C1 | SYSCTL_CLOCK_I2C2 | SYSCTL_CLOCK_UART1 | SYSCTL_CLOCK_UART2
    | SYSCTL_CLOCK_UART3 | SYSCTL_CLOCK_FPIOA | SYSCTL_CLOCK_TIMER0 | SYSCTL_CLOCK_TIMER1
    | SYSCTL_CLOCK_TIMER2 | SYSCTL_CLOCK_SHA => [(clk_en_cent, "apb0_clk_en")]
    | SYSCTL_CLOCK_AES | SYSCTL_CLOCK_WDT0 | SYSCTL_CLOCK_WDT1 | SYSCTL_CLOCK_OTP | SYSCTL_CLOCK_RTC =>
        [(clk_en_cent, "apb1_clk_en")]
    | SYSCTL_CLOCK_SPI0 | SYSCTL_CLOCK_SPI1 => [(clk_en_cent, "apb2_clk_en")]
    | _ => []
    end in
  let own :=
    match clock with
    | SYSCTL_CLOCK_PLL0 => [(pll0, "pll_out_en0")] | SYSCTL_CLOCK_PLL1 => [(pll1, "pll_out_en1")]
    | SYSCTL_CLOCK_PLL2 => [(pll2, "pll_out_en2")] | SYSCTL_CLOCK_CPU => [(clk_en_cent, "cpu_clk_en")]
    | SYSCTL_CLOCK_SRAM0 => [(clk_en_cent, "sram0_clk_en")] | SYSCTL_CLOCK_SRAM1 => [(clk_en_cent, "sram1_clk_en")]
    | SYSCTL_CLOCK_APB0 => [(clk_en_cent, "apb0_clk_en")] | SYSCTL_CLOCK_APB1 => [(clk_en_cent, "apb1_clk_en")]
    | SYSCTL_CLOCK_APB2 => [(clk_en_cent, "apb2_clk_en")] | SYSCTL_CLOCK_ROM => [(clk_en_peri, "rom_clk_en")]
    | SYSCTL_CLOCK_DMA => [(clk_en_peri, "dma_clk_en")] | SYSCTL_CLOCK_AI => [(clk_en_peri, "ai_clk_en")]
    | SYSCTL_CLOCK_DVP => [(clk_en_peri, "dvp_clk_en")] | SYSCTL_CLOCK_FFT => [(clk_en_peri, "fft_clk_en")]
    | SYSCTL_CLOCK_GPIO => [(clk_en_peri, "gpio_clk_en")] | SYSCTL_CLOCK_SPI0 => [(clk_en_peri, "spi0_clk_en")]
    | SYSCTL_CLOCK_SPI1 => [(clk_en_peri, "spi1_clk_en")] | SYSCTL_CLOCK_SPI2 => [(clk_en_peri, "spi2_clk_en")]
    | SYSCTL_CLOCK_SPI3 => [(clk_en_peri, "spi3_clk_en")] | SYSCTL_CLOCK_I2S0 => [(clk_en_peri, "i2s0_clk_en")]
    | SYSCTL_CLOCK_I2S1 => [(clk_en_peri, "i2s1_clk_en")] | SYSCTL_CLOCK_I2S2 => [(clk_en_peri, "i2s2_clk_en")]
    | SYSCTL_CLOCK_I2C0 => [(clk_en_peri, "i2c0_clk_en")] | SYSCTL_CLOCK_I2C1 => [(clk_en_peri, "i2c1_clk_en")]
    | SYSCTL_CLOCK_I2C2 => [(clk_en_peri, "i2c2_clk_en")] | SYSCTL_CLOCK_UART1 => [(clk_en_peri, "uart1_clk_en")]
    | SYSCTL_CLOCK_UART2 => [(clk_en_peri, "uart2_clk_en")] | SYSCTL_CLOCK_UART3 => [(clk_en_peri, "uart3_clk_en")]
    | SYSCTL_CLOCK_AES => [(clk_en_peri, "aes_clk_en")] | SYSCTL_CLOCK_FPIOA => [(clk_en_peri, "fpioa_clk_en")]
    | SYSCTL_CLOCK_TIMER0 => [(clk_en_peri, "timer0_clk_en")] | SYSCTL_CLOCK_TIMER1 => [(clk_en_peri, "timer1_clk_en")]
    | SYSCTL_CLOCK_TIMER2 => [(clk_en_peri, "timer2_clk_en")] | SYSCTL_CLOCK_WDT0 => [(clk_en_peri, "wdt0_clk_en")]
    | SYSCTL_CLOCK_WDT1 => [(clk_en_peri, "wdt1_clk_en")] | SYSCTL_CLOCK_SHA => [(clk_en_peri, "sha_clk_en")]
    | SYSCTL_CLOCK_OTP => [(clk_en_peri, "otp_clk_en")] | SYSCTL_CLOCK_RTC => [(clk_en_peri, "rtc_clk_en")]
    | _ => []
    end in
  bus ++ own.

Definition clock_on (s : sysctl_t) (clock : sysctl_clock_t) : Prop :=
  Forall (λ f, rd s (fst f) (snd f) = 1) (gates clock).

Definition gate_writes (clock : sysctl_clock_t) : list (fld * Z) := (λ f, (f, 1)) <$> gates clock.

Lemma enable_writes c s : snd (sysctl_clock_enable c s) = writes (gate_writes c) s.
Proof. by destruct c. Qed.

Definition all_clocks : list sysctl_clock_t :=
  [SYSCTL_CLOCK_PLL0; SYSCTL_CLOCK_PLL1; SYSCTL_CLOCK_PLL2; SYSCTL_CLOCK_CPU; SYSCTL_CLOCK_SRAM0;
   SYSCTL_CLOCK_SRAM1; SYSCTL_CLOCK_APB0; SYSCTL_CLOCK_APB1; SYSCTL_CLOCK_APB2; SYSCTL_CLOCK_ROM;
   SYSCTL_CLOCK_DMA; SYSCTL_CLOCK_AI; SYSCTL_CLOCK_DVP; SYSCTL_CLOCK_FFT; SYSCTL_CLOCK_GPIO; SYSCTL_CLOCK_SPI0;
   SYSCTL_CLOCK_SPI1; SYSCTL_CLOCK_SPI2; SYSCTL_CLOCK_SPI3; SYSCTL_CLOCK_I2S0; SYSCTL_CLOCK_I2S1;
   SYSCTL_CLOCK_I2S2; SYSCTL_CLOCK_I2C0; SYSCTL_CLOCK_I2C1; SYSCTL_CLOCK_I2C2; SYSCTL_CLOCK_UART1;
   SYSCTL_CLOCK_UART2; SYSCTL_CLOCK_UART3; SYSCTL_CLOCK_AES; SYSCTL_CLOCK_FPIOA; SYSCTL_CLOCK_TIMER0;
   SYSCTL_CLOCK_TIMER1; SYSCTL_CLOCK_TIMER2; SYSCTL_CLOCK_WDT0; SYSCTL_CLOCK_WDT1; SYSCTL_CLOCK_SHA;
   SYSCTL_CLOCK_OTP; SYSCTL_CLOCK_RTC; SYSCTL_CLOCK_ACLK; SYSCTL_CLOCK_HCLK; SYSCTL_CLOCK_IN0;
   SYSCTL_CLOCK_MAX].
Definition all_gates : list fld := concat (gates <$> all_clocks).

(** A gate is one bit of its register. *)
Lemma gate_bit c f : f ∈ gates c → ∃ off, bf_find (snd f) 0 (layout (fst f)) = Some (off, 1).
Proof.
  intros Hf. assert (Forall (λ f, ∃ off, bf_find (snd f) 0 (layout (fst f)) = Some (off, 1)) (gates c)) as H.
  { destruct c; repeat constructor; eexists; reflexivity. }
  rewrite Forall_forall in H. by apply H.
Qed.

(** Opening a gate leaves every open gate open. *)
Lemma gate_stays r n s c f : f ∈ gates c → rd s (fst f) (snd f) = 1 → rd (wr r n 1 s) (fst f) (snd f) = 1.
Proof.
  intros Hf H1. destruct f as [r' n']. cbn in *. destruct (decide ((r', n') = (r, n))) as [E|].
  - simplify_eq. destruct (gate_bit c _ Hf) as [off Ho]. by erewrite rd_wr_eq by exact Ho.
  - by rewrite rd_wr_ne.
Qed.

Lemma gates_stay l c : ∀ s, Forall (λ w, snd w = 1) l → clock_on s c → clock_on (writes l s) c.
Proof.
  induction l as [|[[r n] v] l IH]; intros s Hl Hon; cbn; [done|]. apply Forall_cons in Hl as [Hv Hl].
  cbn in Hv. subst v. apply IH; [done|]. unfold clock_on in *. rewrite Forall_forall in Hon |- *.
  intros f Hf. eapply gate_stays; eauto.
Qed.

Lemma gate_writes_one c : Forall (λ w, snd w = 1) (gate_writes c).
Proof. unfold gate_writes. apply Forall_fmap, Forall_true. done. Qed.

Lemma writes_app l1 l2 s : writes (l1 ++ l2) s = writes l2 (writes l1 s).
Proof. apply foldl_app. Qed.

(** Enabling a clock opens all its gates. *)
Lemma enable_on c s : clock_on (snd (sysctl_clock_enable c s)) c.
Proof.
  rewrite enable_writes. unfold clock_on. rewrite Forall_forall. intros f Hf.
  assert (∀ l s, (f, 1) ∈ l → Forall (λ w, snd w = 1) l → rd (writes l s) (fst f) (snd f) = 1) as Hl.
  { induction l as [|w l IH]; intros s' Hin Hl; [by apply not_elem_of_nil in Hin|].
    apply Forall_cons in Hl as [Hw Hl]. apply elem_of_cons in Hin as [<-|Hin]; [|by apply IH].
    clear IH. cbn. destruct f as [r n]. cbn in *. revert Hl.
    assert (rd (wr r n 1 s') r n = 1) as H0.
    { destruct (gate_bit c _ Hf) as [off Ho]. by erewrite rd_wr_eq by exact Ho. }
    revert H0. generalize (wr r n 1 s'). induction l as [|[[r2 n2] v] l IH]; intros x Hx Hl; cbn; [done|].
    apply Forall_cons in Hl as [Hv Hl]. cbn in Hv. subst v. apply IH; [|done].
    exact (gate_stays r2 n2 x c (r, n) Hf Hx). }
  apply Hl; [|apply gate_writes_one]. unfold gate_writes. apply list_elem_of_fmap. by exists f.
Qed.

(** The fields that the frequencies depend on: dividers, selections and
    thresholds. *)
Definition freq_fields : list fld :=
  ((pair pll0) <$> ["clkr0"; "clkf0"; "clkod0"]) ++ ((pair pll1) <$> ["clkr1"; "clkf1"; "clkod1"]) ++
  ((pair pll2) <$> ["clkr2"; "clkf2"; "clkod2"; "pll_ckin_sel2"]) ++
  ((pair clk_sel0) <$> (fst <$> sysctl_clk_sel0_t)) ++
  ((pair clk_th0) <$> (fst <$> sysctl_clk_th0_t)) ++ ((pair clk_th1) <$> (fst <$> sysctl_clk_th1_t)) ++
  ((pair clk_th2) <$> (fst <$> sysctl_clk_th2_t)) ++ ((pair clk_th3) <$> (fst <$> sysctl_clk_th3_t)) ++
  ((pair clk_th4) <$> (fst <$> sysctl_clk_th4_t)) ++ ((pair clk_th5) <$> (fst <$> sysctl_clk_th5_t)) ++
  ((pair clk_th6) <$> (fst <$> sysctl_clk_th6_t)).

Section freq.
Context (s s' : sysctl_t) (Hsame : Forall (λ f, rd s (fst f) (snd f) = rd s' (fst f) (snd f)) freq_fields).

Lemma same_field r n : existsb (fld_eqb (r, n)) freq_fields = true → rd s r n = rd s' r n.
Proof.
  intros ((r' & n') & Hin%list_elem_of_In & He)%existsb_exists. rewrite Forall_forall in Hsame.
  apply andb_true_iff in He as [E1%bool_decide_eq_true E2%String.eqb_eq]. cbn in E1, E2. subst.
  exact (Hsame _ Hin).
Qed.

Lemma threshold_ext w : sysctl_clock_get_threshold s w = sysctl_clock_get_threshold s' w.
Proof. destruct w; try done; apply same_field; vm_compute; reflexivity. Qed.

Lemma freq_ext n :
  (∀ i, source_get_freq n s i = source_get_freq n s' i) ∧ (∀ p, pll_get_freq n s p = pll_get_freq n s' p) ∧
  (∀ c, clock_get_freq n s c = clock_get_freq n s' c).
Proof.
  induction n as [|n (IHs & IHp & IHc)]; [done|]. split_and!.
  - intros []; cbn; auto.
  - intros []; cbn [pll_get_freq]; rewrite ?IHs; try done;
      repeat match goal with |- context [rd s ?r ?x] =>
        rewrite (same_field r x) by (vm_compute; reflexivity) end; try done.
    destruct (get_source_pll2 !! Z.to_nat (rd s' pll2 "pll_ckin_sel2")); [|done]. by rewrite IHs.
  - intros c; cbn [clock_get_freq]; rewrite ?threshold_ext;
      destruct c; rewrite ?IHs, ?IHc, ?threshold_ext; try done; cbn [sysctl_clock_get_clock_select];
      repeat match goal with |- context [rd s ?r ?x] =>
        rewrite (same_field r x) by (vm_compute; reflexivity) end; rewrite ?IHs; done.
Qed.
End freq.

(** Calls of the controller's interface. *)
Inductive sysctl_op : Type :=
  | ClockEnable (c : sysctl_clock_t)
  | PllEnable (p : sysctl_pll_t)
  | DmaSelect (ch : sysctl_dma_channel_t) (select : Z)
  | ResetCtl (r : sysctl_reset_t) (v : Z).

Definition sysctl_run_op (s : sysctl_t) (o : sysctl_op) : sysctl_t :=
  match o with
  | ClockEnable c => snd (sysctl_clock_enable c s)
  | PllEnable p => snd (sysctl_pll_enable p s)
  | DmaSelect ch select => snd (sysctl_dma_select ch select s)
  | ResetCtl r v => sysctl_reset_ctl r v s
  end.

(** What no operation may change: the fields behind the frequencies. *)
Definition freq_stable (s s' : sysctl_t) : Prop :=
  Forall (λ f, rd s (fst f) (snd f) = rd s' (fst f) (snd f)) freq_fields.

Lemma freq_stable_trans s1 s2 s3 : freq_stable s1 s2 → freq_stable s2 s3 → freq_stable s1 s3.
Proof. unfold freq_stable. rewrite !Forall_forall. intros H1 H2 f Hf. by rewrite H1, H2. Qed.

(** Every call is a sequence of assignments. *)
Definition op_writes (o : sysctl_op) : list (fld * Z) :=
  match o with
  | ClockEnable c => gate_writes c
  | PllEnable SYSCTL_PLL0 =>
      [((pll0, "pll_bypass0"), 0); ((pll0, "pll_pwrd0"), 1); ((pll0, "pll_reset0"), 0);
       ((pll0, "pll_reset0"), 1); ((pll0, "pll_reset0"), 0)]
  | PllEnable SYSCTL_PLL1 =>
      [((pll1, "pll_bypass1"), 0); ((pll1, "pll_pwrd1"), 1); ((pll1, "pll_reset1"), 0);
       ((pll1, "pll_reset1"), 1); ((pll1, "pll_reset1"), 0)]
  | PllEnable SYSCTL_PLL2 =>
      [((pll2, "pll_bypass2"), 0); ((pll2, "pll_pwrd2"), 1); ((pll2, "pll_reset2"), 0);
       ((pll2, "pll_reset2"), 1); ((pll2, "pll_reset2"), 0)]
  | _ => []
  end.

(** Which fields a call leaves alone. *)
Definition op_leaves (o : sysctl_op) (f : fld) : bool :=
  match o with
  | ClockEnable _ | PllEnable _ => apart (op_writes o) f
  | DmaSelect _ _ => bool_decide (fst f ≠ dma_sel0 ∧ fst f ≠ dma_sel1)
  | ResetCtl _ _ => bool_decide (fst f ≠ soft_reset ∧ fst f ≠ peri_reset)
  end.

Lemma op_leaves_field o f s : op_leaves o f = true → rd (sysctl_run_op s o) (fst f) (snd f) = rd s (fst f) (snd f).
Proof.
  destruct o as [c|p|ch sel|r v]; intros H.
  - unfold sysctl_run_op. rewrite enable_writes. by apply rd_writes_apart.
  - assert (snd (sysctl_pll_enable p s) = writes (op_writes (PllEnable p)) s) as E by (by destruct p).
    unfold sysctl_run_op. rewrite E. by apply rd_writes_apart.
  - apply bool_decide_eq_true in H as [H1 H2].
    destruct ch; cbn [sysctl_run_op sysctl_dma_select snd fst]; rewrite ?rd_set_reg_ne by done; done.
  - apply bool_decide_eq_true in H as [H1 H2]. destruct f as [fr fn]. cbn in H1, H2.
    assert (∀ fr' n, fr ≠ fr' → rd (wr fr' n v s) fr fn = rd s fr fn) as Hw.
    { intros. apply rd_wr_ne. congruence. }
    destruct r; cbn [sysctl_run_op sysctl_reset_ctl fst snd]; by rewrite ?Hw.
Qed.

Lemma op_leaves_all o s l : forallb (op_leaves o) l = true →
  Forall (λ f, rd (sysctl_run_op s o) (fst f) (snd f) = rd s (fst f) (snd f)) l.
Proof.
  intros H. rewrite forallb_forall in H. rewrite Forall_forall. intros f Hf. apply op_leaves_field.
  by apply H, list_elem_of_In.
Qed.

Lemma op_freq_stable s o : freq_stable s (sysctl_run_op s o).
Proof.
  assert (forallb (op_leaves o) freq_fields = true) as H.
  { destruct o as [c|p|ch sel|r v]; [destruct c|destruct p|..]; vm_compute; reflexivity. }
  apply (op_leaves_all o s) in H. unfold freq_stable. rewrite Forall_forall in *. intros f Hf. symmetry. by apply H.
Qed.

Lemma op_leaves_clock s o c : forallb (op_leaves o) (gates c) = true → clock_on s c → clock_on (sysctl_run_op s o) c.
Proof.
  intros H Hon. apply (op_leaves_all _ s) in H. unfold clock_on in *. rewrite Forall_forall in *.
  intros f Hf. rewrite H by done. auto.
Qed.

Lemma op_clock_stays s o c : clock_on s c → clock_on (sysctl_run_op s o) c.
Proof.
  intros Hon. destruct o as [c'|p|ch sel|r v].
  - unfold sysctl_run_op. rewrite enable_writes. apply gates_stay; [apply gate_writes_one|done].
  - apply op_leaves_clock; [destruct p, c; vm_compute; reflexivity|done].
  - apply op_leaves_clock; [destruct c; vm_compute; reflexivity|done].
  - apply op_leaves_clock; [destruct c; vm_compute; reflexivity|done].
Qed.

(** * Frequencies are defined and accurate *)

Lemma rd_nonneg s r n : 0 <= rd s r n.
Proof.
  unfold rd. destruct (bf_find n 0 (layout r)) as [[off w]|] eqn:E.
  - by destruct (bf_get_range _ (layout_fits r) _ _ _ (s r) E).
  - unfold bf_get. by rewrite E.
Qed.

Lemma rd_range s r n off w : bf_find n 0 (layout r) = Some (off, w) → 0 <= rd s r n < 2 ^ w.
Proof. apply bf_get_range, layout_fits. Qed.

Definition defined (o : option Z) : Prop := ∃ f, o = Some f ∧ 0 <= f < 2 ^ 32.

Lemma defined_div o d : 1 <= d → defined o → defined (x ← o; Some (x / d)).
Proof.
  intros Hd (f & -> & Hf). exists (f / d). split; [done|]. split; [apply Z.div_pos; lia|].
  apply Z.le_lt_trans with f; [apply Z.div_le_upper_bound; nia|lia].
Qed.

Lemma defined_out o nr nf od : is_Some o → defined (f ← o; Some (pll_out f nr nf od)).
Proof. intros [f ->]. eexists. split; [done|]. apply u32_range. Qed.

Lemma threshold_nonneg s w : 0 <= sysctl_clock_get_threshold s w.
Proof. destruct w; try apply rd_nonneg; done. Qed.

Lemma in0_defined n s : defined (source_get_freq (S n) s SYSCTL_SOURCE_IN0).
Proof. exists SYSCTRL_CLOCK_FREQ_IN0. split; [done|]. unfold SYSCTRL_CLOCK_FREQ_IN0. lia. Qed.

Lemma defined_some o : defined o → is_Some o.
Proof. intros (f & -> & _). eauto. Qed.

Lemma pll01_defined n s : defined (pll_get_freq (S (S n)) s SYSCTL_PLL0) ∧ defined (pll_get_freq (S (S n)) s SYSCTL_PLL1).
Proof. split; apply (defined_out (source_get_freq (S n) s SYSCTL_SOURCE_IN0)), defined_some, in0_defined. Qed.

Lemma pll2_defined n s : defined (pll_get_freq (S (S (S (S n)))) s SYSCTL_PLL2).
Proof.
  destruct (pll01_defined n s) as [H0 H1]. set (m := S (S (S n))).
  change (defined (match get_source_pll2 !! Z.to_nat (rd s pll2 "pll_ckin_sel2") with
    | None => Some 0
    | Some source => freq_in ← source_get_freq m s source;
        Some (pll_out freq_in (rd s pll2 "clkr2" + 1) (rd s pll2 "clkf2" + 1) (rd s pll2 "clkod2" + 1))
    end)).
  destruct (Z.to_nat _) as [|[|[|]]]; cbn [get_source_pll2 lookup list_lookup];
    try (apply defined_out, defined_some; first [apply in0_defined|exact H0|exact H1]).
  exists 0. split; [done|lia].
Qed.

Lemma source_defined n s i : i ≠ SYSCTL_SOURCE_ACLK → defined (source_get_freq (S (S (S (S (S n))))) s i).
Proof.
  destruct i; intros Hi;
    [apply (in0_defined (S (S (S (S n)))) s)|apply (pll01_defined (S (S n)) s)|apply (pll01_defined (S (S n)) s)
    |apply (pll2_defined n s)|by destruct Hi|].
  exists 0. split; [reflexivity|lia].
Qed.

Lemma defined_select (a b : bool) o1 o2 :
  defined o1 → defined o2 → defined (if a then o1 else if b then o2 else Some 0).
Proof. intros. destruct a; [done|]. destruct b; [done|]. exists 0. split; [done|lia]. Qed.

Lemma shift_pos a : 0 <= a → 1 <= Z.shiftl 2 a.
Proof.
  intros. rewrite Z.shiftl_mul_pow2 by lia. assert (0 < 2 ^ a) by (apply Z.pow_pos_nonneg; lia). lia.
Qed.

Lemma aclk_defined n s : defined (clock_get_freq (S (S (S (S n)))) s SYSCTL_CLOCK_ACLK).
Proof.
  apply defined_select; [apply (in0_defined (S (S n)) s)|]. apply defined_div; [apply shift_pos, threshold_nonneg|].
  apply (pll01_defined n s).
Qed.

Lemma apb_defined n s c : c = SYSCTL_CLOCK_APB0 ∨ c = SYSCTL_CLOCK_APB1 ∨ c = SYSCTL_CLOCK_APB2 →
  defined (clock_get_freq (S (S (S (S (S (S n)))))) s c).
Proof.
  assert (Ht : ∀ w, 1 <= sysctl_clock_get_threshold s w + 1) by (intros w; pose proof (threshold_nonneg s w); lia).
  intros [->|[->| ->]]; (apply defined_div; [apply Ht|apply (aclk_defined n s)]).
Qed.

(** Every clock has a frequency that fits 32 bits. *)
Lemma clock_defined s c : defined (sysctl_clock_get_freq s c).
Proof.
  unfold sysctl_clock_get_freq, freq_depth.
  assert (Ht : ∀ w, 1 <= sysctl_clock_get_threshold s w + 1) by (intros w; pose proof (threshold_nonneg s w); lia).
  assert (Ht2 : ∀ w, 1 <= (sysctl_clock_get_threshold s w + 1) * 2) by (intros w; pose proof (threshold_nonneg s w); lia).
  assert (Hz : defined (Some 0)) by (exists 0; split; [done|lia]).
  assert (Hs : ∀ i, i ≠ SYSCTL_SOURCE_ACLK → defined (source_get_freq 6 s i)) by exact (source_defined 1 s).
  pose proof (Hs SYSCTL_SOURCE_IN0 ltac:(done)) as H0. pose proof (Hs SYSCTL_SOURCE_PLL0 ltac:(done)) as H1.
  pose proof (Hs SYSCTL_SOURCE_PLL1 ltac:(done)) as H2. pose proof (Hs SYSCTL_SOURCE_PLL2 ltac:(done)) as H3.
  destruct c; first
    [ exact Hz | exact H0 | exact H1 | exact H2 | exact H3 | exact (aclk_defined 3 s)
    | exact (apb_defined 1 s _ ltac:(by auto)) | exact (apb_defined 0 s SYSCTL_CLOCK_APB0 ltac:(by auto))
    | exact (apb_defined 0 s SYSCTL_CLOCK_APB1 ltac:(by auto))
    | apply defined_div; [apply Ht|exact (aclk_defined 1 s)]
    | apply defined_div; [first [apply Ht|apply Ht2]|
        first [exact H0|exact H1|exact H2|exact H3|apply defined_select; [exact H0|exact H1]]] ].
Qed.

(** The PLL formula, computed with two roundings, is at most one below the
    exact quotient. *)
Lemma pll_out_accurate fin nr nf od :
  0 <= fin → fin * nf < 2 ^ 32 → 1 <= nr <= 16 → 1 <= nf <= 64 → 1 <= od <= 16 →
  fin * nf / (nr * od) - 1 <= pll_out fin nr nf od <= fin * nf / (nr * od).
Proof.
  intros Hf Hfn Hr Hn Ho. unfold pll_out.
  assert (fin < 2 ^ 32) by nia.
  rewrite (u64_small (fin * 1000)) by lia.
  set (a := fin * 1000 / nr).
  assert (Ha : nr * a <= fin * 1000 < nr * (a + 1)).
  { unfold a. pose proof (Z.mul_div_le (fin * 1000) nr ltac:(lia)).
    pose proof (Z.mul_succ_div_gt (fin * 1000) nr ltac:(lia)). lia. }
  assert (0 <= a < 2 ^ 32 * 1000) by nia.
  rewrite (u64_small (a * 1000)) by lia. rewrite (u64_small (a * 1000 * nf)) by nia.
  set (b := a * 1000 * nf / od).
  assert (Hb : od * b <= a * 1000 * nf < od * (b + 1)).
  { unfold b. pose proof (Z.mul_div_le (a * 1000 * nf) od ltac:(lia)).
    pose proof (Z.mul_succ_div_gt (a * 1000 * nf) od ltac:(lia)). lia. }
  assert (0 <= b) by (unfold b; apply Z.div_pos; nia).
  assert (b <= a * 1000 * nf) by nia. rewrite (u64_small b) by nia.
  set (c := b / 1000000).
  assert (Hc : 1000000 * c <= b < 1000000 * (c + 1)).
  { unfold c. pose proof (Z.mul_div_le b 1000000 ltac:(lia)).
    pose proof (Z.mul_succ_div_gt b 1000000 ltac:(lia)). lia. }
  assert (0 <= c) by lia.
  set (e := fin * nf / (nr * od)).
  assert (He : nr * od * e <= fin * nf < nr * od * (e + 1)).
  { unfold e. pose proof (Z.mul_div_le (fin * nf) (nr * od) ltac:(nia)).
    pose proof (Z.mul_succ_div_gt (fin * nf) (nr * od) ltac:(nia)). lia. }
  assert (U : nr * od * c <= fin * nf).
  { pose proof (Z.mul_le_mono_nonneg_l (1000000 * c) b (nr * od) ltac:(nia) ltac:(lia)).
    pose proof (Z.mul_le_mono_nonneg_l (od * b) (a * 1000 * nf) nr ltac:(lia) ltac:(lia)).
    pose proof (Z.mul_le_mono_nonneg_l (nr * a) (fin * 1000) nf ltac:(lia) ltac:(lia)). lia. }
  assert (L : fin * nf < nr * od * (c + 2)).
  { pose proof (Z.mul_le_mono_nonneg_l (b + 1) (1000000 * (c + 1)) (nr * od) ltac:(nia) ltac:(lia)).
    pose proof (Z.mul_lt_mono_pos_l nr (a * 1000 * nf) (od * (b + 1)) ltac:(lia)) as [Q _]. specialize (Q ltac:(lia)).
    pose proof (Z.mul_le_mono_nonneg_l (fin * 1000) (nr * (a + 1)) nf ltac:(lia) ltac:(lia)).
    pose proof (Z.mul_le_mono_nonneg_l nf (1000 * od) nr ltac:(lia) ltac:(lia)). lia. }
  assert (0 < nr * od) by nia.
  assert (c < e + 1) by (apply (Z.mul_lt_mono_pos_l (nr * od)); lia).
  assert (e < c + 2) by (apply (Z.mul_lt_mono_pos_l (nr * od)); lia).
  assert (0 <= fin * nf) by (apply Z.mul_nonneg_nonneg; lia).
  assert (e <= fin * nf).
  { apply Z.div_le_upper_bound; [lia|]. pose proof (Z.mul_le_mono_nonneg_r 1 (nr * od) (fin * nf) ltac:(lia) ltac:(lia)). lia. }
  rewrite u32_small by lia. lia.
Qed.

(** * Waiting *)

(** What the processor promises of its counter: time advances with every
    read, not by more than 2^32 ticks, and the counter shows the ticks. *)
Class CycleLaws (H : Type) `{CycleCounter H} := {
  cycle_time : H → Z;
  polls_pos : 1 <= polls_per_tick;
  read_advances : ∀ h, cycle_time h + 1 <= cycle_time (snd (read_cycle h)) <= cycle_time h + polls_per_tick * 2 ^ 32;
  read_value : ∀ h, fst (read_cycle h) = u64 (cycle_time (snd (read_cycle h)) / polls_per_tick);
}.

Section waiting.
Context {H : Type} `{CycleLaws H}.

Definition ticks_of (h : H) : Z := cycle_time h / polls_per_tick.

Lemma ticks_step h : ticks_of h <= ticks_of (snd (read_cycle h)) <= ticks_of h + 2 ^ 32.
Proof.
  pose proof polls_pos. destruct (read_advances h) as [Ha Hb]. unfold ticks_of. split.
  - apply Z.div_le_mono; lia.
  - rewrite <- Z.div_add by lia. apply Z.div_le_mono; lia.
Qed.

Lemma wait_loop_returns n : ∀ t0 ticks h, 0 <= ticks < 2 ^ 63 →
  t0 <= cycle_time h → ticks_of h - t0 / polls_per_tick <= ticks →
  (ticks + 1) * polls_per_tick - (cycle_time h - t0) < Z.of_nat n →
  (0 < n)%nat →
  ∃ h', wait_loop n (u64 (t0 / polls_per_tick)) ticks h = Some h' ∧
    ticks <= ticks_of h' - t0 / polls_per_tick ∧ cycle_time h <= cycle_time h'.
Proof.
  pose proof polls_pos as Hp.
  induction n as [|n IH]; intros t0 ticks h Ht Ht0 Hd Hn Hpos; [lia|]. cbn [wait_loop].
  pose proof (read_value h) as Hv. pose proof (read_advances h) as Ha. pose proof (ticks_step h) as Hs.
  destruct (read_cycle h) as [now h1] eqn:E. cbn [fst snd] in *.
  assert (Hle : t0 / polls_per_tick <= ticks_of h1) by (unfold ticks_of; apply Z.div_le_mono; lia).
  assert (now_eq : u64 (now - u64 (t0 / polls_per_tick)) = ticks_of h1 - t0 / polls_per_tick).
  { rewrite Hv. unfold u64. rewrite <- Zminus_mod. apply Z.mod_small. unfold ticks_of in *. lia. }
  rewrite now_eq. destruct (Z.leb_spec ticks (ticks_of h1 - t0 / polls_per_tick)).
  - exists h1. split; [done|]. lia.
  - assert (cycle_time h1 - t0 < (ticks + 1) * polls_per_tick).
    { assert (Hp0 : 0 < polls_per_tick) by lia. unfold ticks_of in *.
      pose proof (Z.mul_succ_div_gt (cycle_time h1) _ Hp0). pose proof (Z.mul_div_le t0 _ Hp0). nia. }
    destruct (IH t0 ticks h1) as (h' & E' & ? & ?); [lia|lia|lia|lia|lia|]. exists h'. split; [done|]. lia.
Qed.

(** The delay returns, and at least the ticks asked for have passed. *)
Lemma wait_ticks_returns ticks h : 0 <= ticks < 2 ^ 63 →
  ∃ h', wait_ticks ticks h = Some h' ∧ ticks_of h + ticks <= ticks_of h'.
Proof.
  intros Ht. unfold wait_ticks. pose proof (read_value h) as Hv. pose proof (read_advances h) as Ha.
  pose proof (ticks_step h) as Hs. pose proof polls_pos.
  destruct (read_cycle h) as [cycle h1]. cbn [fst snd] in *. subst cycle.
  destruct (wait_loop_returns (S (Z.to_nat ((ticks + 1) * polls_per_tick))) (cycle_time h1) ticks h1)
    as (h' & -> & Hge & _); [done|lia|unfold ticks_of; lia|nia|lia|].
  exists h'. split; [done|]. unfold ticks_of in *. lia.
Qed.

Lemma usleep_returns usec s h : 0 <= usec → ∃ h' freq,
  sysctl_clock_get_freq s SYSCTL_CLOCK_CPU = Some freq ∧ usleep usec s h = Some h' ∧
  ticks_of h + u64 (usec * freq) / 1000000 / 50 <= ticks_of h'.
Proof.
  intros Hu. destruct (clock_defined s SYSCTL_CLOCK_CPU) as (freq & Hf & Hr).
  assert (Hw : 0 <= u64 (usec * freq) / 1000000 / 50 < 2 ^ 63).
  { assert (0 <= u64 (usec * freq) < 2 ^ 64) by (apply Z.mod_pos_bound; lia).
    rewrite Z.div_div by lia. split; [apply Z.div_pos; lia|]. apply Z.div_lt_upper_bound; lia. }
  destruct (wait_ticks_returns _ h Hw) as (h' & Hr' & Ht). exists h', freq. unfold usleep. rewrite Hf. done.
Qed.
End waiting.

(** * Theorems *)

Lemma op_ok s o : regs_ok s → regs_ok (sysctl_run_op s o).
Proof.
  intros Hs. destruct o as [c|p|ch sel|r v].
  - unfold sysctl_run_op. rewrite enable_writes. by apply writes_ok.
  - destruct p; cbn [sysctl_run_op sysctl_pll_enable snd]; repeat apply wr_ok; done.
  - assert (∀ r1 r2 x y, 0 <= x < 2 ^ 32 → 0 <= y < 2 ^ 32 → regs_ok (set_reg r1 x (set_reg r2 y s))) as Hset.
    { intros r1 r2 x y Hx Hy r. unfold set_reg. repeat case_decide; auto. }
    destruct ch; cbn [sysctl_run_op sysctl_dma_select snd fst]; [..|done]; apply Hset; auto;
      apply bf_set_word; auto; first [exact (layout_fits dma_sel0)|exact (layout_fits dma_sel1)].
  - destruct r; cbn [sysctl_run_op sysctl_reset_ctl]; auto using wr_ok.
Qed.

(** C33: Under every sequence of calls that enable clocks and PLLs, route DMA
    channels and drive reset lines, each clock keeps its frequency, every
    clock that was enabled has all its gates open at the end, and the
    registers hold 32-bit words: the calls share registers but do not disturb
    each other's fields. *)
Theorem sysctl_calls_independent ops s :
  let s' := foldl sysctl_run_op s ops in
  (∀ c, sysctl_clock_get_freq s' c = sysctl_clock_get_freq s c) ∧
  (∀ c, ClockEnable c ∈ ops → clock_on s' c) ∧
  (regs_ok s → regs_ok s').
Proof.
  cbn zeta. assert (Hon : ∀ ops s c, clock_on s c → clock_on (foldl sysctl_run_op s ops) c).
  { clear. induction ops as [|o ops IH]; intros s c Hc; cbn; [done|]. by apply IH, op_clock_stays. }
  split_and!.
  - intros c. symmetry. assert (freq_stable s (foldl sysctl_run_op s ops)) as Hst.
    { revert s. induction ops as [|o ops IH]; intros s; cbn; [by apply Forall_true|].
      eapply freq_stable_trans; [apply op_freq_stable|apply IH]. }
    apply (freq_ext _ _ Hst freq_depth).
  - revert s. induction ops as [|o ops IH]; intros s c Hin; [by apply not_elem_of_nil in Hin|].
    apply elem_of_cons in Hin as [<-|Hin]; cbn; [apply Hon, enable_on|by apply IH].
  - revert s. induction ops as [|o ops IH]; intros s Hs; cbn; [done|]. by apply IH, op_ok.
Qed.

(** The frequency computed for PLL0 and PLL1 is the documented
    FIN / NR * NF / OD of the divider fields, rounded down to a whole Hertz
    or one below it. *)
Theorem pll_frequency_accurate s :
  ∃ f0 f1, sysctl_pll_get_freq s SYSCTL_PLL0 = Some f0 ∧ sysctl_pll_get_freq s SYSCTL_PLL1 = Some f1 ∧
    let exact r f o := SYSCTRL_CLOCK_FREQ_IN0 * (f + 1) / ((r + 1) * (o + 1)) in
    (let e := exact (rd s pll0 "clkr0") (rd s pll0 "clkf0") (rd s pll0 "clkod0") in e - 1 <= f0 <= e) ∧
    (let e := exact (rd s pll1 "clkr1") (rd s pll1 "clkf1") (rd s pll1 "clkod1") in e - 1 <= f1 <= e).
Proof.
  eexists _, _. split; [reflexivity|]. split; [reflexivity|]. cbn zeta.
  pose proof (rd_range s pll0 "clkr0" _ _ eq_refl). pose proof (rd_range s pll0 "clkf0" _ _ eq_refl).
  pose proof (rd_range s pll0 "clkod0" _ _ eq_refl). pose proof (rd_range s pll1 "clkr1" _ _ eq_refl).
  pose proof (rd_range s pll1 "clkf1" _ _ eq_refl). pose proof (rd_range s pll1 "clkod1" _ _ eq_refl).
  unfold SYSCTRL_CLOCK_FREQ_IN0. split; apply pll_out_accurate; lia.
Qed.

(** The reset line of a device. *)
Definition reset_line (r : sysctl_reset_t) : option fld :=
  match r with
  | SYSCTL_RESET_SOC => Some (soft_reset, "soft_reset")
  | SYSCTL_RESET_ROM => Some (peri_reset, "rom_reset") | SYSCTL_RESET_DMA => Some (peri_reset, "dma_reset")
  | SYSCTL_RESET_AI => Some (peri_reset, "ai_reset") | SYSCTL_RESET_DVP => Some (peri_reset, "dvp_reset")
  | SYSCTL_RESET_FFT => Some (peri_reset, "fft_reset") | SYSCTL_RESET_GPIO => Some (peri_reset, "gpio_reset")
  | SYSCTL_RESET_SPI0 => Some (peri_reset, "spi0_reset") | SYSCTL_RESET_SPI1 => Some (peri_reset, "spi1_reset")
  | SYSCTL_RESET_SPI2 => Some (peri_reset, "spi2_reset") | SYSCTL_RESET_SPI3 => Some (peri_reset, "spi3_reset")
  | SYSCTL_RESET_I2S0 => Some (peri_reset, "i2s0_reset") | SYSCTL_RESET_I2S1 => Some (peri_reset, "i2s1_reset")
  | SYSCTL_RESET_I2S2 => Some (peri_reset, "i2s2_reset") | SYSCTL_RESET_I2C0 => Some (peri_reset, "i2c0_reset")
  | SYSCTL_RESET_I2C1 => Some (peri_reset, "i2c1_reset") | SYSCTL_RESET_I2C2 => Some (peri_reset, "i2c2_reset")
  | SYSCTL_RESET_UART1 => Some (peri_reset, "uart1_reset") | SYSCTL_RESET_UART2 => Some (peri_reset, "uart2_reset")
  | SYSCTL_RESET_UART3 => Some (peri_reset, "uart3_reset") | SYSCTL_RESET_AES => Some (peri_reset, "aes_reset")
  | SYSCTL_RESET_FPIOA => Some (peri_reset, "fpioa_reset") | SYSCTL_RESET_TIMER0 => Some (peri_reset, "timer0_reset")
  | SYSCTL_RESET_TIMER1 => Some (peri_reset, "timer1_reset") | SYSCTL_RESET_TIMER2 => Some (peri_reset, "timer2_reset")
  | SYSCTL_RESET_WDT0 => Some (peri_reset, "wdt0_reset") | SYSCTL_RESET_WDT1 => Some (peri_reset, "wdt1_reset")
  | SYSCTL_RESET_SHA => Some (peri_reset, "sha_reset") | SYSCTL_RESET_RTC => Some (peri_reset, "rtc_reset")
  | SYSCTL_RESET_MAX => None
  end.

Lemma reset_ctl_line r f v s : reset_line r = Some f →
  sysctl_reset_ctl r v s = wr (fst f) (snd f) v s ∧ ∃ off, bf_find (snd f) 0 (layout (fst f)) = Some (off, 1).
Proof. destruct r; intros E; cbn in E; simplify_eq; (split; [reflexivity|eexists; reflexivity]). Qed.

(** A reset returns: the line of the device is raised, at least ten
    microseconds of the counter pass, and it is released; no other field of
    the controller changes. *)
Theorem sysctl_reset_pulse {H : Type} `{CycleLaws H} r f s h : reset_line r = Some f →
  ∃ s' h' freq, sysctl_reset r s h = Some (s', h') ∧
    sysctl_clock_get_freq s SYSCTL_CLOCK_CPU = Some freq ∧ ticks_of h + 10 * freq / 1000000 / 50 <= ticks_of h' ∧
    rd (sysctl_reset_ctl r 1 s) (fst f) (snd f) = 1 ∧ rd s' (fst f) (snd f) = 0 ∧
    ∀ g, g ≠ f → rd s' (fst g) (snd g) = rd s (fst g) (snd g).
Proof.
  intros Hl. destruct (reset_ctl_line r f 1 s Hl) as [E1 [off Hoff]].
  destruct (usleep_returns 10 (sysctl_reset_ctl r 1 s) h ltac:(lia)) as (h' & freq & Hf & Hu & Ht).
  exists (sysctl_reset_ctl r 0 (sysctl_reset_ctl r 1 s)), h', freq.
  assert (Hfq : sysctl_clock_get_freq s SYSCTL_CLOCK_CPU = Some freq).
  { rewrite <- Hf. apply (freq_ext _ _ (op_freq_stable s (ResetCtl r 1)) freq_depth). }
  destruct (clock_defined s SYSCTL_CLOCK_CPU) as (fq & Hq & Hr). rewrite Hfq in Hq. simplify_eq.
  split_and!; [unfold sysctl_reset; by rewrite Hu|done| | | |].
  - rewrite u64_small in Ht by lia. done.
  - rewrite E1. by erewrite rd_wr_eq by exact Hoff.
  - rewrite (proj1 (reset_ctl_line r f 0 _ Hl)). by erewrite rd_wr_eq by exact Hoff.
  - intros [gr gn] Hg. destruct f as [fr fn]. rewrite (proj1 (reset_ctl_line r _ 0 _ Hl)), E1. cbn [fst snd].
    by rewrite !rd_wr_ne by congruence.
Qed.

(** A counter that needs two reads for a tick. *)
#[global] Instance two_poll_counter : CycleCounter Z := {
  read_cycle t := (u64 ((t + 1) / 2), t + 1);
  polls_per_tick := 2;
}.
#[global] Instance two_poll_laws : CycleLaws Z.
Proof. refine {| cycle_time := λ t : Z, t |}; [done|cbn; lia|done]. Defined.

(** The registers after power-on of the example: all zero. *)
Definition ex_sysctl : sysctl_t := λ _, 0.

Lemma sysctl_reset_pulse_witness :
  ∃ s' h' freq, sysctl_reset SYSCTL_RESET_RTC ex_sysctl 7 = Some (s', h') ∧
    sysctl_clock_get_freq ex_sysctl SYSCTL_CLOCK_CPU = Some freq ∧ ticks_of 7 + 10 * freq / 1000000 / 50 <= ticks_of h' ∧
    rd (sysctl_reset_ctl SYSCTL_RESET_RTC 1 ex_sysctl) peri_reset "rtc_reset" = 1 ∧ rd s' peri_reset "rtc_reset" = 0 ∧
    ∀ g, g ≠ (peri_reset, "rtc_reset") → rd s' (fst g) (snd g) = rd ex_sysctl (fst g) (snd g).
Proof. exact (sysctl_reset_pulse SYSCTL_RESET_RTC (peri_reset, "rtc_reset") ex_sysctl 7 eq_refl). Defined.

(** PLL0 at its reset dividers runs at the oscillator's 26 MHz; enabling the
    clock of the RTC opens its gate and that of APB1. *)
Example pll0_at_reset : sysctl_pll_get_freq ex_sysctl SYSCTL_PLL0 = Some 26000000.
Proof. vm_compute. reflexivity. Qed.
Example enable_rtc :
  let s := snd (sysctl_clock_enable SYSCTL_CLOCK_RTC ex_sysctl) in (s clk_en_peri, s clk_en_cent) = (2 ^ 29, 2 ^ 4).
Proof. vm_compute. reflexivity. Qed.
