(* ===== verification/FpioaTable.v ===== *)
(** The functions of the pin multiplexer of the K210 and their default
    settings: the enumeration of driver/fpioa.h and the table
    [function_config] of driver/fpioa.c, in parts of eight rows. *)
From Stdlib Require Import ZArith String.
From stdpp Require Import base list strings.
From S2P Require Import Prelude.

Local Open Scope string_scope.
Local Open Scope Z_scope.

(** The enumerators in the order of their values 0 .. 255. *)
Definition fpioa_function_t : list string :=
  ["FUNC_JTAG_TCLK"; "FUNC_JTAG_TDI"; "FUNC_JTAG_TMS"; "FUNC_JTAG_TDO"; "FUNC_SPI0_D0"; "FUNC_SPI0_D1";
   "FUNC_SPI0_D2"; "FUNC_SPI0_D3"; "FUNC_SPI0_D4"; "FUNC_SPI0_D5"; "FUNC_SPI0_D6"; "FUNC_SPI0_D7"; "FUNC_SPI0_SS0";
   "FUNC_SPI0_SS1"; "FUNC_SPI0_SS2"; "FUNC_SPI0_SS3"; "FUNC_SPI0_ARB"; "FUNC_SPI0_SCLK"; "FUNC_UARTHS_RX";
   "FUNC_UARTHS_TX"; "FUNC_RESV6"; "FUNC_RESV7"; "FUNC_CLK_SPI1"; "FUNC_CLK_I2C1"; "FUNC_GPIOHS0"; "FUNC_GPIOHS1";
   "FUNC_GPIOHS2"; "FUNC_GPIOHS3"; "FUNC_GPIOHS4"; "FUNC_GPIOHS5"; "FUNC_GPIOHS6"; "FUNC_GPIOHS7"; "FUNC_GPIOHS8";
   "FUNC_GPIOHS9"; "FUNC_GPIOHS10"; "FUNC_GPIOHS11"; "FUNC_GPIOHS12"; "FUNC_GPIOHS13"; "FUNC_GPIOHS14";
   "FUNC_GPIOHS15"; "FUNC_GPIOHS16"; "FUNC_GPIOHS17"; "FUNC_GPIOHS18"; "FUNC_GPIOHS19"; "FUNC_GPIOHS20";
   "FUNC_GPIOHS21"; "FUNC_GPIOHS22"; "FUNC_GPIOHS23"; "FUNC_GPIOHS24"; "FUNC_GPIOHS25"; "FUNC_GPIOHS26";
   "FUNC_GPIOHS27"; "FUNC_GPIOHS28"; "FUNC_GPIOHS29"; "FUNC_GPIOHS30"; "FUNC_GPIOHS31"; "FUNC_GPIO0"; "FUNC_GPIO1";
   "FUNC_GPIO2"; "FUNC_GPIO3"; "FUNC_GPIO4"; "FUNC_GPIO5"; "FUNC_GPIO6"; "FUNC_GPIO7"; "FUNC_UART1_RX";
   "FUNC_UART1_TX"; "FUNC_UART2_RX"; "FUNC_UART2_TX"; "FUNC_UART3_RX"; "FUNC_UART3_TX"; "FUNC_SPI1_D0";
   "FUNC_SPI1_D1"; "FUNC_SPI1_D2"; "FUNC_SPI1_D3"; "FUNC_SPI1_D4"; "FUNC_SPI1_D5"; "FUNC_SPI1_D6"; "FUNC_SPI1_D7";
   "FUNC_SPI1_SS0"; "FUNC_SPI1_SS1"; "FUNC_SPI1_SS2"; "FUNC_SPI1_SS3"; "FUNC_SPI1_ARB"; "FUNC_SPI1_SCLK";
   "FUNC_SPI_SLAVE_D0"; "FUNC_SPI_SLAVE_SS"; "FUNC_SPI_SLAVE_SCLK"; "FUNC_I2S0_MCLK"; "FUNC_I2S0_SCLK";
   "FUNC_I2S0_WS"; "FUNC_I2S0_IN_D0"; "FUNC_I2S0_IN_D1"; "FUNC_I2S0_IN_D2"; "FUNC_I2S0_IN_D3"; "FUNC_I2S0_OUT_D0";
   "FUNC_I2S0_OUT_D1"; "FUNC_I2S0_OUT_D2"; "FUNC_I2S0_OUT_D3"; "FUNC_I2S1_MCLK"; "FUNC_I2S1_SCLK"; "FUNC_I2S1_WS";
   "FUNC_I2S1_IN_D0"; "FUNC_I2S1_IN_D1"; "FUNC_I2S1_IN_D2"; "FUNC_I2S1_IN_D3"; "FUNC_I2S1_OUT_D0";
   "FUNC_I2S1_OUT_D1"; "FUNC_I2S1_OUT_D2"; "FUNC_I2S1_OUT_D3"; "FUNC_I2S2_MCLK"; "FUNC_I2S2_SCLK"; "FUNC_I2S2_WS";
   "FUNC_I2S2_IN_D0"; "FUNC_I2S2_IN_D1"; "FUNC_I2S2_IN_D2"; "FUNC_I2S2_IN_D3"; "FUNC_I2S2_OUT_D0";
   "FUNC_I2S2_OUT_D1"; "FUNC_I2S2_OUT_D2"; "FUNC_I2S2_OUT_D3"; "FUNC_RESV0"; "FUNC_RESV1"; "FUNC_RESV2";
   "FUNC_RESV3"; "FUNC_RESV4"; "FUNC_RESV5"; "FUNC_I2C0_SCLK"; "FUNC_I2C0_SDA"; "FUNC_I2C1_SCLK"; "FUNC_I2C1_SDA";
   "FUNC_I2C2_SCLK"; "FUNC_I2C2_SDA"; "FUNC_CMOS_XCLK"; "FUNC_CMOS_RST"; "FUNC_CMOS_PWDN"; "FUNC_CMOS_VSYNC";
   "FUNC_CMOS_HREF"; "FUNC_CMOS_PCLK"; "FUNC_CMOS_D0"; "FUNC_CMOS_D1"; "FUNC_CMOS_D2"; "FUNC_CMOS_D3";
   "FUNC_CMOS_D4"; "FUNC_CMOS_D5"; "FUNC_CMOS_D6"; "FUNC_CMOS_D7"; "FUNC_SCCB_SCLK"; "FUNC_SCCB_SDA";
   "FUNC_UART1_CTS"; "FUNC_UART1_DSR"; "FUNC_UART1_DCD"; "FUNC_UART1_RI"; "FUNC_UART1_SIR_IN"; "FUNC_UART1_DTR";
   "FUNC_UART1_RTS"; "FUNC_UART1_OUT2"; "FUNC_UART1_OUT1"; "FUNC_UART1_SIR_OUT"; "FUNC_UART1_BAUD"; "FUNC_UART1_RE";
   "FUNC_UART1_DE"; "FUNC_UART1_RS485_EN"; "FUNC_UART2_CTS"; "FUNC_UART2_DSR"; "FUNC_UART2_DCD"; "FUNC_UART2_RI";
   "FUNC_UART2_SIR_IN"; "FUNC_UART2_DTR"; "FUNC_UART2_RTS"; "FUNC_UART2_OUT2"; "FUNC_UART2_OUT1";
   "FUNC_UART2_SIR_OUT"; "FUNC_UART2_BAUD"; "FUNC_UART2_RE"; "FUNC_UART2_DE"; "FUNC_UART2_RS485_EN";
   "FUNC_UART3_CTS"; "FUNC_UART3_DSR"; "FUNC_UART3_DCD"; "FUNC_UART3_RI"; "FUNC_UART3_SIR_IN"; "FUNC_UART3_DTR";
   "FUNC_UART3_RTS"; "FUNC_UART3_OUT2"; "FUNC_UART3_OUT1"; "FUNC_UART3_SIR_OUT"; "FUNC_UART3_BAUD"; "FUNC_UART3_RE";
   "FUNC_UART3_DE"; "FUNC_UART3_RS485_EN"; "FUNC_TIMER0_TOGGLE1"; "FUNC_TIMER0_TOGGLE2"; "FUNC_TIMER0_TOGGLE3";
   "FUNC_TIMER0_TOGGLE4"; "FUNC_TIMER1_TOGGLE1"; "FUNC_TIMER1_TOGGLE2"; "FUNC_TIMER1_TOGGLE3"; "FUNC_TIMER1_TOGGLE4";
   "FUNC_TIMER2_TOGGLE1"; "FUNC_TIMER2_TOGGLE2"; "FUNC_TIMER2_TOGGLE3"; "FUNC_TIMER2_TOGGLE4"; "FUNC_CLK_SPI2";
   "FUNC_CLK_I2C2"; "FUNC_INTERNAL0"; "FUNC_INTERNAL1"; "FUNC_INTERNAL2"; "FUNC_INTERNAL3"; "FUNC_INTERNAL4";
   "FUNC_INTERNAL5"; "FUNC_INTERNAL6"; "FUNC_INTERNAL7"; "FUNC_INTERNAL8"; "FUNC_INTERNAL9"; "FUNC_INTERNAL10";
   "FUNC_INTERNAL11"; "FUNC_INTERNAL12"; "FUNC_INTERNAL13"; "FUNC_INTERNAL14"; "FUNC_INTERNAL15"; "FUNC_INTERNAL16";
   "FUNC_INTERNAL17"; "FUNC_CONSTANT"; "FUNC_INTERNAL18"; "FUNC_DEBUG0"; "FUNC_DEBUG1"; "FUNC_DEBUG2"; "FUNC_DEBUG3";
   "FUNC_DEBUG4"; "FUNC_DEBUG5"; "FUNC_DEBUG6"; "FUNC_DEBUG7"; "FUNC_DEBUG8"; "FUNC_DEBUG9"; "FUNC_DEBUG10";
   "FUNC_DEBUG11"; "FUNC_DEBUG12"; "FUNC_DEBUG13"; "FUNC_DEBUG14"; "FUNC_DEBUG15"; "FUNC_DEBUG16"; "FUNC_DEBUG17";
   "FUNC_DEBUG18"; "FUNC_DEBUG19"; "FUNC_DEBUG20"; "FUNC_DEBUG21"; "FUNC_DEBUG22"; "FUNC_DEBUG23"; "FUNC_DEBUG24";
   "FUNC_DEBUG25"; "FUNC_DEBUG26"; "FUNC_DEBUG27"; "FUNC_DEBUG28"; "FUNC_DEBUG29"; "FUNC_DEBUG30"; "FUNC_DEBUG31"].

Fixpoint index_of_name (name : string) (l : list string) (i : Z) : Z :=
  match l with [] => i | n :: l => if String.eqb n name then i else index_of_name name l (i + 1) end.

(** The value of an enumerator. *)
Definition FUNC (name : string) : Z := index_of_name name fpioa_function_t 0.
Definition FUNC_MAX : Z := 256.

Record fpioa_assign_t : Type := mkAssign {
  a_ch_sel : Z; a_ds : Z; a_oe_en : Z; a_oe_inv : Z; a_do_sel : Z; a_do_inv : Z; a_pu : Z; a_pd : Z; a_resv0 : Z; a_sl : Z; a_ie_en : Z; a_ie_inv : Z; a_di_inv : Z; a_st : Z; a_tie_en : Z; a_tie_val : Z; a_resv1 : Z; a_pad_di : Z
}.

Definition function_config_0 : list fpioa_assign_t :=
  [mkAssign (FUNC "FUNC_JTAG_TCLK") 0x0 0 0 0 0 0 0 0 0 1 0 0 1 0 0 0 0;
   mkAssign (FUNC "FUNC_JTAG_TDI") 0x0 0 0 0 0 0 0 0 0 1 0 0 1 0 0 0 0;
   mkAssign (FUNC "FUNC_JTAG_TMS") 0x0 0 0 0 0 0 0 0 0 1 0 0 1 0 0 0 0;
   mkAssign (FUNC "FUNC_JTAG_TDO") 0xf 1 0 0 0 0 0 0 0 0 0 0 0 0 0 0 0;
   mkAssign (FUNC "FUNC_SPI0_D0") 0xf 1 1 0 0 0 0 0 0 1 1 0 1 0 0 0 0;
   mkAssign (FUNC "FUNC_SPI0_D1") 0xf 1 1 0 0 0 0 0 0 1 1 0 1 0 0 0 0;
   mkAssign (FUNC "FUNC_SPI0_D2") 0xf 1 1 0 0 0 0 0 0 1 1 0 1 0 0 0 0;
   mkAssign (FUNC "FUNC_SPI0_D3") 0xf 1 1 0 0 0 0 0 0 1 1 0 1 0 0 0 0].

Definition function_config_1 : list fpioa_assign_t :=
  [mkAssign (FUNC "FUNC_SPI0_D4") 0xf 1 1 0 0 0 0 0 0 1 1 0 1 0 0 0 0;
   mkAssign (FUNC "FUNC_SPI0_D5") 0xf 1 1 0 0 0 0 0 0 1 1 0 1 0 0 0 0;
   mkAssign (FUNC "FUNC_SPI0_D6") 0xf 1 1 0 0 0 0 0 0 1 1 0 1 0 0 0 0;
   mkAssign (FUNC "FUNC_SPI0_D7") 0xf 1 1 0 0 0 0 0 0 1 1 0 1 0 0 0 0;
   mkAssign (FUNC "FUNC_SPI0_SS0") 0xf 1 0 0 0 0 0 0 0 0 0 0 0 0 0 0 0;
   mkAssign (FUNC "FUNC_SPI0_SS1") 0xf 1 0 0 0 0 0 0 0 0 0 0 0 0 0 0 0;
   mkAssign (FUNC "FUNC_SPI0_SS2") 0xf 1 0 0 0 0 0 0 0 0 0 0 0 0 0 0 0;
   mkAssign (FUNC "FUNC_SPI0_SS3") 0xf 1 0 0 0 0 0 0 0 0 0 0 0 0 0 0 0].

Definition function_config_2 : list fpioa_assign_t :=
  [mkAssign (FUNC "FUNC_SPI0_ARB") 0x0 0 0 0 0 0 0 0 0 1 0 0 1 1 1 0 0;
   mkAssign (FUNC "FUNC_SPI0_SCLK") 0xf 1 0 0 0 0 0 0 0 0 0 0 0 0 0 0 0;
   mkAssign (FUNC "FUNC_UARTHS_RX") 0x0 0 0 0 0 0 0 0 0 1 0 0 1 0 0 0 0;
   mkAssign (FUNC "FUNC_UARTHS_TX") 0xf 1 0 0 0 0 0 0 0 0 0 0 0 0 0 0 0;
   mkAssign (FUNC "FUNC_RESV6") 0x0 0 0 0 0 0 0 0 0 1 0 0 1 0 0 0 0;
   mkAssign (FUNC "FUNC_RESV7") 0x0 0 0 0 0 0 0 0 0 1 0 0 1 0 0 0 0;
   mkAssign (FUNC "FUNC_CLK_SPI1") 0xf 1 0 0 0 0 0 0 0 0 0 0 0 0 0 0 0;
   mkAssign (FUNC "FUNC_CLK_I2C1") 0xf 1 0 0 0 0 0 0 0 0 0 0 0 0 0 0 0].

Definition function_config_3 : list fpioa_assign_t :=
  [mkAssign (FUNC "FUNC_GPIOHS0") 0xf 1 0 0 0 0 0 0 0 1 0 0 1 0 0 0 0;
   mkAssign (FUNC "FUNC_GPIOHS1") 0xf 1 0 0 0 0 0 0 0 1 0 0 1 0 0 0 0;
   mkAssign (FUNC "FUNC_GPIOHS2") 0xf 1 0 0 0 0 0 0 0 1 0 0 1 0 0 0 0;
   mkAssign (FUNC "FUNC_GPIOHS3") 0xf 1 0 0 0 0 0 0 0 1 0 0 1 0 0 0 0;
   mkAssign (FUNC "FUNC_GPIOHS4") 0xf 1 0 0 0 0 0 0 0 1 0 0 1 0 0 0 0;
   mkAssign (FUNC "FUNC_GPIOHS5") 0xf 1 0 0 0 0 0 0 0 1 0 0 1 0 0 0 0;
   mkAssign (FUNC "FUNC_GPIOHS6") 0xf 1 0 0 0 0 0 0 0 1 0 0 1 0 0 0 0;
   mkAssign (FUNC "FUNC_GPIOHS7") 0xf 1 0 0 0 0 0 0 0 1 0 0 1 0 0 0 0].

Definition function_config_4 : list fpioa_assign_t :=
  [mkAssign (FUNC "FUNC_GPIOHS8") 0xf 1 0 0 0 0 0 0 0 1 0 0 1 0 0 0 0;
   mkAssign (FUNC "FUNC_GPIOHS9") 0xf 1 0 0 0 0 0 0 0 1 0 0 1 0 0 0 0;
   mkAssign (FUNC "FUNC_GPIOHS10") 0xf 1 0 0 0 0 0 0 0 1 0 0 1 0 0 0 0;
   mkAssign (FUNC "FUNC_GPIOHS11") 0xf 1 0 0 0 0 0 0 0 1 0 0 1 0 0 0 0;
   mkAssign (FUNC "FUNC_GPIOHS12") 0xf 1 0 0 0 0 0 0 0 1 0 0 1 0 0 0 0;
   mkAssign (FUNC "FUNC_GPIOHS13") 0xf 1 0 0 0 0 0 0 0 1 0 0 1 0 0 0 0;
   mkAssign (FUNC "FUNC_GPIOHS14") 0xf 1 0 0 0 0 0 0 0 1 0 0 1 0 0 0 0;
   mkAssign (FUNC "FUNC_GPIOHS15") 0xf 1 0 0 0 0 0 0 0 1 0 0 1 0 0 0 0].

Definition function_config_5 : list fpioa_assign_t :=
  [mkAssign (FUNC "FUNC_GPIOHS16") 0xf 1 0 0 0 0 0 0 0 1 0 0 1 0 0 0 0;
   mkAssign (FUNC "FUNC_GPIOHS17") 0xf 1 0 0 0 0 0 0 0 1 0 0 1 0 0 0 0;
   mkAssign (FUNC "FUNC_GPIOHS18") 0xf 1 0 0 0 0 0 0 0 1 0 0 1 0 0 0 0;
   mkAssign (FUNC "FUNC_GPIOHS19") 0xf 1 0 0 0 0 0 0 0 1 0 0 1 0 0 0 0;
   mkAssign (FUNC "FUNC_GPIOHS20") 0xf 1 0 0 0 0 0 0 0 1 0 0 1 0 0 0 0;
   mkAssign (FUNC "FUNC_GPIOHS21") 0xf 1 0 0 0 0 0 0 0 1 0 0 1 0 0 0 0;
   mkAssign (FUNC "FUNC_GPIOHS22") 0xf 1 0 0 0 0 0 0 0 1 0 0 1 0 0 0 0;
   mkAssign (FUNC "FUNC_GPIOHS23") 0xf 1 0 0 0 0 0 0 0 1 0 0 1 0 0 0 0].

Definition function_config_6 : list fpioa_assign_t :=
  [mkAssign (FUNC "FUNC_GPIOHS24") 0xf 1 0 0 0 0 0 0 0 1 0 0 1 0 0 0 0;
   mkAssign (FUNC "FUNC_GPIOHS25") 0xf 1 0 0 0 0 0 0 0 1 0 0 1 0 0 0 0;
   mkAssign (FUNC "FUNC_GPIOHS26") 0xf 1 0 0 0 0 0 0 0 1 0 0 1 0 0 0 0;
   mkAssign (FUNC "FUNC_GPIOHS27") 0xf 1 0 0 0 0 0 0 0 1 0 0 1 0 0 0 0;
   mkAssign (FUNC "FUNC_GPIOHS28") 0xf 1 0 0 0 0 0 0 0 1 0 0 1 0 0 0 0;
   mkAssign (FUNC "FUNC_GPIOHS29") 0xf 1 0 0 0 0 0 0 0 1 0 0 1 0 0 0 0;
   mkAssign (FUNC "FUNC_GPIOHS30") 0xf 1 0 0 0 0 0 0 0 1 0 0 1 0 0 0 0;
   mkAssign (FUNC "FUNC_GPIOHS31") 0xf 1 0 0 0 0 0 0 0 1 0 0 1 0 0 0 0].

Definition function_config_7 : list fpioa_assign_t :=
  [mkAssign (FUNC "FUNC_GPIO0") 0xf 1 0 0 0 0 0 0 0 1 0 0 1 0 0 0 0;
   mkAssign (FUNC "FUNC_GPIO1") 0xf 1 0 0 0 0 0 0 0 1 0 0 1 0 0 0 0;
   mkAssign (FUNC "FUNC_GPIO2") 0xf 1 0 0 0 0 0 0 0 1 0 0 1 0 0 0 0;
   mkAssign (FUNC "FUNC_GPIO3") 0xf 1 0 0 0 0 0 0 0 1 0 0 1 0 0 0 0;
   mkAssign (FUNC "FUNC_GPIO4") 0xf 1 0 0 0 0 0 0 0 1 0 0 1 0 0 0 0;
   mkAssign (FUNC "FUNC_GPIO5") 0xf 1 0 0 0 0 0 0 0 1 0 0 1 0 0 0 0;
   mkAssign (FUNC "FUNC_GPIO6") 0xf 1 0 0 0 0 0 0 0 1 0 0 1 0 0 0 0;
   mkAssign (FUNC "FUNC_GPIO7") 0xf 1 0 0 0 0 0 0 0 1 0 0 1 0 0 0 0].

Definition function_config_8 : list fpioa_assign_t :=
  [mkAssign (FUNC "FUNC_UART1_RX") 0x0 0 0 0 0 0 0 0 0 1 0 0 1 0 0 0 0;
   mkAssign (FUNC "FUNC_UART1_TX") 0xf 1 0 0 0 0 0 0 0 0 0 0 0 0 0 0 0;
   mkAssign (FUNC "FUNC_UART2_RX") 0x0 0 0 0 0 0 0 0 0 1 0 0 1 0 0 0 0;
   mkAssign (FUNC "FUNC_UART2_TX") 0xf 1 0 0 0 0 0 0 0 0 0 0 0 0 0 0 0;
   mkAssign (FUNC "FUNC_UART3_RX") 0x0 0 0 0 0 0 0 0 0 1 0 0 1 0 0 0 0;
   mkAssign (FUNC "FUNC_UART3_TX") 0xf 1 0 0 0 0 0 0 0 0 0 0 0 0 0 0 0;
   mkAssign (FUNC "FUNC_SPI1_D0") 0xf 1 1 0 0 0 0 0 0 1 1 0 1 0 0 0 0;
   mkAssign (FUNC "FUNC_SPI1_D1") 0xf 1 1 0 0 0 0 0 0 1 1 0 1 0 0 0 0].

Definition function_config_9 : list fpioa_assign_t :=
  [mkAssign (FUNC "FUNC_SPI1_D2") 0xf 1 1 0 0 0 0 0 0 1 1 0 1 0 0 0 0;
   mkAssign (FUNC "FUNC_SPI1_D3") 0xf 1 1 0 0 0 0 0 0 1 1 0 1 0 0 0 0;
   mkAssign (FUNC "FUNC_SPI1_D4") 0xf 1 1 0 0 0 0 0 0 1 1 0 1 0 0 0 0;
   mkAssign (FUNC "FUNC_SPI1_D5") 0xf 1 1 0 0 0 0 0 0 1 1 0 1 0 0 0 0;
   mkAssign (FUNC "FUNC_SPI1_D6") 0xf 1 1 0 0 0 0 0 0 1 1 0 1 0 0 0 0;
   mkAssign (FUNC "FUNC_SPI1_D7") 0xf 1 1 0 0 0 0 0 0 1 1 0 1 0 0 0 0;
   mkAssign (FUNC "FUNC_SPI1_SS0") 0xf 1 0 0 0 0 0 0 0 0 0 0 0 0 0 0 0;
   mkAssign (FUNC "FUNC_SPI1_SS1") 0xf 1 0 0 0 0 0 0 0 0 0 0 0 0 0 0 0].

Definition function_config_10 : list fpioa_assign_t :=
  [mkAssign (FUNC "FUNC_SPI1_SS2") 0xf 1 0 0 0 0 0 0 0 0 0 0 0 0 0 0 0;
   mkAssign (FUNC "FUNC_SPI1_SS3") 0xf 1 0 0 0 0 0 0 0 0 0 0 0 0 0 0 0;
   mkAssign (FUNC "FUNC_SPI1_ARB") 0x0 0 0 0 0 0 0 0 0 1 0 0 1 1 1 0 0;
   mkAssign (FUNC "FUNC_SPI1_SCLK") 0xf 1 0 0 0 0 0 0 0 0 0 0 0 0 0 0 0;
   mkAssign (FUNC "FUNC_SPI_SLAVE_D0") 0xf 1 1 0 0 0 0 0 0 1 1 0 1 0 0 0 0;
   mkAssign (FUNC "FUNC_SPI_SLAVE_SS") 0x0 0 0 0 0 0 0 0 0 1 0 0 1 0 0 0 0;
   mkAssign (FUNC "FUNC_SPI_SLAVE_SCLK") 0x0 0 0 0 0 0 0 0 0 1 0 0 1 0 0 0 0;
   mkAssign (FUNC "FUNC_I2S0_MCLK") 0xf 1 0 0 0 0 0 0 0 0 0 0 0 0 0 0 0].

Definition function_config_11 : list fpioa_assign_t :=
  [mkAssign (FUNC "FUNC_I2S0_SCLK") 0xf 1 0 0 0 0 0 0 0 0 0 0 0 0 0 0 0;
   mkAssign (FUNC "FUNC_I2S0_WS") 0xf 1 0 0 0 0 0 0 0 0 0 0 0 0 0 0 0;
   mkAssign (FUNC "FUNC_I2S0_IN_D0") 0x0 0 0 0 0 0 0 0 0 1 0 0 1 0 0 0 0;
   mkAssign (FUNC "FUNC_I2S0_IN_D1") 0x0 0 0 0 0 0 0 0 0 1 0 0 1 0 0 0 0;
   mkAssign (FUNC "FUNC_I2S0_IN_D2") 0x0 0 0 0 0 0 0 0 0 1 0 0 1 0 0 0 0;
   mkAssign (FUNC "FUNC_I2S0_IN_D3") 0x0 0 0 0 0 0 0 0 0 1 0 0 1 0 0 0 0;
   mkAssign (FUNC "FUNC_I2S0_OUT_D0") 0xf 1 0 0 0 0 0 0 0 0 0 0 0 0 0 0 0;
   mkAssign (FUNC "FUNC_I2S0_OUT_D1") 0xf 1 0 0 0 0 0 0 0 0 0 0 0 0 0 0 0].

Definition function_config_12 : list fpioa_assign_t :=
  [mkAssign (FUNC "FUNC_I2S0_OUT_D2") 0xf 1 0 0 0 0 0 0 0 0 0 0 0 0 0 0 0;
   mkAssign (FUNC "FUNC_I2S0_OUT_D3") 0xf 1 0 0 0 0 0 0 0 0 0 0 0 0 0 0 0;
   mkAssign (FUNC "FUNC_I2S1_MCLK") 0xf 1 0 0 0 0 0 0 0 0 0 0 0 0 0 0 0;
   mkAssign (FUNC "FUNC_I2S1_SCLK") 0xf 1 0 0 0 0 0 0 0 0 0 0 0 0 0 0 0;
   mkAssign (FUNC "FUNC_I2S1_WS") 0xf 1 0 0 0 0 0 0 0 0 0 0 0 0 0 0 0;
   mkAssign (FUNC "FUNC_I2S1_IN_D0") 0x0 0 0 0 0 0 0 0 0 1 0 0 1 0 0 0 0;
   mkAssign (FUNC "FUNC_I2S1_IN_D1") 0x0 0 0 0 0 0 0 0 0 1 0 0 1 0 0 0 0;
   mkAssign (FUNC "FUNC_I2S1_IN_D2") 0x0 0 0 0 0 0 0 0 0 1 0 0 1 0 0 0 0].

Definition function_config_13 : list fpioa_assign_t :=
  [mkAssign (FUNC "FUNC_I2S1_IN_D3") 0x0 0 0 0 0 0 0 0 0 1 0 0 1 0 0 0 0;
   mkAssign (FUNC "FUNC_I2S1_OUT_D0") 0xf 1 0 0 0 0 0 0 0 0 0 0 0 0 0 0 0;
   mkAssign (FUNC "FUNC_I2S1_OUT_D1") 0xf 1 0 0 0 0 0 0 0 0 0 0 0 0 0 0 0;
   mkAssign (FUNC "FUNC_I2S1_OUT_D2") 0xf 1 0 0 0 0 0 0 0 0 0 0 0 0 0 0 0;
   mkAssign (FUNC "FUNC_I2S1_OUT_D3") 0xf 1 0 0 0 0 0 0 0 0 0 0 0 0 0 0 0;
   mkAssign (FUNC "FUNC_I2S2_MCLK") 0xf 1 0 0 0 0 0 0 0 0 0 0 0 0 0 0 0;
   mkAssign (FUNC "FUNC_I2S2_SCLK") 0xf 1 0 0 0 0 0 0 0 0 0 0 0 0 0 0 0;
   mkAssign (FUNC "FUNC_I2S2_WS") 0xf 1 0 0 0 0 0 0 0 0 0 0 0 0 0 0 0].

Definition function_config_14 : list fpioa_assign_t :=
  [mkAssign (FUNC "FUNC_I2S2_IN_D0") 0x0 0 0 0 0 0 0 0 0 1 0 0 1 0 0 0 0;
   mkAssign (FUNC "FUNC_I2S2_IN_D1") 0x0 0 0 0 0 0 0 0 0 1 0 0 1 0 0 0 0;
   mkAssign (FUNC "FUNC_I2S2_IN_D2") 0x0 0 0 0 0 0 0 0 0 1 0 0 1 0 0 0 0;
   mkAssign (FUNC "FUNC_I2S2_IN_D3") 0x0 0 0 0 0 0 0 0 0 1 0 0 1 0 0 0 0;
   mkAssign (FUNC "FUNC_I2S2_OUT_D0") 0xf 1 0 0 0 0 0 0 0 0 0 0 0 0 0 0 0;
   mkAssign (FUNC "FUNC_I2S2_OUT_D1") 0xf 1 0 0 0 0 0 0 0 0 0 0 0 0 0 0 0;
   mkAssign (FUNC "FUNC_I2S2_OUT_D2") 0xf 1 0 0 0 0 0 0 0 0 0 0 0 0 0 0 0;
   mkAssign (FUNC "FUNC_I2S2_OUT_D3") 0xf 1 0 0 0 0 0 0 0 0 0 0 0 0 0 0 0].

Definition function_config_15 : list fpioa_assign_t :=
  [mkAssign (FUNC "FUNC_RESV0") 0x0 0 0 0 0 0 0 0 0 0 0 0 0 0 0 0 0;
   mkAssign (FUNC "FUNC_RESV1") 0x0 0 0 0 0 0 0 0 0 0 0 0 0 0 0 0 0;
   mkAssign (FUNC "FUNC_RESV2") 0x0 0 0 0 0 0 0 0 0 0 0 0 0 0 0 0 0;
   mkAssign (FUNC "FUNC_RESV3") 0x0 0 0 0 0 0 0 0 0 0 0 0 0 0 0 0 0;
   mkAssign (FUNC "FUNC_RESV4") 0x0 0 0 0 0 0 0 0 0 0 0 0 0 0 0 0 0;
   mkAssign (FUNC "FUNC_RESV5") 0x0 0 0 0 0 0 0 0 0 0 0 0 0 0 0 0 0;
   mkAssign (FUNC "FUNC_I2C0_SCLK") 0x0 1 0 0 0 1 0 0 1 1 0 0 1 0 0 0 0;
   mkAssign (FUNC "FUNC_I2C0_SDA") 0x0 1 0 0 0 1 0 0 1 1 0 0 1 0 0 0 0].

Definition function_config_16 : list fpioa_assign_t :=
  [mkAssign (FUNC "FUNC_I2C1_SCLK") 0x0 1 0 0 0 1 0 0 1 1 0 0 1 0 0 0 0;
   mkAssign (FUNC "FUNC_I2C1_SDA") 0x0 1 0 0 0 1 0 0 1 1 0 0 1 0 0 0 0;
   mkAssign (FUNC "FUNC_I2C2_SCLK") 0x0 1 0 0 0 1 0 0 1 1 0 0 1 0 0 0 0;
   mkAssign (FUNC "FUNC_I2C2_SDA") 0x0 1 0 0 0 1 0 0 1 1 0 0 1 0 0 0 0;
   mkAssign (FUNC "FUNC_CMOS_XCLK") 0xf 1 0 0 0 0 0 0 0 0 0 0 0 0 0 0 0;
   mkAssign (FUNC "FUNC_CMOS_RST") 0xf 1 0 0 0 0 0 0 0 0 0 0 0 0 0 0 0;
   mkAssign (FUNC "FUNC_CMOS_PWDN") 0xf 1 0 0 0 0 0 0 0 0 0 0 0 0 0 0 0;
   mkAssign (FUNC "FUNC_CMOS_VSYNC") 0x0 0 0 0 0 0 0 0 0 1 0 0 1 0 0 0 0].

Definition function_config_17 : list fpioa_assign_t :=
  [mkAssign (FUNC "FUNC_CMOS_HREF") 0x0 0 0 0 0 0 0 0 0 1 0 0 1 0 0 0 0;
   mkAssign (FUNC "FUNC_CMOS_PCLK") 0x0 0 0 0 0 0 0 0 0 1 0 0 1 0 0 0 0;
   mkAssign (FUNC "FUNC_CMOS_D0") 0x0 0 0 0 0 0 0 0 0 1 0 0 1 0 0 0 0;
   mkAssign (FUNC "FUNC_CMOS_D1") 0x0 0 0 0 0 0 0 0 0 1 0 0 1 0 0 0 0;
   mkAssign (FUNC "FUNC_CMOS_D2") 0x0 0 0 0 0 0 0 0 0 1 0 0 1 0 0 0 0;
   mkAssign (FUNC "FUNC_CMOS_D3") 0x0 0 0 0 0 0 0 0 0 1 0 0 1 0 0 0 0;
   mkAssign (FUNC "FUNC_CMOS_D4") 0x0 0 0 0 0 0 0 0 0 1 0 0 1 0 0 0 0;
   mkAssign (FUNC "FUNC_CMOS_D5") 0x0 0 0 0 0 0 0 0 0 1 0 0 1 0 0 0 0].

Definition function_config_18 : list fpioa_assign_t :=
  [mkAssign (FUNC "FUNC_CMOS_D6") 0x0 0 0 0 0 0 0 0 0 1 0 0 1 0 0 0 0;
   mkAssign (FUNC "FUNC_CMOS_D7") 0x0 0 0 0 0 0 0 0 0 1 0 0 1 0 0 0 0;
   mkAssign (FUNC "FUNC_SCCB_SCLK") 0x0 1 1 0 0 1 0 0 1 1 0 0 1 0 0 0 0;
   mkAssign (FUNC "FUNC_SCCB_SDA") 0x0 1 1 0 0 1 0 0 1 1 0 0 1 0 0 0 0;
   mkAssign (FUNC "FUNC_UART1_CTS") 0x0 0 0 0 0 0 0 0 0 1 0 0 1 0 0 0 0;
   mkAssign (FUNC "FUNC_UART1_DSR") 0x0 0 0 0 0 0 0 0 0 1 0 0 1 0 0 0 0;
   mkAssign (FUNC "FUNC_UART1_DCD") 0x0 0 0 0 0 0 0 0 0 1 0 0 1 0 0 0 0;
   mkAssign (FUNC "FUNC_UART1_RI") 0x0 0 0 0 0 0 0 0 0 1 0 0 1 0 0 0 0].

Definition function_config_19 : list fpioa_assign_t :=
  [mkAssign (FUNC "FUNC_UART1_SIR_IN") 0x0 0 0 0 0 0 0 0 0 1 0 0 1 0 0 0 0;
   mkAssign (FUNC "FUNC_UART1_DTR") 0xf 1 0 0 0 0 0 0 0 0 0 0 0 0 0 0 0;
   mkAssign (FUNC "FUNC_UART1_RTS") 0xf 1 0 0 0 0 0 0 0 0 0 0 0 0 0 0 0;
   mkAssign (FUNC "FUNC_UART1_OUT2") 0xf 1 0 0 0 0 0 0 0 0 0 0 0 0 0 0 0;
   mkAssign (FUNC "FUNC_UART1_OUT1") 0xf 1 0 0 0 0 0 0 0 0 0 0 0 0 0 0 0;
   mkAssign (FUNC "FUNC_UART1_SIR_OUT") 0xf 1 0 0 0 0 0 0 0 0 0 0 0 0 0 0 0;
   mkAssign (FUNC "FUNC_UART1_BAUD") 0xf 1 0 0 0 0 0 0 0 0 0 0 0 0 0 0 0;
   mkAssign (FUNC "FUNC_UART1_RE") 0xf 1 0 0 0 0 0 0 0 0 0 0 0 0 0 0 0].

Definition function_config_20 : list fpioa_assign_t :=
  [mkAssign (FUNC "FUNC_UART1_DE") 0xf 1 0 0 0 0 0 0 0 0 0 0 0 0 0 0 0;
   mkAssign (FUNC "FUNC_UART1_RS485_EN") 0xf 1 0 0 0 0 0 0 0 0 0 0 0 0 0 0 0;
   mkAssign (FUNC "FUNC_UART2_CTS") 0x0 0 0 0 0 0 0 0 0 1 0 0 1 0 0 0 0;
   mkAssign (FUNC "FUNC_UART2_DSR") 0x0 0 0 0 0 0 0 0 0 1 0 0 1 0 0 0 0;
   mkAssign (FUNC "FUNC_UART2_DCD") 0x0 0 0 0 0 0 0 0 0 1 0 0 1 0 0 0 0;
   mkAssign (FUNC "FUNC_UART2_RI") 0x0 0 0 0 0 0 0 0 0 1 0 0 1 0 0 0 0;
   mkAssign (FUNC "FUNC_UART2_SIR_IN") 0x0 0 0 0 0 0 0 0 0 1 0 0 1 0 0 0 0;
   mkAssign (FUNC "FUNC_UART2_DTR") 0xf 1 0 0 0 0 0 0 0 0 0 0 0 0 0 0 0].

Definition function_config_21 : list fpioa_assign_t :=
  [mkAssign (FUNC "FUNC_UART2_RTS") 0xf 1 0 0 0 0 0 0 0 0 0 0 0 0 0 0 0;
   mkAssign (FUNC "FUNC_UART2_OUT2") 0xf 1 0 0 0 0 0 0 0 0 0 0 0 0 0 0 0;
   mkAssign (FUNC "FUNC_UART2_OUT1") 0xf 1 0 0 0 0 0 0 0 0 0 0 0 0 0 0 0;
   mkAssign (FUNC "FUNC_UART2_SIR_OUT") 0xf 1 0 0 0 0 0 0 0 0 0 0 0 0 0 0 0;
   mkAssign (FUNC "FUNC_UART2_BAUD") 0xf 1 0 0 0 0 0 0 0 0 0 0 0 0 0 0 0;
   mkAssign (FUNC "FUNC_UART2_RE") 0xf 1 0 0 0 0 0 0 0 0 0 0 0 0 0 0 0;
   mkAssign (FUNC "FUNC_UART2_DE") 0xf 1 0 0 0 0 0 0 0 0 0 0 0 0 0 0 0;
   mkAssign (FUNC "FUNC_UART2_RS485_EN") 0xf 1 0 0 0 0 0 0 0 0 0 0 0 0 0 0 0].

Definition function_config_22 : list fpioa_assign_t :=
  [mkAssign (FUNC "FUNC_UART3_CTS") 0x0 0 0 0 0 0 0 0 0 1 0 0 1 0 0 0 0;
   mkAssign (FUNC "FUNC_UART3_DSR") 0x0 0 0 0 0 0 0 0 0 1 0 0 1 0 0 0 0;
   mkAssign (FUNC "FUNC_UART3_DCD") 0x0 0 0 0 0 0 0 0 0 1 0 0 1 0 0 0 0;
   mkAssign (FUNC "FUNC_UART3_RI") 0x0 0 0 0 0 0 0 0 0 1 0 0 1 0 0 0 0;
   mkAssign (FUNC "FUNC_UART3_SIR_IN") 0x0 0 0 0 0 0 0 0 0 1 0 0 1 0 0 0 0;
   mkAssign (FUNC "FUNC_UART3_DTR") 0xf 1 0 0 0 0 0 0 0 0 0 0 0 0 0 0 0;
   mkAssign (FUNC "FUNC_UART3_RTS") 0xf 1 0 0 0 0 0 0 0 0 0 0 0 0 0 0 0;
   mkAssign (FUNC "FUNC_UART3_OUT2") 0xf 1 0 0 0 0 0 0 0 0 0 0 0 0 0 0 0].

Definition function_config_23 : list fpioa_assign_t :=
  [mkAssign (FUNC "FUNC_UART3_OUT1") 0xf 1 0 0 0 0 0 0 0 0 0 0 0 0 0 0 0;
   mkAssign (FUNC "FUNC_UART3_SIR_OUT") 0xf 1 0 0 0 0 0 0 0 0 0 0 0 0 0 0 0;
   mkAssign (FUNC "FUNC_UART3_BAUD") 0xf 1 0 0 0 0 0 0 0 0 0 0 0 0 0 0 0;
   mkAssign (FUNC "FUNC_UART3_RE") 0xf 1 0 0 0 0 0 0 0 0 0 0 0 0 0 0 0;
   mkAssign (FUNC "FUNC_UART3_DE") 0xf 1 0 0 0 0 0 0 0 0 0 0 0 0 0 0 0;
   mkAssign (FUNC "FUNC_UART3_RS485_EN") 0xf 1 0 0 0 0 0 0 0 0 0 0 0 0 0 0 0;
   mkAssign (FUNC "FUNC_TIMER0_TOGGLE1") 0xf 1 0 0 0 0 0 0 0 0 0 0 0 0 0 0 0;
   mkAssign (FUNC "FUNC_TIMER0_TOGGLE2") 0xf 1 0 0 0 0 0 0 0 0 0 0 0 0 0 0 0].

Definition function_config_24 : list fpioa_assign_t :=
  [mkAssign (FUNC "FUNC_TIMER0_TOGGLE3") 0xf 1 0 0 0 0 0 0 0 0 0 0 0 0 0 0 0;
   mkAssign (FUNC "FUNC_TIMER0_TOGGLE4") 0xf 1 0 0 0 0 0 0 0 0 0 0 0 0 0 0 0;
   mkAssign (FUNC "FUNC_TIMER1_TOGGLE1") 0xf 1 0 0 0 0 0 0 0 0 0 0 0 0 0 0 0;
   mkAssign (FUNC "FUNC_TIMER1_TOGGLE2") 0xf 1 0 0 0 0 0 0 0 0 0 0 0 0 0 0 0;
   mkAssign (FUNC "FUNC_TIMER1_TOGGLE3") 0xf 1 0 0 0 0 0 0 0 0 0 0 0 0 0 0 0;
   mkAssign (FUNC "FUNC_TIMER1_TOGGLE4") 0xf 1 0 0 0 0 0 0 0 0 0 0 0 0 0 0 0;
   mkAssign (FUNC "FUNC_TIMER2_TOGGLE1") 0xf 1 0 0 0 0 0 0 0 0 0 0 0 0 0 0 0;
   mkAssign (FUNC "FUNC_TIMER2_TOGGLE2") 0xf 1 0 0 0 0 0 0 0 0 0 0 0 0 0 0 0].

Definition function_config_25 : list fpioa_assign_t :=
  [mkAssign (FUNC "FUNC_TIMER2_TOGGLE3") 0xf 1 0 0 0 0 0 0 0 0 0 0 0 0 0 0 0;
   mkAssign (FUNC "FUNC_TIMER2_TOGGLE4") 0xf 1 0 0 0 0 0 0 0 0 0 0 0 0 0 0 0;
   mkAssign (FUNC "FUNC_CLK_SPI2") 0xf 1 0 0 0 0 0 0 0 0 0 0 0 0 0 0 0;
   mkAssign (FUNC "FUNC_CLK_I2C2") 0xf 1 0 0 0 0 0 0 0 0 0 0 0 0 0 0 0;
   mkAssign (FUNC "FUNC_INTERNAL0") 0xf 1 0 0 0 0 0 0 0 0 0 0 0 0 0 0 0;
   mkAssign (FUNC "FUNC_INTERNAL1") 0xf 1 0 0 0 0 0 0 0 0 0 0 0 0 0 0 0;
   mkAssign (FUNC "FUNC_INTERNAL2") 0xf 1 0 0 0 0 0 0 0 0 0 0 0 0 0 0 0;
   mkAssign (FUNC "FUNC_INTERNAL3") 0xf 1 0 0 0 0 0 0 0 0 0 0 0 0 0 0 0].

Definition function_config_26 : list fpioa_assign_t :=
  [mkAssign (FUNC "FUNC_INTERNAL4") 0xf 1 0 0 0 0 0 0 0 0 0 0 0 0 0 0 0;
   mkAssign (FUNC "FUNC_INTERNAL5") 0xf 1 0 0 0 0 0 0 0 0 0 0 0 0 0 0 0;
   mkAssign (FUNC "FUNC_INTERNAL6") 0xf 1 0 0 0 0 0 0 0 0 0 0 0 0 0 0 0;
   mkAssign (FUNC "FUNC_INTERNAL7") 0xf 1 0 0 0 0 0 0 0 0 0 0 0 0 0 0 0;
   mkAssign (FUNC "FUNC_INTERNAL8") 0xf 1 0 0 0 0 0 0 0 0 0 0 0 0 0 0 0;
   mkAssign (FUNC "FUNC_INTERNAL9") 0x0 0 0 0 0 0 0 0 0 1 0 0 1 0 0 0 0;
   mkAssign (FUNC "FUNC_INTERNAL10") 0x0 0 0 0 0 0 0 0 0 1 0 0 1 0 0 0 0;
   mkAssign (FUNC "FUNC_INTERNAL11") 0x0 0 0 0 0 0 0 0 0 1 0 0 1 0 0 0 0].

Definition function_config_27 : list fpioa_assign_t :=
  [mkAssign (FUNC "FUNC_INTERNAL12") 0x0 0 0 0 0 0 0 0 0 1 0 0 1 0 0 0 0;
   mkAssign (FUNC "FUNC_INTERNAL13") 0x0 0 0 0 0 1 0 0 0 1 0 0 1 0 0 0 0;
   mkAssign (FUNC "FUNC_INTERNAL14") 0xf 1 0 0 0 1 0 0 1 1 0 0 1 0 0 0 0;
   mkAssign (FUNC "FUNC_INTERNAL15") 0x0 0 0 0 0 0 0 0 0 1 0 0 1 0 0 0 0;
   mkAssign (FUNC "FUNC_INTERNAL16") 0x0 0 0 0 0 0 0 0 0 1 0 0 1 0 0 0 0;
   mkAssign (FUNC "FUNC_INTERNAL17") 0x0 0 0 0 0 0 0 0 0 1 0 0 1 0 0 0 0;
   mkAssign (FUNC "FUNC_CONSTANT") 0x0 0 0 0 0 0 0 0 0 0 0 0 0 0 0 0 0;
   mkAssign (FUNC "FUNC_INTERNAL18") 0x0 0 0 0 0 0 0 0 0 1 0 0 1 0 0 0 0].

Definition function_config_28 : list fpioa_assign_t :=
  [mkAssign (FUNC "FUNC_DEBUG0") 0xf 1 0 0 0 0 0 0 0 0 0 0 0 0 0 0 0;
   mkAssign (FUNC "FUNC_DEBUG1") 0xf 1 0 0 0 0 0 0 0 0 0 0 0 0 0 0 0;
   mkAssign (FUNC "FUNC_DEBUG2") 0xf 1 0 0 0 0 0 0 0 0 0 0 0 0 0 0 0;
   mkAssign (FUNC "FUNC_DEBUG3") 0xf 1 0 0 0 0 0 0 0 0 0 0 0 0 0 0 0;
   mkAssign (FUNC "FUNC_DEBUG4") 0xf 1 0 0 0 0 0 0 0 0 0 0 0 0 0 0 0;
   mkAssign (FUNC "FUNC_DEBUG5") 0xf 1 0 0 0 0 0 0 0 0 0 0 0 0 0 0 0;
   mkAssign (FUNC "FUNC_DEBUG6") 0xf 1 0 0 0 0 0 0 0 0 0 0 0 0 0 0 0;
   mkAssign (FUNC "FUNC_DEBUG7") 0xf 1 0 0 0 0 0 0 0 0 0 0 0 0 0 0 0].

Definition function_config_29 : list fpioa_assign_t :=
  [mkAssign (FUNC "FUNC_DEBUG8") 0xf 1 0 0 0 0 0 0 0 0 0 0 0 0 0 0 0;
   mkAssign (FUNC "FUNC_DEBUG9") 0xf 1 0 0 0 0 0 0 0 0 0 0 0 0 0 0 0;
   mkAssign (FUNC "FUNC_DEBUG10") 0xf 1 0 0 0 0 0 0 0 0 0 0 0 0 0 0 0;
   mkAssign (FUNC "FUNC_DEBUG11") 0xf 1 0 0 0 0 0 0 0 0 0 0 0 0 0 0 0;
   mkAssign (FUNC "FUNC_DEBUG12") 0xf 1 0 0 0 0 0 0 0 0 0 0 0 0 0 0 0;
   mkAssign (FUNC "FUNC_DEBUG13") 0xf 1 0 0 0 0 0 0 0 0 0 0 0 0 0 0 0;
   mkAssign (FUNC "FUNC_DEBUG14") 0xf 1 0 0 0 0 0 0 0 0 0 0 0 0 0 0 0;
   mkAssign (FUNC "FUNC_DEBUG15") 0xf 1 0 0 0 0 0 0 0 0 0 0 0 0 0 0 0].

Definition function_config_30 : list fpioa_assign_t :=
  [mkAssign (FUNC "FUNC_DEBUG16") 0xf 1 0 0 0 0 0 0 0 0 0 0 0 0 0 0 0;
   mkAssign (FUNC "FUNC_DEBUG17") 0xf 1 0 0 0 0 0 0 0 0 0 0 0 0 0 0 0;
   mkAssign (FUNC "FUNC_DEBUG18") 0xf 1 0 0 0 0 0 0 0 0 0 0 0 0 0 0 0;
   mkAssign (FUNC "FUNC_DEBUG19") 0xf 1 0 0 0 0 0 0 0 0 0 0 0 0 0 0 0;
   mkAssign (FUNC "FUNC_DEBUG20") 0xf 1 0 0 0 0 0 0 0 0 0 0 0 0 0 0 0;
   mkAssign (FUNC "FUNC_DEBUG21") 0xf 1 0 0 0 0 0 0 0 0 0 0 0 0 0 0 0;
   mkAssign (FUNC "FUNC_DEBUG22") 0xf 1 0 0 0 0 0 0 0 0 0 0 0 0 0 0 0;
   mkAssign (FUNC "FUNC_DEBUG23") 0xf 1 0 0 0 0 0 0 0 0 0 0 0 0 0 0 0].

Definition function_config_31 : list fpioa_assign_t :=
  [mkAssign (FUNC "FUNC_DEBUG24") 0xf 1 0 0 0 0 0 0 0 0 0 0 0 0 0 0 0;
   mkAssign (FUNC "FUNC_DEBUG25") 0xf 1 0 0 0 0 0 0 0 0 0 0 0 0 0 0 0;
   mkAssign (FUNC "FUNC_DEBUG26") 0xf 1 0 0 0 0 0 0 0 0 0 0 0 0 0 0 0;
   mkAssign (FUNC "FUNC_DEBUG27") 0xf 1 0 0 0 0 0 0 0 0 0 0 0 0 0 0 0;
   mkAssign (FUNC "FUNC_DEBUG28") 0xf 1 0 0 0 0 0 0 0 0 0 0 0 0 0 0 0;
   mkAssign (FUNC "FUNC_DEBUG29") 0xf 1 0 0 0 0 0 0 0 0 0 0 0 0 0 0 0;
   mkAssign (FUNC "FUNC_DEBUG30") 0xf 1 0 0 0 0 0 0 0 0 0 0 0 0 0 0 0;
   mkAssign (FUNC "FUNC_DEBUG31") 0xf 1 0 0 0 0 0 0 0 0 0 0 0 0 0 0 0].

Definition function_config : list fpioa_assign_t :=
  function_config_0 ++ function_config_1 ++ function_config_2 ++ function_config_3 ++ function_config_4 ++
  function_config_5 ++ function_config_6 ++ function_config_7 ++ function_config_8 ++ function_config_9 ++
  function_config_10 ++ function_config_11 ++ function_config_12 ++ function_config_13 ++ function_config_14 ++
  function_config_15 ++ function_config_16 ++ function_config_17 ++ function_config_18 ++ function_config_19 ++
  function_config_20 ++ function_config_21 ++ function_config_22 ++ function_config_23 ++ function_config_24 ++
  function_config_25 ++ function_config_26 ++ function_config_27 ++ function_config_28 ++ function_config_29 ++
  function_config_30 ++ function_config_31.

(** Every row is the one of its own function, and its numbers fit the
    fields. *)
Lemma function_config_rows : a_ch_sel <$> function_config = seqZ 0 256.
Proof. vm_compute. reflexivity. Qed.

Lemma function_config_length : length function_config = 256%nat.
Proof. vm_compute. reflexivity. Qed.
