(* ===== verification/Fpioa.v ===== *)
(** Pins of the K210: the multiplexer (driver/fpioa.c), the bit operations of
    driver/utils.c, the high-speed GPIO (driver/gpiohs.c), the initialisation
    of the board (driver/interface.c) and the select pin of the SD card
    (driver/sdcard.c).  Registers are 32-bit words; no device is involved in
    reading or writing them. *)
From Stdlib Require Import ZArith Lia String.
From stdpp Require Import base list numbers option strings relations.
From S2P Require Import Prelude BitField Sysctl FpioaTable.

Local Open Scope string_scope.
Local Open Scope Z_scope.

(** * utils.c: bits of a register word *)

Definition not32 (x : Z) : Z := Z.lxor (u32 x) (Z.ones 32).
Definition set_bit (bits mask value : Z) : Z := Z.lor (Z.land bits (not32 mask)) (Z.land value mask).
Definition set_bit_offset (bits mask offset value : Z) : Z :=
  set_bit bits (u32 (Z.shiftl mask offset)) (u32 (Z.shiftl value offset)).
Definition set_gpio_bit (bits offset value : Z) : Z := set_bit_offset bits 1 offset value.
Definition get_bit (bits mask offset : Z) : Z := Z.shiftr (Z.land bits (u32 (Z.shiftl mask offset))) offset.
Definition get_gpio_bit (bits offset : Z) : Z := get_bit bits 1 offset.

(** * fpioa.c *)

Definition FPIOA_NUM_IO : Z := 48.

Definition fpioa_io_config_t : bitfields :=
  [("ch_sel", 8); ("ds", 4); ("oe_en", 1); ("oe_inv", 1); ("do_sel", 1); ("do_inv", 1); ("pu", 1); ("pd", 1); ("resv0", 1);
   ("sl", 1); ("ie_en", 1); ("ie_inv", 1); ("di_inv", 1); ("st", 1); ("resv1", 7); ("pad_di", 1)].

Inductive fpioa_pull_t : Type := FPIOA_PULL_NONE | FPIOA_PULL_DOWN | FPIOA_PULL_UP | FPIOA_PULL_MAX.

(** The registers: a word per pin, and the tie words of the functions. *)
Record fpioa_t : Type := mkFpioa { io : list Z; tie_en : list Z; tie_val : list Z }.

Definition set_io (number x : Z) (f : fpioa_t) : fpioa_t := mkFpioa (zset (io f) number x) (tie_en f) (tie_val f).
Definition ch_sel (f : fpioa_t) (number : Z) : Z := bf_get fpioa_io_config_t "ch_sel" (zget (io f) number).

Definition default_assign : fpioa_assign_t := mkAssign 0 0 0 0 0 0 0 0 0 0 0 0 0 0 0 0 0 0.
Definition row (i : Z) : fpioa_assign_t := default default_assign (function_config !! Z.to_nat i).

(** The words collected by the loop over the functions: bit [i % 32] of word
    [i / 32]. *)
Definition tie_words (field : fpioa_assign_t → Z) : list Z :=
  foldl (λ w i, zset w (i / 32) (u32 (Z.lor (zget w (i / 32)) (u32 (Z.shiftl (field (row i)) (i mod 32))))))
    (replicate 8 0) (seqZ 0 FUNC_MAX).

Definition fpioa_init (f : fpioa_t) (s : sysctl_t) : Z * fpioa_t * sysctl_t :=
  let (_, s) := sysctl_clock_enable SYSCTL_CLOCK_FPIOA s in
  (0, mkFpioa (io f) (tie_words a_tie_en) (tie_words a_tie_val), s).

Definition valid_io (number : Z) : bool := negb ((number <? 0) || (FPIOA_NUM_IO <=? number)).

Definition fpioa_set_io_pull (number : Z) (pull : fpioa_pull_t) (f : fpioa_t) : Z * fpioa_t :=
  let put pu pd := bf_set fpioa_io_config_t "pd" pd (bf_set fpioa_io_config_t "pu" pu (zget (io f) number)) in
  if negb (valid_io number) then (-1, f)
  else match pull with
       | FPIOA_PULL_MAX => (-1, f)
       | FPIOA_PULL_NONE => (0, set_io number (put 0 0) f)
       | FPIOA_PULL_DOWN => (0, set_io number (put 0 1) f)
       | FPIOA_PULL_UP => (0, set_io number (put 1 0) f)
       end.

(** The word of a row; reserved bits and [pad_di] are zero. *)
Definition assign_word (a : fpioa_assign_t) : Z :=
  foldl (λ x w, bf_set fpioa_io_config_t w.1 w.2 x) 0
    [("ch_sel", a_ch_sel a); ("ds", a_ds a); ("oe_en", a_oe_en a); ("oe_inv", a_oe_inv a); ("do_sel", a_do_sel a);
     ("do_inv", a_do_inv a); ("pu", a_pu a); ("pd", a_pd a); ("sl", a_sl a); ("ie_en", a_ie_en a); ("ie_inv", a_ie_inv a);
     ("di_inv", a_di_inv a); ("st", a_st a)].

Definition valid_function (function : Z) : bool := negb ((function <? 0) || (FUNC_MAX <=? function)).

Definition fpioa_set_function_raw (number function : Z) (f : fpioa_t) : Z * fpioa_t :=
  if negb (valid_io number && valid_function function) then (-1, f)
  else (0, set_io number (assign_word (row function)) f).

Definition FUNC_RESV0 : Z := FUNC "FUNC_RESV0".

(** The loop that takes the function away from the other pins. *)
Fixpoint release_loop (n : nat) (index number function : Z) (f : fpioa_t) : fpioa_t :=
  match n with
  | O => f
  | S n =>
      let f := if (ch_sel f index =? function) && negb (index =? number)
               then snd (fpioa_set_function_raw index FUNC_RESV0 f) else f in
      release_loop n (index + 1) number function f
  end.

Definition fpioa_set_function (number function : Z) (f : fpioa_t) : Z * fpioa_t :=
  if negb (valid_io number && valid_function function) then (-1, f)
  else if function =? FUNC_RESV0 then (0, snd (fpioa_set_function_raw number FUNC_RESV0 f))
  else
    let f := release_loop (Z.to_nat FPIOA_NUM_IO) 0 number function f in
    (0, snd (fpioa_set_function_raw number function f)).

Fixpoint find_io (n : nat) (index function : Z) (f : fpioa_t) : Z :=
  match n with
  | O => -1
  | S n => if ch_sel f index =? function then index else find_io n (index + 1) function f
  end.
Definition fpioa_get_io_by_function (function : Z) (f : fpioa_t) : Z := find_io (Z.to_nat FPIOA_NUM_IO) 0 function f.

Definition set_functions (l : list (Z * string)) (f : fpioa_t) : fpioa_t :=
  foldl (λ f w, snd (fpioa_set_function w.1 (FUNC w.2) f)) f l.
Definition sd_pins : list (Z * string) :=
  [(27, "FUNC_SPI0_SCLK"); (28, "FUNC_SPI0_D0"); (26, "FUNC_SPI0_D1"); (32, "FUNC_GPIOHS7"); (29, "FUNC_SPI0_SS3")].
Definition fpioa_pin_init (f : fpioa_t) : fpioa_t := set_functions sd_pins f.

(** * gpiohs.c *)

(** The registers that the driver uses. *)
Record gpiohs_t : Type := mkGpiohs { input_en : Z; output_en : Z; output_val : Z }.

Inductive gpio_drive_mode_t : Type :=
  | GPIO_DM_INPUT | GPIO_DM_INPUT_PULL_DOWN | GPIO_DM_INPUT_PULL_UP | GPIO_DM_OUTPUT.
Inductive gpio_pin_value_t : Type := GPIO_PV_LOW | GPIO_PV_HIGH.

Definition FUNC_GPIOHS0 : Z := FUNC "FUNC_GPIOHS0".

Definition gpiohs_set_drive_mode (pin : Z) (mode : gpio_drive_mode_t) (g : gpiohs_t) (f : fpioa_t) : gpiohs_t * fpioa_t :=
  let io_number := fpioa_get_io_by_function (FUNC_GPIOHS0 + pin) f in
  let '(pull, dir) := match mode with
                      | GPIO_DM_INPUT => (FPIOA_PULL_NONE, false)
                      | GPIO_DM_INPUT_PULL_DOWN => (FPIOA_PULL_DOWN, false)
                      | GPIO_DM_INPUT_PULL_UP => (FPIOA_PULL_UP, false)
                      | GPIO_DM_OUTPUT => (FPIOA_PULL_DOWN, true)
                      end in
  let (_, f) := fpioa_set_io_pull io_number pull f in
  let g := if dir then mkGpiohs (set_gpio_bit (input_en g) pin 0) (set_gpio_bit (output_en g) pin 1) (output_val g)
           else mkGpiohs (set_gpio_bit (input_en g) pin 1) (set_gpio_bit (output_en g) pin 0) (output_val g) in
  (g, f).

Definition pv_bit (value : gpio_pin_value_t) : Z := match value with GPIO_PV_LOW => 0 | GPIO_PV_HIGH => 1 end.
Definition gpiohs_set_pin (pin : Z) (value : gpio_pin_value_t) (g : gpiohs_t) : gpiohs_t :=
  mkGpiohs (input_en g) (output_en g) (set_gpio_bit (output_val g) pin (pv_bit value)).

(** * interface.c and the select pin of the card *)

Definition bsp_init (f : fpioa_t) : fpioa_t := fpioa_pin_init f.
Definition open_memory_lock (s : sysctl_t) : sysctl_t :=
  let (_, s) := sysctl_pll_enable SYSCTL_PLL1 s in snd (sysctl_clock_enable SYSCTL_CLOCK_PLL1 s).
Definition driver_init (qemu : bool) (f : fpioa_t) (s : sysctl_t) : fpioa_t * sysctl_t :=
  if qemu then (f, s) else (bsp_init f, open_memory_lock s).

Definition sd_lowlevel_init (g : gpiohs_t) (f : fpioa_t) : gpiohs_t * fpioa_t := gpiohs_set_drive_mode 7 GPIO_DM_OUTPUT g f.
Definition set_select (high : bool) (g : gpiohs_t) : gpiohs_t :=
  gpiohs_set_pin 7 (if high then GPIO_PV_HIGH else GPIO_PV_LOW) g.

(** * Bits of a word *)

(** [set_gpio_bit] changes one bit and keeps the word in 32 bits. *)
Lemma one_mask offset : 0 <= offset < 32 → u32 (Z.shiftl 1 offset) = 2 ^ offset.
Proof.
  intros. rewrite Z.shiftl_1_l. unfold u32. apply Z.mod_small.
  split; [lia|]. apply Z.pow_lt_mono_r; lia.
Qed.

Lemma not32_bit x i : 0 <= i < 32 → Z.testbit (not32 x) i = negb (Z.testbit x i).
Proof.
  intros. unfold not32, u32. rewrite Z.lxor_spec, Z.testbit_ones_nonneg by lia.
  rewrite Z.mod_pow2_bits_low by lia.
  destruct (Z.ltb_spec i 32); [|lia]. by destruct (Z.testbit x i).
Qed.

Lemma not32_high x i : 32 <= i → Z.testbit (not32 x) i = false.
Proof.
  intros. unfold not32, u32. rewrite Z.lxor_spec, Z.testbit_ones_nonneg by lia.
  rewrite Z.mod_pow2_bits_high by lia.
  by destruct (Z.ltb_spec i 32); [lia|].
Qed.

Definition word (x : Z) : Prop := 0 <= x < 2 ^ 32.

Lemma set_gpio_bit_bit bits offset (b : bool) i : word bits → 0 <= offset < 32 → 0 <= i →
  Z.testbit (set_gpio_bit bits offset (Z.b2z b)) i = if i =? offset then b else Z.testbit bits i.
Proof.
  intros [_ Hw]%word_bits Ho Hi. unfold set_gpio_bit, set_bit_offset, set_bit. rewrite one_mask by lia.
  rewrite Z.lor_spec, !Z.land_spec, Z.pow2_bits_eqb by lia. rewrite (Z.eqb_sym offset i).
  destruct (Z.eqb_spec i offset) as [->|Hne].
  - rewrite not32_bit, Z.pow2_bits_true by lia. unfold u32. rewrite Z.mod_pow2_bits_low, Z.shiftl_spec by lia.
    rewrite andb_false_r, andb_true_r, Z.sub_diag. by destruct b.
  - rewrite andb_false_r, orb_false_r. destruct (Z.le_gt_cases 32 i) as [Hb|Hb].
    + rewrite Hw by lia. done.
    + rewrite not32_bit, Z.pow2_bits_false by lia. apply andb_true_r.
Qed.

Lemma set_gpio_bit_word bits offset (b : bool) : word bits → 0 <= offset < 32 →
  word (set_gpio_bit bits offset (Z.b2z b)).
Proof.
  intros Hw Ho. apply word_bits. split.
  - unfold set_gpio_bit, set_bit_offset, set_bit. apply Z.lor_nonneg. split; apply Z.land_nonneg.
    + left. apply Hw.
    + right. rewrite one_mask by lia. lia.
  - intros i Hi. rewrite set_gpio_bit_bit by (done || lia). apply word_bits in Hw as [_ Hw].
    destruct (Z.eqb_spec i offset); [lia|auto].
Qed.

(** * The multiplexer *)

Lemma io_fits : bf_fits fpioa_io_config_t.
Proof. split; [by repeat constructor|reflexivity]. Qed.

(** The word of a row selects the function of the row, and is a word. *)
Lemma rows_checked :
  forallb (λ i, (bf_get fpioa_io_config_t "ch_sel" (assign_word (row i)) =? i) &&
                (0 <=? assign_word (row i)) && (assign_word (row i) <? 2 ^ 32)) (seqZ 0 FUNC_MAX) = true.
Proof. vm_compute. reflexivity. Qed.

Lemma valid_function_range function : valid_function function = true ↔ 0 <= function < FUNC_MAX.
Proof. unfold valid_function. destruct (Z.ltb_spec function 0), (Z.leb_spec FUNC_MAX function); cbn; split; done || lia. Qed.

Lemma valid_io_range number : valid_io number = true ↔ 0 <= number < FPIOA_NUM_IO.
Proof. unfold valid_io. destruct (Z.ltb_spec number 0), (Z.leb_spec FPIOA_NUM_IO number); cbn; split; done || lia. Qed.

Lemma resv0_valid : valid_function FUNC_RESV0 = true.
Proof. vm_compute. reflexivity. Qed.

Lemma row_checked i : valid_function i = true →
  bf_get fpioa_io_config_t "ch_sel" (assign_word (row i)) = i ∧ word (assign_word (row i)).
Proof.
  intros Hi%valid_function_range. pose proof rows_checked as H. rewrite forallb_forall in H.
  specialize (H i). rewrite <-list_elem_of_In, elem_of_seqZ in H.
  specialize (H ltac:(lia)). rewrite !andb_true_iff in H. unfold word. lia.
Qed.

#[local] Opaque assign_word row FUNC_RESV0 FUNC_GPIOHS0.

(** The registers: 48 pin words. *)
Definition pins_wf (f : fpioa_t) : Prop := zlen (io f) = FPIOA_NUM_IO ∧ Forall word (io f).
Definition gpio_wf (g : gpiohs_t) : Prop := word (input_en g) ∧ word (output_en g) ∧ word (output_val g).

Lemma set_io_wf number x f : word x → pins_wf f → pins_wf (set_io number x f).
Proof.
  intros Hx [Hl Hf]. unfold pins_wf, set_io, zlen in *. cbn [io]. rewrite zset_length. split; [done|].
  unfold zset. by apply Forall_insert.
Qed.

Lemma set_io_eq number x f : zlen (io f) = FPIOA_NUM_IO → valid_io number = true → zget (io (set_io number x f)) number = x.
Proof. intros Hl Hv%valid_io_range. apply zget_zset_eq. lia. Qed.

Lemma set_io_ne number x f i : 0 <= number → 0 <= i → i ≠ number → zget (io (set_io number x f)) i = zget (io f) i.
Proof. intros. apply zget_zset_ne; lia. Qed.

Lemma zget_word f i : pins_wf f → word (zget (io f) i).
Proof.
  intros [_ Hf]. unfold zget. destruct (io f !! Z.to_nat i) as [x|] eqn:E; cbn [negb snd]; [|done].
  rewrite Forall_lookup in Hf. eauto.
Qed.

Lemma raw_wf number function f : pins_wf f → pins_wf (snd (fpioa_set_function_raw number function f)).
Proof.
  intros Hf. unfold fpioa_set_function_raw. destruct (valid_io number && valid_function function) eqn:E; cbn [negb snd]; [|done].
  apply andb_true_iff in E as [_ Hv]. apply set_io_wf; [exact (proj2 (row_checked _ Hv))|done].
Qed.

Lemma raw_get number function f i : zlen (io f) = FPIOA_NUM_IO → valid_io number = true → valid_function function = true →
  0 <= i → zget (io (snd (fpioa_set_function_raw number function f))) i =
           if i =? number then assign_word (row function) else zget (io f) i.
Proof.
  intros Hl Hn Hfn Hi. unfold fpioa_set_function_raw. rewrite Hn, Hfn. cbn [negb andb snd].
  destruct (Z.eqb_spec i number) as [->|]; [by apply set_io_eq|].
  apply valid_io_range in Hn. apply set_io_ne; lia.
Qed.

Lemma raw_length number function f : zlen (io (snd (fpioa_set_function_raw number function f))) = zlen (io f).
Proof.
  unfold fpioa_set_function_raw. destruct (valid_io number && valid_function function); cbn [negb snd]; [|done].
  unfold set_io, zlen. cbn [io]. by rewrite zset_length.
Qed.

(** The loop gives the reserved function to the pins it passes that carry
    the function. *)
Lemma release_loop_spec number function n : ∀ index f, zlen (io f) = FPIOA_NUM_IO → 0 <= index →
  index + Z.of_nat n <= FPIOA_NUM_IO →
  zlen (io (release_loop n index number function f)) = FPIOA_NUM_IO ∧
  ∀ i, 0 <= i < FPIOA_NUM_IO → zget (io (release_loop n index number function f)) i =
    if (index <=? i) && (i <? index + Z.of_nat n) && (ch_sel f i =? function) && negb (i =? number)
    then assign_word (row FUNC_RESV0) else zget (io f) i.
Proof.
  induction n as [|n IH]; intros index f Hl Hi Hn; cbn [release_loop].
  { split; [done|]. intros i Hr. destruct (Z.leb_spec index i), (Z.ltb_spec i (index + Z.of_nat 0)); done || lia. }
  set (f1 := if (ch_sel f index =? function) && negb (index =? number) then _ else f).
  assert (Hv : valid_io index = true) by (apply valid_io_range; lia).
  assert (G : zlen (io f1) = FPIOA_NUM_IO ∧ ∀ i, 0 <= i → zget (io f1) i =
    if (i =? index) && (ch_sel f index =? function) && negb (index =? number)
    then assign_word (row FUNC_RESV0) else zget (io f) i).
  { unfold f1. destruct ((ch_sel f index =? function) && negb (index =? number)) eqn:E.
    - split; [by rewrite raw_length|]. intros i Hr. rewrite raw_get, <-andb_assoc, E by (done || apply resv0_valid).
      by rewrite andb_true_r.
    - split; [done|]. intros i Hr. by rewrite <-andb_assoc, E, andb_false_r. }
  clearbody f1. destruct G as [Hl1 G1]. destruct (IH (index + 1) f1 Hl1 ltac:(lia) ltac:(lia)) as [Hl2 G2].
  split; [done|]. intros i Hr. rewrite G2 by lia. unfold ch_sel. rewrite !G1 by lia.
  destruct (Z.eqb_spec i index) as [->|Hne].
  - destruct (Z.leb_spec (index + 1) index), (Z.leb_spec index index), (Z.ltb_spec index (index + Z.of_nat (S n))); try lia.
    cbn [andb]. reflexivity.
  - destruct (Z.leb_spec (index + 1) i), (Z.leb_spec index i), (Z.ltb_spec i (index + 1 + Z.of_nat n)),
      (Z.ltb_spec i (index + Z.of_nat (S n))); try lia; reflexivity.
Qed.

(** Taking a function away and giving it to a pin: the pin gets the row of
    the function, the pins that carried it the reserved one, the others keep
    their words. *)
Lemma set_function_spec number function f : zlen (io f) = FPIOA_NUM_IO →
  valid_io number = true → valid_function function = true →
  zlen (io (snd (fpioa_set_function number function f))) = FPIOA_NUM_IO ∧
  ∀ i, 0 <= i < FPIOA_NUM_IO → zget (io (snd (fpioa_set_function number function f))) i =
    if i =? number then assign_word (row function)
    else if (ch_sel f i =? function) && negb (function =? FUNC_RESV0) then assign_word (row FUNC_RESV0)
    else zget (io f) i.
Proof.
  intros Hl Hn Hfn. unfold fpioa_set_function. rewrite Hn, Hfn. cbn [negb andb].
  destruct (Z.eqb_spec function FUNC_RESV0) as [->|Hne]; cbn [snd negb].
  { split; [by rewrite raw_length|]. intros i Hi. rewrite raw_get by (done || lia). by rewrite andb_false_r. }
  destruct (release_loop_spec number function (Z.to_nat FPIOA_NUM_IO) 0 f Hl) as [Hl1 G]; [done|done|].
  set (f1 := release_loop _ _ _ _ f) in *. clearbody f1. split; [by rewrite raw_length|].
  intros i Hi. rewrite raw_get, G by (done || lia). rewrite andb_true_r.
  destruct (Z.eqb_spec i number); [done|].
  destruct (Z.leb_spec 0 i), (Z.ltb_spec i (0 + Z.of_nat (Z.to_nat FPIOA_NUM_IO))); try (unfold FPIOA_NUM_IO in *; lia).
  by rewrite andb_true_r.
Qed.

Lemma release_loop_wf number function n : ∀ index f, pins_wf f → pins_wf (release_loop n index number function f).
Proof.
  induction n as [|n IH]; intros index f Hf; cbn [release_loop]; [done|].
  apply IH. destruct ((ch_sel f index =? function) && negb (index =? number)); [by apply raw_wf|done].
Qed.

Lemma set_function_wf number function f : pins_wf f → pins_wf (snd (fpioa_set_function number function f)).
Proof.
  intros Hf. unfold fpioa_set_function. destruct (valid_io number && valid_function function); cbn [negb snd]; [|done].
  destruct (function =? FUNC_RESV0); cbn [snd]; [by apply raw_wf|]. by apply raw_wf, release_loop_wf.
Qed.

Lemma set_io_pull_wf number pull f : pins_wf f → pins_wf (snd (fpioa_set_io_pull number pull f)).
Proof.
  intros Hf. unfold fpioa_set_io_pull. destruct (valid_io number); cbn [negb snd]; [|done].
  pose proof (zget_word f number Hf) as Hw.
  destruct pull; cbn [snd]; try done; apply set_io_wf, Hf || idtac; repeat apply bf_set_word; auto using io_fits.
Qed.

Lemma set_function_ch number function f i : zlen (io f) = FPIOA_NUM_IO →
  valid_io number = true → valid_function function = true → 0 <= i < FPIOA_NUM_IO →
  ch_sel (snd (fpioa_set_function number function f)) i =
    if i =? number then function
    else if ch_sel f i =? function then FUNC_RESV0 else ch_sel f i.
Proof.
  intros Hl Hn Hfn Hi. destruct (set_function_spec number function f Hl Hn Hfn) as [_ G].
  unfold ch_sel at 1. rewrite G by done. destruct (Z.eqb_spec i number); [by apply row_checked|].
  destruct (Z.eqb_spec (ch_sel f i) function) as [<-|]; cbn [andb]; [|done].
  destruct (Z.eqb_spec (ch_sel f i) FUNC_RESV0) as [E|]; cbn [negb]; [done|].
  apply row_checked, resv0_valid.
Qed.

(** The search finds the only pin that carries the function. *)
Lemma find_io_spec function number f : (∀ i, 0 <= i < FPIOA_NUM_IO → ch_sel f i = function ↔ i = number) →
  ∀ n index, 0 <= index <= number → number < index + Z.of_nat n <= FPIOA_NUM_IO →
  find_io n index function f = number.
Proof.
  intros Hf. induction n as [|n IH]; intros index Hi Hn; [lia|]. cbn [find_io].
  specialize (Hf index ltac:(lia)). destruct (Z.eqb_spec (ch_sel f index) function) as [E|E].
  - by apply Hf.
  - apply IH; [|lia]. assert (index ≠ number) by (intros Hc; by apply E, Hf). lia.
Qed.

(** [function] is carried by pin [number] alone. *)
Definition carries (f : fpioa_t) (function number : Z) : Prop :=
  ∀ i, 0 <= i < FPIOA_NUM_IO → ch_sel f i = function ↔ i = number.

Lemma get_io_of function number f : carries f function number → 0 <= number < FPIOA_NUM_IO →
  fpioa_get_io_by_function function f = number.
Proof.
  intros Hc Hn. apply find_io_spec; [done|lia|]. unfold FPIOA_NUM_IO in *. lia.
Qed.

Lemma set_function_carries number function f : zlen (io f) = FPIOA_NUM_IO →
  valid_io number = true → valid_function function = true → function ≠ FUNC_RESV0 →
  carries (snd (fpioa_set_function number function f)) function number.
Proof.
  intros Hl Hn Hfn Hne i Hi. rewrite set_function_ch by done.
  destruct (Z.eqb_spec i number); [tauto|]. destruct (Z.eqb_spec (ch_sel f i) function); split; congruence.
Qed.

(** Giving a pin a function keeps the places of the other functions that
    the pin does not carry. *)
Lemma set_function_keeps number function f function' number' : zlen (io f) = FPIOA_NUM_IO →
  valid_io number = true → valid_function function = true → function' ≠ FUNC_RESV0 → function' ≠ function →
  number' ≠ number → carries f function' number' →
  carries (snd (fpioa_set_function number function f)) function' number'.
Proof.
  intros Hl Hn Hfn H1 H2 H3 Hc i Hi. rewrite set_function_ch by done. specialize (Hc i Hi).
  destruct (Z.eqb_spec i number); [split; congruence|].
  destruct (Z.eqb_spec (ch_sel f i) function); [|done]. rewrite <-Hc. split; congruence.
Qed.

Lemma set_functions_snoc l w f :
  set_functions (l ++ [w]) f = snd (fpioa_set_function w.1 (FUNC w.2) (set_functions l f)).
Proof. unfold set_functions. by rewrite foldl_app. Qed.

Lemma set_functions_wf l f : pins_wf f → pins_wf (set_functions l f).
Proof.
  intros Hf. induction l as [|w l IH] using rev_ind; [done|].
  rewrite set_functions_snoc. by apply set_function_wf.
Qed.

(** Pins that are given different functions in turn all carry them. *)
Lemma set_functions_carry l f : pins_wf f → NoDup l.*1 → NoDup ((FUNC ∘ snd) <$> l) →
  Forall (λ w, valid_io w.1 = true ∧ valid_function (FUNC w.2) = true ∧ FUNC w.2 ≠ FUNC_RESV0) l →
  Forall (λ w, carries (set_functions l f) (FUNC w.2) w.1) l.
Proof.
  intros Hf. induction l as [|w l IH] using rev_ind; [done|].
  rewrite !fmap_app, !NoDup_app, !Forall_app, set_functions_snoc. cbn [fmap list_fmap].
  intros (D1 & D2 & _) (E1 & E2 & _) (V & W). specialize (IH D1 E1 V).
  apply Forall_singleton in W as (W1 & W2 & W3). pose proof (set_functions_wf l f Hf) as [Hl _].
  rewrite Forall_singleton. split; [|by apply set_function_carries].
  rewrite Forall_forall in IH, V |- *. intros w' Hw. specialize (IH w' Hw). specialize (V w' Hw) as (_ & _ & Hr).
  apply set_function_keeps; try done.
  - intros Hc. apply (E2 (FUNC w'.2)); [by apply list_elem_of_fmap; exists w'|]. rewrite Hc. by left.
  - intros Hc. apply (D2 w'.1); [by apply list_elem_of_fmap; exists w'|]. rewrite Hc. by left.
Qed.

Lemma sd_pins_valid :
  NoDup sd_pins.*1 ∧ NoDup ((FUNC ∘ snd) <$> sd_pins) ∧
  Forall (λ w, valid_io w.1 = true ∧ valid_function (FUNC w.2) = true ∧ FUNC w.2 ≠ FUNC_RESV0) sd_pins.
Proof.
  split; [|split].
  - apply (bool_decide_unpack _). vm_compute. exact I.
  - apply (bool_decide_unpack _). vm_compute. exact I.
  - repeat constructor; by vm_compute.
Qed.

(** The pull resistors do not change the function of a pin. *)
Lemma set_io_pull_ch number pull f i : zlen (io f) = FPIOA_NUM_IO → 0 <= i →
  ch_sel (snd (fpioa_set_io_pull number pull f)) i = ch_sel f i.
Proof.
  intros Hl Hi. unfold fpioa_set_io_pull. destruct (valid_io number) eqn:Hv; cbn [negb snd]; [|done].
  destruct pull; cbn [snd]; try done; unfold ch_sel;
    (destruct (Z.eq_dec i number) as [->|];
      [rewrite set_io_eq by done; by rewrite !(bf_get_set_ne _ io_fits) by done
      |apply valid_io_range in Hv; by rewrite set_io_ne by lia]).
Qed.

Lemma set_io_pull_down number f : zlen (io f) = FPIOA_NUM_IO → valid_io number = true →
  let f' := snd (fpioa_set_io_pull number FPIOA_PULL_DOWN f) in
  bf_get fpioa_io_config_t "pd" (zget (io f') number) = 1 ∧ bf_get fpioa_io_config_t "pu" (zget (io f') number) = 0.
Proof.
  intros Hl Hv. unfold fpioa_set_io_pull. rewrite Hv. cbn [negb snd]. rewrite set_io_eq by done. split.
  - by rewrite (bf_get_set_eq _ io_fits "pd" 1 _ _ 17).
  - rewrite (bf_get_set_ne _ io_fits) by done. by rewrite (bf_get_set_eq _ io_fits "pu" 1 _ _ 16).
Qed.

Lemma carries_pull number pull f function n : zlen (io f) = FPIOA_NUM_IO → carries f function n →
  carries (snd (fpioa_set_io_pull number pull f)) function n.
Proof. intros Hl Hc i Hi. rewrite set_io_pull_ch by (done || lia). auto. Qed.

Lemma drive_mode_pins pin mode g f : ∃ number pull,
  snd (gpiohs_set_drive_mode pin mode g f) = snd (fpioa_set_io_pull number pull f).
Proof.
  unfold gpiohs_set_drive_mode. set (number := fpioa_get_io_by_function _ _). exists number.
  destruct mode; eexists;
    match goal with |- snd (let (_, _) := fpioa_set_io_pull number ?p f in _) = _ =>
      instantiate (1 := p); by destruct (fpioa_set_io_pull number p f) end.
Qed.

Lemma drive_mode_gpio pin mode g f : ∃ dir : bool,
  fst (gpiohs_set_drive_mode pin mode g f) =
  mkGpiohs (set_gpio_bit (input_en g) pin (Z.b2z (negb dir))) (set_gpio_bit (output_en g) pin (Z.b2z dir)) (output_val g).
Proof.
  exists (match mode with GPIO_DM_OUTPUT => true | _ => false end). unfold gpiohs_set_drive_mode.
  destruct mode; by destruct (fpioa_set_io_pull _ _ f).
Qed.

(** * Histories of the pins *)

(** A call of a public operation of the two drivers that changes registers. *)
Inductive pin_op : Type :=
  | op_init (s : sysctl_t)
  | op_function (number function : Z)
  | op_raw (number function : Z)
  | op_pull (number : Z) (pull : fpioa_pull_t)
  | op_drive (pin : Z) (mode : gpio_drive_mode_t)
  | op_pin (pin : Z) (value : gpio_pin_value_t).

Definition pin_step (st : fpioa_t * gpiohs_t) (op : pin_op) : fpioa_t * gpiohs_t :=
  let (f, g) := st in
  match op with
  | op_init s => ((fpioa_init f s).1.2, g)
  | op_function number function => (snd (fpioa_set_function number function f), g)
  | op_raw number function => (snd (fpioa_set_function_raw number function f), g)
  | op_pull number pull => (snd (fpioa_set_io_pull number pull f), g)
  | op_drive pin mode => (snd (gpiohs_set_drive_mode pin mode g f), fst (gpiohs_set_drive_mode pin mode g f))
  | op_pin pin value => (f, gpiohs_set_pin pin value g)
  end.

Definition pin_history (ops : list pin_op) (st : fpioa_t * gpiohs_t) : fpioa_t * gpiohs_t := foldl pin_step st ops.

(** The high-speed GPIO has 32 lines; for a larger [uint8] the driver shifts
    by more than the width of the word, which C leaves undefined (the
    assertions [pin < GPIOHS_MAX_PINNO] of the source are commented out). *)
Definition line_ok (op : pin_op) : Prop :=
  match op with op_drive pin _ | op_pin pin _ => 0 <= pin < 32 | _ => True end.

(** At most one pin carries the function. *)
Definition sole (function : Z) (f : fpioa_t) : Prop :=
  ∀ i j, 0 <= i < FPIOA_NUM_IO → 0 <= j < FPIOA_NUM_IO → ch_sel f i = function → ch_sel f j = function → i = j.

Definition pins_inv (st : fpioa_t * gpiohs_t) : Prop := pins_wf st.1 ∧ gpio_wf st.2.

Lemma pv_bit_b2z value : pv_bit value = Z.b2z (match value with GPIO_PV_HIGH => true | GPIO_PV_LOW => false end).
Proof. by destruct value. Qed.

Lemma pin_step_inv st op : line_ok op → pins_inv st → pins_inv (pin_step st op).
Proof.
  destruct st as [f g]. intros Hp [Hf Hg]. cbn [fst snd] in Hf, Hg. destruct op as [s|n fn|n fn|n pull|pin mode|pin value].
  - done.
  - split; [by apply set_function_wf|done].
  - split; [by apply raw_wf|done].
  - split; [by apply set_io_pull_wf|done].
  - split; cbn [pin_step fst snd].
    + destruct (drive_mode_pins pin mode g f) as (number & pull & ->). by apply set_io_pull_wf.
    + destruct (drive_mode_gpio pin mode g f) as [dir ->]. destruct Hg as (H1 & H2 & H3).
      split_and!; cbn; auto using set_gpio_bit_word.
  - split; [done|]. destruct Hg as (H1 & H2 & H3). cbn [pin_step snd]. unfold gpiohs_set_pin. rewrite pv_bit_b2z.
    split_and!; cbn; auto using set_gpio_bit_word.
Qed.

Lemma sole_pull function number pull f : zlen (io f) = FPIOA_NUM_IO → sole function f →
  sole function (snd (fpioa_set_io_pull number pull f)).
Proof. intros Hl Hs i j Hi Hj. rewrite !set_io_pull_ch by (done || lia). eauto. Qed.

Lemma carries_sole function number f : carries f function number → sole function f.
Proof. intros Hc i j Hi Hj E1 E2. apply Hc in E1, E2; congruence. Qed.

Lemma raw_ch number function f i : zlen (io f) = FPIOA_NUM_IO → valid_io number = true → valid_function function = true →
  0 <= i < FPIOA_NUM_IO →
  ch_sel (snd (fpioa_set_function_raw number function f)) i = if i =? number then function else ch_sel f i.
Proof.
  intros Hl Hn Hfn Hi. unfold ch_sel. rewrite raw_get by (done || lia). destruct (_ =? _); [by apply row_checked|done].
Qed.

Lemma sole_raw function number function' f : zlen (io f) = FPIOA_NUM_IO → function' ≠ function → sole function f →
  sole function (snd (fpioa_set_function_raw number function' f)).
Proof.
  intros Hl Hne Hs. destruct (valid_io number && valid_function function') eqn:E.
  2:{ unfold fpioa_set_function_raw. by rewrite E. }
  apply andb_true_iff in E as [Hn Hfn]. intros i j Hi Hj. rewrite !raw_ch by done.
  destruct (Z.eqb_spec i number), (Z.eqb_spec j number); intros; try congruence. by apply Hs.
Qed.

Lemma sole_function function number function' f : zlen (io f) = FPIOA_NUM_IO → function ≠ FUNC_RESV0 → sole function f →
  sole function (snd (fpioa_set_function number function' f)).
Proof.
  intros Hl Hne Hs. destruct (valid_io number && valid_function function') eqn:E.
  2:{ unfold fpioa_set_function. by rewrite E. }
  apply andb_true_iff in E as [Hn Hfn].
  destruct (Z.eq_dec function' function) as [->|Hf]; [by eapply carries_sole, set_function_carries|].
  intros i j Hi Hj. rewrite !set_function_ch by done.
  destruct (Z.eqb_spec i number), (Z.eqb_spec j number), (Z.eqb_spec (ch_sel f i) function'),
    (Z.eqb_spec (ch_sel f j) function'); intros; try congruence; by apply Hs.
Qed.

Lemma pin_step_sole function st op : zlen (io st.1) = FPIOA_NUM_IO → function ≠ FUNC_RESV0 →
  (∀ number, op ≠ op_raw number function) → sole function st.1 → sole function (pin_step st op).1.
Proof.
  destruct st as [f g]. cbn [fst]. intros Hl Hne Hr Hs. destruct op as [s|n fn|n fn|n pull|pin mode|pin value]; cbn [pin_step fst].
  - done.
  - by apply sole_function.
  - apply sole_raw; [done| |done]. intros ->. by eapply Hr.
  - by apply sole_pull.
  - destruct (drive_mode_pins pin mode g f) as (number & pull & ->). by apply sole_pull.
  - done.
Qed.

(** C32: every sequence of calls of the pin drivers (the initialisation,
    [fpioa_set_function], [fpioa_set_function_raw], [fpioa_set_io_pull] with
    any numbers, and the two operations of the high-speed GPIO on one of its
    32 lines) keeps the type of the registers: 48 words of 32 bits for the
    pins and 32-bit words for the GPIO.  And a function other than the
    reserved one that [fpioa_set_function] gave to some pin in the sequence,
    or that at most one pin carried before it, is carried by at most one pin
    after it, unless [fpioa_set_function_raw] was called with it. *)
Theorem pins_keep_type ops st : Forall line_ok ops → pins_inv st →
  pins_inv (pin_history ops st) ∧
  ∀ function, function ≠ FUNC_RESV0 → valid_function function = true → (∀ number, op_raw number function ∉ ops) →
    sole function st.1 ∨ (∃ number, valid_io number = true ∧ op_function number function ∈ ops) →
    sole function (pin_history ops st).1.
Proof.
  revert st. induction ops as [|op ops IH]; intros st Ho Hi.
  { split; [done|]. intros fn _ _ _ [H|(n & _ & H)]; [done|by apply not_elem_of_nil in H]. }
  inversion_clear Ho as [|? ? H1 H2]. destruct (IH (pin_step st op) H2 (pin_step_inv _ _ H1 Hi)) as [Hw Hx].
  split; [done|]. intros fn Hne Hv Hr Hs. apply Hx; [done|done| |].
  { intros n Hn. apply (Hr n). by right. }
  pose proof (proj1 (proj1 Hi)) as Hl. destruct Hs as [Hs|(n & Hn & [<-|Hin]%elem_of_cons)].
  - left. apply pin_step_sole; try done. intros n ->. apply (Hr n). by left.
  - left. destruct st as [f g]. by eapply carries_sole, set_function_carries.
  - right. eauto.
Qed.

(** [fpioa_set_function_raw] does put one function on two pins. *)
Lemma raw_shares function f : zlen (io f) = FPIOA_NUM_IO → valid_function function = true → ch_sel f 0 = function →
  ¬ sole function (snd (fpioa_set_function_raw 1 function f)).
Proof.
  intros Hl Hv H0 Hs. specialize (Hs 0 1 ltac:(done) ltac:(done)). rewrite !raw_ch in Hs by done.
  cbn in Hs. specialize (Hs H0 eq_refl). done.
Qed.

(** C31: the initialisation of the board and of the card drives the card's
    select pin.  Whatever the registers held before, each of the five
    functions of the SD interface is afterwards carried by exactly its pin
    (the driver finds it there), pin 32 is pulled down, line 7 of the GPIO is
    an output and not an input, its level is the one [SD_CS_HIGH] or
    [SD_CS_LOW] asked for, and no other line changes. *)
Theorem board_drives_select f s g b : pins_wf f → gpio_wf g →
  let f1 := fst (driver_init false f s) in
  let '(g2, f2) := sd_lowlevel_init g f1 in
  let g3 := set_select b g2 in
  Forall (λ w, carries f2 (FUNC w.2) w.1 ∧ fpioa_get_io_by_function (FUNC w.2) f2 = w.1) sd_pins ∧
  bf_get fpioa_io_config_t "pd" (zget (io f2) 32) = 1 ∧ bf_get fpioa_io_config_t "pu" (zget (io f2) 32) = 0 ∧
  ∀ i, 0 <= i →
    Z.testbit (output_val g3) i = (if i =? 7 then b else Z.testbit (output_val g) i) ∧
    Z.testbit (output_en g3) i = (if i =? 7 then true else Z.testbit (output_en g) i) ∧
    Z.testbit (input_en g3) i = (if i =? 7 then false else Z.testbit (input_en g) i).
Proof.
  intros Hf (G1 & G2 & G3). destruct sd_pins_valid as (V1 & V2 & V3). cbn [driver_init fst].
  change (bsp_init f) with (set_functions sd_pins f). pose proof (set_functions_carry sd_pins f Hf V1 V2 V3) as Hc.
  destruct (set_functions_wf sd_pins f Hf) as [Hl _]. set (f1 := set_functions sd_pins f) in *. clearbody f1.
  assert (H7 : fpioa_get_io_by_function (FUNC_GPIOHS0 + 7) f1 = 32).
  { apply get_io_of; [|done]. change (FUNC_GPIOHS0 + 7) with (FUNC "FUNC_GPIOHS7").
    rewrite Forall_forall in Hc. apply (Hc (32, "FUNC_GPIOHS7")). by do 3 right; left. }
  unfold sd_lowlevel_init, gpiohs_set_drive_mode. rewrite H7.
  destruct (set_io_pull_down 32 f1 Hl eq_refl) as [P1 P2].
  assert (Hc2 : Forall (λ w, carries (snd (fpioa_set_io_pull 32 FPIOA_PULL_DOWN f1)) (FUNC w.2) w.1) sd_pins).
  { eapply Forall_impl; [exact Hc|]. cbn beta. intros w Hw. by apply carries_pull. }
  destruct (fpioa_set_io_pull 32 FPIOA_PULL_DOWN f1) as [r f2]. cbn [snd] in *.
  split; [|split_and!; [done|done|]].
  - eapply Forall_impl; [apply Forall_and; exact (conj Hc2 V3)|].
    cbn beta. intros w [Hw [Hv%valid_io_range _]]. split; [done|by apply get_io_of].
  - intros i Hi. unfold set_select, gpiohs_set_pin. cbn [input_en output_en output_val].
    rewrite pv_bit_b2z. change 1 with (Z.b2z true) at 1. change 0 with (Z.b2z false).
    split_and!; rewrite set_gpio_bit_bit by (done || lia); by destruct b.
Qed.

(** A board whose pins carry the reserved function. *)
Definition idle_pins : fpioa_t := mkFpioa (replicate 48 (assign_word (row FUNC_RESV0))) [] [].
Definition idle_gpio : gpiohs_t := mkGpiohs 0 0 0.

Lemma idle_pins_wf : pins_wf idle_pins.
Proof. split; [done|]. apply Forall_replicate. exact (proj2 (row_checked _ resv0_valid)). Qed.

Lemma idle_pins_ch i : 0 <= i < FPIOA_NUM_IO → ch_sel idle_pins i = FUNC_RESV0.
Proof.
  intros Hi. unfold ch_sel, zget, idle_pins. cbn [io]. unfold FPIOA_NUM_IO in Hi. rewrite lookup_replicate_2 by lia.
  exact (proj1 (row_checked _ resv0_valid)).
Qed.

Lemma idle_gpio_wf : gpio_wf idle_gpio.
Proof. by split_and!; vm_compute. Qed.

(** GPIO line 7 is given to pin 32, another function to pin 5, and the mode of
    the line is set. *)
Lemma pins_keep_type_witness :
  let st := pin_history [op_function 32 31; op_raw 5 4; op_drive 7 GPIO_DM_OUTPUT] (idle_pins, idle_gpio) in
  pins_inv st ∧ sole 31 st.1.
Proof.
  destruct (pins_keep_type [op_function 32 31; op_raw 5 4; op_drive 7 GPIO_DM_OUTPUT] (idle_pins, idle_gpio)) as [H1 H2].
  - repeat constructor; discriminate.
  - split; [apply idle_pins_wf|apply idle_gpio_wf].
  - split; [exact H1|]. apply H2.
    + vm_compute. discriminate.
    + reflexivity.
    + intros n H. repeat (apply elem_of_cons in H as [H|H]; [discriminate H|]). by apply not_elem_of_nil in H.
    + right. exists 32. split; [reflexivity|left].
Defined.

Lemma board_drives_select_witness :
  let f1 := fst (driver_init false idle_pins (λ _, 0)) in
  let '(g2, f2) := sd_lowlevel_init idle_gpio f1 in
  let g3 := set_select true g2 in
  Forall (λ w, carries f2 (FUNC w.2) w.1 ∧ fpioa_get_io_by_function (FUNC w.2) f2 = w.1) sd_pins ∧
  bf_get fpioa_io_config_t "pd" (zget (io f2) 32) = 1 ∧ bf_get fpioa_io_config_t "pu" (zget (io f2) 32) = 0 ∧
  ∀ i, 0 <= i →
    Z.testbit (output_val g3) i = (if i =? 7 then true else Z.testbit (output_val idle_gpio) i) ∧
    Z.testbit (output_en g3) i = (if i =? 7 then true else Z.testbit (output_en idle_gpio) i) ∧
    Z.testbit (input_en g3) i = (if i =? 7 then false else Z.testbit (input_en idle_gpio) i).
Proof. exact (board_drives_select idle_pins (λ _, 0) idle_gpio true idle_pins_wf idle_gpio_wf). Defined.
