(* ===== verification/Rtc.v ===== *)
(** The real-time clock of the K210 (driver/rtc/rtc.c, rtc.h).

    The clock is a block of registers with the layouts of rtc.h, kept as the
    last words written: the model has no ticks of the device, so a theorem
    about reading the time speaks of the moment after it was set.  Every
    change of mode waits on the cycle counter of [Sysctl].  Local structures
    that C leaves uninitialised start from arbitrary words, the arguments
    [g ...] of the definitions.  Results are in [outcome]: reading the table
    of days outside its bounds is [Wild], a waiting loop that does not end
    [Loop]. *)
From Stdlib Require Import ZArith Lia String.
From stdpp Require Import base list numbers option strings.
From S2P Require Import Prelude KBase BitField Sysctl.

Local Open Scope string_scope.
Local Open Scope Z_scope.
Local Open Scope out_scope.

(** * Registers of rtc.h *)

Inductive rtc_timer_mode_t : Type := RTC_TIMER_PAUSE | RTC_TIMER_RUNNING | RTC_TIMER_SETTING | RTC_TIMER_MAX.
#[global] Instance rtc_timer_mode_eq_dec : EqDecision rtc_timer_mode_t.
Proof. solve_decision. Defined.

Definition rtc_mask_t : bitfields :=
  [("resv", 1); ("second", 1); ("minute", 1); ("hour", 1); ("week", 1); ("day", 1); ("month", 1);
   ("year", 1)].
Definition rtc_date_t : bitfields :=
  [("week", 3); ("resv0", 5); ("day", 5); ("resv1", 3); ("month", 4); ("year", 12)].
Definition rtc_time_t : bitfields :=
  [("resv0", 10); ("second", 6); ("minute", 6); ("resv1", 2); ("hour", 5); ("resv2", 3)].
Definition rtc_alarm_date_t : bitfields :=
  [("week", 3); ("resv0", 5); ("day", 5); ("resv1", 3); ("month", 4); ("year", 12)].
Definition rtc_alarm_time_t : bitfields :=
  [("resv0", 10); ("second", 6); ("minute", 6); ("resv1", 2); ("hour", 5); ("resv2", 3)].
Definition rtc_initial_count_t : bitfields :=
  [("count", 32)].
Definition rtc_current_count_t : bitfields :=
  [("count", 32)].
Definition rtc_interrupt_ctrl_t : bitfields :=
  [("tick_enable", 1); ("alarm_enable", 1); ("tick_int_mode", 2); ("resv", 20);
   ("alarm_compare_mask", 8)].
Definition rtc_register_ctrl_t : bitfields :=
  [("read_enable", 1); ("write_enable", 1); ("resv0", 11); ("timer_mask", 8); ("alarm_mask", 8);
   ("initial_count_mask", 1); ("interrupt_register_mask", 1); ("resv1", 1)].
Definition rtc_reserved0_t : bitfields :=
  [("resv", 32)].
Definition rtc_reserved1_t : bitfields :=
  [("resv", 32)].
Definition rtc_extended_t : bitfields :=
  [("century", 5); ("leap_year", 1); ("resv", 26)].

Inductive rtc_reg : Type :=
  | r_date | r_time | r_alarm_date | r_alarm_time | r_initial_count | r_current_count
  | r_interrupt_ctrl | r_register_ctrl | r_reserved0 | r_reserved1 | r_extended.
#[global] Instance rtc_reg_eq_dec : EqDecision rtc_reg.
Proof. solve_decision. Defined.

Definition rtc_t : Type := rtc_reg → Z.
Definition set_rtc (r : rtc_reg) (x : Z) (d : rtc_t) : rtc_t := λ r', if decide (r = r') then x else d r'.

(** The broken-down time of posix_structs.h. *)
Record tm : Type := mkTm {
  tm_sec : Z; tm_min : Z; tm_hour : Z; tm_mday : Z; tm_mon : Z; tm_year : Z;
  tm_wday : Z; tm_yday : Z; tm_isdst : Z;
}.

(** * Calendar arithmetic of the driver *)

Definition rtc_in_range (value min max : Z) : bool := (min <=? value) && (value <=? max).

Definition rtc_year_is_leap (year : Z) : bool :=
  ((Z.rem year 4 =? 0) && negb (Z.rem year 100 =? 0)) || (Z.rem year 400 =? 0).

Definition yday_table (leap : bool) : list Z :=
  if leap then [0; 0; 31; 60; 91; 121; 152; 182; 213; 244; 274; 305; 335]
  else [0; 0; 31; 59; 90; 120; 151; 181; 212; 243; 273; 304; 334].

Definition rtc_get_yday (year month day : Z) : outcome Z :=
  if (0 <=? month) && (month <=? 12)
  then Done (zget (yday_table (rtc_year_is_leap year)) month + day) else Wild.

Definition rtc_get_wday (year month day : Z) : Z :=
  let (day, year) := if month <? 3 then (day + year, year - 1) else (day + (year - 2), year) in
  Z.rem (Z.quot (23 * month) 9 + day + 4 + Z.quot year 4 - Z.quot year 100 + Z.quot year 400) 7.

Section rtc.
Context {H : Type} `{CycleCounter H}.

(** The clock, the controller that drives it and the cycle counter. *)
Record Rtc : Type := mkRtc { dev : rtc_t; ctl : sysctl_t; cyc : H }.

Definition set_dev (d : rtc_t) (s : Rtc) : Rtc := mkRtc d (ctl s) (cyc s).
Definition set_cyc (h : H) (s : Rtc) : Rtc := mkRtc (dev s) (ctl s) h.
Definition put_reg (r : rtc_reg) (x : Z) (s : Rtc) : Rtc := set_dev (set_rtc r x (dev s)) s.
Definition put_regs (l : list (rtc_reg * Z)) (s : Rtc) : Rtc := foldl (λ s w, put_reg (fst w) (snd w) s) s l.

Definition looped {A} (o : option A) : outcome A := match o with Some a => Done a | None => Loop end.

Definition rtc_timer_set_mode (mode : rtc_timer_mode_t) (s : Rtc) : outcome (Z * Rtc) :=
  let c := dev s r_register_ctrl in
  let (re, we) := match mode with
                  | RTC_TIMER_PAUSE => (0, 0)
                  | RTC_TIMER_RUNNING => (1, 0)
                  | RTC_TIMER_SETTING => (0, 1)
                  | RTC_TIMER_MAX => (0, 0)
                  end in
  let c := bf_set rtc_register_ctrl_t "read_enable" re c in
  let c := bf_set rtc_register_ctrl_t "write_enable" we c in
  do freq := looped (sysctl_clock_get_freq (ctl s) SYSCTL_CLOCK_CPU) in
  do h := looped (wait_ticks (freq / 26000000) (cyc s)) in
  Done (0, put_reg r_register_ctrl c (set_cyc h s)).

Definition rtc_timer_get_mode (s : Rtc) : outcome (rtc_timer_mode_t * Rtc) :=
  let c := dev s r_register_ctrl in
  let re := ztrue (bf_get rtc_register_ctrl_t "read_enable" c) in
  let we := ztrue (bf_get rtc_register_ctrl_t "write_enable" c) in
  if negb re && negb we then Done (RTC_TIMER_PAUSE, s)
  else if re && negb we then Done (RTC_TIMER_RUNNING, s)
  else if negb re && we then Done (RTC_TIMER_RUNNING, s)
  else do (_, s) := rtc_timer_set_mode RTC_TIMER_PAUSE s in Done (RTC_TIMER_PAUSE, s).

(** Writing registers between the setting and the running mode. *)
Definition while_setting (l : list (rtc_reg * Z)) (s : Rtc) : outcome (Z * Rtc) :=
  do (_, s) := rtc_timer_set_mode RTC_TIMER_SETTING s in
  do (_, s) := rtc_timer_set_mode RTC_TIMER_RUNNING (put_regs l s) in
  Done (0, s).

Definition tm_valid (t : tm) : bool :=
  rtc_in_range (tm_sec t) 0 59 && rtc_in_range (tm_min t) 0 59 && rtc_in_range (tm_hour t) 0 23 &&
  rtc_in_range (tm_mday t) 1 31 && rtc_in_range (tm_mon t) 0 11 &&
  rtc_in_range (Z.rem (tm_year t + 1900) 100) 0 99 && rtc_in_range (Z.quot (tm_year t + 1900) 100) 0 31 &&
  rtc_in_range (tm_wday t) 0 6.

Definition time_word (t : tm) (g : Z) : Z :=
  bf_set rtc_time_t "hour" (tm_hour t) (bf_set rtc_time_t "minute" (tm_min t)
    (bf_set rtc_time_t "second" (tm_sec t) g)).
Definition date_word (t : tm) (g : Z) : Z :=
  bf_set rtc_date_t "week" (tm_wday t) (bf_set rtc_date_t "year" (Z.rem (tm_year t + 1900) 100)
    (bf_set rtc_date_t "month" (tm_mon t + 1) (bf_set rtc_date_t "day" (tm_mday t) g))).

Definition rtc_timer_set_tm (t : tm) (gd gt ge : Z) (s : Rtc) : outcome (Z * Rtc) :=
  if negb (tm_valid t) then Done (-1, s) else
  while_setting [(r_date, date_word t gd); (r_time, time_word t gt);
                 (r_extended, bf_set rtc_extended_t "century" (Z.quot (tm_year t + 1900) 100) ge)] s.

Definition rtc_alarm_set_tm (t : tm) (gd gt : Z) (s : Rtc) : outcome (Z * Rtc) :=
  if negb (tm_valid t) then Done (-1, s) else
  while_setting [(r_alarm_date, date_word t gd); (r_alarm_time, time_word t gt)] s.

(** The fields of a date and a time register, reduced to their ranges. *)
Definition read_tm (date time ext : Z) : outcome tm :=
  let mday := bf_get rtc_date_t "day" date mod 32 in
  let mon := Z.rem (bf_get rtc_date_t "month" date - 1) 12 in
  let year := bf_get rtc_date_t "year" date mod 100 + bf_get rtc_extended_t "century" ext * 100 - 1900 in
  do yday := rtc_get_yday (year + 1900) (mon + 1) mday in
  Done {| tm_sec := bf_get rtc_time_t "second" time mod 61; tm_min := bf_get rtc_time_t "minute" time mod 60;
          tm_hour := bf_get rtc_time_t "hour" time mod 24; tm_mday := mday; tm_mon := mon; tm_year := year;
          tm_wday := bf_get rtc_date_t "week" date mod 7; tm_yday := Z.rem yday 366; tm_isdst := -1 |}.

Definition rtc_timer_get_tm (s : Rtc) : outcome (option tm * Rtc) :=
  do (mode, s) := rtc_timer_get_mode s in
  if decide (mode = RTC_TIMER_RUNNING) then
    do t := read_tm (dev s r_date) (dev s r_time) (dev s r_extended) in Done (Some t, s)
  else Done (None, s).

Definition rtc_alarm_get_tm (s : Rtc) : outcome (option tm * Rtc) :=
  do (mode, s) := rtc_timer_get_mode s in
  if decide (mode = RTC_TIMER_RUNNING) then
    do t := read_tm (dev s r_alarm_date) (dev s r_alarm_time) (dev s r_extended) in Done (Some t, s)
  else Done (None, s).

Definition date_time (year month day hour minute second : Z) : outcome tm :=
  do yday := rtc_get_yday year month day in
  Done {| tm_sec := second; tm_min := minute; tm_hour := hour; tm_mday := day; tm_mon := month - 1;
          tm_year := year - 1900; tm_wday := rtc_get_wday year month day; tm_yday := yday; tm_isdst := -1 |}.

Definition rtc_timer_set (year month day hour minute second gd gt ge : Z) (s : Rtc) : outcome (Z * Rtc) :=
  do t := date_time year month day hour minute second in rtc_timer_set_tm t gd gt ge s.

Definition rtc_alarm_set (year month day hour minute second gd gt : Z) (s : Rtc) : outcome (Z * Rtc) :=
  do t := date_time year month day hour minute second in rtc_alarm_set_tm t gd gt s.

(** Year, month, day, hour, minute and second, unless the result is -1. *)
Definition fields_of (t : tm) : list Z :=
  [tm_year t + 1900; tm_mon t + 1; tm_mday t; tm_hour t; tm_min t; tm_sec t].

Definition rtc_timer_get (s : Rtc) : outcome (Z * option (list Z) * Rtc) :=
  do (t, s) := rtc_timer_get_tm s in
  match t with Some t => Done (0, Some (fields_of t), s) | None => Done (-1, None, s) end.

Definition rtc_alarm_get (s : Rtc) : outcome (Z * option (list Z) * Rtc) :=
  do (t, s) := rtc_alarm_get_tm s in
  match t with Some t => Done (0, Some (fields_of t), s) | None => Done (-1, None, s) end.

(** * Counters, interrupts and protection *)

Definition rtc_timer_set_clock_frequency (frequency : Z) (s : Rtc) : outcome (Z * Rtc) :=
  while_setting [(r_initial_count, u32 frequency)] s.
Definition rtc_timer_set_clock_count_value (count : Z) (s : Rtc) : outcome (Z * Rtc) :=
  while_setting [(r_current_count, u32 count)] s.
Definition rtc_timer_get_clock_count_value (s : Rtc) : Z :=
  bf_get rtc_current_count_t "count" (dev s r_current_count).

(** A field of the interrupt register is changed in a copy that is written
    in setting mode. *)
Definition set_interrupt_field (name : string) (v : Z) (s : Rtc) : outcome (Z * Rtc) :=
  let c := bf_set rtc_interrupt_ctrl_t name v (dev s r_interrupt_ctrl) in
  while_setting [(r_interrupt_ctrl, c)] s.
Definition get_interrupt_field (name : string) (s : Rtc) : Z :=
  bf_get rtc_interrupt_ctrl_t name (dev s r_interrupt_ctrl).

Definition rtc_tick_set_interrupt (enable : Z) := set_interrupt_field "tick_enable" enable.
Definition rtc_tick_set_interrupt_mode (mode : Z) := set_interrupt_field "tick_int_mode" mode.
Definition rtc_tick_get_interrupt_mode := get_interrupt_field "tick_int_mode".
Definition rtc_alarm_set_interrupt (enable : Z) := set_interrupt_field "alarm_enable" enable.
Definition rtc_alarm_get_interrupt := get_interrupt_field "alarm_enable".
Definition rtc_alarm_set_mask (mask : Z) := set_interrupt_field "alarm_compare_mask" mask.
Definition rtc_alarm_get_mask := get_interrupt_field "alarm_compare_mask".

(** The masks of a structure whose named members are all 1 or all 0. *)
Definition rtc_protect_set (enable : Z) (s : Rtc) : Z * Rtc :=
  let c := dev s r_register_ctrl in
  let (mask, one) := if ztrue enable then (0, 0) else (0xfe, 1) in
  let c := bf_set rtc_register_ctrl_t "timer_mask" mask c in
  let c := bf_set rtc_register_ctrl_t "alarm_mask" mask c in
  let c := bf_set rtc_register_ctrl_t "initial_count_mask" one c in
  let c := bf_set rtc_register_ctrl_t "interrupt_register_mask" one c in
  (0, put_reg r_register_ctrl c s).

(** [after_reset] is what the reset pulse leaves in the registers. *)
Definition rtc_init (after_reset : rtc_t) (s : Rtc) : outcome (Z * Rtc) :=
  do (c, h) := looped (sysctl_reset SYSCTL_RESET_RTC (ctl s) (cyc s)) in
  let s := mkRtc after_reset (snd (sysctl_clock_enable SYSCTL_CLOCK_RTC c)) h in
  let (_, s) := rtc_protect_set 0 s in
  do freq := looped (sysctl_clock_get_freq (ctl s) SYSCTL_CLOCK_IN0) in
  do (_, s) := rtc_timer_set_clock_frequency freq s in
  do (_, s) := rtc_timer_set_clock_count_value 1 s in
  do (_, s) := rtc_timer_set_mode RTC_TIMER_RUNNING s in
  Done (0, s).
End rtc.
Arguments Rtc : clear implicits.

(** * Properties *)

Lemma struct_fits : bf_fits rtc_date_t ∧ bf_fits rtc_time_t ∧ bf_fits rtc_extended_t ∧
  bf_fits rtc_register_ctrl_t ∧ bf_fits rtc_interrupt_ctrl_t.
Proof. split_and!; (split; [repeat constructor|reflexivity]). Qed.

(** Reading a member of a structure after assignments to it and to others. *)
Ltac bf_simpl Hfit :=
  repeat first
    [ rewrite (bf_get_set_ne _ Hfit) by discriminate
    | erewrite (bf_get_set_eq _ Hfit) by reflexivity ].

Section props.
Context {H : Type} `{CycleLaws H}.

Definition mode_fields (s : Rtc H) : Z * Z :=
  (bf_get rtc_register_ctrl_t "read_enable" (dev s r_register_ctrl),
   bf_get rtc_register_ctrl_t "write_enable" (dev s r_register_ctrl)).
Definition running (s : Rtc H) : Prop := mode_fields s = (1, 0).

Lemma set_mode_spec m s : ∃ s', rtc_timer_set_mode m s = Done (0, s') ∧ ctl s' = ctl s ∧
  (∀ r, r ≠ r_register_ctrl → dev s' r = dev s r) ∧
  mode_fields s' = match m with RTC_TIMER_RUNNING => (1, 0) | RTC_TIMER_SETTING => (0, 1) | _ => (0, 0) end.
Proof.
  destruct (clock_defined (ctl s) SYSCTL_CLOCK_CPU) as (freq & Hf & Hr).
  assert (0 <= freq / 26000000 < 2 ^ 63) as Ht.
  { split; [apply Z.div_pos; lia|apply Z.div_lt_upper_bound; lia]. }
  destruct (wait_ticks_returns _ (cyc s) Ht) as (h' & Hw & _).
  destruct struct_fits as (_ & _ & _ & Hfit & _).
  unfold rtc_timer_set_mode. rewrite Hf. cbn [looped obind].
  destruct m; rewrite Hw; cbn [looped obind]; eexists; (split; [reflexivity|]); (split; [done|]);
    (split; [intros r Hr'; cbn; unfold set_rtc; by rewrite decide_False by congruence|]);
    unfold mode_fields; cbn [dev put_reg set_dev]; unfold set_rtc; rewrite decide_True by done; bf_simpl Hfit; done.
Qed.

Lemma put_regs_ctl l : ∀ s : Rtc H, ctl (put_regs l s) = ctl s.
Proof. induction l as [|w l IH]; intros s; [done|]. exact (IH (put_reg (fst w) (snd w) s)). Qed.

Lemma put_regs_dev l : ∀ (s s' : Rtc H) r, dev s r = dev s' r → dev (put_regs l s) r = dev (put_regs l s') r.
Proof.
  induction l as [|w l IH]; intros s s' r E; cbn; [done|].
  apply (IH (put_reg (fst w) (snd w) s) (put_reg (fst w) (snd w) s')). cbn. unfold set_rtc. by case_decide.
Qed.

(** The registers are written and the clock runs afterwards. *)
Lemma while_setting_spec l s : ∃ s', while_setting l s = Done (0, s') ∧ ctl s' = ctl s ∧ running s' ∧
  ∀ r, r ≠ r_register_ctrl → dev s' r = dev (put_regs l s) r.
Proof.
  destruct (set_mode_spec RTC_TIMER_SETTING s) as (s1 & E1 & C1 & D1 & _).
  destruct (set_mode_spec RTC_TIMER_RUNNING (put_regs l s1)) as (s2 & E2 & C2 & D2 & M2).
  exists s2. unfold while_setting. rewrite E1. cbn [obind]. rewrite E2. cbn [obind].
  split; [done|]. split; [by rewrite C2, put_regs_ctl|]. split; [done|].
  intros r Hr. rewrite D2 by done. by apply put_regs_dev, D1.
Qed.

Lemma get_mode_running s : running s → rtc_timer_get_mode s = Done (RTC_TIMER_RUNNING, s).
Proof. unfold running, mode_fields, rtc_timer_get_mode. intros [= E1 E2]. by rewrite E1, E2. Qed.

Definition date_ok (y m d h mi se : Z) : Prop :=
  0 <= y < 3200 ∧ 1 <= m <= 12 ∧ 1 <= d <= 31 ∧ 0 <= h < 24 ∧ 0 <= mi < 60 ∧ 0 <= se < 60.
End props.

Lemma quot_div_pos y k : 0 <= y → 0 < k → Z.quot y k = y / k.
Proof. intros. apply Z.quot_div_nonneg; lia. Qed.

(** The day of the week is one of the seven. *)
Lemma wday_range y m d : 0 <= y → 1 <= m <= 12 → 1 <= d → 0 <= rtc_get_wday y m d < 7.
Proof.
  intros Hy Hm Hd. unfold rtc_get_wday.
  assert (Hq : ∀ k, -1 <= k → 0 <= Z.quot k 4 - Z.quot k 100 + Z.quot k 400).
  { intros k Hk. destruct (Z.eq_dec k (-1)) as [->|]; [by vm_compute|].
    rewrite !quot_div_pos by lia. Z.div_mod_to_equations. lia. }
  assert (0 <= Z.quot (23 * m) 9) by (apply Z.quot_pos; lia).
  destruct (m <? 3); apply Z.rem_bound_pos; try lia.
  - specialize (Hq (y - 1) ltac:(lia)). lia.
  - specialize (Hq y ltac:(lia)). lia.
Qed.

Lemma century_split y : 0 <= y < 3200 → 0 <= Z.rem y 100 <= 99 ∧ 0 <= Z.quot y 100 <= 31 ∧
  Z.rem y 100 + Z.quot y 100 * 100 = y.
Proof.
  intros. pose proof (Z.quot_rem' y 100). pose proof (Z.rem_bound_pos y 100 ltac:(lia) ltac:(lia)).
  rewrite quot_div_pos in * by lia. split_and!; lia.
Qed.

(** What [read_tm] finds in the words of a valid time. *)
Lemma read_words t gd gt ge : 0 <= tm_year t + 1900 < 3200 → 0 <= tm_mon t < 12 → 1 <= tm_mday t <= 31 →
  0 <= tm_hour t < 24 → 0 <= tm_min t < 60 → 0 <= tm_sec t < 60 →
  ∃ t', read_tm (date_word t gd) (time_word t gt)
          (bf_set rtc_extended_t "century" (Z.quot (tm_year t + 1900) 100) ge) = Done t' ∧
    fields_of t' = fields_of t.
Proof.
  intros Hy Hm Hd Hh Hmi Hse. destruct struct_fits as (F1 & F2 & F3 & _).
  pose proof (century_split (tm_year t + 1900) ltac:(lia)) as (C1 & C2 & C3).
  unfold read_tm, date_word, time_word. bf_simpl F1. bf_simpl F2. bf_simpl F3.
  rewrite !(Z.mod_small _ (2 ^ _)) by lia. rewrite !Z.mod_small by lia.
  replace (tm_mon t + 1 - 1) with (tm_mon t) by lia. rewrite (Z.rem_small (tm_mon t)) by lia.
  unfold rtc_get_yday. rewrite (proj2 (Z.leb_le 0 (tm_mon t + 1))), (proj2 (Z.leb_le (tm_mon t + 1) 12)) by lia.
  eexists. split; [reflexivity|]. unfold fields_of. cbn. repeat f_equal. lia.
Qed.

(** Setting the clock to a valid date and time returns, and reading it at
    that moment gives the same year, month, day, hour, minute and second, in
    whatever state the registers, the controller and the uninitialised
    reserved bits were. *)
Theorem rtc_set_get {H : Type} `{CycleLaws H} y m d h mi se gd gt ge (s : Rtc H) :
  date_ok y m d h mi se →
  ∃ s', rtc_timer_set y m d h mi se gd gt ge s = Done (0, s') ∧
    rtc_timer_get s' = Done (0, Some [y; m; d; h; mi; se], s').
Proof.
  intros (Hy & Hm & Hd & Hh & Hmi & Hse). pose proof (wday_range y m d ltac:(lia) Hm ltac:(lia)) as Hw.
  unfold rtc_timer_set, date_time, rtc_get_yday. rewrite (proj2 (Z.leb_le 0 m)), (proj2 (Z.leb_le m 12)) by lia.
  cbn [andb obind]. set (t := mkTm _ _ _ _ _ _ _ _ _).
  pose proof (century_split y ltac:(lia)) as (C1 & C2 & _).
  assert (Hv : tm_valid t = true).
  { unfold tm_valid, rtc_in_range. cbn [t tm_sec tm_min tm_hour tm_mday tm_mon tm_year tm_wday].
    replace (y - 1900 + 1900) with y by lia. rewrite !andb_true_iff, !Z.leb_le. lia. }
  unfold rtc_timer_set_tm. rewrite Hv. cbn [negb].
  edestruct while_setting_spec as (s' & E & _ & Hrun & Hdev). exists s'. split; [exact E|].
  unfold rtc_timer_get, rtc_timer_get_tm. rewrite (get_mode_running s' Hrun). cbn [obind].
  rewrite decide_True by done. rewrite !Hdev by done. cbn [put_regs foldl put_reg set_dev dev fst snd].
  destruct (read_words t gd gt ge) as (t' & Er & Ef); try (subst t; cbn; lia).
  match goal with |- context [read_tm ?a ?b ?c] => assert (read_tm a b c = Done t') as -> by exact Er end.
  cbn [obind]. rewrite Ef. unfold fields_of. cbn. repeat f_equal; lia.
Qed.

Definition ex_rtc : Rtc Z := mkRtc (λ _, 0) ex_sysctl 0.

Example ex_rtc_set_get :
  date_ok 2021 8 21 13 37 59 ∧
  ∃ s', rtc_timer_set 2021 8 21 13 37 59 5 6 7 ex_rtc = Done (0, s') ∧
    rtc_timer_get s' = Done (0, Some [2021; 8; 21; 13; 37; 59], s').
Proof.
  assert (date_ok 2021 8 21 13 37 59) as Hd by (unfold date_ok; lia).
  exact (conj Hd (rtc_set_get 2021 8 21 13 37 59 5 6 7 ex_rtc Hd)).
Qed.

(** A month outside 1 .. 12 is looked up in the table of days before it is
    checked: 0 is refused, 13 is read past the table. *)
Lemma rtc_set_month_unchecked gd gt ge :
  rtc_timer_set 2021 13 1 0 0 0 gd gt ge ex_rtc = Wild ∧ rtc_timer_set 2021 0 1 0 0 0 gd gt ge ex_rtc = Done (-1, ex_rtc).
Proof. split; reflexivity. Qed.

(** In setting mode the clock is reported as running. *)
Lemma setting_mode_reported {H : Type} `{CycleLaws H} (s : Rtc H) : mode_fields s = (0, 1) →
  rtc_timer_get_mode s = Done (RTC_TIMER_RUNNING, s).
Proof. intros [= E1 E2]. unfold rtc_timer_get_mode. by rewrite E1, E2. Qed.
