(* ===== verification/KTime.v ===== *)
(** Clocks of the kernel (kernel/time/time.cpp) and the calendar.

    [mktime_set] turns a date into seconds since 1970; it is compared with a
    calendar that counts days year by year and month by month.  The
    nanosecond clock is computed from the cycle counter and the CPU frequency
    of [Sysctl]; the wall clock composes it with the real-time clock of
    [Rtc]. *)
From Stdlib Require Import ZArith Lia String.
From stdpp Require Import base list numbers option strings.
From S2P Require Import Prelude KBase BitField Sysctl Rtc.

Local Open Scope Z_scope.
Local Open Scope out_scope.

(** * time.cpp *)

Definition mktime_set (year month mday hour minute second : Z) : Z :=
  let mon := u64 (month - 2) in
  let (mon, year_temp) := if s32 mon <=? 0 then (u64 (mon + 12), u64 (year - 1)) else (mon, year) in
  u64 ((((u64 (year_temp / 4 - year_temp / 100 + year_temp / 400 + u64 (367 * mon) / 12 + mday) +
          year_temp * 365 - 719499) * 24 + hour) * 60 + minute) * 60 + second).

Definition mktime (t : tm) : Z :=
  mktime_set (u64 (tm_year t)) (u64 (tm_mon t)) (u64 (tm_mday t)) (u64 (tm_hour t)) (u64 (tm_min t)) (u64 (tm_sec t)).

Record timespec : Type := mkTimespec { tv_sec : Z; tv_nsec : Z }.

Inductive clockid_t : Type :=
  | CLOCK_REALTIME | CLOCK_MONOTONIC | CLOCK_PROCESS_CPUTIME_ID | CLOCK_THREAD_CPUTIME_ID.

Section time.
Context {H : Type} `{CycleCounter H}.

Definition r_time (s : Rtc H) : Z * Rtc H := let (t, h) := read_cycle (cyc s) in (t, set_cyc h s).

Definition nsec_of (t freq : Z) : Z := u64 (u64 (u64 (t * 1600000) / freq * 50) * 625).

Definition get_nsec (s : Rtc H) : outcome (Z * Rtc H) :=
  let (t, s) := r_time s in
  do freq := looped (sysctl_clock_get_freq (ctl s) SYSCTL_CLOCK_CPU) in
  if freq =? 0 then Wild else Done (nsec_of t freq, s).

Definition get_usec (s : Rtc H) : outcome (Z * Rtc H) := do (n, s) := get_nsec s in Done (n / 1000, s).
Definition get_msec (s : Rtc H) : outcome (Z * Rtc H) := do (n, s) := get_nsec s in Done (n / 1000000, s).
Definition get_sec (s : Rtc H) : outcome (Z * Rtc H) := do (n, s) := get_nsec s in Done (n / 1000000000, s).

Definition timer (qemu : bool) (s : Rtc H) : outcome (Z * Rtc H) :=
  if qemu then (let (t, s) := r_time s in Done (t / 10, s)) else get_usec s.

Definition init_rtc (after_reset : rtc_t) (gd gt ge : Z) (s : Rtc H) : outcome (Rtc H) :=
  do (_, s) := rtc_init after_reset s in
  do (_, s) := rtc_timer_set 1970 1 1 0 0 0 gd gt ge s in
  Done s.

(** [g] are the values of the local variables when [rtc_timer_get] does not
    assign them. *)
Definition current_timespec (g : list Z) (s : Rtc H) : outcome (timespec * Rtc H) :=
  do (_, fields, s) := rtc_timer_get s in
  let f := u64 <$> default g fields in
  let unix_time := mktime_set (zget f 0) (zget f 1) (zget f 2) (zget f 3) (zget f 4) (zget f 5) in
  do (nsec, s) := get_nsec s in
  Done (mkTimespec unix_time (nsec mod 1000000000), s).

Definition sys_clock_gettime (which_clock : clockid_t) (g : list Z) (s : Rtc H) : outcome (timespec * Rtc H) :=
  match which_clock with
  | CLOCK_REALTIME => current_timespec g s
  | CLOCK_MONOTONIC =>
    do (nsec, s) := get_nsec s in Done (mkTimespec (nsec / 1000000000) (nsec mod 1000000000), s)
  | _ => Done (mkTimespec 0 0, s)
  end.
End time.

(** * The calendar *)

Definition leap (y : Z) : bool := ((y mod 4 =? 0) && negb (y mod 100 =? 0)) || (y mod 400 =? 0).
Definition year_days (y : Z) : Z := if leap y then 366 else 365.
Definition month_days (y m : Z) : Z :=
  if m =? 2 then (if leap y then 29 else 28)
  else if (m =? 4) || (m =? 6) || (m =? 9) || (m =? 11) then 30 else 31.

(** Days of the [n] years from 1970 on, and of the first [n] months of a
    year. *)
Fixpoint days_of_years (n : nat) : Z :=
  match n with O => 0 | S n => days_of_years n + year_days (1970 + Z.of_nat n) end.
Fixpoint days_of_months (y : Z) (n : nat) : Z :=
  match n with O => 0 | S n => days_of_months y n + month_days y (Z.of_nat n + 1) end.

(** Days from 1970-01-01 to a date. *)
Definition civil_days (y m d : Z) : Z :=
  days_of_years (Z.to_nat (y - 1970)) + days_of_months y (Z.to_nat (m - 1)) + (d - 1).

Definition unix_seconds (y m d h mi se : Z) : Z := ((civil_days y m d * 24 + h) * 60 + mi) * 60 + se.

Definition leaps (y : Z) : Z := y / 4 - y / 100 + y / 400.

Lemma leaps_step y : leaps y = leaps (y - 1) + (if leap y then 1 else 0).
Proof.
  unfold leaps, leap. destruct (Z.eqb_spec (y mod 4) 0), (Z.eqb_spec (y mod 100) 0), (Z.eqb_spec (y mod 400) 0);
    cbn [andb orb negb]; Z.div_mod_to_equations; lia.
Qed.

Lemma days_of_years_closed n :
  days_of_years n = 365 * Z.of_nat n + leaps (1969 + Z.of_nat n) - leaps 1969.
Proof.
  induction n as [|n IH]; [reflexivity|]. cbn [days_of_years]. rewrite IH. unfold year_days.
  rewrite (leaps_step (1969 + Z.of_nat (S n))). replace (1969 + Z.of_nat (S n)) with (1970 + Z.of_nat n) by lia.
  replace (1970 + Z.of_nat n - 1) with (1969 + Z.of_nat n) by lia. destruct (leap _); lia.
Qed.

(** The months of a year are those of 2000 or of 2001. *)
Lemma days_of_months_leap y n : days_of_months y n = days_of_months (if leap y then 2000 else 2001) n.
Proof.
  induction n as [|n IH]; [done|]. cbn [days_of_months]. rewrite IH. unfold month_days. by destruct (leap y).
Qed.

(** The twelve cases of a month, and the closed terms evaluated in each. *)
Ltac month_cases m :=
  let H := fresh in
  assert (m = 1 ∨ m = 2 ∨ m = 3 ∨ m = 4 ∨ m = 5 ∨ m = 6 ∨ m = 7 ∨ m = 8 ∨ m = 9 ∨ m = 10 ∨ m = 11 ∨ m = 12)
    as H by lia;
  repeat destruct H as [->|H]; try subst m.
Ltac eval_term t := let c := eval vm_compute in t in change t with c.

(** The months before March in the year before, the others after them: the
    formula of [mktime_set]. *)
Lemma civil_days_closed y m d : 1970 <= y → 1 <= m <= 12 →
  civil_days y m d =
  if m <? 3 then leaps (y - 1) + 365 * (y - 1) + 367 * (m + 10) / 12 + d - 719499
  else leaps y + 365 * y + 367 * (m - 2) / 12 + d - 719499.
Proof.
  intros Hy Hm. unfold civil_days. rewrite days_of_years_closed, Z2Nat.id by lia.
  replace (1969 + (y - 1970)) with (y - 1) by lia. pose proof (leaps_step y) as Hl.
  change (leaps 1969) with 477.
  rewrite days_of_months_leap. destruct (leap y); month_cases m;
    match goal with |- context [days_of_months ?y ?n] => eval_term (days_of_months y n) end;
    match goal with |- context [if ?b then _ else _] => eval_term b end; cbn iota;
    match goal with |- context [367 * ?e / 12] => eval_term (367 * e / 12) end; lia.
Qed.

(** [mktime_set] is the number of seconds since 1970-01-01 00:00. *)
Lemma mktime_set_spec y m d h mi se : 1970 <= y < 2 ^ 32 → 1 <= m <= 12 → 1 <= d <= 31 →
  0 <= h < 24 → 0 <= mi < 60 → 0 <= se < 60 →
  mktime_set y m d h mi se = unix_seconds y m d h mi se.
Proof.
  intros Hy Hm Hd Hh Hmi Hse. unfold mktime_set, unix_seconds. rewrite civil_days_closed by lia.
  assert (Hb : ∀ y k, 1969 <= y < 2 ^ 32 → 1 <= k <= 12 →
    477 + 367 * k / 12 <= leaps y + 367 * k / 12 < 2 ^ 33 ∧ 30 <= 367 * k / 12 ∧ u64 (leaps y + 367 * k / 12 + d) = leaps y + 367 * k / 12 + d).
  { clear - Hd. intros y k Hy Hk. assert (477 + 367 * k / 12 <= leaps y + 367 * k / 12 < 2 ^ 33).
    { unfold leaps. Z.div_mod_to_equations. lia. }
    split; [done|]. split; [apply Z.div_le_lower_bound; lia|]. apply u64_small.
    assert (30 <= 367 * k / 12) by (apply Z.div_le_lower_bound; lia). lia. }
  destruct (Z.ltb_spec m 3) as [Hlt|Hge].
  - assert (s32 (u64 (m - 2)) <=? 0 = true) as ->.
    { assert (m = 1 ∨ m = 2) as [->| ->] by lia; by vm_compute. }
    assert (u64 (u64 (m - 2) + 12) = m + 10) as ->.
    { assert (m = 1 ∨ m = 2) as [->| ->] by lia; by vm_compute. }
    rewrite (u64_small (y - 1)), (u64_small (367 * (m + 10))) by lia.
    destruct (Hb (y - 1) (m + 10) ltac:(lia) ltac:(lia)) as (B1 & B0 & B2). unfold leaps in *. rewrite B2.
    assert (336 <= 367 * (m + 10) / 12) by (apply Z.div_le_lower_bound; lia).
    rewrite u64_small by lia. lia.
  - rewrite (u64_small (m - 2)) by lia. rewrite s32_small by lia. rewrite (proj2 (Z.leb_gt (m - 2) 0)) by lia.
    rewrite (u64_small (367 * (m - 2))) by lia.
    destruct (Hb y (m - 2) ltac:(lia) ltac:(lia)) as (B1 & B0 & B2). unfold leaps in *. rewrite B2.
    rewrite u64_small by lia. lia.
Qed.

Lemma leap_is_leap y : 0 <= y → rtc_year_is_leap y = leap y.
Proof. intros. unfold rtc_year_is_leap, leap. by rewrite !Z.rem_mod_nonneg by lia. Qed.

(** The driver numbers the days of a year from 1. *)
Lemma yday_spec y m d : 0 <= y → 1 <= m <= 12 →
  rtc_get_yday y m d = Done (days_of_months y (Z.to_nat (m - 1)) + d).
Proof.
  intros Hy Hm. unfold rtc_get_yday. rewrite (proj2 (Z.leb_le 0 m)), (proj2 (Z.leb_le m 12)) by lia.
  rewrite leap_is_leap by lia. cbn [andb]. do 2 f_equal.
  rewrite days_of_months_leap. destruct (leap y); month_cases m; reflexivity.
Qed.

(** The formula for the day of the week agrees with the calendar: 1970-01-01
    was a Thursday. *)
Lemma wday_spec y m d : 1970 <= y → 1 <= m <= 12 → 1 <= d → rtc_get_wday y m d = (civil_days y m d + 4) mod 7.
Proof.
  intros Hy Hm Hd. rewrite civil_days_closed by lia. unfold rtc_get_wday.
  assert (Hq : ∀ k, 0 <= k → Z.quot k 4 - Z.quot k 100 + Z.quot k 400 = leaps k).
  { intros k Hk. unfold leaps. by rewrite !quot_div_pos by lia. }
  assert (Hnn : 0 <= leaps (y - 1) ∧ 0 <= leaps y) by (unfold leaps; Z.div_mod_to_equations; lia).
  pose proof (Hq (y - 1) ltac:(lia)) as Q1. pose proof (Hq y ltac:(lia)) as Q2. clear Hq.
  month_cases m; cbn [Z.ltb Z.compare Pos.compare Pos.compare_cont];
    match goal with |- context [Z.quot (23 * ?e) 9] => eval_term (Z.quot (23 * e) 9) end;
    match goal with |- context [367 * ?e / 12] => eval_term (367 * e / 12) end;
    rewrite Z.rem_mod_nonneg by lia; Z.div_mod_to_equations; lia.
Qed.

(** * The clocks *)

(** The processor always has a clock: its frequency is not zero. *)
Lemma cpu_freq_pos s : ∃ freq, sysctl_clock_get_freq s SYSCTL_CLOCK_CPU = Some freq ∧ 0 < freq < 2 ^ 32.
Proof.
  destruct (clock_defined s SYSCTL_CLOCK_CPU) as (freq & Hf & Hr). exists freq. split; [done|]. split; [|lia].
  revert Hf. unfold sysctl_clock_get_freq, freq_depth.
  change (clock_get_freq 7 s SYSCTL_CLOCK_CPU) with
    (if rd s clk_sel0 "aclk_sel"%string =? 0 then Some SYSCTRL_CLOCK_FREQ_IN0
     else if rd s clk_sel0 "aclk_sel"%string =? 1 then
       (f ← sysctl_pll_get_freq s SYSCTL_PLL0; Some (f / Z.shiftl 2 (rd s clk_sel0 "aclk_divider_sel"%string)))
     else Some 0).
  destruct (pll_frequency_accurate s) as (f0 & _ & -> & _ & [He _] & _). 
  pose proof (rd_range s clk_sel0 "aclk_sel"%string _ _ eq_refl) as H1.
  pose proof (rd_range s clk_sel0 "aclk_divider_sel"%string _ _ eq_refl) as H2.
  pose proof (rd_range s pll0 "clkr0"%string _ _ eq_refl) as R1.
  pose proof (rd_range s pll0 "clkf0"%string _ _ eq_refl) as R2.
  pose proof (rd_range s pll0 "clkod0"%string _ _ eq_refl) as R3.
  assert (101561 <= f0).
  { etrans; [|exact He]. apply Z.le_add_le_sub_r, Z.div_le_lower_bound; [nia|]. unfold SYSCTRL_CLOCK_FREQ_IN0. nia. }
  destruct (Z.eqb_spec (rd s clk_sel0 "aclk_sel"%string) 0); [intros [= <-]; unfold SYSCTRL_CLOCK_FREQ_IN0; lia|].
  rewrite (proj2 (Z.eqb_eq (rd s clk_sel0 "aclk_sel"%string) 1)) by lia. intros [= <-].
  apply Z.div_str_pos. split; [pose proof (shift_pos _ (proj1 H2)); lia|].
  rewrite Z.shiftl_mul_pow2 by lia.
  assert (2 ^ rd s clk_sel0 "aclk_divider_sel"%string <= 2 ^ 3) by (apply Z.pow_le_mono_r; lia). lia.
Qed.

(** The counter in nanoseconds: [t] ticks at a fiftieth of the frequency,
    rounded down to a multiple of 31250. *)
Lemma nsec_of_spec t freq : 0 <= t → 0 < freq → t * 1600000 < 2 ^ 64 → t * 50 * 1000000000 / freq < 2 ^ 64 →
  nsec_of t freq = t * 50 * 1000000000 / freq / 31250 * 31250.
Proof.
  intros Ht Hf Hb Hn. unfold nsec_of. rewrite (u64_small (t * 1600000)) by lia.
  assert (t * 1600000 / freq = t * 50 * 1000000000 / freq / 31250) as ->.
  { rewrite Z.div_div by lia. replace (t * 50 * 1000000000) with (t * 1600000 * 31250) by lia.
    by rewrite Z.div_mul_cancel_r by lia. }
  set (e := t * 50 * 1000000000 / freq) in *. assert (0 <= e) by (apply Z.div_pos; lia). clearbody e.
  pose proof (Z.mul_div_le e 31250 ltac:(lia)). assert (0 <= e / 31250) by (apply Z.div_pos; lia).
  rewrite (u64_small (e / 31250 * 50)) by lia. rewrite u64_small by lia. lia.
Qed.

Section clocks.
Context {H : Type} `{CycleLaws H}.

Lemma get_nsec_returns (s : Rtc H) : ∃ t freq h',
  read_cycle (cyc s) = (t, h') ∧ sysctl_clock_get_freq (ctl s) SYSCTL_CLOCK_CPU = Some freq ∧
  get_nsec s = Done (nsec_of t freq, set_cyc h' s).
Proof.
  unfold get_nsec, r_time. destruct (read_cycle (cyc s)) as [t h'].
  destruct (cpu_freq_pos (ctl s)) as (freq & Hf & Hr). exists t, freq, h'.
  cbn [ctl set_cyc dev]. rewrite Hf. cbn [looped obind].
  by rewrite (proj2 (Z.eqb_neq freq 0) ltac:(lia)).
Qed.
End clocks.



(** C34: The monotonic clock shows the time of the cycle counter, which ticks
    at a fiftieth of the CPU frequency, in nanoseconds rounded down to a
    multiple of 31250 (a grid coarser than the period of the counter, which
    is 128 ns at 390 MHz); seconds and nanoseconds are those of that one
    value.  The counter times 1600000 and the nanoseconds have to fit 64
    bits; the clock does not fail in any state of the controller. *)
Theorem monotonic_clock_accurate {H : Type} `{CycleLaws H} g (s : Rtc H) t h' freq :
  read_cycle (cyc s) = (t, h') → sysctl_clock_get_freq (ctl s) SYSCTL_CLOCK_CPU = Some freq →
  0 <= t → t * 1600000 < 2 ^ 64 → t * 50 * 1000000000 / freq < 2 ^ 64 →
  ∃ sec nsec s', sys_clock_gettime CLOCK_MONOTONIC g s = Done (mkTimespec sec nsec, s') ∧ 0 <= nsec < 1000000000 ∧
    let exact := t * 50 * 1000000000 / freq in
    sec * 1000000000 + nsec = exact / 31250 * 31250.
Proof.
  intros Hr Hf Ht Hb Hq. destruct (get_nsec_returns s) as (t1 & freq1 & h1 & E1 & E2 & E3).
  rewrite Hr in E1. rewrite Hf in E2. simplify_eq. unfold sys_clock_gettime. rewrite E3. cbn [obind].
  eexists _, _, _. split; [reflexivity|]. split; [apply Z.mod_pos_bound; lia|].
  cbn zeta. rewrite (Z.mul_comm (_ / 1000000000)), <- Z.div_mod by lia. apply nsec_of_spec; try lia.
  destruct (cpu_freq_pos (ctl s)) as (f & Hf' & Hr'). rewrite Hf in Hf'. simplify_eq. lia.
Qed.

Definition ex_rtc_later : Rtc Z := mkRtc (λ _, 0) ex_sysctl 52000001.

Lemma monotonic_clock_accurate_witness :
  ∃ sec nsec s', sys_clock_gettime CLOCK_MONOTONIC [] ex_rtc_later = Done (mkTimespec sec nsec, s') ∧
    0 <= nsec < 1000000000 ∧
    let exact := 26000001 * 50 * 1000000000 / 26000000 in
    sec * 1000000000 + nsec = exact / 31250 * 31250.
Proof.
  apply (monotonic_clock_accurate [] ex_rtc_later 26000001 52000002 26000000);
    [reflexivity|reflexivity|lia|lia|reflexivity].
Defined.

(** Past that bound the product wraps: on a processor at 390 MHz, whose
    counter makes 7.8 million steps a second, the clock falls back to 0 after
    less than 18 days. *)
Lemma monotonic_clock_wraps :
  let t := 2 ^ 64 / 1600000 + 1 in t / 7800000 / 86400 = 17 ∧ nsec_of t 390000000 = 0.
Proof. split; vm_compute; reflexivity. Qed.
