(* ===== verification/KStdio.v ===== *)
(** Formatted output of the kernel (kernel/stdio.cpp).

    Text is a list of character codes.  The console is the text sent to it so
    far; a buffer is a list of its bytes, and a store outside it is [Wild].  A
    format and a [%s] argument are the characters before their terminator;
    running past the terminator, taking an argument that was not passed and
    negating the least [int] are [Wild].  Arguments of a variadic call are
    64-bit words or strings. *)
From Stdlib Require Import ZArith Lia.
From stdpp Require Import base list numbers option.
From S2P Require Import Prelude KBase.

Local Open Scope Z_scope.
Local Open Scope out_scope.

Inductive va : Type := VInt (z : Z) | VStr (s : list Z).

Definition va_int (args : list va) : outcome (Z * list va) :=
  match args with VInt z :: args => Done (s32 z, args) | _ => Wild end.
Definition va_size_t (args : list va) : outcome (Z * list va) :=
  match args with VInt z :: args => Done (u64 z, args) | _ => Wild end.
Definition va_str (args : list va) : outcome (list Z * list va) :=
  match args with VStr s :: args => Done (s, args) | _ => Wild end.

(** * The console *)

Definition putchar (c : Z) (out : list Z) : list Z := out ++ [u8 c].

Fixpoint put_string (s : list Z) (out : list Z) : list Z :=
  match s with [] => out | c :: s => put_string s (putchar c out) end.
Definition puts (s out : list Z) : list Z := putchar 10 (put_string s out).

(** The firmware's answers to [SBI_CONSOLE_GETCHAR], -1 while no key is
    pressed. *)
Fixpoint getchar_blocked (answers : list Z) : outcome (Z * list Z) :=
  match answers with
  | [] => Loop
  | res :: answers => if res =? u64 (-1) then getchar_blocked answers else Done (res, answers)
  end.

(** * Numbers *)

Definition sta_size : Z := 100.

Definition store (buf : list Z) (i c : Z) : outcome (list Z) :=
  if (0 <=? i) && (i <? zlen buf) then Done (zset buf i (u8 c)) else Wild.

Definition digit_char (tail : Z) : Z := if tail <=? 9 then 48 + tail else 97 + tail - 10.

(** [while (num)]: digits are pushed on [sta], the last one first.  A 64-bit
    number has at most 64 digits. *)
Fixpoint push_digits (n : nat) (num base : Z) (sta : list Z) (cur : Z) : outcome (list Z * Z) :=
  if num =? 0 then Done (sta, cur) else
  match n with
  | O => Loop
  | S n =>
    do sta := store sta cur (digit_char (num mod base)) in
    push_digits n (num / base) base sta (cur + 1)
  end.

Definition fill_digits (num base : Z) (sta : list Z) : outcome (list Z * Z) :=
  do (sta, cur) := (if num =? 0 then (do sta := store sta 0 48 in Done (sta, 1)) else Done (sta, 0)) in
  push_digits 64 num base sta cur.

(** [while (cur != 0) putchar(sta[--cur])]. *)
Fixpoint pop_console (cur : nat) (sta out : list Z) : list Z :=
  match cur with O => out | S cur => pop_console cur sta (putchar (zget sta (Z.of_nat cur)) out) end.

Definition print_pos (num base : Z) (sta out : list Z) : outcome (list Z) :=
  do (sta, cur) := fill_digits num base sta in
  Done (pop_console (Z.to_nat cur) sta out).

Fixpoint pop_buffer (cur : nat) (sta dist : list Z) (dist_cur : Z) : outcome (list Z * Z) :=
  match cur with
  | O => Done (dist, dist_cur)
  | S cur =>
    do dist := store dist dist_cur (zget sta (Z.of_nat cur)) in
    pop_buffer cur sta dist (dist_cur + 1)
  end.

Definition sprintf_print_pos (dist : list Z) (dist_cur num base : Z) (sta : list Z) : outcome (list Z * Z) :=
  do (sta, cur) := fill_digits num base sta in
  pop_buffer (Z.to_nat cur) sta dist dist_cur.

(** * printf *)

Definition unsupported : list Z := [33; 33; 33; 32; 117; 110; 115; 117; 112; 112; 111; 114; 116; 32; 37].

Definition negate_int (d : Z) : outcome Z := if d =? - 2 ^ 31 then Wild else Done (- d).

(** [sta] is the uninitialised stack buffer of [__print_pos]. *)
Definition printf_int (d : Z) (sta out : list Z) : outcome (list Z) :=
  if d =? 0 then Done (putchar 48 out) else
  if d <? 0 then
    let out := putchar 45 out in
    do d := negate_int d in print_pos (u64 d) 10 sta out
  else print_pos (u64 d) 10 sta out.

Definition printf_conv (conv : Z) (args : list va) (sta out : list Z) : outcome (list va * list Z) :=
  if conv =? 99 then do (c, args) := va_int args in Done (args, putchar c out)
  else if conv =? 100 then do (d, args) := va_int args in do out := printf_int d sta out in Done (args, out)
  else if conv =? 120 then do (x, args) := va_size_t args in do out := print_pos x 16 sta out in Done (args, out)
  else if conv =? 98 then do (x, args) := va_size_t args in do out := print_pos x 2 sta out in Done (args, out)
  else if conv =? 115 then do (s, args) := va_str args in Done (args, put_string s out)
  else Done (args, puts unsupported out).

Fixpoint printf (format : list Z) (args : list va) (sta out : list Z) : outcome (list Z) :=
  match format with
  | [] => Done out
  | c :: format =>
    if c =? 37 then
      match format with
      | [] => Wild
      | conv :: format => do (args, out) := printf_conv conv args sta out in printf format args sta out
      end
    else printf format args sta (putchar c out)
  end.

(** * sprintf *)

Fixpoint copy_string (s dist : list Z) (cur : Z) : outcome (list Z * Z) :=
  match s with
  | [] => Done (dist, cur)
  | c :: s => do dist := store dist cur c in copy_string s dist (cur + 1)
  end.

Definition sprintf_int (d : Z) (sta dist : list Z) (cur : Z) : outcome (list Z * Z) :=
  if d =? 0 then do dist := store dist cur 48 in Done (dist, cur + 1)
  else if d <? 0 then
    do dist := store dist cur 45 in
    do d := negate_int d in sprintf_print_pos dist (cur + 1) (u64 d) 10 sta
  else sprintf_print_pos dist cur (u64 d) 10 sta.

(** An unsupported conversion shuts the machine down. *)
Definition sprintf_conv (conv : Z) (args : list va) (sta dist : list Z) (cur : Z) : outcome (list va * list Z * Z) :=
  if conv =? 99 then
    do (c, args) := va_int args in do dist := store dist cur c in Done (args, dist, cur + 1)
  else if conv =? 100 then
    do (d, args) := va_int args in do (dist, cur) := sprintf_int d sta dist cur in Done (args, dist, cur)
  else if conv =? 120 then
    do (x, args) := va_size_t args in do (dist, cur) := sprintf_print_pos dist cur x 16 sta in Done (args, dist, cur)
  else if conv =? 98 then
    do (x, args) := va_size_t args in do (dist, cur) := sprintf_print_pos dist cur x 2 sta in Done (args, dist, cur)
  else if conv =? 115 then
    do (s, args) := va_str args in do (dist, cur) := copy_string s dist cur in Done (args, dist, cur)
  else Panic.

Fixpoint sprintf_loop (format : list Z) (args : list va) (sta dist : list Z) (cur : Z) : outcome (list Z * Z) :=
  match format with
  | [] => Done (dist, cur)
  | c :: format =>
    if c =? 37 then
      match format with
      | [] => Panic
      | conv :: format =>
        do (args, dist, cur) := sprintf_conv conv args sta dist cur in sprintf_loop format args sta dist cur
      end
    else do dist := store dist cur c in sprintf_loop format args sta dist (cur + 1)
  end.

Definition sprintf (dist format : list Z) (args : list va) (sta : list Z) : outcome (list Z) :=
  do (dist, cur) := sprintf_loop format args sta dist 0 in store dist cur 0.

(** * What a format means *)

(** The digits of a positive number, the last one first. *)
Fixpoint digits_rev (n : nat) (num base : Z) : list Z :=
  match n with
  | O => []
  | S n => if num =? 0 then [] else digit_char (num mod base) :: digits_rev n (num / base) base
  end.
Definition number_text (num base : Z) : list Z :=
  if num =? 0 then [48] else rev (digits_rev 64 num base).
Definition int_text (d : Z) : list Z := if d <? 0 then 45 :: number_text (- d) 10 else number_text d 10.

Definition conv_text (conv : Z) (arg : va) : option (list Z) :=
  match arg with
  | VInt z =>
    if conv =? 99 then Some [u8 z]
    else if conv =? 100 then if s32 z =? - 2 ^ 31 then None else Some (int_text (s32 z))
    else if conv =? 120 then Some (number_text (u64 z) 16)
    else if conv =? 98 then Some (number_text (u64 z) 2)
    else None
  | VStr s => if conv =? 115 then Some (u8 <$> s) else None
  end.

(** The text of a format whose conversions are supported and have fitting
    arguments. *)
Fixpoint render (format : list Z) (args : list va) : option (list Z) :=
  match format with
  | [] => Some []
  | c :: format =>
    if c =? 37 then
      match format, args with
      | conv :: format, arg :: args =>
        t ← conv_text conv arg; ts ← render format args; Some (t ++ ts)
      | _, _ => None
      end
    else ts ← render format args; Some (u8 c :: ts)
  end.

(** The number that a text of digits denotes. *)
Definition digit_value (c : Z) : Z := if c <? 97 then c - 48 else c - 97 + 10.
Definition text_value (base : Z) (t : list Z) : Z := foldl (λ a c, a * base + digit_value c) 0 t.

(** * Buffers filled from the left *)

Lemma store_byte_app pre x rest c : store (pre ++ x :: rest) (zlen pre) c = Done (pre ++ u8 c :: rest).
Proof.
  unfold store, zlen, zset. rewrite length_app. cbn [length].
  rewrite (proj2 (Z.leb_le 0 _)), (proj2 (Z.ltb_lt _ _)) by lia. cbn [andb].
  rewrite Nat2Z.id. by rewrite insert_app_r_alt, Nat.sub_diag by lia.
Qed.

Lemma u8_u8 x : u8 (u8 x) = u8 x.
Proof. unfold u8. apply Z.mod_mod. lia. Qed.

Lemma digit_char_byte base num : 2 <= base <= 16 → u8 (digit_char (num mod base)) = digit_char (num mod base).
Proof.
  intros Hb. apply u8_small. unfold digit_char. pose proof (Z.mod_pos_bound num base ltac:(lia)).
  destruct (Z.leb_spec (num mod base) 9); lia.
Qed.

Section digits.
Context (base : Z) (Hbase : 2 <= base <= 16).

Lemma div_smaller n num : 0 <= num < 2 ^ Z.of_nat (S n) → 0 <= num / base < 2 ^ Z.of_nat n.
Proof.
  rewrite Nat2Z.inj_succ, Z.pow_succ_r by lia. intros Hn. split; [apply Z.div_pos; lia|].
  apply Z.div_lt_upper_bound; [lia|]. nia.
Qed.

Lemma push_digits_spec n : ∀ num pre rest, 0 <= num < 2 ^ Z.of_nat n → (n <= length rest)%nat →
  ∃ rest', push_digits n num base (pre ++ rest) (zlen pre) =
    Done (pre ++ digits_rev n num base ++ rest', zlen (pre ++ digits_rev n num base)).
Proof.
  induction n as [|n IH]; intros num pre rest Hn Hr; cbn [push_digits digits_rev].
  - assert (num = 0) as -> by (cbn in Hn; lia). exists rest. by rewrite app_nil_r.
  - destruct (Z.eqb_spec num 0) as [->|Hne]; [exists rest; by rewrite app_nil_r|].
    destruct rest as [|x rest]; [cbn in Hr; lia|]. rewrite store_byte_app, digit_char_byte by done. cbn [obind].
    rewrite <- zlen_snoc with (x := digit_char (num mod base)). rewrite cons_middle, app_assoc.
    destruct (IH (num / base) (pre ++ [digit_char (num mod base)]) rest) as [rest' ->];
      [by apply div_smaller|cbn in Hr; lia|].
    exists rest'. by rewrite <- !app_assoc.
Qed.

(** The buffer holds the digits of the number in reverse. *)
Lemma fill_digits_spec num sta : 0 <= num < 2 ^ 64 → zlen sta = sta_size →
  ∃ rest, fill_digits num base sta = Done (rev (number_text num base) ++ rest, zlen (number_text num base)).
Proof.
  intros Hn Hs. unfold fill_digits, number_text. destruct (Z.eqb_spec num 0) as [->|Hne].
  - destruct sta as [|x sta]; [done|]. change 0 with (zlen (@nil Z)) at 1. rewrite (store_byte_app [] x sta). cbn [obind].
    exists sta. done.
  - cbn [obind]. assert (64 <= length sta)%nat by (unfold zlen, sta_size in Hs; lia).
    destruct (push_digits_spec 64 num [] sta) as [rest E]; [done|done|]. exists rest. rewrite rev_involutive.
    unfold zlen in *. rewrite length_rev. exact E.
Qed.

Lemma digits_rev_bytes n num : u8 <$> digits_rev n num base = digits_rev n num base.
Proof.
  revert num. induction n as [|n IH]; intros num; cbn; [done|]. destruct (num =? 0); [done|]. cbn.
  by rewrite digit_char_byte, IH.
Qed.

Lemma number_text_bytes num : u8 <$> number_text num base = number_text num base.
Proof.
  unfold number_text. destruct (num =? 0); [done|]. etrans; [exact (map_rev u8 _)|]. f_equal. apply digits_rev_bytes.
Qed.

Lemma digit_value_char num : digit_value (digit_char (num mod base)) = num mod base.
Proof.
  unfold digit_value, digit_char. pose proof (Z.mod_pos_bound num base ltac:(lia)).
  destruct (Z.leb_spec (num mod base) 9), (Z.ltb_spec (48 + num mod base) 97),
    (Z.ltb_spec (97 + num mod base - 10) 97); lia.
Qed.

Lemma digits_rev_value n : ∀ num, 0 <= num < 2 ^ Z.of_nat n → text_value base (rev (digits_rev n num base)) = num.
Proof.
  unfold text_value. induction n as [|n IH]; intros num Hn; cbn [digits_rev]; [cbn in *; lia|].
  destruct (Z.eqb_spec num 0) as [->|Hne]; [done|]. cbn [rev]. rewrite foldl_app. cbn [foldl].
  rewrite IH by (by apply div_smaller). rewrite digit_value_char. pose proof (Z.div_mod num base). lia.
Qed.

(** The text of a number denotes it. *)
Lemma number_text_value num : 0 <= num < 2 ^ 64 → text_value base (number_text num base) = num.
Proof.
  intros Hn. unfold number_text. destruct (Z.eqb_spec num 0) as [->|Hne]; [done|].
  apply (digits_rev_value 64). done.
Qed.
End digits.

(** * printf and sprintf against the meaning of the format *)

Lemma put_string_spec s : ∀ out, put_string s out = out ++ (u8 <$> s).
Proof.
  induction s as [|c s IH]; intros out; cbn; [by rewrite app_nil_r|]. rewrite IH. unfold putchar.
  by rewrite <- app_assoc.
Qed.

Lemma zget_top l x rest : zget ((l ++ [x]) ++ rest) (Z.of_nat (length l)) = x.
Proof. unfold zget. rewrite Nat2Z.id, <- app_assoc. cbn [app]. by rewrite list_lookup_middle. Qed.

Lemma pop_console_spec l rest : ∀ out, pop_console (length l) (l ++ rest) out = out ++ (u8 <$> rev l).
Proof.
  revert rest. induction l as [|x l IH] using rev_ind; intros rest out; [cbn; by rewrite app_nil_r|].
  rewrite length_app, Nat.add_comm. cbn [length Nat.add pop_console]. rewrite zget_top, <- app_assoc, IH.
  rewrite rev_unit. unfold putchar. cbn. by rewrite <- app_assoc.
Qed.

Lemma pop_buffer_spec l : ∀ rest pre d, (length l <= length d)%nat →
  pop_buffer (length l) (l ++ rest) (pre ++ d) (zlen pre) =
  Done (pre ++ (u8 <$> rev l) ++ drop (length l) d, zlen (pre ++ (u8 <$> rev l))).
Proof.
  induction l as [|x l IH] using rev_ind; intros rest pre d Hd; [cbn; by rewrite app_nil_r|].
  rewrite length_app in Hd |- *. rewrite Nat.add_comm in Hd |- *. cbn [length Nat.add pop_buffer] in *.
  destruct d as [|y d]; [cbn in Hd; lia|]. rewrite zget_top, store_byte_app. cbn [obind].
  rewrite <- zlen_snoc with (x := u8 x).
  replace (pre ++ u8 x :: d) with ((pre ++ [u8 x]) ++ d) by (by rewrite <- app_assoc).
  replace ((l ++ [x]) ++ rest) with (l ++ x :: rest) by (by rewrite <- app_assoc).
  rewrite IH by (cbn in Hd; lia). rewrite rev_unit. cbn. by rewrite <- !app_assoc.
Qed.

Lemma print_pos_spec num base sta out : 2 <= base <= 16 → 0 <= num < 2 ^ 64 → zlen sta = sta_size →
  print_pos num base sta out = Done (out ++ number_text num base).
Proof.
  intros Hb Hn Hs. unfold print_pos. destruct (fill_digits_spec base Hb num sta Hn Hs) as [rest ->]. cbn [obind].
  rewrite zlen_to_nat, <- length_rev, pop_console_spec, rev_involutive.
  by rewrite number_text_bytes by done.
Qed.

Lemma sprintf_print_pos_spec num base sta pre d : 2 <= base <= 16 → 0 <= num < 2 ^ 64 → zlen sta = sta_size →
  (length (number_text num base) <= length d)%nat →
  sprintf_print_pos (pre ++ d) (zlen pre) num base sta =
  Done (pre ++ number_text num base ++ drop (length (number_text num base)) d, zlen (pre ++ number_text num base)).
Proof.
  intros Hb Hn Hs Hd. unfold sprintf_print_pos. destruct (fill_digits_spec base Hb num sta Hn Hs) as [rest ->].
  cbn [obind]. rewrite zlen_to_nat, <- length_rev.
  rewrite pop_buffer_spec by (by rewrite length_rev). rewrite rev_involutive, length_rev.
  by rewrite number_text_bytes by done.
Qed.

Lemma u8_s32 z : u8 (s32 z) = u8 z.
Proof. unfold u8, s32. Z.div_mod_to_equations. lia. Qed.

Lemma s32_range z : - 2 ^ 31 <= s32 z < 2 ^ 31.
Proof. unfold s32. pose proof (Z.mod_pos_bound (z + 2 ^ 31) (2 ^ 32)). lia. Qed.

(** Both functions on one conversion. *)
Lemma printf_conv_spec conv arg args t sta out : zlen sta = sta_size → conv_text conv arg = Some t →
  printf_conv conv (arg :: args) sta out = Done (args, out ++ t).
Proof.
  intros Hs. unfold printf_conv, conv_text. destruct arg as [z|str].
  - destruct (conv =? 99); [intros [= <-]; cbn; unfold putchar; by rewrite u8_s32|]. destruct (conv =? 100).
    + cbn [va_int obind]. destruct (Z.eqb_spec (s32 z) (- 2 ^ 31)) as [|Hmin]; [done|]. intros [= <-].
      pose proof (s32_range z) as Hr.
      unfold printf_int, int_text, negate_int. destruct (Z.eqb_spec (s32 z) 0) as [->|]; [done|].
      destruct (Z.ltb_spec (s32 z) 0).
      * rewrite (proj2 (Z.eqb_neq (s32 z) (- 2 ^ 31))) by done. cbn [obind].
        rewrite u64_small, print_pos_spec by lia. unfold putchar. cbn [obind]. by rewrite <- app_assoc.
      * rewrite u64_small, print_pos_spec by lia. done.
    + assert (0 <= u64 z < 2 ^ 64) by (apply Z.mod_pos_bound; lia). cbn [va_size_t obind].
      destruct (conv =? 120); [intros [= <-]; by rewrite print_pos_spec by lia|].
      destruct (conv =? 98); [intros [= <-]; by rewrite print_pos_spec by lia|done].
  - destruct (Z.eqb_spec conv 115) as [->|]; [|done]. intros [= <-]. cbn. by rewrite put_string_spec.
Qed.

Lemma copy_string_spec s : ∀ pre d, (length s <= length d)%nat →
  copy_string s (pre ++ d) (zlen pre) = Done (pre ++ (u8 <$> s) ++ drop (length s) d, zlen (pre ++ (u8 <$> s))).
Proof.
  induction s as [|c s IH]; intros pre d Hd; cbn; [by rewrite app_nil_r|].
  destruct d as [|y d]; [cbn in Hd; lia|]. rewrite store_byte_app. cbn [obind]. rewrite <- zlen_snoc with (x := u8 c).
  replace (pre ++ u8 c :: d) with ((pre ++ [u8 c]) ++ d) by (by rewrite <- app_assoc).
  rewrite IH by (cbn in Hd; lia). by rewrite <- !app_assoc.
Qed.

Lemma sprintf_conv_spec conv arg args t sta pre d : zlen sta = sta_size → conv_text conv arg = Some t →
  (length t <= length d)%nat →
  sprintf_conv conv (arg :: args) sta (pre ++ d) (zlen pre) = Done (args, pre ++ t ++ drop (length t) d, zlen (pre ++ t)).
Proof.
  intros Hs. unfold sprintf_conv, conv_text. destruct arg as [z|str].
  - destruct (conv =? 99).
    { intros [= <-] Hd. destruct d as [|y d]; [cbn in Hd; lia|]. cbn [va_int obind]. rewrite store_byte_app, u8_s32.
      cbn [obind]. by rewrite zlen_snoc. }
    destruct (conv =? 100).
    + cbn [va_int obind]. destruct (Z.eqb_spec (s32 z) (- 2 ^ 31)) as [|Hmin]; [done|]. intros [= <-].
      pose proof (s32_range z) as Hr. unfold sprintf_int, int_text, negate_int.
      destruct (Z.eqb_spec (s32 z) 0) as [->|].
      { cbn. intros Hd. destruct d as [|y d]; [cbn in Hd; lia|]. rewrite store_byte_app. cbn [obind]. by rewrite zlen_snoc. }
      destruct (Z.ltb_spec (s32 z) 0); intros Hd.
      * destruct d as [|y d]; [cbn in Hd; lia|]. cbn [length] in Hd. rewrite store_byte_app. cbn [obind].
        rewrite (proj2 (Z.eqb_neq (s32 z) (- 2 ^ 31))) by done. cbn [obind].
        rewrite <- zlen_snoc with (x := u8 45).
        replace (pre ++ u8 45 :: d) with ((pre ++ [45]) ++ d) by (by rewrite <- app_assoc).
        rewrite u64_small, sprintf_print_pos_spec by lia. cbn [obind]. by rewrite <- !app_assoc.
      * rewrite u64_small, sprintf_print_pos_spec by lia. done.
    + assert (0 <= u64 z < 2 ^ 64) by (apply Z.mod_pos_bound; lia). cbn [va_size_t obind].
      destruct (conv =? 120); [intros [= <-] Hd; by rewrite sprintf_print_pos_spec by lia|].
      destruct (conv =? 98); [intros [= <-] Hd; by rewrite sprintf_print_pos_spec by lia|done].
  - destruct (Z.eqb_spec conv 115) as [->|]; [|done]. intros [= <-] Hd. cbn. rewrite length_fmap in *.
    by rewrite copy_string_spec by done.
Qed.

(** Unfolding [render] at a conversion. *)
Lemma render_conv conv format args t : render (37 :: conv :: format) args = Some t →
  ∃ arg args' t1 t2, args = arg :: args' ∧ conv_text conv arg = Some t1 ∧ render format args' = Some t2 ∧ t = t1 ++ t2.
Proof.
  cbn. destruct args as [|arg args']; [done|]. destruct (conv_text conv arg) as [t1|] eqn:E1; [|done]. cbn.
  destruct (render format args') as [t2|] eqn:E2; [|done]. cbn. intros [= <-]. eauto 10.
Qed.

(** Formats are read two characters at a conversion. *)
Lemma format_ind (P : list Z → Prop) :
  P [] → P [37] → (∀ conv f, P f → P (37 :: conv :: f)) → (∀ c f, c ≠ 37 → P f → P (c :: f)) → ∀ f, P f.
Proof.
  intros H0 H1 H2 H3. assert (∀ n f, (length f <= n)%nat → P f) as H.
  { induction n as [|n IH]; intros [|c f] Hl; cbn in Hl; try done; try lia.
    destruct (Z.eq_dec c 37) as [->|Hc]; [|apply H3; [done|apply IH; lia]].
    destruct f as [|conv f]; [done|]. apply H2, IH. cbn in Hl. lia. }
  intros f. by apply (H (length f)).
Qed.

Lemma printf_spec format : ∀ args t sta out, zlen sta = sta_size → render format args = Some t →
  printf format args sta out = Done (out ++ t).
Proof.
  induction format as [| |conv f IH|c f Hc IH] using format_ind; intros args t sta out Hs Ht.
  - cbn in *. simplify_eq. by rewrite app_nil_r.
  - done.
  - apply render_conv in Ht as (arg & args' & t1 & t2 & -> & E1 & E2 & ->).
    cbn [printf Z.eqb Pos.eqb]. rewrite (printf_conv_spec _ _ _ _ _ _ Hs E1). cbn [obind].
    rewrite (IH _ _ _ _ Hs E2). by rewrite <- app_assoc.
  - cbn in *. rewrite (proj2 (Z.eqb_neq c 37)) in * by done. destruct (render f args) as [ts|] eqn:E; [|done].
    cbn in Ht. simplify_eq. rewrite (IH _ _ _ _ Hs E). unfold putchar. by rewrite <- app_assoc.
Qed.

Lemma sprintf_loop_spec format : ∀ args t sta pre d, zlen sta = sta_size → render format args = Some t →
  (length t <= length d)%nat →
  sprintf_loop format args sta (pre ++ d) (zlen pre) = Done (pre ++ t ++ drop (length t) d, zlen (pre ++ t)).
Proof.
  induction format as [| |conv f IH|c f Hc IH] using format_ind; intros args t sta pre d Hs Ht Hd.
  - cbn in *. simplify_eq. by rewrite app_nil_r.
  - done.
  - apply render_conv in Ht as (arg & args' & t1 & t2 & -> & E1 & E2 & ->). rewrite length_app in Hd.
    cbn [sprintf_loop Z.eqb Pos.eqb]. rewrite (sprintf_conv_spec _ _ _ t1) by (done || lia). cbn [obind].
    rewrite app_assoc, (IH _ t2) by (done || rewrite length_drop; lia).
    by rewrite drop_drop, length_app, <- !app_assoc.
  - cbn in *. rewrite (proj2 (Z.eqb_neq c 37)) in * by done. destruct (render f args) as [ts|] eqn:E; [|done].
    cbn in Ht. simplify_eq. destruct d as [|y d]; [cbn in Hd; lia|]. cbn [length] in Hd.
    rewrite store_byte_app. cbn [obind]. rewrite <- zlen_snoc with (x := u8 c).
    replace (pre ++ u8 c :: d) with ((pre ++ [u8 c]) ++ d) by (by rewrite <- app_assoc).
    rewrite (IH _ ts) by (done || lia). by rewrite <- !app_assoc.
Qed.

(** C18: [printf] and [sprintf] produce the text that the format and its
    arguments mean: [printf] appends it to the console; [sprintf] writes it
    and a terminator to the start of a buffer that is large enough and leaves
    the rest of it alone.  Numbers are written in decimal, hexadecimal or
    binary digits that denote them. *)
Theorem formatted_output format args t sta out dist :
  zlen sta = sta_size → render format args = Some t → zlen t < zlen dist →
  printf format args sta out = Done (out ++ t) ∧
  sprintf dist format args sta = Done (t ++ 0 :: drop (S (length t)) dist) ∧
  (∀ base z, base = 2 ∨ base = 10 ∨ base = 16 → text_value base (number_text (u64 z) base) = u64 z).
Proof.
  intros Hs Ht Hd. split; [by apply printf_spec|]. split.
  - assert (Hl : (length t < length dist)%nat) by (unfold zlen in Hd; lia).
    pose proof (sprintf_loop_spec format args t sta [] dist Hs Ht ltac:(lia)) as E0.
    unfold sprintf. change 0 with (zlen (@nil Z)) at 1. cbn [app] in E0. rewrite E0. cbn [obind].
    destruct (drop (length t) dist) as [|y d] eqn:E.
    + apply (f_equal length) in E. rewrite length_drop in E. cbn in E. lia.
    + rewrite store_byte_app. do 3 f_equal. rewrite <- Nat.add_1_r, <- drop_drop, E. done.
  - intros base z Hb. apply number_text_value; [lia|]. apply Z.mod_pos_bound. lia.
Qed.

(** "/%s" on "bin" in a buffer of eight bytes, as [execute] builds a path,
    and a negative number. *)
Lemma formatted_output_witness :
  printf [47; 37; 115] [VStr [98; 105; 110]] (replicate 100 7) [62] = Done [62; 47; 98; 105; 110] ∧
  sprintf [1; 2; 3; 4; 5; 6; 7; 8] [47; 37; 115] [VStr [98; 105; 110]] (replicate 100 7) =
    Done [47; 98; 105; 110; 0; 6; 7; 8] ∧
  (∀ base z, base = 2 ∨ base = 10 ∨ base = 16 → text_value base (number_text (u64 z) base) = u64 z).
Proof.
  exact (formatted_output [47; 37; 115] [VStr [98; 105; 110]] [47; 98; 105; 110] (replicate 100 7) [62]
           [1; 2; 3; 4; 5; 6; 7; 8] eq_refl eq_refl eq_refl).
Defined.
Example printf_negative : printf [37; 100] [VInt (-42)] (replicate 100 0) [] = Done [45; 52; 50].
Proof. vm_compute. reflexivity. Qed.

(** A format that ends in a per cent sign is read past its terminator. *)
Lemma printf_percent_at_end args sta out : printf [37] args sta out = Wild.
Proof. done. Qed.
