(* ===== verification/KString.v ===== *)
(** Strings of the kernel (lib/stl/string.h, string.cpp) and the C functions
    under them (kernel/stl.cpp).

    A [String] owns a buffer of [_capacity] bytes, here the list of its
    bytes; what [new char[n]] returns is uninitialised, the parameter [fresh].
    Reading or writing outside a buffer is [Wild].  Where a method takes the
    string itself as its argument the buffers are shared and the method is
    modelled separately ([.._self]). *)
From Stdlib Require Import ZArith Lia.
From stdpp Require Import base list numbers option.
From S2P Require Import Prelude KBase KStdio.

Local Open Scope Z_scope.
Local Open Scope out_scope.

(** * stl.cpp *)

Definition load (buf : list Z) (i : Z) : outcome Z :=
  if (0 <=? i) && (i <? zlen buf) then Done (zget buf i) else Wild.

(** [memcpy(to + at, from, size)] between two buffers, byte by byte. *)
Fixpoint memcpy (size : nat) (to : list Z) (at_ : Z) (from : list Z) (i : Z) : outcome (list Z) :=
  match size with
  | O => Done to
  | S size =>
    do c := load from i in
    do to := store to (at_ + i) c in
    memcpy size to at_ from (i + 1)
  end.

(** The same within one buffer. *)
Fixpoint memcpy_within (size : nat) (buf : list Z) (at_ : Z) (i : Z) : outcome (list Z) :=
  match size with
  | O => Done buf
  | S size =>
    do c := load buf i in
    do buf := store buf (at_ + i) c in
    memcpy_within size buf at_ (i + 1)
  end.

Fixpoint strlen_loop (s : list Z) (n : Z) : outcome Z :=
  match s with
  | [] => Wild
  | c :: s => if c =? 0 then Done n else strlen_loop s (n + 1)
  end.
Definition strlen (s : list Z) : outcome Z := strlen_loop s 0.

Fixpoint strcmp (cs ct : list Z) : outcome Z :=
  match cs, ct with
  | c1 :: cs, c2 :: ct =>
    if negb (u8 c1 =? u8 c2) then Done (if u8 c1 <? u8 c2 then -1 else 1)
    else if u8 c1 =? 0 then Done 0 else strcmp cs ct
  | _, _ => Wild
  end.

Definition strcpy (to from : list Z) : outcome (list Z) :=
  do len := strlen from in
  do to := memcpy (Z.to_nat len) to 0 from 0 in
  store to len 0.

(** * string.cpp *)

Record String : Type := mkString { _capacity : Z; _length : Z; data : list Z }.
Definition INIT_CAPACITY : Z := 10.
Definition zeros (n : Z) : list Z := replicate (Z.to_nat n) 0.

Section string.
Context (fresh : Z → list Z).

(** A buffer of [len + 1] bytes with a copy of the first [len + 1] bytes of
    [src], as the constructors and assignments make it. *)
Definition copy_of (src : list Z) (len : Z) : outcome String :=
  do d := memcpy (Z.to_nat (len + 1)) (fresh (len + 1)) 0 src 0 in
  Done (mkString (len + 1) len d).

Definition String_cstr (str : list Z) : outcome String := do len := strlen str in copy_of str len.
Definition String_default : String := mkString INIT_CAPACITY 0 (zeros INIT_CAPACITY).
Definition String_length (length : Z) : String := mkString (length + 1) length (zeros (length + 1)).
Definition String_copy (b : String) : outcome String := copy_of (data b) (_length b).
(** The new string and what is left of [b]. *)
Definition String_move (b : String) : String * String := (b, String_default).

Definition assign (str : String) : outcome String := copy_of (data str) (_length str).
Definition assign_cstr (str : list Z) : outcome String := do len := strlen str in copy_of str len.
(** [s = s]: the buffer is released before it is copied, so the new buffer
    is copied to itself. *)
Definition assign_self (this : String) : outcome String :=
  let cap := _length this + 1 in
  do d := memcpy_within (Z.to_nat cap) (fresh cap) 0 0 in
  Done (mkString cap (_length this) d).

Definition plus (this b : String) : outcome String :=
  let r := String_length (_length this + _length b) in
  do d := memcpy (Z.to_nat (_length this)) (data r) 0 (data this) 0 in
  do d := memcpy (Z.to_nat (_length b)) d (_length this) (data b) 0 in
  do d := store d (_length this + _length b + 1) 0 in
  Done (mkString (_capacity r) (_length r) d).

Definition append (this b : String) : outcome String :=
  let len := _length this + _length b in
  if _capacity this <? len + 1 then
    let new_capacity := Z.max (_capacity this * 2) (len + 1) in
    do d := memcpy (Z.to_nat (_length this)) (fresh new_capacity) 0 (data this) 0 in
    do d := memcpy (Z.to_nat (_length b + 1)) d (_length this) (data b) 0 in
    Done (mkString new_capacity len d)
  else
    do d := memcpy (Z.to_nat (_length b + 1)) (data this) (_length this) (data b) 0 in
    Done (mkString (_capacity this) len d).
(** [s += s]: only the branch without a new buffer shares memory. *)
Definition append_self (this : String) : outcome String :=
  let len := _length this + _length this in
  if _capacity this <? len + 1 then append this this
  else
    do d := memcpy_within (Z.to_nat (_length this + 1)) (data this) (_length this) 0 in
    Done (mkString (_capacity this) len d).

Fixpoint eq_loop (n : nat) (a b : list Z) (i : Z) : outcome bool :=
  match n with
  | O => Done true
  | S n =>
    do x := load a i in
    do y := load b i in
    if negb (x =? y) then Done false else eq_loop n a b (i + 1)
  end.
Definition equals (this b : String) : outcome bool :=
  if negb (_length this =? _length b) then Done false
  else eq_loop (Z.to_nat (_length this)) (data this) (data b) 0.

Definition less (this b : String) : outcome bool :=
  do r := strcmp (data this) (data b) in Done (r <? 0).

(** The digits are stored from the end of a stack buffer of 30 bytes, with
    no terminator after them. *)
Fixpoint digit_store (n : nat) (num : Z) (buf : list Z) (length : Z) : outcome (list Z * Z) :=
  if num =? 0 then Done (buf, length) else
  match n with
  | O => Loop
  | S n =>
    do buf := store buf (30 - 1 - length) (num mod 10 + 48) in
    digit_store n (num / 10) buf (length + 1)
  end.

Definition to_string_ull (buf : list Z) (n : Z) : outcome String :=
  if n =? 0 then String_cstr [48; 0] else
  do (buf, length) := digit_store 20 n buf 0 in
  String_cstr (drop (Z.to_nat (30 - length)) buf).

Definition to_string_ll (buf : list Z) (n : Z) : outcome String :=
  if n =? 0 then String_cstr [48; 0]
  else if 0 <? n then
    do (buf, length) := digit_store 20 n buf 0 in
    String_cstr (drop (Z.to_nat (30 - length)) buf)
  else if n =? - 2 ^ 63 then Wild
  else
    do (buf, length) := digit_store 20 (- n) buf 0 in
    do buf := store buf (30 - 1 - length) 45 in
    String_cstr (drop (Z.to_nat (30 - (length + 1))) buf).
End string.

(** * Strings as sequences *)

(** A string that holds the text [v]: the text and a terminator are in its
    buffer. *)
Definition str_ok (s : String) (v : list Z) : Prop :=
  zlen (data s) = _capacity s ∧ _length s = zlen v ∧ bytes v ∧ ∃ rest, data s = v ++ 0 :: rest.

Definition no_nul (v : list Z) : Prop := Forall (λ c, c ≠ 0) v.

(** Lexicographic order on texts. *)
Fixpoint lex_lt (v w : list Z) : bool :=
  match v, w with
  | [], [] => false
  | [], _ :: _ => true
  | _ :: _, [] => false
  | a :: v, b :: w => if a =? b then lex_lt v w else a <? b
  end.

Lemma load_byte_app pre x rest : load (pre ++ x :: rest) (zlen pre) = Done x.
Proof.
  unfold load, zget, zlen. rewrite length_app. cbn [length].
  rewrite (proj2 (Z.leb_le 0 _)), (proj2 (Z.ltb_lt _ _)) by lia. cbn [andb].
  by rewrite Nat2Z.id, list_lookup_middle.
Qed.

(** Copying [src] after [pre]: the destination has room for it. *)
Lemma memcpy_spec src : ∀ done_ pre d after, (length src <= length d)%nat → bytes src →
  memcpy (length src) (pre ++ done_ ++ d) (zlen pre) (done_ ++ src ++ after) (zlen done_) =
  Done (pre ++ done_ ++ src ++ drop (length src) d).
Proof.
  unfold bytes. induction src as [|c src IH]; intros done_ pre d after Hd Hb; cbn; [done|].
  destruct d as [|y d]; [cbn in Hd; lia|]. apply Forall_cons_1 in Hb as [Hc Hb].
  rewrite load_byte_app. cbn [obind].
  replace (zlen pre + zlen done_) with (zlen (pre ++ done_)) by (unfold zlen; rewrite length_app; lia).
  rewrite app_assoc, store_byte_app, u8_small by exact Hc. cbn [obind].
  rewrite <- zlen_snoc with (x := c).
  replace ((pre ++ done_) ++ c :: d) with (pre ++ (done_ ++ [c]) ++ d) by (by rewrite <- !app_assoc).
  replace (done_ ++ c :: src ++ after) with ((done_ ++ [c]) ++ src ++ after) by (by rewrite <- !app_assoc).
  rewrite IH by (done || cbn in Hd; lia). by rewrite <- !app_assoc.
Qed.

(** From the start of the source. *)
Lemma memcpy_at pre src d after : (length src <= length d)%nat → bytes src →
  memcpy (length src) (pre ++ d) (zlen pre) (src ++ after) 0 = Done (pre ++ src ++ drop (length src) d).
Proof. exact (memcpy_spec src [] pre d after). Qed.

Lemma strlen_loop_spec v rest : ∀ n, no_nul v → strlen_loop (v ++ 0 :: rest) n = Done (n + zlen v).
Proof.
  unfold no_nul. induction v as [|c v IH]; intros n Hv; cbn; [f_equal; unfold zlen; cbn; lia|].
  apply Forall_cons_1 in Hv as [Hc Hv]. rewrite (proj2 (Z.eqb_neq c 0)) by done. rewrite IH by done.
  f_equal. unfold zlen. cbn [length]. lia.
Qed.

Lemma strlen_wild v n : no_nul v → strlen_loop v n = Wild.
Proof.
  unfold no_nul. revert n. induction v as [|c v IH]; intros n Hv; cbn; [done|]. apply Forall_cons_1 in Hv as [Hc Hv].
  rewrite (proj2 (Z.eqb_neq c 0)) by done. by apply IH.
Qed.

Lemma strcmp_spec v : ∀ w r1 r2, no_nul v → no_nul w → bytes v → bytes w →
  ∃ r, strcmp (v ++ 0 :: r1) (w ++ 0 :: r2) = Done r ∧ (r <? 0) = lex_lt v w ∧ (r = 0 ↔ v = w).
Proof.
  unfold no_nul, bytes. induction v as [|a v IH]; intros [|b w] r1 r2 Hv Hw Bv Bw; cbn.
  - by exists 0.
  - apply Forall_cons_1 in Hw as [Hb _], Bw as [Bb _]. rewrite (u8_small b) by exact Bb. change (u8 0) with 0.
    unfold is_byte in Bb. rewrite (proj2 (Z.eqb_neq 0 b)), (proj2 (Z.ltb_lt 0 b)) by lia. by exists (-1).
  - apply Forall_cons_1 in Hv as [Ha _], Bv as [Ba _]. rewrite (u8_small a) by exact Ba. change (u8 0) with 0.
    unfold is_byte in Ba. rewrite (proj2 (Z.eqb_neq a 0)), (proj2 (Z.ltb_ge a 0)) by lia. by exists 1.
  - apply Forall_cons_1 in Hv as [Ha Hv], Bv as [Ba Bv], Hw as [Hb Hw], Bw as [Bb Bw].
    rewrite (u8_small a), (u8_small b) by assumption. destruct (Z.eqb_spec a b) as [->|Hne]; cbn [negb].
    + rewrite (proj2 (Z.eqb_neq b 0)) by done. destruct (IH w r1 r2) as (r & E & L & Q); try done.
      exists r. split; [done|]. split; [done|]. rewrite Q. split; congruence.
    + eexists. split; [reflexivity|]. destruct (Z.ltb_spec a b); (split; [done|]); split; intros; simplify_eq; lia.
Qed.

Lemma bytes_terminated v : bytes v → bytes (v ++ [0]).
Proof. intros Hv. apply Forall_app_2; [done|]. apply Forall_singleton. unfold is_byte. lia. Qed.

(** * The methods *)

Section methods.
Context (fresh : Z → list Z) (Hfresh : ∀ n, 0 <= n → zlen (fresh n) = n).

Lemma copy_of_spec v rest : bytes v → ∃ s, copy_of fresh (v ++ 0 :: rest) (zlen v) = Done s ∧ str_ok s v.
Proof.
  intros Hv. unfold copy_of. set (n := zlen v + 1). assert (0 <= zlen v) by (unfold zlen; lia).
  assert (Hn : Z.to_nat n = length (v ++ [0])) by (unfold n, zlen; rewrite length_app; cbn; lia).
  assert (Hl : length (fresh n) = length (v ++ [0])).
  { pose proof (Hfresh n ltac:(lia)) as E. unfold zlen in E. lia. }
  assert (Hb : bytes (v ++ [0])) by (by apply bytes_terminated).
  rewrite Hn. replace (v ++ 0 :: rest) with ((v ++ [0]) ++ rest) by (by rewrite <- app_assoc).
  pose proof (memcpy_at [] (v ++ [0]) (fresh n) rest ltac:(lia) Hb) as E. cbn [app] in E.
  change (zlen []) with 0 in E. rewrite E. cbn [obind]. eexists. split; [reflexivity|].
  rewrite drop_ge by lia. rewrite app_nil_r. unfold str_ok. cbn [data _capacity _length].
  split; [unfold n, zlen; rewrite length_app; cbn; lia|]. split; [done|]. split; [done|]. by exists [].
Qed.

Lemma append_spec s b v w : str_ok s v → str_ok b w → ∃ r, append fresh s b = Done r ∧ str_ok r (v ++ w).
Proof.
  intros (Cs & Ls & Bv & rs & Ds) (Cb & Lb & Bw & rb & Db). unfold append. rewrite Ls, Lb.
  assert (Hn : Z.to_nat (zlen w + 1) = length (w ++ [0])) by (unfold zlen; rewrite length_app; cbn; lia).
  assert (Hb : bytes (w ++ [0])) by (by apply bytes_terminated).
  assert (Hs : data b = (w ++ [0]) ++ rb) by (by rewrite Db, <- app_assoc).
  assert (Ok : ∀ cap d, zlen (v ++ (w ++ [0]) ++ d) = cap →
    str_ok (mkString cap (zlen v + zlen w) (v ++ (w ++ [0]) ++ d)) (v ++ w)).
  { intros cap d Hcap. unfold str_ok. cbn [data _capacity _length]. split; [done|].
    split; [unfold zlen; rewrite length_app; lia|]. split; [by apply Forall_app_2|]. exists d. by rewrite <- !app_assoc. }
  destruct (Z.ltb_spec (_capacity s) (zlen v + zlen w + 1)) as [Hg|Hg].
  - set (cap := Z.max (_capacity s * 2) (zlen v + zlen w + 1)).
    assert (Hf : zlen (fresh cap) = cap) by (apply Hfresh; unfold cap, zlen; lia).
    assert (Hl : (length v + length w + 1 <= length (fresh cap))%nat) by (unfold cap, zlen in *; lia).
    pose proof (memcpy_at [] v (fresh cap) (0 :: rs) ltac:(lia) Bv) as E1. cbn [app] in E1.
    change (zlen []) with 0 in E1. rewrite Ds, zlen_to_nat, E1. cbn [obind].
    rewrite Hn, Hs, memcpy_at by (done || rewrite length_drop, length_app; cbn; lia). cbn [obind].
    eexists. split; [reflexivity|]. apply Ok. unfold zlen in *. rewrite !length_app, !length_drop, ?length_app. cbn in *. lia.
  - rewrite Hn, Hs, Ds.
    assert (Hr : zlen v + 1 + zlen rs = _capacity s).
    { rewrite <- Cs, Ds. unfold zlen. rewrite length_app. cbn. lia. }
    rewrite memcpy_at by (done || rewrite length_app; unfold zlen in *; cbn; lia). cbn [obind].
    eexists. split; [reflexivity|]. apply Ok. unfold zlen in *. rewrite !length_app, length_drop, ?length_app. cbn in *. lia.
Qed.

Lemma eq_loop_spec v w : ∀ pv pw r1 r2, length v = length w → zlen pv = zlen pw →
  eq_loop (length v) (pv ++ v ++ r1) (pw ++ w ++ r2) (zlen pv) = Done (bool_decide (v = w)).
Proof.
  revert w. induction v as [|a v IH]; intros [|b w] pv pw r1 r2 Hl Hp; cbn in Hl; try done.
  cbn [length eq_loop app]. rewrite load_byte_app. cbn [obind]. rewrite Hp, load_byte_app. cbn [obind].
  destruct (Z.eqb_spec a b) as [->|Hne]; cbn [negb].
  - rewrite <- zlen_snoc with (x := b) (l := pw).
    replace (pv ++ b :: v ++ r1) with ((pv ++ [b]) ++ v ++ r1) by (by rewrite <- app_assoc).
    replace (pw ++ b :: w ++ r2) with ((pw ++ [b]) ++ w ++ r2) by (by rewrite <- app_assoc).
    replace (zlen (pw ++ [b])) with (zlen (pv ++ [b])) by (rewrite !zlen_snoc; lia).
    rewrite IH by (lia || rewrite !zlen_snoc; lia). f_equal. apply bool_decide_ext. split; congruence.
  - f_equal. symmetry. apply bool_decide_eq_false_2. congruence.
Qed.

Lemma equals_spec s b v w : str_ok s v → str_ok b w → equals s b = Done (bool_decide (v = w)).
Proof.
  intros (_ & Ls & _ & rs & Ds) (_ & Lb & _ & rb & Db). unfold equals. rewrite Ls, Lb.
  destruct (Z.eqb_spec (zlen v) (zlen w)) as [E|Hne]; cbn [negb].
  - rewrite zlen_to_nat, Ds, Db. apply (eq_loop_spec v w [] []); [unfold zlen in E; lia|done].
  - f_equal. symmetry. apply bool_decide_eq_false_2. by intros ->.
Qed.
End methods.

(** C28: Strings are sequences of characters: the empty string, copies,
    assignments and moves hold the text they should, appending holds the
    concatenation whether or not the buffer has to grow, [==] decides equality
    and [<] is the lexicographic order of texts without terminators inside. *)
Theorem strings_are_sequences fresh s b v w :
  (∀ n, 0 <= n → zlen (fresh n) = n) → str_ok s v → str_ok b w → no_nul v → no_nul w →
  str_ok String_default [] ∧
  (∃ r, String_cstr fresh (v ++ [0]) = Done r ∧ str_ok r v) ∧
  (∃ r, String_copy fresh b = Done r ∧ str_ok r w) ∧ (∃ r, assign fresh b = Done r ∧ str_ok r w) ∧
  (str_ok (fst (String_move b)) w ∧ str_ok (snd (String_move b)) []) ∧
  (∃ r, append fresh s b = Done r ∧ str_ok r (v ++ w)) ∧
  equals s b = Done (bool_decide (v = w)) ∧ less s b = Done (lex_lt v w).
Proof.
  intros Hf Hs Hb Nv Nw.
  assert (D : str_ok String_default []) by (split_and!; [done|done|constructor|by eexists]).
  assert (C : ∀ src, (∃ rest, src = w ++ 0 :: rest) → ∃ r, copy_of fresh src (zlen w) = Done r ∧ str_ok r w).
  { intros src [rest ->]. apply copy_of_spec; [done|apply Hb]. }
  split; [done|]. split_and!; try done.
  - unfold String_cstr, strlen. rewrite (strlen_loop_spec v []) by done. apply copy_of_spec; [done|apply Hs].
  - destruct Hb as (_ & Lb & _ & Db). unfold String_copy. rewrite Lb. by apply C.
  - destruct Hb as (_ & Lb & _ & Db). unfold assign. rewrite Lb. by apply C.
  - by apply append_spec.
  - by apply equals_spec.
  - destruct Hs as (_ & _ & Bv & r1 & D1), Hb as (_ & _ & Bw & r2 & D2). unfold less. rewrite D1, D2.
    destruct (strcmp_spec v w r1 r2 Nv Nw Bv Bw) as (r & -> & L & _). cbn [obind]. by rewrite L.
Qed.

Definition ex_fresh (n : Z) : list Z := replicate (Z.to_nat n) 170.
Definition ex_ab : String := mkString 3 2 [97; 98; 0].
Definition ex_abc : String := mkString 5 3 [97; 98; 99; 0; 7].

Lemma strings_are_sequences_witness :
  str_ok ex_ab [97; 98] ∧ str_ok ex_abc [97; 98; 99] ∧
  (∃ r, append ex_fresh ex_ab ex_abc = Done r ∧ str_ok r [97; 98; 97; 98; 99]) ∧
  equals ex_ab ex_abc = Done false ∧ less ex_ab ex_abc = Done true.
Proof.
  assert (A : str_ok ex_ab [97; 98]).
  { split_and!; [done|done|unfold bytes, is_byte; repeat constructor; lia|by exists []]. }
  assert (B : str_ok ex_abc [97; 98; 99]).
  { split_and!; [done|done|unfold bytes, is_byte; repeat constructor; lia|by exists [7]]. }
  destruct (strings_are_sequences ex_fresh ex_ab ex_abc [97; 98] [97; 98; 99])
    as (_ & _ & _ & _ & _ & Ha & He & Hl).
  - intros n Hn. unfold ex_fresh, zlen. rewrite length_replicate. lia.
  - exact A.
  - exact B.
  - unfold no_nul. repeat constructor; lia.
  - unfold no_nul. repeat constructor; lia.
  - exact (conj A (conj B (conj Ha (conj He Hl)))).
Defined.

(** [operator+] writes its terminator one byte past the buffer of the
    result, whatever the operands. *)
Lemma plus_overruns s b v w : str_ok s v → str_ok b w → plus s b = Wild.
Proof.
  intros (_ & Ls & Bv & rs & Ds) (_ & Lb & Bw & rb & Db). unfold plus. rewrite Ls, Lb, Ds, Db.
  cbn [String_length data]. set (z := zeros (zlen v + zlen w + 1)).
  assert (Hz : length z = (length v + length w + 1)%nat) by (unfold z, zeros, zlen; rewrite length_replicate; lia).
  pose proof (memcpy_at [] v z (0 :: rs) ltac:(lia) Bv) as E1. cbn [app] in E1. change (zlen []) with 0 in E1.
  rewrite !zlen_to_nat, E1. cbn [obind]. rewrite memcpy_at by (done || rewrite length_drop; lia). cbn [obind].
  unfold store. rewrite (proj2 (Z.ltb_ge _ _)), andb_false_r; [done|].
  unfold zlen. rewrite !length_app, !length_drop. lia.
Qed.

(** [a + b] on the characters of two strings: the operands in buffers of
    their own, the characters of the result. *)
Definition string_of (v : list Z) : String := mkString (zlen v + 1) (zlen v) (v ++ [0]).
Definition string_add (a b : list Z) : outcome (list Z) :=
  do r := plus (string_of a) (string_of b) in Done (take (Z.to_nat (_length r)) (data r)).

Lemma string_add_overruns a b : bytes a → bytes b → string_add a b = Wild.
Proof.
  assert (∀ v, bytes v → str_ok (string_of v) v) as H.
  { intros v Hv. split_and!; [|done|done|by exists []]. unfold string_of, zlen. cbn [data _capacity]. rewrite length_app. simpl. lia. }
  intros Ha Hb. unfold string_add. by rewrite (plus_overruns _ _ _ _ (H a Ha) (H b Hb)).
Qed.

(** The digits of a number are stored without a zero byte among them. *)
Lemma digit_store_spec n : ∀ num pre post, 0 <= num < 10 ^ Z.of_nat n → (n <= length pre)%nat →
  (length pre + length post = 30)%nat → no_nul post →
  ∃ pre' post', digit_store n num (pre ++ post) (zlen post) = Done (pre' ++ post', zlen post') ∧
    (length pre' + length post' = 30)%nat ∧ (length pre - n <= length pre')%nat ∧ no_nul post'.
Proof.
  induction n as [|n IH]; intros num pre post Hn Hp Hl Hnul; cbn [digit_store].
  - assert (num = 0) as -> by (cbn in Hn; lia). exists pre, post. split_and!; [done|done|lia|done].
  - destruct (Z.eqb_spec num 0) as [->|Hne]; [exists pre, post; split_and!; [done|done|lia|done]|].
    destruct pre as [|x pre _] using rev_ind; [cbn in Hp; lia|]. rewrite length_app in Hp, Hl. cbn in Hp, Hl.
    replace (30 - 1 - zlen post) with (zlen pre) by (unfold zlen; lia).
    rewrite <- app_assoc. cbn [app]. rewrite store_byte_app. cbn [obind].
    pose proof (Z.mod_pos_bound num 10 ltac:(lia)).
    rewrite u8_small by lia. replace (zlen post + 1) with (zlen (num mod 10 + 48 :: post)) by (unfold zlen; cbn; lia).
    destruct (IH (num / 10) pre (num mod 10 + 48 :: post)) as (p1 & p2 & E & L1 & L2 & N).
    + rewrite Nat2Z.inj_succ, Z.pow_succ_r in Hn by lia. split; [apply Z.div_pos; lia|apply Z.div_lt_upper_bound; lia].
    + lia.
    + cbn. lia.
    + constructor; [lia|done].
    + exists p1, p2. rewrite length_app. cbn. split_and!; [done|done|lia|done].
Qed.

(** [to_string] hands the digits over without a terminator: the length is
    sought past the end of its buffer. *)
Lemma to_string_unterminated fresh buf n : zlen buf = 30 → 0 < n < 2 ^ 64 → to_string_ull fresh buf n = Wild.
Proof.
  intros Hb Hn. unfold to_string_ull. rewrite (proj2 (Z.eqb_neq n 0)) by lia.
  destruct (digit_store_spec 20 n buf []) as (p1 & p2 & E & L & _ & N);
    [cbn; lia|unfold zlen in Hb; lia|cbn; unfold zlen in Hb; lia|constructor|].
  rewrite app_nil_r in E. change (zlen []) with 0 in E. rewrite E. cbn [obind].
  replace (Z.to_nat (30 - zlen p2)) with (length p1) by (unfold zlen; lia).
  rewrite drop_app_length. unfold String_cstr, strlen. by rewrite strlen_wild.
Qed.

(** Strings given themselves: an assignment leaves an uninitialised buffer, and
    appending in place loses the terminator. *)
Example assign_self_loses : assign_self ex_fresh ex_ab = Done (mkString 3 2 [170; 170; 170]).
Proof. vm_compute. reflexivity. Qed.
Example append_self_unterminated :
  append_self ex_fresh (mkString 6 2 [97; 98; 0; 1; 2; 3]) = Done (mkString 6 4 [97; 98; 97; 98; 97; 3]).
Proof. vm_compute. reflexivity. Qed.
