(* ===== verification/SdCard.v ===== *)
(** The SD card driver of the K210 configuration: driver/sdcard.c and the
    branches of driver/fatfs/diskio.c that call it.

    The card hangs on the SPI bus: [SpiCard] has the three things the driver
    does to it through spi.c and gpiohs.c, namely to clock a byte out, to
    clock a byte in and to drive its select pin. [SdCardLaws] is what the
    physical layer specification promises of a card in SPI mode. Messages
    printed by the driver are left out. *)
From Stdlib Require Import ZArith Lia.
From stdpp Require Import base list numbers option gmap.
From S2P Require Import Sysctl Fpioa.
From S2P Require Import Prelude BlockDevice FfRead KBase.

Local Open Scope Z_scope.

(** * The bus *)

Class SpiCard (C : Type) : Type := {
  clock_out : Z → C → C;
  clock_in : C → Z * C;
  select_pin : bool → C → C   (* [true]: pulled low, the card is selected *)
}.

(** Up to [p] turns of a loop whose body continues with [inl] and leaves it
    with [inr]. *)
Fixpoint turns {St R : Type} (p : positive) (body : St → St + R) (s : St) : St + R :=
  match p with
  | xH => body s
  | xO p => match turns p body s with inl s => turns p body s | inr r => inr r end
  | xI p =>
      match body s with
      | inr r => inr r
      | inl s => match turns p body s with inl s => turns p body s | inr r => inr r end
      end
  end.

(** * The driver *)

Section driver.
Context {C : Type} {SC : SpiCard C}.

Definition SD_CS_HIGH (c : C) : C := select_pin false c.
Definition SD_CS_LOW (c : C) : C := select_pin true c.

Definition sd_write_data (data_buff : list Z) (c : C) : C := foldl (λ c b, clock_out b c) c data_buff.

Fixpoint sd_read_data (length : nat) (c : C) : list Z * C :=
  match length with
  | O => ([], c)
  | S n => let (b, c) := clock_in c in let (bs, c) := sd_read_data n c in (b :: bs, c)
  end.

Definition sd_send_cmd (cmd arg crc : Z) (c : C) : C :=
  let frame := [Z.lor cmd 0x40; u8 (Z.shiftr arg 24); u8 (Z.shiftr arg 16); u8 (Z.shiftr arg 8); u8 arg; crc] in
  sd_write_data frame (SD_CS_LOW c).

Definition sd_end_cmd (c : C) : C := sd_write_data [0xFF] (SD_CS_HIGH c).

Definition SD_CMD0 : Z := 0.
Definition SD_CMD8 : Z := 8.
Definition SD_CMD58 : Z := 58.
Definition SD_CMD55 : Z := 55.
Definition SD_ACMD41 : Z := 41.
Definition SD_CMD16 : Z := 16.
Definition SD_CMD17 : Z := 17.
Definition SD_CMD24 : Z := 24.
Definition SD_CMD13 : Z := 13.

(** [while (timeout--)] from 0xff. *)
Definition sd_get_response_R1 (c : C) : Z * C :=
  match turns 0xff (λ c, let (result, c) := clock_in c in
                         if negb (result =? 0xff) then inr (result, c) else inl c) c with
  | inr r => r
  | inl c => (0xff, c)
  end.

Definition sd_get_response_R3_rest (c : C) : list Z * C := sd_read_data 4 c.
Definition sd_get_response_R7_rest (c : C) : list Z * C := sd_read_data 4 c.

(** [while (--timeout)] from 0xff has 254 turns; the results 0 and 0xff are
    [true] and [false]. *)
Definition switch_to_SPI_mode (c : C) : bool * C :=
  match turns 0xfe (λ c,
      let (result, c) := sd_get_response_R1 (sd_send_cmd SD_CMD0 0 0x95 c) in
      let c := sd_end_cmd c in
      if result =? 0x01 then inr c else inl c) c with
  | inr c => (true, c)
  | inl c => (false, c)
  end.

Definition verify_operation_condition (c : C) : bool * C :=
  let (result, c) := sd_get_response_R1 (sd_send_cmd SD_CMD8 0x01aa 0x87 c) in
  let (frame, c) := sd_get_response_R7_rest c in
  let c := sd_end_cmd c in
  if result =? 0x09 then (false, c)
  else if (result =? 0x01) && (Z.land (zget frame 2) 0x0f =? 0x01) && (zget frame 3 =? 0xaa) then (true, c)
  else (false, c).

Definition read_OCR (c : C) : bool * C :=
  match turns 0xfe (λ c,
      let (result, c) := sd_get_response_R1 (sd_send_cmd SD_CMD58 0 0 c) in
      let (ocr, c) := sd_get_response_R3_rest c in
      let c := sd_end_cmd c in
      if (result =? 0x01) && zbits (zget ocr 1) 0x1f && zbits (zget ocr 2) 0x80 then inr c else inl c) c with
  | inr c => (true, c)
  | inl c => (false, c)
  end.

(** A turn of the loop of [set_SDXC_capacity]. *)
Definition capacity_turn (c : C) : C + bool * C :=
  let (result, c) := sd_get_response_R1 (sd_send_cmd SD_CMD55 0 0 c) in
  let c := sd_end_cmd c in
  if negb (result =? 0x01) then inr (false, c)
  else
    let (result, c) := sd_get_response_R1 (sd_send_cmd SD_ACMD41 0x40000000 0 c) in
    let c := sd_end_cmd c in
    if result =? 0 then inr (true, c) else inl c.

Definition set_SDXC_capacity (c : C) : bool * C :=
  match turns 0xffe capacity_turn c with
  | inr r => r
  | inl c => (false, c)
  end.

Definition BSIZE : Z := 512.

(** The driver's variables beside the card, and the registers of the pins. *)
Record SdDrv : Type := mkSd {
  card : C;
  pins : gpiohs_t * fpioa_t;
  is_standard_sd : bool;
  SD_SECTOR_SIZE : Z;
  SD_BLOCK_SIZE : Z;
  SD_SECTOR_COUNT : Z
}.

Definition set_card (c : C) (s : SdDrv) : SdDrv :=
  mkSd c (pins s) (is_standard_sd s) (SD_SECTOR_SIZE s) (SD_BLOCK_SIZE s) (SD_SECTOR_COUNT s).
Definition set_standard (b : bool) (s : SdDrv) : SdDrv :=
  mkSd (card s) (pins s) b (SD_SECTOR_SIZE s) (SD_BLOCK_SIZE s) (SD_SECTOR_COUNT s).

Definition set_pins (p : gpiohs_t * fpioa_t) (s : SdDrv) : SdDrv :=
  mkSd (card s) p (is_standard_sd s) (SD_SECTOR_SIZE s) (SD_BLOCK_SIZE s) (SD_SECTOR_COUNT s).

(** The inner loop of [check_block_size]. *)
Definition set_block_size (c : C) : bool * C :=
  match turns 0xfe (λ c,
      let (result, c) := sd_get_response_R1 (sd_send_cmd SD_CMD16 BSIZE 0 c) in
      let c := sd_end_cmd c in
      if result =? 0 then inr c else inl c) c with
  | inr c => (true, c)
  | inl c => (false, c)
  end.

Definition check_block_size (s : SdDrv) : bool * SdDrv :=
  match turns 0xff (λ c,
      let (result, c) := sd_get_response_R1 (sd_send_cmd SD_CMD58 0 0 c) in
      let (ocr, c) := sd_get_response_R3_rest c in
      let c := sd_end_cmd c in
      if result =? 0 then inr (ocr, c) else inl c) (card s) with
  | inl c => (false, set_card c s)
  | inr (ocr, c) =>
      if zbits (zget ocr 0) 0x40 then (true, set_standard false (set_card c s))
      else
        let (ok, c) := set_block_size c in
        if ok then (true, set_standard true (set_card c s)) else (false, set_card c s)
  end.

Definition sd_init (s : SdDrv) : bool * SdDrv :=
  let s := set_pins (sd_lowlevel_init (fst (pins s)) (snd (pins s))) s in
  let c := sd_write_data (replicate 10 0xff) (SD_CS_LOW (card s)) in
  let (ok, c) := switch_to_SPI_mode c in
  if negb ok then (false, set_card c s) else
  let (ok, c) := verify_operation_condition c in
  if negb ok then (false, set_card c s) else
  let (ok, c) := read_OCR c in
  if negb ok then (false, set_card c s) else
  let (ok, c) := set_SDXC_capacity c in
  if negb ok then (false, set_card c s) else
  check_block_size (set_card c s).

(** The bytes stored at [buf]; errors are only printed. *)
Definition sdcard_read_sector (sectorno : Z) (s : SdDrv) : list Z * SdDrv :=
  let address := if is_standard_sd s then u32 (Z.shiftl sectorno 9) else u32 sectorno in
  let (_, c) := sd_get_response_R1 (sd_send_cmd SD_CMD17 address 0 (card s)) in
  let c := match turns 0xfffffe (λ c, let (result, c) := clock_in c in
                                     if result =? 0xfe then inr c else inl c) c with
           | inr c | inl c => c
           end in
  let (buf, c) := sd_read_data (Z.to_nat BSIZE) c in
  let (_, c) := sd_read_data 2 c in
  (buf, set_card (sd_end_cmd c) s).

Definition sdcard_write_sector (buf : list Z) (sectorno : Z) (s : SdDrv) : SdDrv :=
  let address := if is_standard_sd s then u32 (Z.shiftl sectorno 9) else u32 sectorno in
  let (_, c) := sd_get_response_R1 (sd_send_cmd SD_CMD24 address 0 (card s)) in
  let c := sd_write_data [0xfe] c in
  let c := sd_write_data (zread buf 0 BSIZE) c in
  let c := sd_write_data [0xff; 0xff] c in
  let c := match turns 0xffe (λ c, let (result, c) := clock_in c in
                                  if Z.land result 0x1f =? 0x05 then inr c else inl c) c with
           | inr c | inl c => c
           end in
  let c := match turns 0xfffffe (λ c, let (result, c) := clock_in c in
                                     if negb (result =? 0) then inr c else inl c) c with
           | inr c | inl c => c
           end in
  let c := sd_end_cmd c in
  let (_, c) := sd_get_response_R1 (sd_send_cmd SD_CMD13 0 0 c) in
  let (_, c) := sd_read_data 1 c in
  set_card (sd_end_cmd c) s.

Definition sdcard_init (s : SdDrv) : Z * SdDrv :=
  let (ok, s) := sd_init s in
  if ok then
    let (buff, s) := sdcard_read_sector 0 s in
    let size := zget buff 11 + 256 * zget buff 12 in
    (1, mkSd (card s) (pins s) (is_standard_sd s) size (u32 (zget buff 13 * size)) 125171712)
  else (0, s).

(** * The storage interface *)

Definition sd_disk_initialize (pdrv : Z) (s : SdDrv) : Z * SdDrv :=
  if pdrv =? 0 then
    let (r, s) := sdcard_init s in
    ((if negb (r =? 0) then 0 else STA_NOINIT), s)
  else (STA_NOINIT, s).

(** The loop of [disk_read] over the sectors; [buff] is the caller's buffer. *)
Fixpoint sd_read_loop (n : nat) (i sector : Z) (buff : list Z) (s : SdDrv) : list Z * SdDrv :=
  match n with
  | O => (buff, s)
  | S n =>
      let (bs, s) := sdcard_read_sector (s32 (u32 (sector + i))) s in
      sd_read_loop n (i + 1) sector (zwrite buff (u32 (SD_SECTOR_SIZE s * i)) bs) s
  end.

Definition sd_disk_read (pdrv : Z) (buff : list Z) (sector count : Z) (s : SdDrv) : DRESULT * list Z * SdDrv :=
  if pdrv =? 0 then
    let (buff, s) := sd_read_loop (Z.to_nat count) 0 sector buff s in (RES_OK, buff, s)
  else (RES_PARERR, buff, s).

Fixpoint sd_write_loop (n : nat) (i sector : Z) (buff : list Z) (s : SdDrv) : SdDrv :=
  match n with
  | O => s
  | S n =>
      let s := sdcard_write_sector (drop (Z.to_nat (u32 (SD_SECTOR_SIZE s * i))) buff) (s32 (u32 (sector + i))) s in
      sd_write_loop n (i + 1) sector buff s
  end.

Definition sd_disk_write (pdrv : Z) (buff : list Z) (sector count : Z) (s : SdDrv) : DRESULT * SdDrv :=
  if count =? 0 then (RES_PARERR, s)
  else if pdrv =? 0 then (RES_OK, sd_write_loop (Z.to_nat count) 0 sector buff s)
  else (RES_PARERR, s).

Definition sd_disk_ioctl (pdrv cmd : Z) (s : SdDrv) : DRESULT * option Z :=
  if pdrv =? 0 then
    (RES_OK, if cmd =? GET_SECTOR_SIZE then Some (SD_SECTOR_SIZE s)
             else if cmd =? GET_BLOCK_SIZE then Some (SD_BLOCK_SIZE s)
             else if cmd =? GET_SECTOR_COUNT then Some (SD_SECTOR_COUNT s) else None)
  else (RES_PARERR, None).

End driver.
Arguments SdDrv C : clear implicits.

(** * Loops *)

(** The same loop, one turn after the other. *)
Fixpoint turn_by_turn {St R : Type} (n : nat) (body : St → St + R) (s : St) : St + R :=
  match n with
  | O => inl s
  | S n => match body s with inl s => turn_by_turn n body s | inr r => inr r end
  end.

Lemma turn_add {St R} (body : St → St + R) n m s :
  turn_by_turn (n + m) body s =
  match turn_by_turn n body s with inl s => turn_by_turn m body s | inr r => inr r end.
Proof. revert s. induction n as [|n IH]; intros s; simpl; [done|]. by destruct (body s). Qed.

Lemma turns_eq {St R} (body : St → St + R) p : ∀ s, turns p body s = turn_by_turn (Pos.to_nat p) body s.
Proof.
  induction p as [p IH|p IH|]; intros s; cbn [turns].
  - rewrite Pos2Nat.inj_xI. replace (S (2 * Pos.to_nat p))%nat with (S (Pos.to_nat p + Pos.to_nat p)) by lia.
    cbn [turn_by_turn]. destruct (body s) as [s'|r]; [|done]. rewrite turn_add, IH.
    by destruct (turn_by_turn _ _ _).
  - rewrite Pos2Nat.inj_xO. replace (2 * Pos.to_nat p)%nat with (Pos.to_nat p + Pos.to_nat p)%nat by lia.
    rewrite turn_add, IH. by destruct (turn_by_turn _ _ _).
  - change (Pos.to_nat 1) with 1%nat. cbn [turn_by_turn]. by destruct (body s).
Qed.

(** * SD cards in SPI mode *)

(** The state of a card that commands depend on: after power-up, in the idle
    state with [busy] rounds of initialisation left, the same with the next
    command an application command, and ready for transfers. *)
Inductive sd_phase : Type := PowerUp | Idle (busy : nat) | IdleApp (busy : nat) | Ready.

(** The command token of the specification, with the CRC left to the host. *)
Definition token (cmd arg crc : Z) : list Z :=
  [64 + cmd; arg / 2 ^ 24 mod 256; arg / 2 ^ 16 mod 256; arg / 2 ^ 8 mod 256; arg mod 256; crc].

Section traffic.
Context {C : Type} {SC : SpiCard C}.

(** The selected card is fed with bytes, and gives bytes. *)
Definition feed (bs : list Z) (c : C) : C := foldl (λ c b, clock_out b c) c bs.
Inductive gives : C → list Z → C → Prop :=
  | gives_nil c : gives c [] c
  | gives_cons c b bs c' : gives (clock_in c).2 bs c' → (clock_in c).1 = b → gives c (b :: bs) c'.

(** At most this many bytes pass before a response (eight in the
    specification). *)
Definition NCR : nat := 8.

(** The card answers a command with [bs], the first byte of which is the
    response R1, and is then deselected. *)
Definition answers (c : C) (cmd arg crc : Z) (bs : list Z) (c' : C) : Prop :=
  ∃ n c1, (n <= NCR)%nat ∧ gives (feed (token cmd arg crc) (select_pin true c)) (replicate n 0xff ++ bs) c1 ∧
    c' = feed [0xff] (select_pin false c1).

End traffic.

Class SdCardLaws (C : Type) `{SpiCard C} : Type := {
  phase : C → sd_phase;
  high_capacity : C → bool;
  capacity : C → Z;
  block : C → Z → list Z;
  rounds : C → nat;   (* times ACMD41 is answered with "busy" after CMD0, at most *)
  same_card (c c' : C) : Prop :=
    high_capacity c' = high_capacity c ∧ capacity c' = capacity c ∧ ∀ a, block c' a = block c a;
  block_length c a : length (block c a) = 512%nat;
  block_bytes c a : bytes (block c a);
  (* bytes of ones are no command; with the pin low they are not the clocks
     that a card needs at power-up *)
  law_clocks c : let c' := feed (replicate 10 0xff) (select_pin true c) in
    same_card c c' ∧ rounds c' = rounds c ∧ (phase c ≠ PowerUp → phase c' ≠ PowerUp);
  (* GO_IDLE_STATE, in any state after power-up *)
  law_cmd0 c : phase c ≠ PowerUp → ∃ c' k, answers c 0 0 0x95 [0x01] c' ∧ same_card c c' ∧ phase c' = Idle k ∧ (k <= rounds c)%nat;
  (* SEND_IF_COND: voltage accepted and check pattern echoed *)
  law_cmd8 c k : phase c = Idle k → ∃ c' a b v,
    answers c 8 0x1aa 0x87 [0x01; a; b; v; 0xaa] c' ∧ v mod 16 = 1 ∧ same_card c c' ∧ phase c' = Idle k;
  (* READ_OCR: the supply voltages of 2.7 to 3.6 V; capacity bit when ready *)
  law_cmd58_idle c k : phase c = Idle k → ∃ c' a b d e,
    answers c 58 0 0 [0x01; a; b; d; e] c' ∧ Z.land b 0x1f ≠ 0 ∧ Z.testbit d 7 = true ∧
    same_card c c' ∧ phase c' = Idle k;
  law_cmd58_ready c : phase c = Ready → ∃ c' a b d e,
    answers c 58 0 0 [0x00; a; b; d; e] c' ∧ Z.testbit a 6 = high_capacity c ∧ same_card c c' ∧ phase c' = Ready;
  (* APP_CMD and SD_SEND_OP_COND *)
  law_cmd55 c k : phase c = Idle k → ∃ c', answers c 55 0 0 [0x01] c' ∧ same_card c c' ∧ phase c' = IdleApp k;
  law_acmd41 c k : phase c = IdleApp k → ∃ c' r, answers c 41 0x40000000 0 [r] c' ∧ same_card c c' ∧
    match k with O => r = 0x00 ∧ phase c' = Ready | S k => r = 0x01 ∧ phase c' = Idle k end;
  (* SET_BLOCKLEN *)
  law_cmd16 c : phase c = Ready → ∃ c', answers c 16 512 0 [0x00] c' ∧ same_card c c' ∧ phase c' = Ready;
  (* READ_SINGLE_BLOCK: a data token, the block and its CRC *)
  law_cmd17 c a arg :
    phase c = Ready → 0 <= a < capacity c → 0 <= arg < 2 ^ 32 → arg = (if high_capacity c then a else 512 * a) →
    ∃ c' gap x y, answers c 17 arg 0 ([0x00] ++ gap ++ [0xfe] ++ block c a ++ [x; y]) c' ∧
      Forall (λ b, b ≠ 0xfe) gap ∧ zlen gap < 10000000 ∧ same_card c c' ∧ phase c' = Ready;
  (* WRITE_BLOCK: data response, then busy until the block is programmed *)
  law_cmd24 c a arg bs :
    phase c = Ready → 0 <= a < capacity c → 0 <= arg < 2 ^ 32 → arg = (if high_capacity c then a else 512 * a) →
    bytes bs → length bs = 512%nat →
    ∃ n c1 gap t busy b c2, (n <= NCR)%nat ∧
      gives (feed (token 24 arg 0) (select_pin true c)) (replicate n 0xff ++ [0x00]) c1 ∧
      gives (feed ([0xfe] ++ bs ++ [0xff; 0xff]) c1) (gap ++ [t] ++ replicate busy 0x00 ++ [b]) c2 ∧
      Forall (λ b, b mod 32 ≠ 5) gap ∧ (length gap < 4000)%nat ∧ t mod 32 = 5 ∧
      Z.of_nat busy < 10000000 ∧ b ≠ 0x00 ∧
      let c' := feed [0xff] (select_pin false c2) in
      phase c' = Ready ∧ high_capacity c' = high_capacity c ∧ capacity c' = capacity c ∧
      ∀ a', block c' a' = if decide (a' = a) then bs else block c a';
  (* SEND_STATUS *)
  law_cmd13 c : phase c = Ready → ∃ c' e, answers c 13 0 0 [0x00; e] c' ∧ same_card c c' ∧ phase c' = Ready
}.

(** * Traffic and the driver's loops *)

Section proofs.
Context {C : Type} {SC : SpiCard C}.

Lemma gives_app xs : ∀ c ys c', gives c (xs ++ ys) c' → ∃ c1, gives c xs c1 ∧ gives c1 ys c'.
Proof.
  induction xs as [|x xs IH]; intros c ys c' H; [exists c; eauto using gives_nil|].
  inversion H as [|? ? ? ? Hg Hb]; subst. destruct (IH _ _ _ Hg) as (c1 & H1 & H2).
  exists c1. split; [by constructor|done].
Qed.

Lemma read_gives bs : ∀ c c', gives c bs c' → sd_read_data (length bs) c = (bs, c').
Proof.
  induction bs as [|b bs IH]; intros c c' H; inversion H as [|? ? ? ? Hg Hb]; subst; [done|].
  cbn [sd_read_data length]. destruct (clock_in c) as [x c1]. cbn [fst snd] in *. by rewrite (IH _ _ Hg).
Qed.

(** Waiting for a byte with the property [P]. *)
Lemma wait_spec {R} (P : Z → bool) (f : Z → C → R) gap b : ∀ N c c',
  gives c (gap ++ [b]) c' → Forall (λ x, P x = false) gap → P b = true → (length gap < N)%nat →
  turn_by_turn N (λ c, let (x, c) := clock_in c in if P x then inr (f x c) else inl c) c = inr (f b c').
Proof.
  induction gap as [|g gap IH]; intros N c c' H Hg Hb HN; (destruct N as [|N]; [simpl in HN; lia|]);
    inversion H as [|? ? ? ? H' Hx]; subst; cbn [turn_by_turn].
  - inversion H'; subst. destruct (clock_in c) as [x c1]. cbn [fst snd] in *. by rewrite Hb.
  - apply Forall_cons in Hg as [Hg1 Hg2]. destruct (clock_in c) as [x c1]. cbn [fst snd] in *. rewrite Hg1.
    apply IH; auto. simpl in HN. lia.
Qed.

Lemma turns_first {St R} (body : St → St + R) p s r : body s = inr r → turns p body s = inr r.
Proof. intros H. rewrite turns_eq. destruct (Pos2Nat.is_succ p) as [n ->]. simpl. by rewrite H. Qed.

Lemma R1_spec n r c c' :
  gives c (replicate n 0xff ++ [r]) c' → r ≠ 0xff → (n <= NCR)%nat → sd_get_response_R1 c = (r, c').
Proof.
  intros H Hr Hn. unfold sd_get_response_R1. rewrite turns_eq.
  rewrite (wait_spec (λ x, negb (x =? 0xff)) (λ x c, (x, c)) (replicate n 0xff) r _ c c'); auto.
  - by apply Forall_replicate.
  - apply negb_true_iff. by apply Z.eqb_neq.
  - rewrite length_replicate. unfold NCR in Hn. lia.
Qed.

(** The driver sends the token of the specification. *)
Lemma send_token cmd arg crc c :
  Z.lor cmd 0x40 = 64 + cmd → sd_send_cmd cmd arg crc c = feed (token cmd arg crc) (select_pin true c).
Proof.
  intros H. unfold sd_send_cmd, token, sd_write_data, feed, SD_CS_LOW. rewrite H.
  rewrite !Z.shiftr_div_pow2 by lia. done.
Qed.

(** A command, its response and the bytes after it. *)
Lemma command_spec c cmd arg crc r bs c' :
  answers c cmd arg crc (r :: bs) c' → Z.lor cmd 0x40 = 64 + cmd → r ≠ 0xff →
  ∃ c1 c2, sd_get_response_R1 (sd_send_cmd cmd arg crc c) = (r, c1) ∧ gives c1 bs c2 ∧ sd_end_cmd c2 = c'.
Proof.
  intros (n & c2 & Hn & Hg & ->) Hc Hr. rewrite send_token by done.
  change (r :: bs) with ([r] ++ bs) in Hg. rewrite app_assoc in Hg.
  apply gives_app in Hg as (c1 & H1 & H2). exists c1, c2. split; [by eapply R1_spec|done].
Qed.

(** Commands answered by R1 alone, and by R1 with four bytes. *)
Lemma command_R1 c cmd arg crc r c' :
  answers c cmd arg crc [r] c' → Z.lor cmd 0x40 = 64 + cmd → r ≠ 0xff →
  ∃ c1, sd_get_response_R1 (sd_send_cmd cmd arg crc c) = (r, c1) ∧ sd_end_cmd c1 = c'.
Proof.
  intros H Hc Hr. destruct (command_spec _ _ _ _ _ _ _ H Hc Hr) as (c1 & c2 & E & Hg & He).
  inversion Hg; subst. eauto.
Qed.

Lemma command_R3 c cmd arg crc r a b d e c' :
  answers c cmd arg crc [r; a; b; d; e] c' → Z.lor cmd 0x40 = 64 + cmd → r ≠ 0xff →
  ∃ c1 c2, sd_get_response_R1 (sd_send_cmd cmd arg crc c) = (r, c1) ∧
    sd_read_data 4 c1 = ([a; b; d; e], c2) ∧ sd_end_cmd c2 = c'.
Proof.
  intros H Hc Hr. destruct (command_spec _ _ _ _ _ _ _ H Hc Hr) as (c1 & c2 & E & Hg & He).
  exists c1, c2. split; [done|]. split; [|done]. by apply (read_gives [a; b; d; e]).
Qed.
End proofs.

Section laws.
Context {C : Type} {SC : SpiCard C} {SL : SdCardLaws C}.
Implicit Types s : SdDrv C.

#[local] Instance same_card_equiv : Equivalence (same_card (C := C)).
Proof.
  split; unfold same_card.
  - done.
  - intros c c' (H1 & H2 & H3). split_and!; auto.
  - intros c1 c2 c3 (A1 & A2 & A3) (B1 & B2 & B3). split_and!; try congruence.
Qed.

(** * Initialisation *)

Lemma switch_spec c : phase c ≠ PowerUp →
  ∃ c' k, switch_to_SPI_mode c = (true, c') ∧ same_card c c' ∧ phase c' = Idle k ∧ (k <= rounds c)%nat.
Proof.
  intros Hup. destruct (law_cmd0 c Hup) as (c' & k & Ha & Hs & Hp & Hk).
  destruct (command_R1 _ _ _ _ _ _ Ha) as (c1 & E & He); [done..|].
  exists c', k. split; [|done]. unfold switch_to_SPI_mode. erewrite turns_first; [reflexivity|].
  unfold SD_CMD0. by rewrite E, He.
Qed.

Lemma verify_spec c k : phase c = Idle k →
  ∃ c', verify_operation_condition c = (true, c') ∧ same_card c c' ∧ phase c' = Idle k.
Proof.
  intros Hk. destruct (law_cmd8 c k Hk) as (c' & a & b & v & Ha & Hv & Hs & Hp).
  destruct (command_R3 _ _ _ _ _ _ _ _ _ _ Ha) as (c1 & c2 & E1 & E2 & He); [done..|].
  exists c'. split; [|done]. unfold verify_operation_condition, sd_get_response_R7_rest, SD_CMD8. rewrite E1, E2, He.
  change (zget [a; b; v; 0xaa] 2) with v. change (zget [a; b; v; 0xaa] 3) with 0xaa.
  change 0x0f with (Z.ones 4). rewrite Z.land_ones by lia. change (2 ^ 4) with 16. by rewrite Hv.
Qed.

Lemma read_OCR_spec c k : phase c = Idle k → ∃ c', read_OCR c = (true, c') ∧ same_card c c' ∧ phase c' = Idle k.
Proof.
  intros Hk. destruct (law_cmd58_idle c k Hk) as (c' & a & b & d & e & Ha & Hb & Hd & Hs & Hp).
  destruct (command_R3 _ _ _ _ _ _ _ _ _ _ Ha) as (c1 & c2 & E1 & E2 & He); [done..|].
  exists c'. split; [|done]. unfold read_OCR. erewrite turns_first; [reflexivity|].
  unfold sd_get_response_R3_rest, SD_CMD58. rewrite E1, E2, He.
  change (zget [a; b; d; e] 1) with b. change (zget [a; b; d; e] 2) with d.
  assert (zbits b 0x1f = true) as -> by (unfold zbits, ztrue; by apply negb_true_iff, Z.eqb_neq).
  assert (zbits d 0x80 = true) as ->; [|done].
  unfold zbits, ztrue. apply negb_true_iff, Z.eqb_neq. intros H0. apply (f_equal (λ x, Z.testbit x 7)) in H0.
  rewrite Z.land_spec, Hd in H0. done.
Qed.

Lemma capacity_loop k : ∀ N c, phase c = Idle k → (k < N)%nat →
  ∃ c', turn_by_turn N capacity_turn c = inr (true, c') ∧ same_card c c' ∧ phase c' = Ready.
Proof.
  induction k as [|k IH]; intros [|N] c Hk HN; try lia; cbn [turn_by_turn];
    destruct (law_cmd55 c _ Hk) as (c1 & A1 & S1 & P1); destruct (law_acmd41 c1 _ P1) as (c2 & r & A2 & S2 & Hr & P2);
    destruct (command_R1 _ _ _ _ _ _ A1) as (x1 & E1 & <-); try done; subst r;
    destruct (command_R1 _ _ _ _ _ _ A2) as (x2 & E2 & <-); try done;
    unfold capacity_turn at 1; unfold SD_CMD55, SD_ACMD41; rewrite E1; cbn [Z.eqb Pos.eqb negb]; rewrite E2; cbn [Z.eqb].
  - exists (sd_end_cmd x2). split; [done|]. split; [by etrans|done].
  - destruct (IH N _ P2) as (c' & E & S3 & P3); [lia|]. exists c'. split; [exact E|]. split; [|done].
    etrans; [exact S1|]. by etrans.
Qed.

Lemma set_SDXC_spec c k : phase c = Idle k → (k < 4094)%nat →
  ∃ c', set_SDXC_capacity c = (true, c') ∧ same_card c c' ∧ phase c' = Ready.
Proof.
  intros Hk HN. unfold set_SDXC_capacity. rewrite turns_eq.
  destruct (capacity_loop k (Pos.to_nat 0xffe) c Hk) as (c' & -> & H); [lia|]. by exists c'.
Qed.

(** The driver's state after initialisation. *)
Record sd_ready (s : SdDrv C) : Prop := mkSdReady {
  sr_phase : phase (card s) = Ready;
  sr_standard : is_standard_sd s = negb (high_capacity (card s))
}.

Lemma check_block_spec s : phase (card s) = Ready →
  ∃ s', check_block_size s = (true, s') ∧ same_card (card s) (card s') ∧ sd_ready s' ∧ pins s' = pins s.
Proof.
  intros Hp. destruct (law_cmd58_ready _ Hp) as (c1 & a & b & d & e & Ha & Hc & Hs & Hp1).
  destruct (command_R3 _ _ _ _ _ _ _ _ _ _ Ha) as (x1 & x2 & E1 & E2 & He); [done..|].
  unfold check_block_size. erewrite turns_first.
  2:{ unfold sd_get_response_R3_rest, SD_CMD58. rewrite E1, E2, He. reflexivity. }
  cbv beta iota. change (zget [a; b; d; e] 0) with a.
  assert (zbits a 0x40 = high_capacity (card s)) as Ez.
  { rewrite <- Hc. unfold zbits, ztrue. destruct (Z.testbit a 6) eqn:Et.
    - apply negb_true_iff, Z.eqb_neq. intros H0. apply (f_equal (λ x, Z.testbit x 6)) in H0.
      rewrite Z.land_spec, Et in H0. done.
    - apply negb_false_iff, Z.eqb_eq. apply Z.bits_inj'. intros i Hi. rewrite Z.land_spec, Z.bits_0.
      destruct (decide (i = 6)) as [->|]; [by rewrite Et|]. change 0x40 with (2 ^ 6).
      rewrite (Z.pow2_bits_false 6 i) by lia. apply andb_false_r. }
  rewrite Ez. destruct (high_capacity (card s)) eqn:Eh.
  - eexists. split; [reflexivity|]. split; [done|]. split; [|done]. split; [done|]. cbn.
    destruct Hs as (H1 & _). by rewrite H1, Eh.
  - destruct (law_cmd16 c1 Hp1) as (c2 & A2 & S2 & P2).
    destruct (command_R1 _ _ _ _ _ _ A2) as (x3 & E3 & He3); [done..|].
    assert (set_block_size c1 = (true, c2)) as ->.
    { unfold set_block_size. erewrite turns_first; [reflexivity|]. unfold SD_CMD16, BSIZE. by rewrite E3, He3. }
    eexists. split; [reflexivity|]. split; [cbn; by etrans|]. split; [|done]. split; [done|]. cbn.
    destruct Hs as (H1 & _), S2 as (H2 & _). by rewrite H2, H1, Eh.
Qed.

Lemma sd_init_spec s : phase (card s) ≠ PowerUp → (rounds (card s) < 4094)%nat →
  ∃ s', sd_init s = (true, s') ∧ same_card (card s) (card s') ∧ sd_ready s' ∧
    pins s' = sd_lowlevel_init (fst (pins s)) (snd (pins s)).
Proof.
  intros Hup Hrounds. unfold sd_init. set (s0 := set_pins _ s). change (sd_write_data (replicate 10 0xff) (SD_CS_LOW (card s0)))
    with (feed (replicate 10 0xff) (select_pin true (card s))). destruct (law_clocks (card s)) as (S0 & Hr0 & Hup0).
  destruct (switch_spec (feed (replicate 10 0xff) (select_pin true (card s))) (Hup0 Hup)) as (c1 & k & -> & S1 & P1 & Hk). cbn [negb].
  destruct (verify_spec c1 k P1) as (c2 & -> & S2 & P2). cbn [negb].
  destruct (read_OCR_spec c2 k P2) as (c3 & -> & S3 & P3). cbn [negb].
  destruct (set_SDXC_spec c3 k P3) as (c4 & -> & S4 & P4); [lia|]. cbn [negb].
  destruct (check_block_spec (set_card c4 s0) P4) as (s' & -> & S5 & Hr & Hpin). exists s'. split; [done|]. split; [|done].
  etrans; [exact S0|]. etrans; [exact S1|]. etrans; [exact S2|]. etrans; [exact S3|]. etrans; [exact S4|]. exact S5.
Qed.

(** * Sectors *)

(** The sectors whose addresses fit the driver's variables. *)
Definition sectors (c : C) : Z := Z.min (capacity c) (if high_capacity c then 2 ^ 31 else 2 ^ 23).

Lemma sd_address s a :
  sd_ready s → 0 <= a < sectors (card s) →
  (if is_standard_sd s then u32 (Z.shiftl a 9) else u32 a) = (if high_capacity (card s) then a else 512 * a) ∧
  0 <= (if high_capacity (card s) then a else 512 * a) < 2 ^ 32 ∧ a < capacity (card s).
Proof.
  intros [_ Hst] Ha. unfold sectors in Ha. rewrite Hst. destruct (high_capacity (card s)); cbn [negb].
  - rewrite u32_small by lia. lia.
  - rewrite Z.shiftl_mul_pow2, u32_small by lia. lia.
Qed.

Lemma below_timeout (n : nat) p : Z.of_nat n < Zpos p → (n < Pos.to_nat p)%nat.
Proof. intros H. apply Nat2Z.inj_lt. by rewrite positive_nat_Z. Qed.

Lemma sd_ready_same s c : sd_ready s → same_card (card s) c → phase c = Ready → sd_ready (set_card c s).
Proof. intros [_ Hst] (H1 & _) Hp. split; [done|]. cbn. by rewrite H1. Qed.

Lemma read_sector_spec a s :
  sd_ready s → 0 <= a < sectors (card s) →
  ∃ c, sdcard_read_sector a s = (block (card s) a, set_card c s) ∧ same_card (card s) c ∧ sd_ready (set_card c s).
Proof.
  intros Hr Ha. destruct (sd_address s a Hr Ha) as (Ead & Had & Hcap). unfold sdcard_read_sector. rewrite Ead. clear Ead.
  destruct (law_cmd17 (card s) a _ (sr_phase _ Hr) ltac:(lia) Had eq_refl) as
    (c' & gap & x & y & Hans & Hgap & Hlen & Hs & Hp).
  destruct (command_spec _ _ _ _ _ _ _ Hans) as (c1 & c2 & E1 & Hg & He); [done|done|].
  unfold SD_CMD17. cbv zeta. rewrite E1. rewrite app_assoc in Hg.
  apply gives_app in Hg as (c3 & G1 & Hg). apply gives_app in Hg as (c4 & G2 & G3).
  rewrite turns_eq. erewrite (wait_spec (λ b, b =? 0xfe) (λ _ c, c) gap 0xfe); [|exact G1| |done|].
  2:{ eapply Forall_impl; [exact Hgap|]. intros b Hb. by apply Z.eqb_neq. }
  2:{ apply below_timeout. unfold zlen in Hlen. lia. }
  apply read_gives in G2. rewrite block_length in G2. change (Z.to_nat BSIZE) with 512%nat. rewrite G2.
  apply read_gives in G3. cbn [length] in G3. rewrite G3, He.
  exists c'. split; [done|]. split; [done|]. by apply sd_ready_same.
Qed.

Lemma feed_app xs ys (c : C) : feed (xs ++ ys) c = feed ys (feed xs c).
Proof. apply foldl_app. Qed.

Lemma write_sector_spec a bs s :
  sd_ready s → 0 <= a < sectors (card s) → bytes bs → (512 <= length bs)%nat →
  ∃ c, sdcard_write_sector bs a s = set_card c s ∧ sd_ready (set_card c s) ∧
    capacity c = capacity (card s) ∧ high_capacity c = high_capacity (card s) ∧
    ∀ a', block c a' = if decide (a' = a) then zread bs 0 512 else block (card s) a'.
Proof.
  intros Hr Ha Hb Hl. destruct (sd_address s a Hr Ha) as (Ead & Had & Hcap). unfold sdcard_write_sector. rewrite Ead. clear Ead.
  assert (length (zread bs 0 512) = 512%nat) as Hl2 by (unfold zread; rewrite length_take, length_drop; lia).
  assert (bytes (zread bs 0 512)) as Hb2 by (by apply Forall_take, Forall_drop).
  destruct (law_cmd24 (card s) a _ (zread bs 0 512) (sr_phase _ Hr) ltac:(lia) Had eq_refl Hb2 Hl2) as
    (n & c1 & gap & t & busy & b & c2 & Hn & G1 & G2 & Hgap & Hglen & Ht & Hbusy & Hbz & Hp & Hh & Hc & Hblk).
  unfold SD_CMD24, SD_CMD13, BSIZE. cbv zeta. rewrite send_token by done.
  rewrite (R1_spec _ _ _ _ G1) by done.
  change (sd_write_data [0xff; 0xff] (sd_write_data (zread bs 0 512) (sd_write_data [0xfe] c1)))
    with (feed [0xff; 0xff] (feed (zread bs 0 512) (feed [0xfe] c1))).
  rewrite <- !feed_app, <- ?app_assoc. rewrite (app_assoc gap [t]) in G2. apply gives_app in G2 as (c3 & G2 & G3).
  rewrite !turns_eq. erewrite (wait_spec (λ r, Z.land r 0x1f =? 0x05) (λ _ c, c) gap t); [|exact G2| | |].
  2:{ eapply Forall_impl; [exact Hgap|]. intros r Hr'. change 0x1f with (Z.ones 5). rewrite Z.land_ones by lia.
      by apply Z.eqb_neq. }
  2:{ change 0x1f with (Z.ones 5). rewrite Z.land_ones by lia. change (2 ^ 5) with 32. by rewrite Ht. }
  2:{ apply below_timeout. lia. }
  erewrite (wait_spec (λ r, negb (r =? 0)) (λ _ c, c) (replicate busy 0) b); [|exact G3| | |].
  2:{ by apply Forall_replicate. } 2:{ apply negb_true_iff. by apply Z.eqb_neq. }
  2:{ apply below_timeout. rewrite length_replicate. lia. }
  change (sd_end_cmd c2) with (feed [0xff] (select_pin false c2)).
  destruct (law_cmd13 _ Hp) as (c4 & e & A4 & S4 & P4).
  destruct (command_spec _ _ _ _ _ _ _ A4) as (x1 & x2 & E1 & Hg & He); [done|done|]. rewrite E1.
  apply read_gives in Hg. cbn [length] in Hg. rewrite Hg, He. destruct S4 as (K1 & K2 & K3).
  exists c4. split; [done|]. split; [|split; [congruence|split; [congruence|]]].
  - destruct Hr as [_ Hst]. split; [done|]. cbn. by rewrite K1, Hh.
  - intros a'. by rewrite K3, Hblk.
Qed.

(** * The storage interface *)

(** The driver addresses its buffers by [SD_SECTOR_SIZE], which it takes from
    the boot sector. *)
Definition sd_disk_ok (s : SdDrv C) : Prop := sd_ready s ∧ SD_SECTOR_SIZE s = 512.

Lemma sector_index i sector (c : C) : 0 <= sector + i < sectors c → s32 (u32 (sector + i)) = sector + i.
Proof.
  unfold sectors. intros H. assert (0 <= sector + i < 2 ^ 31) by (destruct (high_capacity c); lia).
  rewrite u32_small, s32_small by lia. done.
Qed.

Lemma sectors_same c c' : same_card c c' → sectors c' = sectors c.
Proof. intros (H1 & H2 & _). unfold sectors. by rewrite H1, H2. Qed.

Lemma sd_read_loop_spec n : ∀ i sector buff s,
  sd_disk_ok s → 0 <= i → 0 <= sector → sector + i + Z.of_nat n <= sectors (card s) →
  512 * (i + Z.of_nat n) <= zlen buff → zlen buff < 2 ^ 32 →
  ∃ buff' c, sd_read_loop n i sector buff s = (buff', set_card c s) ∧ same_card (card s) c ∧
    sd_ready (set_card c s) ∧ zlen buff' = zlen buff ∧
    ∀ j, 0 <= j → zget buff' j = if decide (512 * i <= j < 512 * (i + Z.of_nat n))
                                then zget (block (card s) (sector + j / 512)) (j mod 512) else zget buff j.
Proof.
  induction n as [|n IH]; intros i sector buff s [Hr Hsz] Hi Hsec Hn Hl H32; cbn [sd_read_loop].
  { exists buff, (card s). split; [by destruct s|]. split; [done|]. split; [by destruct Hr; split|].
    split; [done|]. intros j Hj. rewrite decide_False by lia. done. }
  rewrite (sector_index i sector (card s)) by lia.
  destruct (read_sector_spec (sector + i) s Hr ltac:(lia)) as (c1 & -> & S1 & R1).
  cbn [set_card SD_SECTOR_SIZE]. rewrite Hsz, u32_small by lia.
  set (b1 := zwrite buff (512 * i) (block (card s) (sector + i))).
  assert (zlen b1 = zlen buff) as Hl1 by (unfold zlen, b1; by rewrite zwrite_length).
  assert (zlen (block (card s) (sector + i)) = 512) as Hbl by (unfold zlen; by rewrite block_length).
  destruct (IH (i + 1) sector b1 (set_card c1 s)) as (b2 & c2 & -> & S2 & R2 & L2 & Hg);
    [done|lia|done|cbn [card set_card]; rewrite (sectors_same _ _ S1); lia|lia|lia|].
  exists b2, c2. split; [done|]. split; [by etrans|]. split; [done|]. split; [congruence|].
  intros j Hj. rewrite Hg by done. destruct S1 as (_ & _ & Hblk). cbn [card set_card]. rewrite Hblk.
  destruct (decide (512 * (i + 1) <= j < 512 * (i + 1 + Z.of_nat n))).
  { by rewrite decide_True by lia. }
  destruct (decide (512 * i <= j < 512 * (i + 1))).
  - rewrite decide_True by lia. unfold b1. rewrite zget_zwrite_in by lia.
    replace (j / 512) with i by (Z.div_mod_to_equations; lia). f_equal. Z.div_mod_to_equations. lia.
  - rewrite decide_False by lia. unfold b1. rewrite zget_zwrite_out by lia. done.
Qed.

Lemma sd_write_loop_spec n : ∀ i sector buff s,
  sd_disk_ok s → 0 <= i → 0 <= sector → sector + i + Z.of_nat n <= sectors (card s) →
  bytes buff → 512 * (i + Z.of_nat n) <= zlen buff → zlen buff < 2 ^ 32 →
  ∃ c, sd_write_loop n i sector buff s = set_card c s ∧ sd_ready (set_card c s) ∧ sectors c = sectors (card s) ∧
    ∀ a, block c a = if decide (sector + i <= a < sector + i + Z.of_nat n)
                     then zread buff (512 * (a - sector)) 512 else block (card s) a.
Proof.
  induction n as [|n IH]; intros i sector buff s [Hr Hsz] Hi Hsec Hn Hb Hl H32; cbn [sd_write_loop].
  { exists (card s). split; [by destruct s|]. split; [by destruct Hr; split|]. split; [done|].
    intros a. rewrite decide_False by lia. done. }
  rewrite (sector_index i sector (card s)) by lia. rewrite Hsz, u32_small by lia.
  destruct (write_sector_spec (sector + i) (drop (Z.to_nat (512 * i)) buff) s Hr ltac:(lia))
    as (c1 & -> & R1 & Hc1 & Hh1 & Hb1); [by apply Forall_drop|rewrite length_drop; unfold zlen in Hl; lia|].
  assert (sectors c1 = sectors (card s)) as Hs1 by (unfold sectors; by rewrite Hc1, Hh1).
  destruct (IH (i + 1) sector buff (set_card c1 s)) as (c2 & -> & R2 & Hs2 & Hb2);
    [done|lia|done|cbn [card set_card]; lia|done|lia|lia|].
  exists c2. split; [done|]. split; [done|]. split; [cbn [card set_card] in Hs2; congruence|].
  intros a. rewrite Hb2. cbn [card set_card]. destruct (decide (sector + (i + 1) <= a < sector + (i + 1) + Z.of_nat n)).
  { by rewrite decide_True by lia. }
  rewrite Hb1. destruct (decide (a = sector + i)) as [->|].
  - rewrite decide_True by lia. unfold zread. rewrite drop_drop. do 2 f_equal. lia.
  - rewrite decide_False by lia. done.
Qed.

(** C13: With a card in SPI mode the driver implements the storage interface:
    [disk_read] fills the buffer with the blocks of the card and leaves the
    card as it was, [disk_write] replaces exactly the addressed blocks by the
    contents of the buffer; both report success and keep the driver ready. *)
Theorem sd_disk_refines s sector count buff :
  sd_disk_ok s → 0 <= sector → 0 < count → sector + count <= sectors (card s) →
  bytes buff → zlen buff = 512 * count → zlen buff < 2 ^ 32 →
  (∃ buff' s', sd_disk_read 0 buff sector count s = (RES_OK, buff', s') ∧ sd_disk_ok s' ∧
     sectors (card s') = sectors (card s) ∧ (∀ a, block (card s') a = block (card s) a) ∧
     buff' = concat (block (card s) <$> seqZ sector count)) ∧
  (∃ s', sd_disk_write 0 buff sector count s = (RES_OK, s') ∧ sd_disk_ok s' ∧
     sectors (card s') = sectors (card s) ∧
     ∀ a, block (card s') a = if decide (sector <= a < sector + count)
                              then zread buff (512 * (a - sector)) 512 else block (card s) a).
Proof.
  intros Hok Hsec Hc Hn Hb Hl H32. unfold sd_disk_read, sd_disk_write. rewrite (proj2 (Z.eqb_neq count 0)) by lia.
  cbn [Z.eqb]. split.
  - destruct (sd_read_loop_spec (Z.to_nat count) 0 sector buff s Hok) as (b & c & E & S1 & R1 & L1 & Hg); [lia..|].
    rewrite E. exists b, (set_card c s). split; [done|]. split; [split; [done|apply Hok]|].
    split; [by apply sectors_same|]. split; [apply S1|].
    assert (zlen (concat (block (card s) <$> seqZ sector count)) = 512 * count) as Lc.
    { apply length_concat_512; [lia|]. intros. apply block_length. }
    apply list_eq_zget; [unfold zlen in *; lia|]. intros j Hj. rewrite L1, Hl in Hj.
    rewrite Hg, decide_True, zget_concat by (lia || intros; apply block_length). done.
  - destruct (sd_write_loop_spec (Z.to_nat count) 0 sector buff s Hok) as (c & -> & R1 & Hs1 & Hb1); [lia|lia|lia|done|lia|lia|].
    exists (set_card c s). split; [done|]. split; [split; [done|apply Hok]|]. split; [done|].
    intros a. cbn [card set_card]. rewrite Hb1, Z.add_0_r, Z2Nat.id by lia. done.
Qed.

End laws.

(** * A card that follows the specification *)

Module ExCard.

Record xcard : Type := mkX {
  xphase : sd_phase;
  xhigh : bool;
  xblocks : gmap Z (list Z);
  xsel : bool;
  xin : list Z;          (* bytes of the token or data block received so far *)
  xdata : option Z;      (* the block for which data is expected *)
  xout : list Z          (* bytes to be sent *)
}.

Definition xcap : Z := 1024.
Definition xblock (c : xcard) (a : Z) : list Z :=
  (λ j, u8 (zget (default [] (xblocks c !! a)) j)) <$> seqZ 0 512.

Definition reply (p : sd_phase) (out : list Z) (c : xcard) : xcard :=
  mkX p (xhigh c) (xblocks c) (xsel c) [] None out.

Definition respond (cmd arg : Z) (c : xcard) : xcard :=
  let a := if xhigh c then arg else arg / 512 in
  match xphase c with
  | PowerUp => reply PowerUp [] c
  | _ =>
  if cmd =? 0 then reply (Idle 2) [0xff; 0x01] c
  else match xphase c with
  | Idle k =>
      if cmd =? 8 then reply (Idle k) [0x01; 0; 0; 0x01; 0xaa] c
      else if cmd =? 58 then reply (Idle k) [0x01; 0; 0xff; 0x80; 0] c
      else if cmd =? 55 then reply (IdleApp k) [0x01] c
      else reply (Idle k) [] c
  | IdleApp k =>
      if cmd =? 41 then match k with O => reply Ready [0x00] c | S k => reply (Idle k) [0x01] c end
      else reply (Idle k) [] c
  | Ready =>
      if cmd =? 58 then reply Ready [0x00; if xhigh c then 0xC0 else 0x80; 0xff; 0x80; 0] c
      else if cmd =? 16 then reply Ready [0x00] c
      else if cmd =? 13 then reply Ready [0x00; 0x00] c
      else if cmd =? 17 then reply Ready ([0x00; 0xff; 0xfe] ++ xblock c a ++ [0; 0]) c
      else if cmd =? 24 then mkX Ready (xhigh c) (xblocks c) (xsel c) [] (Some a) [0x00]
      else reply Ready [] c
  | PowerUp => reply PowerUp [] c
  end
  end.

Definition xclock_out (b : Z) (c : xcard) : xcard :=
  let i := xin c ++ [b] in
  let more := mkX (xphase c) (xhigh c) (xblocks c) (xsel c) i (xdata c) (xout c) in
  if negb (xsel c) then c
  else match xdata c, i with
       | Some a, _ =>
           if zlen i =? 515
           then mkX (xphase c) (xhigh c) (<[a := zread i 1 512]> (xblocks c)) (xsel c) [] None [0xe5; 0x00; 0x00; 0xff]
           else more
       | None, [t; a3; a2; a1; a0; _] => respond (t - 64) (a3 * 2 ^ 24 + a2 * 2 ^ 16 + a1 * 2 ^ 8 + a0) c
       | None, _ => more
       end.

Definition xclock_in (c : xcard) : Z * xcard :=
  match xout c with
  | [] => (0xff, c)
  | b :: out => (b, mkX (xphase c) (xhigh c) (xblocks c) (xsel c) (xin c) (xdata c) out)
  end.

Definition xselect (b : bool) (c : xcard) : xcard := mkX (xphase c) (xhigh c) (xblocks c) b [] None [].

#[global] Instance xcard_spi : SpiCard xcard :=
  {| clock_out := xclock_out; clock_in := xclock_in; select_pin := xselect |}.

Lemma gives_out out : ∀ c, xout c = out →
  gives c out (mkX (xphase c) (xhigh c) (xblocks c) (xsel c) (xin c) (xdata c) []).
Proof.
  induction out as [|b out IH]; intros c E.
  - rewrite <- E. destruct c. simpl in *. subst. constructor.
  - constructor.
    + simpl. unfold xclock_in. rewrite E. cbn [snd]. apply (IH (mkX _ _ _ _ _ _ out)). done.
    + simpl. unfold xclock_in. by rewrite E.
Qed.

Lemma arg_join arg : 0 <= arg < 2 ^ 32 →
  arg / 2 ^ 24 mod 256 * 2 ^ 24 + arg / 2 ^ 16 mod 256 * 2 ^ 16 + arg / 2 ^ 8 mod 256 * 2 ^ 8 + arg mod 256 = arg.
Proof. intros H. Z.div_mod_to_equations. lia. Qed.

(** The effect of a command token. *)
Lemma feed_token cmd arg crc c : 0 <= arg < 2 ^ 32 →
  feed (token cmd arg crc) (select_pin true c) =
  respond cmd arg (mkX (xphase c) (xhigh c) (xblocks c) true
    [64 + cmd; arg / 2 ^ 24 mod 256; arg / 2 ^ 16 mod 256; arg / 2 ^ 8 mod 256; arg mod 256] None []).
Proof.
  intros H. unfold feed, token. cbn -[respond Z.add Z.sub Z.mul Z.div Z.modulo Z.pow].
  by rewrite (arg_join arg H), Z.add_simpl_l.
Qed.

(** The card after a command, deselected. *)
Definition parked (p : sd_phase) (c : xcard) : xcard := mkX p (xhigh c) (xblocks c) false [] None [].
Definition heard (cmd arg : Z) (c : xcard) : xcard :=
  mkX (xphase c) (xhigh c) (xblocks c) true
    [64 + cmd; arg / 2 ^ 24 mod 256; arg / 2 ^ 16 mod 256; arg / 2 ^ 8 mod 256; arg mod 256] None [].

Lemma answers_reply n out c cmd arg crc p :
  0 <= arg < 2 ^ 32 → (n <= NCR)%nat →
  respond cmd arg (heard cmd arg c) = reply p (replicate n 0xff ++ out) (heard cmd arg c) →
  answers c cmd arg crc out (parked p c).
Proof.
  intros Ha Hn E. eexists n, _. split; [done|]. split.
  - rewrite feed_token by done. fold (heard cmd arg c). rewrite E. by apply gives_out.
  - reflexivity.
Qed.

Lemma feed_data a bs : ∀ c, xsel c = true → xdata c = Some a → (length (xin c) + length bs < 515)%nat →
  feed bs c = mkX (xphase c) (xhigh c) (xblocks c) (xsel c) (xin c ++ bs) (xdata c) (xout c).
Proof.
  induction bs as [|b bs IH]; intros c Hs Hd Hl; simpl.
  { rewrite app_nil_r. by destruct c. }
  fold (feed bs (xclock_out b c)). unfold xclock_out at 1. rewrite Hs, Hd. cbn [negb].
  assert (zlen (xin c ++ [b]) =? 515 = false) as ->.
  { apply Z.eqb_neq. unfold zlen. rewrite length_app. simpl in *. lia. }
  rewrite IH; cbn [xsel xdata xin]; auto.
  - by rewrite <- app_assoc.
  - rewrite length_app. simpl in *. lia.
Qed.

Lemma feed_block a bs c :
  xsel c = true → xdata c = Some a → xin c = [] → length bs = 512%nat →
  feed ([0xfe] ++ bs ++ [0xff; 0xff]) c =
  mkX (xphase c) (xhigh c) (<[a := bs]> (xblocks c)) true [] None [0xe5; 0x00; 0x00; 0xff].
Proof.
  intros Hs Hd Hi Hl. replace ([0xfe] ++ bs ++ [0xff; 0xff]) with (([0xfe] ++ bs ++ [0xff]) ++ [0xff]).
  2:{ by rewrite <- !app_assoc. }
  rewrite feed_app, (feed_data a ([0xfe] ++ bs ++ [0xff]) c); [|done|done|].
  2:{ rewrite Hi, !length_app, Hl. simpl. lia. }
  rewrite Hi. simpl. unfold xclock_out. cbn [xsel xdata xin xphase xhigh xblocks]. rewrite Hs, Hd. cbn [negb].
  assert (zlen ((254 :: bs ++ [255]) ++ [255]) =? 515 = true) as ->.
  { apply Z.eqb_eq. unfold zlen. rewrite length_app. simpl. rewrite length_app. simpl. lia. }
  assert (zread ((254 :: bs ++ [255]) ++ [255]) 1 512 = bs) as ->; [|done]. unfold zread.
  change (drop (Z.to_nat 1) ((254 :: bs ++ [255]) ++ [255])) with ((bs ++ [255]) ++ [255]).
  rewrite <- app_assoc. apply take_app_length'. by rewrite Hl.
Qed.

#[global] Instance xcard_laws : SdCardLaws xcard.
Proof.
  refine {| phase := xphase; high_capacity := xhigh; capacity := λ _, xcap; block := xblock; rounds := λ _, 2%nat |}.
  - intros c a. unfold xblock. by rewrite length_fmap, length_seqZ.
  - intros c a. apply Forall_fmap, Forall_true. intros. apply u8_byte.
  - intros [p h b se i d o]. destruct p; (split; [by split_and!|split; [reflexivity|]]); [by intros []|..];
      intros _; vm_compute; discriminate.
  - intros c Hk. exists (parked (Idle 2) c), 2%nat. split; [|by repeat split; lia].
    apply (answers_reply 1 [0x01]); [lia|unfold NCR; lia|]. unfold respond, heard. cbn [xphase]. by destruct (xphase c).
  - intros c k Hk. exists (parked (Idle k) c), 0, 0, 1. split; [|by repeat split].
    apply (answers_reply 0); [lia|unfold NCR; lia|]. unfold respond, heard. cbn [xphase]. by rewrite Hk.
  - intros c k Hk. exists (parked (Idle k) c), 0, 0xff, 0x80, 0. split; [|by repeat split].
    apply (answers_reply 0); [lia|unfold NCR; lia|]. unfold respond, heard. cbn [xphase]. by rewrite Hk.
  - intros c Hk. exists (parked Ready c), (if xhigh c then 0xC0 else 0x80), 0xff, 0x80, 0.
    split; [|split; [by destruct (xhigh c)|by repeat split]].
    apply (answers_reply 0); [lia|unfold NCR; lia|]. unfold respond, heard. cbn [xphase]. by rewrite Hk.
  - intros c k Hk. exists (parked (IdleApp k) c). split; [|by repeat split].
    apply (answers_reply 0); [lia|unfold NCR; lia|]. unfold respond, heard. cbn [xphase]. by rewrite Hk.
  - intros c k Hk. exists (parked (match k with O => Ready | S k => Idle k end) c), (match k with O => 0 | _ => 1 end).
    split; [|by destruct k; repeat split].
    apply (answers_reply 0); [lia|unfold NCR; lia|]. unfold respond, heard. cbn [xphase]. rewrite Hk. by destruct k.
  - intros c Hk. exists (parked Ready c). split; [|by repeat split].
    apply (answers_reply 0); [lia|unfold NCR; lia|]. unfold respond, heard. cbn [xphase]. by rewrite Hk.
  - intros c a arg Hk Ha Harg Hadr. exists (parked Ready c), [0xff], 0, 0.
    split; [|split; [by repeat constructor|by repeat split; unfold zlen; simpl; lia]].
    apply (answers_reply 0); [done|unfold NCR; lia|]. unfold respond, heard. cbn [xphase]. rewrite Hk. simpl.
    do 2 f_equal. cbn [xhigh]. 
    replace (if xhigh c then arg else arg / 512) with a; [done|]. subst arg.
    destruct (xhigh c); [done|]. by rewrite Z.mul_comm, Z.div_mul.
  - intros c a arg bs Hk Ha Harg Hadr Hb Hl.
    assert ((if xhigh c then arg else arg / 512) = a) as Ea.
    { subst arg. destruct (xhigh c); [done|]. by rewrite Z.mul_comm, Z.div_mul. }
    eexists 0%nat, _, [], 0xe5, 2%nat, 0xff, _. split; [unfold NCR; lia|]. split.
    { rewrite feed_token by done. fold (heard 24 arg c). unfold respond, heard. cbn [xphase xhigh xblocks xsel].
      rewrite Hk, Ea. simpl. by apply gives_out. }
    split.
    { rewrite (feed_block a) by done. by apply gives_out. }
    split; [done|]. split; [simpl; lia|]. split; [done|]. split; [lia|]. split; [done|].
    split; [done|]. split; [done|]. split; [done|]. intros a'.
    change (xblock (mkX Ready (xhigh c) (<[a := bs]> (xblocks c)) false [] None []) a' =
            if decide (a' = a) then bs else xblock c a').
    unfold xblock. cbn [xblocks]. destruct (decide (a' = a)) as [->|].
    + rewrite lookup_insert_eq. cbn [default]. apply list_eq_zget; [by rewrite length_fmap, length_seqZ|].
      intros j Hj. rewrite zget_fmap_seqZ by (unfold zlen in Hj; rewrite length_fmap, length_seqZ in Hj; lia).
      apply u8_small, (zget_byte bs j Hb).
    + by rewrite lookup_insert_ne.
  - intros c Hk. exists (parked Ready c), 0. split; [|by repeat split].
    apply (answers_reply 0); [lia|unfold NCR; lia|]. unfold respond, heard. cbn [xphase]. by rewrite Hk.
Defined.

End ExCard.

Definition ex_sd : SdDrv ExCard.xcard :=
  mkSd (ExCard.mkX Ready true ∅ false [] None []) (idle_gpio, idle_pins) false 512 0 0.

Lemma ex_sd_ok : sd_disk_ok ex_sd.
Proof. by repeat split. Qed.

Lemma sd_disk_refines_witness :
  (∃ s', sd_disk_write 0 (replicate 512 7) 3 1 ex_sd = (RES_OK, s') ∧ block (card s') 3 = replicate 512 7) ∧
  ∃ buff' s', sd_disk_read 0 (replicate 512 7) 3 1 ex_sd = (RES_OK, buff', s') ∧
    buff' = concat (block (card ex_sd) <$> seqZ 3 1).
Proof.
  destruct (sd_disk_refines ex_sd 3 1 (replicate 512 7) ex_sd_ok) as [(b & s1 & E1 & _ & _ & _ & Hb) (s2 & E2 & _ & _ & Hw)].
  - lia.
  - lia.
  - vm_compute. discriminate.
  - apply Forall_replicate. unfold is_byte. lia.
  - reflexivity.
  - vm_compute. reflexivity.
  - split.
    + exists s2. split; [exact E2|]. rewrite Hw, decide_True by lia. reflexivity.
    + exists b, s1. split; [exact E1|]. exact Hb.
Defined.


(** * A bus without a card *)

Lemma turns_never {St R} (body : St → St + R) p s :
  (∀ s, ∃ s', body s = inl s') → ∃ s', turns p body s = inl s'.
Proof.
  intros H. rewrite turns_eq. revert s. induction (Pos.to_nat p) as [|n IH]; intros s; simpl; [eauto|].
  destruct (H s) as [s' ->]. apply IH.
Qed.

Section dead.
Context {C : Type} {SC : SpiCard C}.
Hypothesis Hdead : ∀ c : C, (clock_in c).1 = 0xff.

Lemma dead_R1 (c : C) : ∃ c', sd_get_response_R1 c = (0xff, c').
Proof using Hdead.
  unfold sd_get_response_R1.
  destruct (turns_never (λ c, let (result, c) := clock_in c in
    if negb (result =? 0xff) then inr (result, c) else inl c) 0xff c) as [c' ->]; [|eauto].
  intros x. specialize (Hdead x). destruct (clock_in x) as [r y]. cbn [fst] in Hdead. subst. eauto.
Qed.

Lemma dead_read n (c : C) : ∃ c', sd_read_data n c = (replicate n 0xff, c').
Proof using Hdead.
  revert c. induction n as [|n IH]; intros c; simpl; [eauto|]. specialize (Hdead c).
  destruct (clock_in c) as [r y]. cbn [fst] in Hdead. subst. destruct (IH y) as [c' ->]. eauto.
Qed.

(** Without a card the select line reads as ones: [disk_initialize]
    reports that there is no drive, but [disk_read] of a sector still reports
    success, with a buffer full of 0xff. *)
Theorem sd_dead_bus (s : SdDrv C) buff sector :
  (∃ s', sd_disk_initialize 0 s = (STA_NOINIT, s')) ∧
  (∃ s', sd_disk_read 0 buff sector 1 s = (RES_OK, zwrite buff 0 (replicate 512 0xff), s')).
Proof using Hdead.
  split.
  - unfold sd_disk_initialize, sdcard_init, sd_init. cbn [Z.eqb].
    assert (∀ c, ∃ c', switch_to_SPI_mode c = (false, c')) as Hsw.
    { intros c. unfold switch_to_SPI_mode.
      match goal with |- context [turns ?p ?b c] => assert (∃ c', turns p b c = inl c') as [c' ->]; [|by eauto] end.
      apply turns_never. intros x. destruct (dead_R1 (sd_send_cmd SD_CMD0 0 0x95 x)) as [y ->]. simpl. eauto. }
    match goal with |- context [switch_to_SPI_mode ?c] => destruct (Hsw c) as [c' ->] end. simpl. eauto.
  - unfold sd_disk_read. cbn [Z.eqb]. change (Z.to_nat 1) with 1%nat. cbn [sd_read_loop].
    unfold sdcard_read_sector. cbv zeta.
    match goal with |- context [sd_get_response_R1 ?c] => destruct (dead_R1 c) as [c1 ->] end.
    match goal with |- context [turns ?p ?b c1] => assert (∃ c', turns p b c1 = inl c') as [c2 ->] end.
    2:{ destruct (dead_read (Z.to_nat BSIZE) c2) as [c3 ->]. destruct (dead_read 2 c3) as [c4 ->].
        rewrite Z.mul_0_r. eauto. }
    apply turns_never. intros x. specialize (Hdead x). destruct (clock_in x) as [r y].
    cbn [fst] in Hdead. subst. simpl. eauto.
Qed.
End dead.

Lemma sd_dead_bus_witness : 
  ∃ s', @sd_disk_read unit {| clock_out := λ _ c, c; clock_in := λ c, (0xff, c); select_pin := λ _ c, c |} 0
          (replicate 512 0) 5 1 (mkSd tt (idle_gpio, idle_pins) false 512 0 0) = (RES_OK, zwrite (replicate 512 0) 0 (replicate 512 0xff), s').
Proof.
  exact (proj2 (@sd_dead_bus unit {| clock_out := λ _ c, c; clock_in := λ c, (0xff, c); select_pin := λ _ c, c |}
    (λ c, eq_refl) (mkSd tt (idle_gpio, idle_pins) false 512 0 0) (replicate 512 0) 5)).
Defined.
