(* ===== verification/Spi.v ===== *)
(** The SPI controller: driver/spi.c, and the transfers of driver/sdcard.c
    that use it.

    The controller is a device outside the program: [SpiDevice] is the access
    to its registers, [SpiLaws] what its manual says of the byte-wide
    transmit and receive modes. The result of the file is that the two
    transfers are, on any such device, the byte-wise traffic that the SD card
    driver is verified on. *)
From Stdlib Require Import ZArith Lia.
From stdpp Require Import base list numbers option relations gmap.
From S2P Require Import Prelude BitField Sysctl FfWindow KBase Fpioa SdCard.

Local Open Scope Z_scope.
Local Open Scope out_scope.

(** * Registers *)

Inductive spi_reg : Type :=
  | ctrlr0 | ctrlr1 | ssienr | mwcr | ser | baudr | txftlr | rxftlr | txflr | rxflr | sr | imr | isr | risr | txoicr
  | rxoicr | rxuicr | msticr | icr | dmacr | dmatdlr | dmardlr | idr | ssic_version_id | dr | rx_sample_delay
  | spi_ctrlr0 | resv | xip_mode_bits | xip_incr_inst | xip_wrap_inst | xip_ctrl | xip_ser | xrxoicr
  | xip_cnt_time_out | endian.
#[export] Instance spi_reg_eq_dec : EqDecision spi_reg.
Proof. solve_decision. Defined.

(** Reading and writing a register of one adapter; [dr] is [dr[0]]. *)
Class SpiDevice (H : Type) : Type := {
  reg_read : spi_reg → H → Z * H;
  reg_write : spi_reg → Z → H → H
}.

Inductive spi_device_num_t : Type := SPI_DEVICE_0 | SPI_DEVICE_1 | SPI_DEVICE_2 | SPI_DEVICE_3.
Inductive spi_work_mode_t : Type := SPI_WORK_MODE_0 | SPI_WORK_MODE_1 | SPI_WORK_MODE_2 | SPI_WORK_MODE_3.
Inductive spi_frame_format_t : Type := SPI_FF_STANDARD | SPI_FF_DUAL | SPI_FF_QUAD | SPI_FF_OCTAL.
Inductive spi_transfer_mode_t : Type := SPI_TMOD_TRANS_RECV | SPI_TMOD_TRANS | SPI_TMOD_RECV | SPI_TMOD_EEROM.
Inductive spi_transfer_width_t : Type := SPI_TRANS_CHAR | SPI_TRANS_SHORT | SPI_TRANS_INT.
Inductive spi_chip_select_t : Type := SPI_CHIP_SELECT_0 | SPI_CHIP_SELECT_1 | SPI_CHIP_SELECT_2 | SPI_CHIP_SELECT_3.

Definition work_mode_value (m : spi_work_mode_t) : Z :=
  match m with SPI_WORK_MODE_0 => 0 | SPI_WORK_MODE_1 => 1 | SPI_WORK_MODE_2 => 2 | SPI_WORK_MODE_3 => 3 end.
Definition frame_format_value (x : spi_frame_format_t) : Z :=
  match x with SPI_FF_STANDARD => 0 | SPI_FF_DUAL => 1 | SPI_FF_QUAD => 2 | SPI_FF_OCTAL => 3 end.
Definition tmod_value (m : spi_transfer_mode_t) : Z :=
  match m with SPI_TMOD_TRANS_RECV => 0 | SPI_TMOD_TRANS => 1 | SPI_TMOD_RECV => 2 | SPI_TMOD_EEROM => 3 end.
Definition width_value (w : spi_transfer_width_t) : Z :=
  match w with SPI_TRANS_CHAR => 1 | SPI_TRANS_SHORT => 2 | SPI_TRANS_INT => 4 end.
Definition chip_select_value (s : spi_chip_select_t) : Z :=
  match s with SPI_CHIP_SELECT_0 => 0 | SPI_CHIP_SELECT_1 => 1 | SPI_CHIP_SELECT_2 => 2 | SPI_CHIP_SELECT_3 => 3 end.

(** Places of the fields of [ctrlr0], which depend on the adapter. *)
Definition dfs_offset (spi_num : spi_device_num_t) : Z :=
  match spi_num with SPI_DEVICE_0 | SPI_DEVICE_1 => 16 | SPI_DEVICE_2 => 0 | SPI_DEVICE_3 => 0 end.
Definition frf_offset (spi_num : spi_device_num_t) : Z :=
  match spi_num with SPI_DEVICE_0 | SPI_DEVICE_1 => 21 | SPI_DEVICE_2 => 0 | SPI_DEVICE_3 => 22 end.
Definition work_mode_offset (spi_num : spi_device_num_t) : Z :=
  match spi_num with SPI_DEVICE_0 | SPI_DEVICE_1 => 6 | SPI_DEVICE_2 => 0 | SPI_DEVICE_3 => 8 end.
Definition tmod_offset (spi_num : spi_device_num_t) : Z :=
  match spi_num with SPI_DEVICE_0 | SPI_DEVICE_1 | SPI_DEVICE_2 => 8 | SPI_DEVICE_3 => 10 end.

Definition spi_get_frame_size (data_bit_length : Z) : spi_transfer_width_t :=
  if data_bit_length <? 8 then SPI_TRANS_CHAR else if data_bit_length <? 16 then SPI_TRANS_SHORT else SPI_TRANS_INT.

(** The clock of an adapter: [SYSCTL_CLOCK_SPI0 + spi_num]. *)
Definition spi_clock (spi_num : spi_device_num_t) : sysctl_clock_t :=
  match spi_num with
  | SPI_DEVICE_0 => SYSCTL_CLOCK_SPI0 | SPI_DEVICE_1 => SYSCTL_CLOCK_SPI1
  | SPI_DEVICE_2 => SYSCTL_CLOCK_SPI2 | SPI_DEVICE_3 => SYSCTL_CLOCK_SPI3
  end.

(** * The driver

    [h] is the adapter [spi[spi_num]]. Loops that poll it have fuel and end
    in [Loop] without it. *)

Section driver.
Context {H : Type} {SD : SpiDevice H}.

Definition spi_init (spi_num : spi_device_num_t) (work_mode : spi_work_mode_t) (frame_format : spi_frame_format_t)
    (data_bit_length endianness : Z) (h : H) : H :=
  let (b, h) := reg_read baudr h in
  let h := if b =? 0 then reg_write baudr 0x14 h else h in
  let h := reg_write imr 0 h in
  let h := reg_write dmacr 0 h in
  let h := reg_write dmatdlr 0x10 h in
  let h := reg_write dmardlr 0 h in
  let h := reg_write ser 0 h in
  let h := reg_write ssienr 0 h in
  let h := reg_write ctrlr0
    (u32 (Z.lor (Z.lor (Z.shiftl (work_mode_value work_mode) (work_mode_offset spi_num))
                       (Z.shiftl (frame_format_value frame_format) (frf_offset spi_num)))
                (u64 (Z.shiftl (u64 (data_bit_length - 1)) (dfs_offset spi_num))))) h in
  let h := reg_write spi_ctrlr0 0 h in
  reg_write endian endianness h.

Definition spi_set_tmod (spi_num : spi_device_num_t) (tmod : spi_transfer_mode_t) (h : H) : H :=
  let (bits, h) := reg_read ctrlr0 h in
  reg_write ctrlr0 (set_bit bits (Z.shiftl 3 (tmod_offset spi_num)) (u32 (Z.shiftl (tmod_value tmod) (tmod_offset spi_num)))) h.

Definition frame_width (spi_num : spi_device_num_t) (h : H) : spi_transfer_width_t * H :=
  let (c, h) := reg_read ctrlr0 h in
  (spi_get_frame_size (Z.land (Z.shiftr c (dfs_offset spi_num)) 0x1F), h).

(** The next frame of [buf]: its value, the index behind it, and
    [v_send_data], whose upper half the misaligned short frames keep. *)
Definition next_frame (w : spi_transfer_width_t) (misalign : bool) (buf : list Z) (i v : Z) : Z * Z * Z :=
  match w, misalign with
  | SPI_TRANS_INT, true => let v := ld_dword buf i in (v, u32 (i + 4), v)
  | SPI_TRANS_INT, false => (ld_dword buf (4 * i), u32 (i + 1), v)
  | SPI_TRANS_SHORT, true => let v := Z.lor (Z.land v 0xffff0000) (ld_word buf i) in (v, u32 (i + 2), v)
  | SPI_TRANS_SHORT, false => (ld_word buf (2 * i), u32 (i + 1), v)
  | SPI_TRANS_CHAR, _ => (zget buf i, u32 (i + 1), v)
  end.

Fixpoint put_frames (n : nat) (w : spi_transfer_width_t) (misalign : bool) (buf : list Z) (i v : Z) (h : H) : Z * Z * H :=
  match n with
  | O => (i, v, h)
  | S n => let '(x, i, v) := next_frame w misalign buf i v in put_frames n w misalign buf i v (reg_write dr x h)
  end.

Fixpoint send_loop (fuel : nat) (w : spi_transfer_width_t) (misalign : bool) (buf : list Z) (tx_len i v : Z) (h : H) : outcome H :=
  match fuel with
  | O => Loop
  | S fuel =>
      if tx_len =? 0 then Done h
      else
        let (t, h) := reg_read txflr h in
        let fifo_len := u32 (32 - t) in
        let fifo_len := if fifo_len <? tx_len then fifo_len else tx_len in
        let fifo_len := fifo_len / width_value w * width_value w in
        let '(i, v, h) := put_frames (Z.to_nat (fifo_len / width_value w)) w misalign buf i v h in
        send_loop fuel w misalign buf (u64 (tx_len - fifo_len)) i v h
  end.

(** [while ((spi_handle->sr & 0x05) != 0x04)] *)
Fixpoint drain_loop (fuel : nat) (h : H) : outcome H :=
  match fuel with
  | O => Loop
  | S fuel => let (x, h) := reg_read sr h in if Z.land x 0x05 =? 0x04 then Done h else drain_loop fuel h
  end.

(** [tx_buff] is the address of the buffer, [buf] its bytes; [stale] is what
    the uninitialised [v_send_data] holds. *)
Definition spi_send_data_normal (fuel : nat) (stale : Z) (spi_num : spi_device_num_t) (chip_select : spi_chip_select_t)
    (tx_buff : Z) (buf : list Z) (tx_len : Z) (h : H) : outcome H :=
  let h := spi_set_tmod spi_num SPI_TMOD_TRANS h in
  let (w, h) := frame_width spi_num h in
  let misalign := negb (tx_buff mod width_value w =? 0) in
  let h := reg_write ssienr 1 h in
  let h := reg_write ser (u32 (Z.shiftl 1 (chip_select_value chip_select))) h in
  do h := send_loop fuel w misalign buf tx_len 0 stale h in
  do h := drain_loop fuel h in
  Done (reg_write ssienr 0 (reg_write ser 0 h)).

Definition XXSIZE : Z := 0x200.

(** [v_buf] is the address of the local array. *)
Definition spi_send_data_standard (fuel : nat) (stale v_buf : Z) (spi_num : spi_device_num_t) (chip_select : spi_chip_select_t)
    (cmd_buff : list Z) (cmd_len : Z) (tx_buff : list Z) (tx_len : Z) (h : H) : outcome H :=
  if XXSIZE <? u64 (cmd_len + tx_len) then Wild
  else spi_send_data_normal fuel stale spi_num chip_select v_buf (zread cmd_buff 0 cmd_len ++ zread tx_buff 0 tx_len)
         (u64 (cmd_len + tx_len)) h.

(** The command phase of a reception, in frames. *)
Definition cmd_frame (w : spi_transfer_width_t) (buf : list Z) (i : Z) : Z :=
  match w with SPI_TRANS_INT => ld_dword buf (4 * i) | SPI_TRANS_SHORT => ld_word buf (2 * i) | SPI_TRANS_CHAR => zget buf i end.
Fixpoint put_cmd (n : nat) (w : spi_transfer_width_t) (buf : list Z) (i : Z) (h : H) : Z * H :=
  match n with
  | O => (i, h)
  | S n => put_cmd n w buf (u32 (i + 1)) (reg_write dr (cmd_frame w buf i) h)
  end.
Fixpoint cmd_loop (fuel : nat) (w : spi_transfer_width_t) (cs : Z) (buf : list Z) (v_cmd_len i : Z) (h : H) : outcome H :=
  match fuel with
  | O => Loop
  | S fuel =>
      if v_cmd_len =? 0 then Done h
      else
        let (t, h) := reg_read txflr h in
        let fifo_len := u32 (32 - t) in
        let fifo_len := if fifo_len <? v_cmd_len then fifo_len else v_cmd_len in
        let '(i, h) := put_cmd (Z.to_nat fifo_len) w buf i h in
        cmd_loop fuel w cs buf (v_cmd_len - fifo_len) i (reg_write ser cs h)
  end.

(** The bytes that a received frame stores. *)
Definition frame_bytes (w : spi_transfer_width_t) (x : Z) : list Z :=
  match w with
  | SPI_TRANS_INT => [u8 x; u8 (Z.shiftr x 8); u8 (Z.shiftr x 16); u8 (Z.shiftr x 24)]
  | SPI_TRANS_SHORT => [u8 x; u8 (Z.shiftr x 8)]
  | SPI_TRANS_CHAR => [u8 x]
  end.
Fixpoint get_frames (n : nat) (w : spi_transfer_width_t) (h : H) : list Z * H :=
  match n with
  | O => ([], h)
  | S n => let (x, h) := reg_read dr h in let (bs, h) := get_frames n w h in (frame_bytes w x ++ bs, h)
  end.
Fixpoint recv_loop (fuel : nat) (w : spi_transfer_width_t) (v_rx_len : Z) (got : list Z) (h : H) : outcome (list Z * H) :=
  match fuel with
  | O => Loop
  | S fuel =>
      if v_rx_len =? 0 then Done (got, h)
      else
        let (t, h) := reg_read rxflr h in
        let fifo_len := if t <? v_rx_len then t else v_rx_len in
        let (bs, h) := get_frames (Z.to_nat fifo_len) w h in
        recv_loop fuel w (u32 (v_rx_len - fifo_len)) (got ++ bs) h
  end.

(** The result has the bytes stored from the start of [rx_buff] on. *)
Definition spi_receive_data_standard (fuel : nat) (spi_num : spi_device_num_t) (chip_select : spi_chip_select_t)
    (cmd_buff : list Z) (cmd_len rx_len : Z) (h : H) : outcome (list Z * H) :=
  let cs := u32 (Z.shiftl 1 (chip_select_value chip_select)) in
  let h := spi_set_tmod spi_num (if cmd_len =? 0 then SPI_TMOD_RECV else SPI_TMOD_EEROM) h in
  let (w, h) := frame_width spi_num h in
  let v_cmd_len := cmd_len / width_value w in
  let v_rx_len := u32 (rx_len / width_value w) in
  let h := reg_write ctrlr1 (u32 (v_rx_len - 1)) h in
  let h := reg_write ssienr 1 h in
  do h := cmd_loop fuel w cs cmd_buff v_cmd_len 0 h in
  let h := if cmd_len =? 0 then reg_write ser cs (reg_write dr 0xffffffff h) else h in
  do (got, h) := recv_loop fuel w v_rx_len [] h in
  Done (got, reg_write ssienr 0 (reg_write ser 0 h)).

Definition spi_get_frame_format (spi_num : spi_device_num_t) (h : H) : Z * H :=
  let (c, h) := reg_read ctrlr0 h in (Z.land (Z.shiftr c (frf_offset spi_num)) 0x3, h).

(** A rate of zero divides by zero. *)
Definition spi_set_clk_rate (spi_num : spi_device_num_t) (spi_clk : Z) (s : sysctl_t) (h : H) : option (Z * H) :=
  freq ← sysctl_clock_get_freq s (spi_clock spi_num);
  if spi_clk =? 0 then None
  else
    let spi_baudr := u32 (freq / spi_clk) in
    let spi_baudr := if spi_baudr <? 2 then 2 else if 65534 <? spi_baudr then 65534 else spi_baudr in
    Some (u32 (freq / spi_baudr), reg_write baudr spi_baudr h).

(** * Transfers of sdcard.c *)

Definition sd_write_data_spi (fuel : nat) (stale v_buf : Z) (data_buff : list Z) (h : H) : outcome H :=
  spi_send_data_standard fuel stale v_buf SPI_DEVICE_0 SPI_CHIP_SELECT_3 [] 0 data_buff (zlen data_buff)
    (spi_init SPI_DEVICE_0 SPI_WORK_MODE_0 SPI_FF_STANDARD 8 0 h).
Definition sd_read_data_spi (fuel : nat) (length : Z) (h : H) : outcome (list Z * H) :=
  spi_receive_data_standard fuel SPI_DEVICE_0 SPI_CHIP_SELECT_3 [] 0 length
    (spi_init SPI_DEVICE_0 SPI_WORK_MODE_0 SPI_FF_STANDARD 8 0 h).
End driver.

(** * The device *)

Section device.
Context {C : Type} {SC : SpiCard C}.

(** What the manual of the controller speaks of: registers that read as
    written, the transmit and the receive queue of 32 frames each, the number
    of frames still to be received, and what is on the line. *)
Record ssi : Type := mkSsi { plain : spi_reg → Z; txq : list Z; rxq : list Z; left : Z; line : C }.

Definition tmod_of (s : ssi) : Z := slice 8 2 (plain s ctrlr0).
Definition byte_frames (s : ssi) : bool := (slice 16 5 (plain s ctrlr0) =? 7) && (slice 21 2 (plain s ctrlr0) =? 0).
Definition running (s : ssi) : bool :=
  negb (plain s ssienr =? 0) && negb (plain s ser =? 0) && negb (plain s baudr =? 0).

(** The next frame on the line, where there is one. A frame is received when
    its queue has room: the program polls faster than the line fills it. *)
Definition shift1 (s : ssi) : option ssi :=
  if negb (running s) then None
  else if tmod_of s =? 1 then
    match txq s with
    | [] => None
    | v :: q => Some (mkSsi (plain s) q (rxq s) (left s) (clock_out (u8 v) (line s)))
    end
  else if (tmod_of s =? 2) && (0 <? left s) && (zlen (rxq s) <? 32) then
    let (b, c) := clock_in (line s) in Some (mkSsi (plain s) (txq s) (rxq s ++ [u8 b]) (left s - 1) c)
  else None.
Definition line_step (s s' : ssi) : Prop := shift1 s = Some s'.
Definition pending (s : ssi) : nat := (length (txq s) + Z.to_nat (left s))%nat.

(** The states described: the controller is off, or moves bytes in one
    direction. *)
Definition governed (s : ssi) : Prop :=
  plain s ssienr = 0 ∨ byte_frames s = true ∧ (tmod_of s = 1 ∨ tmod_of s = 2).

Definition reads (r : spi_reg) (s : ssi) (v : Z) : Prop :=
  match r with
  | ctrlr0 | ctrlr1 | ssienr | ser | baudr => v = plain s r
  | txflr => v = zlen (txq s)
  | rxflr => v = zlen (rxq s)
  | sr => Z.land v 0x05 = 0x04 ↔ txq s = [] ∧ left s = 0   (* neither busy nor anything to send *)
  | dr => head (rxq s) = Some v
  | _ => True
  end.
Definition taken (r : spi_reg) (s : ssi) : ssi :=
  match r with dr => mkSsi (plain s) (txq s) (tail (rxq s)) (left s) (line s) | _ => s end.

Definition put_plain (r : spi_reg) (v : Z) (s : ssi) : ssi :=
  mkSsi (λ r', if decide (r' = r) then v else plain s r') (txq s) (rxq s) (left s) (line s).
(** Disabling the controller empties its queues; its configuration can be
    written only then. A word written in receive mode starts the reception
    of [ctrlr1 + 1] frames. *)
Definition wrote (r : spi_reg) (v : Z) (s : ssi) : ssi :=
  match r with
  | dr => if tmod_of s =? 1 then mkSsi (plain s) (txq s ++ [v]) (rxq s) (left s) (line s)
          else mkSsi (plain s) (txq s) (rxq s) (plain s ctrlr1 mod 65536 + 1) (line s)
  | ssienr => let s := put_plain ssienr v s in
              if v =? 0 then mkSsi (plain s) [] [] 0 (line s) else s
  | ctrlr0 | ctrlr1 | baudr => if plain s ssienr =? 0 then put_plain r v s else s
  | _ => put_plain r v s
  end.
End device.
Arguments ssi C : clear implicits.

(** During an access the line may move on. A device that is polled while a
    frame is to be moved moves one after at most [lag_max] accesses. *)
Class SpiLaws (H C : Type) {SD : SpiDevice H} {SC : SpiCard C} : Type := {
  ssi_view : H → ssi C;
  lag : H → nat;
  lag_max : nat;
  lag_bound h : (lag h <= lag_max)%nat;
  law_read r h : governed (ssi_view h) → (r = dr → rxq (ssi_view h) ≠ []) →
    ∃ s, rtc line_step (ssi_view h) s ∧ reads r s (reg_read r h).1 ∧ ssi_view (reg_read r h).2 = taken r s;
  law_write r v h : governed (ssi_view h) →
    (r = dr → plain (ssi_view h) ssienr ≠ 0 ∧ zlen (txq (ssi_view h)) < 32) →
    ∃ s, rtc line_step (ssi_view h) s ∧ ssi_view (reg_write r v h) = wrote r v s;
  law_poll r h : r = txflr ∨ r = rxflr ∨ r = sr → governed (ssi_view h) → shift1 (ssi_view h) ≠ None →
    (pending (ssi_view (reg_read r h).2) < pending (ssi_view h))%nat ∨ (lag (reg_read r h).2 < lag h)%nat
}.

Section proofs.
Context {H C : Type} {SD : SpiDevice H} {SC : SpiCard C} {L : SpiLaws H C}.
Implicit Types (s : ssi C) (h : H) (c : C).

(** * The device at rest *)

Lemma rtc_quiet s s' : shift1 s = None → rtc line_step s s' → s' = s.
Proof. intros E Hr. inversion Hr as [|? ? ? Hs _]; subst; [done|]. unfold line_step in Hs. congruence. Qed.

Lemma shift_stopped s : running s = false → shift1 s = None.
Proof. intros E. unfold shift1. by rewrite E. Qed.

Lemma write_quiet r v h : governed (ssi_view h) → shift1 (ssi_view h) = None →
  (r = dr → plain (ssi_view h) ssienr ≠ 0 ∧ zlen (txq (ssi_view h)) < 32) →
  ssi_view (reg_write r v h) = wrote r v (ssi_view h).
Proof. intros Hg Hq Hd. destruct (law_write r v h Hg Hd) as (s & Hr & ->). by rewrite (rtc_quiet _ _ Hq Hr). Qed.

Lemma read_quiet r h : governed (ssi_view h) → shift1 (ssi_view h) = None → r ≠ dr →
  reads r (ssi_view h) (reg_read r h).1 ∧ ssi_view (reg_read r h).2 = ssi_view h.
Proof.
  intros Hg Hq Hd. destruct (law_read r h Hg ltac:(done)) as (s & Hr & Hv & Hs).
  rewrite (rtc_quiet _ _ Hq Hr) in *. split; [done|]. rewrite Hs. by destruct r.
Qed.

(** A controller that is switched off. *)
Definition off (s : ssi C) : Prop := plain s ssienr = 0.

Lemma off_quiet s : off s → governed s ∧ shift1 s = None.
Proof.
  intros E. split; [by left|]. apply shift_stopped. unfold running. by rewrite E.
Qed.

Lemma write_off r v h : off (ssi_view h) → r ≠ dr → ssi_view (reg_write r v h) = wrote r v (ssi_view h).
Proof. intros [Hg Hq]%off_quiet Hd. by apply write_quiet. Qed.

Lemma read_off r h : off (ssi_view h) → r ≠ dr →
  reads r (ssi_view h) (reg_read r h).1 ∧ ssi_view (reg_read r h).2 = ssi_view h.
Proof. intros [Hg Hq]%off_quiet Hd. by apply read_quiet. Qed.

(** Switched off, with the control word [ctl], a baud rate and empty queues. *)
Definition ready (ctl : Z) (c : C) (s : ssi C) : Prop :=
  off s ∧ plain s ser = 0 ∧ plain s ctrlr0 = ctl ∧ plain s baudr ≠ 0 ∧
  txq s = [] ∧ rxq s = [] ∧ left s = 0 ∧ line s = c.

(** Which register a written one is. *)
Ltac regs := repeat first [rewrite decide_True by done | rewrite decide_False by done].

Lemma write_keep r v h : off (ssi_view h) → r ≠ dr → r ≠ ssienr →
  ssi_view (reg_write r v h) = put_plain r v (ssi_view h).
Proof. intros Ho Hd He. rewrite write_off by done. destruct r; cbn [wrote]; by rewrite ?Ho. Qed.

Lemma off_keep r v h : off (ssi_view h) → r ≠ dr → r ≠ ssienr → off (ssi_view (reg_write r v h)).
Proof. intros Ho Hd He. rewrite write_keep by done. unfold off. cbn. by rewrite decide_False by done. Qed.

Lemma disable h : off (ssi_view h) → ssi_view (reg_write ssienr 0 h) = wrote ssienr 0 (ssi_view h).
Proof. intros Ho. by apply write_off. Qed.

Lemma off_disable h : off (ssi_view h) → off (ssi_view (reg_write ssienr 0 h)).
Proof. intros Ho. by rewrite disable. Qed.

#[local] Hint Resolve off_keep off_disable : core.
#[local] Hint Extern 1 (not (@eq spi_reg _ _)) => discriminate : core.

Lemma init_ready h : off (ssi_view h) →
  ready 0x70000 (line (ssi_view h)) (ssi_view (spi_init SPI_DEVICE_0 SPI_WORK_MODE_0 SPI_FF_STANDARD 8 0 h)).
Proof.
  intros Ho. unfold spi_init. destruct (read_off baudr h Ho ltac:(done)) as [Hb Ev]. cbn [reads] in Hb.
  destruct (reg_read baudr h) as [b h0]. cbn [fst snd] in *. rewrite <- Ev in Ho, Hb |- *. clear Ev h.
  set (h1 := if b =? 0 then reg_write baudr 0x14 h0 else h0).
  assert (G : off (ssi_view h1) ∧ plain (ssi_view h1) baudr ≠ 0 ∧ line (ssi_view h1) = line (ssi_view h0)).
  { unfold h1. destruct (Z.eqb_spec b 0); [|rewrite <-Hb; done].
    rewrite write_keep by done. unfold off. by cbn. }
  clearbody h1. destruct G as (Ho1 & Hb1 & Hl1). rewrite <- Hl1. clear Hl1 Ho Hb h0 b.
  repeat first [rewrite disable by auto 20 | rewrite write_keep by auto 20].
  unfold ready, off. by cbn.
Qed.

Lemma tmod_ready tmod h c : ready 0x70000 c (ssi_view h) →
  ready (Z.lor 0x70000 (Z.shiftl (tmod_value tmod) 8)) c (ssi_view (spi_set_tmod SPI_DEVICE_0 tmod h)).
Proof.
  intros (Ho & H1 & H2 & H3 & H4). unfold spi_set_tmod. destruct (read_off ctrlr0 h Ho ltac:(done)) as [Hb Ev].
  destruct (reg_read ctrlr0 h) as [b h0]. cbn [fst snd reads] in *. rewrite H2 in Hb. subst b.
  rewrite <- Ev in *. rewrite write_keep by auto. unfold ready, off. cbn. split_and!; try tauto. by destruct tmod.
Qed.

Lemma width_ready ctl h c : ready ctl c (ssi_view h) → slice 16 5 ctl = 7 →
  ∃ h', frame_width SPI_DEVICE_0 h = (SPI_TRANS_CHAR, h') ∧ ssi_view h' = ssi_view h.
Proof.
  intros (Ho & _ & H2 & _) Hc. unfold frame_width. destruct (read_off ctrlr0 h Ho ltac:(done)) as [Hb Ev].
  destruct (reg_read ctrlr0 h) as [b h0]. cbn [fst snd reads] in *. exists h0. split; [|done].
  cbn [dfs_offset]. rewrite Hb, H2. change 0x1F with (Z.ones 5). fold (slice 16 5 ctl). by rewrite Hc.
Qed.

(** * Sending *)

Definition feed8 (bs : list Z) (c : C) : C := foldl (λ c b, clock_out (u8 b) c) c bs.

(** In transmit mode: [c] is the card after everything in the queue has
    been sent. *)
Definition sending (c : C) (s : ssi C) : Prop :=
  byte_frames s = true ∧ tmod_of s = 1 ∧ running s = true ∧ rxq s = [] ∧ left s = 0 ∧ zlen (txq s) <= 32 ∧
  feed8 (txq s) (line s) = c.

Lemma sending_governed c s : sending c s → governed s ∧ plain s ssienr ≠ 0.
Proof.
  intros (H1 & H2 & H3 & _). split; [right; auto|]. unfold running in H3.
  destruct (Z.eqb_spec (plain s ssienr) 0); done.
Qed.

Lemma sending_shift c s s' : line_step s s' → sending c s → sending c s' ∧ (length (txq s') <= length (txq s))%nat.
Proof.
  intros Hs (H1 & H2 & H3 & H4 & H5 & H6 & H7). unfold line_step, shift1 in Hs. rewrite H3, H2 in Hs. cbn [negb Z.eqb] in Hs.
  change (1 =? 1) with true in Hs. cbn iota in Hs. destruct (txq s) as [|v q] eqn:E; [done|]. injection Hs as <-.
  unfold sending, byte_frames, tmod_of, running in *. cbn. unfold zlen in *. cbn [length] in *. split_and!; try done; lia.
Qed.

Lemma sending_rtc c s s' : rtc line_step s s' → sending c s → sending c s' ∧ (length (txq s') <= length (txq s))%nat.
Proof.
  induction 1 as [|s s1 s2 Hs Hr IH]; intros Hc; [done|].
  destruct (sending_shift c s s1 Hs Hc) as [Hc1 Hl]. destruct (IH Hc1). split; [done|lia].
Qed.

Lemma sending_can c s : sending c s → txq s ≠ [] → shift1 s ≠ None.
Proof.
  intros (H1 & H2 & H3 & _) Hne. unfold shift1. rewrite H3, H2. cbn. by destruct (txq s).
Qed.

Lemma sending_put c h v : sending c (ssi_view h) → zlen (txq (ssi_view h)) < 32 →
  sending (clock_out (u8 v) c) (ssi_view (reg_write dr v h)) ∧
  (length (txq (ssi_view (reg_write dr v h))) <= S (length (txq (ssi_view h))))%nat.
Proof.
  intros Hc Hl. destruct (sending_governed c _ Hc) as [Hg He].
  destruct (law_write dr v h Hg ltac:(done)) as (s & Hr & ->). destruct (sending_rtc c _ _ Hr Hc) as [Hs Hn].
  destruct Hs as (H1 & H2 & H3 & H4 & H5 & H6 & H7). cbn [wrote]. rewrite H2. cbn.
  unfold sending, byte_frames, tmod_of, running, zlen in *. cbn. rewrite length_app. cbn.
  unfold feed8 in *. rewrite foldl_app, H7. split_and!; try done; lia.
Qed.

(** A poll of the status while sending. *)
Lemma sending_poll c h r : sending c (ssi_view h) → r = txflr ∨ r = rxflr ∨ r = sr →
  sending c (ssi_view (reg_read r h).2) ∧ reads r (ssi_view (reg_read r h).2) (reg_read r h).1 ∧
  (length (txq (ssi_view (reg_read r h).2)) <= length (txq (ssi_view h)))%nat ∧
  (txq (ssi_view (reg_read r h).2) ≠ [] →
   (length (txq (ssi_view (reg_read r h).2)) < length (txq (ssi_view h)))%nat ∨ (lag (reg_read r h).2 < lag h)%nat).
Proof.
  intros Hc Hr. destruct (sending_governed c _ Hc) as [Hg _].
  destruct (law_read r h Hg ltac:(by intros ->; destruct Hr as [|[]])) as (s & Hs & Hv & Ev).
  assert (taken r s = s) as Ht by (by destruct Hr as [-> | [-> | ->]]). rewrite Ht in Ev.
  destruct (sending_rtc c _ _ Hs Hc) as [Hc' Hl]. rewrite Ev in *. split_and!; try done.
  intros Hne. assert (Hne' : txq (ssi_view h) ≠ []).
  { intros Hn. rewrite Hn in Hl. destruct (txq s); [done|cbn in Hl; lia]. }
  destruct (law_poll r h Hr Hg (sending_can c _ Hc Hne')) as [Hp|]; [left|by right].
  rewrite Ev in Hp. unfold pending in Hp.
  destruct Hc as (_ & _ & _ & _ & Hl0 & _), Hc' as (_ & _ & _ & _ & Hl1 & _). rewrite Hl0, Hl1 in Hp. lia.
Qed.

Lemma put_frames_spec misalign buf n : ∀ i v h c, sending c (ssi_view h) →
  (length (txq (ssi_view h)) + n <= 32)%nat → 0 <= i → i + Z.of_nat n <= zlen buf → zlen buf <= 512 →
  ∃ h', put_frames n SPI_TRANS_CHAR misalign buf i v h = (i + Z.of_nat n, v, h') ∧
    sending (feed8 (zread buf i (Z.of_nat n)) c) (ssi_view h') ∧
    (length (txq (ssi_view h')) <= length (txq (ssi_view h)) + n)%nat.
Proof.
  induction n as [|n IH]; intros i v h c Hc Hl Hi Hn Hb; cbn [put_frames].
  { exists h. rewrite Z.add_0_r. by rewrite Nat.add_0_r. }
  cbn [next_frame]. destruct (sending_put c h (zget buf i) Hc) as [Hc1 Hl1]; [unfold zlen; lia|].
  rewrite (u32_small (i + 1)) by lia.
  destruct (IH (i + 1) v _ _ Hc1) as (h' & E & Hc' & Hl'); try lia. exists h'.
  rewrite E. split; [do 2 f_equal; lia|]. split; [|lia].
  replace (zread buf i (Z.of_nat (S n))) with (zget buf i :: zread buf (i + 1) (Z.of_nat n)); [done|].
  unfold zread, zget, zlen in *. replace (Z.to_nat (i + 1)) with (S (Z.to_nat i)) by lia.
  rewrite !Nat2Z.id. destruct (lookup_lt_is_Some_2 buf (Z.to_nat i) ltac:(lia)) as [x Hx].
  by rewrite (drop_S _ _ _ Hx), Hx.
Qed.

Lemma take_plus {A} (l : list A) : ∀ n m, take (n + m) l = take n l ++ take m (drop n l).
Proof. induction l as [|x l IH]; intros [|n] m; cbn; try done; [by rewrite take_nil|by rewrite IH]. Qed.

Lemma zread_plus (l : list Z) i n m : 0 <= i → 0 <= n → 0 <= m → zread l i (n + m) = zread l i n ++ zread l (i + n) m.
Proof.
  intros. unfold zread. rewrite !Z2Nat.inj_add by lia. rewrite <- drop_drop. apply take_plus.
Qed.

Lemma feed8_app xs ys c : feed8 (xs ++ ys) c = feed8 ys (feed8 xs c).
Proof. apply foldl_app. Qed.

(** Turns that the sending loop may need. *)
Definition send_measure (tx_len : Z) (h : H) : nat :=
  ((2 * Z.to_nat tx_len + length (txq (ssi_view h))) * S lag_max + lag h)%nat.

Lemma send_loop_spec misalign buf v fuel : ∀ i tx_len h c, sending c (ssi_view h) →
  0 <= i → 0 <= tx_len → i + tx_len = zlen buf → zlen buf <= 512 → (send_measure tx_len h < fuel)%nat →
  ∃ h', send_loop fuel SPI_TRANS_CHAR misalign buf tx_len i v h = Done h' ∧
    sending (feed8 (zread buf i tx_len) c) (ssi_view h').
Proof.
  induction fuel as [|fuel IH]; intros i tx_len h c Hc Hi Ht Hb Hb' Hm; [lia|]. cbn [send_loop].
  destruct (Z.eqb_spec tx_len 0) as [->|Hne]; [by exists h|].
  destruct (sending_poll c h txflr Hc ltac:(auto)) as (Hc1 & Hv & Hl & Hp).
  pose proof (lag_bound (reg_read txflr h).2) as Hlag.
  destruct (reg_read txflr h) as [t h1]. cbn [fst snd reads width_value] in *. subst t.
  pose proof Hc1 as (_ & _ & _ & _ & _ & H32 & _). rewrite (u32_small (32 - _)) by (unfold zlen in *; lia).
  rewrite Z.div_1_r, Z.mul_1_r, Z.div_1_r.
  set (k := if 32 - zlen (txq (ssi_view h1)) <? tx_len then 32 - zlen (txq (ssi_view h1)) else tx_len).
  assert (Hk : 0 <= k <= tx_len ∧ k <= 32 - zlen (txq (ssi_view h1)) ∧ (k = 0 → txq (ssi_view h1) ≠ [])).
  { unfold k. destruct (Z.ltb_spec (32 - zlen (txq (ssi_view h1))) tx_len); split_and!; try lia.
    intros Hk0 E. rewrite E in Hk0. done. }
  clearbody k. destruct Hk as (Hk1 & Hk2 & Hk3). unfold send_measure in *.
  destruct (Z.eq_dec k 0) as [->|Hk0].
  { cbn [Z.to_nat put_frames]. rewrite Z.sub_0_r, u64_small by lia. apply IH; try done.
    unfold send_measure. destruct (Hp (Hk3 eq_refl)); nia. }
  destruct (put_frames_spec misalign buf (Z.to_nat k) i v h1 c Hc1) as (h2 & -> & Hc2 & Hl2); [unfold zlen in *; lia..|].
  rewrite Z2Nat.id in * by lia. rewrite u64_small by lia. pose proof (lag_bound h2) as Hlag2.
  destruct (IH (i + k) (tx_len - k) h2 _ Hc2) as (h' & E & Hc'); try lia.
  { unfold send_measure. replace (Z.to_nat (tx_len - k)) with (Z.to_nat tx_len - Z.to_nat k)%nat by lia. nia. }
  exists h'. split; [done|]. rewrite <-feed8_app, <-zread_plus in Hc' by lia.
  by replace (k + (tx_len - k)) with tx_len in Hc' by lia.
Qed.

Lemma drain_loop_spec fuel : ∀ h c, sending c (ssi_view h) →
  (length (txq (ssi_view h)) * S lag_max + lag h < fuel)%nat →
  ∃ h', drain_loop fuel h = Done h' ∧ sending c (ssi_view h') ∧ txq (ssi_view h') = [].
Proof.
  induction fuel as [|fuel IH]; intros h c Hc Hm; [lia|]. cbn [drain_loop].
  destruct (sending_poll c h sr Hc ltac:(auto)) as (Hc1 & Hv & Hl & Hp).
  pose proof (lag_bound (reg_read sr h).2) as Hlag.
  destruct (reg_read sr h) as [x h1]. cbn [fst snd reads] in *.
  pose proof Hc1 as (_ & _ & _ & _ & Hleft & _). destruct (Z.eqb_spec (Z.land x 0x05) 0x04) as [E|E].
  - exists h1. split_and!; try done. by apply Hv.
  - apply IH; [done|]. destruct Hp as [Hp|Hp]; [intros Hn; by apply E, Hv|nia|nia].
Qed.

(** Switching the controller on and off around a transfer. *)
Lemma start_transfer ctl c h : ready ctl c (ssi_view h) → slice 16 5 ctl = 7 → slice 21 2 ctl = 0 →
  slice 8 2 ctl = 1 ∨ slice 8 2 ctl = 2 →
  governed (ssi_view (reg_write ssienr 1 h)) ∧ running (ssi_view (reg_write ssienr 1 h)) = false ∧
  ssi_view (reg_write ssienr 1 h) = put_plain ssienr 1 (ssi_view h).
Proof.
  intros (Ho & Hs & Hc & _) H1 H2 H3. rewrite write_off by done. cbn [wrote]. change (1 =? 0) with false. cbn iota.
  split_and!; [|unfold running; cbn; by rewrite Hs|done].
  right. unfold byte_frames, tmod_of. change (plain (put_plain ssienr 1 (ssi_view h)) ctrlr0) with (plain (ssi_view h) ctrlr0).
  by rewrite Hc, H1, H2.
Qed.

Lemma stop_transfer h : governed (ssi_view h) → shift1 (ssi_view h) = None →
  off (ssi_view (reg_write ssienr 0 (reg_write ser 0 h))) ∧
  line (ssi_view (reg_write ssienr 0 (reg_write ser 0 h))) = line (ssi_view h).
Proof.
  intros Hg Hq. pose proof (write_quiet ser 0 h Hg Hq ltac:(done)) as E. cbn [wrote] in E.
  assert (G : governed (ssi_view (reg_write ser 0 h)) ∧ running (ssi_view (reg_write ser 0 h)) = false).
  { rewrite E. split; [exact Hg|]. unfold running. cbn. by rewrite andb_false_r. }
  rewrite write_quiet; [|apply G|by apply shift_stopped, G|done]. rewrite E. by unfold off.
Qed.

Lemma feed8_bytes bs c : bytes bs → feed8 bs c = sd_write_data bs c.
Proof.
  revert c. induction bs as [|b bs IH]; intros c Hb; [done|]. apply Forall_cons in Hb as [Hb Hbs].
  cbn. rewrite u8_small by done. by apply IH.
Qed.

Lemma write_spi fuel stale v_buf data_buff h : off (ssi_view h) → bytes data_buff → zlen data_buff <= 512 →
  ((2 * length data_buff + 32) * S lag_max + lag_max < fuel)%nat →
  ∃ h', sd_write_data_spi fuel stale v_buf data_buff h = Done h' ∧ off (ssi_view h') ∧
    line (ssi_view h') = sd_write_data data_buff (line (ssi_view h)).
Proof.
  intros Ho Hb Hl Hf. assert (Hpos : 0 <= zlen data_buff) by (unfold zlen; lia).
  unfold sd_write_data_spi, spi_send_data_standard. rewrite Z.add_0_l, u64_small by lia.
  destruct (Z.ltb_spec XXSIZE (zlen data_buff)) as [Hx|_]; [unfold XXSIZE in Hx; lia|].
  change (zread [] 0 0) with (@nil Z). rewrite app_nil_l, zread_all. unfold spi_send_data_normal.
  apply init_ready in Ho. set (c0 := line (ssi_view h)) in *. set (h0 := spi_init _ _ _ _ _ h) in *. clearbody h0.
  apply (tmod_ready SPI_TMOD_TRANS) in Ho. set (h1 := spi_set_tmod _ _ h0) in *. clearbody h1.
  destruct (width_ready _ h1 c0 Ho eq_refl) as (h2 & -> & Ev). rewrite <- Ev in Ho.
  destruct (start_transfer _ c0 h2 Ho eq_refl eq_refl (or_introl eq_refl)) as (Hg & Hr & E3).
  assert (Hs : sending c0 (ssi_view (reg_write ser 8 (reg_write ssienr 1 h2)))).
  { rewrite (write_quiet ser 8 _ Hg (shift_stopped _ Hr) ltac:(done)), E3. cbn [wrote].
    destruct Ho as (_ & _ & Hc & Hbd & Ht & Hrx & Hlf & Hln).
    apply Z.eqb_neq in Hbd. unfold sending, byte_frames, tmod_of, running. cbn -[slice Z.eqb]. regs.
    by rewrite Hc, Hbd, Ht, Hrx, Hlf, Hln. }
  change (u32 (Z.shiftl 1 (chip_select_value SPI_CHIP_SELECT_3))) with 8.
  set (h4 := reg_write ser 8 _) in *. clearbody h4. pose proof (lag_bound h4) as Hlag.
  pose proof Hs as (_ & _ & _ & _ & _ & H32 & _).
  destruct (send_loop_spec (negb (v_buf mod width_value SPI_TRANS_CHAR =? 0)) data_buff stale fuel 0 (zlen data_buff) h4 c0 Hs)
    as (h5 & -> & Hs5); try (done || (unfold zlen; lia)).
  { unfold send_measure, zlen in *. rewrite Nat2Z.id. nia. }
  rewrite zread_all, feed8_bytes in Hs5 by done. cbn [obind].
  pose proof Hs5 as (_ & _ & _ & _ & _ & H32' & _). pose proof (lag_bound h5) as Hlag5.
  destruct (drain_loop_spec fuel h5 _ Hs5) as (h6 & -> & Hs6 & Hq); [unfold zlen in *; nia|]. cbn [obind].
  eexists. split; [reflexivity|].
  assert (Hn : shift1 (ssi_view h6) = None).
  { destruct Hs6 as (_ & Hm & Hrn & _). unfold shift1. by rewrite Hrn, Hm, Hq. }
  destruct (stop_transfer h6 (proj1 (sending_governed _ _ Hs6)) Hn) as [Hoff ->]. split; [done|].
  destruct Hs6 as (_ & _ & _ & _ & _ & _ & Hfl). rewrite Hq in Hfl. exact Hfl.
Qed.

(** * Receiving *)

(** In receive mode: the card has given the bytes that were read ([got]) and
    those in the queue, and [left] more are to come. *)
Definition receiving (c0 : C) (n : Z) (got : list Z) (s : ssi C) : Prop :=
  byte_frames s = true ∧ tmod_of s = 2 ∧ running s = true ∧ 0 <= left s ∧
  ∃ bs, gives c0 bs (line s) ∧ u8 <$> bs = got ++ rxq s ∧ zlen bs + left s = n.

Lemma gives_snoc (c : C) bs c' : gives c bs c' → gives c (bs ++ [(clock_in c').1]) (clock_in c').2.
Proof.
  induction 1 as [c|c b bs c' Hg IH Hb]; cbn; [by constructor; [constructor|]|]. by constructor.
Qed.

Lemma receiving_governed c0 n got s : receiving c0 n got s → governed s.
Proof. intros (H1 & H2 & _). right; auto. Qed.

Lemma receiving_shift c0 n got s s' : line_step s s' → receiving c0 n got s →
  receiving c0 n got s' ∧ rxq s `prefix_of` rxq s' ∧ txq s' = txq s ∧ 
  left s' < left s.
Proof.
  intros Hs (H1 & H2 & H3 & H4 & bs & Hg & Hb & Hn). unfold line_step, shift1 in Hs. rewrite H3, H2 in Hs.
  change (2 =? 1) with false in Hs. change (2 =? 2) with true in Hs. cbn [negb andb] in Hs.
  destruct (Z.ltb_spec 0 (left s)); [|done]. destruct (zlen (rxq s) <? 32); [|done]. cbn [andb] in Hs.
  pose proof (gives_snoc _ _ _ Hg) as Hg'. destruct (clock_in (line s)) as [b c]. cbn [fst snd] in Hg'.
  injection Hs as <-. unfold receiving, byte_frames, tmod_of, running in *. cbn -[slice Z.eqb].
  split_and!; try done; try lia; [|by eexists].
  exists (bs ++ [b]). split_and!; [done| |]; [by rewrite fmap_app, Hb, <-app_assoc|].
  unfold zlen in *. rewrite length_app. cbn [length]. lia.
Qed.

Lemma receiving_rtc c0 n got s s' : rtc line_step s s' → receiving c0 n got s →
  receiving c0 n got s' ∧ rxq s `prefix_of` rxq s' ∧ txq s' = txq s ∧ left s' <= left s.
Proof.
  induction 1 as [|s s1 s2 Hs Hr IH]; intros Hc; [split_and!; try done; lia|].
  destruct (receiving_shift _ _ _ _ _ Hs Hc) as (Hc1 & Hp & Ht & Hl). destruct (IH Hc1) as (Hc2 & Hp2 & Ht2 & Hl2).
  split_and!; [done|by etrans|congruence|lia].
Qed.

Lemma receiving_length c0 n got s : receiving c0 n got s → zlen got + zlen (rxq s) + left s = n.
Proof.
  intros (_ & _ & _ & _ & bs & _ & Hb & Hn). apply (f_equal length) in Hb. rewrite length_fmap, length_app in Hb.
  unfold zlen in *. lia.
Qed.

(** Taking a byte out of the queue. *)
Lemma receiving_get c0 n got h : receiving c0 n got (ssi_view h) → rxq (ssi_view h) ≠ [] →
  receiving c0 n (got ++ [u8 (reg_read dr h).1]) (ssi_view (reg_read dr h).2) ∧
  left (ssi_view (reg_read dr h).2) <= left (ssi_view h).
Proof.
  intros Hc Hq. destruct (law_read dr h (receiving_governed _ _ _ _ Hc) ltac:(done)) as (s & Hr & Hv & ->).
  destruct (receiving_rtc _ _ _ _ _ Hr Hc) as ((H1 & H2 & H3 & H4 & bs & Hg & Hb & Hn) & Hp & _ & Hl).
  cbn [reads] in Hv. destruct (rxq s) as [|x q] eqn:E; [done|]. injection Hv as Hv. rewrite <- Hv.
  unfold receiving, byte_frames, tmod_of, running in *. cbn -[slice Z.eqb]. split; [|done]. split_and!; try done.
  exists bs. rewrite E. split_and!; [done| |done]. rewrite Hb, <-app_assoc. cbn. do 2 f_equal. symmetry. apply u8_small.
  assert (Hx : x ∈ u8 <$> bs) by (rewrite Hb; apply list_elem_of_In, in_or_app; right; left; reflexivity). apply list_elem_of_fmap in Hx as (y & -> & _). apply u8_byte.
Qed.

Lemma get_frames_spec c0 n k : ∀ got h, receiving c0 n got (ssi_view h) → (k <= length (rxq (ssi_view h)))%nat →
  ∃ bs h', get_frames k SPI_TRANS_CHAR h = (bs, h') ∧ length bs = k ∧ receiving c0 n (got ++ bs) (ssi_view h') ∧
    left (ssi_view h') <= left (ssi_view h).
Proof.
  induction k as [|k IH]; intros got h Hc Hk; cbn [get_frames].
  { exists [], h. rewrite app_nil_r. split_and!; try done; lia. }
  destruct (receiving_get c0 n got h Hc) as [Hc1 Hl1]; [intros E; rewrite E in Hk; cbn in Hk; lia|].
  pose proof (receiving_length _ _ _ _ Hc) as N0. pose proof (receiving_length _ _ _ _ Hc1) as N1.
  destruct (reg_read dr h) as [x h1]. cbn [fst snd] in *. unfold zlen in N0, N1. rewrite length_app in N1. cbn [length] in N1.
  destruct (IH _ _ Hc1 ltac:(lia)) as (bs & h' & -> & Hb & Hc' & Hl'). exists (u8 x :: bs), h'.
  rewrite <-app_assoc in Hc'. cbn [frame_bytes app length] in *. split_and!; [done|lia|done|lia].
Qed.

Lemma recv_loop_spec c0 n fuel : n < 2 ^ 32 → ∀ v got h, receiving c0 n got (ssi_view h) → zlen got + v = n →
  ((Z.to_nat v + Z.to_nat (left (ssi_view h))) * S lag_max + lag h < fuel)%nat →
  ∃ got' h', recv_loop fuel SPI_TRANS_CHAR v got h = Done (got', h') ∧
    receiving c0 n got' (ssi_view h') ∧ zlen got' = n.
Proof.
  intros Hn32. induction fuel as [|fuel IH]; intros v got h Hc Hv Hm; [lia|]. cbn [recv_loop].
  destruct (Z.eqb_spec v 0) as [->|Hne]; [exists got, h; split_and!; try done; lia|].
  pose proof (receiving_governed _ _ _ _ Hc) as Hg.
  destruct (law_read rxflr h Hg ltac:(done)) as (s & Hs & Hr & Ev). cbn [reads taken] in *.
  destruct (receiving_rtc _ _ _ _ _ Hs Hc) as (Hc1 & Hp & Ht & Hl). pose proof (lag_bound (reg_read rxflr h).2) as Hlag.
  pose proof (law_poll rxflr h ltac:(auto) Hg) as Hpoll. pose proof (receiving_length _ _ _ _ Hc) as N0.
  destruct (reg_read rxflr h) as [t h1]. cbn [fst snd] in *. rewrite Ev in Hpoll. rewrite <- Ev in *. subst t.
  pose proof (receiving_length _ _ _ _ Hc1) as N1. pose proof Hc1 as (_ & _ & _ & Hpos & _).
  set (k := if zlen (rxq (ssi_view h1)) <? v then zlen (rxq (ssi_view h1)) else v).
  assert (Hk : 0 <= k <= v ∧ k <= zlen (rxq (ssi_view h1)) ∧ (k = 0 → rxq (ssi_view h1) = [])).
  { unfold k. destruct (Z.ltb_spec (zlen (rxq (ssi_view h1))) v); unfold zlen in *; split_and!; try lia.
    intros Hk. apply nil_length_inv. lia. }
  clearbody k. destruct Hk as (Hk1 & Hk2 & Hk3).
  assert (Hgot : 0 <= zlen got) by (unfold zlen; lia). rewrite (u32_small (v - k)) by lia.
  destruct (Z.eq_dec k 0) as [->|Hk0].
  { change (Z.to_nat 0) with O. cbn [get_frames]. rewrite app_nil_r, Z.sub_0_r. apply IH; try done.
    rewrite (Hk3 eq_refl) in *. unfold zlen in N1. cbn [length] in N1.
    assert (Hrx : rxq (ssi_view h) = []) by (by apply prefix_nil_inv). rewrite Hrx in N0. unfold zlen in N0, Hv. cbn [length] in N0.
    destruct Hpoll as [Hd|Hd]; [| |nia].
    - destruct Hc as (H1 & H2 & H3 & _). unfold shift1. rewrite H3, H2, Hrx. change (2 =? 1) with false. cbn [negb andb].
      change (2 =? 2) with true. destruct (Z.ltb_spec 0 (left (ssi_view h))); [|lia].
      change (zlen [] <? 32) with true. cbn [andb]. by destruct (clock_in _).
    - unfold pending in Hd. rewrite Ht in Hd. unfold zlen in *. lia. }
  destruct (get_frames_spec c0 n (Z.to_nat k) got h1 Hc1) as (bs & h2 & -> & Hb & Hc2 & Hl2); [unfold zlen in *; lia|].
  pose proof (lag_bound h2) as Hlag2. pose proof Hc2 as (_ & _ & _ & Hpos2 & _).
  apply IH; [done| |].
  - unfold zlen in *. rewrite length_app. lia.
  - replace (Z.to_nat (v - k)) with (Z.to_nat v - Z.to_nat k)%nat by lia. nia.
Qed.

Lemma read_spi fuel n h : off (ssi_view h) → 1 <= n <= 512 →
  (2 * Z.to_nat n * S lag_max + lag_max < fuel)%nat →
  ∃ h', sd_read_data_spi fuel n h = Done (u8 <$> (sd_read_data (Z.to_nat n) (line (ssi_view h))).1, h') ∧
    off (ssi_view h') ∧ line (ssi_view h') = (sd_read_data (Z.to_nat n) (line (ssi_view h))).2.
Proof.
  intros Ho Hn Hf. unfold sd_read_data_spi, spi_receive_data_standard. change (0 =? 0) with true. cbn iota.
  apply init_ready in Ho. set (c0 := line (ssi_view h)) in *. set (h0 := spi_init _ _ _ _ _ h) in *. clearbody h0.
  apply (tmod_ready SPI_TMOD_RECV) in Ho. set (h1 := spi_set_tmod _ _ h0) in *. clearbody h1.
  destruct (width_ready _ h1 c0 Ho eq_refl) as (h2 & -> & Ev). rewrite <- Ev in Ho. clear Ev h1 h0.
  cbn [width_value]. rewrite !Z.div_1_r, (u32_small n), (u32_small (n - 1)) by lia.
  change (u32 (Z.shiftl 1 (chip_select_value SPI_CHIP_SELECT_3))) with 8.
  pose proof (write_keep ctrlr1 (n - 1) h2 (proj1 Ho) ltac:(done) ltac:(done)) as E1.
  set (h3 := reg_write ctrlr1 (n - 1) h2) in *. clearbody h3.
  assert (Ho3 : ready 0x70200 c0 (ssi_view h3) ∧ plain (ssi_view h3) ctrlr1 = n - 1).
  { rewrite E1. exact (conj Ho eq_refl). }
  clear E1 Ho. destruct Ho3 as [Ho3 Hc1].
  destruct (start_transfer _ c0 h3 Ho3 eq_refl eq_refl (or_intror eq_refl)) as (Hg & Hr & E4).
  set (h4 := reg_write ssienr 1 h3) in *. clearbody h4.
  destruct fuel as [|fuel]; [lia|]. cbn [cmd_loop]. change (0 =? 0) with true. cbn [obind].
  destruct Ho3 as (_ & Hser & Hc & Hbd & Ht & Hrx & Hlf & Hln). apply Z.eqb_neq in Hbd.
  assert (E5 : ssi_view (reg_write dr 0xffffffff h4) = wrote dr 0xffffffff (ssi_view h4)).
  { apply write_quiet; [done|by apply shift_stopped|]. intros _. rewrite E4. cbn -[Z.eqb zlen]. by rewrite Ht. }
  set (h5 := reg_write dr 0xffffffff h4) in *. clearbody h5.
  assert (Em : tmod_of (ssi_view h4) = 2).
  { rewrite E4. unfold tmod_of. change (plain (put_plain ssienr 1 (ssi_view h3)) ctrlr0) with (plain (ssi_view h3) ctrlr0).
    by rewrite Hc. }
  cbn [wrote] in E5. rewrite Em in E5. change (2 =? 1) with false in E5. cbn iota in E5.
  assert (E6 : ssi_view (reg_write ser 8 h5) = put_plain ser 8 (ssi_view h5)).
  { apply (write_quiet ser 8); [rewrite E5; exact Hg|apply shift_stopped; rewrite E5; exact Hr|done]. }
  set (h6 := reg_write ser 8 h5) in *. clearbody h6.
  assert (Hs : receiving c0 n [] (ssi_view h6) ∧ left (ssi_view h6) = n).
  { rewrite E6, E5, E4. unfold receiving, byte_frames, tmod_of, running. cbn -[slice Z.eqb zlen Z.modulo]. regs.
    rewrite Hc, Hc1, Hbd, Hrx, Hln, Z.mod_small by lia. split; [|lia]. split_and!; try done; [lia|].
    exists []. split_and!; [constructor|done|]. unfold zlen. cbn. lia. }
  destruct Hs as [Hs Hleft]. pose proof (lag_bound h6).
  destruct (recv_loop_spec c0 n (S fuel) ltac:(lia) n [] h6 Hs ltac:(done)) as (got & h7 & -> & Hs7 & Hgot).
  { rewrite Hleft. nia. }
  cbn [obind]. pose proof (receiving_length _ _ _ _ Hs7) as N7. pose proof (receiving_governed _ _ _ _ Hs7) as Hg7.
  destruct Hs7 as (_ & H2 & H3 & H4 & bs & Hgv & Hb & Hbn).
  assert (Hl0 : left (ssi_view h7) = 0 ∧ rxq (ssi_view h7) = []).
  { unfold zlen in *. split; [lia|]. apply nil_length_inv. lia. }
  destruct Hl0 as [Hl0 Hq0]. rewrite Hq0, app_nil_r in Hb.
  assert (Hq : shift1 (ssi_view h7) = None) by (unfold shift1; by rewrite H3, H2, Hl0).
  destruct (stop_transfer h7 Hg7 Hq) as [Hoff Hline].
  replace (Z.to_nat n) with (length bs) by (unfold zlen in *; lia). rewrite (read_gives bs _ _ Hgv). cbn [fst snd].
  eexists. rewrite <- Hb. split; [reflexivity|]. by rewrite Hline.
Qed.
End proofs.


(** * A controller *)

Section controller.
Context {C : Type} {SC : SpiCard C}.

(** A controller that moves a frame at every other access to it. *)
Record controller : Type := mkController { core : ssi C; waits : bool }.

Definition advance (h : controller) : controller :=
  match shift1 (core h) with
  | None => h
  | Some s => if waits h then mkController (core h) false else mkController s true
  end.
Definition value (r : spi_reg) (s : ssi C) : Z :=
  match r with
  | txflr => zlen (txq s)
  | rxflr => zlen (rxq s)
  | sr => if (zlen (txq s) =? 0) && (left s =? 0) then 4 else 1
  | dr => default 0 (head (rxq s))
  | _ => plain s r
  end.

#[global] Instance controller_device : SpiDevice controller := {|
  reg_read r h := let h := advance h in (value r (core h), mkController (taken r (core h)) (waits h));
  reg_write r v h := mkController (wrote r v (core h)) (waits h)
|}.

Lemma shift_pending (s s' : ssi C) : shift1 s = Some s' → (pending s' < pending s)%nat.
Proof.
  unfold shift1, pending. destruct (running s); [|done]. cbn [negb]. destruct (tmod_of s =? 1).
  { destruct (txq s); [done|]. intros [= <-]. cbn. lia. }
  destruct (tmod_of s =? 2); [|done]. destruct (Z.ltb_spec 0 (left s)); [|done]. destruct (zlen (rxq s) <? 32); [|done].
  cbn [andb]. destruct (clock_in (line s)). intros [= <-]. cbn. lia.
Qed.

Lemma shift_rxq (s s' : ssi C) : shift1 s = Some s' → rxq s ≠ [] → rxq s' ≠ [].
Proof.
  unfold shift1. destruct (running s); [|done]. cbn [negb]. destruct (tmod_of s =? 1).
  { destruct (txq s); [done|]. by intros [= <-]. }
  destruct (_ && _); [|done]. destruct (clock_in (line s)). intros [= <-] Hq. cbn. by destruct (rxq s).
Qed.

Lemma head_default (l : list Z) : l ≠ [] → head l = Some (default 0 (head l)).
Proof. by destruct l. Qed.

Lemma advance_steps h : rtc line_step (core h) (core (advance h)).
Proof.
  unfold advance. destruct (shift1 (core h)) as [s|] eqn:E; [|done]. destruct (waits h); [done|]. by apply rtc_once.
Qed.

#[global] Instance controller_laws : SpiLaws controller C.
Proof.
  refine {| ssi_view := core; lag h := (if waits h then 1 else 0)%nat; lag_max := 1%nat |}.
  - intros [s []]; cbn; lia.
  - intros r h _ Hd. exists (core (advance h)). split; [apply advance_steps|]. split; [|done].
    destruct r; cbn; try done.
    + destruct (core (advance h)) as [p t q l c]. cbn. unfold zlen. destruct t; cbn; [|by split; [|intros []]].
      destruct (Z.eqb_spec l 0); cbn; split; try done. by intros [].
    + specialize (Hd eq_refl). unfold advance. destruct (shift1 (core h)) as [s|] eqn:E;
        [apply shift_rxq in E; [destruct (waits h)|done]|]; by apply head_default.
  - intros r v h _ _. by exists (core h).
  - intros r h Hr _ Hs. destruct h as [s w]. cbn in *. unfold advance. cbn.
    destruct (shift1 s) as [s'|] eqn:E; [|done]. apply shift_pending in E. destruct w; cbn; [right; lia|left].
    by destruct Hr as [-> | [-> | ->]].
Defined.
End controller.
Arguments controller C : clear implicits.

(** Switched off, with a card on its line. *)
Definition fresh_controller (c : ExCard.xcard) : controller ExCard.xcard := mkController (mkSsi (λ _, 0) [] [] 0 c) false.

Definition sample_card : ExCard.xcard := ExCard.mkX Ready true ∅ true [] None [1; 2; 3].

