(* ===== verification/KHeap.v ===== *)
(** The kernel heap of kernel/memory/Heap.h and Heap.cpp: a bitmap with one
    bit per 8 bytes of [heap_space], where blocks are runs of ones kept
    apart by at least one zero. *)
From Stdlib Require Import ZArith Lia.
From stdpp Require Import base list numbers option.
From S2P Require Import Prelude KBase.

Local Open Scope Z_scope.
Local Open Scope out_scope.

Definition KERNEL_HEAP_PAGE_NUM : Z := 150.
Definition KERNEL_HEAP_BIT_MAP_SIZE : Z := KERNEL_HEAP_PAGE_NUM * 512 / 64.
(** Bits of the map. *)
Definition NBITS : Z := KERNEL_HEAP_BIT_MAP_SIZE * 64.

Record HeapAllocator : Type := mkHeap {
  start_ : Z;
  end_ : Z;
  bit_map_ : list Z
}.

Definition set_bit_map (l : list Z) (h : HeapAllocator) : HeapAllocator :=
  mkHeap (start_ h) (end_ h) l.

Definition Init (h : HeapAllocator) : HeapAllocator :=
  set_bit_map (replicate (Z.to_nat KERNEL_HEAP_BIT_MAP_SIZE) 0) h.

(** [init_heap] with [heap_space] at [start]. *)
Definition init_heap (start : Z) : HeapAllocator :=
  Init (mkHeap start (u64 (start + KERNEL_HEAP_PAGE_NUM * 4096)) []).

Definition Check (i : Z) : outcome unit := if NBITS <? i then Panic else Done tt.

Definition mask_of (bit : Z) : Z := u64 (Z.shiftl 1 (63 - bit mod 64)).

Definition Get (h : HeapAllocator) (bit : Z) : outcome Z :=
  match bit_map_ h !! Z.to_nat (bit / 64) with
  | Some w => Done (if ztrue (Z.land w (mask_of bit)) then 1 else 0)
  | None => Wild
  end.

Definition Set_ (h : HeapAllocator) (bit value : Z) : outcome HeapAllocator :=
  match bit_map_ h !! Z.to_nat (bit / 64) with
  | Some w =>
      let w := Z.lor w (mask_of bit) in
      let w := if value =? 0 then Z.lxor w (mask_of bit) else w in
      Done (set_bit_map (<[Z.to_nat (bit / 64) := w]> (bit_map_ h)) h)
  | None => Wild
  end.

(** Lines 40-46: are the bits [i .. i + bits] all zero? *)
Fixpoint scan_loop (fuel : nat) (h : HeapAllocator) (i bits j : Z) : outcome bool :=
  match fuel with
  | O => Loop
  | S fuel =>
      if j <=? bits then
        do x := Get h (i + j) in
        if x =? 1 then Done false else scan_loop fuel h i bits (j + 1)
      else Done true
  end.

(** Lines 51-53. *)
Fixpoint set_loop (fuel : nat) (h : HeapAllocator) (i bits j : Z) : outcome HeapAllocator :=
  match fuel with
  | O => Loop
  | S fuel =>
      if j <? bits then
        do h := Set_ h (i + j) 1 in set_loop fuel h i bits (j + 1)
      else Done h
  end.

Definition LOOP_FUEL : nat := Z.to_nat (NBITS + 2).

(** The [while (true)] of [Alloc]. *)
Fixpoint alloc_search (fuel : nat) (h : HeapAllocator) (bits i : Z)
    : outcome (Z * HeapAllocator) :=
  match fuel with
  | O => Loop
  | S fuel =>
      do x := Get h i in
      if x =? 0 then
        let i := i + 1 in
        do _ := Check i in
        do y := Get h i in
        if negb (y =? 0) then alloc_search fuel h bits i else
        do flag := scan_loop LOOP_FUEL h i bits 0 in
        if (flag : bool) then
          do h := set_loop LOOP_FUEL h i bits 0 in
          Done (u64 (start_ h + i * 8), h)
        else
          let i := i + (bits - 1) in
          do _ := Check i in
          alloc_search fuel h bits i
      else
        let i := i + 1 in
        do _ := Check i in
        alloc_search fuel h bits i
  end.

Definition Alloc (size : Z) (h : HeapAllocator) : outcome (Z * HeapAllocator) :=
  alloc_search LOOP_FUEL h (u64 (size + 8) / 8) 0.

(** The loop of [DeAlloc]. *)
Fixpoint dealloc_loop (fuel : nat) (h : HeapAllocator) (bits : Z) : outcome HeapAllocator :=
  match fuel with
  | O => Loop
  | S fuel =>
      do x := Get h bits in
      if x =? 1 then
        do h := Set_ h bits 0 in dealloc_loop fuel h (bits + 1)
      else Done h
  end.

Definition DeAlloc (address : Z) (h : HeapAllocator) : outcome HeapAllocator :=
  let start := u64 (address - start_ h) in
  if end_ h <? start then Panic
  else dealloc_loop LOOP_FUEL h (start / 8).

Definition k_malloc (size : Z) (h : HeapAllocator) : outcome (Z * HeapAllocator) := Alloc size h.
Definition k_free (p : Z) (h : HeapAllocator) : outcome HeapAllocator :=
  if negb (p =? 0) then DeAlloc p h else Done h.

(** * The bitmap *)

Record heap_wf (h : HeapAllocator) : Prop := mkHeapWf {
  hw_len : zlen (bit_map_ h) = KERNEL_HEAP_BIT_MAP_SIZE;
  hw_start : 0 <= start_ h;
  hw_end : end_ h = start_ h + KERNEL_HEAP_PAGE_NUM * 4096;
  hw_top : end_ h < 2 ^ 64
}.

Definition bit (h : HeapAllocator) (k : Z) : bool :=
  Z.testbit (zget (bit_map_ h) (k / 64)) (63 - k mod 64).

Lemma mask_of_pow2 k : mask_of k = 2 ^ (63 - k mod 64).
Proof.
  unfold mask_of. pose proof (Z.mod_pos_bound k 64). rewrite Z.shiftl_1_l, u64_small; [done|].
  split; [apply Z.pow_nonneg; lia|]. apply Z.pow_lt_mono_r; lia.
Qed.

Lemma land_pow2_true w m : 0 <= m → ztrue (Z.land w (2 ^ m)) = Z.testbit w m.
Proof.
  intros Hm. unfold ztrue. destruct (Z.testbit w m) eqn:E.
  - apply negb_true_iff, Z.eqb_neq. intros H.
    assert (Z.testbit (Z.land w (2 ^ m)) m = true) as H1.
    { by rewrite Z.land_spec, E, Z.pow2_bits_true by lia. }
    by rewrite H, Z.testbit_0_l in H1.
  - apply negb_false_iff, Z.eqb_eq, Z.bits_inj'. intros j Hj.
    rewrite Z.land_spec, Z.testbit_0_l. destruct (decide (j = m)) as [->|].
    + by rewrite E.
    + by rewrite Z.pow2_bits_false, andb_false_r by lia.
Qed.

Lemma word_lookup h k :
  heap_wf h → 0 <= k < NBITS →
  bit_map_ h !! Z.to_nat (k / 64) = Some (zget (bit_map_ h) (k / 64)).
Proof.
  intros [Hl _ _ _] Hk. unfold zget, zlen in *.
  destruct (_ !! _) eqn:E; [done|]. apply lookup_ge_None in E.
  unfold NBITS, KERNEL_HEAP_BIT_MAP_SIZE in *. Z.div_mod_to_equations; lia.
Qed.

Lemma Get_spec h k :
  heap_wf h → 0 <= k < NBITS → Get h k = Done (if bit h k then 1 else 0).
Proof.
  intros Hw Hk. unfold Get. rewrite word_lookup by done. rewrite mask_of_pow2, land_pow2_true.
  - done.
  - pose proof (Z.mod_pos_bound k 64). lia.
Qed.

Lemma Get_wild h k : heap_wf h → NBITS <= k → Get h k = Wild.
Proof.
  intros [Hl _ _ _] Hk. unfold Get. rewrite lookup_ge_None_2; [done|].
  unfold zlen, NBITS, KERNEL_HEAP_BIT_MAP_SIZE in *. Z.div_mod_to_equations; lia.
Qed.

Lemma Set_spec h k v :
  heap_wf h → 0 <= k < NBITS →
  ∃ h', Set_ h k v = Done h' ∧ heap_wf h' ∧ start_ h' = start_ h ∧
    ∀ j, 0 <= j < NBITS → bit h' j = if decide (j = k) then negb (v =? 0) else bit h j.
Proof.
  intros Hw Hk. unfold Set_. rewrite word_lookup by done. eexists. split; [done|].
  pose proof Hw as [Hl H1 H2 H3].
  split; [|split; [done|]].
  { split; simpl; try done. unfold zlen in *. by rewrite length_insert. }
  intros j Hj. unfold bit. simpl. set (w := zget (bit_map_ h) (k / 64)).
  pose proof (Z.mod_pos_bound k 64 ltac:(lia)). pose proof (Z.mod_pos_bound j 64 ltac:(lia)).
  assert (Z.to_nat (k / 64) < length (bit_map_ h))%nat as Hin.
  { pose proof (word_lookup h k Hw Hk) as Hlk. by apply lookup_lt_Some in Hlk. }
  destruct (decide (j / 64 = k / 64)) as [He|Hne].
  - assert (zget (<[Z.to_nat (k / 64) := if v =? 0 then Z.lxor (Z.lor w (mask_of k)) (mask_of k)
       else Z.lor w (mask_of k)]> (bit_map_ h)) (j / 64) = if v =? 0
       then Z.lxor (Z.lor w (mask_of k)) (mask_of k) else Z.lor w (mask_of k)) as ->.
    { unfold zget. rewrite He, list_lookup_insert_eq by done. done. }
    rewrite mask_of_pow2, He. fold w.
    case_decide as Hjk.
    + subst j. destruct (v =? 0); simpl; rewrite ?Z.lxor_spec, Z.lor_spec, Z.pow2_bits_true by lia;
        by destruct (Z.testbit w _).
    + assert (63 - k mod 64 ≠ 63 - j mod 64) as Hd.
      { intros Hd. apply Hjk. Z.div_mod_to_equations; lia. }
      destruct (v =? 0); simpl; rewrite ?Z.lxor_spec, Z.lor_spec, Z.pow2_bits_false by lia;
        by destruct (Z.testbit w _).
  - case_decide as Hjk; [subst; done|]. f_equal. unfold zget.
    rewrite list_lookup_insert_ne; [done|]. intros Hx. apply Hne.
    apply Z2Nat.inj in Hx; Z.div_mod_to_equations; lia.
Qed.

Lemma fuel_bound : Z.of_nat LOOP_FUEL = NBITS + 2.
Proof. unfold LOOP_FUEL. rewrite Z2Nat.id; [done|]. vm_compute. congruence. Qed.

Lemma NBITS_val : NBITS = 76800.
Proof. done. Qed.

#[global] Opaque LOOP_FUEL NBITS.

(** * Loops *)

Definition free_run (h : HeapAllocator) (a b : Z) : Prop := ∀ k, a <= k < b → bit h k = false.
Definition used_run (h : HeapAllocator) (a b : Z) : Prop := ∀ k, a <= k < b → bit h k = true.

(** [h'] is [h] with the bits [a .. b - 1] set to [v]. *)
Definition filled (h : HeapAllocator) (a b : Z) (v : bool) (h' : HeapAllocator) : Prop :=
  heap_wf h' ∧ start_ h' = start_ h ∧
  ∀ k, 0 <= k < NBITS → bit h' k = if decide (a <= k < b) then v else bit h k.

Lemma scan_loop_spec fuel h i bits j :
  heap_wf h → 0 <= i → 0 <= j → 0 < Z.of_nat fuel → NBITS - (i + j) < Z.of_nat fuel →
  scan_loop fuel h i bits j = Wild ∧ NBITS <= i + bits ∨
  (scan_loop fuel h i bits j = Done true ∧ free_run h (i + j) (i + bits + 1) ∧
     (j <= bits → i + bits < NBITS)) ∨
  (scan_loop fuel h i bits j = Done false ∧ ∃ k, i + j <= k <= i + bits ∧ k < NBITS ∧ bit h k = true).
Proof.
  intros Hw Hi. revert j. induction fuel as [|fuel IH]; intros j Hj H0 Hf; [lia|].
  cbn [scan_loop]. destruct (Z.leb_spec j bits) as [Hle|Hgt].
  2:{ right; left. split; [done|]. split; [intros k Hk|]; lia. }
  destruct (decide (i + j < NBITS)) as [Hin|Hout].
  2:{ left. rewrite Get_wild by (done || lia). split; [done|lia]. }
  rewrite Get_spec by (done || lia). simpl. destruct (bit h (i + j)) eqn:E; simpl.
  { right; right. split; [done|]. exists (i + j). split_and!; auto; lia. }
  destruct (IH (j + 1)) as [[E' H]|[(E'&Hr&H)|(E'&k&H)]]; [lia..| | |]; rewrite E'.
  - by left.
  - right; left. split; [done|]. split.
    + intros k Hk. destruct (decide (k = i + j)) as [->|]; [done|]. apply Hr. lia.
    + intros _. destruct (decide (j + 1 <= bits)); [by apply H|lia].
  - right; right. split; [done|]. exists k. destruct H as (?&?&?). split_and!; auto; lia.
Qed.

Lemma filled_step h k v h1 a b h' :
  heap_wf h → k + 1 = a → 0 <= k → a <= b →
  (∀ j, 0 <= j < NBITS → bit h1 j = if decide (j = k) then v else bit h j) → start_ h1 = start_ h →
  filled h1 a b v h' → filled h k b v h'.
Proof.
  intros Hw Ha Hk Hb H1 Hs (H2 & H3 & H4). split_and!; [done|congruence|].
  intros j Hj. rewrite H4 by done. repeat case_decide; try done; try lia.
  - rewrite H1 by done. case_decide; [done|lia].
  - rewrite H1 by done. case_decide; [lia|done].
Qed.

Lemma filled_none h a b v : heap_wf h → b <= a → filled h a b v h.
Proof. intros Hw Hab. split_and!; auto. intros k Hk. case_decide; [lia|done]. Qed.

Lemma set_loop_spec fuel h i bits j :
  heap_wf h → 0 <= i → 0 <= j → i + bits <= NBITS → 0 < Z.of_nat fuel → bits - j < Z.of_nat fuel →
  ∃ h', set_loop fuel h i bits j = Done h' ∧ filled h (i + j) (i + bits) true h'.
Proof.
  intros Hw Hi. revert h j Hw. induction fuel as [|fuel IH]; intros h j Hw Hj Hb H0 Hf; [lia|].
  cbn [set_loop]. destruct (Z.ltb_spec j bits) as [Hlt|Hge].
  2:{ exists h. split; [done|]. apply filled_none; [done|lia]. }
  destruct (Set_spec h (i + j) 1) as (h1 & E & Hw1 & Hs1 & Hb1); [done|lia|]. rewrite E. simpl.
  destruct (IH h1 (j + 1)) as (h' & E' & Hf'); auto; [lia..|]. exists h'. split; [done|].
  apply (filled_step h (i + j) true h1 (i + (j + 1)) (i + bits)); auto; lia.
Qed.

(** The outcome of the search from bit [i]. *)
Definition alloc_post (h : HeapAllocator) (bits i : Z) (r : outcome (Z * HeapAllocator)) : Prop :=
  match r with
  | Done (a, h') => ∃ k, i < k ∧ k + bits < NBITS ∧ a = start_ h + k * 8 ∧
      free_run h (k - 1) (k + bits + 1) ∧ filled h k (k + bits) true h'
  | Panic | Wild => True
  | Loop => False
  end.

Lemma alloc_post_weaken h bits i i' r : i <= i' → alloc_post h bits i' r → alloc_post h bits i r.
Proof. destruct r as [[]| | |]; try done. intros Hi (k&?&?). exists k. split; [lia|done]. Qed.

Lemma heap_addr h k : heap_wf h → 0 <= k <= NBITS → u64 (start_ h + k * 8) = start_ h + k * 8.
Proof.
  intros [_ H1 H2 H3] Hk. rewrite NBITS_val in Hk. unfold KERNEL_HEAP_PAGE_NUM in *.
  apply u64_small. lia.
Qed.

Lemma alloc_search_spec fuel h bits i :
  heap_wf h → 1 <= bits → 0 <= i → 0 < Z.of_nat fuel → NBITS - i < Z.of_nat fuel →
  alloc_post h bits i (alloc_search fuel h bits i).
Proof.
  intros Hw Hb. revert i. induction fuel as [|fuel IH]; intros i Hi H0 Hf; [lia|].
  cbn [alloc_search]. destruct (decide (i < NBITS)) as [Hin|Hout].
  2:{ rewrite Get_wild by (done || lia). done. }
  assert (∀ i', i < i' → alloc_post h bits i (do _ := Check i' in alloc_search fuel h bits i')) as Hnext.
  { intros i' Hi'. unfold Check. destruct (Z.ltb_spec NBITS i'); simpl; [done|].
    apply (alloc_post_weaken _ _ _ i'); [lia|]. destruct (decide (NBITS <= i')).
    - destruct fuel as [|fuel]; [|cbn [alloc_search]; by rewrite Get_wild]. lia.
    - apply IH; lia. }
  rewrite Get_spec by (done || lia). simpl. destruct (bit h i) eqn:E; simpl; [apply Hnext; lia|].
  unfold Check at 1. destruct (Z.ltb_spec NBITS (i + 1)); simpl; [done|].
  destruct (decide (i + 1 < NBITS)).
  2:{ by rewrite Get_wild by (done || lia). }
  rewrite Get_spec by (done || lia). simpl. destruct (bit h (i + 1)) eqn:E1; simpl.
  { apply (alloc_post_weaken _ _ _ (i + 1)); [lia|]. apply IH; lia. }
  destruct (scan_loop_spec LOOP_FUEL h (i + 1) bits 0) as [[E' Hx]|[(E'&Hr&Hx)|(E'&k&Hx)]];
    rewrite ?fuel_bound; try (done || lia); rewrite E'; simpl; [done| |apply Hnext; lia].
  destruct (set_loop_spec LOOP_FUEL h (i + 1) bits 0) as (h' & Es & Hfill); rewrite ?fuel_bound; try (done || lia).
  rewrite Es. simpl. destruct Hfill as (Hw' & Hs' & Hb'). rewrite Hs', heap_addr by (done || lia).
  rewrite Z.add_0_r in *. exists (i + 1). split; [lia|]. split; [lia|]. split; [done|]. split; [|done].
  intros k Hk. destruct (decide (k = i)) as [->|]; [done|]. apply Hr. lia.
Qed.

Lemma dealloc_loop_spec fuel h i n :
  heap_wf h → 0 <= i → 0 <= n → i + n < NBITS → used_run h i (i + n) → bit h (i + n) = false →
  n < Z.of_nat fuel →
  ∃ h', dealloc_loop fuel h i = Done h' ∧ filled h i (i + n) false h'.
Proof.
  revert h i n. induction fuel as [|fuel IH]; intros h i n Hw Hi Hn Hin Hu He Hf; [lia|].
  cbn [dealloc_loop]. rewrite Get_spec by (done || lia). simpl.
  destruct (decide (n = 0)) as [->|].
  { rewrite Z.add_0_r in *. rewrite He. simpl. exists h. split; [done|]. apply filled_none; [done|lia]. }
  rewrite Hu by lia. simpl. destruct (Set_spec h i 0) as (h1 & E & Hw1 & Hs1 & Hb1); [done|lia|].
  rewrite E. simpl. destruct (IH h1 (i + 1) (n - 1)) as (h' & E' & Hf'); auto; try lia.
  - intros k Hk. rewrite Hb1 by lia. case_decide; [lia|]. apply Hu. lia.
  - rewrite Hb1 by lia. case_decide; [lia|]. by replace (i + 1 + (n - 1)) with (i + n) by lia.
  - exists h'. split; [done|]. replace (i + 1 + (n - 1)) with (i + n) in Hf' by lia.
    apply (filled_step h i false h1 (i + 1) (i + n)); auto; lia.
Qed.

(** * The abstract heap: a set of live blocks *)

(** A block is its first bit and its number of bits. *)
Definition block : Type := Z * Z.
Definition in_block (b : block) (k : Z) : Prop := b.1 <= k < b.1 + b.2.
Definition apart (b1 b2 : block) : Prop := b1.1 + b1.2 < b2.1 ∨ b2.1 + b2.2 < b1.1.

Record heap_rep (h : HeapAllocator) (live : list block) : Prop := mkHeapRep {
  hr_wf : heap_wf h;
  hr_range b : b ∈ live → 1 <= b.1 ∧ 1 <= b.2 ∧ b.1 + b.2 < NBITS;
  hr_apart b1 b2 : b1 ∈ live → b2 ∈ live → b1 ≠ b2 → apart b1 b2;
  hr_bits k : 0 <= k < NBITS → bit h k = true ↔ ∃ b, b ∈ live ∧ in_block b k
}.

Lemma zget_replicate n k : zget (replicate n 0) k = 0.
Proof.
  unfold zget. destruct (replicate n 0 !! Z.to_nat k) eqn:E; [|done].
  by apply lookup_replicate in E as [-> _].
Qed.

Lemma init_heap_rep start :
  0 <= start → start + KERNEL_HEAP_PAGE_NUM * 4096 < 2 ^ 64 → heap_rep (init_heap start) [].
Proof.
  intros H0 Ht. unfold KERNEL_HEAP_PAGE_NUM in *. split.
  - split; simpl; try done; unfold KERNEL_HEAP_PAGE_NUM; rewrite u64_small; lia.
  - intros b Hb. by apply not_elem_of_nil in Hb.
  - intros b1 b2 Hb. by apply not_elem_of_nil in Hb.
  - intros k _. unfold bit, init_heap, Init, set_bit_map. cbn [bit_map_].
    rewrite zget_replicate, Z.testbit_0_l. split; [done|].
    intros (b & Hb & _). by apply not_elem_of_nil in Hb.
Qed.

(** A free run, widened by one bit on both sides, is apart from every block. *)
Lemma free_apart h live k n b :
  heap_rep h live → 0 <= k → 1 <= n → k + n < NBITS → free_run h (k - 1) (k + n + 1) → 1 <= k →
  b ∈ live → apart (k, n) b.
Proof.
  intros [_ Hr _ Hb] H0 Hn Hin Hf H1 Hin'. destruct (Hr b Hin') as (R1 & R2 & R3).
  unfold apart. simpl. destruct (decide (k + n < b.1)); [by left|]. destruct (decide (b.1 + b.2 < k)); [by right|].
  exfalso. set (j := Z.max (k - 1) b.1).
  assert (bit h j = true) as Ht by (apply Hb; [lia|]; exists b; split; [done|unfold in_block; lia]).
  rewrite Hf in Ht by lia. done.
Qed.

Lemma alloc_rep h live size a h' :
  heap_rep h live → 0 <= size < 2 ^ 64 - 8 → Alloc size h = Done (a, h') →
  ∃ i, let n := (size + 8) / 8 in
    a = start_ h + i * 8 ∧ start_ h' = start_ h ∧ heap_rep h' ((i, n) :: live) ∧
    free_run h i (i + n) ∧ (∀ k, 0 <= k < NBITS → ¬ in_block (i, n) k → bit h' k = bit h k).
Proof.
  intros Hrep Hs E. pose proof Hrep as [Hw Hr Ha Hb]. unfold Alloc in E.
  rewrite u64_small in E by lia. set (n := (size + 8) / 8) in *.
  assert (1 <= n) as Hn by (subst n; Z.div_mod_to_equations; lia).
  pose proof (alloc_search_spec LOOP_FUEL h n 0 Hw Hn) as Hp. rewrite fuel_bound, E in Hp.
  pose proof NBITS_val as HN. destruct Hp as (i & Hi & Hin & -> & Hfree & Hw' & Hs' & Hbit); [lia..|].
  assert (∀ b, b ∈ live → apart (i, n) b) as Hap by (intros b Hb'; apply (free_apart h live); auto; lia).
  exists i. split; [done|]. split; [done|]. split; [|split].
  - split; [done| | |].
    + intros b [->|Hb']%elem_of_cons; [simpl; lia|by apply Hr].
    + intros b1 b2 [->|H1]%elem_of_cons [->|H2]%elem_of_cons Hne; [done| | |by apply Ha].
      * by apply Hap.
      * destruct (Hap b1 H1); [by right|by left].
    + intros k Hk. rewrite Hbit by done. case_decide as Hc.
      * split; [|done]. intros _. exists (i, n). split; [apply list_elem_of_here|done].
      * rewrite Hb by done. split; intros (b & Hin' & Hk').
        -- exists b. split; [by apply list_elem_of_further|done].
        -- apply elem_of_cons in Hin' as [->|Hin']; [done|]. by exists b.
  - intros k Hk. apply Hfree. lia.
  - intros k Hk Hnot. rewrite Hbit by done. by case_decide.
Qed.

Lemma dealloc_rep h live b :
  heap_rep h live → b ∈ live →
  ∃ h', DeAlloc (start_ h + b.1 * 8) h = Done h' ∧ start_ h' = start_ h ∧
    heap_rep h' (filter (λ x, x ≠ b) live) ∧
    (∀ k, 0 <= k < NBITS → bit h' k = if decide (in_block b k) then false else bit h k).
Proof.
  intros [Hw Hr Ha Hb] Hin. destruct (Hr b Hin) as (R1 & R2 & R3). pose proof Hw as [W1 W2 W3 W4].
  pose proof NBITS_val as HN. unfold KERNEL_HEAP_PAGE_NUM in *.
  unfold DeAlloc. replace (start_ h + b.1 * 8 - start_ h) with (b.1 * 8) by lia.
  rewrite u64_small by lia. rewrite (proj2 (Z.ltb_ge _ _)) by lia. rewrite Z.div_mul by lia.
  destruct (dealloc_loop_spec LOOP_FUEL h b.1 b.2 Hw) as (h' & E & Hw' & Hs' & Hbit); [lia..| | | |].
  { intros k Hk. apply Hb; [lia|]. by exists b. }
  { apply not_true_is_false. intros Ht. apply Hb in Ht as (b' & Hb' & Hk); [|lia].
    destruct (decide (b' = b)) as [->|Hne]; [unfold in_block in Hk; lia|].
    destruct (Ha b' b Hb' Hin Hne); unfold in_block in Hk; lia. }
  { rewrite fuel_bound. lia. }
  exists h'. split; [done|]. split; [done|].
  assert (∀ k, 0 <= k < NBITS → bit h' k = if decide (in_block b k) then false else bit h k) as Hbit'
    by exact Hbit.
  split; [|done]. split; [done| | |].
  - intros x [_ Hx]%list_elem_of_filter. by apply Hr.
  - intros b1 b2 [_ H1]%list_elem_of_filter [_ H2]%list_elem_of_filter. by apply Ha.
  - intros k Hk. rewrite Hbit' by done. case_decide as Hc.
    + split; [done|]. intros (b' & [Hne Hb']%list_elem_of_filter & Hk').
      destruct (Ha b' b Hb' Hin Hne); unfold in_block in *; lia.
    + rewrite Hb by done. split; intros (b' & Hb' & Hk').
      * exists b'. split; [|done]. apply list_elem_of_filter. split; [|done]. by intros ->.
      * apply list_elem_of_filter in Hb' as [_ Hb']. by exists b'.
Qed.

(** Everything above bit [m] free leaves room for the request. *)
Lemma alloc_search_finds fuel h bits i m :
  heap_wf h → 1 <= bits → 0 <= i <= m + bits → 0 <= m → m + 2 * bits + 2 < NBITS →
  free_run h m NBITS → 0 < Z.of_nat fuel → NBITS - i < Z.of_nat fuel →
  ∃ a h', alloc_search fuel h bits i = Done (a, h').
Proof.
  intros Hw Hb. revert i. induction fuel as [|fuel IH]; intros i Hi Hm Hroom Hfree H0 Hf; [lia|].
  cbn [alloc_search]. rewrite Get_spec by (done || lia). simpl.
  destruct (bit h i) eqn:E; simpl.
  { assert (i < m) by (destruct (decide (i < m)); [done|]; by rewrite Hfree in E by lia).
    unfold Check. rewrite (proj2 (Z.ltb_ge _ _)) by lia. simpl. apply IH; (done || lia). }
  unfold Check at 1. rewrite (proj2 (Z.ltb_ge _ _)) by lia. simpl.
  rewrite Get_spec by (done || lia). simpl. destruct (bit h (i + 1)) eqn:E1; simpl.
  { assert (i + 1 < m) by (destruct (decide (i + 1 < m)); [done|]; by rewrite Hfree in E1 by lia).
    apply IH; (done || lia). }
  destruct (scan_loop_spec LOOP_FUEL h (i + 1) bits 0) as [[E' Hx]|[(E'&Hr&Hx)|(E'&k&Hk1&Hk2&Hk3)]];
    rewrite ?fuel_bound; try (done || lia); rewrite E'; simpl.
  - destruct (set_loop_spec LOOP_FUEL h (i + 1) bits 0) as (h' & Es & _); rewrite ?fuel_bound; try (done || lia).
    rewrite Es. simpl. eauto.
  - assert (k < m) by (destruct (decide (k < m)); [done|]; by rewrite Hfree in Hk3 by lia).
    assert (k ≠ i + 1) by (intros ->; congruence).
    unfold Check. rewrite (proj2 (Z.ltb_ge _ _)) by lia. simpl. apply IH; (done || lia).
Qed.

Lemma alloc_search_full fuel h bits i :
  heap_wf h → used_run h 0 NBITS → 0 <= i <= NBITS → NBITS - i < Z.of_nat fuel →
  alloc_search fuel h bits i = Wild.
Proof.
  intros Hw Hu. revert i. induction fuel as [|fuel IH]; intros i Hi Hf; [lia|].
  cbn [alloc_search]. destruct (decide (i = NBITS)) as [->|].
  { by rewrite Get_wild by (done || lia). }
  rewrite Get_spec by (done || lia). simpl. rewrite Hu by lia. simpl.
  unfold Check. rewrite (proj2 (Z.ltb_ge _ _)) by lia. simpl. apply IH; lia.
Qed.

(** Freeing an address behind the heap (a page of the pool, say) is not
    refused: the offset is compared with the end address, and the map is read
    out of its bounds. *)
Lemma k_free_foreign h a :
  heap_wf h → end_ h <= a < 2 ^ 64 → a - start_ h <= end_ h → k_free a h = Wild.
Proof.
  intros [Hl Hs He Ht] Ha Hle. unfold k_free. rewrite (proj2 (Z.eqb_neq _ _)) by (unfold KERNEL_HEAP_PAGE_NUM in *; lia).
  cbn [negb]. unfold DeAlloc. rewrite u64_small by (unfold KERNEL_HEAP_PAGE_NUM in *; lia).
  rewrite (proj2 (Z.ltb_ge _ _)) by lia. pose proof fuel_bound as HF. pose proof NBITS_val as HN.
  destruct LOOP_FUEL as [|fuel]; [lia|]. cbn [dealloc_loop].
  assert (Get h ((a - start_ h) / 8) = Wild) as ->; [|done].
  unfold Get. rewrite lookup_ge_None_2; [done|]. unfold zlen in Hl. apply Nat2Z.inj_le. rewrite Hl.
  change KERNEL_HEAP_BIT_MAP_SIZE with 1200. unfold KERNEL_HEAP_PAGE_NUM in He. Z.div_mod_to_equations. lia.
Qed.

(** * Properties *)

(** C6: The bitmap allocator implements a heap of disjoint blocks: on a heap
    with live blocks [live], an allocation that returns gives a block of more
    than [size] bytes inside [heap_space], apart from every live block, and
    the heap then holds exactly these blocks and the new one; the search
    always ends. *)
Theorem heap_alloc_refines h live size :
  heap_rep h live → 0 <= size < 2 ^ 64 - 8 →
  match Alloc size h with
  | Done (a, h') => ∃ i, let n := (size + 8) / 8 in
      a = start_ h + i * 8 ∧ size < 8 * n ∧ start_ h < a ∧ a + 8 * n < end_ h ∧
      heap_rep h' ((i, n) :: live) ∧ ∀ b, b ∈ live → apart (i, n) b
  | Loop => False
  | Panic | Wild => True
  end.
Proof.
  intros Hrep Hs. pose proof Hrep as [Hw _ _ _]. destruct (Alloc size h) as [[a h']| | |] eqn:E; try done.
  - destruct (alloc_rep h live size a h' Hrep Hs E) as (i & Ea & Es & Hr & Hfree & _).
    set (n := (size + 8) / 8) in *.
    assert (size < 8 * n) by (subst n; Z.div_mod_to_equations; lia).
    destruct (hr_range _ _ Hr (i, n)) as (R1 & R2 & R3); [apply list_elem_of_here|]. simpl in *.
    pose proof Hw as [_ _ W3 _]. pose proof NBITS_val as HN. unfold KERNEL_HEAP_PAGE_NUM in *.
    exists i. split; [done|]. do 3 (split; [lia|]). split; [done|]. intros b Hb.
    apply (hr_apart _ _ Hr); [apply list_elem_of_here|by apply list_elem_of_further|].
    intros <-. assert (bit h i = true) as Ht.
    { apply (hr_bits _ _ Hrep); [lia|]. exists (i, n). split; [done|]. unfold in_block. simpl. lia. }
    rewrite Hfree in Ht by lia. done.
  - pose proof (alloc_search_spec LOOP_FUEL h (u64 (size + 8) / 8) 0 Hw) as Hp. unfold Alloc in E.
    rewrite fuel_bound, E in Hp. pose proof NBITS_val. rewrite u64_small in Hp by lia.
    apply Hp; try lia. Z.div_mod_to_equations; lia.
Qed.

(** Freeing a live block removes exactly that block, whatever blocks lie
    around it. *)
Theorem heap_free_refines h live b :
  heap_rep h live → b ∈ live → 
  ∃ h', k_free (start_ h + b.1 * 8) h = Done h' ∧ heap_rep h' (filter (λ x, x ≠ b) live).
Proof.
  intros Hrep Hb. destruct (dealloc_rep h live b Hrep Hb) as (h' & E & _ & Hr & _).
  exists h'. split; [|done]. unfold k_free. destruct (hr_range _ _ Hrep b Hb) as (R1&_).
  pose proof (hw_start _ (hr_wf _ _ Hrep)). rewrite (proj2 (Z.eqb_neq _ _)) by lia. done.
Qed.

(** [k_free] undoes [k_malloc]: every bit of the map is as before. *)
Theorem malloc_free_roundtrip h live size :
  heap_rep h live → 0 <= size < 2 ^ 64 - 8 →
  match k_malloc size h with
  | Done (a, h') => ∃ h'', k_free a h' = Done h'' ∧ ∀ k, 0 <= k < NBITS → bit h'' k = bit h k
  | _ => True
  end.
Proof.
  intros Hrep Hs. unfold k_malloc. destruct (Alloc size h) as [[a h']| | |] eqn:E; try done.
  destruct (alloc_rep h live size a h' Hrep Hs E) as (i & -> & Es & Hr & Hfree & Hkeep).
  set (n := (size + 8) / 8) in *.
  destruct (dealloc_rep h' _ (i, n) Hr (list_elem_of_here _ _)) as (h'' & E' & _ & _ & Hbit).
  destruct (hr_range _ _ Hr (i, n)) as (R1 & _); [apply list_elem_of_here|]. simpl in R1, E'.
  pose proof (hw_start _ (hr_wf _ _ Hr)). rewrite <- Es. unfold k_free.
  rewrite (proj2 (Z.eqb_neq _ _)) by lia. simpl. exists h''. split; [done|].
  intros k Hk. rewrite Hbit by done. case_decide as Hc.
  - symmetry. apply Hfree. apply Hc.
  - by apply Hkeep.
Qed.

(** An allocation succeeds when everything above some bit [m] is free
    and leaves room for it twice, in particular on a fresh heap. *)
Theorem heap_alloc_succeeds h live size m :
  heap_rep h live → 0 <= size → 0 <= m → free_run h m NBITS →
  m + 2 * ((size + 8) / 8) + 2 < NBITS →
  ∃ a h', Alloc size h = Done (a, h').
Proof.
  intros Hrep Hs Hm Hf Hroom. unfold Alloc. pose proof NBITS_val as HN.
  assert (size < 2 ^ 32) by (Z.div_mod_to_equations; lia).
  rewrite u64_small by lia. set (n := (size + 8) / 8) in *.
  assert (1 <= n) by (subst n; Z.div_mod_to_equations; lia). pose proof fuel_bound as HF.
  apply (alloc_search_finds LOOP_FUEL h n 0 m (hr_wf _ _ Hrep)); [lia|lia|lia|lia|exact Hf|lia|lia].
Qed.

(** On a full map [Alloc] does not report exhaustion: the bound of
    [Check] admits bit [NBITS] itself, and the word behind the map is read. *)
Theorem heap_full_reads_past_map h size :
  heap_wf h → used_run h 0 NBITS → Alloc size h = Wild.
Proof.
  intros Hw Hu. pose proof NBITS_val. unfold Alloc.
  apply (alloc_search_full LOOP_FUEL h _ 0 Hw Hu); [lia|]. rewrite fuel_bound. lia.
Qed.

Definition ex_heap : HeapAllocator := init_heap 0x80100000.

Lemma ex_heap_rep : heap_rep ex_heap [].
Proof. apply init_heap_rep; unfold KERNEL_HEAP_PAGE_NUM; lia. Qed.

Lemma ex_heap_free : free_run ex_heap 0 NBITS.
Proof.
  intros k Hk. apply not_true_is_false. intros Ht.
  apply (hr_bits _ _ ex_heap_rep) in Ht as (b & Hb & _); [|done]. by apply not_elem_of_nil in Hb.
Qed.

Lemma heap_alloc_succeeds_witness : ∃ a h', Alloc 100 ex_heap = Done (a, h').
Proof.
  apply (heap_alloc_succeeds ex_heap [] 100 0 ex_heap_rep); [lia|lia|apply ex_heap_free|].
  rewrite NBITS_val. vm_compute. reflexivity.
Defined.

Lemma heap_alloc_refines_witness :
  match Alloc 100 ex_heap with
  | Done (a, h') => ∃ i, a = 0x80100000 + i * 8 ∧ heap_rep h' [(i, 13)]
  | Loop => False
  | Panic | Wild => True
  end.
Proof.
  pose proof (heap_alloc_refines ex_heap [] 100 ex_heap_rep ltac:(lia)) as H.
  destruct (Alloc 100 ex_heap) as [[a h']| | |]; try exact H.
  destruct H as (i & H1 & _ & _ & _ & H2 & _). exists i. exact (conj H1 H2).
Defined.

Lemma heap_free_refines_witness :
  ∃ h i, heap_rep h [(i, 13)] ∧ ∃ h', k_free (start_ h + i * 8) h = Done h' ∧ heap_rep h' [].
Proof.
  destruct (alloc_search_finds LOOP_FUEL ex_heap 13 0 0 (hr_wf _ _ ex_heap_rep)) as (a & h & E);
    [lia..|rewrite NBITS_val; lia|apply ex_heap_free|rewrite fuel_bound, NBITS_val; lia
    |rewrite fuel_bound, NBITS_val; lia|].
  destruct (alloc_rep ex_heap [] 96 a h ex_heap_rep) as (i & _ & _ & Hr & _); [lia|exact E|].
  exists h, i. split; [exact Hr|]. 
  destruct (heap_free_refines h [(i, 13)] (i, 13) Hr (list_elem_of_here _ _)) as (h' & E' & Hr').
  exists h'. split; [exact E'|]. rewrite filter_cons_False in Hr' by (intros Hx; by apply Hx). exact Hr'.
Defined.

Lemma malloc_free_roundtrip_witness :
  match k_malloc 100 ex_heap with
  | Done (a, h') => ∃ h'', k_free a h' = Done h'' ∧ ∀ k, 0 <= k < NBITS → bit h'' k = bit ex_heap k
  | _ => True
  end.
Proof. apply (malloc_free_roundtrip ex_heap [] 100 ex_heap_rep). lia. Defined.

(** A heap with every bit set. *)
Definition ex_full : HeapAllocator :=
  set_bit_map (replicate (Z.to_nat KERNEL_HEAP_BIT_MAP_SIZE) (2 ^ 64 - 1)) ex_heap.

Lemma ex_full_used : used_run ex_full 0 NBITS.
Proof.
  intros k Hk. unfold bit. replace (zget (bit_map_ ex_full) (k / 64)) with (Z.ones 64).
  - apply Z.ones_spec_low. pose proof (Z.mod_pos_bound k 64). lia.
  - unfold zget. cbn [ex_full set_bit_map bit_map_]. rewrite lookup_replicate_2; [done|].
    rewrite NBITS_val in Hk. change KERNEL_HEAP_BIT_MAP_SIZE with 1200. Z.div_mod_to_equations; lia.
Qed.

Lemma heap_full_reads_past_map_witness : Alloc 1 ex_full = Wild.
Proof.
  apply heap_full_reads_past_map; [|apply ex_full_used].
  destruct (hr_wf _ _ ex_heap_rep) as [_ ? ? ?]. by split.
Defined.
