(* ===== verification/KPages.v ===== *)
(** The physical page pool of kernel/memory/memory.cpp: a stack of free
    4 KiB pages. *)
From Stdlib Require Import ZArith Lia.
From stdpp Require Import base list numbers option relations sorting.
From S2P Require Import Prelude KBase.

Local Open Scope Z_scope.
Local Open Scope out_scope.

Definition page_size : Z := 4096.
Definition memory_end : Z := 0x80000000 + 8 * 1024 * 1024.
(** [sizeof(Context)]: 37 registers of 8 bytes. *)
Definition sizeof_Context : Z := 37 * 8.
Definition POOL_LENGTH : Z := 2048.

Record PagePool : Type := mkPool {
  kernel_end : Z;
  page_count : Z;
  memory_pool : list Z;
  memory_pointer : Z
}.

(** The loop of [init_memory]. *)
Fixpoint init_pool (n : nat) (start i : Z) (pool : list Z) : list Z :=
  match n with
  | O => pool
  | S n => init_pool n start (i + 1) (zset pool i (u64 (start + page_size * i)))
  end.

(** [qemu] selects the branches under [#ifdef QEMU]. *)
Definition init_memory (qemu : bool) : PagePool :=
  let ke := if qemu then 0x84000000 else 0x80100000 in
  let ke := (ke + page_size - 1) / page_size * page_size in
  let count := if qemu then 1500
               else s32 ((memory_end - ke - sizeof_Context - 8) / page_size) in
  mkPool ke count
    (init_pool (Z.to_nat count) ke 0 (replicate (Z.to_nat POOL_LENGTH) 0)) (count - 1).

Definition alloc_page (p : PagePool) : outcome (Z * PagePool) :=
  if memory_pointer p <? 0 then Panic
  else match memory_pool p !! Z.to_nat (memory_pointer p) with
       | Some a => Done (a, mkPool (kernel_end p) (page_count p) (memory_pool p)
                              (memory_pointer p - 1))
       | None => Wild
       end.

Definition dealloc_page (a : Z) (p : PagePool) : outcome PagePool :=
  if ztrue (a mod 0x1000) then Panic
  else
    let i := memory_pointer p + 1 in
    if (0 <=? i) && (i <? zlen (memory_pool p))
    then Done (mkPool (kernel_end p) (page_count p) (zset (memory_pool p) i a) i)
    else Wild.

Definition is_page_alloced (a : Z) (p : PagePool) : outcome bool :=
  if ztrue (a mod 0x1000) then Panic
  else Done ((kernel_end p <=? a) &&
             (a <=? u64 (kernel_end p + page_size * (page_count p - 1)))).

(** * The pool as a stack of pages *)

Definition free_pages (p : PagePool) : list Z :=
  take (Z.to_nat (memory_pointer p + 1)) (memory_pool p).

Definition all_pages (p : PagePool) : list Z :=
  (λ i, kernel_end p + page_size * i) <$> seqZ 0 (page_count p).

(** The pages of the pool are either free or owned by somebody. *)
Record pool_ok (p : PagePool) (owned : list Z) : Prop := mkPoolOk {
  po_len : zlen (memory_pool p) = POOL_LENGTH;
  po_top : -1 <= memory_pointer p < POOL_LENGTH;
  po_start : 0x1000 <= kernel_end p ∧ kernel_end p mod page_size = 0;
  po_end : kernel_end p + page_size * page_count p <= 2 ^ 56;
  po_count : 0 < page_count p <= POOL_LENGTH;
  po_pages : owned ++ free_pages p ≡ₚ all_pages p
}.

Lemma all_pages_NoDup p : NoDup (all_pages p).
Proof. apply NoDup_fmap_2; [|apply NoDup_seqZ]. intros x y. unfold page_size. lia. Qed.

Lemma elem_all_pages p a :
  a ∈ all_pages p ↔ ∃ i, 0 <= i < page_count p ∧ a = kernel_end p + page_size * i.
Proof.
  unfold all_pages. rewrite list_elem_of_fmap. split.
  - intros (i & -> & Hi). apply elem_of_seqZ in Hi. exists i. lia.
  - intros (i & Hi & ->). exists i. split; [done|]. apply elem_of_seqZ. lia.
Qed.

Lemma pool_page p owned a :
  pool_ok p owned → a ∈ all_pages p → a mod 0x1000 = 0 ∧ 0x1000 <= a < 2 ^ 56.
Proof.
  intros [_ _ [H1 H2] H3 _ _] (i & Hi & ->)%elem_all_pages. unfold page_size in *.
  Z.div_mod_to_equations. lia.
Qed.

Lemma pool_free_in p owned a : pool_ok p owned → a ∈ free_pages p → a ∈ all_pages p.
Proof. intros [_ _ _ _ _ Hp] Ha. rewrite <- Hp. apply elem_of_app. by right. Qed.

Lemma pool_owned_in p owned a : pool_ok p owned → a ∈ owned → a ∈ all_pages p.
Proof. intros [_ _ _ _ _ Hp] Ha. rewrite <- Hp. apply elem_of_app. by left. Qed.

Lemma pool_NoDup p owned : pool_ok p owned → NoDup (owned ++ free_pages p).
Proof. intros [_ _ _ _ _ Hp]. rewrite Hp. apply all_pages_NoDup. Qed.

Lemma pool_ok_perm p owned owned' : pool_ok p owned → owned ≡ₚ owned' → pool_ok p owned'.
Proof. intros [? ? ? ? ? Hp] Ho. split; try done. by rewrite <- Ho. Qed.

#[export] Instance pool_ok_proper p : Proper ((≡ₚ) ==> iff) (pool_ok p).
Proof. intros o o' Ho. split; intros H; by eapply pool_ok_perm. Qed.

(** [is_page_alloced] is a test for pages of the pool, free or not. *)
Lemma is_page_alloced_spec p owned a :
  pool_ok p owned → a mod 0x1000 = 0 →
  is_page_alloced a p = Done (bool_decide (a ∈ all_pages p)).
Proof.
  intros [_ _ [H1 H2] H3 H4 _] Ha. unfold is_page_alloced, ztrue. rewrite Ha. simpl. f_equal.
  unfold page_size, POOL_LENGTH in *. rewrite u64_small by lia.
  apply eq_bool_prop_intro. rewrite andb_True, !Is_true_true, !Z.leb_le, bool_decide_eq_true.
  rewrite elem_all_pages. unfold page_size. split.
  - intros [H5 H6]. exists ((a - kernel_end p) / 4096). Z.div_mod_to_equations. lia.
  - intros (i & Hi & ->). lia.
Qed.

Lemma alloc_page_spec p owned :
  pool_ok p owned →
  (free_pages p = [] ∧ alloc_page p = Panic) ∨
  ∃ a p', alloc_page p = Done (a, p') ∧ free_pages p = free_pages p' ++ [a] ∧
    pool_ok p' (a :: owned) ∧ all_pages p' = all_pages p.
Proof.
  intros Hok. pose proof Hok as [Hl Ht Hs He Hc Hp].
  unfold alloc_page. destruct (Z.ltb_spec (memory_pointer p) 0) as [Hneg|Hpos].
  { left. unfold free_pages. replace (Z.to_nat _) with 0%nat by lia. done. }
  right. unfold zlen in Hl.
  destruct (lookup_lt_is_Some_2 (memory_pool p) (Z.to_nat (memory_pointer p))) as [a Ha]; [lia|].
  rewrite Ha. eexists a, _. split; [done|].
  assert (free_pages p = take (Z.to_nat (memory_pointer p)) (memory_pool p) ++ [a]) as Hf.
  { unfold free_pages. replace (Z.to_nat (memory_pointer p + 1))
      with (S (Z.to_nat (memory_pointer p))) by lia. by apply take_S_r. }
  unfold free_pages at 2. simpl. replace (memory_pointer p - 1 + 1) with (memory_pointer p) by lia.
  split; [done|]. split; [|done]. split; simpl; try done; try lia.
  unfold free_pages at 1. simpl. replace (memory_pointer p - 1 + 1) with (memory_pointer p) by lia.
  unfold all_pages in *. simpl. rewrite <- Hp, Hf, (Permutation_app_comm (take _ _)).
  simpl. by rewrite Permutation_middle.
Qed.

Lemma dealloc_page_spec p owned a :
  pool_ok p (a :: owned) →
  ∃ p', dealloc_page a p = Done p' ∧ free_pages p' = free_pages p ++ [a] ∧
    pool_ok p' owned ∧ all_pages p' = all_pages p.
Proof.
  intros Hok. pose proof Hok as [Hl Ht Hs He Hc Hp].
  assert (a mod 0x1000 = 0) as Ha.
  { apply (pool_page p (a :: owned)); [done|]. apply (pool_owned_in p (a :: owned)); [done|].
    apply list_elem_of_here. }
  unfold dealloc_page, ztrue. rewrite Ha. simpl.
  assert (memory_pointer p + 1 < POOL_LENGTH) as Hroom.
  { apply Permutation_length in Hp. revert Hp. unfold free_pages, all_pages. rewrite length_fmap.
    simpl. rewrite length_seqZ, length_app, length_take. unfold zlen in Hl. lia. }
  rewrite Hl, (proj2 (Z.leb_le 0 _)), (proj2 (Z.ltb_lt _ _)) by lia. simpl.
  eexists. split; [done|]. unfold zlen in Hl.
  assert (∀ q, free_pages (mkPool (kernel_end p) q (zset (memory_pool p) (memory_pointer p + 1) a)
    (memory_pointer p + 1)) = free_pages p ++ [a]) as Hf.
  { intros q. unfold free_pages. simpl.
    replace (Z.to_nat (memory_pointer p + 1 + 1)) with (S (Z.to_nat (memory_pointer p + 1))) by lia.
    unfold zset. rewrite (take_S_r _ _ a), take_insert_ge; [done|lia|].
    rewrite list_lookup_insert_eq; [done|lia]. }
  split; [done|]. split; [|done]. split; simpl; try done; try lia.
  - unfold zlen. rewrite zset_length. lia.
  - rewrite Hf. unfold all_pages in *. simpl. rewrite <- Hp, app_assoc.
    rewrite (Permutation_app_comm _ [a]). done.
Qed.

Lemma init_pool_length n start i pool : length (init_pool n start i pool) = length pool.
Proof. revert i pool. induction n as [|n IH]; intros; simpl; [done|]. by rewrite IH, zset_length. Qed.

Lemma init_pool_lookup n start i pool k :
  0 <= i → 0 <= start → start + 4096 * (i + Z.of_nat n) < 2 ^ 64 → i + Z.of_nat n <= zlen pool → 
  0 <= k < i + Z.of_nat n → (∀ j, 0 <= j < i → pool !! Z.to_nat j = Some (start + page_size * j)) →
  init_pool n start i pool !! Z.to_nat k = Some (start + page_size * k).
Proof.
  revert i pool. induction n as [|n IH]; intros i pool Hi H0 Hs Hl Hk Hj; simpl; [apply Hj; lia|].
  unfold zlen, page_size in *. apply IH; try lia.
  - rewrite zset_length. lia.
  - intros j Hj'. unfold zset. destruct (decide (j = i)) as [->|].
    + rewrite list_lookup_insert_eq by lia. rewrite u64_small by lia. done.
    + rewrite list_lookup_insert_ne by lia. apply Hj. lia.
Qed.

Lemma init_memory_ok q : pool_ok (init_memory q) [].
Proof.
  assert (∃ ke c pool, init_memory q = mkPool ke c (init_pool (Z.to_nat c) ke 0 pool) (c - 1) ∧
    0x80000000 <= ke < 0x90000000 ∧ ke mod 4096 = 0 ∧ 0 < c <= 1800 ∧ zlen pool = 2048)
    as (ke & c & pool & -> & H1 & H2 & H3 & H4).
  { destruct q.
    - eexists 0x84000000, 1500, _. split; [reflexivity|]. split; [lia|]. done.
    - eexists 0x80100000, 1791, _. split; [reflexivity|]. split; [lia|]. done. }
  unfold POOL_LENGTH in *.
  split; simpl; unfold zlen, POOL_LENGTH, page_size in *; try lia.
  - by rewrite init_pool_length.
  - unfold free_pages, all_pages. simpl. replace (c - 1 + 1) with c by lia.
    simpl. match goal with |- ?l ≡ₚ ?k => enough (l = k) as -> by done end. apply list_eq. intros i. rewrite list_lookup_fmap.
    destruct (decide (Z.of_nat i < c)).
    + rewrite lookup_take_lt by lia. replace i with (Z.to_nat (Z.of_nat i)) at 1 by lia.
      rewrite init_pool_lookup; try lia.
      * rewrite lookup_seqZ_lt by lia. simpl. f_equal; lia.
      * unfold zlen. lia.
    + rewrite lookup_take_ge by lia. rewrite lookup_seqZ_ge by lia. done.
Qed.

(** * Clients of the pool *)

(** One allocation, or one release of a page that is owned. *)
Inductive pool_step : PagePool * list Z → PagePool * list Z → Prop :=
  | step_alloc p owned a p' :
      alloc_page p = Done (a, p') → pool_step (p, owned) (p', a :: owned)
  | step_dealloc p owned a owned' p' :
      owned ≡ₚ a :: owned' → dealloc_page a p = Done p' → pool_step (p, owned) (p', owned').

Lemma pool_step_ok s s' : pool_step s s' → pool_ok s.1 s.2 → pool_ok s'.1 s'.2.
Proof.
  intros Hs Hok. destruct Hs as [p owned a p' E|p owned a owned' p' Ho E]; simpl in *.
  - destruct (alloc_page_spec p owned Hok) as [[_ E']|(b & p'' & E' & _ & H & _)]; congruence.
  - destruct (dealloc_page_spec p owned' a) as (p'' & E' & _ & H & _); [|congruence].
    by apply (pool_ok_perm _ owned).
Qed.

Lemma pool_steps_ok s s' : rtc pool_step s s' → pool_ok s.1 s.2 → pool_ok s'.1 s'.2.
Proof. induction 1; eauto using pool_step_ok. Qed.

(** C22: Whatever allocations and releases its clients perform, the page pool
    hands out every page at most once: the pages in use are pairwise
    distinct, aligned pages of the managed range, and none of them is free. *)
Theorem page_pool_exclusive q p owned :
  rtc pool_step (init_memory q, []) (p, owned) →
  NoDup (owned ++ free_pages p) ∧ owned ++ free_pages p ≡ₚ all_pages p ∧
  ∀ a, a ∈ owned → a mod 4096 = 0 ∧ is_page_alloced a p = Done true.
Proof.
  intros Hr. pose proof (pool_steps_ok _ _ Hr (init_memory_ok q)) as Hok. simpl in Hok.
  split; [by apply pool_NoDup|]. split; [apply Hok|]. intros a Ha.
  apply (pool_owned_in _ _ _ Hok) in Ha. destruct (pool_page _ _ _ Hok Ha) as [Hm _].
  split; [done|]. by rewrite (is_page_alloced_spec _ _ _ Hok Hm), bool_decide_eq_true_2.
Qed.

(** The pool panics only when every page is in use, and it never runs
    over [memory_pool]: an allocation succeeds while a page is left, and the
    release of a page in use always succeeds and makes it the next one to be
    handed out. *)
Theorem page_pool_progress q p owned :
  rtc pool_step (init_memory q, []) (p, owned) →
  (Z.of_nat (length owned) < page_count p → ∃ a p', alloc_page p = Done (a, p')) ∧
  (Z.of_nat (length owned) = page_count p → alloc_page p = Panic) ∧
  ∀ a, a ∈ owned → ∃ p' p'', dealloc_page a p = Done p' ∧ alloc_page p' = Done (a, p'').
Proof.
  intros Hr. pose proof (pool_steps_ok _ _ Hr (init_memory_ok q)) as Hok. simpl in Hok.
  pose proof (Permutation_length (po_pages _ _ Hok)) as Hlen. pose proof (po_count _ _ Hok).
  revert Hlen. unfold all_pages. rewrite length_app, length_fmap, length_seqZ. intros Hlen.
  split; [|split].
  - intros Hlt. destruct (alloc_page_spec p owned Hok) as [[Hf _]|(a & p' & E & _)]; [|eauto].
    rewrite Hf in Hlen. simpl in Hlen. lia.
  - intros Heq. destruct (alloc_page_spec p owned Hok) as [[_ E]|(a & p' & _ & Hf & _)]; [done|].
    rewrite Hf, length_app in Hlen. simpl in Hlen. lia.
  - intros a [o' Ho]%elem_of_Permutation.
    destruct (dealloc_page_spec p o' a) as (p' & E & Hf & Hok' & _);
      [by apply (pool_ok_perm _ owned)|]. exists p'.
    destruct (alloc_page_spec p' o' Hok') as [[Hf' _]|(b & p'' & E' & Hf' & _)].
    + rewrite Hf' in Hf. by destruct (free_pages p).
    + exists p''. rewrite Hf in Hf'. apply app_inj_tail in Hf' as [_ ->]. done.
Qed.

Lemma ex_alloc : ∃ a p, rtc pool_step (init_memory true, []) (p, [a]).
Proof.
  destruct (alloc_page_spec (init_memory true) [] (init_memory_ok true)) as [[H _]|(a & p & E & _)].
  - pose proof (po_pages _ _ (init_memory_ok true)) as Hp. rewrite H in Hp.
    by apply Permutation_nil_l in Hp.
  - exists a, p. apply rtc_once. by apply step_alloc.
Qed.

Lemma page_pool_exclusive_witness : ∃ a p, is_page_alloced a p = Done true ∧ a mod 4096 = 0.
Proof.
  destruct ex_alloc as (a & p & Hr). exists a, p.
  destruct (page_pool_exclusive true p [a] Hr) as (_ & _ & H).
  destruct (H a (list_elem_of_here _ _)) as [H1 H2]. exact (conj H2 H1).
Defined.

Lemma page_pool_progress_witness :
  ∃ a p p' p'', dealloc_page a p = Done p' ∧ alloc_page p' = Done (a, p'').
Proof.
  destruct ex_alloc as (a & p & Hr). exists a, p.
  destruct (page_pool_progress true p [a] Hr) as (_ & _ & H).
  exact (H a (list_elem_of_here _ _)).
Defined.
