(* ===== verification/KPageTable.v ===== *)
(** Sv39 page tables of lib/stl/PageTableUtil.h, against the address
    translation of the RISC-V privileged architecture.

    [KMem] is physical memory as 64-bit words together with the page pool;
    the kernel runs identity-mapped, so its pointers are physical addresses.
    Tables are reached through pointers stored in memory, as in the code;
    the ghost value [tables] of the invariant names the pages they occupy. *)
From Stdlib Require Import ZArith Lia.
From stdpp Require Import base list numbers option gmap.
From S2P Require Import Prelude KBase KPages.

Local Open Scope Z_scope.
Local Open Scope out_scope.

Inductive PAGE_TABLE_LEVEL : Type := LARGE | MIDDLE | SMALL.
Inductive PRIVILEGE_LEVEL : Type := SUPERVISOR | USER.

Record KMem : Type := mkKMem { mem : Z → Z; pool : PagePool }.

(** [*(size_t * )a = v]. *)
Definition wr (s : KMem) (a v : Z) : KMem :=
  mkKMem (λ x, if x =? a then v else mem s x) (pool s).
Definition with_pool (s : KMem) (p : PagePool) : KMem := mkKMem (mem s) p.

(** * Operations *)

Definition ClearPage (page : Z) (s : KMem) : KMem :=
  mkKMem (λ x, if (page <=? x) && (x <? page + 4096) then 0 else mem s x) (pool s).

Definition GetClearPage (s : KMem) : outcome (Z * KMem) :=
  do (res, p) := alloc_page (pool s) in
  Done (res, ClearPage res (with_pool s p)).

Definition non_leaf_attributes (level : PRIVILEGE_LEVEL) : Z := 0xd1.
Definition leaf_attributes (level : PRIVILEGE_LEVEL) : Z :=
  match level with SUPERVISOR => 0xcf | USER => 0xdf end.

Definition calc_ppn (physical_address : Z) : Z :=
  u64 (Z.shiftl (Z.shiftr physical_address 12) 10).
(** [(pte >> 10) << 12]. *)
Definition pte_page (pte : Z) : Z := u64 (Z.shiftl (Z.shiftr pte 10) 12).

Definition is_efficient (pte : Z) : bool := ztrue (Z.land pte 1).
Definition is_leaf (pte : Z) : bool :=
  let mask := Z.shiftl 7 1 in
  is_efficient pte && negb (Z.lxor (Z.land pte mask) mask =? mask).

Definition check_null (virtual_address physical_address : Z) : outcome unit :=
  if (0 <=? virtual_address) && (virtual_address <? 0x1000) then Panic else Done tt.
Definition check_table_base (table_base : Z) : outcome unit :=
  if negb (Z.lxor (Z.land table_base 7) 7 =? 7) then Panic else Done tt.

Definition get_ppn1 (va : Z) : Z := Z.shiftr (Z.land va (Z.shiftl 511 30)) 30.
Definition get_ppn2 (va : Z) : Z := Z.shiftr (Z.land va (Z.shiftl 511 21)) 21.
Definition get_ppn3 (va : Z) : Z := Z.shiftr (Z.land va (Z.shiftl 511 12)) 12.

(** [(size_t * )table_base + i]. *)
Definition entry_at (table_base i : Z) : Z := u64 (table_base + 8 * i).

(** The table behind the non-leaf entry at [pte], created when it is empty. *)
Definition descend (pte : Z) (priv : PRIVILEGE_LEVEL) (s : KMem) : outcome (Z * KMem) :=
  if mem s pte =? 0 then
    do (t, s) := GetClearPage s in
    Done (t, wr s pte (Z.lor (calc_ppn t) (non_leaf_attributes priv)))
  else if is_leaf (mem s pte) then Panic
  else Done (pte_page (mem s pte), s).

Definition CreateMapping (table_base virtual_address physical_address : Z)
    (level : PAGE_TABLE_LEVEL) (priv : PRIVILEGE_LEVEL) (s : KMem) : outcome KMem :=
  do _ := check_null virtual_address physical_address in
  do _ := check_table_base table_base in
  let leaf := Z.lor (calc_ppn physical_address) (leaf_attributes priv) in
  let pte1 := entry_at table_base (get_ppn1 virtual_address) in
  match level with
  | MIDDLE => Panic
  | LARGE | SMALL =>
      if (mem s pte1 =? 0) && match level with LARGE => true | _ => false end
      then Done (wr s pte1 leaf)
      else
        do (table_base, s) := descend pte1 priv s in
        do (table_base, s) :=
          descend (entry_at table_base (get_ppn2 virtual_address)) priv s in
        let pte3 := entry_at table_base (get_ppn3 virtual_address) in
        Done (if mem s pte3 =? 0 then wr s pte3 leaf else s)
  end.

(** [inner_erase_entry]: [inl s] is a return of [true], [inr t] a return of
    [false] with [table_base] set to [t]. *)
Definition inner_erase_entry (table_base ppn : Z) (release : bool) (s : KMem)
    : outcome (KMem + Z) :=
  let entry := mem s (entry_at table_base ppn) in
  let page := pte_page entry in
  if is_leaf entry then
    do s := (if release then
               do alloced := is_page_alloced page (pool s) in
               if (alloced : bool)
               then do p := dealloc_page page (pool s) in Done (with_pool s p)
               else Done s
             else Done s) in
    Done (inl (wr s (entry_at table_base ppn) 0))
  else Done (inr page).

Definition EraseEntry (page_table_base virtual_address : Z) (release : bool) (s : KMem)
    : outcome KMem :=
  do _ := check_table_base page_table_base in
  do _ := check_null virtual_address virtual_address in
  do r := inner_erase_entry page_table_base (get_ppn1 virtual_address) release s in
  match r with
  | inl s => Done s
  | inr t =>
      do r := inner_erase_entry t (get_ppn2 virtual_address) release s in
      match r with
      | inl s => Done s
      | inr t =>
          do r := inner_erase_entry t (get_ppn3 virtual_address) release s in
          match r with inl s => Done s | inr _ => Done s end
      end
  end.

Definition CalculateTableBaseBySatp (satp : Z) : Z := u64 (Z.shiftl satp 12).

(** The loop of [ErasePageTable] over the entries [i ..], with [erase] for
    [erase_entry]. *)
Fixpoint erase_entries (erase : Z → bool → KMem → outcome KMem) (n : nat) (base i : Z)
    (release : bool) (s : KMem) : outcome KMem :=
  match n with
  | O => Done s
  | S n =>
      let entry := entry_at base i in
      do s := (if mem s entry =? 0 then Done s else erase entry release s) in
      erase_entries erase n base (i + 1) release s
  end.

(** [erase_entry], given the recursive call of [ErasePageTable]. *)
Definition erase_entry (erase_table : Z → bool → KMem → outcome KMem)
    (entry_address : Z) (release : bool) (s : KMem) : outcome KMem :=
  let entry := mem s entry_address in
  let page := pte_page entry in
  if is_leaf entry then
    do s := (if release then
               do alloced := is_page_alloced page (pool s) in
               if (alloced : bool)
               then do p := dealloc_page page (pool s) in Done (with_pool s p)
               else Done s
             else Done s) in
    Done (wr s entry_address 0)
  else erase_table page false s.

(** [satp] is the CSR read by [register_read_satp]; [fuel] bounds the depth
    of the recursion. *)
Fixpoint ErasePageTable (fuel : nat) (satp page_table_base : Z) (release : bool) (s : KMem)
    : outcome KMem :=
  match fuel with
  | O => Loop
  | S fuel =>
      do _ := check_table_base page_table_base in
      if page_table_base =? CalculateTableBaseBySatp satp then Panic
      else
        do s := erase_entries (erase_entry (ErasePageTable fuel satp)) 512
                  page_table_base 0 release s in
        do alloced := is_page_alloced page_table_base (pool s) in
        if (alloced : bool)
        then do p := dealloc_page page_table_base (pool s) in Done (with_pool s p)
        else Done s
  end.

(** The pages every address space maps. *)
Record Globals : Type := mkGlobals {
  fast_syscall_page : Z;
  vdso_text_page : Z;
  vdso_data_page : Z
}.

Definition init_pageTable (g : Globals) (base : Z) (s : KMem) : outcome KMem :=
  do s := CreateMapping base 0x38001000 0x38001000 SMALL SUPERVISOR s in
  do s := CreateMapping base 0x40000000 0x40000000 LARGE SUPERVISOR s in
  do s := CreateMapping base 0x80000000 0x80000000 LARGE USER s in
  do s := CreateMapping base 0x200000000 (fast_syscall_page g) SMALL USER s in
  do s := CreateMapping base 0x300000000 (vdso_text_page g) SMALL USER s in
  CreateMapping base 0x300001000 (vdso_data_page g) SMALL USER s.

(** * Address translation of the hardware *)

(** The Sv39 walk: [lvl] counts down from 2, [a] is the table's address. The
    result is the physical address and the flag bits of the leaf entry. *)
Definition pte_ppn (pte : Z) : Z := pte / 2 ^ 10 mod 2 ^ 44.

Fixpoint walk (m : Z → Z) (lvl : nat) (a va : Z) : option (Z * Z) :=
  let span := 2 ^ (12 + 9 * Z.of_nat lvl) in
  let pte := m (a + 8 * (va / span mod 512)) in
  if negb (Z.testbit pte 0) || (negb (Z.testbit pte 1) && Z.testbit pte 2) then None
  else if Z.testbit pte 1 || Z.testbit pte 3 then
    if pte_ppn pte mod (span / 4096) =? 0
    then Some (pte_ppn pte * 4096 + va mod span, pte mod 2 ^ 10)
    else None
  else match lvl with
       | O => None
       | S lvl => walk m lvl (pte_ppn pte * 4096) va
       end.

Definition canonical (va : Z) : bool :=
  ((0 <=? va) && (va <? 2 ^ 38)) || ((2 ^ 64 - 2 ^ 38 <=? va) && (va <? 2 ^ 64)).

Definition translate (m : Z → Z) (base va : Z) : option (Z * Z) :=
  if canonical va then walk m 2 base va else None.

(** * Page table entries *)

Definition non_leaf (t : Z) : Z := Z.lor (calc_ppn t) (non_leaf_attributes USER).
Definition leaf (pa : Z) (priv : PRIVILEGE_LEVEL) : Z :=
  Z.lor (calc_ppn pa) (leaf_attributes priv).

Lemma land_low e m : 0 <= m < 2 ^ 10 → Z.land e m = Z.land (e mod 2 ^ 10) m.
Proof.
  intros Hm. rewrite <- Z.land_ones by lia. rewrite <- Z.land_assoc, (Z.land_comm (Z.ones 10)).
  rewrite Z.land_ones, (Z.mod_small m) by lia. done.
Qed.

Record entry_is (e x f : Z) : Prop := mkEntryIs {
  ei_flags : e mod 2 ^ 10 = f;
  ei_ppn : pte_ppn e = x;
  ei_page : pte_page e = x * 4096;
  ei_bit k : 0 <= k < 10 → Z.testbit e k = Z.testbit f k;
  ei_leaf : is_leaf e = is_leaf f;
  ei_nonzero : f ≠ 0 → e ≠ 0
}.

Lemma entry_fields x f : 0 <= x < 2 ^ 44 → 0 <= f < 2 ^ 10 → entry_is (x * 1024 + f) x f.
Proof.
  intros Hx Hf. assert ((x * 1024 + f) mod 2 ^ 10 = f) as Hm by (Z.div_mod_to_equations; lia).
  assert ((x * 1024 + f) / 2 ^ 10 = x) as Hd by (Z.div_mod_to_equations; lia).
  split; [done|..].
  - unfold pte_ppn. rewrite Hd. apply Z.mod_small. lia.
  - unfold pte_page. rewrite Z.shiftr_div_pow2, Z.shiftl_mul_pow2, Hd by lia.
    apply u64_small. lia.
  - intros k Hk. rewrite <- (Z.mod_pow2_bits_low _ 10), Hm by lia. done.
  - unfold is_leaf, is_efficient. rewrite (land_low _ 1), (land_low _ (Z.shiftl 7 1)), Hm.
    + done.
    + split; [by apply Z.leb_le|by apply Z.ltb_lt].
    + lia.
  - lia.
Qed.

Lemma calc_ppn_lor pa f :
  0 <= pa < 2 ^ 56 → 0 <= f < 2 ^ 10 → Z.lor (calc_ppn pa) f = pa / 4096 * 1024 + f.
Proof.
  intros Hp Hf. unfold calc_ppn. rewrite Z.shiftr_div_pow2 by lia.
  rewrite u64_small; [apply lor_shiftl_add; lia|].
  rewrite Z.shiftl_mul_pow2 by lia. Z.div_mod_to_equations. lia.
Qed.

Lemma leaf_entry pa priv :
  0 <= pa < 2 ^ 56 → entry_is (leaf pa priv) (pa / 4096) (leaf_attributes priv).
Proof.
  intros Hp. unfold leaf. rewrite calc_ppn_lor by (destruct priv; simpl; lia).
  apply entry_fields; [Z.div_mod_to_equations; lia|destruct priv; simpl; lia].
Qed.

Lemma non_leaf_entry t :
  0 <= t < 2 ^ 56 → entry_is (non_leaf t) (t / 4096) 0xd1.
Proof.
  intros Hp. unfold non_leaf, non_leaf_attributes. rewrite calc_ppn_lor by lia.
  apply entry_fields; [Z.div_mod_to_equations; lia|lia].
Qed.

Lemma non_leaf_step t :
  0 <= t < 2 ^ 56 → t mod 4096 = 0 →
  (non_leaf t =? 0) = false ∧ is_leaf (non_leaf t) = false ∧ pte_page (non_leaf t) = t.
Proof.
  intros Ht Hm. destruct (non_leaf_entry t Ht) as [_ _ H3 _ H5 H6]. split; [|split].
  - apply Z.eqb_neq, H6. lia.
  - by rewrite H5.
  - rewrite H3. Z.div_mod_to_equations. lia.
Qed.

Lemma leaf_step pa priv :
  0 <= pa < 2 ^ 56 →
  (leaf pa priv =? 0) = false ∧ is_leaf (leaf pa priv) = true ∧
  pte_page (leaf pa priv) = pa / 4096 * 4096.
Proof.
  intros Hp. destruct (leaf_entry pa priv Hp) as [_ _ H3 _ H5 H6]. split; [|split].
  - apply Z.eqb_neq, H6. by destruct priv.
  - rewrite H5. by destruct priv.
  - done.
Qed.

Lemma vpn_of va k : 0 <= k → Z.shiftr (Z.land va (Z.shiftl 511 k)) k = va / 2 ^ k mod 512.
Proof.
  intros Hk. rewrite Z.shiftr_land, Z.shiftr_shiftl_l by lia.
  rewrite Z.sub_diag, Z.shiftl_0_r, Z.shiftr_div_pow2 by lia.
  change 511 with (Z.ones 9). rewrite Z.land_ones by lia. done.
Qed.

(** The three indices of a virtual address. *)
Definition vpn2 (va : Z) : Z := va / 2 ^ 30 mod 512.
Definition vpn1 (va : Z) : Z := va / 2 ^ 21 mod 512.
Definition vpn0 (va : Z) : Z := va / 2 ^ 12 mod 512.

Lemma get_ppn1_eq va : get_ppn1 va = vpn2 va.
Proof. by apply vpn_of. Qed.
Lemma get_ppn2_eq va : get_ppn2 va = vpn1 va.
Proof. by apply vpn_of. Qed.
Lemma get_ppn3_eq va : get_ppn3 va = vpn0 va.
Proof. by apply vpn_of. Qed.

Lemma vpn_range x : 0 <= x mod 512 < 512.
Proof. apply Z.mod_pos_bound. lia. Qed.

Lemma same_page va va' :
  0 <= va < 2 ^ 38 → canonical va' = true →
  vpn2 va' = vpn2 va → vpn1 va' = vpn1 va → vpn0 va' = vpn0 va → va' / 4096 = va / 4096.
Proof.
  unfold canonical, vpn2, vpn1, vpn0. intros Hva Hc.
  apply orb_true_iff in Hc as [Hc|Hc]; apply andb_true_iff in Hc as [Hc1 Hc2];
    zb; Z.div_mod_to_equations; lia.
Qed.

Lemma page_vpns va va' :
  va' / 4096 = va / 4096 → vpn2 va' = vpn2 va ∧ vpn1 va' = vpn1 va ∧ vpn0 va' = vpn0 va.
Proof.
  unfold vpn2, vpn1, vpn0. intros H.
  change (2 ^ 30) with (4096 * 2 ^ 18). change (2 ^ 21) with (4096 * 2 ^ 9).
  change (2 ^ 12) with 4096. rewrite <- !Z.div_div, H by lia. done.
Qed.

(** One level of the hardware walk on the entries the kernel writes. *)
Lemma walk_zero m l a va :
  m (a + 8 * (va / 2 ^ (12 + 9 * Z.of_nat l) mod 512)) = 0 → walk m l a va = None.
Proof. intros E. destruct l; cbn [walk]; by rewrite E. Qed.

Lemma walk_non_leaf m l a va t :
  0 <= t < 2 ^ 56 → t mod 4096 = 0 →
  m (a + 8 * (va / 2 ^ (12 + 9 * Z.of_nat (S l)) mod 512)) = non_leaf t →
  walk m (S l) a va = walk m l t va.
Proof.
  intros Ht Hm E. cbn [walk]. rewrite E. destruct (non_leaf_entry t Ht) as [H1 H2 _ H4 _ _].
  rewrite !H4, H2 by lia. change (Z.testbit 0xd1 0) with true.
  change (Z.testbit 0xd1 1) with false. change (Z.testbit 0xd1 2) with false.
  change (Z.testbit 0xd1 3) with false. simpl. f_equal. Z.div_mod_to_equations. lia.
Qed.

Lemma walk_leaf m l a va pa priv :
  0 <= pa < 2 ^ 56 → let span := 2 ^ (12 + 9 * Z.of_nat l) in
  m (a + 8 * (va / span mod 512)) = leaf pa priv →
  walk m l a va = if pa / 4096 mod (span / 4096) =? 0
                  then Some (pa / 4096 * 4096 + va mod span, leaf_attributes priv) else None.
Proof.
  intros Hp span E. destruct (leaf_entry pa priv Hp) as [H1 H2 _ H4 _ _].
  destruct l; cbn [walk]; fold span; rewrite E, !H4, H1, H2 by lia; destruct priv; done.
Qed.

(** * Well-formed page tables *)

(** Where the tables of an address space are: the second-level table of each
    root index, and the third-level table of each pair of indices. *)
Record tables : Type := mkTables { mids : gmap Z Z; lows : gmap (Z * Z) Z }.

Definition table_pages (base : Z) (T : tables) : list Z :=
  base :: (map_to_list (mids T)).*2 ++ (map_to_list (lows T)).*2.

Definition leaf_or_empty (e : Z) : Prop :=
  e = 0 ∨ ∃ pa priv, 0 <= pa < 2 ^ 56 ∧ e = leaf pa priv.

(** [rest] are the pages of the pool in use for other purposes. *)
Record pt_rep (s : KMem) (base : Z) (T : tables) (rest : list Z) : Prop := mkPtRep {
  pr_pool : pool_ok (pool s) (table_pages base T ++ rest);
  pr_root i : 0 <= i < 512 →
    match mids T !! i with
    | Some t => mem s (base + 8 * i) = non_leaf t
    | None => leaf_or_empty (mem s (base + 8 * i))
    end;
  pr_mid i t j : mids T !! i = Some t → 0 <= j < 512 →
    match lows T !! (i, j) with
    | Some u => mem s (t + 8 * j) = non_leaf u
    | None => mem s (t + 8 * j) = 0
    end;
  pr_low i j u k : lows T !! (i, j) = Some u → 0 <= k < 512 → leaf_or_empty (mem s (u + 8 * k));
  pr_closed i j u : lows T !! (i, j) = Some u → is_Some (mids T !! i);
  pr_idx1 i t : mids T !! i = Some t → 0 <= i < 512;
  pr_idx2 i j u : lows T !! (i, j) = Some u → 0 <= j < 512
}.

Definition in_page (t a : Z) : Prop := t <= a < t + 4096.

(** The memory outside the tables is untouched. *)
Definition frame_out (pages : list Z) (s s' : KMem) : Prop :=
  ∀ a, (∀ t, t ∈ pages → ¬ in_page t a) → mem s' a = mem s a.

Lemma elem_values `{Countable K} (m : gmap K Z) k v :
  m !! k = Some v → v ∈ (map_to_list m).*2.
Proof.
  intros H1. apply list_elem_of_fmap. exists (k, v). split; [done|]. by apply elem_of_map_to_list.
Qed.

Lemma values_inj `{Countable K} (m : gmap K Z) i j v :
  NoDup (map_to_list m).*2 → m !! i = Some v → m !! j = Some v → i = j.
Proof.
  intros Hn Hi Hj. apply elem_of_map_to_list in Hi, Hj.
  apply list_elem_of_lookup_1 in Hi as [a Ha], Hj as [b Hb].
  assert (a = b) as ->; [|congruence].
  eapply NoDup_lookup; [exact Hn| |]; rewrite list_lookup_fmap; [by rewrite Ha|by rewrite Hb].
Qed.

Lemma mid_page base T i t : mids T !! i = Some t → t ∈ table_pages base T.
Proof.
  intros H. apply list_elem_of_further, elem_of_app. left. by eapply elem_values.
Qed.

Lemma low_page base T ij u : lows T !! ij = Some u → u ∈ table_pages base T.
Proof.
  intros H. apply list_elem_of_further, elem_of_app. right. by eapply elem_values.
Qed.

Lemma root_page base T : base ∈ table_pages base T.
Proof. apply list_elem_of_here. Qed.

Create HintDb ptdb.
#[export] Hint Resolve mid_page low_page root_page : ptdb.

Section rep.
Context (s : KMem) (base : Z) (T : tables) (rest : list Z).
Hypothesis Hrep : pt_rep s base T rest.

Lemma table_page_ok t : t ∈ table_pages base T → t mod 4096 = 0 ∧ 0x1000 <= t < 2 ^ 56.
Proof.
  intros Ht. apply (pool_page (pool s) _ t (pr_pool _ _ _ _ Hrep)).
  eapply pool_owned_in; [apply (pr_pool _ _ _ _ Hrep)|]. apply elem_of_app. by left.
Qed.

Lemma table_entry_at t i : t ∈ table_pages base T → 0 <= i < 512 → entry_at t i = t + 8 * i.
Proof. intros Ht Hi. destruct (table_page_ok t Ht). apply u64_small. lia. Qed.

(** Entries of different tables, or of one table at different indices, are
    at different addresses. *)
Lemma entries_apart t t' i j :
  t ∈ table_pages base T → t' ∈ table_pages base T → 0 <= i < 512 → 0 <= j < 512 →
  t + 8 * i = t' + 8 * j → t = t' ∧ i = j.
Proof.
  intros Ht Ht' Hi Hj E. destruct (table_page_ok t Ht), (table_page_ok t' Ht').
  Z.div_mod_to_equations. lia.
Qed.

Lemma tables_NoDup : NoDup (table_pages base T).
Proof.
  pose proof (pool_NoDup _ _ (pr_pool _ _ _ _ Hrep)) as H.
  by apply NoDup_app in H as [[? _]%NoDup_app _].
Qed.

Lemma mids_inj i j t : mids T !! i = Some t → mids T !! j = Some t → i = j.
Proof.
  pose proof tables_NoDup as [_ [H _]%NoDup_app]%NoDup_cons. by apply values_inj.
Qed.

Lemma lows_inj i j t : lows T !! i = Some t → lows T !! j = Some t → i = j.
Proof.
  pose proof tables_NoDup as [_ [_ [_ H]]%NoDup_app]%NoDup_cons. by apply values_inj.
Qed.

Lemma mid_not_root i t : mids T !! i = Some t → t ≠ base.
Proof.
  intros H ->. pose proof tables_NoDup as [Hn _]%NoDup_cons. apply Hn, elem_of_app. left. by eapply elem_values.
Qed.

Lemma low_not_root ij u : lows T !! ij = Some u → u ≠ base.
Proof.
  intros H ->. pose proof tables_NoDup as [Hn _]%NoDup_cons. apply Hn, elem_of_app. right. by eapply elem_values.
Qed.

Lemma low_not_mid ij u i : lows T !! ij = Some u → mids T !! i ≠ Some u.
Proof.
  intros H Hi. pose proof tables_NoDup as [_ [_ [Hn _]]%NoDup_app]%NoDup_cons.
  by apply (Hn u); eapply elem_values.
Qed.

Lemma root_not_leaf i t : mids T !! i = Some t → is_leaf (mem s (base + 8 * i)) = false.
Proof.
  intros H. pose proof (pr_root _ _ _ _ Hrep i (pr_idx1 _ _ _ _ Hrep _ _ H)) as E.
  rewrite H in E. rewrite E. destruct (table_page_ok t) as [? ?]; [eauto with ptdb|].
  apply (non_leaf_step t); [lia|done].
Qed.

(** What the hardware sees, in terms of the tables. *)
Definition view (va : Z) : option (Z * Z) :=
  match mids T !! vpn2 va with
  | None => walk (mem s) 2 base va
  | Some t =>
      match lows T !! (vpn2 va, vpn1 va) with
      | None => None
      | Some u => walk (mem s) 0 u va
      end
  end.

Lemma translate_view va : translate (mem s) base va = if canonical va then view va else None.
Proof.
  unfold translate. destruct (canonical va); [|done]. unfold view.
  pose proof (pr_root _ _ _ _ Hrep (vpn2 va) (vpn_range _)) as Hr.
  destruct (mids T !! vpn2 va) as [t|] eqn:Et; [|done].
  pose proof (pr_mid _ _ _ _ Hrep _ _ (vpn1 va) Et (vpn_range _)) as Hm.
  destruct (table_page_ok t) as [? ?]; [eauto with ptdb|].
  rewrite (walk_non_leaf _ _ _ _ t) by (done || lia).
  destruct (lows T !! _) as [u|] eqn:Eu.
  - destruct (table_page_ok u) as [? ?]; [eauto with ptdb|].
    rewrite (walk_non_leaf _ _ _ _ u) by (done || lia). done.
  - by apply walk_zero.
Qed.

End rep.

(** The walk depends on the entries it reads. *)
Lemma walk_root_ext m m' base va :
  leaf_or_empty (m (base + 8 * vpn2 va)) → m' (base + 8 * vpn2 va) = m (base + 8 * vpn2 va) →
  walk m' 2 base va = walk m 2 base va.
Proof.
  intros [E|(pa & priv & Hp & E)] E'; rewrite E in E'.
  - rewrite !walk_zero; done.
  - rewrite (walk_leaf m 2 base va pa priv Hp E). by apply (walk_leaf m' 2 base va pa priv Hp E').
Qed.

Lemma walk_low_ext m m' u va :
  m' (u + 8 * vpn0 va) = m (u + 8 * vpn0 va) → walk m' 0 u va = walk m 0 u va.
Proof. unfold vpn0. intros E. cbn [walk]. change (12 + 9 * Z.of_nat 0) with 12. by rewrite E. Qed.

(** A page from the pool is none of the tables. *)
Lemma fresh_page p t pages rest x a :
  pool_ok p (t :: pages ++ rest) → x ∈ pages → in_page x a → ¬ in_page t a.
Proof.
  intros Hok Hx Ha Ht. unfold in_page in *.
  assert (x ∈ t :: pages ++ rest) as Hx' by (apply list_elem_of_further, elem_of_app; by left).
  destruct (pool_page _ _ x Hok) as [Hx1 _]; [by eapply pool_owned_in|].
  destruct (pool_page _ _ t Hok) as [Ht1 _]; [eapply pool_owned_in; [done|]; apply list_elem_of_here|].
  assert (x = t) as -> by (Z.div_mod_to_equations; lia).
  apply pool_NoDup in Hok. apply NoDup_app in Hok as [[Hn _]%NoDup_cons _].
  apply Hn, elem_of_app. by left.
Qed.

Lemma in_page_entry t i : 0 <= i < 512 → in_page t (t + 8 * i).
Proof. unfold in_page. lia. Qed.

(** Memory after a new table [t] was linked at [pte]. *)
Lemma linked_mem s p t pte v a :
  mem (wr (ClearPage t (with_pool s p)) pte v) a =
  if a =? pte then v else if bool_decide (in_page t a) then 0 else mem s a.
Proof.
  simpl. destruct (a =? pte); [done|]. unfold in_page. case_bool_decide as H.
  - by rewrite (proj2 (Z.leb_le _ _)), (proj2 (Z.ltb_lt _ _)) by lia.
  - destruct (Z.leb_spec t a), (Z.ltb_spec a (t + 4096)); try done. lia.
Qed.

Section grow.
Context (s : KMem) (base : Z) (T : tables) (rest : list Z) (t : Z) (p : PagePool).
Hypothesis Hrep : pt_rep s base T rest.
Hypothesis Hok : pool_ok p (t :: table_pages base T ++ rest).

(** Linking the new table at an entry of the table [x] changes no other
    entry of a table. *)
Lemma linked_old x i v y j :
  x ∈ table_pages base T → y ∈ table_pages base T → 0 <= i < 512 → 0 <= j < 512 →
  (y, j) ≠ (x, i) →
  mem (wr (ClearPage t (with_pool s p)) (x + 8 * i) v) (y + 8 * j) = mem s (y + 8 * j).
Proof.
  intros Hx Hy Hi Hj Hne. rewrite linked_mem. destruct (Z.eqb_spec (y + 8 * j) (x + 8 * i)) as [E|].
  - destruct (entries_apart _ _ _ _ Hrep y x j i); congruence.
  - rewrite bool_decide_eq_false_2; [done|]. eapply fresh_page; [done|exact Hy|].
    by apply in_page_entry.
Qed.

Lemma linked_new x i v j :
  x ∈ table_pages base T → 0 <= i < 512 → 0 <= j < 512 →
  mem (wr (ClearPage t (with_pool s p)) (x + 8 * i) v) (t + 8 * j) = 0.
Proof.
  intros Hx Hi Hj. rewrite linked_mem. destruct (Z.eqb_spec (t + 8 * j) (x + 8 * i)) as [E|].
  - exfalso. eapply (fresh_page p t _ _ x (x + 8 * i)); [done|done|by apply in_page_entry|].
    rewrite <- E. by apply in_page_entry.
  - rewrite bool_decide_eq_true_2; [done|]. by apply in_page_entry.
Qed.

Lemma linked_at x i v : mem (wr (ClearPage t (with_pool s p)) (x + 8 * i) v) (x + 8 * i) = v.
Proof. rewrite linked_mem. by rewrite Z.eqb_refl. Qed.

Definition grow_mid (i : Z) : tables := mkTables (<[i := t]> (mids T)) (lows T).
Definition grow_low (i j : Z) : tables := mkTables (mids T) (<[(i, j) := t]> (lows T)).

Lemma grow_mid_pages i :
  mids T !! i = None → table_pages base (grow_mid i) ≡ₚ t :: table_pages base T.
Proof.
  intros H. unfold table_pages. simpl. rewrite (map_to_list_insert (mids T)) by done.
  simpl. apply Permutation_swap.
Qed.

Lemma grow_low_pages i j :
  lows T !! (i, j) = None → table_pages base (grow_low i j) ≡ₚ t :: table_pages base T.
Proof.
  intros H. unfold table_pages. simpl. rewrite (map_to_list_insert (lows T)) by done.
  simpl. rewrite <- Permutation_middle. apply Permutation_swap.
Qed.

Definition link_mid (i : Z) : KMem :=
  wr (ClearPage t (with_pool s p)) (base + 8 * i) (non_leaf t).
Definition link_low (x j : Z) : KMem :=
  wr (ClearPage t (with_pool s p)) (x + 8 * j) (non_leaf t).

Lemma grow_mid_rep i :
  mids T !! i = None → 0 <= i < 512 → pt_rep (link_mid i) base (grow_mid i) rest.
Proof.
  intros Hi Hr. split; simpl pool.
  - apply (pool_ok_perm _ _ _ Hok). by rewrite grow_mid_pages.
  - intros k Hk. simpl mids. destruct (decide (k = i)) as [->|].
    + rewrite lookup_insert_eq. apply linked_at.
    + rewrite lookup_insert_ne by done. unfold link_mid.
      rewrite linked_old; [apply (pr_root _ _ _ _ Hrep); done|eauto with ptdb..|congruence].
  - intros k x j. simpl mids. simpl lows. destruct (decide (k = i)) as [->|].
    + rewrite lookup_insert_eq. intros [= <-] Hj. destruct (lows T !! (i, j)) as [u|] eqn:E.
      * apply (pr_closed _ _ _ _ Hrep) in E as [? E]. congruence.
      * apply linked_new; eauto with ptdb.
    + rewrite lookup_insert_ne by done. intros Hx Hj. unfold link_mid.
      rewrite linked_old; [by apply (pr_mid _ _ _ _ Hrep)|eauto with ptdb..|].
      intros [= -> _]. by eapply (mid_not_root s base T rest).
  - intros k j u l Hu Hl. unfold link_mid. simpl lows in Hu.
    rewrite linked_old; [by eapply (pr_low _ _ _ _ Hrep)|eauto with ptdb..|].
    intros [= -> _]. by eapply (low_not_root s base T rest).
  - intros k j u Hu. simpl in *. apply (pr_closed _ _ _ _ Hrep) in Hu as [x Hx].
    destruct (decide (k = i)) as [->|]; [congruence|]. rewrite lookup_insert_ne by done. eauto.
  - intros k x. simpl. destruct (decide (k = i)) as [->|]; [done|].
    rewrite lookup_insert_ne by done. apply (pr_idx1 _ _ _ _ Hrep).
  - simpl. apply (pr_idx2 _ _ _ _ Hrep).
Qed.

Lemma grow_low_rep i j x :
  mids T !! i = Some x → lows T !! (i, j) = None → 0 <= j < 512 →
  pt_rep (link_low x j) base (grow_low i j) rest.
Proof.
  intros Hx Hij Hr. split; simpl pool.
  - apply (pool_ok_perm _ _ _ Hok). by rewrite grow_low_pages.
  - intros k Hk. simpl mids. unfold link_low.
    rewrite linked_old; [apply (pr_root _ _ _ _ Hrep); done|eauto with ptdb..|].
    intros [= <- _]. by eapply (mid_not_root s base T rest).
  - intros k y l. simpl mids. simpl lows. intros Hy Hl. destruct (decide ((k, l) = (i, j))) as [E|Hne].
    + rewrite E, lookup_insert_eq. injection E as -> ->. simplify_eq. apply linked_at.
    + rewrite lookup_insert_ne by done. unfold link_low.
      rewrite linked_old; [by apply (pr_mid _ _ _ _ Hrep)|eauto with ptdb..|].
      intros [= -> ->]. by rewrite (mids_inj _ _ _ _ Hrep k i x) in Hne.
  - intros k l u q. simpl lows. intros Hu Hq. destruct (decide ((k, l) = (i, j))) as [E|Hne].
    + rewrite E, lookup_insert_eq in Hu. simplify_eq. left. apply linked_new; eauto with ptdb.
    + rewrite lookup_insert_ne in Hu by done. unfold link_low.
      rewrite linked_old; [by eapply (pr_low _ _ _ _ Hrep)|eauto with ptdb..|].
      intros [= -> ->]. by eapply (low_not_mid s base T rest).
  - intros k l u. simpl. destruct (decide ((k, l) = (i, j))) as [E|Hne].
    + rewrite E. injection E as -> ->. eauto.
    + rewrite lookup_insert_ne by done. apply (pr_closed _ _ _ _ Hrep).
  - simpl. apply (pr_idx1 _ _ _ _ Hrep).
  - intros k l u. simpl. destruct (decide ((k, l) = (i, j))) as [E|Hne].
    + injection E as -> ->. done.
    + rewrite lookup_insert_ne by done. apply (pr_idx2 _ _ _ _ Hrep).
Qed.

End grow.

Lemma wr_at s a v : mem (wr s a v) a = v.
Proof. simpl. by rewrite Z.eqb_refl. Qed.

Lemma wr_ne s a b v : b ≠ a → mem (wr s a v) b = mem s b.
Proof. intros H. simpl. by rewrite (proj2 (Z.eqb_neq _ _) H). Qed.

Section views.
Context (s : KMem) (base : Z) (T : tables) (rest : list Z).
Hypothesis Hrep : pt_rep s base T rest.

Lemma grow_mid_view t p i va :
  pool_ok p (t :: table_pages base T ++ rest) →
  mids T !! i = None → 0 <= i < 512 → mem s (base + 8 * i) = 0 →
  view (link_mid s base t p i) base (grow_mid T t i) va = view s base T va.
Proof.
  intros Hok Hi Hr H0. unfold view. simpl mids. simpl lows. destruct (decide (vpn2 va = i)) as [<-|Hne].
  - rewrite lookup_insert_eq, Hi.
    destruct (lows T !! (vpn2 va, vpn1 va)) as [u|] eqn:E.
    { apply (pr_closed _ _ _ _ Hrep) in E as [? E]. congruence. }
    symmetry. by apply walk_zero.
  - rewrite lookup_insert_ne by done. pose proof (pr_root _ _ _ _ Hrep (vpn2 va) (vpn_range _)) as Hx.
    destruct (mids T !! vpn2 va) as [x|] eqn:Ex.
    + destruct (lows T !! (vpn2 va, vpn1 va)) as [u|] eqn:Eu; [|done].
      apply walk_low_ext. unfold link_mid. eapply linked_old; eauto using vpn_range with ptdb.
      intros [= -> _]. by eapply (low_not_root s base T rest).
    + apply walk_root_ext; [done|]. unfold link_mid.
      eapply linked_old; eauto using vpn_range with ptdb. congruence.
Qed.

Lemma grow_low_view t p i j x va :
  pool_ok p (t :: table_pages base T ++ rest) →
  mids T !! i = Some x → lows T !! (i, j) = None → 0 <= j < 512 →
  view (link_low s t p x j) base (grow_low T t i j) va = view s base T va.
Proof.
  intros Hok Hx Hij Hr. unfold view. simpl mids. simpl lows.
  pose proof (pr_root _ _ _ _ Hrep (vpn2 va) (vpn_range _)) as Hv.
  destruct (mids T !! vpn2 va) as [y|] eqn:Ey.
  - destruct (decide ((vpn2 va, vpn1 va) = (i, j))) as [E|Hne].
    + rewrite E, lookup_insert_eq, Hij. apply walk_zero. eapply linked_new; eauto using vpn_range with ptdb.
    + rewrite lookup_insert_ne by done.
      destruct (lows T !! (vpn2 va, vpn1 va)) as [u|] eqn:Eu; [|done].
      apply walk_low_ext. eapply linked_old; eauto using vpn_range with ptdb.
      intros [= -> _]. by eapply (low_not_mid s base T rest).
  - apply walk_root_ext; [done|]. eapply linked_old; eauto using vpn_range with ptdb.
    intros [= <- _]. by eapply (mid_not_root s base T rest).
Qed.

(** Writing an entry of a third-level table, or a root entry without table. *)
Lemma set_low_rep i j u k e :
  lows T !! (i, j) = Some u → 0 <= k < 512 → leaf_or_empty e →
  pt_rep (wr s (u + 8 * k) e) base T rest.
Proof.
  intros Hu Hk He. assert (∀ y l, y ∈ table_pages base T → 0 <= l < 512 → (y, l) ≠ (u, k) →
    mem (wr s (u + 8 * k) e) (y + 8 * l) = mem s (y + 8 * l)) as Hold.
  { intros y l Hy Hl Hne. apply wr_ne. intros E.
    destruct (entries_apart _ _ _ _ Hrep y u l k); eauto with ptdb. congruence. }
  split; try apply Hrep.
  - intros l Hl. rewrite Hold; [by apply (pr_root _ _ _ _ Hrep)|eauto with ptdb..|].
    intros [= <- _]. by eapply (low_not_root s base T rest).
  - intros l y q Hy Hq. rewrite Hold; [by apply (pr_mid _ _ _ _ Hrep)|eauto with ptdb..|].
    intros [= <- _]. by eapply (low_not_mid s base T rest).
  - intros a b y l Hy Hl. destruct (decide ((y, l) = (u, k))) as [[= -> ->]|Hne].
    + by rewrite wr_at.
    + rewrite Hold; [by eapply (pr_low _ _ _ _ Hrep)|eauto with ptdb..|done].
Qed.

Lemma set_root_rep i e :
  mids T !! i = None → 0 <= i < 512 → leaf_or_empty e → pt_rep (wr s (base + 8 * i) e) base T rest.
Proof.
  intros Hi Hr He. assert (∀ y l, y ∈ table_pages base T → 0 <= l < 512 → (y, l) ≠ (base, i) →
    mem (wr s (base + 8 * i) e) (y + 8 * l) = mem s (y + 8 * l)) as Hold.
  { intros y l Hy Hl Hne. apply wr_ne. intros E.
    destruct (entries_apart _ _ _ _ Hrep y base l i); eauto with ptdb. congruence. }
  split; try apply Hrep.
  - intros l Hl. destruct (decide (l = i)) as [->|].
    + by rewrite Hi, wr_at.
    + rewrite Hold; [by apply (pr_root _ _ _ _ Hrep)|eauto with ptdb..|congruence].
  - intros l y q Hy Hq. rewrite Hold; [by apply (pr_mid _ _ _ _ Hrep)|eauto with ptdb..|].
    intros [= -> _]. by eapply (mid_not_root s base T rest).
  - intros a b y l Hy Hl. rewrite Hold; [by eapply (pr_low _ _ _ _ Hrep)|eauto with ptdb..|].
    intros [= -> _]. by eapply (low_not_root s base T rest).
Qed.

Lemma set_low_view i j u k e va :
  lows T !! (i, j) = Some u → 0 <= k < 512 →
  view (wr s (u + 8 * k) e) base T va =
  if decide (vpn2 va = i ∧ vpn1 va = j ∧ vpn0 va = k)
  then walk (λ _, e) 0 u va else view s base T va.
Proof.
  intros Hu Hk. unfold view. pose proof (pr_root _ _ _ _ Hrep (vpn2 va) (vpn_range _)) as Hv.
  case_decide as Hd.
  - destruct Hd as (-> & -> & Hk'). destruct (pr_closed _ _ _ _ Hrep _ _ _ Hu) as [x ->].
    rewrite Hu. apply walk_low_ext. by rewrite Hk', wr_at.
  - destruct (mids T !! vpn2 va) as [y|] eqn:Ey.
    + destruct (lows T !! (vpn2 va, vpn1 va)) as [w|] eqn:Ew; [|done].
      apply walk_low_ext, wr_ne. intros E.
      destruct (entries_apart _ _ _ _ Hrep w u (vpn0 va) k) as [-> Hk0];
        eauto using vpn_range with ptdb.
      pose proof (lows_inj _ _ _ _ Hrep _ _ _ Ew Hu). apply Hd. by simplify_eq.
    + apply walk_root_ext; [done|]. apply wr_ne. intros E.
      destruct (entries_apart _ _ _ _ Hrep base u (vpn2 va) k) as [-> _]; eauto using vpn_range with ptdb.
      by eapply (low_not_root s u T rest).
Qed.

Lemma set_root_view i e va :
  mids T !! i = None → 0 <= i < 512 → leaf_or_empty e →
  view (wr s (base + 8 * i) e) base T va =
  if decide (vpn2 va = i) then walk (λ _, e) 2 base va else view s base T va.
Proof.
  intros Hi Hr He. unfold view. pose proof (pr_root _ _ _ _ Hrep (vpn2 va) (vpn_range _)) as Hv.
  case_decide as Hd.
  - subst i. rewrite Hi. apply (walk_root_ext (λ _, e)); [done|]. by rewrite wr_at.
  - destruct (mids T !! vpn2 va) as [y|] eqn:Ey.
    + destruct (lows T !! (vpn2 va, vpn1 va)) as [w|] eqn:Ew; [|done].
      apply walk_low_ext, wr_ne. intros E.
      destruct (entries_apart _ _ _ _ Hrep w base (vpn0 va) i) as [-> _]; eauto using vpn_range with ptdb.
      by eapply (low_not_root s base T rest).
    + apply walk_root_ext; [done|]. apply wr_ne. lia.
Qed.

End views.

(** * CreateMapping *)

Definition nfree (s : KMem) : nat := length (free_pages (pool s)).

(** [s'] has the tables of [s] and at most [n] new, empty ones, below the root
    entry [r]; nothing else changed. *)
Record extends (n : nat) (r base : Z) (rest : list Z) (s : KMem) (T : tables) (s' : KMem) (T' : tables)
    : Prop := mkExtends {
  ex_rep : pt_rep s' base T' rest;
  ex_view va : view s' base T' va = view s base T va;
  ex_pages t : t ∈ table_pages base T → t ∈ table_pages base T';
  ex_frame : frame_out (table_pages base T') s s';
  ex_free : (nfree s <= nfree s' + n)%nat;
  ex_mids i t : mids T !! i = Some t → mids T' !! i = Some t;
  ex_root k : 0 <= k < 512 → k ≠ r → mem s' (base + 8 * k) = mem s (base + 8 * k);
  ex_all : all_pages (pool s') = all_pages (pool s)
}.

Lemma extends_refl r base rest s T : pt_rep s base T rest → extends 0 r base rest s T s T.
Proof. intros H. split; auto; [done|lia]. Qed.

Lemma extends_trans n m r base rest s T s1 T1 s2 T2 :
  extends n r base rest s T s1 T1 → extends m r base rest s1 T1 s2 T2 →
  extends (n + m) r base rest s T s2 T2.
Proof.
  intros [R1 V1 P1 F1 N1 M1 K1 A1] [R2 V2 P2 F2 N2 M2 K2 A2]. split; auto.
  - intros va. by rewrite V2.
  - intros a Ha. rewrite (F2 a Ha). apply F1. auto.
  - lia.
  - intros k Hk Hr. rewrite K2, K1 by done. done.
  - congruence.
Qed.

Lemma linked_frame s t p x i v pages :
  0 <= i < 512 → x ∈ pages → t ∈ pages →
  frame_out pages s (wr (ClearPage t (with_pool s p)) (x + 8 * i) v).
Proof.
  intros Hi Hx Ht a Ha. rewrite linked_mem. destruct (Z.eqb_spec a (x + 8 * i)) as [->|].
  - destruct (Ha x Hx). by apply in_page_entry.
  - rewrite bool_decide_eq_false_2; [done|]. by apply Ha.
Qed.

(** A new page [t] for a table, with what the pool says of it. *)
Lemma GetClearPage_spec s owned :
  pool_ok (pool s) owned →
  (GetClearPage s = Panic ∧ nfree s = 0%nat) ∨
  ∃ t p, GetClearPage s = Done (t, ClearPage t (with_pool s p)) ∧ pool_ok p (t :: owned) ∧
    length (free_pages (pool s)) = S (length (free_pages p)) ∧ all_pages p = all_pages (pool s).
Proof.
  intros Hok. unfold GetClearPage, nfree.
  destruct (alloc_page_spec _ _ Hok) as [[Hf E]|(t & p & E & Hf & Hp & Ha)]; rewrite E; simpl.
  - left. by rewrite Hf.
  - right. exists t, p. rewrite Hf, length_app. simpl. split_and!; auto. lia.
Qed.

Section descend.
Context (base : Z) (rest : list Z) (priv : PRIVILEGE_LEVEL) (s : KMem) (T : tables).
Hypothesis Hrep : pt_rep s base T rest.

Lemma descend_root i :
  0 <= i < 512 →
  match descend (entry_at base i) priv s with
  | Done (t, s') => ∃ T', extends 1 i base rest s T s' T' ∧ mids T' !! i = Some t
  | Panic => is_leaf (mem s (base + 8 * i)) = true ∨ nfree s = 0%nat
  | _ => False
  end.
Proof.
  intros Hi. unfold descend. rewrite (table_entry_at s base T rest Hrep) by eauto with ptdb.
  pose proof (pr_root _ _ _ _ Hrep i Hi) as Hr. destruct (mids T !! i) as [t|] eqn:Et.
  - destruct (table_page_ok _ _ _ _ Hrep t) as [Ht1 Ht2]; [eauto with ptdb|].
    destruct (non_leaf_step t) as (H1 & H2 & H3); [lia|done|]. rewrite Hr, H1, H2, H3.
    cbn iota. exists T. split; [|done]. pose proof (extends_refl i _ _ _ _ Hrep) as []. split; auto. lia.
  - destruct Hr as [H0|(pa & pr & Hp & E)].
    + rewrite H0. simpl.
      destruct (GetClearPage_spec s _ (pr_pool _ _ _ _ Hrep)) as [[-> Hn]|(t & p & -> & Hok & Hlen & Hall)];
        simpl; [auto|]. exists (grow_mid T t i).
      change (Z.lor (calc_ppn t) (non_leaf_attributes priv)) with (non_leaf t).
      fold (link_mid s base t p i). split; [|apply lookup_insert_eq]. split.
      * by apply grow_mid_rep.
      * intros va. by apply (grow_mid_view _ _ _ rest).
      * intros x. rewrite grow_mid_pages by done. apply list_elem_of_further.
      * apply linked_frame; auto with ptdb. apply (mid_page _ _ i), lookup_insert_eq.
      * unfold nfree. simpl. lia.
      * intros k x Hk. simpl. rewrite lookup_insert_ne; congruence.
      * intros k Hk Hne. eapply linked_old; eauto with ptdb. congruence.
      * done.
    + destruct (leaf_step pa pr Hp) as (H1 & H2 & _). rewrite E, H1, H2. by left.
Qed.

Lemma descend_mid i j x :
  mids T !! i = Some x → 0 <= j < 512 →
  match descend (entry_at x j) priv s with
  | Done (u, s') => ∃ T', extends 1 i base rest s T s' T' ∧ lows T' !! (i, j) = Some u
  | Panic => nfree s = 0%nat
  | _ => False
  end.
Proof.
  intros Hx Hj. unfold descend. rewrite (table_entry_at s base T rest Hrep) by eauto with ptdb.
  pose proof (pr_mid _ _ _ _ Hrep i x j Hx Hj) as Hr. destruct (lows T !! (i, j)) as [t|] eqn:Et.
  - destruct (table_page_ok _ _ _ _ Hrep t) as [Ht1 Ht2]; [eauto with ptdb|].
    destruct (non_leaf_step t) as (H1 & H2 & H3); [lia|done|]. rewrite Hr, H1, H2, H3.
    cbn iota. exists T. split; [|done]. pose proof (extends_refl i _ _ _ _ Hrep) as []. split; auto. lia.
  - rewrite Hr. simpl.
    destruct (GetClearPage_spec s _ (pr_pool _ _ _ _ Hrep)) as [[-> Hn]|(t & p & -> & Hok & Hlen & Hall)];
      simpl; [auto|]. exists (grow_low T t i j).
    change (Z.lor (calc_ppn t) (non_leaf_attributes priv)) with (non_leaf t).
    fold (link_low s t p x j). split; [|apply lookup_insert_eq]. split.
    + by apply grow_low_rep.
    + intros va. by apply (grow_low_view _ _ _ rest).
    + intros y. rewrite grow_low_pages by done. apply list_elem_of_further.
    + apply linked_frame; auto with ptdb.
      * apply (mid_page _ (grow_low T t i j) i). done.
      * apply (low_page _ _ (i, j)), lookup_insert_eq.
    + unfold nfree. simpl. lia.
    + done.
    + intros k Hk _. eapply linked_old; eauto with ptdb.
      intros [= <- _]. by eapply (mid_not_root s base T rest).
    + done.
Qed.

End descend.

Lemma aligned_base_ok base : base mod 4096 = 0 → check_table_base base = Done tt.
Proof.
  intros H. unfold check_table_base. change 7 with (Z.ones 3) at 1. rewrite Z.land_ones by lia.
  replace (base mod 2 ^ 3) with 0 by (Z.div_mod_to_equations; lia). done.
Qed.

Lemma not_null va pa : 0x1000 <= va → check_null va pa = Done tt.
Proof. intros H. unfold check_null. by rewrite (proj2 (Z.ltb_ge va 0x1000)), andb_false_r by lia. Qed.

Lemma low_canonical va : 0 <= va < 2 ^ 38 → canonical va = true.
Proof.
  intros H. unfold canonical. rewrite (proj2 (Z.leb_le _ _)), (proj2 (Z.ltb_lt va (2 ^ 38))) by lia. done.
Qed.

(** The address space after mapping one page: an existing mapping stays. *)
Definition map_page (tr : Z → option (Z * Z)) (va pa : Z) (priv : PRIVILEGE_LEVEL) (va' : Z)
    : option (Z * Z) :=
  if decide (va' / 4096 = va / 4096) then
    match tr va' with
    | Some r => Some r
    | None => Some (pa / 4096 * 4096 + va' mod 4096, leaf_attributes priv)
    end
  else tr va'.

(** What [CreateMapping] promises of a 4 KiB mapping. *)
Record page_mapped (base va pa : Z) (priv : PRIVILEGE_LEVEL) (rest : list Z)
    (s : KMem) (T : tables) (s' : KMem) (T' : tables) : Prop := mkPageMapped {
  pm_rep : pt_rep s' base T' rest;
  pm_translate va' :
    translate (mem s') base va' = map_page (translate (mem s) base) va pa priv va';
  pm_pages t : t ∈ table_pages base T → t ∈ table_pages base T';
  pm_frame : frame_out (table_pages base T') s s';
  pm_free : (nfree s <= nfree s' + 2)%nat;
  pm_root k : 0 <= k < 512 → k ≠ vpn2 va → mem s' (base + 8 * k) = mem s (base + 8 * k);
  pm_root_va : is_leaf (mem s' (base + 8 * vpn2 va)) = false;
  pm_all : all_pages (pool s') = all_pages (pool s)
}.

(** The last step of [CreateMapping], on the third-level table. *)
Lemma set_leaf_spec s base T rest va pa priv u :
  pt_rep s base T rest → 0x1000 <= va < 2 ^ 38 → 0 <= pa < 2 ^ 56 →
  lows T !! (vpn2 va, vpn1 va) = Some u →
  let s' := if mem s (u + 8 * vpn0 va) =? 0 then wr s (u + 8 * vpn0 va) (leaf pa priv) else s in
  page_mapped base va pa priv rest s T s' T.
Proof.
  intros Hrep Hva Hpa Hu. pose proof (leaf_step pa priv Hpa) as (L1 & _).
  assert (∀ va', canonical va' = true → va' / 4096 = va / 4096 →
    view s base T va' = walk (mem s) 0 u va') as Hview.
  { intros va' Hc E. apply page_vpns in E as (E2 & E1 & E0). unfold view. rewrite E2, E1, Hu.
    by destruct (pr_closed _ _ _ _ Hrep _ _ _ Hu) as [x ->]. }
  destruct (pr_closed _ _ _ _ Hrep _ _ _ Hu) as [x Hx].
  assert (∀ k, 0 <= k < 512 → base + 8 * k ≠ u + 8 * vpn0 va) as Hroot.
  { intros k Hk E. destruct (entries_apart _ _ _ _ Hrep base u k (vpn0 va)) as [-> _];
      eauto using vpn_range with ptdb. by eapply (low_not_root s u T rest). }
  destruct (Z.eqb_spec (mem s (u + 8 * vpn0 va)) 0) as [H0|Hn]; simpl.
  - assert (leaf_or_empty (leaf pa priv)) as Hle by (right; by exists pa, priv).
    assert (pt_rep (wr s (u + 8 * vpn0 va) (leaf pa priv)) base T rest) as Hr
      by (eapply set_low_rep; eauto using vpn_range).
    split; [done| |done| |simpl; unfold nfree; simpl; lia| | |done].
    + intros va'. unfold map_page. rewrite (translate_view _ _ _ _ Hr), !(translate_view _ _ _ _ Hrep).
      destruct (canonical va') eqn:Hc; [|case_decide as E; [|done]].
      2:{ rewrite low_canonical in Hc; [done|]. Z.div_mod_to_equations. lia. }
      rewrite (set_low_view _ _ _ _ Hrep (vpn2 va) (vpn1 va)) by (done || apply vpn_range).
      case_decide as Ha; case_decide as Hb.
      * rewrite Hview, (walk_zero (mem s)) by (done || by rewrite <- H0; destruct Ha as (_ & _ & <-)).
        rewrite (walk_leaf _ 0 u va' pa priv Hpa) by done. simpl. by rewrite Z.mod_1_r.
      * destruct Hb. destruct Ha as (A2 & A1 & A0). apply same_page; auto. lia.
      * destruct Ha. by apply page_vpns.
      * done.
    + intros a Ha. apply wr_ne. intros ->. apply (Ha u); [eauto with ptdb|]. apply in_page_entry, vpn_range.
    + intros k Hk _. apply wr_ne, Hroot. lia.
    + rewrite wr_ne by (apply Hroot, vpn_range). apply (root_not_leaf _ _ _ _ Hrep _ _ Hx).
  - split; [done| |done|done|lia|done|by apply (root_not_leaf _ _ _ _ Hrep _ _ Hx)|done].
    intros va'. unfold map_page. case_decide as E; [|done].
    rewrite (translate_view _ _ _ _ Hrep). pose proof E as (E2 & E1 & E0)%page_vpns.
    assert (canonical va' = true) as Hc by (apply low_canonical; Z.div_mod_to_equations; lia).
    rewrite Hc, Hview by done.
    destruct (pr_low _ _ _ _ Hrep _ _ _ (vpn0 va) Hu (vpn_range _)) as [?|(pa' & pr' & Hp' & E')]; [done|].
    rewrite (walk_leaf _ 0 u va' pa' pr' Hp'); [simpl; by rewrite Z.mod_1_r|].
    rewrite <- E'. by rewrite <- E0.
Qed.

Lemma create_small s base T rest va pa priv :
  pt_rep s base T rest → 0x1000 <= va < 2 ^ 38 → 0 <= pa < 2 ^ 56 →
  match CreateMapping base va pa SMALL priv s with
  | Done s' => ∃ T', page_mapped base va pa priv rest s T s' T'
  | Panic => is_leaf (mem s (base + 8 * vpn2 va)) = true ∨ (nfree s < 2)%nat
  | _ => False
  end.
Proof.
  intros Hrep Hva Hpa. destruct (table_page_ok _ _ _ _ Hrep base (root_page _ _)) as [Hb _].
  unfold CreateMapping. rewrite not_null, aligned_base_ok by (done || lia). cbn [obind].
  rewrite andb_false_r, get_ppn1_eq, get_ppn2_eq, get_ppn3_eq.
  pose proof (descend_root base rest priv s T Hrep (vpn2 va) (vpn_range _)) as Hd.
  destruct (descend _ priv s) as [[t s1]| | |]; cbn [obind]; try done; [|intuition lia].
  destruct Hd as (T1 & X1 & Ht). pose proof (ex_rep _ _ _ _ _ _ _ _ X1) as R1.
  pose proof (descend_mid base rest priv s1 T1 R1 _ (vpn1 va) t Ht (vpn_range _)) as Hd.
  destruct (descend _ priv s1) as [[u s2]| | |]; cbn [obind]; try done.
  2:{ pose proof (ex_free _ _ _ _ _ _ _ _ X1). right. lia. }
  destruct Hd as (T2 & X2 & Hu). pose proof (extends_trans _ _ _ _ _ _ _ _ _ _ _ X1 X2) as X.
  pose proof (ex_rep _ _ _ _ _ _ _ _ X) as R2.
  rewrite (table_entry_at _ _ _ _ R2) by eauto using vpn_range with ptdb.
  destruct (set_leaf_spec s2 base T2 rest va pa priv u R2 Hva Hpa Hu) as [P1 P2 P3 P4 P5 P6 P7 P8].
  fold (leaf pa priv). exists T2. destruct X as [_ V P F N _ K A]. split; auto.
  - intros va'. rewrite P2. unfold map_page.
    by rewrite !(translate_view _ _ _ _ R2), !(translate_view _ _ _ _ Hrep), V.
  - intros a Ha. rewrite (P4 a Ha). by apply F.
  - destruct (mem s2 _ =? 0); unfold nfree in *; simpl in *; lia.
  - intros k Hk Hne. rewrite P6, K by done. done.
  - congruence.
Qed.
