(* ===== verification/KPageTableSpec.v ===== *)
(** Properties of the page tables: what a mapping does to the address space,
    the mappings every address space starts with, and unmapping. *)
From Stdlib Require Import ZArith Lia.
From stdpp Require Import base list numbers option gmap.
From S2P Require Import Prelude KBase KPages KPageTable.

Local Open Scope Z_scope.
Local Open Scope out_scope.

Definition no_tables : tables := mkTables ∅ ∅.

(** A page fresh from [GetClearPage] is an empty address space. *)
Lemma fresh_root s rest base s' :
  pool_ok (pool s) rest → GetClearPage s = Done (base, s') →
  pt_rep s' base no_tables rest ∧ (∀ i, 0 <= i < 512 → mem s' (base + 8 * i) = 0) ∧
  nfree s = S (nfree s').
Proof.
  intros Hok E. destruct (GetClearPage_spec s rest Hok) as [[E' _]|(t & p & E' & Hp & Hlen & _)];
    [congruence|]. rewrite E in E'. injection E' as -> ->.
  assert (∀ i, 0 <= i < 512 → mem (ClearPage t (with_pool s p)) (t + 8 * i) = 0) as H0.
  { intros i Hi. simpl. by rewrite (proj2 (Z.leb_le _ _)), (proj2 (Z.ltb_lt _ _)) by lia. }
  split; [|split; [done|exact Hlen]]. split; simpl; try done.
  intros i Hi. rewrite lookup_empty. left. by apply H0.
Qed.

Lemma translate_empty s base rest va :
  pt_rep s base no_tables rest → (∀ i, 0 <= i < 512 → mem s (base + 8 * i) = 0) →
  translate (mem s) base va = None.
Proof.
  intros Hrep H0. rewrite (translate_view _ _ _ _ Hrep). destruct (canonical va); [|done].
  unfold view. simpl mids. rewrite lookup_empty. apply walk_zero, H0, vpn_range.
Qed.

(** The address space after a 1 GiB mapping. *)
Definition map_giga (tr : Z → option (Z * Z)) (va pa : Z) (priv : PRIVILEGE_LEVEL) (va' : Z)
    : option (Z * Z) :=
  if decide (va' / 2 ^ 30 = va / 2 ^ 30) then Some (pa + va' mod 2 ^ 30, leaf_attributes priv)
  else tr va'.

Lemma create_large s base T rest va pa priv :
  pt_rep s base T rest → 0x1000 <= va < 2 ^ 38 → 0 <= pa < 2 ^ 56 → pa mod 2 ^ 30 = 0 →
  mem s (base + 8 * vpn2 va) = 0 →
  ∃ s', CreateMapping base va pa LARGE priv s = Done s' ∧ pt_rep s' base T rest ∧
    nfree s' = nfree s ∧
    (∀ va', translate (mem s') base va' = map_giga (translate (mem s) base) va pa priv va') ∧
    (∀ k, 0 <= k < 512 → k ≠ vpn2 va → mem s' (base + 8 * k) = mem s (base + 8 * k)) ∧
    pool s' = pool s ∧ ∀ x, ¬ in_page base x → mem s' x = mem s x.
Proof.
  intros Hrep Hva Hpa Hal H0. destruct (table_page_ok _ _ _ _ Hrep base (root_page _ _)) as [Hb ?].
  unfold CreateMapping. rewrite not_null, aligned_base_ok by (done || lia). cbn [obind].
  rewrite get_ppn1_eq, (table_entry_at _ _ _ _ Hrep), H0 by eauto using vpn_range with ptdb.
  cbn [Z.eqb andb]. fold (leaf pa priv). eexists. split; [done|].
  assert (mids T !! vpn2 va = None) as Hm.
  { pose proof (pr_root _ _ _ _ Hrep (vpn2 va) (vpn_range _)) as Hr.
    destruct (mids T !! vpn2 va) as [t|] eqn:E; [|done]. rewrite H0 in Hr.
    destruct (table_page_ok _ _ _ _ Hrep t) as [? ?]; [eauto with ptdb|].
    destruct (non_leaf_step t) as (Q1 & _); [lia|done|]. by rewrite <- Hr in Q1. }
  assert (leaf_or_empty (leaf pa priv)) as Hle by (right; by exists pa, priv).
  assert (pt_rep (wr s (base + 8 * vpn2 va) (leaf pa priv)) base T rest) as Hr
    by (apply set_root_rep; eauto using vpn_range).
  split; [done|]. split; [done|]. split.
  - intros va'. unfold map_giga. rewrite (translate_view _ _ _ _ Hr), (translate_view _ _ _ _ Hrep).
    destruct (canonical va') eqn:Hc.
    2:{ case_decide as E; [|done]. rewrite low_canonical in Hc; [done|].
        Z.div_mod_to_equations. lia. }
    rewrite (set_root_view _ _ _ _ Hrep) by eauto using vpn_range.
    assert (vpn2 va' = vpn2 va ↔ va' / 2 ^ 30 = va / 2 ^ 30) as Hiff.
    { unfold vpn2. unfold canonical in Hc. split; [|by intros ->].
      apply orb_true_iff in Hc as [Hc|Hc]; apply andb_true_iff in Hc as [Hc1 Hc2];
        zb; Z.div_mod_to_equations; lia. }
    case_decide as Ha; case_decide as Hb'; [|tauto|tauto|done].
    rewrite (walk_leaf _ 2 base va' pa priv Hpa) by done.
    change (12 + 9 * Z.of_nat 2) with 30. change (2 ^ 30 / 4096) with (2 ^ 18).
    rewrite (proj2 (Z.eqb_eq _ _)) by (Z.div_mod_to_equations; lia).
    do 2 f_equal. Z.div_mod_to_equations. lia.
  - split; [intros k Hk Hne; apply wr_ne; lia|]. split; [done|]. intros x Hx. apply wr_ne. intros ->.
    apply Hx, in_page_entry, vpn_range.
Qed.

(** * The initial address space *)

Definition kernel_map (g : Globals) (va : Z) : option (Z * Z) :=
  if decide (va / 4096 = 0x38001) then Some (va, 0xcf)
  else if decide (va / 2 ^ 30 = 1) then Some (va, 0xcf)
  else if decide (va / 2 ^ 30 = 2) then Some (va, 0xdf)
  else if decide (va / 4096 = 0x200000) then Some (fast_syscall_page g + va mod 4096, 0xdf)
  else if decide (va / 4096 = 0x300000) then Some (vdso_text_page g + va mod 4096, 0xdf)
  else if decide (va / 4096 = 0x300001) then Some (vdso_data_page g + va mod 4096, 0xdf)
  else None.

Definition page_addr (a : Z) : Prop := 0 <= a < 2 ^ 56 ∧ a mod 4096 = 0.
Definition globals_ok (g : Globals) : Prop :=
  page_addr (fast_syscall_page g) ∧ page_addr (vdso_text_page g) ∧ page_addr (vdso_data_page g).

(** [create_small] where the call cannot panic. *)
Lemma create_small_done s base T rest va pa priv :
  pt_rep s base T rest → 0x1000 <= va < 2 ^ 38 → 0 <= pa < 2 ^ 56 →
  is_leaf (mem s (base + 8 * vpn2 va)) = false → (2 <= nfree s)%nat →
  ∃ s' T', CreateMapping base va pa SMALL priv s = Done s' ∧
    page_mapped base va pa priv rest s T s' T'.
Proof.
  intros Hrep Hva Hpa Hl Hn. pose proof (create_small s base T rest va pa priv Hrep Hva Hpa) as H.
  destruct (CreateMapping base va pa SMALL priv s) as [s'| | |]; try done.
  - destruct H as [T' H]. eauto.
  - destruct H as [H|H]; [congruence|lia].
Qed.

Lemma init_pageTable_spec g s base rest :
  globals_ok g → pt_rep s base no_tables rest →
  (∀ i, 0 <= i < 512 → mem s (base + 8 * i) = 0) → (8 <= nfree s)%nat →
  ∃ s' T', init_pageTable g base s = Done s' ∧ pt_rep s' base T' rest ∧
    (∀ va, translate (mem s') base va = kernel_map g va) ∧
    (∀ k, k = 0 ∨ 3 <= k < 512 → is_leaf (mem s' (base + 8 * k)) = false) ∧
    (nfree s <= nfree s' + 8)%nat ∧ all_pages (pool s') = all_pages (pool s) ∧
    frame_out (table_pages base T') s s'.
Proof.
  intros ((F1 & F2) & (X1 & X2) & (D1 & D2)) Hrep H0 Hn. unfold init_pageTable.
  assert (is_leaf 0 = false) as L0 by done.
  destruct (create_small_done s base _ rest 0x38001000 0x38001000 SUPERVISOR Hrep)
    as (s1 & T1 & -> & [R1 M1 P1 O1 N1 K1 E1 A1]); [lia|lia|by rewrite H0 by apply vpn_range|lia|].
  cbn [obind]. change (vpn2 0x38001000) with 0 in *.
  destruct (create_large s1 base T1 rest 0x40000000 0x40000000 SUPERVISOR R1)
    as (s2 & -> & R2 & N2 & M2 & K2 & A2 & O2); [lia|lia|done|rewrite K1, H0; done|].
  cbn [obind]. change (vpn2 0x40000000) with 1 in *.
  destruct (create_large s2 base T1 rest 0x80000000 0x80000000 USER R2)
    as (s3 & -> & R3 & N3 & M3 & K3 & A3 & O3); [lia|lia|done|rewrite K2, K1, H0; done|].
  cbn [obind]. change (vpn2 0x80000000) with 2 in *.
  assert (∀ k, 3 <= k < 512 → mem s3 (base + 8 * k) = 0) as Z3.
  { intros k Hk. rewrite K3, K2, K1, H0 by lia. done. }
  destruct (create_small_done s3 base T1 rest 0x200000000 (fast_syscall_page g) USER R3)
    as (s4 & T4 & -> & [R4 M4 P4 O4 N4 K4 E4 A4]); [lia|lia|by rewrite Z3|lia|].
  cbn [obind]. change (vpn2 0x200000000) with 8 in *.
  destruct (create_small_done s4 base T4 rest 0x300000000 (vdso_text_page g) USER R4)
    as (s5 & T5 & -> & [R5 M5 P5 O5 N5 K5 E5 A5]); [lia|lia|by rewrite K4, Z3|lia|].
  cbn [obind]. change (vpn2 0x300000000) with 12 in *.
  destruct (create_small_done s5 base T5 rest 0x300001000 (vdso_data_page g) USER R5)
    as (s6 & T6 & -> & [R6 M6 P6 O6 N6 K6 E6 A6]); [lia|lia|done|lia|].
  change (vpn2 0x300001000) with 12 in *. exists s6, T6. split; [done|]. split; [done|]. split; [|split; [|split; [lia|split]]].
  - intros va. rewrite M6. unfold map_page. rewrite M5. unfold map_page. rewrite M4. unfold map_page.
    rewrite M3. unfold map_giga. rewrite M2. unfold map_giga. rewrite M1. unfold map_page.
    rewrite !(translate_empty s base rest) by done. unfold kernel_map.
    change (0x300001000 / 4096) with 0x300001. change (0x300000000 / 4096) with 0x300000.
    change (0x200000000 / 4096) with 0x200000. change (0x38001000 / 4096) with 0x38001.
    change (0x40000000 / 2 ^ 30) with 1. change (0x80000000 / 2 ^ 30) with 2. simpl leaf_attributes.
    assert (∀ a, a mod 4096 = 0 → a / 4096 * 4096 = a) as Hal by (intros; Z.div_mod_to_equations; lia).
    rewrite !Hal by done.
    repeat case_decide; try done; do 2 f_equal; Z.div_mod_to_equations; lia.
  - intros k Hk. destruct (decide (k = 12)) as [->|]; [done|]. rewrite K6, K5 by lia.
    destruct (decide (k = 8)) as [->|]; [done|]. destruct Hk as [->|Hk]; [|by rewrite K4, Z3 by lia].
    by rewrite K4, K3, K2 by lia.
  - rewrite A6, A5, A4, A3, A2, A1. done.
  - intros x Hx. assert (∀ t, t ∈ table_pages base T5 → ¬ in_page t x) as H5 by auto.
    assert (∀ t, t ∈ table_pages base T4 → ¬ in_page t x) as H4 by auto.
    assert (∀ t, t ∈ table_pages base T1 → ¬ in_page t x) as H1 by auto.
    rewrite O6, O5, O4, O3, O2, O1; auto using root_page.
Qed.

(** * Unmapping *)

Definition unmap_page (tr : Z → option (Z * Z)) (va va' : Z) : option (Z * Z) :=
  if decide (va' / 4096 = va / 4096) then None else tr va'.

(** The third-level entry behind a translation by a 4 KiB page. *)
Lemma small_entry s base T rest va pa f :
  pt_rep s base T rest → 0x1000 <= va < 2 ^ 38 →
  is_leaf (mem s (base + 8 * vpn2 va)) = false → translate (mem s) base va = Some (pa, f) →
  ∃ t u q priv, mids T !! vpn2 va = Some t ∧ lows T !! (vpn2 va, vpn1 va) = Some u ∧
    mem s (u + 8 * vpn0 va) = leaf q priv ∧ 0 <= q < 2 ^ 56 ∧ q / 4096 = pa / 4096.
Proof.
  intros Hrep Hva Hl Htr. rewrite (translate_view _ _ _ _ Hrep), low_canonical in Htr by lia.
  unfold view in Htr. pose proof (pr_root _ _ _ _ Hrep (vpn2 va) (vpn_range _)) as Hr.
  destruct (mids T !! vpn2 va) as [t|] eqn:Et.
  - destruct (lows T !! _) as [u|] eqn:Eu; [|done].
    destruct (pr_low _ _ _ _ Hrep _ _ _ (vpn0 va) Eu (vpn_range _)) as [E|(q & priv & Hq & E)].
    + by rewrite walk_zero in Htr.
    + rewrite (walk_leaf _ 0 u va q priv Hq E) in Htr. simpl in Htr. rewrite Z.mod_1_r in Htr.
      simpl in Htr. injection Htr as <- _. exists t, u, q, priv. split_and!; auto; try lia.
      change (Z.pow_pos 2 12) with 4096. Z.div_mod_to_equations. lia.
  - destruct Hr as [E|(q & priv & Hq & E)].
    + by rewrite walk_zero in Htr.
    + destruct (leaf_step q priv Hq) as (_ & H & _). congruence.
Qed.

(** [EraseEntry] reaches that entry. *)
Lemma EraseEntry_reaches s base T rest va t u q priv release :
  pt_rep s base T rest → 0x1000 <= va < 2 ^ 38 →
  mids T !! vpn2 va = Some t → lows T !! (vpn2 va, vpn1 va) = Some u →
  mem s (u + 8 * vpn0 va) = leaf q priv → 0 <= q < 2 ^ 56 →
  EraseEntry base va release s =
  do s := (if release then
             do alloced := is_page_alloced (q / 4096 * 4096) (pool s) in
             if (alloced : bool)
             then do p := dealloc_page (q / 4096 * 4096) (pool s) in Done (with_pool s p)
             else Done s
           else Done s) in
  Done (wr s (u + 8 * vpn0 va) 0).
Proof.
  intros Hrep Hva Et Eu E Hq. destruct (table_page_ok _ _ _ _ Hrep base (root_page _ _)) as [Hb ?].
  destruct (table_page_ok _ _ _ _ Hrep t) as [Ht ?]; [eauto with ptdb|].
  destruct (table_page_ok _ _ _ _ Hrep u) as [Hu ?]; [eauto with ptdb|].
  unfold EraseEntry. rewrite not_null, aligned_base_ok by (done || lia). cbn [obind].
  unfold inner_erase_entry. rewrite get_ppn1_eq, get_ppn2_eq, get_ppn3_eq.
  pose proof (pr_root _ _ _ _ Hrep (vpn2 va) (vpn_range _)) as Q1. rewrite Et in Q1.
  pose proof (pr_mid _ _ _ _ Hrep _ _ (vpn1 va) Et (vpn_range _)) as Q2. rewrite Eu in Q2.
  rewrite !(table_entry_at _ _ _ _ Hrep base) by eauto using vpn_range with ptdb. rewrite Q1.
  destruct (non_leaf_step t) as (_ & -> & ->); [lia|done|]. cbn [obind].
  rewrite !(table_entry_at _ _ _ _ Hrep t) by eauto using vpn_range with ptdb. rewrite Q2.
  destruct (non_leaf_step u) as (_ & -> & ->); [lia|done|]. cbn [obind].
  rewrite !(table_entry_at _ _ _ _ Hrep u) by eauto using vpn_range with ptdb. rewrite E.
  destruct (leaf_step q priv Hq) as (_ & -> & ->).
  destruct release; [|done]. destruct (is_page_alloced _ _) as [[]| | |]; try done.
  cbn [obind]. by destruct (dealloc_page _ _).
Qed.

Lemma clear_entry_translate s base T rest va u va' :
  pt_rep s base T rest → 0x1000 <= va < 2 ^ 38 → lows T !! (vpn2 va, vpn1 va) = Some u →
  translate (mem (wr s (u + 8 * vpn0 va) 0)) base va' = unmap_page (translate (mem s) base) va va'.
Proof.
  intros Hrep Hva Hu. unfold unmap_page.
  assert (pt_rep (wr s (u + 8 * vpn0 va) 0) base T rest) as Hr
    by (eapply set_low_rep; eauto using vpn_range; by left).
  rewrite (translate_view _ _ _ _ Hr), (translate_view _ _ _ _ Hrep).
  destruct (canonical va') eqn:Hc; [|by case_decide].
  rewrite (set_low_view _ _ _ _ Hrep (vpn2 va) (vpn1 va)) by (done || apply vpn_range).
  case_decide as Ha; case_decide as Hb.
  - by apply walk_zero.
  - destruct Hb. destruct Ha as (A2 & A1 & A0). apply same_page; auto. lia.
  - destruct Ha. by apply page_vpns.
  - done.
Qed.

Lemma with_pool_rep s base T rest p rest' :
  pt_rep s base T rest → pool_ok p (table_pages base T ++ rest') →
  pt_rep (with_pool s p) base T rest'.
Proof. intros [? ? ? ? ? ? ?] Hp. by split. Qed.

(** A concrete address space: the pool at boot, one page [a] in use and an
    empty root table. *)
Definition ex_globals : Globals := mkGlobals 0x80020000 0x80021000 0x80022000.
Definition ex_mem : KMem := mkKMem (λ _, 0) (init_memory true).

Lemma ex_globals_ok : globals_ok ex_globals.
Proof. unfold globals_ok, page_addr, ex_globals. simpl. by repeat split. Qed.

Lemma ex_free : nfree ex_mem = 1500%nat.
Proof.
  unfold nfree. change (free_pages (pool ex_mem)) with ([] ++ free_pages (init_memory true)).
  rewrite (po_pages _ _ (init_memory_ok true)). unfold all_pages.
  by rewrite length_fmap, length_seqZ.
Qed.

Lemma ex_space_all : ∃ a s base, page_addr a ∧ pt_rep s base no_tables [a] ∧ (1498 <= nfree s)%nat ∧
  (∀ i, 0 <= i < 512 → mem s (base + 8 * i) = 0) ∧ (∀ va, translate (mem s) base va = None) ∧
  all_pages (pool s) = all_pages (init_memory true).
Proof.
  pose proof ex_free as Hn. unfold nfree in Hn.
  destruct (alloc_page_spec _ _ (init_memory_ok true)) as [[H _]|(a & p & _ & Hf & Hok & Ha)].
  { change (pool ex_mem) with (init_memory true) in Hn. rewrite H in Hn. discriminate Hn. }
  change (pool ex_mem) with (init_memory true) in Hn. rewrite Hf, length_app in Hn. simpl in Hn.
  pose proof (GetClearPage_spec (with_pool ex_mem p) [a] Hok) as [[_ H]|(base & p' & E & _ & _ & Ha')].
  { unfold nfree in H. simpl in H. lia. }
  destruct (fresh_root (with_pool ex_mem p) [a] _ _ Hok E) as (Hrep & H0 & Hf').
  destruct (pool_page p [a] a Hok) as [Ha1 Ha2].
  { eapply pool_owned_in; [done|]. apply list_elem_of_here. }
  exists a, (ClearPage base (with_pool (with_pool ex_mem p) p')), base.
  split; [unfold page_addr; lia|]. split; [done|]. split; [|split; [done|split]].
  - unfold nfree in Hf' at 1. simpl in Hf'. lia.
  - intros va. by apply (translate_empty _ base [a]).
  - change (all_pages p' = all_pages (init_memory true)). rewrite Ha'. exact Ha.
Qed.

Lemma ex_space : ∃ a s base, page_addr a ∧ pt_rep s base no_tables [a] ∧ (1498 <= nfree s)%nat ∧
  (∀ i, 0 <= i < 512 → mem s (base + 8 * i) = 0) ∧ ∀ va, translate (mem s) base va = None.
Proof.
  destruct ex_space_all as (a & s & base & H1 & H2 & H3 & H4 & H5 & _).
  exists a, s, base. exact (conj H1 (conj H2 (conj H3 (conj H4 H5)))).
Qed.

Lemma ex_mapped : ∃ a s base s1 T, page_addr a ∧ pt_rep s base no_tables [a] ∧
  (∀ va, translate (mem s) base va = None) ∧
  CreateMapping base 0xC0000000 a SMALL USER s = Done s1 ∧ page_mapped base 0xC0000000 a USER [a] s no_tables s1 T.
Proof.
  destruct ex_space as (a & s & base & Ha & Hrep & Hn & H0 & Ht).
  destruct (create_small_done s base no_tables [a] 0xC0000000 a USER Hrep) as (s1 & T & E & Hm);
    [lia|apply Ha|by rewrite H0 by apply vpn_range|lia|].
  exists a, s, base, s1, T. split; [exact Ha|]. split; [exact Hrep|]. split; [exact Ht|]. exact (conj E Hm).
Qed.

(** * Properties *)

(** C4: [CreateMapping] of a 4 KiB page adds exactly that page to the address
    space the hardware sees: afterwards the page translates to the given
    frame with the given rights (an existing mapping of the page is kept),
    every other virtual address translates as before, memory outside the
    tables is untouched, and the invariant of page tables holds again. It
    panics only on an address inside a 1 GiB page or when the pool has fewer
    than two pages. *)
Theorem create_mapping_correct s base T rest va pa priv :
  pt_rep s base T rest → 0x1000 <= va < 2 ^ 38 → 0 <= pa < 2 ^ 56 →
  match CreateMapping base va pa SMALL priv s with
  | Done s' => ∃ T', pt_rep s' base T' rest ∧ frame_out (table_pages base T') s s' ∧
      ∀ va', translate (mem s') base va' = map_page (translate (mem s) base) va pa priv va'
  | Panic => is_leaf (mem s (base + 8 * vpn2 va)) = true ∨ (nfree s < 2)%nat
  | Wild | Loop => False
  end.
Proof.
  intros Hrep Hva Hpa. pose proof (create_small s base T rest va pa priv Hrep Hva Hpa) as H.
  destruct (CreateMapping base va pa SMALL priv s); try done.
  destruct H as [T' []]. eauto.
Qed.

(** A new address space has the kernel's mappings and no other: the
    device page, the two identity-mapped gigabytes, the fast system call
    page and the two vdso pages; nine free pages are enough to build it. *)
Theorem init_pageTable_maps g s rest :
  globals_ok g → pool_ok (pool s) rest → (9 <= nfree s)%nat →
  ∃ base s1 s2 T, GetClearPage s = Done (base, s1) ∧ init_pageTable g base s1 = Done s2 ∧
    pt_rep s2 base T rest ∧ ∀ va, translate (mem s2) base va = kernel_map g va.
Proof.
  intros Hg Hok Hn. destruct (GetClearPage_spec s rest Hok) as [[_ H]|(base & p & E & _)]; [lia|].
  destruct (fresh_root _ _ _ _ Hok E) as (Hrep & H0 & Hf).
  destruct (init_pageTable_spec g _ base rest Hg Hrep H0) as (s2 & T & E2 & Hr & Ht & _); [lia|].
  exists base, (ClearPage base (with_pool s p)), s2, T. split_and!; auto.
Qed.

(** Unmapping a page with [EraseEntry] removes exactly its translation;
    with [release_physical_page] the frame goes back to the pool. *)
Theorem erase_entry_unmaps s base T rest va pa f :
  let page := pa / 4096 * 4096 in
  pt_rep s base T (page :: rest) → 0x1000 <= va < 2 ^ 38 →
  is_leaf (mem s (base + 8 * vpn2 va)) = false → translate (mem s) base va = Some (pa, f) →
  ∃ s', EraseEntry base va true s = Done s' ∧ pt_rep s' base T rest ∧
    free_pages (pool s') = free_pages (pool s) ++ [page] ∧
    ∀ va', translate (mem s') base va' = unmap_page (translate (mem s) base) va va'.
Proof.
  intros page Hrep Hva Hl Htr.
  destruct (small_entry _ _ _ _ _ _ _ Hrep Hva Hl Htr) as (t & u & q & pr & Et & Eu & E & Hq & Hp).
  rewrite (EraseEntry_reaches _ _ _ _ _ t u q pr _ Hrep Hva Et Eu E Hq), Hp. fold page.
  pose proof (pr_pool _ _ _ _ Hrep) as Hok.
  apply (pool_ok_perm _ _ (page :: table_pages base T ++ rest)) in Hok; [|by rewrite Permutation_middle].
  assert (page ∈ all_pages (pool s)) as Hin by (eapply pool_owned_in; [done|]; apply list_elem_of_here).
  destruct (pool_page _ _ _ Hok Hin) as [Hm _].
  rewrite (is_page_alloced_spec _ _ _ Hok Hm), bool_decide_eq_true_2 by done. cbn [obind].
  destruct (dealloc_page_spec _ _ _ Hok) as (p & Ed & Hf & Hok' & _). rewrite Ed. cbn [obind].
  pose proof (with_pool_rep _ _ _ _ p rest Hrep Hok') as Hr.
  eexists. split; [done|]. split; [|split; [done|]].
  - eapply set_low_rep; eauto using vpn_range. by left.
  - intros va'. by apply (clear_entry_translate (with_pool s p) base T rest).
Qed.

(** Mapping a free page and unmapping it again leaves every translation
    as it was. *)
Theorem map_unmap_roundtrip s base T rest va pa priv s1 :
  pt_rep s base T rest → 0x1000 <= va < 2 ^ 38 → 0 <= pa < 2 ^ 56 →
  (∀ va', va' / 4096 = va / 4096 → translate (mem s) base va' = None) →
  CreateMapping base va pa SMALL priv s = Done s1 →
  ∃ s2, EraseEntry base va false s1 = Done s2 ∧
    ∀ va', translate (mem s2) base va' = translate (mem s) base va'.
Proof.
  intros Hrep Hva Hpa Hn E. pose proof (create_small s base T rest va pa priv Hrep Hva Hpa) as H.
  rewrite E in H. destruct H as [T1 [R1 M1 _ _ _ _ Hl _]].
  assert (translate (mem s1) base va = Some (pa / 4096 * 4096 + va mod 4096, leaf_attributes priv)) as Ht.
  { rewrite M1. unfold map_page. rewrite decide_True by done. by rewrite Hn. }
  destruct (small_entry _ _ _ _ _ _ _ R1 Hva Hl Ht) as (t & u & q & pr & Et & Eu & Ee & Hq & Hp).
  rewrite (EraseEntry_reaches _ _ _ _ _ t u q pr _ R1 Hva Et Eu Ee Hq). cbn [obind].
  eexists. split; [done|]. intros va'. rewrite (clear_entry_translate s1 base T1 rest) by done.
  unfold unmap_page. rewrite M1. unfold map_page. case_decide; [|done]. by rewrite Hn.
Qed.

Lemma create_mapping_correct_witness :
  ∃ a s base s', CreateMapping base 0xC0000000 a SMALL USER s = Done s' ∧
    translate (mem s') base 0xC0000123 = Some (a / 4096 * 4096 + 0x123, 0xdf).
Proof.
  destruct ex_mapped as (a & s & base & s1 & T & Ha & Hrep & Ht & E & _).
  pose proof (create_mapping_correct s base no_tables [a] 0xC0000000 a USER Hrep ltac:(lia) (proj1 Ha)) as H.
  rewrite E in H. destruct H as (T' & _ & _ & H). exists a, s, base, s1. split; [exact E|].
  rewrite H. unfold map_page. rewrite decide_True by reflexivity. rewrite Ht. reflexivity.
Defined.

Lemma init_pageTable_maps_witness :
  ∃ base s1 s2 T, GetClearPage ex_mem = Done (base, s1) ∧ init_pageTable ex_globals base s1 = Done s2 ∧
    pt_rep s2 base T [] ∧ ∀ va, translate (mem s2) base va = kernel_map ex_globals va.
Proof.
  apply (init_pageTable_maps ex_globals ex_mem [] ex_globals_ok (init_memory_ok true)).
  rewrite ex_free. lia.
Defined.

Lemma erase_entry_unmaps_witness :
  ∃ base s s', EraseEntry base 0xC0000000 true s = Done s' ∧
    translate (mem s') base 0xC0000123 = None.
Proof.
  destruct ex_mapped as (a & s & base & s1 & T & Ha & Hrep & Ht & E & [R1 M1 _ _ _ _ Hl _]).
  destruct Ha as [Ha1 Ha2].
  assert (a / 4096 * 4096 = a) as Hal by (Z.div_mod_to_equations; lia).
  assert (translate (mem s1) base 0xC0000000 = Some (a, 0xdf)) as Htr.
  { rewrite M1. unfold map_page. rewrite decide_True by reflexivity. rewrite Ht, Hal.
    change (0xC0000000 mod 4096) with 0. rewrite Z.add_0_r. reflexivity. }
  destruct (erase_entry_unmaps s1 base T [] 0xC0000000 a 0xdf) as (s2 & E2 & _ & _ & H);
    [rewrite Hal; exact R1|lia|exact Hl|exact Htr|].
  exists base, s1, s2. split; [exact E2|]. rewrite H. unfold unmap_page.
  rewrite decide_True by reflexivity. reflexivity.
Defined.

Lemma map_unmap_roundtrip_witness :
  ∃ base s s1 s2, EraseEntry base 0xC0000000 false s1 = Done s2 ∧
    ∀ va', translate (mem s2) base va' = translate (mem s) base va'.
Proof.
  destruct ex_mapped as (a & s & base & s1 & T & Ha & Hrep & Ht & E & _).
  destruct (map_unmap_roundtrip s base no_tables [a] 0xC0000000 a USER s1 Hrep) as (s2 & E2 & H);
    [lia|apply Ha|intros va' _; apply Ht|exact E|].
  exists base, s, s1, s2. exact (conj E2 H).
Defined.
