(* ===== verification/KVm.v ===== *)
(** User memory windows: a range of virtual addresses whose pages are mapped
    one after the other to pages of the pool, as [BrkControl] and
    [MmapControl] do. *)
From Stdlib Require Import ZArith Lia.
From stdpp Require Import base list numbers option gmap.
From S2P Require Import Prelude KBase KPages KPageTable.

Local Open Scope Z_scope.
Local Open Scope out_scope.

(** [memcpy(dst, src, 4096)] of a page. *)
Definition CopyPage (dst src : Z) (s : KMem) : KMem :=
  mkKMem (λ x, if (dst <=? x) && (x <? dst + 4096) then mem s (src + (x - dst)) else mem s x)
    (pool s).

Lemma CopyPage_in dst src s x : in_page dst x → mem (CopyPage dst src s) x = mem s (src + (x - dst)).
Proof. unfold in_page. intros H. simpl. by rewrite (proj2 (Z.leb_le _ _)), (proj2 (Z.ltb_lt _ _)) by lia. Qed.

Lemma CopyPage_out dst src s x : ¬ in_page dst x → mem (CopyPage dst src s) x = mem s x.
Proof.
  unfold in_page. intros H. simpl. destruct (Z.leb_spec dst x), (Z.ltb_spec x (dst + 4096)); try done. lia.
Qed.

Lemma ClearPage_in page s x : in_page page x → mem (ClearPage page s) x = 0.
Proof. unfold in_page. intros H. simpl. by rewrite (proj2 (Z.leb_le _ _)), (proj2 (Z.ltb_lt _ _)) by lia. Qed.

Lemma ClearPage_out page s x : ¬ in_page page x → mem (ClearPage page s) x = mem s x.
Proof.
  unfold in_page. intros H. simpl. destruct (Z.leb_spec page x), (Z.ltb_spec x (page + 4096)); try done. lia.
Qed.

(** * Page tables and the rest of memory *)

(** A page table depends on the memory of its tables only. *)
Lemma rep_frame s s' base T rest rest' :
  pt_rep s base T rest → pool_ok (pool s') (table_pages base T ++ rest') →
  (∀ t x, t ∈ table_pages base T → in_page t x → mem s' x = mem s x) →
  pt_rep s' base T rest' ∧ ∀ va, translate (mem s') base va = translate (mem s) base va.
Proof.
  intros Hrep Hok Hf.
  assert (∀ t i, t ∈ table_pages base T → 0 <= i < 512 → mem s' (t + 8 * i) = mem s (t + 8 * i)) as He.
  { intros t i Ht Hi. apply (Hf t); [done|]. by apply in_page_entry. }
  assert (pt_rep s' base T rest') as Hr.
  { split; [done|..].
    - intros i Hi. rewrite He by auto with ptdb. by apply (pr_root _ _ _ _ Hrep).
    - intros i t j Ht Hj. rewrite He by eauto with ptdb. by apply (pr_mid _ _ _ _ Hrep).
    - intros i j u k Hu Hk. rewrite He by eauto with ptdb. by eapply (pr_low _ _ _ _ Hrep).
    - apply (pr_closed _ _ _ _ Hrep).
    - apply (pr_idx1 _ _ _ _ Hrep).
    - apply (pr_idx2 _ _ _ _ Hrep). }
  split; [done|]. intros va. rewrite (translate_view _ _ _ _ Hr), (translate_view _ _ _ _ Hrep).
  destruct (canonical va); [|done]. unfold view.
  pose proof (pr_root _ _ _ _ Hrep (vpn2 va) (vpn_range _)) as Hv.
  destruct (mids T !! vpn2 va) as [t|] eqn:Et.
  - destruct (lows T !! _) as [u|] eqn:Eu; [|done]. apply walk_low_ext, He; eauto using vpn_range with ptdb.
  - apply walk_root_ext; [done|]. apply He; eauto using vpn_range with ptdb.
Qed.

(** Pages in use are apart from each other. *)
Lemma owned_apart p l1 a l2 b x :
  pool_ok p (l1 ++ a :: l2) → b ∈ l1 ++ l2 → in_page b x → ¬ in_page a x.
Proof.
  intros Hok Hb Hx Ha. apply (pool_ok_perm _ _ (a :: (l1 ++ l2))) in Hok; [|by rewrite Permutation_middle].
  apply (fresh_page p a (l1 ++ l2) [] b x); [by rewrite app_nil_r|done|done|done].
Qed.

(** * Windows *)

(** The pages [els] are mapped for the user from [v0] on, and the rest of the
    window of [n] pages is unmapped. *)
Record window (base v0 n : Z) (els : list Z) (s : KMem) (rest : list Z) : Prop := mkWindow {
  wi_rep : ∃ T, pt_rep s base T (els ++ rest);
  wi_len : zlen els <= n;
  wi_map va : v0 <= va < v0 + 4096 * n →
    translate (mem s) base va =
    match els !! Z.to_nat ((va - v0) / 4096) with
    | Some a => Some (a + va mod 4096, 0xdf)
    | None => None
    end;
  wi_root va : v0 <= va < v0 + 4096 * n → is_leaf (mem s (base + 8 * vpn2 va)) = false
}.

(** What a step leaves alone: pages in use other than tables, and the
    translations outside the window. *)
Record step_frame (base v0 n : Z) (kept : list Z) (s s' : KMem) : Prop := mkStepFrame {
  sf_mem a x : a ∈ kept → in_page a x → mem s' x = mem s x;
  sf_out va : ¬ (v0 <= va < v0 + 4096 * n) → translate (mem s') base va = translate (mem s) base va;
  sf_all : all_pages (pool s') = all_pages (pool s)
}.

Lemma step_frame_refl base v0 n kept s : step_frame base v0 n kept s s.
Proof. by split. Qed.

Lemma step_frame_trans base v0 n kept kept' s s1 s2 :
  step_frame base v0 n kept s s1 → step_frame base v0 n kept' s1 s2 → kept ⊆ kept' →
  step_frame base v0 n kept s s2.
Proof.
  intros [A1 A2 A3] [B1 B2 B3] Hs. split; [| |congruence].
  - intros a x Ha Hx. rewrite (B1 a x), (A1 a x) by auto. done.
  - intros va Hva. by rewrite B2, A2.
Qed.

Section step.
Context (base v0 n : Z) (els rest : list Z) (s : KMem).
Hypothesis Hwin : window base v0 n els s rest.
Hypothesis Hv0 : 0x1000 <= v0 ∧ v0 + 4096 * n < 2 ^ 38 ∧ v0 mod 4096 = 0.

(** A page [a] fresh from the pool was filled: page table and translations
    are as before, and [a] is apart from all pages in use. *)
Lemma fresh_filled T a p s1 :
  pt_rep s base T (els ++ rest) → alloc_page (pool s) = Done (a, p) → pool s1 = p →
  (∀ x, ¬ in_page a x → mem s1 x = mem s x) →
  pt_rep s1 base T ((els ++ [a]) ++ rest) ∧
  (∀ va, translate (mem s1) base va = translate (mem s) base va) ∧
  (∀ b x, b ∈ table_pages base T ++ els ++ rest → in_page b x → ¬ in_page a x) ∧
  (a mod 4096 = 0 ∧ 0 <= a < 2 ^ 56) ∧ nfree s = S (nfree s1) ∧
  all_pages (pool s1) = all_pages (pool s).
Proof.
  intros Hrep Ea Hp Hmem.
  destruct (alloc_page_spec _ _ (pr_pool _ _ _ _ Hrep)) as [[_ E]|(b & q & E & Hf & Hok & Hall)]; [congruence|].
  rewrite Ea in E. injection E as <- <-. rewrite <- Hp in Hok, Hall, Hf.
  assert (pool_ok (pool s1) (table_pages base T ++ (els ++ [a]) ++ rest)) as Hok1.
  { eapply pool_ok_perm; [exact Hok|]. rewrite <- (app_assoc els). cbn [app].
    by rewrite <- (Permutation_middle els rest a), <- (Permutation_middle (table_pages base T)). }
  assert (∀ b x, b ∈ table_pages base T ++ els ++ rest → in_page b x → ¬ in_page a x) as Hap.
  { intros b x Hb. apply (owned_apart (pool s1) [] a (table_pages base T ++ els ++ rest)); done. }
  destruct (rep_frame s s1 base T _ _ Hrep Hok1) as [R1 Ht1].
  { intros t x Ht Hx. apply Hmem, (Hap t); [|done]. apply elem_of_app. by left. }
  destruct (pool_page _ _ a Hok) as [Ha1 Ha2];
    [apply (pool_owned_in _ _ _ Hok), list_elem_of_here|].
  split; [done|]. split; [done|]. split; [done|]. split; [lia|]. split; [|done].
  unfold nfree. rewrite Hf, length_app. simpl. lia.
Qed.

(** Where an address of the window lies relative to the next page. *)
Lemma next_page va : 
  v0 <= va → (va / 4096 = (v0 + 4096 * zlen els) / 4096 ↔ Z.to_nat ((va - v0) / 4096) = length els).
Proof. destruct Hv0 as (V1 & V2 & V3). unfold zlen. intros. Z.div_mod_to_equations. lia. Qed.

(** One page is taken from the pool, filled, and mapped behind the last one. *)
Lemma window_step a p s1 :
  zlen els < n → alloc_page (pool s) = Done (a, p) → (3 <= nfree s)%nat →
  pool s1 = p → (∀ x, ¬ in_page a x → mem s1 x = mem s x) →
  ∃ s2, CreateMapping base (v0 + 4096 * zlen els) a SMALL USER s1 = Done s2 ∧
    window base v0 n (els ++ [a]) s2 rest ∧
    (∀ x, in_page a x → mem s2 x = mem s1 x) ∧
    step_frame base v0 n (els ++ rest) s s2 ∧ (nfree s <= nfree s2 + 3)%nat.
Proof.
  intros Hlen Ea Hn Hp Hmem. destruct Hwin as [[T Hrep] Wl Wm Wr]. destruct Hv0 as (V1 & V2 & V3).
  destruct (fresh_filled T a p s1 Hrep Ea Hp Hmem) as (R1 & Ht1 & Hap & [Ha1 Ha2] & Hnf & Hall).
  pose proof next_page as Hnext. assert (0 <= zlen els) by (unfold zlen; lia).
  set (va := v0 + 4096 * zlen els) in *.
  assert (∀ k, 0 <= k < 512 → mem s1 (base + 8 * k) = mem s (base + 8 * k)) as Hroot.
  { intros k Hk. apply Hmem, (Hap base); [|by apply in_page_entry]. apply elem_of_app. left. apply root_page. }
  pose proof (create_small s1 base T _ va a USER R1 ltac:(lia) ltac:(lia)) as Hc.
  destruct (CreateMapping base va a SMALL USER s1) as [s2| | |]; try done;
    [|destruct Hc as [Hc|Hc]; [rewrite Hroot, Wr in Hc by (apply vpn_range || lia); done|lia]].
  destruct Hc as [T2 [R2 M2 P2 F2 N2 K2 L2 A2]]. exists s2. split; [done|].
  assert (∀ b x, b ∈ (els ++ [a]) ++ rest → in_page b x → mem s2 x = mem s1 x) as Hkeep.
  { intros b x Hb Hx. apply F2. intros t Ht Hxt. pose proof (pr_pool _ _ _ _ R2) as Hok2.
    apply elem_of_Permutation in Hb as [k Hk]. rewrite Hk in Hok2.
    apply (owned_apart _ _ b k t x Hok2); [apply elem_of_app; by left|done|done]. }
  assert (∀ va', translate (mem s2) base va' =
    if decide (va' / 4096 = va / 4096) then
      match translate (mem s) base va' with
      | Some r => Some r | None => Some (a + va' mod 4096, 0xdf) end
    else translate (mem s) base va') as Htr.
  { intros va'. rewrite M2. unfold map_page. rewrite !Ht1.
    by replace (a / 4096 * 4096) with a by (Z.div_mod_to_equations; lia). }
  split; [split|split; [|split; [split|lia]]].
  - eauto.
  - unfold zlen in *. rewrite length_app. simpl. lia.
  - intros va' Hva'. rewrite Htr, Wm by done. specialize (Hnext va' ltac:(lia)). case_decide as Hd.
    + apply Hnext in Hd. rewrite Hd, lookup_app_r, Nat.sub_diag by lia.
      by rewrite lookup_ge_None_2 by lia.
    + destruct (decide (Z.to_nat ((va' - v0) / 4096) < length els)%nat).
      * by rewrite lookup_app_l by lia.
      * rewrite !lookup_ge_None_2; [done|rewrite length_app; simpl; lia|lia].
  - intros va' Hva'. destruct (decide (vpn2 va' = vpn2 va)) as [->|]; [done|].
    rewrite K2, Hroot by (done || apply vpn_range). by apply Wr.
  - intros x. apply Hkeep, elem_of_app. left. apply elem_of_app. right. apply list_elem_of_here.
  - intros b x Hb Hx. rewrite (Hkeep b); [|set_solver|done]. apply Hmem, (Hap b); [set_solver|done].
  - intros va' Hva'. rewrite Htr, decide_False; [done|]. intros E. apply Hva'. subst va.
    unfold zlen in *. Z.div_mod_to_equations. lia.
  - congruence.
Qed.

End step.
