(* ===== verification/KBrk.v ===== *)
(** The program break of kernel/memory/brk_control.h: a growing range of
    zeroed pages from [BRK_VIRT_BEGIN] on, copied on fork. *)
From Stdlib Require Import ZArith Lia.
From stdpp Require Import base list numbers option gmap.
From S2P Require Import Prelude KBase KPages KPageTable KPageTableSpec KVm.

Local Open Scope Z_scope.
Local Open Scope out_scope.

Definition BRK_VIRT_BEGIN : Z := 0xc0000000.

(** [elements] are the pages of [memKeeper]. *)
Record BrkControl : Type := mkBrk {
  brk_pageTable : Z;
  brk_init : bool;
  brk_page_count : Z;
  brk_elements : list Z
}.

Definition new_BrkControl (pageTable : Z) : BrkControl := mkBrk pageTable false 0 [].

(** [BRK_VIRT_BEGIN + 4096 * i], computed on 32 bits. *)
Definition brk_va (i : Z) : Z := u32 (BRK_VIRT_BEGIN + 4096 * i).

(** The copying loop of the copy constructor, for the indices [i ..]. *)
Fixpoint brk_copy_loop (n : nat) (i : Z) (other : list Z) (b : BrkControl) (s : KMem)
    : outcome (BrkControl * KMem) :=
  match n with
  | O => Done (b, s)
  | S n =>
      do (new_page, p) := alloc_page (pool s) in
      match other !! Z.to_nat i with
      | None => Wild
      | Some src =>
          let s := CopyPage new_page src (with_pool s p) in
          let b := mkBrk (brk_pageTable b) (brk_init b) (brk_page_count b)
                     (brk_elements b ++ [new_page]) in
          do s := CreateMapping (brk_pageTable b) (brk_va i) new_page SMALL USER s in
          brk_copy_loop n (i + 1) other b s
      end
  end.

Definition copy_BrkControl (other : BrkControl) (pageTable : Z) (s : KMem)
    : outcome (BrkControl * KMem) :=
  if negb (brk_init other) then Done (mkBrk pageTable false 0 [], s)
  else brk_copy_loop (Z.to_nat (brk_page_count other)) 0 (brk_elements other)
         (mkBrk pageTable true (brk_page_count other) []) s.

(** The growing loop of [brk]. *)
Fixpoint brk_grow_loop (n : nat) (i : Z) (b : BrkControl) (s : KMem)
    : outcome (BrkControl * KMem) :=
  match n with
  | O => Done (b, s)
  | S n =>
      do (new_page, p) := alloc_page (pool s) in
      let s := ClearPage new_page (with_pool s p) in
      let b := mkBrk (brk_pageTable b) (brk_init b) (brk_page_count b)
                 (brk_elements b ++ [new_page]) in
      do s := CreateMapping (brk_pageTable b) (brk_va i) new_page SMALL USER s in
      brk_grow_loop n (i + 1) b s
  end.

(** The first page, taken by the first call. *)
Definition brk_first (b : BrkControl) (s : KMem) : outcome (BrkControl * KMem) :=
  if negb (brk_init b) then
    do (page, s) := GetClearPage s in
    let b := mkBrk (brk_pageTable b) true 1 (brk_elements b ++ [page]) in
    do s := CreateMapping (brk_pageTable b) BRK_VIRT_BEGIN page SMALL USER s in
    Done (b, s)
  else Done (b, s).

Definition brk (p : Z) (b : BrkControl) (s : KMem) : outcome (Z * BrkControl * KMem) :=
  do (b, s) := brk_first b s in
  if p =? 0 then Done (BRK_VIRT_BEGIN, b, s)
  else
    let need_space := u64 (p - BRK_VIRT_BEGIN) in
    let need_page := s32 (u64 (need_space + 4096 - 1) / 4096) in
    if 2000 <? need_page then Panic
    else if brk_page_count b <? u64 need_page then
      let i := s32 (brk_page_count b) in
      do (b, s) := brk_grow_loop (Z.to_nat (need_page - i)) i b s in
      Done (p, mkBrk (brk_pageTable b) (brk_init b) (u64 need_page) (brk_elements b), s)
    else Done (p, b, s).

(** * The break as a window *)

(** The break of an address space whose window is [n = 2000] pages. *)
Record brk_ok (b : BrkControl) (s : KMem) (rest : list Z) : Prop := mkBrkOk {
  bo_window : window (brk_pageTable b) BRK_VIRT_BEGIN 2000 (brk_elements b) s rest;
  bo_count : brk_page_count b = zlen (brk_elements b);
  bo_init : brk_init b = negb (brk_page_count b =? 0)
}.

Lemma brk_va_eq i : 0 <= i < 2000 → brk_va i = BRK_VIRT_BEGIN + 4096 * i.
Proof. intros Hi. apply u32_small. unfold BRK_VIRT_BEGIN. lia. Qed.

Lemma brk_v0 : 0x1000 <= BRK_VIRT_BEGIN ∧ BRK_VIRT_BEGIN + 4096 * 2000 < 2 ^ 38 ∧
  BRK_VIRT_BEGIN mod 4096 = 0.
Proof. by repeat split. Qed.

Definition zeroed (s : KMem) (a : Z) : Prop := ∀ x, in_page a x → mem s x = 0.

(** Adding one page: where the pool has three pages the step succeeds. *)
Lemma brk_step base els s rest a p s1 :
  window base BRK_VIRT_BEGIN 2000 els s rest → zlen els < 2000 →
  alloc_page (pool s) = Done (a, p) → (3 <= nfree s)%nat → pool s1 = p →
  (∀ x, ¬ in_page a x → mem s1 x = mem s x) →
  ∃ s2, CreateMapping base (brk_va (zlen els)) a SMALL USER s1 = Done s2 ∧
    window base BRK_VIRT_BEGIN 2000 (els ++ [a]) s2 rest ∧
    (∀ x, in_page a x → mem s2 x = mem s1 x) ∧
    step_frame base BRK_VIRT_BEGIN 2000 (els ++ rest) s s2 ∧ (nfree s <= nfree s2 + 3)%nat.
Proof.
  intros Hw Hl. rewrite brk_va_eq by (unfold zlen in *; lia). by apply window_step; [|apply brk_v0|].
Qed.

Lemma enough_alloc base v0 n els s rest k :
  window base v0 n els s rest → (S k <= nfree s)%nat → ∃ a p, alloc_page (pool s) = Done (a, p).
Proof.
  intros [[T Hr] _ _ _] Hn.
  destruct (alloc_page_spec _ _ (pr_pool _ _ _ _ Hr)) as [[E _]|(a & p & E & _)]; [|eauto].
  unfold nfree in Hn. rewrite E in Hn. simpl in Hn. lia.
Qed.

Lemma brk_grow_spec n b s rest :
  window (brk_pageTable b) BRK_VIRT_BEGIN 2000 (brk_elements b) s rest →
  zlen (brk_elements b) + Z.of_nat n <= 2000 → (3 * n <= nfree s)%nat →
  ∃ new s', brk_grow_loop n (zlen (brk_elements b)) b s =
      Done (mkBrk (brk_pageTable b) (brk_init b) (brk_page_count b) (brk_elements b ++ new), s') ∧
    length new = n ∧ Forall (zeroed s') new ∧
    window (brk_pageTable b) BRK_VIRT_BEGIN 2000 (brk_elements b ++ new) s' rest ∧
    step_frame (brk_pageTable b) BRK_VIRT_BEGIN 2000 (brk_elements b ++ rest) s s'.
Proof.
  revert b s. induction n as [|n IH]; intros b s Hw Hl Hn; cbn [brk_grow_loop].
  { exists [], s. rewrite app_nil_r. destruct b. split_and!; auto using step_frame_refl. }
  destruct (enough_alloc _ _ _ _ _ _ (3 * n + 2) Hw) as (a & p & Ea); [lia|].
  rewrite Ea. cbn [obind brk_pageTable brk_elements].
  destruct (brk_step _ _ _ _ a p (ClearPage a (with_pool s p)) Hw) as (s2 & -> & W2 & Hin & Hfr & Hn2);
    [lia|done|lia|done|intros x Hx; by rewrite ClearPage_out|]. cbn [obind].
  set (b' := mkBrk _ _ _ (brk_elements b ++ [a])).
  destruct (IH b' s2) as (new & s' & E & Hlen & Hz & W & F); [done|subst b'; simpl; rewrite zlen_snoc; lia|lia|].
  subst b'. simpl in E, W, F. rewrite zlen_snoc in E. rewrite <- app_assoc in E, W.
  exists (a :: new), s'. split; [done|]. split; [simpl; lia|]. split; [constructor; [|done]|split; [done|]].
  - intros x Hx. rewrite (sf_mem _ _ _ _ _ _ F a x), Hin, ClearPage_in; [done|done..|set_solver|done].
  - eapply step_frame_trans; [exact Hfr|exact F|]. set_solver.
Qed.

(** The state after the break grew by [new]. *)
Record grew (b : BrkControl) (s : KMem) (rest new : list Z) (b' : BrkControl) (s' : KMem) : Prop :=
  mkGrew {
  gr_ok : brk_ok b' s' rest;
  gr_table : brk_pageTable b' = brk_pageTable b;
  gr_elements : brk_elements b' = brk_elements b ++ new;
  gr_zero : Forall (zeroed s') new;
  gr_frame : step_frame (brk_pageTable b) BRK_VIRT_BEGIN 2000 (brk_elements b ++ rest) s s'
}.

Lemma grew_trans b s rest new b1 s1 new' b2 s2 :
  grew b s rest new b1 s1 → grew b1 s1 rest new' b2 s2 → grew b s rest (new ++ new') b2 s2.
Proof.
  intros [A1 A2 A3 A4 A5] [B1 B2 B3 B4 B5]. rewrite A2, A3 in *. split; auto.
  - by rewrite B3, app_assoc.
  - apply Forall_app. split; [|done]. apply Forall_forall. intros a Ha x Hx.
    rewrite (sf_mem _ _ _ _ _ _ B5 a x); [|set_solver|done]. rewrite Forall_forall in A4. by apply (A4 a).
  - eapply step_frame_trans; [exact A5|exact B5|set_solver].
Qed.

Lemma brk_first_spec b s rest :
  brk_ok b s rest → (3 * (1 - Z.to_nat (brk_page_count b)) <= nfree s)%nat →
  ∃ b' s' new, brk_first b s = Done (b', s') ∧ grew b s rest new b' s' ∧
    brk_page_count b' = Z.max 1 (brk_page_count b) ∧ (nfree s <= nfree s' + 3 * length new)%nat ∧
    length new = (1 - Z.to_nat (brk_page_count b))%nat.
Proof.
  intros [Hw Hc Hi] Hn. unfold brk_first. rewrite Hi. unfold zlen in Hc.
  destruct (Z.eqb_spec (brk_page_count b) 0) as [E|E]; simpl.
  - assert (brk_elements b = []) as He by (apply nil_length_inv; lia). rewrite He in *.
    destruct (enough_alloc _ _ _ _ _ _ 2 Hw) as (a & p & Ea); [lia|].
    unfold GetClearPage. rewrite Ea. cbn [obind].
    destruct (brk_step _ _ _ _ a p (ClearPage a (with_pool s p)) Hw) as (s2 & E2 & W2 & Hin & Hfr & Hn2);
      [done|done|lia|done|intros x Hx; by rewrite ClearPage_out|].
    change (brk_va (zlen (@nil Z))) with BRK_VIRT_BEGIN in E2. rewrite E2. cbn [obind].
    eexists _, s2, [a]. split; [done|]. split; [|simpl; split_and!; lia].
    split; simpl; auto.
    + by split.
    + by rewrite He.
    + constructor; [|done]. intros x Hx. by rewrite Hin, ClearPage_in.
    + by rewrite He.
  - exists b, s, []. split; [done|]. split; [|simpl; split_and!; lia].
    split; auto using step_frame_refl.
    + split; [done..|]. rewrite Hi. by rewrite (proj2 (Z.eqb_neq _ _) E).
    + by rewrite app_nil_r.
Qed.

(** The number of pages up to the break [p]. *)
Definition pages_for (p : Z) : Z := (p - BRK_VIRT_BEGIN + 4095) / 4096.

Lemma need_page_eq p :
  BRK_VIRT_BEGIN <= p <= BRK_VIRT_BEGIN + 4096 * 2000 →
  s32 (u64 (u64 (p - BRK_VIRT_BEGIN) + 4096 - 1) / 4096) = pages_for p ∧ 0 <= pages_for p <= 2000.
Proof.
  unfold pages_for. intros H. rewrite (u64_small (p - _)) by lia. rewrite u64_small by lia.
  assert (0 <= (p - BRK_VIRT_BEGIN + 4095) / 4096 <= 2000) by (Z.div_mod_to_equations; lia).
  replace (p - BRK_VIRT_BEGIN + 4096 - 1) with (p - BRK_VIRT_BEGIN + 4095) by lia.
  rewrite s32_small by lia. done.
Qed.

(** * Properties *)

(** C24: [brk] maps the memory up to the new break: the heap grows to the
    pages it needs (at least one), the new pages are zeroed, the existing
    pages keep their contents and their place, no other translation and no
    other page in use changes, and the requested break is returned. *)
Theorem brk_correct b s rest p :
  brk_ok b s rest → p = 0 ∨ BRK_VIRT_BEGIN <= p <= BRK_VIRT_BEGIN + 4096 * 2000 →
  let pages := Z.max 1 (if p =? 0 then 0 else pages_for p) in
  (3 * Z.to_nat (pages - brk_page_count b) <= nfree s)%nat →
  ∃ b' s' new, brk p b s = Done (if p =? 0 then BRK_VIRT_BEGIN else p, b', s') ∧
    grew b s rest new b' s' ∧ brk_page_count b' = Z.max pages (brk_page_count b).
Proof.
  intros Hok Hp pages Hn. subst pages.
  assert (0 <= brk_page_count b) as Hc0 by (rewrite (bo_count _ _ _ Hok); unfold zlen; lia).
  destruct (brk_first_spec b s rest Hok) as (b1 & s1 & new1 & E1 & G1 & C1 & N1 & L1); [lia|].
  unfold brk. rewrite E1. cbn [obind]. destruct (Z.eqb_spec p 0) as [->|Hp0].
  { exists b1, s1, new1. split; [done|]. split; [done|]. lia. }
  destruct Hp as [->|Hp]; [done|]. destruct (need_page_eq p Hp) as [-> Hr].
  rewrite (proj2 (Z.ltb_ge _ _)) by lia. rewrite u64_small by lia.
  destruct (Z.ltb_spec (brk_page_count b1) (pages_for p)) as [Hlt|Hge].
  2:{ exists b1, s1, new1. split; [done|]. split; [done|]. lia. }
  pose proof (gr_ok _ _ _ _ _ _ G1) as [W1 K1 I1]. rewrite s32_small by lia. rewrite K1.
  destruct (brk_grow_spec (Z.to_nat (pages_for p - zlen (brk_elements b1))) b1 s1 rest W1)
    as (new & s2 & E2 & L2 & Hz & W2 & F2); [lia|lia|]. rewrite E2. cbn [obind].
  eexists _, s2, (new1 ++ new). split; [done|]. split; [|simpl; lia].
  apply (grew_trans _ _ _ _ b1 s1); [done|]. split; simpl; auto. split; simpl; auto.
  - unfold zlen in *. rewrite length_app. lia.
  - rewrite (proj2 (Z.eqb_neq _ _)) by lia. rewrite I1, (proj2 (Z.eqb_neq _ _)) by lia. done.
Qed.

(** The pages of a child hold what the parent's pages held. *)
Lemma brk_copy_spec n other base b s rest :
  window base BRK_VIRT_BEGIN 2000 (brk_elements b) s rest → brk_pageTable b = base →
  (length (brk_elements b) + n = length other)%nat → zlen other <= 2000 → (3 * n <= nfree s)%nat →
  other ⊆ rest →
  ∃ new s', brk_copy_loop n (zlen (brk_elements b)) other b s =
      Done (mkBrk base (brk_init b) (brk_page_count b) (brk_elements b ++ new), s') ∧
    length new = n ∧
    (∀ i src a o, other !! (length (brk_elements b) + i)%nat = Some src → new !! i = Some a →
      0 <= o < 4096 → mem s' (a + o) = mem s (src + o)) ∧
    window base BRK_VIRT_BEGIN 2000 (brk_elements b ++ new) s' rest ∧
    step_frame base BRK_VIRT_BEGIN 2000 (brk_elements b ++ rest) s s'.
Proof.
  revert b s. induction n as [|n IH]; intros b s Hw Hb Hl Ho Hn Hsub; cbn [brk_copy_loop].
  { exists [], s. rewrite app_nil_r. destruct b. simpl in *. subst.
    split_and!; auto using step_frame_refl. done. }
  destruct (enough_alloc _ _ _ _ _ _ (3 * n + 2) Hw) as (a & p & Ea); [lia|].
  rewrite Ea. cbn [obind brk_pageTable brk_elements]. unfold zlen at 1. rewrite Nat2Z.id.
  destruct (lookup_lt_is_Some_2 other (length (brk_elements b))) as [src Hsrc]; [lia|]. rewrite Hsrc.
  destruct (brk_step _ _ _ _ a p (CopyPage a src (with_pool s p)) Hw) as (s2 & E2 & W2 & Hin & Hfr & Hn2);
    [unfold zlen in *; lia|done|lia|done|intros x Hx; by rewrite CopyPage_out|].
  rewrite Hb, E2. cbn [obind]. set (b' := mkBrk _ _ _ (brk_elements b ++ [a])).
  destruct (IH b' s2) as (new & s' & E & Hlen & Hz & W & F);
    [done|done|subst b'; simpl; rewrite length_app; simpl; lia|done|lia|done|].
  subst b'. simpl in E, W, F, Hz. rewrite zlen_snoc in E. rewrite <- app_assoc in E, W.
  exists (a :: new), s'. split; [done|]. split; [simpl; lia|].
  split; [|split; [done|eapply step_frame_trans; [exact Hfr|exact F|set_solver]]].
  intros [|i] src' a' o Hs' Ha' Ho'; simpl in Ha'.
  - rewrite Nat.add_0_r in Hs'. simplify_eq.
    assert (in_page a' (a' + o)) as Hpa by (unfold in_page; lia).
    rewrite (sf_mem _ _ _ _ _ _ F a' (a' + o)), Hin, CopyPage_in;
      [simpl; f_equal; lia|done|done|set_solver|done].
  - rewrite (Hz i src' a' o); [|by rewrite length_app, <- Nat.add_assoc|done|done].
    apply (sf_mem _ _ _ _ _ _ Hfr src'); [|unfold in_page; lia].
    apply elem_of_app. right. apply Hsub. by eapply list_elem_of_lookup_2.
Qed.

(** The break of a forked process is a private copy: it has as many pages
    as the parent's, with the same contents page by page, mapped at the same
    virtual addresses of the child's page table, and no page in use before
    (the parent's included) changes. *)
Theorem brk_fork_copies other s rp base rest :
  brk_ok other s rp → window base BRK_VIRT_BEGIN 2000 [] s rest → brk_elements other ⊆ rest →
  (3 * length (brk_elements other) <= nfree s)%nat →
  ∃ b' s', copy_BrkControl other base s = Done (b', s') ∧ brk_ok b' s' rest ∧
    brk_pageTable b' = base ∧ length (brk_elements b') = length (brk_elements other) ∧
    (∀ i src a o, brk_elements other !! i = Some src → brk_elements b' !! i = Some a →
      0 <= o < 4096 → mem s' (a + o) = mem s (src + o)) ∧
    step_frame base BRK_VIRT_BEGIN 2000 rest s s'.
Proof.
  intros [Wp Cp Ip] Hw Hsub Hn. pose proof (wi_len _ _ _ _ _ _ Wp) as Hl. unfold copy_BrkControl.
  rewrite Ip. destruct (Z.eqb_spec (brk_page_count other) 0) as [E|E]; simpl.
  - rewrite Cp in E. unfold zlen in E. assert (brk_elements other = []) as -> by (apply nil_length_inv; lia).
    eexists _, s. split; [done|]. split; [by split|]. split_and!; auto using step_frame_refl. done.
  - destruct (brk_copy_spec (Z.to_nat (brk_page_count other)) (brk_elements other) base
      (mkBrk base true (brk_page_count other) []) s rest) as (new & s' & E' & Hlen & Hc & W & F);
      [done|done|simpl; unfold zlen in *; lia|done|unfold zlen in *; lia|done|].
    simpl in *. change (zlen (@nil Z)) with 0 in E'. rewrite E'. eexists _, s'. split; [done|].
    split; [split; [done|..]|split_and!; auto].
    + simpl. unfold zlen in *. lia.
    + simpl. by rewrite (proj2 (Z.eqb_neq _ _) E).
    + simpl. unfold zlen in *. lia.
Qed.

(** A break below the start of the heap is not refused: [need_space] is
    unsigned, so the test for a negative size never holds; the call returns
    the address and turns the page count into a huge number. *)
Theorem brk_below_start b s k :
  brk_init b = true → 0 <= brk_page_count b < 2 ^ 31 → 1 <= k < 2 ^ 17 →
  brk (BRK_VIRT_BEGIN - 4096 * k) b s =
  Done (BRK_VIRT_BEGIN - 4096 * k,
        mkBrk (brk_pageTable b) true (2 ^ 64 - k) (brk_elements b), s).
Proof.
  intros Hi Hc Hk. unfold brk, brk_first. rewrite Hi. cbn [negb obind].
  assert (BRK_VIRT_BEGIN - 4096 * k ≠ 0) as Hne by (unfold BRK_VIRT_BEGIN; lia).
  rewrite (proj2 (Z.eqb_neq _ _) Hne).
  replace (u64 (BRK_VIRT_BEGIN - 4096 * k - BRK_VIRT_BEGIN)) with (2 ^ 64 - 4096 * k).
  2:{ unfold u64. replace (BRK_VIRT_BEGIN - 4096 * k - BRK_VIRT_BEGIN) with (2 ^ 64 - 4096 * k + (-1) * 2 ^ 64) by lia.
      rewrite Z.mod_add, Z.mod_small; lia. }
  rewrite (u64_small (2 ^ 64 - 4096 * k + 4096 - 1)) by lia.
  replace ((2 ^ 64 - 4096 * k + 4096 - 1) / 4096) with (2 ^ 52 - k) by (Z.div_mod_to_equations; lia).
  replace (s32 (2 ^ 52 - k)) with (- k).
  2:{ unfold s32. replace (2 ^ 52 - k + 2 ^ 31) with (2 ^ 31 - k + 2 ^ 20 * 2 ^ 32) by lia.
      rewrite Z.mod_add, Z.mod_small; lia. }
  replace (u64 (- k)) with (2 ^ 64 - k).
  2:{ unfold u64. replace (- k) with (2 ^ 64 - k + (-1) * 2 ^ 64) by lia. rewrite Z.mod_add, Z.mod_small; lia. }
  rewrite (proj2 (Z.ltb_ge 2000 _)), (proj2 (Z.ltb_lt _ (2 ^ 64 - k))) by lia.
  rewrite s32_small by lia. replace (Z.to_nat (- k - brk_page_count b)) with 0%nat by lia.
  cbn [brk_grow_loop obind]. by rewrite Hi.
Qed.

(** * A concrete break *)

(** An empty address space has an empty window. *)
Lemma empty_window s base rest v0 n :
  pt_rep s base no_tables rest → (∀ i, 0 <= i < 512 → mem s (base + 8 * i) = 0) → 0 <= n →
  window base v0 n [] s rest.
Proof.
  intros Hr H0 Hn. split; [by exists no_tables|unfold zlen; simpl; lia|..].
  - intros va _. rewrite lookup_nil. by apply (translate_empty s base rest).
  - intros va _. by rewrite H0 by apply vpn_range.
Qed.

(** A second root table beside an address space. *)
Lemma window_new_root s base v0 n els rest b2 s2 :
  window base v0 n els s rest → GetClearPage s = Done (b2, s2) → 0 <= n →
  ∃ T, window base v0 n els s2 (b2 :: rest) ∧
    window b2 v0 n [] s2 (table_pages base T ++ els ++ rest) ∧ nfree s = S (nfree s2).
Proof.
  intros [[T Hr] Wl Wm Wr] E Hn. exists T. pose proof (pr_pool _ _ _ _ Hr) as Hok.
  destruct (fresh_root _ _ _ _ Hok E) as (Hr2 & H0 & Hf).
  destruct (GetClearPage_spec s _ Hok) as [[E' _]|(t & p & E' & Hp & _)]; [congruence|].
  rewrite E in E'. injection E' as -> ->.
  assert (∀ b x, b ∈ table_pages base T → in_page b x → mem (ClearPage t (with_pool s p)) x = mem s x) as Hm.
  { intros b x Hb Hx. rewrite ClearPage_out; [done|]. by apply (fresh_page p t _ _ b x Hp). }
  destruct (rep_frame s (ClearPage t (with_pool s p)) base T _ (els ++ t :: rest) Hr) as [Hr' Ht]; [|done|].
  { change (pool (ClearPage t (with_pool s p))) with p.
    by rewrite <- (Permutation_middle els rest t), <- (Permutation_middle (table_pages base T)). }
  split; [|split; [|done]].
  - split; [by exists T|done|..].
    + intros va Hva. rewrite Ht. by apply Wm.
    + intros va Hva. rewrite (Hm base); [by apply Wr|apply root_page|apply in_page_entry, vpn_range].
  - by apply empty_window.
Qed.

Lemma ex_break : ∃ a s base, brk_ok (new_BrkControl base) s [a] ∧ (1498 <= nfree s)%nat.
Proof.
  destruct ex_space as (a & s & base & _ & Hr & Hn & H0 & _). exists a, s, base. split; [|exact Hn].
  split; [|done|done]. by apply empty_window.
Qed.

Lemma brk_correct_witness :
  ∃ b s b' s', brk (BRK_VIRT_BEGIN + 5000) b s = Done (BRK_VIRT_BEGIN + 5000, b', s') ∧
    brk_page_count b' = 2.
Proof.
  destruct ex_break as (a & s & base & Hok & Hn). exists (new_BrkControl base), s.
  destruct (brk_correct (new_BrkControl base) s [a] (BRK_VIRT_BEGIN + 5000) Hok) as (b' & s' & new & E & _ & Hc).
  - right. unfold BRK_VIRT_BEGIN. lia.
  - change (3 * Z.to_nat _)%nat with 6%nat. lia.
  - exists b', s'. exact (conj E Hc).
Defined.

Lemma brk_fork_copies_witness :
  ∃ b base s b' s', copy_BrkControl b base s = Done (b', s') ∧ length (brk_elements b') = 1%nat.
Proof.
  destruct ex_break as (a & s & base & Hok & Hn).
  destruct (brk_first_spec _ s [a] Hok) as (b1 & s1 & new1 & _ & [[W1 K1 I1] T1 El1 _ _] & C1 & N1 & L1);
    [simpl; lia|]. simpl in C1, L1, El1.
  assert (length (brk_elements b1) = 1%nat) as HL by (rewrite El1; exact L1).
  destruct (enough_alloc _ _ _ _ _ _ 0 W1) as (t & p & Ea); [lia|].
  assert (GetClearPage s1 = Done (t, ClearPage t (with_pool s1 p))) as E by (unfold GetClearPage; by rewrite Ea).
  destruct (window_new_root _ _ _ _ _ _ _ _ W1 E) as (T & Wp & Wc & Hf); [lia|].
  destruct (brk_fork_copies b1 _ [t; a] t _ (mkBrkOk _ _ _ Wp K1 I1) Wc) as (b' & s' & E' & _ & _ & Hl & _).
  - intros x Hx. apply elem_of_app. right. apply elem_of_app. by left.
  - lia.
  - exists b1, t, (ClearPage t (with_pool s1 p)), b', s'. rewrite HL in Hl. exact (conj E' Hl).
Defined.

Lemma brk_below_start_witness :
  ∃ b s, brk (BRK_VIRT_BEGIN - 4096) b s =
    Done (BRK_VIRT_BEGIN - 4096, mkBrk (brk_pageTable b) true (2 ^ 64 - 1) (brk_elements b), s).
Proof.
  exists (mkBrk 0x84000000 true 1 [0x84001000]), ex_mem.
  exact (brk_below_start (mkBrk 0x84000000 true 1 [0x84001000]) ex_mem 1 eq_refl ltac:(simpl; lia) ltac:(lia)).
Defined.
