(* ===== verification/KMmap.v ===== *)
(** Memory mappings of kernel/memory/mmap_control.h: pages are mapped from
    [MMAP_VIRT_BEGIN] upwards and filled from [LastOpenedFile] with FatFs,
    whose reads go through the page table of the running process. *)
From Stdlib Require Import ZArith Lia.
From stdpp Require Import base list numbers option gmap.
From S2P Require Import Prelude BlockDevice FfTypes FfWindow FfFat FfChain FfMount FfFile FfRead FfSeek FfExample.
From S2P Require Import KBase KPages KPageTable KPageTableSpec KVm.

Local Open Scope Z_scope.
Local Open Scope out_scope.

(** * Bytes of user memory *)

Definition get_byte (m : Z → Z) (pa : Z) : Z :=
  Z.land (Z.shiftr (m (pa - pa mod 8)) (8 * (pa mod 8))) 0xff.

Definition put_byte (m : Z → Z) (pa b : Z) : Z → Z :=
  let w := pa - pa mod 8 in
  let k := 8 * (pa mod 8) in
  λ x, if x =? w then Z.lor (Z.ldiff (m w) (Z.shiftl 0xff k)) (Z.shiftl (u8 b) k) else m x.

(** Stores of the running process, or of the kernel on its behalf, at
    consecutive virtual addresses; a missing translation is a page fault. *)
Fixpoint store_bytes (base va : Z) (bs : list Z) (s : KMem) : outcome KMem :=
  match bs with
  | [] => Done s
  | b :: bs =>
      match translate (mem s) base va with
      | None => Wild
      | Some (pa, _) => store_bytes base (va + 1) bs (mkKMem (put_byte (mem s) pa b) (pool s))
      end
  end.

Definition load_byte (s : KMem) (base va : Z) : option Z :=
  match translate (mem s) base va with
  | None => None
  | Some (pa, _) => Some (get_byte (mem s) pa)
  end.

(** * Operations *)

Definition MMAP_VIRT_BEGIN : Z := 0x100000000.

Record mmap_unit : Type := mkUnit { mapped_to : Z; source_addr : Z }.

Record MmapControl : Type := mkMmap {
  mm_keeper : list mmap_unit;
  mm_pageTable : Z;
  mmap_start : Z
}.

Definition new_MmapControl (pageTable : Z) : MmapControl := mkMmap [] pageTable MMAP_VIRT_BEGIN.

(** The copy constructor: the pages of [other] are copied one by one. *)
Fixpoint mmap_copy_loop (units : list mmap_unit) (c : MmapControl) (s : KMem)
    : outcome (MmapControl * KMem) :=
  match units with
  | [] => Done (c, s)
  | u :: units =>
      do (new_page, p) := alloc_page (pool s) in
      let s := CopyPage new_page (source_addr u) (with_pool s p) in
      let c := mkMmap (mm_keeper c ++ [mkUnit new_page (mapped_to u)]) (mm_pageTable c) (mmap_start c) in
      do s := CreateMapping (mm_pageTable c) (mapped_to u) new_page SMALL USER s in
      mmap_copy_loop units c s
  end.

Definition copy_MmapControl (other : MmapControl) (pageTable : Z) (s : KMem)
    : outcome (MmapControl * KMem) :=
  mmap_copy_loop (mm_keeper other) (mkMmap [] pageTable (mmap_start other)) s.

(** The mapping loop of [mmap]. *)
Fixpoint mmap_loop (n : nat) (c : MmapControl) (s : KMem) : outcome (MmapControl * KMem) :=
  match n with
  | O => Done (c, s)
  | S n =>
      do (new_page, p) := alloc_page (pool s) in
      let s := with_pool s p in
      let keeper := mm_keeper c ++ [mkUnit (mmap_start c) new_page] in
      do s := CreateMapping (mm_pageTable c) (mmap_start c) new_page SMALL USER s in
      mmap_loop n (mkMmap keeper (mm_pageTable c) (u64 (mmap_start c + 4096))) s
  end.

(** The loop of [munmap] over the units, from the last one to the first: the
    page of the first unit found at [p], and the units without it. *)
Fixpoint find_unit (units : list mmap_unit) (p : Z) : option (Z * list mmap_unit) :=
  match units with
  | [] => None
  | u :: rest =>
      match find_unit rest p with
      | Some (a, rest') => Some (a, u :: rest')
      | None => if mapped_to u =? p then Some (source_addr u, rest) else None
      end
  end.

(** The loop of [munmap] over the pages, downwards. *)
Fixpoint munmap_loop (fuel : nat) (p addr : Z) (c : MmapControl) (s : KMem)
    : outcome (MmapControl * KMem) :=
  match fuel with
  | O => Loop
  | S fuel =>
      if addr <=? p then
        match find_unit (mm_keeper c) p with
        | Some (a, units) =>
            do q := dealloc_page a (pool s) in
            munmap_loop fuel (u64 (p - 4096)) addr (mkMmap units (mm_pageTable c) (mmap_start c))
              (with_pool s q)
        | None => Panic
        end
      else Done (c, s)
  end.

(** Every turn that does not end the loop removes a unit. *)
Definition munmap (addr length : Z) (c : MmapControl) (s : KMem) : outcome (Z * MmapControl * KMem) :=
  if negb (addr mod 0x1000 =? 0) then Panic
  else
    let p := u64 (addr + length - 1) / 4096 * 4096 in
    do (c, s) := munmap_loop (S (List.length (mm_keeper c))) p addr c s in
    let start := match mm_keeper c with [] => MMAP_VIRT_BEGIN | _ => mmap_start c end in
    Done (0, mkMmap (mm_keeper c) (mm_pageTable c) start, s).

Section mmap.
Context {D : Type} {BD : BlockDevice D}.

(** [fp] is [*LastOpenedFile] and [v] its volume. *)
Definition mmap (length fd : Z) (c : MmapControl) (s : KMem) (fp : FIL) (v : vol D)
    : outcome (Z * MmapControl * KMem * FIL * vol D) :=
  let need_page := u64 (length + 4096 - 1) / 4096 in
  let ret := mmap_start c in
  do (c, s) := mmap_loop (Z.to_nat need_page) c s in
  match f_read fp (u32 length) v with
  | None => Loop
  | Some ((_, bs, fp), v) =>
      do s := store_bytes (mm_pageTable c) ret bs s in
      match f_lseek fp 0 v with
      | None => Loop
      | Some ((_, fp), v) => Done (ret, c, s, fp, v)
      end
  end.

End mmap.

(** * Bytes and words *)

Lemma get_put m pa b pa' :
  get_byte (put_byte m pa b) pa' = if decide (pa' = pa) then u8 b else get_byte m pa'.
Proof.
  unfold get_byte, put_byte. pose proof (Z.mod_pos_bound pa 8). pose proof (Z.mod_pos_bound pa' 8).
  apply Z.bits_inj'. intros i Hi. rewrite Z.land_spec. change 0xff with (Z.ones 8).
  destruct (decide (i < 8)) as [Hlt|Hge].
  2:{ rewrite Z.ones_spec_high, andb_false_r by lia. case_decide.
      - unfold u8. by rewrite Z.mod_pow2_bits_high by lia.
      - by rewrite Z.land_spec, Z.ones_spec_high, andb_false_r by lia. }
  rewrite Z.ones_spec_low, andb_true_r, Z.shiftr_spec by lia.
  assert (∀ r, Z.testbit (Z.land r (Z.ones 8)) i = Z.testbit r i) as Hr.
  { intros r. by rewrite Z.land_spec, Z.ones_spec_low, andb_true_r by lia. }
  destruct (Z.eqb_spec (pa' - pa' mod 8) (pa - pa mod 8)) as [Ew|Ew].
  - rewrite Z.lor_spec, Z.ldiff_spec, !Z.shiftl_spec by lia. case_decide as Hd.
    + subst pa'. rewrite Z.add_simpl_r, Z.ones_spec_low by lia. simpl. by rewrite andb_false_r.
    + rewrite Hr, Z.shiftr_spec, Ew by lia.
      destruct (decide (8 * (pa mod 8) <= i + 8 * (pa' mod 8))).
      * rewrite Z.ones_spec_high by lia. unfold u8. rewrite Z.mod_pow2_bits_high by lia.
        by rewrite andb_true_r, orb_false_r.
      * rewrite !(Z.testbit_neg_r _ (i + 8 * (pa' mod 8) - 8 * (pa mod 8))) by lia.
        by rewrite andb_true_r, orb_false_r.
  - case_decide as Hd; [congruence|]. by rewrite Hr, Z.shiftr_spec by lia.
Qed.

Lemma put_out m pa b page x :
  page mod 4096 = 0 → in_page page pa → ¬ in_page page x → put_byte m pa b x = m x.
Proof.
  unfold in_page, put_byte. intros Hp Hpa Hx.
  destruct (Z.eqb_spec x (pa - pa mod 8)); [|done]. subst. destruct Hx. Z.div_mod_to_equations. lia.
Qed.

(** * Stores through a window *)

Section store.
Context (base v0 n : Z) (els rest : list Z).
Hypothesis Hv0 : v0 mod 4096 = 0.

(** Changes inside the window's own pages keep the window. *)
Lemma window_mem s s' :
  window base v0 n els s rest → pool s' = pool s →
  (∀ x, (∀ a, a ∈ els → ¬ in_page a x) → mem s' x = mem s x) →
  window base v0 n els s' rest ∧ ∀ va, translate (mem s') base va = translate (mem s) base va.
Proof.
  intros [[T Hr] Wl Wm Wr] Hp Hm. pose proof (pr_pool _ _ _ _ Hr) as Hok.
  assert (∀ t x, t ∈ table_pages base T → in_page t x → mem s' x = mem s x) as Ht.
  { intros t x Ht Hx. apply Hm. intros a Ha. apply elem_of_Permutation in Ha as [k Hk].
    rewrite Hk in Hok. apply (owned_apart _ (table_pages base T) a (k ++ rest) t x Hok); [set_solver|done]. }
  destruct (rep_frame s s' base T _ (els ++ rest) Hr) as [Hr' Htr]; [by rewrite Hp|done|].
  split; [|done]. split; [by exists T|done|..].
  - intros va Hva. rewrite Htr. by apply Wm.
  - intros va Hva. rewrite (Ht base); [by apply Wr|apply root_page|apply in_page_entry, vpn_range].
Qed.

Lemma window_pages s : window base v0 n els s rest → NoDup els ∧ ∀ a, a ∈ els → a mod 4096 = 0.
Proof using Type.
  intros [[T Hr] _ _ _]. pose proof (pr_pool _ _ _ _ Hr) as Hok. split.
  - pose proof (pool_NoDup _ _ Hok) as Hn. rewrite !NoDup_app in Hn. apply Hn.
  - intros a Ha. apply (pool_page _ _ a Hok), (pool_owned_in _ _ _ Hok).
    apply elem_of_app. right. apply elem_of_app. by left.
Qed.

(** The translation of a mapped address of the window. *)
Lemma window_at s va :
  window base v0 n els s rest → v0 <= va < v0 + 4096 * zlen els →
  ∃ a, els !! Z.to_nat ((va - v0) / 4096) = Some a ∧
    translate (mem s) base va = Some (a + va mod 4096, 0xdf).
Proof.
  intros Hw Hva. pose proof Hw as [_ Wl Wm _]. unfold zlen in *.
  destruct (lookup_lt_is_Some_2 els (Z.to_nat ((va - v0) / 4096))) as [a Ha].
  { Z.div_mod_to_equations. lia. }
  exists a. split; [done|]. rewrite Wm, Ha by lia. done.
Qed.

Lemma window_inj s va va' a a' :
  window base v0 n els s rest → v0 <= va → v0 <= va' →
  els !! Z.to_nat ((va - v0) / 4096) = Some a → els !! Z.to_nat ((va' - v0) / 4096) = Some a' →
  a + va mod 4096 = a' + va' mod 4096 → va = va'.
Proof.
  intros Hw H1 H2 E E' Heq. destruct (window_pages s Hw) as [Hn Ha].
  pose proof (Ha a ltac:(by eapply list_elem_of_lookup_2)).
  pose proof (Ha a' ltac:(by eapply list_elem_of_lookup_2)).
  assert (a = a') as <- by (Z.div_mod_to_equations; lia).
  pose proof (NoDup_lookup _ _ _ _ Hn E E'). Z.div_mod_to_equations. lia.
Qed.

(** A list of bytes is stored and nothing else in the window changes. *)
Lemma store_spec bs va s :
  window base v0 n els s rest → v0 <= va → va + zlen bs <= v0 + 4096 * zlen els →
  ∃ s', store_bytes base va bs s = Done s' ∧ pool s' = pool s ∧ window base v0 n els s' rest ∧
    (∀ x, (∀ a, a ∈ els → ¬ in_page a x) → mem s' x = mem s x) ∧
    (∀ va', translate (mem s') base va' = translate (mem s) base va') ∧
    ∀ va', v0 <= va' < v0 + 4096 * zlen els →
      load_byte s' base va' =
      if decide (va <= va' < va + zlen bs) then Some (u8 (zget bs (va' - va))) else load_byte s base va'.
Proof.
  revert va s. induction bs as [|b bs IH]; intros va s Hw Hlo Hhi; simpl.
  { exists s. split_and!; auto. intros va' _. unfold zlen. simpl. rewrite decide_False by lia. done. }
  assert (zlen (b :: bs) = 1 + zlen bs) as Hlen by (unfold zlen; simpl; lia).
  assert (0 <= zlen bs) by (unfold zlen; lia).
  destruct (window_at s va Hw ltac:(lia)) as (a & Ha & Ht). rewrite Ht.
  set (s1 := mkKMem (put_byte (mem s) (a + va mod 4096) b) (pool s)).
  destruct (window_pages s Hw) as [_ Hal]. specialize (Hal a ltac:(by eapply list_elem_of_lookup_2)).
  assert (in_page a (a + va mod 4096)) as Hin by (unfold in_page; Z.div_mod_to_equations; lia).
  assert (∀ x, (∀ a, a ∈ els → ¬ in_page a x) → mem s1 x = mem s x) as Hm1.
  { intros x Hx. apply (put_out _ _ _ a); [done|done|]. apply Hx. by eapply list_elem_of_lookup_2. }
  destruct (window_mem s s1 Hw eq_refl Hm1) as [W1 Ht1].
  destruct (IH (va + 1) s1 W1) as (s' & E & Hp & W & Hm & Htr & Hl); [lia|lia|].
  exists s'. split; [done|]. split; [done|]. split; [done|]. split; [intros x Hx; by rewrite Hm, Hm1|].
  split; [intros va'; by rewrite Htr, Ht1|]. intros va' Hva'. rewrite Hl by done.
  assert (load_byte s1 base va' = if decide (va' = va) then Some (u8 b) else load_byte s base va') as H1.
  { destruct (window_at s va' Hw Hva') as (a' & Ha' & Ht'). unfold load_byte. rewrite Ht1, Ht'.
    subst s1. simpl. rewrite get_put. case_decide as Hd; case_decide as Hd'; try done.
    - destruct Hd'. by eapply window_inj; eauto; lia.
    - subst. simplify_eq. }
  rewrite H1. destruct (decide (va + 1 <= va' < va + 1 + zlen bs)) as [Hd|Hd];
    destruct (decide (va' = va)) as [->|Hne].
  - lia.
  - rewrite decide_True by lia. do 2 f_equal. unfold zget.
    replace (Z.to_nat (va' - va)) with (S (Z.to_nat (va' - (va + 1)))) by lia. done.
  - rewrite decide_True by lia. unfold zget. by rewrite Z.sub_diag.
  - rewrite decide_False by lia. done.
Qed.

End store.

(** * The mappings of a process *)

(** Up to the fast system call page at 0x200000000. *)
Definition MMAP_PAGES : Z := 0x100000.

(** Mappings as [mmap] makes them, one page after the other. *)
Record mmap_ok (c : MmapControl) (s : KMem) (rest : list Z) : Prop := mkMmapOk {
  mo_window : window (mm_pageTable c) MMAP_VIRT_BEGIN MMAP_PAGES (source_addr <$> mm_keeper c) s rest;
  mo_units i u : mm_keeper c !! i = Some u → mapped_to u = MMAP_VIRT_BEGIN + 4096 * Z.of_nat i;
  mo_start : mmap_start c = MMAP_VIRT_BEGIN + 4096 * zlen (mm_keeper c)
}.

Lemma mmap_v0 : 0x1000 <= MMAP_VIRT_BEGIN ∧ MMAP_VIRT_BEGIN + 4096 * MMAP_PAGES < 2 ^ 38 ∧
  MMAP_VIRT_BEGIN mod 4096 = 0.
Proof. by repeat split. Qed.

Lemma zlen_fmap {A B} (f : A → B) l : zlen (f <$> l) = zlen l.
Proof. unfold zlen. by rewrite length_fmap. Qed.

Lemma mmap_loop_spec n c s rest :
  mmap_ok c s rest → zlen (mm_keeper c) + Z.of_nat n <= MMAP_PAGES → (3 * n <= nfree s)%nat →
  ∃ c' s', mmap_loop n c s = Done (c', s') ∧ mmap_ok c' s' rest ∧ mm_pageTable c' = mm_pageTable c ∧
    zlen (mm_keeper c') = zlen (mm_keeper c) + Z.of_nat n ∧
    step_frame (mm_pageTable c) MMAP_VIRT_BEGIN MMAP_PAGES
      ((source_addr <$> mm_keeper c) ++ rest) s s' ∧
    ∃ new, mm_keeper c' = mm_keeper c ++ new.
Proof.
  revert c s. induction n as [|n IH]; intros c s Hok Hl Hn; cbn [mmap_loop].
  { exists c, s. split_and!; auto using step_frame_refl; [lia|]. exists []. by rewrite app_nil_r. }
  pose proof Hok as [Hw Hu Hst]. pose proof Hw as [[T Hr] _ _ _].
  destruct (alloc_page_spec _ _ (pr_pool _ _ _ _ Hr)) as [[E _]|(a & p & Ea & _)].
  { unfold nfree in Hn. rewrite E in Hn. simpl in Hn. lia. }
  rewrite Ea. cbn [obind].
  destruct (window_step _ _ _ _ _ _ Hw mmap_v0 a p (with_pool s p)) as (s2 & E2 & W2 & _ & Hfr & Hn2);
    [rewrite zlen_fmap; lia|done|lia|done|done|].
  rewrite zlen_fmap in E2. rewrite Hst, E2. cbn [obind].
  assert (0 <= zlen (mm_keeper c)) by (unfold zlen; lia).
  set (c' := mkMmap _ _ _). destruct (IH c' s2) as (c2 & s' & E & Hok' & Hpt & Hz & F & new & Hnew).
  - subst c'. split; simpl.
    + by rewrite fmap_app.
    + intros i u Hi. apply lookup_app_Some in Hi as [Hi|[Hi Hi']]; [by apply Hu|].
      apply list_lookup_singleton_Some in Hi' as [Hi0 <-]. simpl. unfold zlen. lia.
    + unfold MMAP_VIRT_BEGIN, MMAP_PAGES, zlen in *. rewrite u64_small by lia.
      rewrite length_app. simpl. lia.
  - subst c'. simpl. unfold zlen in *. rewrite length_app. simpl. lia.
  - lia.
  - subst c'. simpl in *. exists c2, s'. split; [done|]. split; [done|]. split; [done|].
    split; [unfold zlen in *; rewrite length_app in Hz; simpl in Hz; lia|]. split.
    + eapply step_frame_trans; [exact Hfr|exact F|]. rewrite fmap_app. set_solver.
    + exists (mkUnit (MMAP_VIRT_BEGIN + 4096 * zlen (mm_keeper c)) a :: new). by rewrite Hnew, <- app_assoc.
Qed.

(** Bytes of the mappings that were there stay as they were. *)
Lemma load_old c c1 s s1 rest new va :
  mmap_ok c s rest → mmap_ok c1 s1 rest → mm_pageTable c1 = mm_pageTable c →
  mm_keeper c1 = mm_keeper c ++ new →
  step_frame (mm_pageTable c) MMAP_VIRT_BEGIN MMAP_PAGES ((source_addr <$> mm_keeper c) ++ rest) s s1 →
  MMAP_VIRT_BEGIN <= va < MMAP_VIRT_BEGIN + 4096 * zlen (mm_keeper c) →
  load_byte s1 (mm_pageTable c) va = load_byte s (mm_pageTable c) va.
Proof.
  intros [W _ _] [W1 _ _] Hpt Hnew Hf Hva. unfold load_byte.
  destruct (window_at _ _ _ _ _ s va W) as (a & Ha & ->); [by rewrite zlen_fmap|].
  pose proof (wi_len _ _ _ _ _ _ W) as Hl. rewrite zlen_fmap in Hl. rewrite <- Hpt.
  rewrite (wi_map _ _ _ _ _ _ W1 va) by lia. rewrite Hnew, fmap_app, (lookup_app_l_Some _ _ _ a Ha).
  unfold get_byte. do 3 f_equal. apply (sf_mem _ _ _ _ _ _ Hf a).
  - apply elem_of_app. left. by eapply list_elem_of_lookup_2.
  - destruct (window_pages _ _ _ _ _ s W) as [_ Hal].
    specialize (Hal a ltac:(by eapply list_elem_of_lookup_2)). unfold in_page.
    Z.div_mod_to_equations. lia.
Qed.

Section theorems.
Context {D : Type} {BD : BlockDevice D} {BL : BlockDeviceLaws D}.
Implicit Types v : vol D.

Lemma file_byte_u8 v l p : wf v → u8 (file_byte v l p) = file_byte v l p.
Proof.
  intros Hwf. apply u8_small. unfold file_byte. apply (zget_byte _ (p mod SS)). by apply view_bytes.
Qed.

(** C5: [mmap] maps a fresh range of the process behind its earlier mappings
    and loads the last opened file into it: through the page table the
    process then reads the bytes of the file from its pointer on; the file
    pointer is back at the start, the volume is as before, and earlier
    mappings, other pages in use and other translations are unchanged. *)
Theorem mmap_loads_file length fd c s rest fp v l :
  mmap_ok c s rest → wf v → reliable v → valid_fil v fp → fil_ok v fp l →
  zbits (flag fp) FA_READ = true → 0 <= length < 2 ^ 32 →
  let pages := (length + 4095) / 4096 in
  zlen (mm_keeper c) + pages <= MMAP_PAGES → (3 * Z.to_nat pages <= nfree s)%nat →
  ∃ c' s' fp' v', mmap length fd c s fp v = Done (mmap_start c, c', s', fp', v') ∧
    mmap_ok c' s' rest ∧ zlen (mm_keeper c') = zlen (mm_keeper c) + pages ∧
    veq v v' ∧ fptr fp' = 0 ∧
    (∀ i, 0 <= i < Z.min length (objsize (fobj fp) - fptr fp) →
      load_byte s' (mm_pageTable c) (mmap_start c + i) = Some (file_byte v l (fptr fp + i))) ∧
    (∀ a x, a ∈ rest → in_page a x → mem s' x = mem s x) ∧
    (∀ va, MMAP_VIRT_BEGIN <= va < mmap_start c →
      load_byte s' (mm_pageTable c) va = load_byte s (mm_pageTable c) va).
Proof.
  intros Hok Hwf HR Hval Hfil Hrd Hlen pages Hroom Hn. unfold mmap.
  assert (0 <= pages) as Hp0 by (subst pages; Z.div_mod_to_equations; lia).
  replace (u64 (length + 4096 - 1) / 4096) with pages.
  2:{ subst pages. rewrite u64_small by lia. f_equal. lia. }
  destruct (mmap_loop_spec (Z.to_nat pages) c s rest Hok) as (c1 & s1 & E1 & Hok1 & Hpt & Hz & Hf & new & Hnew);
    [lia|lia|]. rewrite E1. cbn [obind]. rewrite u32_small by lia.
  destruct (f_read_spec v fp l length Hwf HR Hval Hfil Hrd) as (fp1 & v1 & Er & Hq & Hfil1 & Hval1 & _ & Ho & _);
    [lia|]. rewrite Er. set (n := Z.min length (objsize (fobj fp) - fptr fp)) in *.
  pose proof (fo_ptr _ _ _ Hfil) as Hptr.
  assert (n <= length) by lia. assert (length <= 4096 * pages) by (subst pages; Z.div_mod_to_equations; lia).
  pose proof (mo_start _ _ _ Hok) as Hst. pose proof (mo_window _ _ _ Hok1) as W1.
  assert (0 <= zlen (mm_keeper c)) by (unfold zlen; lia).
  destruct (store_spec _ _ _ _ _ (proj2 (proj2 mmap_v0)) (file_bytes v l (fptr fp) n) (mmap_start c) s1 W1)
    as (s2 & E2 & Hp2 & W2 & Hm2 & Ht2 & Hl2).
  { lia. }
  { rewrite zlen_fmap, zlen_file_bytes, Hz by lia. lia. }
  rewrite E2. cbn [obind]. pose proof Hq as (Hwf1 & Hv1 & _).
  destruct (f_lseek_spec v1 fp1 l 0 Hwf1 (reliable_veq _ _ Hv1 HR) Hval1 Hfil1)
    as (fp2 & v2 & El & Hq2 & _ & _ & Hp & _); [pose proof (fo_size _ _ _ Hfil1); lia|]. rewrite El.
  rewrite zlen_fmap, Hz, zlen_file_bytes, Hpt in Hl2 by lia.
  exists c1, s2, fp2, v2. split; [done|]. split; [by destruct Hok1; split|]. split; [lia|].
  split; [apply (quiet_trans _ _ _ Hq Hq2)|]. split; [done|]. split; [|split].
  - intros i Hi. rewrite Hl2, decide_True by lia. f_equal.
    rewrite <- (file_byte_u8 v l (fptr fp + i)) by done. f_equal. unfold file_bytes, zget.
    replace (mmap_start c + i - mmap_start c) with i by lia.
    rewrite list_lookup_fmap, lookup_seqZ_lt by lia. simpl. f_equal. lia.
  - intros a x Ha Hx. rewrite Hm2.
    + apply (sf_mem _ _ _ _ _ _ Hf a); [set_solver|done].
    + intros b Hb Hbx. pose proof W1 as [[T1 R1] _ _ _]. pose proof (pr_pool _ _ _ _ R1) as Hpo.
      apply elem_of_Permutation in Hb as [k Hk]. rewrite Hk in Hpo.
      apply (owned_apart _ (table_pages (mm_pageTable c1) T1) b (k ++ rest) a x Hpo); [set_solver|done|done].
  - intros va Hva. rewrite Hl2, decide_False by lia.
    apply (load_old c c1 s s1 rest new); auto. lia.
Qed.
End theorems.

(** * Unmapping *)

Lemma find_unit_last l u : find_unit (l ++ [u]) (mapped_to u) = Some (source_addr u, l).
Proof.
  induction l as [|x l IH]; simpl; [by rewrite Z.eqb_refl|]. by rewrite IH.
Qed.

(** Pages are released from the last unit down to the unit [kept]. *)
Lemma munmap_loop_spec gone : ∀ kept fuel c s pages rest,
  mm_keeper c = kept ++ gone → (length gone < fuel)%nat →
  (∀ i u, mm_keeper c !! i = Some u → mapped_to u = MMAP_VIRT_BEGIN + 4096 * Z.of_nat i) →
  zlen (mm_keeper c) <= MMAP_PAGES →
  pool_ok (pool s) (pages ++ (source_addr <$> mm_keeper c) ++ rest) →
  ∃ s', munmap_loop fuel (MMAP_VIRT_BEGIN + 4096 * (zlen (kept ++ gone) - 1))
      (MMAP_VIRT_BEGIN + 4096 * zlen kept) c s =
      Done (mkMmap kept (mm_pageTable c) (mmap_start c), s') ∧ mem s' = mem s ∧
    pool_ok (pool s') (pages ++ (source_addr <$> kept) ++ rest) ∧
    (∀ u, u ∈ gone → source_addr u ∈ free_pages (pool s')) ∧
    ∀ a, a ∈ free_pages (pool s) → a ∈ free_pages (pool s').
Proof.
  induction gone as [|u gone IH] using rev_ind; intros kept fuel c s pages rest Hk Hfuel Hu Hlen Hok.
  - destruct fuel as [|fuel]; [simpl in *; lia|]. cbn [munmap_loop]. rewrite app_nil_r in *.
    rewrite (proj2 (Z.leb_gt _ _)) by lia. exists s. destruct c. simpl in *. subst.
    split_and!; auto. set_solver.
  - destruct fuel as [|fuel]; [simpl in *; lia|]. cbn [munmap_loop].
    rewrite length_app in Hfuel. simpl in Hfuel. rewrite app_assoc in Hk. rewrite (app_assoc kept).
    assert (zlen ((kept ++ gone) ++ [u]) = zlen (kept ++ gone) + 1) as Hz
      by (unfold zlen; rewrite length_app; simpl; lia).
    assert (zlen kept <= zlen (kept ++ gone)) by (unfold zlen; rewrite length_app; lia).
    assert (mapped_to u = MMAP_VIRT_BEGIN + 4096 * zlen (kept ++ gone)) as Hmu.
    { apply Hu. rewrite Hk. by apply list_lookup_middle. }
    rewrite Hz. rewrite (proj2 (Z.leb_le _ _)) by lia.
    replace (zlen (kept ++ gone) + 1 - 1) with (zlen (kept ++ gone)) by lia.
    rewrite <- Hmu, Hk, find_unit_last. rewrite Hk, fmap_app in Hok. simpl in Hok.
    assert (pool_ok (pool s) (source_addr u :: pages ++ (source_addr <$> (kept ++ gone)) ++ rest)) as Hok1.
    { eapply pool_ok_perm; [exact Hok|]. rewrite <- app_assoc. cbn [app].
      by rewrite <- (Permutation_middle _ rest), <- (Permutation_middle pages). }
    destruct (dealloc_page_spec _ _ _ Hok1) as (q & -> & Hf & Hokq & _). cbn [obind].
    rewrite Hk, Hz in Hlen. unfold MMAP_PAGES, MMAP_VIRT_BEGIN in Hlen, Hmu.
    assert (0 <= zlen (kept ++ gone)) by (unfold zlen; lia).
    rewrite u64_small by (rewrite Hmu; lia).
    replace (mapped_to u - 4096) with (MMAP_VIRT_BEGIN + 4096 * (zlen (kept ++ gone) - 1))
      by (rewrite Hmu; unfold MMAP_VIRT_BEGIN; lia).
    destruct (IH kept fuel (mkMmap (kept ++ gone) (mm_pageTable c) (mmap_start c)) (with_pool s q) pages rest)
      as (s' & E & Hm & Hp & Hg & Hfr); simpl; try done.
    + lia.
    + intros i x Hi. apply Hu. rewrite Hk. by apply lookup_app_l_Some.
    + unfold MMAP_PAGES. lia.
    + exists s'. split; [done|]. split; [done|]. split; [done|]. simpl in Hfr. rewrite Hf in Hfr.
      split; [|set_solver]. intros x Hx. apply elem_of_app in Hx as [Hx|Hx]; [by apply Hg|].
      apply list_elem_of_singleton in Hx as ->. set_solver.
Qed.

(** [munmap] of the last pages mapped returns exactly these pages to the
    pool and forgets them. It leaves the page table alone (the code notes
    this as to do): the addresses still translate, now to free pages. *)
Theorem munmap_frees c s rest kept gone :
  mmap_ok c s rest → mm_keeper c = kept ++ gone → gone ≠ [] →
  let addr := MMAP_VIRT_BEGIN + 4096 * zlen kept in
  ∃ s', munmap addr (4096 * zlen gone) c s =
      Done (0, mkMmap kept (mm_pageTable c)
                 (match kept with [] => MMAP_VIRT_BEGIN | _ => mmap_start c end), s') ∧
    (∃ T, pt_rep s' (mm_pageTable c) T ((source_addr <$> kept) ++ rest)) ∧
    ∀ u, u ∈ gone → source_addr u ∈ free_pages (pool s') ∧
      translate (mem s') (mm_pageTable c) (mapped_to u) = Some (source_addr u, 0xdf).
Proof.
  intros [W Hu Hst] Hk Hg addr. pose proof W as [[T Hr] Wl _ _]. rewrite zlen_fmap in Wl.
  assert (0 <= zlen kept) by (unfold zlen; lia).
  assert (0 < zlen gone) by (destruct gone; [done|unfold zlen; simpl; lia]).
  assert (zlen (mm_keeper c) = zlen kept + zlen gone) as Hz by (rewrite Hk; unfold zlen; rewrite length_app; lia).
  assert (MMAP_VIRT_BEGIN mod 4096 = 0) as Hm by done.
  unfold munmap. rewrite (proj2 (Z.eqb_eq _ _)) by (subst addr; Z.div_mod_to_equations; lia). cbn [negb].
  unfold MMAP_PAGES in Wl. 
  replace (u64 (addr + 4096 * zlen gone - 1) / 4096 * 4096)
    with (MMAP_VIRT_BEGIN + 4096 * (zlen (kept ++ gone) - 1)).
  2:{ rewrite <- Hk, Hz. subst addr. unfold MMAP_VIRT_BEGIN in *. rewrite u64_small by lia.
      Z.div_mod_to_equations. lia. }
  subst addr. destruct (munmap_loop_spec gone kept (S (length (mm_keeper c))) c s
    (table_pages (mm_pageTable c) T) rest Hk) as (s' & -> & Hmem & Hp & Hfree & _).
  { rewrite Hk, length_app. lia. }
  { done. }
  { unfold MMAP_PAGES. lia. }
  { apply (pr_pool _ _ _ _ Hr). }
  cbn [obind mm_keeper mm_pageTable mmap_start]. exists s'. split; [by destruct kept|]. split.
  - exists T. apply (rep_frame s s' _ _ _ _ Hr Hp). intros. by rewrite Hmem.
  - intros u Hin. split; [by apply Hfree|]. rewrite Hmem.
    assert (u ∈ mm_keeper c) as [i Hi]%list_elem_of_lookup_1 by (rewrite Hk; apply elem_of_app; by right).
    pose proof (lookup_lt_Some _ _ _ Hi) as Hlt. rewrite (Hu _ _ Hi). unfold zlen in Hz.
    rewrite (wi_map _ _ _ _ _ _ W) by (unfold MMAP_PAGES; unfold zlen in *; lia).
    replace (Z.to_nat ((MMAP_VIRT_BEGIN + 4096 * Z.of_nat i - MMAP_VIRT_BEGIN) / 4096)) with i
      by (Z.div_mod_to_equations; lia).
    rewrite list_lookup_fmap, Hi. simpl. do 2 f_equal.
    replace ((MMAP_VIRT_BEGIN + 4096 * Z.of_nat i) mod 4096) with 0 by (Z.div_mod_to_equations; lia). lia.
Qed.

(** The units of a forked process have their two fields exchanged: the
    virtual address is kept where the page should be. *)
Lemma mmap_fork_swaps other base s c' s' :
  copy_MmapControl other base s = Done (c', s') →
  Forall2 (λ u u', source_addr u' = mapped_to u) (mm_keeper other) (mm_keeper c').
Proof.
  unfold copy_MmapControl.
  assert (∀ us c s, mmap_copy_loop us c s = Done (c', s') →
    ∃ new, mm_keeper c' = mm_keeper c ++ new ∧ Forall2 (λ u u', source_addr u' = mapped_to u) us new) as H.
  { induction us as [|u us IH]; intros c s0 E; simpl in E.
    - injection E as <- _. exists []. by rewrite app_nil_r.
    - destruct (alloc_page _) as [[a p]| | |]; try done. simpl in E.
      destruct (CreateMapping _ _ _ _ _ _) as [s1| | |]; try done. simpl in E.
      destruct (IH _ _ E) as (new & Hn & Hf). simpl in Hn. rewrite <- app_assoc in Hn.
      exists (mkUnit a (mapped_to u) :: new). split; [done|]. by constructor. }
  intros E. destruct (H _ _ _ E) as (new & -> & Hf). done.
Qed.

(** * A concrete mapping *)

Lemma ex_mmap : ∃ a s base, mmap_ok (new_MmapControl base) s [a] ∧ (1498 <= nfree s)%nat.
Proof.
  destruct ex_space as (a & s & base & _ & Hr & Hn & H0 & Ht). exists a, s, base. split; [|exact Hn].
  split; [|done|done]. split; simpl.
  - by exists no_tables.
  - by unfold zlen, MMAP_PAGES.
  - intros va _. by rewrite Ht.
  - intros va _. by rewrite H0 by apply vpn_range.
Qed.

Lemma mmap_loads_file_witness :
  ∃ c s c' s' fp' v', mmap 2000 3 c s ex_fil ex_vol = Done (mmap_start c, c', s', fp', v') ∧
    load_byte s' (mm_pageTable c) (mmap_start c + 1000) = Some (file_byte ex_vol ex_chain 1000).
Proof.
  destruct ex_mmap as (a & s & base & Hok & Hn). exists (new_MmapControl base), s.
  destruct (mmap_loads_file 2000 3 (new_MmapControl base) s [a] ex_fil ex_vol ex_chain Hok ex_wf ex_reliable
    ex_valid_fil ex_fil_ok eq_refl) as (c' & s' & fp' & v' & E & _ & _ & _ & _ & H & _).
  - lia.
  - unfold MMAP_PAGES, zlen. simpl. vm_compute. discriminate.
  - change (3 * Z.to_nat _)%nat with 3%nat. lia.
  - exists c', s', fp', v'. split; [exact E|]. apply (H 1000). 
    change (objsize (fobj ex_fil)) with 1300. change (fptr ex_fil) with 0. lia.
Defined.

Lemma munmap_frees_witness :
  ∃ c s c' s', munmap MMAP_VIRT_BEGIN 4096 c s = Done (0, c', s') ∧ mm_keeper c' = [].
Proof.
  destruct ex_mmap as (a & s & base & Hok & Hn).
  destruct (mmap_loop_spec 1 (new_MmapControl base) s [a] Hok) as (c1 & s1 & _ & Hok1 & _ & Hz & _);
    [unfold zlen, MMAP_PAGES; simpl; lia|lia|].
  exists c1, s1. change (zlen (mm_keeper c1) = 1) in Hz.
  destruct (munmap_frees c1 s1 [a] [] (mm_keeper c1) Hok1 eq_refl) as (s' & E & _).
  { intros Hnil. rewrite Hnil in Hz. discriminate Hz. }
  rewrite Hz in E. exists (mkMmap [] (mm_pageTable c1) MMAP_VIRT_BEGIN), s'. exact (conj E eq_refl).
Defined.
