(* ===== verification/KUser.v ===== *)
(** The memory of the running process, as system calls use it.

    The kernel runs on the page table of the process, so it uses the pointers
    that a process passes as they are.  [UserMemory] is what the calls need of
    that memory; it is implemented by the physical memory behind a page table
    ([UMem]) and, for examples, by a flat memory.  An access without a
    translation is a fault inside the kernel ([Wild]). *)
From Stdlib Require Import ZArith Lia.
From stdpp Require Import base list numbers option.
From S2P Require Import Prelude KBase KPages KPageTable KPageTableSpec KVm KBrk KMmap.

Local Open Scope Z_scope.
Local Open Scope out_scope.

Class UserMemory (M : Type) := {
  uload : M → Z → option Z;
  ustore : Z → list Z → M → outcome M
}.

(** [region_ok R m]: the addresses in [R] are mapped, to distinct bytes of
    pages that are not page tables. *)
Class UserMemoryLaws (M : Type) `{UserMemory M} := {
  region_ok : (Z → Prop) → M → Prop;
  region_load R m a : region_ok R m → R a → ∃ b, uload m a = Some b ∧ is_byte b;
  region_store R m a bs : region_ok R m → (∀ i, 0 <= i < zlen bs → R (a + i)) →
    ∃ m', ustore a bs m = Done m' ∧ region_ok R m' ∧
      ∀ x, R x → uload m' x = if decide (a <= x < a + zlen bs) then Some (u8 (zget bs (x - a))) else uload m x
}.

Section access.
Context {M : Type} `{UserMemory M}.
Implicit Types m : M.

Definition load_at m (a : Z) : outcome Z := match uload m a with Some b => Done b | None => Wild end.

Fixpoint load_list (k : nat) m (a : Z) : outcome (list Z) :=
  match k with
  | O => Done []
  | S k => do b := load_at m a in do l := load_list k m (a + 1) in Done (b :: l)
  end.
Definition load_bytes m (a n : Z) : outcome (list Z) := load_list (Z.to_nat n) m a.

(** A string; longer ones overrun the buffers they are copied to. *)
Fixpoint load_string (fuel : nat) m (a : Z) : outcome (list Z) :=
  match fuel with
  | O => Wild
  | S fuel =>
      do c := load_at m a in
      if c =? 0 then Done [] else do s := load_string fuel m (a + 1) in Done (c :: s)
  end.

(** Little-endian fields of 32 and 64 bits. *)
Definition le_value (bs : list Z) : Z := foldr (λ b x, b + 256 * x) 0 bs.
Definition load_size m (a : Z) : outcome Z := do bs := load_bytes m a 8 in Done (le_value bs).

End access.

Definition le_bytes (n : nat) (x : Z) : list Z := (λ k, u8 (Z.shiftr x (8 * k))) <$> seqZ 0 (Z.of_nat n).
(** An [int], an [unsigned] and a [long] in memory. *)
Definition int_bytes (n : Z) : list Z := le_bytes 4 (u32 n).
Definition long_bytes (n : Z) : list Z := le_bytes 8 (u64 n).

(** * Loads and stores in a region *)

Section laws.
Context {M : Type} `{UserMemoryLaws M}.
Implicit Types m : M.

Lemma load_list_region R m k : ∀ a, region_ok R m → (∀ i, 0 <= i < Z.of_nat k → R (a + i)) →
  ∃ bs, load_list k m a = Done bs ∧ length bs = k ∧ bytes bs ∧
    ∀ i, 0 <= i < Z.of_nat k → uload m (a + i) = Some (zget bs i).
Proof.
  induction k as [|k IH]; intros a Hm HR.
  { exists []. split_and!; [done|done|by apply Forall_nil|]. lia. }
  destruct (region_load R m a Hm) as (b & Eb & Hb); [rewrite <- (Z.add_0_r a); apply HR; lia|].
  destruct (IH (a + 1) Hm) as (bs & E & Hl & Hbs & Hu).
  { intros i Hi. rewrite <- Z.add_assoc. apply HR. lia. }
  exists (b :: bs). cbn [load_list]. unfold load_at. rewrite Eb. cbn [obind]. rewrite E. cbn [obind].
  split_and!; [done|by cbn; rewrite Hl|by apply Forall_cons|].
  intros i Hi. destruct (decide (i = 0)) as [->|Hne]; [by rewrite Z.add_0_r|].
  replace (a + i) with (a + 1 + (i - 1)) by lia. rewrite Hu by lia. f_equal. unfold zget.
  replace (Z.to_nat i) with (S (Z.to_nat (i - 1))) by lia. done.
Qed.

(** The bytes at [a]. *)
Lemma load_bytes_region R m a n : region_ok R m → 0 <= n → (∀ i, 0 <= i < n → R (a + i)) →
  ∃ bs, load_bytes m a n = Done bs ∧ zlen bs = n ∧ bytes bs ∧ ∀ i, 0 <= i < n → uload m (a + i) = Some (zget bs i).
Proof.
  intros Hm Hn HR. unfold load_bytes.
  destruct (load_list_region R m (Z.to_nat n) a Hm) as (bs & E & Hl & Hb & Hu).
  { intros i Hi. apply HR. lia. }
  exists bs. split_and!; [done|unfold zlen; lia|done|]. intros i Hi. apply Hu. lia.
Qed.

Lemma load_list_ext m m' k : ∀ a, (∀ i, 0 <= i < Z.of_nat k → uload m' (a + i) = uload m (a + i)) →
  load_list k m' a = load_list k m a.
Proof.
  induction k as [|k IH]; intros a Hx; [done|]. cbn [load_list]. unfold load_at.
  pose proof (Hx 0 ltac:(lia)) as H0x. rewrite Z.add_0_r in H0x. rewrite H0x. destruct (uload m a); [|done]. cbn [obind].
  rewrite IH; [done|]. intros i Hi. rewrite <- Z.add_assoc. apply Hx. lia.
Qed.

(** What was stored is loaded. *)
Lemma load_stored R m' a n bs : region_ok R m' → zlen bs = n → bytes bs → (∀ i, 0 <= i < n → R (a + i)) →
  (∀ i, 0 <= i < n → uload m' (a + i) = Some (u8 (zget bs i))) → load_bytes m' a n = Done bs.
Proof.
  intros Hm <- Hb HR Hu. destruct (load_bytes_region R m' a (zlen bs) Hm) as (cs & E & Hl & Hc & Hv); [unfold zlen; lia|done|].
  rewrite E. f_equal. apply list_eq_same_length with (length bs); [done|unfold zlen in Hl; lia|].
  intros i x y Hi Hx Hy. assert (0 <= Z.of_nat i < zlen bs) as Hr by (unfold zlen; lia).
  specialize (Hu _ Hr). rewrite (Hv _ Hr) in Hu. injection Hu as Hz. unfold zget in Hz. rewrite Nat2Z.id, Hx, Hy in Hz.
  cbn in Hz. rewrite Hz. apply u8_small. exact (proj1 (Forall_lookup _ _) Hb _ _ Hy).
Qed.

End laws.

Lemma le_bytes_zlen n x : zlen (le_bytes n x) = Z.of_nat n.
Proof. unfold le_bytes, zlen. rewrite length_fmap, length_seqZ. lia. Qed.

Lemma le_bytes_bytes n x : bytes (le_bytes n x).
Proof. apply Forall_fmap, Forall_true. intros k. apply u8_byte. Qed.

(** * The memory behind a page table *)

Record UMem : Type := mkUMem { um_table : Z; um_mem : KMem }.

#[global] Instance paged_memory : UserMemory UMem := {
  uload m a := load_byte (um_mem m) (um_table m) a;
  ustore a bs m := do s := store_bytes (um_table m) a bs (um_mem m) in Done (mkUMem (um_table m) s)
}.

(** A region inside the mapped part of a window: the heap of the process or
    its mappings. *)
Definition paged_region (R : Z → Prop) (m : UMem) : Prop :=
  ∃ v0 n els rest, window (um_table m) v0 n els (um_mem m) rest ∧ v0 mod 4096 = 0 ∧
    ∀ a, R a → v0 <= a < v0 + 4096 * zlen els.

#[global] Program Instance paged_laws : UserMemoryLaws UMem := { region_ok := paged_region }.
Next Obligation.
  intros R m a (v0 & n & els & rest & W & Hv & Hin) Ha.
  destruct (window_at _ _ _ _ _ _ _ W (Hin _ Ha)) as (pg & _ & Et). unfold uload, paged_memory, load_byte. rewrite Et.
  eexists. split; [done|]. unfold get_byte, is_byte. change 0xff with (Z.ones 8). rewrite Z.land_ones by lia.
  apply Z.mod_pos_bound. lia.
Qed.
Next Obligation.
  intros R m a bs (v0 & n & els & rest & W & Hv & Hin) HR.
  destruct bs as [|b bs].
  { exists (mkUMem (um_table m) (um_mem m)). split; [done|]. destruct m as [t s]. split; [by exists v0, n, els, rest|].
    intros x _. rewrite decide_False; [done|]. unfold zlen. cbn. lia. }
  assert (0 < zlen (b :: bs)) as Hpos by (unfold zlen; cbn; lia).
  pose proof (Hin _ (HR 0 ltac:(lia))) as Hlo. pose proof (Hin _ (HR (zlen (b :: bs) - 1) ltac:(lia))) as Hhi.
  destruct (store_spec _ _ _ _ _ Hv (b :: bs) a _ W) as (s' & E & _ & W' & _ & _ & Hl); [lia|lia|].
  exists (mkUMem (um_table m) s'). unfold ustore, paged_memory. rewrite E. split; [done|].
  split; [by exists v0, n, els, rest|]. intros x Hx. exact (Hl x (Hin _ Hx)).
Qed.

(** * A flat memory *)

#[global] Instance flat_memory : UserMemory (Z → Z) := {
  uload m a := Some (u8 (m a));
  ustore a bs m := Done (λ x, if (a <=? x) && (x <? a + zlen bs) then zget bs (x - a) else m x)
}.

#[global] Program Instance flat_laws : UserMemoryLaws (Z → Z) := { region_ok := λ _ _, True }.
Next Obligation. intros. eexists. split; [done|]. apply u8_byte. Qed.
Next Obligation.
  intros R m a bs _ _. eexists. split; [done|]. split; [done|]. intros x _. cbn.
  destruct (Z.leb_spec a x), (Z.ltb_spec x (a + zlen bs)); cbn; case_decide; try lia; done.
Qed.
