(* ===== verification/KPipe.v ===== *)
(** Pipes of kernel/fs/FastPipe.h: a ring buffer per pipe, shared by the two
    file descriptors that name it. *)
From Stdlib Require Import ZArith Lia.
From stdpp Require Import base list numbers option relations.
From S2P Require Import Prelude KBase.

Local Open Scope Z_scope.
Local Open Scope out_scope.

Definition FILE_DESCRIBER_ARRAY_LENGTH : Z := 120.
Definition MAX_PIPE_COUNT : Z := 10.
Definition PIPE_BUF_LENGTH : Z := 4096 * 30.

(** [pd_buffer] is the row of [pipe_buffer] at [start_address]. *)
Record PipeData : Type := mkPipe {
  pd_fd : Z * Z;
  pd_buffer : list Z;
  front_pointer : Z;
  back_pointer : Z
}.

(** The pipes created, and for every descriptor the pipe it points to. *)
Record Pipes : Type := mkPipes {
  pipe_data : list PipeData;
  fd_to_buff_address : list (option nat);
  pipe_buffer : list (list Z);
  current_pipe_buffer_pointer : Z
}.

Definition Init (ps : Pipes) : Pipes :=
  mkPipes (pipe_data ps) (replicate (Z.to_nat FILE_DESCRIBER_ARRAY_LENGTH) None) (pipe_buffer ps) 0.

Definition in_fds (fd : Z) : bool := (0 <=? fd) && (fd <? FILE_DESCRIBER_ARRAY_LENGTH).

Definition OpenPipe (fd0 fd1 : Z) (ps : Pipes) : outcome Pipes :=
  if MAX_PIPE_COUNT <=? current_pipe_buffer_pointer ps then Panic
  else
    let i := current_pipe_buffer_pointer ps in
    match pipe_buffer ps !! Z.to_nat i with
    | None => Wild
    | Some buf =>
        if in_fds fd0 && in_fds fd1 then
          let k := length (pipe_data ps) in
          let fds := <[Z.to_nat fd0 := Some k]> (fd_to_buff_address ps) in
          let fds := <[Z.to_nat fd1 := Some k]> fds in
          Done (mkPipes (pipe_data ps ++ [mkPipe (fd0, fd1) buf 0 0]) fds (pipe_buffer ps) (i + 1))
        else Wild
    end.

(** How a pipe operation ends: it returns to its caller, or the process is
    descheduled with a return value, descheduled to try again, or ended. *)
Inductive pipe_exit : Type :=
  | Return (n : Z)
  | YieldReturn (n : Z)
  | Yield
  | Exit.

(** The loop of [Read] from turn [i] on; [rc] is [pipe_read_count] of the
    running process and the list the bytes stored in [buff]. *)
Fixpoint read_turns (n : nat) (i : Z) (p : PipeData) (rc : Z)
    : pipe_exit * list Z * PipeData * Z :=
  match n with
  | O => (Return i, [], p, 0)
  | S n =>
      let next_back := (back_pointer p + 1) mod PIPE_BUF_LENGTH in
      if negb (back_pointer p =? front_pointer p) then
        let b := zget (pd_buffer p) (back_pointer p) in
        let p := mkPipe (pd_fd p) (pd_buffer p) (front_pointer p) next_back in
        let '(e, bs, p, rc) := read_turns n (i + 1) p rc in
        (e, b :: bs, p, rc)
      else if i =? 0 then
        if 200 <? rc then (Exit, [], p, rc) else (Yield, [], p, rc + 1)
      else (YieldReturn i, [], p, 0)
  end.

(** The loop of [Write] from turn [i] on, [wc] being [pipe_write_count]. *)
Fixpoint write_turns (bs : list Z) (i : Z) (p : PipeData) (wc : Z) : pipe_exit * PipeData * Z :=
  match bs with
  | [] => (Return i, p, 0)
  | b :: bs =>
      let next_front := (front_pointer p + 1) mod PIPE_BUF_LENGTH in
      if negb (next_front =? back_pointer p) then
        let p := mkPipe (pd_fd p) (zset (pd_buffer p) (front_pointer p) b) next_front (back_pointer p) in
        write_turns bs (i + 1) p wc
      else if 110 <? wc then (Exit, p, wc)
      else if i =? 0 then (Yield, p, wc + 1)
      else (YieldReturn i, p, 0)
  end.

(** The pipe behind a descriptor. *)
Definition pipe_of (fd : Z) (ps : Pipes) : outcome (nat * PipeData) :=
  if in_fds fd then
    match fd_to_buff_address ps !! Z.to_nat fd with
    | Some (Some k) => match pipe_data ps !! k with Some p => Done (k, p) | None => Wild end
    | _ => Wild
    end
  else Wild.

Definition set_pipe (k : nat) (p : PipeData) (ps : Pipes) : Pipes :=
  mkPipes (<[k := p]> (pipe_data ps)) (fd_to_buff_address ps) (pipe_buffer ps)
    (current_pipe_buffer_pointer ps).

(** A loop that runs to its end returns [count], also when that is negative
    and there was no turn. *)
Definition returned (count : Z) (e : pipe_exit) : pipe_exit := match e with Return _ => Return count | _ => e end.

Definition Read (fd count rc : Z) (ps : Pipes) : outcome (pipe_exit * list Z * Z * Pipes) :=
  do (k, p) := pipe_of fd ps in
  let '(e, bs, p, rc) := read_turns (Z.to_nat count) 0 p rc in
  Done (returned count e, bs, rc, set_pipe k p ps).

(** [buf] holds the [count] bytes to write, none when [count] is negative. *)
Definition Write (fd : Z) (buf : list Z) (count wc : Z) (ps : Pipes) : outcome (pipe_exit * Z * Pipes) :=
  do (k, p) := pipe_of fd ps in
  let '(e, p, wc) := write_turns buf 0 p wc in
  Done (returned count e, wc, set_pipe k p ps).

Definition TestPipe (fd : Z) (ps : Pipes) : outcome pipe_exit :=
  do (_, p) := pipe_of fd ps in
  Done (if front_pointer p =? back_pointer p then YieldReturn 0 else Return 1).

(** * The ring buffer as a queue *)

Definition pipe_len (p : PipeData) : Z := (front_pointer p - back_pointer p) mod PIPE_BUF_LENGTH.
Definition contents (p : PipeData) : list Z :=
  (λ k, zget (pd_buffer p) ((back_pointer p + k) mod PIPE_BUF_LENGTH)) <$> seqZ 0 (pipe_len p).

Record pipe_ok (p : PipeData) : Prop := mkPipeOk {
  pk_buffer : zlen (pd_buffer p) = PIPE_BUF_LENGTH;
  pk_front : 0 <= front_pointer p < PIPE_BUF_LENGTH;
  pk_back : 0 <= back_pointer p < PIPE_BUF_LENGTH
}.

Lemma pipe_len_range p : 0 <= pipe_len p < PIPE_BUF_LENGTH.
Proof. apply Z.mod_pos_bound. unfold PIPE_BUF_LENGTH. lia. Qed.

Lemma contents_length p : zlen (contents p) = pipe_len p.
Proof.
  unfold contents, zlen. rewrite length_fmap, length_seqZ. pose proof (pipe_len_range p). lia.
Qed.

Lemma push_spec p b :
  pipe_ok p → (front_pointer p + 1) mod PIPE_BUF_LENGTH ≠ back_pointer p →
  let p' := mkPipe (pd_fd p) (zset (pd_buffer p) (front_pointer p) b)
              ((front_pointer p + 1) mod PIPE_BUF_LENGTH) (back_pointer p) in
  pipe_ok p' ∧ contents p' = contents p ++ [b].
Proof.
  intros [H1 H2 H3] Hne p'. unfold PIPE_BUF_LENGTH, zlen in *. split.
  - subst p'. split; unfold PIPE_BUF_LENGTH; simpl; [unfold zlen; by rewrite zset_length|
      Z.div_mod_to_equations; lia|lia].
  - assert (pipe_len p' = pipe_len p + 1) as Hlen.
    { unfold pipe_len, PIPE_BUF_LENGTH. subst p'. simpl. Z.div_mod_to_equations. lia. }
    pose proof (pipe_len_range p) as Hr. unfold contents. rewrite Hlen.
    rewrite seqZ_app by lia. rewrite fmap_app. f_equal.
    + apply list_fmap_ext. intros j k Hk. apply lookup_seqZ in Hk as [-> Hj]. subst p'. simpl.
      unfold pipe_len, PIPE_BUF_LENGTH in *. rewrite zget_zset_ne; [done|..];
        Z.div_mod_to_equations; lia.
    + change (seqZ (0 + pipe_len p) 1) with [0 + pipe_len p]. rewrite Z.add_0_l. subst p'. simpl. f_equal.
      replace ((back_pointer p + pipe_len p) mod PIPE_BUF_LENGTH) with (front_pointer p).
      * apply zget_zset_eq. unfold zlen. lia.
      * unfold pipe_len, PIPE_BUF_LENGTH. Z.div_mod_to_equations. lia.
Qed.

Lemma push_full p :
  pipe_ok p → (front_pointer p + 1) mod PIPE_BUF_LENGTH = back_pointer p →
  pipe_len p = PIPE_BUF_LENGTH - 1.
Proof.
  intros [H1 H2 H3] E. unfold pipe_len, PIPE_BUF_LENGTH in *. Z.div_mod_to_equations. lia.
Qed.

Lemma pop_spec p :
  pipe_ok p → back_pointer p ≠ front_pointer p →
  let p' := mkPipe (pd_fd p) (pd_buffer p) (front_pointer p) ((back_pointer p + 1) mod PIPE_BUF_LENGTH) in
  pipe_ok p' ∧ contents p = zget (pd_buffer p) (back_pointer p) :: contents p'.
Proof.
  intros [H1 H2 H3] Hne p'. unfold PIPE_BUF_LENGTH, zlen in *. split.
  - subst p'. split; unfold PIPE_BUF_LENGTH; simpl; [done|lia|Z.div_mod_to_equations; lia].
  - assert (pipe_len p = 1 + pipe_len p') as Hlen.
    { unfold pipe_len, PIPE_BUF_LENGTH. subst p'. simpl. Z.div_mod_to_equations. lia. }
    pose proof (pipe_len_range p') as Hr. unfold contents. rewrite Hlen.
    rewrite seqZ_app by lia. rewrite fmap_app. change (seqZ 0 1) with [0]. simpl. f_equal.
    + f_equal. rewrite Z.add_0_r, Z.mod_small; [done|]. unfold PIPE_BUF_LENGTH. lia.
    + apply list_eq. intros i. rewrite !list_lookup_fmap.
      destruct (decide (Z.of_nat i < pipe_len p')).
      * rewrite !lookup_seqZ_lt by lia. simpl. do 2 f_equal. subst p'. simpl.
        unfold PIPE_BUF_LENGTH. Z.div_mod_to_equations. lia.
      * by rewrite !lookup_seqZ_ge by lia.
Qed.

Lemma empty_spec p : pipe_ok p → back_pointer p = front_pointer p → contents p = [].
Proof.
  intros _ E. unfold contents, pipe_len. by rewrite E, Z.sub_diag, Zmod_0_l.
Qed.

(** * Reading and writing *)

(** The room left for writers. *)
Definition room (p : PipeData) : Z := PIPE_BUF_LENGTH - 1 - pipe_len p.

Lemma write_turns_spec bs : ∀ i p wc,
  pipe_ok p → 0 <= i →
  ∃ e p' wc', write_turns bs i p wc = (e, p', wc') ∧ pipe_ok p' ∧
    contents p' = contents p ++ take (Z.to_nat (room p)) bs ∧
    (e, wc') = if zlen bs <=? room p then (Return (i + zlen bs), 0)
               else if 110 <? wc then (Exit, wc)
               else if i + room p =? 0 then (Yield, wc + 1)
               else (YieldReturn (i + room p), 0).
Proof.
  induction bs as [|b bs IH]; intros i p wc Hok Hi; cbn [write_turns].
  - pose proof (pipe_len_range p). eexists _, p, _. split; [done|]. split; [done|].
    rewrite take_nil, app_nil_r. split; [done|].
    rewrite (proj2 (Z.leb_le _ _)) by (unfold zlen, room; simpl; lia). f_equal. f_equal. unfold zlen. simpl. lia.
  - assert (zlen (b :: bs) = 1 + zlen bs) as Hz by (unfold zlen; simpl; lia).
    assert (0 <= zlen bs) by (unfold zlen; lia). rewrite Hz.
    destruct (Z.eqb_spec ((front_pointer p + 1) mod PIPE_BUF_LENGTH) (back_pointer p)) as [E|E]; simpl negb.
    + pose proof (push_full p Hok E) as Hf. assert (room p = 0) as Hr by (unfold room; lia). rewrite Hr.
      rewrite (proj2 (Z.leb_gt _ _)) by lia. rewrite Z.add_0_r, take_0, app_nil_r.
      destruct (110 <? wc), (i =? 0); eexists _, p, _; done.
    + destruct (push_spec p b Hok E) as [Hok' Hc]. set (p' := mkPipe _ _ _ _) in *.
      destruct (IH (i + 1) p' wc Hok' ltac:(lia)) as (e & q & wc' & -> & Hq & Hcq & He).
      pose proof (contents_length p) as L1. pose proof (contents_length p') as L2.
      rewrite Hc in L2. unfold zlen in L1, L2. rewrite length_app in L2. simpl in L2.
      pose proof (pipe_len_range p'). assert (room p = 1 + room p') as Hr by (unfold room; lia).
      exists e, q, wc'. split; [done|]. split; [done|]. split.
      * rewrite Hcq, Hc, <- app_assoc. f_equal. rewrite Hr.
        replace (Z.to_nat (1 + room p')) with (S (Z.to_nat (room p'))) by (unfold room in *; lia). done.
      * rewrite He, Hr. replace (i + (1 + zlen bs)) with (i + 1 + zlen bs) by lia.
        replace (i + (1 + room p')) with (i + 1 + room p') by lia.
        destruct (Z.leb_spec (zlen bs) (room p')).
        -- by rewrite (proj2 (Z.leb_le _ _)) by lia.
        -- by rewrite (proj2 (Z.leb_gt _ _)) by lia.
Qed.

Lemma read_turns_spec n : ∀ i p rc,
  pipe_ok p → 0 <= i →
  ∃ e bs p' rc', read_turns n i p rc = (e, bs, p', rc') ∧ pipe_ok p' ∧
    bs = take n (contents p) ∧ contents p' = drop n (contents p) ∧
    (e, rc') = if Z.of_nat n <=? pipe_len p then (Return (i + Z.of_nat n), 0)
               else if i + pipe_len p =? 0 then
                 if 200 <? rc then (Exit, rc) else (Yield, rc + 1)
               else (YieldReturn (i + pipe_len p), 0).
Proof.
  induction n as [|n IH]; intros i p rc Hok Hi; cbn [read_turns].
  - pose proof (pipe_len_range p). eexists _, [], p, _. split; [done|]. split; [done|].
    rewrite take_0, drop_0. split; [done|]. split; [done|].
    rewrite (proj2 (Z.leb_le _ _)) by lia. f_equal. f_equal. lia.
  - destruct (Z.eqb_spec (back_pointer p) (front_pointer p)) as [E|E]; simpl negb.
    + pose proof (empty_spec p Hok E) as Hc. pose proof (contents_length p) as Hl. rewrite Hc in *.
      unfold zlen in Hl. simpl in Hl. rewrite <- Hl, (proj2 (Z.leb_gt _ _)), Z.add_0_r by lia.
      destruct (i =? 0), (200 <? rc); eexists _, [], p, _; by split_and!.
    + destruct (pop_spec p Hok E) as [Hok' Hc]. set (p' := mkPipe _ _ _ _) in *.
      destruct (IH (i + 1) p' rc Hok' ltac:(lia)) as (e & bs & q & rc' & -> & Hq & Hb & Hcq & He).
      pose proof (contents_length p) as L1. pose proof (contents_length p') as L2.
      rewrite Hc in L1. unfold zlen in L1, L2. simpl in L1.
      exists e, (zget (pd_buffer p) (back_pointer p) :: bs), q, rc'.
      split; [done|]. split; [done|]. rewrite Hc, Hb, Hcq. split; [done|]. split; [done|].
      rewrite He. replace (pipe_len p) with (1 + pipe_len p') by lia.
      replace (i + (1 + pipe_len p')) with (i + 1 + pipe_len p') by lia.
      replace (i + Z.of_nat (S n)) with (i + 1 + Z.of_nat n) by lia.
      destruct (Z.leb_spec (Z.of_nat n) (pipe_len p')).
      * by rewrite (proj2 (Z.leb_le _ _)) by lia.
      * by rewrite (proj2 (Z.leb_gt _ _)) by lia.
Qed.

(** * All pipes *)

Record pipes_ok (ps : Pipes) : Prop := mkPipesOk {
  ps_pipes k p : pipe_data ps !! k = Some p → pipe_ok p;
  ps_buffers i b : pipe_buffer ps !! i = Some b → zlen b = PIPE_BUF_LENGTH;
  ps_fds : zlen (fd_to_buff_address ps) = FILE_DESCRIBER_ARRAY_LENGTH
}.

Lemma pipe_of_ok fd ps k p :
  pipe_of fd ps = Done (k, p) → pipe_data ps !! k = Some p.
Proof.
  unfold pipe_of. destruct (in_fds fd); [|done].
  destruct (fd_to_buff_address ps !! Z.to_nat fd) as [[j|]|]; try done.
  destruct (pipe_data ps !! j) eqn:E; intros [= <- <-]. done.
Qed.

Lemma set_pipe_ok k p ps : pipes_ok ps → pipe_ok p → pipes_ok (set_pipe k p ps).
Proof.
  intros [H1 H2 H3] Hp. split; [|done|done]. intros j q Hj. simpl in Hj. destruct (decide (j = k)) as [->|].
  - apply list_lookup_insert_Some in Hj as [(_ & <- & _)|[? _]]; done.
  - rewrite list_lookup_insert_ne in Hj by done. by apply (H1 j).
Qed.

(** A new pipe is empty, and both descriptors name it. *)
Lemma open_pipe_ok fd0 fd1 ps ps' :
  pipes_ok ps → OpenPipe fd0 fd1 ps = Done ps' →
  pipes_ok ps' ∧ ∃ p, pipe_data ps' = pipe_data ps ++ [p] ∧ contents p = [] ∧
    pipe_of fd0 ps' = Done (length (pipe_data ps), p) ∧
    pipe_of fd1 ps' = Done (length (pipe_data ps), p).
Proof.
  intros [H1 H2 H3] E. unfold OpenPipe in E. destruct (MAX_PIPE_COUNT <=? _); [done|].
  destruct (pipe_buffer ps !! _) as [buf|] eqn:Eb; [|done].
  destruct (in_fds fd0) eqn:F0; [|done]. destruct (in_fds fd1) eqn:F1; [|done].
  injection E as <-. pose proof F0 as R0. pose proof F1 as R1. unfold in_fds in R0, R1.
  unfold zlen in *. zb. set (p := mkPipe (fd0, fd1) buf 0 0).
  assert (∀ fd fds, in_fds fd = true → fds !! Z.to_nat fd = Some (Some (length (pipe_data ps))) →
    pipe_of fd (mkPipes (pipe_data ps ++ [p]) fds (pipe_buffer ps) (current_pipe_buffer_pointer ps + 1)) =
    Done (length (pipe_data ps), p)) as Hof.
  { intros fd fds Hfd Hl. unfold pipe_of. rewrite Hfd. simpl. rewrite Hl. by rewrite list_lookup_middle. }
  split.
  - split; simpl; [|done|].
    + intros k q Hk. apply lookup_app_Some in Hk as [Hk|[_ Hk]]; [by apply (H1 k)|].
      apply list_lookup_singleton_Some in Hk as [_ <-].
      split; simpl; [by eapply H2|unfold PIPE_BUF_LENGTH; lia..].
    + unfold zlen. by rewrite !length_insert.
  - exists p. split; [done|]. split; [done|]. split; apply Hof; try done.
    + destruct (decide (fd0 = fd1)) as [->|].
      * rewrite list_lookup_insert_eq; [done|]. rewrite length_insert. lia.
      * rewrite list_lookup_insert_ne by lia. rewrite list_lookup_insert_eq; [done|]. lia.
    + rewrite list_lookup_insert_eq; [done|]. rewrite length_insert. lia.
Qed.

(** What a writer is told was taken. *)
Definition accepted (e : pipe_exit) (bs : list Z) : list Z :=
  match e with Return n | YieldReturn n => take (Z.to_nat n) bs | Yield | Exit => [] end.

(** [Write] appends to the queue as much as fits: all of the data and the full
    count when there is room; otherwise the part that fits, with its length as
    the result, or nothing and another try later when the pipe was full (a
    writer that found it full more than 110 times is ended). *)
Lemma pipe_write_spec fd ps k p buf count wc :
  pipes_ok ps → pipe_of fd ps = Done (k, p) →
  ∃ e wc' p', Write fd buf count wc ps = Done (e, wc', set_pipe k p' ps) ∧ pipe_ok p' ∧
    contents p' = contents p ++ take (Z.to_nat (room p)) buf ∧
    (e, wc') = if zlen buf <=? room p then (Return count, 0)
               else if 110 <? wc then (Exit, wc)
               else if room p =? 0 then (Yield, wc + 1) else (YieldReturn (room p), 0).
Proof.
  intros Hps Hof. unfold Write. rewrite Hof. cbn [obind].
  destruct (write_turns_spec buf 0 p wc) as (e & p' & wc' & -> & Hp' & Hc & He).
  - eapply (ps_pipes ps); [done|]. by eapply pipe_of_ok.
  - lia.
  - exists (returned count e), wc', p'. split_and!; auto.
    destruct (zlen buf <=? room p), (110 <? wc), (room p =? 0) eqn:E0; rewrite ?Z.add_0_l, ?E0 in He; by injection He as -> ->.
Qed.

(** [Read] removes the oldest bytes: as many as asked for when the queue holds
    them; otherwise all there are, with their number as the result, or none
    and another try later when it was empty (a reader that found it empty more
    than 200 times is ended). *)
Lemma pipe_read_spec fd ps k p count rc :
  pipes_ok ps → pipe_of fd ps = Done (k, p) →
  ∃ e rc' p', Read fd count rc ps =
      Done (e, take (Z.to_nat count) (contents p), rc', set_pipe k p' ps) ∧ pipe_ok p' ∧
    contents p' = drop (Z.to_nat count) (contents p) ∧
    (e, rc') = if count <=? pipe_len p then (Return count, 0)
               else if pipe_len p =? 0 then if 200 <? rc then (Exit, rc) else (Yield, rc + 1)
               else (YieldReturn (pipe_len p), 0).
Proof.
  intros Hps Hof. unfold Read. rewrite Hof. cbn [obind].
  destruct (read_turns_spec (Z.to_nat count) 0 p rc) as (e & bs & p' & rc' & -> & Hp' & -> & Hc & He).
  - eapply (ps_pipes ps); [done|]. by eapply pipe_of_ok.
  - lia.
  - exists (returned count e), rc', p'. split_and!; auto. pose proof (pipe_len_range p). rewrite !Z.add_0_l in He.
    assert ((Z.of_nat (Z.to_nat count) <=? pipe_len p) = (count <=? pipe_len p)) as Hc0.
    { destruct (Z.leb_spec (Z.of_nat (Z.to_nat count)) (pipe_len p)), (Z.leb_spec count (pipe_len p)); lia. }
    rewrite Hc0 in He.
    destruct (count <=? pipe_len p), (pipe_len p =? 0), (200 <? rc); by simplify_eq.
Qed.

(** * Streams *)

(** Any process reads, writes or opens a pipe. [w] collects the bytes that
    writers of pipe [k] were told were taken and [r] the bytes its readers
    got; no writer is ended for finding the pipe full too often. *)
Inductive pipe_step (k : nat) : Pipes * list Z * list Z → Pipes * list Z * list Z → Prop :=
  | step_read fd count rc ps w r j p e bs rc' ps' :
      pipe_of fd ps = Done (j, p) → Read fd count rc ps = Done (e, bs, rc', ps') →
      pipe_step k (ps, w, r) (ps', w, if decide (j = k) then r ++ bs else r)
  | step_write fd buf count wc ps w r j p e wc' ps' :
      zlen buf = Z.max 0 count → pipe_of fd ps = Done (j, p) → Write fd buf count wc ps = Done (e, wc', ps') → e ≠ Exit →
      pipe_step k (ps, w, r) (ps', if decide (j = k) then w ++ accepted e buf else w, r)
  | step_open fd0 fd1 ps w r ps' :
      OpenPipe fd0 fd1 ps = Done ps' → pipe_step k (ps, w, r) (ps', w, r).

(** What was taken and not yet read is in the pipe. *)
Definition stream_inv (k : nat) (s : Pipes * list Z * list Z) : Prop :=
  let '(ps, w, r) := s in
  pipes_ok ps ∧ ∃ p, pipe_data ps !! k = Some p ∧ w = r ++ contents p.

Lemma stream_set k j p p' ps w r w' r' :
  pipes_ok ps → pipe_data ps !! j = Some p → pipe_ok p' → stream_inv k (ps, w, r) →
  (j = k → w = r ++ contents p → w' = r' ++ contents p') → (j ≠ k → w' = w ∧ r' = r) →
  stream_inv k (set_pipe j p' ps, w', r').
Proof.
  intros Hps Hj Hp' (_ & q & Hq & Hw) H1 H2. split; [by apply set_pipe_ok|]. simpl.
  destruct (decide (j = k)) as [->|Hne].
  - exists p'. rewrite Hj in Hq. injection Hq as <-. split; [|by apply H1].
    apply list_lookup_insert_eq. by eapply lookup_lt_Some.
  - exists q. destruct (H2 Hne) as [-> ->]. by rewrite list_lookup_insert_ne.
Qed.

Lemma stream_step k s s' : pipe_step k s s' → stream_inv k s → stream_inv k s'.
Proof.
  intros Hs Hinv. destruct Hs as [fd count rc ps w r j p e bs rc' ps' Hof E
    |fd buf count wc ps w r j p e wc' ps' Hbuf Hof E He|fd0 fd1 ps w r ps' E]; pose proof Hinv as (Hps & q & Hq & Hw).
  - destruct (pipe_read_spec fd ps j p count rc Hps Hof) as (e' & rc'' & p' & E' & Hp' & Hc' & _).
    rewrite E in E'. injection E' as -> -> -> ->.
    apply (stream_set k j p p' ps w r _ _ Hps (pipe_of_ok _ _ _ _ Hof) Hp' Hinv).
    + intros -> ->. rewrite decide_True by done. by rewrite Hc', <- app_assoc, take_drop.
    + intros Hne. by rewrite decide_False.
  - destruct (pipe_write_spec fd ps j p buf count wc Hps Hof) as (e' & wc'' & p' & E' & Hp' & Hc' & He').
    rewrite E in E'. injection E' as -> -> ->.
    apply (stream_set k j p p' ps w r _ _ Hps (pipe_of_ok _ _ _ _ Hof) Hp' Hinv).
    + intros -> ->. rewrite decide_True by done. rewrite Hc', app_assoc. f_equal.
      pose proof (contents_length p) as Hl. pose proof (pipe_len_range p) as Hlr.
      destruct (zlen buf <=? room p) eqn:Hroom; zb.
      * injection He' as -> _. simpl. unfold zlen in *. rewrite !take_ge by lia. done.
      * destruct (110 <? wc); [by injection He' as -> _|].
        destruct (Z.eqb_spec (room p) 0) as [Hr|Hr]; injection He' as -> _; simpl; [by rewrite Hr|done].
    + intros Hne. by rewrite decide_False.
  - destruct (open_pipe_ok _ _ _ _ Hps E) as (Hps' & p & Hd & _). split; [done|].
    exists q. split; [|done]. rewrite Hd. by apply lookup_app_l_Some.
Qed.

(** C21: A pipe is a stream: whatever its users, the users of other pipes and
    new pipes do in between, the bytes its readers got so far are a prefix of
    the bytes its writers were told were taken, in order, and the rest is in
    the pipe, which holds less than its buffer size. *)
Theorem pipe_stream k ps p ps' w r :
  pipes_ok ps → pipe_data ps !! k = Some p → contents p = [] →
  rtc (pipe_step k) (ps, [], []) (ps', w, r) →
  ∃ p', pipe_data ps' !! k = Some p' ∧ w = r ++ contents p' ∧ zlen (contents p') < PIPE_BUF_LENGTH.
Proof.
  intros Hps Hk Hc Hr.
  assert (stream_inv k (ps, [], [])) as H0 by (split; [done|]; exists p; by rewrite Hc).
  assert (∀ s s', rtc (pipe_step k) s s' → stream_inv k s → stream_inv k s') as Hrun
    by (induction 1; eauto using stream_step).
  destruct (Hrun _ _ Hr H0) as (_ & p' & Hp' & Hw). exists p'. split_and!; auto.
  rewrite contents_length. apply pipe_len_range.
Qed.

(** * A concrete pipe *)

Definition ex_pipes : Pipes :=
  mkPipes [] (replicate 120 None) [replicate (Z.to_nat PIPE_BUF_LENGTH) 0] 0.

Lemma ex_pipes_ok : pipes_ok ex_pipes.
Proof.
  split; [done| |done]. intros i b Hb. apply list_lookup_singleton_Some in Hb as [_ <-].
  unfold zlen. rewrite length_replicate. by apply Z2Nat.id.
Qed.

Lemma ex_open : ∃ ps p, pipes_ok ps ∧ pipe_data ps !! 0%nat = Some p ∧ contents p = [] ∧
  pipe_of 3 ps = Done (0%nat, p) ∧ pipe_of 4 ps = Done (0%nat, p).
Proof.
  assert (∃ ps, OpenPipe 3 4 ex_pipes = Done ps) as [ps E] by (eexists; reflexivity).
  destruct (open_pipe_ok _ _ _ _ ex_pipes_ok E) as (Hps & p & Hd & Hc & H3 & H4).
  exists ps, p. split; [done|]. split; [by rewrite Hd|]. done.
Qed.

Lemma pipe_stream_witness :
  ∃ ps w r p', pipe_data ps !! 0%nat = Some p' ∧ w = r ++ contents p' ∧ w = [7; 8; 9].
Proof.
  destruct ex_open as (ps & p & Hps & Hp & Hc & _ & H4).
  destruct (pipe_write_spec 4 ps 0 p [7; 8; 9] 3 0 Hps H4) as (e & wc & p' & E & _ & _ & He).
  assert (e = Return 3) as ->.
  { pose proof (contents_length p) as Hl. rewrite Hc in Hl. unfold room in He. rewrite <- Hl in He.
    rewrite (proj2 (Z.leb_le _ _)) in He by (unfold PIPE_BUF_LENGTH, zlen; simpl; lia).
    by injection He as -> _. }
  assert (rtc (pipe_step 0) (ps, [], []) (set_pipe 0 p' ps, [7; 8; 9], [])) as Hr.
  { apply rtc_once. exact (step_write 0 4 [7; 8; 9] 3 0 ps [] [] 0%nat p (Return 3) wc _ eq_refl H4 E ltac:(discriminate)). }
  destruct (pipe_stream 0 ps p _ _ _ Hps Hp Hc Hr) as (q & Hq & Hw & _).
  exists (set_pipe 0 p' ps), [7; 8; 9], [], q. exact (conj Hq (conj Hw eq_refl)).
Defined.
