(* ===== verification/KSched.v ===== *)
(** Processes of kernel/scheduler.cpp and the program images of
    kernel/memory/elf_control.cpp.

    A process control block is in exactly one place, [running], [runnable]
    or [blocked], so the queues hold the blocks themselves. The break, the
    mappings and the descriptor table are shared between threads and kept in
    stores of their own, named by index. [running_context] is the register
    image that [__restore] loads. *)
From Stdlib Require Import ZArith Lia.
From stdpp Require Import base list numbers option gmap relations.
From S2P Require Import Prelude KBase KPages KPageTable KPageTableSpec KVm KBrk KMmap.

Local Open Scope Z_scope.
Local Open Scope out_scope.

(** * Program images *)

Record elf_ctl_page : Type := mkElfPage { v_addr : Z; m_addr : Z }.

Record elf_ctl_segment : Type := mkSegment { is_text : bool; seg_pages : list elf_ctl_page }.

Definition segment_add (page_table target_v_addr source_mem_addr : Z) (g : elf_ctl_segment) (s : KMem)
    : outcome (elf_ctl_segment * KMem) :=
  do (page, p) := alloc_page (pool s) in
  let s := CopyPage page source_mem_addr (with_pool s p) in
  do s := CreateMapping page_table target_v_addr page SMALL USER s in
  Done (mkSegment (is_text g) (seg_pages g ++ [mkElfPage target_v_addr page]), s).

(** The copying constructor of a segment. *)
Fixpoint segment_copy_loop (page_table : Z) (pages : list elf_ctl_page) (g : elf_ctl_segment) (s : KMem)
    : outcome (elf_ctl_segment * KMem) :=
  match pages with
  | [] => Done (g, s)
  | c :: pages =>
      do (g, s) := segment_add page_table (v_addr c) (m_addr c) g s in
      segment_copy_loop page_table pages g s
  end.

Definition segment_copy (other : elf_ctl_segment) (page_table : Z) (s : KMem)
    : outcome (elf_ctl_segment * KMem) :=
  segment_copy_loop page_table (seg_pages other) (mkSegment (is_text other) []) s.

Fixpoint register_pageTable (page_table : Z) (pages : list elf_ctl_page) (s : KMem) : outcome KMem :=
  match pages with
  | [] => Done s
  | c :: pages =>
      do s := CreateMapping page_table (v_addr c) (m_addr c) SMALL USER s in
      register_pageTable page_table pages s
  end.

Record Elf_Control : Type := mkElf {
  elf_page_table : Z;
  text_segment : elf_ctl_segment;
  data_segment : elf_ctl_segment
}.

(** The copying constructor: text pages are shared, data pages are copied. *)
Definition copy_Elf_Control (other : Elf_Control) (page_table : Z) (s : KMem)
    : outcome (Elf_Control * KMem) :=
  do s := register_pageTable page_table (seg_pages (text_segment other)) s in
  do (data, s) := segment_copy (data_segment other) page_table s in
  Done (mkElf page_table (text_segment other) data, s).

(** * Processes *)

(** The registers the scheduler touches; [regs] are the others. *)
Record Context : Type := mkContext {
  c_sp : Z;
  c_a0 : Z;
  c_sepc : Z;
  c_satp : Z;
  c_sstatus : Z;
  c_regs : list Z
}.

Definition set_a0 (v : Z) (c : Context) : Context :=
  mkContext (c_sp c) v (c_sepc c) (c_satp c) (c_sstatus c) (c_regs c).
Definition set_sp (v : Z) (c : Context) : Context :=
  mkContext v (c_a0 c) (c_sepc c) (c_satp c) (c_sstatus c) (c_regs c).
Definition set_satp (v : Z) (c : Context) : Context :=
  mkContext (c_sp c) (c_a0 c) (c_sepc c) v (c_sstatus c) (c_regs c).
(** [sepc += 4]. *)
Definition next_pc (c : Context) : Context :=
  mkContext (c_sp c) (c_a0 c) (u64 (c_sepc c + 4)) (c_satp c) (c_sstatus c) (c_regs c).

Record PCB : Type := mkPCB {
  pid : Z;
  ppid : Z;
  stack : Z;
  stack_size : Z;
  page_table : Z;
  elf_control : Elf_Control;
  brk_control : nat;
  mmap_control : nat;
  thread_context : Context;
  cwd : list Z;
  pipe_read_count : Z;
  pipe_write_count : Z;
  occupied_file_describer : nat;
  signal_list : list (Z * Z);
  wstatus : Z;
  wait_pid : Z
}.

Definition set_context (c : Context) (p : PCB) : PCB :=
  mkPCB (pid p) (ppid p) (stack p) (stack_size p) (page_table p) (elf_control p) (brk_control p)
    (mmap_control p) c (cwd p) (pipe_read_count p) (pipe_write_count p) (occupied_file_describer p)
    (signal_list p) (wstatus p) (wait_pid p).
Definition set_signals (l : list (Z * Z)) (p : PCB) : PCB :=
  mkPCB (pid p) (ppid p) (stack p) (stack_size p) (page_table p) (elf_control p) (brk_control p)
    (mmap_control p) (thread_context p) (cwd p) (pipe_read_count p) (pipe_write_count p)
    (occupied_file_describer p) l (wstatus p) (wait_pid p).
Definition set_wait (w : Z) (p : PCB) : PCB :=
  mkPCB (pid p) (ppid p) (stack p) (stack_size p) (page_table p) (elf_control p) (brk_control p)
    (mmap_control p) (thread_context p) (cwd p) (pipe_read_count p) (pipe_write_count p)
    (occupied_file_describer p) (signal_list p) w 0.

Record Sched : Type := mkSched {
  running : option PCB;
  runnable : list PCB;
  blocked : list PCB;
  running_context : Context;
  global_pid : Z;
  fast_pid : Z;
  try_unfreeze_times : Z;
  memory_dirty : bool;
  tests_left : bool;
  brks : list BrkControl;
  mmaps : list MmapControl;
  kmem : KMem;
  user_stores : list (Z * Z)   (* stores through pointers of processes *)
}.

Definition set_queues (run : option PCB) (ready block : list PCB) (s : Sched) : Sched :=
  mkSched run ready block (running_context s) (global_pid s) (fast_pid s) (try_unfreeze_times s)
    (memory_dirty s) (tests_left s) (brks s) (mmaps s) (kmem s) (user_stores s).
Definition set_running_context (c : Context) (s : Sched) : Sched :=
  mkSched (running s) (runnable s) (blocked s) c (global_pid s) (fast_pid s) (try_unfreeze_times s)
    (memory_dirty s) (tests_left s) (brks s) (mmaps s) (kmem s) (user_stores s).
Definition set_fast_pid (n : Z) (s : Sched) : Sched :=
  mkSched (running s) (runnable s) (blocked s) (running_context s) (global_pid s) n
    (try_unfreeze_times s) (memory_dirty s) (tests_left s) (brks s) (mmaps s) (kmem s) (user_stores s).
Definition set_global_pid (n : Z) (s : Sched) : Sched :=
  mkSched (running s) (runnable s) (blocked s) (running_context s) n (fast_pid s)
    (try_unfreeze_times s) (memory_dirty s) (tests_left s) (brks s) (mmaps s) (kmem s) (user_stores s).
Definition set_times (n : Z) (s : Sched) : Sched :=
  mkSched (running s) (runnable s) (blocked s) (running_context s) (global_pid s) (fast_pid s) n
    (memory_dirty s) (tests_left s) (brks s) (mmaps s) (kmem s) (user_stores s).
Definition set_memory (m : KMem) (bs : list BrkControl) (ms : list MmapControl) (s : Sched) : Sched :=
  mkSched (running s) (runnable s) (blocked s) (running_context s) (global_pid s) (fast_pid s)
    (try_unfreeze_times s) (memory_dirty s) (tests_left s) bs ms m (user_stores s).
Definition add_store (a v : Z) (s : Sched) : Sched :=
  mkSched (running s) (runnable s) (blocked s) (running_context s) (global_pid s) (fast_pid s)
    (try_unfreeze_times s) (memory_dirty s) (tests_left s) (brks s) (mmaps s) (kmem s)
    (user_stores s ++ [(a, v)]).

(** * Scheduling *)

(** How [schedule] ends: a process is resumed, the machine restarts, the
    next test program is started (which is loaded and scheduled again), or
    the machine is shut down. *)
Inductive sched_exit : Type := Resume | Reboot | NextTest | Shutdown.

(** [schedule] with a running process. *)
Definition resume (p : PCB) (s : Sched) : Sched :=
  set_fast_pid (pid p) (set_running_context (thread_context p) s).

(** The process taken from [blocked] by [try_to_unfreeze]: the first with a
    signal, and the others. *)
Fixpoint find_signalled (l : list PCB) : option (PCB * list PCB) :=
  match l with
  | [] => None
  | p :: l =>
      match signal_list p with
      | _ :: _ => Some (p, l)
      | [] => match find_signalled l with Some (q, l') => Some (q, p :: l') | None => None end
      end
  end.

(** [None]: nobody has a signal and the function returns. *)
Definition try_to_unfreeze (s : Sched) : option Sched :=
  match find_signalled (blocked s) with
  | None => None
  | Some (p, others) =>
      match signal_list p with
      | [] => None
      | (first, second) :: signals =>
          let p := set_context (set_a0 first (thread_context p)) p in
          let s := if ztrue (wstatus p) then add_store (wstatus p) (s32 (Z.shiftl second 8)) s else s in
          let p := set_signals signals p in
          Some (resume p (set_queues (Some p) (runnable s) others s))
      end
  end.

Definition is_empty {A} (l : list A) : bool := match l with [] => true | _ => false end.

Definition schedule (s : Sched) : outcome (sched_exit * Sched) :=
  match running s with
  | Some p => Done (Resume, resume p s)
  | None =>
      let times := try_unfreeze_times s in
      let s := set_times (s32 (times + 1)) s in
      match (if (100 <? times) && negb (is_empty (blocked s)) then try_to_unfreeze s else None) with
      | Some s => Done (Resume, s)
      | None =>
          match runnable s with
          | p :: ready => Done (Resume, resume p (set_queues (Some p) ready (blocked s) s))
          | [] =>
              if negb (is_empty (blocked s)) then
                match try_to_unfreeze s with
                | Some s => Done (Resume, s)
                | None => Panic
                end
              else if memory_dirty s then Done (Reboot, s)
              else if tests_left s then Done (NextTest, s)
              else Done (Shutdown, s)
          end
      end
  end.

(** The running process goes to the end of [runnable] with context [c]. *)
Definition requeue (c : Context) (s : Sched) : outcome (sched_exit * Sched) :=
  match running s with
  | None => Wild
  | Some p => schedule (set_queues None (runnable s ++ [set_context c p]) (blocked s) s)
  end.

Definition yield_with_return (a0 : Z) (s : Sched) : outcome (sched_exit * Sched) :=
  requeue (next_pc (set_a0 a0 (running_context s))) s.
Definition __yield (s : Sched) : outcome (sched_exit * Sched) := requeue (running_context s) s.
Definition yield (s : Sched) : outcome (sched_exit * Sched) := requeue (next_pc (running_context s)) s.

(** Where [search_by_pid] finds a process. *)
Inductive place : Type := InRunning | InRunnable (i : nat) | InBlocked (i : nat).

Fixpoint index_of (n : Z) (l : list PCB) : option nat :=
  match l with
  | [] => None
  | p :: l => if pid p =? n then Some 0%nat else option_map S (index_of n l)
  end.

Definition search_by_pid (n : Z) (s : Sched) : option place :=
  if match running s with Some p => pid p =? n | None => false end then Some InRunning
  else match index_of n (runnable s) with
       | Some i => Some (InRunnable i)
       | None => match index_of n (blocked s) with Some i => Some (InBlocked i) | None => None end
       end.

Definition get_new_pid (s : Sched) : Z * Sched :=
  let n := s32 (global_pid s + 1) in (n, set_global_pid n s).

(** [signal_list.push_back] of a process found by [search_by_pid]. *)
Definition push_signal (sig : Z * Z) (p : PCB) : PCB := set_signals (signal_list p ++ [sig]) p.

Definition signal_at (w : place) (sig : Z * Z) (s : Sched) : Sched :=
  match w with
  | InRunning => set_queues (push_signal sig <$> running s) (runnable s) (blocked s) s
  | InRunnable i => set_queues (running s) (alter (push_signal sig) i (runnable s)) (blocked s) s
  | InBlocked i => set_queues (running s) (runnable s) (alter (push_signal sig) i (blocked s)) s
  end.

(** [PCB::kill] of process [p]; the context is not used afterwards. *)
Definition kill (exit_ret : Z) (p : PCB) (s : Sched) : outcome Sched :=
  let s := match search_by_pid (ppid p) s with
           | Some w => signal_at w (pid p, exit_ret) s
           | None => s
           end in
  do q := dealloc_page (stack p) (pool (kmem s)) in
  Done (set_memory (with_pool (kmem s) q) (brks s) (mmaps s) s).

(** [exit_process]; [del] is [delete running], the destructors of the members
    of the process block (and [delete thread_context] at the end of [kill]), on
    the memory [kill] leaves: it returns the memory and the other objects [A]
    it changed, heap blocks and reference counts.  KRelease has these objects
    and the destructors ([delete_running]). *)
Definition exit_process {A} (del : PCB → KMem → outcome (KMem * A)) (exit_ret : Z) (s : Sched)
    : outcome (A * (sched_exit * Sched)) :=
  match running s with
  | None => Wild
  | Some p =>
      do s := kill exit_ret p s in
      do (m, a) := del p (kmem s) in
      let s := set_memory m (brks s) (mmaps s) s in
      do r := schedule (set_queues None (runnable s) (blocked s) s) in
      Done (a, r)
  end.

(** [wait]: [inl] a return to the caller, [inr] the end of [schedule]. *)
Definition wait (w : Z) (s : Sched) : outcome (Z * Sched + sched_exit * Sched) :=
  match running s with
  | None => Wild
  | Some p =>
      match signal_list p with
      | (first, _) :: signals =>
          Done (inl (first, set_queues (Some (set_signals signals p)) (runnable s) (blocked s) s))
      | [] =>
          let p := set_wait w (set_context (next_pc (running_context s)) p) in
          do r := schedule (set_queues None (runnable s) (blocked s ++ [p]) s) in
          Done (inr r)
      end
  end.

(** [memcpy(dst, src, size)] of [size] bytes of words. *)
Definition CopyMem (dst src size : Z) (m : KMem) : KMem :=
  mkKMem (λ x, if (dst <=? x) && (x <? dst + size) then mem m (src + (x - dst)) else mem m x) (pool m).

(** The memory of a forked child: stack page, page table, program image,
    break and mappings. *)
Definition fork_memory (g : Globals) (p : PCB) (b : BrkControl) (mm : MmapControl) (m : KMem)
    : outcome (Z * Z * Elf_Control * BrkControl * MmapControl * KMem) :=
  do (stk, q) := alloc_page (pool m) in
  let m := CopyMem stk (stack p) (stack_size p) (with_pool m q) in
  do (table, m) := GetClearPage m in
  do m := init_pageTable g table m in
  do (elf, m) := copy_Elf_Control (elf_control p) table m in
  do (b, m) := copy_BrkControl b table m in
  do (mm, m) := copy_MmapControl mm table m in
  Done (stk, table, elf, b, mm, m).

(** [clone]: [new_stack = 0] forks, otherwise a thread on [new_stack] is made.
    The child's [cwd] is the zeroed one of [new PCB()]. *)
Definition clone (g : Globals) (new_stack : Z) (s : Sched) : outcome Sched :=
  match running s with
  | None => Wild
  | Some p =>
      let ctx := running_context s in
      let (n, s) := get_new_pid s in
      let parent := set_context (set_a0 n ctx) p in
      let child stk table elf b mm c :=
        mkPCB n (pid p) stk (stack_size p) table elf b mm c [] 0 0 (occupied_file_describer p) [] 0 0 in
      do s :=
        (if ztrue new_stack then
           let c := next_pc (set_a0 0 (set_sp new_stack ctx)) in
           Done (set_queues (Some parent)
                   (runnable s ++ [child (stack p) (page_table p) (elf_control p) (brk_control p)
                                     (mmap_control p) c]) (blocked s) s)
         else
           match brks s !! brk_control p, mmaps s !! mmap_control p with
           | Some b, Some mm =>
               do (stk, table, elf, b, mm, m) := fork_memory g p b mm (kmem s) in
               let c := set_satp (Z.lor (Z.shiftr table 12) (u64 (Z.shiftl 8 60))) (next_pc ctx) in
               let c := set_sp (u64 (c_sp ctx - stack p + stk)) (set_a0 0 c) in
               Done (set_memory m (brks s ++ [b]) (mmaps s ++ [mm])
                 (set_queues (Some parent)
                    (runnable s ++ [child stk table elf (length (brks s)) (length (mmaps s)) c])
                    (blocked s) s))
           | _, _ => Wild
           end) in
      Done (set_running_context (thread_context parent) s)
  end.

(** * The processes *)

(** All processes: the running one, the runnable ones, the blocked ones. *)
Definition procs (s : Sched) : list PCB :=
  match running s with Some p => [p] | None => [] end ++ runnable s ++ blocked s.
Definition pids (s : Sched) : list Z := pid <$> procs s.

(** Process numbers are unique and were handed out by [get_new_pid]. *)
Record sched_ok (s : Sched) : Prop := mkSchedOk {
  so_unique : NoDup (pids s);
  so_bound n : n ∈ pids s → 1 <= n <= global_pid s;
  so_pid : 1 <= global_pid s
}.

(** [s'] has the processes [ps] up to order, and the same counter. *)
Lemma sched_ok_perm s s' :
  sched_ok s → pids s' ≡ₚ pids s → global_pid s' = global_pid s → sched_ok s'.
Proof.
  intros [H1 H2 H3] Hp Hg. split.
  - by rewrite Hp.
  - intros n Hn. rewrite Hg. apply H2. by rewrite <- Hp.
  - by rewrite Hg.
Qed.

Lemma find_signalled_perm l p others :
  find_signalled l = Some (p, others) → l ≡ₚ p :: others ∧ signal_list p ≠ [].
Proof.
  revert others. induction l as [|q l IH]; intros others; simpl; [done|].
  destruct (signal_list q) eqn:E.
  - destruct (find_signalled l) as [[r l']|]; [|done]. intros [= -> <-].
    destruct (IH l' eq_refl) as [Hp Hs]. split; [|done]. rewrite Hp. apply Permutation_swap.
  - intros [= -> ->]. split; [done|]. congruence.
Qed.

Lemma find_signalled_none l : find_signalled l = None ↔ Forall (λ p, signal_list p = []) l.
Proof.
  induction l as [|p l IH]; simpl; [by split|]. rewrite Forall_cons. destruct (signal_list p) eqn:E.
  - destruct (find_signalled l) as [[q l']|]; [|tauto]. split; [done|]. intros [_ H].
    by apply IH in H.
  - split; [done|]. by intros [? _].
Qed.

Lemma unfreeze_spec s s' :
  try_to_unfreeze s = Some s' → running s = None →
  pids s' ≡ₚ pids s ∧ global_pid s' = global_pid s ∧ runnable s' = runnable s.
Proof.
  unfold try_to_unfreeze. intros H Hr. destruct (find_signalled (blocked s)) as [[p others]|] eqn:E; [|done].
  apply find_signalled_perm in E as [Hp _].
  destruct (signal_list p) as [|[first second] signals]; [done|]. injection H as <-.
  destruct (ztrue (wstatus p)); unfold pids, procs; simpl; rewrite Hr, Hp; simpl;
    (split; [|done]); rewrite !fmap_app; simpl; by rewrite <- Permutation_middle.
Qed.

Lemma schedule_perm s e s' :
  schedule s = Done (e, s') → pids s' ≡ₚ pids s ∧ global_pid s' = global_pid s.
Proof.
  unfold schedule. destruct (running s) as [p|] eqn:Hr.
  { intros [= <- <-]. by unfold pids, procs; simpl; rewrite Hr. }
  set (s1 := set_times _ s). assert (running s1 = None) as Hr1 by done.
  assert (pids s1 = pids s) as <- by done. assert (global_pid s1 = global_pid s) as <- by done.
  destruct (if (100 <? _) && _ then try_to_unfreeze s1 else None) as [s2|] eqn:E.
  { intros [= <- <-]. destruct (_ && _); [|done]. by destruct (unfreeze_spec _ _ E Hr1) as (? & ? & _). }
  change (runnable s1) with (runnable s) in *. destruct (runnable s) as [|p ready] eqn:Hq.
  - destruct (negb (is_empty (blocked s1))).
    + destruct (try_to_unfreeze s1) as [s2|] eqn:E2; [|done]. intros [= <- <-].
      by destruct (unfreeze_spec _ _ E2 Hr1) as (? & ? & _).
    + destruct (memory_dirty s1), (tests_left s1); by intros [= <- <-].
  - intros [= <- <-]. split; [|done]. unfold pids, procs. simpl. by rewrite Hr, Hq.
Qed.

Lemma pids_alter sig (i : nat) (l : list PCB) : pid <$> alter (push_signal sig) i l = pid <$> l.
Proof. revert i. induction l as [|p l IH]; intros [|i]; simpl; [done..|]. f_equal. apply IH. Qed.

Lemma pids_signal w sig s : pids (signal_at w sig s) = pids s ∧ global_pid (signal_at w sig s) = global_pid s.
Proof.
  split; [|by destruct w]. destruct w; unfold pids, procs; simpl; rewrite !fmap_app, ?pids_alter; try done.
  by destruct (running s).
Qed.

Lemma requeue_perm c s e s' :
  requeue c s = Done (e, s') → pids s' ≡ₚ pids s ∧ global_pid s' = global_pid s.
Proof.
  unfold requeue. destruct (running s) as [p|] eqn:Hr; [|done]. intros H.
  destruct (schedule_perm _ _ _ H) as [Hp Hg]. rewrite Hp. split; [|done].
  unfold pids, procs. simpl. rewrite Hr. simpl. rewrite !fmap_app. simpl.
  rewrite <- app_assoc. simpl. by rewrite Permutation_middle.
Qed.

(** Exactly the running process goes. *)
Lemma exit_perm {A} (del : PCB → KMem → outcome (KMem * A)) code s a e s' :
  exit_process del code s = Done (a, (e, s')) →
  ∃ p, running s = Some p ∧ pids s ≡ₚ pid p :: pids s' ∧ global_pid s' = global_pid s.
Proof.
  unfold exit_process, kill. destruct (running s) as [p|] eqn:Hr; [|done]. intros H. exists p.
  set (s1 := match search_by_pid (ppid p) s with
             | Some w => signal_at w (pid p, code) s | None => s end) in *.
  assert (pids s1 = pids s ∧ global_pid s1 = global_pid s ∧ ∃ q, running s1 = Some q ∧ pid q = pid p)
    as (H1 & H2 & q & Hq & Hpq).
  { subst s1. destruct (search_by_pid (ppid p) s) as [w|]; [|split_and!; eauto].
    destruct (pids_signal w (pid p, code) s) as [-> ->]. split_and!; auto.
    destruct w; simpl; rewrite Hr; simpl; eauto. }
  apply obind_done in H as (s2 & H3 & H). apply obind_done in H3 as (pl & _ & [= <-]).
  apply obind_done in H as ([m b] & _ & H). apply obind_done in H as ([e1 s3] & H & [= <- <- <-]).
  destruct (schedule_perm _ _ _ H) as [Hp Hg]. split; [done|]. split; [|by rewrite Hg].
  rewrite Hp, <- H1. unfold pids, procs. simpl. rewrite Hq. simpl. by rewrite Hpq.
Qed.

Lemma wait_perm w s r :
  wait w s = Done r → let s' := match r with inl (_, s') | inr (_, s') => s' end in
  pids s' ≡ₚ pids s ∧ global_pid s' = global_pid s.
Proof.
  unfold wait. destruct (running s) as [p|] eqn:Hr; [|done].
  destruct (signal_list p) as [|[first second] signals].
  - destruct (schedule _) as [[e s']| | |] eqn:E; try done. intros [= <-]. simpl.
    destruct (schedule_perm _ _ _ E) as [Hp Hg]. split; [|done]. rewrite Hp. unfold pids, procs. simpl.
    rewrite Hr. simpl. rewrite !fmap_app. simpl. rewrite app_assoc. by rewrite (Permutation_app_comm _ [_]).
  - intros [= <-]. simpl. split; [|done]. unfold pids, procs. simpl. by rewrite Hr.
Qed.

Lemma clone_perm g st s s' :
  clone g st s = Done s' → 0 <= global_pid s < 2 ^ 31 - 1 →
  pids s' ≡ₚ (global_pid s + 1) :: pids s ∧ global_pid s' = global_pid s + 1.
Proof.
  unfold clone. destruct (running s) as [p|] eqn:Hr; [|done]. intros H Hg. unfold get_new_pid in H.
  replace (s32 (global_pid s + 1)) with (global_pid s + 1) in H by (rewrite s32_small; lia).
  assert (∀ q c, pid q = global_pid s + 1 →
    pids (set_queues (Some (set_context c p)) (runnable s ++ [q]) (blocked s) s) ≡ₚ
    (global_pid s + 1) :: pids s) as Hq.
  { intros q c Hpid. unfold pids, procs. simpl. rewrite Hr. simpl. rewrite !fmap_app. simpl. rewrite Hpid.
    rewrite <- app_assoc. simpl. rewrite <- Permutation_middle. apply Permutation_swap. }
  destruct (ztrue st); cbn [obind] in H.
  - injection H as <-. split; [|done]. by apply Hq.
  - simpl in H. destruct (brks s !! _) as [b|]; [|done]. destruct (mmaps s !! _) as [mm|]; [|done].
    destruct (fork_memory _ _ _ _ _) as [[[[[[stk table] elf] b'] mm'] m]| | |]; try done.
    cbn [obind] in H. injection H as <-. split; [|done]. by apply Hq.
Qed.

(** * The kernel's steps on processes *)

(** Steps after which the same process goes on: it ran in user mode and
    trapped with registers [c], [wait] returned, or it made another process. *)
Inductive local_step (g : Globals) : Sched → Sched → Prop :=
  | step_trap c s : local_step g s (set_running_context c s)
  | step_wait w s r s' : wait w s = Done (inl (r, s')) → local_step g s s'
  | step_clone st s s' : clone g st s = Done s' → global_pid s < 2 ^ 31 - 1 → local_step g s s'.

(** Steps in which the running process gives up the processor. *)
Inductive switch_step : Sched → Sched → Prop :=
  | step_yield s e s' : yield s = Done (e, s') → switch_step s s'
  | step_retry s e s' : __yield s = Done (e, s') → switch_step s s'
  | step_yield_return a0 s e s' : yield_with_return a0 s = Done (e, s') → switch_step s s'
  | step_wait_block w s e s' : wait w s = Done (inr (e, s')) → switch_step s s'.

(** The running process ends, with any effect of its destructors. *)
Definition exit_step (s s' : Sched) : Prop :=
  ∃ (A : Type) (del : PCB → KMem → outcome (KMem * A)) code a e, exit_process del code s = Done (a, (e, s')).

Definition sched_step (g : Globals) (s s' : Sched) : Prop := local_step g s s' ∨ switch_step s s' ∨ exit_step s s'.

Lemma sched_step_ok g s s' : sched_step g s s' → sched_ok s → sched_ok s'.
Proof.
  intros [Hs|[Hs|(A & del & code & a & e & E)]] Hok.
  2: destruct Hs as [s e s' E|s e s' E|a0 s e s' E|w s e s' E]; [apply requeue_perm in E as []..|apply wait_perm in E as []];
    by apply (sched_ok_perm s).
  2:{ destruct (exit_perm _ _ _ _ _ _ E) as (p & _ & Hp & Hg). destruct Hok as [H1 H2 H3].
    rewrite Hp in H1. apply NoDup_cons in H1 as [_ H1]. split; [done| |by rewrite Hg].
    intros n Hn. rewrite Hg. apply H2. rewrite Hp. by apply list_elem_of_further. }
  destruct Hs as [c s|w s r s' E|st s s' E Hg].
  - by apply (sched_ok_perm s).
  - apply wait_perm in E as []. by apply (sched_ok_perm s).
  - destruct Hok as [H1 H2 H3]. destruct (clone_perm _ _ _ _ E) as [Hp Hg']; [lia|]. split.
    + rewrite Hp. apply NoDup_cons. split; [|done]. intros Hin. apply H2 in Hin. lia.
    + intros n Hn. rewrite Hg'. rewrite Hp in Hn. apply elem_of_cons in Hn as [->|Hn]; [lia|].
      apply H2 in Hn. lia.
    + lia.
Qed.

(** * Finding processes *)

Definition proc_at (w : place) (s : Sched) : option PCB :=
  match w with
  | InRunning => running s
  | InRunnable i => runnable s !! i
  | InBlocked i => blocked s !! i
  end.

Lemma index_of_spec n l :
  match index_of n l with
  | Some i => ∃ p, l !! i = Some p ∧ pid p = n
  | None => n ∉ (pid <$> l)
  end.
Proof.
  induction l as [|p l IH]; simpl; [apply not_elem_of_nil|].
  destruct (Z.eqb_spec (pid p) n) as [E|E]; [by exists p|].
  destruct (index_of n l) as [i|]; simpl; [done|]. by apply not_elem_of_cons.
Qed.

Lemma pid_unique s p q : sched_ok s → p ∈ procs s → q ∈ procs s → pid p = pid q → p = q.
Proof.
  intros [Hn _ _] Hp Hq E. apply list_elem_of_lookup_1 in Hp as [i Hi], Hq as [j Hj].
  assert (i = j) as ->; [|congruence]. unfold pids in Hn.
  eapply NoDup_lookup; [exact Hn| |]; rewrite list_lookup_fmap; [by rewrite Hi|].
  rewrite Hj. simpl. by rewrite E.
Qed.

Lemma proc_at_in w s p : proc_at w s = Some p → p ∈ procs s.
Proof.
  unfold procs. destruct w; simpl; intros H; rewrite !elem_of_app.
  - left. rewrite H. apply list_elem_of_here.
  - right. left. by eapply list_elem_of_lookup_2.
  - right. right. by eapply list_elem_of_lookup_2.
Qed.

Lemma search_by_pid_spec s n :
  match search_by_pid n s with
  | Some w => ∃ p, proc_at w s = Some p ∧ pid p = n
  | None => n ∉ pids s
  end.
Proof.
  unfold search_by_pid. destruct (running s) as [r|] eqn:Hr.
  - destruct (Z.eqb_spec (pid r) n) as [E|E]; [by exists r|].
    pose proof (index_of_spec n (runnable s)) as H1. destruct (index_of n (runnable s)); [done|].
    pose proof (index_of_spec n (blocked s)) as H2. destruct (index_of n (blocked s)); [done|].
    unfold pids, procs. rewrite Hr, !fmap_app. simpl. rewrite !not_elem_of_cons, not_elem_of_app. auto.
  - pose proof (index_of_spec n (runnable s)) as H1. destruct (index_of n (runnable s)); [done|].
    pose proof (index_of_spec n (blocked s)) as H2. destruct (index_of n (blocked s)); [done|].
    unfold pids, procs. rewrite Hr, !fmap_app. simpl. rewrite not_elem_of_app. auto.
Qed.

(** * Properties *)

(** Whatever processes do (run, yield, fork, start threads, wait, exit),
    process numbers stay unique among the running, runnable and blocked
    processes, so that [search_by_pid] finds every process that is there,
    and the process itself. *)
Theorem process_numbers_unique g s s' :
  sched_ok s → rtc (sched_step g) s s' →
  NoDup (pids s') ∧ ∀ p, p ∈ procs s' → ∃ w, search_by_pid (pid p) s' = Some w ∧ proc_at w s' = Some p.
Proof.
  intros Hok Hr.
  assert (sched_ok s') as Hok' by (induction Hr; eauto using sched_step_ok).
  split; [apply Hok'|]. intros p Hp. pose proof (search_by_pid_spec s' (pid p)) as H.
  destruct (search_by_pid (pid p) s') as [w|].
  - destruct H as (q & Hw & E). exists w. split; [done|]. rewrite Hw. f_equal.
    apply (pid_unique s'); auto. by eapply proc_at_in.
  - destruct H. unfold pids. by apply list_elem_of_fmap_2.
Qed.

(** * Fairness *)

(** The signals that processes hold. *)
Definition signals (l : list PCB) : nat := sum_list_with (λ p, length (signal_list p)) l.

(** The processes that can run before the one at position [i] of the run
    queue: all but those behind it. *)
Definition ahead (s : Sched) (i : nat) : list PCB :=
  match running s with Some p => [p] | None => [] end ++ take i (runnable s) ++ blocked s.

(** Bounds how often the process at position [i] is passed over. *)
Definition patience (s : Sched) (i : nat) : nat := (i + signals (ahead s i))%nat.

Lemma signals_app l1 l2 : signals (l1 ++ l2) = (signals l1 + signals l2)%nat.
Proof. apply sum_list_with_app. Qed.

Lemma signals_one p : signals [p] = length (signal_list p).
Proof. unfold signals. simpl. lia. Qed.

Lemma signals_perm l1 l2 : l1 ≡ₚ l2 → signals l1 = signals l2.
Proof. induction 1; unfold signals in *; simpl; lia. Qed.

Lemma signals_alter sig (j : nat) l : (signals (alter (push_signal sig) j l) <= signals l + 1)%nat.
Proof.
  revert j. induction l as [|p l IH]; intros [|j]; [simpl; lia..| |].
  - unfold signals. simpl. rewrite length_app. simpl. lia.
  - specialize (IH j). change (length (signal_list p) + signals (alter (push_signal sig) j l) <=
      length (signal_list p) + signals l + 1)%nat. lia.
Qed.

Lemma take_alter {A} (f : A → A) (i j : nat) (l : list A) : take i (alter f j l) = alter f j (take i l).
Proof. revert i j. induction l as [|x l IH]; intros [|i] [|j]; simpl; try done. f_equal. apply IH. Qed.

Lemma index_of_pids n l l' : pid <$> l = pid <$> l' → index_of n l = index_of n l'.
Proof.
  revert l'. induction l as [|p l IH]; intros [|p' l'] H; try done. simpl in *. injection H as Hp H. by rewrite Hp, (IH l').
Qed.

Lemma index_of_app n l1 l2 i : index_of n l1 = Some i → index_of n (l1 ++ l2) = Some i ∧ take i (l1 ++ l2) = take i l1.
Proof.
  revert i. induction l1 as [|p l1 IH]; intros i H; simpl in *; [done|]. destruct (pid p =? n); [by injection H as <-|].
  destruct (index_of n l1) as [j|]; [|done]. injection H as <-. destruct (IH j eq_refl) as [-> E]. simpl. by rewrite E.
Qed.

(** Without a running process and with [n] at position [i] of the queue,
    [schedule] resumes [n], or a process that was ahead of it. *)
Lemma schedule_fair n i s e s' : schedule s = Done (e, s') → running s = None → index_of n (runnable s) = Some i →
  e = Resume ∧ ∃ p, running s' = Some p ∧
  (pid p = n ∨ ∃ j, index_of n (runnable s') = Some j ∧ patience s i = S (patience s' j) ∧ length (ahead s' j) = length (ahead s i)).
Proof.
  intros Hd Hr Hi. revert Hd. unfold schedule. rewrite Hr. set (s1 := set_times _ s).
  assert (∀ s2, try_to_unfreeze s1 = Some s2 → ∃ p, running s2 = Some p ∧
    (pid p = n ∨ ∃ j, index_of n (runnable s2) = Some j ∧ patience s i = S (patience s2 j) ∧
      length (ahead s2 j) = length (ahead s i))) as Hun.
  { intros s2. unfold try_to_unfreeze. destruct (find_signalled (blocked s1)) as [[p others]|] eqn:Ef; [|done].
    apply find_signalled_perm in Ef as [Hp _]. destruct (signal_list p) as [|[x y] sigs] eqn:Es; [done|]. intros [= <-].
    change (blocked s1) with (blocked s) in Hp.
    cbn [wstatus set_context]. destruct (ztrue (wstatus p)); (eexists; split; [reflexivity|]); right; exists i; (split; [exact Hi|]);
      unfold patience, ahead; simpl; rewrite Hr; simpl; rewrite !signals_app, (signals_perm _ _ Hp), !length_app, Hp;
      unfold signals; simpl; rewrite Es; simpl; split; lia. }
  destruct (if (100 <? _) && _ then try_to_unfreeze s1 else None) as [s2|] eqn:E.
  { intros [= <- <-]. split; [done|]. apply Hun. by destruct (_ && _). }
  change (runnable s1) with (runnable s). destruct (runnable s) as [|p ready] eqn:Hq; [done|].
  intros [= <- <-]. split; [done|]. exists p. split; [done|]. simpl in Hi.
  destruct (Z.eqb_spec (pid p) n) as [Hn|Hn]; [by left|right]. destruct (index_of n ready) as [j|] eqn:Ej; [|done].
  injection Hi as <-. exists j. split; [exact Ej|]. unfold patience, ahead. simpl. rewrite Hr, Hq. simpl. split; [lia|done].
Qed.

Lemma schedule_returns s p ready : running s = None → runnable s = p :: ready → ∃ s', schedule s = Done (Resume, s').
Proof.
  intros Hr Hq. unfold schedule. rewrite Hr. destruct (if _ && _ then _ else None); [eauto|]. cbn [runnable set_times]. rewrite Hq. eauto.
Qed.

(** The three kinds of steps on the queue in front of process [n]. *)
Lemma requeue_fair n i c s e s' : index_of n (runnable s) = Some i → requeue c s = Done (e, s') →
  ∃ p, running s' = Some p ∧ (pid p = n ∨ ∃ j, index_of n (runnable s') = Some j ∧
    (patience s' j < patience s i)%nat ∧ (length (ahead s' j) < length (ahead s i))%nat).
Proof.
  intros Hi E. unfold requeue in E. destruct (running s) as [p|] eqn:Hr; [|done].
  destruct (index_of_app n (runnable s) [set_context c p] i Hi) as [Hi' Ht].
  destruct (schedule_fair n i _ e s' E eq_refl Hi') as (_ & q & Hq & H). exists q. split; [done|].
  destruct H as [H|(j & Hj & H1 & H2)]; [by left|right]. exists j. split; [done|].
  unfold patience, ahead in H1, H2 |- *. cbn [set_queues running runnable blocked] in H1, H2. rewrite Ht in H1, H2.
  rewrite Hr. rewrite !signals_app in H1 |- *. rewrite !length_app in H2 |- *. simpl in *. lia.
Qed.

Lemma switch_fair n i s s' : index_of n (runnable s) = Some i → switch_step s s' →
  ∃ p, running s' = Some p ∧ (pid p = n ∨ ∃ j, index_of n (runnable s') = Some j ∧
    (patience s' j < patience s i)%nat ∧ (length (ahead s' j) <= length (ahead s i))%nat).
Proof.
  intros Hi Hs. destruct Hs as [s e s' E|s e s' E|a0 s e s' E|w s e s' E].
  1-3: destruct (requeue_fair _ _ _ _ _ _ Hi E) as (p & Hp & H); exists p; (split; [done|]);
    destruct H as [H|(j & H1 & H2 & H3)]; [by left|right; exists j; split_and!; [done|done|lia]].
  unfold wait in E. destruct (running s) as [p|] eqn:Hr; [|done]. destruct (signal_list p) as [|[x y] l] eqn:El; [|done].
  apply obind_done in E as ([e1 s1] & E & [= <- <-]).
  destruct (schedule_fair n i _ e1 s1 E eq_refl Hi) as (_ & q & Hq & H). exists q. split; [done|].
  destruct H as [H|(j & Hj & H1 & H2)]; [by left|right]. exists j. split; [done|].
  unfold patience, ahead in H1, H2 |- *. cbn [set_queues running runnable blocked] in H1, H2. rewrite Hr.
  repeat rewrite signals_app in H1. repeat rewrite length_app in H2. rewrite !signals_app, !length_app.
  rewrite signals_one in H1. cbn [signal_list set_wait set_context] in H1. rewrite El in H1. change (signals []) with 0%nat in H1. cbn [length] in *. split; lia.
Qed.

Lemma local_fair g n i s s' : index_of n (runnable s) = Some i → local_step g s s' →
  index_of n (runnable s') = Some i ∧ (patience s' i <= patience s i)%nat ∧ length (ahead s' i) = length (ahead s i).
Proof.
  intros Hi Hs. destruct Hs as [c s|w s r s' E|st s s' E Hg]; [done| |].
  - unfold wait in E. destruct (running s) as [p|] eqn:Hr; [|done]. destruct (signal_list p) as [|[x y] l] eqn:El.
    + apply obind_done in E as ([e1 s1] & _ & E). done.
    + injection E as <- <-. split; [done|]. unfold patience, ahead. simpl. rewrite Hr. unfold signals. simpl. rewrite El. simpl. split; [lia|done].
  - unfold clone in E. destruct (running s) as [p|] eqn:Hr; [|done].
    assert (∀ c q s0, runnable s0 = runnable s → blocked s0 = blocked s →
      index_of n (runnable (set_queues (Some (set_context c p)) (runnable s0 ++ [q]) (blocked s0) s0)) = Some i ∧
      (patience (set_queues (Some (set_context c p)) (runnable s0 ++ [q]) (blocked s0) s0) i <= patience s i)%nat ∧
      length (ahead (set_queues (Some (set_context c p)) (runnable s0 ++ [q]) (blocked s0) s0) i) = length (ahead s i)) as Hq.
    { intros c q s0 H1 H2. destruct (index_of_app n (runnable s) [q] i Hi) as [Hi' Ht]. unfold patience, ahead. simpl.
      rewrite H1, H2, Ht, Hr. split_and!; done. }
    unfold get_new_pid in E. apply obind_done in E as (s1 & E1 & [= <-]). destruct (ztrue st).
    + injection E1 as <-. exact (Hq _ _ (set_global_pid (s32 (global_pid s + 1)) s) eq_refl eq_refl).
    + simpl in E1. destruct (brks s !! _) as [b|]; [|done]. destruct (mmaps s !! _) as [mm|]; [|done].
      apply obind_done in E1 as ([[[[[stk table] elf] b'] mm'] m] & _ & [= <-]).
      exact (Hq _ _ (set_global_pid (s32 (global_pid s + 1)) s) eq_refl eq_refl).
Qed.

Lemma kill_fair code p n i s s1 : index_of n (runnable s) = Some i → kill code p s = Done s1 →
  index_of n (runnable s1) = Some i ∧
  (signals (take i (runnable s1) ++ blocked s1) <= signals (take i (runnable s) ++ blocked s) + 1)%nat ∧
  length (take i (runnable s1) ++ blocked s1) = length (take i (runnable s) ++ blocked s).
Proof.
  intros Hi E. unfold kill in E. cbv zeta in E. apply obind_done in E as (pl & _ & [= <-]). cbn [set_memory runnable blocked].
  destruct (search_by_pid (ppid p) s) as [[|j|j]|]; cbn [signal_at set_queues runnable blocked]; rewrite ?signals_app, ?length_app.
  - split_and!; [done|lia|done].
  - rewrite take_alter, length_alter. pose proof (signals_alter (pid p, code) j (take i (runnable s))).
    split_and!; [|lia|done]. rewrite <- Hi. apply index_of_pids. by rewrite pids_alter.
  - rewrite length_alter. pose proof (signals_alter (pid p, code) j (blocked s)). split_and!; [done|lia|done].
  - split_and!; [done|lia|done].
Qed.

Lemma exit_fair n i s s' : index_of n (runnable s) = Some i → exit_step s s' →
  ∃ p, running s' = Some p ∧ (pid p = n ∨ ∃ j, index_of n (runnable s') = Some j ∧
    (patience s' j <= patience s i)%nat ∧ (length (ahead s' j) < length (ahead s i))%nat).
Proof.
  intros Hi (A & del & code & a & e & E). unfold exit_process in E. destruct (running s) as [p|] eqn:Hr; [|done].
  apply obind_done in E as (s1 & Ek & E). apply obind_done in E as ([m b] & _ & E). apply obind_done in E as ([e1 s2] & E & [= <- <- <-]).
  destruct (kill_fair _ _ _ _ _ _ Hi Ek) as (Hi1 & K1 & K2).
  destruct (schedule_fair n i _ e1 s2 E eq_refl Hi1) as (_ & q & Hq & H). exists q. split; [done|].
  destruct H as [H|(j & Hj & H1 & H2)]; [by left|right]. exists j. split; [done|].
  unfold patience, ahead in H1, H2 |- *. cbn [set_queues set_memory running runnable blocked] in H1, H2. rewrite Hr.
  cbn [app] in *. unfold signals at 2. simpl. rewrite H2, K2. fold (signals (take i (runnable s) ++ blocked s)). split; lia.
Qed.

(** [kept_waiting n k x s s']: from [s] to [s'] the processor changed hands [k]
    times, [x] of them because a process ended, and never went to process
    [n]. *)
Inductive kept_waiting (g : Globals) (n : Z) (s : Sched) : nat → nat → Sched → Prop :=
  | kept_start : kept_waiting g n s 0 0 s
  | kept_local k x s1 s2 : kept_waiting g n s k x s1 → local_step g s1 s2 → kept_waiting g n s k x s2
  | kept_switch k x s1 s2 : kept_waiting g n s k x s1 → switch_step s1 s2 → pid <$> running s2 ≠ Some n →
      kept_waiting g n s (S k) x s2
  | kept_exit k x s1 s2 : kept_waiting g n s k x s1 → exit_step s1 s2 → pid <$> running s2 ≠ Some n →
      kept_waiting g n s (S k) (S x) s2.

Lemma kept_bound g n s k x s' : kept_waiting g n s k x s' → ∀ i, index_of n (runnable s) = Some i →
  ∃ j, index_of n (runnable s') = Some j ∧ (k + patience s' j <= patience s i + x)%nat ∧
    (x + length (ahead s' j) <= length (ahead s i))%nat.
Proof.
  induction 1 as [|k x s1 s2 _ IH Hs|k x s1 s2 _ IH Hs Hn|k x s1 s2 _ IH Hs Hn]; intros i Hi.
  - exists i. split; [done|]. lia.
  - destruct (IH i Hi) as (j & Hj & H1 & H2). destruct (local_fair _ _ _ _ _ Hj Hs) as (H3 & H4 & H5). exists j. split; [done|]. lia.
  - destruct (IH i Hi) as (j & Hj & H1 & H2). destruct (switch_fair _ _ _ _ Hj Hs) as (p & Hp & H).
    rewrite Hp in Hn. destruct H as [H|(j' & H3 & H4 & H5)]; [by destruct Hn; simpl; rewrite H|]. exists j'. split; [done|]. lia.
  - destruct (IH i Hi) as (j & Hj & H1 & H2). destruct (exit_fair _ _ _ _ Hj Hs) as (p & Hp & H).
    rewrite Hp in Hn. destruct H as [H|(j' & H3 & H4 & H5)]; [by destruct Hn; simpl; rewrite H|]. exists j'. split; [done|]. lia.
Qed.

(** C35: No process starves: let process [n] be at position [i] of the run
    queue, and let the processes run, trap, yield, retry, wait, make other
    processes and end (being killed by another process apart) in any way; the
    kernel does not preempt, the timer resumes the process it interrupts.  As
    long as [n] has not run it is in the queue, every process that yields
    does hand over the processor, and the processor has changed hands at most
    [i] times, plus once for every signal that the processes before [n] and
    the waiting ones held, plus once for every process that ended; and no
    more processes ended than were running, before [n] or waiting.  Without
    signals and ends this is round robin: [n] runs at the latest at the
    [i + 1]-st switch. *)
Theorem no_starvation g n i s k x s' :
  index_of n (runnable s) = Some i → kept_waiting g n s k x s' →
  (k <= i + signals (ahead s i) + x)%nat ∧ (x <= i + length (blocked s) + 1)%nat ∧
  (∃ j, index_of n (runnable s') = Some j) ∧
  ∀ p c, running s' = Some p → ∃ s2, yield (set_running_context c s') = Done (Resume, s2).
Proof.
  intros Hi Hk. destruct (kept_bound _ _ _ _ _ _ Hk i Hi) as (j & Hj & H1 & H2). unfold patience in H1. split; [lia|]. split.
  { assert (length (ahead s i) <= 1 + (i + length (blocked s)))%nat; [|lia]. unfold ahead. rewrite !length_app, length_take.
    destruct (running s); cbn [length]; lia. }
  split; [eauto|]. intros p c Hr. unfold yield, requeue. cbn [set_running_context running]. rewrite Hr.
  destruct (runnable s') as [|q l] eqn:Hq; [done|]. eapply schedule_returns; [done|]. cbn [set_queues set_running_context runnable].
  by rewrite Hq.
Qed.

Lemma index_of_middle n l1 q l2 :
  n ∉ (pid <$> l1) → pid q = n → index_of n (l1 ++ q :: l2) = Some (length l1).
Proof.
  intros H E. induction l1 as [|p l1 IH]; simpl; [by rewrite E, Z.eqb_refl|].
  rewrite fmap_cons, not_elem_of_cons in H. destruct H as [H1 H2].
  rewrite (proj2 (Z.eqb_neq _ _)) by congruence. by rewrite IH.
Qed.

Lemma alter_middle (f : PCB → PCB) l1 q l2 : alter f (length l1) (l1 ++ q :: l2) = l1 ++ f q :: l2.
Proof. induction l1 as [|p l1 IH]; simpl; [done|]. f_equal. apply IH. Qed.

Lemma find_signalled_middle l1 q l2 :
  Forall (λ b, signal_list b = []) l1 → signal_list q ≠ [] →
  find_signalled (l1 ++ q :: l2) = Some (q, l1 ++ l2).
Proof.
  intros H Hq. induction H as [|p l1 Hp H IH]; simpl.
  - by destruct (signal_list q).
  - by rewrite Hp, IH.
Qed.

(** The process that [try_to_unfreeze] resumes. *)
Definition woken (p : PCB) (sigs : list (Z * Z)) (s s' : Sched) : Prop :=
  ∃ p' n c l, running s' = Some p' ∧ pid p' = pid p ∧ sigs = (n, c) :: l ∧ signal_list p' = l ∧
    running_context s' = set_a0 n (thread_context p) ∧
    user_stores s' = user_stores s ++ (if ztrue (wstatus p) then [(wstatus p, s32 (Z.shiftl c 8))] else []).

Lemma unfreeze_wakes s s' : try_to_unfreeze s = Some s' → ∃ p others,
  find_signalled (blocked s) = Some (p, others) ∧ woken p (signal_list p) s s' ∧
  runnable s' = runnable s ∧ blocked s' = others ∧ kmem s' = kmem s.
Proof.
  unfold try_to_unfreeze. destruct (find_signalled (blocked s)) as [[p others]|] eqn:E; [|done].
  destruct (signal_list p) as [|[n c] l] eqn:El; [done|]. cbn [wstatus set_context]. intros [= <-]. exists p, others.
  split; [done|]. split; [|by destruct (ztrue (wstatus p))]. eexists _, n, c, l. rewrite El.
  destruct (ztrue (wstatus p)); simpl; rewrite ?app_nil_r; by split_and!.
Qed.

(** What [schedule] does when nobody runs. *)
Lemma schedule_cases s e s' : schedule s = Done (e, s') → running s = None →
  (e = Resume ∧ ∃ s1, blocked s1 = blocked s ∧ runnable s1 = runnable s ∧ user_stores s1 = user_stores s ∧ kmem s1 = kmem s ∧
     try_to_unfreeze s1 = Some s') ∨
  (e = Resume ∧ ∃ p ready, runnable s = p :: ready ∧ running s' = Some p ∧ runnable s' = ready ∧ blocked s' = blocked s ∧
     kmem s' = kmem s) ∨
  (runnable s = [] ∧ blocked s = []).
Proof.
  intros H Hr. unfold schedule in H. rewrite Hr in H. set (s1 := set_times _ s) in H.
  destruct (if (100 <? _) && _ then try_to_unfreeze s1 else None) as [s2|] eqn:E.
  { injection H as <- <-. left. split; [done|]. exists s1. split_and!; try done. by destruct (_ && _). }
  change (runnable s1) with (runnable s) in H. destruct (runnable s) as [|p ready] eqn:Hq.
  - destruct (blocked s1) as [|b l] eqn:Hb; [by right; right|]. cbn [negb is_empty] in H.
    destruct (try_to_unfreeze s1) as [s2|] eqn:E2; [|done]. injection H as <- <-. left. split; [done|]. exists s1.
    by rewrite <- Hq.
  - injection H as <- <-. right. left. split; [done|]. by exists p, ready.
Qed.

(** A process [p] that had a signal or was ready is still there after
    [schedule], or was resumed with its first signal. *)
Lemma schedule_parent s e s' p : schedule s = Done (e, s') → running s = None → p ∈ runnable s ++ blocked s →
  e = Resume ∧ kmem s' = kmem s ∧ (p ∈ procs s' ∨ woken p (signal_list p) s s').
Proof.
  intros E Hr Hp. destruct (schedule_cases _ _ _ E Hr) as [(-> & s1 & B1 & B2 & B3 & B4 & Hu)|[(-> & q & ready & B1 & B2 & B3 & B4 & B5)|[H1 H2]]].
  - destruct (unfreeze_wakes _ _ Hu) as (q & others & Ef & Hw & C1 & C2 & C3). split; [done|]. split; [congruence|].
    apply find_signalled_perm in Ef as [Hperm _]. rewrite B1 in Hperm. unfold procs. rewrite C1, C2, B2.
    apply elem_of_app in Hp as [Hp|Hp]; [left; set_solver|]. rewrite Hperm in Hp. apply elem_of_cons in Hp as [->|Hp]; [|left; set_solver].
    right. destruct Hw as (p' & n & c & l & W). exists p', n, c, l. by rewrite B3 in W.
  - split; [done|]. split; [done|]. left. unfold procs. rewrite B2, B3, B4. rewrite B1 in Hp. set_solver.
  - rewrite H1, H2 in Hp. by apply not_elem_of_nil in Hp.
Qed.

(** Somebody who waits with a signal can always be resumed. *)
Lemma schedule_unblocks s p : running s = None → runnable s = [] → p ∈ blocked s → signal_list p ≠ [] →
  ∃ e s', schedule s = Done (e, s').
Proof.
  intros Hr Hq Hp Hs. unfold schedule. rewrite Hr. set (s1 := set_times _ s).
  assert (is_Some (try_to_unfreeze s1)) as [s2 E].
  { unfold try_to_unfreeze. destruct (find_signalled (blocked s1)) as [[q others]|] eqn:Ef.
    - apply find_signalled_perm in Ef as [_ Hq']. destruct (signal_list q) as [|[n c] l]; [done|]. eauto.
    - apply find_signalled_none in Ef. rewrite Forall_forall in Ef. by apply Ef in Hp. }
  destruct (if _ && _ then _ else None); [eauto|]. change (runnable s1) with (runnable s). rewrite Hq.
  destruct (blocked s1) eqn:Hb; [change (blocked s1) with (blocked s) in Hb; rewrite Hb in Hp; by apply not_elem_of_nil in Hp|].
  cbn [is_empty negb]. rewrite E. eauto.
Qed.

(** The first process that waits with a signal is resumed when nobody is
    ready, or after a hundred rounds. *)
Lemma schedule_wakes s e s' p l1 l2 : schedule s = Done (e, s') → running s = None → blocked s = l1 ++ p :: l2 →
  Forall (λ b, signal_list b = []) l1 → signal_list p ≠ [] → runnable s = [] ∨ 100 < try_unfreeze_times s →
  woken p (signal_list p) s s'.
Proof.
  intros E Hr Hb Hl Hp Hnow. unfold schedule in E. rewrite Hr in E. set (s1 := set_times _ s) in E.
  assert (∃ s2, try_to_unfreeze s1 = Some s2 ∧ woken p (signal_list p) s s2) as (s2 & E2 & Hw).
  { destruct (try_to_unfreeze s1) as [s2|] eqn:Eu.
    - exists s2. split; [done|]. destruct (unfreeze_wakes _ _ Eu) as (q & o & Ef & Hw & _). change (blocked s1) with (blocked s) in Ef.
      rewrite Hb, find_signalled_middle in Ef by done. by injection Ef as <- <-.
    - unfold try_to_unfreeze in Eu. change (blocked s1) with (blocked s) in Eu. rewrite Hb, find_signalled_middle in Eu by done.
      by destruct (signal_list p) as [|[n c] l]. }
  assert (is_empty (blocked s1) = false) as Hne by (change (blocked s1) with (blocked s); rewrite Hb; by destruct l1).
  rewrite Hne in E. rewrite E2 in E. destruct (Z.ltb_spec 100 (try_unfreeze_times s)); cbn [negb andb] in E.
  - by injection E as <- <-.
  - destruct Hnow as [Hq|?]; [|lia]. change (runnable s1) with (runnable s) in E. rewrite Hq in E. by injection E as <- <-.
Qed.

(** A signal changes only the signals. *)
Lemma woken_push s s2 sig p s' : user_stores s2 = user_stores s →
  woken (push_signal sig p) (signal_list (push_signal sig p)) s2 s' → woken p (signal_list p ++ [sig]) s s'.
Proof. intros Hu (p' & n & c & l & H). exists p', n, c, l. by rewrite Hu in H. Qed.

(** [kill] of the running process when its parent is ready or waits. *)
Lemma kill_parent s child q code pl : sched_ok s → running s = Some child → q ∈ runnable s ++ blocked s → pid q = ppid child →
  dealloc_page (stack child) (pool (kmem s)) = Done pl →
  ∃ s1, kill code child s = Done s1 ∧ user_stores s1 = user_stores s ∧ pid <$> runnable s1 = pid <$> runnable s ∧
    try_unfreeze_times s1 = try_unfreeze_times s ∧ kmem s1 = with_pool (kmem s) pl ∧ running s1 = Some child ∧
    push_signal (pid child, code) q ∈ runnable s1 ++ blocked s1 ∧
    ∀ l1 l2, blocked s = l1 ++ q :: l2 → blocked s1 = l1 ++ push_signal (pid child, code) q :: l2.
Proof.
  intros Hok Hr Hq Hpid Ed.
  assert (q ∈ procs s) as Hqp by (unfold procs; rewrite Hr; set_solver).
  assert (pid child ≠ pid q) as Hne.
  { intros Hc. destruct Hok as [Hn _ _]. unfold pids, procs in Hn. rewrite Hr in Hn. apply NoDup_cons in Hn as [Hn _].
    apply Hn. rewrite Hc. by apply list_elem_of_fmap_2. }
  pose proof (search_by_pid_spec s (ppid child)) as Hs. rewrite <- Hpid in Hs. unfold kill. rewrite <- Hpid.
  destruct (search_by_pid (pid q) s) as [w|]; [|destruct Hs; unfold pids; by apply list_elem_of_fmap_2].
  destruct Hs as (p & Hw & Hp). assert (p = q) as -> by (eapply (pid_unique s); eauto using proc_at_in).
  destruct w as [|i|i]; cbn [proc_at] in Hw; [congruence| |]; cbn [signal_at set_queues kmem]; rewrite Ed; cbn [obind];
    eexists; (split; [reflexivity|]); cbn [set_memory set_queues user_stores runnable blocked try_unfreeze_times kmem running].
  - split_and!; try done; [by rewrite pids_alter| |].
    + apply elem_of_app. left. eapply list_elem_of_lookup_2. by erewrite list_lookup_alter_eq, Hw.
    + intros l1 l2 Hb. exfalso. destruct Hok as [Hn _ _]. unfold pids, procs in Hn. rewrite Hb, !fmap_app in Hn.
      apply NoDup_app in Hn as (_ & _ & Hn). apply NoDup_app in Hn as (_ & Hn & _). eapply (Hn (pid q)).
      * apply list_elem_of_fmap_2. by eapply list_elem_of_lookup_2.
      * set_solver.
  - split_and!; try done.
    + apply elem_of_app. right. eapply list_elem_of_lookup_2. by erewrite list_lookup_alter_eq, Hw.
    + intros l1 l2 Hb. assert (i = length l1) as ->; [|by rewrite Hb, alter_middle].
      destruct Hok as [Hn _ _]. unfold pids, procs in Hn. rewrite !fmap_app in Hn.
      apply NoDup_app in Hn as (_ & _ & Hn). apply NoDup_app in Hn as (_ & _ & Hn).
      eapply NoDup_lookup; [exact Hn|by rewrite list_lookup_fmap, Hw|]. rewrite list_lookup_fmap, Hb. by rewrite list_lookup_middle.
Qed.

(** * Concrete processes *)

Definition ex_context : Context := mkContext 0x84005f00 0 0x1000 0 0 [].
Definition ex_elf : Elf_Control := mkElf 0 (mkSegment true []) (mkSegment false []).
Definition ex_proc (n parent stk : Z) : PCB :=
  mkPCB n parent stk 4096 0 ex_elf 0 0 ex_context [47] 0 0 0 [] 0x84005f10 0.
Definition ex_sched (m : KMem) (run : PCB) (ready block : list PCB) : Sched :=
  mkSched (Some run) ready block ex_context 5 0 0 false false [] [] m [].

Lemma ex_sched_ok m stk :
  sched_ok (ex_sched m (ex_proc 3 2 stk) [] [ex_proc 4 1 0; ex_proc 2 1 0]).
Proof.
  split; [|intros n Hn|done].
  - apply (bool_decide_unpack (NoDup [3; 4; 2])). done.
  - unfold pids, procs in Hn. simpl in *. rewrite !elem_of_cons, elem_of_nil in Hn. lia.
Qed.

Lemma process_numbers_unique_witness :
  ∃ s, NoDup (pids s) ∧ global_pid s = 6.
Proof.
  assert (∃ s', clone ex_globals 0x84006000
    (ex_sched ex_mem (ex_proc 3 2 0) [] [ex_proc 4 1 0; ex_proc 2 1 0]) = Done s') as [s' E]
    by (eexists; reflexivity).
  assert (rtc (sched_step ex_globals)
    (ex_sched ex_mem (ex_proc 3 2 0) [] [ex_proc 4 1 0; ex_proc 2 1 0]) s') as Hr
    by (apply rtc_once; left; apply (step_clone ex_globals _ _ _ E); simpl; lia).
  destruct (process_numbers_unique ex_globals _ s' (ex_sched_ok ex_mem 0) Hr) as [H _].
  destruct (clone_perm _ _ _ _ E) as [_ Hg]; [simpl; lia|].
  exists s'. split; [exact H|exact Hg].
Defined.


(** Process 3 yields to process 4 while process 5 waits in the queue. *)
Lemma no_starvation_witness :
  ∃ s', kept_waiting ex_globals 5 (ex_sched ex_mem (ex_proc 3 1 0) [ex_proc 4 1 0; ex_proc 5 1 0] []) 1 0 s' ∧
    (1 <= 1 + signals (ahead (ex_sched ex_mem (ex_proc 3 1 0) [ex_proc 4 1 0; ex_proc 5 1 0] []) 1) + 0)%nat ∧
    ∃ s2, yield (set_running_context ex_context s') = Done (Resume, s2).
Proof.
  set (s := ex_sched ex_mem (ex_proc 3 1 0) [ex_proc 4 1 0; ex_proc 5 1 0] []).
  assert (∃ s', yield s = Done (Resume, s') ∧ running s' = Some (ex_proc 4 1 0)) as (s' & E & Hr)
    by (eexists; split; reflexivity).
  assert (kept_waiting ex_globals 5 s 1 0 s') as Hk.
  { eapply kept_switch; [apply kept_start|exact (step_yield _ _ _ E)|]. rewrite Hr. discriminate. }
  destruct (no_starvation ex_globals 5 1 s 1 0 s' eq_refl Hk) as (H1 & _ & _ & H2).
  exists s'. split; [exact Hk|]. split; [exact H1|exact (H2 _ ex_context Hr)].
Defined.
