(* ===== verification/KElf.v ===== *)
(** The program loader of kernel/elf_loader.cpp: the headers of an ELF file
    are read with FatFs, and the pages of its loadable segments are assembled
    in a buffer, copied to pages of the pool and mapped for the process
    (kernel/memory/elf_control.cpp, in [KSched]).

    The structures are those of the system header elf.h: little-endian fields
    at fixed offsets. *)
From Stdlib Require Import ZArith Lia.
From stdpp Require Import base list numbers option gmap.
From S2P Require Import Prelude BlockDevice FfTypes FfWindow FfFat FfChain FfMount FfFile FfRead FfSeek FfExample.
From S2P Require Import KBase KPages KPageTable KPageTableSpec KVm KBrk KMmap KSched.

Local Open Scope Z_scope.
Local Open Scope out_scope.

(** * Headers *)

Definition ld_qword (p : list Z) (o : Z) : Z := ld_dword p o + 2 ^ 32 * ld_dword p (o + 4).

Record Elf64_Ehdr : Type := mkEhdr {
  e_ident : list Z;
  e_type : Z;
  e_entry : Z;
  e_phoff : Z;
  e_phnum : Z
}.

Definition sizeof_Ehdr : Z := 64.

Definition as_Ehdr (b : list Z) : Elf64_Ehdr :=
  mkEhdr (zread b 0 16) (ld_word b 16) (ld_qword b 24) (ld_qword b 32) (ld_word b 56).

Record Elf64_Phdr : Type := mkPhdr {
  p_type : Z;
  p_flags : Z;
  p_offset : Z;
  p_vaddr : Z;
  p_filesz : Z;
  p_memsz : Z
}.

Definition sizeof_Phdr : Z := 56.

(** [phdr[i]] of the array of headers at [b]. *)
Definition as_Phdr (b : list Z) (i : Z) : Elf64_Phdr :=
  let o := sizeof_Phdr * i in
  mkPhdr (ld_dword b o) (ld_dword b (o + 4)) (ld_qword b (o + 8)) (ld_qword b (o + 16))
    (ld_qword b (o + 32)) (ld_qword b (o + 40)).

Definition PT_LOAD : Z := 1.
Definition PF_W : Z := 2.

(** * Program images *)

Definition init_segments (c : Elf_Control) : Elf_Control :=
  mkElf (elf_page_table c) (mkSegment true []) (mkSegment false []).

Definition bind_text_page (target_v_addr source_mem_addr : Z) (c : Elf_Control) (s : KMem)
    : outcome (Elf_Control * KMem) :=
  do (g, s) := segment_add (elf_page_table c) target_v_addr source_mem_addr (text_segment c) s in
  Done (mkElf (elf_page_table c) g (data_segment c), s).

Definition bind_data_page (target_v_addr source_mem_addr : Z) (c : Elf_Control) (s : KMem)
    : outcome (Elf_Control * KMem) :=
  do (g, s) := segment_add (elf_page_table c) target_v_addr source_mem_addr (data_segment c) s in
  Done (mkElf (elf_page_table c) (text_segment c) g, s).

(** Stores of the kernel at consecutive addresses. *)
Fixpoint put_bytes (m : Z → Z) (a : Z) (bs : list Z) : Z → Z :=
  match bs with
  | [] => m
  | b :: bs => put_bytes (put_byte m a b) (a + 1) bs
  end.

(** * Loading *)

Section load.
Context {D : Type} {BD : BlockDevice D}.

(** [f_lseek] and [f_read], whose results the loader ignores. *)
Definition read_at (fp : FIL) (ofs len : Z) (v : vol D) : outcome (list Z * FIL * vol D) :=
  match f_lseek fp (u32 ofs) v with
  | None => Loop
  | Some ((_, fp), v) =>
      match f_read fp (u32 len) v with
      | None => Loop
      | Some ((_, bs, fp), v) => Done (bs, fp, v)
      end
  end.

(** A turn of the inner loop: page [p] of segment [ph], assembled in the
    array [buf] on the stack of the kernel. *)
Definition load_page (ph : Elf64_Phdr) (buf p : Z) (c : Elf_Control) (s : KMem) (fp : FIL) (v : vol D)
    : outcome (Elf_Control * KMem * FIL * vol D) :=
  let s := ClearPage buf s in
  let source := u64 (p - p_vaddr ph + p_offset ph) in
  let copy_start := Z.max source (p_offset ph) in
  let copy_end := Z.min (u64 (source + 4096)) (u64 (p_offset ph + p_filesz ph)) in
  do (s, fp, v) :=
    (if copy_start <? copy_end then
       do (bs, fp, v) := read_at fp copy_start (copy_end - copy_start) v in
       Done (mkKMem (put_bytes (mem s) (u64 (buf + copy_start - source)) bs) (pool s), fp, v)
     else Done (s, fp, v)) in
  do (c, s) := (if zbits (p_flags ph) PF_W then bind_data_page p buf c s else bind_text_page p buf c s) in
  Done (c, s, fp, v).

Fixpoint load_pages (fuel : nat) (ph : Elf64_Phdr) (buf p target_end : Z) (c : Elf_Control) (s : KMem)
    (fp : FIL) (v : vol D) : outcome (Elf_Control * KMem * FIL * vol D) :=
  match fuel with
  | O => Loop
  | S fuel =>
      if p <? target_end then
        do (c, s, fp, v) := load_page ph buf p c s fp v in
        load_pages fuel ph buf (u64 (p + 4096)) target_end c s fp v
      else Done (c, s, fp, v)
  end.

(** The loop over the program headers. The bounds of the inner loop are
    multiples of the page size, so it has at most one turn per page. *)
Fixpoint load_segments (phdr : list Elf64_Phdr) (buf : Z) (c : Elf_Control) (s : KMem) (fp : FIL) (v : vol D)
    : outcome (Elf_Control * KMem * FIL * vol D) :=
  match phdr with
  | [] => Done (c, s, fp, v)
  | ph :: phdr =>
      if negb (p_type ph =? PT_LOAD) then load_segments phdr buf c s fp v
      else if p_filesz ph =? 0 then load_segments phdr buf c s fp v
      else
        let target_start := p_vaddr ph / 4096 * 4096 in
        let target_end := u64 (u64 (p_vaddr ph + p_memsz ph) + 4096 - 1) / 4096 * 4096 in
        do (c, s, fp, v) := load_pages (S (Z.to_nat ((target_end - target_start) / 4096)))
                              ph buf target_start target_end c s fp v in
        load_segments phdr buf c s fp v
  end.

(** The output parameters of [load_elf]. *)
Record loaded : Type := mkLoaded {
  ld_entry : Z;
  ld_phoff : Z;
  ld_phnum : Z;
  ld_phdr : list Z   (* the array [kernel_phdr] *)
}.

(** [fresh n] are the bytes a new array of [n] bytes holds. The loaded
    program is [None] when the machine is shut down for a wrong magic
    number. *)
Definition load_elf (buf : Z) (fresh : Z → list Z) (fp : FIL) (c : Elf_Control) (s : KMem) (v : vol D)
    : outcome (option loaded * Elf_Control * KMem * FIL * vol D) :=
  do (bs, fp, v) := read_at fp 0 sizeof_Ehdr v in
  let Ehdr := as_Ehdr (zwrite (replicate (Z.to_nat sizeof_Ehdr) 0) 0 bs) in
  let ident := zget (e_ident Ehdr) in
  if negb (ident 0 =? 0x7f) || negb (ident 1 =? 0x45) || negb (ident 2 =? 0x4c) || negb (ident 3 =? 0x46)
  then Done (None, c, s, fp, v)
  else if negb (e_type Ehdr =? 2) then Panic
  else
    let n := sizeof_Phdr * e_phnum Ehdr in
    do (bs, fp, v) := read_at fp (e_phoff Ehdr) n v in
    let kernel_phdr := zwrite (fresh n) 0 bs in
    let c := init_segments c in
    do (c, s, fp, v) := load_segments (as_Phdr kernel_phdr <$> seqZ 0 (e_phnum Ehdr)) buf c s fp v in
    Done (Some (mkLoaded (e_entry Ehdr) (e_phoff Ehdr) (e_phnum Ehdr) kernel_phdr), c, s, fp, v).

End load.

(** * Memory *)

Lemma get_word m m' pa pa' :
  pa' mod 8 = pa mod 8 → m' (pa' - pa' mod 8) = m (pa - pa mod 8) → get_byte m' pa' = get_byte m pa.
Proof. intros E H. unfold get_byte. by rewrite E, <- E, H, E. Qed.

Lemma get_same m m' pa : m' (pa - pa mod 8) = m (pa - pa mod 8) → get_byte m' pa = get_byte m pa.
Proof. apply get_word. done. Qed.

(** The word of a byte of a page lies in the page. *)
Lemma in_page_word a o : a mod 4096 = 0 → 0 <= o < 4096 → in_page a (a + o - (a + o) mod 8).
Proof. unfold in_page. intros. Z.div_mod_to_equations. lia. Qed.

Lemma put_bytes_get bs : ∀ m a pa,
  get_byte (put_bytes m a bs) pa =
  if decide (a <= pa < a + zlen bs) then u8 (zget bs (pa - a)) else get_byte m pa.
Proof.
  induction bs as [|b bs IH]; intros m a pa; simpl.
  { unfold zlen. simpl. rewrite decide_False by lia. done. }
  rewrite IH, get_put.
  assert (zlen (b :: bs) = 1 + zlen bs) as -> by (unfold zlen; simpl; lia).
  assert (0 <= zlen bs) by (unfold zlen; lia).
  destruct (decide (a + 1 <= pa < a + 1 + zlen bs)) as [H1|H1].
  - rewrite decide_True by lia. f_equal. unfold zget.
    by replace (Z.to_nat (pa - a)) with (S (Z.to_nat (pa - (a + 1)))) by lia.
  - destruct (decide (pa = a)) as [->|].
    + rewrite decide_True by lia. by rewrite Z.sub_diag.
    + rewrite decide_False by lia. done.
Qed.

(** Stores into an aligned block of 4096 bytes stay there. *)
Lemma put_bytes_out buf bs : ∀ m a x,
  buf mod 8 = 0 → buf <= a → a + zlen bs <= buf + 4096 → ¬ in_page buf x → put_bytes m a bs x = m x.
Proof.
  unfold in_page. induction bs as [|b bs IH]; intros m a x Hb Ha He Hx; simpl; [done|].
  assert (zlen (b :: bs) = 1 + zlen bs) as E by (unfold zlen; simpl; lia).
  assert (0 <= zlen bs) by (unfold zlen; lia). rewrite IH by lia. unfold put_byte.
  destruct (Z.eqb_spec x (a - a mod 8)); [|done]. Z.div_mod_to_equations. lia.
Qed.

(** * Images *)

(** The address space [base] after some pages of an image were added to that
    of [s0]: [img] gives the bytes at the addresses of these pages, [els] are
    the pages taken from the pool and [rest] the others in use. *)
Record image_ok (base : Z) (s0 : KMem) (img : Z → option Z) (els rest : list Z) (s : KMem) : Prop := mkImage {
  im_rep : ∃ T, pt_rep s base T (els ++ rest);
  im_bytes va b : img va = Some b → ∃ a, a ∈ els ∧
    translate (mem s) base va = Some (a + va mod 4096, 0xdf) ∧ get_byte (mem s) (a + va mod 4096) = b;
  im_out va : img va = None → translate (mem s) base va = translate (mem s0) base va;
  im_root k : 0 <= k < 512 → is_leaf (mem s0 (base + 8 * k)) = false → is_leaf (mem s (base + 8 * k)) = false;
  im_rest a x : a ∈ rest → in_page a x → mem s x = mem s0 x;
  im_all : all_pages (pool s) = all_pages (pool s0)
}.

Lemma image_ok_ext base s0 img img' els rest s :
  (∀ va, img' va = img va) → image_ok base s0 img els rest s → image_ok base s0 img' els rest s.
Proof.
  intros He [H1 H2 H3 H4 H5 H6]. split; auto.
  - intros va b. rewrite He. apply H2.
  - intros va. rewrite He. apply H3.
Qed.

(** Whoever is outside the pages of the pool. *)
Definition apart (buf : Z) (s : KMem) : Prop :=
  (buf mod 8 = 0 ∧ 0 <= buf < 2 ^ 56) ∧ ∀ a x, a ∈ all_pages (pool s) → in_page a x → ¬ in_page buf x.

Section image.
Context (base buf : Z) (s0 : KMem) (rest : list Z).
Hypothesis Hbuf : apart buf s0.

(** Stores into the buffer do not matter to the image. *)
Lemma image_buf img els s s1 :
  image_ok base s0 img els rest s → pool s1 = pool s →
  (∀ x, ¬ in_page buf x → mem s1 x = mem s x) → image_ok base s0 img els rest s1.
Proof.
  intros [[T Hr] Hb Ho Hroot Hrest Hall] Hp Hm. pose proof (pr_pool _ _ _ _ Hr) as Hok.
  assert (∀ t x, t ∈ table_pages base T ++ els ++ rest → in_page t x → mem s1 x = mem s x) as Hk.
  { intros t x Ht Hx. apply Hm, (proj2 Hbuf t); [|done]. rewrite <- Hall. by eapply pool_owned_in. }
  destruct (rep_frame s s1 base T _ (els ++ rest) Hr) as [Hr1 Ht1].
  { by rewrite Hp. } { intros t x Ht. apply Hk, elem_of_app. by left. }
  split; [by exists T|..].
  - intros va b Hv. destruct (Hb va b Hv) as (a & Ha & Htr & Hg). exists a. split; [done|].
    rewrite Ht1. split; [done|]. rewrite <- Hg. apply get_same, (Hk a); [set_solver|].
    apply in_page_word; [|by apply Z.mod_pos_bound].
    apply (pool_page _ _ _ Hok), (pool_owned_in _ _ _ Hok). set_solver.
  - intros va Hv. rewrite Ht1. auto.
  - intros k Hk1 Hk2. rewrite (Hk base); [auto|apply elem_of_app; left; apply root_page|by apply in_page_entry].
  - intros a x Ha Hx. rewrite (Hk a x); [eauto|set_solver|done].
  - by rewrite Hp.
Qed.

(** The image with the page at [p] added: what was there before stays. *)
Definition with_page (img : Z → option Z) (p : Z) (f : Z → Z) (va : Z) : option Z :=
  match img va with
  | Some b => Some b
  | None => if decide (va / 4096 = p / 4096) then Some (f (va mod 4096)) else None
  end.

(** [elf_ctl_segment::add]: the buffer becomes a page of the image. *)
Lemma segment_add_spec img els s p f g :
  image_ok base s0 img els rest s →
  (∀ o, 0 <= o < 4096 → get_byte (mem s) (buf + o) = f o) →
  p mod 4096 = 0 → 0x1000 <= p < 2 ^ 38 → (∀ va, va / 4096 = p / 4096 → translate (mem s0) base va = None) →
  is_leaf (mem s0 (base + 8 * vpn2 p)) = false → (3 <= nfree s)%nat →
  ∃ a s', segment_add base p buf g s = Done (mkSegment (is_text g) (seg_pages g ++ [mkElfPage p a]), s') ∧
    image_ok base s0 (with_page img p f) (els ++ [a]) rest s' ∧ (nfree s <= nfree s' + 3)%nat.
Proof.
  intros [[T Hr] Hb Ho Hroot Hrest Hall] Hf Hp0 Hp Hfresh Hl Hn. unfold segment_add.
  pose proof (pr_pool _ _ _ _ Hr) as Hok.
  destruct (alloc_page_spec _ _ Hok) as [[E _]|(a & q & Ea & Hfree & Hokq & _)].
  { unfold nfree in Hn. rewrite E in Hn. simpl in Hn. lia. }
  rewrite Ea. cbn [obind]. set (s1 := CopyPage a buf (with_pool s q)).
  assert (∀ x, ¬ in_page a x → mem s1 x = mem s x) as Hm1 by (intros x Hx; subst s1; by rewrite CopyPage_out).
  destruct (fresh_filled base els rest s T a q s1 Hr Ea eq_refl Hm1) as (R1 & Ht1 & Hap & [Ha1 Ha2] & Hnf & Hall1).
  assert (a ∈ all_pages (pool s)) as Hain.
  { apply (pool_free_in _ _ _ Hok). rewrite Hfree. set_solver. }
  assert (is_leaf (mem s1 (base + 8 * vpn2 p)) = false) as Hl1.
  { rewrite Hm1; [apply Hroot; [apply vpn_range|done]|].
    apply (Hap base); [apply elem_of_app; left; apply root_page|apply in_page_entry, vpn_range]. }
  destruct (create_small_done s1 base T _ p a USER R1 Hp ltac:(lia) Hl1 ltac:(lia))
    as (s2 & T2 & -> & [R2 M2 P2 F2 N2 K2 L2 A2]). cbn [obind].
  exists a, s2. split; [done|].
  assert (∀ b x, b ∈ (els ++ [a]) ++ rest → in_page b x → mem s2 x = mem s1 x) as Hkeep.
  { intros b x Hb' Hx. apply F2. intros t Ht Hxt. pose proof (pr_pool _ _ _ _ R2) as Hok2.
    apply elem_of_Permutation in Hb' as [k Hk]. rewrite Hk in Hok2.
    apply (owned_apart _ _ b k t x Hok2); [apply elem_of_app; by left|done|done]. }
  assert (∀ b x, b ∈ els ++ rest → in_page b x → mem s2 x = mem s x) as Hold.
  { intros b x Hb' Hx. rewrite (Hkeep b); [|set_solver|done]. apply Hm1, (Hap b); [set_solver|done]. }
  split; [|lia]. split; [by exists T2|..].
  - intros va b. unfold with_page. rewrite M2. unfold map_page. rewrite !Ht1.
    destruct (img va) as [b0|] eqn:Ei.
    + intros [= <-]. destruct (Hb va b0 Ei) as (c & Hc & Htr & Hg). exists c. split; [set_solver|].
      rewrite Htr. split; [by case_decide|]. rewrite <- Hg. apply get_same, (Hold c); [set_solver|].
      apply in_page_word; [|by apply Z.mod_pos_bound].
      apply (pool_page _ _ _ Hok), (pool_owned_in _ _ _ Hok). set_solver.
    + destruct (decide (va / 4096 = p / 4096)) as [Hd|]; [|done]. intros [= <-]. exists a. split; [set_solver|].
      rewrite Ho, Hfresh by done. replace (a / 4096 * 4096) with a by (Z.div_mod_to_equations; lia).
      split; [done|]. pose proof (Z.mod_pos_bound va 4096 ltac:(lia)) as Hmod. rewrite <- Hf by done.
      pose proof (proj1 (proj1 Hbuf)). apply get_word; [Z.div_mod_to_equations; lia|].
      pose proof (in_page_word a (va mod 4096) Ha1 Hmod) as Hin. rewrite (Hkeep a); [|set_solver|done].
      subst s1. rewrite CopyPage_in by done. simpl. f_equal. Z.div_mod_to_equations. lia.
  - intros va. unfold with_page. rewrite M2. unfold map_page. rewrite !Ht1.
    destruct (img va) eqn:Ei; [done|]. case_decide; [done|]. auto.
  - intros k Hk1 Hk2. destruct (decide (k = vpn2 p)) as [->|]; [done|]. rewrite K2, Hm1; auto.
    apply (Hap base); [apply elem_of_app; left; apply root_page|by apply in_page_entry].
  - intros b x Hb' Hx. rewrite (Hold b); [eauto|set_solver|done].
  - congruence.
Qed.

End image.

Lemma image_ok_perm base s0 img els els' rest s :
  els ≡ₚ els' → image_ok base s0 img els rest s → image_ok base s0 img els' rest s.
Proof.
  intros He [[T Hr] H2 H3 H4 H5 H6]. split; auto.
  - exists T. destruct Hr as [Hp ? ? ? ? ? ?]. split; auto. by rewrite <- He.
  - intros va b Hb. destruct (H2 va b Hb) as (a & Ha & ?). exists a. by rewrite <- He.
Qed.

(** The pages of a program image. *)
Definition image_pages (c : Elf_Control) : list Z :=
  m_addr <$> seg_pages (text_segment c) ++ seg_pages (data_segment c).

(** * What is loaded *)

Definition loadable (ph : Elf64_Phdr) : bool := (p_type ph =? PT_LOAD) && negb (p_filesz ph =? 0).

Definition seg_start (ph : Elf64_Phdr) : Z := p_vaddr ph / 4096 * 4096.
Definition seg_end (ph : Elf64_Phdr) : Z := (p_vaddr ph + p_memsz ph + 4095) / 4096 * 4096.

(** Page-wise, a segment covers the address. *)
Definition covers (va : Z) (ph : Elf64_Phdr) : bool :=
  loadable ph && (seg_start ph <=? va) && (va <? seg_end ph).

(** A segment that fits the file and the lower half of the address space. *)
Record seg_ok (size : Z) (ph : Elf64_Phdr) : Prop := mkSegOk {
  sg_low : 0x1000 <= p_vaddr ph;
  sg_high : p_vaddr ph + p_memsz ph < 2 ^ 38 - 4096;
  sg_memsz : 0 <= p_memsz ph;
  sg_filesz : 0 <= p_filesz ph;
  sg_offset : p_vaddr ph mod 4096 <= p_offset ph;
  sg_file : p_offset ph + p_filesz ph <= size
}.

Section loader.
Context {D : Type} {BD : BlockDevice D} {BL : BlockDeviceLaws D}.
Context (v0 : vol D) (fp0 : FIL) (l : list Z).
Notation size := (objsize (fobj fp0)).

(** The byte of a segment at an address: from the file, or zero. *)
Definition image_byte (ph : Elf64_Phdr) (va : Z) : Z :=
  if decide (p_vaddr ph <= va < p_vaddr ph + p_filesz ph)
  then file_byte v0 l (p_offset ph + (va - p_vaddr ph)) else 0.

(** The bytes of a program: where segments share a page the first one counts. *)
Definition image (phs : list Elf64_Phdr) (va : Z) : option Z :=
  match List.find (covers va) phs with Some ph => Some (image_byte ph va) | None => None end.

(** The file during loading: the volume holds what it held. *)
Record reading (fp : FIL) (v : vol D) : Prop := mkReading {
  rd_wf : wf v0;
  rd_in : in_chain v0 l;
  rd_size : size <= bcs (vfs v0) * zlen l;
  rd_quiet : quiet v0 v;
  rd_reliable : reliable v;
  rd_valid : valid_fil v fp;
  rd_ok : fil_ok v fp l;
  rd_obj : fobj fp = fobj fp0;
  rd_flag : zbits (flag fp0) FA_READ = true;
  rd_flags : flag fp = flag fp0
}.

Lemma read_at_spec fp v ofs len :
  reading fp v → 0 <= ofs → 0 <= len → ofs + len <= size →
  ∃ fp' v', read_at fp ofs len v = Done (file_bytes v0 l ofs len, fp', v') ∧ reading fp' v'.
Proof.
  intros [Hwf0 Hin Hsz Hq HR Hval Hok Hobj Hfl Hfe] Ho Hn Hs. pose proof (fo_size _ _ _ Hok) as [Hsize _].
  pose proof Hq as (Hwf & Hv & _). rewrite Hobj in Hsize. unfold read_at. rewrite !u32_small by lia.
  destruct (f_lseek_spec v fp l ofs Hwf HR Hval Hok) as (fp1 & v1 & -> & Hq1 & Hok1 & Hval1 & Hp1 & Ho1 & Hf1);
    [rewrite Hobj; lia|].
  pose proof Hq1 as (Hwf1 & Hv1 & _). pose proof (reliable_veq _ _ Hv1 HR) as HR1.
  destruct (f_read_spec v1 fp1 l len Hwf1 HR1 Hval1 Hok1) as (fp2 & v2 & -> & Hq2 & Hok2 & Hval2 & _ & Ho2 & Hf2);
    [by rewrite Hf1, Hfe|done|].
  rewrite Ho1, Hobj, Hp1. replace (len `min` (size - ofs)) with len by lia.
  pose proof (quiet_trans _ _ _ Hq Hq1) as Hq01.
  rewrite (file_bytes_quiet v0 v1) by (done || lia).
  exists fp2, v2. split; [done|]. split; auto.
  - by eapply quiet_trans.
  - destruct Hq2 as (_ & Hv2 & _). by eapply reliable_veq.
  - by rewrite Ho2, Ho1.
  - by rewrite Hf2, Hf1, Hfe.
Qed.

Lemma zget_file_bytes p n i : 0 <= i < n → zget (file_bytes v0 l p n) i = file_byte v0 l (p + i).
Proof.
  intros Hi. unfold file_bytes, zget. rewrite list_lookup_fmap, lookup_seqZ_lt by lia. simpl. f_equal. lia.
Qed.

Context (base buf : Z) (s0 : KMem) (rest : list Z).
Hypothesis Hbuf : apart buf s0.

Lemma ClearPage_byte s o : buf mod 8 = 0 → 0 <= o < 4096 → get_byte (mem (ClearPage buf s)) (buf + o) = 0.
Proof.
  intros Hb Ho. unfold get_byte. rewrite ClearPage_in; [by rewrite Z.shiftr_0_l|].
  unfold in_page. Z.div_mod_to_equations. lia.
Qed.

(** The buffer is filled with the bytes of the segment at page [p]. *)
Lemma fill_spec ph img els s fp v p :
  reading fp v → image_ok base s0 img els rest s → seg_ok size ph → seg_start ph <= p < seg_end ph →
  p mod 4096 = 0 →
  let source := u64 (p - p_vaddr ph + p_offset ph) in
  let copy_start := Z.max source (p_offset ph) in
  let copy_end := Z.min (u64 (source + 4096)) (u64 (p_offset ph + p_filesz ph)) in
  ∃ s1 fp1 v1,
    (if copy_start <? copy_end then
       do (bs, fp, v) := read_at fp copy_start (copy_end - copy_start) v in
       Done (mkKMem (put_bytes (mem (ClearPage buf s)) (u64 (buf + copy_start - source)) bs) (pool s), fp, v)
     else Done (ClearPage buf s, fp, v)) = Done (s1, fp1, v1) ∧
    reading fp1 v1 ∧ image_ok base s0 img els rest s1 ∧ nfree s1 = nfree s ∧
    ∀ o, 0 <= o < 4096 → get_byte (mem s1) (buf + o) = image_byte ph (p + o).
Proof.
  intros Hrd Him [S1 S2 S3 S4 S5 S6] Hp Hp0. unfold seg_start, seg_end in Hp.
  pose proof (fo_size _ _ _ (rd_ok _ _ Hrd)) as [Hsz _]. rewrite (rd_obj _ _ Hrd) in Hsz.
  assert (0 <= p - p_vaddr ph + p_offset ph < 2 ^ 63 ∧ 0 <= p_offset ph ∧ p < 2 ^ 38) as (H0 & Ho & Hp1) by (Z.div_mod_to_equations; lia).
  cbv zeta. rewrite !(u64_small (p - p_vaddr ph + p_offset ph)) by lia.
  rewrite (u64_small (_ + 4096)), (u64_small (_ + p_filesz ph)) by lia.
  set (source := p - p_vaddr ph + p_offset ph) in *.
  set (a := source `max` _). set (z := (source + 4096) `min` _). destruct Hbuf as [[Hb8 Hb] _].
  assert (nfree (ClearPage buf s) = nfree s) as Hnf by done.
  assert (image_ok base s0 img els rest (ClearPage buf s)) as Him1.
  { apply (image_buf base buf s0 rest Hbuf img els s); auto. intros x Hx. by apply ClearPage_out. }
  destruct (Z.ltb_spec a z) as [Hlt|Hge].
  - destruct (read_at_spec fp v a (z - a) Hrd) as (fp1 & v1 & -> & Hrd1); [lia|lia|lia|]. cbn [obind].
    rewrite u64_small by lia. eexists _, fp1, v1. split; [done|]. split; [done|]. split; [|split; [done|]].
    + apply (image_buf base buf s0 rest Hbuf img els _ _ Him1); [done|]. intros x Hx. cbn [mem].
      apply (put_bytes_out buf); [done|lia| |done]. rewrite zlen_file_bytes by lia. lia.
    + intros o Ho'. cbn [mem]. rewrite put_bytes_get, zlen_file_bytes, ClearPage_byte by (done || lia).
      unfold image_byte. destruct (decide (p_vaddr ph <= p + o < p_vaddr ph + p_filesz ph)).
      * rewrite decide_True by lia. rewrite zget_file_bytes, file_byte_u8 by (apply (rd_wf _ _ Hrd) || lia).
        f_equal. lia.
      * rewrite decide_False by lia. done.
  - eexists _, fp, v. split; [done|]. split; [done|]. split; [done|]. split; [done|].
    intros o Ho'. rewrite ClearPage_byte by done. unfold image_byte. rewrite decide_False by lia. done.
Qed.

(** The addresses of a segment are not used yet. *)
Definition seg_fresh (ph : Elf64_Phdr) : Prop :=
  ∀ va, seg_start ph <= va < seg_end ph →
    translate (mem s0) base va = None ∧ is_leaf (mem s0 (base + 8 * vpn2 va)) = false.

(** What the loop has made of the program: the image, of pages that the
    control block names. *)
Record loading (img : Z → option Z) (c : Elf_Control) (s : KMem) (fp : FIL) (v : vol D) : Prop := mkLoading {
  lo_base : elf_page_table c = base;
  lo_image : image_ok base s0 img (image_pages c) rest s;
  lo_read : reading fp v
}.

Lemma load_page_spec ph img c s fp v p :
  loading img c s fp v → seg_ok size ph → seg_fresh ph → seg_start ph <= p < seg_end ph →
  p mod 4096 = 0 → (3 <= nfree s)%nat →
  ∃ c' s' fp' v', load_page ph buf p c s fp v = Done (c', s', fp', v') ∧
    loading (with_page img p (λ o, image_byte ph (p + o))) c' s' fp' v' ∧ (nfree s <= nfree s' + 3)%nat.
Proof.
  intros [Hc Him Hrd] Hs Hfr Hp Hp0 Hn. unfold load_page.
  destruct (fill_spec ph img _ s fp v p Hrd Him Hs Hp Hp0) as (s1 & fp1 & v1 & E & Hrd1 & Him1 & Hn1 & Hby).
  change (pool (ClearPage buf s)) with (pool s). rewrite E. cbn [obind]. clear E.
  assert (0x1000 <= p < 2 ^ 38 ∧ ∀ va, va / 4096 = p / 4096 → seg_start ph <= va < seg_end ph) as [Hr Hpg].
  { destruct Hs. unfold seg_start, seg_end in *. split; intros; Z.div_mod_to_equations; lia. }
  assert (∀ g, ∃ a s', segment_add base p buf g s1 =
      Done (mkSegment (is_text g) (seg_pages g ++ [mkElfPage p a]), s') ∧
      image_ok base s0 (with_page img p (λ o, image_byte ph (p + o))) (image_pages c ++ [a]) rest s' ∧
      (nfree s1 <= nfree s' + 3)%nat) as Hadd.
  { intros g. apply segment_add_spec; auto; [| |lia].
    - intros va Hva. apply Hfr, Hpg, Hva.
    - by apply Hfr. }
  unfold bind_data_page, bind_text_page. rewrite Hc.
  destruct (zbits (p_flags ph) PF_W).
  - destruct (Hadd (data_segment c)) as (a & s2 & -> & Him2 & Hn2). cbn [obind].
    eexists _, s2, fp1, v1. split; [done|]. split; [|lia]. split; [done| |done].
    eapply image_ok_perm; [|exact Him2]. unfold image_pages. simpl. by rewrite !fmap_app, <- app_assoc.
  - destruct (Hadd (text_segment c)) as (a & s2 & -> & Him2 & Hn2). cbn [obind].
    eexists _, s2, fp1, v1. split; [done|]. split; [|lia]. split; [done| |done].
    eapply image_ok_perm; [|exact Him2]. unfold image_pages. simpl. rewrite !fmap_app, <- !app_assoc.
    apply Permutation_app_head, Permutation_app_comm.
Qed.

(** The image with the pages of [ph] below [p]. *)
Definition upto (img : Z → option Z) (ph : Elf64_Phdr) (p va : Z) : option Z :=
  match img va with
  | Some b => Some b
  | None => if decide (seg_start ph <= va < p) then Some (image_byte ph va) else None
  end.

Lemma loading_ext img img' c s fp v :
  (∀ va, img' va = img va) → loading img c s fp v → loading img' c s fp v.
Proof. intros He [H1 H2 H3]. split; auto. by eapply image_ok_ext. Qed.

Lemma load_pages_spec ph img fuel : ∀ p c s fp v,
  loading (upto img ph p) c s fp v → seg_ok size ph → seg_fresh ph → seg_start ph <= p <= seg_end ph →
  p mod 4096 = 0 → (Z.to_nat ((seg_end ph - p) / 4096) < fuel)%nat →
  (3 * Z.to_nat ((seg_end ph - p) / 4096) <= nfree s)%nat →
  ∃ c' s' fp' v', load_pages fuel ph buf p (seg_end ph) c s fp v = Done (c', s', fp', v') ∧
    loading (upto img ph (seg_end ph)) c' s' fp' v' ∧
    (nfree s <= nfree s' + 3 * Z.to_nat ((seg_end ph - p) / 4096))%nat.
Proof.
  induction fuel as [|fuel IH]; intros p c s fp v Hl Hs Hfr Hp Hp0 Hfu Hn; [lia|]. cbn [load_pages].
  destruct (Z.ltb_spec p (seg_end ph)) as [Hlt|Hge].
  2:{ assert (p = seg_end ph) as -> by lia. exists c, s, fp, v. split; [done|]. split; [done|lia]. }
  assert (seg_end ph mod 4096 = 0 ∧ seg_start ph mod 4096 = 0 ∧ seg_end ph < 2 ^ 38 ∧ 0 <= seg_start ph) as (He & He0 & He1 & He2).
  { destruct Hs. unfold seg_end, seg_start. split; [apply Z.mod_mul; lia|]. split; [apply Z.mod_mul; lia|].
    Z.div_mod_to_equations; lia. }
  assert (Z.to_nat ((seg_end ph - p) / 4096) = S (Z.to_nat ((seg_end ph - (p + 4096)) / 4096)) ∧
    p + 4096 <= seg_end ph) as [Hk Hk'] by (Z.div_mod_to_equations; lia).
  destruct (load_page_spec ph _ c s fp v p Hl Hs Hfr ltac:(lia) Hp0 ltac:(lia))
    as (c1 & s1 & fp1 & v1 & -> & Hl1 & Hn1). cbn [obind]. rewrite u64_small by lia.
  destruct (IH (p + 4096) c1 s1 fp1 v1) as (c2 & s2 & fp2 & v2 & -> & Hl2 & Hn2); auto; try lia.
  - eapply loading_ext; [|exact Hl1]. intros va. unfold with_page, upto. destruct (img va); [done|].
    destruct (decide (seg_start ph <= va < p)).
    + by rewrite decide_True by lia.
    + destruct (decide (va / 4096 = p / 4096)).
      * rewrite decide_True by (Z.div_mod_to_equations; lia). do 2 f_equal. Z.div_mod_to_equations. lia.
      * rewrite decide_False; [done|]. Z.div_mod_to_equations. lia.
  - Z.div_mod_to_equations. lia.
  - exists c2, s2, fp2, v2. split; [done|]. split; [done|lia].
Qed.

Lemma image_app phs phs' va :
  image (phs ++ phs') va = match image phs va with Some b => Some b | None => image phs' va end.
Proof.
  unfold image. induction phs as [|ph phs IH]; simpl; [done|]. by destruct (covers va ph).
Qed.

(** The pages of the loadable segments. *)
Definition image_size (phs : list Elf64_Phdr) : nat :=
  sum_list_with (λ ph, if loadable ph then Z.to_nat ((seg_end ph - seg_start ph) / 4096) else 0%nat) phs.

Definition phdr_ok (ph : Elf64_Phdr) : Prop := loadable ph = true → seg_ok size ph ∧ seg_fresh ph.

Lemma load_segments_spec phs : ∀ before c s fp v,
  loading (image before) c s fp v → Forall phdr_ok phs → (3 * image_size phs <= nfree s)%nat →
  ∃ c' s' fp' v', load_segments phs buf c s fp v = Done (c', s', fp', v') ∧
    loading (image (before ++ phs)) c' s' fp' v' ∧ (nfree s <= nfree s' + 3 * image_size phs)%nat.
Proof.
  induction phs as [|ph phs IH]; intros before c s fp v Hl Hall Hn; cbn [load_segments].
  { exists c, s, fp, v. rewrite app_nil_r. split; [done|]. split; [done|lia]. }
  apply Forall_cons in Hall as [Hph Hall]. unfold image_size in Hn. simpl in Hn. fold (image_size phs) in Hn.
  assert (image_size (ph :: phs) =
    (if loadable ph then Z.to_nat ((seg_end ph - seg_start ph) / 4096) else 0) + image_size phs)%nat as Hsz by done.
  replace (before ++ ph :: phs) with ((before ++ [ph]) ++ phs) by (by rewrite <- app_assoc).
  destruct (loadable ph) eqn:El.
  - destruct (Hph El) as [Hs Hfr]. pose proof El as El'.
    unfold loadable in El. apply andb_true_iff in El as [E1 E2]. apply negb_true_iff in E2. rewrite E1, E2. cbn [negb].
    assert (u64 (u64 (p_vaddr ph + p_memsz ph) + 4096 - 1) / 4096 * 4096 = seg_end ph) as ->.
    { destruct Hs. unfold seg_end. rewrite (u64_small (p_vaddr ph + p_memsz ph)), u64_small by lia.
      f_equal. f_equal. lia. }
    fold (seg_start ph).
    assert (seg_start ph <= seg_end ph ∧ seg_start ph mod 4096 = 0) as [Hle Hst].
    { destruct Hs. unfold seg_start, seg_end. split; [|apply Z.mod_mul; lia]. Z.div_mod_to_equations. lia. }
    destruct (load_pages_spec ph (image before) (S (Z.to_nat ((seg_end ph - seg_start ph) / 4096)))
      (seg_start ph) c s fp v) as (c1 & s1 & fp1 & v1 & -> & Hl1 & Hn1); auto; try lia.
    { eapply loading_ext; [|exact Hl]. intros va. unfold upto. destruct (image before va); [done|].
      by rewrite decide_False by lia. }
    cbn [obind]. destruct (IH (before ++ [ph]) c1 s1 fp1 v1) as (c2 & s2 & fp2 & v2 & E & Hl2 & Hn2); auto; try lia.
    + eapply loading_ext; [|exact Hl1]. intros va. rewrite image_app. unfold upto, image at 2. simpl.
      unfold covers. rewrite El'. simpl. destruct (image before va); [done|].
      destruct (Z.leb_spec (seg_start ph) va), (Z.ltb_spec va (seg_end ph)); simpl;
        first [by rewrite decide_True by lia|by rewrite decide_False by lia].
    + exists c2, s2, fp2, v2. split; [done|]. split; [done|lia].
  - destruct (IH (before ++ [ph]) c s fp v) as (c2 & s2 & fp2 & v2 & E & Hl2 & Hn2); auto; try lia.
    + eapply loading_ext; [|exact Hl]. intros va. rewrite image_app. unfold image at 2. simpl.
      unfold covers. rewrite El. simpl. by destruct (image before va).
    + exists c2, s2, fp2, v2. split; [|split; [done|lia]]. unfold loadable in El.
      destruct (p_type ph =? PT_LOAD); [|done]. by destruct (p_filesz ph =? 0).
Qed.

End loader.

Lemma zwrite_full (a bs : list Z) : length bs = length a → zwrite a 0 bs = bs.
Proof.
  intros H. apply list_eq_zget; [by rewrite zwrite_length|]. intros i Hi.
  assert (zlen (zwrite a 0 bs) = zlen bs) as E by (unfold zlen; by rewrite zwrite_length, H).
  rewrite zget_zwrite_in by (unfold zlen in *; lia). f_equal. lia.
Qed.

(** * Theorems *)

Section elf_theorems.
Context {D : Type} {BD : BlockDevice D} {BL : BlockDeviceLaws D}.
Implicit Types v : vol D.

(** The headers that the file holds. *)
Definition file_ehdr v (l : list Z) : Elf64_Ehdr := as_Ehdr (file_bytes v l 0 sizeof_Ehdr).
Definition file_phdr v (l : list Z) : list Z :=
  file_bytes v l (e_phoff (file_ehdr v l)) (sizeof_Phdr * e_phnum (file_ehdr v l)).
Definition file_phdrs v (l : list Z) : list Elf64_Phdr :=
  as_Phdr (file_phdr v l) <$> seqZ 0 (e_phnum (file_ehdr v l)).

(** An executable whose headers lie in the file. *)
Record elf_ok v (fp : FIL) (l : list Z) : Prop := mkElfOk {
  eo_size : sizeof_Ehdr <= objsize (fobj fp);
  eo_magic : zread (e_ident (file_ehdr v l)) 0 4 = [0x7f; 0x45; 0x4c; 0x46];
  eo_type : e_type (file_ehdr v l) = 2;
  eo_phdr : e_phoff (file_ehdr v l) + sizeof_Phdr * e_phnum (file_ehdr v l) <= objsize (fobj fp)
}.

Lemma ld_qword_range b o : 0 <= ld_qword b o < 2 ^ 64.
Proof.
  unfold ld_qword. assert (∀ o, 0 <= ld_dword b o < 2 ^ 32) as H by (intros; apply u32_range).
  pose proof (H o). pose proof (H (o + 4)). lia.
Qed.

Lemma reading_start v fp l :
  wf v → reliable v → valid_fil v fp → fil_ok v fp l → zbits (flag fp) FA_READ = true → reading v fp l fp v.
Proof.
  intros Hwf HR Hval Hok Hfl. split; auto.
  - by eapply fil_ok_in_chain.
  - apply (fo_size _ _ _ Hok).
  - by apply quiet_refl.
Qed.

Definition magic_wrong (h : Elf64_Ehdr) : bool :=
  negb (zget (e_ident h) 0 =? 0x7f) || negb (zget (e_ident h) 1 =? 0x45) ||
  negb (zget (e_ident h) 2 =? 0x4c) || negb (zget (e_ident h) 3 =? 0x46).

Lemma magic_check h : zread (e_ident h) 0 4 = [0x7f; 0x45; 0x4c; 0x46] → magic_wrong h = false.
Proof.
  intros H. unfold magic_wrong. assert (4 <= zlen (e_ident h)).
  { apply (f_equal length) in H. unfold zread, zlen in *. rewrite length_take, length_drop in H.
    change (length [0x7f; 0x45; 0x4c; 0x46]) with 4%nat in H. lia. }
  assert (∀ i, 0 <= i < 4 → zget (e_ident h) i = zget [0x7f; 0x45; 0x4c; 0x46] i) as Hi.
  { intros i Hi. rewrite <- H, zget_zread by lia. done. }
  by rewrite !Hi by lia.
Qed.

Lemma magic_read h :
  magic_wrong h = false → length (e_ident h) = 16%nat → zread (e_ident h) 0 4 = [0x7f; 0x45; 0x4c; 0x46].
Proof.
  unfold magic_wrong. rewrite !orb_false_iff, !negb_false_iff, !Z.eqb_eq. intros [[[H0 H1] H2] H3] Hl.
  destruct (e_ident h) as [|b0 [|b1 [|b2 [|b3 k]]]]; try done. unfold zget in *. simpl in *. by subst.
Qed.

Lemma load_elf_spec buf fresh fp c s v l T rest :
  wf v → reliable v → valid_fil v fp → fil_ok v fp l → zbits (flag fp) FA_READ = true → elf_ok v fp l →
  let base := elf_page_table c in
  let phs := file_phdrs v l in
  pt_rep s base T rest → apart buf s → zlen (fresh (zlen (file_phdr v l))) = zlen (file_phdr v l) →
  Forall (phdr_ok fp base s) phs → (3 * image_size phs <= nfree s)%nat →
  ∃ c' s' fp' v' T', load_elf buf fresh fp c s v =
      Done (Some (mkLoaded (e_entry (file_ehdr v l)) (e_phoff (file_ehdr v l)) (e_phnum (file_ehdr v l))
                    (file_phdr v l)), c', s', fp', v') ∧
    (∀ va, image v l phs va = None → translate (mem s') base va = translate (mem s) base va) ∧
    (∀ a x, a ∈ rest → in_page a x → mem s' x = mem s x) ∧
    elf_page_table c' = base ∧ pt_rep s' base T' (image_pages c' ++ rest) ∧
    (nfree s <= nfree s' + 3 * image_size phs)%nat ∧ all_pages (pool s') = all_pages (pool s) ∧
    (∀ va b, image v l phs va = Some b → ∃ a, a ∈ image_pages c' ∧
       translate (mem s') base va = Some (a + va mod 4096, 0xdf) ∧ get_byte (mem s') (a + va mod 4096) = b) ∧
    reading v fp l fp' v'.
Proof.
  intros Hwf HR Hval Hok Hfl [Hz Hmag Hty Hph] base phs Hrep Hbuf Hfresh Hall Hn. unfold load_elf.
  pose proof (reading_start v fp l Hwf HR Hval Hok Hfl) as Hrd.
  pose proof (ld_qword_range (file_bytes v l 0 sizeof_Ehdr) 32) as Hpo.
  pose proof (u16_range (Z.lor (Z.shiftl (zget (file_bytes v l 0 sizeof_Ehdr) (56 + 1)) 8)
    (zget (file_bytes v l 0 sizeof_Ehdr) 56))) as Hpn. 
  assert (0 <= e_phoff (file_ehdr v l) ∧ 0 <= e_phnum (file_ehdr v l)) as [Hpo' Hpn'] by (split; [apply Hpo|apply Hpn]).
  destruct (read_at_spec v fp l fp v 0 sizeof_Ehdr Hrd) as (fp1 & v1 & -> & Hrd1); [lia|done|lia|].
  cbn [obind]. rewrite zwrite_full.
  2:{ pose proof (zlen_file_bytes v l 0 sizeof_Ehdr). unfold zlen, sizeof_Ehdr in *. rewrite length_replicate. lia. }
  cbv zeta. fold (file_ehdr v l) (magic_wrong (file_ehdr v l)). rewrite (magic_check (file_ehdr v l) Hmag), Hty. cbn [negb Z.eqb Pos.eqb].
  destruct (read_at_spec v fp l fp1 v1 (e_phoff (file_ehdr v l)) (sizeof_Phdr * e_phnum (file_ehdr v l)) Hrd1)
    as (fp2 & v2 & -> & Hrd2); [done|unfold sizeof_Phdr; lia|done|]. cbn [obind]. fold (file_phdr v l).
  assert (zlen (file_phdr v l) = sizeof_Phdr * e_phnum (file_ehdr v l)) as Hlen.
  { apply zlen_file_bytes. unfold sizeof_Phdr. lia. }
  rewrite <- Hlen, zwrite_full by (apply Nat2Z.inj; symmetry; exact Hfresh). fold (file_phdrs v l). fold phs.
  destruct (load_segments_spec v fp l base buf s rest Hbuf phs [] (init_segments c) s fp2 v2)
    as (c' & s' & fp' & v' & -> & [Hb [[T' Hr'] Hi1 Hi2 _ Hi3 Hi4] Hrd'] & Hnf); [|done|done|].
  { split; [done| |done]. split; eauto. done. }
  cbn [obind]. exists c', s', fp', v', T'. split; [done|]. split; [done|]. split; [done|].
  split; [done|]. split; [done|]. split; [done|]. split; [done|]. split; done.
Qed.


(** A file that is not an executable is not loaded: with another magic
    number the machine is shut down, with another type it panics; no page is
    taken before. *)
Theorem load_elf_rejects buf fresh fp c s v l :
  wf v → reliable v → valid_fil v fp → fil_ok v fp l → zbits (flag fp) FA_READ = true →
  sizeof_Ehdr <= objsize (fobj fp) →
  (zread (e_ident (file_ehdr v l)) 0 4 ≠ [0x7f; 0x45; 0x4c; 0x46] →
     ∃ fp' v', load_elf buf fresh fp c s v = Done (None, c, s, fp', v') ∧ veq v v') ∧
  (zread (e_ident (file_ehdr v l)) 0 4 = [0x7f; 0x45; 0x4c; 0x46] → e_type (file_ehdr v l) ≠ 2 →
     load_elf buf fresh fp c s v = Panic).
Proof.
  intros Hwf HR Hval Hok Hfl Hz. pose proof (reading_start v fp l Hwf HR Hval Hok Hfl) as Hrd.
  unfold load_elf. destruct (read_at_spec v fp l fp v 0 sizeof_Ehdr Hrd) as (fp1 & v1 & -> & Hrd1); [lia|done|lia|].
  cbn [obind]. rewrite zwrite_full.
  2:{ pose proof (zlen_file_bytes v l 0 sizeof_Ehdr). unfold zlen, sizeof_Ehdr in *. rewrite length_replicate. lia. }
  cbv zeta. fold (file_ehdr v l) (magic_wrong (file_ehdr v l)). split.
  - intros Hm. destruct (magic_wrong _) eqn:E.
    + exists fp1, v1. split; [done|]. apply (rd_quiet _ _ _ _ _ Hrd1).
    + destruct Hm. apply magic_read; [done|]. cbn [file_ehdr as_Ehdr e_ident].
      pose proof (zlen_file_bytes v l 0 sizeof_Ehdr). unfold zlen, sizeof_Ehdr in *. 
      rewrite zread_length; unfold zlen; lia.
  - intros Hm Ht. rewrite (magic_check (file_ehdr v l) Hm), (proj2 (Z.eqb_neq _ 2) Ht). done.
Qed.
End elf_theorems.

(** * A concrete program *)

(** A program of one segment at 0x10000: 124 bytes of the file, 5000 in
    memory, in the first sector of the example file. *)
Definition ex_elf_bytes : list Z :=
  [0x7f; 0x45; 0x4c; 0x46; 2; 1; 1; 0; 0; 0; 0; 0; 0; 0; 0; 0;
   2; 0; 0xf3; 0; 1; 0; 0; 0; 0x78; 0; 1; 0; 0; 0; 0; 0;
   64; 0; 0; 0; 0; 0; 0; 0; 0; 0; 0; 0; 0; 0; 0; 0;
   0; 0; 0; 0; 64; 0; 56; 0; 1; 0; 0; 0; 0; 0; 0; 0;
   1; 0; 0; 0; 5; 0; 0; 0; 0; 0; 0; 0; 0; 0; 0; 0;
   0; 0; 1; 0; 0; 0; 0; 0; 0; 0; 1; 0; 0; 0; 0; 0;
   124; 0; 0; 0; 0; 0; 0; 0; 0x88; 0x13; 0; 0; 0; 0; 0; 0;
   0; 0x10; 0; 0; 0; 0; 0; 0; 0x6f; 0; 0; 0].

(** Its entry in the root directory: the name A, cluster 3, 1300 bytes. *)
Definition ex_dirent : list (Z * Z) :=
  imap (λ i b, (Z.of_nat i, b)) ([65] ++ replicate 10 32 ++ [0x20]) ++ ex_word 26 3 ++ ex_dword 28 1300.

Definition ex_elf_disk : Qemu.disk :=
  Qemu.mkDisk (list_to_map (ex_at 5 (imap (λ i b, (Z.of_nat i, b)) ex_elf_bytes)
                            ++ ex_at 4 ex_dirent ++ ex_at 2 ex_fat)) 20.
Definition ex_elf_closed : vol Qemu.disk := mkVol ex_fs ex_elf_disk (replicate 256 0) 1 true.

(** The file and the volume after opening it. *)
Definition ex_elf_fil : FIL := mkFIL (mkFFOBJID true 1 0 0 3 1300) 1 0 0 0 0 4 0.
Definition ex_elf_vol : vol Qemu.disk :=
  Eval vm_compute in
  match f_open Qemu.get_fattime ex_fil [65] FA_READ ex_elf_closed with Some (_, v) => v | None => ex_elf_closed end.

Lemma ex_elf_open : f_open Qemu.get_fattime ex_fil [65] FA_READ ex_elf_closed = Some ((FR_OK, ex_elf_fil), ex_elf_vol).
Proof. vm_compute. reflexivity. Qed.

Lemma ex_elf_wf : wf ex_elf_vol.
Proof.
  split; [|done| |].
  - split; [by right; right|by right|..|apply list_elem_of_here]; vm_compute; intuition congruence.
  - apply Forall_forall. intros b Hb. assert (forallb (λ b, (0 <=? b) && (b <? 256)) (win (vfs ex_elf_vol)) = true) as H
      by (vm_compute; reflexivity).
    rewrite forallb_forall in H. specialize (H b (proj1 (list_elem_of_In _ _) Hb)). unfold is_byte. zb. lia.
  - right. vm_compute. intuition congruence.
Qed.

Lemma ex_elf_valid : valid_fil ex_elf_vol ex_elf_fil.
Proof. by vm_compute. Qed.

Lemma ex_elf_fil_ok : fil_ok ex_elf_vol ex_elf_fil ex_chain.
Proof.
  assert (∀ c, c ∈ ex_chain → fat_entry ex_elf_vol c = ex_link c) as He.
  { intros c Hc. unfold ex_chain in Hc. rewrite !elem_of_cons, elem_of_nil in Hc.
    destruct Hc as [->|[->|[->|[]]]]; vm_compute; reflexivity. }
  split; try done. right. assert (chain ex_link 18 3 ex_chain) as Hch.
  { apply chain_cons; [done..|]. apply chain_cons; [done..|]. by apply chain_last. }
  eapply chain_ext; [|exact Hch]. exact He.
Qed.

Lemma ex_elf_sector : FfWindow.view ex_elf_vol 5 = ex_elf_bytes ++ replicate 388 0.
Proof. vm_compute. reflexivity. Qed.

Lemma ex_elf_byte p : 0 <= p < 512 → file_byte ex_elf_vol ex_chain p = zget (ex_elf_bytes ++ replicate 388 0) p.
Proof.
  intros Hp. unfold file_byte, pos_sect. change (bcs (vfs ex_elf_vol)) with 512.
  rewrite Z.div_small, !Z.mod_small by (unfold SS; lia). rewrite Z.div_small by (unfold SS; lia).
  change (data_sect _ _ _) with 5. by rewrite ex_elf_sector.
Qed.

Lemma ex_elf_range p n : 0 <= p → p + n <= 512 →
  file_bytes ex_elf_vol ex_chain p n = zget (ex_elf_bytes ++ replicate 388 0) <$> seqZ p n.
Proof.
  intros Hp Hn. apply list_fmap_ext. intros i x Hx. apply lookup_seqZ in Hx as [-> ?]. apply ex_elf_byte. lia.
Qed.

Lemma ex_elf_ehdr : file_ehdr ex_elf_vol ex_chain = mkEhdr (zread ex_elf_bytes 0 16) 2 0x10078 64 1.
Proof. unfold file_ehdr. rewrite ex_elf_range by (unfold sizeof_Ehdr; lia). vm_compute. reflexivity. Qed.

Definition ex_phdr : Elf64_Phdr := mkPhdr 1 5 0 0x10000 124 5000.

Lemma ex_elf_phdrs : file_phdrs ex_elf_vol ex_chain = [ex_phdr].
Proof.
  unfold file_phdrs, file_phdr. rewrite ex_elf_ehdr. cbn [e_phoff e_phnum].
  rewrite ex_elf_range by (unfold sizeof_Phdr; lia). vm_compute. reflexivity.
Qed.

Lemma ex_elf_ok : elf_ok ex_elf_vol ex_elf_fil ex_chain.
Proof. split; rewrite ?ex_elf_ehdr; by vm_compute. Qed.

Lemma ex_apart s : all_pages (pool s) = all_pages (init_memory true) → apart 0x80020000 s.
Proof.
  intros Ha. split; [done|]. intros a x Hx. rewrite Ha in Hx. apply elem_all_pages in Hx as (i & Hi & ->).
  change (kernel_end (init_memory true)) with 0x84000000. unfold in_page, page_size. lia.
Qed.

Lemma ex_phdr_ok base s :
  (∀ i, 0 <= i < 512 → mem s (base + 8 * i) = 0) → (∀ va, translate (mem s) base va = None) →
  Forall (phdr_ok ex_elf_fil base s) [ex_phdr].
Proof.
  intros H0 Ht. apply Forall_singleton. intros _. split.
  - by split; vm_compute.
  - intros va _. split; [apply Ht|]. by rewrite H0 by apply vpn_range.
Qed.


Lemma load_elf_rejects_witness :
  ∃ c s fp' v', load_elf 0x80020000 (λ n, replicate (Z.to_nat n) 0) ex_fil c s ex_vol = Done (None, c, s, fp', v').
Proof.
  destruct (load_elf_rejects 0x80020000 (λ n, replicate (Z.to_nat n) 0) ex_fil
    (mkElf 0 (mkSegment true []) (mkSegment false [])) ex_mem ex_vol ex_chain
    ex_wf ex_reliable ex_valid_fil ex_fil_ok eq_refl) as [H _]; [vm_compute; discriminate|].
  destruct H as (fp' & v' & E & _).
  - vm_compute. discriminate.
  - exists (mkElf 0 (mkSegment true []) (mkSegment false [])), ex_mem, fp', v'. exact E.
Defined.
