(* ===== verification/KProc.v ===== *)
(** The start of a process in kernel/scheduler.cpp: the words of a command,
    the initial stack of a program and [create_process], which brings the
    page table, the loader, the stack and the process block together. *)
From Stdlib Require Import ZArith Lia Ascii String.
From stdpp Require Import base list numbers option gmap.
From S2P Require Import Prelude BlockDevice FfTypes FfWindow FfFat FfChain FfName FfMount FfFile FfRead FfSeek FfExample.
From S2P Require Import KBase KPages KPageTable KPageTableSpec KVm KBrk KMmap KSched KElf.

Local Open Scope Z_scope.
Local Open Scope out_scope.

(** * The words of a command *)

(** A copy of the command with its final zero, in which words are cut off by
    zeros; [start] is where a word begins. *)

Definition at_char (b : list Z) (p : Z) : outcome Z :=
  match b !! Z.to_nat p with Some c => Done c | None => Wild end.

(** The inner loop, up to the next quotation mark. *)
Fixpoint skip_to_quote (fuel : nat) (b : list Z) (p : Z) : outcome Z :=
  match fuel with
  | O => Loop
  | S fuel =>
      do c := at_char b p in
      if c =? 34 then Done p else skip_to_quote fuel b (p + 1)
  end.

Fixpoint command_loop (fuel : nat) (b : list Z) (p : Z) (in_space : bool) (splits : list Z)
    : outcome (list Z * list Z) :=
  match fuel with
  | O => Loop
  | S fuel =>
      do c := at_char b p in
      if c =? 0 then Done (b, splits)
      else if c =? 34 then
        let splits := splits ++ [p + 1] in
        do q := skip_to_quote (S (List.length b)) b (p + 1) in
        command_loop fuel (zset b q 0) (q + 1) true splits
      else if c =? 32 then
        if in_space then command_loop fuel b (p + 1) true splits
        else command_loop fuel (zset b p 0) (p + 1) true splits
      else if in_space then command_loop fuel b (p + 1) false (splits ++ [p])
      else command_loop fuel b (p + 1) false splits
  end.

(** The string at [p]: the characters up to the next zero. *)
Fixpoint c_string (b : list Z) : list Z :=
  match b with
  | [] => []
  | c :: b => if c =? 0 then [] else c :: c_string b
  end.

Definition string_at (b : list Z) (p : Z) : list Z := c_string (drop (Z.to_nat p) b).

(** The program and its arguments, as passed to the second [create_process].
    Every turn advances in the command. *)
Definition split_command (command : list Z) : outcome (list Z * list (list Z)) :=
  do (b, splits) := command_loop (S (List.length command)) (command ++ [0]) 0 true [] in
  match splits with
  | [] => Wild   (* [splits.start] is null *)
  | elf :: args => Done (string_at b elf, string_at b <$> args)
  end.

(** * The initial stack *)

Definition copy_to_stack (source : list Z) (st : Z * (Z → Z)) : Z * (Z → Z) :=
  let sp := u64 (st.1 - zlen source) in (sp, put_bytes st.2 sp source).

Definition put_envp (val : Z) (st : Z * (Z → Z)) : Z * (Z → Z) :=
  let sp := u64 (st.1 - 8) in (sp, λ x, if x =? sp then val else st.2 x).

Definition put_aux (aux_id aux_val : Z) (st : Z * (Z → Z)) : Z * (Z → Z) :=
  put_envp aux_id (put_envp aux_val st).

(** The text of string literals. *)
Definition chars (s : string) : list Z := (λ c, Z.of_N (N_of_ascii c)) <$> list_ascii_of_string s.

Definition env : list string :=
  ["SHELL=ash"; "PWD=/"; "HOME=/"; "USER=root"; "MOTD_SHOWN=pam"; "LANG=C.UTF-8";
   "INVOCATION_ID=e9500a871cf044d9886a157f53826684"; "TERM=vt220"; "SHLVL=2";
   "JOURNAL_STREAM=8:9265"; "PATH=/"; "OLDPWD=/"; "_=busybox"]%string.

(** The strings of a list, in turn, with their addresses. *)
Fixpoint copy_strings (l : list (list Z)) (st : Z * (Z → Z)) : list Z * (Z * (Z → Z)) :=
  match l with
  | [] => ([], st)
  | s :: l =>
      let st := copy_to_stack (s ++ [0]) st in
      let '(ptrs, st') := copy_strings l st in
      (st.1 :: ptrs, st')
  end.

(** The auxiliary vector in the order of the calls of [put_aux]. *)
Definition aux_entries (kernel_phdr ph_num entry rrr filename_addr : Z) : list (Z * Z) :=
  [(0, 0); (0x28, 0); (0x29, 0); (0x2a, 0); (0x2b, 0); (0x2c, 0); (0x2d, 0);
   (3, kernel_phdr); (4, sizeof_Phdr); (5, u64 ph_num); (6, 0x1000); (7, 0); (8, 0); (9, entry);
   (11, 0); (12, 0); (13, 0); (14, 0); (16, 0x112d); (17, 64); (25, rrr); (31, filename_addr);
   (33, 0x300000000)].

Definition skip_word (st : Z * (Z → Z)) : Z * (Z → Z) := (u64 (st.1 - 8), st.2).

(** [argv = None] is the null pointer; [rrr] is the address of the variable
    of that name. The result is the stack pointer and the memory. *)
Definition prepare_stack (argv : option (list (list Z))) (kernel_phdr ph_num entry rrr : Z)
    (st : Z * (Z → Z)) : Z * (Z → Z) :=
  let st := copy_to_stack (chars "busybox" ++ [0]) st in
  let filename_addr := st.1 in
  let '(envp_strings, st) := copy_strings (chars <$> env) st in
  let '(argv_strings, st) := copy_strings (default [] argv) st in
  let argv_strings := rev argv_strings in
  let st := (u64 (st.1 - st.1 mod 16), st.2) in
  let st := foldl (λ st e, put_aux e.1 e.2 st) st (aux_entries kernel_phdr ph_num entry rrr filename_addr) in
  let st := skip_word st in
  let st := foldl (λ st a, put_envp a st) st envp_strings in
  let st := skip_word st in
  let st := foldl (λ st a, put_envp a st) st argv_strings in
  let st := put_envp filename_addr st in
  put_envp (u64 (zlen argv_strings + 1)) st.

(** * Processes *)

Definition REGISTER_SSTATUS_SPP : Z := Z.shiftl 1 8.
Definition REGISTER_SSTATUS_SPIE : Z := Z.shiftl 1 5.

(** Values that come from outside the function: the address of [rrr], the
    stack array of the loader, what new arrays hold and the address of the
    program headers, the register [sstatus], the stack object [elf_file] and
    the identity of the new descriptor map. *)
Record create_env : Type := mkCreateEnv {
  ce_rrr : Z;
  ce_buf : Z;
  ce_fresh : Z → list Z;
  ce_phdr : Z;
  ce_sstatus : Z;
  ce_file : FIL;
  ce_fds : nat
}.

Section create.
Context {D : Type} {BD : BlockDevice D}.

(** The registers of a new program. *)
Definition new_context (sstatus sp entry page_table_base : Z) : Context :=
  let sstatus := Z.lor sstatus REGISTER_SSTATUS_SPP in
  let sstatus := Z.lxor sstatus REGISTER_SSTATUS_SPP in
  let sstatus := Z.lor sstatus REGISTER_SSTATUS_SPIE in
  mkContext sp 0 entry (Z.lor (Z.shiftr page_table_base 12) (u64 (Z.shiftl 8 60))) sstatus (replicate 32 0).

(** [None]: the machine was shut down by the loader. *)
Definition create_process (g : Globals) (ce : create_env) (elf_path : list Z) (argv : option (list (list Z)))
    (s : Sched) (v : vol D) : outcome (option Sched * vol D) :=
  do (page_table_base, m) := GetClearPage (kmem s) in
  do m := init_pageTable g page_table_base m in
  match f_open Qemu.get_fattime (ce_file ce) elf_path FA_READ v with
  | None => Loop
  | Some ((res, elf_file), v) =>
      if negb (fr_ok res) then Panic
      else
        let elf := mkElf page_table_base (mkSegment true []) (mkSegment false []) in
        do (r, elf, m, elf_file, v) := load_elf (ce_buf ce) (ce_fresh ce) elf_file elf m v in
        match r with
        | None => Done (None, v)
        | Some ld =>
            match f_close Qemu.get_fattime elf_file v with
            | None => Loop
            | Some (_, v) =>
                do (stack_page, p) := alloc_page (pool m) in
                let m := ClearPage stack_page (with_pool m p) in
                let '(sp, mm) := prepare_stack argv (ce_phdr ce) (ld_phnum ld) (ld_entry ld) (ce_rrr ce)
                                   (u64 (stack_page + 4096 - 10 * 8), mem m) in
                let m := mkKMem mm (pool m) in
                let thread_context := new_context (ce_sstatus ce) sp (ld_entry ld) page_table_base in
                let (n, s) := get_new_pid s in
                let new_pcb := mkPCB n 1 stack_page 4096 page_table_base elf (List.length (brks s))
                                 (List.length (mmaps s)) thread_context [47] 0 0
                                 (ce_fds ce) [] 0 0 in
                let s := set_memory m (brks s ++ [new_BrkControl page_table_base])
                           (mmaps s ++ [new_MmapControl page_table_base]) s in
                Done (Some (set_queues (running s) (runnable s ++ [new_pcb]) (blocked s) s), v)
            end
        end
  end.

(** [execute] begins with [exit_process], which does not return: the lines
    that would create the new process are not reached. *)
Definition execute {A} (del : PCB → KMem → outcome (KMem * A)) (exec_path : list Z) (s : Sched)
    : outcome (A * (sched_exit * Sched)) := exit_process del 0 s.

(** [create_process] of a command line. *)
Definition create_process_command (g : Globals) (ce : create_env) (command : list Z) (s : Sched) (v : vol D)
    : outcome (option Sched * vol D) :=
  do (elf, argv) := split_command command in
  create_process g ce elf (Some argv) s v.

End create.

(** * Commands and their words *)

(** The pieces of a command: a space, a word, or a text in quotation marks. *)
Inductive piece : Type := Space | Word (w : list Z) | Quoted (w : list Z).

Definition piece_text (t : piece) : list Z :=
  match t with Space => [32] | Word w => w | Quoted w => [34] ++ w ++ [34] end.
Definition command_text (l : list piece) : list Z := concat (piece_text <$> l).
Definition command_words (l : list piece) : list (list Z) :=
  omap (λ t, match t with Space => None | Word w | Quoted w => Some w end) l.

Definition plain (c : Z) : Prop := c ≠ 0 ∧ c ≠ 34 ∧ c ≠ 32.
Definition quotable (c : Z) : Prop := c ≠ 0 ∧ c ≠ 34.

Definition ends_word (l : list piece) : Prop := match l with [] | Space :: _ => True | _ => False end.

(** A word ends at a space or at the end of the command. *)
Fixpoint pieces_ok (l : list piece) : Prop :=
  match l with
  | [] => True
  | Space :: l => pieces_ok l
  | Word w :: l => w ≠ [] ∧ Forall plain w ∧ ends_word l ∧ pieces_ok l
  | Quoted w :: l => Forall quotable w ∧ pieces_ok l
  end.

Lemma at_char_app a c b : at_char (a ++ c :: b) (zlen a) = Done c.
Proof. unfold at_char, zlen. by rewrite Nat2Z.id, list_lookup_middle. Qed.

Lemma zset_app a c b x : zset (a ++ c :: b) (zlen a) x = a ++ x :: b.
Proof. unfold zset, zlen. rewrite Nat2Z.id, insert_app_r_alt, Nat.sub_diag by lia. done. Qed.

Lemma skip_to_quote_spec w : ∀ fuel a b,
  Forall quotable w → (length w < fuel)%nat →
  skip_to_quote fuel (a ++ w ++ 34 :: b) (zlen a) = Done (zlen a + zlen w).
Proof.
  induction w as [|c w IH]; intros [|fuel] a b Hw Hf; simpl in Hf; try lia; cbn [skip_to_quote app].
  - rewrite at_char_app. cbn [obind]. simpl. unfold zlen. simpl. f_equal. lia.
  - apply Forall_cons in Hw as [[_ Hc] Hw]. rewrite at_char_app. cbn [obind].
    rewrite (proj2 (Z.eqb_neq c 34)) by done. specialize (IH fuel (a ++ [c]) b Hw ltac:(lia)).
    rewrite <- app_assoc in IH. simpl in IH.
    replace (zlen (a ++ [c])) with (zlen a + 1) in IH by (unfold zlen; rewrite length_app; simpl; lia).
    rewrite IH. unfold zlen. simpl. f_equal. lia.
Qed.

Lemma string_at_word a w b : Forall (λ c, c ≠ 0) w → string_at (a ++ w ++ 0 :: b) (zlen a) = w.
Proof.
  intros Hw. unfold string_at, zlen. rewrite Nat2Z.id, drop_app_length.
  induction Hw as [|c w Hc _ IH]; simpl; [done|]. rewrite (proj2 (Z.eqb_neq c 0)) by done. by rewrite IH.
Qed.

(** The characters of a word are passed over. *)
Lemma split_word w : ∀ fuel a b splits,
  Forall plain w →
  command_loop (length w + fuel) (a ++ w ++ b) (zlen a) false splits =
  command_loop fuel ((a ++ w) ++ b) (zlen (a ++ w)) false splits.
Proof.
  induction w as [|c w IH]; intros fuel a b splits Hw; simpl; [by rewrite app_nil_r|].
  apply Forall_cons in Hw as [(H0 & H34 & H32) Hw]. rewrite at_char_app. cbn [obind].
  rewrite !(proj2 (Z.eqb_neq c _)) by done. specialize (IH fuel (a ++ [c]) b splits Hw).
  rewrite <- !app_assoc in IH. simpl in IH.
  replace (zlen (a ++ [c])) with (zlen a + 1) in IH by (unfold zlen; rewrite length_app; simpl; lia).
  rewrite IH, <- app_assoc. done.
Qed.

(** A quoted text is passed over and cut off. *)
Lemma split_quoted w fuel a b splits :
  Forall quotable w →
  command_loop (S fuel) (a ++ 34 :: w ++ 34 :: b) (zlen a) true splits =
  command_loop fuel ((a ++ 34 :: w ++ [0]) ++ b) (zlen (a ++ 34 :: w ++ [0])) true (splits ++ [zlen a + 1]).
Proof.
  intros Hq. cbn [command_loop]. rewrite at_char_app. cbn [obind]. simpl (34 =? _). cbv iota.
  pose proof (skip_to_quote_spec w (S (length (a ++ 34 :: w ++ 34 :: b))) (a ++ [34]) b Hq) as Es.
  rewrite <- app_assoc, zlen_snoc in Es. cbn [app] in Es. rewrite Es.
  2:{ rewrite length_app. simpl. rewrite length_app. lia. }
  cbn [obind]. pose proof (zset_app (a ++ 34 :: w) 34 b 0) as Ez. rewrite <- !app_assoc in Ez. cbn [app] in Ez.
  replace (zlen (a ++ 34 :: w)) with (zlen a + 1 + zlen w) in Ez by (unfold zlen; rewrite length_app; simpl; lia).
  rewrite Ez. rewrite <- app_assoc. cbn [app]. rewrite <- app_assoc. f_equal.
  unfold zlen. rewrite length_app. simpl. rewrite length_app. simpl. lia.
Qed.

Lemma command_loop_spec l : ∀ in_space fuel a splits,
  pieces_ok l → (in_space = false → ends_word l) → (length (command_text l) < fuel)%nat →
  ∃ out idx, command_loop fuel (a ++ command_text l ++ [0]) (zlen a) in_space splits =
      Done (a ++ out, splits ++ idx) ∧
    string_at (a ++ out) <$> idx = command_words l ∧ (in_space = false → ∃ out', out = 0 :: out').
Proof.
  induction l as [|t l IH]; intros in_space [|fuel] a splits Hok Hend Hf; try (simpl in Hf; lia).
  { exists [0], []. cbn [command_loop command_text fmap list_fmap concat app]. rewrite at_char_app.
    cbn [obind]. simpl. rewrite app_nil_r. split; [done|]. split; [done|]. intros _. by exists []. }
  unfold command_text in *. cbn [fmap list_fmap concat] in *. fold (command_text l) in *.
  rewrite length_app in Hf. destruct t as [|w|w]; cbn [piece_text] in *; cbn [pieces_ok] in Hok.
  - cbn [command_loop app]. rewrite at_char_app. cbn [obind]. simpl (32 =? _). cbv iota.
    assert (∀ b c, a ++ c :: b = (a ++ [c]) ++ b) as Hs by (intros; by rewrite <- app_assoc).
    simpl in Hf. destruct in_space.
    + destruct (IH true fuel (a ++ [32]) splits Hok) as (out & idx & E & Hw & _); [done|lia|].
      rewrite zlen_snoc in E. rewrite Hs, E. exists (32 :: out), idx. rewrite (Hs out 32). done.
    + rewrite zset_app. destruct (IH true fuel (a ++ [0]) splits Hok) as (out & idx & E & Hw & _); [done|lia|].
      rewrite zlen_snoc in E. rewrite Hs, E. exists (0 :: out), idx. rewrite (Hs out 0). split; [done|]. split; [done|]. intros _. by exists out.
  - destruct Hok as (Hne & Hpl & He & Hok). destruct in_space; [|by destruct (Hend eq_refl)].
    destruct w as [|c w]; [done|]. pose proof Hpl as Hpl'. apply Forall_cons in Hpl as [(H0 & H34 & H32) Hpl].
    cbn [command_loop app]. rewrite at_char_app. cbn [obind]. rewrite !(proj2 (Z.eqb_neq c _)) by done.
    simpl in Hf. replace fuel with (length w + (fuel - length w))%nat by lia.
    pose proof (split_word w (fuel - length w) (a ++ [c]) (command_text l ++ [0]) (splits ++ [zlen a]) Hpl) as Ew.
    rewrite <- !app_assoc in Ew. cbn [app] in Ew. rewrite zlen_snoc in Ew. rewrite <- app_assoc, Ew. clear Ew.
    destruct (IH false (fuel - length w)%nat (a ++ c :: w) (splits ++ [zlen a]) Hok) as (out & idx & E & Hw & Ho);
      [done|lia|]. rewrite <- app_assoc in E. cbn [app] in E. rewrite E.
    exists (c :: w ++ out), (zlen a :: idx). rewrite <- !app_assoc. cbn [app]. split; [done|]. split; [|done].
    rewrite <- app_assoc in Hw. cbn [app] in Hw. rewrite fmap_cons, Hw. cbn. f_equal.
    destruct (Ho eq_refl) as [out' ->]. apply (string_at_word a (c :: w) out').
    eapply Forall_impl; [exact Hpl'|]. by intros x [? _].
  - destruct in_space; [|by destruct (Hend eq_refl)]. destruct Hok as (Hq & Hok).
    cbn [app]. rewrite <- !app_assoc. cbn [app]. rewrite split_quoted by done.
    destruct (IH true fuel (a ++ 34 :: w ++ [0]) (splits ++ [zlen a + 1]) Hok) as (out & idx & E & Hw & _);
      [done|simpl in Hf; lia|].
    assert ((a ++ 34 :: w ++ [0]) ++ out = a ++ 34 :: w ++ 0 :: out) as Ho.
    { rewrite <- app_assoc. cbn [app]. by rewrite <- app_assoc. }
    rewrite E, Ho in *. exists (34 :: w ++ 0 :: out), (zlen a + 1 :: idx). rewrite <- app_assoc.
    split; [done|]. split; [|done]. rewrite fmap_cons, Hw. cbn. f_equal.
    pose proof (string_at_word (a ++ [34]) w out) as Hsw.
    rewrite <- app_assoc, zlen_snoc in Hsw. apply Hsw. eapply Forall_impl; [exact Hq|]. by intros x [? _].
Qed.

(** The words of a command are its words and quoted texts: for every
    sequence of spaces, words and quotations, [create_process] passes the first
    one as the program and the others as arguments; a command without words
    makes it follow a null pointer. *)
Theorem split_command_words l :
  pieces_ok l →
  split_command (command_text l) =
  match command_words l with [] => Wild | elf :: args => Done (elf, args) end.
Proof.
  intros Hok. unfold split_command.
  destruct (command_loop_spec l true (S (length (command_text l))) [] [] Hok) as (out & idx & E & Hw & _); [done|lia|].
  change (zlen []) with 0 in E. cbn [app] in E. rewrite E. cbn [obind app] in *.
  destruct idx as [|i idx]; rewrite <- Hw; done.
Qed.

Lemma split_command_words_witness :
  split_command (chars "echo " ++ [34] ++ chars "a b" ++ [34] ++ chars " c") = Done (chars "echo", [chars "a b"; chars "c"]).
Proof.
  apply (split_command_words [Word (chars "echo"); Space; Quoted (chars "a b"); Space; Word (chars "c")]).
  unfold plain, quotable. cbn. repeat split; try discriminate; repeat constructor; discriminate.
Defined.

(** * The initial stack *)

(** Zero-terminated strings and arrays of words in memory. *)
Definition cstr_at (m : Z → Z) (p : Z) (s : list Z) : Prop :=
  ∀ i, 0 <= i <= zlen s → get_byte m (p + i) = zget (s ++ [0]) i.
Definition words_at (m : Z → Z) (a : Z) (ws : list Z) : Prop :=
  ∀ i w, ws !! i = Some w → m (a + 8 * Z.of_nat i) = w.

(** The stack went down from [sp] to [sp']: what lies above and what lies
    below is as before. *)
Record grown (sp sp' : Z) (m m' : Z → Z) : Prop := mkGrown {
  gr_le : sp' <= sp;
  gr_byte pa : sp <= pa → get_byte m' pa = get_byte m pa;
  gr_word x : x mod 8 = 0 → x + 8 <= sp' ∨ sp <= x → m' x = m x;
  gr_odd x : x mod 8 ≠ 0 → m' x = m x   (* no word begins there *)
}.

Lemma stack_grown_refl sp m : grown sp sp m m.
Proof. split; [lia|done..]. Qed.

Lemma grown_trans sp sp1 sp2 m m1 m2 : grown sp sp1 m m1 → grown sp1 sp2 m1 m2 → grown sp sp2 m m2.
Proof.
  intros [A1 A2 A3 A4] [B1 B2 B3 B4]. split; [lia|..].
  - intros pa H. rewrite B2, A2 by lia. done.
  - intros x H0 H. rewrite B3, A3 by (done || lia). done.
  - intros x H. by rewrite B4, A4.
Qed.

Lemma cstr_grown sp sp' m m' p s : grown sp sp' m m' → sp <= p → cstr_at m p s → cstr_at m' p s.
Proof. intros Hg Hp Hs i Hi. rewrite (gr_byte _ _ _ _ Hg) by lia. auto. Qed.

Lemma words_grown sp sp' m m' a ws :
  grown sp sp' m m' → sp <= a → a mod 8 = 0 → words_at m a ws → words_at m' a ws.
Proof.
  intros Hg Ha H8 Hw i w Hi. rewrite (gr_word _ _ _ _ Hg); [by apply Hw| |lia]. Z.div_mod_to_equations. lia.
Qed.

(** Stores of bytes do not reach other words. *)
Lemma put_bytes_word bs : ∀ m a x,
  x mod 8 = 0 → x + 8 <= a ∨ a + zlen bs <= x → put_bytes m a bs x = m x.
Proof.
  induction bs as [|b bs IH]; intros m a x Hx H; simpl; [done|].
  assert (zlen (b :: bs) = 1 + zlen bs) as E by (unfold zlen; simpl; lia).
  assert (0 <= zlen bs) by (unfold zlen; lia). rewrite IH by (done || lia). unfold put_byte.
  destruct (Z.eqb_spec x (a - a mod 8)); [|done]. Z.div_mod_to_equations. lia.
Qed.

Lemma put_bytes_odd bs : ∀ m a x, x mod 8 ≠ 0 → put_bytes m a bs x = m x.
Proof.
  induction bs as [|b bs IH]; intros m a x Hx; simpl; [done|]. rewrite IH by done. unfold put_byte.
  destruct (Z.eqb_spec x (a - a mod 8)); [|done]. Z.div_mod_to_equations. lia.
Qed.

Lemma copy_to_stack_spec s sp m :
  bytes s → 0 <= sp - (zlen s + 1) → sp < 2 ^ 64 →
  ∃ m', copy_to_stack (s ++ [0]) (sp, m) = (sp - (zlen s + 1), m') ∧
    grown sp (sp - (zlen s + 1)) m m' ∧ cstr_at m' (sp - (zlen s + 1)) s.
Proof.
  intros Hb H0 H64. assert (0 <= zlen s) by (unfold zlen; lia). unfold copy_to_stack. cbn [fst snd].
  assert (zlen (s ++ [0]) = zlen s + 1) as Hl by apply zlen_snoc. rewrite Hl, u64_small by lia.
  eexists. split; [done|]. split; [split; [lia|..]|].
  - intros pa Hpa. rewrite put_bytes_get, decide_False by lia. done.
  - intros x Hx Ho. apply put_bytes_word; [done|]. rewrite Hl. lia.
  - intros x Hx. by apply put_bytes_odd.
  - intros i Hi. rewrite put_bytes_get, decide_True by lia.
    replace (sp - (zlen s + 1) + i - (sp - (zlen s + 1))) with i by lia. apply u8_small.
    apply (zget_byte _ i). apply Forall_app. split; [done|]. repeat constructor; lia.
Qed.

(** The room that strings take. *)
Definition strings_size (l : list (list Z)) : Z := Z.of_nat (sum_list_with (λ s, S (length s)) l).

Lemma copy_strings_spec l : ∀ sp m,
  Forall bytes l → 0 <= sp - strings_size l → sp < 2 ^ 64 →
  ∃ ptrs m', copy_strings l (sp, m) = (ptrs, (sp - strings_size l, m')) ∧
    grown sp (sp - strings_size l) m m' ∧ length ptrs = length l ∧
    Forall (λ p, sp - strings_size l <= p) ptrs ∧ Forall2 (cstr_at m') ptrs l.
Proof.
  induction l as [|s l IH]; intros sp m Hb H0 H64.
  { exists [], m. unfold strings_size. simpl. rewrite Z.sub_0_r. split_and!; auto using stack_grown_refl. }
  assert (strings_size (s :: l) = zlen s + 1 + strings_size l) as E by (unfold strings_size, zlen; simpl; lia).
  rewrite E in *. assert (0 <= strings_size l ∧ 0 <= zlen s) as [] by (unfold strings_size, zlen; lia).
  apply Forall_cons in Hb as [Hs Hb].
  destruct (copy_to_stack_spec s sp m Hs ltac:(lia) H64) as (m1 & E1 & G1 & C1).
  destruct (IH (sp - (zlen s + 1)) m1 Hb ltac:(lia) ltac:(lia)) as (ptrs & m2 & E2 & G2 & L2 & P2 & C2).
  cbn [copy_strings]. rewrite E1, E2. cbn [fst]. exists (sp - (zlen s + 1) :: ptrs), m2.
  replace (sp - (zlen s + 1 + strings_size l)) with (sp - (zlen s + 1) - strings_size l) by lia.
  split; [done|]. split; [by eapply grown_trans|]. split; [simpl; lia|]. split.
  - constructor; [lia|done].
  - constructor; [|done]. eapply cstr_grown; [exact G2|lia|done].
Qed.

(** The words [ws] were pushed below [sp0]. *)
Record stacked (sp0 : Z) (m0 : Z → Z) (ws : list Z) (st : Z * (Z → Z)) : Prop := mkStacked {
  sk_sp : st.1 = sp0 - 8 * zlen ws;
  sk_grown : grown sp0 st.1 m0 st.2;
  sk_words : words_at st.2 st.1 ws
}.

Section push.
Context (sp0 : Z) (m0 : Z → Z).
Hypothesis H8 : sp0 mod 8 = 0.
Hypothesis H64 : sp0 < 2 ^ 64.

Lemma words_cons m a w ws : m a = w → words_at m (a + 8) ws → words_at m a (w :: ws).
Proof.
  intros Hw Hs [|i] x Hx; simpl in Hx.
  - simplify_eq. f_equal. lia.
  - rewrite <- (Hs i x Hx). f_equal. lia.
Qed.

Lemma zlen_cons (w : Z) ws : zlen (w :: ws) = zlen ws + 1.
Proof. unfold zlen. simpl. lia. Qed.

Lemma put_envp_stacked w ws st :
  stacked sp0 m0 ws st → 0 <= sp0 - 8 * (zlen ws + 1) → stacked sp0 m0 (w :: ws) (put_envp w st).
Proof.
  intros [Hsp Hg Hw] H0. destruct st as [sp m]. cbn [fst snd] in *. unfold put_envp. cbn [fst snd].
  assert (0 <= zlen ws) by (unfold zlen; lia). rewrite u64_small by lia.
  assert ((sp - 8) mod 8 = 0) as Hm by (Z.div_mod_to_equations; lia).
  assert (grown sp (sp - 8) m (λ x, if x =? sp - 8 then w else m x)) as Hg'.
  { split; [lia|..].
    - intros pa Hpa. apply get_same. destruct (Z.eqb_spec (pa - pa mod 8) (sp - 8)); [|done].
      Z.div_mod_to_equations. lia.
    - intros x Hx Ho. destruct (Z.eqb_spec x (sp - 8)); [lia|done].
    - intros x Hx. destruct (Z.eqb_spec x (sp - 8)); [congruence|done]. }
  split; cbn [fst snd].
  - rewrite zlen_cons. lia.
  - by eapply grown_trans.
  - apply words_cons; [by rewrite Z.eqb_refl|]. replace (sp - 8 + 8) with sp by lia.
    eapply words_grown; [exact Hg'|lia| |done]. Z.div_mod_to_equations. lia.
Qed.

Lemma skip_word_stacked ws st :
  stacked sp0 m0 ws st → 0 <= sp0 - 8 * (zlen ws + 1) → m0 (sp0 - 8 * (zlen ws + 1)) = 0 →
  stacked sp0 m0 (0 :: ws) (skip_word st).
Proof.
  intros [Hsp Hg Hw] H0 Hz. destruct st as [sp m]. cbn [fst snd] in *. unfold skip_word. cbn [fst snd].
  assert (0 <= zlen ws) by (unfold zlen; lia). rewrite u64_small by lia.
  split; cbn [fst snd].
  - rewrite zlen_cons. lia.
  - eapply grown_trans; [exact Hg|]. split; [lia|done..].
  - apply words_cons; [|by replace (sp - 8 + 8) with sp by lia].
    rewrite (gr_word _ _ _ _ Hg); [|Z.div_mod_to_equations; lia|lia]. rewrite <- Hz. f_equal. lia.
Qed.

Lemma put_envps_stacked l : ∀ ws st,
  stacked sp0 m0 ws st → 0 <= sp0 - 8 * (zlen ws + zlen l) →
  stacked sp0 m0 (rev l ++ ws) (foldl (λ st a, put_envp a st) st l).
Proof.
  induction l as [|a l IH]; intros ws st Hs H0; [done|]. rewrite zlen_cons in H0.
  assert (0 <= zlen l) by (unfold zlen; lia). cbn [foldl rev]. rewrite <- app_assoc. cbn [app].
  apply IH; [apply put_envp_stacked; [done|lia]|]. rewrite zlen_cons. lia.
Qed.

(** The entries of the auxiliary vector as they lie in memory. *)
Definition aux_words (l : list (Z * Z)) : list Z := concat ((λ e, [e.1; e.2]) <$> rev l).

Lemma put_auxs_stacked l : ∀ ws st,
  stacked sp0 m0 ws st → 0 <= sp0 - 8 * (zlen ws + 2 * zlen l) →
  stacked sp0 m0 (aux_words l ++ ws) (foldl (λ st e, put_aux e.1 e.2 st) st l).
Proof.
  induction l as [|[i v] l IH]; intros ws st Hs H0; [done|].
  assert (zlen ((i, v) :: l) = zlen l + 1) as E by (unfold zlen; simpl; lia). rewrite E in H0.
  assert (0 <= zlen l) by (unfold zlen; lia). cbn [foldl fst snd].
  replace (aux_words ((i, v) :: l) ++ ws) with (aux_words l ++ i :: v :: ws).
  2:{ unfold aux_words. cbn [rev]. rewrite fmap_app, concat_app, <- app_assoc. done. }
  apply IH; [|rewrite !zlen_cons; lia]. unfold put_aux.
  apply put_envp_stacked; [apply put_envp_stacked; [done|lia]|]. rewrite zlen_cons. lia.
Qed.

End push.

Lemma cstrs_grown sp sp' m m' ps l :
  grown sp sp' m m' → Forall (λ p, sp <= p) ps → Forall2 (cstr_at m) ps l → Forall2 (cstr_at m') ps l.
Proof.
  intros Hg Hp H. induction H as [|p s ps l Hs _ IH]; constructor; apply Forall_cons in Hp as [Hp1 Hp2].
  - by eapply cstr_grown.
  - auto.
Qed.

(** The bytes that the initial stack takes at most. *)
Definition stack_need (args : list (list Z)) : Z :=
  strings_size (chars "busybox" :: (chars <$> env) ++ args) + 15 + 8 * (63 + zlen args).

Lemma strings_size_app l k : strings_size (l ++ k) = strings_size l + strings_size k.
Proof. unfold strings_size. rewrite sum_list_with_app. lia. Qed.

Lemma chars_bytes s : bytes (chars s).
Proof.
  unfold chars. apply Forall_fmap, Forall_forall. intros c _. unfold compose, is_byte.
  pose proof (N_ascii_bounded c). lia.
Qed.

(** The strings of the stack and their addresses. *)
Lemma stack_strings args sp m :
  Forall bytes args → 0 <= sp - strings_size (chars "busybox" :: (chars <$> env) ++ args) → sp < 2 ^ 64 →
  ∃ f sp1 m1 envp m2 argvp m3,
    copy_to_stack (chars "busybox" ++ [0]) (sp, m) = (f, m1) ∧
    copy_strings (chars <$> env) (f, m1) = (envp, (sp1, m2)) ∧
    copy_strings args (sp1, m2) =
      (argvp, (sp - strings_size (chars "busybox" :: (chars <$> env) ++ args), m3)) ∧
    grown sp (sp - strings_size (chars "busybox" :: (chars <$> env) ++ args)) m m3 ∧
    length envp = length env ∧ length argvp = length args ∧
    Forall (λ p, sp - strings_size (chars "busybox" :: (chars <$> env) ++ args) <= p) (f :: envp ++ argvp) ∧
    cstr_at m3 f (chars "busybox") ∧ Forall2 (cstr_at m3) envp (chars <$> env) ∧ Forall2 (cstr_at m3) argvp args.
Proof.
  intros Hb H0 H64. set (need := strings_size _) in *.
  assert (need = zlen (chars "busybox") + 1 + strings_size (chars <$> env) + strings_size args) as En.
  { subst need. change (?a :: ?b ++ ?c) with ([a] ++ b ++ c). rewrite !strings_size_app.
    unfold strings_size at 1, zlen. simpl. lia. }
  assert (0 <= zlen (chars "busybox") ∧ 0 <= strings_size (chars <$> env) ∧ 0 <= strings_size args) as (N1 & N2 & N3)
    by (unfold strings_size, zlen; lia).
  destruct (copy_to_stack_spec (chars "busybox") sp m (chars_bytes _) ltac:(lia) H64) as (m1 & E1 & G1 & C1).
  set (f := sp - (zlen (chars "busybox") + 1)) in *.
  destruct (copy_strings_spec (chars <$> env) f m1) as (envp & m2 & E2 & G2 & L2 & P2 & C2); [|lia|lia|].
  { apply Forall_fmap, Forall_forall. intros s _. apply chars_bytes. }
  set (sp1 := f - strings_size (chars <$> env)) in *.
  destruct (copy_strings_spec args sp1 m2 Hb) as (argvp & m3 & E3 & G3 & L3 & P3 & C3); [lia|lia|].
  replace (sp1 - strings_size args) with (sp - need) in * by lia.
  exists f, sp1, m1, envp, m2, argvp, m3. split; [done|]. split; [done|]. split; [done|].
  pose proof (grown_trans _ _ _ _ _ _ G2 G3) as G23. split; [exact (grown_trans _ _ _ _ _ _ G1 G23)|].
  split; [by rewrite L2, length_fmap|]. split; [done|]. split; [|split; [|split; [|done]]].
  - apply Forall_cons. split; [lia|]. apply Forall_app. split; [|done].
    eapply Forall_impl; [exact P2|]. simpl. intros p Hp. lia.
  - eapply cstr_grown; [exact G23|lia|done].
  - eapply cstrs_grown; [exact G3|done|done].
Qed.

(** The words below the strings, which end at [low]; [page] bounds them. *)
Lemma stack_words page low m aux envp argvp f :
  0 <= page → page + 15 + 8 * (63 + zlen argvp) <= low < 2 ^ 64 → zlen aux = 23 → zlen envp = 13 →
  (∀ x, x mod 8 = 0 → page <= x → x + 8 <= low → m x = 0) →
  let st := (u64 (low - low mod 16), m) in
  let st := foldl (λ st e, put_aux e.1 e.2 st) st aux in
  let st := foldl (λ st a, put_envp a st) (skip_word st) envp in
  let st := foldl (λ st a, put_envp a st) (skip_word st) (rev argvp) in
  stacked (low - low mod 16) m ([zlen argvp + 1] ++ (f :: argvp) ++ [0] ++ rev envp ++ [0] ++ aux_words aux)
    (put_envp (u64 (zlen (rev argvp) + 1)) (put_envp f st)).
Proof.
  intros H0 Hlow La Le Hzero. pose proof (Z.mod_pos_bound low 16 ltac:(lia)) as Hm16.
  assert (0 <= zlen argvp) by (unfold zlen; lia). cbv zeta. rewrite (u64_small (low - low mod 16)) by lia. set (sp2 := low - low mod 16).
  assert (sp2 mod 8 = 0) as H8 by (subst sp2; Z.div_mod_to_equations; lia).
  assert (∀ k, 0 <= k <= 62 + zlen argvp → m (sp2 - 8 * (k + 1)) = 0) as Hgap.
  { intros k Hk. apply Hzero; [Z.div_mod_to_equations; lia|lia|lia]. }
  assert (∀ l, zlen (aux_words l) = 2 * zlen l) as Laux.
  { intros l. unfold aux_words, zlen. rewrite <- (length_rev l).
    induction (rev l) as [|e k IH]; [done|]. rewrite fmap_cons. simpl in *. lia. }
  assert (stacked sp2 m [] (sp2, m)) as S0.
  { split; [cbn [fst]; change (@zlen Z []) with 0; lia|apply stack_grown_refl|]. intros i w Hi. by rewrite lookup_nil in Hi. }
  pose proof (put_auxs_stacked sp2 m H8 ltac:(lia) aux _ _ S0 ltac:(change (@zlen Z []) with 0; lia)) as S1.
  rewrite app_nil_r in S1. apply skip_word_stacked in S1; [|done|lia|rewrite Laux; lia|apply Hgap; rewrite Laux; lia].
  apply (put_envps_stacked sp2 m H8 ltac:(lia) envp) in S1; [|rewrite zlen_cons, Laux; lia].
  assert (zlen (rev envp ++ 0 :: aux_words aux) = 60) as L1.
  { specialize (Laux aux). unfold zlen in *. rewrite length_app, length_rev. simpl length. lia. }
  apply skip_word_stacked in S1; [|done|lia|lia|apply Hgap; lia].
  apply (put_envps_stacked sp2 m H8 ltac:(lia) (rev argvp)) in S1.
  2:{ rewrite zlen_cons. unfold zlen in *. rewrite length_rev. lia. }
  rewrite rev_involutive in S1. set (ws := argvp ++ _) in S1.
  assert (zlen ws = zlen argvp + 61) as L2.
  { subst ws. unfold zlen in *. rewrite length_app. simpl length. lia. }
  apply (put_envp_stacked sp2 m H8 ltac:(lia) f) in S1; [|lia].
  apply (put_envp_stacked sp2 m H8 ltac:(lia) (zlen argvp + 1)) in S1; [|rewrite zlen_cons; lia].
  replace (u64 (zlen (rev argvp) + 1)) with (zlen argvp + 1); [exact S1|].
  unfold zlen in *. rewrite length_rev, u64_small; lia.
Qed.

(** A new program starts with the stack it expects: at the stack pointer
    the number of arguments, then their addresses with the program name
    first, a zero, the addresses of the environment, a zero and the auxiliary
    vector ending in its null entry; the addresses are those of the
    zero-terminated strings. All of it lies in the stack page and no other
    memory is touched. *)
Lemma stack_spec args kernel_phdr ph_num entry rrr page m :
  page mod 4096 = 0 → 0x1000 <= page < 2 ^ 56 → Forall bytes args → stack_need args <= 4096 - 10 * 8 →
  (∀ x, in_page page x → m x = 0) →
  ∃ sp m' filename argvp envp,
    prepare_stack (Some args) kernel_phdr ph_num entry rrr (page + 4096 - 10 * 8, m) = (sp, m') ∧
    page <= sp ∧ sp mod 8 = 0 ∧
    words_at m' sp ([zlen args + 1] ++ (filename :: argvp) ++ [0] ++ envp ++ [0] ++
                    aux_words (aux_entries kernel_phdr ph_num entry rrr filename)) ∧
    Forall2 (cstr_at m') (filename :: argvp) (chars "busybox" :: args) ∧
    Forall2 (cstr_at m') envp (rev (chars <$> env)) ∧
    (∀ x, ¬ in_page page x → m' x = m x).
Proof.
  intros Hp0 Hp Hb Hneed Hz. unfold stack_need in Hneed. set (sp0 := page + 4096 - 10 * 8) in *.
  assert (0 <= zlen args) by (unfold zlen; lia).
  destruct (stack_strings args sp0 m Hb) as
    (f & sp1 & m1 & envp & m2 & argvp & m3 & E1 & E2 & E3 & G & Le & La & Hlo & Cf & Ce & Ca); [lia|lia|].
  set (low := sp0 - strings_size _) in *.
  assert (page + 15 + 8 * (63 + zlen args) <= low <= sp0) as Hlow.
  { subst low. unfold strings_size in *. lia. }
  pose proof (Z.mod_pos_bound low 16 ltac:(lia)) as Hm16.
  assert (zlen argvp = zlen args) as La2 by (unfold zlen; by rewrite La).
  pose proof (stack_words page low m3 (aux_entries kernel_phdr ph_num entry rrr f) envp argvp f
    ltac:(lia) ltac:(lia) eq_refl) as S1.
  cbv zeta in S1. specialize (S1 ltac:(unfold zlen; by rewrite Le)).
  unfold prepare_stack. change (default [] (Some args)) with args. rewrite E1. cbn [fst]. rewrite E2, E3. cbn [fst snd].
  match goal with |- context [put_envp (u64 _) ?t] => set (st := put_envp (u64 (zlen (rev argvp) + 1)) t) in * end.
  specialize (S1 ltac:(intros x Hx1 Hx2 Hx3; rewrite (gr_word _ _ _ _ G) by (done || lia); apply Hz;
    unfold in_page; lia)). clearbody st.
  destruct st as [sp m']. destruct S1 as [K1 K2 K3]. cbn [fst snd] in K1, K2, K3.
  assert (sp = low - low mod 16 - 8 * (63 + zlen args)) as Hsp.
  { rewrite K1. f_equal. f_equal. unfold zlen in *. rewrite !length_app, length_rev, Le. cbn [length].
    change (length (aux_words _)) with 46%nat. change (length env) with 13%nat. lia. }
  exists sp, m', f, argvp, (rev envp). split; [reflexivity|].
  apply Forall_cons in Hlo as [Hf Hlo]. apply Forall_app in Hlo as [He Ha].
  assert (∀ ps l, Forall (λ p, low <= p) ps → Forall2 (cstr_at m3) ps l → Forall2 (cstr_at m') ps l) as Hc.
  { intros ps l Hps. eapply cstrs_grown; [exact K2|]. eapply Forall_impl; [exact Hps|]. simpl. intros. lia. }
  split; [lia|]. split; [Z.div_mod_to_equations; lia|]. rewrite <- La2.
  split; [exact K3|]. split; [|split].
  - apply Hc; constructor; auto.
  - rewrite !rev_alt. by apply Forall2_reverse, Hc.
  - intros x Hin. unfold in_page in Hin. destruct (decide (x mod 8 = 0)) as [Hx|Hx].
    2:{ by rewrite (gr_odd _ _ _ _ K2), (gr_odd _ _ _ _ G). }
    assert (x + 8 <= page ∨ page + 4096 <= x) by (Z.div_mod_to_equations; lia).
    rewrite (gr_word _ _ _ _ K2) by (done || lia). apply (gr_word _ _ _ _ G); [done|lia].
Qed.

(** * New processes *)

Section new_process.
Context {D : Type} {BD : BlockDevice D} {BL : BlockDeviceLaws D}.
Implicit Types v : vol D.

(** Closing a file that was only read leaves the volume alone. *)
Lemma close_read v0 fp0 l fp v :
  reading v0 fp0 l fp v → flag fp0 = FA_READ →
  ∃ fp', f_close Qemu.get_fattime fp v = Some ((FR_OK, fp'), v).
Proof.
  intros [_ _ _ _ [HR Hp] (H1&H2&H3&H4) _ _ _ Hfl] E. rewrite E in Hfl.
  assert (validate (fobj fp) v = Some (FR_OK, v)) as Hval.
  { unfold validate, sbind, sget. by rewrite H1, (proj2 (Z.eqb_neq _ 0) H2), H3, Z.eqb_refl, Hp, disk_status_ok. }
  unfold f_close, f_sync. rewrite (sbind_run _ _ v (FR_OK, fp) v).
  2:{ rewrite (sbind_run _ _ _ _ _ Hval), Hfl. done. }
  cbn [fr_ok]. rewrite (sbind_run _ _ _ _ _ Hval). eauto.
Qed.

(** Segments below the device page fit a new address space. *)
Definition user_image (size : Z) (phs : list Elf64_Phdr) : Prop :=
  Forall (λ ph, loadable ph = true → seg_ok size ph ∧ seg_end ph <= 0x38000000) phs.

Lemma user_image_ok g fp phs base s :
  user_image (objsize (fobj fp)) phs → (∀ va, translate (mem s) base va = kernel_map g va) →
  is_leaf (mem s (base + 8 * 0)) = false → Forall (phdr_ok fp base s) phs.
Proof.
  intros Hu Ht Hl. eapply Forall_impl; [exact Hu|]. intros ph H Hload. destruct (H Hload) as [Hs Hend].
  split; [done|]. intros va Hva. assert (0 <= va < 0x38000000) as Hr.
  { destruct Hs. unfold seg_start in Hva. Z.div_mod_to_equations. lia. }
  split.
  - rewrite Ht. unfold kernel_map.
    rewrite !decide_False; try done; Z.div_mod_to_equations; lia.
  - replace (vpn2 va) with 0; [done|]. unfold vpn2. rewrite Z.div_small, Z.mod_0_l by lia. done.
Qed.

Lemma new_context_mode sstatus sp entry base :
  Z.testbit (c_sstatus (new_context sstatus sp entry base)) 8 = false ∧
  Z.testbit (c_sstatus (new_context sstatus sp entry base)) 5 = true.
Proof.
  unfold new_context, REGISTER_SSTATUS_SPP, REGISTER_SSTATUS_SPIE. cbn [c_sstatus].
  split; rewrite Z.lor_spec, Z.lxor_spec, Z.lor_spec.
  - by destruct (Z.testbit sstatus 8).
  - by destruct (Z.testbit sstatus 5).
Qed.

(** A byte in a page of a space that is kept is loaded as before. *)
Lemma load_byte_kept base T pages m m' a va :
  pt_rep m base T pages → a ∈ pages →
  (∀ b x, b ∈ table_pages base T ++ pages → in_page b x → mem m' x = mem m x) →
  translate (mem m') base va = Some (a + va mod 4096, 0xdf) →
  load_byte m' base va = Some (get_byte (mem m) (a + va mod 4096)).
Proof.
  intros Hrep Ha Hkeep Htr. unfold load_byte. rewrite Htr. f_equal.
  assert (a ∈ table_pages base T ++ pages) as Hin by (rewrite elem_of_app; by right).
  apply get_same, (Hkeep a); [done|]. apply in_page_word; [|by apply Z.mod_pos_bound].
  apply (pool_page _ _ _ (pr_pool _ _ _ _ Hrep)), (pool_owned_in _ _ _ (pr_pool _ _ _ _ Hrep)), Hin.
Qed.

(** Pages in use survive the making of an empty address space. *)
Lemma new_space_keeps base m p0 m1 T1 rest :
  pool_ok p0 (base :: rest) → pt_rep m1 base T1 rest →
  (∀ x, (∀ t, t ∈ table_pages base T1 → ¬ in_page t x) → mem m1 x = mem (ClearPage base (with_pool m p0)) x) →
  ∀ b x, b ∈ rest → in_page b x → mem m1 x = mem m x.
Proof.
  intros Hok0 Hrep1 Hfr b x Hb Hx. rewrite Hfr.
  - rewrite ClearPage_out; [done|]. apply (owned_apart p0 [] base rest b x Hok0); done.
  - intros t Ht Htx. pose proof (pr_pool _ _ _ _ Hrep1) as Hp1. apply elem_of_Permutation in Hb as [k Hk].
    rewrite Hk in Hp1. apply (owned_apart _ (table_pages base T1) b k t x Hp1); [rewrite elem_of_app; by left|done|done].
Qed.

(** C8: [create_process] adds one process, ready to run: it has a new number
    and the first process as parent, its registers start the program in user
    mode at its entry point, with its own page table and initial stack; in its
    address space the segments of the file are loaded and everything else is
    as the kernel maps it. The pages in use before, the queues and the volume
    are unchanged. *)
Theorem create_process_correct g ce path args s v rest fp v1 l :
  let phs := file_phdrs v1 l in
  let m := kmem s in
  f_open Qemu.get_fattime (ce_file ce) path FA_READ v = Some ((FR_OK, fp), v1) →
  wf v1 → reliable v1 → valid_fil v1 fp → fil_ok v1 fp l → flag fp = FA_READ → elf_ok v1 fp l →
  user_image (objsize (fobj fp)) phs →
  zlen (ce_fresh ce (zlen (file_phdr v1 l))) = zlen (file_phdr v1 l) →
  globals_ok g → pool_ok (pool m) rest → apart (ce_buf ce) m → (10 + 3 * image_size phs <= nfree m)%nat →
  Forall bytes args → stack_need args <= 4096 - 10 * 8 →
  ∃ s' v' p filename argvp envp,
    create_process g ce path (Some args) s v = Done (Some s', v') ∧ veq v1 v' ∧
    (running s', runnable s', blocked s') = (running s, runnable s ++ [p], blocked s) ∧
    (pid p, ppid p) = (s32 (global_pid s + 1), 1) ∧
    (brks s' !! brk_control p, mmaps s' !! mmap_control p) =
      (Some (new_BrkControl (page_table p)), Some (new_MmapControl (page_table p))) ∧
    let c := thread_context p in
    c_sepc c = e_entry (file_ehdr v1 l) ∧
    c_satp c = Z.lor (Z.shiftr (page_table p) 12) (u64 (Z.shiftl 8 60)) ∧
    Z.testbit (c_sstatus c) 8 = false ∧ Z.testbit (c_sstatus c) 5 = true ∧
    (∀ va b, image v1 l phs va = Some b → load_byte (kmem s') (page_table p) va = Some b) ∧
    (∀ va, image v1 l phs va = None → translate (mem (kmem s')) (page_table p) va = kernel_map g va) ∧
    words_at (mem (kmem s')) (c_sp c)
      ([zlen args + 1] ++ (filename :: argvp) ++ [0] ++ envp ++ [0] ++
       aux_words (aux_entries (ce_phdr ce) (e_phnum (file_ehdr v1 l)) (e_entry (file_ehdr v1 l)) (ce_rrr ce) filename)) ∧
    Forall2 (cstr_at (mem (kmem s'))) (filename :: argvp) (chars "busybox" :: args) ∧
    Forall2 (cstr_at (mem (kmem s'))) envp (rev (chars <$> env)) ∧
    (∀ a x, a ∈ rest → in_page a x → mem (kmem s') x = mem m x) ∧
    ∃ T, pt_rep (kmem s') (page_table p) T ((image_pages (elf_control p) ++ [stack p]) ++ rest).
Proof.
  intros phs m Eo Hwf HR Hval Hok Hfl He Hu Hfresh Hg Hpool Hbuf Hn Hargs Hneed. unfold create_process.
  destruct (GetClearPage_spec m rest Hpool) as [[_ H]|(base & p0 & Eg & Hok0 & Hlen0 & Hall0)]; [lia|].
  destruct (fresh_root _ _ _ _ Hpool Eg) as (Hrep0 & Hz0 & Hf0). fold m. rewrite Eg. cbn [obind].
  set (m0 := ClearPage base (with_pool m p0)) in *.
  destruct (init_pageTable_spec g m0 base rest Hg Hrep0 Hz0) as
    (m1 & T1 & -> & Hrep1 & Ht1 & Hl1 & Hn1 & Hall1 & Hfr1); [lia|]. cbn [obind]. rewrite Eo. cbn [fr_ok negb].
  set (elf0 := mkElf base _ _).
  destruct (load_elf_spec (ce_buf ce) (ce_fresh ce) fp elf0 m1 v1 l T1 rest Hwf HR Hval Hok) as
    (elf & m2 & fp2 & v2 & T2 & -> & Hout2 & Hrest2 & Hb2 & Hrep2 & Hn2 & Hall2 & Him2 & Hrd2);
    [by rewrite Hfl|done|done| |done| |fold phs; lia|].
  { destruct Hbuf as [Hb1 Hb2]. split; [done|]. rewrite Hall1. change (pool m0) with p0. by rewrite Hall0. }
  { apply (user_image_ok g); [done|exact Ht1|apply Hl1; by left]. }
  cbn [obind]. destruct (close_read _ _ _ _ _ Hrd2 Hfl) as [fp3 ->]. fold phs in Hn2, Him2, Hout2.
  change (elf_page_table elf0) with base in *.
  destruct (alloc_page_spec _ _ (pr_pool _ _ _ _ Hrep2)) as [[E _]|(a & q & Ea & _ & Hokq & _)].
  { unfold nfree in *. rewrite E in Hn2. simpl in Hn2. lia. }
  rewrite Ea. cbn [obind ld_phnum ld_entry].
  destruct (pool_page q _ a Hokq) as [Ha1 Ha2]; [apply (pool_owned_in _ _ _ Hokq), list_elem_of_here|].
  destruct (stack_spec args (ce_phdr ce) (e_phnum (file_ehdr v1 l)) (e_entry (file_ehdr v1 l)) (ce_rrr ce) a
    (mem (ClearPage a (with_pool m2 q))) Ha1 Ha2 Hargs Hneed) as
    (sp & mm & fn & argvp & envp & Es & _ & _ & Hws & Hargv & Henvp & Hmm); [intros x Hx; by apply ClearPage_in|].
  rewrite u64_small, Es by lia. clear Es.
  destruct (fresh_filled base (image_pages elf) rest m2 T2 a q (mkKMem mm q) Hrep2 Ea eq_refl) as
    (Hrep3 & Ht3 & Hap & _).
  { intros x Hx. change (mm x = mem m2 x). by rewrite Hmm, ClearPage_out. }
  assert (∀ b x, b ∈ table_pages base T2 ++ image_pages elf ++ rest → in_page b x → mm x = mem m2 x) as Hkeep.
  { intros b x Hb Hx. assert (¬ in_page a x) by (by apply (Hap b)). by rewrite Hmm, ClearPage_out. }
  eexists _, v2, _, fn, argvp, envp. split; [reflexivity|]. split; [apply (rd_quiet _ _ _ _ _ Hrd2)|].
  cbn [get_new_pid set_global_pid set_memory set_queues running runnable blocked brks mmaps kmem mem pool
       pid ppid brk_control mmap_control page_table thread_context stack elf_control].
  split; [reflexivity|]. split; [reflexivity|]. split; [by rewrite !list_lookup_middle|].
  cbv zeta. split; [reflexivity|]. split; [reflexivity|]. split; [apply new_context_mode|].
  split; [apply new_context_mode|]. split; [|split; [|split; [done|split; [done|split; [done|split]]]]].
  - intros va b Hb. destruct (Him2 va b Hb) as (c & Hc & Htr & <-).
    apply (load_byte_kept base T2 (image_pages elf ++ rest)); [done|rewrite elem_of_app; by left|done|by rewrite Ht3].
  - intros va Hva. rewrite Ht3, Hout2, Ht1 by done. done.
  - intros b x Hb Hx. rewrite (Hkeep b x), (Hrest2 b x) by (done || rewrite !elem_of_app; auto).
    exact (new_space_keeps base m p0 m1 T1 rest Hok0 Hrep1 Hfr1 b x Hb Hx).
  - exists T2. exact Hrep3.
Qed.

(** Whatever the program, a process that is created gets a number of its own. *)
Lemma create_process_numbers g ce path argv s v s' v' :
  sched_ok s → global_pid s < 2 ^ 31 - 1 → create_process g ce path argv s v = Done (Some s', v') → sched_ok s'.
Proof.
  intros [H1 H2 H3] Hg. unfold create_process.
  destruct (GetClearPage (kmem s)) as [[base m]| | |]; cbn [obind]; try done.
  destruct (init_pageTable g base m) as [m1| | |]; cbn [obind]; try done.
  destruct (f_open _ _ _ _ _) as [[[res fp] v1]|]; [|done]. destruct (negb (fr_ok res)); [done|].
  destruct (load_elf _ _ _ _ _ _) as [[[[[r elf] m2] fp2] v2]| | |]; cbn [obind]; try done.
  destruct r as [ld|]; [|done]. destruct (f_close _ _ _) as [[r3 v3]|]; [|done].
  destruct (alloc_page _) as [[stk q]| | |]; cbn [obind]; try done.
  destruct (prepare_stack _ _ _ _ _ _) as [sp mm]. unfold get_new_pid. rewrite s32_small by lia.
  intros [= <- <-]. split; simpl.
  - unfold pids, procs. simpl. rewrite !fmap_app. simpl. rewrite <- app_assoc. cbn [app]. rewrite <- !Permutation_middle, <- !fmap_app.
    apply NoDup_cons. split; [|exact H1]. intros Hin. apply H2 in Hin. lia.
  - intros n. unfold pids, procs. simpl. rewrite !fmap_app. simpl. rewrite <- app_assoc. cbn [app].
    rewrite <- !Permutation_middle, <- !fmap_app. intros [->|Hn]%elem_of_cons; [lia|]. apply H2 in Hn. lia.
  - lia.
Qed.

End new_process.

Definition ex_create : create_env :=
  mkCreateEnv 0x80010000 0x80020000 (λ n, replicate (Z.to_nat n) 0) 0x80600000 0x100 ex_fil 1.

Lemma create_process_correct_witness :
  ∃ s' v' p,
    create_process ex_globals ex_create [65] (Some [chars "ls"])
      (ex_sched ex_mem (ex_proc 2 1 0x84005000) [] []) ex_elf_closed = Done (Some s', v') ∧
    runnable s' = [p] ∧ pid p = 6 ∧ c_sepc (thread_context p) = 0x10078 ∧
    load_byte (kmem s') (page_table p) 0x10078 = Some 0x6f.
Proof.
  pose proof (create_process_correct ex_globals ex_create [65] [chars "ls"]
    (ex_sched ex_mem (ex_proc 2 1 0x84005000) [] []) ex_elf_closed [] ex_elf_fil ex_elf_vol ex_chain) as H.
  cbv zeta in H. rewrite ex_elf_phdrs, ex_elf_ehdr in H.
  destruct H as (s' & v' & p & f & argvp & envp & E & _ & Hq & Hp & _ & Hc & _ & _ & _ & Hb & _).
  - exact ex_elf_open.
  - exact ex_elf_wf.
  - exact (conj Qemu.qemu_reliable eq_refl).
  - exact ex_elf_valid.
  - exact ex_elf_fil_ok.
  - reflexivity.
  - exact ex_elf_ok.
  - apply Forall_singleton. intros _. split; [split|]; vm_compute; first [discriminate|reflexivity].
  - unfold file_phdr. rewrite ex_elf_ehdr. cbn [e_phoff e_phnum].
    rewrite ex_elf_range by (unfold sizeof_Phdr; lia). reflexivity.
  - exact ex_globals_ok.
  - exact (init_memory_ok true).
  - exact (ex_apart ex_mem eq_refl).
  - change (kmem (ex_sched ex_mem (ex_proc 2 1 0x84005000) [] [])) with ex_mem. rewrite ex_free.
    change (image_size [ex_phdr]) with 2%nat. lia.
  - repeat constructor; lia.
  - vm_compute. discriminate.
  - exists s', v', p. split; [exact E|]. injection Hq as _ Hr _. injection Hp as Hp _.
    split; [exact Hr|]. split; [exact Hp|]. split; [exact Hc|].
    apply Hb. change (Some (file_byte ex_elf_vol ex_chain 120) = Some 0x6f). rewrite ex_elf_byte by lia. reflexivity.
Defined.
