(* ===== verification/KRelease.v ===== *)
(** The release of a process: RefCountPtr (lib/stl/RefCountPtr.h), the
    destructors of program segments (memory/elf_control.cpp) and of the page
    keeper (memory/memory_keeper.cpp), and the destruction of a process block.

    Counters and the objects they manage are heap blocks, named by their
    addresses; pages come from the pool. *)
From Stdlib Require Import ZArith Lia.
From stdpp Require Import base list numbers option gmap sorting.
From S2P Require Import Prelude KBase KHeap KPages KPageTable KPageTableSpec KSched.

Local Open Scope Z_scope.
Local Open Scope out_scope.

(** * Reference counts *)

(** [AtomicCount]. *)
Record refcount : Type := mkRef { ref_ptr : Z; ref_count : Z }.

(** The heap and the pool, the counters, and of the objects what their
    destructors use: the pages of a segment, the two counters of an
    [Elf_Control], the elements of a [MemKeeper] and the nodes of a list. *)
Record Rel : Type := mkRel {
  rheap : HeapAllocator;
  rpool : PagePool;
  counts : gmap Z refcount;
  segs : gmap Z elf_ctl_segment;
  elfs : gmap Z (Z * Z);
  keepers : gmap Z (list Z);
  lists : gmap Z (list Z)
}.

Definition set_heap (h : HeapAllocator) (st : Rel) : Rel :=
  mkRel h (rpool st) (counts st) (segs st) (elfs st) (keepers st) (lists st).
Definition set_rpool (p : PagePool) (st : Rel) : Rel :=
  mkRel (rheap st) p (counts st) (segs st) (elfs st) (keepers st) (lists st).
Definition set_counts (c : gmap Z refcount) (st : Rel) : Rel :=
  mkRel (rheap st) (rpool st) c (segs st) (elfs st) (keepers st) (lists st).
Definition drop_segment (a : Z) (st : Rel) : Rel :=
  mkRel (rheap st) (rpool st) (counts st) (delete a (segs st)) (elfs st) (keepers st) (lists st).
Definition drop_elf (a : Z) (st : Rel) : Rel :=
  mkRel (rheap st) (rpool st) (counts st) (segs st) (delete a (elfs st)) (keepers st) (lists st).

(** [operator delete] of the block at [a]. *)
Definition free_block (a : Z) (st : Rel) : outcome Rel := do h := k_free a (rheap st) in Done (set_heap h st).
Fixpoint free_blocks (l : list Z) (st : Rel) : outcome Rel :=
  match l with [] => Done st | a :: l => do st := free_block a st in free_blocks l st end.

(** [RefCountPtr::increase]; 0 is the null pointer. *)
Definition increase_ref (a : Z) (st : Rel) : outcome Rel :=
  if a =? 0 then Done st
  else match counts st !! a with
       | None => Wild
       | Some c => Done (set_counts (<[a := mkRef (ref_ptr c) (s32 (ref_count c + 1))]> (counts st)) st)
       end.

(** [decrease] and [release]: [destroy] is [delete] of the managed object. *)
Definition decrease_ref (destroy : Z → Rel → outcome Rel) (a : Z) (st : Rel) : outcome Rel :=
  if a =? 0 then Done st
  else match counts st !! a with
       | None => Wild
       | Some c =>
           let n := s32 (ref_count c - 1) in
           let st := set_counts (<[a := mkRef (ref_ptr c) n]> (counts st)) st in
           if n =? 0 then
             do st := (if ref_ptr c =? 0 then Done st else destroy (ref_ptr c) st) in
             free_block a (set_counts (delete a (counts st)) st)
           else Done st
       end.

(** Assigning [other] to a pointer that holds [this]; the result is what the
    pointer holds. *)
Definition assign_ref (destroy : Z → Rel → outcome Rel) (this other : Z) (st : Rel) : outcome (Z * Rel) :=
  do st := decrease_ref destroy this st in
  do st := increase_ref other st in
  Done (other, st).

(** * Destructors *)

Fixpoint dealloc_pages (l : list Z) (p : PagePool) : outcome PagePool :=
  match l with [] => Done p | a :: l => do p := dealloc_page a p in dealloc_pages l p end.

(** [~elf_ctl_segment]; the vector of its pages has no destructor. *)
Definition destroy_segment (a : Z) (st : Rel) : outcome Rel :=
  match segs st !! a with
  | None => Wild
  | Some g =>
      do p := dealloc_pages (m_addr <$> seg_pages g) (rpool st) in
      free_block a (drop_segment a (set_rpool p st))
  end.

(** [~Elf_Control]: the members of the array from the last to the first. *)
Definition destroy_elf (a : Z) (st : Rel) : outcome Rel :=
  match elfs st !! a with
  | None => Wild
  | Some (text, data) =>
      do st := decrease_ref destroy_segment data st in
      do st := decrease_ref destroy_segment text st in
      free_block a (drop_elf a st)
  end.

(** [MemKeeper]: a vector of pages, passed to [delete] by its destructor. *)
Definition MemKeeper_add (p : Z) (elements : list Z) : list Z := elements ++ [p].
Fixpoint MemKeeper_erase (p : Z) (elements : list Z) : list Z :=
  match elements with [] => [] | x :: l => if x =? p then l else x :: MemKeeper_erase p l end.
Definition MemKeeper_size (elements : list Z) : Z := zlen elements.
Definition destroy_MemKeeper (elements : list Z) (st : Rel) : outcome Rel := free_blocks elements st.

(** [~BrkControl] destroys its keeper. *)
Definition destroy_brk (a : Z) (st : Rel) : outcome Rel :=
  match keepers st !! a with
  | None => Wild
  | Some elements => do st := destroy_MemKeeper elements st in free_block a st
  end.

(** [~List]: the nodes from the front; [~Map] destroys its list. *)
Definition destroy_list (a : Z) (st : Rel) : outcome Rel :=
  match lists st !! a with
  | None => Wild
  | Some nodes => do st := free_blocks nodes st in free_block a st
  end.

(** The counters in a process block, in the order of the members. *)
Record handles : Type := mkHandles {
  h_page_table : Z;
  h_elf_control : Z;
  h_kernel_phdr : Z;
  h_brk_control : Z;
  h_mmap_control : Z;
  h_occupied_file_describer : Z;
  h_occupied_kernel_heap : Z;
  h_occupied_pages : Z;
  h_signal_nodes : list Z
}.

(** [delete] of the process block at [a]: its members are destroyed from the
    last to the first. The page table is deleted as a [size_t], the
    [MmapControl] has no destructor and keeps its pages. *)
Definition delete_PCB (a : Z) (p : handles) (st : Rel) : outcome Rel :=
  do st := free_blocks (h_signal_nodes p) st in
  do st := decrease_ref destroy_list (h_occupied_pages p) st in
  do st := decrease_ref destroy_list (h_occupied_kernel_heap p) st in
  do st := decrease_ref destroy_list (h_occupied_file_describer p) st in
  do st := decrease_ref free_block (h_mmap_control p) st in
  do st := decrease_ref destroy_brk (h_brk_control p) st in
  do st := decrease_ref free_block (h_kernel_phdr p) st in
  do st := decrease_ref destroy_elf (h_elf_control p) st in
  do st := decrease_ref free_block (h_page_table p) st in
  free_block a st.

(** What [exit_process] does to the objects of the process [p] that ends:
    [kill] frees its context, the block at [ctx], and [delete running] its
    block at [a] with the counters [hs]. *)
Definition delete_running (a ctx : Z) (hs : handles) (st : Rel) (p : PCB) (m : KMem) : outcome (KMem * Rel) :=
  do st := free_block ctx (set_rpool (pool m) st) in
  do st := delete_PCB a hs st in
  Done (with_pool m (rpool st), st).

(** * The heap blocks of objects *)

(** The addresses [l] are different live blocks of the heap. *)
Definition holds (h : HeapAllocator) (l : list Z) : Prop :=
  ∃ live rest, heap_rep h live ∧ NoDup live ∧ (λ b, start_ h + b.1 * 8) <$> live ≡ₚ l ++ rest.

Lemma filter_other {A} `{EqDecision A} (x : A) (l : list A) : x ∉ l → filter (λ y, y ≠ x) l = l.
Proof.
  intros Hx. induction l as [|y l IH]; [done|]. apply not_elem_of_cons in Hx as [Hne Hx].
  rewrite filter_cons_True by congruence. by rewrite IH.
Qed.

Lemma holds_free h a l : holds h (a :: l) → ∃ h', k_free a h = Done h' ∧ holds h' l.
Proof.
  intros (live & rest & Hr & Hn & Hp).
  assert (Ha : a ∈ (λ b : block, start_ h + b.1 * 8) <$> live) by (rewrite Hp; by left).
  apply list_elem_of_fmap in Ha as (b & -> & Hb). destruct (dealloc_rep h live b Hr Hb) as (h' & E & Es & Hr' & _).
  exists h'. pose proof (hr_range _ _ Hr b Hb). pose proof (hw_start _ (hr_wf _ _ Hr)). split.
  { unfold k_free. rewrite (proj2 (Z.eqb_neq _ _)) by lia. exact E. }
  apply elem_of_Permutation in Hb as [live' Hl]. rewrite Hl in Hn. apply NoDup_cons in Hn as [Hnb Hn].
  assert (Hf : filter (λ x, x ≠ b) live ≡ₚ live').
  { rewrite Hl, filter_cons_False by naive_solver. by rewrite filter_other. }
  exists (filter (λ x, x ≠ b) live), rest. split_and!; [done|by rewrite Hf|].
  rewrite Es, Hf. rewrite Hl in Hp. cbn [fmap list_fmap app] in Hp. by apply Permutation_cons_inv in Hp.
Qed.

Lemma holds_perm h l l' : l ≡ₚ l' → holds h l → holds h l'.
Proof. intros Hp (live & rest & H1 & H2 & H3). exists live, rest. split_and!; try done. by rewrite H3, Hp. Qed.

Lemma free_block_spec a l st : holds (rheap st) (a :: l) →
  ∃ h', free_block a st = Done (set_heap h' st) ∧ holds h' l.
Proof. intros Hh. destruct (holds_free _ _ _ Hh) as (h' & E & Hh'). exists h'. unfold free_block. by rewrite E. Qed.

Lemma dealloc_pages_spec l : ∀ p owned, pool_ok p (l ++ owned) →
  ∃ p', dealloc_pages l p = Done p' ∧ pool_ok p' owned.
Proof.
  induction l as [|a l IH]; intros p owned Hp; [by exists p|]. cbn [dealloc_pages app] in *.
  destruct (dealloc_page_spec p (l ++ owned) a Hp) as (p1 & -> & _ & Hp1 & _). exact (IH p1 owned Hp1).
Qed.

(** * Releasing counters *)

(** A counter that others still hold is only decreased. *)
Lemma decrease_held destroy a st ptr n : a ≠ 0 → 1 < n < 2 ^ 31 → counts st !! a = Some (mkRef ptr n) →
  decrease_ref destroy a st = Done (set_counts (<[a := mkRef ptr (n - 1)]> (counts st)) st).
Proof.
  intros Ha Hn E. unfold decrease_ref. rewrite (proj2 (Z.eqb_neq _ _)), E by done. cbn [ref_count ref_ptr].
  rewrite s32_small by lia. by rewrite (proj2 (Z.eqb_neq _ _)) by lia.
Qed.

(** The last holder destroys the object and frees the counter. *)
Lemma decrease_last destroy a st ptr : a ≠ 0 → ptr ≠ 0 → counts st !! a = Some (mkRef ptr 1) →
  decrease_ref destroy a st =
  (do st := destroy ptr (set_counts (<[a := mkRef ptr 0]> (counts st)) st) in
   free_block a (set_counts (delete a (counts st)) st)).
Proof.
  intros Ha Hp E. unfold decrease_ref. rewrite (proj2 (Z.eqb_neq _ _)), E by done. cbn [ref_count ref_ptr].
  change (s32 (1 - 1)) with 0. cbn [Z.eqb]. by rewrite (proj2 (Z.eqb_neq _ _)) by done.
Qed.

(** The last reference to a segment gives its pages back. *)
Lemma release_segment a st ptr g owned l : a ≠ 0 → ptr ≠ 0 → counts st !! a = Some (mkRef ptr 1) →
  segs st !! ptr = Some g → pool_ok (rpool st) ((m_addr <$> seg_pages g) ++ owned) → holds (rheap st) (ptr :: a :: l) →
  ∃ h' p', decrease_ref destroy_segment a st =
    Done (mkRel h' p' (delete a (counts st)) (delete ptr (segs st)) (elfs st) (keepers st) (lists st)) ∧
    pool_ok p' owned ∧ holds h' l.
Proof.
  intros Ha Hp E Eg Hpool Hh. rewrite (decrease_last _ _ _ _ Ha Hp E). unfold destroy_segment. cbn [set_counts segs rpool].
  rewrite Eg. destruct (dealloc_pages_spec _ _ _ Hpool) as (p' & -> & Hp'). cbn [obind].
  destruct (free_block_spec ptr (a :: l) (drop_segment ptr (set_rpool p' (set_counts (<[a := mkRef ptr 0]> (counts st)) st)))
    Hh) as (h1 & -> & Hh1). cbn [obind].
  match goal with |- context [free_block a ?s] => destruct (free_block_spec a l s Hh1) as (h2 & -> & Hh2) end.
  exists h2, p'. split_and!; try done. cbn. do 2 f_equal. by rewrite delete_insert_eq.
Qed.

(** * Processes that run one program *)

(** The image of a forked process: the counter of its [Elf_Control], that
    object, the counter of its data segment, and the segment. *)
Record image : Type := mkImage { i_ref : Z; i_elf : Z; i_data : Z; i_seg : Z; i_pages : elf_ctl_segment }.

Definition blocks_of (i : image) : list Z := [i_seg i; i_data i; i_elf i; i_ref i].
Definition pages_of (g : elf_ctl_segment) : list Z := m_addr <$> seg_pages g.
Definition data_pages (i : image) : list Z := pages_of (i_pages i).

Definition image_ok (st : Rel) (t : Z) (i : image) : Prop :=
  counts st !! i_ref i = Some (mkRef (i_elf i) 1) ∧ elfs st !! i_elf i = Some (t, i_data i) ∧
  counts st !! i_data i = Some (mkRef (i_seg i) 1) ∧ segs st !! i_seg i = Some (i_pages i).

Definition while_any {A B} (ps : list A) (l : list B) : list B := match ps with [] => [] | _ => l end.

(** The images [ps] share the text segment [gt] at [tp], counted at [t];
    besides their pages [owned] are in use, besides their blocks [l] is. *)
Record sharing (t tp : Z) (gt : elf_ctl_segment) (owned l : list Z) (ps : list image) (st : Rel) : Prop := mkSharing {
  sh_nodup : NoDup (concat (blocks_of <$> ps) ++ [tp; t]);
  sh_nonzero : Forall (λ a, a ≠ 0) (concat (blocks_of <$> ps) ++ [tp; t]);
  sh_text : ps ≠ [] → counts st !! t = Some (mkRef tp (zlen ps)) ∧ segs st !! tp = Some gt;
  sh_images : Forall (image_ok st t) ps;
  sh_length : zlen ps < 2 ^ 31;
  sh_pool : pool_ok (rpool st) (concat (data_pages <$> ps) ++ while_any ps (pages_of gt) ++ owned);
  sh_heap : holds (rheap st) (concat (blocks_of <$> ps) ++ while_any ps [tp; t] ++ l)
}.

Lemma concat_perm {A B} (f : A → list B) (l l' : list A) : l ≡ₚ l' → concat (f <$> l) ≡ₚ concat (f <$> l').
Proof.
  induction 1 as [|x l l' Hp IH|x y l|l1 l2 l3 H1 IH1 H2 IH2]; cbn; [done|by rewrite IH| |by rewrite IH1].
  rewrite !app_assoc. by rewrite (Permutation_app_comm (f y) (f x)).
Qed.

Lemma while_any_perm {A B} (l l' : list A) (x : list B) : l ≡ₚ l' → while_any l x = while_any l' x.
Proof.
  intros Hp. destruct l as [|y l]; [apply Permutation_nil in Hp; by subst|].
  destruct l'; [|done]. by apply symmetry, Permutation_nil in Hp.
Qed.

Lemma sharing_perm t tp gt owned l ps ps' st : ps ≡ₚ ps' → sharing t tp gt owned l ps st → sharing t tp gt owned l ps' st.
Proof.
  intros Hp [H1 H2 H3 H4 H5 H6 H7]. pose proof (concat_perm blocks_of _ _ Hp) as Hb.
  pose proof (concat_perm data_pages _ _ Hp) as Hd. assert (Hz : zlen ps = zlen ps') by (unfold zlen; by rewrite Hp).
  split; rewrite <- ?Hz; rewrite <- ?(while_any_perm _ _ _ Hp); try done.
  - by rewrite <- Hb.
  - by rewrite <- Hb.
  - intros Hne. apply H3. intros ->. apply Hne. by apply Permutation_nil.
  - by rewrite <- Hp.
  - eapply pool_ok_perm; [exact H6|]. by rewrite Hd.
  - eapply holds_perm; [|exact H7]. by rewrite Hb.
Qed.

(** The addresses of an image are not those of another, nor the text's. *)
Lemma image_apart i ps tp t : NoDup (concat (blocks_of <$> (i :: ps)) ++ [tp; t]) →
  ∀ j x, j ∈ ps → x ∈ blocks_of j → x ∉ blocks_of i ∧ x ≠ tp ∧ x ≠ t.
Proof.
  cbn [fmap list_fmap concat]. intros Hn j x Hj Hx. rewrite <-app_assoc in Hn. apply NoDup_app in Hn as (_ & Hd & Hn).
  assert (Hc : x ∈ concat (blocks_of <$> ps)).
  { apply list_elem_of_In, in_concat. exists (blocks_of j). split; [|by apply list_elem_of_In].
    apply list_elem_of_In, list_elem_of_fmap. by exists j. }
  split; [intros Hi; apply (Hd x Hi), elem_of_app; by left|].
  apply NoDup_app in Hn as (_ & Hd' & _). specialize (Hd' x Hc). split; intros ->; apply Hd'; [by left|by right; left].
Qed.

Lemma image_ok_transfer st st' t i :
  (∀ x, x ∈ blocks_of i → counts st' !! x = counts st !! x ∧ elfs st' !! x = elfs st !! x ∧ segs st' !! x = segs st !! x) →
  image_ok st t i → image_ok st' t i.
Proof.
  intros He (H1 & H2 & H3 & H4). unfold image_ok.
  destruct (He (i_ref i)) as (-> & _ & _); [by do 3 right; left|]. destruct (He (i_elf i)) as (_ & -> & _); [by do 2 right; left|].
  destruct (He (i_data i)) as (-> & _ & _); [by right; left|]. destruct (He (i_seg i)) as (_ & _ & ->); [by left|]. done.
Qed.

(** The reference of one image to the text: [ps] are the other images. *)
Lemma release_text t tp gt owned l front ps st : t ≠ 0 → tp ≠ 0 →
  counts st !! t = Some (mkRef tp (zlen ps + 1)) → segs st !! tp = Some gt → zlen ps + 1 < 2 ^ 31 →
  pool_ok (rpool st) (concat (data_pages <$> ps) ++ pages_of gt ++ owned) →
  holds (rheap st) (front ++ concat (blocks_of <$> ps) ++ [tp; t] ++ l) →
  ∃ st', decrease_ref destroy_segment t st = Done st' ∧ elfs st' = elfs st ∧
    (∀ x, x ≠ t → counts st' !! x = counts st !! x) ∧ (∀ x, x ≠ tp → segs st' !! x = segs st !! x) ∧
    (ps ≠ [] → counts st' !! t = Some (mkRef tp (zlen ps)) ∧ segs st' !! tp = Some gt) ∧
    pool_ok (rpool st') (concat (data_pages <$> ps) ++ while_any ps (pages_of gt) ++ owned) ∧
    holds (rheap st') (front ++ concat (blocks_of <$> ps) ++ while_any ps [tp; t] ++ l).
Proof.
  intros Ht Htp Ec Es Hl Hp Hh. destruct ps as [|j ps].
  - cbn [fmap list_fmap concat app while_any] in *.
    destruct (release_segment t st tp gt owned (front ++ l) Ht Htp Ec Es Hp) as (h' & p' & -> & Hp' & Hh').
    { eapply holds_perm; [|exact Hh]. rewrite (Permutation_app_comm front). cbn. by rewrite (Permutation_app_comm l). }
    eexists. split; [reflexivity|]. cbn. split_and!; try done.
    + intros x Hx. by rewrite lookup_delete_ne.
    + intros x Hx. by rewrite lookup_delete_ne.
  - assert (Hn : 1 < zlen (j :: ps) + 1 < 2 ^ 31) by (unfold zlen in *; cbn [length] in *; lia).
    rewrite (decrease_held _ _ _ _ _ Ht Hn Ec), Z.add_simpl_r.
    eexists. split; [reflexivity|]. cbn [set_counts counts segs elfs rpool rheap while_any].
    split_and!; try done; [by intros x Hx; rewrite lookup_insert_ne|by rewrite lookup_insert_eq].
Qed.

Lemma release_image t tp gt owned l i ps st : sharing t tp gt owned l (i :: ps) st →
  ∃ st', decrease_ref destroy_elf (i_ref i) st = Done st' ∧ sharing t tp gt owned l ps st'.
Proof.
  intros [Hn Hz Ht Hi Hl Hp Hh]. pose proof (image_apart i ps tp t Hn) as Hap.
  apply Forall_cons in Hi as [(E1 & E2 & E3 & E4) Hi]. destruct (Ht ltac:(done)) as [Et Es]. clear Ht.
  cbn [fmap list_fmap concat while_any] in *. rewrite <- !app_assoc in *.
  pose proof Hz as Hz'. apply Forall_app in Hz as [Hz Hz2]. apply Forall_app in Hz2 as [Hz3 Hz2].
  unfold blocks_of in Hz. rewrite !Forall_cons in Hz. destruct Hz as (Zq & Zd & Ze & Za & _).
  rewrite !Forall_cons in Hz2. destruct Hz2 as (Ztp & Zt & _).
  pose proof Hn as Hn'. apply NoDup_app in Hn as (Hn1 & Hn2 & Hn3).
  assert (Hdt : ∀ x, x ∈ blocks_of i → x ≠ tp ∧ x ≠ t).
  { intros x Hx. specialize (Hn2 x Hx). split; intros ->; apply Hn2, elem_of_app; right; [by left|by right; left]. }
  unfold blocks_of in Hn1. rewrite !NoDup_cons, !not_elem_of_cons in Hn1.
  destruct Hn1 as ((Nqd & Nqe & Nqa & _) & (Nde & Nda & _) & (Nea & _) & _).
  destruct (Hdt (i_seg i)) as [Nq1 Nq2]; [by left|]. destruct (Hdt (i_data i)) as [Nd1 Nd2]; [by right; left|].
  destruct (Hdt (i_elf i)) as [Ne1 Ne2]; [by do 2 right; left|]. destruct (Hdt (i_ref i)) as [Na1 Na2]; [by do 3 right; left|].
  rewrite (decrease_last _ _ _ _ Za Ze E1).
  set (st1 := set_counts (<[i_ref i := mkRef (i_elf i) 0]> (counts st)) st). unfold destroy_elf. cbn [st1 set_counts elfs].
  rewrite E2.
  (* data *)
  destruct (release_segment (i_data i) st1 (i_seg i) (i_pages i) (concat (data_pages <$> ps) ++ pages_of gt ++ owned)
    ([i_elf i; i_ref i] ++ concat (blocks_of <$> ps) ++ [tp; t] ++ l) Zd Zq) as (h2 & p2 & -> & Hp2 & Hh2).
  { cbn. by rewrite lookup_insert_ne by congruence. }
  { done. } { exact Hp. } { exact Hh. }
  cbn [obind]. set (st2 := mkRel h2 p2 _ _ _ _ _).
  (* text *)
  destruct (release_text t tp gt owned l [i_elf i; i_ref i] ps st2 Zt Ztp) as (st3 & -> & Ee & Ec & Esg & Htx & Hp3 & Hh3).
  { cbn. rewrite lookup_delete_ne, lookup_insert_ne by congruence. rewrite Et. do 2 f_equal. unfold zlen. cbn [length]. lia. }
  { cbn. by rewrite lookup_delete_ne by congruence. }
  { clear -Hl. unfold zlen in *. cbn [length] in Hl. lia. } { exact Hp2. } { exact Hh2. }
  cbn [obind]. cbn [app] in Hh3.
  destruct (free_block_spec (i_elf i) _ (drop_elf (i_elf i) st3) Hh3) as (h4 & -> & Hh4). cbn [obind].
  match goal with |- context [free_block (i_ref i) ?s] => destruct (free_block_spec (i_ref i) _ s Hh4) as (h5 & -> & Hh5) end.
  eexists. split; [reflexivity|].
  split; cbn [set_heap set_counts drop_elf counts segs elfs rpool rheap]; try done.
  - by apply Forall_app in Hz' as [_ Hz'].
  - intros Hne. destruct (Htx Hne) as [H1 H2]. split; [by rewrite lookup_delete_ne by congruence|done].
  - rewrite Forall_forall in Hi |- *. intros j Hj. apply (image_ok_transfer st); [|by apply Hi].
    intros x Hx. destruct (Hap j x Hj Hx) as (Hxi & Hx1 & Hx2). unfold blocks_of in Hxi. rewrite !not_elem_of_cons in Hxi.
    destruct Hxi as (X1 & X2 & X3 & X4 & _). cbn. rewrite Ee, Esg by done.
    rewrite lookup_delete_ne by congruence. rewrite Ec by done. cbn.
    rewrite !lookup_delete_ne, lookup_insert_ne by congruence. done.
  - clear -Hl. unfold zlen in *. cbn [length] in Hl. lia.
Qed.

Fixpoint release_all (ps : list image) (st : Rel) : outcome Rel :=
  match ps with [] => Done st | i :: ps => do st := decrease_ref destroy_elf (i_ref i) st in release_all ps st end.

(** C29: the pages of a program outlive exactly the processes that use them.
    Let processes share the text of a program, each with a data segment of
    its own, and let them end in any order.  Every release returns; as long as
    one process is left, the text pages and the data pages of those left are
    in use and all others of the program are back in the pool; with the last
    process the text is, and the blocks of all counters and objects are free.
    No page is freed twice. *)
Theorem program_pages_released t tp gt owned l ps gone left st :
  sharing t tp gt owned l ps st → ps ≡ₚ gone ++ left →
  ∃ st', release_all gone st = Done st' ∧
    pool_ok (rpool st') (concat (data_pages <$> left) ++ while_any left (pages_of gt) ++ owned) ∧
    holds (rheap st') (concat (blocks_of <$> left) ++ while_any left [tp; t] ++ l).
Proof.
  intros Hs Hp. apply (sharing_perm _ _ _ _ _ _ _ _ Hp) in Hs. clear Hp ps. revert st Hs.
  induction gone as [|i gone IH]; intros st Hs; cbn [release_all].
  - exists st. split; [done|]. split; [exact (sh_pool _ _ _ _ _ _ _ Hs)|exact (sh_heap _ _ _ _ _ _ _ Hs)].
  - destruct (release_image _ _ _ _ _ _ _ _ Hs) as (st1 & -> & Hs1). exact (IH st1 Hs1).
Qed.

(** The last reference to a page table, and a page of the break, are not given
    back to the pool but passed to the heap, which reads its map out of
    bounds ([k_free_foreign]). *)
Lemma last_page_table_wild a st table : a ≠ 0 → counts st !! a = Some (mkRef table 1) → heap_wf (rheap st) →
  end_ (rheap st) <= table < 2 ^ 64 → table - start_ (rheap st) <= end_ (rheap st) →
  decrease_ref free_block a st = Wild.
Proof.
  intros Ha E Hw H1 H2. assert (table ≠ 0).
  { pose proof (hw_start _ Hw). pose proof (hw_end _ Hw). unfold KERNEL_HEAP_PAGE_NUM in *. lia. }
  rewrite (decrease_last _ _ _ _ Ha) with (2 := E) by done. unfold free_block at 1. cbn [set_counts rheap].
  by rewrite (k_free_foreign _ _ Hw H1 H2).
Qed.

Lemma keeper_wild page elements st : heap_wf (rheap st) →
  end_ (rheap st) <= page < 2 ^ 64 → page - start_ (rheap st) <= end_ (rheap st) →
  destroy_MemKeeper (page :: elements) st = Wild.
Proof. intros Hw H1 H2. cbn. unfold free_block. by rewrite (k_free_foreign _ _ Hw H1 H2). Qed.

(** * The end of a process *)

(** The counters of a process block, in the order of their release. *)
Definition counters_of (hs : handles) : list Z :=
  [h_occupied_pages hs; h_occupied_kernel_heap hs; h_occupied_file_describer hs; h_mmap_control hs; h_brk_control hs;
   h_kernel_phdr hs; h_elf_control hs; h_page_table hs].

(** A null pointer, or a counter that some other process holds too. *)
Definition shared_counter (st : Rel) (a : Z) : Prop :=
  a = 0 ∨ ∃ ptr n, counts st !! a = Some (mkRef ptr n) ∧ 1 < n < 2 ^ 31.

(** The releases of a thread only count down. *)
Lemma decrease_counted destroy a l st : NoDup (filter (λ x, x ≠ 0) (a :: l)) → Forall (shared_counter st) (a :: l) →
  ∃ c, decrease_ref destroy a st = Done (set_counts c st) ∧ Forall (shared_counter (set_counts c st)) l ∧ NoDup (filter (λ x, x ≠ 0) l).
Proof.
  intros Hn Hs. apply Forall_cons in Hs as [[->|(ptr & n & E & Hr)] Hs].
  - exists (counts st). split; [by destruct st|]. split; [by destruct st|]. by rewrite filter_cons_False in Hn by lia.
  - destruct (decide (a = 0)) as [->|Ha].
    { exists (counts st). split; [by destruct st|]. split; [by destruct st|]. by rewrite filter_cons_False in Hn by lia. }
    rewrite filter_cons_True in Hn by done. apply NoDup_cons in Hn as [Hni Hn].
    exists (<[a := mkRef ptr (n - 1)]> (counts st)). split; [by apply decrease_held|]. split; [|done].
    rewrite Forall_forall in Hs |- *. intros x Hx. destruct (Hs x Hx) as [->|(ptr' & n' & E' & Hr')]; [by left|].
    destruct (decide (x = 0)) as [->|Hx0]; [by left|]. right. exists ptr', n'. split; [|done]. cbn.
    rewrite lookup_insert_ne; [done|]. intros ->. apply Hni, list_elem_of_filter. done.
Qed.

Lemma free_blocks_spec l : ∀ st rest, holds (rheap st) (l ++ rest) →
  ∃ h, free_blocks l st = Done (set_heap h st) ∧ holds h rest.
Proof.
  induction l as [|a l IH]; intros st rest Hh; cbn [free_blocks app] in *.
  { exists (rheap st). split; [by destruct st|done]. }
  destruct (free_block_spec a _ _ Hh) as (h1 & -> & Hh1). cbn [obind]. destruct (IH (set_heap h1 st) rest Hh1) as (h2 & -> & Hh2).
  exists h2. by destruct st.
Qed.

(** Deleting the block of a thread frees the block, its context and its
    signals, and takes the thread off every counter; no page changes hands. *)
Lemma thread_deleted a ctx hs st p m rest :
  NoDup (filter (λ x, x ≠ 0) (counters_of hs)) → Forall (shared_counter st) (counters_of hs) →
  holds (rheap st) (ctx :: h_signal_nodes hs ++ a :: rest) →
  ∃ st', delete_running a ctx hs st p m = Done (m, st') ∧ holds (rheap st') rest.
Proof.
  intros Hn Hs Hh. unfold delete_running. destruct (free_block_spec ctx _ (set_rpool (pool m) st) Hh) as (h0 & -> & Hh0).
  cbn [obind]. unfold delete_PCB. set (st0 := set_heap h0 _).
  destruct (free_blocks_spec (h_signal_nodes hs) st0 (a :: rest) Hh0) as (h1 & -> & Hh1). cbn [obind].
  set (st1 := set_heap h1 st0). assert (Forall (shared_counter st1) (counters_of hs)) as Hs1 by exact Hs. clear Hs.
  assert (rheap st1 = h1 ∧ rpool st1 = pool m) as [R1 R2] by done. clearbody st1. clear st0 Hh0. unfold counters_of in *.
  do 8 (match goal with |- context [decrease_ref ?d ?x ?s] =>
    destruct (decrease_counted d x _ s Hn Hs1) as (? & -> & ? & ?); clear Hn Hs1; cbn [obind];
    match goal with H1 : Forall _ _, H2 : NoDup _ |- _ => rename H1 into Hs1; rename H2 into Hn end end).
  match goal with |- context [free_block a ?s] => destruct (free_block_spec a rest s) as (h2 & -> & Hh2) end.
  { cbn. by rewrite R1. }
  cbn [obind]. eexists. split; [cbn; rewrite R2; by destruct m|exact Hh2].
Qed.

(** C36: A process ends and its parent learns of it.  Let the parent be ready
    or waiting, let the child's stack page be one that can be given back and
    let the deletion of its block return (it does for a thread,
    [thread_deleted]; for the last holder of a page table it does not,
    [last_page_table_wild]).  Then [exit_process] resumes
    some process, it never stops with nobody to run; exactly the child is
    gone; and the parent has the number and the exit code of the child behind
    the signals it had, with its registers untouched, or it is the process
    resumed, from [wait], with the number of its first signal as the result
    and that signal's code shifted by 8 stored through its status pointer.
    The latter is so if it waited without a signal, no process waiting
    before it had one, and nobody was ready or the counter of the scheduler is
    past 100: then it is resumed with the number and the code of this child. *)
Theorem exit_wakes_parent blk ctx hs st s code child q pl m' st' :
  sched_ok s → running s = Some child → q ∈ runnable s ++ blocked s → pid q = ppid child →
  dealloc_page (stack child) (pool (kmem s)) = Done pl →
  delete_running blk ctx hs st child (with_pool (kmem s) pl) = Done (m', st') →
  let sigs := signal_list q ++ [(pid child, code)] in
  ∃ s', exit_process (delete_running blk ctx hs st) code s = Done (st', (Resume, s')) ∧ kmem s' = m' ∧
    pids s ≡ₚ pid child :: pids s' ∧
    (push_signal (pid child, code) q ∈ procs s' ∨ woken q sigs s s') ∧
    ∀ l1 l2, blocked s = l1 ++ q :: l2 → Forall (λ b, signal_list b = []) l1 → signal_list q = [] →
      runnable s = [] ∨ 100 < try_unfreeze_times s → woken q [(pid child, code)] s s'.
Proof.
  intros Hok Hr Hq Hpid Ed Edel sigs. destruct (kill_parent s child q code pl Hok Hr Hq Hpid Ed) as (s1 & Ek & K).
  pose proof K as (K1 & K2 & K3 & K4 & K5 & Kq & Kb).
  set (s2 := set_queues None (runnable s1) (blocked s1) (set_memory m' (brks s1) (mmaps s1) s1)).
  assert (∃ e s', schedule s2 = Done (e, s')) as (e & s' & Es).
  { destruct (runnable s1) as [|p ready] eqn:Eq.
    - apply (schedule_unblocks s2 (push_signal (pid child, code) q)); [done|done|exact Kq|].
      cbn. by destruct (signal_list q).
    - destruct (schedule_returns s2 p ready) as [s' Es]; [done|done|eauto]. }
  assert (exit_process (delete_running blk ctx hs st) code s = Done (st', (e, s'))) as Ex.
  { unfold exit_process. rewrite Hr, Ek. cbn [obind]. rewrite K4, Edel. cbn [obind].
    change (obind (schedule s2) (λ r, Done (st', r)) = Done (st', (e, s'))). by rewrite Es. }
  destruct (exit_perm _ _ _ _ _ _ Ex) as (c & Hc & Hperm & _). rewrite Hr in Hc. injection Hc as <-.
  destruct (schedule_parent s2 e s' (push_signal (pid child, code) q) Es eq_refl Kq) as (-> & Hm & Hw).
  exists s'. split; [exact Ex|]. split; [exact Hm|]. split; [exact Hperm|]. split.
  - destruct Hw as [Hw|Hw]; [by left|right]. by apply (woken_push s s2).
  - intros l1 l2 Hb Hl1 Hs0 Hnow. assert ([(pid child, code)] = signal_list q ++ [(pid child, code)]) as -> by (by rewrite Hs0).
    apply (woken_push s s2); [done|].
    eapply (schedule_wakes s2); [exact Es|done|by apply (Kb l1 l2)|done|by cbn; destruct (signal_list q)|].
    cbn. rewrite K3. destruct Hnow as [Hn|Hn]; [left|by right]. apply (f_equal (fmap pid)) in Hn. rewrite <- K2 in Hn.
    by destruct (runnable s1).
Qed.

(** * Two processes *)

Fixpoint alloc_blocks (n : nat) (h : HeapAllocator) : outcome (list Z * HeapAllocator) :=
  match n with
  | O => Done ([], h)
  | S n => do (l, h) := alloc_blocks n h in do (a, h) := Alloc 16 h in Done (a :: l, h)
  end.

Lemma alloc_blocks_holds n h : heap_rep h [] → ∀ l h', alloc_blocks n h = Done (l, h') → holds h' l.
Proof.
  intros Hr. induction n as [|n IH]; cbn [alloc_blocks]; intros l h' E.
  { injection E as <- <-. exists [], []. split_and!; [done|constructor|done]. }
  apply obind_done in E as ([l1 h1] & E1 & E). apply obind_done in E as ([a h2] & E2 & E). injection E as <- <-.
  destruct (IH _ _ E1) as (live & rest & H1 & H2 & H3).
  destruct (alloc_rep h1 live 16 a h2 H1 ltac:(lia) E2) as (i & Ea & Es & Hr2 & Hfree & _).
  change ((16 + 8) / 8) with 3 in *. exists ((i, 3) :: live), rest. split_and!; [done| |].
  - constructor; [|done]. intros Hin. specialize (Hfree i ltac:(lia)).
    pose proof (hr_range _ _ H1 _ Hin) as (R1 & R2 & R3). cbn [fst snd] in *.
    assert (bit h1 i = true) as Hb; [|congruence]. apply (hr_bits _ _ H1); [lia|]. exists (i, 3).
    split; [done|]. unfold in_block. cbn [fst snd]. lia.
  - cbn [fmap list_fmap app fst]. rewrite Es, <-Ea. by constructor.
Qed.

Fixpoint alloc_pages (n : nat) (p : PagePool) : outcome (list Z * PagePool) :=
  match n with
  | O => Done ([], p)
  | S n => do (l, p) := alloc_pages n p in do (a, p) := alloc_page p in Done (a :: l, p)
  end.

Lemma alloc_pages_ok n p : pool_ok p [] → ∀ l p', alloc_pages n p = Done (l, p') → pool_ok p' l.
Proof.
  intros Hp. induction n as [|n IH]; cbn [alloc_pages]; intros l p' E; [by injection E as <- <-|].
  apply obind_done in E as ([l1 p1] & E1 & E). apply obind_done in E as ([a p2] & E2 & E). injection E as <- <-.
  destruct (alloc_page_spec p1 l1 (IH _ _ E1)) as [[_ E3]|(b & p3 & E3 & _ & Hp3 & _)]; rewrite E2 in E3; [done|].
  by injection E3 as <- <-.
Qed.

Definition result_or {A} (d : A) (o : outcome A) : A := match o with Done r => r | _ => d end.
Definition ex_blocks : list Z * HeapAllocator := result_or ([], ex_heap) (alloc_blocks 10 ex_heap).
Definition ex_pages : list Z * PagePool := result_or ([], init_memory true) (alloc_pages 3 (init_memory true)).
Definition nth_block (n : nat) : Z := default 0 (ex_blocks.1 !! n).
Definition nth_page (n : nat) : Z := default 0 (ex_pages.1 !! n).

Definition one_page (text : bool) (v page : Z) : elf_ctl_segment := mkSegment text [mkElfPage v page].
Definition ex_text : elf_ctl_segment := one_page true 0x10000 (nth_page 2).
Definition ex_image (k : nat) : image :=
  mkImage (nth_block (4 * k + 3)) (nth_block (4 * k + 2)) (nth_block (4 * k + 1)) (nth_block (4 * k)) (one_page false 0x11000 (nth_page k)).

Definition ex_rel : Rel :=
  mkRel ex_blocks.2 ex_pages.2
    (list_to_map ([(nth_block 9, mkRef (nth_block 8) 2)] ++
       ((λ i, (i_ref i, mkRef (i_elf i) 1)) <$> [ex_image 0; ex_image 1]) ++
       ((λ i, (i_data i, mkRef (i_seg i) 1)) <$> [ex_image 0; ex_image 1])))
    (list_to_map ([(nth_block 8, ex_text)] ++ ((λ i, (i_seg i, i_pages i)) <$> [ex_image 0; ex_image 1])))
    (list_to_map ((λ i, (i_elf i, (nth_block 9, i_data i))) <$> [ex_image 0; ex_image 1]))
    ∅ ∅.

Lemma ex_sharing : sharing (nth_block 9) (nth_block 8) ex_text [] [] [ex_image 0; ex_image 1] ex_rel.
Proof.
  split.
  - apply (bool_decide_unpack _). vm_compute. exact I.
  - apply (bool_decide_unpack _). vm_compute. exact I.
  - intros _. split; vm_compute; reflexivity.
  - repeat constructor; vm_compute; reflexivity.
  - done.
  - assert (E : alloc_pages 3 (init_memory true) = Done ex_pages) by (vm_compute; reflexivity).
    destruct ex_pages as [l p] eqn:Ep.
    pose proof (alloc_pages_ok 3 _ (init_memory_ok true) l p E) as Hp.
    assert (l = concat (data_pages <$> [ex_image 0; ex_image 1]) ++ pages_of ex_text) as El.
    { change l with (l, p).1. rewrite <-Ep. vm_compute. reflexivity. }
    cbn [while_any rpool ex_rel]. rewrite Ep, app_nil_r, <-El. exact Hp.
  - assert (E : alloc_blocks 10 ex_heap = Done ex_blocks) by (vm_compute; reflexivity).
    destruct ex_blocks as [l h] eqn:Eb.
    pose proof (alloc_blocks_holds 10 _ ex_heap_rep l h E) as Hh.
    assert (l = concat (blocks_of <$> [ex_image 0; ex_image 1]) ++ [nth_block 8; nth_block 9]) as El.
    { change l with (l, h).1. rewrite <-Eb. vm_compute. reflexivity. }
    cbn [while_any rheap ex_rel]. rewrite Eb, app_nil_r, <-El. exact Hh.
Qed.

Lemma program_pages_released_witness :
  ∃ st', release_all [ex_image 1] ex_rel = Done st' ∧
    pool_ok (rpool st') (concat (data_pages <$> [ex_image 0]) ++ while_any [ex_image 0] (pages_of ex_text) ++ []) ∧
    holds (rheap st') (concat (blocks_of <$> [ex_image 0]) ++ while_any [ex_image 0] [nth_block 8; nth_block 9] ++ []).
Proof.
  apply (program_pages_released _ _ _ _ _ [ex_image 0; ex_image 1] _ [ex_image 0] _ ex_sharing).
  apply Permutation_cons_append.
Defined.

(** * The end of a thread *)

(** A thread, process 3, and its parent 2, which waits behind process 4. *)
Definition ex_handles : handles :=
  mkHandles (nth_block 1) (nth_block 2) 0 (nth_block 3) (nth_block 4) (nth_block 5) (nth_block 6) (nth_block 7) [].
Definition ex_thread_rel : Rel :=
  mkRel ex_blocks.2 ex_pages.2 (list_to_map ((λ a, (a, mkRef 1 2)) <$> (nth_block <$> [1; 2; 3; 4; 5; 6; 7]%nat))) ∅ ∅ ∅ ∅.
Definition ex_thread : PCB := ex_proc 3 2 (nth_page 0).
Definition ex_threads : Sched :=
  ex_sched (mkKMem (λ _, 0) ex_pages.2) ex_thread [] [ex_proc 4 1 0; ex_proc 2 1 0].

Lemma ex_stack_page : ∃ pl, dealloc_page (nth_page 0) ex_pages.2 = Done pl.
Proof.
  assert (E : alloc_pages 3 (init_memory true) = Done ex_pages) by (vm_compute; reflexivity).
  assert (Hpg : ∃ rest, pool_ok ex_pages.2 (nth_page 0 :: rest)).
  { destruct ex_pages as [l p] eqn:Ep. pose proof (alloc_pages_ok 3 _ (init_memory_ok true) l p E) as Hp.
    assert (l = nth_page 0 :: tail l) as El by (change l with (l, p).1; rewrite <- Ep; vm_compute; reflexivity).
    exists (tail l). rewrite <- El. exact Hp. }
  destruct Hpg as [rest Hpg]. destruct (dealloc_page_spec _ _ _ Hpg) as (pl & Ed & _). eauto.
Qed.

Lemma ex_thread_blocks :
  holds (rheap ex_thread_rel) (nth_block 8 :: [] ++ nth_block 0 :: (nth_block <$> [1; 2; 3; 4; 5; 6; 7; 9]%nat)).
Proof.
  assert (Eb : alloc_blocks 10 ex_heap = Done ex_blocks) by (vm_compute; reflexivity).
  destruct ex_blocks as [l h] eqn:Ebl. pose proof (alloc_blocks_holds 10 _ ex_heap_rep l h Eb) as Hh.
  assert (l = nth_block <$> [0; 1; 2; 3; 4; 5; 6; 7; 8; 9]%nat) as El
    by (change l with (l, h).1; rewrite <- Ebl; vm_compute; reflexivity).
  cbn [rheap ex_thread_rel]. rewrite Ebl. eapply holds_perm; [|exact Hh]. rewrite El.
  change (nth_block <$> [0; 1; 2; 3; 4; 5; 6; 7; 8; 9]%nat ≡ₚ nth_block <$> [8; 0; 1; 2; 3; 4; 5; 6; 7; 9]%nat).
  apply fmap_Permutation. clear. solve_Permutation.
Qed.

Lemma ex_thread_deleted m : ∃ st',
  delete_running (nth_block 0) (nth_block 8) ex_handles ex_thread_rel ex_thread m = Done (m, st').
Proof.
  destruct (λ H1 H2, thread_deleted (nth_block 0) (nth_block 8) ex_handles ex_thread_rel ex_thread m _ H1 H2 ex_thread_blocks)
    as (st' & E & _); [| |by exists st'].
  - apply (bool_decide_unpack _). vm_compute. exact I.
  - repeat (apply Forall_cons; split;
      [first [left; vm_compute; reflexivity|right; exists 1, 2; split; [vm_compute; reflexivity|lia]]|]).
    by apply Forall_nil.
Qed.

Lemma exit_wakes_parent_witness :
  ∃ st' s', exit_process (delete_running (nth_block 0) (nth_block 8) ex_handles ex_thread_rel) 7 ex_threads =
      Done (st', (Resume, s')) ∧ woken (ex_proc 2 1 0) [(3, 7)] ex_threads s'.
Proof.
  destruct ex_stack_page as [pl Ed]. destruct (ex_thread_deleted (with_pool (kmem ex_threads) pl)) as [st' Edel].
  assert (Hq : ex_proc 2 1 0 ∈ runnable ex_threads ++ blocked ex_threads) by (right; left).
  destruct (exit_wakes_parent (nth_block 0) (nth_block 8) ex_handles ex_thread_rel ex_threads 7 ex_thread (ex_proc 2 1 0)
    pl _ st' (ex_sched_ok _ _) eq_refl Hq eq_refl Ed Edel) as (s' & Ex & _ & _ & _ & Hw).
  exists st', s'. split; [exact Ex|].
  apply (Hw [ex_proc 4 1 0] []); [reflexivity|repeat constructor|reflexivity|left; reflexivity].
Defined.
