(* ===== verification/KList.v ===== *)
(** The linked list of lib/stl/list.h and the growing array of
    lib/stl/vector.h, refined to sequences.

    The nodes of all lists with elements of one type live in one store; a
    pointer is an address of the store or null.  [new] takes an address that
    is not in use. *)
From Stdlib Require Import ZArith Lia.
From stdpp Require Import base list numbers option gmap.
From S2P Require Import Prelude KBase.

Local Open Scope Z_scope.
Local Open Scope out_scope.

Abbreviation ptr := (option positive).

Record ListNode (T : Type) : Type := mkNode { data : T; next : ptr; previous : ptr }.
Arguments mkNode {T}.
Arguments data {T}.
Arguments next {T}.
Arguments previous {T}.

Record List_ : Type := mkList { start : ptr; end_ : ptr }.

Section ops.
Context {T : Type}.
Abbreviation store := (gmap positive (ListNode T)).
Implicit Types (h : store) (l : List_).

(** [p->...]: following a null or dangling pointer is undefined. *)
Definition deref (p : ptr) h : outcome (ListNode T) :=
  match p ≫= (h !!.) with Some n => Done n | None => Wild end.

Definition set_next (p : ptr) (q : ptr) h : outcome store :=
  do n := deref p h in
  match p with Some a => Done (<[a := mkNode (data n) q (previous n)]> h) | None => Wild end.

Definition set_previous (p : ptr) (q : ptr) h : outcome store :=
  do n := deref p h in
  match p with Some a => Done (<[a := mkNode (data n) (next n) q]> h) | None => Wild end.

(** [delete p]; deleting null does nothing. *)
Definition delete_node (p : ptr) h : outcome store :=
  match p with
  | None => Done h
  | Some a => do _ := deref p h in Done (delete a h)
  end.

Definition new_node (x : T) (q r : ptr) h : positive * store :=
  let a := fresh (dom h) in (a, <[a := mkNode x q r]> h).

Definition null (p : ptr) : bool := match p with None => true | Some _ => false end.

Definition push_back (x : T) l h : outcome (List_ * store) :=
  if null (start l) && null (end_ l) then
    let '(a, h) := new_node x None None h in Done (mkList (Some a) (Some a), h)
  else
    let '(a, h) := new_node x None (end_ l) h in
    do h := set_next (end_ l) (Some a) h in
    Done (mkList (start l) (Some a), h).

Definition push_front (x : T) l h : outcome (List_ * store) :=
  if null (start l) && null (end_ l) then
    let '(a, h) := new_node x None None h in Done (mkList (Some a) (Some a), h)
  else
    let '(a, h) := new_node x (start l) None h in
    do h := set_previous (start l) (Some a) h in
    Done (mkList (Some a) (end_ l), h).

Definition pop_front l h : outcome (List_ * store) :=
  if decide (start l = end_ l) then
    do h := delete_node (start l) h in Done (mkList None None, h)
  else
    let firstNode := start l in
    do n := deref firstNode h in
    do h := set_previous (next n) None h in
    do h := delete_node firstNode h in
    Done (mkList (next n) (end_ l), h).

Definition pop_back l h : outcome (List_ * store) :=
  if decide (start l = end_ l) then
    do h := delete_node (start l) h in Done (mkList None None, h)
  else
    let lastNode := end_ l in
    do n := deref lastNode h in
    do h := set_next (previous n) None h in
    do h := delete_node lastNode h in
    Done (mkList (start l) (previous n), h).

Definition erase (pos : ptr) l h : outcome (List_ * store) :=
  do n := deref pos h in
  let start' := if decide (start l = pos) then next n else start l in
  let end' := if decide (end_ l = pos) then previous n else end_ l in
  do h := (if null (previous n) then Done h else set_next (previous n) (next n) h) in
  do n := deref pos h in
  do h := (if null (next n) then Done h else set_previous (next n) (previous n) h) in
  do h := delete_node pos h in
  Done (mkList start' end', h).

(** The loop of [length]; a list has no more nodes than the store. *)
Fixpoint length_loop (fuel : nat) (cnt : ptr) (count : Z) h : outcome Z :=
  match fuel with
  | O => Loop
  | S fuel =>
      if null cnt then Done count
      else do n := deref cnt h in length_loop fuel (next n) (count + 1) h
  end.

Definition length_ l h : outcome Z := length_loop (S (size h)) (start l) 0 h.

(** The node of [operator []], whose asserts are compiled away. *)
Fixpoint nth_node (n : nat) (cnt : ptr) h : outcome ptr :=
  match n with
  | O => Done cnt
  | S n => do c := deref cnt h in nth_node n (next c) h
  end.

Definition subscript (n : nat) l h : outcome T :=
  do p := nth_node n (start l) h in
  do c := deref p h in
  Done (data c).

(** The copying loop of the copy constructor and of the assignment. *)
Fixpoint copy_loop (fuel : nat) (cnt : ptr) l h : outcome (List_ * store) :=
  match fuel with
  | O => Loop
  | S fuel =>
      if null cnt then Done (l, h)
      else do n := deref cnt h in
           do (l, h) := push_back (data n) l h in
           do n := deref cnt h in
           copy_loop fuel (next n) l h
  end.

Definition copy_list (other : List_) h : outcome (List_ * store) :=
  copy_loop (S (size h)) (start other) (mkList None None) h.

(** The loop of the destructor. *)
Fixpoint clear_loop (fuel : nat) l h : outcome (List_ * store) :=
  match fuel with
  | O => Loop
  | S fuel =>
      if null (start l) then Done (l, h)
      else do (l, h) := pop_front l h in clear_loop fuel l h
  end.

Definition destroy l h : outcome (List_ * store) := clear_loop (S (size h)) l h.

(** [operator=]; the two arguments may be the same object. *)
Definition assign (l other : List_) (same : bool) h : outcome (List_ * store) :=
  do (l', h) := destroy l h in
  copy_loop (S (size h)) (if same then start l' else start other) (mkList None None) h.

(** * Representation *)

(** [seg h prv ps xs nxt]: the nodes [ps] hold [xs], linked to each other,
    back to [prv] and forth to [nxt]. *)
Fixpoint seg h (prv : ptr) (ps : list positive) (xs : list T) (nxt : ptr) : Prop :=
  match ps, xs with
  | [], [] => True
  | p :: ps, x :: xs =>
      h !! p = Some (mkNode x (match ps with [] => nxt | q :: _ => Some q end) prv) ∧
      seg h (Some p) ps xs nxt
  | _, _ => False
  end.

(** The first and the last node, or what takes their place. *)
Definition hd_or (ps : list positive) (nxt : ptr) : ptr := match ps with [] => nxt | q :: _ => Some q end.
Definition last_or (ps : list positive) (prv : ptr) : ptr := match last ps with None => prv | Some q => Some q end.

Definition list_rep h l (ps : list positive) (xs : list T) : Prop :=
  start l = hd_or ps None ∧ end_ l = last_or ps None ∧ NoDup ps ∧ seg h None ps xs None.

(** Nodes outside the list are untouched, nodes that left it are freed and
    nodes that joined it were free. *)
Record moved (h h' : store) (ps ps' : list positive) : Prop := mkMoved {
  mv_keep p : p ∉ ps → p ∉ ps' → h' !! p = h !! p;
  mv_free p : p ∈ ps → p ∉ ps' → h' !! p = None;
  mv_new p : p ∈ ps' → p ∉ ps → h !! p = None
}.

Lemma seg_length h ps : ∀ prv xs nxt, seg h prv ps xs nxt → length ps = length xs.
Proof. induction ps as [|p ps IH]; intros prv [|x xs] nxt; simpl; try done. intros [_ H]. f_equal. eauto. Qed.

Lemma seg_dom h ps : ∀ prv xs nxt p, seg h prv ps xs nxt → p ∈ ps → is_Some (h !! p).
Proof.
  induction ps as [|q ps IH]; intros prv [|x xs] nxt p Hs Hp; simpl in Hs; try done.
  - by apply elem_of_nil in Hp.
  - destruct Hs as [Hq Hs]. apply elem_of_cons in Hp as [->|Hp]; [by eexists|by eapply IH].
Qed.

Lemma seg_frame h h' ps : ∀ prv xs nxt,
  seg h prv ps xs nxt → (∀ p, p ∈ ps → h' !! p = h !! p) → seg h' prv ps xs nxt.
Proof.
  induction ps as [|q ps IH]; intros prv [|x xs] nxt Hs Hk; simpl in *; try done.
  destruct Hs as [Hq Hs]. split; [by rewrite Hk by apply list_elem_of_here|].
  apply IH; [done|]. intros p Hp. apply Hk. by apply list_elem_of_further.
Qed.

Lemma last_or_cons p ps prv : last_or (p :: ps) prv = last_or ps (Some p).
Proof. unfold last_or. rewrite last_cons. by destruct (last ps). Qed.

Lemma last_or_snoc ps p prv : last_or (ps ++ [p]) prv = Some p.
Proof. unfold last_or. by rewrite last_snoc. Qed.

Lemma hd_or_app ps1 ps2 nxt : hd_or (ps1 ++ ps2) nxt = hd_or ps1 (hd_or ps2 nxt).
Proof. by destruct ps1. Qed.

Lemma last_or_app ps1 ps2 prv : last_or (ps1 ++ ps2) prv = last_or ps2 (last_or ps1 prv).
Proof.
  revert prv. induction ps1 as [|p ps1 IH]; intros prv; [done|].
  rewrite <- app_comm_cons, !last_or_cons. apply IH.
Qed.

Lemma seg_app h ps1 : ∀ prv xs1 ps2 xs2 nxt,
  length ps1 = length xs1 →
  seg h prv (ps1 ++ ps2) (xs1 ++ xs2) nxt ↔
  seg h prv ps1 xs1 (hd_or ps2 nxt) ∧ seg h (last_or ps1 prv) ps2 xs2 nxt.
Proof.
  induction ps1 as [|p ps1 IH]; intros prv [|x xs1] ps2 xs2 nxt Hl; try done.
  - simpl. unfold last_or. simpl. tauto.
  - injection Hl as Hl. rewrite last_or_cons. cbn [app seg]. rewrite IH by done.
    replace (match ps1 ++ ps2 with [] => nxt | q :: _ => Some q end)
      with (match ps1 with [] => hd_or ps2 nxt | q :: _ => Some q end) by (by destruct ps1, ps2).
    tauto.
Qed.

(** Both sides of a split, for a given sequence of nodes. *)
Lemma seg_split h prv ps1 ps2 xs nxt :
  seg h prv (ps1 ++ ps2) xs nxt →
  ∃ xs1 xs2, xs = xs1 ++ xs2 ∧ length ps1 = length xs1 ∧
    seg h prv ps1 xs1 (hd_or ps2 nxt) ∧ seg h (last_or ps1 prv) ps2 xs2 nxt.
Proof.
  intros Hs. pose proof (seg_length _ _ _ _ _ Hs) as Hl. rewrite length_app in Hl.
  assert (length ps1 = length (take (length ps1) xs)) as Ht by (rewrite length_take; lia).
  exists (take (length ps1) xs), (drop (length ps1) xs). rewrite take_drop.
  do 2 (split; [done|]). apply seg_app; [done|]. by rewrite take_drop.
Qed.

Lemma deref_some p n h : h !! p = Some n → deref (Some p) h = Done n.
Proof. intros H. unfold deref. simpl. by rewrite H. Qed.

(** Redirecting the pointer out of a segment, at its end and at its start;
    an empty segment has none. *)
Lemma relink_next h prv ps xs nxt q :
  NoDup ps → seg h prv ps xs nxt →
  ∃ h', (if null (last_or ps None) then Done h else set_next (last_or ps None) q h) = Done h' ∧
    seg h' prv ps xs q ∧ ∀ p, p ∉ ps → h' !! p = h !! p.
Proof.
  intros Hn Hs. destruct ps as [|a ps _] using rev_ind.
  - exists h. destruct xs; [|done]. done.
  - rewrite last_or_snoc. cbn [null]. apply seg_split in Hs as (xs1 & xs2 & -> & Hl & H1 & H2).
    destruct xs2 as [|x [|? ?]]; simpl in H2; try tauto. destruct H2 as [H2 _].
    apply NoDup_app in Hn as (_ & Hn & _). unfold set_next. rewrite (deref_some _ _ _ H2).
    eexists. split; [done|]. split.
    + apply seg_app; [done|]. split; [|by simpl; rewrite lookup_insert_eq].
      eapply seg_frame; [done|]. intros p Hp. rewrite lookup_insert_ne; [done|].
      intros <-. apply (Hn _ Hp), list_elem_of_here.
    + intros p Hp. rewrite lookup_insert_ne; [done|]. intros <-. set_solver.
Qed.

Lemma relink_previous h prv ps xs nxt q :
  NoDup ps → seg h prv ps xs nxt →
  ∃ h', (if null (hd_or ps None) then Done h else set_previous (hd_or ps None) q h) = Done h' ∧
    seg h' q ps xs nxt ∧ ∀ p, p ∉ ps → h' !! p = h !! p.
Proof.
  intros Hn Hs. destruct ps as [|a ps].
  - exists h. destruct xs; [|done]. done.
  - destruct xs as [|x xs]; [done|]. destruct Hs as [Ha Hs]. apply NoDup_cons in Hn as [Hn _].
    simpl. unfold set_previous. rewrite (deref_some _ _ _ Ha). simpl. eexists. split; [done|]. split.
    + split; [by rewrite lookup_insert_eq|]. eapply seg_frame; [done|]. intros p Hp.
      rewrite lookup_insert_ne; [done|]. by intros <-.
    + intros p Hp. rewrite lookup_insert_ne; [done|]. intros <-. set_solver.
Qed.

Lemma list_rep_null h l ps xs : list_rep h l ps xs → null (start l) && null (end_ l) = match ps with [] => true | _ => false end.
Proof. intros (Hst & He & _). rewrite Hst, He. by destruct ps. Qed.

Lemma fresh_none (h : store) : h !! fresh (dom h) = None.
Proof. apply not_elem_of_dom, is_fresh. Qed.

Lemma fresh_not_in h prv ps xs nxt : seg h prv ps xs nxt → fresh (dom h) ∉ ps.
Proof. intros Hs Hin. destruct (seg_dom _ _ _ _ _ _ Hs Hin) as [n Hn]. by rewrite fresh_none in Hn. Qed.

Lemma new_rep h x :
  let '(a, h') := new_node x None None h in
  list_rep h' (mkList (Some a) (Some a)) [a] [x] ∧ moved h h' [] [a].
Proof.
  simpl. split; [|split; intros p].
  - split; [done|]. split; [done|]. split; [by apply NoDup_singleton|]. by simpl; rewrite lookup_insert_eq.
  - intros _ Hp. rewrite lookup_insert_ne; [done|]. intros <-. set_solver.
  - intros Hp. by apply elem_of_nil in Hp.
  - intros Hp%list_elem_of_singleton _. subst. apply fresh_none.
Qed.

(** [push_back] appends, [push_front] prepends. *)
Lemma push_back_spec h l ps xs x :
  list_rep h l ps xs →
  ∃ l' h' a, push_back x l h = Done (l', h') ∧ a ∉ ps ∧
    list_rep h' l' (ps ++ [a]) (xs ++ [x]) ∧ moved h h' ps (ps ++ [a]).
Proof.
  intros Hr. unfold push_back. rewrite (list_rep_null _ _ _ _ Hr).
  destruct Hr as (Hst & He & Hn & Hs). destruct ps as [|b ps].
  { destruct xs; [|done]. pose proof (new_rep h x) as [H1 H2].
    eexists _, _, _. split; [done|]. split; [apply not_elem_of_nil|]. by split. }
  remember (b :: ps) as bs eqn:Eb. pose proof (fresh_not_in _ _ _ _ _ Hs) as Hf.
  set (a := fresh (dom h)) in *. cbn [new_node]. fold a.
  set (h1 := <[a := mkNode x None (end_ l)]> h).
  assert (∀ p, p ≠ a → h1 !! p = h !! p) as K1 by (intros p Hp; by apply lookup_insert_ne).
  assert (seg h1 None bs xs None) as S1.
  { eapply seg_frame; [done|]. intros p Hp. apply K1. by intros ->. }
  destruct (relink_next h1 None bs xs None (Some a) Hn S1) as (h2 & E2 & S2 & K2).
  rewrite He. assert (null (last_or bs None) = false) as Hnl by (subst bs; by rewrite last_or_cons; unfold last_or; destruct (last ps)).
  rewrite Hnl in E2. fold h1. rewrite <- He. rewrite <- He in E2. rewrite E2. cbn [obind].
  eexists _, h2, a. split; [done|]. split; [done|]. split.
  - split; [by rewrite hd_or_app, Hst; subst|]. split; [by rewrite last_or_snoc|].
    split; [apply NoDup_app; split_and!; auto using NoDup_singleton; set_solver|].
    apply seg_app; [by eapply seg_length|]. split; [done|]. simpl.
    rewrite K2 by done. unfold h1. by rewrite lookup_insert_eq, He.
  - split; intros p.
    + intros H1 H2. rewrite K2, K1 by set_solver. done.
    + set_solver.
    + intros Hp Hps. assert (p = a) as -> by set_solver. apply fresh_none.
Qed.

Lemma push_front_spec h l ps xs x :
  list_rep h l ps xs →
  ∃ l' h' a, push_front x l h = Done (l', h') ∧ a ∉ ps ∧
    list_rep h' l' (a :: ps) (x :: xs) ∧ moved h h' ps (a :: ps).
Proof.
  intros Hr. unfold push_front. rewrite (list_rep_null _ _ _ _ Hr).
  destruct Hr as (Hst & He & Hn & Hs). destruct ps as [|b ps].
  { destruct xs; [|done]. pose proof (new_rep h x) as [H1 H2].
    eexists _, _, _. split; [done|]. split; [apply not_elem_of_nil|]. by split. }
  pose proof (fresh_not_in _ _ _ _ _ Hs) as Hf.
  set (a := fresh (dom h)) in *. cbn [new_node]. fold a.
  set (h1 := <[a := mkNode x (start l) None]> h).
  assert (∀ p, p ≠ a → h1 !! p = h !! p) as K1 by (intros p Hp; by apply lookup_insert_ne).
  assert (seg h1 None (b :: ps) xs None) as S1.
  { eapply seg_frame; [done|]. intros p Hp. apply K1. by intros ->. }
  destruct (relink_previous h1 None (b :: ps) xs None (Some a) Hn S1) as (h2 & E2 & S2 & K2).
  cbn [hd_or null] in E2, Hst. rewrite Hst in *. rewrite E2. cbn [obind].
  eexists _, h2, a. split; [done|]. split; [done|]. split.
  - split; [done|]. split; [by rewrite last_or_cons, He, !last_or_cons|].
    split; [by apply NoDup_cons|]. split; [|done]. rewrite K2 by done. unfold h1. rewrite Hst. apply lookup_insert_eq.
  - split; intros p.
    + intros H1 H2. rewrite K2, K1 by set_solver. done.
    + set_solver.
    + intros Hp Hps. assert (p = a) as -> by set_solver. apply fresh_none.
Qed.

Lemma moved_delete h h1 ps1 p ps2 :
  NoDup (ps1 ++ p :: ps2) → (∀ q, q ∉ ps1 ++ p :: ps2 → h1 !! q = h !! q) →
  moved h (delete p h1) (ps1 ++ p :: ps2) (ps1 ++ ps2).
Proof.
  intros Hn Hk. split; intros q H1 H2.
  - rewrite lookup_delete_ne by set_solver. by apply Hk.
  - assert (q = p) as -> by set_solver. apply lookup_delete_eq.
  - set_solver.
Qed.

(** [erase] removes the node it is given. *)
Lemma erase_spec h l ps1 p ps2 xs :
  list_rep h l (ps1 ++ p :: ps2) xs →
  ∃ l' h' xs1 x xs2, erase (Some p) l h = Done (l', h') ∧
    xs = xs1 ++ x :: xs2 ∧ length ps1 = length xs1 ∧
    list_rep h' l' (ps1 ++ ps2) (xs1 ++ xs2) ∧ moved h h' (ps1 ++ p :: ps2) (ps1 ++ ps2).
Proof.
  intros (Hst & He & Hn & Hs). pose proof Hn as (N1 & Hd & N2)%NoDup_app. apply NoDup_cons in N2 as [Np N2].
  apply seg_split in Hs as (xs1 & xs2 & -> & Hl & S1 & S2). destruct xs2 as [|x xs2]; [done|].
  destruct S2 as [Sp S2]. fold (hd_or ps2 None) in Sp. unfold erase. rewrite (deref_some _ _ _ Sp). cbn [obind previous next].
  destruct (relink_next h None ps1 xs1 _ (hd_or ps2 None) N1 S1) as (h1 & E1 & T1 & K1). rewrite E1. cbn [obind].
  assert (p ∉ ps1) as Np1 by set_solver.
  rewrite (deref_some p (mkNode x (hd_or ps2 None) (last_or ps1 None))) by (by rewrite K1). cbn [obind next previous].
  assert (seg h1 (Some p) ps2 xs2 None) as S2'.
  { eapply seg_frame; [done|]. intros q Hq. apply K1. set_solver. }
  destruct (relink_previous h1 (Some p) ps2 xs2 None (last_or ps1 None) N2 S2') as (h2 & E2 & T2 & K2). rewrite E2.
  cbn [obind delete_node]. rewrite (deref_some p (mkNode x (hd_or ps2 None) (last_or ps1 None))) by (by rewrite K2, K1).
  cbn [obind]. eexists _, _, xs1, x, xs2. split; [done|]. split; [done|]. split; [done|]. split.
  - split; [|split; [|split]].
    + simpl. rewrite Hst, hd_or_app. destruct ps1 as [|q ps1]; simpl; [by rewrite decide_True|].
      rewrite decide_False; [done|]. intros [=->]. set_solver.
    + simpl. rewrite He, !last_or_app, last_or_cons. destruct ps2 as [|q ps2 _] using rev_ind; [by rewrite decide_True|].
      rewrite !last_or_snoc, decide_False; [done|]. intros [=->]. set_solver.
    + apply NoDup_app. split_and!; [done|set_solver|done].
    + apply seg_app; [done|]. split; (eapply seg_frame; [done|]); intros q Hq; rewrite lookup_delete_ne by set_solver; [|done].
      apply K2. set_solver.
  - apply moved_delete; [done|]. intros q Hq. rewrite K2, K1 by set_solver. done.
Qed.

(** A list has two ends when it has two nodes. *)
Lemma ends_differ ps : NoDup ps → hd_or ps None = last_or ps None → ps = [] ∨ ∃ a, ps = [a].
Proof.
  intros Hn H. destruct ps as [|a ps]; [by left|]. right. exists a.
  destruct ps as [|b ps _] using rev_ind; [done|]. rewrite app_comm_cons, last_or_snoc in H. simpl in H.
  injection H as ->. apply NoDup_cons in Hn as [Hn _]. set_solver.
Qed.

Lemma moved_refl h ps : moved h h ps ps.
Proof. split; intros p; done. Qed.

Lemma moved_trans h h1 h2 ps ps1 ps2 : moved h h1 ps ps1 → moved h1 h2 ps1 ps2 → moved h h2 ps ps2.
Proof.
  intros [K1 F1 N1] [K2 F2 N2]. split; intros p Hp Hq; destruct (decide (p ∈ ps1)) as [Hi|Hi].
  - by rewrite F2, N1.
  - by rewrite K2, K1.
  - by apply F2.
  - rewrite K2 by done. by apply F1.
  - by apply N1.
  - rewrite <- K1 by done. by apply N2.
Qed.

Lemma pop_single h l a x :
  list_rep h l [a] [x] → delete_node (start l) h = Done (delete a h) ∧ moved h (delete a h) [a] [].
Proof.
  intros (Hst & _ & Hn & Ha & _). split.
  - rewrite Hst. simpl. by rewrite (deref_some _ _ _ Ha).
  - by apply (moved_delete h h [] a []).
Qed.

Lemma empty_rep h : list_rep h (mkList None None) [] [].
Proof. split; [done|]. split; [done|]. split; [apply NoDup_nil_2|done]. Qed.

(** [pop_front] and [pop_back] remove an end; on an empty list they do
    nothing. *)
Lemma pop_front_spec h l ps xs :
  list_rep h l ps xs →
  ∃ l' h', pop_front l h = Done (l', h') ∧ list_rep h' l' (tail ps) (tail xs) ∧ moved h h' ps (tail ps).
Proof.
  intros Hr. pose proof Hr as (Hst & He & Hn & Hs). unfold pop_front. destruct (decide (start l = end_ l)) as [Hd|Hd].
  - rewrite Hst, He in Hd. destruct (ends_differ _ Hn Hd) as [->|[a ->]].
    + destruct xs; [|done]. rewrite Hst. eexists _, h. split; [done|]. split; [apply empty_rep|apply moved_refl].
    + destruct xs as [|x [|? ?]]; simpl in Hs; try tauto. destruct (pop_single _ _ _ _ Hr) as [E M].
      rewrite E. cbn [obind]. eexists _, _. split; [done|]. split; [apply empty_rep|done].
  - destruct ps as [|a ps]; [rewrite Hst, He in Hd; done|]. destruct xs as [|x xs]; [done|]. destruct Hs as [Ha Hs].
    fold (hd_or ps None) in Ha. apply NoDup_cons in Hn as Hn'. destruct Hn' as [Na Hn'].
    rewrite Hst. cbn [hd_or]. rewrite (deref_some _ _ _ Ha). cbn [obind next].
    destruct (relink_previous h _ ps xs None None Hn' Hs) as (h1 & E1 & S1 & K1).
    assert (null (hd_or ps None) = false) as Hnl by (destruct ps; [rewrite Hst, He in Hd; done|done]).
    rewrite Hnl in E1. rewrite E1. cbn [obind delete_node]. rewrite (deref_some a _ h1) by (rewrite K1; done). cbn [obind].
    eexists _, _. split; [done|]. simpl. split; [|apply (moved_delete h h1 [] a ps); set_solver].
    split; [done|]. split; [rewrite He, last_or_cons; by destruct ps; [|rewrite !last_or_cons]|]. split; [done|].
    eapply seg_frame; [done|]. intros p Hp. rewrite lookup_delete_ne by set_solver. done.
Qed.

Lemma pop_back_spec h l ps xs :
  list_rep h l ps xs →
  ∃ l' h', pop_back l h = Done (l', h') ∧
    list_rep h' l' (take (pred (length ps)) ps) (take (pred (length xs)) xs) ∧
    moved h h' ps (take (pred (length ps)) ps).
Proof.
  intros Hr. pose proof Hr as (Hst & He & Hn & Hs). unfold pop_back. destruct (decide (start l = end_ l)) as [Hd|Hd].
  - rewrite Hst, He in Hd. destruct (ends_differ _ Hn Hd) as [->|[a ->]].
    + destruct xs; [|done]. rewrite Hst. eexists _, h. split; [done|]. split; [apply empty_rep|apply moved_refl].
    + destruct xs as [|x [|? ?]]; simpl in Hs; try tauto. destruct (pop_single _ _ _ _ Hr) as [E M].
      rewrite E. cbn [obind]. eexists _, _. split; [done|]. split; [apply empty_rep|done].
  - destruct ps as [|b ps _] using rev_ind; [rewrite Hst, He in Hd; done|].
    apply seg_split in Hs as (xs1 & [|x [|? ?]] & -> & Hl & S1 & S2); simpl in S2; try tauto. destruct S2 as [Hb _].
    pose proof Hn as (N1 & N2 & _)%NoDup_app. assert (b ∉ ps) as Nb by set_solver.
    rewrite He, last_or_snoc, (deref_some _ _ _ Hb). cbn [obind previous].
    destruct (relink_next h None ps xs1 _ None N1 S1) as (h1 & E1 & T1 & K1).
    assert (null (last_or ps None) = false) as Hnl.
    { destruct ps as [|c ps _] using rev_ind; [rewrite Hst, He in Hd; done|]. by rewrite last_or_snoc. }
    rewrite Hnl in E1. rewrite E1. cbn [obind delete_node]. rewrite (deref_some b _ h1) by (rewrite K1; done). cbn [obind].
    rewrite !length_app, !Nat.add_1_r. simpl pred. rewrite !take_app_length.
    eexists _, _. split; [done|]. split.
    + split; [simpl; rewrite Hst, hd_or_app; destruct ps; [done|done]|]. split; [done|]. split; [done|].
      eapply seg_frame; [done|]. intros p Hp. rewrite lookup_delete_ne by set_solver. done.
    + pose proof (moved_delete h h1 ps b []) as M. rewrite app_nil_r in M. apply M; [done|]. intros q Hq. apply K1. set_solver.
Qed.

(** ** Loops over a list *)

Lemma list_rep_size h l ps xs : list_rep h l ps xs → (length ps <= size h)%nat.
Proof.
  intros (_ & _ & Hn & Hs). rewrite <- (size_list_to_set (C := gset positive) ps), <- size_dom by done.
  apply subseteq_size. intros p Hp%elem_of_list_to_set. apply elem_of_dom. by eapply seg_dom.
Qed.

Lemma length_loop_spec h ps : ∀ fuel prv xs c,
  (length ps < fuel)%nat → seg h prv ps xs None →
  length_loop fuel (hd_or ps None) c h = Done (c + Z.of_nat (length xs)).
Proof.
  induction ps as [|p ps IH]; intros [|fuel] prv [|x xs] c Hf Hs; simpl in Hf; try lia; try done.
  - simpl. f_equal. lia.
  - destruct Hs as [Hp Hs]. cbn [length_loop hd_or null]. rewrite (deref_some _ _ _ Hp). cbn [obind next].
    fold (hd_or ps None). rewrite (IH _ (Some p) xs) by (done || lia). f_equal. simpl length. lia.
Qed.

Lemma nth_node_spec h ps1 : ∀ prv p ps2 xs,
  seg h prv (ps1 ++ p :: ps2) xs None → nth_node (length ps1) (hd_or (ps1 ++ p :: ps2) None) h = Done (Some p).
Proof.
  induction ps1 as [|q ps1 IH]; intros prv p ps2 [|x xs] Hs; try done. destruct Hs as [Hq Hs].
  cbn [nth_node length app hd_or]. rewrite (deref_some _ _ _ Hq). cbn [obind next].
  fold (hd_or (ps1 ++ p :: ps2) None). by eapply IH.
Qed.

(** The copy leaves the source as it is. *)
Lemma copy_loop_spec ps : ∀ fuel prv xs h l qs ys,
  (length ps < fuel)%nat → seg h prv ps xs None → NoDup ps → (∀ p, p ∈ ps → p ∉ qs) → list_rep h l qs ys →
  ∃ l' h' qs', copy_loop fuel (hd_or ps None) l h = Done (l', h') ∧ list_rep h' l' qs' (ys ++ xs) ∧ moved h h' qs qs'.
Proof.
  induction ps as [|p ps IH]; intros [|fuel] prv [|x xs] h l qs ys Hf Hs Hn Hd Hr; simpl in Hf; try lia; try done.
  - exists l, h, qs. rewrite app_nil_r. split_and!; auto using moved_refl.
  - destruct Hs as [Hp Hs]. apply NoDup_cons in Hn as [Np Hn]. cbn [copy_loop hd_or null].
    rewrite (deref_some _ _ _ Hp). cbn [obind next data].
    destruct (push_back_spec _ _ _ _ x Hr) as (l1 & h1 & a & E1 & Ha & R1 & M1). rewrite E1. cbn [obind].
    assert (∀ q, q ∈ p :: ps → q ≠ a) as Hne.
    { intros q Hq ->. pose proof (mv_new _ _ _ _ M1 a ltac:(set_solver) Ha) as Hnone.
      apply elem_of_cons in Hq as [->|Hq]; [congruence|]. destruct (seg_dom _ _ _ _ _ _ Hs Hq); congruence. }
    assert (∀ q, q ∈ p :: ps → h1 !! q = h !! q) as K1.
    { intros q Hq. apply (mv_keep _ _ _ _ M1); [by apply Hd|]. specialize (Hd q Hq). specialize (Hne q Hq). set_solver. }
    rewrite (deref_some p _ h1) by (rewrite K1; [done|set_solver]). cbn [obind next]. fold (hd_or ps None).
    destruct (IH fuel (Some p) xs h1 l1 (qs ++ [a]) (ys ++ [x])) as (l2 & h2 & qs2 & E2 & R2 & M2).
    + lia.
    + eapply seg_frame; [done|]. intros q Hq. apply K1. by apply list_elem_of_further.
    + done.
    + intros q Hq. specialize (Hd q ltac:(set_solver)). specialize (Hne q ltac:(set_solver)). set_solver.
    + done.
    + exists l2, h2, qs2. rewrite E2. rewrite <- app_assoc in R2. split_and!; auto. by eapply moved_trans.
Qed.

Lemma clear_loop_spec ps : ∀ fuel h l xs,
  (length ps < fuel)%nat → list_rep h l ps xs →
  ∃ h', clear_loop fuel l h = Done (mkList None None, h') ∧ moved h h' ps [].
Proof.
  induction ps as [|p ps IH]; intros [|fuel] h l xs Hf Hr; simpl in Hf; try lia; cbn [clear_loop].
  - destruct Hr as (Hst & He & _). destruct l as [s e]. simpl in *. subst. exists h. split; [done|apply moved_refl].
  - destruct (pop_front_spec _ _ _ _ Hr) as (l1 & h1 & E1 & R1 & M1). destruct Hr as (Hst & _).
    rewrite Hst. cbn [null hd_or]. rewrite E1. cbn [obind]. simpl in R1, M1.
    destruct (IH fuel h1 l1 (tail xs)) as (h2 & E2 & M2); [lia|done|]. exists h2. split; [done|by eapply moved_trans].
Qed.

(** * Histories *)

Inductive list_op : Type :=
  | PushBack (x : T) | PushFront (x : T) | PopFront | PopBack | EraseAt (n : nat).

(** The call, with the walk to the node for [erase]. *)
Definition run_op (op : list_op) l h : outcome (List_ * store) :=
  match op with
  | PushBack x => push_back x l h
  | PushFront x => push_front x l h
  | PopFront => pop_front l h
  | PopBack => pop_back l h
  | EraseAt n => do p := nth_node n (start l) h in erase p l h
  end.

(** Its effect on the sequence; only positions of the list can be erased. *)
Definition seq_op (op : list_op) (xs : list T) : option (list T) :=
  match op with
  | PushBack x => Some (xs ++ [x])
  | PushFront x => Some (x :: xs)
  | PopFront => Some (tail xs)
  | PopBack => Some (take (pred (length xs)) xs)
  | EraseAt n => if decide (n < length xs)%nat then Some (take n xs ++ drop (S n) xs) else None
  end.

Fixpoint run_ops (ops : list list_op) l h : outcome (List_ * store) :=
  match ops with
  | [] => Done (l, h)
  | op :: ops => do (l, h) := run_op op l h in run_ops ops l h
  end.

Fixpoint seq_ops (ops : list list_op) (xs : list T) : option (list T) :=
  match ops with [] => Some xs | op :: ops => xs ← seq_op op xs; seq_ops ops xs end.

Lemma run_op_spec op h l ps xs ys :
  list_rep h l ps xs → seq_op op xs = Some ys →
  ∃ l' h' ps', run_op op l h = Done (l', h') ∧ list_rep h' l' ps' ys ∧ moved h h' ps ps'.
Proof.
  intros Hr Ho. destruct op; simpl in *; simplify_eq.
  - destruct (push_back_spec _ _ _ _ x Hr) as (l' & h' & a & E & _ & R & M). eauto 6.
  - destruct (push_front_spec _ _ _ _ x Hr) as (l' & h' & a & E & _ & R & M). eauto 6.
  - destruct (pop_front_spec _ _ _ _ Hr) as (l' & h' & E & R & M). eauto 6.
  - destruct (pop_back_spec _ _ _ _ Hr) as (l' & h' & E & R & M). eauto 6.
  - case_decide as Hn; [|done]. injection Ho as <-.
    assert (n < length ps)%nat as [p Hp]%lookup_lt_is_Some by (destruct Hr as (_ & _ & _ & Hs); by rewrite (seg_length _ _ _ _ _ Hs)).
    pose proof (take_drop_middle _ _ _ Hp) as Hps. apply lookup_lt_Some in Hp as Hlt.
    rewrite <- Hps in Hr. pose proof Hr as (Hst & _ & _ & Hs). rewrite Hst.
    assert (length (take n ps) = n) as Hln by (rewrite length_take; lia).
    pose proof (nth_node_spec _ _ _ _ _ _ Hs) as E0. rewrite Hln in E0. rewrite E0. cbn [obind].
    destruct (erase_spec _ _ _ _ _ _ Hr) as (l' & h' & xs1 & x & xs2 & E & -> & Hl & R & M).
    rewrite Hps in M. rewrite Hln in Hl. exists l', h', (take n ps ++ drop (S n) ps). split_and!; [done| |done].
    replace (take n (xs1 ++ x :: xs2)) with xs1 by (by rewrite Hl, take_app_length).
    replace (drop (S n) (xs1 ++ x :: xs2)) with xs2; [done|].
    rewrite Hl. replace (S (length xs1)) with (length xs1 + 1)%nat by lia. by rewrite drop_app_add.
Qed.

Lemma run_ops_spec ops : ∀ h l ps xs ys,
  list_rep h l ps xs → seq_ops ops xs = Some ys →
  ∃ l' h' ps', run_ops ops l h = Done (l', h') ∧ list_rep h' l' ps' ys ∧ moved h h' ps ps'.
Proof.
  induction ops as [|op ops IH]; intros h l ps xs ys Hr Ho; simpl in Ho.
  - simplify_eq. exists l, h, ps. split_and!; auto using moved_refl.
  - destruct (seq_op op xs) as [zs|] eqn:E; [|done]. simpl in Ho.
    destruct (run_op_spec _ _ _ _ _ _ Hr E) as (l1 & h1 & ps1 & E1 & R1 & M1). cbn [run_ops]. rewrite E1. cbn [obind].
    destruct (IH _ _ _ _ _ R1 Ho) as (l2 & h2 & ps2 & E2 & R2 & M2).
    exists l2, h2, ps2. split_and!; eauto using moved_trans.
Qed.

(** C16: The doubly linked list is a sequence: after any history of pushes,
    pops and erasures of existing positions on a new list, no access went
    through a null or dangling pointer, [length] and [operator []] give the
    length and the elements of the sequence that the history produces, the
    copy constructor makes an equal list of new nodes, the destructor frees
    exactly the nodes of the list, and no other node of the store changes at
    any point. *)
Theorem list_is_sequence ops h xs :
  seq_ops ops [] = Some xs →
  ∃ l h1 ps, run_ops ops (mkList None None) h = Done (l, h1) ∧ moved h h1 [] ps ∧
    length_ l h1 = Done (zlen xs) ∧
    (∀ i x, xs !! i = Some x → subscript i l h1 = Done x) ∧
    (∃ l2 h2 ps2, copy_list l h1 = Done (l2, h2) ∧ list_rep h2 l2 ps2 xs ∧ moved h1 h2 [] ps2) ∧
    (∃ h3, destroy l h1 = Done (mkList None None, h3) ∧ moved h1 h3 ps []).
Proof.
  intros Ho. destruct (run_ops_spec ops h _ _ _ _ (empty_rep h) Ho) as (l & h1 & ps & E & R & M).
  pose proof (list_rep_size _ _ _ _ R) as Hsz. pose proof R as (Hst & _ & Hn & Hs).
  exists l, h1, ps. split; [done|]. split; [done|]. split; [|split; [|split]].
  - unfold length_. rewrite Hst. by apply (length_loop_spec h1 ps _ None xs 0); [lia|].
  - intros i x Hx. assert (i < length ps)%nat as [p Hp]%lookup_lt_is_Some.
    { rewrite (seg_length _ _ _ _ _ Hs). by eapply lookup_lt_Some. }
    apply lookup_lt_Some in Hp as Hlt. rewrite <- (take_drop_middle _ _ _ Hp) in Hs.
    pose proof (nth_node_spec _ _ _ _ _ _ Hs) as E0. rewrite (take_drop_middle _ _ _ Hp), length_take, Nat.min_l in E0 by lia.
    unfold subscript. rewrite Hst, E0. cbn [obind].
    apply seg_split in Hs as (xs1 & [|y xs2] & -> & Hl & _ & Hy); [done|]. destruct Hy as [Hy _].
    rewrite (deref_some _ _ _ Hy). cbn [obind data]. rewrite length_take, Nat.min_l in Hl by lia.
    rewrite Hl, list_lookup_middle in Hx by done. congruence.
  - unfold copy_list. rewrite Hst.
    destruct (copy_loop_spec ps (S (size h1)) None xs h1 (mkList None None) [] []) as (l2 & h2 & ps2 & E2 & R2 & M2);
      auto using empty_rep, not_elem_of_nil; [lia|]. eauto 7.
  - unfold destroy. apply (clear_loop_spec ps _ h1 l xs); [lia|done].
Qed.

(** Assigning a list to itself empties it. *)
Lemma self_assignment_clears h l ps xs :
  list_rep h l ps xs → ∃ h', assign l l true h = Done (mkList None None, h') ∧ moved h h' ps [].
Proof.
  intros Hr. pose proof (list_rep_size _ _ _ _ Hr). destruct (clear_loop_spec ps (S (size h)) h l xs) as (h' & E & M); [lia|done|].
  exists h'. unfold assign, destroy. by rewrite E.
Qed.

End ops.

(** A history on an empty store. *)
Lemma list_is_sequence_witness :
  ∃ l h1, run_ops [PushBack 1; PushBack 2; PushFront 0; EraseAt 1; PushBack 3; PopFront] (mkList None None) ∅ = Done (l, h1) ∧
    length_ l h1 = Done 2 ∧ subscript 0 l h1 = Done 2 ∧ subscript 1 l h1 = Done 3.
Proof.
  destruct (list_is_sequence [PushBack 1; PushBack 2; PushFront 0; EraseAt 1; PushBack 3; PopFront] ∅ [2; 3] eq_refl)
    as (l & h1 & ps & E & _ & Hl & Hs & _).
  exists l, h1. exact (conj E (conj Hl (conj (Hs 0%nat 2 eq_refl) (Hs 1%nat 3 eq_refl)))).
Defined.
