(* ===== verification/KVector.v ===== *)
(** The growing array of lib/stl/vector.h, refined to sequences.  The queues
    of the scheduler, the pages of program images and the units of mappings
    are such arrays. *)
From Stdlib Require Import ZArith Lia.
From stdpp Require Import base list numbers option.
From S2P Require Import Prelude KBase.

Local Open Scope Z_scope.
Local Open Scope out_scope.

(** [_data] points to a block of [capacity] elements. *)
Record Vector (T : Type) : Type := mkVector { _data : list T; size : Z; capacity : Z }.
Arguments mkVector {T}.
Arguments _data {T}.
Arguments size {T}.
Arguments capacity {T}.

Section vector.
Context {T : Type} {ET : EqDecision T}.
Implicit Types (v : Vector T) (d : list T).

Definition load (d : list T) (n : Z) : outcome T :=
  if n <? 0 then Wild else match d !! Z.to_nat n with Some x => Done x | None => Wild end.

Definition store (d : list T) (n : Z) (x : T) : outcome (list T) :=
  if (n <? 0) || (zlen d <=? n) then Wild else Done (<[Z.to_nat n := x]> d).

Definition new_Vector : Vector T := mkVector [] 0 0.

(** [for (; pos < size; pos++) _data[pos] = _data[pos + 1]] with [k] turns to go. *)
Fixpoint shift_loop (k : nat) (pos : Z) (d : list T) : outcome (list T) :=
  match k with
  | O => Done d
  | S k => do x := load d (pos + 1) in do d := store d pos x in shift_loop k (pos + 1) d
  end.

Definition shift (pos sz : Z) (d : list T) : outcome (list T) := shift_loop (Z.to_nat (sz - pos)) pos d.

(** The copying loop of the copy constructor: [new T[size]] holds [raw]. *)
Fixpoint copy_loop (k : nat) (i : Z) (from to : list T) : outcome (list T) :=
  match k with
  | O => Done to
  | S k => do x := load from i in do to := store to i x in copy_loop k (i + 1) from to
  end.

Definition copy_Vector (raw : T) (other : Vector T) : outcome (Vector T) :=
  do d := copy_loop (Z.to_nat (size other)) 0 (_data other) (replicate (Z.to_nat (size other)) raw) in
  Done (mkVector d (size other) (size other)).

(** [operator []], whose assert is compiled away. *)
Definition at_ (v : Vector T) (n : Z) : outcome T := load (_data v) n.

Definition length_ (v : Vector T) : Z := size v.

Definition is_empty (v : Vector T) : bool := size v =? 0.

(** [memcpy(to, from, sizeof(T) * n)] between two blocks. *)
Definition memcpy (to from : list T) (n : Z) : outcome (list T) :=
  if (zlen from <? n) || (zlen to <? n) then Wild
  else Done (take (Z.to_nat n) from ++ drop (Z.to_nat n) to).

(** A new block holds [raw]. *)
Definition push_back (raw x : T) v : outcome (Vector T) :=
  do v := (if capacity v <? size v + 1 then
             let cap := Z.max (capacity v * 2) 1 in
             do d := memcpy (replicate (Z.to_nat cap) raw) (_data v) (size v) in
             Done (mkVector d (size v) cap)
           else Done v) in
  do d := store (_data v) (size v) x in
  Done (mkVector d (size v + 1) (capacity v)).

Definition pop_back v : Vector T := mkVector (_data v) (size v - 1) (capacity v).

(** [erase(const T&)]: the loop with [k] elements to go. *)
Fixpoint erase_loop (k : nat) (i : Z) (element : T) v : outcome (Vector T) :=
  match k with
  | O => Done v
  | S k =>
      do x := load (_data v) i in
      if decide (x = element) then
        let sz := size v - 1 in
        do d := shift i sz (_data v) in Done (mkVector d sz (capacity v))
      else erase_loop k (i + 1) element v
  end.

Definition erase (element : T) v : outcome (Vector T) := erase_loop (Z.to_nat (size v)) 0 element v.

Definition erase_at (pos : Z) v : outcome (Vector T) :=
  let sz := size v - 1 in
  do d := shift pos sz (_data v) in Done (mkVector d sz (capacity v)).

Definition pop_front v : outcome (Vector T) :=
  let sz := size v - 1 in
  do d := shift 0 sz (_data v) in Done (mkVector d sz (capacity v)).

(** * The sequence of an array *)

Definition vec_rep v (xs : list T) : Prop :=
  ∃ rest, _data v = xs ++ rest ∧ size v = zlen xs ∧ capacity v = zlen (_data v).

Lemma load_app d1 x d2 : load (d1 ++ x :: d2) (zlen d1) = Done x.
Proof.
  unfold load, zlen. rewrite (proj2 (Z.ltb_ge _ _)) by lia. by rewrite Nat2Z.id, list_lookup_middle.
Qed.

Lemma store_app d1 x d2 y : store (d1 ++ x :: d2) (zlen d1) y = Done (d1 ++ y :: d2).
Proof.
  unfold store, zlen. rewrite (proj2 (Z.ltb_ge _ _)), (proj2 (Z.leb_gt _ _)) by (rewrite ?length_app; simpl; lia).
  simpl. f_equal. rewrite Nat2Z.id. by rewrite insert_app_r_alt, Nat.sub_diag by lia.
Qed.

(** Shifting closes the gap at [pos]; the old last element stays behind. *)
Lemma shift_loop_spec d2 : ∀ d1 x rest,
  ∃ y, shift_loop (length d2) (zlen d1) (d1 ++ x :: d2 ++ rest) = Done (d1 ++ d2 ++ y :: rest).
Proof.
  induction d2 as [|z d2 IH]; intros d1 x rest; [by exists x|].
  cbn [length shift_loop app].
  replace (zlen d1 + 1) with (zlen (d1 ++ [x])) by (unfold zlen; rewrite length_app; simpl; lia).
  replace (d1 ++ x :: z :: d2 ++ rest) with ((d1 ++ [x]) ++ z :: d2 ++ rest) by (by rewrite <- app_assoc).
  rewrite load_app. cbn [obind]. rewrite <- app_assoc. simpl app at 2. rewrite store_app. cbn [obind].
  destruct (IH (d1 ++ [z]) z rest) as [y E]. exists y. rewrite <- !app_assoc in E. simpl in E.
  replace (zlen (d1 ++ [x])) with (zlen (d1 ++ [z])) by (unfold zlen; by rewrite !length_app). exact E.
Qed.

Lemma zlen_app' (l1 l2 : list T) : zlen (l1 ++ l2) = zlen l1 + zlen l2.
Proof. unfold zlen. rewrite length_app. lia. Qed.

Lemma zlen_cons' (x : T) l : zlen (x :: l) = zlen l + 1.
Proof. unfold zlen. simpl. lia. Qed.

(** The common part of the erasures: close the gap and shrink. *)
Lemma shift_rep v xs1 x xs2 :
  vec_rep v (xs1 ++ x :: xs2) →
  ∃ d, shift (zlen xs1) (size v - 1) (_data v) = Done d ∧
    vec_rep (mkVector d (size v - 1) (capacity v)) (xs1 ++ xs2).
Proof.
  intros (rest & Hd & Hs & Hc). unfold shift. rewrite Hd, Hs, zlen_app', zlen_cons' in *.
  replace (Z.to_nat (zlen xs1 + (zlen xs2 + 1) - 1 - zlen xs1)) with (length xs2) by (unfold zlen; lia).
  rewrite <- app_assoc. cbn [app]. destruct (shift_loop_spec xs2 xs1 x rest) as [y E].
  eexists. split; [done|]. exists (y :: rest). cbn [_data size capacity].
  rewrite app_assoc. split; [done|]. split; [rewrite zlen_app'; lia|].
  rewrite Hc, !zlen_app', !zlen_cons'. lia.
Qed.

Lemma erase_loop_spec element v xs2 : ∀ xs1,
  vec_rep v (xs1 ++ xs2) →
  ∃ v', erase_loop (length xs2) (zlen xs1) element v = Done v' ∧
    vec_rep v' (xs1 ++ match list_find (λ x, x = element) xs2 with
                       | Some (i, _) => take i xs2 ++ drop (S i) xs2 | None => xs2 end).
Proof.
  induction xs2 as [|x xs2 IH]; intros xs1 Hr; [by exists v|]. cbn [length erase_loop].
  pose proof Hr as (rest & Hd & _). rewrite <- app_assoc in Hd. cbn [app] in Hd.
  rewrite Hd, load_app. rewrite <- Hd. cbn [obind list_find]. destruct (decide (x = element)) as [->|Hne].
  - destruct (shift_rep _ _ _ _ Hr) as (d & E & Hr'). rewrite E. cbn [obind]. eexists. split; [done|]. exact Hr'.
  - replace (zlen xs1 + 1) with (zlen (xs1 ++ [x])) by (by rewrite zlen_app').
    destruct (IH (xs1 ++ [x])) as (v' & E & Hr'); [by rewrite <- app_assoc|]. exists v'. split; [done|].
    rewrite <- app_assoc in Hr'. cbn [app] in Hr'. destruct (list_find _ xs2) as [[i y]|]; exact Hr'.
Qed.

Lemma vpush_back_spec raw x v xs :
  vec_rep v xs → ∃ v', push_back raw x v = Done v' ∧ vec_rep v' (xs ++ [x]).
Proof.
  intros (rest & Hd & Hs & Hc). unfold push_back.
  assert (∀ rest' cap, rest' ≠ [] → cap = zlen (xs ++ rest') → ∃ v',
    (do d := store (xs ++ rest') (zlen xs) x in Done (mkVector d (zlen xs + 1) cap)) = Done v' ∧ vec_rep v' (xs ++ [x])) as Hend.
  { intros [|y r] cap Hne Hcap; [done|]. rewrite store_app. cbn [obind]. eexists. split; [done|]. exists r.
    cbn [_data size capacity]. rewrite <- app_assoc. split; [done|]. rewrite Hcap, !zlen_app', !zlen_cons'. split; [|lia].
    unfold zlen. simpl. lia. }
  rewrite Hc, Hd, Hs. destruct (Z.ltb_spec (zlen (xs ++ rest)) (zlen xs + 1)) as [Hlt|Hge].
  - assert (rest = []) as -> by (destruct rest; [done|]; rewrite zlen_app', zlen_cons' in Hlt; unfold zlen in *; lia).
    rewrite app_nil_r in *. unfold memcpy.
    set (cap := Z.max (zlen xs * 2) 1). assert (zlen xs < cap) as Hcap by (unfold cap, zlen in *; lia).
    assert (zlen (replicate (Z.to_nat cap) raw) = cap) as Hrep by (unfold zlen; rewrite length_replicate; lia).
    rewrite Hrep, (proj2 (Z.ltb_ge _ _)), (proj2 (Z.ltb_ge _ _)) by lia. cbn [orb obind _data size capacity].
    rewrite zlen_to_nat, firstn_all. apply Hend.
    + intros Hnil%(f_equal length). rewrite length_drop, length_replicate in Hnil. simpl in Hnil. unfold zlen in Hcap. lia.
    + rewrite zlen_app'. unfold zlen at 2. rewrite length_drop, length_replicate. unfold zlen in *. lia.
  - cbn [obind]. rewrite Hd, Hs, Hc, Hd. apply Hend; [|done]. intros ->. rewrite app_nil_r in Hge. lia.
Qed.

Lemma vcopy_loop_spec from2 : ∀ from1 rest to2,
  length to2 = length from2 →
  copy_loop (length from2) (zlen from1) (from1 ++ from2 ++ rest) (from1 ++ to2) = Done (from1 ++ from2).
Proof.
  induction from2 as [|x from2 IH]; intros from1 rest [|y to2] Hl; try done. cbn [length copy_loop app].
  rewrite load_app. cbn [obind]. rewrite store_app. cbn [obind].
  replace (zlen from1 + 1) with (zlen (from1 ++ [x])) by (by rewrite zlen_app').
  specialize (IH (from1 ++ [x]) rest to2). rewrite <- !app_assoc in IH. apply IH. simpl in Hl. lia.
Qed.

(** * Histories *)

Inductive vec_op : Type :=
  | PushBack (x : T) | PopBack | PopFront | EraseAt (n : nat) | Erase (x : T).

Definition run_op (raw : T) (op : vec_op) v : outcome (Vector T) :=
  match op with
  | PushBack x => push_back raw x v
  | PopBack => Done (pop_back v)
  | PopFront => pop_front v
  | EraseAt n => erase_at (Z.of_nat n) v
  | Erase x => erase x v
  end.

(** The effect on the sequence; there must be an element to remove. *)
Definition seq_op (op : vec_op) (xs : list T) : option (list T) :=
  match op with
  | PushBack x => Some (xs ++ [x])
  | PopBack => match xs with [] => None | _ => Some (take (pred (length xs)) xs) end
  | PopFront => match xs with [] => None | _ :: xs => Some xs end
  | EraseAt n => if decide (n < length xs)%nat then Some (take n xs ++ drop (S n) xs) else None
  | Erase x => Some (match list_find (λ y, y = x) xs with
                     | Some (i, _) => take i xs ++ drop (S i) xs | None => xs end)
  end.

Fixpoint run_ops (raw : T) (ops : list vec_op) v : outcome (Vector T) :=
  match ops with [] => Done v | op :: ops => do v := run_op raw op v in run_ops raw ops v end.

Fixpoint seq_ops (ops : list vec_op) (xs : list T) : option (list T) :=
  match ops with [] => Some xs | op :: ops => xs ← seq_op op xs; seq_ops ops xs end.

Lemma pop_back_rep v xs x : vec_rep v (xs ++ [x]) → vec_rep (pop_back v) xs.
Proof.
  intros (rest & Hd & Hs & Hc). exists (x :: rest). rewrite <- app_assoc in Hd. split; [done|].
  cbn [pop_back _data size capacity]. split; [|done]. rewrite Hs, zlen_app', zlen_cons'. unfold zlen. simpl. lia.
Qed.

Lemma vrun_op_spec raw op v xs ys :
  vec_rep v xs → seq_op op xs = Some ys → ∃ v', run_op raw op v = Done v' ∧ vec_rep v' ys.
Proof.
  intros Hr Ho. destruct op as [x| | |n|x]; simpl in Ho |- *; repeat case_decide; simplify_eq.
  - by apply vpush_back_spec.
  - destruct xs as [|x xs _] using rev_ind; [done|]. assert (ys = xs) as ->.
    { rewrite length_app, Nat.add_1_r in Ho. simpl pred in Ho. rewrite take_app_length in Ho. destruct xs; naive_solver. } exists (pop_back v). split; [done|]. by eapply pop_back_rep.
  - destruct xs as [|x xs]; [done|]. injection Ho as <-. unfold pop_front.
    destruct (shift_rep v [] x xs Hr) as (d & E & Hr'). change (zlen (@nil T)) with 0 in E. rewrite E. simpl in *. eauto.
  - match goal with H : (n < _)%nat |- _ => destruct (lookup_lt_is_Some_2 _ _ H) as [x Hx] end.
    rewrite <- (take_drop_middle _ _ _ Hx) in Hr. unfold erase_at.
    destruct (shift_rep _ _ _ _ Hr) as (d & E & Hr'). apply lookup_lt_Some in Hx.
    replace (zlen (take n xs)) with (Z.of_nat n) in E by (unfold zlen; rewrite length_take; lia).
    rewrite E. cbn [obind]. eauto.
  - destruct (erase_loop_spec x v xs [] Hr) as (v' & E & Hr'). exists v'. split; [|done].
    unfold erase. destruct Hr as (_ & _ & Hs & _). by rewrite Hs, zlen_to_nat.
Qed.

Lemma vrun_ops_spec raw ops : ∀ v xs ys,
  vec_rep v xs → seq_ops ops xs = Some ys → ∃ v', run_ops raw ops v = Done v' ∧ vec_rep v' ys.
Proof.
  induction ops as [|op ops IH]; intros v xs ys Hr Ho; simpl in Ho; [simplify_eq; by exists v|].
  destruct (seq_op op xs) as [zs|] eqn:E; [|done]. destruct (vrun_op_spec raw _ _ _ _ Hr E) as (v1 & E1 & R1).
  cbn [run_ops]. rewrite E1. cbn [obind]. by apply (IH v1 zs).
Qed.

(** The growing array is a sequence: any history of insertions, and of
    removals of elements that exist, on a new array stays inside its block;
    length and [operator []] then give the sequence that the history
    produces, and a copy holds the same sequence. *)
Theorem vector_is_sequence raw ops xs :
  seq_ops ops [] = Some xs →
  ∃ v, run_ops raw ops new_Vector = Done v ∧ length_ v = zlen xs ∧ is_empty v = bool_decide (xs = []) ∧
    (∀ i x, xs !! i = Some x → at_ v (Z.of_nat i) = Done x) ∧
    (∃ v', copy_Vector raw v = Done v' ∧ _data v' = xs ∧ vec_rep v' xs).
Proof.
  intros Ho. assert (vec_rep new_Vector []) as H0 by (by exists []).
  destruct (vrun_ops_spec raw _ _ _ _ H0 Ho) as (v & E & rest & Hd & Hs & Hc). exists v. split; [done|].
  split; [done|]. split; [|split].
  - unfold is_empty. rewrite Hs. by destruct xs.
  - intros i x Hx. unfold at_. rewrite Hd. apply take_drop_middle in Hx as Hm. apply lookup_lt_Some in Hx.
    rewrite <- Hm. replace (Z.of_nat i) with (zlen (take i xs)) by (unfold zlen; rewrite length_take; lia).
    rewrite <- app_assoc. apply load_app.
  - unfold copy_Vector. rewrite Hd, Hs, zlen_to_nat.
    pose proof (vcopy_loop_spec xs [] rest (replicate (length xs) raw) (length_replicate _ _)) as Hcp.
    cbn [app] in Hcp. change (zlen (@nil T)) with 0 in Hcp. rewrite Hcp. cbn [obind].
    eexists. split; [done|]. split; [done|]. exists []. by rewrite app_nil_r.
Qed.

End vector.

Lemma vector_is_sequence_witness :
  ∃ v, run_ops 0 [PushBack 7; PushBack 8; PushBack 9; Erase 8; PopFront; PushBack 5] new_Vector = Done v ∧
    length_ v = 2 ∧ at_ v 0 = Done 9 ∧ at_ v 1 = Done 5.
Proof.
  destruct (vector_is_sequence (ET := Z.eq_dec) 0 [PushBack 7; PushBack 8; PushBack 9; Erase 8; PopFront; PushBack 5] [9; 5] eq_refl)
    as (v & E & Hl & _ & Ha & _).
  exists v. exact (conj E (conj Hl (conj (Ha 0%nat 9 eq_refl) (Ha 1%nat 5 eq_refl)))).
Defined.
