(* ===== verification/KPath.v ===== *)
(** Paths of lib/stl/PathUtil.h and the association map of lib/stl/map.h.

    A string is the list of its characters without the terminating zero. *)
From Stdlib Require Import ZArith Lia.
From stdpp Require Import base list numbers option.
From S2P Require Import Prelude KBase.

Local Open Scope Z_scope.
Local Open Scope out_scope.

Definition SLASH : Z := 47.

(** * PathUtil *)

(** The index of the first character of [cs] that occurs in [ct]. *)
Fixpoint strpbrk (cs ct : list Z) : option nat :=
  match cs with
  | [] => None
  | c :: cs => if existsb (Z.eqb c) ct then Some 0%nat else S <$> strpbrk cs ct
  end.

(** The token at [s], the characters the buffer holds up to the next token (the
    separator is overwritten by a zero) and where that one starts; [None] is a
    null [*s]. *)
Definition strsep (s : option (list Z)) (ct : list Z) : option (list Z * list Z * option (list Z)) :=
  match s with
  | None => None
  | Some s =>
      match strpbrk s ct with
      | Some i => Some (take i s, take i s ++ [0], Some (drop (S i) s))
      | None => Some (s, s, None)
      end
  end.

(** The loop of [split]; every token but the last takes a character. [buf] is
    what the buffer holds before [s]. *)
Fixpoint split_loop (fuel : nat) (s : option (list Z)) (buf : list Z) (res : list (list Z))
    : outcome (list (list Z) * list Z) :=
  match fuel with
  | O => Loop
  | S fuel =>
      match strsep s [SLASH] with
      | None => Done (res, buf)
      | Some (unit, seen, s) =>
          split_loop fuel s (buf ++ seen) (match unit with [] => res | _ => res ++ [unit] end)
      end
  end.

(** The components, and the buffer of [path] after the call. *)
Definition split (path : list Z) : outcome (list (list Z) * list Z) :=
  split_loop (S (S (length path))) (Some path) [] [].

Definition joinAbsolutePath (pathList : list (list Z)) : list Z :=
  foldl (λ res p, (res ++ [SLASH]) ++ p) [] pathList.

(** ** Components *)

(** A component of a path: not empty and without a slash. *)
Definition component (c : list Z) : Prop := c ≠ [] ∧ SLASH ∉ c.

Lemma strpbrk_none s : SLASH ∉ s → strpbrk s [SLASH] = None.
Proof.
  induction s as [|c s IH]; simpl; [done|]. intros [H1 H2]%not_elem_of_cons.
  rewrite (proj2 (Z.eqb_neq c SLASH)) by congruence. simpl. by rewrite IH.
Qed.

Lemma strpbrk_some c s : SLASH ∉ c → strpbrk (c ++ SLASH :: s) [SLASH] = Some (length c).
Proof.
  induction c as [|x c IH]; simpl; [done|]. intros [H1 H2]%not_elem_of_cons.
  rewrite (proj2 (Z.eqb_neq x SLASH)) by congruence. simpl. by rewrite IH.
Qed.

(** Every string is a slash-free token, followed by a slash and a string or
    by nothing. *)
Lemma first_token s : ∃ c, SLASH ∉ c ∧ (s = c ∨ (∃ s', s = c ++ SLASH :: s')).
Proof.
  induction s as [|x s (c & Hc & H)].
  - exists []. split; [apply not_elem_of_nil|by left].
  - destruct (decide (x = SLASH)) as [->|Hx].
    + exists []. split; [apply not_elem_of_nil|]. right. by exists s.
    + exists (x :: c). split; [by apply not_elem_of_cons|].
      destruct H as [->|[s' ->]]; [by left|right; by exists s'].
Qed.

Lemma strsep_last c : SLASH ∉ c → strsep (Some c) [SLASH] = Some (c, c, None).
Proof. intros H. unfold strsep. by rewrite strpbrk_none. Qed.

Lemma strsep_more c s :
  SLASH ∉ c → strsep (Some (c ++ SLASH :: s)) [SLASH] = Some (c, c ++ [0], Some s).
Proof.
  intros H. unfold strsep. rewrite strpbrk_some by done. rewrite take_app_length.
  replace (S (length c)) with (length c + 1)%nat by lia. by rewrite drop_app_add.
Qed.

(** A buffer whose separators were overwritten. *)
Definition cut (s : list Z) : list Z := (λ x, if x =? SLASH then 0 else x) <$> s.

Lemma cut_token c : SLASH ∉ c → cut c = c.
Proof.
  induction c as [|x c IH]; simpl; [done|]. intros [H1 H2]%not_elem_of_cons.
  rewrite (proj2 (Z.eqb_neq x SLASH)) by congruence. f_equal. by apply IH.
Qed.

Lemma cut_more c s : SLASH ∉ c → cut (c ++ SLASH :: s) = c ++ 0 :: cut s.
Proof. intros H. unfold cut. rewrite fmap_app. f_equal. by apply cut_token. Qed.

(** The components of a string: the reference for [split]. *)
Fixpoint components (cur s : list Z) : list (list Z) :=
  match s with
  | [] => match cur with [] => [] | _ => [cur] end
  | x :: s =>
      if x =? SLASH then match cur with [] => components [] s | _ => cur :: components [] s end
      else components (cur ++ [x]) s
  end.

Lemma components_token c : ∀ cur s,
  SLASH ∉ c → components cur (c ++ SLASH :: s) =
  match cur ++ c with [] => components [] s | _ => (cur ++ c) :: components [] s end.
Proof.
  induction c as [|x c IH]; intros cur s Hc; simpl; [by rewrite app_nil_r|].
  apply not_elem_of_cons in Hc as [H1 H2]. rewrite (proj2 (Z.eqb_neq x SLASH)) by congruence.
  by rewrite IH, <- app_assoc.
Qed.

Lemma components_last c : ∀ cur,
  SLASH ∉ c → components cur c = match cur ++ c with [] => [] | _ => [cur ++ c] end.
Proof.
  induction c as [|x c IH]; intros cur Hc; simpl; [by rewrite app_nil_r|].
  apply not_elem_of_cons in Hc as [H1 H2]. rewrite (proj2 (Z.eqb_neq x SLASH)) by congruence.
  by rewrite IH, <- app_assoc.
Qed.

Lemma split_loop_spec fuel : ∀ s buf res,
  (S (length s) < fuel)%nat →
  split_loop fuel (Some s) buf res = Done (res ++ components [] s, buf ++ cut s).
Proof.
  induction fuel as [|fuel IH]; intros s buf res Hf; [lia|]. cbn [split_loop].
  destruct (first_token s) as (c & Hc & [->|[s' ->]]).
  - rewrite strsep_last by done. destruct fuel as [|fuel]; [lia|]. cbn [split_loop strsep].
    rewrite components_last, cut_token by done. simpl. destruct c; [by rewrite !app_nil_r|done].
  - rewrite strsep_more by done. rewrite length_app in Hf. simpl in Hf. rewrite IH by lia.
    rewrite components_token, cut_more, <- !app_assoc by done. simpl. destruct c; [done|]. by rewrite <- app_assoc.
Qed.

Lemma split_components p : split p = Done (components [] p, cut p).
Proof. unfold split. by rewrite split_loop_spec by lia. Qed.

Lemma components_ok s : ∀ cur, SLASH ∉ cur → Forall component (components cur s).
Proof.
  induction s as [|x s IH]; intros cur Hc; simpl.
  - destruct cur; [done|]. constructor; [by split|done].
  - destruct (Z.eqb_spec x SLASH) as [->|Hx].
    + pose proof (IH [] (not_elem_of_nil _)). destruct cur; [done|]. constructor; [by split|done].
    + apply IH. apply not_elem_of_app. split; [done|]. by apply not_elem_of_cons; split; [|apply not_elem_of_nil].
Qed.

Lemma join_snoc l c : joinAbsolutePath (l ++ [c]) = joinAbsolutePath l ++ SLASH :: c.
Proof. unfold joinAbsolutePath. rewrite foldl_app. simpl. by rewrite <- app_assoc. Qed.

Lemma join_cons c l : joinAbsolutePath (c :: l) = SLASH :: c ++ joinAbsolutePath l.
Proof.
  induction l as [|d l IH] using rev_ind; [by rewrite app_nil_r|].
  rewrite app_comm_cons, !join_snoc, IH. simpl. by rewrite <- app_assoc.
Qed.

Lemma components_join l : Forall component l → components [] (joinAbsolutePath l) = l.
Proof.
  induction 1 as [|c l [Hne Hc] Hl IH]; [done|]. rewrite join_cons. simpl.
  destruct l as [|d l].
  - rewrite app_nil_r, components_last by done. simpl. by destruct c.
  - rewrite join_cons in *. rewrite components_token by done. simpl. destruct c; [done|].
    f_equal. exact IH.
Qed.

(** Splitting a path into its components and joining them are inverse:
    joining components and splitting gives them back, and splitting any path
    gives components, those of its normal form ([split] always ends, drops
    empty components and is the reference tokenizer). The call overwrites the
    separators in the buffer of its argument by zeros. *)
Theorem split_join_roundtrip p l :
  Forall component l →
  (∃ buf, split (joinAbsolutePath l) = Done (l, buf)) ∧
  split p = Done (components [] p, cut p) ∧
  (∃ buf, split (joinAbsolutePath (components [] p)) = Done (components [] p, buf)) ∧
  Forall component (components [] p).
Proof.
  intros Hl. pose proof (components_ok p [] (not_elem_of_nil _)) as Hp.
  rewrite !split_components, !components_join by done. split_and!; eauto.
Qed.

(** The cases of [TestPathUtil]. *)
Lemma split_join_roundtrip_witness :
  (∃ buf, split (joinAbsolutePath [[100; 101; 118]; [115; 100; 98]]) =
          Done ([[100; 101; 118]; [115; 100; 98]], buf)) ∧
  split [100; 101; 118; 47; 115; 100; 98] =
    Done ([[100; 101; 118]; [115; 100; 98]], [100; 101; 118; 0; 115; 100; 98]).
Proof.
  destruct (split_join_roundtrip [100; 101; 118; 47; 115; 100; 98] [[100; 101; 118]; [115; 100; 98]])
    as (H1 & H2 & _).
  - repeat constructor; try discriminate; by apply (bool_decide_unpack _).
  - exact (conj H1 H2).
Defined.

(** * Map *)

(** Entries in the order of the list [data]. *)
Section map.
Context {K V : Type} {EK : EqDecision K}.
Implicit Types m : list (K * V).

Fixpoint map_update (key : K) (value : V) (m : list (K * V)) : option (list (K * V)) :=
  match m with
  | [] => None
  | (k, v) :: m =>
      if decide (k = key) then Some ((k, value) :: m)
      else cons (k, v) <$> map_update key value m
  end.

Definition map_put (key : K) (value : V) (m : list (K * V)) : list (K * V) :=
  match map_update key value m with
  | Some m => m
  | None => (key, value) :: m
  end.

Fixpoint map_erase (key : K) (m : list (K * V)) : list (K * V) :=
  match m with
  | [] => []
  | (k, v) :: m => if decide (k = key) then m else (k, v) :: map_erase key m
  end.

Fixpoint map_find (key : K) (m : list (K * V)) : option V :=
  match m with
  | [] => None
  | (k, v) :: m => if decide (k = key) then Some v else map_find key m
  end.

Definition map_exists (key : K) (m : list (K * V)) : bool :=
  match map_find key m with Some _ => true | None => false end.

(** [get] stops the machine on a missing key. *)
Definition map_get (key : K) (m : list (K * V)) : outcome V :=
  match map_find key m with Some v => Done v | None => Panic end.

Lemma map_update_spec key value m :
  match map_update key value m with
  | Some m' => is_Some (map_find key m) ∧
      ∀ k, map_find k m' = if decide (k = key) then Some value else map_find k m
  | None => map_find key m = None
  end.
Proof.
  induction m as [|[k v] m IH]; simpl; [done|]. destruct (decide (k = key)) as [->|Hne].
  - split; [eauto|]. intros k'. simpl. repeat case_decide; congruence.
  - destruct (map_update key value m) as [m'|]; simpl; [|done]. destruct IH as [IH1 IH2].
    split; [done|]. intros k'. simpl. rewrite IH2. repeat case_decide; congruence.
Qed.

Lemma map_find_put k key value m :
  map_find k (map_put key value m) = if decide (k = key) then Some value else map_find k m.
Proof.
  unfold map_put. pose proof (map_update_spec key value m) as H.
  destruct (map_update key value m) as [m'|]; [apply H|]. simpl. repeat case_decide; congruence.
Qed.

Lemma map_get_put_eq key value m : map_get key (map_put key value m) = Done value.
Proof. unfold map_get. by rewrite map_find_put, decide_True. Qed.

Lemma map_find_erase k key m :
  NoDup m.*1 → map_find k (map_erase key m) = if decide (k = key) then None else map_find k m.
Proof.
  induction m as [|[k' v] m IH]; simpl; intros Hn; [by case_decide|].
  inversion_clear Hn as [|? ? Hn1 Hn2]. destruct (decide (k' = key)) as [->|Hne].
  - case_decide as Hk; [|by rewrite decide_False]. subst k.
    clear -Hn1. induction m as [|[k2 v2] m IH]; simpl in *; [done|].
    apply not_elem_of_cons in Hn1 as [H1 H2]. rewrite decide_False by congruence. by apply IH.
  - simpl. rewrite IH by done. repeat case_decide; congruence.
Qed.

End map.
