(* ===== verification/KAbsPath.v ===== *)
(** [getAbsolutePath] of kernel/syscall.cpp: a path and the working directory
    resolved to a normal form without empty components, "." and "..". *)
From Stdlib Require Import ZArith Lia.
From stdpp Require Import base list numbers option relations.
From S2P Require Import Prelude KBase KPath.

Local Open Scope Z_scope.
Local Open Scope out_scope.

Definition PATH_MAX_LEN : Z := 512.
Definition PATH_UNIT_MAX_COUNT : Z := 16.

Definition DOT : list Z := [46].
Definition DOTDOT : list Z := [46; 46].

(** The directory that goes in front of a relative path. *)
Definition cwd_prefix (path : list Z) (cwd : option (list Z)) : list Z :=
  match cwd with
  | None => []
  | Some cwd =>
      if bool_decide (path !! 0%nat = Some SLASH) then []
      else cwd ++ (if bool_decide (cwd !! pred (length cwd) = Some SLASH) then [] else [SLASH])
  end.

(** The loop over [units]; the stack is [res], [cur] its height. *)
Fixpoint resolve_loop (units res : list (list Z)) : option (list (list Z)) :=
  match units with
  | [] => Some res
  | u :: units =>
      if decide (u = DOT) then resolve_loop units res
      else if decide (u = DOTDOT) then
        match res with [] => None | _ => resolve_loop units (take (pred (length res)) res) end
      else
        let res := res ++ [u] in
        if PATH_UNIT_MAX_COUNT <=? zlen res then None else resolve_loop units res
  end.

(** The string that a buffer holds. *)
Fixpoint c_string (b : list Z) : list Z :=
  match b with [] => [] | c :: b => if c =? 0 then [] else c :: c_string b end.

(** [None] in the result is a null pointer.  Strings of PATH_MAX_LEN and more
    characters overrun the static buffers, as do more than
    PATH_UNIT_MAX_COUNT components. *)
Definition getAbsolutePath (path cwd : option (list Z)) : outcome (option (list Z)) :=
  match path, cwd with
  | None, None => Done None
  | None, Some _ => Wild
  | Some path, _ =>
      let str_buff := cwd_prefix path cwd ++ path in
      if PATH_MAX_LEN <=? zlen str_buff then Wild
      else
        do (units, str_buff) := split str_buff in
        if PATH_UNIT_MAX_COUNT <? zlen units then Wild
        else
          match resolve_loop units [] with
          | None => Done None
          | Some res =>
              let out := c_string str_buff ++ joinAbsolutePath res in
              if PATH_MAX_LEN <=? zlen out then Wild
              else match res with [] => Done (Some [SLASH]) | _ => Done (Some out) end
          end
  end.

(** * Normal forms *)

(** A component that names an entry. *)
Definition plain (c : list Z) : Prop := component c ∧ c ≠ DOT ∧ c ≠ DOTDOT.

Lemma resolve_plain units : ∀ res out,
  Forall component units → Forall plain res → resolve_loop units res = Some out →
  Forall plain out.
Proof.
  induction units as [|u units IH]; intros res out Hu Hr H; simpl in H; [by simplify_eq|].
  inversion_clear Hu as [|? ? H1 H2]. repeat case_decide; [by eapply IH| |].
  - destruct res as [|r res]; [done|]. eapply IH; [done| |done]. by apply Forall_take.
  - destruct (_ <=? _); [done|]. eapply IH; [done| |done]. apply Forall_app. split; [done|]. by constructor; [split|].
Qed.

(** Plain components stay as they are while there is room. *)
Lemma resolve_id units : ∀ res,
  Forall plain units → zlen res + zlen units < PATH_UNIT_MAX_COUNT → resolve_loop units res = Some (res ++ units).
Proof.
  induction units as [|u units IH]; intros res Hu Hn; simpl; [by rewrite app_nil_r|].
  inversion_clear Hu as [|? ? (_ & H1 & H2) H3]. rewrite !decide_False by done.
  unfold zlen in *. simpl in Hn. rewrite length_app. simpl. rewrite (proj2 (Z.leb_gt _ _)) by lia.
  rewrite IH; [by rewrite <- app_assoc|done|]. rewrite length_app. simpl. lia.
Qed.

Lemma resolve_room units : ∀ res out,
  resolve_loop units res = Some out → zlen res < PATH_UNIT_MAX_COUNT → zlen out < PATH_UNIT_MAX_COUNT.
Proof.
  induction units as [|u units IH]; intros res out H Hr; simpl in H; [by simplify_eq|].
  repeat case_decide; [by eapply IH| |].
  - destruct res as [|r res]; [done|]. eapply IH; [done|]. unfold zlen in *. rewrite length_take. lia.
  - destruct (Z.leb_spec PATH_UNIT_MAX_COUNT (zlen (res ++ [u]))); [done|]. by eapply IH.
Qed.

(** Characters of the components, each with a separator. *)
Definition weight (l : list (list Z)) : Z := foldr (λ c n, 1 + zlen c + n) 0 l.

Lemma weight_nonneg l : 0 <= weight l.
Proof. induction l; simpl; unfold zlen in *; lia. Qed.

Lemma weight_app l1 l2 : weight (l1 ++ l2) = weight l1 + weight l2.
Proof. induction l1 as [|c l1 IH]; simpl; [done|]. unfold weight in IH |- *. simpl. lia. Qed.

Lemma weight_take n l : weight (take n l) <= weight l.
Proof. rewrite <- (take_drop n l) at 2. rewrite weight_app. pose proof (weight_nonneg (drop n l)). lia. Qed.

Lemma resolve_weight units : ∀ res out,
  resolve_loop units res = Some out → weight out <= weight res + weight units.
Proof.
  induction units as [|u units IH]; intros res out H; simpl in H; [simplify_eq; simpl; lia|].
  change (weight (u :: units)) with (1 + zlen u + weight units). assert (0 <= zlen u) by (unfold zlen; lia).
  repeat case_decide.
  - apply IH in H. lia.
  - destruct res as [|r res]; [done|]. apply IH in H. pose proof (weight_take (pred (length (r :: res))) (r :: res)). lia.
  - destruct (_ <=? _); [done|]. apply IH in H. rewrite weight_app in H. simpl in H. lia.
Qed.

Lemma join_weight l : zlen (joinAbsolutePath l) = weight l.
Proof.
  induction l as [|c l IH]; [done|]. rewrite join_cons. change (weight (c :: l)) with (1 + zlen c + weight l).
  rewrite <- IH. unfold zlen. simpl. rewrite length_app. lia.
Qed.

Lemma components_weight s : ∀ cur, weight (components cur s) <= zlen s + zlen cur + 1.
Proof.
  induction s as [|x s IH]; intros cur; simpl.
  - destruct cur; simpl; unfold zlen; simpl; lia.
  - assert (zlen (x :: s) = zlen s + 1) as -> by (unfold zlen; simpl; lia). destruct (Z.eqb_spec x SLASH).
    + pose proof (IH []) as H. change (zlen (@nil Z)) with 0 in H. destruct cur as [|y cur]; [change (zlen (@nil Z)) with 0; lia|].
      change (weight ((y :: cur) :: components [] s)) with (1 + zlen (y :: cur) + weight (components [] s)). lia.
    + pose proof (IH (cur ++ [x])) as H. unfold zlen in *. rewrite length_app in H. simpl in H. lia.
Qed.

(** After [split], a buffer that starts with a slash holds the empty string. *)
Lemma cut_slash s : s !! 0%nat = Some SLASH → c_string (cut s) = [].
Proof. destruct s as [|x s]; [done|]. intros [= ->]. done. Qed.

(** Every component of a string that starts with a slash has its own. *)
Lemma components_fits s : s !! 0%nat = Some SLASH → weight (components [] s) <= zlen s.
Proof.
  destruct s as [|x s]; [done|]. intros [= ->]. pose proof (components_weight s []) as H. simpl.
  unfold zlen in *. simpl in *. lia.
Qed.

(** The string that is resolved starts with a slash when the path or the
    working directory does. *)
Lemma prefix_slash path cwd :
  path !! 0%nat = Some SLASH ∨ (∃ c, cwd = Some c ∧ (c = [] ∨ c !! 0%nat = Some SLASH)) →
  (cwd_prefix path cwd ++ path) !! 0%nat = Some SLASH.
Proof.
  intros H. unfold cwd_prefix. destruct cwd as [c|].
  - case_bool_decide as Hp; [done|]. destruct H as [H|(c' & [= <-] & [->|H])]; [done| |].
    + by rewrite bool_decide_eq_false_2.
    + destruct c as [|x c]; [done|]. simpl in H |- *. by injection H as ->.
  - destruct H as [H|(c & H & _)]; done.
Qed.

(** The result of resolving components. *)
Definition abs_path (res : list (list Z)) : list Z :=
  match res with [] => [SLASH] | _ => joinAbsolutePath res end.

Lemma getAbsolutePath_spec path cwd :
  let s := cwd_prefix path cwd ++ path in
  s !! 0%nat = Some SLASH → zlen s < PATH_MAX_LEN → zlen (components [] s) <= PATH_UNIT_MAX_COUNT →
  getAbsolutePath (Some path) cwd = Done (abs_path <$> resolve_loop (components [] s) []).
Proof.
  intros s Hs Hl Hc. unfold getAbsolutePath. fold s. rewrite (proj2 (Z.leb_gt _ _)) by lia.
  rewrite split_components. cbn [obind]. rewrite (proj2 (Z.ltb_ge _ _)) by lia.
  destruct (resolve_loop (components [] s) []) as [res|] eqn:E; [|done]. rewrite cut_slash by done. simpl app.
  pose proof (resolve_weight _ _ _ E) as Hw. pose proof (components_fits s Hs). simpl in Hw.
  rewrite join_weight, (proj2 (Z.leb_gt _ _)) by lia. by destruct res.
Qed.

Lemma plain_components l : Forall plain l → Forall component l.
Proof. induction 1 as [|c l [Hc _] _ IH]; constructor; done. Qed.

Lemma abs_path_components res : Forall plain res → components [] (abs_path res) = res.
Proof.
  intros H. destruct res as [|r res]; [done|]. cbn [abs_path].
  by apply components_join, plain_components.
Qed.

Lemma abs_path_slash res : abs_path res !! 0%nat = Some SLASH.
Proof. destruct res as [|r res]; [done|]. cbn [abs_path]. by rewrite join_cons. Qed.

Lemma abs_path_length res : zlen (abs_path res) <= Z.max 1 (weight res).
Proof. destruct res as [|r res]; [done|]. cbn [abs_path]. rewrite join_weight. lia. Qed.

(** A resolved path resolves to itself. *)
Lemma resolved_fixed s res :
  s !! 0%nat = Some SLASH → zlen s < PATH_MAX_LEN → Forall plain res → resolve_loop (components [] s) [] = Some res →
  ∀ cwd, getAbsolutePath (Some (abs_path res)) cwd = Done (Some (abs_path res)).
Proof.
  intros Hs Hl Hp E cwd'.
  assert (cwd_prefix (abs_path res) cwd' = []) as Hpre.
  { unfold cwd_prefix. destruct cwd'; [|done]. by rewrite bool_decide_eq_true_2 by apply abs_path_slash. }
  pose proof (resolve_weight _ _ _ E) as Hw. pose proof (components_fits s Hs) as Hf. simpl in Hw.
  pose proof (abs_path_length res) as Ha. pose proof (resolve_room _ _ _ E ltac:(done)) as Hr.
  rewrite (getAbsolutePath_spec (abs_path res) cwd'); rewrite Hpre; simpl app; rewrite ?abs_path_components by done.
  - rewrite resolve_id; [done|done|]. unfold zlen at 1. simpl. lia.
  - apply abs_path_slash.
  - unfold PATH_MAX_LEN in *. lia.
  - lia.
Qed.

(** * The meaning of "." and ".." *)

(** What a component list denotes, as a rewriting system that knows nothing
    of the stack: "." disappears, and so does an entry with the ".." after
    it. *)
Inductive path_step : list (list Z) → list (list Z) → Prop :=
| step_dot l1 l2 : path_step (l1 ++ DOT :: l2) (l1 ++ l2)
| step_dotdot l1 c l2 : plain c → path_step (l1 ++ c :: DOTDOT :: l2) (l1 ++ l2).

(** The list asks for the parent of the root. *)
Definition above_root (units : list (list Z)) : Prop := ∃ tl, rtc path_step units (DOTDOT :: tl).

(** More entries than the stack takes: PATH_UNIT_MAX_COUNT of them, with no
    "." or ".." between. *)
Definition too_deep (units : list (list Z)) : Prop :=
  zlen units = PATH_UNIT_MAX_COUNT ∧ Forall plain units.

Lemma last_split {A} (x : A) l : ∃ l' y, x :: l = l' ++ [y] ∧ take (pred (length (x :: l))) (x :: l) = l'.
Proof.
  destruct (exists_last (l := x :: l)) as (l' & y & E); [done|]. exists l', y. split; [done|]. rewrite E.
  rewrite length_app, Nat.add_1_r. simpl. by rewrite take_app_length.
Qed.

(** The stack is the part that is already reduced. *)
Lemma resolve_reduces units : ∀ res out,
  Forall component units → Forall plain res → resolve_loop units res = Some out → rtc path_step (res ++ units) out.
Proof.
  induction units as [|u units IH]; intros res out Hu Hr H; simpl in H; [simplify_eq; by rewrite app_nil_r|].
  inversion_clear Hu as [|? ? H1 H2]. repeat case_decide; subst.
  - eapply rtc_l; [apply step_dot|]. by apply IH.
  - destruct res as [|r res]; [done|]. destruct (last_split r res) as (l & y & E & Et). rewrite Et in H. rewrite E in *.
    apply Forall_app in Hr as [Hl Hy]. rewrite <- app_assoc. simpl.
    eapply rtc_l; [apply step_dotdot; by inversion Hy|]. by apply IH.
  - destruct (_ <=? _); [done|]. change (u :: units) with ([u] ++ units). rewrite app_assoc.
    apply IH; [done| |done]. apply Forall_app. split; [done|]. by constructor.
Qed.

Lemma resolve_fails units : ∀ res,
  Forall component units → Forall plain res → zlen res + zlen units <= PATH_UNIT_MAX_COUNT →
  resolve_loop units res = None → above_root (res ++ units) ∨ too_deep (res ++ units).
Proof.
  unfold too_deep. induction units as [|u units IH]; intros res Hu Hr Hn H; simpl in H; [done|].
  inversion_clear Hu as [|? ? H1 H2]. unfold zlen in *. simpl in Hn. repeat case_decide; subst.
  - apply IH in H as [[tl H]|[H _]]; [left; exists tl|rewrite length_app in H; lia|done..|lia].
    eapply rtc_l; [apply step_dot|done].
  - destruct res as [|r res]; [left; by exists units|]. destruct (last_split r res) as (l & y & E & Et).
    rewrite Et in H. rewrite E in *. apply Forall_app in Hr as [Hl Hy]. rewrite length_app in Hn. simpl in Hn.
    apply IH in H as [[tl H]|[H _]]; [left; exists tl|rewrite length_app in H; lia|done..|lia].
    rewrite <- app_assoc. eapply rtc_l; [apply step_dotdot; by inversion Hy|done].
  - change (u :: units) with ([u] ++ units). rewrite app_assoc.
    assert (Forall plain (res ++ [u])) by (apply Forall_app; split; [done|by constructor]).
    destruct (Z.leb_spec PATH_UNIT_MAX_COUNT (Z.of_nat (length (res ++ [u])))) as [Hf|Hf].
    + rewrite length_app in Hf. simpl in Hf. destruct units; [|simpl in Hn; lia]. right.
      rewrite app_nil_r, length_app. simpl. split; [lia|done].
    + apply IH; try done. rewrite length_app. simpl. lia.
Qed.

(** The stack machine with no limit, which every rewriting step respects. *)
Fixpoint eval_units (units res : list (list Z)) : option (list (list Z)) :=
  match units with
  | [] => Some res
  | u :: units =>
      if decide (u = DOT) then eval_units units res
      else if decide (u = DOTDOT) then
        match res with [] => None | _ => eval_units units (take (pred (length res)) res) end
      else eval_units units (res ++ [u])
  end.

Lemma eval_app l1 l2 : ∀ res, eval_units (l1 ++ l2) res = eval_units l1 res ≫= eval_units l2.
Proof.
  induction l1 as [|u l1 IH]; intros res; simpl; [done|]. repeat case_decide; [done| |done]. by destruct res.
Qed.

Lemma eval_step u u' : path_step u u' → ∀ res, eval_units u res = eval_units u' res.
Proof.
  destruct 1 as [l1 l2|l1 c l2 (_ & Hc1 & Hc2)]; intros res; rewrite !eval_app;
    destruct (eval_units l1 res) as [r|]; simpl; try done.
  rewrite !decide_False by done. destruct (r ++ [c]) as [|x l] eqn:E; [by destruct r|]. rewrite <- E.
  rewrite length_app, Nat.add_1_r. cbn [pred]. by rewrite take_app_length.
Qed.

Lemma eval_rtc u u' : rtc path_step u u' → eval_units u [] = eval_units u' [].
Proof. induction 1 as [|u v w H _ IH]; [done|]. by rewrite (eval_step _ _ H). Qed.

Lemma eval_plain l : ∀ res, Forall plain l → eval_units l res = Some (res ++ l).
Proof.
  induction l as [|u l IH]; intros res Hl; simpl; [by rewrite app_nil_r|].
  inversion_clear Hl as [|? ? (_ & H1 & H2) H3]. rewrite !decide_False by done. rewrite IH by done. by rewrite <- app_assoc.
Qed.

(** The entries a list of components leads to are determined, and a list
    that leads somewhere does not climb above the root. *)
Lemma reduct_unique u l1 l2 : rtc path_step u l1 → Forall plain l1 → rtc path_step u l2 → Forall plain l2 → l1 = l2.
Proof. intros H1 P1 H2 P2. apply eval_rtc in H1, H2. rewrite (eval_plain _ [] P1) in H1. rewrite (eval_plain _ [] P2) in H2. by simplify_eq/=. Qed.

Lemma reduct_below u l : rtc path_step u l → Forall plain l → ¬ above_root u.
Proof. intros H P [tl Ht]. apply eval_rtc in H, Ht. rewrite (eval_plain _ [] P) in H. rewrite H in Ht. done. Qed.

(** C20: Resolving a path against the working directory, when one of them is
    absolute, together they are shorter than the 512-character buffer and
    have at most 16 components: the call returns a null pointer exactly when
    the components, read with the rewriting rules of "." and "..", climb
    above the root, or are 16 plain names, one more than the stack takes; and
    otherwise it returns the absolute path whose components are the one list
    of plain names that the rules reduce the components to, a path that
    resolves to itself from every directory. *)
Theorem getAbsolutePath_normal path cwd :
  let s := cwd_prefix path cwd ++ path in
  path !! 0%nat = Some SLASH ∨ (∃ c, cwd = Some c ∧ (c = [] ∨ c !! 0%nat = Some SLASH)) →
  zlen s < PATH_MAX_LEN → zlen (components [] s) <= PATH_UNIT_MAX_COUNT →
  (getAbsolutePath (Some path) cwd = Done None ∧
   (above_root (components [] s) ∨ too_deep (components [] s))) ∨
  ∃ r, getAbsolutePath (Some path) cwd = Done (Some r) ∧
    ¬ above_root (components [] s) ∧ ¬ too_deep (components [] s) ∧
    r = abs_path (components [] r) ∧ Forall plain (components [] r) ∧
    rtc path_step (components [] s) (components [] r) ∧
    (∀ l, rtc path_step (components [] s) l → Forall plain l → l = components [] r) ∧
    ∀ cwd', getAbsolutePath (Some r) cwd' = Done (Some r).
Proof.
  intros s Hs Hl Hc. apply prefix_slash in Hs. fold s in Hs. rewrite (getAbsolutePath_spec path cwd) by done. fold s.
  assert (Forall component (components [] s)) as Hcs by apply components_ok, not_elem_of_nil.
  destruct (resolve_loop (components [] s) []) as [res|] eqn:E; [right|left; split; [done|]].
  2: by apply (resolve_fails _ []) in E.
  assert (Forall plain res) as Hp by (by eapply resolve_plain; [|apply Forall_nil|exact E]).
  pose proof (resolve_reduces _ [] _ Hcs (Forall_nil_2 _) E) as Hr. cbn [app] in Hr.
  exists (abs_path res). rewrite abs_path_components by done. split; [done|].
  split; [by eapply reduct_below|]. split.
  { intros [Hn Hf]. rewrite (reduct_unique _ _ _ (rtc_refl _ _) Hf Hr Hp) in Hn.
    pose proof (resolve_room _ _ _ E ltac:(done)). lia. }
  do 3 (split; [done|]). split; [intros l H1 H2; by eapply reduct_unique|].
  by eapply resolved_fixed.
Qed.

(** The first case of the test that comes with the function, and the
    negative one. *)
Lemma getAbsolutePath_normal_witness :
  getAbsolutePath (Some [46; 47; 47; 109; 110; 116; 47; 116; 47; 46; 46; 47]) (Some [47]) = Done (Some [47; 109; 110; 116]) ∧
  getAbsolutePath (Some [46; 46; 47; 46; 46; 47]) (Some [47]) = Done None.
Proof.
  split.
  - destruct (getAbsolutePath_normal [46; 47; 47; 109; 110; 116; 47; 116; 47; 46; 46; 47] (Some [47])) as [[E _]|(r & E & _)].
    + right. exists [47]. split; [reflexivity|right; reflexivity].
    + reflexivity.
    + discriminate.
    + vm_compute in E. discriminate.
    + pose proof E as E1. vm_compute in E1. injection E1 as <-. exact E.
  - destruct (getAbsolutePath_normal [46; 46; 47; 46; 46; 47] (Some [47])) as [[H _]|(r & H & _)].
    + right. exists [47]. split; [reflexivity|right; reflexivity].
    + reflexivity.
    + discriminate.
    + exact H.
    + vm_compute in H. discriminate.
Defined.
