(* ===== verification/KFs.v ===== *)
(** The file system adapter of kernel/fs/FS.cpp: files are named by path, and
    the open FatFs objects are kept in a map from paths. *)
From Stdlib Require Import ZArith Lia.
From stdpp Require Import base list numbers option.
From S2P Require Import Prelude BlockDevice FfTypes FfWindow FfFat FfChain FfLfn FfDir FfMount FfFile FfApi FfRead FfWrite FfWriteLoop FfSeek FfExample.
From S2P Require Import KBase KPath.

Local Open Scope Z_scope.
Local Open Scope out_scope.

Definition O_WRONLY : Z := 0x001.
Definition O_RDWR : Z := 0x002.
Definition O_CREATE : Z := 0x40.
Definition O_DIRECTORY : Z := 0x0200000.
Definition S_IFREG : Z := 0x8000.
Definition S_IFDIR : Z := 0x4000.

Definition open_mode_to_fatfs_mode (flags : Z) : Z :=
  let result := 0 in
  let result := if zbits flags O_CREATE then Z.lor result FA_CREATE_ALWAYS else result in
  let result := if zbits flags O_WRONLY then Z.lor result FA_WRITE else result in
  let result := if zbits flags O_RDWR then Z.lor result (Z.lor FA_WRITE FA_READ) else result in
  if flags =? 0 then Z.lor result FA_READ else result.

Definition add_flag (path : list Z) (flags : Z) : Z :=
  let flags := if match path !! pred (length path) with Some c => c =? SLASH | None => false end
                  || zbits flags O_DIRECTORY
               then Z.lor flags S_IFDIR else Z.lor flags S_IFREG in
  Z.lor flags O_RDWR.

(** The union [FS_Data]: the member that was stored. *)
Inductive FS_Data : Type := DataFil (f : FIL) | DataDir (d : DIR).

Record FS_Element : Type := mkFsElement { fe_data : FS_Data; is_file : bool }.

(** [LastOpenedFile] points into the element of a path. *)
Record FS : Type := mkFS {
  path_to_fs_el : list (list Z * FS_Element);
  last_dir : DIR;
  has_last_dir : bool;
  LastOpenedFile : option (list Z)
}.

(** [DirInfo] of IFS.h and [kstat] of posix_structs.h, without the padding. *)
Record DirInfo : Type := mkDirInfo {
  di_fsize : Z; di_fdate : Z; di_ftime : Z; di_fattrib : Z; di_fname : list Z
}.

Record kstat : Type := mkKstat {
  st_dev : Z; st_ino : Z; st_mode : Z; st_nlink : Z; st_uid : Z; st_gid : Z; st_rdev : Z;
  st_size : Z; st_blksize : Z; st_blocks : Z; st_atime_sec : Z; st_atime_nsec : Z;
  st_mtime_sec : Z; st_mtime_nsec : Z; st_ctime_sec : Z; st_ctime_nsec : Z
}.

#[global] Instance kstat_eq_dec : EqDecision kstat.
Proof. solve_decision. Defined.

Definition set_elements (m : list (list Z * FS_Element)) (s : FS) : FS :=
  mkFS m (last_dir s) (has_last_dir s) (LastOpenedFile s).

Section fs.
Context {D : Type} {BD : BlockDevice D}.

(** A FatFs call on the volume. *)
Definition call {A} (m : ST (vol D) A) (v : vol D) : outcome (A * vol D) :=
  match m v with Some r => Done r | None => Loop end.

(** [FS_Data data{}]: zeroed objects. *)
Definition zero_fil : FIL := mkFIL (mkFFOBJID false 0 0 0 0 0) 0 0 0 0 0 0 0.
Definition zero_dir : DIR := mkDIR (mkFFOBJID false 0 0 0 0 0) 0 0 0 0 (replicate 12 0) 0.

Definition FS_init (s : FS) (v : vol D) : outcome (Z * FS * vol D) :=
  do (_, v) := call (f_mount true [] 1) v in
  Done (0, mkFS (path_to_fs_el s) (last_dir s) false None, v).

Definition FS_open (path : list Z) (flags : Z) (s : FS) (v : vol D) : outcome (Z * FS * vol D) :=
  let flags := add_flag path flags in
  match path with
  | [] => Wild
  | _ :: path1 =>
      if zbits flags S_IFREG then
        do (r, v) := call (f_open Qemu.get_fattime zero_fil path1 (open_mode_to_fatfs_mode flags)) v in
        let '(fr, fil) := r in
        let m := map_put path (mkFsElement (DataFil fil) true) (path_to_fs_el s) in
        Done (fr_code fr, mkFS m (last_dir s) (has_last_dir s) (Some path), v)
      else if zbits flags S_IFDIR then
        do (r, v) := call (f_opendir zero_dir path1) v in
        let '(fr, dir) := r in
        let m := map_put path (mkFsElement (DataDir dir) false) (path_to_fs_el s) in
        Done (fr_code fr, set_elements m s, v)
      else Done (-1, s, v)
  end.

(** [auto &el = path_to_fs_el.get(path)] used as a file. *)
Definition get_fil (path : list Z) (s : FS) : outcome FIL :=
  do el := map_get path (path_to_fs_el s) in
  match fe_data el with DataFil f => Done f | DataDir _ => Wild end.

(** The element of [path] after the call changed its file object. *)
Definition set_fil (path : list Z) (f : FIL) (s : FS) : FS :=
  set_elements (map_put path (mkFsElement (DataFil f) true) (path_to_fs_el s)) s.

Definition FS_close (path : list Z) (s : FS) (v : vol D) : outcome (Z * FS * vol D) :=
  do fil := get_fil path s in
  do (r, v) := call (f_close Qemu.get_fattime fil) v in
  Done (fr_code r.1, set_elements (map_erase path (path_to_fs_el s)) s, v).

(** The bytes to write are [buf]; the result is an [int]. *)
Definition FS_write (path buf : list Z) (count : Z) (s : FS) (v : vol D) : outcome (Z * FS * vol D) :=
  do fil := get_fil path s in
  do (r, v) := call (f_write fil buf (u32 count)) v in
  let '(fr, n, fil) := r in
  Done (if fr_ok fr then s32 n else -1, set_fil path fil s, v).

(** The bytes read are returned beside the result. *)
Definition FS_read (path : list Z) (count : Z) (s : FS) (v : vol D)
    : outcome (Z * list Z * FS * vol D) :=
  do fil := get_fil path s in
  do (r, v) := call (f_read fil (u32 count)) v in
  let '(fr, bs, fil) := r in
  Done (if fr_ok fr then s32 (zlen bs) else -1, bs, set_fil path fil s, v).

Definition FS_lseek (path : list Z) (offset whence : Z) (s : FS) (v : vol D)
    : outcome (Z * FS * vol D) :=
  do fil := get_fil path s in
  let offset := if whence =? 1 then u64 (offset + fptr fil)
                else if whence =? 2 then u64 (offset + objsize (fobj fil)) else offset in
  do (r, v) := call (f_lseek fil (u32 offset)) v in
  let '(fr, fil) := r in
  Done (if fr_ok fr then s32 (fptr fil) else -1, set_fil path fil s, v).

Definition FS_unlink (path : list Z) (s : FS) (v : vol D) : outcome (Z * FS * vol D) :=
  do (fr, v) := call (f_unlink path) v in Done (fr_code fr, s, v).

Definition FS_mkdir (path : list Z) (flags : Z) (s : FS) (v : vol D) : outcome (Z * FS * vol D) :=
  do (fr, v) := call (f_mkdir Qemu.get_fattime path) v in Done (fr_code fr, s, v).

Definition fatfs_mode_to_posix_mode (mode : Z) : Z :=
  if zbits mode AM_DIR then S_IFDIR else S_IFREG.

(** The uninitialised [fileInfo] is [info]; [stat] is only written on success. *)
Definition FS_fstat (path : list Z) (info : FILINFO) (stat : kstat) (s : FS) (v : vol D)
    : outcome (Z * kstat * FS * vol D) :=
  do (r, v) := call (f_stat path (Some info)) v in
  let '(fr, fileInfo) := r in
  match fileInfo with
  | Some i =>
      if negb (fr_ok fr) then Done (-1, stat, s, v) else
      Done (0, mkKstat 0 0 (fatfs_mode_to_posix_mode (fi_fattrib i)) 0 (st_uid stat) (st_gid stat)
                 (st_rdev stat) (fi_fsize i) (st_blksize stat) (st_blocks stat)
                 (fi_ftime i) (fi_ftime i) (fi_ftime i) (fi_ftime i) (fi_ftime i) (fi_ftime i), s, v)
  | None => Wild
  end.

(** The entry that [read_dir] stores in its buffer. *)
Definition dir_info (fno : FILINFO) : DirInfo :=
  mkDirInfo (fi_fsize fno) (fi_fdate fno) (fi_ftime fno)
    (if zbits (fi_fattrib fno) AM_DIR then S_IFDIR else S_IFREG) (fi_fname fno).

(** The reading part of [read_dir], on the buffer [buff]. *)
Definition read_entry (d : DIR) (fno : FILINFO) (buff : DirInfo) (s : FS) (v : vol D)
    : outcome (Z * DirInfo * FS * vol D) :=
  do (r, v) := call (f_readdir d (Some fno)) v in
  let '(fr, d, info) := r in
  match info with
  | Some i =>
      if negb (fr_ok fr) || (zget (fi_fname i) 0 =? 0) then
        do (r, v) := call (f_closedir d) v in
        Done (0, buff, mkFS (path_to_fs_el s) r.2 false (LastOpenedFile s), v)
      else Done (1, dir_info i, mkFS (path_to_fs_el s) d (has_last_dir s) (LastOpenedFile s), v)
  | None => Wild
  end.

(** [fno] is the uninitialised local object. *)
Definition FS_read_dir (path : list Z) (new_request : Z) (fno : FILINFO) (buff : DirInfo) (s : FS) (v : vol D)
    : outcome (Z * DirInfo * FS * vol D) :=
  if negb (has_last_dir s) || ztrue new_request then
    do (d, v) := (if has_last_dir s then do (r, v) := call (f_closedir (last_dir s)) v in Done (r.2, v)
                  else Done (last_dir s, v)) in
    do (r, v) := call (f_opendir d path) v in
    let '(fr, d) := r in
    if negb (fr_ok fr) then
      do (r, v) := call (f_closedir d) v in
      Done (-1, buff, mkFS (path_to_fs_el s) r.2 true (LastOpenedFile s), v)
    else read_entry d fno buff (mkFS (path_to_fs_el s) d true (LastOpenedFile s)) v
  else read_entry (last_dir s) fno buff s v.

End fs.

(** * Properties *)

Section theorems.
Context {D : Type} {BD : BlockDevice D} {BL : BlockDeviceLaws D}.
Implicit Types v : vol D.

Lemma s32_id x : 0 <= x < 2 ^ 31 → s32 x = x.
Proof. intros H. unfold s32. rewrite Z.mod_small; lia. Qed.

Lemma get_set_fil path f s : get_fil path (set_fil path f s) = Done f.
Proof. unfold get_fil, set_fil. simpl. by rewrite map_get_put_eq. Qed.

(** Other paths keep their objects. *)
Lemma get_set_fil_ne path path' f s : path' ≠ path → get_fil path' (set_fil path f s) = get_fil path' s.
Proof. intros H. unfold get_fil, set_fil, map_get. simpl. by rewrite map_find_put, decide_False. Qed.

(** Through the kernel's adapter, a file written under its path, rewound
    with [lseek] and read again gives the bytes that were written, with their
    number as result of both calls; files open under other paths keep their
    state. *)
Theorem fs_write_lseek_read path s v fp l buf count :
  get_fil path s = Done fp → wf v → reliable v → sane v → valid_fil v fp → fil_ok v fp l →
  zbits (flag fp) FA_WRITE = true → zbits (flag fp) FA_READ = true →
  bytes buf → 0 <= count < 2 ^ 31 → count <= zlen buf → fptr fp + count < 2 ^ 31 →
  ∃ n s1 v1 s2 v2 s3 v3,
    FS_write path buf count s v = Done (n, s1, v1) ∧
    FS_lseek path (fptr fp) 0 s1 v1 = Done (fptr fp, s2, v2) ∧
    FS_read path n s2 v2 = Done (n, zread buf 0 n, s3, v3) ∧
    0 <= n <= count ∧ (n < count → full v1) ∧
    ∀ path', path' ≠ path → get_fil path' s3 = get_fil path' s.
Proof.
  intros Hget Hwf HR Hs Hval Hok Hw Hr Hb Hc Hlen Hfit. pose proof (fo_ptr _ _ _ Hok) as Hp.
  destruct (write_seek_read v fp l buf count) as (n & fp1 & v1 & fp2 & v2 & fp3 & v3 & E1 & E2 & E3 & Hn & Hfull);
    auto; [lia|].
  destruct (f_write_spec v fp l buf count) as (n' & fp1' & v1' & l1 & E1' & P & Hval1); auto; [lia|].
  rewrite E1 in E1'. injection E1' as <- <- <-. pose proof P as [_ _ W P4 _ P6 _ _ _ _ _].
  pose proof (reliable_veqx _ _ _ (wo_veqx _ _ _ _ _ _ _ _ W) HR) as HR1.
  destruct (f_lseek_spec v1 fp1 l1 (fptr fp) (wo_wf _ _ _ _ _ _ _ _ W) HR1 Hval1 P4)
    as (fp2' & v2' & E2' & _ & _ & _ & F1 & _).
  { lia. }
  rewrite E2 in E2'. injection E2' as <- <-.
  exists n, (set_fil path fp1 s), v1, (set_fil path fp2 (set_fil path fp1 s)), v2.
  eexists _, v3. unfold FS_write, FS_lseek, FS_read, call. rewrite Hget. cbn [obind].
  rewrite (u32_small count) by lia. rewrite E1. cbn [obind fr_ok]. rewrite s32_id by lia.
  split; [done|]. rewrite get_set_fil. cbn [obind Z.eqb]. rewrite u32_small, E2 by lia. cbn [obind fr_ok].
  rewrite F1, s32_id by lia. split; [done|]. rewrite get_set_fil. cbn [obind].
  rewrite u32_small, E3 by lia. cbn [obind fr_ok].
  assert (zlen (zread buf 0 n) = n) as Hz
    by (unfold zlen at 1; rewrite zread_length by lia; lia).
  rewrite Hz, s32_id by lia. split; [done|]. split; [lia|]. split.
  - intros Hlt. apply Hfull. lia.
  - intros path' Hne. by rewrite !get_set_fil_ne.
Qed.
End theorems.

(** The file of [FfExample] open under the path "/a". *)
Definition ex_fs_state : FS :=
  mkFS [([47; 97], mkFsElement (DataFil ex_fil) true)] zero_dir false None.

Lemma fs_write_lseek_read_witness :
  ∃ n s1 v1 s2 v2 s3 v3,
    FS_write [47; 97] [1; 2; 3] 3 ex_fs_state ex_vol = Done (n, s1, v1) ∧
    FS_lseek [47; 97] (fptr ex_fil) 0 s1 v1 = Done (fptr ex_fil, s2, v2) ∧
    FS_read [47; 97] n s2 v2 = Done (n, zread [1; 2; 3] 0 n, s3, v3).
Proof.
  destruct (fs_write_lseek_read [47; 97] ex_fs_state ex_vol ex_fil ex_chain [1; 2; 3] 3 eq_refl ex_wf ex_reliable
    ex_sane ex_valid_fil ex_fil_ok eq_refl eq_refl) as (n & s1 & v1 & s2 & v2 & s3 & v3 & E1 & E2 & E3 & _).
  - repeat constructor; unfold is_byte; lia.
  - lia.
  - unfold zlen. simpl. lia.
  - change (fptr ex_fil) with 0. lia.
  - exists n, s1, v1, s2, v2, s3, v3. exact (conj E1 (conj E2 E3)).
Defined.
