(* ===== verification/KFd.v ===== *)
(** Reference counted files (lib/stl/RefCountPtr.h) and the table of file
    descriptors (kernel/fs/file_describer.h).

    The table is shared by all processes.  A descriptor holds a counted
    reference to an opened file; when the last reference goes, the file is
    closed in the file system, which is known by the interface [FileSystem]. *)
From Stdlib Require Import ZArith Lia.
From stdpp Require Import base list numbers option gmap relations.
From S2P Require Import Prelude KBase KPipe.

Local Open Scope Z_scope.
Local Open Scope out_scope.

(** The calls of [VFS] that descriptors use, on a state [W]. *)
Class FileSystem (W : Type) : Type := {
  fs_open : list Z → Z → W → outcome (Z * W);
  fs_close : list Z → W → outcome (Z * W)
}.

Inductive FILE_ACCESS_TYPE : Type := READ | WRITE | RW.

(** [AtomicCount] with the [OpenedFile] that it owns. *)
Record AtomicCount : Type := mkCount { path_ : list Z; count_ : Z }.

(** [file_] is the address of the count. *)
Record FileDescriber : Type := mkDescriber {
  file_access_type_ : FILE_ACCESS_TYPE;
  file_ : positive;
  fd_ref_count_ : Z;
  is_pipe_ : bool
}.

(** Every describer belongs to one slot; the files are shared. *)
Record FdTable : Type := mkTable {
  fd_array : list (option FileDescriber);
  open_files : gmap positive AtomicCount;
  fd_pipe_count : Z
}.

Definition set_slot (fd : Z) (d : option FileDescriber) (t : FdTable) : FdTable :=
  mkTable (<[Z.to_nat fd := d]> (fd_array t)) (open_files t) (fd_pipe_count t).

Definition set_files (m : gmap positive AtomicCount) (t : FdTable) : FdTable :=
  mkTable (fd_array t) m (fd_pipe_count t).

Section fd.
Context {W : Type} {FSys : FileSystem W}.
Implicit Types (t : FdTable) (w : W) (m : gmap positive AtomicCount).

(** * RefCountPtr *)

(** [RefCountPtr(new OpenedFile(path))]. *)
Definition new_file (path : list Z) m : positive * gmap positive AtomicCount :=
  let a := fresh (dom m) in (a, <[a := mkCount path 1]> m).

(** Counts are bounded by the describers on the kernel heap, far below the
    range of [int]. *)
Definition increase (a : positive) m : outcome (gmap positive AtomicCount) :=
  match m !! a with
  | Some c => Done (<[a := mkCount (path_ c) (count_ c + 1)]> m)
  | None => Wild
  end.

(** [~OpenedFile]. *)
Definition close_file (path : list Z) w : outcome W :=
  match path with
  | [] => Done w
  | _ => do (_, w) := fs_close path w in Done w
  end.

(** [decrease] with [release]. *)
Definition decrease (a : positive) m w : outcome (gmap positive AtomicCount * W) :=
  match m !! a with
  | None => Wild
  | Some c =>
      let n := count_ c - 1 in
      if n =? 0 then do w := close_file (path_ c) w in Done (delete a m, w)
      else Done (<[a := mkCount (path_ c) n]> m, w)
  end.

(** * Descriptors *)

(** [new FileDescriber(file, type, count)]. *)
Definition new_describer (a : positive) (type : FILE_ACCESS_TYPE) (count : Z) m
    : outcome (FileDescriber * gmap positive AtomicCount) :=
  do m := increase a m in Done (mkDescriber type a count false, m).

(** [fd_array[fd]]. *)
Definition slot (fd : Z) t : outcome (option FileDescriber) :=
  if fd <? 0 then Wild
  else match fd_array t !! Z.to_nat fd with Some d => Done d | None => Wild end.

Definition Check (fd : Z) t : outcome unit :=
  if (fd <? 0) || (FILE_DESCRIBER_ARRAY_LENGTH <? fd) then Panic
  else do d := slot fd t in match d with Some _ => Panic | None => Done tt end.

Definition Exists (fd : Z) t : outcome bool :=
  do d := slot fd t in Done (match d with Some _ => true | None => false end).

(** [DecreaseCount] is written out; [delete] drops the reference to the file. *)
Definition Erase (fd : Z) t w : outcome (FdTable * W) :=
  if fd =? 1 then Done (t, w)
  else
    do d := slot fd t in
    match d with
    | None => Done (t, w)
    | Some d =>
        let n := fd_ref_count_ d - 1 in
        let t := set_slot fd (Some (mkDescriber (file_access_type_ d) (file_ d) n (is_pipe_ d))) t in
        if n <=? 0 then
          do (m, w) := decrease (file_ d) (open_files t) w in
          Done (set_slot fd None (set_files m t), w)
        else Done (t, w)
    end.

Definition InitializeFileDescriber t w : outcome (FdTable * W) :=
  let arr := replicate (Z.to_nat FILE_DESCRIBER_ARRAY_LENGTH) None in
  let '(stdout, m) := new_file [47; 100; 101; 118; 47; 99; 111; 110; 115; 111; 108; 101] (open_files t) in
  let '(stdin, m) := new_file [] m in
  do (d0, m) := new_describer stdin READ 1 m in
  do (d1, m) := new_describer stdout WRITE 1 m in
  do (d2, m) := new_describer stdout WRITE 1 m in
  let t := set_slot 2 (Some d2) (set_slot 1 (Some d1) (set_slot 0 (Some d0) (mkTable arr m 0))) in
  do (m, w) := decrease stdin (open_files t) w in
  do (m, w) := decrease stdout m w in
  Done (set_files m t, w).

Definition OpenNewFile (path : list Z) (flag fd : Z) t w : outcome (Z * FdTable * W) :=
  do (res, w) := fs_open path flag w in
  if res =? 0 then
    let '(file, m) := new_file path (open_files t) in
    do _ := Check fd t in
    do (d, m) := new_describer file RW 1 m in
    do (m, w) := decrease file m w in
    Done (res, set_slot fd (Some d) (set_files m t), w)
  else Done (res, t, w).

(** The function has no [return] on its normal path. *)
Definition TryCloseFile (fd : Z) t w : outcome (FdTable * W) :=
  do e := Exists fd t in
  if negb e then Panic else Erase fd t w.

(** The file of a descriptor: its address and its path. *)
Definition GetFile (fd : Z) t : outcome (positive * list Z) :=
  if (fd <? 0) || (FILE_DESCRIBER_ARRAY_LENGTH <? fd) then Panic
  else
    do d := slot fd t in
    match d with
    | None => Panic
    | Some d => match open_files t !! file_ d with Some c => Done (file_ d, path_ c) | None => Wild end
    end.

Definition CopyFd (source_fd target_fd : Z) t w : outcome (FdTable * W) :=
  do e := Exists source_fd t in
  if negb e then Panic
  else
    do e := Exists target_fd t in
    do (t, w) := (if e then Erase target_fd t w else Done (t, w)) in
    do d := slot source_fd t in
    match d with
    | None => Wild
    | Some d =>
        do (d', m) := new_describer (file_ d) (file_access_type_ d) 1 (open_files t) in
        Done (set_slot target_fd (Some d') (set_files m t), w)
    end.

(** The search from [i] on, with [k] slots to go. *)
Fixpoint find_unused (k : nat) (i : Z) t : outcome Z :=
  match k with
  | O => Panic
  | S k => do e := Exists i t in if negb e then Done i else find_unused k (i + 1) t
  end.

Definition FindUnUsedFd t : outcome Z := find_unused (Z.to_nat FILE_DESCRIBER_ARRAY_LENGTH) 0 t.

Definition FindUnusedFdBiggerOrEqual (given_fd : Z) t : outcome Z :=
  find_unused (Z.to_nat (FILE_DESCRIBER_ARRAY_LENGTH - given_fd)) given_fd t.

Definition MarkPipe (d : FileDescriber) : FileDescriber :=
  mkDescriber (file_access_type_ d) (file_ d) (fd_ref_count_ d) true.

(** The two descriptors of the pipe are returned. *)
Definition CreatePipe (flag : Z) t (ps : Pipes) w : outcome (Z * Z * FdTable * Pipes * W) :=
  do read_fd := FindUnUsedFd t in
  do write_fd := FindUnusedFdBiggerOrEqual (read_fd + 1) t in
  let '(file, m) := new_file [] (open_files t) in
  do (d1, m) := new_describer file RW 999 m in
  do (d2, m) := new_describer file RW 999 m in
  let t := set_slot write_fd (Some (MarkPipe d2)) (set_slot read_fd (Some (MarkPipe d1)) (set_files m t)) in
  do ps := OpenPipe read_fd write_fd ps in
  do (m, w) := decrease file (open_files t) w in
  Done (read_fd, write_fd, set_files m t, ps, w).

(** * References and counts *)

Definition ind (a b : positive) : Z := if decide (a = b) then 1 else 0.

Definition ref1 (a : positive) (d : option FileDescriber) : Z :=
  match d with Some d => ind a (file_ d) | None => 0 end.

(** The descriptors that refer to the file [a], and its count. *)
Definition refs (a : positive) (arr : list (option FileDescriber)) : Z := foldr (λ d n, ref1 a d + n) 0 arr.
Definition cnt (a : positive) m : Z := match m !! a with Some c => count_ c | None => 0 end.

(** Counts are positive and cover the references; a descriptor that is
    overwritten without being dropped leaves its count behind. *)
Record fd_ok (t : FdTable) : Prop := mkFdOk {
  fd_len : length (fd_array t) = Z.to_nat FILE_DESCRIBER_ARRAY_LENGTH;
  fd_cover a : refs a (fd_array t) <= cnt a (open_files t);
  fd_live a c : open_files t !! a = Some c → 1 <= count_ c;
  fd_refs i d : fd_array t !! i = Some (Some d) → 1 <= fd_ref_count_ d
}.

Lemma ref1_nonneg a d : 0 <= ref1 a d.
Proof. destruct d as [d|]; simpl; unfold ind; [case_decide|]; lia. Qed.

Lemma refs_nonneg a arr : 0 <= refs a arr.
Proof. induction arr as [|d arr IH]; simpl; [done|]. pose proof (ref1_nonneg a d). lia. Qed.

Lemma refs_insert a arr : ∀ i old d,
  arr !! i = Some old → refs a (<[i := d]> arr) = refs a arr - ref1 a old + ref1 a d.
Proof.
  induction arr as [|e arr IH]; intros [|i] old d H; simpl in *; simplify_eq; [lia|].
  rewrite (IH _ _ _ H). lia.
Qed.

Lemma refs_lookup a arr : ∀ i d, arr !! i = Some d → ref1 a d <= refs a arr.
Proof.
  induction arr as [|e arr IH]; intros [|i] d H; simpl in *; simplify_eq.
  - pose proof (refs_nonneg a arr). lia.
  - pose proof (ref1_nonneg a e). specialize (IH _ _ H). lia.
Qed.

Lemma refs_two a arr : ∀ i j d e,
  i ≠ j → arr !! i = Some d → arr !! j = Some e → ref1 a d + ref1 a e <= refs a arr.
Proof.
  intros i j d e Hne Hi Hj. assert (<[i := None]> arr !! j = Some e) as Hj' by (by rewrite list_lookup_insert_ne).
  apply (refs_lookup a) in Hj'. rewrite (refs_insert _ _ _ _ _ Hi) in Hj'. simpl in Hj'. lia.
Qed.

Lemma ind_eq a : ind a a = 1.
Proof. unfold ind. by rewrite decide_True. Qed.

Lemma ind_ne a b : a ≠ b → ind a b = 0.
Proof. intros H. unfold ind. by rewrite decide_False. Qed.

Lemma cnt_insert a b c m : cnt a (<[b := c]> m) = if decide (a = b) then count_ c else cnt a m.
Proof.
  unfold cnt. case_decide as H; [subst; by rewrite lookup_insert_eq|]. by rewrite lookup_insert_ne.
Qed.

Lemma cnt_delete a b m : cnt a (delete b m) = if decide (a = b) then 0 else cnt a m.
Proof.
  unfold cnt. case_decide as H; [subst; by rewrite lookup_delete_eq|]. by rewrite lookup_delete_ne.
Qed.

(** All files of [m'] are those of [m], and live. *)
Definition live m : Prop := ∀ a c, m !! a = Some c → 1 <= count_ c.
Definition same_paths m m' : Prop := ∀ a c, m' !! a = Some c → ∃ c0, m !! a = Some c0 ∧ path_ c0 = path_ c.

Lemma increase_spec a m :
  live m → 1 <= cnt a m →
  ∃ m', increase a m = Done m' ∧ live m' ∧ (∀ b, cnt b m' = cnt b m + ind b a) ∧ same_paths m m' ∧
    ∀ b, b ≠ a → m' !! b = m !! b.
Proof.
  intros Hl Hc. unfold increase, cnt in *. destruct (m !! a) as [c|] eqn:E; [|lia].
  eexists. split; [done|]. split_and!.
  - intros b c' H. apply lookup_insert_Some in H as [[<- <-]|[_ H]]; [simpl; lia|by eapply Hl].
  - intros b. fold (cnt b (<[a := mkCount (path_ c) (count_ c + 1)]> m)). rewrite cnt_insert. unfold ind, cnt.
    case_decide; [subst; by rewrite E|lia].
  - intros b c' H. apply lookup_insert_Some in H as [[<- <-]|[_ H]]; eauto.
  - intros b Hb. by rewrite lookup_insert_ne.
Qed.

Lemma decrease_spec a m w m' w' :
  live m → decrease a m w = Done (m', w') →
  live m' ∧ (∀ b, cnt b m' = cnt b m - ind b a) ∧ same_paths m m' ∧
  (∀ b, b ≠ a → m' !! b = m !! b) ∧ (2 <= cnt a m → w' = w).
Proof.
  intros Hl H. unfold decrease in H. destruct (m !! a) as [c|] eqn:E; [|done]. pose proof (Hl _ _ E) as Hc.
  destruct (Z.eqb_spec (count_ c - 1) 0) as [H0|H0].
  - apply obind_done in H as (w1 & _ & [= <- <-]). split_and!.
    + intros b c'. rewrite lookup_delete_Some. intros [_ Hb]. eauto.
    + intros b. rewrite cnt_delete. unfold ind. case_decide; [subst; unfold cnt; rewrite E; lia|lia].
    + intros b c'. rewrite lookup_delete_Some. intros [_ Hb]. eauto.
    + intros b Hb. by rewrite lookup_delete_ne.
    + unfold cnt. rewrite E. lia.
  - injection H as <- <-. split_and!; [| | | |done].
    + intros b c' H. apply lookup_insert_Some in H as [[<- <-]|[_ H]]; [simpl; lia|by eapply Hl].
    + intros b. rewrite cnt_insert. unfold ind. case_decide; [subst; unfold cnt; rewrite E; simpl; lia|lia].
    + intros b c' H. apply lookup_insert_Some in H as [[<- <-]|[_ H]]; eauto.
    + intros b Hb. by rewrite lookup_insert_ne.
Qed.

(** Two or more references: dropping one is a matter of the count. *)
Lemma decrease_shared a m w :
  2 <= cnt a m → ∃ m', decrease a m w = Done (m', w).
Proof.
  intros H. unfold decrease, cnt in *. destruct (m !! a) as [c|]; [|lia].
  rewrite (proj2 (Z.eqb_neq _ _)) by lia. eauto.
Qed.

Lemma slot_lookup fd t d : slot fd t = Done d → 0 <= fd ∧ fd_array t !! Z.to_nat fd = Some d.
Proof.
  unfold slot. destruct (Z.ltb_spec fd 0); [done|]. destruct (fd_array t !! Z.to_nat fd) eqn:E; [|done].
  intros [= <-]. by split.
Qed.

Lemma lookup_slot fd t d : 0 <= fd → fd_array t !! Z.to_nat fd = Some d → slot fd t = Done d.
Proof. intros H E. unfold slot. rewrite (proj2 (Z.ltb_ge _ _)) by lia. by rewrite E. Qed.

(** * Preservation *)

Lemma cover_lookup t fd d : fd_ok t → slot fd t = Done (Some d) → 1 <= cnt (file_ d) (open_files t).
Proof.
  intros Hok [_ E]%slot_lookup. apply (refs_lookup (file_ d)) in E. simpl in E. rewrite ind_eq in E.
  pose proof (fd_cover _ Hok (file_ d)). lia.
Qed.

Lemma set_slot_ok t m fd old d :
  fd_ok t → slot fd t = Done old → live m →
  (∀ b, refs b (fd_array t) - ref1 b old + ref1 b d <= cnt b m) →
  (∀ e, d = Some e → 1 <= fd_ref_count_ e) →
  fd_ok (set_slot fd d (set_files m t)).
Proof.
  intros [H1 H2 H3 H4] [Hfd E]%slot_lookup Hl Hc Hr. split; simpl.
  - by rewrite length_insert.
  - intros a. by rewrite (refs_insert _ _ _ _ _ E).
  - exact Hl.
  - intros i e Hi. destruct (decide (i = Z.to_nat fd)) as [->|Hne].
    + rewrite list_lookup_insert_eq in Hi by (by eapply lookup_lt_Some). simplify_eq. by apply Hr.
    + rewrite list_lookup_insert_ne in Hi by done. by eapply H4.
Qed.

(** Slots other than [fd] are untouched, and files keep their paths. *)
Definition only_slot (fd : Z) t t' : Prop :=
  same_paths (open_files t) (open_files t') ∧ ∀ fd', fd' ≠ fd → slot fd' t' = slot fd' t.

Lemma same_paths_refl m : same_paths m m.
Proof. intros a c H. eauto. Qed.

Lemma same_paths_trans m m1 m2 : same_paths m m1 → same_paths m1 m2 → same_paths m m2.
Proof. intros H1 H2 a c H. apply H2 in H as (c1 & H & <-). by apply H1 in H as (c0 & H & <-); eauto. Qed.

Lemma slot_set_ne fd fd' d t m : 0 <= fd → fd' ≠ fd → slot fd' (set_slot fd d (set_files m t)) = slot fd' t.
Proof.
  intros Hfd Hne. unfold slot. destruct (Z.ltb_spec fd' 0); [done|]. simpl. by rewrite list_lookup_insert_ne by lia.
Qed.

Lemma slot_set_eq fd old d t m : slot fd t = Done old → slot fd (set_slot fd d (set_files m t)) = Done d.
Proof.
  intros [Hfd E]%slot_lookup. apply lookup_slot; [done|]. simpl. rewrite list_lookup_insert_eq; [done|].
  by eapply lookup_lt_Some.
Qed.

(** The file of a descriptor that an operation leaves alone. *)
Lemma get_file_kept fd t t' fd' :
  fd_ok t → fd_ok t' → only_slot fd t t' → fd' ≠ fd → GetFile fd' t' = GetFile fd' t.
Proof.
  intros Hok Hok' [Hp Hs] Hne. unfold GetFile. destruct (_ || _); [done|]. rewrite Hs by done.
  destruct (slot fd' t) as [[d|]| | |] eqn:E; try done. cbn [obind].
  pose proof (cover_lookup t' fd' d Hok') as C'. rewrite Hs in C' by done. specialize (C' E). unfold cnt in C'.
  destruct (open_files t' !! file_ d) as [c|] eqn:E'; [|lia]. apply Hp in E' as (c0 & -> & ->). done.
Qed.

Lemma Erase_ok fd t w t' w' :
  fd_ok t → Erase fd t w = Done (t', w') → fd_ok t' ∧ only_slot fd t t'.
Proof.
  intros Hok H. unfold Erase in H. destruct (fd =? 1).
  { injection H as <- <-. split; [done|]. split; [apply same_paths_refl|done]. }
  apply obind_done in H as (d & E & H). destruct d as [d|]; [|injection H as <- <-; split; [done|]; split; [apply same_paths_refl|done]].
  pose proof (slot_lookup _ _ _ E) as [Hfd Hl]. pose proof (fd_refs _ Hok _ _ Hl) as Hr.
  set (d' := mkDescriber (file_access_type_ d) (file_ d) (fd_ref_count_ d - 1) (is_pipe_ d)) in *.
  destruct (Z.leb_spec (fd_ref_count_ d - 1) 0).
  - apply obind_done in H as ([m w1] & Ed & [= <- <-]). change (open_files (set_slot fd (Some d') t)) with (open_files t) in Ed.
    destruct (decrease_spec _ _ _ _ _ (fd_live _ Hok) Ed) as (L & C & P & K & _).
    replace (set_slot fd None (set_files m (set_slot fd (Some d') t))) with (set_slot fd None (set_files m t))
      by (unfold set_slot, set_files; simpl; by rewrite list_insert_insert_eq).
    split; [|split; [done|intros; by apply slot_set_ne]]. apply (set_slot_ok t m fd (Some d)); auto; [|done].
    intros b. rewrite C. pose proof (fd_cover _ Hok b). simpl. lia.
  - injection H as <- <-. replace (set_slot fd (Some d') t) with (set_slot fd (Some d') (set_files (open_files t) t)) by (by destruct t).
    split; [|split; [apply same_paths_refl|intros; by apply slot_set_ne]].
    apply (set_slot_ok t _ fd (Some d)); auto; [exact (fd_live _ Hok)| |].
    + intros b. pose proof (fd_cover _ Hok b). simpl. lia.
    + intros e [= <-]. simpl. lia.
Qed.

Lemma CopyFd_ok a b t w t' w' :
  fd_ok t → CopyFd a b t w = Done (t', w') → fd_ok t' ∧ only_slot b t t'.
Proof.
  intros Hok H. unfold CopyFd in H. apply obind_done in H as (e & _ & H). destruct e; [|done]. cbn [negb] in H.
  apply obind_done in H as (e & Hb & H). apply obind_done in H as ([t1 w1] & E1 & H).
  assert (fd_ok t1 ∧ only_slot b t t1) as [Hok1 [P1 S1]].
  { destruct e; [by eapply Erase_ok|]. injection E1 as <- <-. split; [done|]. split; [apply same_paths_refl|done]. }
  apply obind_done in H as (d & Ed & H). destruct d as [d|]; [|done].
  apply obind_done in H as ([d' m] & En & [= <- <-]). unfold new_describer in En.
  destruct (increase_spec (file_ d) (open_files t1) (fd_live _ Hok1) (cover_lookup _ _ _ Hok1 Ed)) as (m1 & Ei & L & C & P & _).
  rewrite Ei in En. injection En as <- <-.
  assert (∃ old, slot b t1 = Done old) as [old Hold].
  { unfold Exists in Hb. apply obind_done in Hb as (old & Hb & _). apply slot_lookup in Hb as [Hb0 Hb].
    destruct (lookup_lt_is_Some_2 (fd_array t1) (Z.to_nat b)) as [o Ho].
    - apply lookup_lt_Some in Hb. rewrite (fd_len _ Hok1). by rewrite <- (fd_len _ Hok).
    - exists o. by apply lookup_slot. }
  pose proof (slot_lookup _ _ _ Hold) as [Hb0 _]. split.
  - apply (set_slot_ok t1 m1 b old); auto; [|by intros e0 [= <-]].
    intros x. rewrite C. pose proof (fd_cover _ Hok1 x). pose proof (ref1_nonneg x old). simpl. lia.
  - split; [by eapply same_paths_trans|]. intros fd' Hne. rewrite slot_set_ne by done. by apply S1.
Qed.

(** A new file held by one descriptor. *)
Lemma fresh_file m : m !! fresh (dom m) = None.
Proof. apply not_elem_of_dom, is_fresh. Qed.

Lemma increase_insert a p n m : increase a (<[a := mkCount p n]> m) = Done (<[a := mkCount p (n + 1)]> m).
Proof. unfold increase. by rewrite lookup_insert_eq, insert_insert_eq. Qed.

Lemma decrease_insert a p n m w :
  n ≠ 1 → decrease a (<[a := mkCount p n]> m) w = Done (<[a := mkCount p (n - 1)]> m, w).
Proof.
  intros Hn. unfold decrease. rewrite lookup_insert_eq. simpl. rewrite (proj2 (Z.eqb_neq _ _)) by lia.
  by rewrite insert_insert_eq.
Qed.

Lemma live_insert a p n m : live m → 1 <= n → live (<[a := mkCount p n]> m).
Proof. intros Hl Hn b c [[<- <-]|[_ H]]%lookup_insert_Some; [done|by eapply Hl]. Qed.

Lemma cnt_new a p n m b : m !! a = None → cnt b (<[a := mkCount p n]> m) = cnt b m + n * ind b a.
Proof.
  intros Ha. rewrite cnt_insert. unfold ind. case_decide; [subst; unfold cnt; rewrite Ha; simpl; lia|lia].
Qed.

Lemma Check_free fd t u : Check fd t = Done u → slot fd t = Done None.
Proof.
  unfold Check. destruct (_ || _); [done|]. intros (d & E & H)%obind_done. by destruct d.
Qed.

(** Opening: the descriptor names the path, the others keep their files. *)
Lemma OpenNewFile_spec path flag fd t w r t' w' :
  fd_ok t → OpenNewFile path flag fd t w = Done (r, t', w') →
  fs_open path flag w = Done (r, w') ∧ fd_ok t' ∧
  (r ≠ 0 → t' = t) ∧
  (r = 0 → slot fd t = Done None ∧ (∃ a, GetFile fd t' = Done (a, path) ∧ cnt a (open_files t') = 1) ∧
           ∀ fd', fd' ≠ fd → GetFile fd' t' = GetFile fd' t).
Proof.
  intros Hok H. unfold OpenNewFile in H. apply obind_done in H as ([r0 w0] & Eo & H).
  destruct (Z.eqb_spec r0 0) as [->|Hr]; [|injection H as <- <- <-; naive_solver].
  cbn [new_file] in H. set (m := open_files t) in *. set (a := fresh (dom m)) in *. pose proof (fresh_file m : m !! a = None) as Ha.
  apply obind_done in H as (u & Hc%Check_free & H).
  unfold new_describer in H. rewrite increase_insert in H. cbn [obind] in H. rewrite decrease_insert in H by lia.
  injection H as <- <- <-. split; [done|]. pose proof (slot_lookup _ _ _ Hc) as [Hfd Hl].
  assert (fd_ok (set_slot fd (Some (mkDescriber RW a 1 false)) (set_files (<[a:=mkCount path (1 + 1 - 1)]> m) t))) as Hok'.
  { apply (set_slot_ok t _ fd None); auto; [apply live_insert; [exact (fd_live _ Hok)|done]| |by intros e [= <-]].
    intros b. rewrite cnt_new by done. pose proof (fd_cover _ Hok b). simpl. unfold m. lia. }
  split; [done|]. split; [done|]. intros _. split; [done|]. split.
  - exists a. unfold GetFile. apply lookup_lt_Some in Hl. rewrite (fd_len _ Hok) in Hl. unfold FILE_DESCRIBER_ARRAY_LENGTH in *.
    rewrite (proj2 (Z.ltb_ge _ _)), (proj2 (Z.ltb_ge _ _)) by lia. cbn [orb].
    rewrite (slot_set_eq _ _ _ _ _ Hc). cbn [obind set_slot set_files open_files file_].
    rewrite lookup_insert_eq. split; [done|]. rewrite cnt_insert. by rewrite decide_True.
  - intros fd' Hne. unfold GetFile. destruct (_ || _); [done|]. rewrite slot_set_ne by done.
    destruct (slot fd' t) as [[d|]| | |] eqn:E; try done. cbn [obind set_slot set_files open_files].
    rewrite lookup_insert_ne; [done|]. intros Hd. pose proof (cover_lookup _ _ _ Hok E) as Hc'. unfold cnt in Hc'.
    rewrite <- Hd in Hc'. fold m in Hc'. rewrite Ha in Hc'. lia.
Qed.

Lemma find_unused_spec k t : ∀ i r,
  find_unused k i t = Done r → i <= r < i + Z.of_nat k ∧ slot r t = Done None ∧
    ∀ j, i <= j < r → ∃ d, slot j t = Done (Some d).
Proof.
  induction k as [|k IH]; intros i r H; [done|]. cbn [find_unused] in H.
  apply obind_done in H as (e & He & H). unfold Exists in He. apply obind_done in He as (d & Ed & [= <-]).
  destruct d as [d|]; simpl in H.
  - apply IH in H as (H1 & H2 & H3). split; [lia|]. split; [done|]. intros j Hj.
    destruct (decide (j = i)) as [->|]; [eauto|]. apply H3. lia.
  - injection H as <-. split; [lia|]. split; [done|]. lia.
Qed.

Lemma CreatePipe_ok flag t ps w r0 r1 t' ps' w' :
  fd_ok t → CreatePipe flag t ps w = Done (r0, r1, t', ps', w') →
  fd_ok t' ∧ w' = w ∧ OpenPipe r0 r1 ps = Done ps' ∧ r0 < r1 ∧ slot r0 t = Done None ∧ slot r1 t = Done None.
Proof.
  intros Hok H. unfold CreatePipe in H. apply obind_done in H as (rd & (_ & Hrd & _)%find_unused_spec & H).
  apply obind_done in H as (wr & (Hlt & Hwr & _)%find_unused_spec & H).
  cbn [new_file] in H. set (m := open_files t) in *. set (a := fresh (dom m)) in *. pose proof (fresh_file m : m !! a = None) as Ha.
  unfold new_describer in H. rewrite increase_insert in H. cbn [obind] in H. rewrite increase_insert in H. cbn [obind] in H.
  apply obind_done in H as (ps1 & Hps & H). cbn [set_slot set_files open_files] in H. rewrite decrease_insert in H by lia.
  cbn [obind] in H. injection H as <- <- <- <- <-. split; [|split_and!; auto; lia].
  set (d1 := MarkPipe (mkDescriber RW a 999 false)).
  set (t1 := set_slot rd (Some d1) (set_files (<[a := mkCount [] (1 + 1 + 1 - 1)]> m) t)).
  assert (fd_ok t1) as Hok1.
  { apply (set_slot_ok t _ rd None); auto; [apply live_insert; [exact (fd_live _ Hok)|done]| |by intros e [= <-]].
    intros b. rewrite cnt_new by done. pose proof (fd_cover _ Hok b). simpl. unfold m, ind. case_decide; lia. }
  change (fd_ok (set_slot wr (Some d1) (set_files (<[a := mkCount [] (1 + 1 + 1 - 1)]> m) t1))).
  apply (set_slot_ok t1 _ wr None); auto.
  - pose proof (slot_lookup _ _ _ Hrd) as [H0 _]. unfold t1. by rewrite slot_set_ne by lia.
  - exact (fd_live _ Hok1).
  - intros b. rewrite cnt_new by done. unfold t1. cbn [set_slot set_files fd_array].
    apply slot_lookup in Hrd as [_ Hrd]. rewrite (refs_insert _ _ _ _ _ Hrd). pose proof (fd_cover _ Hok b). simpl. unfold m. lia.
  - by intros e [= <-].
Qed.

(** [CreatePipe] succeeds when two descriptors and a pipe are free. *)
Lemma CreatePipe_done flag t ps w r0 r1 ps' :
  FindUnUsedFd t = Done r0 → FindUnusedFdBiggerOrEqual (r0 + 1) t = Done r1 → OpenPipe r0 r1 ps = Done ps' →
  ∃ t' d, CreatePipe flag t ps w = Done (r0, r1, t', ps', w) ∧ is_pipe_ d = true ∧
    slot r0 t' = Done (Some d) ∧ slot r1 t' = Done (Some d).
Proof.
  intros H0 H1 Hp. pose proof H0 as (R0 & S0 & _)%find_unused_spec. pose proof H1 as (R1 & S1 & _)%find_unused_spec.
  unfold CreatePipe. rewrite H0. cbn [obind]. rewrite H1. cbn [obind new_file].
  set (m := open_files t). set (a := fresh (dom m)). unfold new_describer.
  rewrite increase_insert. cbn [obind]. rewrite increase_insert. cbn [obind]. rewrite Hp. cbn [obind set_slot set_files open_files].
  rewrite decrease_insert by lia. cbn [obind]. eexists _, (MarkPipe (mkDescriber RW a 999 false)). split; [done|]. split; [done|].
  set (m' := <[a := _]> m). set (d := MarkPipe _).
  assert (slot r1 (set_slot r0 (Some d) (set_files m' t)) = Done None) as S1' by (by rewrite slot_set_ne by lia).
  split.
  - change (slot r0 (set_slot r1 (Some d) (set_files m' (set_slot r0 (Some d) (set_files m' t)))) = Done (Some d)).
    rewrite slot_set_ne by lia. by apply (slot_set_eq _ None).
  - change (slot r1 (set_slot r1 (Some d) (set_files m' (set_slot r0 (Some d) (set_files m' t)))) = Done (Some d)).
    by apply (slot_set_eq _ None).
Qed.

Lemma decrease_ok a m w :
  live m → 2 <= cnt a m →
  ∃ m', decrease a m w = Done (m', w) ∧ live m' ∧ (∀ b, cnt b m' = cnt b m - ind b a).
Proof.
  intros Hl Hc. destruct (decrease_shared a m w Hc) as [m' E].
  destruct (decrease_spec _ _ _ _ _ Hl E) as (L & C & _). eauto.
Qed.

Lemma refs_empty a n : refs a (replicate n None) = 0.
Proof. induction n; simpl; lia. Qed.

Lemma empty_ok m : live m → fd_ok (mkTable (replicate (Z.to_nat FILE_DESCRIBER_ARRAY_LENGTH) None) m 0).
Proof.
  intros Hl. split; cbn [fd_array open_files].
  - apply length_replicate.
  - intros a. rewrite refs_empty. unfold cnt. destruct (m !! a) as [c|] eqn:E; [|done]. apply Hl in E. lia.
  - exact Hl.
  - intros i d [H _]%lookup_replicate_1. done.
Qed.

(** The table of the three standard descriptors. *)
Lemma std_table m a b :
  live m → (∀ x, ind x b + 2 * ind x a <= cnt x m) →
  fd_ok (set_slot 2 (Some (mkDescriber WRITE a 1 false)) (set_slot 1 (Some (mkDescriber WRITE a 1 false))
    (set_slot 0 (Some (mkDescriber READ b 1 false))
      (mkTable (replicate (Z.to_nat FILE_DESCRIBER_ARRAY_LENGTH) None) m 0)))).
Proof.
  intros L Hcov. assert (∀ x y, 0 <= ind x y) as Hi by (intros x y; unfold ind; case_decide; lia).
  pose proof (empty_ok m L) as K0.
  assert (∀ fd, 0 <= fd < 120 → slot fd (mkTable (replicate (Z.to_nat FILE_DESCRIBER_ARRAY_LENGTH) None) m 0) = Done None) as S0.
  { intros fd Hfd. apply lookup_slot; [lia|]. cbn [fd_array]. apply lookup_replicate_2. unfold FILE_DESCRIBER_ARRAY_LENGTH. lia. }
  set (t0 := mkTable (replicate (Z.to_nat FILE_DESCRIBER_ARRAY_LENGTH) None) m 0) in *.
  set (t1 := set_slot 0 (Some (mkDescriber READ b 1 false)) (set_files m t0)).
  set (t2 := set_slot 1 (Some (mkDescriber WRITE a 1 false)) (set_files m t1)).
  change (fd_ok (set_slot 2 (Some (mkDescriber WRITE a 1 false)) (set_files m t2))).
  assert (∀ x, refs x (fd_array t1) = ind x b) as R1.
  { intros x. unfold t1. cbn [set_slot set_files fd_array]. destruct (slot_lookup _ _ _ (S0 0 ltac:(lia))) as [_ E].
    rewrite (refs_insert _ _ _ _ _ E). unfold t0. cbn [fd_array ref1 file_]. rewrite refs_empty. lia. }
  assert (slot 1 t1 = Done None) as S1 by (unfold t1; rewrite slot_set_ne by lia; apply S0; lia).
  assert (∀ x, refs x (fd_array t2) = ind x b + ind x a) as R2.
  { intros x. unfold t2. cbn [set_slot set_files fd_array]. destruct (slot_lookup _ _ _ S1) as [_ E].
    rewrite (refs_insert _ _ _ _ _ E), R1. cbn [ref1 file_]. lia. }
  assert (slot 2 t2 = Done None) as S2 by (unfold t2, t1; rewrite !slot_set_ne by lia; apply S0; lia).
  assert (fd_ok t1) as K1.
  { apply (set_slot_ok t0 m 0 None); [done|apply S0; lia|done| |by intros e [= <-]].
    intros x. unfold t0. cbn [fd_array ref1 file_]. rewrite refs_empty. specialize (Hcov x). specialize (Hi x a). lia. }
  assert (fd_ok t2) as K2.
  { apply (set_slot_ok t1 m 1 None); [done..| |by intros e [= <-]].
    intros x. rewrite R1. cbn [ref1 file_]. specialize (Hcov x). specialize (Hi x a). lia. }
  apply (set_slot_ok t2 m 2 None); [done..| |by intros e [= <-]].
  intros x. rewrite R2. cbn [ref1 file_]. specialize (Hcov x). lia.
Qed.

Lemma Init_ok t w :
  live (open_files t) → ∃ t', InitializeFileDescriber t w = Done (t', w) ∧ fd_ok t'.
Proof.
  intros Hl. unfold InitializeFileDescriber, new_describer. cbn [new_file].
  set (m := open_files t) in *. set (a := fresh (dom m)). set (m1 := <[a := mkCount _ 1]> m).
  assert (live m1) as L1 by (by apply live_insert).
  pose proof (λ x, cnt_new a [47; 100; 101; 118; 47; 99; 111; 110; 115; 111; 108; 101] 1 m x (fresh_file m)) as C1. fold m1 in C1.
  set (b := fresh (dom m1)). set (m2 := <[b := mkCount [] 1]> m1). assert (live m2) as L2 by (by apply live_insert).
  pose proof (λ x, cnt_new b [] 1 m1 x (fresh_file m1)) as C2. fold m2 in C2.
  assert (∀ x, 0 <= cnt x m) as Hn by (intros x; unfold cnt; destruct (m !! x) as [c|] eqn:E; [apply Hl in E; lia|done]).
  assert (∀ x y, 0 <= ind x y) as Hi by (intros x y; unfold ind; case_decide; lia).
  pose proof (ind_eq a) as Ia. pose proof (ind_eq b) as Ib.
  pose proof (Hn a). pose proof (Hn b). pose proof (Hi a b). pose proof (Hi b a).
  destruct (increase_spec b m2 L2) as (m3 & E3 & L3 & C3 & _); [rewrite C2, C1; lia|]. rewrite E3. cbn [obind].
  destruct (increase_spec a m3 L3) as (m4 & E4 & L4 & C4 & _); [rewrite C3, C2, C1; lia|]. rewrite E4. cbn [obind].
  destruct (increase_spec a m4 L4) as (m5 & E5 & L5 & C5 & _); [rewrite C4, C3, C2, C1; lia|]. rewrite E5.
  cbn [obind set_slot open_files].
  destruct (decrease_ok b m5 w L5) as (m6 & E6 & L6 & C6); [rewrite C5, C4, C3, C2, C1; lia|]. rewrite E6. cbn [obind].
  destruct (decrease_ok a m6 w L6) as (m7 & E7 & L7 & C7); [rewrite C6, C5, C4, C3, C2, C1; lia|]. rewrite E7. cbn [obind].
  eexists. split; [done|].
  assert (∀ x, ind x b + 2 * ind x a <= cnt x m7) as Hcov by (intros x; rewrite C7, C6, C5, C4, C3, C2, C1; specialize (Hn x); lia).
  exact (std_table m7 a b L7 Hcov).
Qed.

(** * Properties *)

(** One call on the table. *)
Inductive fd_step : FdTable * Pipes * W → FdTable * Pipes * W → Prop :=
  | step_open path flag fd r t ps w t' w' :
      OpenNewFile path flag fd t w = Done (r, t', w') → fd_step (t, ps, w) (t', ps, w')
  | step_close fd t ps w t' w' :
      TryCloseFile fd t w = Done (t', w') → fd_step (t, ps, w) (t', ps, w')
  | step_copy a b t ps w t' w' :
      CopyFd a b t w = Done (t', w') → fd_step (t, ps, w) (t', ps, w')
  | step_pipe flag r0 r1 t ps w t' ps' w' :
      CreatePipe flag t ps w = Done (r0, r1, t', ps', w') → fd_step (t, ps, w) (t', ps', w').

Lemma TryCloseFile_erase fd t w t' w' :
  TryCloseFile fd t w = Done (t', w') → Erase fd t w = Done (t', w').
Proof. unfold TryCloseFile. intros (e & _ & H)%obind_done. by destruct e. Qed.

Lemma fd_step_ok s s' : fd_step s s' → fd_ok s.1.1 → fd_ok s'.1.1.
Proof.
  intros Hs Hok. destruct Hs; simpl in *.
  - by edestruct OpenNewFile_spec as (_ & ? & _).
  - by edestruct Erase_ok as [? _]; [|by apply TryCloseFile_erase|].
  - by edestruct CopyFd_ok as [? _].
  - by edestruct CreatePipe_ok as [? _].
Qed.

(** A descriptor in use leads to an open file. *)
Lemma fd_ok_open t fd d : fd_ok t → slot fd t = Done (Some d) →
  ∃ p, GetFile fd t = Done (file_ d, p) ∧ 1 <= refs (file_ d) (fd_array t) <= cnt (file_ d) (open_files t).
Proof.
  intros Hok Hd. pose proof (slot_lookup _ _ _ Hd) as [Hfd Hl'].
  pose proof (cover_lookup _ _ _ Hok Hd) as Hc. pose proof (refs_lookup (file_ d) _ _ _ Hl') as Hn. simpl in Hn.
  rewrite ind_eq in Hn. pose proof (fd_cover _ Hok (file_ d)). unfold cnt in *.
  destruct (open_files t !! file_ d) as [c|] eqn:Ef; [|lia]. exists (path_ c). split; [|lia].
  apply lookup_lt_Some in Hl'. rewrite (fd_len _ Hok) in Hl'. unfold GetFile, FILE_DESCRIBER_ARRAY_LENGTH in *.
  rewrite (proj2 (Z.ltb_ge _ _)), (proj2 (Z.ltb_ge _ _)) by lia. cbn [orb]. rewrite Hd. cbn [obind]. by rewrite Ef.
Qed.

(** C14: The reference counts of opened files stay right: after the
    initialisation and any sequence of opening, closing, duplicating and
    creating pipes, every descriptor in use leads to a file that is still
    open, and the count of that file is at least the number of descriptors
    that share it. *)
Theorem descriptors_refcounted t0 w0 ps0 :
  live (open_files t0) →
  ∃ t1, InitializeFileDescriber t0 w0 = Done (t1, w0) ∧
    ∀ t ps w, rtc fd_step (t1, ps0, w0) (t, ps, w) →
      fd_ok t ∧ ∀ fd d, slot fd t = Done (Some d) →
        ∃ p, GetFile fd t = Done (file_ d, p) ∧
          1 <= refs (file_ d) (fd_array t) <= cnt (file_ d) (open_files t).
Proof.
  intros Hl. destruct (Init_ok t0 w0 Hl) as (t1 & E & Hok1). exists t1. split; [done|]. intros t ps w Hr.
  assert (fd_ok t) as Hok.
  { change t with ((t, ps, w).1.1). eapply (rtc_ind_r (λ s, fd_ok s.1.1)); [| |exact Hr]; [done|].
    intros s s' _ Hs IH. by eapply fd_step_ok. }
  split; [done|]. intros fd d. by apply fd_ok_open.
Qed.

Lemma TryCloseFile_slot fd t w d : slot fd t = Done (Some d) → TryCloseFile fd t w = Erase fd t w.
Proof. intros H. unfold TryCloseFile, Exists. by rewrite H. Qed.

Lemma slot_set_eq0 fd old d t : slot fd t = Done old → slot fd (set_slot fd d t) = Done d.
Proof. intros H. rewrite <- (slot_set_eq fd old d t (open_files t) H). by destruct t. Qed.

(** Closing a descriptor: descriptor 1 stays open; a descriptor held more
    than once is only counted down; the file of the last holder is closed in
    the file system exactly when no other reference to it is left.  In every
    case the other descriptors keep their slots and their files. *)
Theorem close_descriptor_correct fd d c t w :
  fd_ok t → slot fd t = Done (Some d) → open_files t !! file_ d = Some c →
  (fd = 1 → TryCloseFile fd t w = Done (t, w)) ∧
  (fd ≠ 1 → 1 < fd_ref_count_ d → ∃ t', TryCloseFile fd t w = Done (t', w) ∧ open_files t' = open_files t ∧
     slot fd t' = Done (Some (mkDescriber (file_access_type_ d) (file_ d) (fd_ref_count_ d - 1) (is_pipe_ d)))) ∧
  (fd ≠ 1 → fd_ref_count_ d = 1 → 1 < count_ c → ∃ t', TryCloseFile fd t w = Done (t', w) ∧
     slot fd t' = Done None ∧ open_files t' = <[file_ d := mkCount (path_ c) (count_ c - 1)]> (open_files t)) ∧
  (fd ≠ 1 → fd_ref_count_ d = 1 → count_ c = 1 → ∃ t', slot fd t' = Done None ∧
     open_files t' = delete (file_ d) (open_files t) ∧
     TryCloseFile fd t w = (do w' := close_file (path_ c) w in Done (t', w'))) ∧
  (∀ t' w' fd', TryCloseFile fd t w = Done (t', w') → fd' ≠ fd →
     fd_ok t' ∧ slot fd' t' = slot fd' t ∧ GetFile fd' t' = GetFile fd' t).
Proof.
  intros Hok Hd Hc. rewrite (TryCloseFile_slot _ _ _ _ Hd). pose proof (fd_live _ Hok _ _ Hc).
  set (d' := mkDescriber (file_access_type_ d) (file_ d) (fd_ref_count_ d - 1) (is_pipe_ d)).
  assert (fd ≠ 1 → Erase fd t w = if fd_ref_count_ d - 1 <=? 0 then
    do (m, w) := decrease (file_ d) (open_files t) w in Done (set_slot fd None (set_files m (set_slot fd (Some d') t)), w)
    else Done (set_slot fd (Some d') t, w)) as HE.
  { intros Hne. unfold Erase. rewrite (proj2 (Z.eqb_neq _ _)), Hd by done. done. }
  assert (slot fd (set_slot fd (Some d') t) = Done (Some d')) as Hs by (by apply (slot_set_eq0 _ (Some d))).
  split_and!.
  - intros ->. done.
  - intros Hne Hr. rewrite HE, (proj2 (Z.leb_gt _ _)) by lia. eexists. split; [done|]. by split.
  - intros Hne Hr Hgt. rewrite HE, Hr by done. simpl Z.leb. cbn match. unfold decrease. rewrite Hc, (proj2 (Z.eqb_neq _ _)) by lia.
    cbn [obind]. eexists. split; [done|]. split; [by apply (slot_set_eq _ (Some d'))|done].
  - intros Hne Hr H1. rewrite HE, Hr by done. simpl Z.leb. cbn match. unfold decrease. rewrite Hc, H1. simpl Z.eqb. cbn match.
    exists (set_slot fd None (set_files (delete (file_ d) (open_files t)) (set_slot fd (Some d') t))).
    split; [by apply (slot_set_eq _ (Some d'))|]. split; [done|]. by destruct (close_file (path_ c) w).
  - intros t' w' fd' HT Hne. destruct (Erase_ok _ _ _ _ _ Hok HT) as [Hok' Ho]. split; [done|].
    split; [by apply Ho|by eapply get_file_kept].
Qed.

(** Duplicating a descriptor into an unused one and closing the copy
    restores the table, without any call to the file system; until then the
    copy names the same file.  The copy of a pipe end is not marked as one. *)
Theorem dup_close_roundtrip a b d t w :
  fd_ok t → slot a t = Done (Some d) → slot b t = Done None → b ≠ 1 →
  ∃ t1 d1, CopyFd a b t w = Done (t1, w) ∧ fd_ok t1 ∧ GetFile b t1 = GetFile a t1 ∧
    slot b t1 = Done (Some d1) ∧ file_ d1 = file_ d ∧ is_pipe_ d1 = false ∧
    TryCloseFile b t1 w = Done (t, w).
Proof.
  intros Hok Ha Hb Hne. pose proof (cover_lookup _ _ _ Hok Ha) as Hc. unfold cnt in Hc.
  destruct (open_files t !! file_ d) as [c|] eqn:Ec; [|lia].
  set (d1 := mkDescriber (file_access_type_ d) (file_ d) 1 false).
  set (t1 := set_slot b (Some d1) (set_files (<[file_ d := mkCount (path_ c) (count_ c + 1)]> (open_files t)) t)).
  assert (CopyFd a b t w = Done (t1, w)) as E.
  { unfold CopyFd, Exists, new_describer, increase. rewrite Ha, Hb. cbn [obind negb]. rewrite Ha. cbn [obind]. by rewrite Ec. }
  assert (slot b t1 = Done (Some d1)) as Sb by (by apply (slot_set_eq _ None)).
  pose proof (slot_lookup _ _ _ Ha) as [Ha0 La]. pose proof (slot_lookup _ _ _ Hb) as [Hb0 Lb].
  assert (a ≠ b) as Hab by congruence. exists t1, d1. split; [done|]. split; [by eapply CopyFd_ok|].
  split; [|split_and!; try done].
  - unfold GetFile. rewrite Sb. unfold t1 at 2. rewrite slot_set_ne, Ha by done.
    apply lookup_lt_Some in La, Lb. rewrite (fd_len _ Hok) in La, Lb. unfold FILE_DESCRIBER_ARRAY_LENGTH in *.
    by rewrite !(proj2 (Z.ltb_ge _ _)) by lia.
  - rewrite (TryCloseFile_slot _ _ _ _ Sb). unfold Erase. rewrite (proj2 (Z.eqb_neq _ _)) by done. rewrite Sb.
    cbn [obind d1 fd_ref_count_ file_]. simpl Z.leb. cbn match. unfold t1. cbn [set_slot set_files open_files].
    rewrite decrease_insert by lia. cbn [obind]. f_equal. f_equal. unfold set_slot, set_files. cbn [fd_array fd_pipe_count open_files].
    rewrite !list_insert_insert_eq, (list_insert_id _ _ _ Lb), insert_id by (rewrite Ec; f_equal; destruct c; simpl; f_equal; lia).
    by destruct t.
Qed.

End fd.

(** ** Instances *)

(** A file system that keeps the paths that are open. *)
Definition ex_fs : FileSystem (list (list Z)) := {|
  fs_open path flag w := Done (0, path :: w);
  fs_close path w := Done (0, filter (λ p, p ≠ path) w)
|}.

Definition ex_fd_boot : FdTable := mkTable [] ∅ 0.

(** A table with the file "/a" open as descriptor 3. *)
Definition ex_fd_table : FdTable :=
  mkTable ([None; None; None; Some (mkDescriber RW 1 1 false)] ++ replicate 116 None) {[ 1%positive := mkCount [47; 97] 1 ]} 0.

Lemma ex_fd_ok : fd_ok ex_fd_table.
Proof.
  split.
  - done.
  - intros a. unfold ex_fd_table. cbn [fd_array open_files app refs foldr ref1 file_]. fold (refs a (replicate 116 None)).
    rewrite refs_empty. unfold cnt, ind. case_decide as E; [by subst|]. rewrite lookup_singleton_ne by done. lia.
  - intros a c H. unfold ex_fd_table in H. cbn [open_files] in H. by apply lookup_singleton_Some in H as [<- <-].
  - intros i e H. unfold ex_fd_table in H. cbn [fd_array app] in H.
    destruct i as [|[|[|[|i]]]]; simpl in H; simplify_eq; [done|]. apply (lookup_replicate_1 116 None (Some e) i) in H as [H _]. done.
Qed.

(** The three standard descriptors, a duplicate of descriptor 2 and the close
    of the original. *)
Lemma descriptors_refcounted_witness :
  ∃ t1 t2 t3 p, InitializeFileDescriber (FSys := ex_fs) ex_fd_boot [] = Done (t1, []) ∧
    CopyFd (FSys := ex_fs) 2 3 t1 [] = Done (t2, []) ∧ TryCloseFile (FSys := ex_fs) 2 t2 [] = Done (t3, []) ∧
    GetFile 3 t3 = Done (1%positive, p) ∧ refs 1 (fd_array t3) = 2.
Proof.
  destruct (descriptors_refcounted (FSys := ex_fs) ex_fd_boot [] (mkPipes [] [] [] 0)) as (t1 & E & H).
  - intros a c Hc. exfalso. unfold ex_fd_boot in Hc. cbn [open_files] in Hc. by rewrite lookup_empty in Hc.
  - pose proof E as E1. vm_compute in E1. injection E1 as E1.
    destruct (CopyFd (FSys := ex_fs) 2 3 t1 []) as [[t2 w2]| | |] eqn:E2; rewrite <- E1 in E2; vm_compute in E2; try discriminate.
    injection E2 as E2 Ew2. subst w2.
    destruct (TryCloseFile (FSys := ex_fs) 2 t2 []) as [[t3 w3]| | |] eqn:E3; rewrite <- E2 in E3; vm_compute in E3; try discriminate.
    injection E3 as E3 Ew3. subst w3.
    destruct (H t3 (mkPipes [] [] [] 0) []) as [_ H3].
    { eapply rtc_l; [eapply (step_copy 2 3 t1 _ [] t2 [])|eapply rtc_l; [eapply (step_close 2 t2 _ [] t3 [])|apply rtc_refl]].
      - rewrite <- E1, <- E2. vm_compute. reflexivity.
      - rewrite <- E2, <- E3. vm_compute. reflexivity. }
    destruct (H3 3 (mkDescriber WRITE 1 1 false)) as (p & Hp & _); [rewrite <- E3; reflexivity|].
    exists t1, t2, t3, p. split; [exact E|]. split; [|split; [|split; [exact Hp|]]].
    + rewrite <- E1, <- E2. vm_compute. reflexivity.
    + rewrite <- E2, <- E3. vm_compute. reflexivity.
    + rewrite <- E3. vm_compute. reflexivity.
Defined.

Lemma close_descriptor_correct_witness :
  ∃ t', TryCloseFile (FSys := ex_fs) 3 ex_fd_table [[47; 97]] = Done (t', []) ∧ slot 3 t' = Done None.
Proof.
  destruct (close_descriptor_correct (FSys := ex_fs) 3 (mkDescriber RW 1 1 false) (mkCount [47; 97] 1) ex_fd_table [[47; 97]]
    ex_fd_ok eq_refl eq_refl) as (_ & _ & _ & H & _).
  destruct H as (t' & Hs & _ & E); [lia|done|done|]. exists t'. exact (conj E Hs).
Defined.

Lemma dup_close_roundtrip_witness :
  ∃ t1, CopyFd (FSys := ex_fs) 3 5 ex_fd_table [] = Done (t1, []) ∧ TryCloseFile (FSys := ex_fs) 5 t1 [] = Done (ex_fd_table, []).
Proof.
  destruct (dup_close_roundtrip (FSys := ex_fs) 3 5 (mkDescriber RW 1 1 false) ex_fd_table [] ex_fd_ok eq_refl eq_refl)
    as (t1 & d1 & E & _ & _ & _ & _ & _ & H); [lia|]. exists t1. exact (conj E H).
Defined.
