(* ===== verification/KVfs.v ===== *)
(** The virtual file system of kernel/fs/VFS.h: a tree of named nodes, each
    belonging to one of the file systems of kernel/fs/IFS.h, to which calls
    on a path are passed on.

    Nodes live in a store; a pointer is an address or null. *)
From Stdlib Require Import ZArith Lia.
From stdpp Require Import base list numbers option gmap.
From S2P Require Import KString.
From S2P Require Import Prelude BlockDevice FfTypes FfLfn FfDir KBase KPath KFs KFd.

Local Open Scope Z_scope.
Local Open Scope out_scope.

Abbreviation ptr := (option positive).

(** The implementations of the interface [IFS]. *)
Inductive IFS : Type := FatFs | StdoutFs | ZeroFs | NullFs.

Record File : Type := mkFile {
  fs : IFS;
  ino : Z;
  name : list Z;
  parent : ptr;
  first_child : ptr;
  previous : ptr;
  next : ptr;
  soft_link_ : ptr
}.

Abbreviation nodes := (gmap positive File).

Definition set_first_child (q : ptr) (f : File) : File :=
  mkFile (fs f) (ino f) (name f) (parent f) q (previous f) (next f) (soft_link_ f).
Definition set_next (q : ptr) (f : File) : File :=
  mkFile (fs f) (ino f) (name f) (parent f) (first_child f) (previous f) q (soft_link_ f).
Definition set_previous (q : ptr) (f : File) : File :=
  mkFile (fs f) (ino f) (name f) (parent f) (first_child f) q (next f) (soft_link_ f).
Definition set_parent (q : ptr) (f : File) : File :=
  mkFile (fs f) (ino f) (name f) q (first_child f) (previous f) (next f) (soft_link_ f).
Definition set_soft_link (q : ptr) (f : File) : File :=
  mkFile (fs f) (ino f) (name f) (parent f) (first_child f) (previous f) (next f) q.

Definition deref (p : ptr) (h : nodes) : outcome File :=
  match p ≫= (h !!.) with Some n => Done n | None => Wild end.

(** An assignment through a pointer. *)
Definition update (p : ptr) (g : File → File) (h : nodes) : outcome nodes :=
  match p with
  | Some a => match h !! a with Some n => Done (<[a := g n]> h) | None => Wild end
  | None => Wild
  end.

(** * File *)

(** [deleteTree]; the recursion is no deeper than the store is large. *)
Fixpoint deleteTree (fuel : nat) (file : ptr) (h : nodes) : outcome nodes :=
  match file with
  | None => Done h
  | Some a =>
      match fuel with
      | O => Loop
      | S fuel =>
          do f := deref file h in
          do h := (match next f with Some _ => deleteTree fuel (next f) h | None => Done h end) in
          do f := deref file h in
          do h := (match first_child f with Some _ => deleteTree fuel (first_child f) h | None => Done h end) in
          do _ := deref file h in
          Done (delete a h)
      end
  end.

Definition setNext (this nextFile : ptr) (h : nodes) : outcome nodes :=
  do h := update this (set_next nextFile) h in
  match nextFile with
  | None => Done h
  | Some _ =>
      do h := update nextFile (set_previous this) h in
      do t := deref this h in
      update nextFile (set_parent (parent t)) h
  end.

Definition deleteNext (this : ptr) (h : nodes) : outcome nodes :=
  do f := deref this h in
  match next f with
  | None => Done h
  | Some a =>
      do t := deref (next f) h in
      do h := (match next t with Some _ => update (next t) (set_previous this) h | None => Done h end) in
      do t := deref (Some a) h in
      do h := update this (set_next (next t)) h in
      Done (delete a h)
  end.

(** The loop of [appendChild]: the last sibling, or [None] when a sibling
    before it has the child's name. *)
Fixpoint last_sibling (fuel : nat) (p childFile : ptr) (h : nodes) : outcome (option ptr) :=
  match fuel with
  | O => Loop
  | S fuel =>
      do f := deref p h in
      match next f with
      | None => Done (Some p)
      | Some _ =>
          do c := deref childFile h in
          if decide (name f = name c) then Done None else last_sibling fuel (next f) childFile h
      end
  end.

Definition appendChild (this childFile : ptr) (h : nodes) : outcome (bool * nodes) :=
  do f := deref this h in
  match first_child f with
  | None =>
      do h := update this (set_first_child childFile) h in
      match childFile with
      | None => Done (true, h)
      | Some _ => do h := update childFile (set_parent this) h in Done (true, h)
      end
  | Some _ =>
      do l := last_sibling (S (size h)) (first_child f) childFile h in
      match l with
      | None => Done (false, h)
      | Some p => do h := setNext p childFile h in Done (true, h)
      end
  end.

(** The loop of [deleteChild]. *)
Fixpoint delete_loop (fuel : nat) (p : ptr) (nm : list Z) (h : nodes) : outcome nodes :=
  match p, fuel with
  | None, _ => Done h
  | Some _, O => Loop
  | Some a, S fuel =>
      do f := deref p h in
      if decide (name f = nm) then
        do h := (match previous f, parent f with
                 | Some _, _ => update (previous f) (set_next (next f)) h
                 | None, Some _ => update (parent f) (set_first_child None) h
                 | None, None => Done h
                 end) in
        do h := (match next f with Some _ => update (next f) (set_previous (previous f)) h | None => Done h end) in
        do h := deleteTree (S (size h)) (first_child f) h in
        do _ := deref p h in
        Done (delete a h)
      else delete_loop fuel (next f) nm h
  end.

Definition deleteChild (this childFile : ptr) (h : nodes) : outcome nodes :=
  match childFile with
  | None => Done h
  | Some _ =>
      do f := deref this h in
      match first_child f with
      | None => Done h
      | Some _ => do c := deref childFile h in delete_loop (S (size h)) (first_child f) (name c) h
      end
  end.

(** The sibling called [filename], from [searchObj] on. *)
Fixpoint find_sibling (fuel : nat) (searchObj : ptr) (filename : list Z) (h : nodes) : outcome ptr :=
  match searchObj, fuel with
  | None, _ => Done None
  | Some _, O => Loop
  | Some _, S fuel =>
      do f := deref searchObj h in
      if decide (name f = filename) then Done searchObj else find_sibling fuel (next f) filename h
  end.

(** [search(const List<String>&)] on the object [searchObj]. *)
Fixpoint search (searchObj : ptr) (path : list (list Z)) (h : nodes) : outcome ptr :=
  match path with
  | [] => Done None
  | filename :: path =>
      do p := find_sibling (S (size h)) searchObj filename h in
      match p with
      | None => Done None
      | Some _ =>
          match path with
          | [] => Done p
          | _ => do f := deref p h in search (first_child f) path h
          end
      end
  end.

(** [search(const String&)], called through a pointer that must not be null. *)
Definition search_path (this : ptr) (path : list Z) (h : nodes) : outcome ptr :=
  match this with
  | None => Wild
  | Some _ => do (l, _) := split path in search this l h
  end.

(** [innerSearch] and [search(size_t)]. *)
Fixpoint innerSearch (fuel : nat) (file : ptr) (i_no : Z) (h : nodes) : outcome ptr :=
  match file, fuel with
  | None, _ => Done None
  | Some _, O => Loop
  | Some _, S fuel =>
      do f := deref file h in
      if ino f =? i_no then Done file
      else
        do res := innerSearch fuel (next f) i_no h in
        match res with
        | Some _ => Done res
        | None => innerSearch fuel (first_child f) i_no h
        end
  end.

Definition search_ino (this : ptr) (i_no : Z) (h : nodes) : outcome ptr := innerSearch (S (size h)) this i_no h.

Definition CreateSoftLink (this file : ptr) (h : nodes) : outcome nodes := update this (set_soft_link file) h.
Definition GetSoftLink (this : ptr) (h : nodes) : outcome ptr := do f := deref this h in Done (soft_link_ f).
Definition DeleteSoftLink (this : ptr) (h : nodes) : outcome nodes := update this (set_soft_link None) h.

(** * VFS: lookups *)

Definition VFS_search (file : ptr) (path : option (list Z)) (h : nodes) : outcome ptr :=
  match path with
  | None => Done None
  | Some p =>
      if decide (p = [SLASH]) then Done file
      else do f := deref file h in search_path (first_child f) p h
  end.

Definition searchFather (file : ptr) (path : list Z) (h : nodes) : outcome ptr :=
  do (l, _) := split path in
  match l with
  | [] => Done None
  | [_] => Done file
  | _ => VFS_search file (Some (joinAbsolutePath (take (pred (length l)) l))) h
  end.

(** [GetPathByFile]: names from the node up to the root, without separators,
    put together with [operator+] of [String], which overruns its result. *)
Fixpoint path_loop (fuel : nat) (file : ptr) (res : list Z) (h : nodes) : outcome (list Z) :=
  match file, fuel with
  | None, _ => Done res
  | Some _, O => Loop
  | Some _, S fuel => do f := deref file h in do res := string_add (name f) res in path_loop fuel (parent f) res h
  end.

Definition GetPathByFile (file : ptr) (h : nodes) : outcome (list Z) := path_loop (S (size h)) file [] h.

(** The loop of [ReadLink] over soft links. *)
Fixpoint follow_links (fuel : nat) (file : ptr) (h : nodes) : outcome ptr :=
  match fuel with
  | O => Loop
  | S fuel =>
      do l := GetSoftLink file h in
      match l with None => Done file | Some _ => follow_links fuel l h end
  end.

Definition ReadLink (root : ptr) (path : list Z) (h : nodes) : outcome (list Z) :=
  do file := VFS_search root (Some path) h in
  match file with
  | None => Panic
  | Some _ => do file := follow_links (S (size h)) file h in GetPathByFile file h
  end.

(** * The file systems and the kernel's state *)

(** [dirInfo] is the static buffer of [scan]; [fat] and [volume] are the
    state of the FatFs adapter, [console] what was printed. *)
Record VFS (D : Type) : Type := mkVFS {
  files : nodes;
  global_ino : Z;
  root : ptr;
  main_fs : IFS;
  dirInfo : DirInfo;
  fat : FS;
  volume : vol D;
  console : list Z
}.
Arguments mkVFS {D}.
Arguments files {D}.
Arguments global_ino {D}.
Arguments root {D}.
Arguments main_fs {D}.
Arguments dirInfo {D}.
Arguments fat {D}.
Arguments volume {D}.
Arguments console {D}.

Section vfs.
Context {D : Type} {BD : BlockDevice D}.
Implicit Types v : VFS D.

Definition set_nodes (h : nodes) v : VFS D :=
  mkVFS h (global_ino v) (root v) (main_fs v) (dirInfo v) (fat v) (volume v) (console v).

Definition set_fat (s : FS) (w : vol D) v : VFS D :=
  mkVFS (files v) (global_ino v) (root v) (main_fs v) (dirInfo v) s w (console v).

Definition set_dirInfo (d : DirInfo) v : VFS D :=
  mkVFS (files v) (global_ino v) (root v) (main_fs v) d (fat v) (volume v) (console v).

Definition print (bs : list Z) v : VFS D :=
  mkVFS (files v) (global_ino v) (root v) (main_fs v) (dirInfo v) (fat v) (volume v) (console v ++ bs).

(** Methods that a class does not override panic. *)
Definition ifs_open (k : IFS) (path : list Z) (flag : Z) v : outcome (Z * VFS D) :=
  match k with
  | FatFs => do (r, s, w) := FS_open path flag (fat v) (volume v) in Done (r, set_fat s w v)
  | StdoutFs => Panic
  | ZeroFs | NullFs => Done (0, v)
  end.

(** The bytes stored in the buffer are returned beside the result. *)
Definition ifs_read (k : IFS) (path : list Z) (count : Z) v : outcome (Z * list Z * VFS D) :=
  match k with
  | FatFs => do (r, bs, s, w) := FS_read path count (fat v) (volume v) in Done (r, bs, set_fat s w v)
  | ZeroFs => Done (count, replicate (Z.to_nat count) 0, v)
  | StdoutFs | NullFs => Panic
  end.

Definition ifs_write (k : IFS) (path buf : list Z) (count : Z) v : outcome (Z * VFS D) :=
  match k with
  | FatFs => do (r, s, w) := FS_write path buf count (fat v) (volume v) in Done (r, set_fat s w v)
  | StdoutFs => Done (count, print (take (Z.to_nat count) buf) v)
  | NullFs => Done (count, v)
  | ZeroFs => Panic
  end.

Definition ifs_close (k : IFS) (path : list Z) v : outcome (Z * VFS D) :=
  match k with
  | FatFs => do (r, s, w) := FS_close path (fat v) (volume v) in Done (r, set_fat s w v)
  | StdoutFs => Panic
  | ZeroFs | NullFs => Done (0, v)
  end.

Definition ifs_mkdir (k : IFS) (path : list Z) (flag : Z) v : outcome (Z * VFS D) :=
  match k with
  | FatFs => do (r, s, w) := FS_mkdir path flag (fat v) (volume v) in Done (r, set_fat s w v)
  | StdoutFs | ZeroFs | NullFs => Panic
  end.

Definition ifs_fstat (k : IFS) (path : list Z) (info : FILINFO) (stat : kstat) v : outcome (Z * kstat * VFS D) :=
  match k with
  | FatFs => do (r, st, s, w) := FS_fstat path info stat (fat v) (volume v) in Done (r, st, set_fat s w v)
  | StdoutFs | ZeroFs | NullFs => Done (0, stat, v)
  end.

Definition ifs_lseek (k : IFS) (path : list Z) (offset whence : Z) v : outcome (Z * VFS D) :=
  match k with
  | FatFs => do (r, s, w) := FS_lseek path offset whence (fat v) (volume v) in Done (r, set_fat s w v)
  | StdoutFs | ZeroFs | NullFs => Panic
  end.

(** The buffer is the static [dirInfo]; [fno] is uninitialised memory. *)
Definition ifs_read_dir (k : IFS) (path : list Z) (fno : FILINFO) (new_request : Z) v : outcome (Z * VFS D) :=
  match k with
  | FatFs =>
      do (r, d, s, w) := FS_read_dir path new_request fno (dirInfo v) (fat v) (volume v) in
      Done (r, set_dirInfo d (set_fat s w v))
  | StdoutFs | ZeroFs | NullFs => Panic
  end.

(** * VFS: operations *)

(** [new File(fileName, ifs)]. *)
Definition new_File (nm : list Z) (k : IFS) v : positive * VFS D :=
  let a := fresh (dom (files v)) in
  (a, mkVFS (<[a := mkFile k (global_ino v) nm None None None None None]> (files v))
        (u64 (global_ino v + 1)) (root v) (main_fs v) (dirInfo v) (fat v) (volume v) (console v)).

(** [dir->appendChild(new File(nm, k))]. *)
Definition append_new (dir : ptr) (nm : list Z) (k : IFS) v : outcome (bool * VFS D) :=
  let '(a, v) := new_File nm k v in
  do (r, h) := appendChild dir (Some a) (files v) in
  Done (r, set_nodes h v).

(** The reading loop of [scan]; [false] is the early return. *)
Fixpoint scan_entries (fuel : nat) (str : list Z) (dir : ptr) (fno : FILINFO) (res : Z) v : outcome (bool * VFS D) :=
  match fuel with
  | O => Loop
  | S fuel =>
      if res =? 0 then Done (true, v)
      else
        do (res, v) := ifs_read_dir (main_fs v) str fno 0 v in
        if res =? -1 then Done (false, v)
        else
          do (_, v) := append_new dir (di_fname (dirInfo v)) (main_fs v) v in
          scan_entries fuel str dir fno res v
  end.

(** [scan] to a depth and with a number of entries bounded by [fuel].  The
    path of a child is put together with [operator+] of [String], which writes
    past its result: the scan of a directory that has a child is [Wild]. *)
Fixpoint scan (fuel : nat) (str : list Z) (dir : ptr) (fno : FILINFO) v : outcome (VFS D) :=
  match fuel with
  | O => Loop
  | S fuel' =>
      do (res, v) := ifs_read_dir (main_fs v) str fno 1 v in
      if res =? -1 then Done v
      else
        do (_, v) := append_new dir (di_fname (dirInfo v)) (main_fs v) v in
        do (go, v) := scan_entries fuel str dir fno res v in
        if negb go then Done v
        else
          do d := deref dir (files v) in
          (fix children (k : nat) (p : ptr) v : outcome (VFS D) :=
             match p, k with
             | None, _ => Done v
             | Some _, O => Loop
             | Some _, S k =>
                 do f := deref p (files v) in
                 do sub := (if decide (str = [SLASH]) then string_add str (name f)
                            else do s := string_add str [SLASH] in string_add s (name f)) in
                 do v := scan fuel' sub p fno v in
                 do f := deref p (files v) in
                 children k (next f) v
             end) fuel (first_child d) v
  end.

Definition VFS_init (fuel : nat) (ifs : IFS) (fno : FILINFO) v : outcome (VFS D) :=
  let v := mkVFS (files v) (global_ino v) (root v) ifs (dirInfo v) (fat v) (volume v) (console v) in
  let '(r, v) := new_File [SLASH] ifs v in
  let v := mkVFS (files v) (global_ino v) (Some r) ifs (dirInfo v) (fat v) (volume v) (console v) in
  scan fuel [SLASH] (Some r) fno v.

(** [VFS_ADAPTER]: the call [k] on the file system of the node of [path]. *)
Definition adapter (path : option (list Z)) (k : IFS → list Z → VFS D → outcome (Z * VFS D)) v : outcome (Z * VFS D) :=
  do file := VFS_search (root v) path (files v) in
  match file, path with
  | Some _, Some p => do f := deref file (files v) in k (fs f) p v
  | _, _ => Done (-1, v)
  end.

Definition VFS_open (path : list Z) (flag : Z) v : outcome (Z * VFS D) :=
  if zbits flag O_CREATE then
    do (l, _) := split path in
    match last l with
    | None => Wild
    | Some file_name =>
        do father_file := searchFather (root v) path (files v) in
        match father_file with
        | None => Done (-1, v)
        | Some _ =>
            do f := deref father_file (files v) in
            do (fr, v) := ifs_open (fs f) path flag v in
            if fr =? 0 then do (_, v) := append_new father_file file_name (fs f) v in Done (fr, v)
            else Done (fr, v)
        end
    end
  else adapter (Some path) (λ k p, ifs_open k p flag) v.

Definition VFS_read (path : option (list Z)) (count : Z) v : outcome (Z * list Z * VFS D) :=
  match path with
  | None => Done (-1, [], v)
  | Some p =>
      do file := VFS_search (root v) path (files v) in
      match file with
      | None => Done (-1, [], v)
      | Some _ => do f := deref file (files v) in ifs_read (fs f) p count v
      end
  end.

Definition VFS_write (path : option (list Z)) (buf : list Z) (count : Z) v : outcome (Z * VFS D) :=
  adapter path (λ k p, ifs_write k p buf count) v.

Definition VFS_close (path : option (list Z)) v : outcome (Z * VFS D) := adapter path ifs_close v.

Definition VFS_lseek (path : option (list Z)) (offset whence : Z) v : outcome (Z * VFS D) :=
  adapter path (λ k p, ifs_lseek k p offset whence) v.

Definition VFS_fstat (path : option (list Z)) (info : FILINFO) (stat : kstat) v : outcome (Z * kstat * VFS D) :=
  do file := VFS_search (root v) path (files v) in
  match file, path with
  | Some _, Some p => do f := deref file (files v) in ifs_fstat (fs f) p info stat v
  | _, _ => Done (-1, stat, v)
  end.

(** The comparison [path == "/"] is one of addresses and does not hold. *)
Definition VFS_mkdir (path : list Z) (flag : Z) (ifs : IFS) (real_created_by_father : bool) v : outcome (Z * VFS D) :=
  do father := searchFather (root v) path (files v) in
  match father with
  | None => Done (-1, v)
  | Some _ =>
      do f := deref father (files v) in
      do (res, v) := (if real_created_by_father then ifs_mkdir (fs f) path flag v else Done (0, v)) in
      if res =? 0 then
        do (l, _) := split path in
        match last l with
        | None => Wild
        | Some file_name =>
            do f := deref father (files v) in
            do file := (match first_child f with
                        | Some _ => search_path (first_child f) file_name (files v)
                        | None => Done None
                        end) in
            match file with
            | None => do (_, v) := append_new father file_name ifs v in Done (0, v)
            | Some _ => Done (0, v)
            end
        end
      else Done (-1, v)
  end.

(** Calls that are not implemented. *)
Definition VFS_read_dir (path : list Z) (len : Z) v : outcome (Z * VFS D) := Done (0, v).
Definition VFS_unlink (path : list Z) v : outcome (Z * VFS D) := Done (0, v).

(** The descriptors' view of this file system. *)
Global Instance vfs_file_system : FileSystem (VFS D) := {|
  fs_open path flag v := VFS_open path flag v;
  fs_close path v := VFS_close (Some path) v
|}.

End vfs.
