(* ===== verification/KVfsSpec.v ===== *)
(** The node tree of [KVfs] as an abstract tree: lookups by path, insertion,
    and the calls that the virtual file system passes on. *)
From Stdlib Require Import ZArith Lia.
From stdpp Require Import base list numbers option gmap.
From S2P Require Import Prelude BlockDevice FfTypes FfDir KBase KPath KFs KFd KVfs.

Local Open Scope Z_scope.
Local Open Scope out_scope.

(** * Trees *)

(** A node with its first child and its next sibling, as the code links them. *)
Inductive forest : Type :=
  | Leaf
  | Nd (a : positive) (k : IFS) (i : Z) (nm : list Z) (l : ptr) (child sib : forest).

Definition rootp (t : forest) : ptr := match t with Leaf => None | Nd a _ _ _ _ _ _ => Some a end.

Fixpoint addrs (t : forest) : list positive :=
  match t with Leaf => [] | Nd a _ _ _ _ c s => a :: addrs c ++ addrs s end.

(** [rep h par prv t]: the store holds [t] below [par], after [prv]. *)
Fixpoint rep (h : nodes) (par prv : ptr) (t : forest) : Prop :=
  match t with
  | Leaf => True
  | Nd a k i nm l c s =>
      h !! a = Some (mkFile k i nm par (rootp c) prv (rootp s) l) ∧ rep h (Some a) None c ∧ rep h par (Some a) s
  end.

(** The first sibling called [x], with what follows it. *)
Fixpoint find_sib (x : list Z) (t : forest) : forest :=
  match t with
  | Leaf => Leaf
  | Nd a k i nm l c s => if decide (nm = x) then t else find_sib x s
  end.

(** The node at a path of names, with its file system. *)
Fixpoint lookup_path (path : list (list Z)) (t : forest) : option (positive * IFS) :=
  match path with
  | [] => None
  | x :: rest =>
      match find_sib x t with
      | Leaf => None
      | Nd a k _ _ _ c _ => match rest with [] => Some (a, k) | _ => lookup_path rest c end
      end
  end.

Lemma tree_frame h h' t : ∀ par prv,
  (∀ p, p ∈ addrs t → h' !! p = h !! p) → rep h par prv t → rep h' par prv t.
Proof.
  induction t as [|a k i nm l c IHc s IHs]; intros par prv Hk Hr; [done|]. simpl in *. destruct Hr as (H1 & H2 & H3).
  split; [by rewrite Hk by set_solver|]. split; [apply IHc|apply IHs]; auto; intros p Hp; apply Hk; set_solver.
Qed.

Lemma rep_dom h t : ∀ par prv p, rep h par prv t → p ∈ addrs t → is_Some (h !! p).
Proof.
  induction t as [|a k i nm l c IHc s IHs]; intros par prv p Hr Hp; simpl in *; [by apply elem_of_nil in Hp|].
  destruct Hr as (H1 & H2 & H3). apply elem_of_cons in Hp as [->|[Hp|Hp]%elem_of_app]; eauto.
Qed.

Lemma tree_size h par prv t : rep h par prv t → NoDup (addrs t) → (length (addrs t) <= size h)%nat.
Proof.
  intros Hr Hn. rewrite <- (size_list_to_set (C := gset positive) (addrs t)), <- size_dom by done.
  apply subseteq_size. intros p Hp%elem_of_list_to_set. apply elem_of_dom. by eapply rep_dom.
Qed.

Lemma node_deref p n h : h !! p = Some n → deref (Some p) h = Done n.
Proof. intros H. unfold deref. simpl. by rewrite H. Qed.

Lemma NoDup_node a k i nm l c s :
  NoDup (addrs (Nd a k i nm l c s)) →
  a ∉ addrs c ∧ a ∉ addrs s ∧ NoDup (addrs c) ∧ NoDup (addrs s) ∧ (∀ p, p ∈ addrs c → p ∉ addrs s).
Proof.
  simpl. intros [H1 H2]%NoDup_cons. apply NoDup_app in H2 as (H2 & H3 & H4). split_and!; auto; set_solver.
Qed.

(** ** Lookups *)

Lemma find_sib_rep x h t : ∀ par prv,
  rep h par prv t → ∃ prv', rep h par prv' (find_sib x t) ∧ (length (addrs (find_sib x t)) <= length (addrs t))%nat.
Proof.
  induction t as [|a k i nm l c IHc s IHs]; intros par prv Hr; [by exists prv|]. cbn [find_sib].
  case_decide; [by exists prv|]. destruct Hr as (_ & _ & Hs). destruct (IHs _ _ Hs) as (prv' & H1 & H2).
  exists prv'. split; [done|]. simpl. rewrite length_app. lia.
Qed.

Lemma find_sibling_spec x h t : ∀ fuel par prv,
  (length (addrs t) < fuel)%nat → rep h par prv t →
  find_sibling fuel (rootp t) x h = Done (rootp (find_sib x t)).
Proof.
  induction t as [|a k i nm l c IHc s IHs]; intros [|fuel] par prv Hf Hr; simpl in Hf; try lia; [done|].
  destruct Hr as (H1 & _ & H3). cbn [find_sibling find_sib rootp]. rewrite (node_deref _ _ _ H1). cbn [obind name next].
  case_decide; [done|]. rewrite length_app in Hf. eapply IHs; [lia|done].
Qed.

Lemma node_search_spec h path : ∀ par prv t,
  rep h par prv t → (length (addrs t) <= size h)%nat →
  search (rootp t) path h = Done (fst <$> lookup_path path t).
Proof.
  induction path as [|x path IH]; intros par prv t Hr Hl; [done|]. cbn [search lookup_path].
  rewrite (find_sibling_spec x h t _ par prv) by (done || lia). cbn [obind].
  destruct (find_sib_rep x h t par prv Hr) as (prv' & Hr' & Hl').
  destruct (find_sib x t) as [|a k i nm l c s]; [done|]. cbn [rootp]. destruct path as [|y path]; [done|].
  destruct Hr' as (H1 & H2 & _). rewrite (node_deref _ _ _ H1). cbn [obind first_child].
  eapply IH; [done|]. simpl in Hl'. rewrite length_app in Hl'. lia.
Qed.

(** ** Insertion *)

(** [new] after the last sibling. *)
Fixpoint snoc (t new : forest) : forest :=
  match t with Leaf => new | Nd a k i nm l c s => Nd a k i nm l c (snoc s new) end.

(** The last sibling. *)
Fixpoint lastp (t : forest) : ptr :=
  match t with Leaf => None | Nd a _ _ _ _ _ Leaf => Some a | Nd _ _ _ _ _ _ s => lastp s end.

(** The children of node [a], and the tree with others in their place. *)
Fixpoint children (a : positive) (t : forest) : option forest :=
  match t with
  | Leaf => None
  | Nd b _ _ _ _ c s =>
      if decide (b = a) then Some c
      else match children a c with Some r => Some r | None => children a s end
  end.

Fixpoint set_children (a : positive) (c' t : forest) : forest :=
  match t with
  | Leaf => Leaf
  | Nd b k i nm l c s =>
      if decide (b = a) then Nd b k i nm l c' s
      else Nd b k i nm l (set_children a c' c) (set_children a c' s)
  end.

Lemma rootp_snoc t new : t ≠ Leaf → rootp (snoc t new) = rootp t.
Proof. by destruct t. Qed.

Lemma rootp_set a c' t : rootp (set_children a c' t) = rootp t.
Proof. destruct t; simpl; [done|]. by case_decide. Qed.

Lemma lastp_in t q : lastp t = Some q → q ∈ addrs t.
Proof.
  induction t as [|a k i nm l c _ s IHs]; simpl; [done|]. destruct s; [intros [= ->]; set_solver|].
  intros H. apply IHs in H. set_solver.
Qed.

Lemma lastp_some t : t ≠ Leaf → ∃ q, lastp t = Some q.
Proof.
  induction t as [|a k i nm l c _ s IHs]; [done|]. intros _. destruct s as [|]; [by exists a|]. apply IHs. done.
Qed.

Lemma children_in a t c : children a t = Some c → a ∈ addrs t ∧ ∀ p, p ∈ addrs c → p ∈ addrs t.
Proof.
  induction t as [|b k i nm l ch IHc s IHs]; simpl; [done|]. case_decide; [intros [= ->]; set_solver|].
  destruct (children a ch) as [r|] eqn:E.
  - intros [= ->]. destruct (IHc eq_refl). set_solver.
  - intros H'. destruct (IHs H'). set_solver.
Qed.

Lemma children_none a t : a ∉ addrs t → children a t = None.
Proof.
  induction t as [|b k i nm l ch IHc s IHs]; simpl; [done|]. intros Ha. rewrite decide_False by set_solver.
  rewrite IHc, IHs by set_solver. done.
Qed.

Lemma set_children_out a c' t : a ∉ addrs t → set_children a c' t = t.
Proof.
  induction t as [|b k i nm l ch IHc s IHs]; simpl; [done|]. intros Ha. rewrite decide_False by set_solver.
  rewrite IHc, IHs by set_solver. done.
Qed.

(** A store in which only the children of [a] changed. *)
Lemma rep_set_children h h' a c c' t : ∀ par prv,
  NoDup (addrs t) → rep h par prv t → children a t = Some c →
  (∀ p, p ∈ addrs t → p ≠ a → p ∉ addrs c → h' !! p = h !! p) →
  (∀ n, h !! a = Some n → h' !! a = Some (set_first_child (rootp c') n)) →
  rep h' (Some a) None c' → rep h' par prv (set_children a c' t).
Proof.
  induction t as [|b k i nm l ch IHc s IHs]; intros par prv Hn Hr Hc Hk Ha Hr'; [done|].
  apply NoDup_node in Hn as (N1 & N2 & N3 & N4 & N5). destruct Hr as (H1 & H2 & H3). simpl in Hc. cbn [set_children].
  case_decide as Hab.
  - subst b. injection Hc as ->. cbn [rep]. split; [by rewrite (Ha _ H1)|]. split; [done|].
    eapply tree_frame; [|done]. intros p Hp. apply Hk; set_solver.
  - cbn [rep]. rewrite !rootp_set.
    destruct (children a ch) as [r|] eqn:Er.
    + injection Hc as ->. destruct (children_in _ _ _ Er) as [Hin Hsub].
      split; [rewrite Hk; set_solver|]. split; [apply IHc; auto; intros p Hp; apply Hk; set_solver|].
      rewrite set_children_out by set_solver. eapply tree_frame; [|done]. intros p Hp. apply Hk; set_solver.
    + destruct (children_in _ _ _ Hc) as [Hin Hsub].
      split; [rewrite Hk; set_solver|]. rewrite (set_children_out _ _ ch) by set_solver.
      split; [eapply tree_frame; [|done]; intros p Hp; apply Hk; set_solver|].
      apply IHs; auto. intros p Hp. apply Hk. set_solver.
Qed.

(** Linking [b] after the last sibling [q]. *)
Lemma rep_snoc h h' b k' i' x l' par t : ∀ prv q nq,
  rep h par prv t → NoDup (addrs t) → lastp t = Some q → h !! q = Some nq →
  (∀ p, p ∈ addrs t → p ≠ q → h' !! p = h !! p) → h' !! q = Some (set_next (Some b) nq) →
  h' !! b = Some (mkFile k' i' x par None (Some q) None l') →
  rep h' par prv (snoc t (Nd b k' i' x l' Leaf Leaf)).
Proof.
  induction t as [|a k i nm l c _ s IHs]; intros prv q nq Hr Hn Hq Enq Hk Hq' Hb; [done|].
  apply NoDup_node in Hn as (N1 & N2 & N3 & N4 & N5). destruct Hr as (H1 & H2 & H3). cbn [snoc rep].
  assert (s = Leaf ∨ s ≠ Leaf) as [->|Hs] by (destruct s; auto).
  - injection Hq as ->. rewrite H1 in Enq. injection Enq as <-. split; [by rewrite Hq'|]. split; [|by simpl].
    eapply tree_frame; [|done]. intros p Hp. apply Hk; set_solver.
  - assert (lastp s = Some q) as Hqs by (by destruct s). pose proof (lastp_in _ _ Hqs) as Hin.
    rewrite (rootp_snoc s) by done. split; [rewrite Hk; set_solver|].
    split; [eapply tree_frame; [|done]; intros p Hp; apply Hk; set_solver|].
    eapply IHs; eauto. intros p Hp. apply Hk. set_solver.
Qed.

Lemma setNext_eq h q b nq nb :
  q ≠ b → h !! q = Some nq → h !! b = Some nb →
  setNext (Some q) (Some b) h =
  Done (<[b := set_parent (parent nq) (set_previous (Some q) nb)]> (<[q := set_next (Some b) nq]> h)).
Proof.
  intros Hne Hq Hb. unfold setNext, update. rewrite Hq. cbn [obind]. rewrite lookup_insert_ne, Hb by done. cbn [obind].
  unfold deref. simpl. rewrite lookup_insert_ne, lookup_insert_eq by done. cbn [obind]. rewrite lookup_insert_eq.
  by rewrite insert_insert_eq.
Qed.

(** A sibling before the last one is called [x]. *)
Fixpoint dup_before (x : list Z) (t : forest) : bool :=
  match t with
  | Nd _ _ _ nm _ _ s => match s with Leaf => false | _ => bool_decide (nm = x) || dup_before x s end
  | Leaf => false
  end.

Lemma dup_before_find x t : find_sib x t = Leaf → dup_before x t = false.
Proof.
  induction t as [|a k i nm l c _ s IHs]; cbn [find_sib dup_before]; [done|]. case_decide; [done|].
  intros Hs. destruct s as [|]; [done|]. rewrite IHs by done. by rewrite bool_decide_eq_false_2.
Qed.

Lemma last_sibling_spec h b nb t : ∀ fuel par prv,
  h !! b = Some nb → t ≠ Leaf → (length (addrs t) < fuel)%nat → rep h par prv t →
  last_sibling fuel (rootp t) (Some b) h = Done (if dup_before (name nb) t then None else Some (lastp t)).
Proof.
  induction t as [|a k i nm l c _ s IHs]; intros [|fuel] par prv Hb Ht Hf Hr; simpl in Hf; try lia; [done|].
  destruct Hr as (H1 & _ & H3). cbn [last_sibling rootp]. rewrite (node_deref _ _ _ H1). cbn [obind next name dup_before].
  assert (s = Leaf ∨ s ≠ Leaf) as [->|Hs] by (destruct s; auto); [done|].
  rewrite length_app in Hf. specialize (IHs fuel par (Some a) Hb Hs ltac:(lia) H3).
  destruct s as [|a2 k2 i2 nm2 l2 c2 s2]; [done|]. cbn [rootp] in *. rewrite (node_deref _ _ _ Hb). cbn [obind].
  destruct (decide (nm = name nb)); [by rewrite bool_decide_eq_true_2|]. rewrite bool_decide_eq_false_2 by done. exact IHs.
Qed.

(** What the store holds at a node of the tree. *)
Lemma rep_children h a c t : ∀ par prv,
  rep h par prv t → children a t = Some c →
  ∃ n, h !! a = Some n ∧ first_child n = rootp c ∧ rep h (Some a) None c.
Proof.
  induction t as [|b k i nm l ch IHc s IHs]; intros par prv Hr Hc; [done|]. simpl in Hc. destruct Hr as (H1 & H2 & H3).
  case_decide as E; [subst b; injection Hc as ->; by eexists|].
  destruct (children a ch) as [r|] eqn:Er; [|by eapply IHs]. injection Hc as ->. by eapply IHc.
Qed.

Lemma NoDup_children a c t : NoDup (addrs t) → children a t = Some c → NoDup (addrs c) ∧ a ∉ addrs c.
Proof.
  induction t as [|b k i nm l ch IHc s IHs]; intros Hn Hc; [done|]. simpl in Hc.
  apply NoDup_node in Hn as (N1 & N2 & N3 & N4 & N5). case_decide as E; [subst b; by injection Hc as ->|].
  destruct (children a ch) as [r|] eqn:Er; [injection Hc as ->|]; auto.
Qed.

Lemma children_length a c t : children a t = Some c → (length (addrs c) <= length (addrs t))%nat.
Proof.
  induction t as [|b k i nm l ch IHc s IHs]; intros Hc; [done|]. simpl in Hc |- *. rewrite length_app.
  case_decide; [injection Hc as ->; lia|]. destruct (children a ch) as [r|]; [injection Hc as ->; specialize (IHc eq_refl)|specialize (IHs Hc)]; lia.
Qed.

Lemma rep_last_parent h par t q nq : ∀ prv,
  rep h par prv t → lastp t = Some q → h !! q = Some nq → parent nq = par.
Proof.
  induction t as [|p k i nm l ch _ s IHs]; intros prv Hr Hq Enq; [done|]. destruct Hr as (H1 & _ & H3).
  destruct s as [|]; [injection Hq as ->; rewrite H1 in Enq; by injection Enq as <-|]. eapply IHs; [exact H3|done|done].
Qed.

(** [appendChild] of a new node whose name no child has. *)
Lemma appendChild_spec h a b k i x c t par prv :
  rep h par prv t → NoDup (addrs t) → children a t = Some c → b ∉ addrs t →
  h !! b = Some (mkFile k i x None None None None None) → dup_before x c = false →
  ∃ h', appendChild (Some a) (Some b) h = Done (true, h') ∧
    rep h' par prv (set_children a (snoc c (Nd b k i x None Leaf Leaf)) t) ∧
    ∀ p, p ∉ b :: addrs t → h' !! p = h !! p.
Proof.
  intros Hr Hn Hc Hb Eb Hd. destruct (rep_children _ _ _ _ _ _ Hr Hc) as (n & En & Hfc & Hrc).
  destruct (NoDup_children _ _ _ Hn Hc) as [Nc Na]. destruct (children_in _ _ _ Hc) as [Ha Hsub].
  unfold appendChild. rewrite (node_deref _ _ _ En). cbn [obind]. rewrite Hfc.
  assert (c = Leaf ∨ c ≠ Leaf) as [->|Hne] by (destruct c; auto).
  - cbn [rootp]. unfold update. rewrite En. cbn [obind]. rewrite lookup_insert_ne, Eb by set_solver. cbn [obind].
    eexists. split; [done|]. split.
    + apply (rep_set_children h _ a Leaf); auto.
      * intros p Hp Hpa _. rewrite !lookup_insert_ne by set_solver. done.
      * intros n' Hn'. rewrite En in Hn'. injection Hn' as <-. by rewrite lookup_insert_ne, lookup_insert_eq by set_solver.
      * cbn [snoc rep rootp]. by rewrite lookup_insert_eq.
    + intros p Hp. rewrite !lookup_insert_ne by set_solver. done.
  - destruct (lastp_some c Hne) as [q Hq]. pose proof (lastp_in _ _ Hq) as Hqin.
    pose proof (tree_size _ _ _ _ Hr Hn). pose proof (children_length _ _ _ Hc).
    pose proof (last_sibling_spec h b _ c (S (size h)) (Some a) None Eb Hne ltac:(lia) Hrc) as El. cbn [name] in El. rewrite Hd, Hq in El.
    destruct (rep_dom _ _ _ _ _ Hrc Hqin) as [nq Enq].
    replace (rootp c) with (Some (default a (rootp c))) in El |- * by (by destruct c).
    rewrite El. cbn [obind]. rewrite (setNext_eq h q b nq _) by (auto; set_solver). cbn [obind].
    pose proof (rep_last_parent _ _ _ _ _ _ Hrc Hq Enq) as Hpar.
    eexists. split; [done|]. split.
    + apply (rep_set_children h _ a c); auto.
      * intros p Hp Hpa Hpc. rewrite !lookup_insert_ne by set_solver. done.
      * intros n' Hn'. rewrite En in Hn'. injection Hn' as <-. rewrite rootp_snoc, <- Hfc by done.
        rewrite !lookup_insert_ne by set_solver. rewrite En. by destruct n.
      * eapply (rep_snoc h); eauto.
        -- intros p Hp Hpq. rewrite !lookup_insert_ne by set_solver. done.
        -- by rewrite lookup_insert_ne, lookup_insert_eq by set_solver.
        -- rewrite lookup_insert_eq, Hpar. done.
    + intros p Hp. rewrite !lookup_insert_ne by set_solver. done.
Qed.

(** ** Lookups after an insertion *)

Lemma find_sib_addrs x t p : p ∈ addrs (find_sib x t) → p ∈ addrs t.
Proof. induction t as [|a k i nm l c _ s IHs]; cbn [find_sib]; [done|]. case_decide; [done|]. set_solver. Qed.

Lemma find_sib_NoDup x t : NoDup (addrs t) → NoDup (addrs (find_sib x t)).
Proof.
  induction t as [|a k i nm l c _ s IHs]; cbn [find_sib]; [done|]. case_decide; [done|].
  intros (_ & _ & _ & Hn & _)%NoDup_node. auto.
Qed.

Lemma find_sib_set a c' x t :
  NoDup (addrs t) → find_sib x (set_children a c' t) = set_children a c' (find_sib x t).
Proof.
  induction t as [|b k i nm l c _ s IHs]; intros Hn; [done|]. apply NoDup_node in Hn as (N1 & N2 & N3 & N4 & N5).
  cbn [set_children]. destruct (decide (b = a)) as [->|Hab]; cbn [find_sib]; case_decide.
  - cbn [set_children]. by rewrite decide_True.
  - rewrite set_children_out; [done|]. intros H'%find_sib_addrs. done.
  - cbn [set_children]. by rewrite decide_False.
  - by apply IHs.
Qed.

Lemma children_some a t : a ∈ addrs t → is_Some (children a t).
Proof.
  induction t as [|b k i nm l c IHc s IHs]; simpl; intros Ha; [by apply elem_of_nil in Ha|].
  case_decide; [eauto|]. apply elem_of_cons in Ha as [->|[Ha|Ha]%elem_of_app]; [done| |].
  - destruct (IHc Ha) as [r ->]. eauto.
  - destruct (children a c); eauto.
Qed.

Lemma children_below a c x t b k i nm l ch s :
  NoDup (addrs t) → children a t = Some c → find_sib x t = Nd b k i nm l ch s → a ∈ addrs ch →
  children a ch = Some c.
Proof.
  induction t as [|b0 k0 i0 nm0 l0 c0 _ s0 IHs]; intros Hn Hc Hf Ha; [done|].
  apply NoDup_node in Hn as (N1 & N2 & N3 & N4 & N5). cbn [find_sib] in Hf. simpl in Hc.
  destruct (decide (nm0 = x)); simplify_eq.
  - injection Hf as <- <- <- <- <- <- <-. destruct (children_some _ _ Ha) as [r Hr]. rewrite decide_False, Hr in Hc by congruence. congruence.
  - assert (a ∈ addrs s0) as Hin by (apply (find_sib_addrs x); rewrite Hf; simpl; set_solver).
    rewrite decide_False in Hc by congruence. rewrite children_none in Hc by set_solver. auto.
Qed.

Lemma find_sib_snoc y c b k i x l :
  find_sib y (snoc c (Nd b k i x l Leaf Leaf)) =
  match find_sib y c with
  | Leaf => if decide (x = y) then Nd b k i x l Leaf Leaf else Leaf
  | u => snoc u (Nd b k i x l Leaf Leaf)
  end.
Proof.
  induction c as [|a0 k0 i0 nm0 l0 c0 _ s0 IHs]; [done|]. cbn [snoc find_sib]. destruct (decide (nm0 = y)); [done|]. exact IHs.
Qed.

Lemma lookup_leaf path : lookup_path path Leaf = None.
Proof. by destruct path. Qed.

Lemma lookup_snoc path c b k i x l :
  find_sib x c = Leaf →
  lookup_path path (snoc c (Nd b k i x l Leaf Leaf)) =
  if decide (path = [x]) then Some (b, k) else lookup_path path c.
Proof.
  intros Hx. destruct path as [|y rest]; [by rewrite decide_False|]. cbn [lookup_path]. rewrite find_sib_snoc.
  destruct (decide (x = y)) as [<-|Hne].
  - rewrite Hx. destruct rest; [by rewrite decide_True|]. rewrite decide_False by congruence. apply lookup_leaf.
  - rewrite decide_False by congruence. by destruct (find_sib y c).
Qed.

Lemma lookup_in path a k : ∀ t, lookup_path path t = Some (a, k) → a ∈ addrs t.
Proof.
  induction path as [|w path IH]; intros t H; [done|]. cbn [lookup_path] in H.
  destruct (find_sib w t) as [|a1 k1 i1 nm1 l1 c1 s1] eqn:E; [done|]. apply (find_sib_addrs w). rewrite E. simpl.
  destruct path as [|z path]; [injection H as ->; set_solver|]. apply IH in H. set_solver.
Qed.

Lemma children_found y t a k i nm l c s :
  NoDup (addrs t) → find_sib y t = Nd a k i nm l c s → children a t = Some c.
Proof.
  induction t as [|b0 k1 i1 nm1 l1 c1 _ s1 IHs]; intros Hn Ef; [done|]. apply NoDup_node in Hn as (M1 & M2 & M3 & M4 & M5).
  cbn [find_sib children] in *. destruct (decide (nm1 = y)); [injection Ef as <- <- <- <- <- <- <-; by rewrite decide_True|].
  assert (a ∈ addrs s1) as Hin by (apply (find_sib_addrs y); rewrite Ef; simpl; set_solver).
  rewrite decide_False by congruence. rewrite children_none by set_solver. auto.
Qed.

(** Only the path of the new node changes. *)
Lemma lookup_graft a c b k i x l path : ∀ t,
  NoDup (addrs t) → children a t = Some c → find_sib x c = Leaf →
  let t' := set_children a (snoc c (Nd b k i x l Leaf Leaf)) t in
  (∀ ka, lookup_path path t = Some (a, ka) → lookup_path (path ++ [x]) t' = Some (b, k)) ∧
  ((∀ p, path = p ++ [x] → fst <$> lookup_path p t ≠ Some a) → lookup_path path t' = lookup_path path t).
Proof.
  induction path as [|y rest IH]; intros t Hn Hc Hx; [done|]. intros t'. unfold t'.
  cbn [lookup_path app]. rewrite find_sib_set by done. pose proof (find_sib_NoDup y _ Hn) as Hn'.
  destruct (find_sib y t) as [|a0 k0 i0 nm0 l0 c0 s0] eqn:Ef; [done|].
  apply NoDup_node in Hn' as (N1 & N2 & N3 & N4 & N5). cbn [set_children].
  destruct (decide (a0 = a)) as [->|Hne].
  - assert (c0 = c) as -> by (pose proof (children_found _ _ _ _ _ _ _ _ _ Hn Ef); congruence). split.
    + intros ka. destruct rest as [|z rest]; simpl app; [|by intros H%lookup_in].
      intros _. pose proof (lookup_snoc [x] c b k i x l Hx) as E. rewrite decide_True in E by done. exact E.
    + intros Hp. destruct rest as [|z rest]; [done|]. rewrite lookup_snoc by done. case_decide as E; [|done].
      exfalso. injection E as -> ->. apply (Hp [y] eq_refl). cbn [lookup_path]. by rewrite Ef.
  - destruct (decide (a ∈ addrs c0)) as [Hin|Hout].
    + pose proof (children_below _ _ _ _ _ _ _ _ _ _ _ Hn Hc Ef Hin) as Hc0. destruct (IH c0 N3 Hc0 Hx) as [IH1 IH2]. split.
      * intros ka. destruct rest as [|z rest]; simpl app; [intros [=]; congruence|]. apply IH1.
      * intros Hp. destruct rest as [|z rest]; [done|]. apply IH2. intros p Ep Hl. destruct p as [|w p]; [done|].
        apply (Hp (y :: w :: p)); [by rewrite Ep|]. cbn [lookup_path] in Hl |- *. by rewrite Ef.
    + rewrite (set_children_out _ _ c0) by done. split; [|done]. intros ka.
      destruct rest as [|z rest]; simpl app; [intros [=]; congruence|by intros H%lookup_in].
Qed.

Lemma lookup_app path x a ka c : ∀ t,
  NoDup (addrs t) → children a t = Some c → lookup_path path t = Some (a, ka) →
  lookup_path (path ++ [x]) t = lookup_path [x] c.
Proof.
  induction path as [|y rest IH]; intros t Hn Hc Hl; [done|]. cbn [lookup_path app] in Hl |- *.
  pose proof (find_sib_NoDup y _ Hn) as Hn'. destruct (find_sib y t) as [|a0 k0 i0 nm0 l0 c0 s0] eqn:Ef; [done|].
  apply NoDup_node in Hn' as (N1 & N2 & N3 & N4 & N5). destruct rest as [|z rest]; simpl app.
  - injection Hl as -> ->. pose proof (children_found _ _ _ _ _ _ _ _ _ Hn Ef) as Hc0. by simplify_eq.
  - pose proof (lookup_in _ _ _ _ Hl) as Hin. apply (IH c0); auto. exact (children_below _ _ _ _ _ _ _ _ _ _ _ Hn Hc Ef Hin).
Qed.

Lemma addrs_snoc c new : addrs (snoc c new) = addrs c ++ addrs new.
Proof. induction c as [|a k i nm l ch _ s IHs]; [done|]. simpl. by rewrite IHs, !app_assoc. Qed.

Lemma addrs_set_children a c c' t :
  NoDup (addrs t) → children a t = Some c → addrs (set_children a c' t) ++ addrs c ≡ₚ addrs t ++ addrs c'.
Proof.
  induction t as [|b k i nm l ch IHc s IHs]; intros Hn Hc; [done|]. simpl in Hc. cbn [set_children].
  apply NoDup_node in Hn as (N1 & N2 & N3 & N4 & N5). case_decide as E.
  - injection Hc as ->. simpl. by solve_Permutation.
  - simpl. destruct (children a ch) as [r|] eqn:Er.
    + injection Hc as ->. destruct (children_in _ _ _ Er) as [Hin _]. rewrite (set_children_out _ _ s) by set_solver.
      specialize (IHc N3 eq_refl). constructor. rewrite <- !app_assoc, (Permutation_app_comm (addrs s) (addrs c)), app_assoc, IHc.
      solve_Permutation.
    + destruct (children_in _ _ _ Hc) as [Hin _]. rewrite (set_children_out _ _ ch) by set_solver.
      specialize (IHs N4 Hc). constructor. by rewrite <- !app_assoc, IHs.
Qed.

Lemma addrs_graft a c b k i x l t :
  NoDup (addrs t) → children a t = Some c →
  addrs (set_children a (snoc c (Nd b k i x l Leaf Leaf)) t) ≡ₚ b :: addrs t.
Proof.
  intros Hn Hc. pose proof (addrs_set_children a c (snoc c (Nd b k i x l Leaf Leaf)) t Hn Hc) as H.
  rewrite addrs_snoc in H. apply (Permutation_app_inv_r (addrs c)). rewrite H. simpl. solve_Permutation.
Qed.

(** Children with the same lookups. *)
Lemma lookup_set_same a c c' path : ∀ t,
  NoDup (addrs t) → children a t = Some c → (∀ p, lookup_path p c' = lookup_path p c) →
  lookup_path path (set_children a c' t) = lookup_path path t.
Proof.
  induction path as [|y rest IH]; intros t Hn Hc Hs; [done|]. cbn [lookup_path]. rewrite find_sib_set by done.
  pose proof (find_sib_NoDup y _ Hn) as Hn'. destruct (find_sib y t) as [|a0 k0 i0 nm0 l0 c0 s0] eqn:Ef; [done|].
  apply NoDup_node in Hn' as (N1 & N2 & N3 & N4 & N5). cbn [set_children]. destruct (decide (a0 = a)) as [->|Hne].
  - pose proof (children_found _ _ _ _ _ _ _ _ _ Hn Ef) as Hc0. assert (c0 = c) as -> by congruence.
    destruct rest; [done|apply Hs].
  - destruct rest as [|z rest]; [done|]. destruct (decide (a ∈ addrs c0)) as [Hin|Hout].
    + apply IH; [done| |done]. exact (children_below _ _ _ _ _ _ _ _ _ _ _ Hn Hc Ef Hin).
    + by rewrite set_children_out.
Qed.

Lemma lookup_snoc_dup path c b k i x l :
  find_sib x c ≠ Leaf → lookup_path path (snoc c (Nd b k i x l Leaf Leaf)) = lookup_path path c.
Proof.
  intros Hx. destruct path as [|y rest]; [done|]. cbn [lookup_path]. rewrite find_sib_snoc.
  destruct (find_sib y c) eqn:E; [|done]. rewrite decide_False; [done|]. by intros ->.
Qed.

(** [appendChild] of a name that a child before the last one has. *)
Lemma appendChild_dup h a b nb c t par prv :
  rep h par prv t → NoDup (addrs t) → children a t = Some c → h !! b = Some nb → dup_before (name nb) c = true →
  appendChild (Some a) (Some b) h = Done (false, h).
Proof.
  intros Hr Hn Hc Hb Hd. destruct (rep_children _ _ _ _ _ _ Hr Hc) as (n & En & Hfc & Hrc).
  pose proof (tree_size _ _ _ _ Hr Hn). pose proof (children_length _ _ _ Hc).
  unfold appendChild. rewrite (node_deref _ _ _ En). cbn [obind]. rewrite Hfc.
  assert (c ≠ Leaf) as Hne by (by intros ->).
  pose proof (last_sibling_spec h b nb c (S (size h)) (Some a) None Hb Hne ltac:(lia) Hrc) as El.
  destruct c as [|c0 k0 i0 nm0 l0 ch s]; [done|]. cbn [rootp] in *. rewrite El, Hd. done.
Qed.

(** ** Paths are unique *)

Lemma siblings_disjoint x y t : ∀ a1 k1 i1 n1 l1 c1 s1 a2 k2 i2 n2 l2 c2 s2 p,
  NoDup (addrs t) → x ≠ y → find_sib x t = Nd a1 k1 i1 n1 l1 c1 s1 → find_sib y t = Nd a2 k2 i2 n2 l2 c2 s2 →
  p ∈ a1 :: addrs c1 → p ∉ a2 :: addrs c2.
Proof.
  induction t as [|a k i nm l c _ s IHs]; intros a1 k1 i1 n1 l1 c1 s1 a2 k2 i2 n2 l2 c2 s2 p Hn Hne H1 H2; [done|].
  apply NoDup_node in Hn as (N1 & N2 & N3 & N4 & N5). cbn [find_sib] in H1, H2.
  destruct (decide (nm = x)) as [Ex|Ex].
  - rewrite decide_False in H2 by congruence. injection H1 as <- <- <- <- <- <- <-. intros Hp Hq.
    assert (p ∈ addrs s) by (apply (find_sib_addrs y); rewrite H2; simpl; set_solver). set_solver.
  - destruct (decide (nm = y)) as [Ey|Ey]; [|by eapply IHs].
    injection H2 as <- <- <- <- <- <- <-. intros Hp Hq.
    assert (p ∈ addrs s) by (apply (find_sib_addrs x); rewrite H1; simpl; set_solver). set_solver.
Qed.

Lemma lookup_head x path t a k a0 k0 i0 nm0 l0 c0 s0 :
  find_sib x t = Nd a0 k0 i0 nm0 l0 c0 s0 → lookup_path (x :: path) t = Some (a, k) →
  a ∈ a0 :: addrs c0.
Proof.
  intros E. cbn [lookup_path]. rewrite E. destruct path as [|z path]; [intros [= ->]; set_solver|].
  intros H%lookup_in. set_solver.
Qed.

Lemma lookup_unique p1 a k1 k2 : ∀ p2 t,
  NoDup (addrs t) → lookup_path p1 t = Some (a, k1) → lookup_path p2 t = Some (a, k2) → p1 = p2.
Proof.
  induction p1 as [|x p1 IH]; intros [|y p2] t Hn H1 H2; try done.
  destruct (find_sib x t) as [|a1 c1k c1i c1n c1l c1 s1] eqn:E1; [by simpl in H1; rewrite E1 in H1|].
  destruct (find_sib y t) as [|a2 c2k c2i c2n c2l c2 s2] eqn:E2; [by simpl in H2; rewrite E2 in H2|].
  pose proof (lookup_head _ _ _ _ _ _ _ _ _ _ _ _ E1 H1) as I1. pose proof (lookup_head _ _ _ _ _ _ _ _ _ _ _ _ E2 H2) as I2.
  destruct (decide (x = y)) as [<-|Hne]; [|by destruct (siblings_disjoint _ _ _ _ _ _ _ _ _ _ _ _ _ _ _ _ _ _ Hn Hne E1 E2 I1)].
  rewrite E1 in E2. injection E2 as <- <- <- <- <- <- <-. cbn [lookup_path] in H1, H2. rewrite E1 in H1, H2.
  pose proof (find_sib_NoDup x _ Hn) as Hn'. rewrite E1 in Hn'. apply NoDup_node in Hn' as (N1 & _ & N3 & _ & _).
  destruct p1 as [|z1 p1], p2 as [|z2 p2]; simplify_eq; try done.
  - by apply lookup_in in H2.
  - by apply lookup_in in H1.
  - f_equal. by apply (IH _ c1).
Qed.

(** * The virtual file system *)

Section vfs.
Context {D : Type} {BD : BlockDevice D}.
Implicit Types v : VFS D.

(** The tree below the root node. *)
Record tree_ok v (T : forest) : Prop := mkTreeOk {
  tr_root : root v = rootp T;
  tr_rep : rep (files v) None None T;
  tr_nodup : NoDup (addrs T);
  tr_shape : ∃ r k i nm l t, T = Nd r k i nm l t Leaf
}.

Definition vfs_lookup (path : list (list Z)) (T : forest) : option (positive * IFS) :=
  match T with
  | Leaf => None
  | Nd r k _ _ _ t _ => match path with [] => Some (r, k) | _ => lookup_path path t end
  end.

Lemma vfs_lookup_graft a c b k i x l path ka T v :
  tree_ok v T → children a T = Some c → find_sib x c = Leaf → 
  let T' := set_children a (snoc c (Nd b k i x l Leaf Leaf)) T in
  (vfs_lookup path T = Some (a, ka) → vfs_lookup (path ++ [x]) T' = Some (b, k)) ∧
  ((∀ p, path = p ++ [x] → fst <$> vfs_lookup p T ≠ Some a) → vfs_lookup path T' = vfs_lookup path T).
Proof.
  intros [_ _ Hn (r & kr & ir & nmr & lr & t & ->)] Hc Hx T'. unfold T'.
  apply NoDup_node in Hn as (N1 & _ & N3 & _ & _). simpl in Hc. cbn [set_children].
  destruct (decide (r = a)) as [->|Hra].
  - injection Hc as ->. cbn [vfs_lookup]. split.
    + destruct path as [|y path]; simpl app; [|by intros H%lookup_in]. intros _.
      rewrite lookup_snoc by done. by rewrite decide_True.
    + intros Hp. destruct path as [|y path]; [done|]. rewrite lookup_snoc by done. case_decide as E; [|done].
      exfalso. apply (Hp []); [done|]. done.
  - destruct (children a t) as [c0|] eqn:Et; [|done]. injection Hc as ->.
    destruct (lookup_graft a c b k i x l path t N3 Et Hx) as [H1 H2]. cbn [vfs_lookup]. split.
    + destruct path as [|y path]; simpl app; [congruence|]. apply H1.
    + intros Hp. destruct path as [|y path]; [done|]. apply H2. intros p Ep. specialize (Hp p Ep). by destruct p.
Qed.

(** A path other than "/" is looked up below the root's first child. *)
Lemma VFS_search_spec v r k i nm l t p :
  tree_ok v (Nd r k i nm l t Leaf) → p ≠ [SLASH] → t ≠ Leaf →
  VFS_search (root v) (Some p) (files v) = Done (fst <$> lookup_path (components [] p) t).
Proof.
  intros [Hroot Hr Hn _] Hp Ht. unfold VFS_search. rewrite decide_False, Hroot by done. cbn [rootp].
  pose proof (tree_size _ _ _ _ Hr Hn) as Hsz. destruct Hr as (H1 & H2 & _). rewrite (node_deref _ _ _ H1). cbn [obind first_child].
  unfold search_path. destruct t as [|a0 k0 i0 nm0 l0 c0 s0]; [done|]. cbn [rootp]. rewrite split_components. cbn [obind].
  apply (node_search_spec _ _ (Some r) None (Nd a0 k0 i0 nm0 l0 c0 s0) H2). simpl in Hsz |- *. rewrite app_nil_r in Hsz. lia.
Qed.

Lemma component_join_ne (l : list (list Z)) : Forall component l → l ≠ [] → joinAbsolutePath l ≠ [SLASH].
Proof.
  intros Hl Hne. destruct Hl as [|c l [Hc _] Hl]; [done|]. rewrite join_cons. intros [=H]. by destruct c.
Qed.

Lemma take_pred_snoc {A} (l : list A) x : take (pred (length (l ++ [x]))) (l ++ [x]) = l.
Proof. rewrite length_app, Nat.add_1_r. simpl pred. apply take_app_length. Qed.

Lemma components_root p : components [] p ≠ [] → p ≠ [SLASH].
Proof. by intros H ->. Qed.

Lemma searchFather_spec v T p l x :
  tree_ok v T → components [] p = l ++ [x] → (l ≠ [] → children (default 1%positive (root v)) T ≠ Some Leaf) →
  searchFather (root v) p (files v) = Done (fst <$> vfs_lookup l T).
Proof.
  intros Hok Hp Ht. pose proof (components_ok p [] (not_elem_of_nil _)) as Hc. rewrite Hp in Hc.
  apply Forall_app in Hc as [Hc _]. pose proof Hok as [Hroot _ _ (r & k & i & nm & lk & t & ->)].
  unfold searchFather. rewrite split_components, Hp. cbn [obind]. destruct l as [|y l]; [by rewrite Hroot|].
  rewrite Hroot in Ht. simpl in Ht. rewrite decide_True in Ht by done.
  assert (t ≠ Leaf) as Htl by (intros ->; by apply Ht).
  rewrite (take_pred_snoc (y :: l) x).
  destruct l as [|z l]; simpl app; (rewrite (VFS_search_spec v r k i nm lk t) by (auto; by apply component_join_ne));
    by rewrite components_join by done.
Qed.

(** The parts of the state that the tree does not touch. *)
Definition same_world v v' : Prop :=
  root v' = root v ∧ main_fs v' = main_fs v ∧ dirInfo v' = dirInfo v ∧
  fat v' = fat v ∧ volume v' = volume v ∧ console v' = console v.

Lemma append_new_spec v T a c x k :
  tree_ok v T → children a T = Some c → find_sib x c = Leaf →
  ∃ v' b i, append_new (Some a) x k v = Done (true, v') ∧ b ∉ addrs T ∧ same_world v v' ∧
    tree_ok v' (set_children a (snoc c (Nd b k i x None Leaf Leaf)) T).
Proof.
  intros [Hroot Hr Hn Hs] Hc Hx. unfold append_new. cbn [new_File]. set (b := fresh (dom (files v))).
  set (h := <[b := mkFile k (global_ino v) x None None None None None]> (files v)).
  assert (files v !! b = None) as Hb by (apply not_elem_of_dom, is_fresh).
  assert (b ∉ addrs T) as HbT by (intros Hin; destruct (rep_dom _ _ _ _ _ Hr Hin); congruence).
  assert (rep h None None T) as Hr'.
  { eapply tree_frame; [|done]. intros p Hp. unfold h. rewrite lookup_insert_ne; [done|]. by intros <-. }
  destruct (appendChild_spec h a b k (global_ino v) x c T None None Hr' Hn Hc HbT) as (h' & E & Hr2 & _);
    [apply lookup_insert_eq|by apply dup_before_find|].
  cbn [files]. rewrite E. cbn [obind]. eexists _, b, (global_ino v). split; [done|]. split; [done|].
  split; [by repeat split|]. split.
  - rewrite rootp_set. exact Hroot.
  - exact Hr2.
  - rewrite addrs_graft by done. by apply NoDup_cons.
  - destruct Hs as (r & k0 & i0 & nm0 & l0 & t & ->). cbn [set_children]. case_decide; repeat eexists.
Qed.

Lemma vfs_lookup_app T v l x a ka c :
  tree_ok v T → children a T = Some c → vfs_lookup l T = Some (a, ka) →
  vfs_lookup (l ++ [x]) T = lookup_path [x] c.
Proof.
  intros [_ _ Hn (r & k & i & nm & lk & t & ->)] Hc Hl. apply NoDup_node in Hn as (N1 & _ & N3 & _ & _).
  cbn [vfs_lookup] in *. simpl in Hc. destruct l as [|y l].
  - injection Hl as -> ->. rewrite decide_True in Hc by done. by injection Hc as ->.
  - pose proof (lookup_in _ _ _ _ Hl) as Hin. rewrite decide_False in Hc by congruence. simpl app.
    destruct (children_some _ _ Hin) as [c0 Hc0]. rewrite Hc0 in Hc. injection Hc as ->.
    by apply (lookup_app (y :: l) x a ka c t).
Qed.

Lemma vfs_lookup_in T v l a ka : tree_ok v T → vfs_lookup l T = Some (a, ka) → a ∈ addrs T.
Proof.
  intros [_ _ _ (r & k & i & nm & lk & t & ->)] Hl. cbn [vfs_lookup] in Hl. simpl.
  destruct l as [|y l]; [injection Hl as -> ->; set_solver|]. apply lookup_in in Hl. set_solver.
Qed.

Lemma find_sib_lookup x c : lookup_path [x] c = None → find_sib x c = Leaf.
Proof. simpl. by destruct (find_sib x c). Qed.

(** What the store holds at a node that a lookup finds. *)
Lemma lookup_node path h a k : ∀ par prv t,
  rep h par prv t → lookup_path path t = Some (a, k) → ∃ n, h !! a = Some n ∧ fs n = k.
Proof.
  induction path as [|x path IH]; intros par prv t Hr Hl; [done|]. cbn [lookup_path] in Hl.
  destruct (find_sib_rep x h t par prv Hr) as (prv' & Hr' & _).
  destruct (find_sib x t) as [|a0 k0 i0 nm0 l0 c0 s0]; [done|]. destruct Hr' as (H1 & H2 & _).
  destruct path as [|y path]; [injection Hl as -> ->; by eexists|]. by eapply IH.
Qed.

Lemma vfs_lookup_node v T path a k :
  tree_ok v T → vfs_lookup path T = Some (a, k) → ∃ n, files v !! a = Some n ∧ fs n = k.
Proof.
  intros [_ Hr _ (r & k0 & i & nm & lk & t & ->)] Hl. cbn [vfs_lookup] in Hl. destruct Hr as (H1 & H2 & _).
  destruct path as [|y path]; [injection Hl as -> ->; by eexists|]. by eapply lookup_node.
Qed.

(** The path "/" or one with components is found where the tree has it. *)
Lemma VFS_search_found v T p a k :
  tree_ok v T → (p = [SLASH] ∨ components [] p ≠ []) → vfs_lookup (components [] p) T = Some (a, k) →
  VFS_search (root v) (Some p) (files v) = Done (Some a).
Proof.
  intros Hok Hp Hl. pose proof Hok as [Hroot _ _ (r & k0 & i & nm & lk & t & ->)]. destruct Hp as [->|Hp].
  - simpl in Hl. injection Hl as -> ->. unfold VFS_search. rewrite decide_True by done. by rewrite Hroot.
  - cbn [vfs_lookup] in Hl. destruct (components [] p) as [|y l] eqn:E; [done|].
    rewrite (VFS_search_spec v r k0 i nm lk t p Hok); [by rewrite E, Hl|by apply components_root; rewrite E|].
    intros ->. by rewrite lookup_leaf in Hl.
Qed.

Lemma ifs_mkdir_nodes k p flag v r v1 :
  ifs_mkdir k p flag v = Done (r, v1) → files v1 = files v ∧ root v1 = root v.
Proof. destruct k; simpl; intros H; try done. apply obind_done in H as ([[r0 s] w] & _ & [= <- <-]). done. Qed.

Lemma tree_ok_nodes v v1 T : files v1 = files v → root v1 = root v → tree_ok v T → tree_ok v1 T.
Proof. intros Hf Hr [H1 H2 H3 H4]. split; rewrite ?Hf, ?Hr; done. Qed.

Lemma vfs_lookup_unique v T p1 p2 a k1 k2 :
  tree_ok v T → vfs_lookup p1 T = Some (a, k1) → vfs_lookup p2 T = Some (a, k2) → p1 = p2.
Proof.
  intros [_ _ Hn (r & k0 & i & nm & lk & t & ->)] H1 H2. apply NoDup_node in Hn as (N1 & _ & N3 & _ & _).
  cbn [vfs_lookup] in *. destruct p1, p2; simplify_eq; try done.
  - by apply lookup_in in H2.
  - by apply lookup_in in H1.
  - by eapply lookup_unique.
Qed.

(** Appending at a path: the tree gains exactly that path. *)
Lemma append_new_lookup v T l x a ka k :
  tree_ok v T → vfs_lookup l T = Some (a, ka) → vfs_lookup (l ++ [x]) T = None →
  ∃ v' b T', append_new (Some a) x k v = Done (true, v') ∧ same_world v v' ∧ tree_ok v' T' ∧
    vfs_lookup (l ++ [x]) T' = Some (b, k) ∧ ∀ path, path ≠ l ++ [x] → vfs_lookup path T' = vfs_lookup path T.
Proof.
  intros Hok Hl Hnone. destruct (children_some _ _ (vfs_lookup_in _ _ _ _ _ Hok Hl)) as [c Hc].
  rewrite (vfs_lookup_app _ _ _ _ _ _ _ Hok Hc Hl) in Hnone. apply find_sib_lookup in Hnone.
  destruct (append_new_spec v T a c x k Hok Hc Hnone) as (v' & b & i & E & _ & Hw & Hok').
  exists v', b. eexists. split; [done|]. split; [done|]. split; [exact Hok'|]. split.
  - by eapply (vfs_lookup_graft a c b k i x None l ka T v).
  - intros path Hne. eapply (vfs_lookup_graft a c b k i x None path ka T v); auto.
    intros p -> Hp. apply Hne. f_equal. destruct (vfs_lookup p T) as [[a' k']|] eqn:Ep; [|done].
    simpl in Hp. injection Hp as ->. exact (vfs_lookup_unique v T p l a k' ka Hok Ep Hl).
Qed.

Lemma father_found v T p l x a ka :
  tree_ok v T → components [] p = l ++ [x] → vfs_lookup l T = Some (a, ka) →
  searchFather (root v) p (files v) = Done (Some a).
Proof.
  intros Hok Hp Hl. rewrite (searchFather_spec v T p l x Hok Hp); [by rewrite Hl|]. intros Hne.
  pose proof Hok as [Hroot _ _ (r & k & i & nm & lk & t & ->)]. rewrite Hroot. simpl. rewrite decide_True by done.
  intros [= ->]. destruct l as [|y l]; [done|]. simpl in Hl. done.
Qed.

(** [mkdir] on a path whose directory exists: a path that is there is left as
    it is, otherwise the tree gains exactly that path. *)
Lemma vfs_mkdir_step v T p l x k flag (real : bool) a ka v1 :
  tree_ok v T → components [] p = l ++ [x] → vfs_lookup l T = Some (a, ka) →
  (if real then ifs_mkdir ka p flag v = Done (0, v1) else v1 = v) →
  ∃ v', VFS_mkdir p flag k real v = Done (0, v') ∧ same_world v1 v' ∧
    (vfs_lookup (l ++ [x]) T ≠ None → v' = v1) ∧
    (vfs_lookup (l ++ [x]) T = None → ∃ b T', tree_ok v' T' ∧ vfs_lookup (l ++ [x]) T' = Some (b, k) ∧
       VFS_search (root v') (Some p) (files v') = Done (Some b) ∧
       ∀ path, path ≠ l ++ [x] → vfs_lookup path T' = vfs_lookup path T).
Proof.
  intros Hok Hp Hl Hreal. unfold VFS_mkdir. rewrite (father_found v T p l x a ka) by done. cbn [obind].
  destruct (vfs_lookup_node _ _ _ _ _ Hok Hl) as (n & Hn & Hk). rewrite (node_deref _ _ _ Hn). cbn [obind]. rewrite Hk.
  assert (tree_ok v1 T ∧ files v1 = files v) as [Hok1 Hf].
  { destruct real; [|by subst]. destruct (ifs_mkdir_nodes _ _ _ _ _ _ Hreal). split; [by eapply tree_ok_nodes|done]. }
  replace (if real then ifs_mkdir ka p flag v else Done (0, v)) with (Done (0, v1)) by (destruct real; congruence).
  cbn [obind Z.eqb]. rewrite split_components, Hp. cbn [obind]. rewrite last_snoc.
  rewrite Hf, (node_deref _ _ _ Hn). cbn [obind].
  pose proof (components_ok p [] (not_elem_of_nil _)) as Hc. rewrite Hp in Hc. apply Forall_app in Hc as [_ Hcx].
  destruct (children_some _ _ (vfs_lookup_in _ _ _ _ _ Hok Hl)) as [c Hch].
  destruct (rep_children _ _ _ _ _ _ (tr_rep _ _ Hok) Hch) as (n' & Hn' & Hfc & Hrc).
  assert (n' = n) as -> by congruence. rewrite Hfc.
  assert ((match rootp c with Some _ => search_path (rootp c) x (files v) | None => Done None end) =
          Done (fst <$> vfs_lookup (l ++ [x]) T)) as ->.
  { rewrite (vfs_lookup_app _ _ _ _ _ _ _ Hok Hch Hl). destruct c as [|b0 k0 i0 nm0 l0 c0 s0]; [done|].
    cbn [rootp]. unfold search_path. rewrite split_components. cbn [obind].
    inversion_clear Hcx as [|? ? [Hx1 Hx2] _]. rewrite (components_last x []) by done. destruct x as [|x0 x]; [done|]. simpl app.
    apply (node_search_spec _ _ (Some a) None (Nd b0 k0 i0 nm0 l0 c0 s0) Hrc).
    pose proof (tree_size _ _ _ _ (tr_rep _ _ Hok) (tr_nodup _ _ Hok)). pose proof (children_length _ _ _ Hch). lia. }
  cbn [obind]. destruct (vfs_lookup (l ++ [x]) T) as [[b kb]|] eqn:E; cbn [fmap option_fmap option_map fst].
  - exists v1. split; [done|]. split; [by repeat split|]. split; [done|]. done.
  - destruct (append_new_lookup v1 T l x a ka k Hok1 Hl E) as (v' & b & T' & Ea & Hw & Hok' & Hb & Ho).
    rewrite Ea. cbn [obind]. exists v'. split; [done|]. split; [done|]. split; [done|]. intros _.
    exists b, T'. split; [done|]. split; [done|]. split; [|done].
    eapply (VFS_search_found v' T' p b k); [done|right; rewrite Hp; by destruct l|by rewrite Hp].
Qed.

(** Appending a name that the directory has already. *)
Lemma append_new_dup v T l x a ka k :
  tree_ok v T → vfs_lookup l T = Some (a, ka) → vfs_lookup (l ++ [x]) T ≠ None →
  ∃ r v' T', append_new (Some a) x k v = Done (r, v') ∧ same_world v v' ∧ tree_ok v' T' ∧
    ∀ path, vfs_lookup path T' = vfs_lookup path T.
Proof.
  intros Hok Hl Hsome. pose proof Hok as [Hroot Hr Hn Hs].
  destruct (children_some _ _ (vfs_lookup_in _ _ _ _ _ Hok Hl)) as [c Hc].
  rewrite (vfs_lookup_app _ _ _ _ _ _ _ Hok Hc Hl) in Hsome.
  assert (find_sib x c ≠ Leaf) as Hx by (simpl in Hsome; by destruct (find_sib x c)).
  unfold append_new. cbn [new_File]. set (b := fresh (dom (files v))).
  set (h := <[b := mkFile k (global_ino v) x None None None None None]> (files v)).
  assert (files v !! b = None) as Hb by (apply not_elem_of_dom, is_fresh).
  assert (b ∉ addrs T) as HbT by (intros Hin; destruct (rep_dom _ _ _ _ _ Hr Hin); congruence).
  assert (rep h None None T) as Hr'.
  { eapply tree_frame; [|done]. intros p Hp. unfold h. rewrite lookup_insert_ne; [done|]. by intros <-. }
  assert (h !! b = Some (mkFile k (global_ino v) x None None None None None)) as Eb by apply lookup_insert_eq.
  cbn [files]. destruct (dup_before x c) eqn:Hd.
  - rewrite (appendChild_dup h a b _ c T None None Hr' Hn Hc Eb Hd). cbn [obind]. eexists false, _, T.
    split; [done|]. split; [by repeat split|]. split; [|done]. by split.
  - destruct (appendChild_spec h a b k (global_ino v) x c T None None Hr' Hn Hc HbT Eb Hd) as (h' & E & Hr2 & _).
    rewrite E. cbn [obind]. eexists true, _, _. split; [done|]. split; [by repeat split|]. split.
    + split; [rewrite rootp_set; exact Hroot|exact Hr2|rewrite addrs_graft by done; by apply NoDup_cons|].
      destruct Hs as (r & k0 & i0 & nm0 & l0 & t & ->). cbn [set_children]. case_decide; repeat eexists.
    + intros path. destruct Hs as (r & k0 & i0 & nm0 & l0 & t & ->). apply NoDup_node in Hn as (N1 & _ & N3 & _ & _).
      simpl in Hc. cbn [set_children]. destruct (decide (r = a)) as [->|Hra]; cbn [vfs_lookup]; destruct path as [|y path]; try done.
      * injection Hc as ->. by apply lookup_snoc_dup.
      * destruct (children a t) as [c0|] eqn:Et; [|done]. injection Hc as ->.
        apply (lookup_set_same a c); auto. intros p. by apply lookup_snoc_dup.
Qed.

Lemma ifs_open_nodes k p flag v r v1 :
  ifs_open k p flag v = Done (r, v1) → files v1 = files v ∧ root v1 = root v.
Proof.
  destruct k; simpl; intros H; try done; [|by injection H as <- <-..].
  apply obind_done in H as ([[r0 s] w] & _ & [= <- <-]). done.
Qed.

(** Calls go to the file system of the node at the path; a path that the tree
    does not have is refused. *)
Lemma vfs_dispatch v T p :
  tree_ok v T → components [] p ≠ [] → children (default 1%positive (root v)) T ≠ Some Leaf →
  match vfs_lookup (components [] p) T with
  | Some (b, k) =>
      (∀ buf n, VFS_write (Some p) buf n v = ifs_write k p buf n v) ∧
      (∀ n, VFS_read (Some p) n v = ifs_read k p n v) ∧
      (∀ off wh, VFS_lseek (Some p) off wh v = ifs_lseek k p off wh v) ∧
      VFS_close (Some p) v = ifs_close k p v ∧
      (∀ info st, VFS_fstat (Some p) info st v = ifs_fstat k p info st v) ∧
      (∀ flag, zbits flag O_CREATE = false → VFS_open p flag v = ifs_open k p flag v)
  | None =>
      (∀ buf n, VFS_write (Some p) buf n v = Done (-1, v)) ∧
      (∀ n, VFS_read (Some p) n v = Done (-1, [], v)) ∧
      (∀ off wh, VFS_lseek (Some p) off wh v = Done (-1, v)) ∧
      VFS_close (Some p) v = Done (-1, v) ∧
      (∀ info st, VFS_fstat (Some p) info st v = Done (-1, st, v)) ∧
      (∀ flag, zbits flag O_CREATE = false → VFS_open p flag v = Done (-1, v))
  end.
Proof.
  intros Hok Hp Hc. assert (VFS_search (root v) (Some p) (files v) = Done (fst <$> vfs_lookup (components [] p) T)) as Hs.
  { pose proof Hok as [Hroot _ _ (r & k0 & i & nm & lk & t & ->)]. rewrite Hroot in Hc. simpl in Hc. rewrite decide_True in Hc by done.
    rewrite (VFS_search_spec v r k0 i nm lk t p Hok); [|by apply components_root|congruence].
    cbn [vfs_lookup]. by destruct (components [] p). }
  unfold VFS_write, VFS_read, VFS_lseek, VFS_close, VFS_fstat, VFS_open, adapter. rewrite Hs.
  destruct (vfs_lookup (components [] p) T) as [[b k]|] eqn:E; cbn [obind fmap option_fmap option_map fst].
  - destruct (vfs_lookup_node _ _ _ _ _ Hok E) as (n & Hn & Hk). rewrite (node_deref _ _ _ Hn). cbn [obind]. rewrite Hk.
    split_and!; try done. by intros flag ->.
  - split_and!; try done. by intros flag ->.
Qed.

End vfs.
