(* ===== verification/KVfsTheorems.v ===== *)
(** Writing, seeking and reading through the virtual file system, devices as
    nodes of the tree, and a concrete tree. *)
From Stdlib Require Import ZArith Lia.
From stdpp Require Import base list numbers option gmap.
From S2P Require Import Prelude BlockDevice FfTypes FfWindow FfFat FfChain FfLfn FfDir FfFile FfRead FfWrite FfWriteLoop FfExample FfMount FfApi.
From S2P Require Import KBase KPath KFs KFd KVfs KVfsSpec.

Local Open Scope Z_scope.
Local Open Scope out_scope.

Section theorems.
Context {D : Type} {BD : BlockDevice D} {BL : BlockDeviceLaws D}.
Implicit Types v : VFS D.

Lemma tree_ok_fat v T s w : tree_ok v T → tree_ok (set_fat s w v) T.
Proof. by apply tree_ok_nodes. Qed.

(** The round trip from the top: a file that is open under its path is
    written through the virtual file system, rewound with [lseek] and read
    again; the calls return the number of bytes and the bytes written, and
    the tree and the console stay as they are. *)
Theorem vfs_write_lseek_read p v T b fp l buf count :
  tree_ok v T → components [] p ≠ [] → vfs_lookup (components [] p) T = Some (b, FatFs) →
  get_fil p (fat v) = Done fp → wf (volume v) → reliable (volume v) → sane (volume v) →
  valid_fil (volume v) fp → fil_ok (volume v) fp l →
  zbits (flag fp) FA_WRITE = true → zbits (flag fp) FA_READ = true →
  bytes buf → 0 <= count < 2 ^ 31 → count <= zlen buf → fptr fp + count < 2 ^ 31 →
  ∃ n v1 v2 v3,
    VFS_write (Some p) buf count v = Done (n, v1) ∧
    VFS_lseek (Some p) (fptr fp) 0 v1 = Done (fptr fp, v2) ∧
    VFS_read (Some p) n v2 = Done (n, zread buf 0 n, v3) ∧
    0 <= n <= count ∧ (n < count → full (volume v1)) ∧ tree_ok v3 T ∧ console v3 = console v.
Proof.
  intros Hok Hp Hl Hget Hwf HR Hs Hval Hf Hw Hr Hb Hc Hlen Hfit.
  assert (children (default 1%positive (root v)) T ≠ Some Leaf) as Hne.
  { pose proof Hok as [Hroot _ _ (r & k0 & i & nm & lk & t & ->)]. rewrite Hroot. simpl. rewrite decide_True by done.
    intros [= ->]. cbn [vfs_lookup] in Hl. destruct (components [] p); [done|]. by rewrite lookup_leaf in Hl. }
  destruct (fs_write_lseek_read p (fat v) (volume v) fp l buf count) as (n & s1 & w1 & s2 & w2 & s3 & w3 & E1 & E2 & E3 & Hn & Hfull & _); auto.
  assert (∀ s w, let v' := set_fat s w v in
    (∀ buf n, VFS_write (Some p) buf n v' = ifs_write FatFs p buf n v') ∧
    (∀ n, VFS_read (Some p) n v' = ifs_read FatFs p n v') ∧
    (∀ off wh, VFS_lseek (Some p) off wh v' = ifs_lseek FatFs p off wh v')) as Hroute.
  { intros s w v'. pose proof (vfs_dispatch v' T p (tree_ok_fat _ _ s w Hok) Hp Hne) as H. rewrite Hl in H. naive_solver. }
  destruct (Hroute (fat v) (volume v)) as (R1 & _ & _). destruct (Hroute s1 w1) as (_ & _ & R2). destruct (Hroute s2 w2) as (_ & R3 & _).
  exists n, (set_fat s1 w1 v), (set_fat s2 w2 v), (set_fat s3 w3 v).
  replace v with (set_fat (fat v) (volume v) v) at 1 by (by destruct v). rewrite R1, R2, R3. cbn [ifs_write ifs_lseek ifs_read set_fat fat volume].
  rewrite E1, E2, E3. cbn [obind]. split_and!; try done; [lia..|]. by apply tree_ok_fat.
Qed.

(** C15: [mkdir] of a path that was not there and whose directory exists adds
    exactly that path to the tree, as a node of the file system given; no
    other path changes, and the underlying file system only through its own
    [mkdir] when the node is to be real.  Calls on the path then reach that
    file system: what is written to a console node is printed, a null node
    swallows what is written, a zero node delivers zeros. *)
Theorem vfs_mkdir_correct v T p l x k flag (real : bool) a ka v1 :
  tree_ok v T → components [] p = l ++ [x] → vfs_lookup l T = Some (a, ka) → vfs_lookup (l ++ [x]) T = None →
  (if real then ifs_mkdir ka p flag v = Done (0, v1) else v1 = v) →
  ∃ v' b T', VFS_mkdir p flag k real v = Done (0, v') ∧ same_world v1 v' ∧ tree_ok v' T' ∧
    VFS_search (root v') (Some p) (files v') = Done (Some b) ∧ vfs_lookup (l ++ [x]) T' = Some (b, k) ∧
    (∀ path, path ≠ l ++ [x] → vfs_lookup path T' = vfs_lookup path T) ∧
    (k = StdoutFs → ∀ buf n, VFS_write (Some p) buf n v' = Done (n, print (take (Z.to_nat n) buf) v')) ∧
    (k = NullFs → ∀ buf n, VFS_write (Some p) buf n v' = Done (n, v')) ∧
    (k = ZeroFs → ∀ n, VFS_read (Some p) n v' = Done (n, replicate (Z.to_nat n) 0, v')).
Proof.
  intros Hok Hp Hl Hnone Hreal. destruct (vfs_mkdir_step v T p l x k flag real a ka v1 Hok Hp Hl Hreal) as (v' & E & Hw & _ & H).
  destruct (H Hnone) as (b & T' & Hok' & Hb & Hs & Ho). exists v', b, T'. do 6 (split; [done|]).
  assert (components [] p ≠ []) as Hne by (rewrite Hp; by destruct l).
  pose proof (vfs_dispatch v' T' p Hok' Hne) as R. rewrite Hp, Hb in R.
  destruct R as (R1 & R2 & _).
  - pose proof Hok' as [Hroot _ _ (r & k0 & i & nm & lk & t & ->)]. rewrite Hroot. simpl. rewrite decide_True by done.
    intros [= ->]. cbn [vfs_lookup] in Hb. destruct (l ++ [x]) eqn:El; [by destruct l|]. by rewrite lookup_leaf in Hb.
  - split_and!; intros ->; intros; rewrite ?R1, ?R2; done.
Qed.

(** [open] with O_CREATE passes the call to the file system of the
    directory; when that succeeds the path is in the tree, as a node of the
    same file system, and every other path is as before; when it fails the
    tree is unchanged. *)
Theorem vfs_create_correct v T p l x flag a ka fr v1 :
  tree_ok v T → components [] p = l ++ [x] → vfs_lookup l T = Some (a, ka) → zbits flag O_CREATE = true →
  ifs_open ka p flag v = Done (fr, v1) →
  ∃ v' T', VFS_open p flag v = Done (fr, v') ∧ same_world v1 v' ∧ tree_ok v' T' ∧
    (fr ≠ 0 → v' = v1 ∧ T' = T) ∧
    (fr = 0 → vfs_lookup (l ++ [x]) T = None → ∃ b, vfs_lookup (l ++ [x]) T' = Some (b, ka)) ∧
    (∀ path, path ≠ l ++ [x] ∨ vfs_lookup path T ≠ None → vfs_lookup path T' = vfs_lookup path T).
Proof.
  intros Hok Hp Hl Hfl Ho. unfold VFS_open. rewrite Hfl, split_components, Hp. cbn [obind]. rewrite last_snoc.
  rewrite (father_found v T p l x a ka) by done. cbn [obind].
  destruct (vfs_lookup_node _ _ _ _ _ Hok Hl) as (n & Hn & Hk). rewrite (node_deref _ _ _ Hn). cbn [obind]. rewrite Hk, Ho.
  cbn [obind]. destruct (ifs_open_nodes _ _ _ _ _ _ Ho) as [Hf Hr]. pose proof (tree_ok_nodes _ _ _ Hf Hr Hok) as Hok1.
  destruct (Z.eqb_spec fr 0) as [->|Hfr].
  - destruct (vfs_lookup (l ++ [x]) T) as [b0|] eqn:E.
    + destruct (append_new_dup v1 T l x a ka ka Hok1 Hl) as (r & v' & T' & Ea & Hw & Hok' & Hs); [congruence|].
      rewrite Ea. cbn [obind]. exists v', T'. split_and!; auto; done.
    + destruct (append_new_lookup v1 T l x a ka ka Hok1 Hl E) as (v' & b & T' & Ea & Hw & Hok' & Hb & Hs).
      rewrite Ea. cbn [obind]. exists v', T'. split_and!; auto; [done|by exists b|].
      intros path [Hne|Hne]; apply Hs; [done|]. by intros ->.
  - exists v1, T. split_and!; auto; try done.
Qed.

End theorems.

(** * A concrete tree *)

(** "/" with the file "/a" of FatFs, which is open, and the device "/n". *)
Definition ex_tree : forest :=
  Nd 1 FatFs 0 [47] None (Nd 2 FatFs 1 [97] None Leaf (Nd 3 NullFs 2 [110] None Leaf Leaf)) Leaf.

Definition ex_nodes : nodes :=
  <[1%positive := mkFile FatFs 0 [47] None (Some 2%positive) None None None]>
  (<[2%positive := mkFile FatFs 1 [97] (Some 1%positive) None None (Some 3%positive) None]>
  (<[3%positive := mkFile NullFs 2 [110] (Some 1%positive) None (Some 2%positive) None None]> ∅)).

Definition ex_vfs : VFS _ :=
  mkVFS ex_nodes 3 (Some 1%positive) FatFs (mkDirInfo 0 0 0 0 []) ex_fs_state ex_vol [].

Lemma ex_tree_ok : tree_ok ex_vfs ex_tree.
Proof.
  split.
  - reflexivity.
  - cbn [files ex_vfs]. repeat split; reflexivity.
  - apply (bool_decide_unpack _). reflexivity.
  - do 6 eexists. reflexivity.
Qed.

Lemma vfs_write_lseek_read_witness :
  ∃ n v1 v2 v3, VFS_write (Some [47; 97]) [1; 2; 3] 3 ex_vfs = Done (n, v1) ∧
    VFS_lseek (Some [47; 97]) (fptr ex_fil) 0 v1 = Done (fptr ex_fil, v2) ∧
    VFS_read (Some [47; 97]) n v2 = Done (n, zread [1; 2; 3] 0 n, v3).
Proof.
  destruct (vfs_write_lseek_read [47; 97] ex_vfs ex_tree 2 ex_fil ex_chain [1; 2; 3] 3 ex_tree_ok ltac:(discriminate)
    eq_refl eq_refl ex_wf ex_reliable ex_sane ex_valid_fil ex_fil_ok eq_refl eq_refl)
    as (n & v1 & v2 & v3 & E1 & E2 & E3 & _).
  - repeat constructor; unfold is_byte; lia.
  - lia.
  - unfold zlen. simpl. lia.
  - change (fptr ex_fil) with 0. lia.
  - exists n, v1, v2, v3. exact (conj E1 (conj E2 E3)).
Defined.

(** The console as a node "/n/c". *)
Lemma vfs_mkdir_correct_witness :
  ∃ v', VFS_mkdir [47; 110; 47; 99] 0 StdoutFs false ex_vfs = Done (0, v') ∧
    VFS_write (Some [47; 110; 47; 99]) [104; 105] 2 v' = Done (2, print [104; 105] v').
Proof.
  destruct (vfs_mkdir_correct ex_vfs ex_tree [47; 110; 47; 99] [[110]] [99] StdoutFs 0 false 3 NullFs ex_vfs ex_tree_ok
    eq_refl eq_refl eq_refl eq_refl) as (v' & b & T' & E & _ & _ & _ & _ & _ & H & _).
  exists v'. exact (conj E (H eq_refl [104; 105] 2)).
Defined.

Lemma vfs_create_correct_witness :
  ∃ v' T' b, VFS_open [47; 110; 47; 120] 0x40 ex_vfs = Done (0, v') ∧ tree_ok v' T' ∧
    vfs_lookup [[110]; [120]] T' = Some (b, NullFs).
Proof.
  destruct (vfs_create_correct ex_vfs ex_tree [47; 110; 47; 120] [[110]] [120] 0x40 3 NullFs 0 ex_vfs ex_tree_ok
    eq_refl eq_refl eq_refl eq_refl) as (v' & T' & E & _ & Hok & _ & H & _).
  destruct (H eq_refl eq_refl) as (b & Hb). exists v', T', b. exact (conj E (conj Hok Hb)).
Defined.
