(* ===== verification/KSyscall.v ===== *)
(** The file system calls of kernel/syscall.cpp, on the descriptors, pipes and
    files of the components below and on the memory of the process.

    The kernel runs on the page table of the process, so user pointers are
    used as they are; [umem] is that memory, an instance of [UserMemory].  A
    call ends like a pipe operation: it returns, or the process is descheduled
    or ended. *)
From Stdlib Require Import ZArith Lia.
From stdpp Require Import base list numbers option gmap strings.
From S2P Require Import Prelude BlockDevice FfTypes FfLfn FfDir FfApi KBase KPath KAbsPath KPipe KFs KFd KVfs KUser KProc.

Local Open Scope Z_scope.
Local Open Scope out_scope.

Definition AT_FDCWD : Z := -100.
Definition MAX_PATH_LENGTH : Z := 32.
Definition F_GETFL : Z := 3.
Definition ENOENT : Z := 2.

(** [ES_uname]: six texts in arrays of 65 characters. *)
Definition utsname_field (text : string) : list Z := let cs := chars text in cs ++ replicate (65 - length cs) 0.
Definition ES_uname : list Z :=
  concat (utsname_field <$> ["Linux"; "debian"; "5.10.0"; "5.10.0"; "riscv-64"; "educg.net"]%string).

(** The running process ([binds] is its [occupied_file_describer], [s_cwd] its
    working directory) and the kernel objects that its calls reach. *)
Record Sys (D M : Type) : Type := mkSys {
  table : FdTable;
  pipes : Pipes;
  vfs : VFS D;
  umem : M;
  s_cwd : list Z;
  binds : list (Z * Z);
  read_count : Z;
  write_count : Z
}.
Arguments mkSys {D M}.
Arguments table {D M}.
Arguments pipes {D M}.
Arguments vfs {D M}.
Arguments umem {D M}.
Arguments s_cwd {D M}.
Arguments binds {D M}.
Arguments read_count {D M}.
Arguments write_count {D M}.

Section syscalls.
Context {D : Type} {BD : BlockDevice D} {M : Type} {UM : UserMemory M}.
Implicit Types s : Sys D M.

(** A path of the process; null is [None].  The source takes paths to be
    shorter than PATH_BUFF_SIZE, which is PATH_MAX_LEN. *)
Definition user_path (m : M) (a : Z) : outcome (option (list Z)) :=
  if a =? 0 then Done None
  else do str := load_string (Z.to_nat PATH_MAX_LEN) m a in Done (Some str).

Definition set_vfs (v : VFS D) s : Sys D M :=
  mkSys (table s) (pipes s) v (umem s) (s_cwd s) (binds s) (read_count s) (write_count s).
Definition set_table (t : FdTable) s : Sys D M :=
  mkSys t (pipes s) (vfs s) (umem s) (s_cwd s) (binds s) (read_count s) (write_count s).
Definition set_umem (m : M) s : Sys D M :=
  mkSys (table s) (pipes s) (vfs s) m (s_cwd s) (binds s) (read_count s) (write_count s).
Definition set_pipes (ps : Pipes) (rc wc : Z) s : Sys D M :=
  mkSys (table s) ps (vfs s) (umem s) (s_cwd s) (binds s) rc wc.
Definition set_cwd (c : list Z) s : Sys D M :=
  mkSys (table s) (pipes s) (vfs s) (umem s) c (binds s) (read_count s) (write_count s).
Definition set_binds (b : list (Z * Z)) s : Sys D M :=
  mkSys (table s) (pipes s) (vfs s) (umem s) (s_cwd s) b (read_count s) (write_count s).

(** [file_describer_exists] and [file_describer_convert]. *)
Definition sysGetRealFd (fd : Z) s : outcome Z :=
  if map_exists (u64 fd) (binds s) then do r := map_get (u64 fd) (binds s) in Done (s32 r) else Done fd.

Definition file_describer_bind (file_id real : Z) s : Sys D M := set_binds (map_put file_id real (binds s)) s.

(** [strcpy] from a null pointer is undefined. *)
Definition atFdCWD (dir_fd : Z) (path : option (list Z)) s : outcome (list Z) :=
  do dir := (if dir_fd =? AT_FDCWD then Done (s_cwd s)
             else do (_, p) := GetFile dir_fd (table s) in Done p) in
  match path with
  | None => Done dir
  | Some p =>
      do r := getAbsolutePath (Some p) (Some dir) in
      match r with Some r => Done r | None => Wild end
  end.

(** The pipe mark of a descriptor that is in use. *)
Definition is_pipe_fd (fd : Z) s : outcome bool :=
  do d := slot fd (table s) in
  Done (match d with Some d => is_pipe_ d | None => false end).

(** The [int] that a pipe operation returns, as the [size_t] of the call. *)
Definition as_size (e : pipe_exit) : pipe_exit := match e with Return n => Return (u64 n) | _ => e end.

(** The arguments are the registers a0, a1, ...; results are of type [size_t]. *)
Definition sys_write (a0 a1 a2 : Z) s : outcome (pipe_exit * Sys D M) :=
  do fd := sysGetRealFd (s32 a0) s in
  let count := s32 a2 in
  do p := is_pipe_fd fd s in
  if p then
    do buf := load_bytes (umem s) a1 count in
    do (e, wc, ps) := Write fd buf count (write_count s) (pipes s) in
    Done (as_size e, set_pipes ps (read_count s) wc s)
  else
    do (_, path) := GetFile fd (table s) in
    do buf := load_bytes (umem s) a1 (u32 count) in
    do (n, v) := VFS_write (Some path) buf count (vfs s) in
    Done (Return (u64 n), set_vfs v s).

Definition sys_read (a0 a1 a2 : Z) s : outcome (pipe_exit * Sys D M) :=
  do fd := sysGetRealFd (s32 a0) s in
  let count := s32 a2 in
  do p := is_pipe_fd fd s in
  if p then
    do (e, bs, rc, ps) := Read fd count (read_count s) (pipes s) in
    do m := ustore a1 bs (umem s) in
    Done (as_size e, set_umem m (set_pipes ps rc (write_count s) s))
  else
    do (_, path) := GetFile fd (table s) in
    do (n, bs, v) := VFS_read (Some path) count (vfs s) in
    do m := ustore a1 bs (umem s) in
    Done (Return (u64 n), set_umem m (set_vfs v s)).

Definition sys_openat (a0 a1 a2 : Z) s : outcome (pipe_exit * Sys D M) :=
  do dir_fd := sysGetRealFd (s32 a0) s in
  do filename := user_path (umem s) a1 in
  let flag := s32 a2 in
  do fd := FindUnUsedFd (table s) in
  do path := atFdCWD dir_fd filename s in
  do (fr, t, v) := OpenNewFile path flag fd (table s) (vfs s) in
  Done (Return (u64 (if fr =? 0 then fd else -1)), set_table t (set_vfs v s)).

Definition sys_close (a0 : Z) s : outcome (pipe_exit * Sys D M) :=
  do fd := sysGetRealFd (s32 a0) s in
  do (t, v) := TryCloseFile fd (table s) (vfs s) in
  Done (Return 0, set_table t (set_vfs v s)).

Definition sys_dup (a0 : Z) s : outcome (pipe_exit * Sys D M) :=
  do fd := sysGetRealFd (s32 a0) s in
  do new_fd := FindUnUsedFd (table s) in
  let s := file_describer_bind new_fd new_fd s in
  do (t, v) := CopyFd fd new_fd (table s) (vfs s) in
  Done (Return (u64 new_fd), set_table t (set_vfs v s)).

Definition sys_dup3 (a0 a1 : Z) s : outcome (pipe_exit * Sys D M) :=
  do old_fd := sysGetRealFd (s32 a0) s in
  do new_fd := sysGetRealFd (s32 a1) s in
  if old_fd =? new_fd then Done (Return (u64 (-1)), s)
  else
    do (t, v) := CopyFd old_fd new_fd (table s) (vfs s) in
    Done (Return (u64 new_fd), set_table t (set_vfs v s)).

(** The result is copied into [cwd] of MAX_PATH_LENGTH characters. *)
Definition sys_chdir (a0 : Z) s : outcome (pipe_exit * Sys D M) :=
  do path := user_path (umem s) a0 in
  do r := getAbsolutePath path (Some (s_cwd s)) in
  match r with
  | None => Wild
  | Some r => if MAX_PATH_LENGTH <=? zlen r then Wild else Done (Return 0, set_cwd r s)
  end.

Definition sys_getdents64 (a0 a1 a2 : Z) s : outcome (pipe_exit * Sys D M) :=
  do fd := sysGetRealFd (s32 a0) s in
  do (_, path) := GetFile fd (table s) in
  do (n, v) := VFS_read_dir path a2 (vfs s) in
  Done (Return (u64 n), set_vfs v s).

Definition sys_mkdirat (a0 a1 a2 : Z) s : outcome (pipe_exit * Sys D M) :=
  do dir_fd := sysGetRealFd (s32 a0) s in
  do path := user_path (umem s) a1 in
  do path := atFdCWD dir_fd path s in
  do r := deref (root (vfs s)) (files (vfs s)) in
  do (_, v) := VFS_mkdir path (s32 a2) (fs r) true (vfs s) in
  Done (Return 0, set_vfs v s).

Definition sys_unlinkat (a0 a1 : Z) s : outcome (pipe_exit * Sys D M) :=
  do dir_fd := sysGetRealFd (s32 a0) s in
  do path := user_path (umem s) a1 in
  do path := atFdCWD dir_fd path s in
  do (_, v) := VFS_unlink path (vfs s) in
  Done (Return 0, set_vfs v s).

Definition sys_lseek (a0 a1 a2 : Z) s : outcome (pipe_exit * Sys D M) :=
  do fd := sysGetRealFd (s32 a0) s in
  do (_, path) := GetFile fd (table s) in
  do (n, v) := VFS_lseek (Some path) a1 (s32 a2) (vfs s) in
  Done (Return (u64 n), set_vfs v s).

(** The loops over the [iovec]s at [iov], [k] of them to go; FR_OK is 0. *)
Fixpoint readv_loop (k : nat) (fd iov read_bytes : Z) s : outcome (Z * Sys D M) :=
  match k with
  | O => Done (read_bytes, s)
  | S k =>
      do (_, path) := GetFile fd (table s) in
      do base := load_size (umem s) iov in
      do len := load_size (umem s) (iov + 8) in
      do (res, bs, v) := VFS_read (Some path) (s32 len) (vfs s) in
      do m := ustore base bs (umem s) in
      let s := set_umem m (set_vfs v s) in
      if negb (res =? 0) then Done (-1, s) else readv_loop k fd (iov + 16) (s32 (read_bytes + res)) s
  end.

Definition sys_readv (a0 a1 a2 : Z) s : outcome (pipe_exit * Sys D M) :=
  do fd := sysGetRealFd (s32 a0) s in
  do (n, s) := readv_loop (Z.to_nat (s32 a2)) fd a1 0 s in
  Done (Return (u64 n), s).

Fixpoint writev_loop (k : nat) (fd iov write_bytes : Z) s : outcome (Z * Sys D M) :=
  match k with
  | O => Done (write_bytes, s)
  | S k =>
      do (_, path) := GetFile fd (table s) in
      do base := load_size (umem s) iov in
      do len := load_size (umem s) (iov + 8) in
      do buf := load_bytes (umem s) base (u32 len) in
      do (res, v) := VFS_write (Some path) buf (s32 len) (vfs s) in
      let s := set_vfs v s in
      if negb (res =? 0) then Done (-1, s) else writev_loop k fd (iov + 16) (s32 (write_bytes + res)) s
  end.

Definition sys_writev (a0 a1 a2 : Z) s : outcome (pipe_exit * Sys D M) :=
  do fd := sysGetRealFd (s32 a0) s in
  do (n, s) := writev_loop (Z.to_nat (s32 a2)) fd a1 0 s in
  Done (Return (u64 n), s).

Definition sys_fcntl (a0 a1 a2 : Z) s : outcome (pipe_exit * Sys D M) :=
  do old_fd := sysGetRealFd (s32 a0) s in
  if a1 =? F_GETFL then Done (Return O_RDWR, s)
  else
    do new_fd := sysGetRealFd (s32 a2) s in
    do actual_fd := FindUnusedFdBiggerOrEqual new_fd (table s) in
    do (t, v) := CopyFd old_fd actual_fd (table s) (vfs s) in
    Done (Return (u64 actual_fd), set_table t (set_vfs v s)).

(** The bytes read are in [buff]; writing a negative number of them reads far
    past it. *)
Definition sys_sendfile (a0 a1 a2 a3 : Z) s : outcome (pipe_exit * Sys D M) :=
  if ztrue a2 then Panic
  else
    do (_, in_path) := GetFile (s32 a1) (table s) in
    do (read_bytes, buff, v) := VFS_read (Some in_path) (s32 a3) (vfs s) in
    do (_, out_path) := GetFile (s32 a0) (table s) in
    if read_bytes <? 0 then Wild
    else
      do (n, v) := VFS_write (Some out_path) buff read_bytes v in
      Done (Return (u64 n), set_vfs v s).

Definition sys_pipe2 (a0 a1 : Z) s : outcome (pipe_exit * Sys D M) :=
  do (r, w, t, ps, v) := CreatePipe (s32 a1) (table s) (pipes s) (vfs s) in
  do m := ustore a0 (int_bytes r) (umem s) in
  do m := ustore (a0 + 4) (int_bytes w) m in
  Done (Return 0, set_umem m (set_table t (set_pipes ps (read_count s) (write_count s) (set_vfs v s)))).

(** ** File status *)

(** [struct kstat] in the memory of the process: offset and size of each
    field. *)
Definition sizeof_kstat : Z := 128.
Definition field (bs : list Z) (o n : Z) : Z := le_value (zread bs o n).
Definition as_kstat (bs : list Z) : kstat :=
  mkKstat (field bs 0 8) (field bs 8 8) (field bs 16 4) (field bs 20 4) (field bs 24 4) (field bs 28 4) (field bs 32 8)
    (field bs 48 8) (field bs 56 4) (field bs 64 8) (field bs 72 8) (field bs 80 8) (field bs 88 8) (field bs 96 8)
    (field bs 104 8) (field bs 112 8).
Definition kstat_fields (st : kstat) : list (Z * list Z) :=
  [(0, long_bytes (st_dev st)); (8, long_bytes (st_ino st)); (16, int_bytes (st_mode st)); (20, int_bytes (st_nlink st));
   (24, int_bytes (st_uid st)); (28, int_bytes (st_gid st)); (32, long_bytes (st_rdev st)); (48, long_bytes (st_size st));
   (56, int_bytes (st_blksize st)); (64, long_bytes (st_blocks st)); (72, long_bytes (st_atime_sec st));
   (80, long_bytes (st_atime_nsec st)); (88, long_bytes (st_mtime_sec st)); (96, long_bytes (st_mtime_nsec st));
   (104, long_bytes (st_ctime_sec st)); (112, long_bytes (st_ctime_nsec st))].
Definition put_kstat (st : kstat) (bs : list Z) : list Z := foldl (λ bs f, zwrite bs f.1 f.2) bs (kstat_fields st).

(** [fs->fstat(path, stat)] on a structure of the process, which is touched
    only when it is filled; [info] is the uninitialised [fileInfo] of the
    adapter. *)
Definition user_fstat (info : FILINFO) (path : list Z) (stat : Z) s : outcome (Z * Sys D M) :=
  let bs := match load_bytes (umem s) stat sizeof_kstat with Done bs => bs | _ => [] end in
  do (r, st, v) := VFS_fstat (Some path) info (as_kstat bs) (vfs s) in
  if decide (st = as_kstat bs) then Done (r, set_vfs v s)
  else
    do bs := load_bytes (umem s) stat sizeof_kstat in
    do m := ustore stat (put_kstat st bs) (umem s) in
    Done (r, set_umem m (set_vfs v s)).

Definition sys_fstat (info : FILINFO) (a0 a1 : Z) s : outcome (pipe_exit * Sys D M) :=
  do fd := sysGetRealFd (s32 a0) s in
  do (_, path) := GetFile fd (table s) in
  do (r, s) := user_fstat info path a1 s in
  Done (Return (u64 r), s).

Definition sys_fstatat (info : FILINFO) (a0 a1 a2 : Z) s : outcome (pipe_exit * Sys D M) :=
  do pathname := user_path (umem s) a1 in
  do path := atFdCWD (s32 a0) pathname s in
  do (r, s) := user_fstat info path a2 s in
  Done (Return (u64 r), s).

(** For an existing file the structure at the null pointer is filled before
    the machine is stopped. *)
Definition sys_utimensat (info : FILINFO) (a0 a1 : Z) s : outcome (pipe_exit * Sys D M) :=
  do pathname := user_path (umem s) a1 in
  do path := atFdCWD (s32 a0) pathname s in
  do (r, _, v) := VFS_fstat (Some path) info (as_kstat []) (vfs s) in
  if r =? -1 then Done (Return (u64 (- ENOENT)), set_vfs v s) else Panic.

(** The target is copied without a look at the length of the buffer. *)
Definition sys_readlinkat (a1 a2 : Z) s : outcome (pipe_exit * Sys D M) :=
  do pathname := user_path (umem s) a1 in
  match pathname with
  | Some (47 :: _ as path) =>
      do target := ReadLink (root (vfs s)) path (files (vfs s)) in
      do m := ustore a2 (target ++ [0]) (umem s) in
      Done (Return 0, set_umem m s)
  | _ => Panic
  end.

(** ** Waiting for descriptors *)

(** [1<<((fd)&31)] as an [int], converted to the type of [fds_bits]; the
    words are chosen by [fd >> 5] although they have 64 bits. *)
Definition FDSET_LONGS : Z := 16.
Definition fd_mask (fd : Z) : Z := u64 (s32 (Z.shiftl 1 (Z.land fd 31))).
Definition fd_word (fd : Z) : outcome Z :=
  let i := Z.shiftr fd 5 in if i <? FDSET_LONGS then Done i else Wild.

Definition FD_ISSET (fd : Z) (set : list Z) : outcome bool :=
  do i := fd_word fd in Done (ztrue (Z.land (field set (8 * i) 8) (fd_mask fd))).
Definition FD_SET (fd : Z) (set : Z) (m : M) : outcome M :=
  do i := fd_word fd in
  do w := load_size m (set + 8 * i) in
  ustore (set + 8 * i) (long_bytes (Z.lor w (fd_mask fd))) m.
Definition FD_ZERO (set : Z) (m : M) : outcome M := ustore set (replicate (Z.to_nat (8 * FDSET_LONGS)) 0) m.

Fixpoint pselect_loop (k : nat) (i : Z) (copy : list Z) (read_fds : Z) s : outcome (pipe_exit * Sys D M) :=
  match k with
  | O => Done (Return 0, s)
  | S k =>
      do b := FD_ISSET i copy in
      if b then
        do res := TestPipe i (pipes s) in
        match res with
        | Return r =>
            if ztrue r then do m := FD_SET i read_fds (umem s) in Done (Return 1, set_umem m s)
            else pselect_loop k (i + 1) copy read_fds s
        | e => Done (e, s)
        end
      else pselect_loop k (i + 1) copy read_fds s
  end.

Definition sys_pselect6 (a0 a1 a3 : Z) s : outcome (pipe_exit * Sys D M) :=
  do m := (if ztrue a3 then FD_ZERO a3 (umem s) else Done (umem s)) in
  let s := set_umem m s in
  if ztrue a1 then
    do copy := load_bytes (umem s) a1 (8 * FDSET_LONGS) in
    do m := FD_ZERO a1 (umem s) in
    pselect_loop (Z.to_nat (s32 a0)) 0 copy a1 (set_umem m s)
  else Done (Return 0, s).

(** ** Calls with fixed answers *)

Definition answer (r a : Z) (bs : list Z) s : outcome (pipe_exit * Sys D M) :=
  do m := ustore a bs (umem s) in Done (Return r, set_umem m s).

Definition sys_times (a0 : Z) := answer 1000 a0 (concat (long_bytes <$> [1; 1; 1; 1])).
Definition sys_uname (a0 : Z) := answer 0 a0 ES_uname.
Definition sys_clock_nanosleep (a3 : Z) := answer 0 a3 (long_bytes 0 ++ long_bytes 0).
Definition sys_sysinfo (a0 : Z) :=
  answer 0 a0 (concat (long_bytes <$> [114514; 0; 0; 0; 1024 * 1024; 114514; 114514; 114514; 114514; 114514]) ++ le_bytes 2 100).
Definition sys_futex (a0 : Z) := answer 0 a0 (int_bytes 0).
Definition sys_prlimit64 (a3 : Z) s : outcome (pipe_exit * Sys D M) :=
  if ztrue a3 then answer 0 a3 (long_bytes 1024 ++ long_bytes (1024 * 1024)) s else Done (Return 0, s).

End syscalls.
