(* ===== verification/KSyscallTheorems.v ===== *)
(** What a process sees through its system calls. *)
From Stdlib Require Import ZArith Lia.
From stdpp Require Import base list numbers option gmap.
From S2P Require Import Prelude BlockDevice FfTypes FfWindow FfFat FfChain FfLfn FfDir FfMount FfFile FfApi FfRead FfWrite FfWriteLoop FfExample.
From S2P Require Import KBase KPath KAbsPath KPipe KFs KFd KVfs KVfsSpec KVfsTheorems KUser KSyscall.

Local Open Scope Z_scope.
Local Open Scope out_scope.

Section files.
Context {D : Type} {BD : BlockDevice D} {BL : BlockDeviceLaws D}.
Context {M : Type} {UM : UserMemory M} {UL : UserMemoryLaws M}.
Implicit Types s : Sys D M.

(** The calls on a descriptor that is no pipe. *)
Lemma file_fd s fd d : slot fd (table s) = Done (Some d) → is_pipe_ d = false → is_pipe_fd fd s = Done false.
Proof. intros H1 H2. unfold is_pipe_fd. rewrite H1. simpl. by rewrite H2. Qed.

(** What a process writes to a file it reads back: [write] of bytes in its
    memory, [lseek] back to the old position and [read] into another buffer. *)
Lemma sys_write_lseek_read R s a0 fd d a p T b fp l src dst count :
  sysGetRealFd (s32 a0) s = Done fd → slot fd (table s) = Done (Some d) → is_pipe_ d = false →
  GetFile fd (table s) = Done (a, p) →
  tree_ok (vfs s) T → components [] p ≠ [] → vfs_lookup (components [] p) T = Some (b, FatFs) →
  get_fil p (fat (vfs s)) = Done fp → wf (volume (vfs s)) → reliable (volume (vfs s)) → sane (volume (vfs s)) →
  valid_fil (volume (vfs s)) fp → fil_ok (volume (vfs s)) fp l →
  zbits (flag fp) FA_WRITE = true → zbits (flag fp) FA_READ = true →
  region_ok R (umem s) → (∀ i, 0 <= i < count → R (src + i) ∧ R (dst + i)) →
  0 <= count < 2 ^ 31 → fptr fp + count < 2 ^ 31 →
  ∃ n s1 s2 s3,
    sys_write a0 src count s = Done (Return n, s1) ∧
    sys_lseek a0 (fptr fp) 0 s1 = Done (Return (fptr fp), s2) ∧
    sys_read a0 dst n s2 = Done (Return n, s3) ∧
    0 <= n <= count ∧ (n < count → full (volume (vfs s1))) ∧
    umem s1 = umem s ∧ umem s2 = umem s ∧ (∃ bs, ustore dst bs (umem s) = Done (umem s3)) ∧
    (∀ i, 0 <= i < n → uload (umem s3) (dst + i) = uload (umem s) (src + i)) ∧
    (∀ x, R x → ¬ (dst <= x < dst + n) → uload (umem s3) x = uload (umem s) x) ∧
    region_ok R (umem s3) ∧
    table s3 = table s ∧ pipes s3 = pipes s ∧ tree_ok (vfs s3) T ∧ console (vfs s3) = console (vfs s).
Proof.
  intros Hfd Hs Hp Hget Hok Hc Hl Hfil Hwf HR Hsane Hval Hf Hw Hr Hm Hreg Hcount Hfit.
  pose proof (fo_ptr _ _ _ Hf) as Hptr.
  destruct (load_bytes_region R (umem s) src count Hm) as (buf & Eb & Hz & Hby & Hld); [lia|by intros i Hi; apply Hreg|].
  destruct (vfs_write_lseek_read p (vfs s) T b fp l buf count)
    as (n & v1 & v2 & v3 & E1 & E2 & E3 & Hn & Hfull & Hok3 & Hcon); auto with lia.
  assert (zlen (zread buf 0 n) = n) as Hzn.
  { unfold zlen at 1. rewrite zread_length by lia. lia. }
  destruct (region_store R (umem s) dst (zread buf 0 n) Hm) as (m' & Em & Hm' & Hst).
  { intros i Hi. apply Hreg. lia. }
  assert (∀ s', table s' = table s → binds s' = binds s → sysGetRealFd (s32 a0) s' = Done fd ∧ is_pipe_fd fd s' = Done false) as Hsame.
  { intros s' Ht Hbd. unfold sysGetRealFd, is_pipe_fd. rewrite Ht, Hbd, Hs. split; [exact Hfd|]. simpl. by rewrite Hp. }
  exists n, (set_vfs v1 s), (set_vfs v2 s). eexists. split; [|split; [|split; [|split; [done|]]]].
  - unfold sys_write. rewrite Hfd. cbn [obind]. rewrite (file_fd _ _ _ Hs Hp). cbn [obind]. rewrite Hget. cbn [obind].
    rewrite (s32_id count), (u32_small count), Eb by lia. cbn [obind]. rewrite E1. cbn [obind]. by rewrite u64_small by lia.
  - unfold sys_lseek. destruct (Hsame (set_vfs v1 s)) as [-> _]; [done..|]. cbn [obind set_vfs table vfs]. rewrite Hget. cbn [obind].
    change (s32 0) with 0. rewrite E2. cbn [obind]. by rewrite u64_small by lia.
  - unfold sys_read. destruct (Hsame (set_vfs v2 s)) as [-> Hpp]; [done..|]. cbn [obind]. rewrite Hpp. cbn [obind set_vfs table vfs umem].
    rewrite Hget. cbn [obind]. rewrite (s32_id n), E3 by lia. cbn [obind]. rewrite Em. cbn [obind]. rewrite u64_small by lia. done.
  - cbn [set_umem set_vfs umem vfs table pipes]. split; [exact Hfull|].
    split; [done|]. split; [done|]. split; [by eexists|]. split; [|split; [|done]].
    + intros i Hi. rewrite Hst by (apply Hreg; lia). rewrite decide_True by lia. rewrite Hld by lia. f_equal.
      replace (dst + i - dst) with i by lia. rewrite zget_zread by lia. rewrite Z.add_0_l. apply u8_small. by apply zget_byte.
    + intros x Hx Hout. rewrite Hst by done. rewrite decide_False; [done|]. by rewrite Hzn.
Qed.

End files.

Section pipes.
Context {D : Type} {BD : BlockDevice D} {M : Type} {UM : UserMemory M} {UL : UserMemoryLaws M}.
Implicit Types s : Sys D M.

(** A pipe can be opened while there are buffers. *)
Lemma OpenPipe_done r w ps :
  0 <= current_pipe_buffer_pointer ps < MAX_PIPE_COUNT → current_pipe_buffer_pointer ps < zlen (pipe_buffer ps) →
  0 <= r < FILE_DESCRIBER_ARRAY_LENGTH → 0 <= w < FILE_DESCRIBER_ARRAY_LENGTH → ∃ ps', OpenPipe r w ps = Done ps'.
Proof.
  intros H1 H2 H3 H4. unfold OpenPipe. rewrite (proj2 (Z.leb_gt _ _)) by lia.
  destruct (lookup_lt_is_Some_2 (pipe_buffer ps) (Z.to_nat (current_pipe_buffer_pointer ps))) as [buf ->].
  { unfold zlen in H2. lia. }
  unfold in_fds. rewrite !(proj2 (Z.leb_le _ _)), !(proj2 (Z.ltb_lt _ _)) by lia. eauto.
Qed.

Lemma pipe_of_set fd ps k p p' :
  pipe_of fd ps = Done (k, p) → pipe_of fd (set_pipe k p' ps) = Done (k, p').
Proof.
  intros H. pose proof (pipe_of_ok _ _ _ _ H) as Hk. unfold pipe_of in *. destruct (in_fds fd); [|done]. simpl.
  destruct (fd_to_buff_address ps !! Z.to_nat fd) as [[j|]|]; try done.
  destruct (pipe_data ps !! j) as [q|] eqn:E; [|done]. injection H as -> ->.
  rewrite list_lookup_insert_eq; [done|]. by eapply lookup_lt_Some.
Qed.

(** Two [int]s stored one after the other. *)
Lemma store_ints R (m : M) a x y : region_ok R m → (∀ i, 0 <= i < 8 → R (a + i)) →
  ∃ m0 m1, ustore a (int_bytes x) m = Done m0 ∧ ustore (a + 4) (int_bytes y) m0 = Done m1 ∧ region_ok R m1 ∧
    load_bytes m1 a 4 = Done (int_bytes x) ∧ load_bytes m1 (a + 4) 4 = Done (int_bytes y).
Proof.
  intros Hm HR. assert (∀ z, zlen (int_bytes z) = 4) as Hz by (intros z; apply le_bytes_zlen).
  assert (∀ z, bytes (int_bytes z)) as Hby by (intros z; apply le_bytes_bytes).
  destruct (region_store R m a (int_bytes x) Hm) as (m0 & E0 & H0 & L0); [intros i; rewrite Hz; intros; apply HR; lia|].
  destruct (region_store R m0 (a + 4) (int_bytes y) H0) as (m1 & E1 & H1 & L1).
  { intros i. rewrite Hz. intros. rewrite <- Z.add_assoc. apply HR. lia. }
  exists m0, m1. split; [done|]. split; [done|]. split; [done|]. rewrite Hz in L0, L1.
  split; apply (load_stored R m1); auto.
  - intros i Hi. apply HR. lia.
  - intros i Hi. rewrite L1, L0 by (apply HR; lia). rewrite decide_False, decide_True by lia. do 3 f_equal. lia.
  - intros i Hi. rewrite <- Z.add_assoc. apply HR. lia.
  - intros i Hi. rewrite L1 by (rewrite <- Z.add_assoc; apply HR; lia). rewrite decide_True by lia. do 3 f_equal. lia.
Qed.

(** C19: What a process writes into a new pipe it reads from the other end:
    while two descriptors and a pipe are free, [pipe2] returns 0 and stores
    the numbers of two new descriptors; [write] of up to the capacity to the
    second and [read] from the first return the count and move the bytes,
    in order, into the reader's buffer, and no other byte of the region [R]
    changes. *)
Theorem syscall_pipe_roundtrip R s a0 a1 r w src dst count :
  pipes_ok (pipes s) → current_pipe_buffer_pointer (pipes s) < zlen (pipe_buffer (pipes s)) →
  0 <= current_pipe_buffer_pointer (pipes s) < MAX_PIPE_COUNT →
  FindUnUsedFd (table s) = Done r → FindUnusedFdBiggerOrEqual (r + 1) (table s) = Done w →
  map_exists r (binds s) = false → map_exists w (binds s) = false → 0 <= count < PIPE_BUF_LENGTH →
  region_ok R (umem s) → (∀ i, 0 <= i < 8 → R (a0 + i)) → (∀ i, 0 <= i < count → R (src + i) ∧ R (dst + i)) →
  ∃ s1 s2 s3,
    sys_pipe2 a0 a1 s = Done (Return 0, s1) ∧ r < w ∧
    load_bytes (umem s1) a0 4 = Done (int_bytes r) ∧ load_bytes (umem s1) (a0 + 4) 4 = Done (int_bytes w) ∧
    sys_write w src count s1 = Done (Return count, s2) ∧
    sys_read r dst count s2 = Done (Return count, s3) ∧
    (∀ i, 0 <= i < count → uload (umem s3) (dst + i) = uload (umem s1) (src + i)) ∧
    ∀ x, R x → ¬ (dst <= x < dst + count) → uload (umem s3) x = uload (umem s1) x.
Proof.
  intros Hps Hbuf Hcur Hr Hw Br Bw Hc Hm Ra Rb.
  pose proof Hr as (Rr & _ & _)%find_unused_spec. pose proof Hw as (Rw & _ & _)%find_unused_spec.
  unfold FILE_DESCRIBER_ARRAY_LENGTH in Rr, Rw. assert (count < 2 ^ 31) as H31 by (unfold PIPE_BUF_LENGTH in Hc; lia).
  destruct (OpenPipe_done r w (pipes s)) as [ps1 Ho]; [done|done|unfold FILE_DESCRIBER_ARRAY_LENGTH; lia..|].
  destruct (open_pipe_ok _ _ _ _ Hps Ho) as (Hps1 & p & _ & Hempty & Pr & Pw).
  destruct (CreatePipe_done (s32 a1) (table s) (pipes s) (vfs s) r w ps1 Hr Hw Ho) as (t1 & d & Ec & Hd & Sr & Sw).
  destruct (store_ints R (umem s) a0 r w Hm Ra) as (m0 & m1 & Em0 & Em1 & Hm1 & L0 & L4).
  destruct (load_bytes_region R m1 src count Hm1) as (buf & Eb & Hz & Hby & Hld); [lia|by intros i Hi; apply Rb|].
  destruct (region_store R m1 dst buf Hm1) as (m2 & Em2 & Hm2 & Hst); [intros i Hi; apply Rb; lia|].
  unfold sys_pipe2. rewrite Ec. cbn [obind]. rewrite Em0. cbn [obind]. rewrite Em1. cbn [obind]. set (s1 := set_umem m1 _).
  pose proof (ps_pipes _ Hps1 _ _ (pipe_of_ok _ _ _ _ Pr)) as Hpok.
  assert (pipe_len p = 0) as Hlen by (rewrite <- contents_length, Hempty; done).
  destruct (pipe_write_spec w ps1 _ p buf count (write_count s) Hps1 Pw) as (e & wc & p' & Ew & Hp' & Hcont & He).
  unfold room in He, Hcont. rewrite Hz, Hlen in He. rewrite Hlen in Hcont.
  rewrite (proj2 (Z.leb_le _ _)) in He by lia. injection He as -> ->.
  rewrite Hempty, take_ge in Hcont by (unfold zlen in Hz; lia).
  simpl app in Hcont.
  destruct (pipe_read_spec r (set_pipe _ p' ps1) _ p' count (read_count s) (set_pipe_ok _ _ _ Hps1 Hp') (pipe_of_set _ _ _ _ p' Pr))
    as (e & rc & p'' & Er & _ & _ & He).
  rewrite <- contents_length, Hcont, Hz, (proj2 (Z.leb_le _ _)) in He by lia. injection He as -> ->.
  rewrite Hcont, take_ge in Er by (unfold zlen in Hz; lia).
  assert (∀ (s' : Sys D M) fd, binds s' = binds s → 0 <= fd < 120 → map_exists fd (binds s) = false → sysGetRealFd (s32 fd) s' = Done fd) as Hreal.
  { intros s' fd Hb Hfd Hx. unfold sysGetRealFd. rewrite s32_id, u64_small, Hb, Hx by lia. done. }
  exists s1, (set_pipes (set_pipe (length (pipe_data (pipes s))) p' ps1) (read_count s) 0 s1). eexists. split; [done|]. split; [lia|].
  split; [exact L0|]. split; [exact L4|]. split; [|split; [|split]].
  - unfold sys_write. rewrite Hreal by (done || lia). cbn [obind]. unfold is_pipe_fd. cbn [s1 set_umem set_table table umem].
    rewrite Sw. cbn [obind]. rewrite Hd. cbn match. rewrite s32_id, Eb by lia. cbn [obind].
    change (pipes s1) with ps1. change (write_count s1) with (write_count s). rewrite Ew.
    cbn [obind as_size]. by rewrite u64_small by lia.
  - unfold sys_read. rewrite Hreal by (done || lia). cbn [obind]. unfold is_pipe_fd. cbn [s1 set_umem set_table set_pipes table].
    rewrite Sr. cbn [obind]. rewrite Hd. cbn match. rewrite s32_id by lia.
    cbn [set_pipes pipes read_count]. rewrite Er. cbn [obind set_pipes umem]. change (umem s1) with m1. rewrite Em2.
    cbn [obind as_size]. by rewrite u64_small by lia.
  - intros i Hi. cbn [set_umem umem]. change (umem s1) with m1. rewrite Hst by (by apply Rb). rewrite decide_True, Hld by lia. f_equal.
    replace (dst + i - dst) with i by lia. by apply u8_small, zget_byte.
  - intros x Hx Hout. cbn [set_umem umem]. change (umem s1) with m1. rewrite Hst by done. by rewrite decide_False by lia.
Qed.

End pipes.

(** [writev] takes the number of bytes for an error code: it stops after the
    first buffer that is not empty and reports failure. *)
Lemma writev_reports_failure {D : Type} {BD : BlockDevice D} {M : Type} {UM : UserMemory M} (s : Sys D M) a0 iov cnt fd a p base len buf n v :
  sysGetRealFd (s32 a0) s = Done fd → GetFile fd (table s) = Done (a, p) → 1 <= s32 cnt →
  load_size (umem s) iov = Done base → load_size (umem s) (iov + 8) = Done len → load_bytes (umem s) base (u32 len) = Done buf →
  VFS_write (Some p) buf (s32 len) (vfs s) = Done (n, v) → n ≠ 0 →
  sys_writev a0 iov cnt s = Done (Return (2 ^ 64 - 1), set_vfs v s).
Proof.
  intros Hfd Hg Hc Hb Hl Hbuf Hw Hn. unfold sys_writev. rewrite Hfd. cbn [obind].
  destruct (Z.to_nat (s32 cnt)) as [|k] eqn:E; [lia|]. cbn [writev_loop]. rewrite Hg. cbn [obind]. rewrite Hb. cbn [obind].
  rewrite Hl. cbn [obind]. rewrite Hbuf. cbn [obind]. rewrite Hw. cbn [obind].
  by rewrite (proj2 (Z.eqb_neq _ _)).
Qed.

(** * Instances *)

(** A process with the file "/a" as descriptor 3. *)
Definition ex_sys : Sys _ (Z → Z) := mkSys ex_fd_table ex_pipes ex_vfs (λ x, x mod 256) [47] [] 0 0.

Lemma syscall_pipe_roundtrip_witness :
  ∃ s1 s2 s3, sys_pipe2 500 0 ex_sys = Done (Return 0, s1) ∧ sys_write 1 100 4 s1 = Done (Return 4, s2) ∧
    sys_read 0 200 4 s2 = Done (Return 4, s3) ∧
    ∀ i, 0 <= i < 4 → uload (umem s3) (200 + i) = uload (umem s1) (100 + i).
Proof.
  destruct (syscall_pipe_roundtrip (λ _, True) ex_sys 500 0 0 1 100 200 4 ex_pipes_ok eq_refl) as (s1 & s2 & s3 & E1 & _ & _ & _ & E2 & E3 & Hm & _).
  - split; [discriminate|reflexivity].
  - reflexivity.
  - reflexivity.
  - reflexivity.
  - reflexivity.
  - unfold PIPE_BUF_LENGTH. lia.
  - exact I.
  - intros i Hi. exact I.
  - intros i Hi. exact (conj I I).
  - exists s1, s2, s3. exact (conj E1 (conj E2 (conj E3 Hm))).
Defined.
