(* ===== verification/KTrap.v ===== *)
(** Traps and the dispatch of system calls: kernel/interrupt.cpp, the table and
    the remaining handlers of kernel/syscall.cpp, and the entry in
    asm/interrupt.s.

    [Kernel] joins the state of the components: scheduler, memory and page
    tables, descriptors, pipes, the virtual file system with its volume, the
    clocks and the kernel heap.  A trap ends in [__restore], which resumes the
    registers in [running_context], or the machine restarts or stops.  Device
    and counter are parameters. *)
From Stdlib Require Import ZArith Lia.
From stdpp Require Import base list numbers option gmap.
From S2P Require Import Prelude BlockDevice FfTypes FfLfn FfDir FfFile FfApi KBase Sysctl Rtc KTime KStdio KHeap KPages KPageTable.
From S2P Require Import KBrk KMmap KUser KPipe KSched KProc KPath KFs KFd KVfs KSyscall.

Local Open Scope Z_scope.
Local Open Scope out_scope.

Definition SYSCALL_LIST_LENGTH : Z := 1024.
Definition INTERVAL : Z := 100000.

(** How a handler ends: its value for a0, or a switch to another process. *)
Inductive call_exit : Type := Returns (v : Z) | Leaves (e : sched_exit).

Section trap.
Context {D : Type} {BD : BlockDevice D} {H : Type} {CC : CycleCounter H}.

(** [qemu] is the configuration, [g] the addresses of the kernel's pages and
    [info] the contents of an uninitialised [fileInfo].  [del] is what deleting
    the block of the process that ends does to the pages and to the heap; it
    depends on the reference counts of the moment, which [Kernel] leaves to
    KRelease. *)
Context (qemu : bool) (g : Globals) (info : FILINFO).
Context (del : PCB → HeapAllocator → KMem → outcome (KMem * HeapAllocator)).

(** [k_binds] are the maps [occupied_file_describer] points to, [k_bound] the
    heap blocks bound to them, [k_input] the answers of the console. *)
Record Kernel : Type := mkKernel {
  k_sched : Sched;
  k_table : FdTable;
  k_pipes : Pipes;
  k_vfs : VFS D;
  k_binds : list (list (Z * Z));
  k_clock : Rtc H;
  k_heap : HeapAllocator;
  k_bound : list (nat * Z);
  k_input : list Z;
  k_timeout : Z;
  k_ticks : Z
}.
Implicit Types k : Kernel.

Definition set_sched (s : Sched) k : Kernel :=
  mkKernel s (k_table k) (k_pipes k) (k_vfs k) (k_binds k) (k_clock k) (k_heap k) (k_bound k) (k_input k) (k_timeout k) (k_ticks k).
Definition set_clock (c : Rtc H) k : Kernel :=
  mkKernel (k_sched k) (k_table k) (k_pipes k) (k_vfs k) (k_binds k) c (k_heap k) (k_bound k) (k_input k) (k_timeout k) (k_ticks k).
Definition set_timeout (t n : Z) k : Kernel :=
  mkKernel (k_sched k) (k_table k) (k_pipes k) (k_vfs k) (k_binds k) (k_clock k) (k_heap k) (k_bound k) (k_input k) t n.
Definition set_input (l : list Z) k : Kernel :=
  mkKernel (k_sched k) (k_table k) (k_pipes k) (k_vfs k) (k_binds k) (k_clock k) (k_heap k) (k_bound k) l (k_timeout k) (k_ticks k).
Definition set_heap (h : HeapAllocator) (b : list (nat * Z)) k : Kernel :=
  mkKernel (k_sched k) (k_table k) (k_pipes k) (k_vfs k) (k_binds k) (k_clock k) h b (k_input k) (k_timeout k) (k_ticks k).
Definition set_kvfs (v : VFS D) k : Kernel :=
  mkKernel (k_sched k) (k_table k) (k_pipes k) v (k_binds k) (k_clock k) (k_heap k) (k_bound k) (k_input k) (k_timeout k) (k_ticks k).

(** The registers a0 .. a7 of the trapped process. *)
Definition context k : Context := running_context (k_sched k).
Definition reg (n : Z) (c : Context) : Z := if n =? 0 then c_a0 c else zget (c_regs c) (8 + n).
Definition a_ (n : Z) k : Z := reg n (context k).

Definition current k : outcome PCB := match running (k_sched k) with Some p => Done p | None => Wild end.

(** The page table in use, and memory as the kernel sees it. *)
Definition table_base k : Z := CalculateTableBaseBySatp (c_satp (context k)).
Definition user_memory k : UMem := mkUMem (table_base k) (kmem (k_sched k)).
Definition set_kmem (m : KMem) k : Kernel := set_sched (set_memory m (brks (k_sched k)) (mmaps (k_sched k)) (k_sched k)) k.

(** * Calls on files and pipes *)

Definition set_files_of (c : list Z) (rc wc : Z) (p : PCB) : PCB :=
  mkPCB (pid p) (ppid p) (stack p) (stack_size p) (page_table p) (elf_control p) (brk_control p) (mmap_control p)
    (thread_context p) c rc wc (occupied_file_describer p) (signal_list p) (wstatus p) (wait_pid p).

Definition get_sys (p : PCB) k : outcome (Sys D UMem) :=
  match k_binds k !! occupied_file_describer p with
  | None => Wild
  | Some b => Done (mkSys (k_table k) (k_pipes k) (k_vfs k) (user_memory k) (cwd p) b (pipe_read_count p) (pipe_write_count p))
  end.

Definition put_sys (p : PCB) (s : Sys D UMem) k : Kernel :=
  let sc := k_sched k in
  let sc := set_queues (Some (set_files_of (s_cwd s) (read_count s) (write_count s) p)) (runnable sc) (blocked sc) sc in
  let sc := set_memory (um_mem (umem s)) (brks sc) (mmaps sc) sc in
  mkKernel sc (table s) (pipes s) (vfs s) (<[occupied_file_describer p := binds s]> (k_binds k)) (k_clock k) (k_heap k)
    (k_bound k) (k_input k) (k_timeout k) (k_ticks k).

(** The stores that the scheduler made through pointers of a process, on the
    page table in use when it made them. *)
Fixpoint put_ints (base : Z) (l : list (Z * Z)) (m : KMem) : outcome KMem :=
  match l with
  | [] => Done m
  | (a, v) :: l => do m := store_bytes base a (int_bytes v) m in put_ints base l m
  end.

Definition clear_stores (s : Sched) : Sched :=
  mkSched (running s) (runnable s) (blocked s) (running_context s) (global_pid s) (fast_pid s) (try_unfreeze_times s)
    (memory_dirty s) (tests_left s) (brks s) (mmaps s) (kmem s) [].

Definition leave (op : Sched → outcome (sched_exit * Sched)) k : outcome (call_exit * Kernel) :=
  do (e, s) := op (k_sched k) in
  do m := put_ints (table_base k) (user_stores s) (kmem s) in
  Done (Leaves e, set_sched (clear_stores (set_memory m (brks s) (mmaps s) s)) k).

(** The end of the running process. *)
Definition leave_exit (exit_ret : Z) k : outcome (call_exit * Kernel) :=
  do (h, es) := exit_process (λ p, del p (k_heap k)) exit_ret (k_sched k) in
  leave (λ _, Done es) (set_heap h (k_bound k) k).

Definition on_files (call : Sys D UMem → outcome (pipe_exit * Sys D UMem)) k : outcome (call_exit * Kernel) :=
  do p := current k in
  do s := get_sys p k in
  do (e, s) := call s in
  let k := put_sys p s k in
  match e with
  | Return n => Done (Returns n, k)
  | YieldReturn n => leave (yield_with_return (u64 n)) k
  | Yield => leave __yield k
  | Exit => leave_exit 0 k
  end.

(** * The other calls *)

Definition constant (n : Z) k : outcome (call_exit * Kernel) := Done (Returns n, k).

Definition store_user (r a : Z) (bs : list Z) k : outcome (call_exit * Kernel) :=
  do m := ustore a bs (user_memory k) in Done (Returns r, set_kmem (um_mem m) k).

Definition sys_getchar k : outcome (call_exit * Kernel) :=
  do (c, l) := getchar_blocked (k_input k) in Done (Returns c, set_input l k).

Definition sys_execve k : outcome (call_exit * Kernel) :=
  do (h, es) := execute (λ p, del p (k_heap k)) [] (k_sched k) in
  leave (λ _, Done es) (set_heap h (k_bound k) k).
Definition sys_exit k : outcome (call_exit * Kernel) := leave_exit (s32 (a_ 0 k)) k.
Definition sys_getppid k : outcome (call_exit * Kernel) := do p := current k in Done (Returns (u64 (ppid p)), k).
Definition sys_getpid k : outcome (call_exit * Kernel) := do p := current k in Done (Returns (u64 (pid p)), k).
Definition sys_sched_yield k : outcome (call_exit * Kernel) := leave yield k.

Definition sys_wait4 k : outcome (call_exit * Kernel) :=
  do r := wait (a_ 1 k) (k_sched k) in
  match r with
  | inl (n, s) => Done (Returns (u64 n), set_sched s k)
  | inr es => leave (λ _, Done es) k
  end.

(** The value returned is a0 of the context, which [clone] has changed. *)
Definition sys_clone k : outcome (call_exit * Kernel) :=
  do s := clone g (a_ 1 k) (k_sched k) in
  let k := set_sched s k in Done (Returns (a_ 0 k), k).

Definition sys_getcwd k : outcome (call_exit * Kernel) :=
  do p := current k in
  let text := cwd p in
  do (ret, k) := (if a_ 0 k =? 0 then
                    do (a, h) := k_malloc (a_ 1 k) (k_heap k) in
                    Done (a, set_heap h (k_bound k ++ [(occupied_file_describer p, a)]) k)
                  else Done (a_ 0 k, k)) in
  store_user (zlen text + 1) ret (text ++ [0]) k.

Definition sys_brk k : outcome (call_exit * Kernel) :=
  do p := current k in
  let s := k_sched k in
  match brks s !! brk_control p with
  | None => Wild
  | Some b =>
      do (r, b, m) := brk (a_ 0 k) b (kmem s) in
      Done (Returns r, set_sched (set_memory m (<[brk_control p := b]> (brks s)) (mmaps s) s) k)
  end.

(** [*LastOpenedFile]; a null pointer is refused by [validate] like an object
    without a volume. *)
Definition last_file (f : FS) : outcome FIL :=
  match LastOpenedFile f with None => Done zero_fil | Some path => get_fil path f end.
Definition set_last_file (fp : FIL) (f : FS) : FS :=
  match LastOpenedFile f with None => f | Some path => set_fil path fp f end.

Definition sys_mmap k : outcome (call_exit * Kernel) :=
  do p := current k in
  let s := k_sched k in
  let v := k_vfs k in
  match mmaps s !! mmap_control p with
  | None => Wild
  | Some c =>
      do fp := last_file (fat v) in
      do (r, c, m, fp, w) := mmap (a_ 1 k) (s32 (a_ 4 k)) c (kmem s) fp (volume v) in
      let k := set_kvfs (set_fat (set_last_file fp (fat v)) w v) k in
      Done (Returns r, set_sched (set_memory m (brks s) (<[mmap_control p := c]> (mmaps s)) s) k)
  end.

Definition sys_munmap k : outcome (call_exit * Kernel) :=
  do p := current k in
  let s := k_sched k in
  match mmaps s !! mmap_control p with
  | None => Wild
  | Some c =>
      do (r, c, m) := munmap (a_ 0 k) (a_ 1 k) c (kmem s) in
      Done (Returns (u64 r), set_sched (set_memory m (brks s) (<[mmap_control p := c]> (mmaps s)) s) k)
  end.

(** A process found in a queue is taken out of it; the running one stays. *)
Definition sys_kill k : outcome (call_exit * Kernel) :=
  let s := k_sched k in
  match search_by_pid (s32 (a_ 0 k)) s with
  | None => constant (u64 (-1)) k
  | Some w =>
      match (match w with InRunning => running s | InRunnable i => runnable s !! i | InBlocked i => blocked s !! i end) with
      | None => Wild
      | Some p =>
          do s := kill 1 p s in
          let s := match w with
                   | InRunning => s
                   | InRunnable i => set_queues (running s) (delete i (runnable s)) (blocked s) s
                   | InBlocked i => set_queues (running s) (runnable s) (delete i (blocked s)) s
                   end in
          Done (Returns 0, set_sched s k)
      end
  end.

(** * Clocks *)

Definition sec_usec (usec : Z) : list Z := long_bytes (usec / 1000000) ++ long_bytes (usec mod 1000000).

Definition sys_gettimeofday k : outcome (call_exit * Kernel) :=
  do (usec, c) := timer qemu (k_clock k) in
  store_user 0 (a_ 0 k) (sec_usec usec) (set_clock c k).

Definition sys_clock_gettime_call k : outcome (call_exit * Kernel) :=
  do (nsec, c) := get_nsec (k_clock k) in
  store_user 0 (a_ 1 k) (long_bytes (nsec / 1000000000) ++ long_bytes (nsec mod 1000000000)) (set_clock c k).

(** [ru_utime] and [ru_stime], then fourteen zeroed fields. *)
Definition sys_getrusage k : outcome (call_exit * Kernel) :=
  do (usec, c) := timer qemu (k_clock k) in
  store_user 0 (a_ 1 k) (sec_usec usec ++ sec_usec usec ++ replicate 112 0) (set_clock c k).

(** * Dispatch *)

(** [syscall_register]: the handlers by their numbers, with the registers
    each of them reads. *)
Definition syscall_list (id : Z) : option (Kernel → outcome (call_exit * Kernel)) :=
  let files f := Some (λ k, on_files (f k) k) in
  let zero := Some (constant 0) in
  match id with
  | 996 => Some sys_getchar
  | 64 => files (λ k, sys_write (a_ 0 k) (a_ 1 k) (a_ 2 k))
  | 221 => Some sys_execve
  | 93 => Some sys_exit
  | 173 => Some sys_getppid
  | 172 => Some sys_getpid
  | 56 => files (λ k, sys_openat (a_ 0 k) (a_ 1 k) (a_ 2 k))
  | 63 => files (λ k, sys_read (a_ 0 k) (a_ 1 k) (a_ 2 k))
  | 57 => files (λ k, sys_close (a_ 0 k))
  | 17 => Some sys_getcwd
  | 23 => files (λ k, sys_dup (a_ 0 k))
  | 24 => files (λ k, sys_dup3 (a_ 0 k) (a_ 1 k))
  | 49 => files (λ k, sys_chdir (a_ 0 k))
  | 61 => files (λ k, sys_getdents64 (a_ 0 k) (a_ 1 k) (a_ 2 k))
  | 34 => files (λ k, sys_mkdirat (a_ 0 k) (a_ 1 k) (a_ 2 k))
  | 35 => files (λ k, sys_unlinkat (a_ 0 k) (a_ 1 k))
  | 160 => files (λ k, sys_uname (a_ 0 k))
  | 260 => Some sys_wait4
  | 115 => files (λ k, sys_clock_nanosleep (a_ 3 k))
  | 220 => Some sys_clone
  | 124 => Some sys_sched_yield
  | 40 => zero  (* mount *)
  | 39 => zero  (* umount2 *)
  | 80 => files (λ k, sys_fstat info (a_ 0 k) (a_ 1 k))
  | 79 => files (λ k, sys_fstatat info (a_ 0 k) (a_ 1 k) (a_ 2 k))
  | 62 => files (λ k, sys_lseek (a_ 0 k) (a_ 1 k) (a_ 2 k))
  | 65 => files (λ k, sys_readv (a_ 0 k) (a_ 1 k) (a_ 2 k))
  | 66 => files (λ k, sys_writev (a_ 0 k) (a_ 1 k) (a_ 2 k))
  | 214 => Some sys_brk
  | 48 => zero  (* faccessat *)
  | 174 => zero  (* getuid *)
  | 175 => zero  (* geteuid *)
  | 176 => zero  (* getgid *)
  | 177 => zero  (* getegid *)
  | 178 => Some (constant 10000)  (* gettid *)
  | 226 => zero  (* mprotect *)
  | 94 => Some sys_exit  (* exit_group *)
  | 129 => Some sys_kill
  | 179 => files (λ k, sys_sysinfo (a_ 0 k))
  | 222 => Some sys_mmap
  | 215 => Some sys_munmap
  | 78 => files (λ k, sys_readlinkat (a_ 1 k) (a_ 2 k))
  | 29 => zero  (* ioctl *)
  | 134 => zero  (* rt_sigaction *)
  | 165 => Some sys_getrusage
  | 113 => Some sys_clock_gettime_call
  | 88 => files (λ k, sys_utimensat info (a_ 0 k) (a_ 1 k))
  | 25 => files (λ k, sys_fcntl (a_ 0 k) (a_ 1 k) (a_ 2 k))
  | 153 => files (λ k, sys_times (a_ 0 k))
  | 169 => Some sys_gettimeofday
  | 71 => files (λ k, sys_sendfile (a_ 0 k) (a_ 1 k) (a_ 2 k) (a_ 3 k))
  | 59 => files (λ k, sys_pipe2 (a_ 0 k) (a_ 1 k))
  | 72 => files (λ k, sys_pselect6 (a_ 0 k) (a_ 1 k) (a_ 3 k))
  | 98 => files (λ k, sys_futex (a_ 0 k))
  | 103 => zero  (* setitimer *)
  | 261 => files (λ k, sys_prlimit64 (a_ 3 k))
  | 96 => zero  (* set_tid_address *)
  | _ => None
  end.

Definition map_context (f : Context → Context) k : Kernel := set_sched (set_running_context (f (context k)) (k_sched k)) k.

(** The assertion on the number is compiled to nothing: other numbers index
    past the table. *)
Definition syscall_distribute (syscall_id : Z) k : outcome (call_exit * Kernel) :=
  if (0 <=? syscall_id) && (syscall_id <? SYSCALL_LIST_LENGTH) then
    match syscall_list syscall_id with
    | Some handler =>
        do (r, k) := handler k in
        match r with
        | Returns v => Done (r, map_context (set_a0 v) k)
        | Leaves _ => Done (r, k)
        end
    | None => Done (Returns 0, map_context (set_a0 0) k)
    end
  else Wild.

(** [syscall] and the [__restore] after it. *)
Definition syscall k : outcome (sched_exit * Kernel) :=
  do (r, k) := syscall_distribute (s32 (a_ 7 k)) k in
  match r with
  | Returns _ => Done (Resume, map_context next_pc k)
  | Leaves e => Done (e, k)
  end.

(** * Interrupts and faults *)

Definition page_fault k : outcome (sched_exit * Kernel) :=
  do (r, k) := leave_exit 1 k in
  match r with Leaves e => Done (e, k) | Returns _ => Done (Resume, k) end.

Definition breakpoint k : Kernel := map_context next_pc k.

Definition set_next_timeout k : Kernel :=
  let (t, c) := r_time (k_clock k) in set_timeout (u64 (t + INTERVAL)) (k_ticks k) (set_clock c k).

Definition tick k : Kernel :=
  let k := set_next_timeout k in set_timeout (k_timeout k) (u64 (k_ticks k + 1)) k.

Definition handle_interrupt (scause : Z) k : outcome (sched_exit * Kernel) :=
  let is_interrupt := ztrue (Z.shiftr scause 63) in
  let fault_or_stop := if is_interrupt then Done (Shutdown, k) else page_fault k in
  match Z.land scause 31 with
  | 8 => syscall k
  | 1 => fault_or_stop
  | 2 => if is_interrupt then Done (Shutdown, k) else Panic
  | 3 => Done (Resume, breakpoint k)
  | 5 => if is_interrupt then Done (Resume, tick k) else page_fault k
  | 7 => fault_or_stop
  | 12 | 13 => page_fault k
  | 15 => page_fault k
  | _ => Done (Shutdown, k)
  end.

(** [__interrupt]: the number of [getppid] in a7 is answered at once, for any
    cause, with the [int] that [schedule] left at [fast_pid]; otherwise the
    registers are saved.  [c] are the registers at the trap; the ones resumed
    are those of [running_context], or the result of the short way. *)
Definition __interrupt (scause : Z) (c : Context) k : outcome (sched_exit * Context * Kernel) :=
  if reg 7 c =? 173 then Done (Resume, next_pc (set_a0 (u64 (fast_pid (k_sched k))) c), k)
  else
    do (e, k) := handle_interrupt scause (map_context (λ _, c) k) in
    Done (e, context k, k).

End trap.
