(* ===== verification/KTrapTheorems.v ===== *)
(** What holds after every trap, whatever processes do. *)
From Stdlib Require Import ZArith Lia.
From stdpp Require Import base list numbers option gmap relations.
From S2P Require Import Prelude BlockDevice FfTypes FfLfn FfDir FfFile FfApi KBase Sysctl Rtc KTime KStdio KHeap KPages KPageTable.
From S2P Require Import KBrk KMmap KUser KPipe KSched KProc KPath KFs KFd KVfs KPageTableSpec KVfsTheorems KSyscall KTrap.

Local Open Scope Z_scope.
Local Open Scope out_scope.

(** Invert a computation that returned: binds, tests and matches become
    equations. *)
Ltac step_done Hd :=
  lazymatch type of Hd with
  | obind ?m _ = Done _ =>
      let E := fresh "E" in destruct m as [?| | |] eqn:E; cbn [obind] in Hd; [|discriminate Hd..]
  | (let '(_, _) := ?p in _) = Done _ => destruct p; cbn in Hd
  | (if ?b then _ else _) = Done _ => let E := fresh "E" in destruct b eqn:E
  | match ?x with _ => _ end = Done _ => let E := fresh "E" in destruct x eqn:E; try discriminate Hd
  end.
Ltac run_done Hd := repeat (step_done Hd; cbn beta iota in Hd); try discriminate Hd; try (injection Hd as <- <-).

(** * File calls keep descriptors and pipes in order *)

Section files.
Context {D : Type} {BD : BlockDevice D} {M : Type} {UM : UserMemory M}.
Implicit Types s : Sys D M.

Definition sys_ok s : Prop := fd_ok (table s) ∧ pipes_ok (pipes s).

(** A call that keeps both. *)
Definition keeps (call : Sys D M → outcome (pipe_exit * Sys D M)) : Prop :=
  ∀ s e s', sys_ok s → call s = Done (e, s') → sys_ok s'.

Lemma Write_ok fd buf count wc ps e wc' ps' : pipes_ok ps → Write fd buf count wc ps = Done (e, wc', ps') → pipes_ok ps'.
Proof.
  intros Hps E. destruct (pipe_of fd ps) as [[i p]| | |] eqn:Ep; [|unfold Write in E; rewrite Ep in E; discriminate E..].
  destruct (pipe_write_spec fd ps i p buf count wc Hps Ep) as (e1 & wc1 & p1 & E1 & Hp & _). rewrite E in E1.
  injection E1 as -> -> ->. by apply set_pipe_ok.
Qed.

Lemma Read_ok fd count rc ps e bs rc' ps' : pipes_ok ps → Read fd count rc ps = Done (e, bs, rc', ps') → pipes_ok ps'.
Proof.
  intros Hps E. destruct (pipe_of fd ps) as [[i p]| | |] eqn:Ep; [|unfold Read in E; rewrite Ep in E; discriminate E..].
  destruct (pipe_read_spec fd ps i p count rc Hps Ep) as (e1 & rc1 & p1 & E1 & Hp & _).
  rewrite E in E1. injection E1 as -> -> -> ->. by apply set_pipe_ok.
Qed.

Lemma keeps_write a0 a1 a2 : keeps (sys_write a0 a1 a2).
Proof.
  intros s e s' [Ht Hp] E. unfold sys_write in E. run_done E; split; try done.
  cbn [set_pipes pipes]. by eapply Write_ok.
Qed.

Lemma keeps_read a0 a1 a2 : keeps (sys_read a0 a1 a2).
Proof.
  intros s e s' [Ht Hp] E. unfold sys_read in E. run_done E; split; try done.
  cbn [set_umem set_pipes pipes]. by eapply Read_ok.
Qed.
Lemma keeps_fd s t ps v s' :
  fd_step (table s, pipes s, vfs s) (t, ps, v) → pipes_ok ps → sys_ok s → table s' = t → pipes s' = ps → sys_ok s'.
Proof. intros Hs Hp [Ht _] E1 E2. unfold sys_ok. rewrite E1, E2. split; [|done]. exact (fd_step_ok _ _ Hs Ht). Qed.

Lemma keeps_openat a0 a1 a2 : keeps (sys_openat a0 a1 a2).
Proof.
  intros s e s' Hs E. unfold sys_openat in E. run_done E; (eapply keeps_fd; [by eapply step_open|apply Hs|done..]).
Qed.

Lemma keeps_close a0 : keeps (sys_close a0).
Proof. intros s e s' Hs E. unfold sys_close in E. run_done E. eapply keeps_fd; [by eapply step_close|apply Hs|done..]. Qed.

Lemma keeps_dup a0 : keeps (sys_dup a0).
Proof. intros s e s' Hs E. unfold sys_dup in E. run_done E. eapply (keeps_fd s); [by eapply step_copy|apply Hs|done..]. Qed.

Lemma keeps_dup3 a0 a1 : keeps (sys_dup3 a0 a1).
Proof. intros s e s' Hs E. unfold sys_dup3 in E. run_done E; [done|]. eapply keeps_fd; [by eapply step_copy|apply Hs|done..]. Qed.

Lemma keeps_fcntl a0 a1 a2 : keeps (sys_fcntl a0 a1 a2).
Proof. intros s e s' Hs E. unfold sys_fcntl in E. run_done E; [done|]. eapply keeps_fd; [by eapply step_copy|apply Hs|done..]. Qed.

Lemma keeps_pipe2 a0 a1 : keeps (sys_pipe2 a0 a1).
Proof.
  intros s e s' Hs E. unfold sys_pipe2 in E. run_done E. eapply keeps_fd; [by eapply step_pipe| |done..].
  edestruct CreatePipe_ok as (_ & _ & Ho & _); [apply Hs|eassumption|]. by eapply open_pipe_ok; [apply Hs|].
Qed.

(** The other calls do not touch descriptors and pipes. *)
Lemma readv_loop_same n : ∀ fd iov r s r' s', readv_loop n fd iov r s = Done (r', s') → table s' = table s ∧ pipes s' = pipes s.
Proof.
  induction n as [|n IH]; intros fd iov r s r' s' E; cbn [readv_loop] in E; run_done E; try done. by apply IH in E.
Qed.

Lemma writev_loop_same n : ∀ fd iov r s r' s', writev_loop n fd iov r s = Done (r', s') → table s' = table s ∧ pipes s' = pipes s.
Proof.
  induction n as [|n IH]; intros fd iov r s r' s' E; cbn [writev_loop] in E; run_done E; try done. by apply IH in E.
Qed.

Lemma pselect_loop_same n : ∀ i copy rd s e s', pselect_loop n i copy rd s = Done (e, s') → table s' = table s ∧ pipes s' = pipes s.
Proof.
  induction n as [|n IH]; intros i copy rd s e s' E; cbn [pselect_loop] in E; run_done E; try done; by apply IH in E.
Qed.

Definition steady (call : Sys D M → outcome (pipe_exit * Sys D M)) : Prop :=
  ∀ s e s', call s = Done (e, s') → table s' = table s ∧ pipes s' = pipes s.

Lemma steady_keeps call : steady call → keeps call.
Proof. intros Hc s e s' [Ht Hp] [E1 E2]%Hc. unfold sys_ok. by rewrite E1, E2. Qed.

Lemma steady_readv a0 a1 a2 : steady (sys_readv a0 a1 a2).
Proof. intros s e s' E. unfold sys_readv in E. run_done E. by eapply readv_loop_same. Qed.
Lemma steady_writev a0 a1 a2 : steady (sys_writev a0 a1 a2).
Proof. intros s e s' E. unfold sys_writev in E. run_done E. by eapply writev_loop_same. Qed.
Lemma steady_pselect6 a0 a1 a3 : steady (sys_pselect6 a0 a1 a3).
Proof. intros s e s' E. unfold sys_pselect6 in E. run_done E; try done; by apply pselect_loop_same in E. Qed.
Lemma steady_chdir a0 : steady (sys_chdir a0).
Proof. intros s e s' E. unfold sys_chdir in E. by run_done E. Qed.
Lemma steady_getdents64 a0 a1 a2 : steady (sys_getdents64 a0 a1 a2).
Proof. intros s e s' E. unfold sys_getdents64 in E. by run_done E. Qed.
Lemma steady_mkdirat a0 a1 a2 : steady (sys_mkdirat a0 a1 a2).
Proof. intros s e s' E. unfold sys_mkdirat in E. by run_done E. Qed.
Lemma steady_unlinkat a0 a1 : steady (sys_unlinkat a0 a1).
Proof. intros s e s' E. unfold sys_unlinkat in E. by run_done E. Qed.
Lemma steady_lseek a0 a1 a2 : steady (sys_lseek a0 a1 a2).
Proof. intros s e s' E. unfold sys_lseek in E. by run_done E. Qed.
Lemma steady_sendfile a0 a1 a2 a3 : steady (sys_sendfile a0 a1 a2 a3).
Proof. intros s e s' E. unfold sys_sendfile in E. by run_done E. Qed.
Lemma user_fstat_same info path stat s r s' : user_fstat info path stat s = Done (r, s') → table s' = table s ∧ pipes s' = pipes s.
Proof. intros E. unfold user_fstat in E. cbv zeta in E. run_done E; done. Qed.
Lemma steady_fstat info a0 a1 : steady (sys_fstat info a0 a1).
Proof. intros s e s' E. unfold sys_fstat in E. run_done E. by eapply user_fstat_same. Qed.
Lemma steady_fstatat info a0 a1 a2 : steady (sys_fstatat info a0 a1 a2).
Proof. intros s e s' E. unfold sys_fstatat in E. run_done E. by eapply user_fstat_same. Qed.
Lemma steady_utimensat info a0 a1 : steady (sys_utimensat info a0 a1).
Proof. intros s e s' E. unfold sys_utimensat in E. by run_done E. Qed.
Lemma steady_readlinkat a1 a2 : steady (sys_readlinkat a1 a2).
Proof. intros s e s' E. unfold sys_readlinkat in E. by run_done E. Qed.
Lemma steady_answer r a bs : steady (answer r a bs).
Proof. intros s e s' E. unfold answer in E. by run_done E. Qed.
Lemma steady_prlimit64 a3 : steady (sys_prlimit64 a3).
Proof. intros s e s' E. unfold sys_prlimit64 in E. destruct (ztrue a3); [by apply steady_answer in E|by injection E as <- <-]. Qed.

End files.

Create HintDb trapdb.
#[export] Hint Resolve keeps_write keeps_read keeps_openat keeps_close keeps_dup keeps_dup3 keeps_fcntl keeps_pipe2 : trapdb.
#[export] Hint Resolve steady_readv steady_writev steady_pselect6 steady_chdir steady_getdents64 steady_mkdirat steady_unlinkat : trapdb.
#[export] Hint Resolve steady_lseek steady_sendfile steady_fstat steady_fstatat steady_utimensat steady_readlinkat steady_answer
  steady_prlimit64 : trapdb.

(** * The scheduler *)

(** Process numbers are in order and the short way of [getppid] finds the
    number of the running process. *)
Record run_ok (s : Sched) : Prop := mkRunOk {
  ro_sched : sched_ok s;
  ro_fast p : running s = Some p → fast_pid s = pid p
}.

(** After a switch the registers resumed are those of the running process. *)
Definition switched (e : sched_exit) (s : Sched) : Prop :=
  (∀ p, running s = Some p → fast_pid s = pid p) ∧
  (e = Resume → ∃ p, running s = Some p ∧ running_context s = thread_context p).

Lemma resume_switched p s : running s = Some p → switched Resume (resume p s).
Proof. intros Hr. split; cbn; rewrite Hr; [by intros q [= <-]|]. intros _. by exists p. Qed.

Lemma unfreeze_switched s s' : try_to_unfreeze s = Some s' → switched Resume s'.
Proof.
  unfold try_to_unfreeze. intros E. repeat case_match; try discriminate E; injection E as <-; by apply resume_switched.
Qed.

Lemma schedule_switched s e s' : schedule s = Done (e, s') → switched e s'.
Proof.
  unfold schedule. destruct (running s) as [p|] eqn:Hr.
  { intros [= <- <-]. by apply resume_switched. }
  set (s1 := set_times _ s). assert (running s1 = None) as Hr1 by done.
  assert (∀ e', e' ≠ Resume → switched e' s1) as Hn.
  { intros e' He. split; [by rewrite Hr1|done]. }
  destruct (if (100 <? _) && _ then try_to_unfreeze s1 else None) as [s2|] eqn:E.
  { intros [= <- <-]. destruct (_ && _); [|done]. by eapply unfreeze_switched. }
  destruct (runnable s1) as [|p ready]; [|intros [= <- <-]; by apply resume_switched].
  destruct (negb (is_empty (blocked s1))).
  - destruct (try_to_unfreeze s1) as [s2|] eqn:E2; [|done]. intros [= <- <-]. by eapply unfreeze_switched.
  - destruct (memory_dirty s1), (tests_left s1); intros [= <- <-]; by apply Hn.
Qed.

Lemma requeue_switched c s e s' : requeue c s = Done (e, s') → switched e s'.
Proof. unfold requeue. destruct (running s); [|done]. apply schedule_switched. Qed.

Lemma exit_switched {A} (d : PCB → KMem → outcome (KMem * A)) code s a e s' :
  exit_process d code s = Done (a, (e, s')) → switched e s'.
Proof.
  unfold exit_process. destruct (running s); [|done]. intros (s1 & _ & E)%obind_done. apply obind_done in E as ([m b] & _ & E).
  apply obind_done in E as ([e1 s2] & E & [= <- <- <-]). by eapply schedule_switched.
Qed.

Lemma wait_switched w s e s' : wait w s = Done (inr (e, s')) → switched e s'.
Proof.
  unfold wait. destruct (running s) as [p|]; [|done]. destruct (signal_list p) as [|[a b] l]; [|discriminate].
  intros (r & E & [= ->])%obind_done. by eapply schedule_switched.
Qed.

(** A process goes when it is killed in its queue, and stays when it runs. *)
Lemma delete_perm (l : list PCB) i p : l !! i = Some p → pid <$> l ≡ₚ pid p :: (pid <$> delete i l).
Proof.
  intros Hl. rewrite <- (take_drop_middle l i p Hl) at 1. rewrite delete_take_drop, !fmap_app. cbn. by rewrite <- Permutation_middle.
Qed.

Lemma kill_same code p s s' : kill code p s = Done s' →
  pids s' = pids s ∧ global_pid s' = global_pid s ∧ running_context s' = running_context s ∧ fast_pid s' = fast_pid s ∧
  option_map pid (running s') = option_map pid (running s) ∧ pid <$> runnable s' = pid <$> runnable s ∧
  pid <$> blocked s' = pid <$> blocked s.
Proof.
  unfold kill. intros (q & _ & [= <-])%obind_done. destruct (search_by_pid (ppid p) s) as [w|]; [|done].
  destruct (pids_signal w (pid p, code) s) as [E1 E2]. change (pids (set_memory ?a ?b ?c ?d)) with (pids d).
  split; [exact E1|]. split; [exact E2|]. destruct w; cbn; rewrite ?pids_alter; split_and!; auto. by destruct (running s).
Qed.

Lemma requeue_ok c s e s' : requeue c s = Done (e, s') → sched_ok s → sched_ok s' ∧ switched e s'.
Proof.
  intros E Hok. pose proof (requeue_perm _ _ _ _ E) as [Hp Hg]. split; [by apply (sched_ok_perm s)|by eapply requeue_switched].
Qed.

Lemma exit_ok {A} (d : PCB → KMem → outcome (KMem * A)) code s a e s' :
  exit_process d code s = Done (a, (e, s')) → sched_ok s → sched_ok s' ∧ switched e s'.
Proof.
  intros E Hok. split; [|by eapply exit_switched]. eapply (sched_step_ok (mkGlobals 0 0 0)), Hok. right. right.
  unfold exit_step. eauto 10.
Qed.

(** [clone] leaves the caller running, with the number of the child in a0. *)
Lemma clone_parent g st s s' : clone g st s = Done s' →
  ∃ p q n, running s = Some p ∧ running s' = Some q ∧ pid q = pid p ∧ running_context s' = set_a0 n (running_context s) ∧
    fast_pid s' = fast_pid s.
Proof.
  unfold clone, get_new_pid. destruct (running s) as [p|]; [|done]. cbv zeta. destruct (ztrue st); cbn [obind].
  - intros [= <-]. eauto 10.
  - cbn [set_global_pid brks mmaps]. destruct (brks s !! _) as [b|]; [|done]. destruct (mmaps s !! _) as [mm|]; [|done].
    destruct (fork_memory _ _ _ _ _) as [[[[[[stk table] elf] b'] mm'] km]| | |]; [|discriminate..]. cbn [obind].
    intros [= <-]. eauto 10.
Qed.

(** * The kernel *)

Section kernel.
Context {D : Type} {BD : BlockDevice D} {H : Type} {CC : CycleCounter H}.
Context (qemu : bool) (g : Globals) (info : FILINFO).
Implicit Types k : Kernel (D := D) (H := H).

Record kernel_ok k : Prop := mkKernelOk {
  ko_run : run_ok (k_sched k);
  ko_fds : fd_ok (k_table k);
  ko_pipes : pipes_ok (k_pipes k)
}.

Definition running_pid k : option Z := option_map pid (running (k_sched k)).

(** What a handler leaves to [__restore]: on return the registers of the
    caller but for a0, on a switch those of the process that runs next. *)
Definition resumed (r : call_exit) k k' : Prop :=
  match r with
  | Returns v => set_a0 v (context k') = set_a0 v (context k) ∧ running_pid k' = running_pid k
  | Leaves e => e = Resume → ∃ p, running (k_sched k') = Some p ∧ context k' = thread_context p
  end.

Definition good (h : Kernel → outcome (call_exit * Kernel)) : Prop :=
  ∀ k r k', kernel_ok k → global_pid (k_sched k) < 2 ^ 31 - 1 → h k = Done (r, k') → kernel_ok k' ∧ resumed r k k'.

(** A handler that changes neither processes nor descriptors. *)
Lemma kernel_ok_same k k' :
  k_sched k' = k_sched k → k_table k' = k_table k → k_pipes k' = k_pipes k → kernel_ok k → kernel_ok k'.
Proof. intros E1 E2 E3 [K1 K2 K3]. split; by rewrite ?E1, ?E2, ?E3. Qed.

(** Memory is not part of the scheduler's order. *)
Lemma run_ok_memory m bs ms s : run_ok s → run_ok (set_memory m bs ms s).
Proof. intros [K1 K2]. split; [|exact K2]. by apply (sched_ok_perm s). Qed.

Lemma set_memory_good m bs ms k k' v :
  kernel_ok k → k_sched k' = set_memory m bs ms (k_sched k) → k_table k' = k_table k → k_pipes k' = k_pipes k →
  kernel_ok k' ∧ resumed (Returns v) k k'.
Proof.
  intros [K1 K2 K3] E1 E2 E3. split.
  - split; rewrite ?E1, ?E2, ?E3; auto using run_ok_memory.
  - unfold resumed, context, running_pid. by rewrite E1.
Qed.

Lemma leave_good op k r k' :
  (∀ s e s', op s = Done (e, s') → sched_ok s → sched_ok s' ∧ switched e s') →
  kernel_ok k → leave op k = Done (r, k') → kernel_ok k' ∧ ∀ k0, resumed r k0 k'.
Proof.
  intros Hop [[K1 K2] K3 K4] E. unfold leave in E. run_done E.
  match goal with E1 : op _ = Done _ |- _ => destruct (Hop _ _ _ E1 K1) as [S1 [S2 S3]] end.
  split; [|intros k0; exact S3]. split; [|exact K3|exact K4]. split; [|exact S2]. by eapply sched_ok_perm; [exact S1|..].
Qed.

Lemma put_sys_ok p s k : running (k_sched k) = Some p → kernel_ok k → sys_ok s →
  kernel_ok (put_sys p s k) ∧ context (put_sys p s k) = context k ∧ running_pid (put_sys p s k) = running_pid k ∧
  global_pid (k_sched (put_sys p s k)) = global_pid (k_sched k).
Proof.
  intros Hr [[K1 K2] _ _] [Hf Hp]. split; [|split; [done|split; [|done]]].
  2:{ unfold running_pid. rewrite Hr. done. }
  split; [|exact Hf|exact Hp]. split; [|intros q [= <-]; exact (K2 p Hr)]. eapply sched_ok_perm; [exact K1| |done].
  unfold pids, procs. cbn. by rewrite Hr.
Qed.

(** Only the heap of the kernel differs. *)
Lemma set_heap_ok h b k : kernel_ok k → kernel_ok (set_heap h b k).
Proof. by apply kernel_ok_same. Qed.

Section deletion.
Context (del : PCB → HeapAllocator → KMem → outcome (KMem * HeapAllocator)).

Lemma leave_exit_good code k r k' :
  kernel_ok k → leave_exit del code k = Done (r, k') → kernel_ok k' ∧ ∀ k0, resumed r k0 k'.
Proof.
  intros Hk E. unfold leave_exit in E. step_done E. destruct a as [h [e s]].
  destruct (exit_ok _ _ _ _ _ _ E0 (ro_sched _ (ko_run _ Hk))) as [S1 S2].
  eapply leave_good in E; [exact E| |by apply set_heap_ok]. intros s0 e0 s1 [= <- <-] _. done.
Qed.

Lemma exits_good code : good (leave_exit del code).
Proof. intros k r k' Hk _ E. destruct (leave_exit_good _ _ _ _ Hk E). auto. Qed.

Lemma on_files_good f : (∀ k, keeps (f k)) → good (λ k, on_files del (f k) k).
Proof.
  intros Hf k r k' Hk _ E. unfold on_files in E. step_done E. step_done E. step_done E. destruct a1 as [e s]. cbn beta iota zeta in E.
  unfold current in E0. destruct (running (k_sched k)) as [p|] eqn:Hr; [|done]. injection E0 as <-.
  assert (sys_ok a0) as H0.
  { unfold get_sys in E1. destruct (k_binds k !! _); [|done]. injection E1 as <-. split; apply Hk. }
  destruct (put_sys_ok p s k Hr Hk (Hf k _ _ _ H0 E2)) as (Hk' & Hc & Hp & _).
  destruct e; [injection E as <- <-; split; [done|]; split; [by rewrite Hc|done]|..].
  3: destruct (leave_exit_good _ _ _ _ Hk' E); auto.
  all: (eapply leave_good in E; [destruct E as [J1 J2]; split; [exact J1|apply J2]| |exact Hk']); eauto using requeue_ok.
Qed.

(** The handlers that do not go through the file calls. *)
Lemma constant_good n : good (constant n).
Proof. intros k r k' Hk _ [= <- <-]. done. Qed.

Lemma store_user_good v a bs k r k' : kernel_ok k → store_user v a bs k = Done (r, k') → kernel_ok k' ∧ resumed r k k'.
Proof. intros Hk E. unfold store_user in E. run_done E. by eapply set_memory_good. Qed.

Lemma leave_handler op : (∀ s e s', op s = Done (e, s') → sched_ok s → sched_ok s' ∧ switched e s') → good (leave op).
Proof. intros Hop k r k' Hk _ E. eapply leave_good in E; [|exact Hop|exact Hk]. destruct E. auto. Qed.

Lemma getchar_good : good sys_getchar.
Proof. intros k r k' Hk _ E. unfold sys_getchar in E. run_done E. split; [|done]. by apply (kernel_ok_same k). Qed.

Lemma exit_good : good (sys_exit del).
Proof. intros k r k' Hk _ E. destruct (leave_exit_good _ _ _ _ Hk E). auto. Qed.
Lemma execve_good : good (sys_execve del).
Proof. exact (exits_good 0). Qed.

Lemma getpid_good : good sys_getpid.
Proof. intros k r k' Hk _ E. unfold sys_getpid in E. run_done E. done. Qed.
Lemma getppid_good : good sys_getppid.
Proof. intros k r k' Hk _ E. unfold sys_getppid in E. run_done E. done. Qed.

Lemma wait4_good : good sys_wait4.
Proof.
  intros k r k' Hk _ E. unfold sys_wait4 in E. step_done E. destruct a as [[n s]|[e s]].
  - injection E as <- <-. pose proof (sched_step_ok g _ _ (or_introl (step_wait g _ _ _ _ E0)) (ro_sched _ (ko_run _ Hk))) as Hs.
    unfold wait in E0. destruct (running (k_sched k)) as [p|] eqn:Hr; [|done].
    destruct (signal_list p) as [|[a b] l]; [by apply obind_done in E0 as (? & _ & [=])|]. injection E0 as <- <-.
    split; [|split; [done|]; unfold running_pid; cbn; by rewrite Hr].
    destruct Hk as [[K1 K2] K3 K4]. split; [|done|done]. split; [exact Hs|]. intros q [= <-]. exact (K2 p Hr).
  - eapply leave_good in E; [| |exact Hk]; [by destruct E; auto|]. intros s0 e0 s0' [= <- <-] _. split; [|by eapply wait_switched].
    exact (sched_step_ok g _ _ (or_intror (or_introl (step_wait_block _ _ _ _ E0))) (ro_sched _ (ko_run _ Hk))).
Qed.

Lemma clone_good : good (sys_clone g).
Proof.
  intros k r k' Hk Hg E. unfold sys_clone in E. step_done E. injection E as <- <-.
  pose proof (sched_step_ok g _ _ (or_introl (step_clone g _ _ _ E0 Hg)) (ro_sched _ (ko_run _ Hk))) as Hs.
  pose proof (clone_parent _ _ _ _ E0) as (p & q & n & Hr & Hr' & Hpid & Hctx & Hf).
  destruct Hk as [[K1 K2] K3 K4]. split.
  - split; [|done|done]. split; [exact Hs|]. cbn [set_sched k_sched]. rewrite Hr'. intros q' [= <-]. rewrite Hf, Hpid. exact (K2 p Hr).
  - unfold resumed, running_pid, a_, reg, context. cbn [Z.eqb set_sched k_sched]. rewrite Hctx, Hr, Hr'. cbn. by rewrite Hpid.
Qed.

Lemma getcwd_good : good sys_getcwd.
Proof.
  intros k r k' Hk _ E. unfold sys_getcwd in E. step_done E. step_done E. destruct a0 as [ret k1]. cbn beta iota in E.
  assert (k_sched k1 = k_sched k ∧ k_table k1 = k_table k ∧ k_pipes k1 = k_pipes k) as (S1 & S2 & S3).
  { destruct (a_ 0 k =? 0); [|by injection E1 as <- <-]. apply obind_done in E1 as ([x h] & _ & [= <- <-]). done. }
  eapply store_user_good in E; [|by apply (kernel_ok_same k)]. destruct E as [J1 J2]. split; [exact J1|].
  unfold resumed, context, running_pid in *. by rewrite <- S1.
Qed.

Lemma brk_good : good sys_brk.
Proof.
  intros k r k' Hk _ E. unfold sys_brk in E. cbv zeta in E. run_done E. by eapply set_memory_good.
Qed.

Lemma mmap_good : good sys_mmap.
Proof.
  intros k r k' Hk _ E. unfold sys_mmap in E. cbv zeta in E. run_done E. by eapply set_memory_good.
Qed.

Lemma munmap_good : good sys_munmap.
Proof.
  intros k r k' Hk _ E. unfold sys_munmap in E. cbv zeta in E. run_done E. by eapply set_memory_good.
Qed.

(** Taking the process at [w] out of its queue. *)
Definition taken_out (w : place) (s : Sched) : Sched :=
  match w with
  | InRunning => s
  | InRunnable i => set_queues (running s) (delete i (runnable s)) (blocked s) s
  | InBlocked i => set_queues (running s) (runnable s) (delete i (blocked s)) s
  end.

Lemma taken_out_ok w s : sched_ok s → sched_ok (taken_out w s).
Proof.
  intros [K1 K2 K3]. assert (pids (taken_out w s) `sublist_of` pids s) as Hsub.
  { destruct w as [|i|i]; [done|..]; unfold pids, procs; cbn; rewrite !fmap_app, list_fmap_delete;
      repeat (apply sublist_app; [done|]); [apply sublist_app; [|done]|]; apply sublist_delete. }
  assert (global_pid (taken_out w s) = global_pid s) as Hg by (by destruct w).
  split; [by eapply sublist_NoDup| |by rewrite Hg].
  intros n Hn. rewrite Hg. eapply K2, elem_of_submseteq; [exact Hn|by apply sublist_submseteq].
Qed.

Lemma kill_good : good sys_kill.
Proof.
  intros k r k' Hk Hg E. unfold sys_kill in E. cbv zeta in E. destruct (search_by_pid _ _) as [w|]; [|by eapply constant_good].
  destruct (match w with InRunning => _ | _ => _ end) as [p|]; [|done]. step_done E. injection E as <- <-.
  destruct (kill_same _ _ _ _ E0) as (P1 & P2 & P3 & P4 & P5 & _). destruct Hk as [[K1 K2] K3 K4].
  change (match w with InRunning => a | _ => _ end) with (taken_out w a).
  assert (running (taken_out w a) = running a ∧ running_context (taken_out w a) = running_context a ∧
    fast_pid (taken_out w a) = fast_pid a) as (Q1 & Q2 & Q3) by (by destruct w).
  split.
  - split; [|done|done]. split.
    + apply taken_out_ok. apply (sched_ok_perm (k_sched k)); [done|by rewrite P1|done].
    + cbn [set_sched k_sched]. rewrite Q1, Q3, P4. intros q Hq. rewrite Hq in P5.
      destruct (running (k_sched k)) as [p0|]; [|done]. injection P5 as ->. by apply K2.
  - unfold resumed, running_pid, context. cbn [set_sched k_sched]. by rewrite Q1, Q2, P3, P5.
Qed.

Lemma clock_store_good v a bs c k r k' :
  kernel_ok k → store_user v a bs (set_clock c k) = Done (r, k') → kernel_ok k' ∧ resumed r k k'.
Proof. intros Hk E. unfold store_user in E. run_done E. by eapply set_memory_good. Qed.

Lemma gettimeofday_good : good (sys_gettimeofday qemu).
Proof. intros k r k' Hk _ E. unfold sys_gettimeofday in E. step_done E. destruct a. by eapply clock_store_good. Qed.
Lemma clock_gettime_good : good sys_clock_gettime_call.
Proof. intros k r k' Hk _ E. unfold sys_clock_gettime_call in E. step_done E. destruct a. by eapply clock_store_good. Qed.
Lemma getrusage_good : good (sys_getrusage qemu).
Proof. intros k r k' Hk _ E. unfold sys_getrusage in E. step_done E. destruct a. by eapply clock_store_good. Qed.

(** Every registered handler is good. *)
Lemma handlers_good id h : syscall_list qemu g info del id = Some h → good h.
Proof.
  intros E. unfold syscall_list in E. cbv zeta in E.
  repeat (match type of E with match ?x with _ => _ end = _ => destruct x; try discriminate E end); injection E as <-;
    first [apply on_files_good; intros k0; first [solve [auto with trapdb]|apply steady_keeps; solve [auto with trapdb|apply steady_answer]]
          |solve [auto using constant_good, getchar_good, exit_good, execve_good, getpid_good, getppid_good, wait4_good, clone_good, getcwd_good,
             brk_good, mmap_good, munmap_good, kill_good, gettimeofday_good, clock_gettime_good, getrusage_good]
          |apply leave_handler; solve [eauto using requeue_ok]].
Qed.

(** * Traps *)

Lemma map_context_ok f k : kernel_ok k → kernel_ok (map_context f k).
Proof. intros [[K1 K2] K3 K4]. split; [|done|done]. split; [|done]. by apply (sched_ok_perm (k_sched k)). Qed.

(** What is resumed after a trap that the process with registers [c] took:
    the process itself after the call with a result in a0, or another process
    with the registers that were saved for it. *)
Definition next_process (c : Context) k k' : Prop :=
  (running_pid k' = running_pid k ∧ ∃ v, context k' = next_pc (set_a0 v c)) ∨
  (∃ p, running (k_sched k') = Some p ∧ context k' = thread_context p).

Lemma syscall_ok k e k' : kernel_ok k → global_pid (k_sched k) < 2 ^ 31 - 1 → syscall qemu g info del k = Done (e, k') →
  kernel_ok k' ∧ (e = Resume → next_process (context k) k k').
Proof.
  intros Hk Hg E. unfold syscall, syscall_distribute in E. step_done E. destruct a as [r k1].
  destruct (_ && _); [|discriminate E0]. destruct (syscall_list _ _ _ _) as [h|] eqn:Eh.
  - step_done E0. destruct a as [r' k2]. destruct (handlers_good _ _ Eh _ _ _ Hk Hg E1) as [Hk2 Hr].
    destruct r' as [v|e']; injection E0 as <- <-; injection E as <- <-; cbn in Hr.
    + destruct Hr as [Hc Hp]. split; [by do 2 apply map_context_ok|]. intros _. left. split; [exact Hp|]. exists v. by rewrite <- Hc.
    + split; [done|]. intros He. right. by apply Hr.
  - injection E0 as <- <-. injection E as <- <-. split; [by do 2 apply map_context_ok|]. intros _. left. split; [done|]. by exists 0.
Qed.

Lemma page_fault_ok k e k' : kernel_ok k → page_fault del k = Done (e, k') →
  kernel_ok k' ∧ (e = Resume → ∃ p, running (k_sched k') = Some p ∧ context k' = thread_context p) ∧
  k_table k' = k_table k ∧ k_pipes k' = k_pipes k ∧ k_vfs k' = k_vfs k ∧
  ∃ p, running (k_sched k) = Some p ∧ pids (k_sched k) ≡ₚ pid p :: pids (k_sched k').
Proof.
  intros Hk E. unfold page_fault in E. step_done E. destruct a as [r k1]. destruct (leave_exit_good _ _ _ _ Hk E0) as [Hk1 Hr].
  unfold leave_exit, leave in E0. run_done E0. injection E as <- <-.
  split; [exact Hk1|]. split; [exact (Hr k)|]. split_and!; [done..|].
  match goal with E2 : exit_process _ _ _ = Done _ |- _ => destruct (exit_perm _ _ _ _ _ _ E2) as (p & Hp & Hq & _) end. eauto.
Qed.

(** The causes that are handled as faults of the process. *)
Definition is_fault (scause : Z) : Prop :=
  let c := Z.land scause 31 in
  c = 12 ∨ c = 13 ∨ c = 15 ∨ (Z.shiftr scause 63 = 0 ∧ (c = 1 ∨ c = 5 ∨ c = 7)).

Lemma fault_handled scause k : is_fault scause → handle_interrupt qemu g info del scause k = page_fault del k.
Proof.
  unfold is_fault, handle_interrupt. cbv zeta. intros [-> | [-> | [-> | [-> [-> | [-> | ->]]]]]]; try done; by destruct (ztrue _).
Qed.

Lemma timer_handled scause k : Z.land scause 31 = 5 → Z.shiftr scause 63 = 1 →
  handle_interrupt qemu g info del scause k = Done (Resume, tick k).
Proof. intros E1 E2. unfold handle_interrupt. by rewrite E1, E2. Qed.

Lemma handle_interrupt_ok scause k e k' :
  kernel_ok k → global_pid (k_sched k) < 2 ^ 31 - 1 → handle_interrupt qemu g info del scause k = Done (e, k') → kernel_ok k'.
Proof.
  intros Hk Hg E. unfold handle_interrupt in E. cbv zeta in E.
  assert (page_fault del k = Done (e, k') → kernel_ok k') as Hf by (intros E'; by apply page_fault_ok in E' as []).
  assert (∀ c, Done (c, k) = Done (e, k') → kernel_ok k') as Hs by (by intros c [= _ <-]).
  destruct (ztrue _); repeat (match type of E with match ?x with _ => _ end = _ => destruct x end); eauto; try discriminate E.
  all: try (by destruct (syscall_ok _ _ _ Hk Hg E)).
  all: injection E as <- <-; first [by apply map_context_ok|apply (kernel_ok_same k); [..|done]; unfold tick, set_next_timeout; by destruct (r_time _)].
Qed.

End deletion.

(** A process runs in user mode and traps with registers [c]; the counter of
    process numbers is not at its end.  Should the process end, its
    destructors do whatever they do. *)
Definition trap_step k k' : Prop :=
  global_pid (k_sched k) < 2 ^ 31 - 1 ∧ ∃ del scause c e c', __interrupt qemu g info del scause c k = Done (e, c', k').

Lemma trap_step_ok k k' : trap_step k k' → kernel_ok k → kernel_ok k'.
Proof.
  intros (Hg & del & scause & c & e & c' & E) Hk. unfold __interrupt in E. destruct (reg 7 c =? 173); [by injection E as <- <- <-|].
  step_done E. destruct a as [e1 k1]. injection E as <- <- <-. eapply handle_interrupt_ok in E0; [done|by apply map_context_ok|done].
Qed.

(** C11: Whatever the processes do, the kernel stays in order: after any number
    of system calls, faults and interrupts, with any registers and any
    contents of memory and devices, process numbers are unique, every
    descriptor in use leads to an open file counted at least once for each of
    its descriptors, and every pipe is a ring buffer within its bounds. *)
Theorem traps_keep_order k k' : kernel_ok k → rtc trap_step k k' →
  kernel_ok k' ∧ NoDup (pids (k_sched k')) ∧
  (∀ fd d, slot fd (k_table k') = Done (Some d) → ∃ p, GetFile fd (k_table k') = Done (file_ d, p) ∧
     1 <= refs (file_ d) (fd_array (k_table k')) <= cnt (file_ d) (open_files (k_table k'))) ∧
  (∀ i p, pipe_data (k_pipes k') !! i = Some p → zlen (pd_buffer p) = PIPE_BUF_LENGTH ∧
     0 <= front_pointer p < PIPE_BUF_LENGTH ∧ 0 <= back_pointer p < PIPE_BUF_LENGTH).
Proof.
  intros Hk Hr. assert (kernel_ok k') as Hk' by (induction Hr; eauto using trap_step_ok). destruct Hk' as [[K1 K2] K3 K4].
  split; [done|]. split; [apply K1|]. split; [intros fd d; by apply fd_ok_open|].
  intros i p Hp. destruct (ps_pipes _ K4 _ _ Hp). done.
Qed.

(** C12: A trap that ends in [__restore] resumes the right registers.  When a7
    does not hold 173: a system call that returns goes on after the call with
    its result in a0 and every other register as it was; one that gives up
    the processor, and a fault, resume a process with exactly the registers
    saved for it, and a faulting process is gone while files, descriptors and
    pipes stay (if its destructors returned; whatever they did); the timer
    interrupt resumes the process as it was and sets the next deadline one
    interval ahead.  When a7 holds 173, the number of [getppid], every trap is
    answered with the number of the process itself in a0, goes on four bytes
    further and changes nothing in the kernel: a fault does not end the
    process and the timer is not set. *)
Theorem trap_resumes del scause c k c' k' :
  kernel_ok k → global_pid (k_sched k) < 2 ^ 31 - 1 →
  __interrupt qemu g info del scause c k = Done (Resume, c', k') →
  (reg 7 c = 173 → k' = k ∧ ∀ p, running (k_sched k) = Some p → c' = next_pc (set_a0 (u64 (pid p)) c)) ∧
  (reg 7 c ≠ 173 → c' = context k' ∧
    (Z.land scause 31 = 8 → next_process c k k') ∧
    (is_fault scause →
       (∃ p, running (k_sched k') = Some p ∧ c' = thread_context p) ∧
       (∃ p, running (k_sched k) = Some p ∧ pids (k_sched k) ≡ₚ pid p :: pids (k_sched k')) ∧
       k_table k' = k_table k ∧ k_pipes k' = k_pipes k ∧ k_vfs k' = k_vfs k) ∧
    (Z.land scause 31 = 5 → Z.shiftr scause 63 = 1 →
       c' = c ∧ k_timeout k' = u64 (fst (r_time (k_clock k)) + INTERVAL) ∧
       k_sched k' = set_running_context c (k_sched k) ∧ k_ticks k' = u64 (k_ticks k + 1))).
Proof.
  intros Hk Hg E. unfold __interrupt in E. split.
  { intros H7. rewrite H7, Z.eqb_refl in E. injection E as <- <-. split; [done|]. intros p Hp.
    by rewrite (ro_fast _ (ko_run _ Hk) p Hp). }
  intros H7. rewrite (proj2 (Z.eqb_neq _ _) H7) in E. step_done E. destruct a as [e k1].
  injection E as -> <- <-. pose proof (map_context_ok (λ _, c) k Hk) as Hk0. split; [done|]. split; [|split].
  - intros E8. unfold handle_interrupt in E0. rewrite E8 in E0. cbn beta iota zeta in E0.
    by destruct (syscall_ok _ _ _ _ Hk0 Hg E0) as [_ Hn]; apply Hn.
  - intros Hf. rewrite fault_handled in E0 by done. destruct (page_fault_ok _ _ _ _ Hk0 E0) as (_ & Hs & Ht & Hp & Hv & Hq).
    split_and!; auto.
  - intros E5 E63. rewrite timer_handled in E0 by done. injection E0 as <-. unfold tick, set_next_timeout.
    change (k_clock (map_context (λ _, c) k)) with (k_clock k). by destruct (r_time (k_clock k)) as [t cl].
Qed.

(** The short way for [getppid] takes every trap of a process whose a7
    holds 173, an interrupt or a fault as well as the call, skips four bytes
    and answers with the number of the process itself instead of its
    parent's. *)
Theorem getppid_answers_pid del scause c k p :
  kernel_ok k → running (k_sched k) = Some p → reg 7 c = 173 → 0 <= pid p < 2 ^ 31 →
  __interrupt qemu g info del scause c k = Done (Resume, next_pc (set_a0 (pid p) c), k).
Proof.
  intros [[_ K] _ _] Hr H7 Hp. unfold __interrupt. rewrite H7, Z.eqb_refl, (K p Hr), u64_small by lia. done.
Qed.

End kernel.

(** * A concrete kernel *)

(** The registers [c] with the number of a call in a7 and its arguments. *)
Definition with_call (id a0 a1 a2 : Z) (c : Context) : Context :=
  mkContext (c_sp c) a0 (c_sepc c) (c_satp c) (c_sstatus c) (zset (zset (zset (c_regs c) 9 a1) 10 a2) 15 id).

Lemma with_call_regs id a0 a1 a2 c : length (c_regs c) = 32%nat →
  reg 0 (with_call id a0 a1 a2 c) = a0 ∧ reg 1 (with_call id a0 a1 a2 c) = a1 ∧ reg 2 (with_call id a0 a1 a2 c) = a2 ∧
  reg 7 (with_call id a0 a1 a2 c) = id.
Proof.
  intros Hl. unfold reg, with_call. cbn -[zget zset].
  split_and!; [done|..]; rewrite ?zget_zset_ne by lia; apply zget_zset_eq; unfold zlen; rewrite ?zset_length, Hl; lia.
Qed.

(** Two processes, 2 running and 3 ready, with descriptor map 0. *)
Definition ex_context (satp : Z) : Context := mkContext 0 0 0x1000 satp 0 (replicate 32 0).
Definition ex_pcb (n parent satp : Z) : PCB :=
  mkPCB n parent 0x80400000 4096 0 (mkElf 0 (mkSegment true []) (mkSegment false [])) 0 0 (ex_context satp) [47] 0 0 0 [] 0 0.
Definition ex_sched (satp : Z) (m : KMem) : Sched :=
  mkSched (Some (ex_pcb 2 1 satp)) [ex_pcb 3 2 satp] [] (ex_context satp) 3 2 0 true false [] [] m [].
Definition ex_kernel {D} (v : VFS D) (satp : Z) (m : KMem) : Kernel (D := D) (H := Z) :=
  mkKernel (ex_sched satp m) ex_fd_table ex_pipes v [[]] ex_rtc (init_heap 0x80300000) [] [] 0 0.

Lemma ex_kernel_ok {D} (v : VFS D) satp m : kernel_ok (ex_kernel v satp m).
Proof.
  split; [|exact ex_fd_ok|exact ex_pipes_ok]. split; [|by intros p [= <-]].
  assert (pids (ex_sched satp m) = [2; 3]) as E by done. split; cbn [k_sched ex_kernel]; [|intros n|]; rewrite ?E.
  - apply NoDup_cons. split; [|apply NoDup_singleton]. intros Hn%list_elem_of_singleton. done.
  - change (global_pid (ex_sched satp m)) with 3. intros [-> | ->%list_elem_of_singleton]%elem_of_cons; lia.
  - done.
Qed.

(** In the examples no process ends; this deletion leaves pages and heap as
    they are. *)
Definition ex_del (p : PCB) (h : HeapAllocator) (m : KMem) : outcome (KMem * HeapAllocator) := Done (m, h).

Definition ex_info : FILINFO := mkFILINFO 0 0 0 0 [] [].

(** Process 2 yields to process 3, whatever the rest of the kernel holds. *)
Lemma ex_yield {D} {BD : BlockDevice D} satp m t ps v b c h bs i o n : ∃ c' k',
  __interrupt true ex_globals ex_info ex_del 8 (with_call 124 0 0 0 (ex_context satp))
    (mkKernel (D := D) (H := Z) (ex_sched satp m) t ps v b c h bs i o n) = Done (Resume, c', k').
Proof. eexists _, _. vm_compute. reflexivity. Qed.

Lemma traps_keep_order_witness :
  ∃ k', rtc (trap_step true ex_globals ex_info) (ex_kernel ex_vfs 0 ex_mem) k' ∧ NoDup (pids (k_sched k')).
Proof.
  destruct (ex_yield 0 ex_mem ex_fd_table ex_pipes ex_vfs [[]] ex_rtc (init_heap 0x80300000) [] [] 0 0) as (c' & k' & E).
  assert (rtc (trap_step true ex_globals ex_info) (ex_kernel ex_vfs 0 ex_mem) k') as Hr.
  { apply rtc_once. split; [reflexivity|]. exists ex_del, 8, (with_call 124 0 0 0 (ex_context 0)), Resume, c'. exact E. }
  exists k'. split; [exact Hr|].
  exact (proj1 (proj2 (traps_keep_order true ex_globals ex_info (ex_kernel ex_vfs 0 ex_mem) k' (ex_kernel_ok _ _ _) Hr))).
Defined.

Lemma trap_resumes_witness :
  ∃ c' k', __interrupt true ex_globals ex_info ex_del 8 (with_call 124 0 0 0 (ex_context 0)) (ex_kernel ex_vfs 0 ex_mem) =
      Done (Resume, c', k') ∧
    next_process (with_call 124 0 0 0 (ex_context 0)) (ex_kernel ex_vfs 0 ex_mem) k'.
Proof.
  destruct (ex_yield 0 ex_mem ex_fd_table ex_pipes ex_vfs [[]] ex_rtc (init_heap 0x80300000) [] [] 0 0) as (c' & k' & E).
  exists c', k'. split; [exact E|].
  assert (global_pid (k_sched (ex_kernel ex_vfs 0 ex_mem)) < 2 ^ 31 - 1) as Hg by reflexivity.
  assert (reg 7 (with_call 124 0 0 0 (ex_context 0)) ≠ 173) as H7 by discriminate.
  destruct (trap_resumes true ex_globals ex_info ex_del 8 (with_call 124 0 0 0 (ex_context 0)) (ex_kernel ex_vfs 0 ex_mem) c' k'
    (ex_kernel_ok _ _ _) Hg E) as [_ Hres].
  exact (proj1 (proj2 (Hres H7)) eq_refl).
Defined.

Lemma getppid_answers_pid_witness :
  __interrupt true ex_globals ex_info ex_del (2 ^ 63 + 5) (with_call 173 0 0 0 (ex_context 0)) (ex_kernel ex_vfs 0 ex_mem) =
    Done (Resume, next_pc (set_a0 2 (with_call 173 0 0 0 (ex_context 0))), ex_kernel ex_vfs 0 ex_mem).
Proof.
  assert (0 <= pid (ex_pcb 2 1 0) < 2 ^ 31) as Hp by (cbn; lia).
  exact (getppid_answers_pid true ex_globals ex_info ex_del (2 ^ 63 + 5) (with_call 173 0 0 0 (ex_context 0)) (ex_kernel ex_vfs 0 ex_mem)
    (ex_pcb 2 1 0) (ex_kernel_ok _ _ _) eq_refl eq_refl Hp).
Defined.
