(* ===== verification/KTrapFiles.v ===== *)
(** A process uses a file: the system calls of three traps, from the registers
    of the process and the pages of its heap to the sectors of the disk. *)
From Stdlib Require Import ZArith Lia.
From stdpp Require Import base list numbers option gmap relations.
From S2P Require Import Prelude BlockDevice FfTypes FfWindow FfFat FfChain FfLfn FfDir FfMount FfFile FfApi FfRead FfWrite FfWriteLoop FfExample.
From S2P Require Import KBase Sysctl Rtc KTime KHeap KPages KPageTable KVm KBrk KMmap KUser KPipe KSched KPath KAbsPath KFs KFd KVfs.
From S2P Require Import KPageTableSpec KVfsSpec KVfsTheorems KSyscall KSyscallTheorems KTrap KTrapTheorems.

Local Open Scope Z_scope.
Local Open Scope out_scope.

Section traps.
Context {D : Type} {BD : BlockDevice D} {BL : BlockDeviceLaws D} {H : Type} {CC : CycleCounter H}.
Context (qemu : bool) (g : Globals) (info : FILINFO).
Context (del : PCB → HeapAllocator → KMem → outcome (KMem * HeapAllocator)).
Implicit Types k : Kernel (D := D) (H := H).

(** A file call that returns. *)
Lemma trap_file_call id f c k p s n s' :
  syscall_list (D := D) (H := H) qemu g info del id = Some (λ k, on_files del (f k) k) → 0 <= id < SYSCALL_LIST_LENGTH → id ≠ 173 →
  reg 7 c = id → running (k_sched k) = Some p → get_sys p (map_context (λ _, c) k) = Done s →
  f (map_context (λ _, c) k) s = Done (Return n, s') →
  ∃ k', __interrupt qemu g info del 8 c k = Done (Resume, next_pc (set_a0 n c), k') ∧
    context k' = next_pc (set_a0 n c) ∧ kmem (k_sched k') = um_mem (umem s') ∧
    k_table k' = table s' ∧ k_pipes k' = pipes s' ∧ k_vfs k' = vfs s' ∧
    ∃ p', running (k_sched k') = Some p' ∧ pid p' = pid p ∧
      ∀ c', CalculateTableBaseBySatp (c_satp c') = um_table (umem s') → get_sys p' (map_context (λ _, c') k') = Done s'.
Proof.
  intros Hl Hid Hne H7 Hr Hs Hf. unfold __interrupt. rewrite H7, (proj2 (Z.eqb_neq _ _) Hne). unfold handle_interrupt.
  cbn [Z.land Pos.land Pos.Nsucc_double Pos.Ndouble N.succ_double N.double Z.of_N]. unfold syscall, syscall_distribute.
  assert (s32 (a_ 7 (map_context (λ _, c) k)) = id) as ->.
  { change (a_ 7 (map_context (λ _, c) k)) with (reg 7 c). rewrite H7. apply s32_id. unfold SYSCALL_LIST_LENGTH in Hid. lia. }
  rewrite (proj2 (Z.leb_le _ _)), (proj2 (Z.ltb_lt _ _)) by lia. cbn [andb]. rewrite Hl. unfold on_files, current.
  change (running (k_sched (map_context (λ _, c) k))) with (running (k_sched k)). rewrite Hr. cbn [obind]. rewrite Hs. cbn [obind].
  rewrite Hf. cbn [obind]. eexists. split; [done|]. split_and!; [done..|].
  eexists. split; [done|]. split; [done|]. intros c' Hc'. unfold get_sys. cbn [map_context put_sys set_sched k_binds occupied_file_describer set_files_of].
  unfold get_sys in Hs. destruct (k_binds (map_context (λ _, c) k) !! _) as [bnd|] eqn:Eb; [|done].
  rewrite list_lookup_insert_eq by (by eapply lookup_lt_Some). f_equal. unfold user_memory, table_base. cbn. rewrite Hc'.
  by destruct s' as [? ? ? [? ?] ? ? ? ?].
Qed.

(** C10: What a process writes to a file it reads back, through the whole
    kernel: the traps of [write], [lseek] and [read] each resume the process
    after the call with the number of bytes, the position and the number of
    bytes in a0; afterwards the bytes of the source buffer are in the target
    buffer, seen through its page table, and the rest of the memory region
    [R], descriptors, pipes and the tree of files are as before.  Less than
    all bytes are written only to a full disk. *)
Theorem trap_write_lseek_read R k p s c1 c2 c3 a0 fd d a path T b fp l src dst count :
  running (k_sched k) = Some p → length (c_regs c1) = 32%nat → length (c_regs c2) = 32%nat → length (c_regs c3) = 32%nat →
  c_satp c2 = c_satp c1 → c_satp c3 = c_satp c1 →
  get_sys p (map_context (λ _, with_call 64 a0 src count c1) k) = Done s →
  sysGetRealFd (s32 a0) s = Done fd → slot fd (table s) = Done (Some d) → is_pipe_ d = false →
  GetFile fd (table s) = Done (a, path) →
  tree_ok (vfs s) T → components [] path ≠ [] → vfs_lookup (components [] path) T = Some (b, FatFs) →
  get_fil path (fat (vfs s)) = Done fp → wf (volume (vfs s)) → reliable (volume (vfs s)) → sane (volume (vfs s)) →
  valid_fil (volume (vfs s)) fp → fil_ok (volume (vfs s)) fp l →
  zbits (flag fp) FA_WRITE = true → zbits (flag fp) FA_READ = true →
  region_ok R (umem s) → (∀ i, 0 <= i < count → R (src + i) ∧ R (dst + i)) →
  0 <= count < 2 ^ 31 → fptr fp + count < 2 ^ 31 →
  ∃ n k1 k2 k3,
    let w := with_call 64 a0 src count c1 in
    let q := with_call 62 a0 (fptr fp) 0 c2 in
    let r := with_call 63 a0 dst n c3 in
    __interrupt qemu g info del 8 w k = Done (Resume, next_pc (set_a0 n w), k1) ∧
    __interrupt qemu g info del 8 q k1 = Done (Resume, next_pc (set_a0 (fptr fp) q), k2) ∧
    __interrupt qemu g info del 8 r k2 = Done (Resume, next_pc (set_a0 n r), k3) ∧
    0 <= n <= count ∧ (n < count → full (volume (k_vfs k1))) ∧
    (∀ i, 0 <= i < n → uload (user_memory k3) (dst + i) = uload (umem s) (src + i)) ∧
    (∀ x, R x → ¬ (dst <= x < dst + n) → uload (user_memory k3) x = uload (umem s) x) ∧
    k_table k3 = table s ∧ k_pipes k3 = pipes s ∧ tree_ok (k_vfs k3) T.
Proof.
  intros Hr L1 L2 L3 S2 S3 Hs Hfd Hsl Hp Hget Hok Hc Hl Hfil Hwf HR Hsane Hval Hf Hw Hrd Hm Hreg Hcount Hfit.
  destruct (sys_write_lseek_read R s a0 fd d a path T b fp l src dst count)
    as (n & s1 & s2 & s3 & E1 & E2 & E3 & Hn & Hfull & U1 & U2 & [bs U3] & Hin & Hout & _ & Ht & Hps & Htree & _); try done.
  assert (um_table (umem s) = CalculateTableBaseBySatp (c_satp c1)) as Hbase.
  { unfold get_sys in Hs. destruct (k_binds _ !! _); [|done]. by injection Hs as <-. }
  assert (um_table (umem s3) = um_table (umem s)) as Hb3 by (by apply obind_done in U3 as (m & _ & [= <-])).
  destruct (with_call_regs 64 a0 src count c1 L1) as (W0 & W1 & W2 & W7).
  destruct (trap_file_call 64 (λ k, sys_write (a_ 0 k) (a_ 1 k) (a_ 2 k)) _ k p s n s1 eq_refl ltac:(done) ltac:(done) W7 Hr Hs)
    as (k1 & T1 & _ & _ & _ & _ & V1 & p1 & R1 & _ & G1).
  { unfold a_. change (context (map_context (λ _, ?c) _)) with c. by rewrite W0, W1, W2. }
  destruct (with_call_regs 62 a0 (fptr fp) 0 c2 L2) as (Q0 & Q1 & Q2 & Q7).
  destruct (trap_file_call 62 (λ k, sys_lseek (a_ 0 k) (a_ 1 k) (a_ 2 k)) _ k1 p1 s1 (fptr fp) s2 eq_refl ltac:(done) ltac:(done) Q7 R1)
    as (k2 & T2 & _ & _ & _ & _ & _ & p2 & R2 & _ & G2).
  { apply G1. cbn [with_call c_satp]. by rewrite S2, U1. }
  { unfold a_. change (context (map_context (λ _, ?c) _)) with c. by rewrite Q0, Q1, Q2. }
  destruct (with_call_regs 63 a0 dst n c3 L3) as (X0 & X1 & X2 & X7).
  destruct (trap_file_call 63 (λ k, sys_read (a_ 0 k) (a_ 1 k) (a_ 2 k)) _ k2 p2 s2 n s3 eq_refl ltac:(done) ltac:(done) X7 R2)
    as (k3 & T3 & C3 & M3 & F3 & P3 & V3 & _).
  { apply G2. cbn [with_call c_satp]. by rewrite S3, U2. }
  { unfold a_. change (context (map_context (λ _, ?c) _)) with c. by rewrite X0, X1, X2. }
  assert (user_memory k3 = umem s3) as Hu.
  { unfold user_memory, table_base. rewrite C3, M3. cbn [next_pc set_a0 with_call c_satp]. rewrite S3, <- Hbase, <- Hb3. by destruct (umem s3). }
  exists n, k1, k2, k3. cbv zeta. rewrite Hu, F3, P3, V3, V1. split_and!; auto; lia.
Qed.

End traps.

(** * A process with a page of heap *)

Lemma ex_heap : ∃ base m pg rest, window base BRK_VIRT_BEGIN 2000 [pg] m rest.
Proof.
  destruct ex_break as (a & s & base & Hok & Hn).
  destruct (brk_first_spec _ s [a] Hok) as (b1 & s1 & new1 & _ & [[W1 K1 I1] T1 El1 _ _] & _ & _ & L1); [simpl; lia|].
  cbn in L1, El1, T1. destruct new1 as [|pg [|]]; try discriminate L1. rewrite T1, El1 in W1. eauto.
Qed.

Lemma table_of_satp base T m rest : pt_rep m base T rest → CalculateTableBaseBySatp (base / 4096) = base.
Proof.
  intros Hr. destruct (pool_page _ _ base (pr_pool _ _ _ _ Hr)) as [Ha Hb].
  { apply (pool_owned_in _ _ _ (pr_pool _ _ _ _ Hr)). apply elem_of_app. left. apply root_page. }
  unfold CalculateTableBaseBySatp. rewrite Z.shiftl_mul_pow2 by lia. rewrite u64_small; Z.div_mod_to_equations; lia.
Qed.

Lemma trap_write_lseek_read_witness :
  ∃ satp m n k1 k2 k3,
    let w := with_call 64 3 BRK_VIRT_BEGIN 4 (ex_context satp) in
    let q := with_call 62 3 0 0 (ex_context satp) in
    let r := with_call 63 3 (BRK_VIRT_BEGIN + 100) n (ex_context satp) in
    __interrupt true ex_globals ex_info ex_del 8 w (ex_kernel ex_vfs satp m) = Done (Resume, next_pc (set_a0 n w), k1) ∧
    __interrupt true ex_globals ex_info ex_del 8 q k1 = Done (Resume, next_pc (set_a0 0 q), k2) ∧
    __interrupt true ex_globals ex_info ex_del 8 r k2 = Done (Resume, next_pc (set_a0 n r), k3).
Proof.
  destruct ex_heap as (base & m & pg & rest & W). pose proof W as [[T Hr] _ _ _].
  exists (base / 4096), m.
  destruct (trap_write_lseek_read true ex_globals ex_info ex_del (λ x, BRK_VIRT_BEGIN <= x < BRK_VIRT_BEGIN + 4096)
    (ex_kernel ex_vfs (base / 4096) m) (ex_pcb 2 1 (base / 4096))
    (mkSys ex_fd_table ex_pipes ex_vfs (mkUMem (CalculateTableBaseBySatp (base / 4096)) m) [47] [] 0 0)
    (ex_context (base / 4096)) (ex_context (base / 4096)) (ex_context (base / 4096)) 3 3 (mkDescriber RW 1 1 false) 1 [47; 97]
    ex_tree 2 ex_fil ex_chain BRK_VIRT_BEGIN (BRK_VIRT_BEGIN + 100) 4
    eq_refl eq_refl eq_refl eq_refl eq_refl eq_refl eq_refl eq_refl eq_refl eq_refl eq_refl ex_tree_ok ltac:(discriminate)
    eq_refl eq_refl ex_wf ex_reliable ex_sane ex_valid_fil ex_fil_ok eq_refl eq_refl)
    as (n & k1 & k2 & k3 & E1 & E2 & E3 & _).
  - exists BRK_VIRT_BEGIN, 2000, [pg], rest. split; [by rewrite (table_of_satp _ _ _ _ Hr)|]. split; [reflexivity|].
    intros x Hx. unfold zlen. cbn [length]. lia.
  - intros i Hi. lia.
  - lia.
  - change (fptr ex_fil) with 0. lia.
  - exists n, k1, k2, k3. exact (conj E1 (conj E2 E3)).
Defined.
